(* ===== verification/_CoqProject ===== *)
-Q . S2P
Prelude.v
Memory.v
TlsfBits.v
Tlsf.v
TlsfInv.v
TlsfSplit.v
TlsfLists.v
TlsfFree.v
TlsfOps.v
TlsfBlocks.v
TlsfMerge.v
TlsfMain.v
TlsfRealloc.v
TlsfAlign.v
TlsfInit.v
TlsfCheck.v
KHeap.v
TlsfProps.v
Pmm.v
Vmm.v
KString.v
KStdlib.v
KStdio.v
Io.v
Pic.v
Gdt.v
Apic.v
Interrupts.v
Keyboard.v
Pci.v
Arith.v
Ata.v
AtaDisk.v
AtaProps.v
Atapi.v
KPrintf.v
Time.v
TimeProps.v
Shell.v
ShellProps.v
Serial.v
LogInfo.v
Sata.v
SataHba.v
SataProps.v
SataRun.v
SataPacket.v
SataDemo.v
Storage.v
StorageProps.v
Ehci.v
EhciMem.v
EhciHc.v
EhciBulk.v
EhciPipe.v
EhciMsd.v
EhciRead.v
EhciControl.v
EhciDemo.v
Riscv.v
RiscvIsa.v
RiscvProps.v
Simulation.v
Board.v
Boot.v
BootMem.v
Kernel.v
TermTables.v
Term.v
TermSim.v
TermFb.v
TermScreen.v
TermPixels.v
TermQueue.v
TermFlush.v
TermShow.v
TermSafe.v
TermSetup.v
TermText.v
TermProps.v
