(* ===== verification/Prelude.v ===== *)
(** * VNiX kernel: verification development

    A shallow embedding of the x86-64 kernel under [src/] and the theorems that
    make its parts correct.  This file is the root: it documents the whole and
    holds the shared vocabulary.

    ** The program

    A monolithic kernel in C.  At boot it initialises the frame allocator from
    the boot loader's memory map, gives a static buffer to the TLSF heap, loads
    its segment and interrupt tables, routes interrupts through the APIC (or
    the two 8259 chips), and enumerates the PCI bus; drivers and the shell run
    on top of a small C library.

    ** Files, components and their sources

    - [Prelude]: machine integers ([wrap], [swrap]), the state and failure monad
      [M] with its weakest precondition [wp], bit masks as arithmetic.
    - [Memory]: byte-addressed memory, little-endian loads and stores; [memcpy],
      [memmove], [memset], [memcmp_const] of [klibc/string.c].  [KString]: the
      string functions of the same file.
    - [TlsfBits]: constants, bit scans, alignment and size classes of
      [mm/heapalloc/tlsf.c]; [Tlsf]: the allocator itself, one definition per
      function of the file.  [TlsfInv]: the heap invariant [heap_ok s B] for a
      list [B] of physical blocks per pool; [TlsfSplit] .. [TlsfCheck]: the
      specification of each operation against it; [TlsfProps]: the theorems a
      client reads.
    - [KHeap]: [malloc], [free], [calloc], [realloc] of [klibc/stdlib.c] and
      [init_heap] of [kernel/kernel.c] over an interface of allocators, and the
      abstract heap (a map of live blocks) they refine.
    - [Pmm]: [mm/pmm.c], the free list threaded through the frames.
    - [Vmm]: [mm/vmm.c], four-level page tables built from those frames.
    - [KStdlib]: number conversion, searching and sorting of [klibc/stdlib.c].
    - [KStdio]: [vsprintf] and [printf] of [klibc/stdio.c].
    - [Io]: port, MSR and memory-mapped access ([arch/x86_64/io.c], [io.h]) as
      the class [Bus] every driver is written over, and the linked lists of
      [io.h].
    - [Pic]: [drivers/pic/pic.c] with a model of the two 8259 chips as a [Bus].
    - [Gdt]: [arch/x86_64/gdt.c].
    - [Apic]: [drivers/pic/apic/] with a model of local and I/O APIC as a [Bus],
      and the I/O APIC set-up of [kernel/shell/keyboard.c].
    - [Interrupts]: [idt.c], [isr.c], [isrs_gen.c], [pic_irq.c] and the handlers
      of [apic_irq.c].
    - [Keyboard]: [kernel/shell/keyboard.c] with a PS/2 controller as a [Bus].
    - [Pci]: [drivers/pci/pci.c] with a configuration space as a [Bus].
    - [Arith]: [klibc/limits.c], the division routines of [tools/math.c],
      [tools/includes/endian.h].
    - [Ata]: [drivers/storage/ata.c]; [AtaDisk]: a drive on the channel as a
      [Bus]; [AtaProps]: transfers, errors and what reaches the platter.
    - [KPrintf]: the text a format denotes for [printf].
    - [Time]: [tools/pit.c], [kernel/time/tsc.c] and [time.c]; [TimeProps]: a timer
      chip and a time stamp counter whose accesses take time.
    - [Shell]: [kernel/shell/shell.c]; [ShellProps]: its transcript.
    - [Serial]: [tools/serial.c] with a UART as a [Bus].
    - [Atapi]: [drivers/storage/atapi.c] and the packets of [scsi.h], over the
      packet device of [AtaDisk].

    - [LogInfo]: [tools/log-info.c], the log messages.
    - [Sata]: [drivers/storage/sata.c]; [SataHba]: an AHCI port with a drive that
      moves data to and from the driver's memory; [SataProps], [SataRun],
      [SataPacket]: the command structures, the transfers and their errors;
      [SataDemo]: a concrete machine.
    - [Storage]: [drivers/storage/storage.c] and [stinit.c] over the three disk
      drivers; [StorageProps]: what a caller reads, what gets registered.
    - [Ehci]: [drivers/hci/ehci.c]; [EhciMem]: its frames and the structures in
      them; [EhciHc]: a controller that walks its schedule while time passes;
      [EhciBulk], [EhciPipe]: bulk transfers by what the device answers;
      [EhciMsd], [EhciRead]: a bulk-only device and the read of a sector;
      [EhciControl]: control transfers and enumeration; [EhciDemo]: a concrete
      machine.
    - [Riscv]: [drivers/emul/rv_vm.h]; [RiscvIsa]: the RV32IM reference, its
      encodings and their decoding; [RiscvProps]: the emulator follows it.
    - [Simulation]: forward simulation between computations, which carries a
      theorem over to a larger system or from a specification to its
      implementation.
    - [Board]: the interrupt controllers and the keyboard controller on one bus;
      [Boot]: the interrupt part of [kernel/kernel.c] and the path of a key from
      the I/O APIC to [getc]; [BootMem]: its memory part and the self-tests;
      [Kernel]: the start-up sequence over the states of all parts.
    - [TermTables], [Term]: [kernel/terminal/src/flanterm.c], the terminal's
      state machine over the class [Backend] of function pointers; [TermFb]:
      [flanterm_backends/fb.c], the frame buffer back end and its initialisation
      the way [kernel/kernel.c] asks for it.  [TermScreen]: the screen a back end
      promises; [TermSim]: the terminal over two back ends; [TermPixels] (a
      cell), [TermQueue] (the queue), [TermFlush] (drawing), [TermShow]: the
      frame buffer implements the screen; [TermSafe]: no byte stops the terminal;
      [TermSetup]: it comes up; [TermText]: characters, text, cursor positioning;
      [TermProps]: the theorems a reader looks for.

    ** How state and operations correspond

    C functions that touch memory are functions on [gmap Z Z] (bytes by
    address) or computations of [M] over a record with one field per global
    variable.  [None] is a machine that stopped: a failed [assert] (which spins
    on [hlt]) or an index outside of a C array.  Device accesses are operations
    of the class [Bus]; the driver theorems are proved for an executable model
    of the device.  Integers are [Z] with the C type's wrap-around written out
    where a value can leave its range.

    ** What the theorems show

    - Heap: the TLSF operations keep the invariant, never trip an assertion and
      meet their contracts for the sizes the statements name; the [malloc] family
      refines the abstract heap.  The heap may lie anywhere in the 64-bit address
      space: the kernel's is an array linked at its top.
    - Frames and page tables: the free list holds exactly the usable frames,
      and mapping or unmapping a page changes that page's translation only.
    - Library: conversions round-trip, the string functions match their
      reference definitions and stay inside of their buffers, [vsprintf]
      prints the text its directives denote.
    - Devices and interrupts: after the kernel's set-up sequence the modelled
      device is in the state the hardware manual asks for, interrupts reach
      their driver, and key strokes come out of [getc] as the characters the US
      layout (written down from the key caps in [Keyboard]) labels them with, for
      any timing that lets [getc] once around its table after a press and after
      a release.  The enumeration of the PCI bus reports what the configuration
      space says, over any drivers that leave that space as they found it.
    - Console: [printf] shows the text its header documents as long as the
      numbers fit, [serial_printf] and the log show the text of their formats;
      the shell answers every typed line with the reply of its command, the
      counters of [pmmstats] included; [panic] and [uptime] are left out.
    - Terminal: for every screen within stated limits the terminal comes up
      within its static pool, and whatever bytes are written from then on, no
      index leaves an array, every loop ends, and each dot of the screen is the
      one the specification of the screen asks for; on the kernel's own set-up
      these are the pixels at the address, with the pitch and in the colour
      format the boot loader reports.
    - Clocks: calibration is accurate on machines that pass the kernel's timer
      test, and delays last what the theorems say.
    - Disks: what the ATA driver writes it reads back, in both address widths
      and with the chunking of long requests, and nothing else changes; the
      packet driver delivers the blocks of the disc and its capacity.  The AHCI
      driver writes the command structures its standard asks for, and gives its
      command memory back when the engine does not stop.  What its reads deliver
      is shown as lemmas of [SataRun] and [SataPacket] under conditions on the
      bus (addresses as the driver passes them, an aligned command block) that
      the kernel's heap does not guarantee: see the findings.  The storage
      manager's reads of the PIO drives refine one block device.
    - USB: a bulk transfer moves exactly what the device gives or takes, or ends
      in time, and leaves frames and schedule as they were; a sector read over
      the bulk-only protocol delivers the sector, with the buffer in one page.
      Control transfers are written without the active bit; on a controller that
      leaves the driver's frames alone the enumeration therefore fails.
    - Emulation: a step of the RISC-V emulator, and any run of them, is that of
      the reference on the instructions it supports.
    - Start-up: the initialisation sequence leaves every part in the state its
      theorems start from, whatever the boot loader's page tables are; threading
      the free list changes only the links in the usable frames, so that tables
      outside of them are not touched; typed keys reach [getc] through the
      hardware and the tables the sequence has set up.
    - The theorems named in the findings show where the code departs from its
      comments or its purpose.

    ** Fuel

    Loops that are not structural take a fuel argument.  Every theorem about one
    states how much is enough (the length of the string plus one, 33 steps for a
    32-bit number, the number of blocks of the heap, ...) and that the result is
    then produced; running out is [None], never a wrong value.  The loops of the
    terminal run over its columns and rows, and that is their fuel.

    ** Not modelled

    The vendored boot loader files (limine); the callbacks of the terminal
    (recorded, not run); log lines and serial traces inside of other functions; single machine
    instructions without modelled state ([hlt], [cli], [sti], [cpuid], [invlpg],
    [clflush]); x87 floating point of [math.c]; the file system headers, which
    nothing implements; and the calls of [kernel_main] around the initialisation
    sequence (the banner, [storage_init], the PCI enumeration and the shell),
    which are modelled with their own components only. *)

From stdpp Require Import prelude gmap list numbers tactics.

#[global] Open Scope Z_scope.

(** ** Machine integers

    A [w]-bit unsigned C value is a [Z] in [0, 2^w); every C operation that may
    leave that range is followed by [wrap w].  [swrap w] is the conversion to a
    [w]-bit two's complement value. *)

Definition wrap (w x : Z) : Z := x mod 2 ^ w.
Definition swrap (w x : Z) : Z := (x + 2 ^ (w - 1)) mod 2 ^ w - 2 ^ (w - 1).

Abbreviation u8 := (wrap 8).
Abbreviation u16 := (wrap 16).
Abbreviation u32 := (wrap 32).
Abbreviation u64 := (wrap 64).
Abbreviation s8 := (swrap 8).
Abbreviation s16 := (swrap 16).
Abbreviation s32 := (swrap 32).
Abbreviation s64 := (swrap 64).

(** C's [~x] at width [w] and the boolean value of an integer condition. *)
Definition cnot (w x : Z) : Z := wrap w (Z.lnot x).
Definition truthy (x : Z) : bool := negb (x =? 0).

Lemma wrap_small w x : 0 <= x < 2 ^ w → wrap w x = x.
Proof. intros. unfold wrap. by apply Z.mod_small. Qed.

Lemma wrap_range w x : 0 <= w → 0 <= wrap w x < 2 ^ w.
Proof. intros. unfold wrap. apply Z.mod_pos_bound. by apply Z.pow_pos_nonneg. Qed.

Lemma wrap_wrap w x : wrap w (wrap w x) = wrap w x.
Proof. unfold wrap. by rewrite Zmod_mod. Qed.

Lemma wrap_add_l w x y : wrap w (wrap w x + y) = wrap w (x + y).
Proof. unfold wrap. by rewrite Zplus_mod_idemp_l. Qed.

Lemma wrap_add_r w x y : wrap w (x + wrap w y) = wrap w (x + y).
Proof. unfold wrap. by rewrite Zplus_mod_idemp_r. Qed.

Lemma swrap_small w x : 0 < w → - 2 ^ (w - 1) <= x < 2 ^ (w - 1) → swrap w x = x.
Proof.
  intros Hw Hx. unfold swrap.
  assert (2 ^ w = 2 * 2 ^ (w - 1)) as E.
  { rewrite <- Z.pow_succ_r by lia. f_equal. lia. }
  rewrite Z.mod_small; lia.
Qed.

Lemma swrap_cong w x y : x mod 2 ^ w = y mod 2 ^ w → swrap w x = swrap w y.
Proof.
  intros H. unfold swrap. f_equal. by rewrite <- Zplus_mod_idemp_l, H, Zplus_mod_idemp_l.
Qed.

Lemma swrap_mod w x : swrap w x mod 2 ^ w = x mod 2 ^ w.
Proof. unfold swrap. rewrite Zminus_mod_idemp_l. f_equal. lia. Qed.

Lemma wrap_swrap w x : wrap w (swrap w x) = wrap w x.
Proof. apply swrap_mod. Qed.

Lemma swrap_range w x : 0 < w → - 2 ^ (w - 1) <= swrap w x < 2 ^ (w - 1).
Proof.
  intros Hw. unfold swrap. assert (2 ^ w = 2 * 2 ^ (w - 1)) as E.
  { rewrite <- Z.pow_succ_r by lia. f_equal. lia. }
  pose proof (Z.mod_pos_bound (x + 2 ^ (w - 1)) (2 ^ w) ltac:(apply Z.pow_pos_nonneg; lia)). lia.
Qed.

Lemma swrap_mul_add w x b d : swrap w (swrap w x * b + d) = swrap w (x * b + d).
Proof.
  apply swrap_cong. rewrite <- Zplus_mod_idemp_l, <- Zmult_mod_idemp_l, swrap_mod.
  by rewrite Zmult_mod_idemp_l, Zplus_mod_idemp_l.
Qed.

Lemma truthy_true x : truthy x = true ↔ x ≠ 0.
Proof. unfold truthy. rewrite negb_true_iff, Z.eqb_neq. done. Qed.

Lemma truthy_false x : truthy x = false ↔ x = 0.
Proof. unfold truthy. rewrite negb_false_iff, Z.eqb_eq. done. Qed.

(** [lia] with the division equations of the context and the goal. *)
Ltac zlia := Z.div_mod_to_equations; lia.

(** ** Booleans of the code to propositions *)

Ltac boolprop_step :=
  match goal with
  | H : _ && _ = true |- _ => apply andb_true_iff in H as [? ?]
  | H : _ || _ = false |- _ => apply orb_false_iff in H as [? ?]
  | H : _ && _ = false |- _ => apply andb_false_iff in H
  | H : _ || _ = true |- _ => apply orb_true_iff in H
  | H : negb _ = true |- _ => apply negb_true_iff in H
  | H : negb _ = false |- _ => apply negb_false_iff in H
  | H : truthy _ = true |- _ => apply truthy_true in H
  | H : truthy _ = false |- _ => apply truthy_false in H
  | H : (_ =? _) = true |- _ => apply Z.eqb_eq in H
  | H : (_ =? _) = false |- _ => apply Z.eqb_neq in H
  | H : (_ <? _) = true |- _ => apply Z.ltb_lt in H
  | H : (_ <? _) = false |- _ => apply Z.ltb_ge in H
  | H : (_ <=? _) = true |- _ => apply Z.leb_le in H
  | H : (_ <=? _) = false |- _ => apply Z.leb_gt in H
  | H : bool_decide _ = true |- _ => apply bool_decide_eq_true in H
  | H : bool_decide _ = false |- _ => apply bool_decide_eq_false in H
  end.
Ltac boolprop := repeat boolprop_step.

(** Case on the scrutinee of the first [if] of the goal and reflect it. *)
Ltac case_if :=
  match goal with
  | |- context [if ?b then _ else _] => let E := fresh "E" in destruct b eqn:E; boolprop
  end.

(** ** A state and failure monad

    [M S A] is a computation over state [S].  [None] is a computation that
    stops the machine: a failed [assert] (the kernel's [__assert_fail] spins on
    [hlt]), an access outside of an array, or an explicit [halt()]. *)

Definition M (S A : Type) : Type := S → option (A * S).

Definition mret {S A} (a : A) : M S A := λ s, Some (a, s).
Definition bind {S A B} (c : M S A) (k : A → M S B) : M S B := λ s,
  match c s with
  | Some (a, s') => k a s'
  | None => None
  end.

Declare Scope c_scope.
Delimit Scope c_scope with c.
Notation "x ← y ; z" := (bind y (λ x, z))
  (at level 20, y at level 100, z at level 200, only parsing) : c_scope.
Notation "' x ← y ; z" := (bind y (λ x, z))
  (at level 20, x pattern, y at level 100, z at level 200, only parsing) : c_scope.
Notation "y ;; z" := (bind y (λ _, z))
  (at level 100, z at level 200, only parsing, right associativity) : c_scope.
#[global] Open Scope c_scope.

Definition mstop {S A} : M S A := λ _, None.
Definition gets {S A} (f : S → A) : M S A := λ s, Some (f s, s).
Definition modify {S} (f : S → S) : M S unit := λ s, Some (tt, f s).
Definition massert {S} (b : bool) : M S unit := if b then mret tt else mstop.
Definition mwhen {S} (b : bool) (c : M S unit) : M S unit := if b then c else mret tt.
Definition of_option {S A} (o : option A) : M S A :=
  match o with Some a => mret a | None => mstop end.

(** Total-correctness weakest precondition: the computation does not stop the
    machine and its result and final state satisfy [Q]. *)
Definition wp {S A} (c : M S A) (Q : A → S → Prop) (s : S) : Prop :=
  match c s with
  | Some (a, s') => Q a s'
  | None => False
  end.

Section wp_rules.
Context {S : Type}.
Implicit Types s : S.

Lemma wp_ret {A} (a : A) Q s : Q a s → wp (mret a) Q s.
Proof. done. Qed.

Lemma wp_bind {A B} (c : M S A) (k : A → M S B) Q s :
  wp c (λ a s', wp (k a) Q s') s → wp (bind c k) Q s.
Proof. unfold wp, bind. destruct (c s) as [[a s']|]; done. Qed.

Lemma wp_bind_inv {A B} (c : M S A) (k : A → M S B) Q s :
  wp (bind c k) Q s → wp c (λ a s', wp (k a) Q s') s.
Proof. unfold wp, bind. destruct (c s) as [[a s']|]; done. Qed.

Lemma wp_gets {A} (f : S → A) Q s : Q (f s) s → wp (gets f) Q s.
Proof. done. Qed.

Lemma wp_modify (f : S → S) Q s : Q tt (f s) → wp (modify f) Q s.
Proof. done. Qed.

Lemma wp_massert (b : bool) Q s : b = true → Q tt s → wp (massert b) Q s.
Proof. by intros ->. Qed.

Lemma wp_mono {A} (c : M S A) (P Q : A → S → Prop) s :
  wp c P s → (∀ a s', P a s' → Q a s') → wp c Q s.
Proof. unfold wp. destruct (c s) as [[a s']|]; naive_solver. Qed.

Lemma wp_of_option {A} (o : option A) (a : A) Q s :
  o = Some a → Q a s → wp (of_option o) Q s.
Proof. by intros ->. Qed.

Lemma wp_run {A} (c : M S A) Q s :
  wp c Q s ↔ ∃ a s', c s = Some (a, s') ∧ Q a s'.
Proof.
  unfold wp. destruct (c s) as [[a s']|]; [|naive_solver].
  split; [eauto | naive_solver].
Qed.
End wp_rules.

(** Consequence from an already proved specification. *)
Ltac wp_use H := eapply wp_mono; [eapply H | cbv beta].

Ltac wp_step :=
  match goal with
  | |- wp (bind _ _) _ _ => apply wp_bind
  | |- wp (mret _) _ _ => apply wp_ret
  | |- wp (gets _) _ _ => apply wp_gets
  | |- wp (modify _) _ _ => apply wp_modify
  | |- wp (let _ := _ in _) _ _ => cbv zeta
  end; cbv beta.
Ltac wp_steps := repeat wp_step.

(** ** Bit masks as arithmetic

    The code masks with [2^n - 1], its complement, and single bits; the lemmas
    turn the bitwise form into division and remainder, which [lia] handles. *)

Lemma land_ones_mod x n : 0 <= n → Z.land x (2 ^ n - 1) = x mod 2 ^ n.
Proof.
  intros Hn. rewrite <- Z.land_ones by done. f_equal.
  rewrite Z.ones_equiv. lia.
Qed.

(** A field of [k] bits from bit [n] on. *)
Lemma land_field x n k mask : 0 <= n → 0 <= k → mask = 2 ^ k - 1 → Z.land (Z.shiftr x n) mask = x / 2 ^ n mod 2 ^ k.
Proof. intros Hn Hk ->. rewrite Z.shiftr_div_pow2 by done. by apply land_ones_mod. Qed.

Lemma land_low x k mask : 0 <= k → mask = 2 ^ k - 1 → Z.land x mask = x mod 2 ^ k.
Proof. intros Hk ->. by apply land_ones_mod. Qed.

Lemma land_lnot_ones x n : 0 <= n → Z.land x (Z.lnot (2 ^ n - 1)) = x - x mod 2 ^ n.
Proof.
  intros Hn. rewrite <- land_ones_mod by done. rewrite <- Z.ldiff_land.
  rewrite (Z.sub_nocarry_ldiff x (Z.land x (2 ^ n - 1))); apply Z.bits_inj'; intros i Hi;
    rewrite ?Z.ldiff_spec, ?Z.land_spec, ?Z.bits_0;
    by destruct (Z.testbit x i), (Z.testbit (2 ^ n - 1) i).
Qed.

Lemma cnot_spec w x : 0 <= x < 2 ^ w → cnot w x = 2 ^ w - 1 - x.
Proof.
  intros Hx. unfold cnot, wrap.
  replace (Z.lnot x) with (2 ^ w - 1 - x + (-1) * 2 ^ w) by (unfold Z.lnot; lia).
  rewrite Z_mod_plus_full. apply Z.mod_small. lia.
Qed.

(** [x & ~y] computed at width [w] is the unbounded one when [x] fits. *)
Lemma land_cnot w x y : 0 <= w → 0 <= x < 2 ^ w → Z.land x (cnot w y) = Z.land x (Z.lnot y).
Proof.
  intros Hw Hx. unfold cnot, wrap. rewrite <- Z.land_ones by done.
  rewrite (Z.land_comm (Z.lnot y)), Z.land_assoc, Z.land_ones by done.
  by rewrite Z.mod_small.
Qed.

Lemma land_align_down w x n :
  0 <= w → 0 <= n → 0 <= x < 2 ^ w → Z.land x (cnot w (2 ^ n - 1)) = x - x mod 2 ^ n.
Proof. intros. rewrite land_cnot by done. by apply land_lnot_ones. Qed.

Lemma testbit_b2z_pow2 x i : 0 <= i → Z.land x (2 ^ i) = if Z.testbit x i then 2 ^ i else 0.
Proof.
  intros Hi. apply Z.bits_inj'. intros k Hk. rewrite Z.land_spec, Z.pow2_bits_eqb by done.
  destruct (Z.eqb_spec i k) as [->|Hne].
  - rewrite andb_true_r. destruct (Z.testbit x k) eqn:E; [by rewrite Z.pow2_bits_true | by rewrite Z.bits_0].
  - rewrite andb_false_r. destruct (Z.testbit x i); [|by rewrite Z.bits_0].
    symmetry. by apply Z.pow2_bits_false.
Qed.

Lemma testbit_high n x i : 0 <= x < 2 ^ n → 0 <= n <= i → Z.testbit x i = false.
Proof.
  intros Hx Hi. destruct (Z.eq_dec x 0) as [->|]; [apply Z.bits_0|].
  apply Z.bits_above_log2; [lia|].
  apply Z.log2_lt_pow2; [lia|]. eapply Z.lt_le_trans; [apply Hx|].
  apply Z.pow_le_mono_r; lia.
Qed.

Lemma bits_zero n x : 0 <= n → 0 <= x < 2 ^ n → (∀ i, 0 <= i < n → Z.testbit x i = false) → x = 0.
Proof.
  intros Hn Hx H. apply Z.bits_inj_0. intros i.
  destruct (Z.lt_ge_cases i 0); [by apply Z.testbit_neg_r|].
  destruct (Z.lt_ge_cases i n); [by apply H|]. apply (testbit_high n); lia.
Qed.

Lemma land_range n x y : 0 <= n → 0 <= x < 2 ^ n → 0 <= Z.land x y < 2 ^ n.
Proof.
  intros Hn Hx. assert (Z.land x y = Z.land x y mod 2 ^ n) as ->.
  { apply Z.bits_inj'. intros i Hi. rewrite Z.testbit_mod_pow2 by done.
    destruct (Z.ltb_spec i n); [done|]. rewrite Z.land_spec, (testbit_high n x) by lia. done. }
  apply Z.mod_pos_bound. lia.
Qed.

Lemma lor_range n x y : 0 <= n → 0 <= x < 2 ^ n → 0 <= y < 2 ^ n → 0 <= Z.lor x y < 2 ^ n.
Proof.
  intros Hn Hx Hy. assert (Z.lor x y = Z.lor x y mod 2 ^ n) as ->.
  { apply Z.bits_inj'. intros i Hi. rewrite Z.testbit_mod_pow2 by done.
    destruct (Z.ltb_spec i n); [done|].
    rewrite Z.lor_spec, (testbit_high n x), (testbit_high n y) by lia. done. }
  apply Z.mod_pos_bound. lia.
Qed.

(** Disjoint bit fields add up. *)
Lemma lor_add n x y : 0 <= n → 0 <= x < 2 ^ n → Z.lor x (y * 2 ^ n) = x + y * 2 ^ n.
Proof.
  intros Hn Hx. rewrite Z.add_nocarry_lxor, Z.lxor_lor; try done;
  apply Z.bits_inj'; intros i Hi; rewrite Z.land_spec, Z.bits_0, <- Z.shiftl_mul_pow2, Z.shiftl_spec by lia;
  (destruct (Z.lt_ge_cases i n); [rewrite (Z.testbit_neg_r _ (i - n)) by lia; by rewrite andb_false_r
   | by rewrite (testbit_high n x) by lia]).
Qed.

(** ** Lists indexed by [Z], as C arrays: out of range is [None]. *)

Definition zlookup {A} (l : list A) (i : Z) : option A :=
  if 0 <=? i then l !! Z.to_nat i else None.
Definition zupdate {A} (l : list A) (i : Z) (x : A) : option (list A) :=
  if (0 <=? i) && (i <? Z.of_nat (length l)) then Some (<[Z.to_nat i := x]> l) else None.

Section zlists.
Context {A : Type}.
Implicit Types (l : list A) (i j : Z).

Lemma zlookup_Some l i : 0 <= i < Z.of_nat (length l) → ∃ x, zlookup l i = Some x.
Proof.
  intros Hi. unfold zlookup. destruct (Z.leb_spec 0 i); [|lia].
  apply lookup_lt_is_Some. lia.
Qed.

Lemma zlookup_range l i x : zlookup l i = Some x → 0 <= i < Z.of_nat (length l).
Proof.
  unfold zlookup. destruct (Z.leb_spec 0 i); [|done]. intros H1%lookup_lt_Some. lia.
Qed.

Lemma zupdate_Some l i x : 0 <= i < Z.of_nat (length l) → zupdate l i x = Some (<[Z.to_nat i := x]> l).
Proof. intros. unfold zupdate. by rewrite (proj2 (Z.leb_le _ _)), (proj2 (Z.ltb_lt _ _)) by lia. Qed.

Lemma zlookup_insert_eq l i x :
  0 <= i < Z.of_nat (length l) → zlookup (<[Z.to_nat i := x]> l) i = Some x.
Proof.
  intros. unfold zlookup. destruct (Z.leb_spec 0 i); [|lia].
  apply list_lookup_insert_eq. lia.
Qed.

Lemma zlookup_insert_ne l i j x :
  0 <= i → i ≠ j → zlookup (<[Z.to_nat i := x]> l) j = zlookup l j.
Proof.
  intros. unfold zlookup. destruct (Z.leb_spec 0 j); [|done].
  apply list_lookup_insert_ne. lia.
Qed.
End zlists.

Lemma zlookup_replicate {A} k (x y : A) i : zlookup (replicate k x) i = Some y → y = x.
Proof.
  unfold zlookup. destruct (0 <=? i); [|done]. intros H. by apply lookup_replicate in H as [-> _].
Qed.

Lemma zlookup_replicate_lt {A} k (x : A) i : 0 <= i < Z.of_nat k → zlookup (replicate k x) i = Some x.
Proof.
  intros Hi. unfold zlookup. rewrite (proj2 (Z.leb_le 0 i)) by lia. apply lookup_replicate_2. lia.
Qed.

Create HintDb vnix.
#[export] Hint Resolve wrap_range : vnix.
