(* ===== verification/Memory.v ===== *)
(** * Byte-addressed memory and the raw memory routines

    The kernel's memory as a finite map from addresses to byte values, with
    little-endian loads and stores of [n] bytes (x86-64).  An address the map
    does not hold reads as 0; every statement quantifies over the whole map,
    so nothing depends on that choice. *)

From stdpp Require Import prelude gmap list numbers tactics.
From S2P Require Import Prelude.

Definition load8 (m : gmap Z Z) (a : Z) : Z := default 0 (m !! a) mod 256.
Definition store8 (m : gmap Z Z) (a v : Z) : gmap Z Z := <[a := v mod 256]> m.

Fixpoint loadn (n : nat) (m : gmap Z Z) (a : Z) : Z :=
  match n with
  | O => 0
  | S n => load8 m a + 256 * loadn n m (a + 1)
  end.

Fixpoint storen (n : nat) (m : gmap Z Z) (a v : Z) : gmap Z Z :=
  match n with
  | O => m
  | S n => storen n (store8 m a v) (a + 1) (v / 256)
  end.

Abbreviation load16 := (loadn 2).
Abbreviation load32 := (loadn 4).
Abbreviation load64 := (loadn 8).
Abbreviation store16 := (storen 2).
Abbreviation store32 := (storen 4).
Abbreviation store64 := (storen 8).

Arguments loadn : simpl never.
Arguments storen : simpl never.

Section memory.
Implicit Types (m : gmap Z Z) (a b v : Z) (n : nat).

Lemma load8_range m a : 0 <= load8 m a < 256.
Proof. unfold load8. apply Z.mod_pos_bound. lia. Qed.

Lemma load8_store8_eq m a v : load8 (store8 m a v) a = v mod 256.
Proof. unfold load8, store8. rewrite lookup_insert_eq. simpl. by rewrite Zmod_mod. Qed.

Lemma load8_store8_ne m a b v : a ≠ b → load8 (store8 m a v) b = load8 m b.
Proof. intros. unfold load8, store8. by rewrite lookup_insert_ne. Qed.

Lemma load8_storen_out n m a b v :
  b < a ∨ a + Z.of_nat n <= b → load8 (storen n m a v) b = load8 m b.
Proof.
  revert m a v. induction n as [|n IH]; intros m a v H; [done|].
  change (storen (S n) m a v) with (storen n (store8 m a v) (a + 1) (v / 256)).
  rewrite IH by lia. apply load8_store8_ne. lia.
Qed.

Lemma loadn_ext n m m' a :
  (∀ i, a <= i < a + Z.of_nat n → load8 m i = load8 m' i) → loadn n m a = loadn n m' a.
Proof.
  revert a. induction n as [|n IH]; intros a H; [done|].
  change (load8 m a + 256 * loadn n m (a + 1) = load8 m' a + 256 * loadn n m' (a + 1)).
  rewrite (H a) by lia. rewrite (IH (a + 1)); [done|]. intros i Hi. apply H. lia.
Qed.

Lemma loadn_range n m a : 0 <= loadn n m a < 256 ^ Z.of_nat n.
Proof.
  revert a. induction n as [|n IH]; intros a; [done|].
  change (loadn (S n) m a) with (load8 m a + 256 * loadn n m (a + 1)).
  specialize (IH (a + 1)). pose proof (load8_range m a).
  rewrite Nat2Z.inj_succ, Z.pow_succ_r by lia. lia.
Qed.

Lemma loadn_storen_eq n m a v : loadn n (storen n m a v) a = v mod 256 ^ Z.of_nat n.
Proof.
  revert m a v. induction n as [|n IH]; intros m a v.
  { cbn. by rewrite Z.mod_1_r. }
  change (loadn (S n) ?m a) with (load8 m a + 256 * loadn n m (a + 1)).
  change (storen (S n) m a v) with (storen n (store8 m a v) (a + 1) (v / 256)).
  rewrite load8_storen_out by lia. rewrite load8_store8_eq, IH.
  rewrite Nat2Z.inj_succ, Z.pow_succ_r by lia.
  rewrite Z.rem_mul_r by (try apply Z.pow_nonzero; lia). done.
Qed.

Lemma loadn_storen_ne n k m a b v :
  b + Z.of_nat n <= a ∨ a + Z.of_nat k <= b → loadn n (storen k m a v) b = loadn n m b.
Proof. intros H. apply loadn_ext. intros i Hi. apply load8_storen_out. lia. Qed.

Lemma load64_range m a : 0 <= load64 m a < 2 ^ 64.
Proof. apply (loadn_range 8). Qed.

Lemma load64_store64_eq m a v : 0 <= v < 2 ^ 64 → load64 (store64 m a v) a = v.
Proof. intros. rewrite loadn_storen_eq. by apply Z.mod_small. Qed.

(** Aligned words either coincide or are disjoint. *)
Lemma load64_store64_ne m a b v :
  a mod 8 = 0 → b mod 8 = 0 → a ≠ b → load64 (store64 m a v) b = load64 m b.
Proof. intros. apply loadn_storen_ne. zlia. Qed.
End memory.

(** [same_outside P m m']: the memories agree on every byte outside of [P]. *)
Definition same_outside (P : Z → Prop) (m m' : gmap Z Z) : Prop :=
  ∀ x, ¬ P x → load8 m' x = load8 m x.

(** Two 64-bit words that do not overlap. *)
Definition apart (w v : Z) : Prop := w + 8 <= v ∨ v + 8 <= w.

Lemma load64_apart m a b v : apart b a → load64 (store64 m a v) b = load64 m b.
Proof. intros. apply loadn_storen_ne. unfold apart in *. lia. Qed.

Lemma same_outside_load64 P m m' w :
  same_outside P m m' → (∀ i, w <= i < w + 8 → ¬ P i) → load64 m' w = load64 m w.
Proof. intros HS HP. apply loadn_ext. intros i Hi. apply HS, HP. lia. Qed.

#[export] Hint Resolve load8_range load64_range : vnix.

(** ** klibc: raw memory routines ([klibc/string.c])

    [memcpy], [memmove], [memset] and [memcmp_const] over the byte memory, as
    the byte loops of the source, and what they do to the bytes they cover and
    to the others. *)

(** [while (n--) *d++ = *s++;] *)
Fixpoint memcpy_loop (n : nat) (m : gmap Z Z) (d s : Z) : gmap Z Z :=
  match n with
  | O => m
  | S n => memcpy_loop n (store8 m d (load8 m s)) (d + 1) (s + 1)
  end.
Definition memcpy (m : gmap Z Z) (dest src n : Z) : gmap Z Z :=
  memcpy_loop (Z.to_nat n) m dest src.

(** [for (i = n; i > 0; i--) d[i-1] = s[i-1];] *)
Fixpoint memmove_down (n : nat) (m : gmap Z Z) (d s : Z) : gmap Z Z :=
  match n with
  | O => m
  | S n => memmove_down n (store8 m (d + Z.of_nat n) (load8 m (s + Z.of_nat n))) d s
  end.
Definition memmove (m : gmap Z Z) (dst src n : Z) : gmap Z Z :=
  if dst <? src then memcpy m dst src n else memmove_down (Z.to_nat n) m dst src.

(** [while (num--) *p++ = (uint8_t)value;] *)
Fixpoint memset_loop (n : nat) (m : gmap Z Z) (p value : Z) : gmap Z Z :=
  match n with
  | O => m
  | S n => memset_loop n (store8 m p (u8 value)) (p + 1) value
  end.
Definition memset (m : gmap Z Z) (ptr value num : Z) : gmap Z Z :=
  memset_loop (Z.to_nat num) m ptr value.

(** Index of the first byte that differs from [val]; the result is
    [(int8_t)(s1[i] - val)], the C expression of the source. *)
Fixpoint memcmp_const_loop (n : nat) (m : gmap Z Z) (p val : Z) : Z :=
  match n with
  | O => 0
  | S n => if load8 m p =? val then memcmp_const_loop n m (p + 1) val
           else s8 (load8 m p - val)
  end.
Definition memcmp_const (m : gmap Z Z) (ptr1 val n : Z) : Z :=
  memcmp_const_loop (Z.to_nat n) m ptr1 val.

Section lemmas.
Implicit Types (m : gmap Z Z) (a d s x : Z).

Lemma memcpy_loop_out n m d s x :
  x < d ∨ d + Z.of_nat n <= x → load8 (memcpy_loop n m d s) x = load8 m x.
Proof.
  revert m d s. induction n as [|n IH]; intros m d s Hx; [done|]. cbn.
  rewrite IH by lia. apply load8_store8_ne. lia.
Qed.

(** Forward copying is right when the destination does not start inside of
    the source range: no byte is overwritten before it is read. *)
Lemma memcpy_loop_in n m d s x :
  d <= s ∨ s + Z.of_nat n <= d → d <= x < d + Z.of_nat n →
  load8 (memcpy_loop n m d s) x = load8 m (s + (x - d)).
Proof.
  revert m d s. induction n as [|n IH]; intros m d s Ho Hx; [lia|]. cbn.
  destruct (Z.eq_dec x d) as [->|].
  - rewrite memcpy_loop_out by lia. rewrite load8_store8_eq, Z.mod_small by apply load8_range.
    f_equal. lia.
  - rewrite IH by lia. rewrite load8_store8_ne by lia. f_equal. lia.
Qed.

Lemma memmove_down_out n m d s x :
  x < d ∨ d + Z.of_nat n <= x → load8 (memmove_down n m d s) x = load8 m x.
Proof.
  revert m. induction n as [|n IH]; intros m Hx; [done|]. cbn.
  rewrite IH by lia. apply load8_store8_ne. lia.
Qed.

Lemma memmove_down_in n m d s x :
  s <= d → d <= x < d + Z.of_nat n →
  load8 (memmove_down n m d s) x = load8 m (s + (x - d)).
Proof.
  revert m. induction n as [|n IH]; intros m Ho Hx; [lia|]. cbn.
  destruct (Z.eq_dec x (d + Z.of_nat n)) as [->|].
  - rewrite memmove_down_out by lia. rewrite load8_store8_eq, Z.mod_small by apply load8_range.
    f_equal. lia.
  - rewrite IH by lia. destruct (Z.eq_dec d s) as [->|].
    + destruct (Z.eq_dec (s + (x - s)) (s + Z.of_nat n)); [lia|]. by rewrite load8_store8_ne by lia.
    + apply load8_store8_ne. lia.
Qed.

Lemma memset_loop_out n m p v x :
  x < p ∨ p + Z.of_nat n <= x → load8 (memset_loop n m p v) x = load8 m x.
Proof.
  revert m p. induction n as [|n IH]; intros m p Hx; [done|]. cbn.
  rewrite IH by lia. apply load8_store8_ne. lia.
Qed.

Lemma memset_loop_in n m p v x :
  p <= x < p + Z.of_nat n → load8 (memset_loop n m p v) x = u8 v.
Proof.
  revert m p. induction n as [|n IH]; intros m p Hx; [lia|]. cbn.
  destruct (Z.eq_dec x p) as [->|]; [|by apply IH; lia].
  rewrite memset_loop_out by lia. rewrite load8_store8_eq. apply Z.mod_small.
  apply wrap_range. lia.
Qed.

Lemma memcpy_spec m dest src n :
  0 <= n → dest <= src ∨ src + n <= dest →
  (∀ i, 0 <= i < n → load8 (memcpy m dest src n) (dest + i) = load8 m (src + i)) ∧
  (∀ x, x < dest ∨ dest + n <= x → load8 (memcpy m dest src n) x = load8 m x).
Proof.
  intros Hn Ho. unfold memcpy. split; intros.
  - rewrite memcpy_loop_in by lia. f_equal. lia.
  - apply memcpy_loop_out. lia.
Qed.
End lemmas.

(** [memmove] copies [n] bytes correctly whatever the overlap of source
    and destination, and changes no byte outside of the destination. *)
Theorem memmove_correct m dst src n :
  0 <= n →
  (∀ i, 0 <= i < n → load8 (memmove m dst src n) (dst + i) = load8 m (src + i)) ∧
  (∀ x, x < dst ∨ dst + n <= x → load8 (memmove m dst src n) x = load8 m x).
Proof.
  intros Hn. unfold memmove. destruct (Z.ltb_spec dst src).
  - apply memcpy_spec; lia.
  - split; intros.
    + rewrite memmove_down_in by lia. f_equal. lia.
    + apply memmove_down_out. lia.
Qed.

(** An overlapping upward move by two bytes. *)
Lemma memmove_correct_witness :
  (∀ i, 0 <= i < 5 → load8 (memmove (store64 ∅ 100 0x0807060504030201) 102 100 5) (102 + i) =
                     load8 (store64 ∅ 100 0x0807060504030201) (100 + i)) ∧
  (∀ x, x < 102 ∨ 102 + 5 <= x → load8 (memmove (store64 ∅ 100 0x0807060504030201) 102 100 5) x =
                     load8 (store64 ∅ 100 0x0807060504030201) x).
Proof. apply (memmove_correct (store64 ∅ 100 0x0807060504030201) 102 100 5). lia. Defined.
