(* ===== verification/TlsfBits.v ===== *)
(** * TLSF: bit scans, sizes and the two-level size classes

    The pure part of [mm/heapalloc/tlsf.c]: the configuration constants, the
    bit-scan helpers in both the compiler-builtin and the portable form, the
    alignment arithmetic and the two mappings from a size to a pair of list
    indices. *)

From stdpp Require Import prelude gmap list numbers tactics.
From S2P Require Import Prelude.

(** ** Configuration (64-bit build: [TLSF_64BIT] is defined on x86-64) *)

Definition SL_INDEX_COUNT_LOG2 : Z := 5.
Definition ALIGN_SIZE_LOG2 : Z := 3.
Definition ALIGN_SIZE : Z := Z.shiftl 1 ALIGN_SIZE_LOG2.
Definition FL_INDEX_MAX : Z := 32.
Definition SL_INDEX_COUNT : Z := Z.shiftl 1 SL_INDEX_COUNT_LOG2.
Definition FL_INDEX_SHIFT : Z := SL_INDEX_COUNT_LOG2 + ALIGN_SIZE_LOG2.
Definition FL_INDEX_COUNT : Z := FL_INDEX_MAX - FL_INDEX_SHIFT + 1.
Definition SMALL_BLOCK_SIZE : Z := Z.shiftl 1 FL_INDEX_SHIFT.

Definition sizeof_block_header_t : Z := 32.
Definition block_header_free_bit : Z := Z.shiftl 1 0.
Definition block_header_prev_free_bit : Z := Z.shiftl 1 1.
Definition block_header_overhead : Z := 8.
Definition block_start_offset : Z := 8 + 8.
Definition block_size_min : Z := sizeof_block_header_t - 8.
Definition block_size_max : Z := Z.shiftl 1 FL_INDEX_MAX.

(** ** Bit scans *)

(** GCC's [__builtin_clz] on a non-zero 32-bit word and [__builtin_ffs]. *)
Definition builtin_clz (word : Z) : Z := 31 - Z.log2 word.

Fixpoint ffs_from (n : nat) (i word : Z) : Z :=
  match n with
  | O => 0
  | S n => if Z.testbit word i then i + 1 else ffs_from n (i + 1) word
  end.
Definition builtin_ffs (word : Z) : Z := ffs_from 32 0 word.

Definition tlsf_ffs (word : Z) : Z := builtin_ffs word - 1.

Definition tlsf_fls (word : Z) : Z :=
  let bit := if truthy word then 32 - builtin_clz word else 0 in
  bit - 1.

(** The portable fallback, used when no compiler builtin is known. *)
Definition tlsf_fls_generic (word : Z) : Z :=
  let bit := 32 in
  let bit := if truthy word then bit else bit - 1 in
  let '(word, bit) := if truthy (Z.land word 0xffff0000) then (word, bit)
                      else (u32 (Z.shiftl word 16), bit - 16) in
  let '(word, bit) := if truthy (Z.land word 0xff000000) then (word, bit)
                      else (u32 (Z.shiftl word 8), bit - 8) in
  let '(word, bit) := if truthy (Z.land word 0xf0000000) then (word, bit)
                      else (u32 (Z.shiftl word 4), bit - 4) in
  let '(word, bit) := if truthy (Z.land word 0xc0000000) then (word, bit)
                      else (u32 (Z.shiftl word 2), bit - 2) in
  let '(_, bit) := if truthy (Z.land word 0x80000000) then (word, bit)
                   else (u32 (Z.shiftl word 1), bit - 1) in
  bit.

Definition tlsf_ffs_portable (word : Z) : Z :=
  tlsf_fls_generic (Z.land word (u32 (cnot 32 word + 1))) - 1.
Definition tlsf_fls_portable (word : Z) : Z := tlsf_fls_generic word - 1.

Definition tlsf_fls_sizet (size : Z) : Z :=
  let high := s32 (Z.shiftr size 32) in
  if truthy high then 32 + tlsf_fls (u32 high)
  else tlsf_fls (Z.land (u32 (s32 size)) 0xffffffff).

(** ** Alignment arithmetic ([size_t], 64 bits).  The power-of-two check is the
    source's [tlsf_assert]; it is returned with the value. *)

Definition align_is_pow2 (align : Z) : bool := Z.land align (u64 (align - 1)) =? 0.
Definition align_up_val (x align : Z) : Z :=
  Z.land (u64 (x + (align - 1))) (cnot 64 (align - 1)).
Definition align_down_val (x align : Z) : Z := u64 (x - Z.land x (align - 1)).
Definition align_ptr_val (ptr align : Z) : Z :=
  Z.land (u64 (ptr + (align - 1))) (cnot 64 (align - 1)).

(** ** Size classes *)

Definition mapping_insert (size : Z) : Z * Z :=
  if size <? SMALL_BLOCK_SIZE then
    (0, Z.quot (s32 size) (Z.quot SMALL_BLOCK_SIZE SL_INDEX_COUNT))
  else
    let fl := tlsf_fls_sizet size in
    let sl := Z.lxor (s32 (Z.shiftr size (fl - SL_INDEX_COUNT_LOG2)))
                     (Z.shiftl 1 SL_INDEX_COUNT_LOG2) in
    (fl - (FL_INDEX_SHIFT - 1), sl).

Definition mapping_search (size : Z) : Z * Z :=
  let size :=
    if SMALL_BLOCK_SIZE <=? size then
      let round := u64 (s32 (Z.shiftl 1 (tlsf_fls_sizet size - SL_INDEX_COUNT_LOG2)) - 1) in
      u64 (size + round)
    else size in
  mapping_insert size.

(** Smallest size and width of the class [(fl, sl)]. *)
Definition class_lo (fl sl : Z) : Z :=
  if fl =? 0 then 8 * sl else 2 ^ (fl + 7) + sl * 2 ^ (fl + 2).
Definition class_width (fl : Z) : Z := 2 ^ (Z.max fl 1 + 2).

(** ** Bit-scan lemmas *)

Lemma tlsf_fls_log2 w : 0 < w → tlsf_fls w = Z.log2 w.
Proof.
  intros Hw. unfold tlsf_fls, builtin_clz.
  rewrite (proj2 (truthy_true w)) by lia. lia.
Qed.

Lemma ffs_from_spec n i word :
  0 <= i → (∃ k, i <= k < i + Z.of_nat n ∧ Z.testbit word k = true) →
  let r := ffs_from n i word - 1 in
  i <= r < i + Z.of_nat n ∧ Z.testbit word r = true ∧ ∀ k, i <= k < r → Z.testbit word k = false.
Proof.
  revert i. induction n as [|n IH]; intros i Hi (k & Hk & Hb); [lia|]. cbn [ffs_from].
  destruct (Z.testbit word i) eqn:E.
  - replace (i + 1 - 1) with i by lia. split_and!; [lia..|done|intros; lia].
  - assert (k ≠ i) by congruence.
    destruct (IH (i + 1)) as (H1 & H2 & H3); [lia|exists k; split; [lia|done]|].
    split_and!; [lia|lia|done|]. intros j Hj.
    destruct (Z.eq_dec j i) as [->|]; [done|]. apply H3. lia.
Qed.

(** [tlsf_ffs] of a non-zero word is the index of its lowest set bit. *)
Lemma tlsf_ffs_spec word :
  0 < word < 2 ^ 32 →
  0 <= tlsf_ffs word < 32 ∧ Z.testbit word (tlsf_ffs word) = true ∧
  ∀ k, 0 <= k < tlsf_ffs word → Z.testbit word k = false.
Proof.
  intros Hw. unfold tlsf_ffs, builtin_ffs.
  destruct (ffs_from_spec 32 0 word) as (H1 & H2 & H3); [done| |split_and!; done || lia].
  exists (Z.log2 word). split.
  - pose proof (Z.log2_nonneg word). pose proof (proj1 (Z.log2_lt_pow2 word 32 ltac:(lia))). lia.
  - apply Z.bit_log2. lia.
Qed.

Lemma u32_s32 x : u32 (s32 x) = u32 x.
Proof.
  unfold wrap, swrap. rewrite Zminus_mod_idemp_l. f_equal. lia.
Qed.

Lemma s32_small x : 0 <= x < 2 ^ 31 → s32 x = x.
Proof. intros. apply swrap_small; lia. Qed.

Lemma tlsf_fls_sizet_log2 size : 0 < size < 2 ^ 64 → tlsf_fls_sizet size = Z.log2 size.
Proof.
  intros Hs. unfold tlsf_fls_sizet.
  assert (0 <= Z.shiftr size 32 < 2 ^ 32) as Hh.
  { rewrite Z.shiftr_div_pow2 by lia. zlia. }
  destruct (truthy (s32 (Z.shiftr size 32))) eqn:E; boolprop.
  - rewrite u32_s32, wrap_small by done.
    assert (Z.shiftr size 32 ≠ 0) by (intros Z0; rewrite Z0 in E; done).
    rewrite tlsf_fls_log2 by lia. rewrite Z.log2_shiftr by lia.
    assert (32 <= Z.log2 size); [|lia].
    apply Z.log2_le_pow2; [lia|]. rewrite Z.shiftr_div_pow2 in * by lia. zlia.
  - assert (Z.shiftr size 32 = 0) as Hz.
    { assert (u32 (s32 (Z.shiftr size 32)) = 0) as U by (rewrite E; done).
      rewrite u32_s32, wrap_small in U; done. }
    assert (size < 2 ^ 32) by (rewrite Z.shiftr_div_pow2 in Hz by lia; zlia).
    rewrite u32_s32, wrap_small by lia.
    change 0xffffffff with (2 ^ 32 - 1). rewrite land_ones_mod, Z.mod_small by lia.
    apply tlsf_fls_log2. lia.
Qed.

(** ** The portable scan agrees with the builtin one *)

(** One halving step keeps [bit + log2 word] and normalises the
    word one level further. *)
Definition fls_step (mask sh : Z) (wb : Z * Z) : Z * Z :=
  let '(word, bit) := wb in
  if truthy (Z.land word mask) then (word, bit) else (u32 (Z.shiftl word sh), bit - sh).

Lemma land_high_mask w sh :
  0 <= sh <= 32 → 0 <= w < 2 ^ 32 →
  truthy (Z.land w (2 ^ 32 - 2 ^ (32 - sh))) = bool_decide (2 ^ (32 - sh) <= w).
Proof.
  intros Hsh Hw. replace (2 ^ 32 - 2 ^ (32 - sh)) with (cnot 32 (2 ^ (32 - sh) - 1)).
  2:{ rewrite cnot_spec; [lia|]. pose proof (Z.pow_le_mono_r 2 (32 - sh) 32). lia. }
  rewrite land_align_down by lia.
  set (p := 2 ^ (32 - sh)). assert (0 < p) by (apply Z.pow_pos_nonneg; lia).
  pose proof (Z.mod_pos_bound w p ltac:(lia)). pose proof (Z.div_mod w p ltac:(lia)).
  case_bool_decide as Hp.
  - apply truthy_true. assert (1 <= w / p) by (apply Z.div_le_lower_bound; lia). nia.
  - apply truthy_false. rewrite Z.mod_small by lia. lia.
Qed.

Lemma fls_step_spec sh w bit :
  0 <= sh <= 16 → 0 < w < 2 ^ 32 → 2 ^ (32 - 2 * sh) <= w →
  let '(w', bit') := fls_step (2 ^ 32 - 2 ^ (32 - sh)) sh (w, bit) in
  2 ^ (32 - sh) <= w' < 2 ^ 32 ∧ bit' + Z.log2 w' = bit + Z.log2 w.
Proof.
  intros Hsh Hw Hlo. unfold fls_step. rewrite land_high_mask by lia.
  case_bool_decide as Hp; [lia|].
  assert (w * 2 ^ sh < 2 ^ 32).
  { replace (2 ^ 32) with (2 ^ (32 - sh) * 2 ^ sh) by (rewrite <- Z.pow_add_r by lia; f_equal; lia).
    apply Z.mul_lt_mono_pos_r; [apply Z.pow_pos_nonneg|]; lia. }
  rewrite Z.shiftl_mul_pow2 by lia. rewrite wrap_small.
  2:{ pose proof (Z.pow_pos_nonneg 2 sh). nia. }
  split.
  - split; [|lia]. replace (32 - sh) with (32 - 2 * sh + sh) by lia.
    rewrite Z.pow_add_r by lia. apply Z.mul_le_mono_nonneg_r; [apply Z.pow_nonneg|]; lia.
  - rewrite Z.log2_mul_pow2 by lia. lia.
Qed.

Lemma tlsf_fls_generic_steps w :
  tlsf_fls_generic w =
  snd (fls_step 0x80000000 1 (fls_step 0xc0000000 2 (fls_step 0xf0000000 4
      (fls_step 0xff000000 8 (fls_step 0xffff0000 16 (w, if truthy w then 32 else 31)))))).
Proof.
  unfold tlsf_fls_generic, fls_step.
  repeat match goal with |- context [if truthy ?e then _ else _] => destruct (truthy e) end; reflexivity.
Qed.

Lemma tlsf_fls_generic_log2 w : 0 < w < 2 ^ 32 → tlsf_fls_generic w = Z.log2 w + 1.
Proof.
  intros Hw. rewrite tlsf_fls_generic_steps, (proj2 (truthy_true w)) by lia.
  pose proof (fls_step_spec 16 w 32 ltac:(lia) Hw ltac:(lia)) as S1.
  change (2 ^ 32 - 2 ^ (32 - 16)) with 0xffff0000 in S1.
  destruct (fls_step 0xffff0000 16 (w, 32)) as [w1 b1]. destruct S1 as [R1 E1].
  pose proof (fls_step_spec 8 w1 b1 ltac:(lia) ltac:(lia) ltac:(lia)) as S2.
  change (2 ^ 32 - 2 ^ (32 - 8)) with 0xff000000 in S2.
  destruct (fls_step 0xff000000 8 (w1, b1)) as [w2 b2]. destruct S2 as [R2 E2].
  pose proof (fls_step_spec 4 w2 b2 ltac:(lia) ltac:(lia) ltac:(lia)) as S3.
  change (2 ^ 32 - 2 ^ (32 - 4)) with 0xf0000000 in S3.
  destruct (fls_step 0xf0000000 4 (w2, b2)) as [w3 b3]. destruct S3 as [R3 E3].
  pose proof (fls_step_spec 2 w3 b3 ltac:(lia) ltac:(lia) ltac:(lia)) as S4.
  change (2 ^ 32 - 2 ^ (32 - 2)) with 0xc0000000 in S4.
  destruct (fls_step 0xc0000000 2 (w3, b3)) as [w4 b4]. destruct S4 as [R4 E4].
  pose proof (fls_step_spec 1 w4 b4 ltac:(lia) ltac:(lia) ltac:(lia)) as S5.
  change (2 ^ 32 - 2 ^ (32 - 1)) with 0x80000000 in S5.
  destruct (fls_step 0x80000000 1 (w4, b4)) as [w5 b5]. destruct S5 as [R5 E5]. cbn [snd].
  assert (Z.log2 w5 = 31); [|lia].
  apply Z.log2_unique; lia.
Qed.

(** The lowest set bit of [w] splits it. *)
Lemma lowest_bit_decompose w k :
  0 <= k → Z.testbit w k = true → (∀ i, 0 <= i < k → Z.testbit w i = false) →
  w = (w / 2 ^ (k + 1)) * 2 ^ (k + 1) + 2 ^ k.
Proof.
  intros Hk Hb Hl.
  assert (w mod 2 ^ (k + 1) = 2 ^ k) as E.
  { apply Z.bits_inj'. intros i Hi. rewrite Z.testbit_mod_pow2, Z.pow2_bits_eqb by lia.
    destruct (Z.ltb_spec i (k + 1)); cbn.
    - destruct (Z.eqb_spec k i) as [->|]; [done|]. apply Hl. lia.
    - destruct (Z.eqb_spec k i); [lia|done]. }
  rewrite <- E. rewrite (Z.div_mod w (2 ^ (k + 1))) at 1 by (apply Z.pow_nonzero; lia). lia.
Qed.

Lemma land_opp_lowest w k :
  0 <= k → Z.testbit w k = true → (∀ i, 0 <= i < k → Z.testbit w i = false) →
  Z.land w (- w) = 2 ^ k.
Proof.
  intros Hk Hb Hl. replace (- w) with (Z.lnot (w - 1)) by (unfold Z.lnot; lia).
  pose proof (lowest_bit_decompose w k Hk Hb Hl) as D. set (q := w / 2 ^ (k + 1)) in *.
  assert (w - 1 = Z.ones k + q * 2 ^ (k + 1)) as D1 by (rewrite Z.ones_equiv; lia).
  apply Z.bits_inj'. intros i Hi. rewrite Z.land_spec, Z.lnot_spec, Z.pow2_bits_eqb by lia.
  assert (0 <= Z.ones k < 2 ^ (k + 1)).
  { rewrite Z.ones_equiv. pose proof (Z.pow_pos_nonneg 2 k).
    rewrite Z.pow_add_r by lia. lia. }
  destruct (Z.eqb_spec k i) as [<-|Hne].
  - rewrite Hb, D1, <- lor_add, Z.lor_spec by lia.
    rewrite Z.ones_spec_high, Z.mul_pow2_bits_low by lia. done.
  - destruct (Z.lt_ge_cases i k); [by rewrite Hl by lia|].
    rewrite D1, <- lor_add, Z.lor_spec, Z.ones_spec_high by lia. cbn.
    assert (0 <= 2 ^ k < 2 ^ (k + 1)).
    { pose proof (Z.pow_pos_nonneg 2 k). rewrite Z.pow_add_r by lia. lia. }
    rewrite D at 1. rewrite Z.add_comm, <- lor_add, Z.lor_spec by lia.
    rewrite Z.pow2_bits_false by lia. cbn. apply andb_negb_r.
Qed.

Lemma tlsf_ffs_portable_agrees w : 0 < w < 2 ^ 32 → tlsf_ffs_portable w = tlsf_ffs w.
Proof.
  intros Hw. destruct (tlsf_ffs_spec w Hw) as (Hr & Hb & Hl).
  unfold tlsf_ffs_portable.
  assert (Z.land w (u32 (cnot 32 w + 1)) = 2 ^ tlsf_ffs w) as ->.
  { rewrite cnot_spec, wrap_small by lia.
    rewrite <- (land_opp_lowest w (tlsf_ffs w)) by (done || lia).
    replace (2 ^ 32 - 1 - w + 1) with (cnot 32 (w - 1)) by (rewrite cnot_spec; lia).
    rewrite land_cnot by lia. f_equal. unfold Z.lnot. lia. }
  rewrite tlsf_fls_generic_log2, Z.log2_pow2 by (pose proof (Z.pow_lt_mono_r 2 (tlsf_ffs w) 32);
    pose proof (Z.pow_pos_nonneg 2 (tlsf_ffs w)); lia). lia.
Qed.

(** ** Size-class lemmas *)

Lemma lxor_32 q : 32 <= q < 64 → Z.lxor q 32 = q - 32.
Proof.
  intros Hq. replace q with (q - 32 + 1 * 2 ^ 5) at 1 by lia.
  rewrite <- lor_add by lia. apply Z.bits_inj'. intros i Hi.
  rewrite Z.lxor_spec, Z.lor_spec. change (1 * 2 ^ 5) with (2 ^ 5). change 32 with (2 ^ 5) at 2.
  destruct (Z.eq_dec i 5) as [->|].
  - rewrite !Z.pow2_bits_true by lia. rewrite (testbit_high 5 (q - 32)) by lia. done.
  - rewrite !Z.pow2_bits_false by lia. by rewrite orb_false_r, xorb_false_r.
Qed.

Lemma shiftr_top5 size k :
  5 <= k → Z.log2 size = k → 0 < size → 32 <= Z.shiftr size (k - 5) < 64.
Proof.
  intros Hk HL Hs. rewrite Z.shiftr_div_pow2 by lia.
  pose proof (Z.log2_spec size Hs) as HB. rewrite HL in HB.
  assert (0 < 2 ^ (k - 5)) by (apply Z.pow_pos_nonneg; lia).
  replace (2 ^ k) with (32 * 2 ^ (k - 5)) in HB
    by (change 32 with (2 ^ 5); rewrite <- Z.pow_add_r by lia; f_equal; lia).
  replace (2 ^ Z.succ k) with (64 * 2 ^ (k - 5)) in HB
    by (change 64 with (2 ^ 6); rewrite <- Z.pow_add_r by lia; f_equal; lia).
  split; [apply Z.div_le_lower_bound | apply Z.div_lt_upper_bound]; lia.
Qed.

Lemma mapping_insert_small size :
  0 <= size < 256 → mapping_insert size = (0, size / 8).
Proof.
  intros Hs. unfold mapping_insert. change SMALL_BLOCK_SIZE with 256.
  rewrite (proj2 (Z.ltb_lt _ _)) by lia. change (Z.quot 256 SL_INDEX_COUNT) with 8.
  rewrite s32_small by lia. f_equal. apply Z.quot_div_nonneg; lia.
Qed.

Lemma mapping_insert_large size :
  256 <= size < 2 ^ 64 →
  mapping_insert size = (Z.log2 size - 7, size / 2 ^ (Z.log2 size - 5) - 32).
Proof.
  intros Hs. unfold mapping_insert. change SMALL_BLOCK_SIZE with 256.
  rewrite (proj2 (Z.ltb_ge _ _)) by lia. rewrite tlsf_fls_sizet_log2 by lia.
  assert (8 <= Z.log2 size) by (apply Z.log2_le_pow2; lia).
  pose proof (shiftr_top5 size (Z.log2 size) ltac:(lia) eq_refl ltac:(lia)) as HT.
  change SL_INDEX_COUNT_LOG2 with 5. change (Z.shiftl 1 5) with 32.
  change (FL_INDEX_SHIFT - 1) with 7. rewrite s32_small by lia.
  rewrite lxor_32 by done. by rewrite Z.shiftr_div_pow2 by lia.
Qed.

(** The class of a size is a legal pair of list indices and contains the size. *)
Lemma mapping_insert_class size fl sl :
  0 <= size < 2 ^ 33 → mapping_insert size = (fl, sl) →
  0 <= fl <= 25 ∧ 0 <= sl < 32 ∧ (size < 2 ^ 32 → fl < 25) ∧
  class_lo fl sl <= size < class_lo fl sl + class_width fl.
Proof.
  intros Hs. destruct (Z.lt_ge_cases size 256).
  - rewrite mapping_insert_small by lia. intros [= <- <-].
    unfold class_lo, class_width. change (0 =? 0) with true. cbv iota.
    change (2 ^ (Z.max 0 1 + 2)) with 8. zlia.
  - rewrite mapping_insert_large by lia. intros [= <- <-].
    set (k := Z.log2 size). assert (8 <= k) by (apply Z.log2_le_pow2; lia).
    assert (k < 33) by (apply Z.log2_lt_pow2; lia).
    pose proof (shiftr_top5 size k ltac:(lia) eq_refl ltac:(lia)) as HT.
    rewrite Z.shiftr_div_pow2 in HT by lia.
    unfold class_lo, class_width. rewrite (proj2 (Z.eqb_neq (k - 7) 0)) by lia.
    replace (k - 7 + 7) with (k - 5 + 5) by lia. replace (k - 7 + 2) with (k - 5) by lia.
    replace (Z.max (k - 7) 1 + 2) with (k - 5) by lia.
    rewrite Z.pow_add_r by lia. change (2 ^ 5) with 32.
    assert (0 < 2 ^ (k - 5)) by (apply Z.pow_pos_nonneg; lia).
    pose proof (Z.div_mod size (2 ^ (k - 5)) ltac:(lia)).
    pose proof (Z.mod_pos_bound size (2 ^ (k - 5)) ltac:(lia)).
    split_and!; try lia; [|nia..].
    intros. assert (k < 32) by (apply Z.log2_lt_pow2; lia). lia.
Qed.

Lemma class_lo_mono fl sl fl' sl' :
  0 <= fl → 0 <= sl < 32 → 0 <= sl' → fl < fl' ∨ (fl = fl' ∧ sl <= sl') →
  class_lo fl sl <= class_lo fl' sl'.
Proof.
  intros Hf Hsl Hsl' [Hlt|[<- Hle]]; unfold class_lo.
  - rewrite (proj2 (Z.eqb_neq fl' 0)) by lia.
    assert (0 < 2 ^ (fl' + 2)) by (apply Z.pow_pos_nonneg; lia).
    destruct (Z.eqb_spec fl 0).
    + pose proof (Z.pow_le_mono_r 2 8 (fl' + 7)). nia.
    + assert (2 ^ (fl + 7) + sl * 2 ^ (fl + 2) <= 2 ^ (fl + 8)).
      { replace (fl + 7) with (fl + 2 + 5) by lia. replace (fl + 8) with (fl + 2 + 6) by lia.
        rewrite !(Z.pow_add_r 2 (fl + 2)) by lia. change (2 ^ 5) with 32. change (2 ^ 6) with 64.
        assert (0 < 2 ^ (fl + 2)) by (apply Z.pow_pos_nonneg; lia). nia. }
      pose proof (Z.pow_le_mono_r 2 (fl + 8) (fl' + 7)). nia.
  - destruct (Z.eqb_spec fl 0); [lia|].
    assert (0 < 2 ^ (fl + 2)) by (apply Z.pow_pos_nonneg; lia). nia.
Qed.

(** Rounding a request up lands in a class whose every block is large enough. *)
Lemma mapping_search_class size fl sl :
  0 <= size < 2 ^ 32 → size mod 8 = 0 → mapping_search size = (fl, sl) →
  0 <= fl <= 25 ∧ 0 <= sl < 32 ∧ size <= class_lo fl sl.
Proof.
  intros Hs Ha. unfold mapping_search. change SMALL_BLOCK_SIZE with 256.
  destruct (Z.leb_spec 256 size).
  - rewrite tlsf_fls_sizet_log2 by lia. change SL_INDEX_COUNT_LOG2 with 5.
    set (k := Z.log2 size). assert (8 <= k) by (apply Z.log2_le_pow2; lia).
    assert (k < 32) by (apply Z.log2_lt_pow2; lia).
    assert (0 < 2 ^ (k - 5)) by (apply Z.pow_pos_nonneg; lia).
    assert (2 ^ (k - 5) <= 2 ^ 26) by (apply Z.pow_le_mono_r; lia).
    rewrite Z.shiftl_1_l, s32_small by lia. rewrite (wrap_small 64 (_ - 1)) by lia.
    rewrite wrap_small by lia. set (s := size + (2 ^ (k - 5) - 1)). intros Hm.
    pose proof (Z.log2_spec size ltac:(lia)) as [HL HU]. fold k in HL, HU.
    destruct (mapping_insert_class s fl sl) as (F1 & F2 & _ & F3); [lia|done|].
    split_and!; try lia.
    rewrite mapping_insert_large in Hm by lia. injection Hm as Efl Esl.
    destruct (Z.lt_ge_cases s (2 ^ Z.succ k)).
    + assert (Z.log2 s = k) as Ek by (apply Z.log2_unique; lia).
      rewrite Ek in *. assert (fl = k - 7) as -> by lia.
      unfold class_width, class_lo in *. rewrite (proj2 (Z.eqb_neq (k - 7) 0)) in * by lia.
      replace (Z.max (k - 7) 1 + 2) with (k - 5) in * by lia.
      replace (k - 7 + 2) with (k - 5) in * by lia.
      replace (k - 7 + 7) with (k - 5 + 5) in * by lia. lia.
    + assert (k + 1 <= Z.log2 s) by (apply Z.log2_le_pow2; lia).
      assert (2 ^ Z.succ k <= class_lo (k - 6) 0) as HC.
      { unfold class_lo. rewrite (proj2 (Z.eqb_neq (k - 6) 0)) by lia.
        replace (k - 6 + 7) with (Z.succ k) by lia. lia. }
      pose proof (class_lo_mono (k - 6) 0 fl sl ltac:(lia) ltac:(lia) ltac:(lia) ltac:(lia)). lia.
  - intros Hm. destruct (mapping_insert_class size fl sl) as (F1 & F2 & _ & F3); [lia|done|].
    rewrite mapping_insert_small in Hm by lia. injection Hm as <- <-.
    split_and!; try lia. unfold class_lo. change (0 =? 0) with true. zlia.
Qed.
