(* ===== verification/Tlsf.v ===== *)
(** * TLSF: the allocator's state and operations ([mm/heapalloc/tlsf.c])

    [tlsf_state] is the control structure with the byte memory the pools and
    the null block live in.  A [block_header_t] is addressed by its [Z] address
    and its fields are 64-bit words of the memory: [prev_phys_block] at +0,
    [size] at +8, [next_free] at +16, [prev_free] at +24, so the overlap of
    [prev_phys_block] with the end of the previous block's payload is the
    memory's own.  [control->block_null] is the header at the control
    structure's address.  [tlsf_assert] stops the machine, and so does an index
    outside of [sl_bitmap] or [blocks].  The messages printed on a rejected pool
    do not touch this state and are not part of it. *)

From stdpp Require Import prelude gmap list numbers tactics.
From S2P Require Import Prelude Memory TlsfBits.

Record tlsf_state := mk_tlsf {
  control : Z;                    (* address of the control_t, and of block_null *)
  heap : gmap Z Z;
  fl_bitmap : Z;
  sl_bitmap : list Z;
  blocks : list (list Z)
}.

Abbreviation T := (M tlsf_state).

Definition with_heap (f : gmap Z Z → gmap Z Z) (s : tlsf_state) : tlsf_state :=
  mk_tlsf (control s) (f (heap s)) (fl_bitmap s) (sl_bitmap s) (blocks s).
Definition with_fl (v : Z) (s : tlsf_state) : tlsf_state :=
  mk_tlsf (control s) (heap s) v (sl_bitmap s) (blocks s).
Definition with_sl (v : list Z) (s : tlsf_state) : tlsf_state :=
  mk_tlsf (control s) (heap s) (fl_bitmap s) v (blocks s).
Definition with_blocks (v : list (list Z)) (s : tlsf_state) : tlsf_state :=
  mk_tlsf (control s) (heap s) (fl_bitmap s) (sl_bitmap s) v.

(** ** Field accesses *)

Definition ld64 (a : Z) : T Z := gets (λ s, load64 (heap s) a).
Definition st64 (a v : Z) : T unit := modify (with_heap (λ m, store64 m a v)).

Definition get_prev_phys (b : Z) : T Z := ld64 b.
Definition set_prev_phys (b v : Z) : T unit := st64 b v.
Definition get_size (b : Z) : T Z := ld64 (b + 8).
Definition set_size (b v : Z) : T unit := st64 (b + 8) v.
Definition get_next_free (b : Z) : T Z := ld64 (b + 16).
Definition set_next_free (b v : Z) : T unit := st64 (b + 16) v.
Definition get_prev_free (b : Z) : T Z := ld64 (b + 24).
Definition set_prev_free_ptr (b v : Z) : T unit := st64 (b + 24) v.

Definition get_sl (fl : Z) : T Z := sl ← gets sl_bitmap; of_option (zlookup sl fl).
Definition set_sl (fl v : Z) : T unit :=
  sl ← gets sl_bitmap; sl' ← of_option (zupdate sl fl v); modify (with_sl sl').
Definition get_head (fl sl : Z) : T Z :=
  bs ← gets blocks; row ← of_option (zlookup bs fl); of_option (zlookup row sl).
Definition set_head (fl sl v : Z) : T unit :=
  bs ← gets blocks; row ← of_option (zlookup bs fl);
  row' ← of_option (zupdate row sl v);
  bs' ← of_option (zupdate bs fl row'); modify (with_blocks bs').

(** ** [block_header_t] member functions *)

Definition header_flags : Z := Z.lor block_header_free_bit block_header_prev_free_bit.

Definition block_size (block : Z) : T Z :=
  size ← get_size block; mret (Z.land size (cnot 64 header_flags)).

Definition block_set_size (block size : Z) : T unit :=
  oldsize ← get_size block; set_size block (Z.lor size (Z.land oldsize header_flags)).

Definition block_is_last (block : Z) : T bool :=
  size ← block_size block; mret (size =? 0).

Definition block_is_free (block : Z) : T bool :=
  size ← get_size block; mret (truthy (Z.land size block_header_free_bit)).

Definition block_set_free (block : Z) : T unit :=
  size ← get_size block; set_size block (Z.lor size block_header_free_bit).

Definition block_set_used (block : Z) : T unit :=
  size ← get_size block; set_size block (Z.land size (cnot 64 block_header_free_bit)).

Definition block_is_prev_free (block : Z) : T bool :=
  size ← get_size block; mret (truthy (Z.land size block_header_prev_free_bit)).

Definition block_set_prev_free (block : Z) : T unit :=
  size ← get_size block; set_size block (Z.lor size block_header_prev_free_bit).

Definition block_set_prev_used (block : Z) : T unit :=
  size ← get_size block; set_size block (Z.land size (cnot 64 block_header_prev_free_bit)).

Definition block_from_ptr (ptr : Z) : Z := u64 (ptr - block_start_offset).
Definition block_to_ptr (block : Z) : Z := u64 (block + block_start_offset).
Definition offset_to_block (ptr size : Z) : Z := u64 (ptr + size).

Definition block_prev (block : Z) : T Z :=
  pf ← block_is_prev_free block; massert pf ;; get_prev_phys block.

Definition block_next (block : Z) : T Z :=
  size ← block_size block;
  let next := offset_to_block (block_to_ptr block) (u64 (size - block_header_overhead)) in
  last ← block_is_last block; massert (negb last) ;; mret next.

Definition block_link_next (block : Z) : T Z :=
  next ← block_next block; set_prev_phys next block ;; mret next.

Definition block_mark_as_free (block : Z) : T unit :=
  next ← block_link_next block; block_set_prev_free next ;; block_set_free block.

Definition block_mark_as_used (block : Z) : T unit :=
  next ← block_next block; block_set_prev_used next ;; block_set_used block.

Definition align_up (x align : Z) : T Z :=
  massert (align_is_pow2 align) ;; mret (align_up_val x align).
Definition align_down (x align : Z) : T Z :=
  massert (align_is_pow2 align) ;; mret (align_down_val x align).
Definition align_ptr (ptr align : Z) : T Z :=
  massert (align_is_pow2 align) ;; mret (align_ptr_val ptr align).

Definition adjust_request_size (size align : Z) : T Z :=
  if truthy size then
    aligned ← align_up size align;
    mret (if aligned <? block_size_max then Z.max aligned block_size_min else 0)
  else mret 0.

(** ** Free lists *)

(** Returns the block (0 for none) and the updated [*fli], [*sli]. *)
Definition search_suitable_block (fl sl : Z) : T (Z * Z * Z) :=
  slb ← get_sl fl;
  let sl_map := Z.land slb (u32 (Z.shiftl 0xffffffff sl)) in
  if truthy sl_map then
    let sl := tlsf_ffs sl_map in
    b ← get_head fl sl; mret (b, fl, sl)
  else
    flb ← gets fl_bitmap;
    let fl_map := Z.land flb (u32 (Z.shiftl 0xffffffff (fl + 1))) in
    if truthy fl_map then
      let fl := tlsf_ffs fl_map in
      sl_map ← get_sl fl;
      massert (truthy sl_map) ;;
      let sl := tlsf_ffs sl_map in
      b ← get_head fl sl; mret (b, fl, sl)
    else mret (0, fl, sl).

Definition remove_free_block (block fl sl : Z) : T unit :=
  prev ← get_prev_free block;
  next ← get_next_free block;
  massert (truthy prev) ;;
  massert (truthy next) ;;
  set_prev_free_ptr next prev ;;
  set_next_free prev next ;;
  head ← get_head fl sl;
  mwhen (head =? block) (
    set_head fl sl next ;;
    null ← gets control;
    mwhen (next =? null) (
      slb ← get_sl fl;
      set_sl fl (Z.land slb (cnot 32 (Z.shiftl 1 sl))) ;;
      slb' ← get_sl fl;
      mwhen (slb' =? 0) (
        flb ← gets fl_bitmap;
        modify (with_fl (Z.land flb (cnot 32 (Z.shiftl 1 fl))))))).

Definition insert_free_block (block fl sl : Z) : T unit :=
  current ← get_head fl sl;
  massert (truthy current) ;;
  massert (truthy block) ;;
  set_next_free block current ;;
  null ← gets control;
  set_prev_free_ptr block null ;;
  set_prev_free_ptr current block ;;
  aligned ← align_ptr (block_to_ptr block) ALIGN_SIZE;
  massert (block_to_ptr block =? aligned) ;;
  set_head fl sl block ;;
  flb ← gets fl_bitmap;
  modify (with_fl (Z.lor flb (u32 (Z.shiftl 1 fl)))) ;;
  slb ← get_sl fl;
  set_sl fl (Z.lor slb (u32 (Z.shiftl 1 sl))).

Definition block_remove (block : Z) : T unit :=
  size ← block_size block;
  let '(fl, sl) := mapping_insert size in remove_free_block block fl sl.

Definition block_insert (block : Z) : T unit :=
  size ← block_size block;
  let '(fl, sl) := mapping_insert size in insert_free_block block fl sl.

(** ** Splitting and merging *)

Definition block_can_split (block size : Z) : T bool :=
  bs ← block_size block; mret (u64 (sizeof_block_header_t + size) <=? bs).

Definition block_split (block size : Z) : T Z :=
  let remaining := offset_to_block (block_to_ptr block) (u64 (size - block_header_overhead)) in
  bs ← block_size block;
  let remain_size := u64 (bs - u64 (size + block_header_overhead)) in
  aligned ← align_ptr (block_to_ptr remaining) ALIGN_SIZE;
  massert (block_to_ptr remaining =? aligned) ;;
  massert (bs =? u64 (remain_size + size + block_header_overhead)) ;;
  block_set_size remaining remain_size ;;
  rs ← block_size remaining;
  massert (block_size_min <=? rs) ;;
  block_set_size block size ;;
  block_mark_as_free remaining ;;
  mret remaining.

Definition block_absorb (prev block : Z) : T Z :=
  last ← block_is_last prev;
  massert (negb last) ;;
  bs ← block_size block;
  ps ← get_size prev;
  set_size prev (u64 (ps + (bs + block_header_overhead))) ;;
  block_link_next prev ;;
  mret prev.

Definition block_merge_prev (block : Z) : T Z :=
  pf ← block_is_prev_free block;
  if pf then
    prev ← block_prev block;
    massert (truthy prev) ;;
    f ← block_is_free prev;
    massert f ;;
    block_remove prev ;;
    block_absorb prev block
  else mret block.

Definition block_merge_next (block : Z) : T Z :=
  next ← block_next block;
  massert (truthy next) ;;
  f ← block_is_free next;
  if f then
    last ← block_is_last block;
    massert (negb last) ;;
    block_remove next ;;
    block_absorb block next
  else mret block.

Definition block_trim_free (block size : Z) : T unit :=
  f ← block_is_free block;
  massert f ;;
  c ← block_can_split block size;
  mwhen c (
    remaining_block ← block_split block size;
    block_link_next block ;;
    block_set_prev_free remaining_block ;;
    block_insert remaining_block).

Definition block_trim_used (block size : Z) : T unit :=
  f ← block_is_free block;
  massert (negb f) ;;
  c ← block_can_split block size;
  mwhen c (
    remaining_block ← block_split block size;
    block_set_prev_used remaining_block ;;
    remaining_block ← block_merge_next remaining_block;
    block_insert remaining_block).

Definition block_trim_free_leading (block size : Z) : T Z :=
  c ← block_can_split block size;
  if c then
    remaining_block ← block_split block (u64 (size - block_header_overhead));
    block_set_prev_free remaining_block ;;
    block_link_next block ;;
    block_insert block ;;
    mret remaining_block
  else mret block.

Definition block_locate_free (size : Z) : T Z :=
  '(block, fl, sl) ←
    (if truthy size then
       let '(fl, sl) := mapping_search size in
       if fl <? FL_INDEX_COUNT then search_suitable_block fl sl else mret (0, fl, sl)
     else mret (0, 0, 0));
  if truthy block then
    bs ← block_size block;
    massert (size <=? bs) ;;
    remove_free_block block fl sl ;;
    mret block
  else mret block.

Definition block_prepare_used (block size : Z) : T Z :=
  if truthy block then
    massert (truthy size) ;;
    block_trim_free block size ;;
    block_mark_as_used block ;;
    mret (block_to_ptr block)
  else mret 0.

(** ** Construction *)

Definition control_construct : T unit :=
  null ← gets control;
  set_next_free null null ;;
  set_prev_free_ptr null null ;;
  modify (with_fl 0) ;;
  modify (with_sl (replicate (Z.to_nat FL_INDEX_COUNT) 0)) ;;
  modify (with_blocks (replicate (Z.to_nat FL_INDEX_COUNT)
                        (replicate (Z.to_nat SL_INDEX_COUNT) null))).

(** [sizeof(control_t)]: the null block, the first-level word, the second-level
    words, then the list heads. *)
Definition tlsf_size : Z :=
  sizeof_block_header_t + 4 + 4 * FL_INDEX_COUNT + 8 * (FL_INDEX_COUNT * SL_INDEX_COUNT).
Definition tlsf_align_size : Z := ALIGN_SIZE.
Definition tlsf_block_size_min : Z := block_size_min.
Definition tlsf_block_size_max : Z := block_size_max.
Definition tlsf_pool_overhead : Z := 2 * block_header_overhead.
Definition tlsf_alloc_overhead : Z := block_header_overhead.

Definition tlsf_add_pool (mem bytes : Z) : T Z :=
  let pool_overhead := tlsf_pool_overhead in
  pool_bytes ← align_down (u64 (bytes - pool_overhead)) ALIGN_SIZE;
  if negb (Z.rem (s64 mem) ALIGN_SIZE =? 0) then mret 0
  else if (pool_bytes <? block_size_min) || (block_size_max <? pool_bytes) then mret 0
  else
    let block := offset_to_block mem (u64 (- block_header_overhead)) in
    block_set_size block pool_bytes ;;
    block_set_free block ;;
    block_set_prev_used block ;;
    block_insert block ;;
    next ← block_link_next block;
    block_set_size next 0 ;;
    block_set_used next ;;
    block_set_prev_free next ;;
    mret mem.

Definition tlsf_remove_pool (pool : Z) : T unit :=
  let block := offset_to_block pool (u64 (- block_header_overhead)) in
  f ← block_is_free block;
  massert f ;;
  n ← block_next block; nf ← block_is_free n;
  massert (negb nf) ;;
  n ← block_next block; ns ← block_size n;
  massert (ns =? 0) ;;
  size ← block_size block;
  let '(fl, sl) := mapping_insert size in remove_free_block block fl sl.

Definition tlsf_create (mem : Z) : T Z :=
  if negb (Z.rem (s64 mem) ALIGN_SIZE =? 0) then mret 0
  else
    modify (λ s, mk_tlsf mem (heap s) (fl_bitmap s) (sl_bitmap s) (blocks s)) ;;
    control_construct ;;
    mret mem.

Definition tlsf_create_with_pool (mem bytes : Z) : T Z :=
  tlsf ← tlsf_create mem;
  tlsf_add_pool (u64 (mem + tlsf_size)) (u64 (bytes - tlsf_size)) ;;
  mret tlsf.

Definition tlsf_get_pool (tlsf : Z) : Z := u64 (tlsf + tlsf_size).

(** ** Main interface *)

Definition tlsf_malloc (size : Z) : T Z :=
  adjust ← adjust_request_size size ALIGN_SIZE;
  block ← block_locate_free adjust;
  block_prepare_used block adjust.

Definition tlsf_memalign (align size : Z) : T Z :=
  adjust ← adjust_request_size size ALIGN_SIZE;
  let gap_minimum := sizeof_block_header_t in
  size_with_gap ← adjust_request_size (u64 (adjust + align + gap_minimum)) align;
  let aligned_size := if truthy adjust && (ALIGN_SIZE <? align) then size_with_gap else adjust in
  block ← block_locate_free aligned_size;
  massert (sizeof_block_header_t =? block_size_min + block_header_overhead) ;;
  block ←
    (if truthy block then
       let ptr := block_to_ptr block in
       aligned ← align_ptr ptr align;
       let gap := u64 (aligned - ptr) in
       gap ←
         (if truthy gap && (gap <? gap_minimum) then
            let gap_remain := gap_minimum - gap in
            let offset := Z.max gap_remain align in
            let next_aligned := u64 (aligned + offset) in
            aligned ← align_ptr next_aligned align;
            mret (u64 (aligned - ptr))
          else mret gap);
       if truthy gap then
         massert (gap_minimum <=? gap) ;;
         block_trim_free_leading block gap
       else mret block
     else mret block);
  block_prepare_used block adjust.

Definition tlsf_free (ptr : Z) : T unit :=
  mwhen (truthy ptr) (
    let block := block_from_ptr ptr in
    f ← block_is_free block;
    massert (negb f) ;;
    block_mark_as_free block ;;
    block ← block_merge_prev block;
    block ← block_merge_next block;
    block_insert block).

Definition tlsf_realloc (ptr size : Z) : T Z :=
  if truthy ptr && (size =? 0) then tlsf_free ptr ;; mret 0
  else if negb (truthy ptr) then tlsf_malloc size
  else
    let block := block_from_ptr ptr in
    next ← block_next block;
    cursize ← block_size block;
    nsize ← block_size next;
    let combined := u64 (cursize + nsize + block_header_overhead) in
    adjust ← adjust_request_size size ALIGN_SIZE;
    f ← block_is_free block;
    massert (negb f) ;;
    nf ← block_is_free next;
    if (cursize <? adjust) && (negb nf || (combined <? adjust)) then
      p ← tlsf_malloc size;
      mwhen (truthy p) (
        let minsize := Z.min cursize size in
        modify (with_heap (λ m, memcpy m p ptr minsize)) ;;
        tlsf_free ptr) ;;
      mret p
    else
      mwhen (cursize <? adjust) (
        block_merge_next block ;;
        block_mark_as_used block) ;;
      block_trim_used block adjust ;;
      mret ptr.

Definition tlsf_block_size (ptr : Z) : T Z :=
  if truthy ptr then block_size (block_from_ptr ptr) else mret 0.

(** ** Walking and checking *)

(** The blocks [tlsf_walk_pool] hands to its callback, in order: pointer, size
    and used flag.  [None] when the fuel runs out before the sentinel. *)
Fixpoint walk_from (fuel : nat) (block : Z) : T (list (Z * Z * bool)) :=
  match fuel with
  | O => mstop
  | S fuel =>
    if truthy block then
      last ← block_is_last block;
      if last then mret []
      else
        size ← block_size block;
        f ← block_is_free block;
        next ← block_next block;
        rest ← walk_from fuel next;
        mret ((block_to_ptr block, size, negb f) :: rest)
    else mret []
  end.
Definition tlsf_walk_pool (fuel : nat) (pool : Z) : T (list (Z * Z * bool)) :=
  walk_from fuel (offset_to_block pool (u64 (- block_header_overhead))).

(** [tlsf_insist(x)]: assert, then decrement the status if it does not hold. *)
Definition tlsf_insist (x : bool) (status : Z) : T Z :=
  massert x ;; mret (if x then status else status - 1).

Definition integrity_walker (ptr size : Z) (integ : Z * Z) : T (Z * Z) :=
  let block := block_from_ptr ptr in
  let '(prev_status, istatus) := integ in
  pf ← block_is_prev_free block;
  f ← block_is_free block;
  this_block_size ← block_size block;
  let this_prev_status := if pf : bool then 1 else 0 in
  let this_status := if f : bool then 1 else 0 in
  status ← tlsf_insist (prev_status =? this_prev_status) 0;
  status ← tlsf_insist (size =? this_block_size) status;
  mret (this_status, istatus + status).

Fixpoint check_blocks (l : list (Z * Z * bool)) (integ : Z * Z) : T (Z * Z) :=
  match l with
  | [] => mret integ
  | (ptr, size, _) :: l => integ' ← integrity_walker ptr size integ; check_blocks l integ'
  end.

Definition tlsf_check_pool (fuel : nat) (pool : Z) : T Z :=
  l ← tlsf_walk_pool fuel pool;
  integ ← check_blocks l (0, 0);
  mret (snd integ).

(** The inner [while] of [tlsf_check] over one free list. *)
Fixpoint check_list (fuel : nat) (i j block status : Z) : T Z :=
  match fuel with
  | O => mstop
  | S fuel =>
    null ← gets control;
    if block =? null then mret status
    else
      f ← block_is_free block; status ← tlsf_insist f status;
      pf ← block_is_prev_free block; status ← tlsf_insist (negb pf) status;
      n ← block_next block; nf ← block_is_free n; status ← tlsf_insist (negb nf) status;
      n ← block_next block; npf ← block_is_prev_free n; status ← tlsf_insist npf status;
      sz ← block_size block; status ← tlsf_insist (block_size_min <=? sz) status;
      let '(fli, sli) := mapping_insert sz in
      status ← tlsf_insist ((fli =? i) && (sli =? j)) status;
      next ← get_next_free block;
      check_list fuel i j next status
  end.

Definition check_class (fuel : nat) (i j status : Z) : T Z :=
  flb ← gets fl_bitmap;
  sl_list ← get_sl i;
  block ← get_head i j;
  null ← gets control;
  let fl_map := Z.land flb (u32 (Z.shiftl 1 i)) in
  let sl_map := Z.land sl_list (u32 (Z.shiftl 1 j)) in
  status ← (if truthy fl_map then mret status else tlsf_insist (negb (truthy sl_map)) status);
  if truthy sl_map then
    status ← tlsf_insist (truthy sl_list) status;
    status ← tlsf_insist (negb (block =? null)) status;
    check_list fuel i j block status
  else tlsf_insist (block =? null) status.

Fixpoint check_row (fuel : nat) (n : nat) (i j status : Z) : T Z :=
  match n with
  | O => mret status
  | S n => status ← check_class fuel i j status; check_row fuel n i (j + 1) status
  end.

Fixpoint check_rows (fuel : nat) (n : nat) (i status : Z) : T Z :=
  match n with
  | O => mret status
  | S n => status ← check_row fuel (Z.to_nat SL_INDEX_COUNT) i 0 status;
           check_rows fuel n (i + 1) status
  end.

Definition tlsf_check (fuel : nat) : T Z := check_rows fuel (Z.to_nat FL_INDEX_COUNT) 0 0.
