(* ===== verification/TlsfInv.v ===== *)
(** * TLSF: the physical invariant of the pools

    The pools are described by a finite map [B] from block addresses to block
    descriptions, sentinels included.  [phys_ok] ties the map to the memory:
    boundary tags, flags, back pointers and disjointness.  The lemmas of this
    file say how the map evolves under the three physical updates of the
    allocator - flipping a block's free flag, splitting it, absorbing its
    successor - for any memory that has the right words. *)

From stdpp Require Import prelude gmap list numbers tactics.
From S2P Require Import Prelude Memory TlsfBits Tlsf.

(** ** Block descriptions *)

Record blk := mk_blk {
  bsz : Z;          (* payload size; 0 for a sentinel *)
  bfree : bool;
  bpf : bool;       (* the physically previous block is free *)
  bpool : Z * Z     (* addresses of the first block and the sentinel of the pool *)
}.

Definition set_bfree (f : bool) (x : blk) : blk := mk_blk (bsz x) f (bpf x) (bpool x).
Definition set_bpf (f : bool) (x : blk) : blk := mk_blk (bsz x) (bfree x) f (bpool x).
Definition set_bsz (z : Z) (x : blk) : blk := mk_blk z (bfree x) (bpf x) (bpool x).

(** Address of the physically next block. *)
Definition nxt (a : Z) (x : blk) : Z := a + 8 + bsz x.

(** The header word: the size with the two flags in its low bits. *)
Definition hdr (x : blk) : Z := bsz x + Z.b2z (bfree x) + 2 * Z.b2z (bpf x).

Definition blk_ok (c a : Z) (x : blk) : Prop :=
  0 < a ∧ a mod 8 = 0 ∧ bsz x mod 8 = 0 ∧
  (bsz x = 0 ∧ bfree x = false ∧ a = snd (bpool x) ∨ 24 <= bsz x ∧ nxt a x <= snd (bpool x)) ∧
  fst (bpool x) <= a ∧ snd (bpool x) < 2 ^ 32 + 8 + fst (bpool x) ∧
  a + 16 + bsz x < 2 ^ 64 ∧
  (a + 16 + bsz x <= c ∨ c + 32 <= a + 8).

(** The memory-independent part: sizes, alignment and disjointness. *)
Record shape (c : Z) (B : gmap Z blk) : Prop := {
  po_ctl : 0 < c ∧ c mod 8 = 0 ∧ c + 32 < 2 ^ 64;
  po_blk : ∀ a x, B !! a = Some x → blk_ok c a x;
  po_dis : ∀ a b x y, B !! a = Some x → B !! b = Some y → a < b → nxt a x <= b
}.

Record phys_ok (c : Z) (m : gmap Z Z) (B : gmap Z blk) : Prop := {
  po_shape :> shape c B;
  po_hdr : ∀ a x, B !! a = Some x → load64 m (a + 8) = hdr x;
  po_nxt : ∀ a x, B !! a = Some x → 0 < bsz x →
    ∃ y, B !! nxt a x = Some y ∧ bpf y = bfree x ∧ bpool y = bpool x ∧
         (bfree x = true → load64 m (nxt a x) = a);
  po_prv : ∀ a x, B !! a = Some x → bpf x = true →
    ∃ p y, B !! p = Some y ∧ bfree y = true ∧ nxt p y = a
}.

(** No two physically adjacent blocks are both free, [X] apart. *)
Definition coalesced (B : gmap Z blk) (X : Z → Prop) : Prop :=
  ∀ a x, B !! a = Some x → bfree x = true → bpf x = true → X a.

(** Payload bytes of the blocks in use. *)
Definition in_used (B : gmap Z blk) (x : Z) : Prop :=
  ∃ a b, B !! a = Some b ∧ bfree b = false ∧ a + 16 <= x < a + 16 + bsz b.

(** Bytes of the list pointers of the free blocks and of the null block. *)
Definition link_byte (c : Z) (B : gmap Z blk) (x : Z) : Prop :=
  ∃ a, (a = c ∨ ∃ b, B !! a = Some b ∧ bfree b = true) ∧ a + 16 <= x < a + 32.

(** ** Header words *)

Lemma land_lnot x y : Z.land x (Z.lnot y) = x - Z.land x y.
Proof.
  rewrite <- Z.ldiff_land.
  rewrite (Z.sub_nocarry_ldiff x (Z.land x y)); apply Z.bits_inj'; intros i Hi;
    rewrite ?Z.ldiff_spec, ?Z.land_spec, ?Z.bits_0;
    by destruct (Z.testbit x i), (Z.testbit y i).
Qed.

Lemma lor_alt x y : Z.lor x y = x + y - Z.land x y.
Proof. pose proof (Z.add_lor_land x y). lia. Qed.

Definition flag_bits (f p : bool) : Z := Z.b2z f + 2 * Z.b2z p.

Lemma hdr_flag_bits x : hdr x = bsz x + flag_bits (bfree x) (bpf x).
Proof. unfold hdr, flag_bits. lia. Qed.

Lemma flag_bits_range f p : 0 <= flag_bits f p < 4.
Proof. by destruct f, p. Qed.

Lemma flag_bits_word w : flag_bits (Z.odd w) (Z.odd (w / 2)) = w mod 4.
Proof.
  unfold flag_bits.
  assert (∀ z, Z.b2z (Z.odd z) = z mod 2) as E.
  { intros z. rewrite Zmod_odd. by destruct (Z.odd z). }
  rewrite !E. zlia.
Qed.

Section words.
Context (z : Z) (f p : bool) (Hz : z mod 4 = 0) (Hr : 0 <= z < 2 ^ 64 - 4).

Lemma word_range : 0 <= z + flag_bits f p < 2 ^ 64.
Proof. pose proof (flag_bits_range f p). lia. Qed.

Lemma word_land1 : Z.land (z + flag_bits f p) 1 = Z.b2z f.
Proof.
  change 1 with (2 ^ 1 - 1). rewrite land_ones_mod by lia.
  unfold flag_bits. destruct f, p; cbn; zlia.
Qed.

Lemma word_land3 : Z.land (z + flag_bits f p) 3 = flag_bits f p.
Proof.
  change 3 with (2 ^ 2 - 1). rewrite land_ones_mod by lia.
  unfold flag_bits. destruct f, p; cbn; zlia.
Qed.

Lemma word_land2 : Z.land (z + flag_bits f p) 2 = 2 * Z.b2z p.
Proof.
  rewrite (testbit_b2z_pow2 _ 1) by lia. change (2 ^ 1) with 2.
  rewrite Z.testbit_odd, Z.shiftr_div_pow2 by lia. change (2 ^ 1) with 2.
  assert (Z.odd ((z + flag_bits f p) / 2) = p) as ->; [|by destruct p].
  replace ((z + flag_bits f p) / 2) with (Z.b2z p + 2 * (z / 4))
    by (unfold flag_bits; destruct f, p; cbn; zlia).
  rewrite Z.odd_add_mul_2. by destruct p.
Qed.

Lemma word_size : Z.land (z + flag_bits f p) (cnot 64 header_flags) = z.
Proof.
  rewrite land_cnot by (lia || apply word_range). rewrite land_lnot.
  change header_flags with 3. rewrite word_land3. lia.
Qed.

Lemma word_set_free : Z.lor (z + flag_bits f p) block_header_free_bit = z + flag_bits true p.
Proof.
  change block_header_free_bit with 1. rewrite lor_alt, word_land1.
  unfold flag_bits. cbn [Z.b2z]. lia.
Qed.

Lemma word_set_used : Z.land (z + flag_bits f p) (cnot 64 block_header_free_bit) = z + flag_bits false p.
Proof.
  rewrite land_cnot by (lia || apply word_range). change block_header_free_bit with 1.
  rewrite land_lnot, word_land1. unfold flag_bits. cbn [Z.b2z]. lia.
Qed.

Lemma word_set_prev_free :
  Z.lor (z + flag_bits f p) block_header_prev_free_bit = z + flag_bits f true.
Proof.
  change block_header_prev_free_bit with 2. rewrite lor_alt, word_land2.
  unfold flag_bits. cbn [Z.b2z]. lia.
Qed.

Lemma word_set_prev_used :
  Z.land (z + flag_bits f p) (cnot 64 block_header_prev_free_bit) = z + flag_bits f false.
Proof.
  rewrite land_cnot by (lia || apply word_range). change block_header_prev_free_bit with 2.
  rewrite land_lnot, word_land2. unfold flag_bits. cbn [Z.b2z]. lia.
Qed.

(** [size | (oldsize & flags)] for a size with clear low bits. *)
Lemma word_set_size old :
  Z.lor z (Z.land old header_flags) = z + flag_bits (Z.odd old) (Z.odd (old / 2)).
Proof.
  change header_flags with (2 ^ 2 - 1). rewrite land_ones_mod by lia.
  rewrite flag_bits_word. change (2 ^ 2) with 4.
  rewrite Z.lor_comm. replace z with (z / 4 * 2 ^ 2) by zlia.
  rewrite lor_add by zlia. lia.
Qed.
End words.

(** ** Geometry *)

Section shape.
Context {c : Z} {B : gmap Z blk} (HP : shape c B).

Lemma phys_sep a b x y :
  B !! a = Some x → B !! b = Some y → a = b ∨ nxt a x <= b ∨ nxt b y <= a.
Proof.
  intros Ha Hb. destruct (Z.lt_trichotomy a b) as [Hl|[->|Hl]]; [|auto|].
  - right; left. by eapply po_dis.
  - right; right. by eapply po_dis.
Qed.

Lemma phys_geom a x : B !! a = Some x →
  0 < a ∧ (bsz x = 0 ∨ 24 <= bsz x < 2 ^ 32) ∧ a + 16 + bsz x < 2 ^ 64 ∧
  (a + 16 + bsz x <= c ∨ c + 32 <= a + 8).
Proof.
  intros Ha. destruct (po_blk _ _ HP a x Ha) as (H1 & H2 & H3 & H4 & H5 & H6 & H7 & H8).
  unfold nxt in *. destruct H4 as [[H4 H4']|[H4 H9]]; split_and!; try done; try lia.
Qed.

Lemma phys_free a x : B !! a = Some x → bfree x = true → 24 <= bsz x.
Proof.
  intros Ha Hf. destruct (po_blk _ _ HP a x Ha) as (_ & _ & _ & [(_ & ? & _)|[? _]] & _); [congruence|done].
Qed.

Lemma phys_align a x : B !! a = Some x → a mod 8 = 0 ∧ bsz x mod 8 = 0.
Proof. intros Ha. destruct (po_blk _ _ HP a x Ha) as (_ & H1 & H2 & _). done. Qed.


(** Boundary tags are not list words. *)
Lemma hdr_not_link a x i : B !! a = Some x → a + 8 <= i < a + 16 → ¬ link_byte c B i.
Proof.
  intros Ha Hi (d & Hd & Hdi). pose proof (phys_geom a x Ha).
  destruct Hd as [->|(b & Hb & Hf)]; [lia|]. pose proof (phys_free d b Hb Hf).
  destruct (phys_sep a d x b Ha Hb) as [->|]; [lia|]. unfold nxt in *. lia.
Qed.

Lemma prev_not_link a x i : B !! a = Some x → 0 < bsz x → nxt a x <= i < nxt a x + 8 → ¬ link_byte c B i.
Proof.
  intros Ha Hz Hi (d & Hd & Hdi). pose proof (phys_geom a x Ha).
  destruct Hd as [->|(b & Hb & Hf)]; [unfold nxt in *; lia|]. pose proof (phys_free d b Hb Hf).
  destruct (phys_sep a d x b Ha Hb) as [->|]; [simplify_eq|]; unfold nxt in *; lia.
Qed.
End shape.

Section phys.
Context {c : Z} {m : gmap Z Z} {B : gmap Z blk} (HP : phys_ok c m B).

Lemma phys_links m' : same_outside (link_byte c B) m m' → phys_ok c m' B.
Proof.
  intros HS. constructor; try apply HP.
  - intros a x Ha. rewrite <- (po_hdr _ _ _ HP a x Ha).
    eapply same_outside_load64; [done|]. intros i Hi. eapply hdr_not_link; [apply HP|done|lia].
  - intros a x Ha Hz. destruct (po_nxt _ _ _ HP a x Ha Hz) as (y & H1 & H2 & H3 & H4).
    exists y. split_and!; try done. intros Hfree. rewrite <- (H4 Hfree) at 2.
    eapply same_outside_load64; [done|]. intros i Hi. by apply (prev_not_link HP a x).
Qed.

Lemma used_not_link i : in_used B i → ¬ link_byte c B i.
Proof.
  intros (a & x & Ha & Hu & Hi) (d & Hd & Hdi).
  pose proof (phys_geom HP a x Ha). destruct Hd as [->|(b & Hb & Hf)]; [lia|].
  pose proof (phys_free HP d b Hb Hf).
  destruct (phys_sep HP a d x b Ha Hb) as [->|]; [congruence|unfold nxt in *; lia].
Qed.
End phys.


(** ** Flipping a block's free flag *)

Section set_flag.
Context {c : Z} {m : gmap Z Z} {B : gmap Z blk} (HP : phys_ok c m B).
Context (m' : gmap Z Z) (a : Z) (x y : blk) (f : bool).
Context (Ha : B !! a = Some x) (Hz : 0 < bsz x) (Hn : B !! nxt a x = Some y).
Context (Hpool : bpool y = bpool x).
Context (H1 : load64 m' (a + 8) = hdr (set_bfree f x)).
Context (H2 : load64 m' (nxt a x + 8) = hdr (set_bpf f y)).
Context (H3 : f = true → load64 m' (nxt a x) = a).
Context (Ho : ∀ w, apart w (a + 8) → apart w (nxt a x) → apart w (nxt a x + 8) →
                   load64 m' w = load64 m w).

Lemma set_flag_lookup z w :
  <[a := set_bfree f x]> (<[nxt a x := set_bpf f y]> B) !! z = Some w ↔
  (z = a ∧ w = set_bfree f x) ∨ (z = nxt a x ∧ w = set_bpf f y) ∨
  (z ≠ a ∧ z ≠ nxt a x ∧ B !! z = Some w).
Proof.
  clear Ho H1 H2 H3 Hn Hpool.
  assert (a ≠ nxt a x) by (unfold nxt; lia). rewrite !lookup_insert_Some. naive_solver.
Qed.

(** Words of a third block are untouched. *)
Lemma set_flag_other z w : z ≠ a → z ≠ nxt a x → B !! z = Some w →
  load64 m' (z + 8) = load64 m (z + 8) ∧
  (0 < bsz w → load64 m' (nxt z w) = load64 m (nxt z w)).
Proof.
  intros Hza Hzn Hzw.
  pose proof (phys_geom HP a x Ha). pose proof (phys_geom HP _ _ Hn). pose proof (phys_geom HP z w Hzw).
  destruct (phys_sep HP a z x w Ha Hzw) as [?|S1]; [done|].
  destruct (phys_sep HP (nxt a x) z y w Hn Hzw) as [?|S2]; [done|].
  unfold nxt, apart in *. split; [|intros]; apply Ho; lia.
Qed.

Lemma phys_set_flag : phys_ok c m' (<[a := set_bfree f x]> (<[nxt a x := set_bpf f y]> B)).
Proof.
  pose proof (phys_geom HP a x Ha) as Ga. pose proof (phys_geom HP _ _ Hn) as Gn.
  constructor; [constructor|..].
  - apply HP.
  - intros z w [[-> ->]|[[-> ->]|(?&?&Hw)]]%set_flag_lookup.
    + destruct (po_blk _ _ HP a x Ha) as (?&?&?&[[? _]|]&?); [lia|]. unfold blk_ok. cbn. tauto.
    + apply (po_blk _ _ HP (nxt a x) y Hn).
    + by apply (po_blk _ _ HP).
  - intros z b w v Hz' Hb Hlt. apply set_flag_lookup in Hz', Hb.
    assert (∃ w0, B !! z = Some w0 ∧ bsz w0 = bsz w) as (w0&Hw0&E) by naive_solver.
    assert (∃ v0, B !! b = Some v0) as (v0&Hv0) by naive_solver.
    unfold nxt. rewrite <- E. exact (po_dis _ _ HP z b w0 v0 Hw0 Hv0 Hlt).
  - intros z w [[-> ->]|[[-> ->]|(?&?&Hw)]]%set_flag_lookup; [done..|].
    destruct (set_flag_other z w) as [-> _]; auto. by apply (po_hdr _ _ _ HP).
  - intros z w [[-> ->]|[[-> ->]|(Hza&Hzn&Hw)]]%set_flag_lookup Hzw.
    + exists (set_bpf f y). split_and!; try done. apply set_flag_lookup. by right; left.
    + destruct (po_nxt _ _ _ HP _ _ Hn Hzw) as (y'&L1&L2&L3&L4).
      assert (nxt (nxt a x) y ≠ a ∧ nxt (nxt a x) y ≠ nxt a x) as [] by (unfold nxt in *; lia).
      exists y'. change (nxt (nxt a x) (set_bpf f y)) with (nxt (nxt a x) y).
      split_and!; try done. { apply set_flag_lookup. by right; right. }
      intros Hfy. rewrite Ho; [by apply L4|unfold apart, nxt in *; cbn in *; lia..].
    + destruct (po_nxt _ _ _ HP _ _ Hw Hzw) as (y'&L1&L2&L3&L4).
      destruct (set_flag_other z w) as [_ Hword]; auto. specialize (Hword Hzw).
      destruct (phys_sep HP a z x w Ha Hw) as [?|S1]; [done|].
      destruct (phys_sep HP (nxt a x) z y w Hn Hw) as [?|S2]; [done|].
      pose proof (phys_geom HP z w Hw).
      assert (nxt z w ≠ nxt a x) by (unfold nxt in *; lia).
      destruct (decide (nxt z w = a)) as [E|E].
      * rewrite E in L1, L4, Hword |- *. rewrite Ha in L1. injection L1 as <-.
        exists (set_bfree f x). cbn.
        split_and!; try done.
        { apply set_flag_lookup. by left. } { intros. rewrite Hword. auto. }
      * exists y'. split_and!; try done. { apply set_flag_lookup. by right; right. }
        intros. rewrite Hword. auto.
  - intros z w [[-> ->]|[[-> ->]|(Hza&Hzn&Hw)]]%set_flag_lookup Hpf; cbn in Hpf.
    + destruct (po_prv _ _ _ HP _ _ Ha Hpf) as (p&v&P1&P2&P3).
      pose proof (phys_geom HP p v P1).
      exists p, v. split_and!; try done. apply set_flag_lookup. right; right.
      unfold nxt in *. split_and!; [lia..|done].
    + exists a, (set_bfree f x). split_and!; try done. apply set_flag_lookup. by left.
    + destruct (po_prv _ _ _ HP _ _ Hw Hpf) as (p&v&P1&P2&P3).
      assert (p ≠ a). { intros ->. simplify_eq. }
      destruct (decide (p = nxt a x)) as [->|].
      * simplify_eq. exists (nxt a x), (set_bpf f y). split_and!; try done.
        apply set_flag_lookup. by right; left.
      * exists p, v. split_and!; try done. apply set_flag_lookup. by right; right.
Qed.
End set_flag.
