(* ===== verification/TlsfSplit.v ===== *)
(** * TLSF: splitting a block and absorbing its successor, physically *)

From stdpp Require Import prelude gmap list numbers tactics.
From S2P Require Import Prelude Memory TlsfBits Tlsf TlsfInv.

(** ** Splitting *)

Definition split_map (B : gmap Z blk) (a size : Z) (x y : blk) : gmap Z blk :=
  <[a := set_bsz size x]>
  (<[a + 8 + size := mk_blk (bsz x - size - 8) true (bfree x) (bpool x)]>
  (<[nxt a x := set_bpf true y]> B)).

Section split.
Context {c : Z} {m : gmap Z Z} {B : gmap Z blk} (HP : phys_ok c m B).
Context (m' : gmap Z Z) (a size : Z) (x y : blk).
Context (Ha : B !! a = Some x) (Hn : B !! nxt a x = Some y) (Hpool : bpool y = bpool x).
Context (Hs : size mod 8 = 0) (Hs1 : 24 <= size) (Hs2 : size + 32 <= bsz x).
Let rem := a + 8 + size.
Let xr := mk_blk (bsz x - size - 8) true (bfree x) (bpool x).

Lemma split_rem_fresh : B !! rem = None.
Proof.
  destruct (B !! rem) as [w|] eqn:E; [|done].
  destruct (phys_sep HP a rem x w Ha E); unfold rem, nxt in *; pose proof (phys_geom HP _ _ E); lia.
Qed.

Lemma split_lookup z w :
  split_map B a size x y !! z = Some w ↔
  (z = a ∧ w = set_bsz size x) ∨ (z = rem ∧ w = xr) ∨ (z = nxt a x ∧ w = set_bpf true y) ∨
  (z ≠ a ∧ z ≠ rem ∧ z ≠ nxt a x ∧ B !! z = Some w).
Proof.
  assert (a ≠ rem ∧ a ≠ nxt a x ∧ rem ≠ nxt a x) as (?&?&?) by (unfold rem, nxt; lia).
  clear Hs Hs1 Hs2. unfold split_map. fold rem xr. rewrite !lookup_insert_Some. naive_solver.
Qed.

Context (H1 : load64 m' (a + 8) = hdr (set_bsz size x)).
Context (H2 : load64 m' (rem + 8) = hdr xr).
Context (H3 : load64 m' (nxt a x + 8) = hdr (set_bpf true y)).
Context (H4 : load64 m' (nxt a x) = rem).
Context (H5 : bfree x = true → load64 m' rem = a).
Context (Ho : ∀ w, apart w (a + 8) → apart w rem → apart w (rem + 8) →
                   apart w (nxt a x) → apart w (nxt a x + 8) → load64 m' w = load64 m w).

Lemma split_other z w : z ≠ a → z ≠ nxt a x → B !! z = Some w →
  load64 m' (z + 8) = load64 m (z + 8) ∧
  (0 < bsz w → load64 m' (nxt z w) = load64 m (nxt z w)).
Proof.
  intros Hza Hzn Hzw.
  pose proof (phys_geom HP a x Ha). pose proof (phys_geom HP _ _ Hn). pose proof (phys_geom HP z w Hzw).
  destruct (phys_sep HP a z x w Ha Hzw) as [?|S1]; [done|].
  destruct (phys_sep HP (nxt a x) z y w Hn Hzw) as [?|S2]; [done|].
  unfold rem, nxt, apart in *. split; [|intros]; apply Ho; lia.
Qed.

Lemma split_blk_ok z w : split_map B a size x y !! z = Some w → blk_ok c z w.
Proof.
  destruct (po_blk _ _ HP a x Ha) as (A1&A2&A3&A4&A5&A6&A7&A8).
  intros [[-> ->]|[[-> ->]|[[-> ->]|(?&?&?&Hw)]]]%split_lookup.
  - unfold blk_ok, nxt in *. cbn. split_and!; try done; lia.
  - unfold blk_ok, rem, nxt in *. cbn. split_and!; try done; try lia; zlia.
  - apply (po_blk _ _ HP (nxt a x) y Hn).
  - by apply (po_blk _ _ HP).
Qed.

Lemma split_nxt z w : split_map B a size x y !! z = Some w → 0 < bsz w →
  ∃ v, split_map B a size x y !! nxt z w = Some v ∧ bpf v = bfree w ∧ bpool v = bpool w ∧
       (bfree w = true → load64 m' (nxt z w) = z).
Proof.
  pose proof (phys_geom HP a x Ha) as Ga. pose proof (phys_geom HP _ _ Hn) as Gn.
  intros [[-> ->]|[[-> ->]|[[-> ->]|(Hza&Hzr&Hzn&Hw)]]]%split_lookup Hzw.
  - exists xr. split_and!; try done. apply split_lookup. right; left. done.
  - exists (set_bpf true y).
    replace (nxt rem xr) with (nxt a x) by (unfold nxt, rem, xr; cbn; lia).
    split_and!; try done. apply split_lookup. by right; right; left.
  - destruct (po_nxt _ _ _ HP _ _ Hn Hzw) as (y'&L1&L2&L3&L4).
    exists y'. change (nxt (nxt a x) (set_bpf true y)) with (nxt (nxt a x) y).
    split_and!; try done.
    + apply split_lookup. right; right; right. unfold rem, nxt in *. split_and!; try done; lia.
    + intros Hfy. rewrite Ho; [by apply L4|unfold apart, rem, nxt in *; cbn in *; lia..].
  - destruct (po_nxt _ _ _ HP _ _ Hw Hzw) as (y'&L1&L2&L3&L4).
    destruct (split_other z w) as [_ Hword]; auto. specialize (Hword Hzw).
    destruct (phys_sep HP a z x w Ha Hw) as [?|S1]; [done|].
    destruct (phys_sep HP (nxt a x) z y w Hn Hw) as [?|S2]; [done|].
    pose proof (phys_geom HP z w Hw).
    assert (nxt z w ≠ nxt a x ∧ nxt z w ≠ rem) as [? ?] by (unfold rem, nxt in *; lia).
    destruct (decide (nxt z w = a)) as [E|E].
    + rewrite E in L1, L4, Hword |- *. rewrite Ha in L1. injection L1 as <-.
      exists (set_bsz size x). cbn. split_and!; try done.
      { apply split_lookup. by left. } { intros. rewrite Hword. auto. }
    + exists y'. split_and!; try done. { apply split_lookup. by right; right; right. }
      intros. rewrite Hword. auto.
Qed.

Lemma split_prv z w : split_map B a size x y !! z = Some w → bpf w = true →
  ∃ p v, split_map B a size x y !! p = Some v ∧ bfree v = true ∧ nxt p v = z.
Proof.
  intros [[-> ->]|[[-> ->]|[[-> ->]|(Hza&Hzr&Hzn&Hw)]]]%split_lookup Hpf; cbn in Hpf.
  - destruct (po_prv _ _ _ HP _ _ Ha Hpf) as (p&v&P1&P2&P3).
    pose proof (phys_free HP p v P1 P2).
    exists p, v. split_and!; try done. apply split_lookup. right; right; right.
    unfold rem, nxt in *. split_and!; [lia..|done].
  - exists a, (set_bsz size x). split_and!; try done. apply split_lookup. by left.
  - exists rem, xr. split_and!; try done. { apply split_lookup. by right; left. }
    unfold nxt, rem, xr; cbn; lia.
  - destruct (po_prv _ _ _ HP _ _ Hw Hpf) as (p&v&P1&P2&P3).
    assert (p ≠ a). { intros ->. simplify_eq. }
    assert (p ≠ rem). { intros ->. rewrite split_rem_fresh in P1. done. }
    destruct (decide (p = nxt a x)) as [->|].
    + rewrite Hn in P1. injection P1 as <-. exists (nxt a x), (set_bpf true y).
      split_and!; try done. apply split_lookup. by right; right; left.
    + exists p, v. split_and!; try done. apply split_lookup. by right; right; right.
Qed.

Lemma split_dis z b w v :
  split_map B a size x y !! z = Some w → split_map B a size x y !! b = Some v →
  z < b → nxt z w <= b.
Proof.
  intros Hz Hb Hlt. apply split_lookup in Hz, Hb.
  assert (∀ b' v', B !! b' = Some v' → b' = a ∨ nxt a x <= b' ∨ (b' < a ∧ nxt b' v' <= a)) as S.
  { intros b' v' Hb'. pose proof (phys_geom HP b' v' Hb').
    destruct (phys_sep HP a b' x v' Ha Hb'); unfold nxt in *; lia. }
  destruct Hz as [[-> ->]|[[-> ->]|[[-> ->]|(?&?&?&Hw)]]],
           Hb as [[-> ->]|[[-> ->]|[[-> ->]|(?&?&?&Hv)]]];
    try (specialize (S _ _ Hw)); try (specialize (S _ _ Hv));
    first [ exact (po_dis _ _ HP (nxt a x) b y v Hn Hv Hlt)
          | exact (po_dis _ _ HP z (nxt a x) w y Hw Hn Hlt)
          | exact (po_dis _ _ HP z b w v Hw Hv Hlt)
          | unfold rem, nxt in *; cbn in *; lia ].
Qed.

Lemma phys_split : phys_ok c m' (split_map B a size x y).
Proof.
  constructor; [constructor; [apply HP|exact split_blk_ok|exact split_dis]| |exact split_nxt|exact split_prv].
  intros z w [[-> ->]|[[-> ->]|[[-> ->]|(?&?&?&Hw)]]]%split_lookup; [done..|].
  destruct (split_other z w) as [-> _]; auto. by apply (po_hdr _ _ _ HP).
Qed.
End split.

(** ** Absorbing the next block *)

Definition absorb_map (B : gmap Z blk) (a : Z) (x y z : blk) (f : bool) : gmap Z blk :=
  <[a := mk_blk (bsz x + 8 + bsz y) f (bpf x) (bpool x)]>
  (<[nxt (nxt a x) y := set_bpf f z]> (delete (nxt a x) B)).

Section absorb.
Context {c : Z} {m : gmap Z Z} {B : gmap Z blk} (HP : phys_ok c m B).
Context (m' : gmap Z Z) (a : Z) (x y z : blk) (f : bool).
Let b := nxt a x.
Let n := nxt b y.
Let x' := mk_blk (bsz x + 8 + bsz y) f (bpf x) (bpool x).
Context (Ha : B !! a = Some x) (Hb : B !! b = Some y) (Hn : B !! n = Some z).
Context (Hzx : 0 < bsz x) (Hzy : 0 < bsz y).
Context (Hpool : bpool y = bpool x) (Hpool' : bpool z = bpool x).

Lemma absorb_lookup v w :
  absorb_map B a x y z f !! v = Some w ↔
  (v = a ∧ w = x') ∨ (v = n ∧ w = set_bpf f z) ∨
  (v ≠ a ∧ v ≠ b ∧ v ≠ n ∧ B !! v = Some w).
Proof.
  assert (a ≠ b ∧ a ≠ n ∧ b ≠ n) as (?&?&?) by (unfold n, b, nxt; lia).
  clear Hzx Hzy. unfold absorb_map. fold b. fold n x'.
  rewrite !lookup_insert_Some, lookup_delete_Some. naive_solver.
Qed.

Context (H1 : load64 m' (a + 8) = hdr x').
Context (H2 : load64 m' (n + 8) = hdr (set_bpf f z)).
Context (H3 : f = true → load64 m' n = a).
Context (Ho : ∀ w, apart w (a + 8) → apart w n → apart w (n + 8) → load64 m' w = load64 m w).

Lemma absorb_other v w : v ≠ a → v ≠ b → v ≠ n → B !! v = Some w →
  load64 m' (v + 8) = load64 m (v + 8) ∧
  (0 < bsz w → load64 m' (nxt v w) = load64 m (nxt v w)).
Proof.
  intros Hva Hvb Hvn Hvw.
  pose proof (phys_geom HP a x Ha). pose proof (phys_geom HP _ _ Hn). pose proof (phys_geom HP v w Hvw).
  destruct (phys_sep HP a v x w Ha Hvw) as [?|S1]; [done|].
  destruct (phys_sep HP b v y w Hb Hvw) as [?|S2]; [done|].
  destruct (phys_sep HP n v z w Hn Hvw) as [?|S3]; [done|].
  unfold n, b, nxt, apart in *. split; [|intros]; apply Ho; lia.
Qed.

Lemma absorb_blk_ok v w : absorb_map B a x y z f !! v = Some w → blk_ok c v w.
Proof.
  destruct (po_blk _ _ HP a x Ha) as (A1&A2&A3&A4&A5&A6&A7&A8).
  destruct (po_blk _ _ HP b y Hb) as (B1&B2&B3&B4&B5&B6&B7&B8).
  intros [[-> ->]|[[-> ->]|(?&?&?&Hw)]]%absorb_lookup.
  - rewrite Hpool in B4. unfold blk_ok, b, nxt in *. cbn.
    split_and!; try done; try lia; zlia.
  - apply (po_blk _ _ HP n z Hn).
  - by apply (po_blk _ _ HP).
Qed.

Lemma absorb_nxt v w : absorb_map B a x y z f !! v = Some w → 0 < bsz w →
  ∃ u, absorb_map B a x y z f !! nxt v w = Some u ∧ bpf u = bfree w ∧ bpool u = bpool w ∧
       (bfree w = true → load64 m' (nxt v w) = v).
Proof.
  pose proof (phys_geom HP a x Ha) as Ga. pose proof (phys_geom HP _ _ Hn) as Gn.
  intros [[-> ->]|[[-> ->]|(Hva&Hvb&Hvn&Hw)]]%absorb_lookup Hvw.
  - replace (nxt a x') with n by (unfold n, b, nxt, x'; cbn; lia).
    exists (set_bpf f z). split_and!; try done. apply absorb_lookup. by right; left.
  - destruct (po_nxt _ _ _ HP _ _ Hn Hvw) as (y'&L1&L2&L3&L4).
    exists y'. change (nxt n (set_bpf f z)) with (nxt n z). split_and!; try done.
    + apply absorb_lookup. right; right. unfold n, b, nxt in *. cbn in *. split_and!; try done; lia.
    + intros Hfy. rewrite Ho; [by apply L4|unfold n, b, apart, nxt in *; cbn in *; lia..].
  - destruct (po_nxt _ _ _ HP _ _ Hw Hvw) as (y'&L1&L2&L3&L4).
    destruct (absorb_other v w) as [_ Hword]; auto. specialize (Hword Hvw).
    destruct (phys_sep HP a v x w Ha Hw) as [?|S1]; [done|].
    destruct (phys_sep HP b v y w Hb Hw) as [?|S2]; [done|].
    destruct (phys_sep HP n v z w Hn Hw) as [?|S3]; [done|].
    pose proof (phys_geom HP v w Hw).
    assert (nxt v w ≠ b ∧ nxt v w ≠ n) as [? ?] by (unfold n, b, nxt in *; lia).
    destruct (decide (nxt v w = a)) as [E|E].
    + rewrite E in L1, L4, Hword |- *. rewrite Ha in L1. injection L1 as <-.
      exists x'. cbn. split_and!; try done.
      { apply absorb_lookup. by left. } { intros. rewrite Hword. auto. }
    + exists y'. split_and!; try done. { apply absorb_lookup. by right; right. }
      intros. rewrite Hword. auto.
Qed.

Lemma absorb_prv v w : absorb_map B a x y z f !! v = Some w → bpf w = true →
  ∃ p u, absorb_map B a x y z f !! p = Some u ∧ bfree u = true ∧ nxt p u = v.
Proof.
  intros [[-> ->]|[[-> ->]|(Hva&Hvb&Hvn&Hw)]]%absorb_lookup Hpf; cbn in Hpf.
  - destruct (po_prv _ _ _ HP _ _ Ha Hpf) as (p&v&P1&P2&P3).
    pose proof (phys_free HP p v P1 P2).
    exists p, v. split_and!; try done. apply absorb_lookup. right; right.
    unfold n, b, nxt in *. split_and!; [lia..|done].
  - exists a, x'. split_and!; try done. { apply absorb_lookup. by left. }
    unfold n, b, nxt, x'; cbn; lia.
  - destruct (po_prv _ _ _ HP _ _ Hw Hpf) as (p&u&P1&P2&P3).
    assert (p ≠ a). { intros ->. rewrite Ha in P1. by simplify_eq. }
    assert (p ≠ b). { intros ->. rewrite Hb in P1. by simplify_eq. }
    destruct (decide (p = n)) as [->|].
    + rewrite Hn in P1. injection P1 as <-. exists n, (set_bpf f z).
      split_and!; try done. apply absorb_lookup. by right; left.
    + exists p, u. split_and!; try done. apply absorb_lookup. by right; right.
Qed.

Lemma absorb_dis v u w t :
  absorb_map B a x y z f !! v = Some w → absorb_map B a x y z f !! u = Some t →
  v < u → nxt v w <= u.
Proof.
  intros Hv Hu Hlt. apply absorb_lookup in Hv, Hu.
  assert (∀ u t, B !! u = Some t → u ≠ a → u ≠ b → n <= u ∨ (u < a ∧ nxt u t <= a)) as S.
  { intros u' t' Hu' ? ?. pose proof (phys_geom HP u' t' Hu').
    destruct (phys_sep HP a u' x t' Ha Hu') as [?|?]; [done|].
    destruct (phys_sep HP b u' y t' Hb Hu') as [?|?]; [done|].
    unfold n, b, nxt in *. lia. }
  destruct Hv as [[-> ->]|[[-> ->]|(?&?&?&Hw)]], Hu as [[-> ->]|[[-> ->]|(?&?&?&Ht)]];
    try (specialize (S _ _ Hw)); try (specialize (S _ _ Ht));
    first [ exact (po_dis _ _ HP n u z t Hn Ht Hlt)
          | exact (po_dis _ _ HP v n w z Hw Hn Hlt)
          | exact (po_dis _ _ HP v u w t Hw Ht Hlt)
          | unfold n, b, nxt in *; cbn in *; lia ].
Qed.

Lemma phys_absorb : phys_ok c m' (absorb_map B a x y z f).
Proof.
  constructor; [constructor; [apply HP|exact absorb_blk_ok|exact absorb_dis]| |exact absorb_nxt|exact absorb_prv].
  intros v w [[-> ->]|[[-> ->]|(?&?&?&Hw)]]%absorb_lookup; [done..|].
  destruct (absorb_other v w) as [-> _]; auto. by apply (po_hdr _ _ _ HP).
Qed.
End absorb.
