(* ===== verification/TlsfLists.v ===== *)
(** * TLSF: the segregated free lists

    [lists_ok s B L X]: list [L i j] is the doubly linked list whose head is
    [blocks[i][j]]; it holds exactly the free blocks of class [(i, j)] that are
    not in the exception set [X] (blocks an operation holds in hand), and the two
    levels of bitmaps say which lists are non-empty. *)

From stdpp Require Import prelude gmap list numbers tactics.
From S2P Require Import Prelude Memory TlsfBits Tlsf TlsfInv.

(** ** Doubly linked segments *)

(** The nodes [l] are linked in order; the first one's [prev_free] is [p] and
    the last one's [next_free] is [n]. *)
Fixpoint dseg (m : gmap Z Z) (p : Z) (l : list Z) (n : Z) : Prop :=
  match l with
  | [] => True
  | a :: l => load64 m (a + 24) = p ∧ load64 m (a + 16) = List.hd n l ∧ dseg m a l n
  end.

Definition node_ok (m m' : gmap Z Z) (a : Z) : Prop :=
  load64 m' (a + 16) = load64 m (a + 16) ∧ load64 m' (a + 24) = load64 m (a + 24).

Lemma dseg_frame m m' p l n :
  (∀ a, a ∈ l → node_ok m m' a) → dseg m p l n → dseg m' p l n.
Proof.
  revert p. induction l as [|a l IH]; intros p Hf; [done|]. intros (H1 & H2 & H3).
  destruct (Hf a ltac:(set_solver)) as [F1 F2]. cbn. rewrite F1, F2. split_and!; try done.
  apply IH; [|done]. intros b Hb. apply Hf. set_solver.
Qed.

Lemma last_cons_def (l : list Z) a p : List.last (a :: l) p = List.last l a.
Proof.
  revert a p. induction l as [|b l IH]; intros a p; [done|].
  change (List.last (b :: l) p = List.last (b :: l) a). by rewrite (IH b p), (IH b a).
Qed.

Lemma dseg_app m p l1 l2 n :
  dseg m p (l1 ++ l2) n ↔ dseg m p l1 (List.hd n l2) ∧ dseg m (List.last l1 p) l2 n.
Proof.
  revert p. induction l1 as [|a l1 IH]; intros p; [cbn; tauto|].
  cbn [app dseg]. rewrite IH.
  rewrite last_cons_def.
  destruct l1; cbn [app List.hd]; tauto.
Qed.

Lemma last_snoc_def (l : list Z) b p : List.last (l ++ [b]) p = b.
Proof. apply List.last_last. Qed.

Lemma dseg_snoc m p l b n :
  dseg m p (l ++ [b]) n ↔
  dseg m p l b ∧ load64 m (b + 24) = List.last l p ∧ load64 m (b + 16) = n.
Proof. rewrite dseg_app. cbn. tauto. Qed.

Lemma dseg_cons m p a l n :
  dseg m p (a :: l) n ↔ load64 m (a + 24) = p ∧ load64 m (a + 16) = List.hd n l ∧ dseg m a l n.
Proof. done. Qed.

(** Unlinking [a]: two stores. *)
Definition unlink (m : gmap Z Z) (p n : Z) : gmap Z Z :=
  store64 (store64 m (n + 24) p) (p + 16) n.

Lemma unlink_node m p n a :
  (p = a ∨ apart (a + 16) (p + 16) ∧ apart (a + 24) (p + 16)) →
  (n = a ∨ apart (a + 16) (n + 24) ∧ apart (a + 24) (n + 24)) →
  0 <= p < 2 ^ 64 → 0 <= n < 2 ^ 64 →
  load64 (unlink m p n) (a + 16) = (if decide (p = a) then n else load64 m (a + 16)) ∧
  load64 (unlink m p n) (a + 24) = (if decide (n = a) then p else load64 m (a + 24)).
Proof.
  intros Hp Hn Rp Rn. unfold unlink. split.
  - case_decide as E.
    + subst. by rewrite load64_store64_eq.
    + destruct Hp as [?|[? ?]]; [done|]. rewrite load64_apart by done.
      destruct Hn as [->|[? ?]]; rewrite load64_apart; try done. unfold apart; lia.
  - rewrite load64_apart.
    2:{ destruct Hp as [->|[? ?]]; [unfold apart; lia|done]. }
    case_decide as E.
    + subst. by rewrite load64_store64_eq.
    + destruct Hn as [?|[? ?]]; [done|]. by rewrite load64_apart.
Qed.

(** Nodes of the same segment, or the null block, are at least 16 bytes apart. *)
Definition spaced (l : list Z) : Prop :=
  ∀ a b, a ∈ l → b ∈ l → a ≠ b → a + 16 <= b ∨ b + 16 <= a.

Lemma spaced_apart l a b : spaced l → a ∈ l → b ∈ l →
  b = a ∨ apart (a + 16) (b + 16) ∧ apart (a + 24) (b + 16) ∧
          apart (a + 16) (b + 24) ∧ apart (a + 24) (b + 24).
Proof.
  intros HS Ha Hb. destruct (decide (b = a)) as [->|Hne]; [by left|]. right.
  destruct (HS a b Ha Hb) as [?|?]; [congruence|..]; unfold apart; lia.
Qed.

Lemma unlink_other m p n a l :
  spaced l → p ∈ l → n ∈ l → a ∈ l → a ≠ p → a ≠ n →
  (∀ b, b ∈ l → 0 <= b < 2 ^ 64) → node_ok m (unlink m p n) a.
Proof.
  intros HS Hp Hn Ha Hap Han HR.
  destruct (spaced_apart l a p HS Ha Hp) as [?|(?&?&?&?)]; [congruence|].
  destruct (spaced_apart l a n HS Ha Hn) as [?|(?&?&?&?)]; [congruence|].
  destruct (unlink_node m p n a) as [E1 E2]; auto.
  rewrite decide_False in E1 by congruence. rewrite decide_False in E2 by congruence. done.
Qed.

Lemma dseg_unlink m c l1 a l2 :
  NoDup (c :: l1 ++ a :: l2) → spaced (c :: l1 ++ a :: l2) →
  (∀ b, b ∈ c :: l1 ++ a :: l2 → 0 <= b < 2 ^ 64) →
  dseg m c (l1 ++ a :: l2) c →
  dseg (unlink m (List.last l1 c) (List.hd c l2)) c (l1 ++ l2) c.
Proof.
  intros HN HS HR HD. apply dseg_app in HD as [HD1 HD2]. cbn [List.hd] in HD1.
  apply dseg_cons in HD2 as (Ep & En & HD2).
  set (p := List.last l1 c). set (n := List.hd c l2). set (l := c :: l1 ++ a :: l2) in *.
  assert (p ∈ l) as Hp.
  { unfold p, l. destruct l1 as [|b l1' _] using rev_ind; [set_solver|].
    rewrite last_snoc_def. set_solver. }
  assert (n ∈ l) as Hn by (unfold n, l; destruct l2; set_solver).
  apply dseg_app. split.
  - destruct l1 as [|b l1' _] using rev_ind; [done|]. unfold p. rewrite last_snoc_def in *.
    apply dseg_snoc in HD1 as (D1 & D2 & D3).
    assert (b ≠ n) as Hbn.
    { intros ->. clear -HN. unfold l, n in HN. rewrite <- app_assoc in HN.
      apply list.NoDup_cons in HN as [H1 HN]. apply list.NoDup_app in HN as (_ & _ & HN).
      apply list.NoDup_cons in HN as [H2 _]. destruct l2; cbn in *; set_solver. }
    assert (b ∈ l) as Hbl by (unfold l; set_solver).
    destruct (unlink_node m b n b) as [E1 E2]; auto.
    { destruct (spaced_apart l b n HS Hbl Hn) as [?|(?&?&?&?)]; auto. }
    rewrite decide_True in E1 by done. rewrite decide_False in E2 by congruence.
    apply dseg_snoc. rewrite E1, E2. split_and!; try done.
    eapply dseg_frame; [|done]. intros d Hd. apply (unlink_other _ _ _ _ l); auto.
    + unfold l. set_solver.
    + intros ->. clear -HN Hd. unfold l in HN.
      apply list.NoDup_cons in HN as [_ HN]. apply list.NoDup_app in HN as [HN _].
      apply list.NoDup_app in HN as (_ & HN & _). set_solver.
    + intros ->. clear -HN Hd. unfold l in HN. apply list.NoDup_cons in HN as [HN1 HN].
      rewrite <- app_assoc in HN. apply list.NoDup_app in HN as (_ & HN & _). unfold n in *.
      destruct l2; cbn in *; [set_solver|]. eapply (HN z); set_solver.
  - fold p. destruct l2 as [|b l2]; [done|]. cbn in n. subst n.
    apply dseg_cons in HD2 as (D1 & D2 & D3).
    assert (p ≠ b) as Hpb.
    { intros Epb. clear -HN Epb. unfold l, p in HN, Epb. apply list.NoDup_cons in HN as [H1 HN].
      destruct l1 as [|d l1' _] using rev_ind; [cbn in *; set_solver|].
      rewrite last_snoc_def in Epb. subst. apply list.NoDup_app in HN as (_ & HN & _).
      apply (HN b); set_solver. }
    destruct (unlink_node m p b b) as [E1 E2]; auto.
    { destruct (spaced_apart l b p HS Hn Hp) as [?|(?&?&?&?)]; auto. }
    rewrite decide_True in E2 by done. rewrite decide_False in E1 by congruence.
    apply dseg_cons. rewrite E1, E2. split_and!; try done.
    eapply dseg_frame; [|done]. intros d Hd. apply (unlink_other _ _ _ _ l); auto.
    + unfold l. set_solver.
    + intros ->. clear -HN Hd. unfold l, p in *. apply list.NoDup_cons in HN as [HN1 HN].
      destruct l1 as [|d l1' _] using rev_ind; [cbn in *; set_solver|].
      rewrite last_snoc_def in Hd. apply list.NoDup_app in HN as (_ & HN & _).
      apply (HN d); set_solver.
    + intros ->. clear -HN Hd. unfold l in HN. apply list.NoDup_cons in HN as [_ HN].
      apply list.NoDup_app in HN as (_ & _ & HN). apply list.NoDup_cons in HN as [_ HN].
      apply list.NoDup_cons in HN as [HN _]. done.
Qed.

(** Linking [a] in front of [l]: three stores. *)
Definition link_front (m : gmap Z Z) (c a h : Z) : gmap Z Z :=
  store64 (store64 (store64 m (a + 16) h) (a + 24) c) (h + 24) a.

Lemma dseg_link_front m c a l :
  NoDup (c :: a :: l) → spaced (c :: a :: l) → (∀ b, b ∈ c :: a :: l → 0 <= b < 2 ^ 64) →
  dseg m c l c → dseg (link_front m c a (List.hd c l)) c (a :: l) c.
Proof.
  intros HN HS HR HD. set (h := List.hd c l). set (N := c :: a :: l) in *.
  assert (h ∈ N ∧ h ≠ a) as [Hh Hha].
  { unfold h, N in *. clear -HN. apply list.NoDup_cons in HN as [H1 HN]. apply list.NoDup_cons in HN as [H2 HN].
    destruct l; cbn; set_solver. }
  assert (a ∈ N) as HaN by (unfold N; set_solver).
  pose proof (HR a HaN). pose proof (HR c ltac:(unfold N; set_solver)). pose proof (HR h Hh).
  destruct (spaced_apart N a h HS HaN Hh) as [?|(S1&S2&S3&S4)]; [done|].
  apply dseg_cons. unfold link_front. split_and!.
  - rewrite load64_apart by done. by rewrite load64_store64_eq.
  - rewrite load64_apart by done. rewrite load64_apart by (unfold apart; lia).
    by rewrite load64_store64_eq.
  - destruct l as [|b l]; [done|]. cbn in h. subst h. cbn in HD. destruct HD as (D1 & D2 & D3).
    assert (∀ d, d ∈ b :: l → load64 (store64 (store64 m (a + 16) b) (a + 24) c) (d + 16) = load64 m (d + 16)
       ∧ load64 (store64 (store64 m (a + 16) b) (a + 24) c) (d + 24) = load64 m (d + 24)) as F.
    { intros d Hd. assert (d ≠ a) by (clear -HN Hd; unfold N in HN; apply list.NoDup_cons in HN as [_ HN];
        apply list.NoDup_cons in HN as [HN _]; set_solver).
      destruct (spaced_apart N d a HS ltac:(unfold N; set_solver) HaN) as [?|(?&?&?&?)]; [congruence|].
      split; by rewrite !load64_apart. }
    cbn. destruct (F b ltac:(set_solver)) as [F1 F2].
    rewrite load64_store64_eq by done. rewrite load64_apart by (unfold apart; lia).
    rewrite F1. split_and!; try done. eapply dseg_frame; [|done]. intros d Hd.
    assert (d ≠ b) by (clear -HN Hd; unfold N in HN; apply list.NoDup_cons in HN as [_ HN];
        apply list.NoDup_cons in HN as [_ HN]; apply list.NoDup_cons in HN as [HN _]; set_solver).
    destruct (spaced_apart N d b HS ltac:(unfold N; set_solver) Hh) as [?|(?&?&?&?)]; [congruence|].
    destruct (F d ltac:(set_solver)) as [G1 G2].
    split; rewrite load64_apart by done; done.
Qed.
