(* ===== verification/TlsfFree.v ===== *)
(** * TLSF: the free-list invariant and the operations on the lists *)

From stdpp Require Import prelude gmap list numbers tactics.
From S2P Require Import Prelude Memory TlsfBits Tlsf TlsfInv TlsfLists.

(** [a] is a free block of size [z] that should be on a list. *)
Definition listed (B : gmap Z blk) (X : Z → Prop) (a z : Z) : Prop :=
  ∃ x, B !! a = Some x ∧ bfree x = true ∧ bsz x = z ∧ ¬ X a.

Definition idx (i j : Z) : Prop := 0 <= i < 25 ∧ 0 <= j < 32.

Definition nonempty (l : list Z) : bool := match l with [] => false | _ => true end.

Definition head_of (bs : list (list Z)) (i j : Z) : option Z :=
  match zlookup bs i with Some row => zlookup row j | None => None end.

Record lists_ok (s : tlsf_state) (B : gmap Z blk) (L : Z → Z → list Z) (X : Z → Prop) : Prop := {
  lo_slen : length (sl_bitmap s) = 25%nat;
  lo_blen : length (blocks s) = 25%nat;
  lo_row : ∀ i row, zlookup (blocks s) i = Some row → length row = 32%nat;
  lo_head : ∀ i j, idx i j → head_of (blocks s) i j = Some (List.hd (control s) (L i j));
  lo_dll : ∀ i j, idx i j → dseg (heap s) (control s) (L i j) (control s);
  lo_nodup : ∀ i j, idx i j → NoDup (L i j);
  lo_mem : ∀ i j a, idx i j → a ∈ L i j ↔ ∃ z, listed B X a z ∧ mapping_insert z = (i, j);
  lo_sl : ∀ i v, zlookup (sl_bitmap s) i = Some v →
    0 <= v < 2 ^ 32 ∧ ∀ j, 0 <= j < 32 → Z.testbit v j = nonempty (L i j);
  lo_fl : 0 <= fl_bitmap s < 2 ^ 25 ∧
    ∀ i v, zlookup (sl_bitmap s) i = Some v → Z.testbit (fl_bitmap s) i = truthy v
}.

(** ** Array updates *)

Definition upd_head (bs : list (list Z)) (i j v : Z) : list (list Z) :=
  match zlookup bs i with
  | Some row => <[Z.to_nat i := <[Z.to_nat j := v]> row]> bs
  | None => bs
  end.

Section arrays.
Context (bs : list (list Z)) (Hlen : length bs = 25%nat).
Context (Hrow : ∀ i row, zlookup bs i = Some row → length row = 32%nat).

Lemma head_of_upd_eq i j v : idx i j → head_of (upd_head bs i j v) i j = Some v.
Proof.
  intros [Hi Hj]. destruct (zlookup_Some bs i) as [row E]; [lia|].
  pose proof (Hrow i row E). unfold head_of, upd_head. rewrite E.
  rewrite zlookup_insert_eq by lia. apply zlookup_insert_eq. lia.
Qed.

Lemma head_of_upd_ne i j i' j' v :
  idx i j → (i ≠ i' ∨ j ≠ j') → head_of (upd_head bs i j v) i' j' = head_of bs i' j'.
Proof.
  intros [Hi Hj] Hne. destruct (zlookup_Some bs i) as [row E]; [lia|].
  pose proof (Hrow i row E). unfold head_of, upd_head. rewrite E.
  destruct (decide (i = i')) as [<-|].
  - rewrite zlookup_insert_eq by lia. rewrite E. apply zlookup_insert_ne; lia.
  - by rewrite zlookup_insert_ne by lia.
Qed.

Lemma upd_head_length i j v : length (upd_head bs i j v) = 25%nat.
Proof. unfold upd_head. destruct (zlookup bs i); [by rewrite length_insert|done]. Qed.

Lemma upd_head_row i j v i' row :
  zlookup (upd_head bs i j v) i' = Some row → length row = 32%nat.
Proof.
  unfold upd_head. destruct (zlookup bs i) as [r|] eqn:E; [|by apply Hrow].
  pose proof (zlookup_range _ _ _ E). destruct (decide (i = i')) as [<-|].
  - rewrite zlookup_insert_eq by lia. intros [= <-]. rewrite length_insert. by apply (Hrow i).
  - rewrite zlookup_insert_ne by lia. apply Hrow.
Qed.
End arrays.

Lemma wp_get_head s i j h (Q : Z → tlsf_state → Prop) :
  head_of (blocks s) i j = Some h → Q h s → wp (get_head i j) Q s.
Proof.
  unfold head_of, get_head. intros H HQ. wp_steps.
  destruct (zlookup (blocks s) i) as [row|] eqn:E; [|done].
  eapply wp_of_option; [done|]. by eapply wp_of_option.
Qed.

Lemma wp_set_head s i j v (Q : unit → tlsf_state → Prop) :
  length (blocks s) = 25%nat → (∀ i row, zlookup (blocks s) i = Some row → length row = 32%nat) →
  idx i j → Q tt (with_blocks (upd_head (blocks s) i j v) s) → wp (set_head i j v) Q s.
Proof.
  intros Hlen Hrow [Hi Hj] HQ. unfold set_head. wp_steps.
  destruct (zlookup_Some (blocks s) i) as [row E]; [lia|]. pose proof (Hrow i row E).
  eapply wp_of_option; [done|]. wp_steps.
  eapply wp_of_option; [apply zupdate_Some; lia|]. wp_steps.
  eapply wp_of_option; [apply zupdate_Some; lia|]. wp_steps.
  unfold upd_head in HQ. by rewrite E in HQ.
Qed.

Lemma wp_get_sl s i v (Q : Z → tlsf_state → Prop) :
  zlookup (sl_bitmap s) i = Some v → Q v s → wp (get_sl i) Q s.
Proof. intros H HQ. unfold get_sl. wp_steps. by eapply wp_of_option. Qed.

Lemma wp_set_sl s i v (Q : unit → tlsf_state → Prop) :
  0 <= i < Z.of_nat (length (sl_bitmap s)) →
  Q tt (with_sl (<[Z.to_nat i := v]> (sl_bitmap s)) s) → wp (set_sl i v) Q s.
Proof.
  intros H HQ. unfold set_sl. wp_steps. eapply wp_of_option; [by apply zupdate_Some|]. by wp_steps.
Qed.

(** ** Bitmaps *)

Lemma clear_bit w v k : 0 <= w → 0 <= v < 2 ^ w → 0 <= k < 32 → w <= 32 →
  let v' := Z.land v (cnot 32 (Z.shiftl 1 k)) in
  0 <= v' < 2 ^ w ∧ ∀ j, 0 <= j → Z.testbit v' j = Z.testbit v j && negb (j =? k).
Proof.
  intros Hw Hv Hk H32. cbv zeta.
  assert (0 <= v < 2 ^ 32) by (pose proof (Z.pow_le_mono_r 2 w 32); lia).
  rewrite land_cnot by done. split; [by apply land_range|]. intros j Hj.
  rewrite Z.land_spec, Z.lnot_spec, Z.shiftl_1_l, Z.pow2_bits_eqb by lia. by rewrite Z.eqb_sym.
Qed.

Lemma set_bit w v k : 0 <= v < 2 ^ w → 0 <= k < w → w <= 32 →
  let v' := Z.lor v (u32 (Z.shiftl 1 k)) in
  0 <= v' < 2 ^ w ∧ ∀ j, 0 <= j → Z.testbit v' j = Z.testbit v j || (j =? k).
Proof.
  intros Hv Hk Hw. cbv zeta. rewrite Z.shiftl_1_l.
  assert (0 <= 2 ^ k < 2 ^ w).
  { split; [apply Z.pow_nonneg; lia|apply Z.pow_lt_mono_r; lia]. }
  assert (2 ^ w <= 2 ^ 32) by (apply Z.pow_le_mono_r; lia).
  rewrite wrap_small by lia. split; [apply lor_range; lia|]. intros j Hj.
  rewrite Z.lor_spec, Z.pow2_bits_eqb by lia. by rewrite Z.eqb_sym.
Qed.

Definition upd_list (L : Z → Z → list Z) (fl sl : Z) (l : list Z) (i j : Z) : list Z :=
  if (i =? fl) && (j =? sl) then l else L i j.

Lemma upd_list_eq L fl sl l : upd_list L fl sl l fl sl = l.
Proof. unfold upd_list. by rewrite !Z.eqb_refl. Qed.

Lemma upd_list_ne L fl sl l i j : i ≠ fl ∨ j ≠ sl → upd_list L fl sl l i j = L i j.
Proof. unfold upd_list. intros. destruct (Z.eqb_spec i fl), (Z.eqb_spec j sl); cbn; (lia || done). Qed.

(** ** One list changes *)

Section update.
Context (s s' : tlsf_state) (B B' : gmap Z blk) (L : Z → Z → list Z) (X X' : Z → Prop).
Context (fl sl : Z) (l : list Z).
Context (HL : lists_ok s B L X) (Hidx : idx fl sl) (Hc : control s' = control s).
Context (Hslen : length (sl_bitmap s') = 25%nat) (Hblen : length (blocks s') = 25%nat).
Context (Hrow : ∀ i row, zlookup (blocks s') i = Some row → length row = 32%nat).
Context (Hhead : head_of (blocks s') fl sl = Some (List.hd (control s) l)).
Context (Hheads : ∀ i j, idx i j → i ≠ fl ∨ j ≠ sl → head_of (blocks s') i j = head_of (blocks s) i j).
Context (Hdll : dseg (heap s') (control s) l (control s)) (Hnd : NoDup l).
Context (Hmem : ∀ a, a ∈ l ↔ ∃ z, listed B' X' a z ∧ mapping_insert z = (fl, sl)).
Context (Hmems : ∀ a z, mapping_insert z ≠ (fl, sl) → listed B' X' a z ↔ listed B X a z).
Context (Hframe : ∀ a z, listed B X a z → mapping_insert z ≠ (fl, sl) → node_ok (heap s) (heap s') a).
Context (v v' : Z) (Hv : zlookup (sl_bitmap s) fl = Some v) (Hv' : zlookup (sl_bitmap s') fl = Some v').
Context (Hvr : 0 <= v' < 2 ^ 32).
Context (Hvb : ∀ j, 0 <= j < 32 → Z.testbit v' j = if j =? sl then nonempty l else Z.testbit v j).
Context (Hsls : ∀ i, i ≠ fl → zlookup (sl_bitmap s') i = zlookup (sl_bitmap s) i).
Context (Hflr : 0 <= fl_bitmap s' < 2 ^ 25).
Context (Hflb : ∀ i, 0 <= i < 25 → Z.testbit (fl_bitmap s') i =
                     if i =? fl then truthy v' else Z.testbit (fl_bitmap s) i).

Lemma lists_ok_update : lists_ok s' B' (upd_list L fl sl l) X'.
Proof.
  assert (∀ i j, (i = fl ∧ j = sl) ∨ (i ≠ fl ∨ j ≠ sl)) as Hcase by (clear; intros; lia).
  constructor; try done.
  - intros i j Hij. rewrite Hc. destruct (Hcase i j) as [[-> ->]|Hne].
    + by rewrite upd_list_eq.
    + rewrite upd_list_ne, Hheads by done. by apply HL.
  - intros i j Hij. rewrite Hc. destruct (Hcase i j) as [[-> ->]|Hne].
    + by rewrite upd_list_eq.
    + rewrite upd_list_ne by done. eapply dseg_frame; [|by apply HL].
      intros a Ha. apply (lo_mem _ _ _ _ HL i j a Hij) in Ha as (z & Hz & Hm).
      eapply Hframe; [done|]. rewrite Hm. intros [= ? ?]. lia.
  - intros i j Hij. destruct (Hcase i j) as [[-> ->]|Hne].
    + by rewrite upd_list_eq.
    + rewrite upd_list_ne by done. by apply (lo_nodup _ _ _ _ HL).
  - intros i j a Hij. destruct (Hcase i j) as [[-> ->]|Hne].
    + rewrite upd_list_eq. apply Hmem.
    + rewrite upd_list_ne by done. rewrite (lo_mem _ _ _ _ HL i j a Hij).
      split; intros (z & Hz & Hm); exists z; (split; [|done]);
        (apply Hmems; [|done]); rewrite Hm; intros [= ? ?]; lia.
  - intros i w Hw. destruct (decide (i = fl)) as [->|Hne].
    + rewrite Hv' in Hw. injection Hw as <-. split; [done|]. intros j Hj.
      rewrite Hvb by done. destruct (Z.eqb_spec j sl) as [->|Hne].
      * by rewrite upd_list_eq.
      * rewrite upd_list_ne by auto. by apply (lo_sl _ _ _ _ HL fl v).
    + rewrite Hsls in Hw by done. destruct (lo_sl _ _ _ _ HL i w Hw) as [? Hb].
      split; [done|]. intros j Hj. rewrite upd_list_ne by auto. by apply Hb.
  - split; [done|]. intros i w Hw. pose proof (zlookup_range _ _ _ Hw) as Hr. rewrite Hslen in Hr.
    rewrite Hflb by lia. destruct (Z.eqb_spec i fl) as [->|Hne].
    + congruence.
    + rewrite Hsls in Hw by done. by apply (lo_fl _ _ _ _ HL).
Qed.
End update.

(** ** Nodes *)

Definition is_node (c : Z) (B : gmap Z blk) (a : Z) : Prop :=
  a = c ∨ ∃ x, B !! a = Some x ∧ bfree x = true.

Section nodes.
Context {c : Z} {B : gmap Z blk} (HP : shape c B).

Lemma nodes_spaced l : (∀ a, a ∈ l → is_node c B a) → spaced l.
Proof.
  intros Hl a b Ha Hb Hne. apply Hl in Ha, Hb.
  destruct Ha as [->|(x & Hx & Fx)], Hb as [->|(y & Hy & Fy)]; [done|..].
  - pose proof (phys_geom HP b y Hy). lia.
  - pose proof (phys_geom HP a x Hx). lia.
  - pose proof (phys_free HP a x Hx Fx). pose proof (phys_free HP b y Hy Fy).
    destruct (phys_sep HP a b x y Hx Hy) as [?|[?|?]]; unfold nxt in *; [done|lia..].
Qed.

Lemma node_range a : is_node c B a → 0 < a < 2 ^ 64.
Proof.
  pose proof (po_ctl _ _ HP). intros [->|(x & Hx & Fx)]; [lia|].
  pose proof (phys_geom HP a x Hx). lia.
Qed.

Lemma free_ne_ctl a x : B !! a = Some x → bfree x = true → a ≠ c.
Proof. intros Hx Fx. pose proof (phys_geom HP a x Hx). lia. Qed.

Lemma listed_node X a z : listed B X a z → is_node c B a ∧ a ≠ c ∧ 24 <= z < 2 ^ 32.
Proof.
  intros (x & Hx & Fx & Hz & _). split_and!; [right; eauto|by eapply free_ne_ctl|..];
    pose proof (phys_free HP a x Hx Fx); pose proof (phys_geom HP a x Hx); lia.
Qed.

Lemma listed_idx X a z fl sl : listed B X a z → mapping_insert z = (fl, sl) → idx fl sl.
Proof.
  intros Hl Hm. destruct (listed_node X a z Hl) as (_ & _ & Hz).
  destruct (mapping_insert_class z fl sl) as (?&?&?&_); [lia|done|]. split; lia.
Qed.

Lemma unlink_same_outside m p n :
  is_node c B p → is_node c B n → same_outside (link_byte c B) m (unlink m p n).
Proof.
  intros Hp Hn i Hi. unfold unlink.
  rewrite load8_storen_out; [rewrite load8_storen_out; [done|]|].
  - destruct (Z.lt_ge_cases i (n + 24)); [lia|]. destruct (Z.lt_ge_cases i (n + 32)); [|lia].
    destruct Hi. exists n. split; [done|lia].
  - destruct (Z.lt_ge_cases i (p + 16)); [lia|]. destruct (Z.lt_ge_cases i (p + 32)); [|lia].
    destruct Hi. exists p. split; [done|lia].
Qed.

Lemma link_same_outside m a h :
  is_node c B a → is_node c B h → same_outside (link_byte c B) m (link_front m c a h).
Proof.
  intros Ha Hh i Hi. unfold link_front.
  assert (∀ d, is_node c B d → i < d + 16 ∨ d + 32 <= i) as H.
  { intros d Hd. destruct (Z.lt_ge_cases i (d + 16)); [lia|]. destruct (Z.lt_ge_cases i (d + 32)); [|lia].
    destruct Hi. exists d. split; [done|lia]. }
  pose proof (H a Ha). pose proof (H h Hh). rewrite !load8_storen_out; [done|lia..].
Qed.
End nodes.

(** ** Removing a block from its list *)

Section remove.
Context {s : tlsf_state} {B : gmap Z blk} {L : Z → Z → list Z} {X : Z → Prop}.
Context (HP : shape (control s) B) (HL : lists_ok s B L X).
Context {a z fl sl : Z} (Ha : listed B X a z) (Hm : mapping_insert z = (fl, sl)).
Context {l1 l2 : list Z} (HE : L fl sl = l1 ++ a :: l2).
Let c := control s.
Let p := List.last l1 c.
Let n := List.hd c l2.

Lemma remove_nodes b : b ∈ c :: L fl sl → is_node c B b.
Proof.
  intros [->|Hb]%elem_of_cons; [by left|].
  apply (lo_mem _ _ _ _ HL fl sl b) in Hb as (z' & Hl & _); [|by eapply listed_idx].
  by eapply listed_node.
Qed.

Lemma remove_nodup : NoDup (c :: l1 ++ a :: l2).
Proof.
  rewrite <- HE. apply list.NoDup_cons. pose proof (listed_idx HP _ _ _ _ _ Ha Hm) as Hi.
  split; [|by apply (lo_nodup _ _ _ _ HL)].
  intros (z' & Hl & _)%(lo_mem _ _ _ _ HL); [|done]. by apply (listed_node HP) in Hl as (_ & ? & _).
Qed.

Lemma remove_ends : p ∈ c :: L fl sl ∧ n ∈ c :: L fl sl.
Proof.
  clear HP HL Ha Hm. rewrite HE. unfold p, n. split.
  - destruct l1 as [|b l' _] using rev_ind; [set_solver|]. rewrite last_snoc_def. set_solver.
  - destruct l2; set_solver.
Qed.

Lemma remove_words : load64 (heap s) (a + 24) = p ∧ load64 (heap s) (a + 16) = n.
Proof.
  pose proof (lo_dll _ _ _ _ HL fl sl (listed_idx HP _ _ _ _ _ Ha Hm)) as HD.
  rewrite HE in HD. apply dseg_app in HD as [_ HD]. apply dseg_cons in HD as (H1 & H2 & _). exact (conj H1 H2).
Qed.

Lemma remove_mem b :
  b ∈ l1 ++ l2 ↔ ∃ z', listed B (λ d, d = a ∨ X d) b z' ∧ mapping_insert z' = (fl, sl).
Proof.
  pose proof (listed_idx HP _ _ _ _ _ Ha Hm) as Hi.
  assert (b ∈ l1 ++ l2 ↔ b ∈ L fl sl ∧ b ≠ a) as ->.
  { rewrite HE. pose proof remove_nodup as HN. apply list.NoDup_cons in HN as [_ HN].
    apply list.NoDup_app in HN as (_ & HN1 & HN2). apply list.NoDup_cons in HN2 as [HN2 _]. clear -HN1 HN2.
    rewrite !elem_of_app, elem_of_cons. split; [|tauto].
    intros [H|H]; (split; [tauto|]); intros ->; [|done]. apply (HN1 a); set_solver. }
  rewrite (lo_mem _ _ _ _ HL fl sl b Hi). unfold listed. clear. naive_solver.
Qed.

Lemma remove_mems b z' : mapping_insert z' ≠ (fl, sl) →
  listed B (λ d, d = a ∨ X d) b z' ↔ listed B X b z'.
Proof.
  intros Hne. destruct Ha as (x & Hx & Fx & <- & HX). unfold listed. clear -Hne Hx Hm.
  split; intros (y & Hy & Fy & Ey & HXb); exists y; split_and!; try tauto.
  intros [->|]; [|done]. simplify_eq.
Qed.

Lemma remove_frame b z' : listed B X b z' → mapping_insert z' ≠ (fl, sl) →
  node_ok (heap s) (unlink (heap s) p n) b.
Proof.
  intros Hb Hne. destruct remove_ends as [Ep En].
  pose proof (listed_idx HP _ _ _ _ _ Ha Hm) as Hi.
  assert (b ∉ c :: L fl sl) as Hnot.
  { intros [->|Hin]%elem_of_cons; [by apply (listed_node HP) in Hb as (_ & ? & _)|].
    apply (lo_mem _ _ _ _ HL fl sl b Hi) in Hin as (z2 & Hl2 & Hm2).
    destruct Hb as (? & ? & ? & ? & _), Hl2 as (? & ? & ? & ? & _). simplify_eq. }
  assert (∀ d, d ∈ b :: c :: L fl sl → is_node c B d) as Hnodes.
  { intros d [->|Hd]%elem_of_cons; [by eapply listed_node|by apply remove_nodes]. }
  apply (unlink_other _ _ _ _ (b :: c :: L fl sl)).
  - by eapply nodes_spaced.
  - set_solver.
  - set_solver.
  - set_solver.
  - intros ->. done.
  - intros ->. done.
  - intros d Hd. apply Hnodes, (node_range HP) in Hd. lia.
Qed.

Lemma remove_dseg : dseg (unlink (heap s) p n) c (l1 ++ l2) c.
Proof.
  pose proof (listed_idx HP _ _ _ _ _ Ha Hm) as Hi.
  apply (dseg_unlink _ _ _ a); [apply remove_nodup|..]; rewrite <- HE.
  - by eapply nodes_spaced, remove_nodes.
  - intros b Hb. apply remove_nodes, (node_range HP) in Hb. lia.
  - by apply (lo_dll _ _ _ _ HL).
Qed.
End remove.

Definition heap_frame (P : Z → Prop) (s s' : tlsf_state) : Prop :=
  control s' = control s ∧ same_outside P (heap s) (heap s').

Lemma wp_ld64 s a (Q : Z → tlsf_state → Prop) : Q (load64 (heap s) a) s → wp (ld64 a) Q s.
Proof. done. Qed.

Lemma hd_app_ne (l1 l2 : list Z) c : l1 ≠ [] → List.hd c (l1 ++ l2) = List.hd c l1.
Proof. by destruct l1. Qed.

Lemma remove_free_block_spec s B L X a z fl sl :
  shape (control s) B → lists_ok s B L X →
  listed B X a z → mapping_insert z = (fl, sl) →
  wp (remove_free_block a fl sl) (λ _ s',
    heap_frame (link_byte (control s) B) s s' ∧
    ∃ L', lists_ok s' B L' (λ d, d = a ∨ X d)) s.
Proof.
  intros HP HL Ha Hm. pose proof (listed_idx HP _ _ _ _ _ Ha Hm) as Hi.
  assert (a ∈ L fl sl) as Hin by (apply (lo_mem _ _ _ _ HL); eauto).
  apply list_elem_of_split in Hin as (l1 & l2 & HE).
  destruct (remove_words HP HL Ha Hm HE) as [Wp Wn].
  destruct (remove_ends (s:=s) (X:=X) HE) as [Ep En].
  apply (remove_nodes HP HL Ha Hm) in Ep, En.
  pose proof (node_range HP _ Ep). pose proof (node_range HP _ En).
  set (c := control s) in *. set (p := List.last l1 c) in *. set (n := List.hd c l2) in *.
  destruct Hi as [Hfl Hsl].
  destruct (zlookup_Some (sl_bitmap s) fl) as [v Hv]; [rewrite (lo_slen _ _ _ _ HL); lia|].
  destruct (lo_sl _ _ _ _ HL fl v Hv) as [Vr Vb]. destruct (lo_fl _ _ _ _ HL) as [Fr Fb].
  assert (heap_frame (link_byte c B) s (mk_tlsf c (unlink (heap s) p n) (fl_bitmap s) (sl_bitmap s) (blocks s)))
    as [_ HF] by (split; [done|]; by eapply unlink_same_outside).
  unfold remove_free_block, get_prev_free, get_next_free.
  apply wp_bind, wp_ld64. rewrite Wp. apply wp_bind, wp_ld64. rewrite Wn.
  apply wp_bind, wp_massert; [apply truthy_true; lia|].
  apply wp_bind, wp_massert; [apply truthy_true; lia|].
  unfold set_prev_free_ptr, set_next_free, st64. wp_steps.
  change (with_heap _ (with_heap _ s))
    with (mk_tlsf c (unlink (heap s) p n) (fl_bitmap s) (sl_bitmap s) (blocks s)).
  set (s1 := mk_tlsf c (unlink (heap s) p n) (fl_bitmap s) (sl_bitmap s) (blocks s)).
  eapply wp_get_head; [apply (lo_head _ _ _ _ HL); done|]. rewrite HE. fold c.
  pose proof (remove_nodup HP HL Ha Hm HE) as HN.
  destruct l1 as [|b l1].
  - cbn [app List.hd]. rewrite Z.eqb_refl. cbn [mwhen]. apply wp_bind.
    eapply (wp_set_head s1); [apply HL..|done|]. wp_steps.
    set (s2 := with_blocks _ s1).
    assert (∀ s3 v', control s3 = c → heap s3 = heap s1 → blocks s3 = blocks s2 →
      length (sl_bitmap s3) = 25%nat → zlookup (sl_bitmap s3) fl = Some v' → 0 <= v' < 2 ^ 32 →
      (∀ j, 0 <= j < 32 → Z.testbit v' j = if j =? sl then nonempty l2 else Z.testbit v j) →
      (∀ i, i ≠ fl → zlookup (sl_bitmap s3) i = zlookup (sl_bitmap s) i) →
      0 <= fl_bitmap s3 < 2 ^ 25 →
      (∀ i, 0 <= i < 25 → Z.testbit (fl_bitmap s3) i =
         if i =? fl then truthy v' else Z.testbit (fl_bitmap s) i) →
      heap_frame (link_byte c B) s s3 ∧ ∃ L', lists_ok s3 B L' (λ d, d = a ∨ X d)) as Hfin.
    { intros s3 v' C1 C2 C3 C4 C5 C6 C7 C8 C9 C10.
      split. { split; [done|]. rewrite C2. apply HF. }
      exists (upd_list L fl sl l2).
      eapply (lists_ok_update s s3 B B L X _ fl sl l2 HL); try done; rewrite ?C3, ?C2.
      - apply upd_head_length; apply HL.
      - apply upd_head_row; apply HL.
      - apply head_of_upd_eq; [apply HL..|done].
      - intros. apply head_of_upd_ne; [apply HL..|done|lia].
      - exact (remove_dseg HP HL Ha Hm HE).
      - apply list.NoDup_cons in HN as [_ HN]. by apply list.NoDup_cons in HN as [_ HN].
      - exact (remove_mem HP HL Ha Hm HE).
      - exact (remove_mems Ha Hm).
      - exact (remove_frame HP HL Ha Hm HE). }
    assert (∀ j, 0 <= j < 32 → j ≠ sl → Z.testbit v j = nonempty (L fl j)) as Vb' by auto.
    change (control s2) with c. destruct (Z.eqb_spec n c) as [Enc|Enc]; cbn [mwhen].
    + assert (l2 = []) as ->.
      { destruct l2 as [|d l2]; [done|]. cbn in n. subst n. exfalso. clear -HN Enc.
        apply list.NoDup_cons in HN as [HN _]. cbn in HN. set_solver. }
      apply wp_bind. eapply wp_get_sl; [exact Hv|].
      destruct (clear_bit 32 v sl) as [Cr Cb]; [lia..|].
      set (v' := Z.land v _) in *. apply wp_bind.
      eapply wp_set_sl; [cbn; rewrite (lo_slen _ _ _ _ HL); lia|].
      assert (zlookup (<[Z.to_nat fl := v']> (sl_bitmap s)) fl = Some v') as Hz
        by (apply zlookup_insert_eq; rewrite (lo_slen _ _ _ _ HL); lia).
      apply wp_bind. eapply wp_get_sl; [exact Hz|].
      assert (∀ j, 0 <= j < 32 → Z.testbit v' j = if j =? sl then false else Z.testbit v j) as Hb.
      { intros j Hj. rewrite Cb by lia. destruct (j =? sl); [apply andb_false_r|apply andb_true_r]. }
      destruct (Z.eqb_spec v' 0) as [E0|E0]; cbn [mwhen]; wp_steps.
      * destruct (clear_bit 25 (fl_bitmap s) fl) as [Dr Db]; [lia..|].
        apply (Hfin _ v'); try done.
        { cbn. rewrite length_insert. apply HL. }
        { intros. cbn. apply zlookup_insert_ne; lia. }
        { intros i Hii. cbn. rewrite Db by lia. rewrite E0. destruct (i =? fl); [apply andb_false_r|apply andb_true_r]. }
      * apply (Hfin _ v'); try done.
        { cbn. rewrite length_insert. apply HL. }
        { intros. cbn. apply zlookup_insert_ne; lia. }
        { intros i Hii. cbn. destruct (Z.eqb_spec i fl) as [->|]; [|done].
          rewrite (Fb fl v Hv). rewrite (proj2 (truthy_true v')) by done. apply truthy_true.
          intros ->. apply E0. unfold v'. apply Z.land_0_l. }
    + wp_steps. apply (Hfin _ v); try done.
      { apply HL. }
      { intros j Hj. destruct (Z.eqb_spec j sl) as [->|]; [|done]. rewrite Vb, HE by lia.
        destruct l2; [by destruct Enc|done]. }
      { intros i Hii. cbn. destruct (Z.eqb_spec i fl) as [->|]; [|done]. by apply Fb. }
  - assert (b ≠ a) as Hba.
    { intros ->. clear -HN. apply list.NoDup_cons in HN as [_ HN]. cbn in HN.
      apply list.NoDup_cons in HN as [HN _]. set_solver. }
    cbn [app List.hd]. rewrite (proj2 (Z.eqb_neq b a)) by done. cbn [mwhen]. wp_steps.
    split; [split; [done|apply HF]|]. exists (upd_list L fl sl ((b :: l1) ++ l2)).
    eapply (lists_ok_update s s1 B B L X _ fl sl _ HL); try done.
    + apply HL.
    + apply HL.
    + apply HL.
    + cbn. rewrite (lo_head _ _ _ _ HL) by done. by rewrite HE.
    + exact (remove_dseg HP HL Ha Hm HE).
    + apply list.NoDup_cons in HN as [_ HN]. clear -HN.
      apply list.NoDup_app in HN as (H1 & H2 & H3). apply list.NoDup_cons in H3 as [_ H3].
      apply list.NoDup_app. split_and!; try done. intros d Hd Hd2. apply (H2 d); set_solver.
    + exact (remove_mem HP HL Ha Hm HE).
    + exact (remove_mems Ha Hm).
    + exact (remove_frame HP HL Ha Hm HE).
    + intros j Hj. destruct (Z.eqb_spec j sl) as [->|]; [|done]. rewrite Vb, HE by lia. done.
    + intros i Hii. destruct (Z.eqb_spec i fl) as [->|]; [|done]. by apply Fb.
Qed.

(** ** Alignment values *)

Lemma align_up_val_eq x n : 0 <= n < 63 → 0 <= x → x + 2 ^ n <= 2 ^ 64 →
  align_up_val x (2 ^ n) = (x + (2 ^ n - 1)) - (x + (2 ^ n - 1)) mod 2 ^ n.
Proof.
  intros Hn Hx Hb. unfold align_up_val. pose proof (Z.pow_pos_nonneg 2 n).
  rewrite wrap_small by lia. rewrite land_align_down; lia.
Qed.

Lemma align8 x : x mod 8 = 0 → 0 <= x → x + 8 <= 2 ^ 64 → align_up_val x 8 = x.
Proof.
  intros Ha Hx Hb. change 8 with (2 ^ 3). rewrite align_up_val_eq by lia.
  change (2 ^ 3) with 8. zlia.
Qed.

Lemma wp_align_ptr8 s p (Q : Z → tlsf_state → Prop) :
  p mod 8 = 0 → 0 <= p → p + 8 <= 2 ^ 64 → Q p s → wp (align_ptr p ALIGN_SIZE) Q s.
Proof.
  intros Ha Hp Hb HQ. unfold align_ptr. apply wp_bind, wp_massert; [done|]. apply wp_ret.
  change (align_ptr_val p ALIGN_SIZE) with (align_up_val p 8). by rewrite align8.
Qed.

(** ** Putting a block on its list *)

Section insert.
Context {s : tlsf_state} {B : gmap Z blk} {L : Z → Z → list Z} {X : Z → Prop}.
Context (HP : shape (control s) B) (HL : lists_ok s B L X).
Context {a fl sl : Z} {x : blk} (Ha : B !! a = Some x) (Fx : bfree x = true) (HX : X a).
Context (Hm : mapping_insert (bsz x) = (fl, sl)).
Let c := control s.
Let h := List.hd c (L fl sl).

Lemma insert_idx : idx fl sl.
Proof.
  clear h HL HX. pose proof (phys_free HP a x Ha Fx). pose proof (phys_geom HP a x Ha).
  destruct (mapping_insert_class (bsz x) fl sl) as (?&?&?&_); [lia|done|]. split; lia.
Qed.

Lemma insert_nodes b : b ∈ c :: a :: L fl sl → is_node c B b.
Proof.
  intros [->|[->|Hb]%elem_of_cons]%elem_of_cons; [by left|right; eauto|].
  apply (lo_mem _ _ _ _ HL fl sl b insert_idx) in Hb as (z' & Hl & _). by eapply listed_node.
Qed.

Lemma insert_nodup : NoDup (c :: a :: L fl sl).
Proof.
  pose proof insert_idx as Hi. apply list.NoDup_cons. split.
  - intros [E|Hin]%elem_of_cons; [by apply (free_ne_ctl HP a x)|].
    apply (lo_mem _ _ _ _ HL fl sl c Hi) in Hin as (z' & Hl & _).
    by apply (listed_node HP) in Hl as (_ & ? & _).
  - apply list.NoDup_cons. split; [|by apply (lo_nodup _ _ _ _ HL)].
    intros Hin. apply (lo_mem _ _ _ _ HL fl sl a Hi) in Hin as (z' & (?&?&?&?&?) & _). done.
Qed.

Lemma insert_head : h ∈ c :: a :: L fl sl.
Proof. clear. unfold h. destruct (L fl sl); set_solver. Qed.

Lemma insert_dseg : dseg (link_front (heap s) c a h) c (a :: L fl sl) c.
Proof.
  apply dseg_link_front; [apply insert_nodup|..].
  - by eapply nodes_spaced, insert_nodes.
  - intros b Hb. apply insert_nodes, (node_range HP) in Hb. lia.
  - apply (lo_dll _ _ _ _ HL), insert_idx.
Qed.

Lemma insert_mem b :
  b ∈ a :: L fl sl ↔ ∃ z', listed B (λ d, X d ∧ d ≠ a) b z' ∧ mapping_insert z' = (fl, sl).
Proof.
  rewrite elem_of_cons, (lo_mem _ _ _ _ HL fl sl b insert_idx). unfold listed. split.
  - intros [->|(z & (y&?&?&?&?) & Hz)]; [exists (bsz x)|exists z]; (split; [|done]).
    + exists x. split_and!; try done. tauto.
    + exists y. split_and!; try done. tauto.
  - intros (z & (y&?&?&?&Hn) & Hz). destruct (decide (b = a)); [by left|right].
    exists z. split; [|done]. exists y. split_and!; try done. tauto.
Qed.

Lemma insert_mems b z' : mapping_insert z' ≠ (fl, sl) →
  listed B (λ d, X d ∧ d ≠ a) b z' ↔ listed B X b z'.
Proof.
  intros Hne. unfold listed. split; intros (y & Hy & Fy & Ey & HXb); exists y; split_and!; try tauto.
  intros HXb'. apply HXb. split; [done|]. intros ->. simplify_eq.
Qed.

Lemma insert_frame b z' : listed B X b z' → mapping_insert z' ≠ (fl, sl) →
  node_ok (heap s) (link_front (heap s) c a h) b.
Proof.
  intros Hb Hne. pose proof insert_idx as Hi.
  assert (b ∉ c :: a :: L fl sl) as Hnot.
  { intros [->|[->|Hin]%elem_of_cons]%elem_of_cons.
    - by apply (listed_node HP) in Hb as (_ & ? & _).
    - destruct Hb as (?&?&?&?&?). done.
    - apply (lo_mem _ _ _ _ HL fl sl b Hi) in Hin as (z2 & Hl2 & Hm2).
      destruct Hb as (? & ? & ? & ? & _), Hl2 as (? & ? & ? & ? & _). simplify_eq. }
  assert (spaced (b :: c :: a :: L fl sl)) as HS.
  { eapply (nodes_spaced HP). intros d [->|Hd]%elem_of_cons; [by eapply listed_node|by apply insert_nodes]. }
  pose proof insert_head as Hh.
  destruct (spaced_apart _ b a HS) as [?|(?&?&?&?)]; [clear; set_solver..|clear -Hnot H; set_solver|].
  destruct (spaced_apart _ b h HS) as [?|(?&?&?&?)]; [clear; set_solver|clear -Hh; set_solver|clear -Hnot H3 Hh; set_solver|].
  unfold link_front. split; rewrite !load64_apart by done; done.
Qed.
End insert.

Lemma insert_free_block_spec s B L X a x fl sl :
  shape (control s) B → lists_ok s B L X →
  B !! a = Some x → bfree x = true → X a → mapping_insert (bsz x) = (fl, sl) →
  wp (insert_free_block a fl sl) (λ _ s',
    heap_frame (link_byte (control s) B) s s' ∧
    ∃ L', lists_ok s' B L' (λ d, X d ∧ d ≠ a)) s.
Proof.
  intros HP HL Ha Fx HX Hm. pose proof (insert_idx HP Ha Fx Hm) as Hi. destruct Hi as [Hfl Hsl].
  pose proof (insert_nodes HP HL Ha Fx Hm) as Hnodes.
  pose proof (phys_geom HP a x Ha) as Ga. destruct (phys_align HP a x Ha) as [Al _].
  set (c := control s) in *. set (h := List.hd c (L fl sl)).
  assert (is_node c B a) as Na by (right; eauto).
  assert (is_node c B h) as Nh by (apply Hnodes, insert_head).
  pose proof (node_range HP _ Nh). pose proof (po_ctl _ _ HP).
  destruct (zlookup_Some (sl_bitmap s) fl) as [v Hv]; [rewrite (lo_slen _ _ _ _ HL); lia|].
  destruct (lo_sl _ _ _ _ HL fl v Hv) as [Vr Vb]. destruct (lo_fl _ _ _ _ HL) as [Fr Fb].
  unfold insert_free_block. apply wp_bind.
  eapply wp_get_head; [by apply (lo_head _ _ _ _ HL)|]. fold c h.
  apply wp_bind, wp_massert; [apply truthy_true; lia|].
  apply wp_bind, wp_massert; [apply truthy_true; lia|].
  unfold set_prev_free_ptr, set_next_free, st64. wp_steps.
  change (control (with_heap _ s)) with c.
  change (with_heap _ (with_heap _ (with_heap _ s)))
    with (mk_tlsf c (link_front (heap s) c a h) (fl_bitmap s) (sl_bitmap s) (blocks s)).
  set (s1 := mk_tlsf c (link_front (heap s) c a h) (fl_bitmap s) (sl_bitmap s) (blocks s)).
  assert (block_to_ptr a = a + 16) as ->.
  { unfold block_to_ptr. change block_start_offset with 16. apply wrap_small. lia. }
  apply wp_align_ptr8; [zlia|lia|zlia|].
  apply wp_bind, wp_massert; [by apply Z.eqb_eq|].
  apply wp_bind. eapply (wp_set_head s1); [apply HL..|done|]. wp_steps.
  eapply wp_get_sl; [exact Hv|].
  eapply wp_set_sl; [cbn; rewrite (lo_slen _ _ _ _ HL); lia|].
  destruct (set_bit 25 (fl_bitmap s) fl) as [Dr Db]; [lia..|].
  destruct (set_bit 32 v sl) as [Er Eb]; [lia..|].
  split.
  { split; [done|]. by eapply (link_same_outside (c:=c)). }
  exists (upd_list L fl sl (a :: L fl sl)).
  eapply (lists_ok_update s _ B B L X _ fl sl _ HL); try done; cbn.
  - rewrite length_insert. apply HL.
  - apply upd_head_length; apply HL.
  - apply upd_head_row; apply HL.
  - apply head_of_upd_eq; [apply HL..|done].
  - intros. apply head_of_upd_ne; [apply HL..|done|lia].
  - exact (insert_dseg HP HL Ha Fx HX Hm).
  - pose proof (insert_nodup HP HL Ha Fx HX Hm) as HN. by apply list.NoDup_cons in HN as [_ HN].
  - exact (insert_mem HP HL Ha Fx Hm).
  - exact (insert_mems Ha Hm).
  - exact (insert_frame HP HL Ha Fx HX Hm).
  - apply zlookup_insert_eq. rewrite (lo_slen _ _ _ _ HL). lia.
  - intros j Hj. rewrite Eb by lia. cbn. destruct (Z.eqb_spec j sl); [by rewrite orb_true_r|by rewrite orb_false_r].
  - intros i Hne. apply zlookup_insert_ne; lia.
  - intros i Hii. rewrite Db by lia. destruct (Z.eqb_spec i fl) as [->|]; [|by rewrite orb_false_r].
    rewrite orb_true_r. symmetry. apply truthy_true. intros Z0.
    specialize (Eb sl ltac:(lia)). rewrite Z0, Z.bits_0, Z.eqb_refl, orb_true_r in Eb. done.
Qed.
