(* ===== verification/TlsfOps.v ===== *)
(** * TLSF: specifications of the block operations

    Each operation on headers is specified against the physical map and the
    free lists together: [inv s B X] says that the memory is described by [B]
    and that the lists hold the free blocks that are not in [X], the blocks an
    operation holds in hand. *)

From stdpp Require Import prelude gmap list numbers tactics.
From S2P Require Import Prelude Memory TlsfBits Tlsf TlsfInv TlsfSplit TlsfLists TlsfFree.

(** ** Header words under the accessors *)

Definition hw (s : tlsf_state) (a z : Z) (f p : bool) : Prop :=
  load64 (heap s) (a + 8) = z + flag_bits f p ∧ z mod 8 = 0 ∧ 0 <= z < 2 ^ 63.

Definition put (a v : Z) (s : tlsf_state) : tlsf_state := with_heap (λ m, store64 m a v) s.

Section header_ops.
Context {s : tlsf_state} {a z : Z} {f p : bool} (H : hw s a z f p).

Lemma wp_block_size (Q : Z → tlsf_state → Prop) : Q z s → wp (block_size a) Q s.
Proof.
  destruct H as (E & Hz & Hr). intros HQ. unfold block_size, get_size.
  apply wp_bind, wp_ld64, wp_ret. rewrite E, word_size by zlia. done.
Qed.

Lemma wp_block_is_last (Q : bool → tlsf_state → Prop) : Q (z =? 0) s → wp (block_is_last a) Q s.
Proof. intros HQ. unfold block_is_last. by apply wp_bind, wp_block_size, wp_ret. Qed.

Lemma wp_block_is_free (Q : bool → tlsf_state → Prop) : Q f s → wp (block_is_free a) Q s.
Proof.
  destruct H as (E & Hz & Hr). intros HQ. unfold block_is_free, get_size.
  apply wp_bind, wp_ld64, wp_ret. change block_header_free_bit with 1.
  rewrite E, word_land1 by zlia. by destruct f.
Qed.

Lemma wp_block_is_prev_free (Q : bool → tlsf_state → Prop) :
  Q p s → wp (block_is_prev_free a) Q s.
Proof.
  destruct H as (E & Hz & Hr). intros HQ. unfold block_is_prev_free, get_size.
  apply wp_bind, wp_ld64, wp_ret. change block_header_prev_free_bit with 2.
  rewrite E, word_land2 by zlia. by destruct p.
Qed.

Lemma wp_block_set_free (Q : unit → tlsf_state → Prop) :
  Q tt (put (a + 8) (z + flag_bits true p) s) → wp (block_set_free a) Q s.
Proof.
  destruct H as (E & Hz & Hr). intros HQ. unfold block_set_free, get_size, set_size.
  apply wp_bind, wp_ld64. rewrite E, word_set_free by zlia. done.
Qed.

Lemma wp_block_set_used (Q : unit → tlsf_state → Prop) :
  Q tt (put (a + 8) (z + flag_bits false p) s) → wp (block_set_used a) Q s.
Proof.
  destruct H as (E & Hz & Hr). intros HQ. unfold block_set_used, get_size, set_size.
  apply wp_bind, wp_ld64. rewrite E, word_set_used by zlia. done.
Qed.

Lemma wp_block_set_prev_free (Q : unit → tlsf_state → Prop) :
  Q tt (put (a + 8) (z + flag_bits f true) s) → wp (block_set_prev_free a) Q s.
Proof.
  destruct H as (E & Hz & Hr). intros HQ. unfold block_set_prev_free, get_size, set_size.
  apply wp_bind, wp_ld64. rewrite E, word_set_prev_free by zlia. done.
Qed.

Lemma wp_block_set_prev_used (Q : unit → tlsf_state → Prop) :
  Q tt (put (a + 8) (z + flag_bits f false) s) → wp (block_set_prev_used a) Q s.
Proof.
  destruct H as (E & Hz & Hr). intros HQ. unfold block_set_prev_used, get_size, set_size.
  apply wp_bind, wp_ld64. rewrite E, word_set_prev_used by zlia. done.
Qed.

Lemma wp_block_next (Q : Z → tlsf_state → Prop) :
  0 < a → 8 <= z → a + 16 + z < 2 ^ 64 → Q (a + 8 + z) s → wp (block_next a) Q s.
Proof.
  intros Ha Hz' Hb HQ. unfold block_next.
  apply wp_bind, wp_block_size. cbv zeta.
  apply wp_bind, wp_block_is_last. rewrite (proj2 (Z.eqb_neq z 0)) by lia.
  apply wp_bind, wp_massert; [done|]. apply wp_ret.
  unfold offset_to_block, block_to_ptr, block_start_offset, block_header_overhead.
  rewrite !wrap_small by (rewrite ?wrap_small; lia).
  by replace (a + (8 + 8) + (z - 8)) with (a + 8 + z) by lia.
Qed.

Lemma wp_block_link_next (Q : Z → tlsf_state → Prop) :
  0 < a → 8 <= z → a + 16 + z < 2 ^ 64 → Q (a + 8 + z) (put (a + 8 + z) a s) →
  wp (block_link_next a) Q s.
Proof.
  intros Ha Hz Hb HQ. unfold block_link_next. by apply wp_bind, wp_block_next.
Qed.
End header_ops.

(** [block_set_size] keeps whatever the two flag bits are. *)
Lemma wp_block_set_size s a z (Q : unit → tlsf_state → Prop) :
  z mod 8 = 0 → 0 <= z < 2 ^ 63 →
  (∀ f p, load64 (heap s) (a + 8) mod 4 = flag_bits f p → Q tt (put (a + 8) (z + flag_bits f p) s)) →
  wp (block_set_size a z) Q s.
Proof.
  intros Hz Hr HQ. unfold block_set_size, get_size, set_size.
  apply wp_bind, wp_ld64. rewrite word_set_size by zlia. apply HQ. symmetry. apply flag_bits_word.
Qed.

(** The flag bits of a header are determined by the word modulo 4. *)
Lemma flag_bits_inj f p f' p' : flag_bits f p = flag_bits f' p' → f = f' ∧ p = p'.
Proof. by destruct f, p, f', p'. Qed.

Lemma hw_flags s a z f p f' p' :
  hw s a z f p → load64 (heap s) (a + 8) mod 4 = flag_bits f' p' → f' = f ∧ p' = p.
Proof.
  intros (E & Hz & Hr) Hm. apply flag_bits_inj. rewrite <- Hm, E.
  pose proof (flag_bits_range f p). zlia.
Qed.

(** ** Reading a chain of stores *)

Lemma load64_put_eq s a v : 0 <= v < 2 ^ 64 → load64 (heap (put a v s)) a = v.
Proof. apply load64_store64_eq. Qed.

Lemma load64_put_ne s a v w : apart w a → load64 (heap (put a v s)) w = load64 (heap s) w.
Proof. apply load64_apart. Qed.

Lemma load8_put_ne s a v i : i < a ∨ a + 8 <= i → load8 (heap (put a v s)) i = load8 (heap s) i.
Proof. intros. by apply load8_storen_out. Qed.

Lemma hw_put_eq s a z f p : z mod 8 = 0 → 0 <= z < 2 ^ 63 →
  hw (put (a + 8) (z + flag_bits f p) s) a z f p.
Proof.
  intros. split; [|done]. apply load64_put_eq. pose proof (flag_bits_range f p). lia.
Qed.

Lemma hw_put_ne s w v a z f p : apart (a + 8) w → hw s a z f p → hw (put w v s) a z f p.
Proof. intros Hw (E & Hr). split; [|done]. by rewrite load64_put_ne. Qed.

(** Discharges the geometric side conditions on words. *)
Ltac geo :=
  unfold apart, nxt in *; cbn [bsz set_bsz set_bfree set_bpf] in *;
  repeat match goal with
  | |- context [flag_bits ?f ?p] =>
    lazymatch goal with
    | _ : 0 <= flag_bits f p < 4 |- _ => fail
    | _ => pose proof (flag_bits_range f p)
    end
  end; lia.
(** Reads a word through the stores that precede it. *)
Ltac rd := repeat first [ rewrite load64_put_eq by geo | rewrite load64_put_ne by geo ].

(** ** The combined invariant and frames *)

Record inv (s : tlsf_state) (B : gmap Z blk) (X : Z → Prop) : Prop := {
  inv_phys : phys_ok (control s) (heap s) B;
  inv_lists : ∃ L, lists_ok s B L X
}.

Definition keeps (U : Z → Prop) (s s' : tlsf_state) : Prop :=
  control s' = control s ∧ ∀ i, U i → load8 (heap s') i = load8 (heap s) i.

Lemma keeps_refl U s : keeps U s s.
Proof. done. Qed.

Lemma keeps_trans U s1 s2 s3 : keeps U s1 s2 → keeps U s2 s3 → keeps U s1 s3.
Proof. intros [C1 H1] [C2 H2]. split; [congruence|]. intros i Hi. by rewrite H2, H1. Qed.

Lemma keeps_mono (U U' : Z → Prop) s s' : (∀ i, U' i → U i) → keeps U s s' → keeps U' s s'.
Proof. intros HU [C H]. split; [done|]. auto. Qed.

(** The control structure is not touched: only memory words are. *)
Definition same_ctl (s s' : tlsf_state) : Prop :=
  control s' = control s ∧ fl_bitmap s' = fl_bitmap s ∧
  sl_bitmap s' = sl_bitmap s ∧ blocks s' = blocks s.

Lemma lists_frame s s' B B' L X X' :
  lists_ok s B L X → same_ctl s s' →
  (∀ a z, listed B' X' a z ↔ listed B X a z) →
  (∀ a z, listed B X a z → node_ok (heap s) (heap s') a) → lists_ok s' B' L X'.
Proof.
  intros HL (C1 & C2 & C3 & C4) Hl Hn. constructor; rewrite ?C1, ?C2, ?C3, ?C4; try apply HL.
  - intros i j Hij. eapply dseg_frame; [|by apply HL].
    intros a Ha. apply (lo_mem _ _ _ _ HL i j a Hij) in Ha as (z & Hz & _). by eapply Hn.
  - intros i j a Hij. rewrite (lo_mem _ _ _ _ HL) by done. split; intros (z & Hz & Hm); exists z; (split; [|done]); by apply Hl.
Qed.

Lemma inv_ext s B X X' :
  (∀ a x, B !! a = Some x → bfree x = true → X' a ↔ X a) → inv s B X → inv s B X'.
Proof.
  intros HX [HP [L HL]]. split; [done|]. exists L. eapply lists_frame; try done.
  intros a z. unfold listed. split; intros (x & Hx & Hf & Hz & Hn); exists x; split_and!; try done;
    intros H; apply Hn; eapply HX; done.
Qed.

Section shape_frames.
Context {c : Z} {B : gmap Z blk} (HP : shape c B).

(** The list words of a free block are not header words. *)
Lemma listed_apart X a z b y : listed B X a z → B !! b = Some y →
  (apart (a + 16) b ∧ apart (a + 24) b) ∧ (apart (a + 16) (b + 8) ∧ apart (a + 24) (b + 8)).
Proof.
  intros (x & Ha & Hf & _) Hb. pose proof (phys_free HP a x Ha Hf). pose proof (phys_geom HP b y Hb).
  destruct (phys_sep HP a b x y Ha Hb) as [->|?]; geo.
Qed.

Lemma used_not_hdr i b y : in_used B i → B !! b = Some y → i < b + 8 ∨ b + 16 <= i.
Proof.
  intros (a & x & Ha & _ & Hi) Hb. pose proof (phys_geom HP b y Hb).
  destruct (phys_sep HP a b x y Ha Hb) as [->|?]; geo.
Qed.
End shape_frames.

Section frames.
Context {c : Z} {m : gmap Z Z} {B : gmap Z blk} (HP : phys_ok c m B).

Lemma phys_hw s a x : heap s = m → B !! a = Some x → hw s a (bsz x) (bfree x) (bpf x).
Proof.
  intros E Ha. pose proof (phys_geom HP a x Ha). destruct (phys_align HP a x Ha).
  split; [|split; [done|lia]]. rewrite E, (po_hdr _ _ _ HP a x Ha). apply hdr_flag_bits.
Qed.

Lemma used_not_prev i b y : in_used B i → B !! b = Some y → bpf y = true → i < b ∨ b + 8 <= i.
Proof.
  intros (a & x & Ha & Hu & Hi) Hb Hpf.
  destruct (po_prv _ _ _ HP b y Hb Hpf) as (p & v & Hp & Hf & <-).
  pose proof (phys_free HP p v Hp Hf). pose proof (phys_geom HP a x Ha).
  destruct (phys_sep HP a p x v Ha Hp) as [->|?]; [congruence|]. 
  destruct (phys_sep HP a _ x y Ha Hb) as [E|?]; geo.
Qed.

(** The block after a block that is not a sentinel. *)
Lemma phys_next a x : B !! a = Some x → 0 < bsz x →
  ∃ y, B !! nxt a x = Some y ∧ bpf y = bfree x ∧ bpool y = bpool x.
Proof. intros Ha Hz. destruct (po_nxt _ _ _ HP a x Ha Hz) as (y & ? & ? & ? & _). eauto. Qed.
End frames.

Lemma heap_frame_keeps s s' B :
  phys_ok (control s) (heap s) B → heap_frame (link_byte (control s) B) s s' → keeps (in_used B) s s'.
Proof. intros HP [C H]. split; [done|]. intros i Hi. apply H. by eapply used_not_link. Qed.

Lemma block_remove_spec s B X a x :
  inv s B X → B !! a = Some x → bfree x = true → ¬ X a →
  wp (block_remove a) (λ _ s', inv s' B (λ d, d = a ∨ X d) ∧ keeps (in_used B) s s') s.
Proof.
  intros [HP [L HL]] Ha Hf HX. unfold block_remove.
  apply wp_bind, (wp_block_size (phys_hw HP s a x eq_refl Ha)).
  destruct (mapping_insert (bsz x)) as [fl sl] eqn:Hm.
  wp_use remove_free_block_spec; [apply HP|done|exists x; eauto|done|].
  intros _ s' [HF HL']. split; [|by eapply heap_frame_keeps].
  split; [|done]. destruct HF as [-> HF]. by eapply phys_links.
Qed.

Lemma block_insert_spec s B X a x :
  inv s B X → B !! a = Some x → bfree x = true → X a →
  wp (block_insert a) (λ _ s', inv s' B (λ d, X d ∧ d ≠ a) ∧ keeps (in_used B) s s') s.
Proof.
  intros [HP [L HL]] Ha Hf HX. unfold block_insert.
  apply wp_bind, (wp_block_size (phys_hw HP s a x eq_refl Ha)).
  destruct (mapping_insert (bsz x)) as [fl sl] eqn:Hm.
  wp_use insert_free_block_spec; [apply HP|done..|].
  intros _ s' [HF HL']. split; [|by eapply heap_frame_keeps].
  split; [|done]. destruct HF as [-> HF]. by eapply phys_links.
Qed.

(** ** Flipping a flag *)

Definition flag_map (B : gmap Z blk) (a : Z) (x y : blk) (f : bool) : gmap Z blk :=
  <[a := set_bfree f x]> (<[nxt a x := set_bpf f y]> B).

Lemma flag_map_listed c m B X a x y f : phys_ok c m B → B !! a = Some x → 0 < bsz x →
  B !! nxt a x = Some y → X a →
  ∀ d z, listed (flag_map B a x y f) X d z ↔ listed B X d z.
Proof.
  intros HP Ha Hz Hn HX d z. unfold listed, flag_map. assert (a ≠ nxt a x) by (unfold nxt; lia).
  split.
  - intros (w & Hw & Hf & Hs & Hd). apply set_flag_lookup in Hw; [|done..].
    destruct Hw as [[-> _]|[[-> ->]|(_ & _ & Hw)]]; [done|exists y|exists w]; done.
  - intros (w & Hw & Hf & Hs & Hd). assert (d ≠ a) by (intros ->; done).
    destruct (decide (d = nxt a x)) as [->|].
    + exists (set_bpf f y). simplify_eq. split_and!; try done. apply set_flag_lookup; auto.
    + exists w. split_and!; try done. apply set_flag_lookup; auto.
Qed.

Section mark.
Context {s : tlsf_state} {B : gmap Z blk} {X : Z → Prop} (HI : inv s B X).
Context {a : Z} {x y : blk} (Ha : B !! a = Some x) (Hz : 0 < bsz x).
Context (Hn : B !! nxt a x = Some y) (Hp : bpool y = bpool x) (HX : X a).

(** Any state with the three words of a flag change has the flag map. *)
Lemma inv_flag s' f :
  same_ctl s s' →
  load64 (heap s') (a + 8) = hdr (set_bfree f x) →
  load64 (heap s') (nxt a x + 8) = hdr (set_bpf f y) →
  (f = true → load64 (heap s') (nxt a x) = a) →
  (∀ w, apart w (a + 8) → apart w (nxt a x) → apart w (nxt a x + 8) →
        load64 (heap s') w = load64 (heap s) w) →
  inv s' (flag_map B a x y f) X.
Proof.
  destruct HI as [HP [L HL]]. intros HC H1 H2 H3 Ho. split.
  - destruct HC as [-> _]. by eapply phys_set_flag.
  - exists L. eapply lists_frame; [done..| |].
    + by eapply flag_map_listed.
    + intros d z Hd. destruct (listed_apart HP _ d z a x Hd Ha) as [[] []].
      destruct (listed_apart HP _ d z _ y Hd Hn) as [[] []]. split; by apply Ho.
Qed.

Lemma block_mark_as_free_spec :
  wp (block_mark_as_free a) (λ _ s', inv s' (flag_map B a x y true) X ∧
    keeps (in_used (flag_map B a x y true)) s s') s.
Proof.
  pose proof (inv_phys _ _ _ HI) as HP.
  pose proof (phys_geom HP a x Ha). pose proof (phys_geom HP _ _ Hn).
  pose proof (phys_hw HP s a x eq_refl Ha) as Wa. pose proof (phys_hw HP s _ y eq_refl Hn) as Wn.
  unfold block_mark_as_free. apply wp_bind, (wp_block_link_next Wa); [lia..|].
  change (a + 8 + bsz x) with (nxt a x). apply wp_bind.
  eapply wp_block_set_prev_free; [apply hw_put_ne; [geo|exact Wn]|].
  eapply wp_block_set_free; [do 2 (apply hw_put_ne; [geo|]); exact Wa|].
  set (s' := put _ _ _).
  assert (inv s' (flag_map B a x y true) X) as HI'.
  { apply inv_flag; [done|unfold s'..].
    - rd. by rewrite hdr_flag_bits.
    - rd. by rewrite hdr_flag_bits.
    - intros _. by rd.
    - intros. by rd. }
  split; [done|]. split; [done|]. intros i Hi. unfold s'.
  pose proof (inv_phys _ _ _ HI') as HP'.
  assert (flag_map B a x y true !! a = Some (set_bfree true x)) as L1 by (apply set_flag_lookup; auto).
  assert (flag_map B a x y true !! nxt a x = Some (set_bpf true y)) as L2 by (apply set_flag_lookup; auto).
  pose proof (used_not_hdr HP' i _ _ Hi L1). pose proof (used_not_hdr HP' i _ _ Hi L2).
  pose proof (used_not_prev HP' i _ _ Hi L2 eq_refl). rewrite !load8_put_ne by lia. done.
Qed.

Lemma block_mark_as_used_spec :
  wp (block_mark_as_used a) (λ _ s', inv s' (flag_map B a x y false) X ∧
    keeps (in_used B) s s') s.
Proof.
  pose proof (inv_phys _ _ _ HI) as HP.
  pose proof (phys_geom HP a x Ha). pose proof (phys_geom HP _ _ Hn).
  pose proof (phys_hw HP s a x eq_refl Ha) as Wa. pose proof (phys_hw HP s _ y eq_refl Hn) as Wn.
  unfold block_mark_as_used. apply wp_bind, (wp_block_next Wa); [lia..|].
  change (a + 8 + bsz x) with (nxt a x). apply wp_bind.
  eapply wp_block_set_prev_used; [exact Wn|].
  eapply wp_block_set_used; [apply hw_put_ne; [geo|]; exact Wa|].
  split.
  - apply inv_flag; [done|..].
    + rd. by rewrite hdr_flag_bits.
    + rd. by rewrite hdr_flag_bits.
    + done.
    + intros. by rd.
  - split; [done|]. intros i Hi. pose proof (used_not_hdr HP i _ _ Hi Ha).
    pose proof (used_not_hdr HP i _ _ Hi Hn). rewrite !load8_put_ne by lia. done.
Qed.
End mark.
