(* ===== verification/TlsfBlocks.v ===== *)
(** * TLSF: splitting, absorbing and trimming blocks *)

From stdpp Require Import prelude gmap list numbers tactics.
From S2P Require Import Prelude Memory TlsfBits Tlsf TlsfInv TlsfSplit TlsfLists TlsfFree TlsfOps.

(** ** Word-level effect of [block_absorb] and [block_split] *)

Definition absorb_words (a z z' : Z) (f p : bool) (s : tlsf_state) : tlsf_state :=
  put (a + 8 + (z + 8 + z')) a (put (a + 8) (z + 8 + z' + flag_bits f p) s).

Lemma wp_block_absorb s a z f p b z' f' p' (Q : Z → tlsf_state → Prop) :
  hw s a z f p → hw s b z' f' p' → 0 < a → 8 <= z → a + 16 + z + 8 + z' < 2 ^ 64 → z + 8 + z' < 2 ^ 63 →
  Q a (absorb_words a z z' f p s) → wp (block_absorb a b) Q s.
Proof.
  intros Wa Wb Ha Hz Hr Hr2 HQ. pose proof (flag_bits_range f p).
  pose proof (proj2 Wa). pose proof (proj2 Wb). unfold block_absorb.
  apply wp_bind, (wp_block_is_last Wa). rewrite (proj2 (Z.eqb_neq z 0)) by lia.
  apply wp_bind, wp_massert; [done|]. apply wp_bind, (wp_block_size Wb).
  apply wp_bind, wp_ld64. rewrite (proj1 Wa). unfold set_size, st64. do 2 wp_step.
  change block_header_overhead with 8. rewrite wrap_small by lia.
  replace (z + flag_bits f p + (z' + 8)) with (z + 8 + z' + flag_bits f p) by lia.
  apply wp_bind. eapply wp_block_link_next; [apply hw_put_eq; zlia|lia..|]. done.
Qed.

Section split_words.
Context (s : tlsf_state) (a size z : Z) (f p : bool) (zn : Z) (fn pn : bool).
Let rem := a + 8 + size.
Let zr := z - size - 8.
Let n := a + 8 + z.
Context (Wa : hw s a z f p) (Wn : hw s n zn fn pn).
Context (Ha : 0 < a) (Hal : a mod 8 = 0) (Hr : a + 16 + z < 2 ^ 64).
Context (Hs : size mod 8 = 0) (Hs1 : 24 <= size) (Hs2 : size + 32 <= z).

Definition split_state (f0 p0 : bool) : tlsf_state :=
  put (rem + 8) (zr + flag_bits true p0)
  (put (n + 8) (zn + flag_bits fn true)
  (put n rem
  (put (a + 8) (size + flag_bits f p)
  (put (rem + 8) (zr + flag_bits f0 p0) s)))).

Lemma wp_block_split (Q : Z → tlsf_state → Prop) :
  (∀ f0 p0, Q rem (split_state f0 p0)) → wp (block_split a size) Q s.
Proof.
  intros HQ. destruct (proj2 Wa) as [M1 ?], (proj2 Wn) as [M2 ?].
  assert (24 <= zr) by (unfold zr; lia).
  assert (zr mod 8 = 0) by (unfold zr; clear -Hs M1; zlia).
  unfold block_split.
  assert (offset_to_block (block_to_ptr a) (u64 (size - block_header_overhead)) = rem) as ->.
  { unfold offset_to_block, block_to_ptr. change block_start_offset with 16.
    change block_header_overhead with 8. 
    rewrite (wrap_small 64 (a + 16)), (wrap_small 64 (size - 8)), wrap_small by lia. unfold rem. lia. }
  apply wp_bind, (wp_block_size Wa). cbv zeta. change block_header_overhead with 8.
  rewrite (wrap_small 64 (size + 8)) by lia. rewrite (wrap_small 64 (z - (size + 8))) by lia.
  replace (z - (size + 8)) with zr by (unfold zr; lia).
  assert (block_to_ptr rem = rem + 16) as ->.
  { unfold block_to_ptr. change block_start_offset with 16. apply wrap_small. unfold rem. lia. }
  apply wp_bind, wp_align_ptr8; [unfold rem; zlia|unfold rem; lia..|].
  apply wp_bind, wp_massert; [by apply Z.eqb_eq|].
  apply wp_bind, wp_massert; [apply Z.eqb_eq; rewrite wrap_small; unfold zr; lia|].
  apply wp_bind, wp_block_set_size; [done|unfold zr in *; lia|]. intros f0 p0 _.
  apply wp_bind. eapply wp_block_size; [apply hw_put_eq; [done|unfold zr in *; lia]|].
  apply wp_bind, wp_massert; [by apply Z.leb_le|].
  apply wp_bind, wp_block_set_size; [done|lia|]. intros f1 p1 Hfp.
  rewrite load64_put_ne in Hfp by (unfold rem; geo).
  destruct (hw_flags _ _ _ _ _ _ _ Wa Hfp) as [-> ->].
  unfold block_mark_as_free. apply wp_bind, wp_bind.
  eapply (wp_block_link_next (a:=rem)).
  { apply hw_put_ne; [unfold rem; geo|]. apply hw_put_eq; [done|unfold zr in *; lia]. }
  { unfold rem; lia. } { lia. } { unfold rem, zr; lia. }
  replace (rem + 8 + zr) with n by (unfold rem, zr, n; lia).
  apply wp_bind. eapply (wp_block_set_prev_free (a:=n)).
  { do 3 (apply hw_put_ne; [unfold n, rem; geo|]). exact Wn. }
  eapply (wp_block_set_free (a:=rem)).
  { do 3 (apply hw_put_ne; [unfold n, rem, zr in *; geo|]). apply hw_put_eq; [done|unfold zr in *; lia]. }
  apply wp_ret. apply HQ.
Qed.
End split_words.

(** ** Blocks in use, as the clients see them *)

Definition alloc (B : gmap Z blk) (a z : Z) : Prop :=
  ∃ x, B !! a = Some x ∧ bfree x = false ∧ bsz x = z ∧ 0 < z.

Definition same_alloc (B B' : gmap Z blk) : Prop := ∀ a z, alloc B' a z ↔ alloc B a z.

Lemma in_used_alloc B i : in_used B i ↔ ∃ a z, alloc B a z ∧ a + 16 <= i < a + 16 + z.
Proof.
  split.
  - intros (a & x & Ha & Hf & Hi). exists a, (bsz x). split; [exists x; split_and!; (done || lia)|done].
  - intros (a & z & (x & Ha & Hf & <- & _) & Hi). by exists a, x.
Qed.

Lemma same_alloc_used B B' i : same_alloc B B' → in_used B' i ↔ in_used B i.
Proof. intros H. rewrite !in_used_alloc. unfold same_alloc in H. by setoid_rewrite H. Qed.

(** ** Absorbing *)

Section absorb_spec.
Context {s : tlsf_state} {B : gmap Z blk} {X : Z → Prop} (HI : inv s B X).
Context {a : Z} {x y z : blk}.
Let b := nxt a x.
Let n := nxt b y.
Context (Ha : B !! a = Some x) (Hb : B !! b = Some y) (Hn : B !! n = Some z).
Context (Hzx : 0 < bsz x) (Hfy : bfree y = true).
Context (HXa : bfree x = true → X a) (HXb : X b).

Lemma absorb_facts : 0 < bsz y ∧ bpool y = bpool x ∧ bpool z = bpool x ∧ bpf z = true.
Proof.
  clear HXa HXb. destruct HI as [HP _]. pose proof (phys_free HP b y Hb Hfy).
  destruct (phys_next HP a x Ha Hzx) as (y' & E1 & _ & E2). fold b in E1.
  destruct (phys_next HP b y Hb) as (z' & E3 & E4 & E5); [lia|]. fold n in E3.
  simplify_eq. split_and!; (lia || congruence).
Qed.

Lemma absorb_listed f d w : (f = true → X a) →
  listed (absorb_map B a x y z f) X d w ↔ listed B X d w.
Proof.
  intros Hf. destruct absorb_facts as (Hzy & _). unfold listed. split.
  - intros (v & Hv & Fv & Sv & NX). apply absorb_lookup in Hv; [|done..].
    destruct Hv as [[-> ->]|[[-> ->]|(_ & _ & _ & Hv)]]; [by destruct NX; auto|exists z|exists v]; done.
  - intros (v & Hv & Fv & Sv & NX).
    assert (d ≠ a). { intros ->. rewrite Ha in Hv. injection Hv as <-. auto. }
    assert (d ≠ b) by (by intros ->).
    destruct (decide (d = n)) as [->|].
    + exists (set_bpf f z). rewrite Hn in Hv. injection Hv as <-. split_and!; try done.
      apply absorb_lookup; [done..|]. tauto.
    + exists v. split_and!; try done. apply absorb_lookup; [done..|]. tauto.
Qed.

Lemma inv_absorb s' f :
  same_ctl s s' → (f = true → X a) →
  load64 (heap s') (a + 8) = hdr (mk_blk (bsz x + 8 + bsz y) f (bpf x) (bpool x)) →
  load64 (heap s') (n + 8) = hdr (set_bpf f z) →
  (f = true → load64 (heap s') n = a) →
  (∀ w, apart w (a + 8) → apart w n → apart w (n + 8) → load64 (heap s') w = load64 (heap s) w) →
  inv s' (absorb_map B a x y z f) X.
Proof.
  intros HC Hf H1 H2 H3 Ho. destruct absorb_facts as (Hzy & P1 & P2 & _).
  destruct HI as [HP [L HL]]. split.
  - destruct HC as [-> _]. by eapply phys_absorb.
  - exists L. eapply lists_frame; [done..| |].
    + intros d w. by apply absorb_listed.
    + intros d w Hd. destruct (listed_apart HP _ d w a x Hd Ha) as [[] []].
      destruct (listed_apart HP _ d w _ z Hd Hn) as [[] []]. split; by apply Ho.
Qed.

Lemma absorb_used i : in_used B i → (i < n ∨ n + 8 <= i) ∧ (i < n + 8 ∨ n + 16 <= i) ∧ (i < a + 8 ∨ a + 16 <= i).
Proof.
  intros Hi. destruct absorb_facts as (_ & _ & _ & Hp). destruct HI as [HP _].
  split_and!; [by eapply used_not_prev|by eapply (used_not_hdr HP)..].
Qed.

Lemma block_absorb_spec : bfree x = true →
  wp (block_absorb a b) (λ r s', r = a ∧ inv s' (absorb_map B a x y z true) X ∧
    keeps (in_used B) s s') s.
Proof.
  intros Hfx. destruct absorb_facts as (Hzy & P1 & P2 & P3). pose proof (inv_phys _ _ _ HI) as HP.
  pose proof (phys_geom HP a x Ha). pose proof (phys_geom HP b y Hb). pose proof (phys_geom HP n z Hn).
  pose proof (phys_hw HP s a x eq_refl Ha) as Wa. pose proof (phys_hw HP s b y eq_refl Hb) as Wb.
  eapply wp_block_absorb; [done..|lia|lia|unfold b in *; geo|lia|]. split; [done|].
  replace (absorb_words a (bsz x) (bsz y) (bfree x) (bpf x) s) with
    (put n a (put (a + 8) (bsz x + 8 + bsz y + flag_bits true (bpf x)) s)).
  2:{ unfold absorb_words. rewrite Hfx. f_equal. unfold n, b. geo. }
  split.
  - apply inv_absorb; [done|auto|unfold n, b in *..].
    + rd. by rewrite hdr_flag_bits.
    + rd. rewrite (po_hdr _ _ _ HP _ z Hn). unfold hdr. cbn. by rewrite P3.
    + intros _. by rd.
    + intros. by rd.
  - split; [done|]. intros i Hi. destruct (absorb_used i Hi) as (?&?&?). by rewrite !load8_put_ne by lia.
Qed.

(** [block_absorb] into a block in use, then [block_mark_as_used], as in
    [tlsf_realloc]. *)
Lemma block_absorb_used_spec : bfree x = false →
  wp (block_absorb a b ;; block_mark_as_used a) (λ _ s',
    inv s' (absorb_map B a x y z false) X ∧ keeps (in_used B) s s') s.
Proof.
  intros Hfx. destruct absorb_facts as (Hzy & P1 & P2 & P3). pose proof (inv_phys _ _ _ HI) as HP.
  pose proof (phys_geom HP a x Ha). pose proof (phys_geom HP b y Hb). pose proof (phys_geom HP n z Hn).
  pose proof (phys_hw HP s a x eq_refl Ha) as Wa. pose proof (phys_hw HP s b y eq_refl Hb) as Wb.
  pose proof (phys_hw HP s n z eq_refl Hn) as Wn.
  destruct (proj2 Wa) as [Ma _], (proj2 Wb) as [Mb _].
  assert (n = a + 8 + (bsz x + 8 + bsz y)) as En by (unfold n, b; geo).
  apply wp_bind. eapply wp_block_absorb; [done..|lia|lia|unfold b in *; geo|lia|].
  unfold absorb_words. rewrite Hfx, <- En. unfold block_mark_as_used. apply wp_bind.
  eapply wp_block_next; [apply hw_put_ne; [geo|]; apply hw_put_eq; [clear -Ma Mb; zlia|geo]|lia..|].
  rewrite <- En. apply wp_bind.
  eapply wp_block_set_prev_used; [do 2 (apply hw_put_ne; [geo|]); exact Wn|].
  eapply wp_block_set_used.
  { do 2 (apply hw_put_ne; [geo|]); apply hw_put_eq; [clear -Ma Mb; zlia|geo]. }
  split.
  - apply inv_absorb; [done|done|..].
    + rd. by rewrite hdr_flag_bits.
    + rd. by rewrite hdr_flag_bits.
    + done.
    + intros. by rd.
  - split; [done|]. intros i Hi. destruct (absorb_used i Hi) as (?&?&?). by rewrite !load8_put_ne by lia.
Qed.
End absorb_spec.

(** ** Splitting *)

Section split_spec.
Context {s : tlsf_state} {B : gmap Z blk} {X : Z → Prop} (HI : inv s B X).
Context {a size : Z} {x y : blk} (Ha : B !! a = Some x) (Hn : B !! nxt a x = Some y).
Context (HXa : bfree x = true → X a).
Context (Hs : size mod 8 = 0) (Hs1 : 24 <= size) (Hs2 : size + 32 <= bsz x).
Let rem := a + 8 + size.
Let xr := mk_blk (bsz x - size - 8) true (bfree x) (bpool x).
Let B' := split_map B a size x y.
Let X' := λ d, d = rem ∨ X d.

Lemma split_pool : bpool y = bpool x.
Proof.
  clear HXa. destruct (phys_next (inv_phys _ _ _ HI) a x Ha) as (y' & E & _ & ?); [lia|]. congruence.
Qed.

Lemma split_listed d w : listed B' X' d w ↔ listed B X d w.
Proof.
  pose proof (inv_phys _ _ _ HI) as HP. unfold listed. split.
  - intros (v & Hv & Fv & Sv & NX). apply split_lookup in Hv; [|done..].
    unfold X' in NX. destruct Hv as [[-> ->]|[[-> ->]|[[-> ->]|(_ & _ & _ & Hv)]]].
    + tauto.
    + destruct NX. by left.
    + exists y. tauto.
    + exists v. tauto.
  - intros (v & Hv & Fv & Sv & NX).
    assert (d ≠ a). { intros ->. rewrite Ha in Hv. injection Hv as <-. auto. }
    assert (d ≠ rem). { intros ->. unfold rem in Hv. by erewrite split_rem_fresh in Hv. }
    destruct (decide (d = nxt a x)) as [->|].
    + exists (set_bpf true y). rewrite Hn in Hv. injection Hv as <-.
      split_and!; try done; [|by intros [|]]. apply split_lookup; [done..|]. tauto.
    + exists v. split_and!; try done; [|by intros [|]]. apply split_lookup; [done..|]. tauto.
Qed.

(** The words [block_split] and its caller leave behind. *)
Lemma inv_split s' :
  same_ctl s s' →
  load64 (heap s') (a + 8) = hdr (set_bsz size x) →
  load64 (heap s') (rem + 8) = hdr xr →
  load64 (heap s') (nxt a x + 8) = hdr (set_bpf true y) →
  load64 (heap s') (nxt a x) = rem →
  (bfree x = true → load64 (heap s') rem = a) →
  (∀ w, apart w (a + 8) → apart w rem → apart w (rem + 8) →
        apart w (nxt a x) → apart w (nxt a x + 8) → load64 (heap s') w = load64 (heap s) w) →
  inv s' B' X'.
Proof.
  intros HC H1 H2 H3 H4 H5 Ho. pose proof split_pool as Hpool. destruct HI as [HP [L HL]]. split.
  - destruct HC as [-> _]. by eapply phys_split.
  - exists L. eapply lists_frame; [done..|exact split_listed|].
    intros d w Hd. destruct (listed_apart HP _ d w a x Hd Ha) as [[] []].
    destruct (listed_apart HP _ d w _ y Hd Hn) as [[] []].
    assert (apart (d + 16) rem ∧ apart (d + 24) rem ∧ apart (d + 16) (rem + 8) ∧ apart (d + 24) (rem + 8))
      as (?&?&?&?).
    { destruct Hd as (v & Hv & Fv & _ & NX). pose proof (phys_free HP d v Hv Fv).
      destruct (phys_sep HP d a v x Hv Ha) as [->|?]; [|unfold rem; geo].
      simplify_eq. by destruct NX; auto. }
    split; by apply Ho.
Qed.

Lemma split_keeps s' : inv s' B' X' →
  same_ctl s s' →
  (∀ i, (i < a + 8 ∨ a + 16 <= i) → (bfree x = true → i < rem ∨ rem + 8 <= i) →
        (i < rem + 8 ∨ rem + 16 <= i) → (i < nxt a x ∨ nxt a x + 8 <= i) →
        (i < nxt a x + 8 ∨ nxt a x + 16 <= i) → load8 (heap s') i = load8 (heap s) i) →
  keeps (in_used B') s s'.
Proof.
  intros HI' [HC _] Ho. split; [done|]. intros i Hi. pose proof (inv_phys _ _ _ HI') as HP'.
  assert (B' !! a = Some (set_bsz size x)) as L1 by (apply split_lookup; [done..|]; auto).
  assert (B' !! rem = Some xr) as L2 by (apply split_lookup; [done..|]; auto).
  assert (B' !! nxt a x = Some (set_bpf true y)) as L3 by (apply split_lookup; [done..|]; auto).
  apply Ho.
  - by eapply (used_not_hdr HP').
  - intros Hf. eapply used_not_prev; [done..|exact Hf].
  - by eapply (used_not_hdr HP').
  - by eapply used_not_prev.
  - by eapply (used_not_hdr HP').
Qed.

Context {A : Type} (k : Z → T A) (Q : A → tlsf_state → Prop).
Context (Hk : ∀ s', inv s' B' X' → keeps (in_used B') s s' → wp (k rem) Q s').

Local Ltac split_start :=
  pose proof (inv_phys _ _ _ HI) as HP;
  pose proof (phys_geom HP a x Ha); pose proof (phys_geom HP _ y Hn);
  destruct (phys_align HP a x Ha) as [Al Mx];
  pose proof (phys_hw HP s a x eq_refl Ha) as Wa; pose proof (phys_hw HP s _ y eq_refl Hn) as Wn;
  assert ((bsz x - size - 8) mod 8 = 0) as Mr by (clear -Hs Mx; zlia);
  apply wp_bind; eapply wp_block_split; [exact Wa|exact Wn|try done; lia..|];
  intros f0 p0; fold rem.

Local Ltac split_end :=
  match goal with |- wp (k rem) Q ?s' =>
    let HI' := fresh in
    assert (inv s' B' X') as HI';
    [ apply inv_split; [done|unfold rem in *..];
      [rd; by rewrite hdr_flag_bits|rd; rewrite hdr_flag_bits; cbn; congruence
      |rd; by rewrite hdr_flag_bits|by rd|intros; try congruence; by rd|intros; by rd]
    | apply Hk; [done|]; apply split_keeps; [done..|]; intros i ? Hi2 ? ? ?; cbn [nxt] in *;
      rewrite !load8_put_ne by (unfold nxt in *; auto || lia); done ]
  end.

Lemma split_link_free : bfree x = true →
  wp (r ← block_split a size; block_link_next a ;; block_set_prev_free r ;; k r) Q s.
Proof.
  intros Hf. split_start. unfold split_state. apply wp_bind. fold rem. change (a + 8 + bsz x) with (nxt a x).
  eapply (wp_block_link_next (a:=a)).
  { do 3 (apply hw_put_ne; [unfold rem; geo|]). by apply hw_put_eq; [|lia]. }
  { lia. } { lia. } { lia. }
  fold rem. apply wp_bind. eapply (wp_block_set_prev_free (a:=rem)).
  { apply hw_put_ne; [unfold rem; geo|]. by apply hw_put_eq; [|lia]. }
  split_end.
Qed.

Lemma split_free_link : bfree x = true →
  wp (r ← block_split a size; block_set_prev_free r ;; block_link_next a ;; k r) Q s.
Proof.
  intros Hf. split_start. unfold split_state. fold rem. change (a + 8 + bsz x) with (nxt a x).
  apply wp_bind. eapply (wp_block_set_prev_free (a:=rem)); [by apply hw_put_eq; [|lia]|].
  apply wp_bind. eapply (wp_block_link_next (a:=a)).
  { do 4 (apply hw_put_ne; [unfold rem; geo|]). by apply hw_put_eq; [|lia]. }
  { lia. } { lia. } { lia. }
  fold rem. split_end.
Qed.

Lemma split_used : bfree x = false →
  wp (r ← block_split a size; block_set_prev_used r ;; k r) Q s.
Proof.
  intros Hf. split_start. unfold split_state. fold rem. change (a + 8 + bsz x) with (nxt a x).
  apply wp_bind. eapply (wp_block_set_prev_used (a:=rem)); [by apply hw_put_eq; [|lia]|].
  split_end.
Qed.
End split_spec.

Lemma wp_block_can_split s a z f p size (Q : bool → tlsf_state → Prop) :
  hw s a z f p → 0 <= size < 2 ^ 63 → Q (size + 32 <=? z) s → wp (block_can_split a size) Q s.
Proof.
  intros W Hs HQ. unfold block_can_split. apply wp_bind, (wp_block_size W), wp_ret.
  change sizeof_block_header_t with 32. rewrite wrap_small, Z.add_comm by lia. done.
Qed.

(** ** Effect on the blocks in use and on coalescing *)

Section map_effects.
Context {c : Z} {m : gmap Z Z} {B : gmap Z blk} (HP : phys_ok c m B).
Context {a : Z} {x : blk} (Ha : B !! a = Some x) (Hzx : 0 < bsz x).

Lemma flag_alloc y f d z : B !! nxt a x = Some y →
  alloc (flag_map B a x y f) d z ↔ (d ≠ a ∧ alloc B d z) ∨ (f = false ∧ d = a ∧ z = bsz x).
Proof.
  intros Hn. unfold alloc, flag_map. setoid_rewrite set_flag_lookup; [|done..].
  assert (a ≠ nxt a x) by (unfold nxt; lia). split.
  - intros (w & [[-> ->]|[[-> ->]|(?&?&Hw)]] & Hf & Hz & Hp0); [right; auto|left; split; [done|]; eauto..].
  - intros [[Hd (w & Hw & Hf & Hz & Hp0)]|(-> & -> & ->)].
    + destruct (decide (d = nxt a x)) as [->|]; [exists (set_bpf f y)|exists w]; simplify_eq; split_and!; auto.
    + exists (set_bfree false x). auto.
Qed.

Lemma split_alloc y size d z : B !! nxt a x = Some y → 24 <= size → size + 32 <= bsz x →
  alloc (split_map B a size x y) d z ↔
  (d ≠ a ∧ alloc B d z) ∨ (bfree x = false ∧ d = a ∧ z = size).
Proof.
  intros Hn Hs1 Hs2. unfold alloc. setoid_rewrite split_lookup; [|done..].
  assert (a ≠ nxt a x) by (unfold nxt; lia).
  assert (B !! (a + 8 + size) = None) as Hfresh by (by eapply split_rem_fresh). split.
  - intros (w & [[-> ->]|[[-> ->]|[[-> ->]|(?&?&?&Hw)]]] & Hf & Hz & Hp0); [right|done|left; split; [done|]..].
    + done.
    + eauto.
    + eauto.
  - intros [[Hd (w & Hw & Hf & Hz & Hp0)]|(Hf & -> & ->)].
    + destruct (decide (d = nxt a x)) as [->|]; [exists (set_bpf true y)|exists w]; simplify_eq; split_and!; auto.
      do 3 right. split_and!; try done. congruence.
    + exists (set_bsz size x). split_and!; auto. lia.
Qed.

Lemma absorb_alloc y w f d z : B !! nxt a x = Some y → B !! nxt (nxt a x) y = Some w →
  bfree y = true → 0 < bsz y →
  alloc (absorb_map B a x y w f) d z ↔
  (d ≠ a ∧ alloc B d z) ∨ (f = false ∧ d = a ∧ z = bsz x + 8 + bsz y).
Proof.
  intros Hn Hw Hfy Hzy. unfold alloc. setoid_rewrite absorb_lookup; [|done..].
  assert (a ≠ nxt (nxt a x) y) by (unfold nxt; lia). split.
  - intros (v & [[-> ->]|[[-> ->]|(?&?&?&Hv)]] & Hf & Hz & Hp0); [right; auto|left; split; [done|]; eauto..].
  - intros [[Hd (v & Hv & Hf & Hz & Hp0)]|(-> & -> & ->)].
    + assert (d ≠ nxt a x) by (intros ->; congruence).
      destruct (decide (d = nxt (nxt a x) y)) as [->|]; [exists (set_bpf f w)|exists v]; simplify_eq; split_and!; tauto.
    + eexists. split_and!; [left; done|done|done|lia].
Qed.
End map_effects.
