(* ===== verification/TlsfMerge.v ===== *)
(** * TLSF: coalescing and trimming

    [block_merge_prev], [block_merge_next] and the three trims, specified on the
    physical map, the blocks in use ([alloc]) and the coalescing property. *)

From stdpp Require Import prelude gmap list numbers tactics.
From S2P Require Import Prelude Memory TlsfBits Tlsf TlsfInv TlsfSplit TlsfLists TlsfFree TlsfOps TlsfBlocks.

Definition none (_ : Z) : Prop := False.

(** [B'] and [x'] describe the heap after merging around the free block [a]. *)
Record merged (s s' : tlsf_state) (B B' : gmap Z blk) (a : Z) (x' : blk) : Prop := {
  mg_inv : inv s' B' (λ d, d = a);
  mg_blk : B' !! a = Some x';
  mg_free : bfree x' = true;
  mg_alloc : same_alloc B B';
  mg_keeps : keeps (in_used B) s s'
}.

(** Absorbing the free block [nxt a x] into the free block [a], both in hand. *)
Lemma absorb_free_merged s s1 B a x y z :
  inv s1 B (λ d, d = nxt a x ∨ d = a) → keeps (in_used B) s s1 →
  B !! a = Some x → bfree x = true →
  B !! nxt a x = Some y → bfree y = true → B !! nxt (nxt a x) y = Some z →
  wp (block_absorb a (nxt a x)) (λ r s', r = a ∧
    merged s s' B (absorb_map B a x y z true) a (mk_blk (bsz x + 8 + bsz y) true (bpf x) (bpool x))) s1.
Proof.
  intros HI1 HK Ha Hf Hy Hfy Hz. pose proof (inv_phys _ _ _ HI1) as HP.
  pose proof (phys_free HP a x Ha Hf). pose proof (phys_free HP _ y Hy Hfy).
  wp_use (block_absorb_spec HI1 Ha Hy Hz); [lia|done|auto|auto|done|].
  intros r s' (-> & HI2 & HK2). split; [done|]. constructor.
  - eapply inv_ext; [|exact HI2]. intros d v Hd _. cbv beta. split; [auto|].
    intros [->|]; [|done]. apply absorb_lookup in Hd; [|done || lia..]. unfold nxt in *. lia.
  - apply absorb_lookup; [done || lia..|]. by left.
  - done.
  - intros d v. rewrite absorb_alloc; [|done || lia..]. split; [intros [[? ?]|(?&_)]; done|].
    intros Hd. left. split; [|done]. intros ->. destruct Hd as (?&?&?&_). congruence.
  - by eapply keeps_trans.
Qed.

Section merge.
Context {s : tlsf_state} {B : gmap Z blk} {a : Z} {x : blk}.
Context (HI : inv s B (λ d, d = a)) (Ha : B !! a = Some x) (Hf : bfree x = true).
Let HP := inv_phys _ _ _ HI.

Lemma merged_refl : merged s s B B a x.
Proof. constructor; try done. Qed.

Lemma block_merge_next_spec : bpf x = false → coalesced B (λ d, d = nxt a x) →
  wp (block_merge_next a) (λ r s', r = a ∧ ∃ B' x', merged s s' B B' a x' ∧
    bsz x <= bsz x' ∧ coalesced B' none) s.
Proof.
  intros Hpf HC. pose proof (phys_free HP a x Ha Hf). pose proof (phys_geom HP a x Ha).
  pose proof (phys_hw HP s a x eq_refl Ha) as Wa.
  destruct (phys_next HP a x Ha) as (y & Hy & Py & _); [lia|]. rewrite Hf in Py.
  pose proof (phys_geom HP _ y Hy). pose proof (phys_hw HP s _ y eq_refl Hy) as Wy.
  unfold block_merge_next. apply wp_bind, (wp_block_next Wa); [lia..|].
  change (a + 8 + bsz x) with (nxt a x).
  apply wp_bind, wp_massert; [apply truthy_true; unfold nxt; lia|].
  apply wp_bind, (wp_block_is_free Wy). destruct (bfree y) eqn:Fy.
  - apply wp_bind, (wp_block_is_last Wa), wp_bind, wp_massert.
    { apply negb_true_iff, Z.eqb_neq. lia. }
    pose proof (phys_free HP _ y Hy Fy).
    destruct (phys_next HP _ y Hy) as (z & Hz & Pz & _); [lia|]. rewrite Fy in Pz.
    apply wp_bind. wp_use (block_remove_spec s B _ (nxt a x) y HI); [done..|unfold nxt; lia|].
    intros _ s1 [HI1 HK1]. wp_use (absorb_free_merged s s1 B a x y z); [done..|].
    intros r s' (-> & HM). split; [done|]. do 2 eexists. split; [exact HM|]. split; [cbn; lia|].
    intros d v [[-> ->]|[[-> ->]|(?&?&?&Hv)]]%absorb_lookup Fv Pv; [| | |done || lia..].
    + cbn in Pv. congruence.
    + pose proof (HC _ z Hz Fv Pz). unfold nxt in *. lia.
    + pose proof (HC d v Hv Fv Pv). done.
  - apply wp_ret. split; [done|]. exists B, x. split; [apply merged_refl|]. split; [lia|].
    intros d v Hv Fv Pv. pose proof (HC d v Hv Fv Pv). congruence.
Qed.
End merge.

Lemma block_merge_prev_spec s B a x :
  inv s B (λ d, d = a) → B !! a = Some x → bfree x = true → coalesced B (λ d, d = a ∨ d = nxt a x) →
  wp (block_merge_prev a) (λ r s', ∃ B' x', merged s s' B B' r x' ∧ bpf x' = false ∧
    coalesced B' (λ d, d = nxt r x')) s.
Proof.
  intros HI Ha Hf HC. pose proof (inv_phys _ _ _ HI) as HP.
  pose proof (phys_hw HP s a x eq_refl Ha) as Wa. pose proof (phys_free HP a x Ha Hf).
  unfold block_merge_prev. apply wp_bind, (wp_block_is_prev_free Wa).
  destruct (bpf x) eqn:Px.
  - destruct (po_prv _ _ _ HP a x Ha Px) as (p & w & Hp & Fw & Ew).
    pose proof (phys_free HP p w Hp Fw). pose proof (phys_geom HP p w Hp).
    destruct (po_nxt _ _ _ HP p w Hp) as (x' & Hx' & _ & _ & Lw); [lia|]. rewrite Ew in Hx', Lw.
    unfold block_prev, get_prev_phys. apply wp_bind, wp_bind, (wp_block_is_prev_free Wa).
    apply wp_bind, wp_massert; [done|]. apply wp_ld64. rewrite Lw by done.
    apply wp_bind, wp_massert; [apply truthy_true; lia|].
    apply wp_bind, (wp_block_is_free (phys_hw HP s p w eq_refl Hp)). rewrite Fw.
    apply wp_bind, wp_massert; [done|]. apply wp_bind.
    assert (p ≠ a) by (unfold nxt in *; lia).
    wp_use (block_remove_spec s B _ p w HI); [done..|]. intros _ s1 [HI1 HK1].
    destruct (phys_next HP a x Ha) as (z & Hz & Pz & _); [lia|]. rewrite Hf in Pz.
    assert (B !! nxt p w = Some x) as Hnp by (by rewrite Ew).
    assert (B !! nxt (nxt p w) x = Some z) as Hnz by (by rewrite Ew).
    assert (inv s1 B (λ d, d = nxt p w ∨ d = p)) as HI1'.
    { eapply inv_ext; [|exact HI1]. intros. rewrite Ew. cbv beta. tauto. }
    rewrite <- Ew. wp_use (absorb_free_merged s s1 B p w x z); [done..|]. intros r s' (-> & HM).
    do 2 eexists. split; [exact HM|].
    split.
    { cbn. destruct (bpf w) eqn:Pw; [|done]. pose proof (HC p w Hp Fw Pw). unfold nxt in *. lia. }
    intros d v [[-> ->]|[[-> ->]|(?&?&?&Hv)]]%absorb_lookup Fv Pv; [| | |done || lia..].
    + cbn in Pv. pose proof (HC p w Hp Fw Pv). unfold nxt in *. lia.
    + unfold nxt. cbn. lia.
    + pose proof (HC d v Hv Fv Pv) as [->| ->]; unfold nxt in *; cbn; lia.
  - apply wp_ret. exists B, x. split; [by apply merged_refl|]. split; [done|].
    intros d v Hv Fv Pv. destruct (HC d v Hv Fv Pv) as [->|]; [congruence|done].
Qed.

(** ** Trimming a free block *)

Lemma split_free_merged s B a x y size :
  inv s B (λ d, d = a) → B !! a = Some x → bfree x = true → B !! nxt a x = Some y →
  size mod 8 = 0 → 24 <= size → size + 32 <= bsz x →
  same_alloc B (split_map B a size x y).
Proof.
  intros HI Ha Hf Hy Hm H1 H2 d z. pose proof (inv_phys _ _ _ HI) as HP.
  erewrite split_alloc; [|done || lia..]. rewrite Hf. split; [intros [[? ?]|(?&_)]; done|].
  intros Hd. left. split; [|done]. intros ->. destruct Hd as (?&?&?&_). congruence.
Qed.

(** The successor of a free block is in use when only [a] may be uncoalesced. *)
Lemma next_used c m B a x y : phys_ok c m B → coalesced B (λ d, d = a) →
  B !! a = Some x → bfree x = true → B !! nxt a x = Some y → bfree y = false.
Proof.
  intros HP HC Ha Hf Hy. pose proof (phys_free HP a x Ha Hf). destruct (bfree y) eqn:Fy; [|done].
  destruct (phys_next HP a x Ha) as (y' & Hy' & Py & _); [lia|]. simplify_eq.
  pose proof (HC _ y Hy Fy ltac:(congruence)). unfold nxt in *. lia.
Qed.

Lemma block_trim_free_spec s B a x size :
  inv s B (λ d, d = a) → B !! a = Some x → bfree x = true → coalesced B (λ d, d = a) →
  size mod 8 = 0 → 24 <= size <= bsz x →
  wp (block_trim_free a size) (λ _ s', ∃ B' x', merged s s' B B' a x' ∧
    size <= bsz x' < size + 32 ∧ coalesced B' (λ d, d = a ∨ d = nxt a x')) s.
Proof.
  intros HI Ha Hf HC Hm Hsz. pose proof (inv_phys _ _ _ HI) as HP.
  pose proof (phys_geom HP a x Ha). pose proof (phys_hw HP s a x eq_refl Ha) as Wa.
  unfold block_trim_free. apply wp_bind, (wp_block_is_free Wa), wp_bind, wp_massert; [done|].
  apply wp_bind. eapply wp_block_can_split; [done|lia|].
  destruct (Z.leb_spec (size + 32) (bsz x)) as [Hc|Hc]; cbn [mwhen].
  - destruct (phys_next HP a x Ha) as (y & Hy & _ & _); [lia|].
    pose proof (next_used _ _ _ _ _ _ HP HC Ha Hf Hy) as Fy.
    eapply (split_link_free HI Ha Hy); [auto|done|lia|lia| |done].
    intros s1 HI1 HK1. set (r := a + 8 + size) in *.
    pose proof (split_free_merged s B a x y size HI Ha Hf Hy Hm ltac:(lia) Hc) as HA.
    assert (∀ d v, split_map B a size x y !! d = Some v ↔ _) as Hlk
      by (intros; apply split_lookup; done || lia).
    wp_use (block_insert_spec s1 _ _ r (mk_blk (bsz x - size - 8) true (bfree x) (bpool x)) HI1); [apply Hlk; right; left; done|done|by left|].
    intros _ s' [HI' HK']. exists (split_map B a size x y), (set_bsz size x). split; [constructor|split].
    + eapply inv_ext; [|exact HI']. intros d v _ _. cbv beta.
      assert (a ≠ r) by (unfold r; lia). naive_solver.
    + apply Hlk. by left.
    + done.
    + done.
    + eapply keeps_mono; [|eapply keeps_trans; done]. intros i Hi. by apply (same_alloc_used _ _ i HA).
    + cbn. lia.
    + intros d v [[-> ->]|[[-> ->]|[[-> ->]|(?&?&?&Hv)]]]%Hlk Fv Pv; [by left|by right|cbn in Fv; congruence|].
      left. by apply (HC d v).
  - apply wp_ret. exists B, x. split; [by apply merged_refl|]. split; [lia|].
    intros d v Hv Fv Pv. left. by apply (HC d v).
Qed.

Lemma block_trim_free_leading_spec s B a x gap :
  inv s B (λ d, d = a) → B !! a = Some x → bfree x = true → coalesced B none →
  gap mod 8 = 0 → 32 <= gap → gap + 32 <= bsz x →
  wp (block_trim_free_leading a gap) (λ r s', r = a + gap ∧ ∃ B' x', merged s s' B B' r x' ∧
    bsz x' = bsz x - gap ∧ coalesced B' (λ d, d = r)) s.
Proof.
  intros HI Ha Hf HC Hm Hg Hsz. pose proof (inv_phys _ _ _ HI) as HP.
  pose proof (phys_geom HP a x Ha). pose proof (phys_hw HP s a x eq_refl Ha) as Wa.
  assert ((gap - 8) mod 8 = 0) as Hm' by (clear -Hm; zlia).
  destruct (phys_next HP a x Ha) as (y & Hy & _ & _); [lia|].
  assert (bfree y = false) as Fy.
  { eapply (next_used _ _ _ a x); try done. intros d v Hv Fv Pv. destruct (HC d v Hv Fv Pv). }
  unfold block_trim_free_leading. apply wp_bind. eapply wp_block_can_split; [done|lia|].
  destruct (Z.leb_spec (gap + 32) (bsz x)) as [Hc|]; [|lia].
  change block_header_overhead with 8. rewrite wrap_small by lia.
  eapply (split_free_link HI Ha Hy); [auto|done|lia|lia| |done].
  intros s1 HI1 HK1. replace (a + 8 + (gap - 8)) with (a + gap) in * by lia.
  pose proof (split_free_merged s B a x y (gap - 8) HI Ha Hf Hy Hm' ltac:(lia) ltac:(lia)) as HA.
  assert (∀ d v, split_map B a (gap - 8) x y !! d = Some v ↔ _) as Hlk
    by (intros; apply split_lookup; done || lia).
  replace (a + 8 + (gap - 8)) with (a + gap) in Hlk by lia.
  apply wp_bind. wp_use (block_insert_spec s1 _ _ a (set_bsz (gap - 8) x) HI1); [apply Hlk; left; done|done|by right|].
  intros _ s' [HI' HK']. apply wp_ret. split; [done|]. do 2 eexists. split; [constructor|split].
  - eapply inv_ext; [|exact HI']. intros d v _ _. cbv beta. clear -Hg. split; [intros ->; split; [by left|lia]|].
    intros [[?|?] ?]; done.
  - apply Hlk. right. left. done.
  - done.
  - done.
  - eapply keeps_mono; [|eapply keeps_trans; done]. intros i Hi. by apply (same_alloc_used _ _ i HA).
  - cbn. lia.
  - intros d v [[-> ->]|[[-> ->]|[[-> ->]|(?&?&?&Hv)]]]%Hlk Fv Pv; [|done|cbn in Fv; congruence|].
    + cbn in Pv. by destruct (HC a x Ha Hf Pv).
    + by destruct (HC d v Hv Fv Pv).
Qed.

(** ** Trimming a block in use *)

Record heap_ok (s : tlsf_state) (B : gmap Z blk) : Prop := {
  ho_inv : inv s B none;
  ho_coal : coalesced B none
}.

Lemma block_trim_used_spec s B a z size :
  heap_ok s B → alloc B a z → size mod 8 = 0 → 24 <= size <= z →
  wp (block_trim_used a size) (λ _ s', ∃ B' z', heap_ok s' B' ∧ size <= z' <= z ∧ z' < size + 32 ∧
    (∀ d w, alloc B' d w ↔ (d ≠ a ∧ alloc B d w) ∨ (d = a ∧ w = z')) ∧
    keeps (in_used B') s s') s.
Proof.
  intros [HI HC] (x & Ha & Hf & <- & _) Hm Hsz. pose proof (inv_phys _ _ _ HI) as HP.
  pose proof (phys_geom HP a x Ha). pose proof (phys_hw HP s a x eq_refl Ha) as Wa.
  unfold block_trim_used. apply wp_bind, (wp_block_is_free Wa), wp_bind, wp_massert; [by rewrite Hf|].
  apply wp_bind. eapply wp_block_can_split; [done|lia|].
  destruct (Z.leb_spec (size + 32) (bsz x)) as [Hc|Hc]; cbn [mwhen].
  - destruct (phys_next HP a x Ha) as (y & Hy & Py & _); [lia|]. rewrite Hf in Py.
    eapply (split_used HI Ha Hy); [intros; congruence|done|lia|lia| |done].
    intros s1 HI1 HK1. set (r := a + 8 + size) in *. set (B1 := split_map B a size x y) in *.
    assert (∀ d v, B1 !! d = Some v ↔ _) as Hlk by (intros; apply split_lookup; done || lia).
    set (xr := mk_blk (bsz x - size - 8) true (bfree x) (bpool x)) in *.
    assert (B1 !! r = Some xr) as Hr by (apply Hlk; right; by left).
    assert (inv s1 B1 (λ d, d = r)) as HI1'.
    { eapply inv_ext; [|exact HI1]. intros. cbv beta. unfold none. tauto. }
    apply wp_bind. wp_use (block_merge_next_spec HI1' Hr eq_refl); [done|..].
    { intros d v [[-> ->]|[[-> ->]|[[-> ->]|(?&?&?&Hv)]]]%Hlk Fv Pv.
      - cbn in Fv. congruence.
      - cbn in Pv. congruence.
      - unfold nxt, xr, r. cbn. lia.
      - by destruct (HC d v Hv Fv Pv). }
    intros ? s2 (-> & B2 & x2 & [M1 M2 M3 M4 M5] & _ & HC2).
    wp_use (block_insert_spec s2 B2 _ r x2 M1); [done..|]. intros _ s' [HI' HK'].
    exists B2, size. split; [split; [|done]|split_and!; [lia..| |]].
    + eapply inv_ext; [|exact HI']. intros. unfold none. tauto.
    + intros d w. rewrite (M4 d w). unfold B1. erewrite split_alloc; [|done || lia..].
      split; intros [?|?]; tauto.
    + eapply keeps_trans; [|exact HK']. eapply keeps_mono; [|eapply keeps_trans; done].
      intros i Hi. by apply (same_alloc_used _ _ i M4).
  - apply wp_ret. exists B, (bsz x). split_and!; try lia; try done.
    intros d w. split.
    + intros Hd. destruct (decide (d = a)) as [->|]; [right|by left].
      destruct Hd as (?&?&?&?&?). split; [done|]. congruence.
    + intros [[_ ?]|[-> ->]]; [done|]. exists x. split_and!; try done. lia.
Qed.
