(* ===== verification/TlsfMain.v ===== *)
(** * TLSF: [tlsf_malloc] and [tlsf_free]

    Finding a free block of sufficient size, and the correctness of the two
    operations for a client that sees the blocks it owns. *)

From stdpp Require Import prelude gmap list numbers tactics.
From S2P Require Import Prelude Memory TlsfBits Tlsf TlsfInv TlsfSplit TlsfLists TlsfFree TlsfOps TlsfBlocks TlsfMerge.

(** Lexicographic order of classes. *)
Definition class_le (i j i' j' : Z) : Prop := i < i' ∨ (i = i' ∧ j <= j').

Lemma shifted_ones_bit k j : 0 <= k → 0 <= j →
  Z.testbit (u32 (Z.shiftl 0xffffffff k)) j = (k <=? j) && (j <? 32).
Proof.
  intros Hk Hj. unfold wrap. rewrite Z.testbit_mod_pow2 by lia.
  destruct (Z.ltb_spec j 32); [|by rewrite andb_false_r]. rewrite andb_true_r.
  rewrite Z.shiftl_spec by lia. change 0xffffffff with (Z.ones 32).
  destruct (Z.leb_spec k j).
  - rewrite Z.ones_spec_low by lia. done.
  - by rewrite Z.testbit_neg_r by lia.
Qed.

Lemma masked_word v k : 0 <= v < 2 ^ 32 → 0 <= k →
  let w := Z.land v (u32 (Z.shiftl 0xffffffff k)) in
  0 <= w < 2 ^ 32 ∧ ∀ j, 0 <= j → Z.testbit w j = Z.testbit v j && (k <=? j).
Proof.
  intros Hv Hk. cbv zeta. split; [by apply land_range|]. intros j Hj.
  rewrite Z.land_spec, shifted_ones_bit by done.
  destruct (Z.ltb_spec j 32); [by rewrite andb_true_r|].
  by rewrite (testbit_high 32 v) by lia.
Qed.

(** Scanning the bits of [v] from [k] on. *)
Lemma scan_from v k : 0 <= v < 2 ^ 32 → 0 <= k →
  let w := Z.land v (u32 (Z.shiftl 0xffffffff k)) in
  if truthy w then k <= tlsf_ffs w < 32 ∧ Z.testbit v (tlsf_ffs w) = true
  else ∀ j, k <= j → Z.testbit v j = false.
Proof.
  intros Hv Hk. cbv zeta. destruct (masked_word v k Hv Hk) as [Hw Hb]. set (w := Z.land _ _) in *.
  destruct (truthy w) eqn:E; boolprop.
  - destruct (tlsf_ffs_spec w) as (H1 & H2 & _); [lia|].
    rewrite Hb in H2 by lia. boolprop. split; [lia|done].
  - intros j Hj. specialize (Hb j ltac:(lia)). rewrite E, Z.bits_0 in Hb.
    rewrite (proj2 (Z.leb_le k j)), andb_true_r in Hb by done. done.
Qed.

Section search.
Context {s : tlsf_state} {B : gmap Z blk} {L : Z → Z → list Z} {X : Z → Prop}.
Context (HL : lists_ok s B L X).

Definition found (fl sl : Z) (r : Z * Z * Z) : Prop :=
  let '(b, fl', sl') := r in
  (b = 0 ∧ ∀ i j, idx i j → class_le fl sl i j → L i j = []) ∨
  (idx fl' sl' ∧ class_le fl sl fl' sl' ∧ ∃ l, L fl' sl' = b :: l).

Lemma row_bits fl : 0 <= fl < 25 → ∃ v, zlookup (sl_bitmap s) fl = Some v ∧ 0 <= v < 2 ^ 32 ∧
  ∀ j, 0 <= j < 32 → Z.testbit v j = nonempty (L fl j).
Proof.
  intros Hfl. destruct (zlookup_Some (sl_bitmap s) fl) as [v Hv]; [rewrite (lo_slen _ _ _ _ HL); lia|].
  exists v. split; [done|]. by apply (lo_sl _ _ _ _ HL).
Qed.

Lemma wp_head_found fl sl fl' sl' : idx fl' sl' → class_le fl sl fl' sl' → nonempty (L fl' sl') = true →
  wp (b ← get_head fl' sl'; mret (b, fl', sl')) (λ r s', s' = s ∧ found fl sl r) s.
Proof.
  intros Hi Hle Hne. apply wp_bind. eapply wp_get_head; [by apply HL|]. apply wp_ret.
  split; [done|]. right. split_and!; try done. destruct (L fl' sl') as [|b l]; [done|]. by exists l.
Qed.

Lemma search_suitable_block_spec fl sl : idx fl sl →
  wp (search_suitable_block fl sl) (λ r s', s' = s ∧ found fl sl r) s.
Proof.
  intros [Hfl Hsl]. unfold search_suitable_block.
  destruct (row_bits fl Hfl) as (v & Hv & Hvr & Hvb). apply wp_bind. eapply wp_get_sl; [done|].
  pose proof (scan_from v sl Hvr ltac:(lia)) as Hs. cbv zeta in Hs |- *.
  destruct (truthy (Z.land v (u32 (Z.shiftl 0xffffffff sl)))).
  { destruct Hs as [Hs1 Hs2]. rewrite Hvb in Hs2 by lia.
    apply wp_head_found; [split; lia|right; lia|done]. }
  apply wp_bind, wp_gets.
  destruct (lo_fl _ _ _ _ HL) as [Fr Fb].
  pose proof (scan_from (fl_bitmap s) (fl + 1) ltac:(lia) ltac:(lia)) as Hf. cbv zeta in Hf.
  destruct (truthy (Z.land (fl_bitmap s) (u32 (Z.shiftl 0xffffffff (fl + 1))))).
  - destruct Hf as [Hf1 Hf2]. set (fl' := tlsf_ffs _) in *.
    assert (fl' < 25).
    { destruct (Z.lt_ge_cases fl' 25); [done|]. rewrite (testbit_high 25) in Hf2 by lia. done. }
    destruct (row_bits fl') as (v' & Hv' & Hvr' & Hvb'); [lia|].
    apply wp_bind. eapply wp_get_sl; [done|]. rewrite (Fb fl' v' Hv') in Hf2.
    apply wp_bind, wp_massert; [done|]. boolprop.
    destruct (tlsf_ffs_spec v') as (H1 & H2 & _); [lia|]. rewrite Hvb' in H2 by lia.
    apply wp_head_found; [split; lia|left; lia|done].
  - apply wp_ret. split; [done|]. left. split; [done|]. intros i j [Hi Hj] [Hlt|[-> Hle]].
    + destruct (row_bits i Hi) as (w & Hw & Hwr & Hwb). pose proof (Fb i w Hw) as E.
      rewrite Hf in E by lia. symmetry in E. boolprop. subst w.
      specialize (Hwb j Hj). rewrite Z.bits_0 in Hwb. by destruct (L i j).
    + specialize (Hvb j Hj). rewrite Hs in Hvb by lia. by destruct (L i j).
Qed.
End search.

(** ** Locating and adjusting *)

(** Sizes the allocator works with internally. *)
Definition good_size (n : Z) : Prop := n mod 8 = 0 ∧ 24 <= n < 2 ^ 32.

(** A free block whose class is at or above the one searched for. *)
Definition suitable (B : gmap Z blk) (size : Z) : Prop :=
  ∃ a x, B !! a = Some x ∧ bfree x = true ∧
    class_le (fst (mapping_search size)) (snd (mapping_search size))
             (fst (mapping_insert (bsz x))) (snd (mapping_insert (bsz x))).

Lemma block_locate_free_spec s B size :
  inv s B none → good_size size →
  wp (block_locate_free size) (λ b s',
    (b = 0 ∧ s' = s ∧ ¬ suitable B size) ∨
    (suitable B size ∧ ∃ x, B !! b = Some x ∧ bfree x = true ∧ size <= bsz x ∧
       inv s' B (λ d, d = b) ∧ keeps (in_used B) s s')) s.
Proof.
  intros HI [Hm Hr]. destruct HI as [HP [L HL]]. unfold block_locate_free, suitable.
  rewrite (proj2 (truthy_true size)) by lia.
  destruct (mapping_search size) as [fl sl] eqn:Es. cbn [fst snd].
  destruct (mapping_search_class size fl sl) as (Hfl & Hsl & Hlo); [lia|done..|].
  assert (∀ a x, B !! a = Some x → bfree x = true → ∃ i j, mapping_insert (bsz x) = (i, j) ∧
            idx i j ∧ a ∈ L i j ∧ class_lo i j <= bsz x) as Hcls.
  { intros a x Ha Hf. destruct (mapping_insert (bsz x)) as [i j] eqn:Ei. exists i, j.
    assert (listed B none a (bsz x)) as Hl by (exists x; split_and!; try done; by intros []).
    pose proof (listed_idx HP _ _ _ _ _ Hl Ei) as Hij. split_and!; try done.
    - apply (lo_mem _ _ _ _ HL); eauto.
    - pose proof (phys_geom HP a x Ha).
      destruct (mapping_insert_class (bsz x) i j) as (_&_&_&?); [lia|done|lia]. }
  apply wp_bind. destruct (Z.ltb_spec fl 25) as [Hlt|Hge].
  - change (fl <? FL_INDEX_COUNT) with (fl <? 25). rewrite (proj2 (Z.ltb_lt fl 25)) by done.
    wp_use (search_suitable_block_spec HL fl sl); [split; lia|].
    intros [[b fl'] sl'] s' [-> [[-> Hnone]|(Hi & Hle & l & Hl)]]; cbn [truthy Z.eqb negb].
    + apply wp_ret. left. split_and!; try done. intros (a & x & Ha & Hf & Hle).
      destruct (Hcls a x Ha Hf) as (i & j & Ei & Hij & Hin & _). rewrite Ei in Hle. cbn in Hle.
      rewrite (Hnone i j Hij Hle) in Hin. set_solver.
    + assert (b ∈ L fl' sl') as Hb by (rewrite Hl; set_solver).
      apply (lo_mem _ _ _ _ HL fl' sl' b Hi) in Hb as (z & Hz & Em).
      pose proof Hz as (x & Hx & Hf & <- & _). pose proof (phys_geom HP b x Hx).
      destruct (Hcls b x Hx Hf) as (i & j & Ei & _ & _ & Hlo').
      rewrite Em in Ei. injection Ei as <- <-.
      assert (size <= bsz x).
      { destruct Hi. pose proof (class_lo_mono fl sl fl' sl' ltac:(lia) ltac:(lia) ltac:(lia) Hle). lia. }
      rewrite (proj2 (truthy_true b)) by lia.
      apply wp_bind, (wp_block_size (phys_hw HP s b x eq_refl Hx)).
      apply wp_bind, wp_massert; [by apply Z.leb_le|].
      apply wp_bind. wp_use remove_free_block_spec; [apply HP|done..|].
      intros _ s' [HF [L' HL']]. apply wp_ret. right. split.
      { exists b, x. rewrite Em. done. }
      exists x. split_and!; try done; [|by eapply heap_frame_keeps].
      eapply (inv_ext _ _ (λ d, d = b ∨ none d)); [intros; cbv beta; unfold none; tauto|].
      split; [|eauto]. destruct HF as [-> HF]. by eapply phys_links.
  - change (fl <? FL_INDEX_COUNT) with (fl <? 25). rewrite (proj2 (Z.ltb_ge fl 25)) by done.
    apply wp_ret. cbn. apply wp_ret. left. split_and!; try done.
    intros (a & x & Ha & Hf & Hle). destruct (Hcls a x Ha Hf) as (i & j & Ei & [Hij _] & _ & _).
    rewrite Ei in Hle. unfold class_le in Hle. cbn in Hle. lia.
Qed.

(** ** TLSF: correctness of the allocation interface

    [heap_ok s B] is the invariant of the allocator: the memory, the boundary
    tags, the free lists and the bitmaps of [s] are those of the physical map
    [B], and no two adjacent blocks are free.  A client sees [B] through
    [owned B p n]: the pointer [p] is the payload of a block in use of [n]
    bytes.  Every theorem is about total executions: no assertion fails. *)

Definition owned (B : gmap Z blk) (p n : Z) : Prop := alloc B (p - 16) n.

(** Bytes of the payloads a client owns. *)
Definition in_owned (B : gmap Z blk) (i : Z) : Prop := ∃ p n, owned B p n ∧ p <= i < p + n.

Lemma in_owned_used B i : in_owned B i ↔ in_used B i.
Proof.
  rewrite in_used_alloc. unfold in_owned, owned. split.
  - intros (p & n & H & Hi). exists (p - 16), n. split; [done|lia].
  - intros (a & z & H & Hi). exists (a + 16), z. replace (a + 16 - 16) with a by lia. split; [done|lia].
Qed.

Section owned.
Context {s : tlsf_state} {B : gmap Z blk} (HO : heap_ok s B).
Let HP := inv_phys _ _ _ (ho_inv _ _ HO).

(** Owned blocks are aligned, at least 24 bytes, inside the address space and
    pairwise disjoint. *)
Lemma owned_geom p n : owned B p n → p mod 8 = 0 ∧ 24 <= n < 2 ^ 32 ∧ 16 < p ∧ p + n < 2 ^ 64.
Proof.
  intros (x & Hx & _ & <- & Hz). pose proof (phys_geom HP _ x Hx). destruct (phys_align HP _ x Hx).
  split_and!; try lia. zlia.
Qed.

Lemma owned_disjoint p n p' n' : owned B p n → owned B p' n' → p ≠ p' → p + n < p' ∨ p' + n' < p.
Proof.
  intros (x & Hx & _ & <- & ?) (y & Hy & _ & <- & ?) Hne.
  destruct (phys_sep HP _ _ x y Hx Hy) as [?|[?|?]]; unfold nxt in *; lia.
Qed.

Lemma owned_size p n n' : owned B p n → owned B p n' → n = n'.
Proof. intros (x & Hx & _ & <- & _) (y & Hy & _ & <- & _). congruence. Qed.
End owned.

(** ** Request sizes *)

Definition req (size : Z) : Z :=
  if size =? 0 then 0
  else let a := (size + 7) / 8 * 8 in if a <? 2 ^ 32 then Z.max a 24 else 0.

Lemma wp_adjust8 s size (Q : Z → tlsf_state → Prop) :
  0 <= size <= 2 ^ 64 - 8 → Q (req size) s → wp (adjust_request_size size ALIGN_SIZE) Q s.
Proof.
  intros Hs HQ. unfold adjust_request_size, req in *. unfold truthy.
  destruct (size =? 0); cbn [negb]; [done|].
  unfold align_up. apply wp_bind, wp_bind, wp_massert; [done|]. apply wp_ret, wp_ret.
  change ALIGN_SIZE with (2 ^ 3). rewrite align_up_val_eq by lia. change (2 ^ 3) with 8.
  change block_size_max with (2 ^ 32). change block_size_min with 24.
  replace (size + (8 - 1) - (size + (8 - 1)) mod 8) with ((size + 7) / 8 * 8) by zlia. done.
Qed.

Lemma req_good size : 0 <= size → req size = 0 ∨ (good_size (req size) ∧ size <= req size).
Proof.
  intros Hs. unfold req, good_size. destruct (Z.eqb_spec size 0); [by left|]. cbv zeta.
  destruct (Z.ltb_spec ((size + 7) / 8 * 8) (2 ^ 32)); [right|by left]. split; [|zlia].
  destruct (Z.max_spec ((size + 7) / 8 * 8) 24) as [[? ->]|[? ->]]; zlia.
Qed.

(** ** Handing out a block *)

(** A successful allocation of at least [n] bytes at [p]. *)
Definition allocated (B B' : gmap Z blk) (p n : Z) : Prop :=
  ∃ z, n <= z < n + 32 ∧ p mod 8 = 0 ∧ 16 < p ∧ (∀ m, ¬ owned B p m) ∧
    ∀ q m, owned B' q m ↔ owned B q m ∨ (q = p ∧ m = z).

Lemma block_prepare_used_spec s B a x size :
  inv s B (λ d, d = a) → B !! a = Some x → bfree x = true → coalesced B (λ d, d = a) →
  good_size size → size <= bsz x →
  wp (block_prepare_used a size) (λ p s', p = a + 16 ∧ ∃ B', heap_ok s' B' ∧
    keeps (in_used B) s s' ∧ allocated B B' p size) s.
Proof.
  intros HI Ha Hf HC [Hm Hr] Hsz. pose proof (inv_phys _ _ _ HI) as HP.
  pose proof (phys_geom HP a x Ha). destruct (phys_align HP a x Ha) as [Al _].
  unfold block_prepare_used. rewrite (proj2 (truthy_true a)) by lia.
  apply wp_bind, wp_massert; [apply truthy_true; lia|]. apply wp_bind.
  wp_use block_trim_free_spec; [done..|lia|].
  intros _ s1 (B1 & x1 & [M1 M2 M3 M4 M5] & Hsz1 & HC1). pose proof (inv_phys _ _ _ M1) as HP1.
  destruct (phys_next HP1 a x1 M2) as (y & Hy & _ & Py); [lia|].
  apply wp_bind. wp_use (block_mark_as_used_spec M1 M2 ltac:(lia) Hy Py eq_refl).
  intros _ s2 [HI2 HK2]. apply wp_ret.
  split. { unfold block_to_ptr. change block_start_offset with 16. apply wrap_small. lia. }
  replace (block_to_ptr a) with (a + 16)
    by (unfold block_to_ptr; change block_start_offset with 16; rewrite wrap_small; lia).
  set (B2 := flag_map B1 a x1 y false) in *.
  assert (∀ d v, B2 !! d = Some v ↔ _) as Hlk by (intros; apply set_flag_lookup; done || lia).
  exists B2. split_and!; [split|..].
  - eapply inv_ext; [|exact HI2]. intros d v Hd Fv. unfold none. split; [done|]. intros ->.
    apply Hlk in Hd as [[_ ->]|[[? _]|(?&_)]]; [done|unfold nxt in *; lia|done].
  - intros d v [[-> ->]|[[-> ->]|(?&?&Hv)]]%Hlk Fv Pv; [done..|].
    destruct (HC1 d v Hv Fv Pv) as [?|?]; done.
  - eapply keeps_trans; [done|]. eapply keeps_mono; [|done].
    intros i Hi. by apply (same_alloc_used _ _ i M4).
  - exists (bsz x1). split_and!; try lia; [clear -Al; zlia|..].
    + intros m (v & Hv & Fv & _). replace (a + 16 - 16) with a in Hv by lia. congruence.
    + intros q m. unfold owned, B2. erewrite flag_alloc by (done || lia). rewrite (M4 (q - 16) m).
      split.
      * intros [[? ?]|(_ & ? & ?)]; [by left|right; lia].
      * intros [Hq|[-> ->]]; [left|right; split_and!; lia || done]. split; [|done]. intros E.
        destruct Hq as (v & Hv & Fv & _). congruence.
Qed.

(** ** [tlsf_malloc] *)

Definition malloc_post (B : gmap Z blk) (s : tlsf_state) (n p : Z) (s' : tlsf_state) : Prop :=
  (p = 0 ∧ s' = s ∧ (req n = 0 ∨ ¬ suitable B (req n))) ∨
  (p ≠ 0 ∧ suitable B (req n) ∧
   ∃ B', heap_ok s' B' ∧ keeps (in_owned B) s s' ∧ n <= req n ∧ allocated B B' p (req n)).

Lemma keeps_owned B s s' : keeps (in_used B) s s' ↔ keeps (in_owned B) s s'.
Proof. split; apply keeps_mono; intros i; apply in_owned_used. Qed.

Lemma tlsf_malloc_spec s B size : heap_ok s B → 0 <= size <= 2 ^ 64 - 8 →
  wp (tlsf_malloc size) (malloc_post B s size) s.
Proof.
  intros [HI HC] Hs. unfold tlsf_malloc. apply wp_bind, wp_adjust8; [done|].
  apply wp_bind. destruct (req_good size) as [E|[Hg Hle]]; [lia|..].
  - rewrite E. apply wp_bind, wp_ret. apply wp_ret. unfold block_prepare_used. cbn. left. auto.
  - wp_use (block_locate_free_spec s B (req size)); [done..|].
    intros b s1 [(-> & -> & Hno)|(Hsu & x & Hb & Hf & Hsz & HI1 & HK)].
    + apply wp_ret. left. auto.
    + wp_use (block_prepare_used_spec s1 B b x (req size)); [done..| |done|done|].
      { intros d v Hv Fv Pv. destruct (HC d v Hv Fv Pv). }
      intros p s2 (-> & B' & HO & HK2 & Hal). pose proof (phys_geom (inv_phys _ _ _ HI) b x Hb).
      right. split_and!; [lia|done|]. exists B'. split_and!; try done.
      apply keeps_owned. by eapply keeps_trans.
Qed.

(** ** [tlsf_free] *)

Definition freed (B B' : gmap Z blk) (p : Z) : Prop :=
  ∀ q m, owned B' q m ↔ q ≠ p ∧ owned B q m.

Lemma tlsf_free_spec s B p n : heap_ok s B → owned B p n →
  wp (tlsf_free p) (λ _ s', ∃ B', heap_ok s' B' ∧ freed B B' p ∧ keeps (in_owned B') s s') s.
Proof.
  intros HO Hp. pose proof (owned_geom HO p n Hp) as Gp. destruct HO as [HI HC].
  destruct Hp as (x & Hx & Hf & <- & Hz). pose proof (inv_phys _ _ _ HI) as HP.
  set (a := p - 16) in *. unfold tlsf_free. rewrite (proj2 (truthy_true p)) by lia. cbn [mwhen].
  replace (block_from_ptr p) with a
    by (unfold block_from_ptr; change block_start_offset with 16; rewrite wrap_small; lia).
  apply wp_bind, (wp_block_is_free (phys_hw HP s a x eq_refl Hx)), wp_bind, wp_massert; [by rewrite Hf|].
  destruct (phys_next HP a x Hx Hz) as (y & Hy & _ & Py).
  assert (inv s B (λ d, d = a)) as HIa.
  { eapply inv_ext; [|exact HI]. intros d v Hd Fv. unfold none. split; [|done]. intros ->. congruence. }
  apply wp_bind. wp_use (block_mark_as_free_spec HIa Hx Hz Hy Py eq_refl).
  intros _ s1 [HI1 HK1]. set (B1 := flag_map B a x y true) in *.
  assert (∀ d v, B1 !! d = Some v ↔ _) as Hlk by (intros; apply set_flag_lookup; done).
  apply wp_bind. wp_use (block_merge_prev_spec s1 B1 a (set_bfree true x)); [done|by apply Hlk; left|done| |].
  { intros d v [[-> ->]|[[-> ->]|(?&?&Hv)]]%Hlk Fv Pv; [by left|by right|].
    by destruct (HC d v Hv Fv Pv). }
  intros r s2 (B2 & x2 & [M1 M2 M3 M4 M5] & P2 & HC2).
  apply wp_bind. wp_use (block_merge_next_spec M1 M2 M3 P2 HC2).
  intros ? s3 (-> & B3 & x3 & [N1 N2 N3 N4 N5] & _ & HC3).
  wp_use (block_insert_spec s3 B3 _ r x3 N1); [done..|]. intros _ s4 [HI4 HK4].
  exists B3. split_and!; [split; [|done]|..].
  - eapply inv_ext; [|exact HI4]. intros. unfold none. tauto.
  - intros q m. unfold owned. rewrite (N4 _ m), (M4 _ m). unfold B1. erewrite flag_alloc by done.
    unfold a. split.
    + intros [[? ?]|(?&_)]; [|done]. split; [|done]. intros ->. done.
    + intros [? ?]. left. split; [lia|done].
  - apply keeps_owned. eapply keeps_trans; [|exact HK4].
    apply (keeps_mono (in_used B2)); [intros i; apply (same_alloc_used _ _ i N4)|].
    eapply keeps_trans; [|exact N5].
    apply (keeps_mono (in_used B1)); [intros i; apply (same_alloc_used _ _ i M4)|].
    by eapply keeps_trans.
Qed.
