(* ===== verification/TlsfRealloc.v ===== *)
(** * TLSF: reallocation and aligned allocation *)

From stdpp Require Import prelude gmap list numbers tactics.
From S2P Require Import Prelude Memory TlsfBits Tlsf TlsfInv TlsfSplit TlsfLists TlsfFree TlsfOps TlsfBlocks TlsfMerge TlsfMain.

(** ** Writes of the clients *)

(** A client that writes inside the payloads in use keeps the allocator's
    invariant: no boundary tag, back link or list word lies there. *)
Lemma client_write s s' B :
  heap_ok s B → same_ctl s s' → same_outside (in_used B) (heap s) (heap s') → heap_ok s' B.
Proof.
  intros [[HP [L HL]] HC] HS HM. split; [|done]. split.
  - destruct HS as [-> _]. constructor; try apply HP.
    + intros a x Ha. rewrite <- (po_hdr _ _ _ HP a x Ha). eapply same_outside_load64; [done|].
      intros i Hi Hu. pose proof (used_not_hdr HP i a x Hu Ha). lia.
    + intros a x Ha Hz. destruct (po_nxt _ _ _ HP a x Ha Hz) as (y & H1 & H2 & H3 & H4).
      exists y. split_and!; try done. intros Hf. rewrite <- (H4 Hf) at 2.
      eapply same_outside_load64; [done|]. intros i Hi Hu.
      pose proof (used_not_prev HP i _ y Hu H1 ltac:(congruence)). lia.
  - exists L. eapply lists_frame; [done..|].
    intros a z Hl. assert (∀ i, a + 16 <= i < a + 32 → ¬ in_used B i) as Hn.
    { intros i Hi Hu. apply (used_not_link HP i Hu). destruct Hl as (x & Hx & Hf & _).
      exists a. split; [right; eauto|lia]. }
    split; (eapply same_outside_load64; [done|]); intros i Hi; apply Hn; lia.
Qed.

(** ** [tlsf_realloc] *)

(** The block at [p] is replaced by one at [r] of at least [size] bytes with the
    contents of the old one up to the smaller size; the others are untouched. *)
Definition reallocated (B : gmap Z blk) (s : tlsf_state) (p n size r : Z) (s' : tlsf_state) : Prop :=
  ∃ B' n', heap_ok s' B' ∧ size <= n' ∧ (r = p ∨ ∀ m, ¬ owned B r m) ∧
    (∀ q m, owned B' q m ↔ (q ≠ p ∧ owned B q m) ∨ (q = r ∧ m = n')) ∧
    (∀ i, 0 <= i < Z.min n size → load8 (heap s') (r + i) = load8 (heap s) (p + i)) ∧
    (∀ q m, owned B q m → q ≠ p → ∀ i, q <= i < q + m → load8 (heap s') i = load8 (heap s) i).

Definition realloc_post (B : gmap Z blk) (s : tlsf_state) (p n size r : Z) (s' : tlsf_state) : Prop :=
  (r = 0 ∧ s' = s ∧ n < size ∧ ¬ suitable B (req size)) ∨
  (r ≠ 0 ∧ reallocated B s p n size r s').

(** Growing or shrinking in place, from the state where the block has [n1]
    bytes. *)
Lemma realloc_trim s s1 B B1 p n n1 size :
  heap_ok s B → owned B p n → heap_ok s1 B1 → keeps (in_owned B) s s1 →
  (∀ q m, owned B1 q m ↔ (q ≠ p ∧ owned B q m) ∨ (q = p ∧ m = n1)) →
  n <= n1 → 0 < size → good_size (req size) → size <= req size <= n1 →
  wp (block_trim_used (p - 16) (req size) ;; mret p) (λ r s', r ≠ 0 ∧ reallocated B s p n size r s') s1.
Proof.
  intros HO Hp HO1 HK Hown Hn Hs [Hg1 Hg2] Hle.
  assert (owned B1 p n1) as Hp1 by (apply Hown; auto).
  pose proof (owned_geom HO p n Hp) as (_ & Gp & Gp2 & _).
  apply wp_bind. wp_use (block_trim_used_spec s1 B1 (p - 16) n1 (req size)); [done..|lia|].
  intros _ s' (B' & n' & HO' & Hn' & _ & Hal & HK'). apply wp_ret. split; [lia|].
  assert (∀ q m, owned B' q m ↔ (q ≠ p ∧ owned B q m) ∨ (q = p ∧ m = n')) as Hown'.
  { intros q m. unfold owned at 1. rewrite Hal. fold (owned B1 q m). rewrite Hown.
    split.
    - intros [[H1 [?|[-> _]]]|[H1 ?]]; [by left|done|right; lia].
    - intros [[H1 ?]|[-> ->]]; [left; split; [lia|by left]|by right]. }
  assert (owned B' p n') as Hp' by (apply Hown'; auto).
  apply keeps_owned in HK'. destruct HK as [_ HK], HK' as [_ HK'].
  exists B', n'. split_and!; try done; try lia.
  - intros i Hi. rewrite HK', HK; [done| |].
    + exists p, n. split; [done|lia].
    + exists p, n'. split; [done|lia].
  - intros q m Hq Hne i Hi. rewrite HK', HK; [done|exists q, m; auto|].
    exists q, m. split; [|done]. apply Hown'. auto.
Qed.

(** Moving: the new block is allocated, filled and the old one freed. *)
Lemma realloc_move s B p n size :
  heap_ok s B → owned B p n → 0 < size <= 2 ^ 64 - 8 → n < size → req size ≠ 0 →
  wp (r ← tlsf_malloc size;
      mwhen (truthy r) (modify (with_heap (λ m, memcpy m r p (Z.min n size))) ;; tlsf_free p) ;;
      mret r) (realloc_post B s p n size) s.
Proof.
  intros HO Hp Hs Hn Hr. pose proof (owned_geom HO p n Hp) as (_ & Gn & Gp & _).
  apply wp_bind. wp_use (tlsf_malloc_spec s B size HO); [lia|].
  intros r s1 [(-> & -> & [?|Hno])|(Hr0 & Hsu & B1 & HO1 & [_ HK1] & Hle & Hal)].
  { done. }
  { left. auto. }
  destruct Hal as (z & Hz & Al & Gr & Hfresh & Hown).
  rewrite (proj2 (truthy_true r)) by done. cbn [mwhen]. apply wp_bind, wp_bind, wp_modify.
  assert (owned B1 r z) as Hrz by (apply Hown; auto).
  assert (owned B1 p n) as Hp1 by (apply Hown; auto).
  assert (r ≠ p) as Hrp by (intros ->; by apply (Hfresh n)).
  pose proof (owned_disjoint HO1 _ _ _ _ Hrz Hp1 Hrp) as Hdis.
  set (s2 := with_heap _ s1).
  destruct (memcpy_spec (heap s1) r p (Z.min n size)) as [Hin Hout]; [lia..|].
  assert (heap_ok s2 B1) as HO2.
  { apply (client_write s1); [done|done|]. intros i Hi. apply Hout.
    destruct (Z.lt_ge_cases i r); [lia|]. destruct (Z.lt_ge_cases i (r + Z.min n size)); [|lia].
    destruct Hi. apply in_owned_used. exists r, z. split; [done|lia]. }
  wp_use (tlsf_free_spec s2 B1 p n HO2 Hp1). intros _ s3 (B3 & HO3 & Hfr & [_ HK3]).
  apply wp_ret. right. split; [done|]. exists B3, z.
  assert (∀ q m, owned B3 q m ↔ (q ≠ p ∧ owned B q m) ∨ (q = r ∧ m = z)) as Hown3.
  { intros q m. rewrite (Hfr q m), (Hown q m). clear -Hrp. split; [tauto|].
    intros [?|[-> ->]]; [tauto|]. split; [done|by right]. }
  split_and!; try done; try lia; try by right.
  - intros i Hi. rewrite HK3 by (exists r, z; split; [by apply Hown3; right|lia]).
    unfold s2. cbn. rewrite Hin by lia. apply HK1. exists p, n. split; [done|lia].
  - intros q m Hq Hne i Hi. assert (owned B3 q m) as Hq3 by (apply Hown3; auto).
    assert (q ≠ r) as Hqr by (intros ->; by apply (Hfresh m)).
    assert (owned B1 q m) as Hq1 by (apply Hown; auto).
    pose proof (owned_disjoint HO1 _ _ _ _ Hq1 Hrz Hqr).
    rewrite HK3 by (exists q, m; auto). unfold s2. cbn. rewrite Hout by lia.
    apply HK1. exists q, m. auto.
Qed.

(** Growing into the free block behind. *)
Lemma realloc_grow s B p n x y :
  heap_ok s B → B !! (p - 16) = Some x → bfree x = false → bsz x = n → 0 < n →
  B !! nxt (p - 16) x = Some y → bfree y = true →
  wp (block_merge_next (p - 16) ;; block_mark_as_used (p - 16)) (λ _ s1, ∃ B1,
    heap_ok s1 B1 ∧ keeps (in_owned B) s s1 ∧
    ∀ q m, owned B1 q m ↔ (q ≠ p ∧ owned B q m) ∨ (q = p ∧ m = n + 8 + bsz y)) s.
Proof.
  intros [HI HC] Hx Hf <- Hz Hy Fy. pose proof (inv_phys _ _ _ HI) as HP. set (a := p - 16) in *.
  pose proof (phys_geom HP a x Hx). pose proof (phys_geom HP _ y Hy).
  pose proof (phys_hw HP s a x eq_refl Hx) as Wa. pose proof (phys_hw HP s _ y eq_refl Hy) as Wy.
  pose proof (phys_free HP _ y Hy Fy). destruct (phys_next HP _ y Hy) as (z & Hz' & Pz & _); [lia|].
  unfold block_merge_next. apply wp_bind, wp_bind, (wp_block_next Wa); [lia..|].
  change (a + 8 + bsz x) with (nxt a x). apply wp_bind, wp_massert; [apply truthy_true; unfold nxt; lia|].
  apply wp_bind, (wp_block_is_free Wy). rewrite Fy.
  apply wp_bind, (wp_block_is_last Wa), wp_bind, wp_massert; [apply negb_true_iff, Z.eqb_neq; lia|].
  apply wp_bind. wp_use (block_remove_spec s B none (nxt a x) y HI); [done|done|by intros []|].
  intros _ s1 [HI1 HK1].
  pose proof (block_absorb_used_spec HI1 Hx Hy Hz' Hz Fy ltac:(congruence) ltac:(by left) Hf) as Hw.
  unfold wp, bind in Hw |- *. destruct (block_absorb a (nxt a x) s1) as [[r s2]|]; [|done].
  destruct (block_mark_as_used a s2) as [[u s3]|]; [|done]. destruct Hw as [HI3 HK3].
  set (B1 := absorb_map B a x y z false) in *.
  assert (∀ d v, B1 !! d = Some v ↔ _) as Hlk by (intros; apply absorb_lookup; done || lia).
  exists B1. split_and!; [split|..].
  - eapply inv_ext; [|exact HI3]. intros d v Hd Fv. unfold none. split; [done|]. intros [->|]; [|done].
    apply Hlk in Hd. unfold nxt in *. lia.
  - intros d v [[-> ->]|[[-> ->]|(?&?&?&Hv)]]%Hlk Fv Pv; [done..|]. by destruct (HC d v Hv Fv Pv).
  - apply keeps_owned. by eapply keeps_trans.
  - intros q m. unfold owned, B1. rewrite absorb_alloc; [|done || lia..]. fold a. unfold a.
    split; intros [[? ?]|H']; [left; split; [congruence|done]|right; lia|left; split; [lia|done]|right; lia].
Qed.

Lemma tlsf_realloc_spec s B p n size :
  heap_ok s B → owned B p n → 0 < size <= 2 ^ 32 - 8 →
  wp (tlsf_realloc p size) (realloc_post B s p n size) s.
Proof.
  intros HO Hp Hs. pose proof (owned_geom HO p n Hp) as (_ & Gn & Gp & Gpn).
  pose proof Hp as (x & Hx & Hf & Hz & Hz0). pose proof (inv_phys _ _ _ (ho_inv _ _ HO)) as HP.
  destruct (phys_next HP _ x Hx) as (y & Hy & _ & _); [lia|].
  assert (req size ≠ 0) as Hr.
  { unfold req. rewrite (proj2 (Z.eqb_neq size 0)) by lia. cbv zeta.
    rewrite (proj2 (Z.ltb_lt _ (2 ^ 32))) by zlia. lia. }
  destruct (req_good size) as [?|[Hg Hle]]; [lia|done|].
  pose proof (phys_geom HP _ y Hy). pose proof (phys_hw HP s _ x eq_refl Hx) as Wa.
  pose proof (phys_hw HP s _ y eq_refl Hy) as Wy. pose proof (phys_geom HP _ x Hx).
  unfold tlsf_realloc. rewrite (proj2 (truthy_true p)), (proj2 (Z.eqb_neq size 0)) by lia. cbn [andb negb].
  replace (block_from_ptr p) with (p - 16)
    by (unfold block_from_ptr; change block_start_offset with 16; rewrite wrap_small; lia).
  apply wp_bind, (wp_block_next Wa); [lia..|]. change (p - 16 + 8 + bsz x) with (nxt (p - 16) x).
  apply wp_bind, (wp_block_size Wa), wp_bind, (wp_block_size Wy). cbv zeta.
  apply wp_bind, wp_adjust8; [lia|].
  apply wp_bind, (wp_block_is_free Wa), wp_bind, wp_massert; [by rewrite Hf|].
  apply wp_bind, (wp_block_is_free Wy). rewrite Hz. change block_header_overhead with 8.
  rewrite (wrap_small 64) by lia.
  destruct (Z.ltb_spec n (req size)) as [Hlt|Hge]; cbn [andb].
  - destruct (negb (bfree y) || (n + bsz y + 8 <? req size)) eqn:E.
    + apply realloc_move; [done..|lia| |done]. destruct Hg as [Hg _].
      destruct (phys_align HP _ x Hx) as [_ Mn]. rewrite Hz in Mn.
      clear -Hlt Gn Mn Hs. unfold req in Hlt. destruct (size =? 0); [lia|]. cbv zeta in Hlt.
      destruct ((size + 7) / 8 * 8 <? 2 ^ 32); [|lia]. zlia.
    + boolprop. cbn [mwhen]. apply wp_bind.
      wp_use (realloc_grow s B p n x y); [done..|]. intros _ s1 (B1 & HO1 & HK & Hown).
      wp_use (realloc_trim s s1 B B1 p n (n + 8 + bsz y) size); [done..|lia|lia|done|lia|].
      intros r s' [??]. by right.
  - cbn [mwhen]. apply wp_bind, wp_ret.
    wp_use (realloc_trim s s B B p n n size); [done..|apply keeps_refl| |lia|lia|done|lia|].
    + intros q m. destruct (decide (q = p)) as [->|]; [|tauto]. split.
      * intros Hq. right. split; [done|]. by eapply (owned_size).
      * intros [[??]|[_ ->]]; done.
    + intros r s' [??]. by right.
Qed.
