(* ===== verification/TlsfAlign.v ===== *)
(** * TLSF: aligned allocation *)

From stdpp Require Import prelude gmap list numbers tactics.
From S2P Require Import Prelude Memory TlsfBits Tlsf TlsfInv TlsfSplit TlsfLists TlsfFree TlsfOps TlsfBlocks TlsfMerge TlsfMain.

(** [x] rounded up to a multiple of [a]. *)
Definition round_up (x a : Z) : Z := (x + (a - 1)) - (x + (a - 1)) mod a.

Lemma round_up_spec x a : 0 < a → round_up x a mod a = 0 ∧ x <= round_up x a < x + a.
Proof.
  intros Ha. unfold round_up. pose proof (Z.mod_pos_bound (x + (a - 1)) a Ha). split; [|lia].
  rewrite Zminus_mod, Zmod_mod, Z.sub_diag. by apply Z.mod_0_l; lia.
Qed.

Lemma round_up_id x a : 0 < a → x mod a = 0 → round_up x a = x.
Proof.
  intros Ha Hx. unfold round_up. rewrite <- Zplus_mod_idemp_l, Hx, Z.add_0_l.
  rewrite Z.mod_small by lia. lia.
Qed.

Lemma pow2_is_pow2 k : 0 <= k < 64 → align_is_pow2 (2 ^ k) = true.
Proof.
  intros Hk. unfold align_is_pow2. apply Z.eqb_eq.
  pose proof (Z.pow_pos_nonneg 2 k ltac:(lia) ltac:(lia)).
  assert (2 ^ k < 2 ^ 64) by (apply Z.pow_lt_mono_r; lia).
  rewrite wrap_small, land_ones_mod by lia. apply Z.mod_same. lia.
Qed.

(** An aligned address below the end of memory leaves room for the unit. *)
Lemma round_up_room p k : 0 <= k < 64 → 0 <= p → round_up p (2 ^ k) < 2 ^ 64 → p + 2 ^ k <= 2 ^ 64.
Proof.
  intros Hk Hp Hb. assert (0 < 2 ^ k) by (apply Z.pow_pos_nonneg; lia).
  destruct (round_up_spec p (2 ^ k)) as [R1 R2]; [lia|]. apply Z.mod_divide in R1 as [q Hq]; [|lia].
  assert (2 ^ 64 = 2 ^ (64 - k) * 2 ^ k) as E by (by rewrite <- Z.pow_add_r, Z.sub_add by lia).
  rewrite Hq in *. rewrite E in *. assert (q < 2 ^ (64 - k)) by nia. nia.
Qed.

Lemma wp_align_ptr s p k (Q : Z → tlsf_state → Prop) :
  0 <= k < 63 → 0 <= p → round_up p (2 ^ k) < 2 ^ 64 → Q (round_up p (2 ^ k)) s → wp (align_ptr p (2 ^ k)) Q s.
Proof.
  intros Hk Hp Hb%round_up_room HQ; [|lia..]. unfold align_ptr. apply wp_bind, wp_massert; [apply pow2_is_pow2; lia|].
  apply wp_ret. change (align_ptr_val p (2 ^ k)) with (align_up_val p (2 ^ k)).
  by rewrite align_up_val_eq.
Qed.

Definition req_align (size a : Z) : Z :=
  let n := round_up size a in if n <? 2 ^ 32 then Z.max n 24 else 0.

Lemma wp_adjust_align s size k (Q : Z → tlsf_state → Prop) :
  0 <= k < 63 → 0 < size → size + 2 ^ k <= 2 ^ 64 → Q (req_align size (2 ^ k)) s →
  wp (adjust_request_size size (2 ^ k)) Q s.
Proof.
  intros Hk Hs Hb HQ. unfold adjust_request_size. rewrite (proj2 (truthy_true size)) by lia.
  unfold align_up. apply wp_bind, wp_bind, wp_massert; [apply pow2_is_pow2; lia|]. apply wp_ret, wp_ret.
  rewrite align_up_val_eq by lia. done.
Qed.

(** The leading gap [tlsf_memalign] cuts off a block whose payload is at [p]. *)
Definition gap_of (p a : Z) : Z :=
  let g := round_up p a - p in
  if truthy g && (g <? 32) then round_up (round_up p a + Z.max (32 - g) a) a - p else g.

Lemma gap_of_spec p k : 4 <= k → p mod 8 = 0 →
  let g := gap_of p (2 ^ k) in
  (p + g) mod 2 ^ k = 0 ∧ g mod 8 = 0 ∧ (g = 0 ∨ 32 <= g) ∧ g <= 2 ^ k + 24.
Proof.
  intros Hk Hp. cbv zeta. set (a := 2 ^ k).
  assert (∃ b, a = 8 * b ∧ 0 < b) as (b & Ea & Hb).
  { exists (2 ^ (k - 3)). split; [|apply Z.pow_pos_nonneg; lia]. unfold a. change 8 with (2 ^ 3).
    rewrite <- Z.pow_add_r by lia. f_equal. lia. }
  assert (16 <= a) by (change 16 with (2 ^ 4); apply Z.pow_le_mono_r; lia).
  assert (∀ n, n mod a = 0 → n mod 8 = 0) as H8.
  { intros n Hn. apply Z.mod_divide in Hn as [q ->]; [|lia]. rewrite Ea.
    replace (q * (8 * b)) with (q * b * 8) by lia. apply Z.mod_mul. lia. }
  destruct (round_up_spec p a) as [R1 R2]; [lia|]. pose proof (H8 _ R1) as R3.
  unfold gap_of. set (al := round_up p a) in *. cbv zeta.
  destruct (truthy (al - p) && (al - p <? 32)) eqn:E.
  - boolprop. set (nx := al + Z.max (32 - (al - p)) a).
    destruct (round_up_spec nx a) as [S1 S2]; [lia|]. pose proof (H8 _ S1) as S3.
    replace (p + (round_up nx a - p)) with (round_up nx a) by lia.
    assert (round_up nx a - p < a + 32) as Hlt.
    { destruct (Z.le_gt_cases (32 - (al - p)) a) as [Hc|Hc]; [|unfold nx in *; lia].
      assert (nx = al + a) as -> by (unfold nx; lia).
      rewrite round_up_id; [lia|lia|]. rewrite <- Z.add_mod_idemp_l, R1, Z.add_0_l, Z.mod_same by lia. done. }
    split_and!; [done| |unfold nx in *; lia|]; clearbody a nx; clear -Hp S3 Hlt Ea; zlia.
  - replace (p + (al - p)) with al by lia. apply andb_false_iff in E as [E|E]; boolprop.
    + split_and!; [done| |lia|lia]. rewrite E. done.
    + split_and!; [done|clear -Hp R3; zlia|lia|lia].
Qed.

(** ** [tlsf_memalign] *)

(** The size searched for. *)
Definition memalign_req (a size : Z) : Z :=
  if truthy (req size) && (8 <? a) then req_align (req size + a + 32) a else req size.

Definition memalign_post (B : gmap Z blk) (s : tlsf_state) (a n p : Z) (s' : tlsf_state) : Prop :=
  (p = 0 ∧ s' = s ∧ (memalign_req a n = 0 ∨ ¬ suitable B (memalign_req a n))) ∨
  (p ≠ 0 ∧ p mod a = 0 ∧
   ∃ B', heap_ok s' B' ∧ keeps (in_owned B) s s' ∧ n <= req n ∧ allocated B B' p (req n)).

Lemma allocated_same B B1 B' p n : same_alloc B B1 → allocated B1 B' p n → allocated B B' p n.
Proof.
  intros HA (z & Hz & H1 & H2 & H3 & H4). exists z. split_and!; try done; try lia.
  - intros m Hm. apply (H3 m). by apply HA.
  - intros q m. rewrite H4. unfold owned. by rewrite (HA (q - 16) m).
Qed.

Lemma memalign_req_good a k size : a = 2 ^ k → 4 <= k < 63 → good_size (req size) →
  memalign_req a size = 0 ∨
  (good_size (memalign_req a size) ∧ req size + a + 32 <= memalign_req a size).
Proof.
  intros Ek Hk [Hg1 Hg2]. unfold memalign_req, req_align.
  assert (16 <= a) by (rewrite Ek; change 16 with (2 ^ 4); apply Z.pow_le_mono_r; lia).
  rewrite (proj2 (truthy_true _)), (proj2 (Z.ltb_lt 8 a)) by lia. cbn [andb]. cbv zeta.
  destruct (round_up_spec (req size + a + 32) a) as [R1 R2]; [lia|].
  destruct (Z.ltb_spec (round_up (req size + a + 32) a) (2 ^ 32)); [right|by left].
  rewrite Z.max_l by lia. unfold good_size. split_and!; try lia.
  apply Z.mod_divide in R1 as [q ->]; [|lia]. rewrite Ek. replace k with (k - 3 + 3) by lia.
  rewrite Z.pow_add_r by lia. change (2 ^ 3) with 8. rewrite Z.mul_assoc. apply Z.mod_mul. lia.
Qed.

(** The allocation proper: a free block in hand with room for any gap. *)
Lemma memalign_cut s B b x k size :
  inv s B (λ d, d = b) → B !! b = Some x → bfree x = true → coalesced B none →
  4 <= k < 32 → good_size (req size) → req size + 2 ^ k + 32 <= bsz x →
  let g := gap_of (b + 16) (2 ^ k) in
  wp (d ← (if truthy g then massert (sizeof_block_header_t <=? g) ;; block_trim_free_leading b g else mret b);
      block_prepare_used d (req size)) (λ p s', p = b + 16 + g ∧
    ∃ B', heap_ok s' B' ∧ keeps (in_used B) s s' ∧ allocated B B' p (req size)) s.
Proof.
  intros HI Hb Hf HC Hk [Hg1 Hg2] Hsz. cbv zeta. pose proof (inv_phys _ _ _ HI) as HP.
  destruct (phys_align HP b x Hb) as [Al _]. pose proof (phys_geom HP b x Hb).
  assert (0 < 2 ^ k) by (apply Z.pow_pos_nonneg; lia).
  destruct (gap_of_spec (b + 16) k) as (_ & G2 & G3 & G4); [lia|clear -Al; zlia|].
  set (g := gap_of (b + 16) (2 ^ k)) in *. apply wp_bind.
  destruct (truthy g) eqn:E; boolprop.
  - change sizeof_block_header_t with 32.
    apply wp_bind, wp_massert; [apply Z.leb_le; lia|].
    wp_use (block_trim_free_leading_spec s B b x g); [done..|lia|lia|].
    intros r s1 (-> & B1 & x1 & [M1 M2 M3 M4 M5] & Hx1 & HC1).
    wp_use (block_prepare_used_spec s1 B1 (b + g) x1 (req size)); [done..|lia|].
    intros p s2 (-> & B2 & HO & HK & Hal). split; [lia|]. exists B2. split_and!; [done| |].
    + eapply keeps_trans; [exact M5|]. eapply keeps_mono; [|exact HK]. intros i. apply (same_alloc_used _ _ i M4).
    + by eapply allocated_same.
  - rewrite E. apply wp_ret.
    wp_use (block_prepare_used_spec s B b x (req size)); [done..| |done|lia|].
    { intros d v Hv Fv Pv. destruct (HC d v Hv Fv Pv). }
    intros p s2 (-> & B2 & HO & HK & Hal). split; [lia|]. by exists B2.
Qed.

Lemma tlsf_memalign_spec s B k size : heap_ok s B → 0 <= k <= 62 → 0 <= size <= 2 ^ 64 - 8 →
  wp (tlsf_memalign (2 ^ k) size) (memalign_post B s (2 ^ k) size) s.
Proof.
  intros [HI HC] Hk Hs. unfold tlsf_memalign, memalign_post. pose proof (Z.pow_pos_nonneg 2 k ltac:(lia) ltac:(lia)).
  assert (2 ^ k <= 2 ^ 62) by (apply Z.pow_le_mono_r; lia).
  apply wp_bind, wp_adjust8; [done|]. cbv zeta. change sizeof_block_header_t with 32.
  assert (0 <= req size < 2 ^ 32) as Hrr.
  { destruct (req_good size) as [->|[[_ ?] _]]; lia. }
  rewrite (wrap_small 64 (req size + 2 ^ k + 32)) by lia.
  apply wp_bind, wp_adjust_align; [lia..|].
  change ALIGN_SIZE with 8. fold (memalign_req (2 ^ k) size).
  destruct (req_good size) as [E0|[Hg Hle]]; [lia|..].
  { assert (memalign_req (2 ^ k) size = 0) as E1 by (unfold memalign_req; rewrite E0; done).
    rewrite E1, E0. apply wp_bind, wp_bind, wp_ret, wp_ret, wp_bind, wp_massert; [done|].
    apply wp_bind, wp_ret, wp_ret. left. auto. }
  destruct (Z.lt_ge_cases k 4) as [Hk4|Hk4].
  - (* the base alignment suffices *)
    assert (2 ^ k ≤ 8) by (change 8 with (2 ^ 3); apply Z.pow_le_mono_r; lia).
    assert (memalign_req (2 ^ k) size = req size) as ->.
    { unfold memalign_req. rewrite (proj2 (Z.ltb_ge 8 (2 ^ k))), andb_false_r by lia. done. }
    apply wp_bind. wp_use (block_locate_free_spec s B (req size)); [done..|].
    intros b s1 [(-> & -> & Hno)|(Hsu & x & Hb & Hf & Hsz & HI1 & HK)].
    { apply wp_bind, wp_massert; [done|]. apply wp_bind, wp_ret, wp_ret. left. auto. }
    pose proof (phys_geom (inv_phys _ _ _ HI) b x Hb). destruct (phys_align (inv_phys _ _ _ HI) b x Hb) as [Al _].
    assert ((b + 16) mod 2 ^ k = 0) as Hal8.
    { assert (k = 0 ∨ k = 1 ∨ k = 2 ∨ k = 3) as [->|[->|[->| ->]]] by lia; clear -Al;
        [change (2 ^ 0) with 1|change (2 ^ 1) with 2|change (2 ^ 2) with 4|change (2 ^ 3) with 8]; zlia. }
    apply wp_bind, wp_massert; [done|]. rewrite (proj2 (truthy_true b)) by lia.
    replace (block_to_ptr b) with (b + 16)
      by (unfold block_to_ptr; change block_start_offset with 16; rewrite wrap_small; lia).
    apply wp_bind, wp_bind, wp_align_ptr; [lia|lia|rewrite round_up_id by done; lia|]. rewrite round_up_id, Z.sub_diag by done.
    apply wp_bind, wp_ret, wp_ret.
    wp_use (block_prepare_used_spec s1 B b x (req size)); [done..| |done|done|].
    { intros d v Hv Fv Pv. destruct (HC d v Hv Fv Pv). }
    intros p s2 (-> & B' & HO & HK2 & Hal). right. split_and!; [lia|done|]. exists B'.
    split_and!; try done. apply keeps_owned. by eapply keeps_trans.
  - destruct (memalign_req_good _ k size eq_refl) as [E|[Hgm Hm]]; [lia|done|..].
    { rewrite E. apply wp_bind, wp_bind, wp_ret, wp_ret, wp_bind, wp_massert; [done|].
      apply wp_bind, wp_ret, wp_ret. left. auto. }
    apply wp_bind. wp_use (block_locate_free_spec s B (memalign_req (2 ^ k) size)); [done..|].
    intros b s1 [(-> & -> & Hno)|(Hsu & x & Hb & Hf & Hsz & HI1 & HK)].
    { apply wp_bind, wp_massert; [done|]. apply wp_bind, wp_ret, wp_ret. left. auto. }
    pose proof (phys_geom (inv_phys _ _ _ HI) b x Hb). destruct (phys_align (inv_phys _ _ _ HI) b x Hb) as [Al _].
    assert (2 ^ k < 2 ^ 32) as Hk32 by (destruct Hgm, Hg; lia).
    apply Z.pow_lt_mono_r_iff in Hk32; [|lia..].
    apply wp_bind, wp_massert; [done|]. rewrite (proj2 (truthy_true b)) by lia.
    replace (block_to_ptr b) with (b + 16)
      by (unfold block_to_ptr; change block_start_offset with 16; rewrite wrap_small; lia).
    destruct (round_up_spec (b + 16) (2 ^ k)) as [R1 R2]; [lia|].
    pose proof (memalign_cut s1 B b x k size HI1 Hb Hf HC ltac:(lia) Hg ltac:(lia)) as Hcut.
    cbv zeta in Hcut.
    destruct (gap_of_spec (b + 16) k) as (G1 & _ & G3 & G4); [lia|clear -Al; zlia|].
    apply wp_bind, wp_bind, wp_align_ptr; [lia..|]. rewrite (wrap_small 64) by lia.
    apply wp_bind.
    set (Q := λ p s', _ ∨ _) in *.
    assert (wp (d ← (if truthy (gap_of (b + 16) (2 ^ k))
                     then massert (32 <=? gap_of (b + 16) (2 ^ k)) ;; block_trim_free_leading b (gap_of (b + 16) (2 ^ k))
                     else mret b); block_prepare_used d (req size)) Q s1) as Hrun.
    { wp_use Hcut. intros p s2 (-> & B' & HO & HK2 & Hal). right. split_and!; [lia|done|].
      exists B'. split_and!; try done. apply keeps_owned. by eapply keeps_trans. }
    unfold gap_of in Hrun, G4. cbv zeta in Hrun, G4.
    destruct (truthy (round_up (b + 16) (2 ^ k) - (b + 16)) && (round_up (b + 16) (2 ^ k) - (b + 16) <? 32)) eqn:E.
    + boolprop.
      destruct (round_up_spec (round_up (b + 16) (2 ^ k) + Z.max (32 - (round_up (b + 16) (2 ^ k) - (b + 16))) (2 ^ k)) (2 ^ k)) as [S1 S2]; [lia|].
      rewrite (wrap_small 64 (round_up _ _ + _)) by lia. apply wp_bind, wp_align_ptr; [lia..|]. apply wp_ret.
      rewrite (wrap_small 64) by lia. apply wp_bind_inv, Hrun.
    + apply wp_ret. apply wp_bind_inv, Hrun.
Qed.
