(* ===== verification/TlsfInit.v ===== *)
(** * TLSF: creating the allocator and adding pools *)

From stdpp Require Import prelude gmap list numbers tactics.
From S2P Require Import Prelude Memory TlsfBits Tlsf TlsfInv TlsfSplit TlsfLists TlsfFree TlsfOps TlsfBlocks TlsfMerge TlsfMain.

(** The pool's usable bytes: [align_down(bytes - overhead, 8)]. *)
Definition pool_bytes (bytes : Z) : Z := (bytes - 16) - (bytes - 16) mod 8.

(** The two blocks of a new pool: everything free, then the sentinel. *)
Definition pool_map (B : gmap Z blk) (mem n : Z) : gmap Z blk :=
  let pool := (mem - 8, mem + n) in
  <[mem - 8 := mk_blk n true false pool]> (<[mem + n := mk_blk 0 false true pool]> B).

(** The region is outside of the other pools and of the control structure. *)
Record pool_region (c : Z) (B : gmap Z blk) (mem bytes : Z) : Prop := {
  pr_mem : 8 < mem ∧ mem mod 8 = 0 ∧ mem + bytes < 2 ^ 64;
  pr_ctl : c + 32 <= mem ∨ mem + bytes <= c;
  pr_blk : ∀ a x, B !! a = Some x → a + 16 + bsz x <= mem ∨ mem + bytes <= a + 8
}.

Lemma pool_bytes_range bytes : 16 <= bytes → 0 <= pool_bytes bytes <= bytes - 16 ∧ pool_bytes bytes mod 8 = 0.
Proof. intros. unfold pool_bytes. zlia. Qed.

Lemma wp_pool_bytes s bytes (Q : Z → tlsf_state → Prop) : 16 <= bytes < 2 ^ 64 →
  Q (pool_bytes bytes) s → wp (align_down (u64 (bytes - tlsf_pool_overhead)) ALIGN_SIZE) Q s.
Proof.
  intros Hb HQ. unfold align_down. apply wp_bind, wp_massert; [done|]. apply wp_ret.
  change tlsf_pool_overhead with 16. change ALIGN_SIZE with 8. rewrite wrap_small by lia.
  unfold align_down_val. change (8 - 1) with (2 ^ 3 - 1). rewrite land_ones_mod by lia.
  pose proof (pool_bytes_range bytes ltac:(lia)). unfold pool_bytes in *. change (2 ^ 3) with 8.
  by rewrite wrap_small by lia.
Qed.

Section add_pool.
Context {s : tlsf_state} {B : gmap Z blk} (HO : heap_ok s B).
Context {mem bytes : Z} (HR : pool_region (control s) B mem bytes).
Let n := pool_bytes bytes.
Context (Hn : 24 <= n < 2 ^ 32) (Hb : 16 <= bytes).
Let a := mem - 8.
Let e := mem + n.
Let B' := pool_map B mem n.

Lemma pool_lookup d v : B' !! d = Some v ↔
  (d = a ∧ v = mk_blk n true false (a, e)) ∨ (d = e ∧ v = mk_blk 0 false true (a, e)) ∨ B !! d = Some v.
Proof.
  destruct (pr_mem _ _ _ _ HR) as (? & ? & ?). pose proof (pool_bytes_range bytes Hb) as [Hr _]. fold n in Hr.
  assert (∀ d, B !! d ≠ None → d ≠ a ∧ d ≠ e) as Hfresh.
  { intros d' Hd. destruct (B !! d') as [x|] eqn:E; [|done]. pose proof (pr_blk _ _ _ _ HR d' x E).
    pose proof (phys_geom (inv_phys _ _ _ (ho_inv _ _ HO)) d' x E). unfold a, e. lia. }
  assert (a ≠ e) by (unfold a, e; lia).
  unfold B', pool_map. fold a e. rewrite !lookup_insert_Some. split; [clear; naive_solver|].
  intros [[-> ->]|[[-> ->]|Hd]]; [by left|by right; split; [|left]|].
  destruct (Hfresh d) as [? ?]; [congruence|]. right. split; [done|]. right. done.
Qed.

Lemma pool_blk d v : B' !! d = Some v → blk_ok (control s) d v.
Proof.
  destruct (pr_mem _ _ _ _ HR) as (? & M & ?), (pool_bytes_range bytes Hb) as [? Mn]. fold n in Mn.
  pose proof (pr_ctl _ _ _ _ HR). fold n in H1.
  intros [[-> ->]|[[-> ->]|Hd]]%pool_lookup.
  - unfold blk_ok, nxt, a, e. cbn. split_and!; try lia; clear -M Mn; zlia.
  - unfold blk_ok, nxt, a, e. cbn. split_and!; try lia; clear -M Mn; zlia.
  - by apply (po_blk _ _ (inv_phys _ _ _ (ho_inv _ _ HO))).
Qed.

Lemma pool_shape : shape (control s) B'.
Proof.
  pose proof (inv_phys _ _ _ (ho_inv _ _ HO)) as HP. pose proof (pool_bytes_range bytes Hb) as [Hr _]. fold n in Hr.
  destruct (pr_mem _ _ _ _ HR) as (? & _ & ?). constructor; [apply HP|exact pool_blk|].
  intros d d' v v' Hd Hd' Hlt. apply pool_lookup in Hd, Hd'.
  assert (∀ d v, B !! d = Some v → d + 16 + bsz v <= mem ∨ mem + bytes <= d + 8) as S by apply HR.
  destruct Hd as [[-> ->]|[[-> ->]|Hd]], Hd' as [[-> ->]|[[-> ->]|Hd']];
    try (pose proof (S _ _ Hd); pose proof (phys_geom HP _ _ Hd));
    try (pose proof (S _ _ Hd'); pose proof (phys_geom HP _ _ Hd'));
    first [exact (po_dis _ _ HP _ _ _ _ Hd Hd' Hlt) | unfold a, e, nxt in *; cbn; lia].
Qed.

Lemma pool_lists s1 : same_ctl s s1 →
  (∀ w, apart w (a + 8) → load64 (heap s1) w = load64 (heap s) w) →
  ∃ L, lists_ok s1 B' L (λ d, d = a).
Proof.
  intros HC Ho. destruct (ho_inv _ _ HO) as [HP [L HL]]. exists L. eapply lists_frame; [done..| |].
  - intros d z. unfold listed, none. split; intros (v & Hv & Fv & Sv & NX); exists v; split_and!; try done.
    + apply pool_lookup in Hv as [[-> _]|[[-> ->]|Hv]]; done.
    + intros [].
    + apply pool_lookup. auto.
    + intros ->. pose proof (pr_blk _ _ _ _ HR a v Hv). pose proof (phys_geom HP a v Hv).
      pose proof (pool_bytes_range bytes Hb). unfold a in *. lia.
  - intros d z (v & Hv & Fv & _). pose proof (pr_blk _ _ _ _ HR d v Hv). pose proof (phys_free HP d v Hv Fv).
    pose proof (pool_bytes_range bytes Hb) as [Hr _]. fold n in Hr.
    split; apply Ho; unfold apart, a; lia.
Qed.

(** The words of a finished pool. *)
Lemma pool_inv s1 s2 s3 :
  same_ctl s s1 → (∀ w, apart w (a + 8) → load64 (heap s1) w = load64 (heap s) w) →
  load64 (heap s1) (a + 8) = n + flag_bits true false →
  heap_frame (link_byte (control s) B') s1 s2 → (∃ L, lists_ok s2 B' L none) →
  same_ctl s2 s3 → (∀ w, apart w e → apart w (e + 8) → load64 (heap s3) w = load64 (heap s2) w) →
  load64 (heap s3) e = a → load64 (heap s3) (e + 8) = 0 + flag_bits false true →
  inv s3 B' none.
Proof.
  intros C1 O1 W1 [C2 F2] [L HL] C3 O3 W3 W4. pose proof pool_shape as HS.
  pose proof (pool_bytes_range bytes Hb) as [Hr _]. fold n in Hr. destruct (pr_mem _ _ _ _ HR) as (? & _ & ?).
  assert (control s3 = control s) as Cc by (destruct C1 as [<- _], C3 as [-> _]; done).
  destruct (ho_inv _ _ HO) as [HP _]. split.
  - rewrite Cc. constructor; [done|..].
    + intros d v Hd. assert (load64 (heap s2) (d + 8) = load64 (heap s1) (d + 8)) as E2.
      { eapply same_outside_load64; [done|]. intros i Hi. eapply hdr_not_link; [done..|lia]. }
      apply pool_lookup in Hd as [[-> ->]|[[-> ->]|Hd]].
      * rewrite O3, E2, W1 by (unfold apart, a, e; lia). by rewrite hdr_flag_bits.
      * rewrite W4. by rewrite hdr_flag_bits.
      * pose proof (pr_blk _ _ _ _ HR d v Hd). pose proof (phys_geom HP d v Hd).
        rewrite O3, E2, O1 by (unfold apart, a, e; lia). by apply HP.
    + intros d v Hd Hz. pose proof Hd as Hd'.
      apply pool_lookup in Hd as [[-> ->]|[[-> ->]|Hd]].
      * eexists. replace (nxt a _) with e by (unfold nxt, a, e; cbn; lia).
        split; [apply pool_lookup; right; left; done|]. done.
      * done.
      * destruct (po_nxt _ _ _ HP d v Hd Hz) as (y & Y1 & Y2 & Y3 & Y4). exists y.
        split; [apply pool_lookup; by right; right|]. split_and!; try done. intros Hf. rewrite <- (Y4 Hf) at 2.
        assert (load64 (heap s2) (nxt d v) = load64 (heap s1) (nxt d v)) as E2.
        { eapply same_outside_load64; [done|]. intros i Hi. by apply (prev_not_link HS d v). }
        pose proof (pr_blk _ _ _ _ HR d v Hd). pose proof (phys_geom HP d v Hd).
        rewrite O3, E2, O1 by (unfold apart, a, e, nxt; lia). done.
    + intros d v [[-> ->]|[[-> ->]|Hd]]%pool_lookup Hpf; [done|..].
      * exists a, (mk_blk n true false (a, e)). split; [apply pool_lookup; by left|]. split; [done|].
        unfold nxt, a, e. cbn [bsz]. lia.
      * destruct (po_prv _ _ _ HP d v Hd Hpf) as (p & y & Y1 & Y2 & Y3). exists p, y.
        split_and!; try done. apply pool_lookup. by right; right.
  - exists L. eapply lists_frame; [done..|]. intros d z Hl.
    assert (B' !! e = Some (mk_blk 0 false true (a, e))) as He by (apply pool_lookup; right; by left).
    destruct (listed_apart HS none d z e _ Hl He) as [[] []]. split; by apply O3.
Qed.
End add_pool.

Lemma pool_block mem : 8 < mem < 2 ^ 64 →
  offset_to_block mem (u64 (- block_header_overhead)) = mem - 8.
Proof.
  intros H. unfold offset_to_block. rewrite wrap_add_r. change (- block_header_overhead) with (-8).
  rewrite wrap_small; lia.
Qed.

Lemma aligned_rem8 mem : 0 <= mem < 2 ^ 64 → (Z.rem (s64 mem) ALIGN_SIZE =? 0) = (mem mod 8 =? 0).
Proof.
  intros H. change ALIGN_SIZE with 8. destruct (Z.lt_ge_cases mem (2 ^ 63)).
  - rewrite swrap_small by (cbn; lia). by rewrite Z.rem_mod_nonneg by lia.
  - assert (s64 mem = - (2 ^ 64 - mem)) as ->.
    { unfold swrap. change (2 ^ (64 - 1)) with (2 ^ 63). zlia. }
    rewrite Z.rem_opp_l, Z.rem_mod_nonneg by lia.
    apply eq_true_iff_eq. rewrite !Z.eqb_eq. split; zlia.
Qed.

Lemma tlsf_add_pool_spec s B mem bytes :
  heap_ok s B → pool_region (control s) B mem bytes → 16 <= bytes →
  24 <= pool_bytes bytes < 2 ^ 32 →
  wp (tlsf_add_pool mem bytes) (λ r s', r = mem ∧ heap_ok s' (pool_map B mem (pool_bytes bytes)) ∧
    keeps (in_owned B) s s') s.
Proof.
  intros HO HR Hb Hn. destruct (pr_mem _ _ _ _ HR) as (Hm & Ml & Hr).
  destruct (pool_bytes_range bytes Hb) as [Hnr Mn]. set (n := pool_bytes bytes) in *.
  unfold tlsf_add_pool. cbv zeta. apply wp_bind, wp_pool_bytes; [lia|]. fold n.
  rewrite aligned_rem8, Ml by lia. cbn [Z.eqb negb].
  change block_size_min with 24. change block_size_max with (2 ^ 32).
  rewrite (proj2 (Z.ltb_ge n 24)), (proj2 (Z.ltb_ge (2 ^ 32) n)) by lia. cbn [orb].
  rewrite pool_block by lia. set (a := mem - 8). set (e := mem + n).
  apply wp_bind, wp_block_set_size; [done|lia|]. intros f0 p0 _.
  apply wp_bind. eapply wp_block_set_free; [by apply hw_put_eq; [|lia]|].
  apply wp_bind. eapply wp_block_set_prev_used; [by apply hw_put_eq; [|lia]|].
  set (s1 := put _ _ (put _ _ (put _ _ s))).
  assert (∀ w, apart w (a + 8) → load64 (heap s1) w = load64 (heap s) w) as O1
    by (intros; unfold s1; by rd).
  assert (hw s1 a n true false) as W1 by (apply hw_put_eq; [done|lia]).
  destruct (pool_lists HO HR Hn Hb s1 ltac:(done) O1) as [L1 HL1].
  pose proof (pool_shape HO HR Hn Hb) as HS. set (B' := pool_map B mem n) in *.
  assert (B' !! a = Some (mk_blk n true false (a, e))) as Ha by (apply (pool_lookup HO HR Hn Hb); by left).
  assert (B' !! e = Some (mk_blk 0 false true (a, e))) as He by (apply (pool_lookup HO HR Hn Hb); right; by left).
  unfold block_insert. apply wp_bind, wp_bind, (wp_block_size W1).
  destruct (mapping_insert n) as [fl sl] eqn:Em.
  wp_use (insert_free_block_spec s1 B' L1 _ a _ fl sl HS HL1 Ha); [done..|].
  intros _ s2 [HF [L2 HL2]]. destruct HF as [C2 F2].
  assert (hw s2 a n true false) as W2.
  { split; [|split; [done|lia]]. rewrite <- (proj1 W1). eapply same_outside_load64; [done|].
    intros i Hi. eapply (hdr_not_link HS); [exact Ha|lia]. }
  apply wp_bind. eapply wp_block_link_next; [exact W2|unfold a; lia..|].
  replace (a + 8 + n) with e by (unfold a, e; lia).
  apply wp_bind, wp_block_set_size; [done|lia|]. intros f1 p1 _.
  apply wp_bind. eapply wp_block_set_used; [by apply hw_put_eq; [|lia]|].
  apply wp_bind. eapply wp_block_set_prev_free; [by apply hw_put_eq; [|lia]|].
  apply wp_ret. split; [done|]. set (s3 := put _ _ (put _ _ (put _ _ (put _ _ s2)))).
  split; [split|].
  - eapply (pool_inv HO HR Hn Hb s1 s2 s3); try done.
    + apply W1.
    + exists L2. eapply lists_frame; [exact HL2|done| |done].
      intros d z. unfold listed, none. split; intros (v & Hv & Fv & Sv & NX); exists v; split_and!; try done; tauto.
    + intros w Hw1 Hw2. unfold s3. by rd.
    + unfold s3. rewrite !load64_put_ne by (unfold apart; lia). apply load64_put_eq. unfold a. lia.
    + unfold s3. by rd.
  - intros d v [[-> ->]|[[-> ->]|Hd]]%(pool_lookup HO HR Hn Hb) Fv Pv; [done..|].
    by eapply (ho_coal _ _ HO).
  - apply keeps_owned. split; [done|]. intros i Hi.
    assert (in_used B' i) as Hi'.
    { destruct Hi as (d & v & Hd & Fv & Hi). exists d, v. split_and!; try done; try lia.
      apply (pool_lookup HO HR Hn Hb). by right; right. }
    pose proof (used_not_hdr HS i _ _ Hi' Ha). pose proof (used_not_hdr HS i _ _ Hi' He).
    assert (i < e ∨ e + 8 <= i) as He8.
    { destruct Hi as (d & v & Hd & Fv & Hi). pose proof (pr_blk _ _ _ _ HR d v Hd). unfold e. lia. }
    unfold s3. rewrite !load8_put_ne by lia. rewrite F2.
    + unfold s1. by rewrite !load8_put_ne by lia.
    + intros (d & Hd & Hdi). destruct Hi as (d' & v' & Hd' & Fv' & Hi).
      pose proof (phys_geom (inv_phys _ _ _ (ho_inv _ _ HO)) d' v' Hd') as G'.
      destruct Hd as [->|(v & Hv & Fv)]; [change (control s1) with (control s) in Hdi; lia|].
      apply (pool_lookup HO HR Hn Hb) in Hv as [[-> ->]|[[-> ->]|Hv]]; [|done|].
      * pose proof (pr_blk _ _ _ _ HR d' v' Hd'). unfold a in *. lia.
      * eapply (used_not_link (inv_phys _ _ _ (ho_inv _ _ HO)) i); [by exists d', v'|].
        exists d. split; [right; eauto|done].
Qed.

(** A pool that is too small or too large is refused and nothing changes. *)
Lemma tlsf_add_pool_refused s mem bytes :
  0 <= mem < 2 ^ 64 → 16 <= bytes < 2 ^ 64 →
  mem mod 8 ≠ 0 ∨ pool_bytes bytes < 24 ∨ 2 ^ 32 < pool_bytes bytes →
  tlsf_add_pool mem bytes s = Some (0, s).
Proof.
  intros Hm Hb HR.
  assert (wp (tlsf_add_pool mem bytes) (λ r s', r = 0 ∧ s' = s) s) as Hw.
  { unfold tlsf_add_pool. cbv zeta. apply wp_bind, wp_pool_bytes; [lia|].
    rewrite aligned_rem8 by lia. change block_size_min with 24. change block_size_max with (2 ^ 32).
    destruct (Z.eqb_spec (mem mod 8) 0); cbn [negb]; [|by apply wp_ret].
    destruct (Z.ltb_spec (pool_bytes bytes) 24); cbn [orb]; [by apply wp_ret|].
    destruct (Z.ltb_spec (2 ^ 32) (pool_bytes bytes)); [by apply wp_ret|lia]. }
  apply wp_run in Hw as (r & s' & E & -> & ->). done.
Qed.

(** ** Creation *)

Lemma control_construct_spec s :
  0 < control s → control s mod 8 = 0 → control s + 32 < 2 ^ 64 →
  wp control_construct (λ _ s', control s' = control s ∧ heap_ok s' ∅) s.
Proof.
  intros Hc Hm Hr. unfold control_construct, set_next_free, set_prev_free_ptr, st64. wp_steps.
  split; [done|]. split; [|done]. split.
  - constructor; [constructor|..]; try done.
  - exists (λ _ _, []). constructor; cbn -[replicate FL_INDEX_COUNT SL_INDEX_COUNT].
    + by rewrite length_replicate.
    + by rewrite length_replicate.
    + intros i row ->%zlookup_replicate. by rewrite length_replicate.
    + intros i j [Hi Hj]. unfold head_of. rewrite zlookup_replicate_lt by (change FL_INDEX_COUNT with 25; lia).
      by rewrite zlookup_replicate_lt by (change SL_INDEX_COUNT with 32; lia).
    + done.
    + intros. apply NoDup_nil_2.
    + intros i j a _. split; [by intros ?%not_elem_of_nil|]. intros (z & (x & Hx & _) & _). done.
    + intros i v ->%zlookup_replicate. split; [lia|]. intros. apply Z.bits_0.
    + split; [lia|]. intros i v ->%zlookup_replicate. apply Z.bits_0.
Qed.

(** The pool of the allocator created at [mem] over [bytes] bytes. *)
Definition boot_map (mem bytes : Z) : gmap Z blk :=
  pool_map ∅ (mem + tlsf_size) (pool_bytes (bytes - tlsf_size)).

Lemma tlsf_create_with_pool_spec s mem bytes :
  0 < mem → mem mod 8 = 0 → mem + bytes < 2 ^ 64 → tlsf_size + 40 <= bytes < 2 ^ 32 →
  wp (tlsf_create_with_pool mem bytes) (λ r s', r = mem ∧ control s' = mem ∧
    heap_ok s' (boot_map mem bytes)) s.
Proof.
  intros Hm Hal Hr Hb. unfold tlsf_create_with_pool, tlsf_create.
  change tlsf_size with 6536 in *. rewrite aligned_rem8, Hal by lia. cbn [Z.eqb negb].
  apply wp_bind, wp_bind, wp_modify, wp_bind. set (s0 := mk_tlsf _ _ _ _ _).
  wp_use (control_construct_spec s0); [done..|cbn; lia|]. intros _ s1 [Hc HO]. apply wp_ret.
  change (control s0) with mem in Hc. apply wp_bind. rewrite !wrap_small by lia.
  assert (pool_region (control s1) ∅ (mem + 6536) (bytes - 6536)) as HR.
  { constructor; [|rewrite Hc; lia|done]. split_and!; [lia|clear -Hal; zlia|lia]. }
  assert (24 <= pool_bytes (bytes - 6536) < 2 ^ 32) as Hp by (unfold pool_bytes; zlia).
  wp_use (tlsf_add_pool_spec s1 ∅ _ _ HO HR); [lia|done|].
  intros r s2 (-> & HO2 & [HK _]). apply wp_ret. split_and!; [done|congruence|done].
Qed.
