(* ===== verification/TlsfCheck.v ===== *)
(** * TLSF: the heap walker, the consistency checks, when allocation succeeds

    On a heap that satisfies the invariant, [tlsf_walk_pool] enumerates the
    physical blocks of the pool and both checkers return 0. *)

From stdpp Require Import prelude gmap list numbers tactics.
From S2P Require Import Prelude Memory TlsfBits Tlsf TlsfInv TlsfSplit TlsfLists TlsfFree TlsfOps TlsfBlocks TlsfMerge TlsfMain.

(** The blocks from [a] to the sentinel, as handed to the walker. *)
Inductive chain (B : gmap Z blk) : Z → list (Z * Z * bool) → Prop :=
| chain_end a x : B !! a = Some x → bsz x = 0 → chain B a []
| chain_block a x l : B !! a = Some x → 0 < bsz x → chain B (nxt a x) l →
    chain B a ((a + 16, bsz x, negb (bfree x)) :: l).

Section check.
Context {s : tlsf_state} {B : gmap Z blk} (HO : heap_ok s B).
Let HP := inv_phys _ _ _ (ho_inv _ _ HO).

Lemma ptr_of_block a x : B !! a = Some x → block_to_ptr a = a + 16 ∧ block_from_ptr (a + 16) = a.
Proof.
  intros Ha. pose proof (phys_geom HP a x Ha).
  unfold block_to_ptr, block_from_ptr. change block_start_offset with 16. rewrite !wrap_small; lia.
Qed.

Lemma walk_from_spec fuel a x : B !! a = Some x →
  snd (bpool x) - a < 32 * Z.of_nat fuel →
  wp (walk_from fuel a) (λ l s', s' = s ∧ chain B a l) s.
Proof.
  revert a x. induction fuel as [|fuel IH]; intros a x Ha Hf.
  - destruct (po_blk _ _ HP a x Ha) as (_ & _ & _ & H4 & _). exfalso.
    destruct H4 as [(H4 & _ & H5)|[H4 H5]]; unfold nxt in *; lia.
  - pose proof (phys_geom HP a x Ha) as G. pose proof (phys_hw HP s a x eq_refl Ha) as W.
    cbn [walk_from]. rewrite (proj2 (truthy_true a)) by lia.
    apply wp_bind, (wp_block_is_last W). destruct (Z.eqb_spec (bsz x) 0) as [Hz|Hz].
    { apply wp_ret. split; [done|]. by eapply chain_end. }
    apply wp_bind, (wp_block_size W), wp_bind, (wp_block_is_free W).
    apply wp_bind, (wp_block_next W); [lia..|]. change (a + 8 + bsz x) with (nxt a x).
    destruct (phys_next HP a x Ha) as (y & Hy & _ & Py); [lia|].
    apply wp_bind. wp_use (IH (nxt a x) y Hy); [rewrite Py; unfold nxt; lia|].
    intros l s' [-> Hl]. apply wp_ret. split; [done|]. rewrite (proj1 (ptr_of_block a x Ha)).
    apply chain_block; [done|lia|done].
Qed.

(** The walker's own checks: previous status and size agree with the headers. *)
Lemma check_blocks_spec a l : chain B a l → ∀ x st, B !! a = Some x →
  wp (check_blocks l (Z.b2z (bpf x), st)) (λ r s', s' = s ∧ snd r = st) s.
Proof.
  induction 1 as [a x Ha Hz|a x l Ha Hz Hl IH]; intros x' st Hx'; [done|].
  rewrite Ha in Hx'. injection Hx' as <-. pose proof (phys_hw HP s a x eq_refl Ha) as W.
  destruct (phys_next HP a x Ha Hz) as (y & Hy & Py & _).
  cbn [check_blocks]. apply wp_bind. unfold integrity_walker.
  rewrite (proj2 (ptr_of_block a x Ha)).
  apply wp_bind, (wp_block_is_prev_free W), wp_bind, (wp_block_is_free W), wp_bind, (wp_block_size W).
  unfold tlsf_insist.
  do 2 (apply wp_bind, wp_bind, wp_massert; [apply Z.eqb_eq; by destruct (bpf x)|]; apply wp_ret).
  rewrite Z.eqb_refl. replace (Z.b2z (bpf x) =? (if bpf x then 1 else 0)) with true by (by destruct (bpf x)).
  apply wp_ret. rewrite Z.add_0_r.
  replace (if bfree x then 1 else 0) with (Z.b2z (bpf y)) by (rewrite Py; by destruct (bfree x)).
  by apply IH.
Qed.

(** Nothing precedes the first block of a pool. *)
Lemma first_block_status a x : B !! a = Some x → fst (bpool x) = a → bpf x = false.
Proof.
  intros Ha Hp. destruct (bpf x) eqn:E; [|done].
  destruct (po_prv _ _ _ HP a x Ha E) as (p & y & Hy & Fy & En).
  pose proof (phys_free HP p y Hy Fy).
  destruct (phys_next HP p y Hy) as (x' & Hx' & _ & Ep); [lia|]. rewrite En, Ha in Hx'. injection Hx' as <-.
  destruct (po_blk _ _ HP p y Hy) as (_ & _ & _ & _ & Hf & _). rewrite <- Ep in Hf. unfold nxt in *. lia.
Qed.

Lemma tlsf_check_pool_spec fuel pool x : B !! (pool - 8) = Some x → fst (bpool x) = pool - 8 →
  snd (bpool x) - pool + 8 < 32 * Z.of_nat fuel →
  wp (tlsf_check_pool fuel pool) (λ r s', r = 0 ∧ s' = s) s.
Proof.
  intros Hx Hp Hf. pose proof (phys_geom HP _ x Hx).
  unfold tlsf_check_pool, tlsf_walk_pool. 
  replace (offset_to_block pool (u64 (- block_header_overhead))) with (pool - 8).
  2:{ unfold offset_to_block. rewrite wrap_add_r. change (- block_header_overhead) with (-8). rewrite wrap_small; lia. }
  apply wp_bind. wp_use (walk_from_spec fuel (pool - 8) x Hx); [lia|]. intros l s' [-> Hl].
  pose proof (check_blocks_spec _ l Hl x 0 Hx) as Hc. rewrite (first_block_status _ x Hx Hp) in Hc.
  apply wp_bind. wp_use Hc. intros r s' [-> E]. by apply wp_ret.
Qed.

(** ** The free lists *)

Lemma wp_insist b st (Q : Z → tlsf_state → Prop) : b = true → Q st s → wp (tlsf_insist b st) Q s.
Proof. intros -> HQ. by apply wp_bind, wp_massert. Qed.

Lemma check_list_spec L i j fuel l p b st :
  lists_ok s B L none → idx i j → (∀ d, d ∈ l → d ∈ L i j) →
  dseg (heap s) p l (control s) → b = List.hd (control s) l → (length l < fuel)%nat →
  wp (check_list fuel i j b st) (λ r s', r = st ∧ s' = s) s.
Proof.
  intros HL Hi. revert fuel p b. induction l as [|a l IH]; intros fuel p b Hin HD -> Hf;
    (destruct fuel as [|fuel]; [lia|]); cbn [check_list]; apply wp_bind, wp_gets.
  { cbn. by rewrite Z.eqb_refl. }
  cbn [List.hd]. destruct HD as (_ & E2 & HD).
  destruct (proj1 (lo_mem _ _ _ _ HL i j a Hi) (Hin a ltac:(set_solver))) as (z & Hl & Em).
  pose proof Hl as (x & Ha & Fx & <- & _). pose proof (free_ne_ctl HP a x Ha Fx).
  rewrite (proj2 (Z.eqb_neq a (control s))) by done.
  pose proof (phys_geom HP a x Ha). pose proof (phys_free HP a x Ha Fx).
  pose proof (phys_hw HP s a x eq_refl Ha) as W.
  destruct (phys_next HP a x Ha) as (y & Hy & Py & _); [lia|]. pose proof (phys_hw HP s _ y eq_refl Hy) as Wy.
  assert (bpf x = false) as Px.
  { destruct (bpf x) eqn:E; [|done]. by destruct (ho_coal _ _ HO a x Ha Fx E). }
  assert (bfree y = false) as Fy.
  { destruct (bfree y) eqn:E; [|done]. by destruct (ho_coal _ _ HO _ y Hy E ltac:(congruence)). }
  apply wp_bind, (wp_block_is_free W), wp_bind, wp_insist; [done|].
  apply wp_bind, (wp_block_is_prev_free W), wp_bind, wp_insist; [by rewrite Px|].
  apply wp_bind, (wp_block_next W); [lia..|]. change (a + 8 + bsz x) with (nxt a x).
  apply wp_bind, (wp_block_is_free Wy), wp_bind, wp_insist; [by rewrite Fy|].
  apply wp_bind, (wp_block_next W); [lia..|]. change (a + 8 + bsz x) with (nxt a x).
  apply wp_bind, (wp_block_is_prev_free Wy), wp_bind, wp_insist; [congruence|].
  apply wp_bind, (wp_block_size W), wp_bind, wp_insist; [by apply Z.leb_le|].
  rewrite Em. apply wp_bind, wp_insist; [by rewrite !Z.eqb_refl|].
  apply wp_bind, wp_ld64. eapply IH; [set_solver|exact HD|exact E2|cbn in Hf; lia].
Qed.

Lemma land_bit v k : 0 <= k < 32 → truthy (Z.land v (u32 (Z.shiftl 1 k))) = Z.testbit v k.
Proof.
  clear. intros Hk. rewrite Z.shiftl_1_l. pose proof (Z.pow_pos_nonneg 2 k ltac:(lia) ltac:(lia)).
  pose proof (Z.pow_lt_mono_r 2 k 32 ltac:(lia) ltac:(lia) ltac:(lia)).
  rewrite wrap_small, testbit_b2z_pow2 by lia. destruct (Z.testbit v k); [|done]. apply truthy_true. lia.
Qed.

Lemma list_length L i j : lists_ok s B L none → idx i j → (length (L i j) <= size B)%nat.
Proof.
  intros HL Hi. rewrite <- (size_list_to_set (C:=gset Z) (L i j)) by (by apply (lo_nodup _ _ _ _ HL)).
  rewrite <- (size_dom (D:=gset Z) B). apply subseteq_size. intros d Hd. apply elem_of_list_to_set in Hd.
  apply (lo_mem _ _ _ _ HL i j d Hi) in Hd as (z & (x & Hx & _) & _). by eapply elem_of_dom_2.
Qed.

Lemma check_class_spec L i j fuel st : lists_ok s B L none → idx i j → (size B < fuel)%nat →
  wp (check_class fuel i j st) (λ r s', r = st ∧ s' = s) s.
Proof.
  intros HL Hi Hf. pose proof Hi as [Hi1 Hi2]. unfold check_class. apply wp_bind, wp_gets, wp_bind.
  destruct (row_bits HL i Hi1) as (v & Hv & _ & Hvb). eapply wp_get_sl; [done|].
  apply wp_bind. eapply wp_get_head; [by apply HL|]. apply wp_bind, wp_gets.
  destruct (lo_fl _ _ _ _ HL) as [_ Fb]. cbv zeta. rewrite !land_bit by lia.
  rewrite (Fb i v Hv), Hvb by done. pose proof (lo_dll _ _ _ _ HL i j Hi) as HD.
  pose proof (list_length L i j HL Hi).
  assert (nonempty (L i j) = true → v ≠ 0) as Hv0.
  { intros Hne ->. rewrite <- Hvb, Z.bits_0 in Hne by done. done. }
  apply wp_bind. destruct (L i j) as [|b l] eqn:EL; cbn [nonempty List.hd] in *.
  - assert (wp (if truthy v then mret st else tlsf_insist (negb false) st) (λ r s', r = st ∧ s' = s) s) as H1.
    { destruct (truthy v); [by apply wp_ret|by apply wp_insist]. }
    wp_use H1. intros r s' [-> ->]. by apply wp_insist; [apply Z.eqb_refl|].
  - rewrite (proj2 (truthy_true v)) by auto. apply wp_ret, wp_bind, wp_insist; [done|].
    apply wp_bind, wp_insist.
    { apply negb_true_iff, Z.eqb_neq.
      destruct (proj1 (lo_mem _ _ _ _ HL i j b Hi)) as (z & Hl & _); [rewrite EL; set_solver|].
      by apply (listed_node HP) in Hl as (_ & ? & _). }
    eapply (check_list_spec L i j fuel (b :: l)); [done..| |exact HD|done|cbn in *; lia].
    rewrite EL. auto.
Qed.

Lemma check_row_spec L i fuel n j st : lists_ok s B L none → 0 <= i < 25 → 0 <= j → j + Z.of_nat n <= 32 →
  (size B < fuel)%nat → wp (check_row fuel n i j st) (λ r s', r = st ∧ s' = s) s.
Proof.
  intros HL Hi Hj Hn Hf. revert j Hj Hn. induction n as [|n IH]; intros j Hj Hn; [by apply wp_ret|].
  cbn [check_row]. apply wp_bind. wp_use (check_class_spec L i j fuel st HL); [split; lia|done|].
  intros r s' [-> ->]. apply IH; lia.
Qed.

Lemma check_rows_spec L fuel n i st : lists_ok s B L none → 0 <= i → i + Z.of_nat n <= 25 →
  (size B < fuel)%nat → wp (check_rows fuel n i st) (λ r s', r = st ∧ s' = s) s.
Proof.
  intros HL Hi Hn Hf. revert i Hi Hn. induction n as [|n IH]; intros i Hi Hn; [by apply wp_ret|].
  cbn [check_rows]. apply wp_bind. wp_use (check_row_spec L i fuel 32 0 st HL); [lia..|done|].
  intros r s' [-> ->]. apply IH; lia.
Qed.

Lemma tlsf_check_spec fuel : (size B < fuel)%nat →
  wp (tlsf_check fuel) (λ r s', r = 0 ∧ s' = s) s.
Proof.
  intros Hf. destruct (inv_lists _ _ _ (ho_inv _ _ HO)) as [L HL]. by apply (check_rows_spec L fuel 25 0 0).
Qed.
End check.

(** ** TLSF: when an allocation succeeds

    The size classes are ordered like the sizes, so a free block that is at
    least as large as the rounded request is always found. *)

(** The size [mapping_search] looks up: the request rounded up to the next
    class boundary. *)
Definition search_size (size : Z) : Z :=
  if 256 <=? size then size + 2 ^ (Z.log2 size - 5) - 1 else size.

Lemma mapping_search_eq size : 0 <= size < 2 ^ 32 → mapping_search size = mapping_insert (search_size size).
Proof.
  intros Hs. unfold mapping_search, search_size. change SMALL_BLOCK_SIZE with 256.
  destruct (Z.leb_spec 256 size); [|done]. rewrite tlsf_fls_sizet_log2 by lia.
  change SL_INDEX_COUNT_LOG2 with 5. set (k := Z.log2 size).
  assert (8 <= k) by (apply Z.log2_le_pow2; lia). assert (k < 32) by (apply Z.log2_lt_pow2; lia).
  assert (0 < 2 ^ (k - 5)) by (apply Z.pow_pos_nonneg; lia).
  assert (2 ^ (k - 5) <= 2 ^ 26) by (apply Z.pow_le_mono_r; lia).
  rewrite Z.shiftl_1_l, s32_small by lia. rewrite (wrap_small 64 (_ - 1)) by lia.
  rewrite wrap_small by lia. f_equal. lia.
Qed.

(** The rounding costs at most one part in 32. *)
Lemma search_size_range size : 0 <= size < 2 ^ 32 → size <= search_size size <= size + size / 32.
Proof.
  intros Hs. unfold search_size. destruct (Z.leb_spec 256 size); [|zlia].
  set (k := Z.log2 size). assert (8 <= k) by (apply Z.log2_le_pow2; lia).
  assert (0 < 2 ^ (k - 5)) by (apply Z.pow_pos_nonneg; lia).
  assert (2 ^ k <= size) by (apply Z.log2_spec; lia).
  assert (2 ^ k = 2 ^ (k - 5) * 32) as E.
  { change 32 with (2 ^ 5). rewrite <- Z.pow_add_r by lia. f_equal. lia. }
  assert (2 ^ (k - 5) <= size / 32) by (apply Z.div_le_lower_bound; lia). lia.
Qed.

(** Classes that follow each other do not overlap. *)
Lemma class_next i j i' j' : 0 <= i → 0 <= j < 32 → 0 <= i' → 0 <= j' < 32 →
  ¬ class_le i' j' i j → class_lo i j + class_width i <= class_lo i' j'.
Proof.
  intros Hi Hj Hi' Hj' Hn. unfold class_le in Hn.
  assert (class_lo i j + class_width i = class_lo i (j + 1)) as ->.
  { unfold class_lo, class_width. destruct (Z.eqb_spec i 0) as [->|]; [change (2 ^ (Z.max 0 1 + 2)) with 8; lia|].
    replace (Z.max i 1) with i by lia. lia. }
  destruct (Z.eq_dec j 31) as [->|].
  - assert (class_lo i (31 + 1) = class_lo (i + 1) 0) as ->.
    { unfold class_lo. rewrite (proj2 (Z.eqb_neq (i + 1) 0)) by lia.
      destruct (Z.eqb_spec i 0) as [->|]; [done|].
      replace (i + 1 + 7) with (Z.succ (i + 7)) by lia. rewrite Z.pow_succ_r by lia.
      replace (i + 7) with (i + 2 + 5) by lia. rewrite (Z.pow_add_r 2 (i + 2) 5) by lia. lia. }
    apply class_lo_mono; lia.
  - apply class_lo_mono; lia.
Qed.

Lemma mapping_insert_mono z z' : 0 <= z <= z' → z' < 2 ^ 33 →
  class_le (fst (mapping_insert z)) (snd (mapping_insert z))
           (fst (mapping_insert z')) (snd (mapping_insert z')).
Proof.
  intros Hz Hz'. destruct (mapping_insert z) as [i j] eqn:E, (mapping_insert z') as [i' j'] eqn:E'. cbn.
  destruct (mapping_insert_class z i j) as (?&?&_&?); [lia|done|].
  destruct (mapping_insert_class z' i' j') as (?&?&_&?); [lia|done|].
  destruct (Z.lt_ge_cases i i'); [by left|]. destruct (Z.eq_dec i i') as [->|].
  - destruct (Z.le_gt_cases j j'); [by right|]. exfalso.
    pose proof (class_next i' j' i' j ltac:(lia) ltac:(lia) ltac:(lia) ltac:(lia)) as Hx.
    unfold class_le in Hx. lia.
  - exfalso. pose proof (class_next i' j' i j ltac:(lia) ltac:(lia) ltac:(lia) ltac:(lia)) as Hx.
    unfold class_le in Hx. lia.
Qed.

Lemma suitable_big s B size a x : heap_ok s B → good_size size →
  B !! a = Some x → bfree x = true → search_size size <= bsz x → suitable B size.
Proof.
  intros HO [_ Hg] Ha Hf Hz. exists a, x. split_and!; try done.
  pose proof (phys_geom (inv_phys _ _ _ (ho_inv _ _ HO)) a x Ha).
  rewrite mapping_search_eq by lia. pose proof (search_size_range size ltac:(lia)).
  apply mapping_insert_mono; lia.
Qed.

(** Conversely a suitable block is large enough. *)
Lemma malloc_big s B size a x : heap_ok s B → 0 < size <= 2 ^ 32 - 8 →
  B !! a = Some x → bfree x = true → search_size (req size) <= bsz x →
  wp (tlsf_malloc size) (λ p _, p ≠ 0) s.
Proof.
  intros HO Hs Ha Hf Hz. destruct (req_good size) as [E|[Hg Hle]]; [lia|..].
  { exfalso. unfold req in E. rewrite (proj2 (Z.eqb_neq size 0)) in E by lia. cbv zeta in E.
    rewrite (proj2 (Z.ltb_lt _ (2 ^ 32))) in E by zlia. lia. }
  wp_use (tlsf_malloc_spec s B size HO); [lia|]. intros p s' [(_ & _ & [E|Hno])|(? & _)]; [|..|done].
  - destruct Hg. lia.
  - destruct Hno. by eapply suitable_big.
Qed.
