(* ===== verification/KHeap.v ===== *)
(** * The kernel heap interface ([klibc/stdlib.c], [kernel/kernel.c])

    [Allocator] is what [malloc], [free], [calloc] and [realloc] of the kernel's
    C library need of the allocator underneath, with an abstract state: the
    finite map from the live pointers to their sizes.  The clients are proved
    against the interface; the TLSF allocator is an instance of it. *)

From stdpp Require Import prelude gmap list numbers tactics.
From S2P Require Import Prelude Memory TlsfBits Tlsf TlsfInv TlsfSplit TlsfLists TlsfFree TlsfOps TlsfBlocks TlsfMerge TlsfMain TlsfRealloc TlsfAlign TlsfInit.

Class Allocator (S : Type) := {
  al_mem : S → gmap Z Z;
  al_malloc : Z → M S Z;
  al_free : Z → M S unit;
  al_realloc : Z → Z → M S Z;
  al_store : (gmap Z Z → gmap Z Z) → M S unit  (* the client writes memory *)
}.

(** Bytes of the live blocks. *)
Definition live (O : gmap Z Z) (i : Z) : Prop := ∃ p n, O !! p = Some n ∧ p <= i < p + n.

(** The live bytes keep their values. *)
Definition preserved (O : gmap Z Z) (m m' : gmap Z Z) : Prop := ∀ i, live O i → load8 m' i = load8 m i.

Class AllocatorLaws (S : Type) `{Allocator S} := {
  al_inv : S → gmap Z Z → Prop;
  al_geom s O p n : al_inv s O → O !! p = Some n → 0 < p ∧ p mod 8 = 0 ∧ 0 < n ∧ p + n < 2 ^ 64;
  al_disjoint s O p n q m : al_inv s O → O !! p = Some n → O !! q = Some m → p ≠ q →
    p + n <= q ∨ q + m <= p;
  al_malloc_law s O n : al_inv s O → 0 <= n <= 2 ^ 64 - 8 →
    wp (al_malloc n) (λ p s', (p = 0 ∧ s' = s) ∨
      (p ≠ 0 ∧ ∃ z, n <= z ∧ O !! p = None ∧ al_inv s' (<[p := z]> O) ∧
         preserved O (al_mem s) (al_mem s'))) s;
  al_free_law s O p n : al_inv s O → O !! p = Some n →
    wp (al_free p) (λ _ s', al_inv s' (delete p O) ∧ preserved (delete p O) (al_mem s) (al_mem s')) s;
  al_realloc_law s O p n size : al_inv s O → O !! p = Some n → 0 < size <= 2 ^ 32 - 8 →
    wp (al_realloc p size) (λ r s', (r = 0 ∧ s' = s) ∨
      (r ≠ 0 ∧ ∃ z, size <= z ∧ al_inv s' (<[r := z]> (delete p O)) ∧ delete p O !! r = None ∧
         preserved (delete p O) (al_mem s) (al_mem s') ∧
         ∀ i, 0 <= i < Z.min n size → load8 (al_mem s') (r + i) = load8 (al_mem s) (p + i))) s;
  al_free_null_law s O : al_inv s O → wp (al_free 0) (λ _ s', s' = s) s;
  al_realloc_null_law s O n : al_inv s O → 0 <= n <= 2 ^ 64 - 8 →
    wp (al_realloc 0 n) (λ p s', (p = 0 ∧ s' = s) ∨
      (p ≠ 0 ∧ ∃ z, n <= z ∧ O !! p = None ∧ al_inv s' (<[p := z]> O) ∧
         preserved O (al_mem s) (al_mem s'))) s;
  al_realloc_zero_law s O p n : al_inv s O → O !! p = Some n →
    wp (al_realloc p 0) (λ r s', r = 0 ∧ al_inv s' (delete p O) ∧ preserved (delete p O) (al_mem s) (al_mem s')) s;
  al_store_law s O f : al_inv s O → same_outside (live O) (al_mem s) (f (al_mem s)) →
    wp (al_store f) (λ _ s', al_inv s' O ∧ al_mem s' = f (al_mem s)) s
}.

(** ** The C library's wrappers *)

Section stdlib.
Context {S : Type} `{Allocator S}.

Definition malloc (size : Z) : M S Z := al_malloc size.
Definition free (ptr : Z) : M S unit := al_free ptr.
Definition realloc (ptr size : Z) : M S Z := al_realloc ptr size.

(** [for (i = 0; i < total; ++i) p[i] = 0;] *)
Fixpoint zero_loop (n : nat) (m : gmap Z Z) (p : Z) : gmap Z Z :=
  match n with
  | O => m
  | Datatypes.S n => zero_loop n (store8 m p 0) (p + 1)
  end.

Definition calloc (nmemb size : Z) : M S Z :=
  let total := u64 (nmemb * size) in
  ptr ← malloc total;
  mwhen (truthy ptr) (al_store (λ m, zero_loop (Z.to_nat total) m ptr)) ;;
  mret ptr.
End stdlib.

Lemma zero_loop_in n m p i : p <= i < p + Z.of_nat n → load8 (zero_loop n m p) i = 0.
Proof.
  revert m p. induction n as [|n IH]; intros m p Hi; [lia|]. cbn.
  destruct (Z.eq_dec i p) as [->|]; [|apply IH; lia]. clear IH Hi.
  assert (∀ m q, p < q → load8 (zero_loop n m q) p = load8 m p) as Hout.
  { induction n as [|n IH]; intros m' q Hq; [done|]. cbn. rewrite IH by lia. apply load8_store8_ne. lia. }
  rewrite Hout by lia. by rewrite load8_store8_eq.
Qed.

Lemma zero_loop_out n m p i : i < p ∨ p + Z.of_nat n <= i → load8 (zero_loop n m p) i = load8 m i.
Proof.
  revert m p. induction n as [|n IH]; intros m p Hi; [done|]. cbn. rewrite IH by lia.
  apply load8_store8_ne. lia.
Qed.

Section clients.
Context {S : Type} `{AllocatorLaws S}.

Lemma calloc_spec (s : S) O nmemb size : al_inv s O →
  0 <= nmemb → 0 <= size → nmemb * size <= 2 ^ 64 - 8 →
  wp (calloc nmemb size) (λ p s', (p = 0 ∧ s' = s) ∨
    (p ≠ 0 ∧ ∃ z, nmemb * size <= z ∧ O !! p = None ∧ al_inv s' (<[p := z]> O) ∧
       preserved O (al_mem s) (al_mem s') ∧
       ∀ i, 0 <= i < nmemb * size → load8 (al_mem s') (p + i) = 0)) s.
Proof.
  intros HI Hn Hs Ht. unfold calloc, malloc. rewrite wrap_small by nia.
  set (total := nmemb * size) in *. assert (0 <= total) by (unfold total; nia).
  apply wp_bind. wp_use (al_malloc_law s O total HI); [lia|].
  intros p s1 [[-> ->]|(Hp & z & Hz & Hfresh & HI1 & HPr)]; [by left|].
  rewrite (proj2 (truthy_true p)) by done. cbn [mwhen]. apply wp_bind.
  assert (<[p := z]> O !! p = Some z) as Hpz by apply lookup_insert_eq.
  wp_use (al_store_law s1 (<[p := z]> O) (λ m, zero_loop (Z.to_nat total) m p) HI1).
  { intros i Hi. apply zero_loop_out. destruct (Z.lt_ge_cases i p); [lia|].
    destruct (Z.lt_ge_cases i (p + total)); [|lia]. destruct Hi. exists p, z. split; [done|lia]. }
  intros _ s2 [HI2 Hm]. apply wp_ret. right. split; [done|]. exists z. rewrite Hm.
  split_and!; try done.
  - intros i (q & m & Hq & Hi). assert (p ≠ q) by (intros ->; congruence).
    destruct (al_disjoint s1 _ p z q m HI1 Hpz) as [?|?]; [by rewrite lookup_insert_ne|done|..];
      (rewrite zero_loop_out by lia; apply HPr; by exists q, m).
  - intros i Hi. apply zero_loop_in. lia.
Qed.
End clients.

(** ** TLSF is such an allocator *)

#[export] Instance tlsf_allocator : Allocator tlsf_state := {
  al_mem := heap;
  al_malloc := tlsf_malloc;
  al_free := tlsf_free;
  al_realloc := tlsf_realloc;
  al_store f := modify (with_heap f)
}.

Definition refines (s : tlsf_state) (O : gmap Z Z) : Prop :=
  ∃ B, heap_ok s B ∧ ∀ p n, O !! p = Some n ↔ owned B p n.

Lemma live_owned O B i : (∀ p n, O !! p = Some n ↔ owned B p n) → live O i ↔ in_owned B i.
Proof. intros H. unfold live, in_owned. by setoid_rewrite H. Qed.

Lemma insert_owned (O : gmap Z Z) (P P' : Z → Z → Prop) p z :
  (∀ q n, O !! q = Some n ↔ P q n) → O !! p = None →
  (∀ q m, P' q m ↔ P q m ∨ (q = p ∧ m = z)) →
  ∀ q m, <[p := z]> O !! q = Some m ↔ P' q m.
Proof.
  intros HO Hp HB q m. rewrite HB, <- HO, lookup_insert_Some. split.
  - intros [[-> ->]|[? ?]]; auto.
  - intros [Hq|[-> ->]]; [right|by left]. split; [|done]. intros ->. congruence.
Qed.

Lemma refines_malloc s O n : refines s O → 0 <= n <= 2 ^ 64 - 8 →
  wp (tlsf_malloc n) (λ p s', (p = 0 ∧ s' = s) ∨
    (p ≠ 0 ∧ ∃ z, n <= z ∧ O !! p = None ∧ refines s' (<[p := z]> O) ∧
       preserved O (heap s) (heap s'))) s.
Proof.
  intros (B & HO & HB) Hn. wp_use (tlsf_malloc_spec s B n HO Hn).
  intros p s' [(-> & -> & _)|(Hp & _ & B' & HO' & [_ HK] & Hle & z & Hz & _ & _ & Hf & Hown)]; [by left|].
  right. split; [done|]. exists z. assert (O !! p = None) as Hfr.
  { destruct (O !! p) as [m|] eqn:E; [|done]. apply HB in E. by apply Hf in E. }
  split_and!; [lia|done|exists B'; split; [done|by eapply insert_owned]|].
  intros i Hi. apply HK. by apply (live_owned O B i HB).
Qed.

Lemma refines_free s O p n : refines s O → O !! p = Some n →
  wp (tlsf_free p) (λ _ s', refines s' (delete p O) ∧ preserved (delete p O) (heap s) (heap s')) s.
Proof.
  intros (B & HO & HB) Hp. apply HB in Hp. wp_use (tlsf_free_spec s B p n HO Hp).
  intros _ s' (B' & HO' & Hfr & [_ HK]).
  assert (∀ q m, delete p O !! q = Some m ↔ owned B' q m) as HB'.
  { intros q m. rewrite lookup_delete_Some, HB, (Hfr q m). clear. naive_solver. }
  split; [by exists B'|]. intros i Hi. apply HK. by apply (live_owned _ B' i HB').
Qed.

Lemma refines_realloc s O p n size : refines s O → O !! p = Some n → 0 < size <= 2 ^ 32 - 8 →
  wp (tlsf_realloc p size) (λ r s', (r = 0 ∧ s' = s) ∨
    (r ≠ 0 ∧ ∃ z, size <= z ∧ refines s' (<[r := z]> (delete p O)) ∧ delete p O !! r = None ∧
       preserved (delete p O) (heap s) (heap s') ∧
       ∀ i, 0 <= i < Z.min n size → load8 (heap s') (r + i) = load8 (heap s) (p + i))) s.
Proof.
  intros (B & HO & HB) Hp Hs. apply HB in Hp. wp_use (tlsf_realloc_spec s B p n size HO Hp Hs).
  intros r s' [(-> & -> & _)|(Hr & B' & z & HO' & Hz & Hfr & Hown & Hcp & Hoth)]; [by left|].
  right. split; [done|]. exists z.
  assert (∀ q m, delete p O !! q = Some m ↔ q ≠ p ∧ owned B q m) as HD.
  { intros q m. rewrite lookup_delete_Some, HB. clear. naive_solver. }
  assert (delete p O !! r = None) as Hd.
  { destruct (delete p O !! r) as [m|] eqn:E; [|done]. apply HD in E as [? E].
    destruct Hfr as [->|Hfr]; [done|]. by apply Hfr in E. }
  split_and!; try done.
  - exists B'. split; [done|].
    by apply (insert_owned _ (λ q m, q ≠ p ∧ owned B q m)).
  - intros i (q & m & Hq & Hi). apply HD in Hq as [Hne Hq]. by eapply Hoth.
Qed.

#[export] Instance tlsf_allocator_laws : AllocatorLaws tlsf_state.
Proof.
  refine {| al_inv := refines |}.
  - intros s O p n (B & HO & HB) Hp. apply HB, (owned_geom HO) in Hp. lia.
  - intros s O p n q m (B & HO & HB) Hp Hq Hne. apply HB in Hp, Hq.
    pose proof (owned_disjoint HO p n q m Hp Hq Hne). lia.
  - intros. by apply refines_malloc.
  - intros s O p n HR Hp. by eapply refines_free.
  - intros. by apply refines_realloc.
  - done.
  - intros. by apply refines_malloc.
  - intros s O p n HR Hp. pose proof HR as (B & HO & HB). pose proof Hp as Hg. apply HB, (owned_geom HO) in Hg.
    change (al_realloc p 0) with (tlsf_realloc p 0). unfold tlsf_realloc. rewrite (proj2 (truthy_true p)) by lia. cbn [andb Z.eqb].
    apply wp_bind. wp_use (refines_free s O p n HR Hp). intros _ s' [H1 H2]. by apply wp_ret.
  - intros s O f (B & HO & HB) Hf. apply wp_modify. split; [|done]. exists B. split; [|done].
    eapply client_write; [done|done|]. intros i Hi. apply Hf. intros Hl. apply Hi.
    by apply in_owned_used, (live_owned O B i HB).
Defined.

(** ** [init_heap] *)

Definition KERNEL_HEAP_SIZE : Z := 0x100000.

(** [kernel_heap] is the address the linker gives the array, 8-aligned by its
    attribute; the boot messages do not touch the heap. *)
Definition init_heap (kernel_heap : Z) : M tlsf_state Z :=
  tlsf_create_with_pool kernel_heap KERNEL_HEAP_SIZE.

Lemma boot_map_unowned mem bytes p n : ¬ owned (boot_map mem bytes) p n.
Proof.
  intros (x & Hx & Hf & Hz & Hp). unfold boot_map, pool_map in Hx.
  rewrite !lookup_insert_Some in Hx. destruct Hx as [[_ <-]|[_ [[_ <-]|[_ Hx]]]]; cbn in *; [done|lia|done].
Qed.

Lemma init_heap_spec s kernel_heap :
  0 < kernel_heap → kernel_heap mod 8 = 0 → kernel_heap + KERNEL_HEAP_SIZE < 2 ^ 64 →
  wp (init_heap kernel_heap) (λ r s', r = kernel_heap ∧ refines s' ∅) s.
Proof.
  intros H1 H2 H3. unfold init_heap. change KERNEL_HEAP_SIZE with 0x100000 in *.
  wp_use (tlsf_create_with_pool_spec s kernel_heap 0x100000); [done..|change tlsf_size with 6536; lia|].
  intros r s' (-> & _ & HO). split; [done|]. exists (boot_map kernel_heap 0x100000). split; [done|].
  intros p n. split; [done|]. intros Ho. by apply boot_map_unowned in Ho.
Qed.

(** ** Client sessions

    What a kernel client may do with the heap, as a transition system on the map
    of live blocks, and the simulation of it by any lawful allocator. *)

Inductive client_op :=
| CMalloc (n : Z)
| CCalloc (nmemb size : Z)
| CFree (p : Z)
| CRealloc (p n : Z)
| CStore (a v : Z).

(** The client's obligations: sizes in range, only live pointers and NULL are
    freed or resized, stores hit live bytes only. *)
Definition allowed (O : gmap Z Z) (op : client_op) : Prop :=
  match op with
  | CMalloc n => 0 <= n <= 2 ^ 64 - 8
  | CCalloc nmemb size => 0 <= nmemb ∧ 0 <= size ∧ nmemb * size <= 2 ^ 64 - 8
  | CFree p => p = 0 ∨ is_Some (O !! p)
  | CRealloc p n => p = 0 ∧ 0 <= n <= 2 ^ 64 - 8 ∨ is_Some (O !! p) ∧ 0 <= n <= 2 ^ 32 - 8
  | CStore a _ => live O a
  end.

Definition fresh_block (O O' : gmap Z Z) (p n : Z) : Prop :=
  ∃ z, n <= z ∧ O !! p = None ∧ O' = <[p := z]> O.

(** The abstract allocator: the live map and the bytes before and after. *)
Inductive abs_step (O : gmap Z Z) (m : gmap Z Z) : client_op → Z → gmap Z Z → gmap Z Z → Prop :=
| abs_malloc_fail n : abs_step O m (CMalloc n) 0 O m
| abs_malloc n p O' m' : p ≠ 0 → fresh_block O O' p n → preserved O m m' →
    abs_step O m (CMalloc n) p O' m'
| abs_calloc_fail k n : abs_step O m (CCalloc k n) 0 O m
| abs_calloc k n p O' m' : p ≠ 0 → fresh_block O O' p (k * n) → preserved O m m' →
    (∀ i, 0 <= i < k * n → load8 m' (p + i) = 0) → abs_step O m (CCalloc k n) p O' m'
| abs_free p m' : is_Some (O !! p) → preserved (delete p O) m m' → abs_step O m (CFree p) 0 (delete p O) m'
| abs_free_null : abs_step O m (CFree 0) 0 O m
| abs_realloc_fail p n : p = 0 ∨ 0 < n → abs_step O m (CRealloc p n) 0 O m
| abs_realloc_null n p O' m' : p ≠ 0 → fresh_block O O' p n → preserved O m m' →
    abs_step O m (CRealloc 0 n) p O' m'
| abs_realloc_zero p m' : is_Some (O !! p) → preserved (delete p O) m m' →
    abs_step O m (CRealloc p 0) 0 (delete p O) m'
| abs_realloc p n r n0 O' m' : r ≠ 0 → 0 < n → O !! p = Some n0 → fresh_block (delete p O) O' r n →
    preserved (delete p O) m m' →
    (∀ i, 0 <= i < Z.min n0 n → load8 m' (r + i) = load8 m (p + i)) →
    abs_step O m (CRealloc p n) r O' m'
| abs_store a v : abs_step O m (CStore a v) 0 O (store8 m a v).

Section sessions.
Context {S : Type} `{AllocatorLaws S}.

Definition client_exec (op : client_op) : M S Z :=
  match op with
  | CMalloc n => malloc n
  | CCalloc k n => calloc k n
  | CFree p => free p ;; mret 0
  | CRealloc p n => realloc p n
  | CStore a v => al_store (λ m, store8 m a v) ;; mret 0
  end.

Lemma client_simulation (s : S) O op : al_inv s O → allowed O op →
  wp (client_exec op) (λ r s', ∃ O', abs_step O (al_mem s) op r O' (al_mem s') ∧ al_inv s' O') s.
Proof.
  intros HI Hok. destruct op as [n|k n|p|p n|a v]; cbn [allowed client_exec] in *.
  - wp_use (al_malloc_law s O n HI Hok).
    intros p s' [[-> ->]|(Hp & z & Hz & Hf & HI' & HP)]; [exists O; by split; [constructor|]|].
    eexists. split; [|exact HI']. constructor; [done| |done]. by exists z.
  - destruct Hok as (Hk & Hn & Ht). wp_use (calloc_spec s O k n HI Hk Hn Ht).
    intros p s' [[-> ->]|(Hp & z & Hz & Hf & HI' & HP & Hzero)]; [exists O; by split; [constructor|]|].
    eexists. split; [|exact HI']. constructor; [done| |done|done]. by exists z.
  - apply wp_bind. destruct Hok as [->|[n Hp]].
    + wp_use (al_free_null_law s O HI). intros _ s' ->. apply wp_ret. exists O. by split; [constructor|].
    + wp_use (al_free_law s O p n HI Hp).
      intros _ s' [HI' HP]. apply wp_ret. eexists. split; [|exact HI']. by constructor.
  - destruct Hok as [[-> Hn]|[[n0 Hp] Hn]]; [|destruct (Z.eq_dec n 0) as [->|Hn0]].
    + wp_use (al_realloc_null_law s O n HI Hn).
      intros p s' [[-> ->]|(Hp & z & Hz & Hf & HI' & HP)]; [exists O; split; [constructor; by left|done]|].
      eexists. split; [|exact HI']. constructor; [done| |done]. by exists z.
    + wp_use (al_realloc_zero_law s O p n0 HI Hp). intros r s' (-> & HI' & HP).
      eexists. split; [|exact HI']. by constructor.
    + wp_use (al_realloc_law s O p n0 n HI Hp ltac:(lia)).
      intros r s' [[-> ->]|(Hr & z & Hz & HI' & Hf & HP & Hc)]; [exists O; split; [constructor; lia|done]|].
      eexists. split; [|exact HI']. econstructor; try done; [lia|]. by exists z.
  - apply wp_bind. wp_use (al_store_law s O (λ m, store8 m a v) HI).
    { intros i Hi. apply load8_store8_ne. intros ->. done. }
    intros _ s' [HI' Hm]. apply wp_ret. exists O. split; [|done]. rewrite Hm. constructor.
Qed.
End sessions.
