(* ===== verification/TlsfProps.v ===== *)
(** * TLSF: the properties of the allocator

    The main theorems, each with an instance on the concrete heap
    [boot]: an allocator created over 20000 bytes at address 4096. *)

From stdpp Require Import prelude gmap list numbers tactics relations.
From S2P Require Import Prelude Memory TlsfBits Tlsf TlsfInv TlsfSplit TlsfLists TlsfFree TlsfOps TlsfBlocks TlsfMerge TlsfMain TlsfRealloc TlsfAlign TlsfInit TlsfCheck KHeap.

(** ** A concrete heap *)

Definition run {A} (c : M tlsf_state A) (s : tlsf_state) : tlsf_state :=
  match c s with Some (_, s') => s' | None => s end.
Definition result {A} (d : A) (c : M tlsf_state A) (s : tlsf_state) : A :=
  match c s with Some (a, _) => a | None => d end.

Definition empty_state : tlsf_state := mk_tlsf 0 ∅ 0 [] [].
Definition boot : tlsf_state := run (tlsf_create_with_pool 4096 20000) empty_state.
Definition boot1 : tlsf_state := run (tlsf_malloc 100) boot.

Lemma wp_run_state {A} (c : M tlsf_state A) Q s d : wp c Q s → Q (result d c s) (run c s).
Proof. unfold wp, run, result. by destruct (c s) as [[a s']|]. Qed.

Lemma boot_ok : heap_ok boot (boot_map 4096 20000).
Proof.
  assert (wp (tlsf_create_with_pool 4096 20000) (λ r s', r = 4096 ∧ control s' = 4096 ∧
    heap_ok s' (boot_map 4096 20000)) empty_state) as H.
  { apply tlsf_create_with_pool_spec; [lia|done|lia|]. change tlsf_size with 6536. lia. }
  apply (wp_run_state _ _ _ 0) in H as (_ & _ & H). exact H.
Qed.

(** The first allocation succeeds at 10640 and returns a block of 104 bytes. *)
Lemma boot1_ok : ∃ B, heap_ok boot1 B ∧ owned B 10640 104.
Proof.
  assert (malloc_post (boot_map 4096 20000) boot 100 (result 0 (tlsf_malloc 100) boot) boot1) as H
    by exact (wp_run_state _ _ _ 0 (tlsf_malloc_spec boot _ 100 boot_ok ltac:(lia))).
  assert (result 0 (tlsf_malloc 100) boot = 10640) as E by (vm_compute; reflexivity).
  rewrite E in H. clear E.
  destruct H as [(? & _)|(_ & _ & B' & HO & _ & _ & z & Hz & _ & _ & _ & Hown)]; [done|].
  exists B'. split; [done|]. assert (owned B' 10640 z) as Ho by (apply Hown; auto).
  assert (z = 104) as <-; [|done].
  destruct Ho as (x & Hx & _ & Ez & _). pose proof (phys_hw (inv_phys _ _ _ (ho_inv _ _ HO)) boot1 _ x eq_refl Hx) as W.
  assert (wp (block_size (10640 - 16)) (λ r _, r = bsz x) boot1) as Hs by (by eapply wp_block_size).
  assert (result 0 (block_size (10640 - 16)) boot1 = bsz x) as Hr by exact (wp_run_state _ _ _ 0 Hs).
  assert (result 0 (block_size (10640 - 16)) boot1 = 104) as E by (vm_compute; reflexivity). congruence.
Qed.

(** ** Allocation *)

(** C2: on a consistent heap [tlsf_malloc] of at most 2^64 - 8 bytes never trips
    an assertion; it returns NULL and changes nothing exactly when the adjusted
    request is 0 (a request of 0, or of more than 2^32 - 8) or no free block of a
    sufficient class exists, and otherwise an 8-aligned fresh block of at least
    the requested size, leaving every other live block and its bytes as they were
    and the heap consistent.  The 7 larger requests wrap: [tlsf_malloc_wraps]. *)
Theorem tlsf_malloc_correct s B size : heap_ok s B → 0 <= size <= 2 ^ 64 - 8 →
  wp (tlsf_malloc size) (malloc_post B s size) s.
Proof. apply tlsf_malloc_spec. Qed.

Lemma tlsf_malloc_correct_witness :
  wp (tlsf_malloc 100) (malloc_post (boot_map 4096 20000) boot 100) boot.
Proof. apply (tlsf_malloc_correct boot _ 100); [exact boot_ok|lia]. Defined.

(** C3: freeing a live block succeeds, removes exactly that block, coalesces it
    with its free neighbours and keeps all other live blocks and their bytes. *)
Theorem tlsf_free_correct s B p n : heap_ok s B → owned B p n →
  wp (tlsf_free p) (λ _ s', ∃ B', heap_ok s' B' ∧ freed B B' p ∧ keeps (in_owned B') s s') s.
Proof. apply tlsf_free_spec. Qed.

Lemma tlsf_free_correct_witness : ∃ B, heap_ok boot1 B ∧ owned B 10640 104 ∧
  wp (tlsf_free 10640) (λ _ s', ∃ B', heap_ok s' B' ∧ freed B B' 10640 ∧ keeps (in_owned B') boot1 s') boot1.
Proof.
  destruct boot1_ok as (B & HO & Hp). exists B. split; [done|]. split; [done|].
  exact (tlsf_free_correct boot1 B 10640 104 HO Hp).
Defined.

(** C5: [tlsf_realloc] of a live block to a size of 1 to 2^32 - 8 keeps the
    contents up to the smaller of the two sizes, whether it grows or shrinks in
    place or moves the block, and leaves everything untouched when it fails; to
    size 0 it frees the block and returns NULL.  Larger sizes are outside of the
    claim: the code then cuts the block to nothing ([tlsf_realloc_truncates]). *)
Theorem tlsf_realloc_correct s B p n size :
  heap_ok s B → owned B p n → 0 <= size <= 2 ^ 32 - 8 →
  wp (tlsf_realloc p size) (λ r s',
    if size =? 0 then r = 0 ∧ ∃ B', heap_ok s' B' ∧ freed B B' p ∧ keeps (in_owned B') s s'
    else realloc_post B s p n size r s') s.
Proof.
  intros HO Hp Hs. destruct (Z.eqb_spec size 0) as [->|Hne].
  - unfold tlsf_realloc. pose proof (owned_geom HO p n Hp). rewrite (proj2 (truthy_true p)) by lia. cbn [andb Z.eqb].
    apply wp_bind. wp_use (tlsf_free_spec s B p n HO Hp). intros _ s' H'. by apply wp_ret.
  - apply tlsf_realloc_spec; [done|done|lia].
Qed.

Lemma tlsf_realloc_correct_witness : ∃ B, heap_ok boot1 B ∧ owned B 10640 104 ∧
  wp (tlsf_realloc 10640 300) (realloc_post B boot1 10640 104 300) boot1 ∧
  wp (tlsf_realloc 10640 0) (λ r s', r = 0 ∧ ∃ B', heap_ok s' B' ∧ freed B B' 10640 ∧ keeps (in_owned B') boot1 s') boot1.
Proof.
  destruct boot1_ok as (B & HO & Hp). exists B. split; [done|]. split; [done|]. split.
  - apply (tlsf_realloc_correct boot1 B 10640 104 300 HO Hp). lia.
  - apply (tlsf_realloc_correct boot1 B 10640 104 0 HO Hp). lia.
Defined.

(** C26: [tlsf_memalign] of at most 2^64 - 8 bytes with a power-of-two alignment
    up to 2^62 returns NULL and changes nothing, or a fresh block at a multiple of
    the alignment of at least the requested size, leaving every other live block
    and its bytes as they were.  The 7 larger requests wrap as in [tlsf_malloc]. *)
Theorem tlsf_memalign_correct s B k size :
  heap_ok s B → 0 <= k <= 62 → 0 <= size <= 2 ^ 64 - 8 →
  wp (tlsf_memalign (2 ^ k) size) (memalign_post B s (2 ^ k) size) s.
Proof. apply tlsf_memalign_spec. Qed.

Lemma tlsf_memalign_correct_witness :
  wp (tlsf_memalign (2 ^ 8) 100) (memalign_post (boot_map 4096 20000) boot (2 ^ 8) 100) boot.
Proof. apply (tlsf_memalign_correct boot _ 8 100); [exact boot_ok|lia|lia]. Defined.

(** C27: allocation is a good fit: a request of 1 to 2^32 - 8 bytes succeeds
    whenever some free block has the adjusted size (a multiple of 8, at least 24)
    and one part in 32 more. *)
Theorem tlsf_malloc_succeeds s B size a x :
  heap_ok s B → 0 < size <= 2 ^ 32 - 8 →
  B !! a = Some x → bfree x = true → req size + req size / 32 <= bsz x →
  wp (tlsf_malloc size) (λ p s', p ≠ 0) s.
Proof.
  intros HO Hs Ha Hf Hz. eapply malloc_big; try done.
  destruct (req_good size) as [E|[[_ Hg] _]]; [lia|..].
  - rewrite E. change (search_size 0) with 0. rewrite E in Hz. change (0 + 0 / 32) with 0 in Hz. lia.
  - pose proof (search_size_range (req size) ltac:(lia)). lia.
Qed.

Lemma tlsf_malloc_succeeds_witness : ∃ x, boot_map 4096 20000 !! 10624 = Some x ∧ bfree x = true ∧
  bsz x = 13448 ∧ wp (tlsf_malloc 13000) (λ p s', p ≠ 0) boot.
Proof.
  eexists. split; [reflexivity|]. split; [reflexivity|]. split; [reflexivity|].
  eapply (tlsf_malloc_succeeds boot (boot_map 4096 20000) 13000 10624);
    [exact boot_ok|lia|reflexivity|reflexivity|vm_compute; discriminate].
Defined.

(** the live blocks of a consistent heap are 8-aligned and pairwise disjoint,
    with at least the 8-byte boundary tag between them. *)
Theorem tlsf_blocks_disjoint s B p n q m :
  heap_ok s B → owned B p n → owned B q m → p ≠ q →
  p mod 8 = 0 ∧ q mod 8 = 0 ∧ (p + n < q ∨ q + m < p).
Proof.
  intros HO Hp Hq Hne. pose proof (owned_geom HO p n Hp). pose proof (owned_geom HO q m Hq).
  pose proof (owned_disjoint HO p n q m Hp Hq Hne). tauto.
Qed.

Definition boot2 : tlsf_state := run (tlsf_malloc 200) boot1.

(** Two live blocks after two allocations. *)
Lemma boot2_ok : ∃ B q n, heap_ok boot2 B ∧ owned B 10640 104 ∧ owned B q n ∧ 10640 ≠ q.
Proof.
  destruct boot1_ok as (B & HO & Hp).
  assert (malloc_post B boot1 200 (result 0 (tlsf_malloc 200) boot1) boot2) as H
    by exact (wp_run_state _ _ _ 0 (tlsf_malloc_spec boot1 B 200 HO ltac:(lia))).
  assert (truthy (result 0 (tlsf_malloc 200) boot1) = true) as E by (vm_compute; reflexivity).
  revert H E. generalize (result 0 (tlsf_malloc 200) boot1) as q. intros q H E.
  destruct H as [(-> & _)|(_ & _ & B2 & HO2 & _ & _ & z & _ & _ & _ & Hfr & Hown)]; [discriminate E|].
  exists B2, q, z. split; [exact HO2|]. split; [apply Hown; left; exact Hp|].
  split; [apply Hown; right; split; reflexivity|]. intros <-. exact (Hfr 104 Hp).
Qed.

Lemma tlsf_blocks_disjoint_witness : ∃ s B p q n m, heap_ok s B ∧ owned B p n ∧ owned B q m ∧
  (p + n < q ∨ q + m < p).
Proof.
  destruct boot2_ok as (B & q & m & HO & Hp & Hq & Hne).
  exists boot2, B, 10640, q, 104, m. split; [exact HO|]. split; [exact Hp|]. split; [exact Hq|].
  exact (proj2 (proj2 (tlsf_blocks_disjoint boot2 B 10640 104 q m HO Hp Hq Hne))).
Defined.

(** creating an allocator over an aligned region of less than 4 GiB
    establishes the invariant with one free block covering the pool, whatever the
    memory held before. *)
Theorem tlsf_create_correct s mem bytes :
  0 < mem → mem mod 8 = 0 → mem + bytes < 2 ^ 64 → tlsf_size + 40 <= bytes < 2 ^ 32 →
  wp (tlsf_create_with_pool mem bytes) (λ r s', r = mem ∧ control s' = mem ∧
    heap_ok s' (boot_map mem bytes)) s.
Proof. apply tlsf_create_with_pool_spec. Qed.

Lemma tlsf_create_correct_witness :
  wp (tlsf_create_with_pool 8192 0x100000) (λ r s', r = 8192 ∧ control s' = 8192 ∧
    heap_ok s' (boot_map 8192 0x100000)) empty_state.
Proof.
  apply (tlsf_create_correct empty_state 8192 0x100000);
    [lia|reflexivity|lia|change tlsf_size with 6536; lia].
Defined.

(** adding a pool in unused memory to a consistent heap keeps it consistent,
    the live blocks and their bytes included. *)
Theorem tlsf_add_pool_correct s B mem bytes :
  heap_ok s B → pool_region (control s) B mem bytes → 16 <= bytes →
  24 <= pool_bytes bytes < 2 ^ 32 →
  wp (tlsf_add_pool mem bytes) (λ r s', r = mem ∧ heap_ok s' (pool_map B mem (pool_bytes bytes)) ∧
    keeps (in_owned B) s s') s.
Proof. apply tlsf_add_pool_spec. Qed.

Lemma boot_region : pool_region (control boot) (boot_map 4096 20000) 65536 1000.
Proof.
  assert (control boot = 4096) as -> by (vm_compute; reflexivity).
  constructor; [split; [lia|split; [done|lia]]|lia|].
  intros a x Hx. unfold boot_map, pool_map in Hx. change tlsf_size with 6536 in Hx.
  change (pool_bytes (20000 - 6536)) with 13448 in Hx.
  rewrite !lookup_insert_Some in Hx. destruct Hx as [[<- <-]|[_ [[<- <-]|[_ Hx]]]]; cbn; [lia|lia|done].
Qed.

Lemma tlsf_add_pool_correct_witness :
  wp (tlsf_add_pool 65536 1000) (λ r s', r = 65536 ∧
    heap_ok s' (pool_map (boot_map 4096 20000) 65536 984) ∧
    keeps (in_owned (boot_map 4096 20000)) boot s') boot.
Proof.
  apply (tlsf_add_pool_correct boot (boot_map 4096 20000) 65536 1000 boot_ok boot_region);
    [lia|]. change (pool_bytes 1000) with 984. lia.
Defined.

(** C31: on a consistent heap the allocator's own self-check [tlsf_check] finds no
    error, trips no assertion and terminates once the fuel exceeds the number of
    blocks. *)
Theorem tlsf_check_clean s B fuel : heap_ok s B → (size B < fuel)%nat →
  wp (tlsf_check fuel) (λ r s', r = 0 ∧ s' = s) s.
Proof. intros HO. apply (tlsf_check_spec HO). Qed.

Lemma tlsf_check_clean_witness : wp (tlsf_check 3) (λ r s', r = 0 ∧ s' = boot) boot.
Proof.
  apply (tlsf_check_clean boot (boot_map 4096 20000) 3 boot_ok). vm_compute. repeat constructor.
Defined.

(** walking a pool from its first block visits its blocks up to the
    sentinel and the pool check returns 0; fuel of one unit per 32 bytes of pool
    suffices. *)
Theorem tlsf_check_pool_clean s B fuel pool x : heap_ok s B →
  B !! (pool - 8) = Some x → fst (bpool x) = pool - 8 →
  snd (bpool x) - pool + 8 < 32 * Z.of_nat fuel →
  wp (tlsf_check_pool fuel pool) (λ r s', r = 0 ∧ s' = s) s.
Proof. intros HO. by apply (tlsf_check_pool_spec HO). Qed.

Lemma tlsf_check_pool_clean_witness :
  wp (tlsf_check_pool 500 10632) (λ r s', r = 0 ∧ s' = boot) boot.
Proof.
  eapply (tlsf_check_pool_clean boot (boot_map 4096 20000) 500 10632);
    [exact boot_ok|reflexivity|reflexivity|vm_compute; reflexivity].
Defined.

(** ** The kernel heap refines the abstract allocator *)

(** C1: every operation a well-behaved client performs on the kernel heap
    terminates without tripping an assertion and is a step of the abstract
    allocator on the map of live blocks, and the relation between the two holds
    again afterwards.  The operations are [malloc] and [calloc] of up to 2^64 - 8
    bytes, [free] of a live block or NULL, [realloc] of a live block to at most
    2^32 - 8 bytes (0 frees it) or of NULL, and a store to a live byte; the heap
    may lie anywhere in the 64-bit address space, as the kernel's does at its top.
    A longer [realloc] and a [malloc] within 7 bytes of the limit are the errors
    shown by [tlsf_realloc_truncates] and [tlsf_malloc_wraps]. *)
Theorem kernel_heap_refines s O op : refines s O → allowed O op →
  wp (client_exec op) (λ r s', ∃ O', abs_step O (heap s) op r O' (heap s') ∧ refines s' O') s.
Proof. exact (client_simulation (S:=tlsf_state) s O op). Qed.

Lemma boot_refines : refines boot ∅.
Proof.
  exists (boot_map 4096 20000). split; [exact boot_ok|]. intros p n. split; [discriminate|].
  intros Ho. by apply boot_map_unowned in Ho.
Qed.

(** The kernel's heap, in the last 2 GiB of the address space. *)
Definition kernel_boot : tlsf_state := run (init_heap 0xFFFFFFFF80105000) empty_state.
Lemma kernel_boot_refines : refines kernel_boot ∅.
Proof.
  apply (wp_run_state (init_heap 0xFFFFFFFF80105000) (λ _ s', refines s' ∅) empty_state 0).
  eapply wp_mono; [apply init_heap_spec; done|]. by intros r s' [_ ?].
Qed.

Lemma kernel_heap_refines_witness :
  wp (client_exec (CCalloc 4 25)) (λ r s', ∃ O', abs_step ∅ (heap kernel_boot) (CCalloc 4 25) r O' (heap s') ∧
    refines s' O') kernel_boot ∧
  wp (client_exec (CFree 0)) (λ r s', ∃ O', abs_step ∅ (heap kernel_boot) (CFree 0) r O' (heap s') ∧
    refines s' O') kernel_boot ∧
  result 0 (client_exec (CCalloc 4 25)) kernel_boot = 0xFFFFFFFF80106990.
Proof.
  split; [|split].
  - apply (kernel_heap_refines kernel_boot ∅ (CCalloc 4 25) kernel_boot_refines). cbn [allowed]. lia.
  - apply (kernel_heap_refines kernel_boot ∅ (CFree 0) kernel_boot_refines). cbn [allowed]. lia.
  - vm_compute. reflexivity.
Defined.

(** [calloc] of a product that fits returns NULL or a fresh block whose
    first [nmemb * size] bytes are zero. *)
Theorem kernel_calloc_zeroed s O nmemb size : refines s O →
  0 <= nmemb → 0 <= size → nmemb * size <= 2 ^ 64 - 8 →
  wp (calloc nmemb size) (λ p s', (p = 0 ∧ s' = s) ∨
    (p ≠ 0 ∧ ∃ z, nmemb * size <= z ∧ O !! p = None ∧ refines s' (<[p := z]> O) ∧
       preserved O (heap s) (heap s') ∧
       ∀ i, 0 <= i < nmemb * size → load8 (heap s') (p + i) = 0)) s.
Proof. exact (calloc_spec (S:=tlsf_state) s O nmemb size). Qed.

Lemma kernel_calloc_zeroed_witness :
  wp (calloc 4 25) (λ p s', (p = 0 ∧ s' = boot) ∨
    (p ≠ 0 ∧ ∃ z, 4 * 25 <= z ∧ (∅ : gmap Z Z) !! p = None ∧ refines s' (<[p := z]> ∅) ∧
       preserved ∅ (heap boot) (heap s') ∧
       ∀ i, 0 <= i < 4 * 25 → load8 (heap s') (p + i) = 0)) boot.
Proof. apply (kernel_calloc_zeroed boot ∅ 4 25 boot_refines); lia. Defined.

(** [init_heap] leaves the kernel with an empty, consistent heap. *)
Theorem init_heap_correct s kernel_heap :
  0 < kernel_heap → kernel_heap mod 8 = 0 → kernel_heap + KERNEL_HEAP_SIZE < 2 ^ 64 →
  wp (init_heap kernel_heap) (λ r s', r = kernel_heap ∧ refines s' ∅) s.
Proof. apply init_heap_spec. Qed.

Lemma init_heap_correct_witness :
  wp (init_heap 0x200000) (λ r s', r = 0x200000 ∧ refines s' ∅) empty_state.
Proof.
  apply (init_heap_correct empty_state 0x200000); [lia|reflexivity|].
  change KERNEL_HEAP_SIZE with 0x100000. lia.
Defined.

(** ** Limits of the code *)

(** a request within 7 bytes of [SIZE_MAX] wraps in [align_up] and is
    served as a 24-byte block. *)
Theorem tlsf_malloc_wraps : ∃ p, result 0 (tlsf_malloc (2 ^ 64 - 1)) boot = p ∧ p ≠ 0 ∧
  result 0 (tlsf_block_size p) (run (tlsf_malloc (2 ^ 64 - 1)) boot) = 24.
Proof. exists 10640. split; [vm_compute; reflexivity|]. split; [discriminate|]. vm_compute. reflexivity. Qed.

(** [tlsf_realloc] to 4 GiB, which cannot be satisfied, does not leave the
    block alone: it returns the old pointer with the block cut to 0 bytes. *)
Theorem tlsf_realloc_truncates :
  result 0 (tlsf_realloc 10640 (2 ^ 32)) boot1 = 10640 ∧
  result 1 (tlsf_block_size 10640) (run (tlsf_realloc 10640 (2 ^ 32)) boot1) = 0.
Proof. split; vm_compute; reflexivity. Qed.

(** [tlsf_add_pool] accepts a pool of exactly [block_size_max] bytes, whose
    class (25, 0) is outside of the 25 rows of the free lists. *)
Theorem tlsf_add_pool_max_out_of_bounds :
  mapping_insert block_size_max = (FL_INDEX_COUNT, 0) ∧
  (block_size_max <? pool_bytes (2 ^ 32 + 16)) = false ∧
  tlsf_add_pool 65536 (2 ^ 32 + 16) boot = None.
Proof. split_and!; vm_compute; reflexivity. Qed.

(** ** Size classes and bit scans *)



(** the portable bit scans of [tlsf.c] agree with the compiler built-ins on
    every non-zero 32-bit word, and [tlsf_fls_sizet] is the 64-bit logarithm. *)
Theorem bit_scans_agree w size : 0 < w < 2 ^ 32 → 0 < size < 2 ^ 64 →
  tlsf_ffs_portable w = tlsf_ffs w ∧ tlsf_fls_portable w = tlsf_fls w ∧
  tlsf_fls_sizet size = Z.log2 size.
Proof.
  intros Hw Hs. split_and!; [by apply tlsf_ffs_portable_agrees| |by apply tlsf_fls_sizet_log2].
  unfold tlsf_fls_portable. rewrite tlsf_fls_generic_log2, tlsf_fls_log2 by lia. lia.
Qed.

Lemma bit_scans_agree_witness :
  tlsf_ffs_portable 0x80000008 = tlsf_ffs 0x80000008 ∧ tlsf_fls_portable 0x80000008 = tlsf_fls 0x80000008 ∧
  tlsf_fls_sizet (2 ^ 40 + 1) = Z.log2 (2 ^ 40 + 1).
Proof. apply (bit_scans_agree 0x80000008 (2 ^ 40 + 1)); lia. Defined.
