(* ===== verification/Pmm.v ===== *)
(** * Physical memory manager ([mm/pmm.c])

    Free frames are chained through the frames themselves: the first 16 bytes of
    a free frame, seen through the higher-half direct map, hold a
    [PhysicalMemoryRegion] ([base] at +0, [next] at +8).  [mm_state] is the state
    the physical and the virtual memory manager share. *)

From stdpp Require Import prelude gmap list numbers tactics.
From S2P Require Import Prelude Memory.

Record mm_state := mk_mm {
  mem : gmap Z Z;
  hhdm_response : Z;         (* offset of the direct map, from the boot loader *)
  free_mem_head : Z;
  pmm_total_pages : Z;
  pmm_free_pages : Z;
  hhdm_offset : Z;           (* the copy [vmm_init] makes *)
  kernel_pml4 : Z
}.

Abbreviation MM := (M mm_state).

Definition set_mem (f : gmap Z Z → gmap Z Z) (s : mm_state) : mm_state :=
  mk_mm (f (mem s)) (hhdm_response s) (free_mem_head s) (pmm_total_pages s) (pmm_free_pages s)
        (hhdm_offset s) (kernel_pml4 s).
Definition set_head_mm (h : Z) (s : mm_state) : mm_state :=
  mk_mm (mem s) (hhdm_response s) h (pmm_total_pages s) (pmm_free_pages s) (hhdm_offset s) (kernel_pml4 s).
Definition set_counts (t f : Z) (s : mm_state) : mm_state :=
  mk_mm (mem s) (hhdm_response s) (free_mem_head s) t f (hhdm_offset s) (kernel_pml4 s).

Definition PAGE_SIZE : Z := 4096.
Definition ALIGN_UP (address alignment : Z) : Z :=
  Z.land (u64 (address + (alignment - 1))) (cnot 64 (alignment - 1)).
Definition ALIGN_DOWN (address alignment : Z) : Z :=
  Z.land address (cnot 64 (alignment - 1)).

(** An entry of the boot loader's memory map. *)
Record memmap_entry := mk_entry { e_base : Z; e_length : Z; e_type : Z }.
Definition LIMINE_MEMMAP_USABLE : Z := 0.

(** Chain one frame in front of the list. *)
Definition push_frame (current : Z) : MM unit :=
  off ← gets hhdm_response;
  let region := u64 (current + off) in
  head ← gets free_mem_head;
  modify (set_mem (λ m, store64 (store64 m region current) (region + 8) head)) ;;
  modify (set_head_mm region).

(** The inner loop of [pmm_init]: [for (; current < end; current += PAGE_SIZE)].
    [None] when the fuel runs out before the loop ends. *)
Fixpoint pmm_add_frames (fuel : nat) (current end_ : Z) : MM unit :=
  if current <? end_ then
    match fuel with
    | O => mstop
    | S fuel =>
      push_frame current ;;
      modify (λ s, set_counts (u64 (pmm_total_pages s + 1)) (u64 (pmm_free_pages s + 1)) s) ;;
      pmm_add_frames fuel (u64 (current + PAGE_SIZE)) end_
    end
  else mret tt.

Definition pmm_add_entry (e : memmap_entry) : MM unit :=
  mwhen (e_type e =? LIMINE_MEMMAP_USABLE) (
    let base := ALIGN_UP (e_base e) PAGE_SIZE in
    let end_ := ALIGN_DOWN (u64 (e_base e + e_length e)) PAGE_SIZE in
    pmm_add_frames (Z.to_nat ((end_ - base) / PAGE_SIZE)) base end_).

Fixpoint pmm_init (entries : list memmap_entry) : MM unit :=
  match entries with
  | [] => mret tt
  | e :: entries => pmm_add_entry e ;; pmm_init entries
  end.

Definition palloc : MM Z :=
  head ← gets free_mem_head;
  if truthy head then
    next ← gets (λ s, load64 (mem s) (head + 8));
    modify (set_head_mm next) ;;
    modify (λ s, set_counts (pmm_total_pages s) (u64 (pmm_free_pages s - 1)) s) ;;
    gets (λ s, load64 (mem s) head)
  else mret 0.

Definition pfree (physc_addr : Z) : MM unit :=
  off ← gets hhdm_response;
  let region := u64 (physc_addr + off) in
  head ← gets free_mem_head;
  modify (set_mem (λ m, store64 (store64 m (region + 8) head) region physc_addr)) ;;
  modify (set_head_mm region) ;;
  modify (λ s, set_counts (pmm_total_pages s) (u64 (pmm_free_pages s + 1)) s).

Definition pmm_get_total_pages : MM Z := gets pmm_total_pages.
Definition pmm_get_free_pages : MM Z := gets pmm_free_pages.
Definition pmm_get_used_pages : MM Z := gets (λ s, u64 (pmm_total_pages s - pmm_free_pages s)).

(** ** The invariant *)

(** [a] is the direct-map address of a frame. *)
Definition frame (off a : Z) : Prop :=
  off mod 4096 = 0 ∧ 0 <= off ∧ off <= a ∧ 0 < a ∧ a mod 4096 = 0 ∧ a + 4096 <= 2 ^ 64.

(** The free list in memory: [l] are the frames in order. *)
Fixpoint flist (m : gmap Z Z) (off h : Z) (l : list Z) : Prop :=
  match l with
  | [] => h = 0
  | a :: l => h = a ∧ load64 m a = a - off ∧ flist m off (load64 m (a + 8)) l
  end.

Record pmm_ok (s : mm_state) (l : list Z) : Prop := {
  pk_list : flist (mem s) (hhdm_response s) (free_mem_head s) l;
  pk_nodup : NoDup l;
  pk_frames : ∀ a, a ∈ l → frame (hhdm_response s) a;
  pk_free : pmm_free_pages s = Z.of_nat (length l);
  pk_total : Z.of_nat (length l) <= pmm_total_pages s < 2 ^ 64
}.

Lemma frames_apart off a b : frame off a → frame off b → a ≠ b → a + 4096 <= b ∨ b + 4096 <= a.
Proof. intros (_&_&_&_&Ha&_) (_&_&_&_&Hb&_) Hne. zlia. Qed.

(** The list does not depend on bytes outside of the headers of its frames. *)
Lemma flist_frame m m' off h l :
  (∀ a, a ∈ l → load64 m' a = load64 m a ∧ load64 m' (a + 8) = load64 m (a + 8)) →
  flist m off h l → flist m' off h l.
Proof.
  revert h. induction l as [|a l IH]; intros h Hf; [done|]. intros (-> & H1 & H2). cbn.
  destruct (Hf a) as [-> ->]; [set_solver|]. split_and!; try done. apply IH; [|done].
  intros b Hb. apply Hf. set_solver.
Qed.

(** ** Specifications *)

Lemma palloc_spec s l : pmm_ok s l →
  wp palloc (λ r s',
    match l with
    | [] => r = 0 ∧ s' = s
    | a :: l' => r = a - hhdm_response s ∧ pmm_ok s' l' ∧ mem s' = mem s ∧
                 hhdm_response s' = hhdm_response s ∧ hhdm_offset s' = hhdm_offset s ∧
                 kernel_pml4 s' = kernel_pml4 s ∧ pmm_total_pages s' = pmm_total_pages s
    end) s.
Proof.
  intros [H1 H2 H3 H4 H5]. unfold palloc. wp_steps. destruct l as [|a l]; cbn in H1.
  - rewrite H1. done.
  - destruct H1 as (-> & Hb & Hl). destruct (H3 a) as (?&?&?&?&?&?); [set_solver|].
    rewrite (proj2 (truthy_true a)) by lia. wp_steps. cbn [length] in H4, H5. split; [done|].
    split; [|done]. apply list.NoDup_cons in H2 as [Hna Hnd]. constructor; cbn; try done.
    + intros b Hb'. apply H3. set_solver.
    + rewrite H4, wrap_small; lia.
    + lia.
Qed.

Section push.
Context {s : mm_state} {l : list Z} (HO : pmm_ok s l).
Context {a : Z} (Ha : frame (hhdm_response s) a) (Hna : a ∉ l).

(** Any memory with the two header words of [a] written holds the longer list. *)
Lemma flist_push m' :
  load64 m' a = a - hhdm_response s → load64 m' (a + 8) = free_mem_head s →
  (∀ w, apart w a → apart w (a + 8) → load64 m' w = load64 (mem s) w) →
  flist m' (hhdm_response s) a (a :: l).
Proof.
  intros H1 H2 Ho. cbn. rewrite H2. split_and!; try done.
  eapply flist_frame; [|apply HO]. intros b Hb.
  pose proof (frames_apart _ a b Ha (pk_frames _ _ HO b Hb)) as Hd.
  destruct Hd as [?|?]; [congruence|..]; (split; apply Ho; unfold apart; lia).
Qed.

Lemma push_nodup : NoDup (a :: l).
Proof. apply list.NoDup_cons. split; [done|apply HO]. Qed.

Lemma push_frames b : b ∈ a :: l → frame (hhdm_response s) b.
Proof. intros [->|Hb]%elem_of_cons; [done|by apply (pk_frames _ _ HO)]. Qed.
End push.

Lemma flist_head_range m off h l : flist m off h l → (∀ a, a ∈ l → frame off a) → 0 <= h < 2 ^ 64.
Proof.
  destruct l as [|a l]; cbn; [intros ->; lia|]. intros (-> & _) Hf.
  destruct (Hf a) as (?&?&?&?&?&?); [set_solver|lia].
Qed.

Lemma push_words s l a m' : pmm_ok s l → frame (hhdm_response s) a →
  m' = store64 (store64 (mem s) a (a - hhdm_response s)) (a + 8) (free_mem_head s) ∨
  m' = store64 (store64 (mem s) (a + 8) (free_mem_head s)) a (a - hhdm_response s) →
  load64 m' a = a - hhdm_response s ∧ load64 m' (a + 8) = free_mem_head s ∧
  (∀ w, apart w a → apart w (a + 8) → load64 m' w = load64 (mem s) w).
Proof.
  intros HO Ha Hm. pose proof (flist_head_range _ _ _ _ (pk_list _ _ HO) (pk_frames _ _ HO)).
  destruct Ha as (?&?&?&?&?&?).
  destruct Hm as [-> | ->]; (split_and!;
    [rewrite ?load64_apart by (unfold apart; lia); rewrite load64_store64_eq; lia
    |rewrite ?load64_apart by (unfold apart; lia); rewrite load64_store64_eq; lia
    |intros; by rewrite !load64_apart]).
Qed.

Lemma pfree_spec s l p : pmm_ok s l → frame (hhdm_response s) (p + hhdm_response s) →
  p + hhdm_response s ∉ l → Z.of_nat (length l) < pmm_total_pages s →
  wp (pfree p) (λ _ s', pmm_ok s' (p + hhdm_response s :: l) ∧
    pmm_total_pages s' = pmm_total_pages s ∧ hhdm_response s' = hhdm_response s ∧
    ∀ i, i < p + hhdm_response s ∨ p + hhdm_response s + 16 <= i → load8 (mem s') i = load8 (mem s) i) s.
Proof.
  intros HO Ha Hna Ht. pose proof Ha as (?&?&?&?&?&?). unfold pfree. wp_steps.
  set (a := p + hhdm_response s) in *. rewrite (wrap_small 64 a) by lia.
  replace p with (a - hhdm_response s) by (unfold a; lia).
  destruct (push_words s l a _ HO Ha (or_intror eq_refl)) as (W1 & W2 & W3).
  split_and!; cbn; try done.
  - constructor; cbn.
    + eapply flist_push; try done.
    + by apply (push_nodup HO).
    + by apply (push_frames HO).
    + rewrite (pk_free _ _ HO), wrap_small; [lia|]. pose proof (pk_total _ _ HO). lia.
    + pose proof (pk_total _ _ HO). lia.
  - intros i Hi. rewrite !load8_storen_out; [done|lia..].
Qed.

(** ** Initialisation *)

Lemma align_up_page x : 0 <= x → x + 4096 <= 2 ^ 64 →
  ALIGN_UP x PAGE_SIZE mod 4096 = 0 ∧ x <= ALIGN_UP x PAGE_SIZE < x + 4096.
Proof.
  intros Hx Hb. unfold ALIGN_UP, PAGE_SIZE. rewrite wrap_small by lia.
  change (4096 - 1) with (2 ^ 12 - 1). rewrite land_align_down by lia. change (2 ^ 12) with 4096. zlia.
Qed.

Lemma align_down_page x : 0 <= x < 2 ^ 64 →
  ALIGN_DOWN x PAGE_SIZE mod 4096 = 0 ∧ ALIGN_DOWN x PAGE_SIZE <= x < ALIGN_DOWN x PAGE_SIZE + 4096.
Proof.
  intros Hx. unfold ALIGN_DOWN, PAGE_SIZE. change (4096 - 1) with (2 ^ 12 - 1).
  rewrite land_align_down by lia. change (2 ^ 12) with 4096. zlia.
Qed.

(** The physical addresses [base, base + 4096, ...] of [n] frames. *)
Definition frames_from (base : Z) (n : nat) : list Z := (λ i, base + 4096 * Z.of_nat i) <$> seq 0 n.

Lemma frames_from_S base n : frames_from base (S n) = base :: frames_from (base + 4096) n.
Proof.
  unfold frames_from. cbn [seq fmap list_fmap]. f_equal; [lia|]. rewrite <- seq_shift, <- list_fmap_compose.
  apply list_fmap_ext. intros i j _. cbn. lia.
Qed.

(** The whole frames of an entry. *)
Definition usable_frames (e : memmap_entry) : list Z :=
  if e_type e =? LIMINE_MEMMAP_USABLE then
    let base := ALIGN_UP (e_base e) PAGE_SIZE in
    let end_ := ALIGN_DOWN (u64 (e_base e + e_length e)) PAGE_SIZE in
    frames_from base (Z.to_nat ((end_ - base) / 4096))
  else [].

Section init.
Context (off : Z).

(** Frames that can be chained: each one maps into the address space. *)
Definition chainable (fs : list Z) : Prop := ∀ f, f ∈ fs → frame off (f + off).

Definition added (l fs : list Z) : list Z := reverse ((λ f, f + off) <$> fs) ++ l.

Lemma added_cons l f fs : added (f + off :: l) fs = added l (f :: fs).
Proof. unfold added. by rewrite fmap_cons, reverse_cons, <- app_assoc. Qed.

Lemma added_app l fs gs : added (added l fs) gs = added l (fs ++ gs).
Proof. unfold added. by rewrite fmap_app, reverse_app, app_assoc. Qed.

Lemma pmm_add_frames_spec n s l base end_ :
  pmm_ok s l → hhdm_response s = off → pmm_free_pages s = pmm_total_pages s →
  base mod 4096 = 0 → end_ - base = 4096 * Z.of_nat n → 0 <= base → end_ < 2 ^ 64 →
  chainable (frames_from base n) → (∀ f, f ∈ frames_from base n → f + off ∉ l) →
  Z.of_nat (length l) + Z.of_nat n < 2 ^ 64 →
  wp (pmm_add_frames n base end_) (λ _ s', pmm_ok s' (added l (frames_from base n)) ∧
    hhdm_response s' = off ∧ pmm_free_pages s' = pmm_total_pages s') s.
Proof.
  revert s l base. induction n as [|n IH]; intros s l base HO Eo Ec Hal He Hb Hend Hch Hfr Hn; cbn [pmm_add_frames].
  - rewrite (proj2 (Z.ltb_ge base end_)) by lia. done.
  - rewrite (proj2 (Z.ltb_lt base end_)) by lia. rewrite frames_from_S in *.
    pose proof (Hch base ltac:(set_solver)) as Hf. pose proof Hf as (?&?&?&?&?&?).
    pose proof (pk_free _ _ HO) as Hc. pose proof (pk_total _ _ HO) as Ht.
    unfold push_frame. wp_steps. rewrite Eo. rewrite (wrap_small 64 (base + off)) by lia.
    change PAGE_SIZE with 4096. rewrite (wrap_small 64 (base + 4096)) by lia.
    rewrite <- added_cons. rewrite <- Eo in Hf |- *.
    destruct (push_words s l _ _ HO Hf (or_introl eq_refl)) as (W1 & W2 & W3).
    rewrite Eo in *. replace (base + off - off) with base in * by lia.
    apply IH; cbn; try done; try lia.
    + constructor; cbn; rewrite ?Eo.
      * rewrite <- Eo. eapply flist_push; rewrite ?Eo; try done. { apply Hfr. set_solver. }
        replace (base + off - off) with base by lia. done.
      * apply (push_nodup HO). apply Hfr. set_solver.
      * intros b Hb'. eapply (push_frames HO) in Hb'; rewrite ?Eo in *; done.
      * rewrite wrap_small; lia.
      * rewrite wrap_small; lia.
    + rewrite Ec. done.
    + clear -Hal. zlia.
    + intros f Hin. apply Hch. set_solver.
    + intros f Hin. apply not_elem_of_cons. split; [|apply Hfr; set_solver].
      unfold frames_from in Hin. apply list_elem_of_fmap in Hin as (i & -> & _). lia.
Qed.

Definition entry_ok (e : memmap_entry) : Prop :=
  0 <= e_base e ∧ 0 <= e_length e ∧ e_base e + e_length e + 4096 <= 2 ^ 64.

Lemma pmm_add_entry_spec s l e :
  pmm_ok s l → hhdm_response s = off → pmm_free_pages s = pmm_total_pages s → entry_ok e →
  chainable (usable_frames e) → (∀ f, f ∈ usable_frames e → f + off ∉ l) →
  Z.of_nat (length l) + Z.of_nat (length (usable_frames e)) < 2 ^ 64 →
  wp (pmm_add_entry e) (λ _ s', pmm_ok s' (added l (usable_frames e)) ∧
    hhdm_response s' = off ∧ pmm_free_pages s' = pmm_total_pages s') s.
Proof.
  intros HO Eo Ec (H1 & H2 & H3) Hch Hfr Hn. unfold pmm_add_entry, usable_frames in *.
  destruct (e_type e =? LIMINE_MEMMAP_USABLE); cbn [mwhen]; [|done]. cbv zeta in *.
  rewrite (wrap_small 64) in * by lia.
  destruct (align_up_page (e_base e)) as [A1 A2]; [lia..|].
  destruct (align_down_page (e_base e + e_length e)) as [D1 D2]; [lia|].
  set (base := ALIGN_UP _ _) in *. set (end_ := ALIGN_DOWN _ _) in *.
  change PAGE_SIZE with 4096. set (n := Z.to_nat ((end_ - base) / 4096)) in *.
  destruct (Z.le_gt_cases base end_) as [Hle|Hgt].
  - unfold frames_from in Hn. rewrite length_fmap, length_seq in Hn.
    apply pmm_add_frames_spec; try done; try lia. unfold n. clear -A1 D1 Hle. zlia.
  - assert (n = O) as -> by (unfold n; clear -Hgt; zlia). cbn [pmm_add_frames].
    rewrite (proj2 (Z.ltb_ge base end_)) by lia. done.
Qed.

Lemma pmm_init_entries es s l :
  pmm_ok s l → hhdm_response s = off → pmm_free_pages s = pmm_total_pages s → Forall entry_ok es →
  let fs := concat (usable_frames <$> es) in
  chainable fs → NoDup fs → (∀ f, f ∈ fs → f + off ∉ l) →
  Z.of_nat (length l) + Z.of_nat (length fs) < 2 ^ 64 →
  wp (pmm_init es) (λ _ s', pmm_ok s' (added l fs) ∧
    hhdm_response s' = off ∧ pmm_free_pages s' = pmm_total_pages s') s.
Proof.
  revert s l. induction es as [|e es IH]; intros s l HO Eo Ec HE; cbv zeta; [done|].
  intros Hch Hnd Hfr Hn. apply Forall_cons_1 in HE as [He HE].
  rewrite fmap_cons in *. cbn [concat pmm_init] in *. rewrite length_app in Hn.
  apply list.NoDup_app in Hnd as (Hnd1 & Hnd2 & Hnd3).
  apply wp_bind. wp_use (pmm_add_entry_spec s l e); try done.
  { intros f Hf. apply Hch. set_solver. } { intros f Hf. apply Hfr. set_solver. } { lia. }
  intros _ s1 (HO1 & Eo1 & Ec1). rewrite <- added_app. apply IH; try done.
  - intros f Hf. apply Hch. set_solver.
  - intros f Hf. unfold added. rewrite elem_of_app, elem_of_reverse, list_elem_of_fmap.
    intros [(g & E & Hg)|Hl]; [|by apply (Hfr f); [set_solver|]].
    assert (g = f) as -> by lia. by apply (Hnd2 f).
  - unfold added. rewrite length_app, length_reverse, length_fmap. lia.
Qed.
End init.

(** ** Properties *)

Definition pmm_boot (off : Z) : mm_state := mk_mm ∅ off 0 0 0 0 0.

(** [pmm_init] chains exactly the whole frames of the usable entries of the
    memory map, the last one first, and both counters are their number, provided
    the entries do not overlap and the direct map covers their frames. *)
Theorem pmm_init_correct off m entries :
  let s := set_mem (λ _, m) (pmm_boot off) in
  let fs := concat (usable_frames <$> entries) in
  Forall entry_ok entries → chainable off fs → NoDup fs → Z.of_nat (length fs) < 2 ^ 64 →
  wp (pmm_init entries) (λ _ s', pmm_ok s' (reverse ((λ f, f + off) <$> fs)) ∧
    pmm_total_pages s' = Z.of_nat (length fs) ∧ pmm_free_pages s' = Z.of_nat (length fs)) s.
Proof.
  intros s fs HE Hch Hnd Hn. wp_use (pmm_init_entries off entries s []); try done.
  - constructor; cbn; try done; try apply NoDup_nil_2. by intros a ?%not_elem_of_nil.
  - by intros f _ ?%not_elem_of_nil.
  - intros _ s' (HO & Eo & Ec). unfold added in HO. rewrite app_nil_r in HO. split; [done|].
    rewrite <- Ec. rewrite (pk_free _ _ HO), length_reverse, length_fmap. done.
Qed.

Lemma pmm_init_correct_witness :
  wp (pmm_init [mk_entry 0x1000 0x2800 0; mk_entry 0x5000 0x3000 1; mk_entry 0x9800 0x1900 0])
     (λ _ s', pmm_ok s' [0x10a000; 0x102000; 0x101000] ∧ pmm_total_pages s' = 3 ∧ pmm_free_pages s' = 3)
     (set_mem (λ _, ∅) (pmm_boot 0x100000)).
Proof.
  apply (pmm_init_correct 0x100000 ∅ [mk_entry 0x1000 0x2800 0; mk_entry 0x5000 0x3000 1; mk_entry 0x9800 0x1900 0]).
  - repeat constructor; cbn; lia.
  - assert (concat (usable_frames <$> [mk_entry 0x1000 0x2800 0; mk_entry 0x5000 0x3000 1;
      mk_entry 0x9800 0x1900 0]) = [0x1000; 0x2000; 0xa000]) as -> by reflexivity.
    intros f Hf. rewrite !elem_of_cons in Hf. unfold frame.
    destruct Hf as [->|[->|[->|Hf]]]; [split_and!; reflexivity || lia..|by apply not_elem_of_nil in Hf].
  - vm_compute. repeat constructor; rewrite ?elem_of_cons, ?elem_of_nil; intuition discriminate.
  - reflexivity.
Defined.

(** C7: [palloc] pops the first free frame, or returns 0 and changes nothing when
    there is none; giving the frame back with [pfree] restores the list, the free
    counter and every byte outside of the frame's header. *)
Theorem palloc_pfree_roundtrip s l : pmm_ok s l →
  match l with
  | [] => palloc s = Some (0, s)
  | a :: l' => ∃ s1 s2, palloc s = Some (a - hhdm_response s, s1) ∧ pmm_ok s1 l' ∧
      pmm_free_pages s1 = pmm_free_pages s - 1 ∧
      pfree (a - hhdm_response s) s1 = Some (tt, s2) ∧ pmm_ok s2 (a :: l') ∧
      pmm_free_pages s2 = pmm_free_pages s ∧
      ∀ i, i < a ∨ a + 16 <= i → load8 (mem s2) i = load8 (mem s) i
  end.
Proof.
  intros HO. pose proof (proj1 (wp_run _ _ _) (palloc_spec s l HO)) as (r & s1 & E & Hp).
  destruct l as [|a l]; [by destruct Hp as [-> ->]|].
  destruct Hp as (-> & HO1 & Em & Eh & _ & _ & Et). pose proof (pk_nodup _ _ HO) as Hnd.
  apply list.NoDup_cons in Hnd as [Hna _].
  assert (a - hhdm_response s + hhdm_response s1 = a) as Ea by (rewrite Eh; lia).
  pose proof (pk_total _ _ HO) as Ht. cbn [length] in Ht.
  assert (frame (hhdm_response s1) (a - hhdm_response s + hhdm_response s1)) as Hf.
  { rewrite Ea, Eh. apply (pk_frames _ _ HO). set_solver. }
  assert (a - hhdm_response s + hhdm_response s1 ∉ l) as Hni by (by rewrite Ea).
  pose proof (proj1 (wp_run _ _ _) (pfree_spec s1 l _ HO1 Hf Hni ltac:(lia))) as ([] & s2 & E2 & HO2 & _ & _ & Hm).
  rewrite Ea in HO2, Hm. exists s1, s2. split_and!; try done.
  - rewrite (pk_free _ _ HO1), (pk_free _ _ HO). cbn [length]. lia.
  - by rewrite (pk_free _ _ HO2), (pk_free _ _ HO).
  - intros i Hi. by rewrite Hm, Em.
Qed.

Definition pmm_two : mm_state :=
  match pmm_init [mk_entry 0x1000 0x2800 0] (pmm_boot 0x100000) with Some (_, s) => s | None => pmm_boot 0 end.

Lemma pmm_two_ok : pmm_ok pmm_two [0x102000; 0x101000].
Proof.
  constructor.
  - vm_compute. auto.
  - vm_compute. repeat constructor; rewrite ?elem_of_cons, ?elem_of_nil; intuition discriminate.
  - intros a Ha. change (hhdm_response pmm_two) with 0x100000. rewrite !elem_of_cons in Ha. unfold frame.
    destruct Ha as [->|[->|Ha]]; [split_and!; reflexivity || lia..|by apply not_elem_of_nil in Ha].
  - reflexivity.
  - vm_compute. split; [discriminate|reflexivity].
Qed.

Lemma palloc_pfree_roundtrip_witness : ∃ s1 s2, palloc pmm_two = Some (0x2000, s1) ∧
  pmm_ok s1 [0x101000] ∧ pfree 0x2000 s1 = Some (tt, s2) ∧ pmm_ok s2 [0x102000; 0x101000].
Proof.
  pose proof (palloc_pfree_roundtrip pmm_two _ pmm_two_ok) as (s1 & s2 & E1 & H1 & _ & E2 & H2 & _).
  exists s1, s2. split; [exact E1|]. split; [exact H1|]. split; [exact E2|exact H2].
Defined.
