(* ===== verification/Vmm.v ===== *)
(** * Virtual memory manager ([mm/vmm.c])

    Page tables live in frames, seen through the direct map; an entry is a
    64-bit word of the memory.  [pte] is the table walk of the processor, over
    the address bits 12 to 51 of the entries and without large pages, which the
    code does not create.  The translation buffer ([invlpg]) is not part of the
    state: the page the code invalidates is the one it remaps. *)

From stdpp Require Import prelude gmap list numbers tactics.
From S2P Require Import Prelude Memory Pmm.

Definition PTE_PRESENT : Z := Z.shiftl 1 0.
Definition PTE_WRITABLE : Z := Z.shiftl 1 1.
Definition PTE_USER : Z := Z.shiftl 1 2.
Definition PTE_NOEXEC : Z := Z.shiftl 1 63.

Definition PML4_INDEX (x : Z) : Z := Z.land (Z.shiftr x 39) 0x1FF.
Definition PDPT_INDEX (x : Z) : Z := Z.land (Z.shiftr x 30) 0x1FF.
Definition PD_INDEX (x : Z) : Z := Z.land (Z.shiftr x 21) 0x1FF.
Definition PT_INDEX (x : Z) : Z := Z.land (Z.shiftr x 12) 0x1FF.

Definition phys_to_virt (phys : Z) : MM Z := gets (λ s, u64 (phys + hhdm_offset s)).
Definition virt_to_phys (virt : Z) : MM Z := gets (λ s, u64 (virt - hhdm_offset s)).

(** [cr3] is the register's value; [response] is the boot loader's answer. *)
Definition vmm_init (cr3 : Z) (response : option Z) : MM unit :=
  let cr3 := Z.land cr3 (cnot 64 0xFFF) in
  modify (λ s, mk_mm (mem s) (hhdm_response s) (free_mem_head s) (pmm_total_pages s) (pmm_free_pages s)
                 (default (hhdm_offset s) response) (kernel_pml4 s)) ;;
  p ← phys_to_virt cr3;
  modify (λ s, mk_mm (mem s) (hhdm_response s) (free_mem_head s) (pmm_total_pages s) (pmm_free_pages s)
                 (hhdm_offset s) p).

Definition alloc_table : MM Z :=
  phys ← palloc;
  p ← phys_to_virt phys;
  modify (set_mem (λ m, memset m p 0 4096)) ;;
  phys_to_virt phys.

Definition get_entry (table i : Z) : MM Z := gets (λ s, load64 (mem s) (table + 8 * i)).
Definition set_entry (table i v : Z) : MM unit := modify (set_mem (λ m, store64 m (table + 8 * i) v)).

(** One level of [map_page]: follow the entry or install a fresh table. *)
Definition descend (table i user_bit : Z) : MM Z :=
  e ← get_entry table i;
  if truthy (Z.land e PTE_PRESENT) then phys_to_virt (Z.land e (cnot 64 0xFFF))
  else
    t ← alloc_table;
    p ← virt_to_phys t;
    set_entry table i (Z.lor (Z.lor (Z.lor p PTE_PRESENT) PTE_WRITABLE) user_bit) ;;
    mret t.

Definition map_page (virt phys flags : Z) : MM unit :=
  pml4 ← gets kernel_pml4;
  let user_bit := Z.land flags PTE_USER in
  pdpt ← descend pml4 (PML4_INDEX virt) user_bit;
  pd ← descend pdpt (PDPT_INDEX virt) user_bit;
  pt ← descend pd (PD_INDEX virt) user_bit;
  set_entry pt (PT_INDEX virt) (Z.lor (Z.lor phys flags) PTE_PRESENT).

(** One level of [unmap_page]; [None] is its early return. *)
Definition follow (table i : Z) : MM (option Z) :=
  e ← get_entry table i;
  if truthy (Z.land e PTE_PRESENT) then
    t ← phys_to_virt (Z.land e (cnot 64 0xFFF)); mret (Some t)
  else mret None.

Definition unmap_page (virt : Z) : MM unit :=
  pml4 ← gets kernel_pml4;
  r ← follow pml4 (PML4_INDEX virt);
  match r with
  | None => mret tt
  | Some pdpt =>
    r ← follow pdpt (PDPT_INDEX virt);
    match r with
    | None => mret tt
    | Some pd =>
      r ← follow pd (PD_INDEX virt);
      match r with
      | None => mret tt
      | Some pt => set_entry pt (PT_INDEX virt) 0
      end
    end
  end.

(** ** Cache maintenance

    The lines [clflush] is issued for; [None] when the fuel runs out. *)
Fixpoint flush_lines (fuel : nat) (p end_ : Z) : option (list Z) :=
  if p <? end_ then
    match fuel with
    | O => None
    | S fuel => match flush_lines fuel (u64 (p + 64)) end_ with Some l => Some (p :: l) | None => None end
    end
  else Some [].
Definition phys_flush_cache (fuel : nat) (addr size : Z) : option (list Z) :=
  flush_lines fuel (Z.land addr (cnot 64 63)) (u64 (addr + size)).
Definition phys_invalidate_cache (fuel : nat) (addr size : Z) : option (list Z) :=
  flush_lines fuel (Z.land addr (cnot 64 63)) (u64 (addr + size)).

(** ** The processor's table walk *)

Definition ADDR_MASK : Z := 0x000ffffffffff000.

Definition tbl_step (off : Z) (m : gmap Z Z) (t i : Z) : option Z :=
  let e := load64 m (t + 8 * i) in
  if Z.testbit e 0 then Some (Z.land e ADDR_MASK + off) else None.

(** The table reached from [t] by a path of indices. *)
Fixpoint tblp (off : Z) (m : gmap Z Z) (t : Z) (path : list Z) : option Z :=
  match path with
  | [] => Some t
  | i :: path => match tbl_step off m t i with Some t' => tblp off m t' path | None => None end
  end.

Definition path_of (v : Z) : list Z := [PML4_INDEX v; PDPT_INDEX v; PD_INDEX v].

(** The last-level entry that translates [v]. *)
Definition pte (s : mm_state) (v : Z) : option Z :=
  match tblp (hhdm_offset s) (mem s) (kernel_pml4 s) (path_of v) with
  | Some t => let e := load64 (mem s) (t + 8 * PT_INDEX v) in if Z.testbit e 0 then Some e else None
  | None => None
  end.

(** ** The invariant: the tables form a tree, disjoint from the free frames *)

Definition indices (p : list Z) : Prop := (length p <= 3)%nat ∧ ∀ i, i ∈ p → 0 <= i < 512.

Record vm_ok (s : mm_state) (l : list Z) : Prop := {
  vk_pmm : pmm_ok s l;
  vk_off : hhdm_offset s = hhdm_response s;
  vk_low : ∀ a, a ∈ l → a - hhdm_offset s < 2 ^ 52;
  vk_frame : ∀ p t, indices p → tblp (hhdm_offset s) (mem s) (kernel_pml4 s) p = Some t →
    frame (hhdm_offset s) t ∧ t ∉ l;
  vk_inj : ∀ p q t, indices p → indices q →
    tblp (hhdm_offset s) (mem s) (kernel_pml4 s) p = Some t →
    tblp (hhdm_offset s) (mem s) (kernel_pml4 s) q = Some t → p = q;
  vk_high : ∀ p t i, indices (p ++ [i]) → tblp (hhdm_offset s) (mem s) (kernel_pml4 s) p = Some t →
    Z.testbit (load64 (mem s) (t + 8 * i)) 0 = true → load64 (mem s) (t + 8 * i) < 2 ^ 52
}.

Lemma index_range x k : 0 <= k → 0 <= Z.land (Z.shiftr x k) 0x1FF < 512.
Proof.
  intros Hk. change 0x1FF with (2 ^ 9 - 1). rewrite land_ones_mod by lia. apply Z.mod_pos_bound. lia.
Qed.

Lemma path_indices v : indices (path_of v).
Proof.
  split; [cbn; lia|]. intros i Hi. unfold path_of in Hi. rewrite !elem_of_cons in Hi.
  destruct Hi as [->|[->|[->|Hi]]]; [by apply index_range..|by apply not_elem_of_nil in Hi].
Qed.

Lemma indices_prefix p q : indices (p ++ q) → indices p.
Proof.
  intros [H1 H2]. rewrite length_app in H1. split; [lia|]. intros i Hi. apply H2. set_solver.
Qed.

Lemma indices_last p i : indices (p ++ [i]) → 0 <= i < 512.
Proof. intros [_ H]. apply H, elem_of_app. right. left. Qed.

Lemma tblp_app off m t p q :
  tblp off m t (p ++ q) = match tblp off m t p with Some t' => tblp off m t' q | None => None end.
Proof.
  revert t. induction p as [|i p IH]; intros t; [done|]. cbn. destruct (tbl_step off m t i); [apply IH|done].
Qed.

Lemma tblp_snoc off m t p i :
  tblp off m t (p ++ [i]) = match tblp off m t p with Some t' => tbl_step off m t' i | None => None end.
Proof.
  rewrite tblp_app. destruct (tblp off m t p) as [t'|]; [|done]. cbn. by destruct (tbl_step off m t' i).
Qed.

Lemma land_present e : truthy (Z.land e PTE_PRESENT) = Z.testbit e 0.
Proof.
  change PTE_PRESENT with (2 ^ 0). rewrite testbit_b2z_pow2 by lia. by destruct (Z.testbit e 0).
Qed.

(** The code's mask and the processor's agree on entries below 2^52. *)
Lemma land_addr e : 0 <= e < 2 ^ 52 → Z.land e (cnot 64 0xFFF) = Z.land e ADDR_MASK.
Proof.
  intros He. change 0xFFF with (2 ^ 12 - 1). rewrite land_align_down by lia.
  change ADDR_MASK with (Z.land (2 ^ 52 - 1) (Z.lnot (2 ^ 12 - 1))).
  rewrite Z.land_assoc, land_ones_mod, land_lnot_ones by lia. by rewrite (Z.mod_small e (2 ^ 52)) by lia.
Qed.

(** ** A fresh table *)

Lemma loadn_zero n m a : (∀ i, a <= i < a + Z.of_nat n → load8 m i = 0) → loadn n m a = 0.
Proof.
  revert a. induction n as [|n IH]; intros a H; [done|].
  change (loadn (S n) m a) with (load8 m a + 256 * loadn n m (a + 1)).
  rewrite H, IH by lia || (intros; apply H; lia). done.
Qed.

Lemma zero_page_in m a w : a <= w → w + 8 <= a + 4096 → load64 (memset m a 0 4096) w = 0.
Proof. intros. apply loadn_zero. intros i Hi. unfold memset. by rewrite memset_loop_in by lia. Qed.

Lemma zero_page_out m a w : w + 8 <= a ∨ a + 4096 <= w → load64 (memset m a 0 4096) w = load64 m w.
Proof. intros. apply loadn_ext. intros i Hi. unfold memset. by rewrite memset_loop_out by lia. Qed.

#[local] Opaque loadn storen memset.

Lemma frame_neq_words off t u i j : frame off t → frame off u → 0 <= i < 512 → 0 <= j < 512 →
  (t = u ∧ i = j) ∨ apart (t + 8 * i) (u + 8 * j).
Proof.
  intros Ht Hu Hi Hj. destruct (decide (t = u)) as [->|Hne].
  - unfold apart. lia.
  - destruct (frames_apart off t u Ht Hu Hne); unfold apart; lia.
Qed.

(** Entry of an intermediate level. *)
Lemma table_entry x u : x mod 4096 = 0 → 0 <= x < 2 ^ 52 → u = 0 ∨ u = 4 →
  let e := Z.lor (Z.lor (Z.lor x PTE_PRESENT) PTE_WRITABLE) u in
  0 <= e < 2 ^ 52 ∧ Z.testbit e 0 = true ∧ Z.land e ADDR_MASK = x.
Proof.
  intros Hm Hx Hu. cbv zeta. change PTE_PRESENT with 1. change PTE_WRITABLE with 2.
  assert (Z.lor (Z.lor (Z.lor x 1) 2) u = (3 + u) + x / 4096 * 2 ^ 12) as ->.
  { rewrite <- lor_add by lia. replace (x / 4096 * 2 ^ 12) with x by (clear -Hm; zlia).
    rewrite <- !Z.lor_assoc, Z.lor_comm. f_equal. destruct Hu as [->| ->]; done. }
  split; [zlia|]. split.
  - rewrite Z.bit0_odd. replace (3 + u + x / 4096 * 2 ^ 12) with (3 + u + 2 * (x / 4096 * 2048)) by lia.
    rewrite Z.odd_add_mul_2. by destruct Hu as [->| ->].
  - rewrite <- land_addr by zlia. change 0xFFF with (2 ^ 12 - 1). rewrite land_align_down by zlia.
    change (2 ^ 12) with 4096. clear -Hm Hu. zlia.
Qed.

Section descend.
Context {s : mm_state} {l : list Z} (HV : vm_ok s l).
Let off := hhdm_offset s.
Let root := kernel_pml4 s.
Context {p : list Z} {t i : Z} (Hpi : indices (p ++ [i])) (Ht : tblp off (mem s) root p = Some t).

Lemma descend_index : 0 <= i < 512.
Proof. clear HV Ht. by eapply indices_last. Qed.

Lemma descend_frame : frame off t ∧ t ∉ l.
Proof. apply (vk_frame _ _ HV p t); [by eapply indices_prefix|done]. Qed.

Section fresh.
Context (Habs : Z.testbit (load64 (mem s) (t + 8 * i)) 0 = false).
Context {a : Z} {l' : list Z} (Hl : l = a :: l') {e : Z}.
Context (He : 0 <= e < 2 ^ 52) (He0 : Z.testbit e 0 = true) (Hea : Z.land e ADDR_MASK + off = a).
Let m' := store64 (memset (mem s) a 0 4096) (t + 8 * i) e.

Lemma fresh_frame : frame off a ∧ a ∉ l' ∧ a ≠ t.
Proof.
  destruct descend_frame as [_ Hni]. pose proof (vk_pmm _ _ HV) as HO. pose proof (pk_nodup _ _ HO) as Hnd.
  rewrite Hl in Hnd. apply list.NoDup_cons in Hnd as [? _]. unfold off. rewrite (vk_off _ _ HV).
  split_and!; [apply (pk_frames _ _ HO); rewrite Hl; left|done|].
  intros ->. apply Hni. rewrite Hl. left.
Qed.

(** Words of the frames other than [a]. *)
Lemma fresh_word u j : frame off u → u ≠ a → 0 <= j < 512 → (u ≠ t ∨ j ≠ i) →
  load64 m' (u + 8 * j) = load64 (mem s) (u + 8 * j).
Proof.
  intros Hu Hua Hj Hne. destruct fresh_frame as (Fa & _), descend_frame as [Ft _].
  unfold m'. rewrite load64_apart.
  - apply zero_page_out. destruct (frames_apart off u a Hu Fa Hua); lia.
  - destruct (frame_neq_words off u t j i Hu Ft Hj descend_index) as [[-> ->]|?]; [tauto|done].
Qed.

Lemma fresh_entry : load64 m' (t + 8 * i) = e.
Proof. unfold m'. apply load64_store64_eq. lia. Qed.

Lemma fresh_zero j : 0 <= j < 512 → load64 m' (a + 8 * j) = 0.
Proof.
  intros Hj. destruct fresh_frame as (Fa & _ & Hat), descend_frame as [Ft _]. unfold m'.
  rewrite load64_apart; [apply zero_page_in; lia|].
  destruct (frame_neq_words off a t j i Fa Ft Hj descend_index) as [[? _]|?]; done.
Qed.

Lemma fresh_old q u : indices q → tblp off (mem s) root q = Some u → tblp off m' root q = Some u.
Proof.
  revert u. induction q as [|j q IH] using rev_ind; intros u Hq Hu; [done|].
  pose proof (indices_prefix _ _ Hq) as Hq'. rewrite tblp_snoc in Hu |- *.
  destruct (tblp off (mem s) root q) as [v|] eqn:E; [|done]. rewrite (IH v Hq' eq_refl).
  destruct (vk_frame _ _ HV q v Hq' E) as [Fv Nv].
  assert (0 <= j < 512) as Hj by (by apply (indices_last q j)).
  unfold tbl_step in Hu |- *. rewrite (fresh_word v j Fv); [exact Hu| |assumption|].
  - intros ->. apply Nv. rewrite Hl. left.
  - destruct (decide (v = t)) as [->|]; [right|by left]. intros ->. by rewrite Habs in Hu.
Qed.

Lemma fresh_new q u : indices q → tblp off m' root q = Some u →
  tblp off (mem s) root q = Some u ∨ (q = p ++ [i] ∧ u = a).
Proof.
  revert u. induction q as [|j q IH] using rev_ind; intros u Hq Hu; [by left|].
  pose proof (indices_prefix _ _ Hq) as Hq'.
  assert (0 <= j < 512) as Hj by (by apply (indices_last q j)).
  rewrite tblp_snoc in Hu |- *. destruct (tblp off m' root q) as [v|] eqn:E; [|done].
  destruct (IH v Hq' eq_refl) as [Ev|[-> ->]].
  - rewrite Ev. destruct (vk_frame _ _ HV q v Hq' Ev) as [Fv Nv].
    assert (v ≠ a) by (intros ->; apply Nv; rewrite Hl; left).
    destruct (decide (v = t ∧ j = i)) as [[-> ->]|Hne].
    + right. rewrite (vk_inj _ _ HV q p t Hq' (indices_prefix _ _ Hpi) Ev Ht).
      unfold tbl_step in Hu. rewrite fresh_entry, He0 in Hu. split; [done|congruence].
    + left. unfold tbl_step in Hu |- *. rewrite <- (fresh_word v j Fv); [exact Hu|assumption..|].
      destruct (decide (v = t)) as [->|]; [right|by left]. intros ->. exact (Hne (conj eq_refl eq_refl)).
  - unfold tbl_step in Hu. rewrite fresh_zero in Hu by done. by rewrite Z.bits_0 in Hu.
Qed.

Lemma fresh_path : tblp off m' root (p ++ [i]) = Some a.
Proof.
  rewrite tblp_snoc, (fresh_old p t (indices_prefix _ _ Hpi) Ht).
  unfold tbl_step. by rewrite fresh_entry, He0, Hea.
Qed.

(** The state with the new table; [l'] is what remains of the free list. *)
Context {s' : mm_state} (Em : mem s' = m') (Eo : hhdm_offset s' = off) (Er : kernel_pml4 s' = root).
Context (Eh : hhdm_response s' = hhdm_response s) (HO' : pmm_ok (set_mem (λ _, mem s) s') l').

Lemma fresh_pmm : pmm_ok s' l'.
Proof.
  destruct HO' as [P1 P2 P3 P4 P5]. constructor; try assumption. cbn in P1, P3.
  eapply flist_frame; [|exact P1]. intros b Hb. rewrite Em.
  assert (frame off b) as Fb by (unfold off; rewrite (vk_off _ _ HV), <- Eh; apply P3; exact Hb).
  assert (b ≠ a) as Hba by (destruct fresh_frame as (_ & Hn & _); intros ->; exact (Hn Hb)).
  assert (b ≠ t) as Hbt.
  { destruct descend_frame as [_ Hn]. intros ->. apply Hn. rewrite Hl. right. exact Hb. }
  pose proof (fresh_word b 0 Fb Hba ltac:(lia) (or_introl Hbt)) as W0.
  pose proof (fresh_word b 1 Fb Hba ltac:(lia) (or_introl Hbt)) as W1.
  replace (b + 8 * 0) with b in W0 by lia. replace (b + 8 * 1) with (b + 8) in W1 by lia.
  split; assumption.
Qed.

Lemma fresh_vm_ok : vm_ok s' l'.
Proof.
  constructor; rewrite ?Eo, ?Er, ?Em.
  - exact fresh_pmm.
  - rewrite Eh. apply (vk_off _ _ HV).
  - intros b Hb. apply (vk_low _ _ HV). rewrite Hl. right. exact Hb.
  - intros q u Hq Hu. destruct (fresh_new q u Hq Hu) as [Hold|[_ ->]].
    + destruct (vk_frame _ _ HV q u Hq Hold) as [F N]. split; [exact F|].
      intros Hin. apply N. rewrite Hl. right. exact Hin.
    + destruct fresh_frame as (F & N & _). split; assumption.
  - intros q q' u Hq Hq' Hu Hu'.
    assert (∀ r, indices r → tblp off (mem s) root r = Some a → False) as Hna.
    { intros r Hr Ha'. destruct (vk_frame _ _ HV r a Hr Ha') as [_ N]. apply N. rewrite Hl. left. }
    destruct (fresh_new q u Hq Hu) as [Ho|[-> ->]], (fresh_new q' _ Hq' Hu') as [Ho'|[-> E]].
    + exact (vk_inj _ _ HV q q' u Hq Hq' Ho Ho').
    + subst u. destruct (Hna q Hq Ho).
    + destruct (Hna q' Hq' Ho').
    + reflexivity.
  - intros q u j Hq Hu Hb. pose proof (indices_prefix _ _ Hq) as Hq'. pose proof (indices_last _ _ Hq) as Hj.
    destruct (fresh_new q u Hq' Hu) as [Hold|[-> ->]].
    + destruct (vk_frame _ _ HV q u Hq' Hold) as [F N].
      assert (u ≠ a) as Hua by (intros ->; apply N; rewrite Hl; left).
      destruct (decide (u = t ∧ j = i)) as [[-> ->]|Hne]; [rewrite fresh_entry; lia|].
      assert (u ≠ t ∨ j ≠ i) as Hor by (destruct (decide (u = t)); [right|left]; tauto).
      rewrite (fresh_word u j F Hua Hj Hor) in Hb |- *. exact (vk_high _ _ HV q u j Hq Hold Hb).
    + rewrite (fresh_zero j Hj) in Hb. rewrite Z.bits_0 in Hb. discriminate.
Qed.

(** No translation changes. *)
Lemma fresh_pte v : pte s' v = pte s v.
Proof.
  unfold pte. rewrite Eo, Er, Em. fold off root. pose proof (path_indices v) as Hv.
  destruct (index_range v 12 ltac:(lia)) as [J1 J2]. fold (PT_INDEX v) in J1, J2.
  destruct (tblp off (mem s) root (path_of v)) as [u|] eqn:E.
  - rewrite (fresh_old _ u Hv E). destruct (vk_frame _ _ HV _ u Hv E) as [F N].
    rewrite (fresh_word u (PT_INDEX v) F); [reflexivity| |lia|left].
    + intros ->. apply N. rewrite Hl. left.
    + intros ->. pose proof (vk_inj _ _ HV _ _ t Hv (indices_prefix _ _ Hpi) E Ht) as Ep.
      destruct Hpi as [Hlen _]. rewrite length_app, <- Ep in Hlen. cbn in Hlen. lia.
  - destruct (tblp off m' root (path_of v)) as [u|] eqn:E'; [|reflexivity].
    destruct (fresh_new _ u Hv E') as [Hold|[_ ->]]; [congruence|].
    rewrite (fresh_zero (PT_INDEX v)) by lia. rewrite Z.bits_0. reflexivity.
Qed.
End fresh.
End descend.

Lemma user_bit_cases flags : Z.land flags PTE_USER = 0 ∨ Z.land flags PTE_USER = 4.
Proof.
  change PTE_USER with (2 ^ 2). rewrite testbit_b2z_pow2 by lia. destruct (Z.testbit flags 2); auto.
Qed.

(** A frame that is neither free nor a table. *)
Definition spare (s : mm_state) (l : list Z) (a : Z) : Prop :=
  a ∉ l ∧ ∀ p, indices p → tblp (hhdm_offset s) (mem s) (kernel_pml4 s) p ≠ Some a.

(** Everything [map_page] leaves as it was on its way down. *)
Record walked (s s' : mm_state) (l l' : list Z) : Prop := {
  wk_ok : vm_ok s' l';
  wk_off : hhdm_offset s' = hhdm_offset s;
  wk_root : kernel_pml4 s' = kernel_pml4 s;
  wk_pte : ∀ v, pte s' v = pte s v;
  wk_len : (length l <= S (length l'))%nat;
  wk_spare : ∀ a, spare s l a → spare s' l' a
}.

Lemma descend_spec s l p t i u :
  vm_ok s l → indices (p ++ [i]) → tblp (hhdm_offset s) (mem s) (kernel_pml4 s) p = Some t →
  l ≠ [] → u = 0 ∨ u = 4 →
  wp (descend t i u) (λ t' s', ∃ l', walked s s' l l' ∧
    tblp (hhdm_offset s') (mem s') (kernel_pml4 s') (p ++ [i]) = Some t') s.
Proof.
  intros HV Hpi Ht Hl Hu. unfold descend, get_entry. apply wp_bind, wp_gets. rewrite land_present.
  pose proof (load64_range (mem s) (t + 8 * i)) as Hr.
  destruct (Z.testbit (load64 (mem s) (t + 8 * i)) 0) eqn:E.
  - unfold phys_to_virt. apply wp_gets. pose proof (vk_high _ _ HV p t i Hpi Ht E).
    rewrite land_addr by lia. set (x := Z.land _ ADDR_MASK).
    assert (tblp (hhdm_offset s) (mem s) (kernel_pml4 s) (p ++ [i]) = Some (x + hhdm_offset s)) as Hx.
    { rewrite tblp_snoc, Ht. unfold tbl_step. by rewrite E. }
    destruct (vk_frame _ _ HV _ _ Hpi Hx) as [(?&?&?&?&?&?) _].
    rewrite wrap_small by lia. exists l. split; [|exact Hx]. constructor; try reflexivity; [exact HV|lia|done].
  - destruct l as [|a l']; [done|]. pose proof (vk_pmm _ _ HV) as HO.
    assert (frame (hhdm_response s) a) as Fa by (apply (pk_frames _ _ HO); left).
    pose proof (vk_low _ _ HV a ltac:(left)) as Hlow. pose proof (vk_off _ _ HV) as Eoff.
    destruct Fa as (F1&F2&F3&F4&F5&F6). rewrite <- Eoff in F1, F2, F3. set (off := hhdm_offset s) in *.
    unfold alloc_table. apply wp_bind, wp_bind. wp_use (palloc_spec s (a :: l') HO).
    intros r s1 (-> & HO1 & Em & Eh & Eo & Er & _). rewrite <- Eoff.
    unfold phys_to_virt, virt_to_phys, set_entry. wp_steps. cbn [hhdm_offset set_mem]. rewrite Eo. fold off.
    replace (a - off + off) with a by lia. rewrite (wrap_small 64 a) by lia. rewrite (wrap_small 64 (a - off)) by lia.
    destruct (table_entry (a - off) u) as (He & He0 & Hea); [clear -F1 F5; zlia|lia|done|].
    set (e := Z.lor (Z.lor (Z.lor (a - off) PTE_PRESENT) PTE_WRITABLE) u) in *.
    assert (Z.land e ADDR_MASK + off = a) as Hea' by lia.
    set (s' := set_mem _ (set_mem _ s1)).
    assert (mem s' = store64 (memset (mem s) a 0 4096) (t + 8 * i) e) as Em' by (cbn; by rewrite Em).
    assert (pmm_ok (set_mem (λ _, mem s) s') l') as HO'.
    { destruct HO1. constructor; cbn; try assumption. by rewrite <- Em. }
    exists l'. split; [constructor|].
    + exact (fresh_vm_ok HV Hpi Ht eq_refl He He0 Hea' Em' Eo Er Eh HO').
    + exact Eo.
    + exact Er.
    + exact (fresh_pte HV Hpi Ht E eq_refl He He0 Hea' Em' Eo Er).
    + cbn. lia.
    + intros b [Nb Tb]. split; [intros Hb; apply Nb; by right|]. intros q Hq. rewrite Em'. change (kernel_pml4 s') with (kernel_pml4 s1).
      change (hhdm_offset s') with (hhdm_offset s1). rewrite Er, Eo. intros Hb.
      destruct (fresh_new HV Hpi Ht eq_refl He He0 Hea' q b Hq Hb) as [Hold|[_ ->]]; [by apply (Tb q)|apply Nb; left].
    + rewrite Em'. change (kernel_pml4 s') with (kernel_pml4 s1). rewrite Er.
      exact (fresh_path HV Hpi Ht E eq_refl He He0 Hea').
Qed.

(** ** The last level *)

Definition same_page (v w : Z) : Prop := path_of v = path_of w ∧ PT_INDEX v = PT_INDEX w.

Section leaf.
Context {s : mm_state} {l : list Z} (HV : vm_ok s l).
Let off := hhdm_offset s.
Let root := kernel_pml4 s.
Context {v t : Z} (Ht : tblp off (mem s) root (path_of v) = Some t).
Context {e : Z} (He : 0 <= e < 2 ^ 64).
Let m' := store64 (mem s) (t + 8 * PT_INDEX v) e.
Let s' := set_mem (λ m, store64 m (t + 8 * PT_INDEX v) e) s.

Lemma leaf_word u j : frame off u → 0 <= j < 512 → (u ≠ t ∨ j ≠ PT_INDEX v) →
  load64 m' (u + 8 * j) = load64 (mem s) (u + 8 * j).
Proof.
  intros Fu Hj Hne. unfold m'. apply load64_apart.
  destruct (vk_frame _ _ HV _ t (path_indices v) Ht) as [Ft _].
  destruct (frame_neq_words off u t j (PT_INDEX v) Fu Ft Hj (index_range v 12 ltac:(lia))) as [[? ?]|Hap];
    [tauto|exact Hap].
Qed.

(** A table reached in fewer steps is not the last-level one. *)
Lemma leaf_inner q u : indices q → (length q < 3)%nat → tblp off (mem s) root q = Some u → u ≠ t.
Proof.
  intros Hq Hlen Hu ->. pose proof (vk_inj _ _ HV _ _ t Hq (path_indices v) Hu Ht) as ->.
  cbn in Hlen. lia.
Qed.

Lemma leaf_tblp q : indices q → tblp off m' root q = tblp off (mem s) root q.
Proof.
  induction q as [|j q IH] using rev_ind; intros Hq; [reflexivity|].
  pose proof (indices_prefix _ _ Hq) as Hq'. rewrite !tblp_snoc, IH by exact Hq'.
  destruct (tblp off (mem s) root q) as [u|] eqn:E; [|reflexivity].
  destruct (vk_frame _ _ HV q u Hq' E) as [Fu _]. unfold tbl_step.
  rewrite (leaf_word u j Fu (indices_last _ _ Hq)); [reflexivity|]. left.
  apply (leaf_inner q u Hq'); [|exact E]. destruct Hq as [Hlen _]. rewrite length_app in Hlen. cbn in Hlen. lia.
Qed.

Lemma leaf_vm_ok : vm_ok s' l.
Proof.
  constructor; cbn; fold off root m'.
  - destruct (vk_pmm _ _ HV) as [P1 P2 P3 P4 P5]. constructor; try assumption. cbn. fold m'.
    eapply flist_frame; [|exact P1]. intros b Hb.
    assert (frame off b) as Fb by (unfold off; rewrite (vk_off _ _ HV); apply P3; exact Hb).
    assert (b ≠ t) as Hbt.
    { destruct (vk_frame _ _ HV _ t (path_indices v) Ht) as [_ N]. intros ->. exact (N Hb). }
    pose proof (leaf_word b 0 Fb ltac:(lia) (or_introl Hbt)) as W0.
    pose proof (leaf_word b 1 Fb ltac:(lia) (or_introl Hbt)) as W1.
    replace (b + 8 * 0) with b in W0 by lia. replace (b + 8 * 1) with (b + 8) in W1 by lia. split; assumption.
  - apply (vk_off _ _ HV).
  - apply (vk_low _ _ HV).
  - intros q u Hq. rewrite leaf_tblp by exact Hq. exact (vk_frame _ _ HV q u Hq).
  - intros q q' u Hq Hq'. rewrite !leaf_tblp by assumption. exact (vk_inj _ _ HV q q' u Hq Hq').
  - intros q u j Hq Hu. rewrite leaf_tblp in Hu by (by eapply indices_prefix).
    destruct (vk_frame _ _ HV q u (indices_prefix _ _ Hq) Hu) as [Fu _].
    rewrite (leaf_word u j Fu (indices_last _ _ Hq)); [exact (vk_high _ _ HV q u j Hq Hu)|]. left.
    apply (leaf_inner q u (indices_prefix _ _ Hq)); [|exact Hu].
    destruct Hq as [Hlen _]. rewrite length_app in Hlen. cbn in Hlen. lia.
Qed.

Lemma leaf_pte_eq w : same_page v w → pte s' w = if Z.testbit e 0 then Some e else None.
Proof.
  intros [Hp Hi]. unfold pte, s'. cbn [mem hhdm_offset kernel_pml4 set_mem]. fold off root m'. rewrite leaf_tblp by apply path_indices.
  rewrite <- Hp, <- Hi, Ht. unfold m'. rewrite load64_store64_eq by exact He. reflexivity.
Qed.

Lemma leaf_pte_ne w : ¬ same_page v w → pte s' w = pte s w.
Proof.
  intros Hne. unfold pte, s'. cbn [mem hhdm_offset kernel_pml4 set_mem]. fold off root m'. rewrite leaf_tblp by apply path_indices.
  destruct (tblp off (mem s) root (path_of w)) as [u|] eqn:E; [|reflexivity].
  destruct (vk_frame _ _ HV _ u (path_indices w) E) as [Fu _].
  rewrite (leaf_word u (PT_INDEX w) Fu (index_range w 12 ltac:(lia))); [reflexivity|].
  destruct (decide (u = t)) as [->|]; [right|left; assumption]. intros Hi. apply Hne.
  split; [|congruence]. exact (vk_inj _ _ HV _ _ t (path_indices v) (path_indices w) Ht E).
Qed.
End leaf.

(** ** [map_page] and [unmap_page] *)

Lemma map_page_spec s l virt phys flags :
  vm_ok s l → (3 <= length l)%nat → 0 <= phys < 2 ^ 64 → 0 <= flags < 2 ^ 64 →
  wp (map_page virt phys flags) (λ _ s', (∃ l', vm_ok s' l' ∧ hhdm_offset s' = hhdm_offset s ∧ ∀ a, spare s l a → spare s' l' a) ∧
    (∀ w, same_page virt w → pte s' w = Some (Z.lor (Z.lor phys flags) PTE_PRESENT)) ∧
    (∀ w, ¬ same_page virt w → pte s' w = pte s w)) s.
Proof.
  intros HV Hl Hp Hf. unfold map_page. apply wp_bind, wp_gets. cbv zeta.
  set (u := Z.land flags PTE_USER). pose proof (user_bit_cases flags) as Hu. fold u in Hu.
  pose proof (path_indices virt) as Hi. unfold path_of in Hi.
  apply wp_bind. wp_use (descend_spec s l [] (kernel_pml4 s) (PML4_INDEX virt) u HV).
  { by apply (indices_prefix [_] [PDPT_INDEX virt; PD_INDEX virt]). } { reflexivity. }
  { destruct l; cbn in Hl; [lia|done]. } { exact Hu. }
  intros t1 s1 (l1 & [V1 O1 R1 P1 L1 S1] & T1).
  apply wp_bind. wp_use (descend_spec s1 l1 [PML4_INDEX virt] t1 (PDPT_INDEX virt) u V1).
  { by apply (indices_prefix [_; _] [PD_INDEX virt]). } { exact T1. } { destruct l1; cbn in *; [lia|done]. } { exact Hu. }
  intros t2 s2 (l2 & [V2 O2 R2 P2 L2 S2] & T2).
  apply wp_bind. wp_use (descend_spec s2 l2 [PML4_INDEX virt; PDPT_INDEX virt] t2 (PD_INDEX virt) u V2).
  { exact Hi. } { exact T2. } { destruct l2; cbn in *; [lia|done]. } { exact Hu. }
  intros t3 s3 (l3 & [V3 O3 R3 P3 _ S3] & T3). apply wp_modify.
  set (e := Z.lor (Z.lor phys flags) PTE_PRESENT).
  assert (0 <= e < 2 ^ 64) as He by (apply lor_range; [lia|apply lor_range; lia|by change PTE_PRESENT with 1; lia]).
  split.
  { exists l3. split; [exact (leaf_vm_ok V3 T3 He)|]. split; [cbn; congruence|].
    intros a Ha. destruct (S3 a (S2 a (S1 a Ha))) as [N T]. split; [exact N|]. intros q Hq.
    cbn [hhdm_offset kernel_pml4 mem set_mem]. rewrite (leaf_tblp V3 T3 He q Hq). exact (T q Hq). }
  split.
  - intros w Hw. rewrite (leaf_pte_eq V3 T3 He w Hw).
    assert (Z.testbit e 0 = true) as ->; [|reflexivity].
    unfold e. rewrite Z.lor_spec. change (Z.testbit PTE_PRESENT 0) with true. apply orb_true_r.
  - intros w Hw. rewrite (leaf_pte_ne V3 T3 He w Hw), P3, P2, P1. reflexivity.
Qed.

Lemma follow_spec s l p t i :
  vm_ok s l → indices (p ++ [i]) → tblp (hhdm_offset s) (mem s) (kernel_pml4 s) p = Some t →
  wp (follow t i) (λ r s', s' = s ∧ r = tblp (hhdm_offset s) (mem s) (kernel_pml4 s) (p ++ [i])) s.
Proof.
  intros HV Hpi Ht. unfold follow, get_entry. apply wp_bind, wp_gets. rewrite land_present.
  rewrite tblp_snoc, Ht. unfold tbl_step. pose proof (load64_range (mem s) (t + 8 * i)) as Hr.
  destruct (Z.testbit (load64 (mem s) (t + 8 * i)) 0) eqn:E; [|done].
  pose proof (vk_high _ _ HV p t i Hpi Ht E). unfold phys_to_virt. apply wp_bind, wp_gets, wp_ret.
  rewrite land_addr by lia. split; [done|]. f_equal. apply wrap_small.
  assert (tblp (hhdm_offset s) (mem s) (kernel_pml4 s) (p ++ [i]) =
    Some (Z.land (load64 (mem s) (t + 8 * i)) ADDR_MASK + hhdm_offset s)) as Hx.
  { rewrite tblp_snoc, Ht. unfold tbl_step. by rewrite E. }
  destruct (vk_frame _ _ HV _ _ Hpi Hx) as [(?&?&?&?&?&?) _]. lia.
Qed.

Lemma unmap_page_spec s l virt : vm_ok s l →
  wp (unmap_page virt) (λ _ s', vm_ok s' l ∧
    (∀ w, same_page virt w → pte s' w = None) ∧ (∀ w, ¬ same_page virt w → pte s' w = pte s w)) s.
Proof.
  intros HV. unfold unmap_page. apply wp_bind, wp_gets.
  pose proof (path_indices virt) as Hi. unfold path_of in Hi.
  assert (∀ w, same_page virt w →
    tblp (hhdm_offset s) (mem s) (kernel_pml4 s) (path_of virt) = None → pte s w = None) as Hnone.
  { intros w [Hp _] E. unfold pte. rewrite <- Hp, E. reflexivity. }
  assert (∀ p q, path_of virt = p ++ q → tblp (hhdm_offset s) (mem s) (kernel_pml4 s) p = None →
    vm_ok s l ∧ (∀ w, same_page virt w → pte s w = None) ∧ (∀ w, ¬ same_page virt w → pte s w = pte s w)) as Hstop.
  { intros p q Epq E. split_and!; [exact HV| |done]. intros w Hw. apply Hnone; [exact Hw|].
    rewrite Epq, tblp_app, E. reflexivity. }
  apply wp_bind. wp_use (follow_spec s l [] (kernel_pml4 s) (PML4_INDEX virt) HV); [|reflexivity|].
  { by apply (indices_prefix [_] [PDPT_INDEX virt; PD_INDEX virt]). }
  intros r s1 [-> ->]. destruct (tblp _ _ _ ([] ++ [PML4_INDEX virt])) as [t1|] eqn:T1;
    [|exact (Hstop [PML4_INDEX virt] _ eq_refl T1)].
  apply wp_bind. wp_use (follow_spec s l [PML4_INDEX virt] t1 (PDPT_INDEX virt) HV); [|exact T1|].
  { by apply (indices_prefix [_; _] [PD_INDEX virt]). }
  intros r s1 [-> ->]. destruct (tblp _ _ _ ([PML4_INDEX virt] ++ _)) as [t2|] eqn:T2;
    [|exact (Hstop [PML4_INDEX virt; PDPT_INDEX virt] _ eq_refl T2)].
  apply wp_bind. wp_use (follow_spec s l [PML4_INDEX virt; PDPT_INDEX virt] t2 (PD_INDEX virt) HV); [exact Hi|exact T2|].
  intros r s1 [-> ->]. destruct (tblp _ _ _ ([PML4_INDEX virt; PDPT_INDEX virt] ++ _)) as [t3|] eqn:T3;
    [|exact (Hstop (path_of virt) [] eq_refl T3)].
  apply wp_modify. split; [exact (leaf_vm_ok HV T3 (e:=0) ltac:(lia))|]. split.
  - intros w Hw. rewrite (leaf_pte_eq HV T3 (e:=0) ltac:(lia) w Hw). reflexivity.
  - intros w Hw. exact (leaf_pte_ne HV T3 (e:=0) ltac:(lia) w Hw).
Qed.

(** ** Pages and frames *)

Lemma index_div v k : 0 <= k → Z.land (Z.shiftr v k) 0x1FF = (v / 2 ^ k) mod 512.
Proof.
  intros Hk. change 0x1FF with (2 ^ 9 - 1). by rewrite land_ones_mod, Z.shiftr_div_pow2 by lia.
Qed.

(** Two addresses have the same four indices when bits 12 to 47 agree. *)
Lemma same_page_iff v w : same_page v w ↔ (v / 4096) mod 2 ^ 36 = (w / 4096) mod 2 ^ 36.
Proof.
  unfold same_page, path_of, PML4_INDEX, PDPT_INDEX, PD_INDEX, PT_INDEX. rewrite !index_div by lia.
  assert (∀ x k, 0 <= k → x / 2 ^ (12 + k) = x / 4096 / 2 ^ k) as D.
  { intros x k Hk. rewrite Z.pow_add_r by lia. rewrite <- Z.div_div by lia. done. }
  rewrite !(D _ 27), !(D _ 18), !(D _ 9) by lia. change (2 ^ 12) with 4096.
  change (2 ^ 27) with 134217728. change (2 ^ 18) with 262144. change (2 ^ 9) with 512.
  change (2 ^ 36) with 68719476736.
  generalize (v / 4096) as q, (w / 4096) as r. intros q r. clear D. split.
  - intros [[= E1 E2 E3] E4]. zlia.
  - intros E. assert (q mod 512 = r mod 512 ∧ (q / 512) mod 512 = (r / 512) mod 512 ∧
      (q / 262144) mod 512 = (r / 262144) mod 512 ∧ (q / 134217728) mod 512 = (r / 134217728) mod 512) as (->&->&->&->);
      [split_and!; zlia|done].
Qed.

(** The frame an entry maps to. *)
Definition frame_of (e : Z) : Z := Z.land e ADDR_MASK.

Lemma frame_of_mapped phys flags : phys mod 4096 = 0 → 0 <= phys < 2 ^ 52 → Z.land flags ADDR_MASK = 0 →
  frame_of (Z.lor (Z.lor phys flags) PTE_PRESENT) = phys.
Proof.
  intros Hm Hp Hf. unfold frame_of. rewrite !Z.land_lor_distr_l, Hf.
  change (Z.land PTE_PRESENT ADDR_MASK) with 0. rewrite !Z.lor_0_r.
  rewrite <- land_addr by lia. change 0xFFF with (2 ^ 12 - 1). rewrite land_align_down by lia.
  change (2 ^ 12) with 4096. lia.
Qed.

(** ** An empty top-level table is a valid address space *)

Lemma vm_ok_empty s l root : pmm_ok s l → hhdm_offset s = hhdm_response s →
  (∀ a, a ∈ l → a - hhdm_offset s < 2 ^ 52) → frame (hhdm_offset s) root → root ∉ l → kernel_pml4 s = root →
  (∀ i, 0 <= i < 512 → load64 (mem s) (root + 8 * i) = 0) → vm_ok s l.
Proof.
  intros HO Eo Hlow Fr Nr Er Hz.
  assert (∀ p t, indices p → tblp (hhdm_offset s) (mem s) (kernel_pml4 s) p = Some t → p = [] ∧ t = root) as Hp.
  { intros [|i p] t Hi Ht; [cbn in Ht; split; congruence|]. exfalso. cbn [tblp] in Ht. unfold tbl_step in Ht.
    rewrite Er, Hz, Z.bits_0 in Ht; [discriminate|]. destruct Hi as [_ Hi]. apply Hi. left. }
  constructor; try assumption.
  - intros p t Hi Ht. destruct (Hp p t Hi Ht) as [_ ->]. split; assumption.
  - intros p q t Hi Hj Ht Hq. destruct (Hp p t Hi Ht) as [-> _], (Hp q t Hj Hq) as [-> _]. reflexivity.
  - intros p t i Hi Ht Hb. destruct (Hp p t (indices_prefix _ _ Hi) Ht) as [-> ->].
    rewrite Hz in Hb |- * by (eapply indices_last; exact Hi). lia.
Qed.

(** ** Cache lines *)

Lemma flush_lines_spec fuel p end_ : 0 <= p → p mod 64 = 0 → end_ < 2 ^ 64 - 64 → end_ - p <= 64 * Z.of_nat fuel →
  ∃ l, flush_lines fuel p end_ = Some l ∧ ∀ x, x ∈ l ↔ p <= x < end_ ∧ x mod 64 = 0.
Proof.
  revert p. induction fuel as [|fuel IH]; intros p Hp Hm He Hf; cbn [flush_lines].
  - rewrite (proj2 (Z.ltb_ge p end_)) by lia. exists []. split; [done|]. intros x. rewrite elem_of_nil. lia.
  - destruct (Z.ltb_spec p end_) as [Hlt|Hge].
    + rewrite wrap_small by lia. destruct (IH (p + 64)) as (l & -> & Hl); [lia|clear -Hm; zlia|lia|lia|].
      exists (p :: l). split; [done|]. intros x. rewrite elem_of_cons, Hl. split.
      * intros [->|?]; [|lia]. split; [lia|done].
      * intros [Hx Hx64]. destruct (Z.eq_dec x p) as [->|]; [by left|right]. split; [|done].
        clear -Hm Hx64 n Hx. zlia.
    + exists []. split; [done|]. intros x. rewrite elem_of_nil. lia.
Qed.

(** ** Properties *)

(** C4: [map_page] maps the page of [virt] to the frame of [phys] with the given
    flags, for every address of the page, and leaves the translation of all
    other pages as it was; the tables stay a tree of frames disjoint from the free
    list.  Three free frames are always enough. *)
Theorem map_page_correct s l virt phys flags :
  vm_ok s l → (3 <= length l)%nat → phys mod 4096 = 0 → 0 <= phys < 2 ^ 52 →
  0 <= flags < 2 ^ 64 → Z.land flags ADDR_MASK = 0 →
  wp (map_page virt phys flags) (λ _ s', (∃ l', vm_ok s' l') ∧
    (∀ w, (w / 4096) mod 2 ^ 36 = (virt / 4096) mod 2 ^ 36 →
       ∃ e, pte s' w = Some e ∧ frame_of e = phys ∧ Z.land e flags = flags) ∧
    (∀ w, (w / 4096) mod 2 ^ 36 ≠ (virt / 4096) mod 2 ^ 36 → pte s' w = pte s w)) s.
Proof.
  intros HV Hl Hm Hp Hf Hfm. wp_use (map_page_spec s l virt phys flags HV Hl); [lia|lia|].
  intros _ s' ((l' & HV' & _) & Heq & Hne). split; [by exists l'|]. split; intros w Hw.
  - eexists. split; [apply Heq, same_page_iff; by symmetry|]. split; [by apply frame_of_mapped|].
    apply Z.bits_inj'. intros k Hk. rewrite Z.land_spec, !Z.lor_spec.
    destruct (Z.testbit flags k); [|apply andb_false_r]. by rewrite orb_true_r.
  - apply Hne. rewrite same_page_iff. by intros E.
Qed.

Definition vm_demo_pmm : mm_state :=
  match pmm_init [mk_entry 0x1000 0x4000 0] (pmm_boot 0x100000) with Some (_, s) => s | None => pmm_boot 0 end.
(** Four free frames and an empty top-level table at physical 0x10000. *)
Definition vm_demo : mm_state :=
  mk_mm (memset (mem vm_demo_pmm) 0x110000 0 4096) 0x100000 0x104000 4 4 0x100000 0x110000.

Lemma vm_demo_ok : vm_ok vm_demo [0x104000; 0x103000; 0x102000; 0x101000].
Proof.
  apply (vm_ok_empty _ _ 0x110000).
  - constructor.
    + change (flist (memset (mem vm_demo_pmm) 0x110000 0 4096) 0x100000 0x104000 [0x104000; 0x103000; 0x102000; 0x101000]).
      eapply (flist_frame (mem vm_demo_pmm)); [|vm_compute; repeat split].
      intros a Ha. rewrite !elem_of_cons in Ha.
      destruct Ha as [->|[->|[->|[->|Ha]]]]; [split; apply zero_page_out; left; lia..|by apply not_elem_of_nil in Ha].
    + vm_compute. repeat constructor; rewrite ?elem_of_cons, ?elem_of_nil; intuition discriminate.
    + intros a Ha. change (hhdm_response vm_demo) with 0x100000. rewrite !elem_of_cons in Ha. unfold frame.
      destruct Ha as [->|[->|[->|[->|Ha]]]]; [split_and!; reflexivity || lia..|by apply not_elem_of_nil in Ha].
    + reflexivity.
    + vm_compute. split; [discriminate|reflexivity].
  - reflexivity.
  - intros a Ha. change (hhdm_offset vm_demo) with 0x100000. rewrite !elem_of_cons in Ha.
    destruct Ha as [->|[->|[->|[->|Ha]]]]; [lia..|by apply not_elem_of_nil in Ha].
  - unfold frame. change (hhdm_offset vm_demo) with 0x100000. split_and!; reflexivity || lia.
  - rewrite !elem_of_cons, elem_of_nil. intuition discriminate.
  - reflexivity.
  - intros i Hi. apply zero_page_in; lia.
Qed.

Lemma map_page_correct_witness :
  wp (map_page 0x1000000000 0x200000 3) (λ _ s', (∃ l', vm_ok s' l') ∧
    (∀ w, (w / 4096) mod 2 ^ 36 = (0x1000000000 / 4096) mod 2 ^ 36 →
       ∃ e, pte s' w = Some e ∧ frame_of e = 0x200000 ∧ Z.land e 3 = 3) ∧
    (∀ w, (w / 4096) mod 2 ^ 36 ≠ (0x1000000000 / 4096) mod 2 ^ 36 → pte s' w = pte vm_demo w)) vm_demo.
Proof.
  apply (map_page_correct vm_demo _ 0x1000000000 0x200000 3 vm_demo_ok);
    [cbn; lia|reflexivity|lia|lia|reflexivity].
Defined.

(** C28: [unmap_page] removes the translation of its page and of no other, whether
    or not the page was mapped. *)
Theorem unmap_page_correct s l virt : vm_ok s l →
  wp (unmap_page virt) (λ _ s', vm_ok s' l ∧
    (∀ w, (w / 4096) mod 2 ^ 36 = (virt / 4096) mod 2 ^ 36 → pte s' w = None) ∧
    (∀ w, (w / 4096) mod 2 ^ 36 ≠ (virt / 4096) mod 2 ^ 36 → pte s' w = pte s w)) s.
Proof.
  intros HV. wp_use (unmap_page_spec s l virt HV). intros _ s' (HV' & Heq & Hne).
  split; [exact HV'|]. split; intros w Hw; [apply Heq|apply Hne]; rewrite same_page_iff; by symmetry || intros E.
Qed.

Lemma unmap_page_correct_witness :
  wp (unmap_page 0x1000000000) (λ _ s', vm_ok s' [0x104000; 0x103000; 0x102000; 0x101000] ∧
    (∀ w, (w / 4096) mod 2 ^ 36 = (0x1000000000 / 4096) mod 2 ^ 36 → pte s' w = None) ∧
    (∀ w, (w / 4096) mod 2 ^ 36 ≠ (0x1000000000 / 4096) mod 2 ^ 36 → pte s' w = pte vm_demo w)) vm_demo.
Proof. exact (unmap_page_correct vm_demo _ 0x1000000000 vm_demo_ok). Defined.

(** [phys_flush_cache] terminates and issues one [clflush] for every
    64-byte line that meets the region and for no other. *)
Theorem phys_flush_cache_covers addr size fuel :
  0 <= addr → 0 <= size → addr + size < 2 ^ 64 - 64 → size + 64 <= 64 * Z.of_nat fuel →
  ∃ l, phys_flush_cache fuel addr size = Some l ∧
    ∀ x, x ∈ l ↔ x mod 64 = 0 ∧ addr - addr mod 64 <= x < addr + size.
Proof.
  intros Ha Hs Hb Hf. unfold phys_flush_cache. change 63 with (2 ^ 6 - 1).
  rewrite land_align_down, wrap_small by lia. change (2 ^ 6) with 64.
  destruct (flush_lines_spec fuel (addr - addr mod 64) (addr + size)) as (l & E & Hl); [zlia|zlia|lia|zlia|].
  exists l. split; [exact E|]. intros x. rewrite Hl. tauto.
Qed.

Lemma phys_flush_cache_covers_witness : ∃ l, phys_flush_cache 10 100 300 = Some l ∧
    ∀ x, x ∈ l ↔ x mod 64 = 0 ∧ 100 - 100 mod 64 <= x < 100 + 300.
Proof. apply (phys_flush_cache_covers 100 300 10); cbn; lia. Defined.

(** with no free frame [map_page] still builds a table: it clears frame 0 and
    installs it as the next-level table. *)
Theorem map_page_out_of_frames :
  match map_page 0x1000000000 0x200000 3 (mk_mm ∅ 0x100000 0 0 0 0x100000 0x110000) with
  | Some (_, s') => load64 (mem s') 0x110000
  | None => 0
  end = 0 + PTE_PRESENT + PTE_WRITABLE.
Proof. vm_compute. reflexivity. Qed.
