(* ===== verification/KString.v ===== *)
(** * C strings ([klibc/string.c])

    Strings are bytes of the memory up to a NUL.  A loop that runs until a NUL is
    a fixpoint on fuel, [None] when the fuel runs out; [cstr m a l] says that the
    bytes [l] and a NUL are at [a], and the theorems give the result with any
    fuel above the length. *)

From stdpp Require Import prelude gmap list numbers tactics.
From S2P Require Import Prelude Memory.

Abbreviation mem_t := (gmap Z Z).

Fixpoint strncmp (n : nat) (m : mem_t) (str1 str2 : Z) : Z :=
  match n with
  | O => 0
  | S n =>
    if negb (load8 m str1 =? load8 m str2) then load8 m str1 - load8 m str2
    else if load8 m str1 =? 0 then 0
    else strncmp n m (str1 + 1) (str2 + 1)
  end.

Fixpoint strlen (fuel : nat) (m : mem_t) (str : Z) : option Z :=
  match fuel with
  | O => None
  | S fuel => if load8 m str =? 0 then Some 0
              else match strlen fuel m (str + 1) with Some l => Some (u64 (l + 1)) | None => None end
  end.

Fixpoint strcmp (fuel : nat) (m : mem_t) (str1 str2 : Z) : option Z :=
  match fuel with
  | O => None
  | S fuel =>
    if truthy (load8 m str1) && (load8 m str1 =? load8 m str2) then strcmp fuel m (str1 + 1) (str2 + 1)
    else Some (load8 m str1 - load8 m str2)
  end.

Definition strlcat (fuel : nat) (m : mem_t) (dst src size : Z) : option (mem_t * Z) :=
  match strlen fuel m src, strlen fuel m dst with
  | Some sl, Some dl =>
    if dl =? size then Some (m, u64 (size + sl))
    else if sl <? u64 (size - dl) then Some (memcpy m (dst + dl) src (u64 (sl + 1)), u64 (sl + dl))
    else
      let m := memcpy m (dst + dl) src (u64 (u64 (size - dl) - 1)) in
      Some (store8 m (dst + u64 (size - 1)) 0, u64 (sl + dl))
  | _, _ => None
  end.

(** [while (--n > 0) if (( *d++ = *s++) == 0) break;]: memory, [d], [s] and [n]
    at the exit. *)
Fixpoint strlcpy_loop (fuel : nat) (m : mem_t) (d s n : Z) : option (mem_t * Z * Z * Z) :=
  match fuel with
  | O => None
  | S fuel =>
    let n := u64 (n - 1) in
    if 0 <? n then
      let c := load8 m s in
      let m := store8 m d c in
      if c =? 0 then Some (m, d + 1, s + 1, n) else strlcpy_loop fuel m (d + 1) (s + 1) n
    else Some (m, d, s, n)
  end.

(** [while ( *s++);]: the final [s]. *)
Fixpoint skip_string (fuel : nat) (m : mem_t) (s : Z) : option Z :=
  match fuel with
  | O => None
  | S fuel => if load8 m s =? 0 then Some (s + 1) else skip_string fuel m (s + 1)
  end.

Definition strlcpy (fuel : nat) (m : mem_t) (dst src n : Z) : option (mem_t * Z) :=
  let size := n in
  match strlcpy_loop fuel m dst src n with
  | None => None
  | Some (m, d, s, n) =>
    if n =? 0 then
      let m := if negb (size =? 0) then store8 m d 0 else m in
      match skip_string fuel m s with
      | Some s => Some (m, u64 (s - src - 1))
      | None => None
      end
    else Some (m, u64 (s - src - 1))
  end.

(** The character argument is a [char]; 0 is NULL, in arguments and results. *)
Fixpoint strchr_loop (fuel : nat) (m : mem_t) (str chr : Z) : option Z :=
  match fuel with
  | O => None
  | S fuel =>
    if load8 m str =? 0 then Some 0
    else if load8 m str =? u8 chr then Some str
    else strchr_loop fuel m (str + 1) chr
  end.
Definition strchr (fuel : nat) (m : mem_t) (str chr : Z) : option Z :=
  if str =? 0 then Some 0 else strchr_loop fuel m str chr.

Fixpoint strswap_loop (fuel : nat) (m : mem_t) (str char1 char2 : Z) : option mem_t :=
  match fuel with
  | O => None
  | S fuel =>
    if load8 m str =? 0 then Some m
    else
      let m := if load8 m str =? u8 char1 then store8 m str (u8 char2) else m in
      strswap_loop fuel m (str + 1) char1 char2
  end.
Definition strswap (fuel : nat) (m : mem_t) (str char1 char2 : Z) : option mem_t :=
  if str =? 0 then Some m else strswap_loop fuel m str char1 char2.

Fixpoint strcount_loop (fuel : nat) (m : mem_t) (str char1 count : Z) : option Z :=
  match fuel with
  | O => None
  | S fuel =>
    if load8 m str =? 0 then Some count
    else strcount_loop fuel m (str + 1) char1 (if load8 m str =? u8 char1 then u32 (count + 1) else count)
  end.
Definition strcount (fuel : nat) (m : mem_t) (str char1 : Z) : option Z :=
  if str =? 0 then Some 0 else strcount_loop fuel m str char1 0.

(** [while ( *d != 0) d++;] *)
Fixpoint find_end (fuel : nat) (m : mem_t) (d : Z) : option Z :=
  match fuel with
  | O => None
  | S fuel => if load8 m d =? 0 then Some d else find_end fuel m (d + 1)
  end.

(** [while (( *d++ = *src++) != 0) {}] *)
Fixpoint copy_string (fuel : nat) (m : mem_t) (d src : Z) : option mem_t :=
  match fuel with
  | O => None
  | S fuel =>
    let c := load8 m src in
    let m := store8 m d c in
    if c =? 0 then Some m else copy_string fuel m (d + 1) (src + 1)
  end.

Definition strcat (fuel : nat) (m : mem_t) (dest src : Z) : option mem_t :=
  match find_end fuel m dest with Some d => copy_string fuel m d src | None => None end.

Definition strcpy (fuel : nat) (m : mem_t) (dest src : Z) : option mem_t := copy_string fuel m dest src.

(** [while (n-- != 0 && *src != 0) *d++ = *src++;] then the NUL. *)
Fixpoint strncat_loop (fuel : nat) (m : mem_t) (d src n : Z) : option mem_t :=
  match fuel with
  | O => None
  | S fuel =>
    if negb (n =? 0) && negb (load8 m src =? 0)
    then strncat_loop fuel (store8 m d (load8 m src)) (d + 1) (src + 1) (u64 (n - 1))
    else Some (store8 m d 0)
  end.
Definition strncat (fuel : nat) (m : mem_t) (dest src n : Z) : option mem_t :=
  match find_end fuel m dest with Some d => strncat_loop fuel m d src n | None => None end.

(** [while ( *a && *b && *a == *b) a++, b++;]: the final [b]. *)
Fixpoint match_here (fuel : nat) (m : mem_t) (a b : Z) : option Z :=
  match fuel with
  | O => None
  | S fuel =>
    if truthy (load8 m a) && truthy (load8 m b) && (load8 m a =? load8 m b)
    then match_here fuel m (a + 1) (b + 1)
    else Some b
  end.

Fixpoint strstr_loop (fuel inner : nat) (m : mem_t) (hpos needle : Z) : option Z :=
  match fuel with
  | O => None
  | S fuel =>
    if truthy (load8 m hpos) then
      match strlen inner m hpos, strlen inner m needle, match_here inner m hpos needle with
      | Some hl, Some nl, Some b =>
        if nl <=? hl then
          if load8 m b =? 0 then Some hpos else strstr_loop fuel inner m (hpos + 1) needle
        else Some 0
      | _, _, _ => None
      end
    else Some 0
  end.
Definition strstr (fuel : nat) (m : mem_t) (haystack needle : Z) : option Z :=
  if load8 m needle =? 0 then Some haystack else strstr_loop fuel fuel m haystack needle.

Fixpoint strpbrk_loop (fuel inner : nat) (m : mem_t) (c1 needle : Z) : option Z :=
  match fuel with
  | O => None
  | S fuel =>
    if load8 m c1 =? 0 then Some 0
    else match strchr_loop inner m needle (load8 m c1) with
         | Some 0 => strpbrk_loop fuel inner m (c1 + 1) needle
         | Some _ => Some c1
         | None => None
         end
  end.
Definition strpbrk (fuel : nat) (m : mem_t) (haystack needle : Z) : option Z :=
  strpbrk_loop fuel fuel m haystack needle.

(** [tok] is the static pointer between calls. *)
Definition strtok (fuel : nat) (m : mem_t) (tok str delim : Z) : option (mem_t * Z * Z) :=
  let start := if negb (str =? 0) then str else tok in
  if start =? 0 then Some (m, tok, 0)
  else match strpbrk fuel m start delim with
       | None => None
       | Some end_ =>
         if truthy end_ then Some (store8 m end_ 0, end_ + 1, start)
         else Some (m, 0, start)
       end.

(** [for (i = 0; i < exp; i++) res *= exp;] *)
Fixpoint ipow_loop (n : nat) (exp res : Z) : Z :=
  match n with O => res | S n => ipow_loop n exp (s32 (res * exp)) end.
Definition ipow (exp : Z) : Z := ipow_loop (Z.to_nat exp) exp 1.

(** ** Strings in memory *)

Fixpoint cstr (m : mem_t) (a : Z) (l : list Z) : Prop :=
  match l with
  | [] => load8 m a = 0
  | c :: l => load8 m a = c ∧ c ≠ 0 ∧ cstr m (a + 1) l
  end.

Lemma cstr_range m a l c : cstr m a l → c ∈ l → 0 < c < 256.
Proof.
  revert a. induction l as [|d l IH]; intros a Hs Hc; [by apply not_elem_of_nil in Hc|].
  destruct Hs as (H1 & H2 & H3). apply elem_of_cons in Hc as [->|Hc]; [|by eapply IH].
  pose proof (load8_range m a). lia.
Qed.

(** A string only depends on its own bytes. *)
Lemma cstr_ext m m' a l :
  (∀ i, a <= i <= a + Z.of_nat (length l) → load8 m' i = load8 m i) → cstr m a l → cstr m' a l.
Proof.
  revert a. induction l as [|c l IH]; intros a Hf Hs; cbn in *.
  - by rewrite Hf by lia.
  - destruct Hs as (H1 & H2 & H3). rewrite Hf by lia. split_and!; try done.
    apply IH; [|done]. intros i Hi. apply Hf. lia.
Qed.

Lemma cstr_inj m a l l' : cstr m a l → cstr m a l' → l = l'.
Proof.
  revert a l'. induction l as [|c l IH]; intros a [|d l'] Hs Hs'; cbn in *.
  - done.
  - destruct Hs' as (? & ? & _). lia.
  - destruct Hs as (? & ? & _). lia.
  - destruct Hs as (<- & _ & Hs), Hs' as (<- & _ & Hs'). f_equal. by eapply IH.
Qed.

Lemma strlen_spec fuel m a l : cstr m a l → (length l < fuel)%nat → Z.of_nat (length l) < 2 ^ 64 →
  strlen fuel m a = Some (Z.of_nat (length l)).
Proof.
  revert fuel a. induction l as [|c l IH]; intros [|fuel] a Hs Hf Hl; cbn in Hf; try lia; cbn [strlen].
  - cbn in Hs. by rewrite Hs.
  - destruct Hs as (-> & Hc & Hs). rewrite (proj2 (Z.eqb_neq c 0)) by done. cbn [length] in Hl.
    rewrite IH by (done || lia). rewrite wrap_small by lia. f_equal. cbn [length]. lia.
Qed.

Lemma find_end_spec fuel m a l : cstr m a l → (length l < fuel)%nat →
  find_end fuel m a = Some (a + Z.of_nat (length l)).
Proof.
  revert fuel a. induction l as [|c l IH]; intros [|fuel] a Hs Hf; cbn in Hf; try lia; cbn [find_end].
  - cbn in Hs. rewrite Hs. cbn. f_equal. lia.
  - destruct Hs as (-> & Hc & Hs). rewrite (proj2 (Z.eqb_neq c 0)) by done.
    rewrite IH by (done || lia). f_equal. cbn [length]. lia.
Qed.

Lemma skip_string_spec fuel m a l : cstr m a l → (length l < fuel)%nat →
  skip_string fuel m a = Some (a + Z.of_nat (length l) + 1).
Proof.
  revert fuel a. induction l as [|c l IH]; intros [|fuel] a Hs Hf; cbn in Hf; try lia; cbn [skip_string].
  - cbn in Hs. rewrite Hs. cbn. f_equal. lia.
  - destruct Hs as (-> & Hc & Hs). rewrite (proj2 (Z.eqb_neq c 0)) by done.
    rewrite IH by (done || lia). f_equal. cbn [length]. lia.
Qed.

(** ** Comparison *)

(** The difference of the first bytes that differ, NULs included. *)
Fixpoint lcmp (l1 l2 : list Z) : Z :=
  match l1, l2 with
  | [], [] => 0
  | [], d :: _ => - d
  | c :: _, [] => c
  | c :: l1, d :: l2 => if c =? d then lcmp l1 l2 else c - d
  end.

Lemma strcmp_lcmp fuel m a b l1 l2 : cstr m a l1 → cstr m b l2 → (length l1 < fuel)%nat →
  strcmp fuel m a b = Some (lcmp l1 l2).
Proof.
  revert fuel a b l2. induction l1 as [|c l1 IH]; intros [|fuel] a b l2 H1 H2 Hf; cbn in Hf; try lia; cbn [strcmp].
  - cbn in H1. rewrite H1. cbn [truthy Z.eqb negb andb]. destruct l2 as [|d l2]; cbn in H2 |- *.
    + by rewrite H2.
    + destruct H2 as (-> & _). f_equal.
  - destruct H1 as (-> & Hc & H1). rewrite (proj2 (truthy_true c)) by done. cbn [andb].
    destruct l2 as [|d l2]; cbn in H2 |- *.
    + rewrite H2, (proj2 (Z.eqb_neq c 0)) by done. f_equal. lia.
    + destruct H2 as (-> & Hd & H2). destruct (c =? d); [|done]. apply IH; [done..|lia].
Qed.

Lemma strncmp_lcmp n m a b l1 l2 : cstr m a l1 → cstr m b l2 →
  strncmp n m a b = lcmp (take n l1) (take n l2).
Proof.
  revert a b l1 l2. induction n as [|n IH]; intros a b l1 l2 H1 H2; cbn [strncmp]; [done|].
  destruct l1 as [|c l1]; cbn in H1; destruct l2 as [|d l2]; cbn in H2; cbn [take lcmp].
  - by rewrite H1, H2.
  - destruct H2 as (-> & Hd & H2). rewrite H1, (proj2 (Z.eqb_neq 0 d)) by lia. cbn. lia.
  - destruct H1 as (-> & Hc & H1). rewrite H2, (proj2 (Z.eqb_neq c 0)) by lia. cbn. lia.
  - destruct H1 as (-> & Hc & H1), H2 as (-> & Hd & H2). destruct (Z.eqb_spec c d) as [->|]; cbn [negb]; [|done].
    rewrite (proj2 (Z.eqb_neq d 0)) by done. by apply IH.
Qed.

Lemma lcmp_zero l1 l2 : (∀ c, c ∈ l1 → 0 < c) → (∀ c, c ∈ l2 → 0 < c) → lcmp l1 l2 = 0 ↔ l1 = l2.
Proof.
  revert l2. induction l1 as [|c l1 IH]; intros [|d l2] H1 H2; cbn [lcmp]; [done|..].
  - pose proof (H2 d ltac:(left)). split; [lia|done].
  - pose proof (H1 c ltac:(left)). split; [lia|done].
  - destruct (Z.eqb_spec c d) as [->|].
    + rewrite IH; [split; congruence|intros; apply H1; by right|intros; apply H2; by right].
    + split; [lia|congruence].
Qed.

Lemma lcmp_antisym l1 l2 : lcmp l2 l1 = - lcmp l1 l2.
Proof.
  revert l2. induction l1 as [|c l1 IH]; intros [|d l2]; cbn [lcmp]; [done|lia|lia|].
  rewrite (Z.eqb_sym d c). destruct (c =? d); [apply IH|lia].
Qed.

Lemma lcmp_trans l1 l2 l3 : (∀ c, c ∈ l1 → 0 < c) → (∀ c, c ∈ l2 → 0 < c) → (∀ c, c ∈ l3 → 0 < c) →
  lcmp l1 l2 <= 0 → lcmp l2 l3 <= 0 → lcmp l1 l3 <= 0.
Proof.
  revert l2 l3. induction l1 as [|c l1 IH]; intros [|d l2] [|e l3] H1 H2 H3; cbn [lcmp];
    try (pose proof (H1 c ltac:(left))); try (pose proof (H2 d ltac:(left))); try (pose proof (H3 e ltac:(left)));
    try lia.
  destruct (Z.eqb_spec c d), (Z.eqb_spec d e), (Z.eqb_spec c e); subst; try lia; try done.
  apply IH; intros; [apply H1|apply H2|apply H3]; by right.
Qed.

(** ** Copying *)

Lemma cstr_byte m a l i : cstr m a l → 0 <= i < Z.of_nat (length l) → l !! Z.to_nat i = Some (load8 m (a + i)).
Proof.
  revert a i. induction l as [|c l IH]; intros a i Hs Hi; cbn in Hi; [lia|].
  destruct Hs as (H1 & H2 & H3). destruct (Z.eq_dec i 0) as [->|].
  - rewrite Z.add_0_r, H1. done.
  - replace (Z.to_nat i) with (S (Z.to_nat (i - 1))) by lia. cbn. rewrite (IH (a + 1)) by (done || lia).
    do 2 f_equal. lia.
Qed.

Definition disjoint (a n b k : Z) : Prop := a + n <= b ∨ b + k <= a.

Lemma copy_string_spec fuel m d s l : cstr m s l → (length l < fuel)%nat →
  disjoint d (Z.of_nat (length l) + 1) s (Z.of_nat (length l) + 1) →
  ∃ m', copy_string fuel m d s = Some m' ∧ cstr m' d l ∧
    ∀ i, i < d ∨ d + Z.of_nat (length l) < i → load8 m' i = load8 m i.
Proof.
  revert fuel m d s. induction l as [|c l IH]; intros [|fuel] m d s Hs Hf Hd; cbn in Hf; try lia; cbn [copy_string].
  - cbn in Hs. rewrite Hs. cbn. eexists. split; [done|]. split; [by rewrite load8_store8_eq|].
    intros i Hi. apply load8_store8_ne. lia.
  - pose proof (cstr_range _ _ _ c Hs ltac:(left)) as Hc. destruct Hs as (-> & Hc0 & Hs).
    rewrite (proj2 (Z.eqb_neq c 0)) by done. unfold disjoint in Hd. cbn [length] in Hd.
    destruct (IH fuel (store8 m d c) (d + 1) (s + 1)) as (m' & E & Hm & Ho); [|lia|unfold disjoint; lia|].
    { eapply cstr_ext; [|exact Hs]. intros i Hi. apply load8_store8_ne. lia. }
    exists m'. split; [done|]. split.
    + cbn. rewrite Ho, load8_store8_eq, Z.mod_small by lia. done.
    + cbn [length]. intros i Hi. rewrite Ho by lia. apply load8_store8_ne. lia.
Qed.

(** The loop of [strlcpy] with room for [k] more bytes and the NUL. *)
Lemma strlcpy_loop_spec fuel m d s n l : cstr m s l → (length l < fuel)%nat → 1 <= n < 2 ^ 64 →
  disjoint d n s (Z.of_nat (length l) + 1) →
  ∃ m' d' s' n', strlcpy_loop fuel m d s n = Some (m', d', s', n') ∧
    (∀ i, i < d ∨ d' <= i → load8 m' i = load8 m i) ∧ d <= d' ∧
    ((n' ≠ 0 ∧ Z.of_nat (length l) < n - 1 ∧ s' = s + Z.of_nat (length l) + 1 ∧ cstr m' d l ∧
      d' = d + Z.of_nat (length l) + 1) ∨
     (n' = 0 ∧ n - 1 <= Z.of_nat (length l) ∧ s' = s + (n - 1) ∧ d' = d + (n - 1) ∧
      cstr m' s' (drop (Z.to_nat (n - 1)) l) ∧
      ∀ i, 0 <= i < n - 1 → load8 m' (d + i) = load8 m (s + i))).
Proof.
  revert fuel m d s n. induction l as [|c l IH]; intros [|fuel] m d s n Hs Hf Hn Hd; cbn in Hf; try lia;
    cbn [strlcpy_loop]; rewrite wrap_small by lia; cbv zeta; (destruct (Z.ltb_spec 0 (n - 1)) as [H1|H1];
      [|assert (n = 1) as -> by lia; do 4 eexists; split; [done|]; split; [done|]; split; [lia|]; right;
        split_and!; cbn [length]; try lia; cbn in *; rewrite ?Z.add_0_r; try done; intros; lia]).
  - cbn in Hs. rewrite Hs. cbn [Z.eqb]. do 4 eexists. split; [done|]. cbn [length]. split.
    { intros i Hi. apply load8_store8_ne. lia. }
    split; [lia|]. left. split_and!; [lia..|by cbn; rewrite load8_store8_eq|lia].
  - pose proof (cstr_range _ _ _ c Hs ltac:(left)) as Hc. destruct Hs as (E1 & Hc0 & Hs).
    rewrite E1, (proj2 (Z.eqb_neq c 0)) by done. unfold disjoint in Hd. cbn [length] in Hd.
    destruct (IH fuel (store8 m d c) (d + 1) (s + 1) (n - 1)) as (m' & d' & s' & n' & E & Ho & Hdd & Hr);
      [|lia|lia|unfold disjoint; lia|].
    { eapply cstr_ext; [|exact Hs]. intros i Hi. apply load8_store8_ne. lia. }
    exists m', d', s', n'. split; [done|]. split.
    { intros i Hi. rewrite Ho by lia. apply load8_store8_ne. lia. }
    split; [lia|]. cbn [length].
    assert (load8 m' d = c) as Ed by (rewrite Ho, load8_store8_eq, Z.mod_small by lia; done).
    destruct Hr as [(R1 & R2 & R3 & R4 & R5)|(R1 & R2 & R3 & R4 & R5 & R6)]; [left|right].
    + split_and!; try lia. by cbn.
    + split_and!; try lia.
      * replace (Z.to_nat (n - 1)) with (S (Z.to_nat (n - 1 - 1))) by lia. done.
      * intros i Hi. destruct (Z.eq_dec i 0) as [->|]; [rewrite !Z.add_0_r; congruence|].
        replace (d + i) with (d + 1 + (i - 1)) by lia. rewrite R6 by lia.
        rewrite load8_store8_ne by lia. f_equal. lia.
Qed.

(** A string from its bytes. *)
Lemma cstr_intro m a l : (∀ c, c ∈ l → c ≠ 0) →
  (∀ i, 0 <= i < Z.of_nat (length l) → l !! Z.to_nat i = Some (load8 m (a + i))) →
  load8 m (a + Z.of_nat (length l)) = 0 → cstr m a l.
Proof.
  revert a. induction l as [|c l IH]; intros a Hn Hb He; [cbn in *; by rewrite Z.add_0_r in He|].
  cbn [length] in *. pose proof (Hb 0 ltac:(lia)) as H0. rewrite Z.add_0_r in H0. injection H0 as H0.
  split; [done|]. split; [apply Hn; left|]. apply IH.
  - intros d Hd. apply Hn. by right.
  - intros i Hi. specialize (Hb (i + 1) ltac:(lia)). replace (Z.to_nat (i + 1)) with (S (Z.to_nat i)) in Hb by lia.
    change (l !! Z.to_nat i = Some (load8 m (a + (i + 1)))) in Hb. rewrite Hb. do 2 f_equal. lia.
  - rewrite <- He. f_equal. lia.
Qed.

Lemma cstr_nonzero m a l c : cstr m a l → c ∈ l → c ≠ 0.
Proof. intros Hs Hc. pose proof (cstr_range _ _ _ _ Hs Hc). lia. Qed.

(** A copy of the first [k] bytes with a NUL behind is the truncated string. *)
Lemma cstr_take m m' a b l k : cstr m b l → 0 <= k <= Z.of_nat (length l) →
  (∀ i, 0 <= i < k → load8 m' (a + i) = load8 m (b + i)) → load8 m' (a + k) = 0 →
  cstr m' a (take (Z.to_nat k) l).
Proof.
  intros Hs Hk Hc He. assert (length (take (Z.to_nat k) l) = Z.to_nat k) as El by (rewrite length_take; lia).
  apply cstr_intro.
  - intros c Hin. eapply cstr_nonzero; [exact Hs|]. rewrite <- (take_drop (Z.to_nat k) l). apply elem_of_app. by left.
  - rewrite El. intros i Hi. rewrite lookup_take_lt by lia. rewrite Hc by lia. apply cstr_byte; [done|lia].
  - rewrite El. by replace (a + Z.of_nat (Z.to_nat k)) with (a + k) by lia.
Qed.

Lemma strlcpy_spec fuel m dst src n l : cstr m src l → (length l < fuel)%nat →
  1 <= n < 2 ^ 64 → disjoint dst n src (Z.of_nat (length l) + 1) → Z.of_nat (length l) < 2 ^ 64 →
  ∃ m', strlcpy fuel m dst src n = Some (m', Z.of_nat (length l)) ∧
    cstr m' dst (take (Z.to_nat (n - 1)) l) ∧ ∀ i, i < dst ∨ dst + n <= i → load8 m' i = load8 m i.
Proof.
  intros Hs Hf Hn Hd Hl. unfold strlcpy.
  destruct (strlcpy_loop_spec fuel m dst src n l Hs Hf Hn Hd) as (m' & d' & s' & n' & -> & Ho & Hdd & Hr).
  destruct Hr as [(R1 & R2 & -> & R4 & ->)|(-> & R2 & -> & -> & R5 & R6)].
  - rewrite (proj2 (Z.eqb_neq n' 0)) by done. exists m'.
    replace (src + Z.of_nat (length l) + 1 - src - 1) with (Z.of_nat (length l)) by lia.
    rewrite wrap_small by lia. split; [done|]. split; [by rewrite take_ge by lia|]. intros i Hi. apply Ho. lia.
  - cbn [Z.eqb]. rewrite (proj2 (Z.eqb_neq n 0)) by lia. cbn [negb].
    set (m2 := store8 m' (dst + (n - 1)) 0). unfold disjoint in Hd.
    erewrite (skip_string_spec fuel m2).
    + exists m2. rewrite length_drop.
      replace (src + (n - 1) + Z.of_nat (length l - Z.to_nat (n - 1)) + 1 - src - 1) with (Z.of_nat (length l)) by lia.
      rewrite wrap_small by lia. split; [done|]. split.
      * eapply cstr_take; [exact Hs|lia| |unfold m2; by rewrite load8_store8_eq].
        intros i Hi. unfold m2. rewrite load8_store8_ne by lia. by apply R6.
      * intros i Hi. unfold m2. rewrite load8_store8_ne by lia. apply Ho. lia.
    + eapply cstr_ext; [|exact R5]. intros i Hi. rewrite length_drop in Hi. apply load8_store8_ne. lia.
    + rewrite length_drop. lia.
Qed.

Lemma cstr_app_intro m a l1 l2 : cstr m (a + Z.of_nat (length l1)) l2 → (∀ c, c ∈ l1 → c ≠ 0) →
  (∀ i, 0 <= i < Z.of_nat (length l1) → l1 !! Z.to_nat i = Some (load8 m (a + i))) → cstr m a (l1 ++ l2).
Proof.
  revert a. induction l1 as [|c l1 IH]; intros a Hs Hn Hb; [cbn in *; by rewrite Z.add_0_r in Hs|].
  cbn [length app] in *. pose proof (Hb 0 ltac:(lia)) as H0. rewrite Z.add_0_r in H0. injection H0 as H0.
  split; [done|]. split; [apply Hn; left|]. apply IH.
  - by replace (a + 1 + Z.of_nat (length l1)) with (a + Z.of_nat (S (length l1))) by lia.
  - intros d Hd. apply Hn. by right.
  - intros i Hi. specialize (Hb (i + 1) ltac:(lia)). replace (Z.to_nat (i + 1)) with (S (Z.to_nat i)) in Hb by lia.
    change (l1 !! Z.to_nat i = Some (load8 m (a + (i + 1)))) in Hb. rewrite Hb. do 2 f_equal. lia.
Qed.

Lemma strlcat_spec fuel m dst src size ld ls : cstr m dst ld → cstr m src ls →
  (length ld < fuel)%nat → (length ls < fuel)%nat → Z.of_nat (length ld) < size < 2 ^ 63 →
  Z.of_nat (length ls) < 2 ^ 63 → disjoint dst size src (Z.of_nat (length ls) + 1) →
  ∃ m', strlcat fuel m dst src size = Some (m', Z.of_nat (length ld) + Z.of_nat (length ls)) ∧
    cstr m' dst (ld ++ take (Z.to_nat (size - Z.of_nat (length ld) - 1)) ls) ∧
    ∀ i, i < dst ∨ dst + size <= i → load8 m' i = load8 m i.
Proof.
  intros Hd Hs Hf1 Hf2 Hsz Hl Hdis. unfold strlcat, disjoint in *.
  rewrite (strlen_spec fuel m src ls), (strlen_spec fuel m dst ld) by (done || lia).
  set (dl := Z.of_nat (length ld)) in *. set (sl := Z.of_nat (length ls)) in *.
  rewrite (proj2 (Z.eqb_neq dl size)) by lia. rewrite (wrap_small 64 (size - dl)) by lia.
  rewrite !(wrap_small 64 (sl + dl)) by lia. rewrite (Z.add_comm dl sl).
  assert (∀ m' k, (∀ i, i < dst + dl ∨ dst + size <= i → load8 m' i = load8 m i) →
    cstr m' (dst + dl) (take k ls) → cstr m' dst (ld ++ take k ls)) as Happ.
  { intros m' k Ho Hc. apply cstr_app_intro; [done|intros c; by apply (cstr_nonzero m dst)|].
    intros i Hi. rewrite Ho by lia. by apply cstr_byte. }
  destruct (Z.ltb_spec sl (size - dl)) as [Hlt|Hge].
  - rewrite wrap_small by lia. eexists. split; [done|].
    destruct (memcpy_spec m (dst + dl) src (sl + 1)) as [Hin Hout]; [lia..|]. split.
    + apply Happ; [intros i Hi; apply Hout; lia|].
      rewrite take_ge by lia. eapply (cstr_take m _ (dst + dl) src ls sl) in Hs; try lia.
      * rewrite take_ge in Hs by lia. exact Hs.
      * intros i Hi. apply Hin. lia.
      * rewrite Hin by lia. clear -Hs. assert (∀ l b, cstr m b l → load8 m (b + Z.of_nat (length l)) = 0) as He.
        { induction l as [|c l IH]; intros b Hc; cbn in *; [by rewrite Z.add_0_r|]. destruct Hc as (_ & _ & Hc).
          rewrite <- (IH _ Hc). f_equal. lia. }
        by apply He.
    + intros i Hi. apply Hout. lia.
  - rewrite (wrap_small 64 (size - dl - 1)), (wrap_small 64 (size - 1)) by lia. eexists. split; [done|].
    destruct (memcpy_spec m (dst + dl) src (size - dl - 1)) as [Hin Hout]; [lia..|]. split.
    + apply Happ; [intros i Hi; rewrite load8_store8_ne by lia; apply Hout; lia|].
      eapply cstr_take; [exact Hs|lia| |].
      * intros i Hi. rewrite load8_store8_ne by lia. apply Hin. lia.
      * replace (dst + dl + (size - dl - 1)) with (dst + (size - 1)) by lia. by rewrite load8_store8_eq.
    + intros i Hi. rewrite load8_store8_ne by lia. apply Hout. lia.
Qed.

(** ** Searching *)

Lemma match_here_spec fuel m a b la lb : cstr m a la → cstr m b lb → (length lb < fuel)%nat →
  ∃ b', match_here fuel m a b = Some b' ∧ (load8 m b' = 0 ↔ lb `prefix_of` la).
Proof.
  revert fuel a b la. induction lb as [|d lb IH]; intros [|fuel] a b la Ha Hb Hf; cbn in Hf; try lia; cbn [match_here].
  - cbn in Hb. rewrite Hb. cbn [truthy Z.eqb negb]. rewrite andb_false_r. cbn [andb]. exists b.
    split; [done|]. split; [intros _; apply prefix_nil|done].
  - destruct Hb as (E & Hd & Hb). destruct la as [|c la]; cbn in Ha.
    + rewrite Ha. cbn [truthy Z.eqb negb andb]. exists b. split; [done|]. rewrite E. split; [done|].
      intros H. by apply prefix_nil_inv in H.
    + destruct Ha as (-> & Hc & Ha). rewrite E, (proj2 (truthy_true c)), (proj2 (truthy_true d)) by done.
      cbn [andb]. destruct (Z.eqb_spec c d) as [->|Hne].
      * destruct (IH fuel (a + 1) (b + 1) la Ha Hb ltac:(lia)) as (b' & -> & Hp). exists b'. split; [done|].
        rewrite Hp. split; [apply prefix_cons|apply prefix_cons_inv_2].
      * exists b. split; [done|]. rewrite E. split; [done|]. intros H%prefix_cons_inv_1. congruence.
Qed.

(** The first position of [needle] in [l], as an index. *)
Definition first_at (l needle : list Z) (i : nat) : Prop :=
  needle `prefix_of` drop i l ∧ ∀ j, (j < i)%nat → ¬ needle `prefix_of` drop j l.

Lemma strstr_loop_spec fuel inner m h nd lh ln : cstr m h lh → cstr m nd ln → ln ≠ [] →
  (length lh < fuel)%nat → (length lh < inner)%nat → (length ln < inner)%nat →
  Z.of_nat (length lh) < 2 ^ 64 → Z.of_nat (length ln) < 2 ^ 64 →
  ∃ r, strstr_loop fuel inner m h nd = Some r ∧
    ((r = 0 ∧ ∀ i, ¬ ln `prefix_of` drop i lh) ∨ ∃ i, r = h + Z.of_nat i ∧ first_at lh ln i).
Proof.
  intros Hh Hn Hne. revert fuel h Hh. induction lh as [|c lh IH]; intros [|fuel] h Hh Hf Hi1 Hi2 Hl1 Hl2;
    cbn [length] in Hf, Hi1, Hl1; try lia; cbn [strstr_loop].
  - cbn in Hh. rewrite Hh. cbn. exists 0. split; [done|]. left. split; [done|]. intros i Hp.
    rewrite drop_nil in Hp. by apply prefix_nil_inv in Hp.
  - pose proof Hh as (Ec & Hc & Hh'). rewrite Ec, (proj2 (truthy_true c)) by done.
    rewrite (strlen_spec inner m h (c :: lh)), (strlen_spec inner m nd ln) by (done || cbn; lia).
    destruct (match_here_spec inner m h nd (c :: lh) ln Hh Hn Hi2) as (b & -> & Hb).
    assert (∀ i, ln `prefix_of` drop i (c :: lh) → (length ln <= S (length lh))%nat) as Hlen.
    { intros i Hp. apply prefix_length in Hp. rewrite length_drop in Hp. cbn in Hp. lia. }
    destruct (Z.leb_spec (Z.of_nat (length ln)) (Z.of_nat (length (c :: lh)))) as [Hle|Hgt].
    + destruct (Z.eqb_spec (load8 m b) 0) as [E0|E0].
      * exists h. split; [done|]. right. exists 0%nat. split; [lia|]. split; [by apply Hb|]. intros; lia.
      * destruct (IH fuel (h + 1) Hh') as (r & -> & Hr); [lia..|]. exists r. split; [done|].
        destruct Hr as [[-> Hr]|(i & -> & Hp & Hq)].
        -- left. split; [done|]. intros [|i] Hp; [apply E0; by apply Hb|by apply (Hr i)].
        -- right. exists (S i). split; [lia|]. split; [done|]. intros [|j] Hj Hx; [apply E0; by apply Hb|].
           apply (Hq j); [lia|exact Hx].
    + exists 0. split; [done|]. left. split; [done|]. intros i Hp. apply Hlen in Hp. cbn [length] in Hgt. lia.
Qed.

(** ** Properties *)

(** [strcmp] compares byte strings lexicographically: it terminates, is 0
    exactly on equal strings, antisymmetric and transitive in its sign, and
    [strncmp] is the same comparison of the first [n] bytes. *)
Theorem strcmp_order fuel m a b c l1 l2 l3 n :
  cstr m a l1 → cstr m b l2 → cstr m c l3 → (length l1 < fuel)%nat → (length l2 < fuel)%nat →
  ∃ x y z, strcmp fuel m a b = Some x ∧ strcmp fuel m b a = Some y ∧ strcmp fuel m a c = Some z ∧
    (x = 0 ↔ l1 = l2) ∧ y = - x ∧
    (x <= 0 → ∀ w, strcmp fuel m b c = Some w → w <= 0 → z <= 0) ∧
    strncmp n m a b = lcmp (take n l1) (take n l2).
Proof.
  intros H1 H2 H3 Hf1 Hf2. exists (lcmp l1 l2), (lcmp l2 l1), (lcmp l1 l3).
  assert (∀ d x l, cstr m x l → d ∈ l → 0 < d) as Hpos by (intros d x l Hl Hd; by apply (cstr_range m x l d Hl Hd)).
  split_and!; try by apply strcmp_lcmp.
  - apply lcmp_zero; eauto.
  - apply lcmp_antisym.
  - intros Hx w Hw Hw0. rewrite (strcmp_lcmp fuel m b c l2 l3 H2 H3 Hf2) in Hw. injection Hw as <-.
    eapply (lcmp_trans l1 l2 l3); eauto.
  - by apply strncmp_lcmp.
Qed.

(** A memory with "ab", "ac" and "b" at 0x10, 0x20 and 0x30. *)
Definition str_demo : mem_t :=
  store8 (store8 (store8 (store8 (store8 ∅ 0x10 97) 0x11 98) 0x20 97) 0x21 99) 0x30 98.

Lemma strcmp_order_witness : ∃ x y z, strcmp 5 str_demo 0x10 0x20 = Some x ∧
  strcmp 5 str_demo 0x20 0x10 = Some y ∧ strcmp 5 str_demo 0x10 0x30 = Some z ∧
  (x = 0 ↔ [97; 98] = [97; 99]) ∧ y = - x ∧
  (x <= 0 → ∀ w, strcmp 5 str_demo 0x20 0x30 = Some w → w <= 0 → z <= 0) ∧
  strncmp 1 str_demo 0x10 0x20 = lcmp (take 1 [97; 98]) (take 1 [97; 99]).
Proof.
  apply (strcmp_order 5 str_demo 0x10 0x20 0x30 [97; 98] [97; 99] [98] 1);
    try (vm_compute; intuition discriminate); cbn; lia.
Defined.

(** for a buffer of [n >= 1] bytes [strlcpy] terminates, stores the longest
    prefix that fits with a NUL, never writes outside of the buffer and returns
    the length of the source. *)
Theorem strlcpy_correct fuel m dst src n l : cstr m src l → (length l < fuel)%nat →
  1 <= n < 2 ^ 64 → disjoint dst n src (Z.of_nat (length l) + 1) → Z.of_nat (length l) < 2 ^ 64 →
  ∃ m', strlcpy fuel m dst src n = Some (m', Z.of_nat (length l)) ∧
    cstr m' dst (take (Z.to_nat (n - 1)) l) ∧ ∀ i, i < dst ∨ dst + n <= i → load8 m' i = load8 m i.
Proof. apply strlcpy_spec. Qed.

Lemma strlcpy_correct_witness : ∃ m', strlcpy 5 str_demo 0x40 0x10 2 = Some (m', 2) ∧ cstr m' 0x40 [97] ∧
  ∀ i, i < 0x40 ∨ 0x40 + 2 <= i → load8 m' i = load8 str_demo i.
Proof.
  apply (strlcpy_correct 5 str_demo 0x40 0x10 2 [97; 98]);
    [vm_compute; intuition discriminate|cbn; lia|lia|right; cbn; lia|cbn; lia].
Defined.

(** when the destination holds a string shorter than [size], [strlcat]
    appends the longest prefix of the source that fits, keeps the NUL inside of
    the buffer and returns the length of the full concatenation. *)
Theorem strlcat_correct fuel m dst src size ld ls : cstr m dst ld → cstr m src ls →
  (length ld < fuel)%nat → (length ls < fuel)%nat → Z.of_nat (length ld) < size < 2 ^ 63 →
  Z.of_nat (length ls) < 2 ^ 63 → disjoint dst size src (Z.of_nat (length ls) + 1) →
  ∃ m', strlcat fuel m dst src size = Some (m', Z.of_nat (length ld) + Z.of_nat (length ls)) ∧
    cstr m' dst (ld ++ take (Z.to_nat (size - Z.of_nat (length ld) - 1)) ls) ∧
    ∀ i, i < dst ∨ dst + size <= i → load8 m' i = load8 m i.
Proof. apply strlcat_spec. Qed.

Lemma strlcat_correct_witness : ∃ m', strlcat 5 str_demo 0x30 0x10 3 = Some (m', 3) ∧ cstr m' 0x30 [98; 97] ∧
  ∀ i, i < 0x30 ∨ 0x30 + 3 <= i → load8 m' i = load8 str_demo i.
Proof.
  apply (strlcat_correct 5 str_demo 0x30 0x10 3 [98] [97; 98]);
    try (vm_compute; intuition discriminate); try (cbn; lia).
Defined.

(** [strstr] terminates and returns the first position at which the needle
    occurs, the start of the haystack for an empty needle, and NULL when it does
    not occur. *)
Theorem strstr_correct fuel m h nd lh ln : cstr m h lh → cstr m nd ln →
  (length lh < fuel)%nat → (length ln < fuel)%nat →
  Z.of_nat (length lh) < 2 ^ 64 → Z.of_nat (length ln) < 2 ^ 64 →
  ∃ r, strstr fuel m h nd = Some r ∧
    ((r = 0 ∧ ∀ i, ¬ ln `prefix_of` drop i lh) ∨ ∃ i, r = h + Z.of_nat i ∧ first_at lh ln i).
Proof.
  intros Hh Hn Hf1 Hf2 Hl1 Hl2. unfold strstr. destruct ln as [|d ln].
  - cbn in Hn. rewrite Hn. exists h. split; [done|]. right. exists 0%nat. split; [lia|].
    split; [apply prefix_nil|intros; lia].
  - pose proof Hn as (E & Hd & _). rewrite E, (proj2 (Z.eqb_neq d 0)) by done.
    by apply strstr_loop_spec.
Qed.

Lemma strstr_correct_witness : ∃ r, strstr 5 str_demo 0x10 0x30 = Some r ∧
  ((r = 0 ∧ ∀ i, ¬ [98] `prefix_of` drop i [97; 98]) ∨ ∃ i, r = 0x10 + Z.of_nat i ∧ first_at [97; 98] [98] i).
Proof.
  apply (strstr_correct 5 str_demo 0x10 0x30 [97; 98] [98]);
    try (vm_compute; intuition discriminate); cbn; lia.
Defined.

(** with a buffer size of 0 [strlcpy] does not stop at the buffer: the counter
    wraps and the whole source is copied. *)
Theorem strlcpy_zero_overflows :
  match strlcpy 5 str_demo 0x40 0x10 0 with
  | Some (m', r) => load8 m' 0x40 = 97 ∧ load8 m' 0x41 = 98 ∧ r = 2
  | None => False
  end.
Proof. vm_compute. auto. Qed.

(** when the destination string is longer than [size], the subtraction in
    [strlcat] wraps and the source is appended beyond the buffer. *)
Theorem strlcat_long_dst_overflows :
  match strlcat 5 str_demo 0x10 0x30 1 with
  | Some (m', r) => load8 m' 0x12 = 98 ∧ r = 3
  | None => False
  end.
Proof. vm_compute. auto. Qed.

(** [ipow] raises its argument to itself (27 for 3) and wraps at 32 bits. *)
Theorem ipow_self_power exp : 0 <= exp → ipow exp = s32 (exp ^ exp).
Proof.
  intros He. destruct (Z.eq_dec exp 0) as [->|Hne]; [done|]. unfold ipow.
  assert (∀ n r, ipow_loop (S n) exp r = s32 (r * exp ^ Z.of_nat (S n))) as H.
  { induction n as [|n IH]; intros r.
    - cbn [ipow_loop]. by rewrite Z.pow_1_r.
    - change (ipow_loop (S (S n)) exp r) with (ipow_loop (S n) exp (s32 (r * exp))). rewrite IH.
      rewrite (Nat2Z.inj_succ (S n)), Z.pow_succ_r by lia. unfold swrap.
      set (p := exp ^ Z.of_nat (S n)). f_equal.
      rewrite <- Zplus_mod_idemp_l, <- Zmult_mod_idemp_l.
      replace (((r * exp + 2 ^ (32 - 1)) mod 2 ^ 32 - 2 ^ (32 - 1)) mod 2 ^ 32) with ((r * exp) mod 2 ^ 32)
        by (rewrite Zminus_mod_idemp_l; f_equal; lia).
      rewrite Zmult_mod_idemp_l, Zplus_mod_idemp_l. f_equal. lia. }
  replace (Z.to_nat exp) with (S (Z.to_nat (exp - 1))) by lia. rewrite H. do 2 f_equal.
  rewrite Z.mul_1_l. f_equal. lia.
Qed.

Lemma ipow_self_power_witness : ipow 3 = s32 (3 ^ 3).
Proof. apply (ipow_self_power 3). lia. Defined.
