(* ===== verification/KStdlib.v ===== *)
(** * Number conversion, searching and sorting ([klibc/stdlib.c])

    The allocator wrappers of the same file are in [KHeap].  Loops without a
    bound of their own are fixpoints on fuel, [None] when it runs out.  The
    comparison callback of [bsearch] and [qsort] is an argument: it receives the
    memory and the two pointers. *)

From stdpp Require Import prelude gmap list numbers tactics.
From S2P Require Import Prelude Memory KString.

Fixpoint memset_pattern_loop (n : nat) (m : mem_t) (p pat pattern_size pat_idx : Z) : mem_t :=
  match n with
  | O => m
  | S n => memset_pattern_loop n (store8 m p (load8 m (pat + pat_idx))) (p + 1) pat pattern_size
             ((pat_idx + 1) mod pattern_size)
  end.
Definition memset_pattern (m : mem_t) (ptr pattern pattern_size num : Z) : mem_t :=
  memset_pattern_loop (Z.to_nat num) m ptr pattern pattern_size 0.

(** ** [itoa] *)

Definition digit_char (rem : Z) : Z := u8 (if 9 <? rem then rem - 10 + 97 else rem + 48).

(** [while (value != 0) { rem = value % base; str[i++] = ...; value = value / base; }]:
    [base] is unsigned, so [value] is converted to unsigned for both divisions. *)
Fixpoint itoa_digits (fuel : nat) (m : mem_t) (str i value base : Z) : option (mem_t * Z) :=
  if value =? 0 then Some (m, i)
  else match fuel with
  | O => None
  | S fuel =>
    let rem := s32 (u32 value mod base) in
    itoa_digits fuel (store8 m (str + i) (digit_char rem)) str (i + 1) (s32 (u32 value / base)) base
  end.

(** [while (start < end) swap(str[start++], str[end--])] *)
Fixpoint reverse_loop (fuel : nat) (m : mem_t) (str start end_ : Z) : option mem_t :=
  if start <? end_ then
    match fuel with
    | O => None
    | S fuel =>
      let temp := load8 m (str + start) in
      let m := store8 m (str + start) (load8 m (str + end_)) in
      reverse_loop fuel (store8 m (str + end_) temp) str (start + 1) (end_ - 1)
    end
  else Some m.

Definition itoa (fuel : nat) (m : mem_t) (value str base : Z) : option mem_t :=
  if value =? 0 then Some (store8 (store8 m str 48) (str + 1) 0)
  else
    let isNegative := (value <? 0) && (base =? 10) in
    let value := if isNegative then s32 (- value) else value in
    match itoa_digits fuel m str 0 value base with
    | None => None
    | Some (m, i) =>
      let '(m, i) := if isNegative then (store8 m (str + i) 45, i + 1) else (m, i) in
      let m := store8 m (str + i) 0 in
      reverse_loop fuel m str 0 (i - 1)
    end.

(** ** [atoi] and its relatives *)

(** [while ( *str == ' ' || *str == '\t' || *str == '\n') str++;] *)
Fixpoint skip_space (fuel : nat) (m : mem_t) (str : Z) : option Z :=
  match fuel with
  | O => None
  | S fuel =>
    if (load8 m str =? 32) || (load8 m str =? 9) || (load8 m str =? 10) then skip_space fuel m (str + 1)
    else Some str
  end.

(** The sign and the pointer behind it. *)
Definition read_sign (m : mem_t) (str : Z) : Z * Z :=
  if load8 m str =? 45 then (-1, str + 1)
  else if load8 m str =? 43 then (1, str + 1)
  else (1, str).

(** The digit loop at the width [w] of the result type. *)
Fixpoint read_decimal (fuel : nat) (w : Z) (m : mem_t) (str result : Z) : option Z :=
  match fuel with
  | O => None
  | S fuel =>
    if (48 <=? load8 m str) && (load8 m str <=? 57)
    then read_decimal fuel w m (str + 1) (swrap w (result * 10 + (load8 m str - 48)))
    else Some result
  end.

Definition ato (w : Z) (fuel : nat) (m : mem_t) (str : Z) : option Z :=
  match skip_space fuel m str with
  | None => None
  | Some str =>
    let '(sign, str) := read_sign m str in
    match read_decimal fuel w m str 0 with
    | Some result => Some (swrap w (sign * result))
    | None => None
    end
  end.

Definition atoi : nat → mem_t → Z → option Z := ato 32.
Definition atol : nat → mem_t → Z → option Z := ato 64.
Definition atoll : nat → mem_t → Z → option Z := ato 64.

(** ** [strtol] *)

Definition strtol_base (m : mem_t) (str base : Z) : Z * Z :=
  let is_x := (load8 m (str + 1) =? 120) || (load8 m (str + 1) =? 88) in
  if base =? 0 then
    if load8 m str =? 48 then (if is_x then (16, str + 2) else (8, str + 1))
    else (10, str)
  else if (base =? 16) && (load8 m str =? 48) && is_x then (base, str + 2)
  else (base, str).

Definition char_digit (c : Z) : option Z :=
  if (48 <=? c) && (c <=? 57) then Some (c - 48)
  else if (97 <=? c) && (c <=? 122) then Some (c - 97 + 10)
  else if (65 <=? c) && (c <=? 90) then Some (c - 65 + 10)
  else None.

Fixpoint read_digits (fuel : nat) (m : mem_t) (str base result : Z) : option (Z * Z) :=
  match fuel with
  | O => None
  | S fuel =>
    if load8 m str =? 0 then Some (result, str)
    else match char_digit (load8 m str) with
         | None => Some (result, str)
         | Some digit =>
           if base <=? digit then Some (result, str)
           else read_digits fuel m (str + 1) base (s64 (result * base + digit))
         end
  end.

(** The memory after [if (endptr) *endptr = (char * )str] and the value. *)
Definition strtol (fuel : nat) (m : mem_t) (str endptr base : Z) : option (mem_t * Z) :=
  match skip_space fuel m str with
  | None => None
  | Some str =>
    let '(sign, str) := read_sign m str in
    let '(base, str) := strtol_base m str base in
    match read_digits fuel m str base 0 with
    | Some (result, str) =>
      Some (if endptr =? 0 then m else store64 m endptr str, s64 (sign * result))
    | None => None
    end
  end.
Definition strtoul (fuel : nat) (m : mem_t) (str endptr base : Z) : option (mem_t * Z) :=
  match strtol fuel m str endptr base with Some (m, v) => Some (m, u64 v) | None => None end.
Definition strtoll : nat → mem_t → Z → Z → Z → option (mem_t * Z) := strtol.
Definition strtoull : nat → mem_t → Z → Z → Z → option (mem_t * Z) := strtoul.

(** ** [bsearch] and [qsort] *)

Fixpoint swap_bytes (size : nat) (m : mem_t) (a b : Z) : mem_t :=
  match size with
  | O => m
  | S size =>
    let temp := load8 m a in
    let m := store8 m a (load8 m b) in
    swap_bytes size (store8 m b temp) (a + 1) (b + 1)
  end.

Fixpoint bsearch_loop (fuel : nat) (compar : Z → Z → Z) (key base num size : Z) : option Z :=
  if 0 <? num then
    match fuel with
    | O => None
    | S fuel =>
      let pivot := base + num / 2 * size in
      let result := compar key pivot in
      if result =? 0 then Some pivot
      else if 0 <? result then bsearch_loop fuel compar key (pivot + size) (num - num / 2 - 1) size
      else bsearch_loop fuel compar key base (num / 2) size
    end
  else Some 0.
Definition bsearch (compar : Z → Z → Z) (key base num size : Z) : option Z :=
  bsearch_loop (Z.to_nat num) compar key base num size.

(** [while (compar(p, pivot) < 0) p += step] with the sign of the comparison. *)
Fixpoint scan (fuel : nat) (compar : mem_t → Z → Z → Z) (m : mem_t) (sign p pivot step : Z) : option Z :=
  match fuel with
  | O => None
  | S fuel => if sign * compar m p pivot <? 0 then scan fuel compar m sign (p + step) pivot step else Some p
  end.

Fixpoint partition (fuel : nat) (compar : mem_t → Z → Z → Z) (m : mem_t) (left_ right_ pivot size : Z) :
    option (mem_t * Z * Z) :=
  if left_ <=? right_ then
    match fuel with
    | O => None
    | S fuel =>
      match scan fuel compar m 1 left_ pivot size, scan fuel compar m (-1) right_ pivot (- size) with
      | Some left_, Some right_ =>
        if left_ <=? right_ then
          let m := if left_ =? right_ then m else swap_bytes (Z.to_nat size) m left_ right_ in
          partition fuel compar m (left_ + size) (right_ - size) pivot size
        else partition fuel compar m left_ right_ pivot size
      | _, _ => None
      end
    end
  else Some (m, left_, right_).

Fixpoint qsort (fuel : nat) (compar : mem_t → Z → Z → Z) (m : mem_t) (base num size : Z) : option mem_t :=
  if num <? 2 then Some m
  else match fuel with
  | O => None
  | S fuel =>
    let arr := base in
    let last := arr + (num - 1) * size in
    match partition fuel compar m arr last (arr + num / 2 * size) size with
    | None => None
    | Some (m, left_, right_) =>
      match (if arr <? right_ then qsort fuel compar m arr ((right_ - arr) / size + 1) size else Some m) with
      | None => None
      | Some m =>
        if left_ <? last then qsort fuel compar m left_ ((last - left_) / size + 1) size else Some m
      end
    end
  end.

(** ** Bytes of a buffer *)

Fixpoint bytes (m : mem_t) (a : Z) (l : list Z) : Prop :=
  match l with
  | [] => True
  | c :: l => load8 m a = c ∧ bytes m (a + 1) l
  end.

Lemma bytes_ext m m' a l :
  (∀ i, a <= i < a + Z.of_nat (length l) → load8 m' i = load8 m i) → bytes m a l → bytes m' a l.
Proof.
  revert a. induction l as [|c l IH]; intros a Hf Hs; cbn in *; [done|].
  destruct Hs as (H1 & H2). rewrite Hf by lia. split; [done|].
  apply IH; [|done]. intros i Hi. apply Hf. lia.
Qed.

Lemma bytes_app m a l1 l2 : bytes m a (l1 ++ l2) ↔ bytes m a l1 ∧ bytes m (a + Z.of_nat (length l1)) l2.
Proof.
  revert a. induction l1 as [|c l1 IH]; intros a; cbn [app bytes length].
  - rewrite Z.add_0_r. tauto.
  - rewrite IH. replace (a + 1 + Z.of_nat (length l1)) with (a + Z.of_nat (S (length l1))) by lia. tauto.
Qed.

Lemma bytes_cstr m a l : bytes m a l → (∀ c, c ∈ l → c ≠ 0) → load8 m (a + Z.of_nat (length l)) = 0 → cstr m a l.
Proof.
  revert a. induction l as [|c l IH]; intros a Hb Hn He; cbn in *; [by rewrite Z.add_0_r in He|].
  destruct Hb as [H1 H2]. split; [done|]. split; [apply Hn; left|]. apply IH; [done|intros; apply Hn; by right|].
  rewrite <- He. f_equal. lia.
Qed.

Lemma reverse_loop_spec fuel m str start l : bytes m (str + start) l → (length l <= fuel)%nat →
  ∃ m', reverse_loop fuel m str start (start + Z.of_nat (length l) - 1) = Some m' ∧
    bytes m' (str + start) (reverse l) ∧
    ∀ i, i < str + start ∨ str + start + Z.of_nat (length l) <= i → load8 m' i = load8 m i.
Proof.
  remember (length l) as k eqn:Ek. revert fuel m start l Ek.
  induction (lt_wf k) as [k _ IH]. intros fuel m start l Ek Hb Hf.
  destruct l as [|x l].
  { cbn in Ek. subst k. destruct fuel; cbn [reverse_loop]; rewrite (proj2 (Z.ltb_ge _ _)) by lia; by exists m. }
  destruct l as [|y mid _] using rev_ind.
  { cbn in Ek. subst k. destruct fuel; cbn [reverse_loop]; rewrite (proj2 (Z.ltb_ge _ _)) by lia; by exists m. }
  cbn [length] in Ek. rewrite length_app in Ek. cbn in Ek. destruct fuel as [|fuel]; [lia|]. cbn [reverse_loop].
  rewrite (proj2 (Z.ltb_lt _ _)) by lia.
  destruct Hb as [Hx Hb]. apply bytes_app in Hb as [Hm [Hy _]].
  replace (str + start + 1 + Z.of_nat (length mid)) with (str + (start + Z.of_nat k - 1)) in Hy by lia.
  pose proof (load8_range m (str + start)). pose proof (load8_range m (str + (start + Z.of_nat k - 1))).
  set (m1 := store8 (store8 m (str + start) (load8 m (str + (start + Z.of_nat k - 1))))
                    (str + (start + Z.of_nat k - 1)) (load8 m (str + start))).
  destruct (IH (length mid) ltac:(lia) fuel m1 (start + 1) mid eq_refl) as (m' & E & Hm' & Ho); [|lia|].
  { replace (str + (start + 1)) with (str + start + 1) by lia. eapply bytes_ext; [|exact Hm].
    intros i Hi. unfold m1. rewrite !load8_store8_ne by lia. done. }
  exists m'. replace (start + Z.of_nat k - 1 - 1) with (start + 1 + Z.of_nat (length mid) - 1) by lia.
  split; [exact E|]. split.
  - rewrite reverse_cons, reverse_snoc. cbn [app bytes]. split.
    + rewrite Ho by lia. unfold m1. rewrite load8_store8_ne by lia. rewrite load8_store8_eq, Z.mod_small by lia. done.
    + apply bytes_app. rewrite length_reverse. split.
      * by replace (str + start + 1) with (str + (start + 1)) by lia.
      * cbn. split; [|done]. rewrite Ho by lia. unfold m1.
        replace (str + start + 1 + Z.of_nat (length mid)) with (str + (start + Z.of_nat k - 1)) by lia.
        rewrite load8_store8_eq, Z.mod_small by lia. done.
  - intros i Hi. rewrite Ho by lia. unfold m1. rewrite !load8_store8_ne by lia. done.
Qed.

(** ** Digits *)

(** Base-[b] digits of [n], least significant first. *)
Fixpoint digs (fuel : nat) (b n : Z) : list Z :=
  match fuel with
  | O => []
  | S fuel => if n =? 0 then [] else n mod b :: digs fuel b (n / b)
  end.

Definition eval (b : Z) (l : list Z) : Z := foldr (λ d r, d + b * r) 0 l.

Lemma digs_eval fuel b n : 2 <= b → 0 <= n < b ^ Z.of_nat fuel → eval b (digs fuel b n) = n.
Proof.
  intros Hb. revert n. induction fuel as [|fuel IH]; intros n Hn; [cbn in *; lia|]. cbn [digs].
  destruct (Z.eqb_spec n 0) as [->|]; [done|]. cbn [eval foldr]. fold (eval b (digs fuel b (n / b))).
  rewrite Nat2Z.inj_succ, Z.pow_succ_r in Hn by lia. rewrite IH.
  - rewrite (Z.div_mod n b) at 3 by lia. lia.
  - split; [apply Z.div_pos; lia|apply Z.div_lt_upper_bound; lia].
Qed.

Lemma digs_range fuel b n d : 2 <= b → d ∈ digs fuel b n → 0 <= d < b.
Proof.
  intros Hb. revert n. induction fuel as [|fuel IH]; intros n Hd; [by apply not_elem_of_nil in Hd|]. cbn [digs] in Hd.
  destruct (n =? 0); [by apply not_elem_of_nil in Hd|]. apply elem_of_cons in Hd as [->|Hd]; [|by eapply IH].
  apply Z.mod_pos_bound. lia.
Qed.

(** The value of digits read from the most significant one. *)
Lemma fold_digits w b l r :
  foldl (λ r d, swrap w (r * b + d)) (swrap w r) (reverse l) = swrap w (r * b ^ Z.of_nat (length l) + eval b l).
Proof.
  induction l as [|d l IH]; [cbn; f_equal; lia|].
  rewrite reverse_cons, foldl_snoc, IH, swrap_mul_add. f_equal. cbn [length eval foldr]. fold (eval b l).
  rewrite Nat2Z.inj_succ, Z.pow_succ_r by lia. lia.
Qed.

Lemma digit_char_range d : 0 <= d < 36 → 48 <= digit_char d <= 57 ∧ d < 10 ∧ digit_char d = d + 48 ∨
  97 <= digit_char d <= 122 ∧ 10 <= d ∧ digit_char d = d + 87.
Proof.
  intros Hd. unfold digit_char. destruct (Z.ltb_spec 9 d); rewrite wrap_small; lia.
Qed.

Lemma char_digit_char d : 0 <= d < 36 → char_digit (digit_char d) = Some d.
Proof.
  intros Hd. unfold char_digit. destruct (digit_char_range d Hd) as [(H1 & H2 & E)|(H1 & H2 & E)]; rewrite E.
  - rewrite (proj2 (Z.leb_le 48 _)), (proj2 (Z.leb_le _ 57)) by lia. cbn. f_equal. lia.
  - rewrite (proj2 (Z.leb_gt _ 57)), andb_false_r by lia.
    rewrite (proj2 (Z.leb_le 97 _)), (proj2 (Z.leb_le _ 122)) by lia. cbn. f_equal. lia.
Qed.

(** ** [itoa] *)

Lemma u32_zero value : - 2 ^ 31 <= value < 2 ^ 32 → (value =? 0) = (u32 value =? 0).
Proof.
  intros Hv. unfold wrap. destruct (Z.eqb_spec value 0) as [->|]; [done|]. symmetry. apply Z.eqb_neq.
  destruct (Z.le_gt_cases 0 value); [rewrite Z.mod_small; lia|].
  replace value with (value + 2 ^ 32 + (-1) * 2 ^ 32) by lia. rewrite Z_mod_plus_full, Z.mod_small; lia.
Qed.

Lemma itoa_digits_spec fuel m str i value b : 2 <= b <= 36 → - 2 ^ 31 <= value < 2 ^ 31 →
  u32 value < b ^ Z.of_nat fuel →
  ∃ m', itoa_digits fuel m str i value b = Some (m', i + Z.of_nat (length (digs fuel b (u32 value)))) ∧
    bytes m' (str + i) (map digit_char (digs fuel b (u32 value))) ∧
    ∀ j, j < str + i ∨ str + i + Z.of_nat (length (digs fuel b (u32 value))) <= j → load8 m' j = load8 m j.
Proof.
  intros Hb. revert m i value. induction fuel as [|fuel IH]; intros m i value Hv Hn.
  { cbn [itoa_digits]. pose proof (wrap_range 32 value). rewrite u32_zero by lia. cbn in Hn.
    rewrite (proj2 (Z.eqb_eq _ _)) by lia. cbn. rewrite Z.add_0_r. by exists m. }
  cbn [itoa_digits digs]. rewrite u32_zero by lia. pose proof (wrap_range 32 value ltac:(lia)) as Hr.
  destruct (Z.eqb_spec (u32 value) 0) as [E0|E0]; [cbn; rewrite Z.add_0_r; by exists m|].
  set (n := u32 value) in *. pose proof (Z.mod_pos_bound n b ltac:(lia)).
  assert (0 <= n / b < 2 ^ 31) as Hq.
  { split; [apply Z.div_pos; lia|]. apply Z.div_lt_upper_bound; lia. }
  rewrite (swrap_small 32 (n mod b)), (swrap_small 32 (n / b)) by lia.
  rewrite Nat2Z.inj_succ, Z.pow_succ_r in Hn by lia.
  destruct (IH (store8 m (str + i) (digit_char (n mod b))) (i + 1) (n / b)) as (m' & E & Hby & Ho); [lia| |].
  { rewrite wrap_small by lia. apply Z.div_lt_upper_bound; lia. }
  rewrite (wrap_small 32 (n / b)) in * by lia. set (ds := digs fuel b (n / b)) in *.
  exists m'. rewrite E. cbn [length map]. split; [do 2 f_equal; lia|]. split.
  - cbn [bytes]. split; [|by replace (str + i + 1) with (str + (i + 1)) by lia].
    rewrite Ho, load8_store8_eq by lia. apply Z.mod_small. destruct (digit_char_range (n mod b)) as [?|?]; lia.
  - intros j Hj. rewrite Ho by lia. apply load8_store8_ne. lia.
Qed.

(** The characters [itoa] produces. *)
Definition itoa_chars (value base : Z) : list Z :=
  if value =? 0 then [48]
  else if (value <? 0) && (base =? 10)
  then 45 :: map digit_char (reverse (digs 32 base (- value)))
  else map digit_char (reverse (digs 32 base (u32 value))).

Lemma map_reverse {A B} (f : A → B) l : map f (reverse l) = reverse (map f l).
Proof. apply fmap_reverse. Qed.

Lemma digs_stable k j b n : 2 <= b → 0 <= n < b ^ Z.of_nat k → digs (k + j) b n = digs k b n.
Proof.
  intros Hb. revert n. induction k as [|k IH]; intros n Hn.
  - cbn in Hn. assert (n = 0) as -> by lia. by destruct j.
  - cbn [Nat.add digs]. destruct (n =? 0); [done|]. f_equal. apply IH.
    rewrite Nat2Z.inj_succ, Z.pow_succ_r in Hn by lia.
    split; [apply Z.div_pos; lia|apply Z.div_lt_upper_bound; lia].
Qed.

Lemma digs_length k b n : (length (digs k b n) <= k)%nat.
Proof.
  revert n. induction k as [|k IH]; intros n; cbn; [lia|].
  destruct (n =? 0); cbn; [lia|]. specialize (IH (n / b)). lia.
Qed.

(** A word has at most 32 digits. *)
Lemma word_pow b v k : 2 <= b → u32 v < b ^ Z.of_nat (32 + k).
Proof.
  intros Hb. pose proof (wrap_range 32 v ltac:(lia)) as Hr. eapply Z.lt_le_trans; [apply Hr|].
  rewrite Nat2Z.inj_add. transitivity (2 ^ (Z.of_nat 32 + Z.of_nat k)); [apply Z.pow_le_mono_r; lia|].
  apply Z.pow_le_mono_l. lia.
Qed.

(** The sign handling of [itoa]: the digits converted are those of [-value]. *)
Lemma itoa_sign value base neg : neg = ((value <? 0) && (base =? 10)) → - 2 ^ 31 <= value < 2 ^ 31 →
  let v := if neg : bool then s32 (- value) else value in
  - 2 ^ 31 <= v < 2 ^ 31 ∧ u32 v = (if neg then - value else u32 value).
Proof.
  intros En Hv v. unfold v. destruct neg; [|done]. symmetry in En. boolprop.
  split; [|rewrite wrap_swrap by lia; apply wrap_small; lia].
  pose proof (swrap_range 32 (- value) ltac:(lia)) as Hr. change (2 ^ (32 - 1)) with (2 ^ 31) in Hr. lia.
Qed.

(** The terminated but still reversed buffer. *)
Lemma itoa_terminate m str cs (neg : bool) : bytes m str cs →
  let '(m', i) := if neg then (store8 m (str + Z.of_nat (length cs)) 45, Z.of_nat (length cs) + 1)
                  else (m, Z.of_nat (length cs)) in
  let cs' := cs ++ (if neg then [45] else []) in
  i = Z.of_nat (length cs') ∧ bytes (store8 m' (str + i) 0) str cs' ∧ load8 (store8 m' (str + i) 0) (str + i) = 0.
Proof.
  intros Hb. destruct neg; cbn zeta; rewrite length_app; cbn [length].
  - split; [lia|]. split; [|by rewrite load8_store8_eq]. apply bytes_app. cbn. split_and!; [| |done].
    + eapply bytes_ext; [|exact Hb]. intros i Hi. rewrite !load8_store8_ne by lia. done.
    + rewrite load8_store8_ne by lia. by rewrite load8_store8_eq.
  - split; [lia|]. split; [|by rewrite load8_store8_eq]. rewrite app_nil_r.
    eapply bytes_ext; [|exact Hb]. intros i Hi. rewrite load8_store8_ne by lia. done.
Qed.

Lemma digit_chars_nonzero k b n c : 2 <= b <= 36 → c ∈ map digit_char (digs k b n) → c ≠ 0.
Proof.
  intros Hb Hc. apply list_elem_of_fmap in Hc as (d & -> & Hd).
  pose proof (digs_range k b n d ltac:(lia) Hd). destruct (digit_char_range d) as [?|?]; lia.
Qed.

(** The buffer holds the numeral and its terminator, nothing else changes. *)
Lemma itoa_exact fuel m value str base : (33 <= fuel)%nat → 2 <= base <= 36 → - 2 ^ 31 <= value < 2 ^ 31 →
  ∃ m', itoa fuel m value str base = Some m' ∧ cstr m' str (itoa_chars value base) ∧
    same_outside (λ x, str <= x < str + Z.of_nat (length (itoa_chars value base)) + 1) m m'.
Proof.
  intros Hf Hb Hv. unfold itoa, itoa_chars. destruct (Z.eqb_spec value 0) as [->|Hnz].
  { eexists. split; [done|]. split; [cbn; rewrite load8_store8_ne by lia; by rewrite !load8_store8_eq|].
    cbn [length]. intros x Hx. rewrite !load8_store8_ne by lia. done. }
  remember ((value <? 0) && (base =? 10)) as neg eqn:En.
  destruct (itoa_sign value base neg En Hv) as [Hv1 Hv2].
  set (v := if neg then s32 (- value) else value) in *.
  destruct (itoa_digits_spec fuel m str 0 v base Hb Hv1) as (m1 & E & Hby & Ho1).
  { replace fuel with (32 + (fuel - 32))%nat by lia. apply word_pow. lia. }
  rewrite E. rewrite Z.add_0_l. rewrite Z.add_0_r in Hby.
  assert (digs fuel base (u32 v) = digs 32 base (u32 v)) as Ed.
  { replace fuel with (32 + (fuel - 32))%nat by lia. apply digs_stable; [lia|].
    split; [apply wrap_range; lia|apply (word_pow base v 0); lia]. }
  rewrite Ed in *. pose proof (digs_length 32 base (u32 v)) as Hlen.
  assert (∀ c, c ∈ map digit_char (digs 32 base (u32 v)) → c ≠ 0) as Hcz by (intros c; by apply digit_chars_nonzero).
  pose proof (itoa_terminate m1 str _ neg Hby) as Ht. rewrite length_map in Ht.
  assert ((if neg then 45 :: map digit_char (reverse (digs 32 base (- value)))
           else map digit_char (reverse (digs 32 base (u32 value)))) =
          reverse (map digit_char (digs 32 base (u32 v)) ++ (if neg then [45] else []))) as ->.
  { rewrite reverse_app, <- map_reverse, Hv2. by destruct neg. }
  rewrite Z.add_0_r in Ho1.
  clear - Hf Hlen Hcz Ht Ho1. clearbody v. revert Hlen Hcz Ht Ho1. generalize (digs 32 base (u32 v)) as ds. intros ds Hlen Hcz Ht Ho1.
  assert (∀ m2 i, (if neg then (store8 m1 (str + Z.of_nat (length ds)) 45, Z.of_nat (length ds) + 1) else (m1, Z.of_nat (length ds))) = (m2, i) →
    ∀ x, x < str ∨ str + Z.of_nat (length (map digit_char ds ++ (if neg then [45] else []))) <= x → load8 m2 x = load8 m x) as Ho2.
  { intros m2 i E2 x Hx. rewrite length_app, length_map in Hx.
    destruct neg; cbn [length] in Hx; simplify_eq; rewrite ?load8_store8_ne by lia; apply Ho1; lia. }
  destruct (if neg then _ else _) as [m2 i] eqn:E2. specialize (Ho2 m2 i eq_refl). cbn zeta in Ht. destruct Ht as (Hi & Hb2 & He2).
  set (cs := map digit_char ds ++ (if neg then [45] else [])) in *. rewrite <- (Z.add_0_r str) in Hb2 at 2.
  destruct (reverse_loop_spec fuel (store8 m2 (str + i) 0) str 0 cs Hb2) as (m3 & E3 & Hb3 & Ho3).
  { unfold cs. rewrite length_app, length_map. destruct neg; cbn; lia. }
  rewrite <- Hi, Z.add_0_l in E3. exists m3. split; [exact E3|]. rewrite Z.add_0_r in Hb3, Ho3.
  assert (length cs <= 33)%nat by (unfold cs; rewrite length_app, length_map; destruct neg; cbn; lia).
  split; [|intros x Hx; rewrite length_reverse in Hx; rewrite Ho3, load8_store8_ne by lia; apply Ho2; lia].
  apply bytes_cstr; [exact Hb3| |].
  - intros c Hc. rewrite elem_of_reverse in Hc. unfold cs in Hc. apply elem_of_app in Hc as [Hc|Hc]; [by apply Hcz|].
    destruct neg; [|by apply not_elem_of_nil in Hc]. apply list_elem_of_singleton in Hc. lia.
  - rewrite length_reverse, Ho3, <- Hi by lia. done.
Qed.

Lemma itoa_chars_length value base : (length (itoa_chars value base) <= 33)%nat.
Proof.
  unfold itoa_chars. repeat case_if; cbn [length]; rewrite ?length_map, ?length_reverse; try lia.
  all: pose proof (digs_length 32 base (- value)); pose proof (digs_length 32 base (u32 value)); lia.
Qed.

Lemma itoa_spec fuel m value str base : (33 <= fuel)%nat → 2 <= base <= 36 → - 2 ^ 31 <= value < 2 ^ 31 →
  ∃ m', itoa fuel m value str base = Some m' ∧ cstr m' str (itoa_chars value base) ∧
    same_outside (λ x, str <= x < str + 34) m m'.
Proof.
  intros Hf Hb Hv. destruct (itoa_exact fuel m value str base Hf Hb Hv) as (m' & E & Hs & Ho). exists m'. split_and!; [done..|].
  intros x Hx. apply Ho. pose proof (itoa_chars_length value base). lia.
Qed.

(** ** Reading back what [itoa] wrote *)

(** There is no leading zero. *)
Lemma digs_last k b n : 2 <= b → 0 < n < b ^ Z.of_nat k → list.last (digs k b n) ≠ Some 0.
Proof.
  intros Hb. revert n. induction k as [|k IH]; intros n Hn; [cbn in Hn; lia|].
  cbn [digs]. rewrite (proj2 (Z.eqb_neq n 0)) by lia.
  rewrite Nat2Z.inj_succ, Z.pow_succ_r in Hn by lia.
  pose proof (Z.div_mod n b ltac:(lia)) as Ediv. pose proof (Z.div_pos n b ltac:(lia) ltac:(lia)) as Hp.
  destruct (Z.eq_dec (n / b) 0) as [E|E].
  - rewrite E. replace (digs k b 0) with (@nil Z) by (by destruct k). cbn [last]. intros [= E']. rewrite E, E' in Ediv. lia.
  - specialize (IH (n / b)). rewrite last_cons. destruct (list.last (digs k b (n / b))) as [x|] eqn:El.
    + apply IH. split; [lia|]. apply Z.div_lt_upper_bound; lia.
    + apply last_None in El. destruct k; [cbn in Hn; rewrite Z.div_small in E by lia; lia|]. cbn [digs] in El.
      by rewrite (proj2 (Z.eqb_neq _ 0)) in El by done.
Qed.

(** The digits of a number string: [n] written in base [b], most significant first. *)
Record numeral (b : Z) (ds : list Z) (n : Z) : Prop := {
  num_digits : ∀ d, d ∈ ds → 0 <= d < b;
  num_short : (length ds <= 32)%nat;
  num_some : ds ≠ [];
  num_value : ∀ w, foldl (λ r d, swrap w (r * b + d)) (swrap w 0) ds = swrap w n;
}.

Lemma itoa_chars_numeral value b : 2 <= b <= 36 → - 2 ^ 31 <= value < 2 ^ 31 →
  let neg := (value <? 0) && (b =? 10) in
  ∃ ds, itoa_chars value b = (if neg then [45] else []) ++ map digit_char ds ∧
    numeral b ds (if neg then - value else u32 value) ∧ (ds = [0] ∨ head ds ≠ Some 0).
Proof.
  intros Hb Hv neg. unfold itoa_chars. destruct (Z.eqb_spec value 0) as [->|Hnz].
  { exists [0]. split; [done|]. split; [|by left]. split; [| |done|].
    - intros d Hd%list_elem_of_singleton. lia.
    - cbn. lia.
    - intros w. cbn. rewrite Z.add_0_r, <- (Z.add_0_r (swrap w 0 * b)), swrap_mul_add. done. }
  set (n := if neg then - value else u32 value).
  assert (0 < n < b ^ Z.of_nat 32) as Hn.
  { unfold n, neg. pose proof (word_pow b value 0 ltac:(lia)) as Hw. pose proof (wrap_range 32 value ltac:(lia)).
    pose proof (u32_zero value ltac:(lia)) as Hz. rewrite (proj2 (Z.eqb_neq value 0)) in Hz by done.
    symmetry in Hz. destruct ((value <? 0) && (b =? 10)) eqn:E; boolprop; [|lia]. split; [lia|].
    subst b. eapply Z.lt_le_trans with (m := 10 ^ 10); [lia|]. apply Z.pow_le_mono_r; lia. }
  exists (reverse (digs 32 b n)). split; [unfold n; fold neg; by destruct neg|].
  pose proof (digs_length 32 b n). split; [split|].
  - intros d Hd. rewrite elem_of_reverse in Hd. eapply digs_range; [|exact Hd]. lia.
  - by rewrite length_reverse.
  - intros E%(f_equal reverse). rewrite reverse_involutive in E. cbn [digs] in E.
    by rewrite (proj2 (Z.eqb_neq n 0)) in E by lia.
  - intros w. rewrite fold_digits, digs_eval; [f_equal; lia|lia|]. split; [lia|apply Hn].
  - right. rewrite head_reverse. apply digs_last; lia.
Qed.

Lemma swrap_mul w c x : swrap w (c * swrap w x) = swrap w (c * x).
Proof. apply swrap_cong. rewrite <- Zmult_mod_idemp_r, swrap_mod. apply Zmult_mod_idemp_r. Qed.

Lemma cstr_app m a l1 l2 : cstr m a (l1 ++ l2) → cstr m (a + Z.of_nat (length l1)) l2.
Proof.
  revert a. induction l1 as [|c l1 IH]; intros a Hs; cbn [app length] in *; [by rewrite Z.add_0_r|].
  destruct Hs as (_ & _ & Hs). apply IH in Hs. by replace (a + Z.of_nat (S (length l1))) with (a + 1 + Z.of_nat (length l1)) by lia.
Qed.

Lemma read_decimal_spec fuel w m a ds r : cstr m a (map digit_char ds) → (∀ d, d ∈ ds → 0 <= d < 10) →
  (length ds < fuel)%nat → read_decimal fuel w m a r = Some (foldl (λ r d, swrap w (r * 10 + d)) r ds).
Proof.
  revert fuel a r. induction ds as [|d ds IH]; intros [|fuel] a r Hs Hd Hf; cbn [length] in Hf; try lia; cbn [read_decimal].
  - cbn in Hs. by rewrite Hs.
  - destruct Hs as (-> & _ & Hs). pose proof (Hd d ltac:(left)) as H1.
    destruct (digit_char_range d) as [(Hc & _ & Ec)|?]; [lia| |lia].
    rewrite (proj2 (Z.leb_le 48 _)), (proj2 (Z.leb_le _ 57)) by lia. cbn [andb foldl].
    rewrite Ec. replace (d + 48 - 48) with d by lia. apply IH; [done| |lia]. intros e He. apply Hd. by right.
Qed.

Lemma read_digits_spec fuel m a b ds r : cstr m a (map digit_char ds) → b <= 36 → (∀ d, d ∈ ds → 0 <= d < b) →
  (length ds < fuel)%nat →
  read_digits fuel m a b r = Some (foldl (λ r d, s64 (r * b + d)) r ds, a + Z.of_nat (length ds)).
Proof.
  intros Hs Hb. revert fuel a r Hs. induction ds as [|d ds IH]; intros [|fuel] a r Hs Hd Hf; cbn [length] in Hf; try lia; cbn [read_digits].
  - cbn in Hs. rewrite Hs. cbn. by rewrite Z.add_0_r.
  - destruct Hs as (-> & Hz & Hs). pose proof (Hd d ltac:(left)) as H1.
    rewrite (proj2 (Z.eqb_neq _ 0)) by done. rewrite char_digit_char by lia.
    rewrite (proj2 (Z.leb_gt b d)) by lia. rewrite IH; [|done|intros e He; apply Hd; by right|lia].
    cbn [foldl length]. do 2 f_equal. lia.
Qed.

(** The common prefix of [ato] and [strtol] on a numeral with an optional minus sign. *)
Lemma read_prefix fuel m a b ds n (neg : bool) : b <= 36 → numeral b ds n → (0 < fuel)%nat →
  cstr m a ((if neg then [45] else []) ++ map digit_char ds) →
  skip_space fuel m a = Some a ∧
  ∃ a', read_sign m a = (if neg then -1 else 1, a') ∧ cstr m a' (map digit_char ds).
Proof.
  intros Hb [Hd _ Hne _] Hf Hs. destruct fuel as [|fuel]; [lia|]. destruct ds as [|d ds]; [done|].
  destruct (digit_char_range d) as [(Hc & _)|(Hc & _)]; [specialize (Hd d ltac:(left)); lia| |].
  all: unfold read_sign; destruct neg; cbn [app] in Hs; cbn [skip_space].
  all: try (destruct Hs as (-> & _ & Hs); cbn; split; [done|]; eexists; split; [done|exact Hs]).
  all: pose proof Hs as (Ea & _); rewrite Ea.
  all: repeat (rewrite (proj2 (Z.eqb_neq (digit_char d) _)) by lia); split; [done|].
  all: eexists; split; [done|exact Hs].
Qed.

Lemma strtol_base_numeral m a b ds : 2 <= b → cstr m a (map digit_char ds) →
  (∀ d, d ∈ ds → 0 <= d < b) → (ds = [0] ∨ head ds ≠ Some 0) → ds ≠ [] → b <= 36 → strtol_base m a b = (b, a).
Proof.
  intros Hb Hs Hd Hz Hne Hb2. unfold strtol_base. rewrite (proj2 (Z.eqb_neq b 0)) by lia.
  destruct Hz as [->|Hz].
  - destruct Hs as (_ & _ & Hs). cbn in Hs. rewrite Hs. cbn. by rewrite andb_false_r.
  - destruct ds as [|d ds]; [done|]. destruct Hs as (-> & _ & _). cbn in Hz.
    assert (d ≠ 0) by congruence. pose proof (Hd d ltac:(left)).
    rewrite (proj2 (Z.eqb_neq (digit_char d) 48)); [by rewrite andb_false_r|].
    destruct (digit_char_range d) as [?|?]; lia.
Qed.

(** [atoi] undoes [itoa] in base ten: for every [int32_t] value, the string
    [itoa] leaves in the buffer reads back as that value, [INT_MIN] included; 33
    steps of fuel are enough for both. *)
Theorem itoa_atoi_roundtrip fuel m value str : (33 <= fuel)%nat → - 2 ^ 31 <= value < 2 ^ 31 →
  ∃ m', itoa fuel m value str 10 = Some m' ∧ atoi fuel m' str = Some value.
Proof.
  intros Hf Hv. destruct (itoa_spec fuel m value str 10 Hf ltac:(lia) Hv) as (m' & E & Hs & _).
  exists m'. split; [exact E|]. destruct (itoa_chars_numeral value 10 ltac:(lia) Hv) as (ds & Ec & Hn & _).
  rewrite Ec in Hs. destruct (read_prefix fuel m' str 10 ds _ _ ltac:(lia) Hn ltac:(lia) Hs) as (E1 & a' & E2 & Hs').
  destruct Hn as [Hd Hl _ Hval]. unfold atoi, ato. rewrite E1, E2.
  rewrite (read_decimal_spec fuel 32 m' a' ds 0 Hs' Hd) by lia.
  specialize (Hval 32). change (s32 0) with 0 in Hval. rewrite Hval, swrap_mul. f_equal.
  destruct (value <? 0) eqn:En; cbn [andb Z.eqb Pos.eqb]; boolprop.
  - rewrite swrap_small; lia.
  - rewrite wrap_small, swrap_small; lia.
Qed.

(** C39: [strtol] undoes [itoa] in every base from 2 to 36: it returns the value
    in base ten and its unsigned representation in the other bases (where [itoa]
    writes no sign), and stores the address of the terminator in [endptr]. *)
Theorem itoa_strtol_roundtrip fuel m value str base endptr : (33 <= fuel)%nat → 2 <= base <= 36 →
  - 2 ^ 31 <= value < 2 ^ 31 →
  ∃ m' e, itoa fuel m value str base = Some m' ∧ load8 m' e = 0 ∧
    strtol fuel m' str endptr base =
      Some (if endptr =? 0 then m' else store64 m' endptr e, if base =? 10 then value else u32 value).
Proof.
  intros Hf Hb Hv. destruct (itoa_spec fuel m value str base Hf ltac:(lia) Hv) as (m' & E & Hs & _).
  exists m'. destruct (itoa_chars_numeral value base Hb Hv) as (ds & Ec & Hn & Hz).
  rewrite Ec in Hs.
  destruct (read_prefix fuel m' str base ds _ _ ltac:(lia) Hn ltac:(lia) Hs) as (E1 & a' & E2 & Hs').
  destruct Hn as [Hd Hl Hne Hval]. exists (a' + Z.of_nat (length ds)). split; [exact E|]. split.
  { rewrite <- (length_map digit_char ds). pose proof (cstr_app m' a' (map digit_char ds) []) as Hend.
    rewrite app_nil_r in Hend. exact (Hend Hs'). }
  unfold strtol. rewrite E1, E2. rewrite (strtol_base_numeral m' a' base ds) by (done || lia).
  rewrite (read_digits_spec fuel m' a' base ds 0) by (done || lia).
  specialize (Hval 64). change (s64 0) with 0 in Hval. rewrite Hval, swrap_mul. do 2 f_equal.
  pose proof (wrap_range 32 value ltac:(lia)).
  destruct (Z.eqb_spec base 10) as [->|Hn]; [|rewrite andb_false_r; rewrite swrap_small; lia].
  destruct (value <? 0) eqn:En; cbn [andb]; boolprop.
  - rewrite swrap_small; lia.
  - rewrite wrap_small, swrap_small; lia.
Qed.

(** ** Binary search *)

Section bsearch.
Context (compar : Z → Z → Z) (key size : Z).

(** [num] elements from [base] are in the order the key comparison expects:
    those the key is above, then those it equals, then those it is below. *)
Definition key_sorted (base num : Z) : Prop :=
  ∀ i j, 0 <= i → i <= j → j < num →
    (0 < compar key (base + j * size) → 0 < compar key (base + i * size)) ∧
    (compar key (base + i * size) < 0 → compar key (base + j * size) < 0).

Lemma bsearch_loop_spec fuel base num : key_sorted base num → 0 <= num <= Z.of_nat fuel →
  ∃ p, bsearch_loop fuel compar key base num size = Some p ∧
    ((∃ i, 0 <= i < num ∧ p = base + i * size ∧ compar key p = 0) ∨
     p = 0 ∧ ∀ i, 0 <= i < num → compar key (base + i * size) ≠ 0).
Proof.
  revert base num. induction fuel as [|fuel IH]; intros base num Hs Hn; cbn [bsearch_loop].
  { rewrite (proj2 (Z.ltb_ge 0 num)) by lia. exists 0. split; [done|]. right. split; [done|lia]. }
  destruct (Z.ltb_spec 0 num) as [Hp|]; [|exists 0; split; [done|]; right; split; [done|lia]].
  set (h := num / 2). assert (0 <= h < num) as Hh by (unfold h; zlia). clearbody h.
  destruct (Z.eqb_spec (compar key (base + h * size)) 0) as [E|E].
  { exists (base + h * size). split; [done|]. left. by exists h. }
  destruct (Z.ltb_spec 0 (compar key (base + h * size))) as [Hg|Hg].
  - destruct (IH (base + h * size + size) (num - h - 1)) as (p & Ep & Hr); [|lia|].
    { intros i j Hi Hij Hj. replace (base + h * size + size + j * size) with (base + (h + 1 + j) * size) by lia.
      replace (base + h * size + size + i * size) with (base + (h + 1 + i) * size) by lia. apply Hs; lia. }
    exists p. split; [done|]. destruct Hr as [(i & Hi & -> & Hc)|[-> Hr]].
    + left. exists (h + 1 + i). split; [lia|]. split; [lia|done].
    + right. split; [done|]. intros i Hi. destruct (Z.le_gt_cases i h) as [Hle|Hgt].
      * destruct (Hs i h) as [Ha _]; [lia..|]. specialize (Ha Hg). lia.
      * specialize (Hr (i - h - 1)). replace (base + h * size + size + (i - h - 1) * size) with (base + i * size) in Hr by lia.
        apply Hr. lia.
  - destruct (IH base h) as (p & Ep & Hr); [intros i j Hi Hij Hj; apply Hs; lia|lia|].
    exists p. split; [done|]. destruct Hr as [(i & Hi & -> & Hc)|[-> Hr]].
    + left. exists i. split; [lia|done].
    + right. split; [done|]. intros i Hi. destruct (Z.le_gt_cases h i) as [Hle|Hgt]; [|apply Hr; lia].
      destruct (Hs h i) as [_ Ha]; [lia..|]. specialize (Ha ltac:(lia)). lia.
Qed.
End bsearch.

(** [bsearch] terminates and is complete on an array in the order of the
    comparison: the result is an element that compares equal to the key, or
    [NULL], and then no element does. *)
Theorem bsearch_correct compar key base num size : key_sorted compar key size base num → 0 <= num →
  ∃ p, bsearch compar key base num size = Some p ∧
    ((∃ i, 0 <= i < num ∧ p = base + i * size ∧ compar key p = 0) ∨
     p = 0 ∧ ∀ i, 0 <= i < num → compar key (base + i * size) ≠ 0).
Proof. intros Hs Hn. apply bsearch_loop_spec; [done|lia]. Qed.

(** ** Quick sort

    [pivot] points into the array, so the partition exchanges the pivot itself
    and the rest of the pass compares against another element. *)

Definition byte_array (a : Z) (l : list Z) : mem_t := (foldl (λ p c, (store8 (fst p) (snd p) c, snd p + 1)) (∅, a) l).1.
Definition compare_bytes (m : mem_t) (p q : Z) : Z := load8 m p - load8 m q.

(** [qsort] does not always sort: on the byte array [2 2 0 1], with the
    comparison of two bytes, it leaves [0 2 1 2]. *)
Theorem qsort_not_sorted :
  ∃ m', qsort 20 compare_bytes (byte_array 100 [2; 2; 0; 1]) 100 4 1 = Some m' ∧ bytes m' 100 [0; 2; 1; 2].
Proof. eexists. split; [vm_compute; reflexivity|]. vm_compute. repeat split. Qed.

Lemma itoa_atoi_roundtrip_witness :
  ∃ m', itoa 33 ∅ (- 2 ^ 31) 100 10 = Some m' ∧ atoi 33 m' 100 = Some (- 2 ^ 31).
Proof. apply (itoa_atoi_roundtrip 33 ∅ (- 2 ^ 31) 100); lia. Defined.

Lemma itoa_strtol_roundtrip_witness : ∃ m' e, itoa 33 ∅ (-255) 100 16 = Some m' ∧ load8 m' e = 0 ∧
  strtol 33 m' 100 8 16 = Some (store64 m' 8 e, 2 ^ 32 - 255).
Proof. apply (itoa_strtol_roundtrip 33 ∅ (-255) 100 16 8); lia. Defined.

(** Search among the even numbers at the addresses [100, 102, ..., 118]. *)
Lemma bsearch_correct_witness : ∃ p, bsearch (λ k p, k - p) 112 100 10 2 = Some p ∧
  ((∃ i, 0 <= i < 10 ∧ p = 100 + i * 2 ∧ 112 - p = 0) ∨ p = 0 ∧ ∀ i, 0 <= i < 10 → 112 - (100 + i * 2) ≠ 0).
Proof. apply (bsearch_correct (λ k p, k - p) 112 100 10 2); [intros i j ? ? ?; lia|lia]. Defined.
