(* ===== verification/KStdio.v ===== *)
(** * Formatted output ([klibc/stdio.c])

    [vsprintf] writes to the byte memory, [printf] to the terminal, whose output
    is the list of bytes handed to [flanterm_write].  The variable arguments are
    a list of 64-bit words read in order; [None] is a conversion without an
    argument, or fuel that runs out.  [null_str] is the address of the literal
    "(null)" and [buf] that of [printf]'s local buffer.  A [double] argument is
    decoded from its IEEE-754 word and computed with the Standard Library's
    specification of binary64 arithmetic. *)

From Stdlib Require Import Floats.SpecFloat.
From stdpp Require Import prelude gmap list numbers tactics.
From S2P Require Import Prelude Memory KString KStdlib.

Definition va_arg (args : list Z) : option (Z * list Z) :=
  match args with a :: args => Some (a, args) | [] => None end.

(** [while ( *fmt >= '0' && *fmt <= '9') { width = width * 10 + ( *fmt - '0'); fmt++; }] *)
Fixpoint read_width (fuel : nat) (m : mem_t) (fmt width : Z) : option (Z * Z) :=
  match fuel with
  | O => None
  | S fuel =>
    if (48 <=? load8 m fmt) && (load8 m fmt <=? 57)
    then read_width fuel m (fmt + 1) (s32 (width * 10 + (load8 m fmt - 48)))
    else Some (width, fmt)
  end.

(** ** [vsprintf] *)

(** The digits of [num] in [tmp], the last one stored first. *)
Fixpoint num_digits (fuel : nat) (tmp : list Z) (num base : Z) (uppercase : bool) : option (list Z) :=
  if num =? 0 then Some tmp
  else match fuel with
  | O => None
  | S fuel =>
    let d := num mod base in
    num_digits fuel ((if d <? 10 then 48 + d else (if uppercase then 65 else 97) + (d - 10)) :: tmp)
      (num / base) base uppercase
  end.

Fixpoint put_chars (m : mem_t) (str : Z) (l : list Z) : mem_t * Z :=
  match l with
  | [] => (m, str)
  | c :: l => put_chars (store8 m str c) (str + 1) l
  end.

Definition num_to_str (fuel : nat) (m : mem_t) (buf num base : Z) (uppercase : bool) : option (mem_t * Z) :=
  if num =? 0 then Some (store8 m buf 48, buf + 1)
  else match num_digits fuel [] num base uppercase with
       | Some tmp => Some (put_chars m buf tmp)
       | None => None
       end.

(** [while ( *s) *str++ = *s++;] *)
Fixpoint copy_chars (fuel : nat) (m : mem_t) (str s : Z) : option (mem_t * Z) :=
  match fuel with
  | O => None
  | S fuel =>
    if load8 m s =? 0 then Some (m, str)
    else copy_chars fuel (store8 m str (load8 m s)) (str + 1) (s + 1)
  end.

(** The length modifier: [is_long], [is_long_long] and the pointer behind it. *)
Definition read_length (m : mem_t) (fmt : Z) : bool * bool * Z :=
  if load8 m fmt =? 108 then
    (if load8 m (fmt + 1) =? 108 then (true, true, fmt + 2) else (true, false, fmt + 1))
  else if load8 m fmt =? 104 then
    (if load8 m (fmt + 1) =? 104 then (false, false, fmt + 2) else (false, false, fmt + 1))
  else if load8 m fmt =? 122 then (true, true, fmt + 1)
  else (false, false, fmt).

Definition va_signed (is_long is_long_long : bool) (a : Z) : Z :=
  if is_long_long then s64 a else if is_long then s64 a else s32 a.
Definition va_unsigned (is_long is_long_long : bool) (a : Z) : Z :=
  if is_long_long then u64 a else if is_long then u64 a else u32 a.

(** The [switch] of [vsprintf]: the memory, [str] and the remaining arguments. *)
Definition convert (fuel : nat) (null_str : Z) (m : mem_t) (c str : Z) (is_long is_long_long : bool) (args : list Z) :
    option (mem_t * Z * list Z) :=
  let number base uppercase :=
    match va_arg args with
    | None => None
    | Some (a, args) =>
      match num_to_str fuel m str (va_unsigned is_long is_long_long a) base uppercase with
      | Some (m, str) => Some (m, str, args)
      | None => None
      end
    end in
  if (c =? 100) || (c =? 105) then                               (* d, i *)
    match va_arg args with
    | None => None
    | Some (a, args) =>
      let val := va_signed is_long is_long_long a in
      let '(m, str, num) := if val <? 0 then (store8 m str 45, str + 1, u64 (- val)) else (m, str, val) in
      match num_to_str fuel m str num 10 false with
      | Some (m, str) => Some (m, str, args)
      | None => None
      end
    end
  else if c =? 117 then number 10 false                           (* u *)
  else if c =? 120 then number 16 false                           (* x *)
  else if c =? 88 then number 16 true                             (* X *)
  else if c =? 111 then number 8 false                            (* o *)
  else if c =? 112 then                                           (* p *)
    let m := store8 (store8 m str 48) (str + 1) 120 in
    match va_arg args with
    | None => None
    | Some (a, args) =>
      match num_to_str fuel m (str + 2) (u64 a) 16 false with
      | Some (m, str) => Some (m, str, args)
      | None => None
      end
    end
  else if c =? 115 then                                           (* s *)
    match va_arg args with
    | None => None
    | Some (a, args) =>
      match copy_chars fuel m str (if a =? 0 then null_str else a) with
      | Some (m, str) => Some (m, str, args)
      | None => None
      end
    end
  else if c =? 99 then                                            (* c *)
    match va_arg args with
    | None => None
    | Some (a, args) => Some (store8 m str (u8 a), str + 1, args)
    end
  else Some (store8 (store8 m str 37) (str + 1) c, str + 2, args).

(** The field from [start] to [str] moved right to the width and filled from the left. *)
Definition pad_field (m : mem_t) (start str width : Z) (zero_pad : bool) : mem_t * Z :=
  let len := s32 (str - start) in
  if len <? width then
    let pad := width - len in
    let pad_char := if zero_pad then 48 else 32 in
    let m := memmove_down (Z.to_nat len) m (start + pad) start in
    (memset_loop (Z.to_nat pad) m start pad_char, str + pad)
  else (m, str).

Fixpoint vsprintf_loop (fuel : nat) (null_str : Z) (m : mem_t) (buf str fmt : Z) (args : list Z) : option (mem_t * Z) :=
  match fuel with
  | O => None
  | S fuel =>
    if load8 m fmt =? 0 then Some (store8 m str 0, s32 (str - buf))
    else if negb (load8 m fmt =? 37) then
      vsprintf_loop fuel null_str (store8 m str (load8 m fmt)) buf (str + 1) (fmt + 1) args
    else
      let fmt := fmt + 1 in
      if load8 m fmt =? 37 then vsprintf_loop fuel null_str (store8 m str 37) buf (str + 1) (fmt + 1) args
      else
        let '(zero_pad, fmt) := if load8 m fmt =? 48 then (true, fmt + 1) else (false, fmt) in
        match read_width fuel m fmt 0 with
        | None => None
        | Some (width, fmt) =>
          let '(is_long, is_long_long, fmt) := read_length m fmt in
          match convert fuel null_str m (load8 m fmt) str is_long is_long_long args with
          | None => None
          | Some (m, str', args) =>
            let '(m, str) := pad_field m str str' width zero_pad in
            vsprintf_loop fuel null_str m buf str (fmt + 1) args
          end
        end
  end.
Definition vsprintf (fuel : nat) (null_str : Z) (m : mem_t) (buf fmt : Z) (args : list Z) : option (mem_t * Z) :=
  vsprintf_loop fuel null_str m buf buf fmt args.

(** ** [printf] *)

(** The bytes up to the terminator. *)
Fixpoint string_at (fuel : nat) (m : mem_t) (p : Z) : option (list Z) :=
  match fuel with
  | O => None
  | S fuel => if load8 m p =? 0 then Some []
              else match string_at fuel m (p + 1) with Some l => Some (load8 m p :: l) | None => None end
  end.

Definition bytes_at (m : mem_t) (p n : Z) : list Z := map (λ i, load8 m (p + Z.of_nat i)) (seq 0 (Z.to_nat n)).

(** Length modifiers [l], [ll] and [L]: [is_long], [is_longlong], the pointer behind. *)
Definition printf_length (m : mem_t) (format : Z) : bool * bool * Z :=
  if load8 m format =? 108 then
    (if load8 m (format + 1) =? 108 then (false, true, format + 2) else (true, false, format + 1))
  else if load8 m format =? 76 then (false, true, format + 1)
  else (false, false, format).

(** binary64: decoding, and the conversion to [int] (out of range: the value the
    hardware conversion gives). *)
Definition decode_double (a : Z) : spec_float :=
  let sign := Z.testbit a 63 in
  let e := Z.land (Z.shiftr a 52) 0x7FF in
  let f := Z.land a (2 ^ 52 - 1) in
  if e =? 0x7FF then (if f =? 0 then S754_infinity sign else S754_nan)
  else if e =? 0 then (match f with Zpos p => S754_finite sign p (-1074) | _ => S754_zero sign end)
  else match f + 2 ^ 52 with Zpos p => S754_finite sign p (e - 1075) | _ => S754_nan end.

Definition double_to_int (x : spec_float) : Z :=
  match x with
  | S754_zero _ => 0
  | S754_finite sign p e =>
    let v := Z.shiftl (Zpos p) e in
    let v := if sign : bool then - v else v in
    if (- 2 ^ 31 <=? v) && (v <? 2 ^ 31) then v else - 2 ^ 31
  | _ => - 2 ^ 31
  end.
Definition int_to_double (v : Z) : spec_float := binary_normalize 53 1024 v 0 false.
Definition double_sub : spec_float → spec_float → spec_float := SFsub 53 1024.
Definition double_mul : spec_float → spec_float → spec_float := SFmul 53 1024.

(** What a directive leaves: memory, bytes written, remaining arguments. *)
Definition printf_field (fuel : nat) (m : mem_t) (p pad pad_char : Z) : option (list Z) :=
  match string_at fuel m p with
  | None => None
  | Some l => Some (repeat pad_char (Z.to_nat (pad - Z.of_nat (length l))) ++ l)
  end.

Definition printf_convert (fuel : nat) (null_str buf : Z) (m : mem_t) (c pad pad_char : Z)
    (is_long is_longlong : bool) (args : list Z) : option (mem_t * list Z * list Z) :=
  if (c =? 100) || (c =? 117) || (c =? 120) || (c =? 111) then
    match va_arg args with
    | None => None
    | Some (a, args) =>
      let val := if is_longlong then u64 a else if is_long then s64 a else s32 a in
      let prefix := if c =? 120 then [48; 120] else [] in
      match itoa fuel m (s32 val) buf (if c =? 120 then 16 else if c =? 111 then 8 else 10) with
      | None => None
      | Some m => match printf_field fuel m buf pad pad_char with
                  | Some l => Some (m, prefix ++ l, args) | None => None end
      end
    end
  else if c =? 102 then
    match va_arg args with
    | None => None
    | Some (a, args) =>
      let fval := decode_double a in
      let int_part := double_to_int fval in
      let frac := double_mul (double_sub fval (int_to_double int_part)) (int_to_double 1000000) in
      match itoa fuel m int_part buf 10 with
      | None => None
      | Some m =>
        match string_at fuel m buf, itoa fuel m (double_to_int frac) buf 10 with
        | Some l1, Some m =>
          match string_at fuel m buf with
          | Some l2 => Some (m, l1 ++ [46] ++ l2, args)
          | None => None
          end
        | _, _ => None
        end
      end
    end
  else if c =? 115 then
    match va_arg args with
    | None => None
    | Some (a, args) =>
      match printf_field fuel m (if a =? 0 then null_str else a) pad pad_char with
      | Some l => Some (m, l, args) | None => None end
    end
  else if c =? 99 then
    match va_arg args with None => None | Some (a, args) => Some (m, [u8 a], args) end
  else if c =? 112 then
    match va_arg args with
    | None => None
    | Some (a, args) =>
      match itoa fuel m (s32 (u64 a)) buf 16 with
      | None => None
      | Some m => match printf_field fuel m buf pad pad_char with
                  | Some l => Some (m, [48; 120] ++ l, args) | None => None end
      end
    end
  else if c =? 109 then
    match va_arg args with
    | None => None
    | Some (a, args) =>
      let mem := if a =? 0 then null_str else a in
      Some (m, bytes_at m mem (if pad =? 0 then 16 else pad), args)
    end
  else Some (m, [c], args).

Fixpoint printf_loop (fuel : nat) (null_str buf : Z) (m : mem_t) (format : Z) (args : list Z)
    (out : list Z) (chars_written : Z) : option (list Z * Z) :=
  match fuel with
  | O => None
  | S fuel =>
    let c := load8 m format in
    let format := format + 1 in
    if c =? 0 then Some (out, chars_written)
    else if negb (c =? 37) then
      printf_loop fuel null_str buf m format args (out ++ [c]) (s32 (chars_written + 1))
    else
      let '(pad_char, format) := if load8 m format =? 48 then (48, format + 1) else (32, format) in
      match read_width fuel m format 0 with
      | None => None
      | Some (pad, format) =>
        let '(is_long, is_longlong, format) := printf_length m format in
        let c := load8 m format in
        match printf_convert fuel null_str buf m c pad pad_char is_long is_longlong args with
        | None => None
        | Some (m, l, args) =>
          printf_loop fuel null_str buf m (format + 1) args (out ++ l)
            (s32 (chars_written + Z.of_nat (length l)))
        end
      end
  end.
(** [-1] without a terminal. *)
Definition printf (global_flanterm : bool) (fuel : nat) (null_str buf : Z) (m : mem_t) (format : Z) (args : list Z) :
    option (list Z * Z) :=
  if global_flanterm then printf_loop fuel null_str buf m format args [] 0 else Some ([], -1).

Definition put_string (m : mem_t) (a : Z) (l : list Z) : mem_t := (put_chars m a (l ++ [0])).1.

(** ** Writing a range of bytes *)

Definition wrote (m m' : mem_t) (a : Z) (l : list Z) : Prop :=
  bytes m' a l ∧ ∀ x, x < a ∨ a + Z.of_nat (length l) <= x → load8 m' x = load8 m x.

Lemma wrote_nil m a : wrote m m a [].
Proof. by split. Qed.

Lemma wrote_byte m a c : 0 <= c < 256 → wrote m (store8 m a c) a [c].
Proof.
  intros Hc. split; cbn.
  - split; [|done]. rewrite load8_store8_eq. by apply Z.mod_small.
  - intros x Hx. apply load8_store8_ne. lia.
Qed.

Lemma wrote_app m m1 m2 a l1 l2 :
  wrote m m1 a l1 → wrote m1 m2 (a + Z.of_nat (length l1)) l2 → wrote m m2 a (l1 ++ l2).
Proof.
  intros [Hb1 Ho1] [Hb2 Ho2]. split.
  - apply bytes_app. split; [|done]. eapply bytes_ext; [|exact Hb1]. intros i Hi. apply Ho2. lia.
  - rewrite length_app. intros x Hx. rewrite Ho2, Ho1 by lia. done.
Qed.

Lemma put_chars_spec m str l : (∀ c, c ∈ l → 0 <= c < 256) →
  ∃ m', put_chars m str l = (m', str + Z.of_nat (length l)) ∧ wrote m m' str l.
Proof.
  revert m str. induction l as [|c l IH]; intros m str Hl; cbn [put_chars length].
  - exists m. rewrite Z.add_0_r. split; [done|apply wrote_nil].
  - destruct (IH (store8 m str c) (str + 1)) as (m' & -> & Hw); [intros; apply Hl; by right|].
    exists m'. split; [f_equal; lia|]. apply (wrote_app m (store8 m str c) m' str [c] l); [|done].
    apply wrote_byte, Hl. left.
Qed.

Lemma bytes_lookup m a l : bytes m a l ↔ ∀ i c, l !! i = Some c → load8 m (a + Z.of_nat i) = c.
Proof.
  revert a. induction l as [|x l IH]; intros a; cbn [bytes]; [done|]. rewrite IH. split.
  - intros [H1 H2] [|i] c Hc; cbn in Hc; [rewrite Z.add_0_r; congruence|].
    rewrite <- (H2 i c Hc). f_equal. lia.
  - intros H. split; [rewrite <- (Z.add_0_r a); by apply (H 0%nat)|]. intros i c Hc.
    rewrite <- (H (S i) c Hc). f_equal. lia.
Qed.

Lemma wrote_cstr m m' a l b s : wrote m m' a l → cstr m b s →
  b + Z.of_nat (length s) < a ∨ a + Z.of_nat (length l) <= b → cstr m' b s.
Proof. intros [_ Ho] Hs Hd. eapply cstr_ext; [|exact Hs]. intros i Hi. apply Ho. lia. Qed.

(** ** A format as a list of directives *)

Inductive conversion := ConvD | ConvI | ConvU | ConvX | ConvUpX | ConvO | ConvP | ConvS | ConvC.
Inductive len_mod := LenNone | LenL | LenLL | LenH | LenHH | LenZ.
Inductive directive :=
  | Char (c : Z)
  | Percent
  | Field (zero_pad : bool) (width : Z) (len : len_mod) (cv : conversion).

(** An argument: a number or a pointer to a string. *)
Inductive varg := Word (a : Z) | Text (a : Z) (s : list Z).
Definition varg_word (v : varg) : Z := match v with Word a | Text a _ => a end.

Definition conv_char (cv : conversion) : Z :=
  match cv with
  | ConvD => 100 | ConvI => 105 | ConvU => 117 | ConvX => 120 | ConvUpX => 88
  | ConvO => 111 | ConvP => 112 | ConvS => 115 | ConvC => 99
  end.
Definition len_chars (l : len_mod) : list Z :=
  match l with
  | LenNone => [] | LenL => [108] | LenLL => [108; 108] | LenH => [104] | LenHH => [104; 104] | LenZ => [122]
  end.
Definition len_wide (l : len_mod) : bool := match l with LenL | LenLL | LenZ => true | _ => false end.

Definition width_digits (width : Z) : list Z := reverse (digs 10 10 width).
Definition directive_chars (d : directive) : list Z :=
  match d with
  | Char c => [c]
  | Percent => [37; 37]
  | Field z w l cv => 37 :: (if z then [48] else []) ++ map digit_char (width_digits w) ++ len_chars l ++ [conv_char cv]
  end.
Definition format_chars (ds : list directive) : list Z := concat (map directive_chars ds).

Definition hex_char (uppercase : bool) (d : Z) : Z :=
  if d <? 10 then 48 + d else (if uppercase then 65 else 97) + (d - 10).
Definition number_text (base : Z) (uppercase : bool) (n : Z) : list Z :=
  if n =? 0 then [48] else map (hex_char uppercase) (reverse (digs 64 base n)).

Definition signed_text (v : Z) : list Z :=
  if v <? 0 then 45 :: number_text 10 false (- v) else number_text 10 false v.

(** The text of a conversion, [None] when the argument is of the wrong kind. *)
Definition conv_text (l : len_mod) (cv : conversion) (v : varg) : option (list Z) :=
  match cv, v with
  | ConvD, Word a | ConvI, Word a => Some (signed_text (if len_wide l then s64 a else s32 a))
  | ConvU, Word a => Some (number_text 10 false (if len_wide l then u64 a else u32 a))
  | ConvX, Word a => Some (number_text 16 false (if len_wide l then u64 a else u32 a))
  | ConvUpX, Word a => Some (number_text 16 true (if len_wide l then u64 a else u32 a))
  | ConvO, Word a => Some (number_text 8 false (if len_wide l then u64 a else u32 a))
  | ConvP, Word a => Some (48 :: 120 :: number_text 16 false (u64 a))
  | ConvS, Text _ s => Some s
  | ConvC, Word a => Some [u8 a]
  | _, _ => None
  end.

Definition padded (zero_pad : bool) (width : Z) (l : list Z) : list Z :=
  repeat (if zero_pad then 48 else 32) (Z.to_nat (width - Z.of_nat (length l))) ++ l.

Fixpoint format_text (ds : list directive) (args : list varg) : option (list Z) :=
  match ds with
  | [] => Some []
  | Char c :: ds => match format_text ds args with Some t => Some (c :: t) | None => None end
  | Percent :: ds => match format_text ds args with Some t => Some (37 :: t) | None => None end
  | Field z w l cv :: ds =>
    match args with
    | [] => None
    | v :: args =>
      match conv_text l cv v, format_text ds args with
      | Some t, Some t' => Some (padded z w t ++ t')
      | _, _ => None
      end
    end
  end.

Definition directive_ok (d : directive) : Prop :=
  match d with
  | Char c => 0 < c < 256 ∧ c ≠ 37
  | Percent => True
  | Field _ w _ _ => 0 <= w < 2 ^ 31
  end.

(** ** The numbers *)

Lemma num_digits_spec fuel tmp num base up : 2 <= base <= 16 → 0 <= num < base ^ Z.of_nat fuel →
  num_digits fuel tmp num base up = Some (map (hex_char up) (reverse (digs fuel base num)) ++ tmp).
Proof.
  intros Hb. revert tmp num. induction fuel as [|fuel IH]; intros tmp num Hn; cbn [num_digits digs].
  - cbn in Hn. rewrite (proj2 (Z.eqb_eq num 0)) by lia. done.
  - destruct (Z.eqb_spec num 0) as [->|Hnz]; [done|].
    rewrite Nat2Z.inj_succ, Z.pow_succ_r in Hn by lia.
    rewrite IH by (split; [apply Z.div_pos; lia|apply Z.div_lt_upper_bound; lia]).
    rewrite reverse_cons, map_app, <- app_assoc. done.
Qed.

Lemma hex_char_range up d : 0 <= d < 16 → 0 <= hex_char up d < 256.
Proof. intros Hd. unfold hex_char. destruct (Z.ltb_spec d 10), up; cbv iota; lia. Qed.

Lemma number_text_range base up n c : 2 <= base <= 16 → c ∈ number_text base up n → 0 <= c < 256.
Proof.
  intros Hb Hc. unfold number_text in Hc. destruct (n =? 0).
  - apply list_elem_of_singleton in Hc. lia.
  - apply list_elem_of_fmap in Hc as (d & -> & Hd). rewrite elem_of_reverse in Hd.
    apply hex_char_range. pose proof (digs_range _ base _ _ ltac:(lia) Hd). lia.
Qed.

Lemma num_to_str_spec fuel m buf num base up : (64 <= fuel)%nat → 2 <= base <= 16 → 0 <= num < 2 ^ 64 →
  ∃ m', num_to_str fuel m buf num base up = Some (m', buf + Z.of_nat (length (number_text base up num))) ∧
    wrote m m' buf (number_text base up num).
Proof.
  intros Hf Hb Hn. unfold num_to_str. destruct (Z.eqb_spec num 0) as [->|Hnz].
  { exists (store8 m buf 48). split; [done|]. by apply wrote_byte. }
  assert (num < base ^ Z.of_nat 64) as Hlt.
  { eapply Z.lt_le_trans; [apply Hn|]. change (Z.of_nat 64) with 64. apply Z.pow_le_mono_l. lia. }
  rewrite num_digits_spec; [|done|].
  2:{ split; [lia|]. eapply Z.lt_le_trans; [exact Hlt|]. apply Z.pow_le_mono_r; lia. }
  replace fuel with (64 + (fuel - 64))%nat by lia. rewrite digs_stable by lia. rewrite app_nil_r.
  destruct (put_chars_spec m buf (number_text base up num)) as (m' & E & Hw).
  { intros c. by apply number_text_range. }
  exists m'. split; [|exact Hw]. rewrite <- E. unfold number_text. by rewrite (proj2 (Z.eqb_neq num 0)).
Qed.

Lemma copy_chars_spec fuel m str s l : cstr m s l → (length l < fuel)%nat →
  s + Z.of_nat (length l) < str ∨ str + Z.of_nat (length l) <= s →
  ∃ m', copy_chars fuel m str s = Some (m', str + Z.of_nat (length l)) ∧ wrote m m' str l.
Proof.
  revert fuel m str s. induction l as [|c l IH]; intros [|fuel] m str s Hs Hf Hd; cbn [length] in *; try lia; cbn [copy_chars].
  - cbn in Hs. rewrite Hs. exists m. cbn. rewrite Z.add_0_r. split; [done|apply wrote_nil].
  - pose proof (cstr_range _ _ _ c Hs ltac:(left)) as Hc. destruct Hs as (-> & Hc0 & Hs).
    rewrite (proj2 (Z.eqb_neq c 0)) by done.
    pose proof (wrote_byte m str c ltac:(lia)) as Hw.
    destruct (IH fuel (store8 m str c) (str + 1) (s + 1)) as (m' & E & Hw'); [|lia|lia|].
    { eapply wrote_cstr; [exact Hw|exact Hs|]. cbn [length]. lia. }
    exists m'. rewrite E. split; [do 2 f_equal; lia|]. by apply (wrote_app m (store8 m str c) m' str [c] l).
Qed.

(** ** One directive *)

Definition len_flags (l : len_mod) : bool * bool :=
  match l with LenL => (true, false) | LenLL | LenZ => (true, true) | _ => (false, false) end.

Lemma va_signed_flags l a : va_signed (len_flags l).1 (len_flags l).2 a = if len_wide l then s64 a else s32 a.
Proof. by destruct l. Qed.
Lemma va_unsigned_flags l a : va_unsigned (len_flags l).1 (len_flags l).2 a = if len_wide l then u64 a else u32 a.
Proof. by destruct l. Qed.

Lemma va_unsigned_range l a : 0 <= (if len_wide l then u64 a else u32 a) < 2 ^ 64.
Proof. pose proof (wrap_range 64 a ltac:(lia)). pose proof (wrap_range 32 a ltac:(lia)). destruct (len_wide l); lia. Qed.

Lemma va_signed_range l a : - 2 ^ 63 <= (if len_wide l then s64 a else s32 a) < 2 ^ 63.
Proof.
  pose proof (swrap_range 64 a ltac:(lia)) as H1. pose proof (swrap_range 32 a ltac:(lia)) as H2.
  change (64 - 1) with 63 in H1. change (32 - 1) with 31 in H2. destruct (len_wide l); lia.
Qed.

(** [m'] holds [t] at [str], where the next byte of the output goes. *)
Definition emitted (m : mem_t) (str : Z) (t : list Z) (args : list Z) (r : option (mem_t * Z * list Z)) : Prop :=
  ∃ m', r = Some (m', str + Z.of_nat (length t), args) ∧ wrote m m' str t.

Lemma emit_number fuel m str n base up args : (64 <= fuel)%nat → 2 <= base <= 16 → 0 <= n < 2 ^ 64 →
  emitted m str (number_text base up n) args
    (match num_to_str fuel m str n base up with Some (m, str) => Some (m, str, args) | None => None end).
Proof.
  intros Hf Hb Hn. destruct (num_to_str_spec fuel m str n base up Hf Hb Hn) as (m' & -> & Hw).
  exists m'. split; [done|exact Hw].
Qed.

(** A prefix of characters before the rest of the field. *)
Lemma emitted_cons m m1 str l t args r : wrote m m1 str l →
  emitted m1 (str + Z.of_nat (length l)) t args r → emitted m str (l ++ t) args r.
Proof.
  intros Hw (m' & -> & Hw'). exists m'. split; [rewrite length_app; do 3 f_equal; lia|].
  by eapply wrote_app.
Qed.

Lemma emit_signed fuel m str v args : (64 <= fuel)%nat → - 2 ^ 63 <= v < 2 ^ 63 →
  emitted m str (signed_text v) args
    (let '(m, str, num) := if v <? 0 then (store8 m str 45, str + 1, u64 (- v)) else (m, str, v) in
     match num_to_str fuel m str num 10 false with Some (m, str) => Some (m, str, args) | None => None end).
Proof.
  intros Hf Hv. unfold signed_text. destruct (Z.ltb_spec v 0); [|apply emit_number; lia].
  rewrite wrap_small by lia. apply (emitted_cons m (store8 m str 45) str [45]); [by apply wrote_byte|].
  apply emit_number; lia.
Qed.

Lemma convert_spec fuel ns m l cv v str t args : conv_text l cv v = Some t → (64 <= fuel)%nat →
  (∀ a s, v = Text a s → cstr m (if a =? 0 then ns else a) s ∧ (length s < fuel)%nat ∧
     ((if a =? 0 then ns else a) + Z.of_nat (length s) < str ∨ str + Z.of_nat (length s) <= (if a =? 0 then ns else a))) →
  emitted m str t args (convert fuel ns m (conv_char cv) str (len_flags l).1 (len_flags l).2 (varg_word v :: args)).
Proof.
  intros Ht Hf Hs. pose proof (va_unsigned_range l (varg_word v)) as Hu. pose proof (va_signed_range l (varg_word v)) as Hsg.
  pose proof (wrap_range 64 (varg_word v) ltac:(lia)) as H64.
  destruct cv, v as [a|a s]; cbn [conv_text] in Ht; simplify_eq; cbn [varg_word] in *.
  all: unfold convert; cbn [conv_char va_arg Z.eqb Pos.eqb orb].
  all: rewrite ?va_signed_flags, ?va_unsigned_flags; cbv zeta.
  all: try (apply emit_signed; [done|exact Hsg]).
  all: try (apply emit_number; [done|lia|exact Hu]).
  - apply (emitted_cons m (store8 (store8 m str 48) (str + 1) 120) str [48; 120]).
    + apply (wrote_app m (store8 m str 48) _ str [48] [120]); by apply wrote_byte.
    + apply emit_number; [done|lia|exact H64].
  - destruct (Hs a t eq_refl) as (Hc & Hl & Hd).
    destruct (copy_chars_spec fuel m str _ t Hc Hl Hd) as (m' & -> & Hw). by exists m'.
  - exists (store8 m str (u8 a)). split; [done|]. apply wrote_byte, wrap_range. lia.
Qed.

Lemma pad_field_spec m m1 start t width z : wrote m m1 start t → 0 <= width < 2 ^ 31 → Z.of_nat (length t) < 2 ^ 31 →
  ∃ m2, pad_field m1 start (start + Z.of_nat (length t)) width z =
      (m2, start + Z.of_nat (length (padded z width t))) ∧ wrote m m2 start (padded z width t).
Proof.
  intros [Hb Ho] Hw Hl. unfold pad_field, padded.
  replace (start + Z.of_nat (length t) - start) with (Z.of_nat (length t)) by lia.
  rewrite swrap_small by lia. rewrite length_app, repeat_length.
  destruct (Z.ltb_spec (Z.of_nat (length t)) width) as [Hlt|Hge].
  2:{ replace (Z.to_nat (width - Z.of_nat (length t))) with 0%nat by lia. exists m1. split; [done|by split]. }
  set (k := Z.to_nat (width - Z.of_nat (length t))). replace (width - Z.of_nat (length t)) with (Z.of_nat k) by lia.
  rewrite Nat2Z.id. eexists. split; [f_equal; lia|]. set (ch := if z then 48 else 32). split.
  - apply bytes_app. rewrite repeat_length. split; apply bytes_lookup; intros i c Hi.
    + pose proof (lookup_lt_Some _ _ _ Hi) as Hlen. rewrite repeat_length in Hlen.
      assert (c = ch) as ->.
      { apply list_elem_of_lookup_2 in Hi. apply list_elem_of_In, repeat_spec in Hi. done. }
      rewrite memset_loop_in by lia. apply wrap_small. subst ch. destruct z; lia.
    + pose proof (lookup_lt_Some _ _ _ Hi) as Hlen. rewrite memset_loop_out by lia.
      rewrite memmove_down_in by lia. rewrite <- (proj1 (bytes_lookup m1 start t) Hb i c Hi). f_equal. lia.
  - rewrite length_app, repeat_length. intros x Hx.
    rewrite memset_loop_out, memmove_down_out by lia. apply Ho. lia.
Qed.

(** ** Reading a directive *)

Lemma read_width_spec fuel m a ds r rest : cstr m a (map digit_char ds ++ rest) → (∀ d, d ∈ ds → 0 <= d < 10) →
  (∀ c, head rest = Some c → c < 48 ∨ 57 < c) → (length ds < fuel)%nat →
  read_width fuel m a r = Some (foldl (λ r d, s32 (r * 10 + d)) r ds, a + Z.of_nat (length ds)).
Proof.
  revert fuel a r. induction ds as [|d ds IH]; intros [|fuel] a r Hs Hd Hh Hf; cbn [length] in Hf; try lia; cbn [read_width].
  - assert ((48 <=? load8 m a) && (load8 m a <=? 57) = false) as ->.
    { destruct rest as [|c rest]; cbn in Hs; [by rewrite Hs|]. destruct Hs as (-> & _).
      specialize (Hh c eq_refl). apply andb_false_iff. rewrite !Z.leb_gt. lia. }
    cbn. by rewrite Z.add_0_r.
  - cbn [map app] in Hs. destruct Hs as (-> & _ & Hs). pose proof (Hd d ltac:(left)) as H1.
    destruct (digit_char_range d) as [(Hc & _ & Ec)|?]; [lia| |lia].
    rewrite (proj2 (Z.leb_le 48 _)), (proj2 (Z.leb_le _ 57)) by lia. cbn [andb foldl].
    rewrite Ec. replace (d + 48 - 48) with d by lia. rewrite IH by (done || lia || (intros; apply Hd; by right)).
    cbn [length]. do 2 f_equal. lia.
Qed.

Lemma width_digits_value w : 0 <= w < 2 ^ 31 → foldl (λ r d, s32 (r * 10 + d)) 0 (width_digits w) = w.
Proof.
  intros Hw. unfold width_digits. pose proof (fold_digits 32 10 (digs 10 10 w) 0) as E. change (s32 0) with 0 in E.
  rewrite E, digs_eval by (cbn; lia). apply swrap_small; lia.
Qed.

Lemma width_digits_range w d : d ∈ width_digits w → 0 <= d < 10.
Proof. unfold width_digits. rewrite elem_of_reverse. by apply digs_range. Qed.

Lemma width_digits_length w : (length (width_digits w) <= 10)%nat.
Proof. unfold width_digits. rewrite length_reverse. apply digs_length. Qed.

Lemma conv_char_other cv : conv_char cv ≠ 108 ∧ conv_char cv ≠ 104 ∧ conv_char cv ≠ 122 ∧ 57 < conv_char cv < 256.
Proof. destruct cv; cbn; lia. Qed.

Lemma read_length_spec m a l cv rest : cstr m a (len_chars l ++ conv_char cv :: rest) →
  read_length m a = ((len_flags l).1, (len_flags l).2, a + Z.of_nat (length (len_chars l))).
Proof.
  intros Hs. pose proof (conv_char_other cv) as (H1 & H2 & H3 & _). unfold read_length.
  destruct l; cbn in Hs; repeat destruct Hs as (? & _ & Hs); cbn [len_flags len_chars length fst snd];
    repeat match goal with H : load8 m _ = _ |- _ => rewrite H; clear H end; cbn [Z.eqb Pos.eqb];
    rewrite ?(proj2 (Z.eqb_neq (conv_char cv) _)) by done; try done; by rewrite Z.add_0_r.
Qed.

(** The characters after the flag of a field begin with neither [%] nor [0]. *)
Lemma field_head w l cv rest : 0 <= w < 2 ^ 31 →
  ∃ c tl, map digit_char (width_digits w) ++ len_chars l ++ conv_char cv :: rest = c :: tl ∧ c ≠ 37 ∧ c ≠ 48.
Proof.
  intros Hw. destruct (Z.eq_dec w 0) as [->|Hnz].
  - pose proof (conv_char_other cv). destruct l; cbn; eexists _, _; (split; [reflexivity|lia]).
  - assert (head (width_digits w) ≠ Some 0) as Hh.
    { unfold width_digits. rewrite head_reverse. apply digs_last; [lia|]. cbn. lia. }
    pose proof (width_digits_range w) as Hr. destruct (width_digits w) as [|d ds] eqn:E.
    { apply (f_equal reverse) in E. unfold width_digits in E. rewrite reverse_involutive in E. cbn [digs] in E.
      by rewrite (proj2 (Z.eqb_neq w 0)) in E. }
    cbn [map app]. eexists _, _. split; [done|]. specialize (Hr d ltac:(left)). cbn in Hh.
    assert (d ≠ 0) by congruence. destruct (digit_char_range d) as [?|?]; lia.
Qed.

(** Up to the conversion character: flag, width and length modifier of a field. *)
Lemma read_field fuel m fmt z w l cv rest : 0 <= w < 2 ^ 31 → (10 < fuel)%nat →
  cstr m fmt (directive_chars (Field z w l cv) ++ rest) →
  load8 m fmt = 37 ∧ load8 m (fmt + 1) ≠ 37 ∧
  ∃ f1 f2 f3, (if load8 m (fmt + 1) =? 48 then (true, fmt + 1 + 1) else (false, fmt + 1)) = (z, f1) ∧
    read_width fuel m f1 0 = Some (w, f2) ∧ read_length m f2 = ((len_flags l).1, (len_flags l).2, f3) ∧
    load8 m f3 = conv_char cv ∧ cstr m (f3 + 1) rest ∧
    f3 + 1 = fmt + Z.of_nat (length (directive_chars (Field z w l cv))).
Proof.
  intros Hw Hf Hs. cbn [directive_chars app] in Hs. destruct Hs as (Hp & _ & Hs). split; [done|].
  destruct (field_head w l cv rest Hw) as (c & tl & Eh & Hc1 & Hc2).
  rewrite <- !app_assoc in Hs. cbn [app] in Hs.
  set (f1 := if z then fmt + 1 + 1 else fmt + 1).
  assert (load8 m (fmt + 1) ≠ 37 ∧ (load8 m (fmt + 1) =? 48) = z ∧
          cstr m f1 (map digit_char (width_digits w) ++ len_chars l ++ conv_char cv :: rest)) as (Hn & Ez & Hs1).
  { unfold f1. destruct z; cbn [app] in Hs.
    - destruct Hs as (-> & _ & Hs). done.
    - pose proof Hs as Hs'. rewrite Eh in Hs'. destruct Hs' as (-> & _). split; [done|]. split; [by apply Z.eqb_neq|done]. }
  split; [done|]. rewrite Ez.
  pose proof (read_width_spec fuel m f1 (width_digits w) 0 _ Hs1 (width_digits_range w)) as Er.
  rewrite width_digits_value in Er by done.
  pose proof (width_digits_length w). apply cstr_app in Hs1. rewrite length_map in Hs1.
  set (f2 := f1 + Z.of_nat (length (width_digits w))) in *.
  pose proof (read_length_spec m f2 l cv rest Hs1) as El. apply cstr_app in Hs1.
  set (f3 := f2 + Z.of_nat (length (len_chars l))) in *. destruct Hs1 as (Hc & _ & Hs3).
  exists f1, f2, f3. split_and!; try done.
  - unfold f1. by destruct z.
  - apply Er; [|lia]. intros ch Hch. pose proof (conv_char_other cv). destruct l; cbn in Hch; simplify_eq; lia.
  - unfold f3, f2, f1. cbn [directive_chars length]. rewrite !length_app, length_map. destruct z; cbn [length]; lia.
Qed.

(** ** The whole format *)

(** A string of length [n] at [p] and the range [lo, hi) do not overlap. *)
Definition outside (lo hi p n : Z) : Prop := p + n < lo ∨ hi <= p.

(** The string arguments are in place, outside of the output range. *)
Definition texts_ok (ns : Z) (m : mem_t) (lo hi : Z) (k : nat) (args : list varg) : Prop :=
  ∀ a s, Text a s ∈ args → cstr m (if a =? 0 then ns else a) s ∧ (length s < k)%nat ∧
    outside lo hi (if a =? 0 then ns else a) (Z.of_nat (length s)).

Lemma wrote_texts ns m m' lo hi k args str t : wrote m m' str t → lo <= str → str + Z.of_nat (length t) <= hi →
  texts_ok ns m lo hi k args → texts_ok ns m' lo hi k args.
Proof.
  intros Hw H1 H2 Ht a s Hin. destruct (Ht a s Hin) as (Hc & Hl & Ho). split; [|done].
  eapply wrote_cstr; [exact Hw|exact Hc|]. destruct Ho; lia.
Qed.

Lemma texts_ok_tail ns m lo hi k v args : texts_ok ns m lo hi k (v :: args) → texts_ok ns m lo hi k args.
Proof. intros Ht a s Hin. apply Ht. by right. Qed.

Lemma format_text_field z w l cv ds args txt : format_text (Field z w l cv :: ds) args = Some txt →
  ∃ v args' t t', args = v :: args' ∧ conv_text l cv v = Some t ∧ format_text ds args' = Some t' ∧ txt = padded z w t ++ t'.
Proof.
  cbn [format_text]. destruct args as [|v args]; [done|]. destruct (conv_text l cv v) as [t|] eqn:E1; [|done].
  destruct (format_text ds args) as [t'|] eqn:E2; [|done]. intros [= <-]. by exists v, args, t, t'.
Qed.

Section format.
Context (ns lo hi : Z) (k : nat) (Hk : (65 <= k)%nat) (Hhi : hi - lo <= 2 ^ 31).

(** What the loop does from [str] and [fmt] on. *)
Definition finishes (ds : list directive) : Prop :=
  ∀ fuel m str fmt args txt, (length ds + k < fuel)%nat → format_text ds args = Some txt →
    cstr m fmt (format_chars ds) → outside lo hi fmt (Z.of_nat (length (format_chars ds))) →
    texts_ok ns m lo hi k args → lo <= str → str + Z.of_nat (length txt) < hi →
    ∃ m', vsprintf_loop fuel ns m lo str fmt (map varg_word args) = Some (m', str + Z.of_nat (length txt) - lo) ∧
      wrote m m' str (txt ++ [0]).

(** After a directive of [n] characters has emitted [t]. *)
Lemma finishes_step ds fuel m m1 str fmt n args t txt' : finishes ds → (length ds + k < fuel)%nat →
  format_text ds args = Some txt' → wrote m m1 str t → cstr m (fmt + n) (format_chars ds) → 0 <= n →
  outside lo hi fmt (n + Z.of_nat (length (format_chars ds))) → texts_ok ns m lo hi k args → lo <= str →
  str + Z.of_nat (length (t ++ txt')) < hi →
  ∃ m', vsprintf_loop fuel ns m1 lo (str + Z.of_nat (length t)) (fmt + n) (map varg_word args) =
      Some (m', str + Z.of_nat (length (t ++ txt')) - lo) ∧ wrote m m' str ((t ++ txt') ++ [0]).
Proof.
  intros Hfin Hf Ht Hw Hs Hn Ho Hx Hlo Hh. rewrite length_app in *.
  destruct (Hfin fuel m1 (str + Z.of_nat (length t)) (fmt + n) args txt') as (m' & E & Hw'); try done; try lia.
  - eapply wrote_cstr; [exact Hw|exact Hs|]. destruct Ho; lia.
  - destruct Ho; [left|right]; lia.
  - eapply wrote_texts; [exact Hw|lia|lia|done].
  - exists m'. rewrite E. split; [do 2 f_equal; lia|]. rewrite <- app_assoc. by eapply wrote_app.
Qed.

Lemma finishes_nil : finishes [].
Proof.
  intros fuel m str fmt args txt Hf [= <-] Hs _ _ Hlo Hh. destruct fuel as [|fuel]; [lia|].
  cbn [vsprintf_loop]. cbn in Hs, Hh. rewrite Hs. cbn. rewrite swrap_small, Z.add_0_r by lia.
  eexists. split; [done|]. by apply wrote_byte.
Qed.

Lemma finishes_char c ds : directive_ok (Char c) → finishes ds → finishes (Char c :: ds).
Proof.
  intros [Hc1 Hc2] IH fuel m str fmt args txt Hf Ht Hs Ho Hx Hlo Hh.
  destruct fuel as [|fuel]; [lia|]. cbn [length] in Hf. cbn [format_text] in Ht.
  destruct (format_text ds args) as [t'|] eqn:Et; [|done]. simplify_eq.
  change (format_chars (Char c :: ds)) with (c :: format_chars ds) in *. destruct Hs as (Hl & Hz & Hs).
  cbn [vsprintf_loop]. rewrite Hl, (proj2 (Z.eqb_neq c 0)), (proj2 (Z.eqb_neq c 37)) by done. cbn [negb].
  cbn [length] in Ho. apply (finishes_step ds fuel m _ str fmt 1 args [c] t'); try done; try lia.
  - apply wrote_byte. lia.
  - by replace (1 + Z.of_nat (length (format_chars ds))) with (Z.of_nat (S (length (format_chars ds)))) by lia.
Qed.

Lemma finishes_percent ds : finishes ds → finishes (Percent :: ds).
Proof.
  intros IH fuel m str fmt args txt Hf Ht Hs Ho Hx Hlo Hh.
  destruct fuel as [|fuel]; [lia|]. cbn [length] in Hf. cbn [format_text] in Ht.
  destruct (format_text ds args) as [t'|] eqn:Et; [|done]. simplify_eq.
  change (format_chars (Percent :: ds)) with (37 :: 37 :: format_chars ds) in *.
  destruct Hs as (Hl & _ & Hl2 & _ & Hs).
  cbn [vsprintf_loop]. rewrite Hl, Hl2. cbn [negb Z.eqb Pos.eqb].
  cbn [length] in Ho. rewrite <- Z.add_assoc in *. apply (finishes_step ds fuel m _ str fmt (1 + 1) args [37] t'); try done; try lia.
  - by apply wrote_byte.
  - by replace (1 + 1 + Z.of_nat (length (format_chars ds))) with (Z.of_nat (S (S (length (format_chars ds))))) by lia.
Qed.

Lemma finishes_field z w l cv ds : directive_ok (Field z w l cv) → finishes ds → finishes (Field z w l cv :: ds).
Proof.
  intros Hok IH fuel m str fmt args txt Hf Ht Hs Ho Hx Hlo Hh.
  destruct fuel as [|fuel]; [lia|]. cbn [length] in Hf.
  apply format_text_field in Ht as (v & args' & t & t' & -> & Hcv & Ht & ->).
  change (format_chars (Field z w l cv :: ds)) with (directive_chars (Field z w l cv) ++ format_chars ds) in *.
  destruct (read_field fuel m fmt z w l cv _ Hok ltac:(lia) Hs)
    as (Hp & Hp2 & f1 & f2 & f3 & E1 & E2 & E3 & E4 & Hs' & E5).
  cbn [vsprintf_loop map]. rewrite Hp, (proj2 (Z.eqb_neq _ _) Hp2), E1, E2, E3, E4. cbn [negb Z.eqb Pos.eqb].
  assert (length t <= length (padded z w t))%nat as Hpl by (unfold padded; rewrite length_app; lia).
  rewrite length_app in Hh. 
  destruct (convert_spec fuel ns m l cv v str t (map varg_word args') Hcv) as (m1 & -> & Hw1); [lia| |].
  { intros a s ->. destruct (Hx a s ltac:(left)) as (Hc & Hl & Hd). split; [done|]. split; [lia|].
    assert (s = t) as -> by (destruct cv; cbn in Hcv; simplify_eq; done). destruct Hd; [left|right]; lia. }
  destruct (pad_field_spec m m1 str t w z Hw1 Hok) as (m2 & -> & Hw2); [lia|].
  rewrite E5. rewrite length_app, Nat2Z.inj_add in Ho. rewrite E5 in Hs'.
  apply (finishes_step ds fuel m m2 str fmt _ args' (padded z w t) t'); try done; try lia.
  - by eapply texts_ok_tail.
  - rewrite length_app. lia.
Qed.

Lemma finishes_all ds : Forall directive_ok ds → finishes ds.
Proof.
  induction 1 as [|d ds Hd _ IH]; [apply finishes_nil|].
  destruct d; [by apply finishes_char|by apply finishes_percent|by apply finishes_field].
Qed.
End format.

(** C6: [vsprintf] prints every format made of ordinary characters, [%%] and
    conversions with zero flag, width and length modifier: the buffer receives
    exactly the text the directives denote ([%d] signed, [%u], [%x], [%X], [%o] in
    their bases at the width of the modifier, [%p], [%s], [%c], padded on the left
    to the width) and a NUL, no other byte changes, and the result is the length
    of the text.  The buffer must not overlap the format or the string arguments. *)
Theorem vsprintf_correct ns m buf fmt ds args txt k fuel :
  Forall directive_ok ds → format_text ds args = Some txt → cstr m fmt (format_chars ds) →
  Z.of_nat (length txt) < 2 ^ 31 → let hi := buf + Z.of_nat (length txt) + 1 in
  outside buf hi fmt (Z.of_nat (length (format_chars ds))) → texts_ok ns m buf hi k args →
  (65 <= k)%nat → (length ds + k < fuel)%nat →
  ∃ m', vsprintf fuel ns m buf fmt (map varg_word args) = Some (m', Z.of_nat (length txt)) ∧ wrote m m' buf (txt ++ [0]).
Proof.
  intros Hds Ht Hs Hl hi Ho Hx Hk Hf. unfold vsprintf.
  destruct (finishes_all ns buf hi k Hk ltac:(lia) ds Hds fuel m buf fmt args txt) as (m' & E & Hw); try done; try lia.
  exists m'. rewrite E. split; [do 2 f_equal; lia|done].
Qed.

(** "%05d|%s" with the arguments -42 and the string "ab" at 0x300. *)
Definition fmt_demo : list directive := [Field true 5 LenNone ConvD; Char 124; Field false 0 LenNone ConvS].
Definition mem_demo : mem_t := put_string (put_string ∅ 0x100 (format_chars fmt_demo)) 0x300 [97; 98].

Lemma vsprintf_correct_witness :
  ∃ m', vsprintf 100 0x900 mem_demo 0x200 0x100 [-42; 0x300] = Some (m', 8) ∧
    wrote mem_demo m' 0x200 ([48; 48; 45; 52; 50; 124; 97; 98] ++ [0]).
Proof.
  apply (vsprintf_correct 0x900 mem_demo 0x200 0x100 fmt_demo [Word (-42); Text 0x300 [97; 98]]
    [48; 48; 45; 52; 50; 124; 97; 98] 65 100).
  - repeat constructor; cbn; lia.
  - vm_compute. reflexivity.
  - vm_compute. repeat split; lia.
  - cbn. lia.
  - left. vm_compute. reflexivity.
  - intros a s Hin. apply elem_of_cons in Hin as [[=]|Hin]. apply list_elem_of_singleton in Hin as [= -> ->].
    split; [vm_compute; repeat split; lia|]. split; [cbn; lia|]. right. vm_compute. discriminate.
  - lia.
  - cbn. lia.
Defined.

(** ** What the formatters do beside it *)

(** a format that ends in a lone [%] makes [vsprintf] step over the
    terminator: of the bytes "%", NUL, "AB", NUL it prints also those behind the
    end of the format. *)
Theorem vsprintf_trailing_percent :
  ∃ m', vsprintf 100 0x900 (put_chars ∅ 0x100 [37; 0; 65; 66; 0]).1 0x200 0x100 [] = Some (m', 4) ∧
    bytes m' 0x200 [37; 0; 65; 66; 0].
Proof. eexists. split; [vm_compute; reflexivity|]. vm_compute. repeat split. Qed.

(** [printf] converts every number through a signed 32-bit [itoa]: [%u] prints
    3000000000 as -1294967296, and [%llx] drops the upper half of its argument. *)
Theorem printf_truncates :
  printf true 100 0x900 0x800 (put_string ∅ 0x100 [37; 117]) 0x100 [3000000000] =
    Some ([45; 49; 50; 57; 52; 57; 54; 55; 50; 57; 54], 11) ∧
  printf true 100 0x900 0x800 (put_string ∅ 0x100 [37; 108; 108; 120]) 0x100 [0x1234500000007] =
    Some ([48; 120; 55], 3).
Proof. split; vm_compute; reflexivity. Qed.

(** [%f] drops the leading zeros of the fraction: the double 1.05 is printed
    as "1.50000". *)
Theorem printf_float_fraction :
  printf true 100 0x900 0x800 (put_string ∅ 0x100 [37; 102]) 0x100 [4607407598781385933] =
    Some ([49; 46; 53; 48; 48; 48; 48], 7).
Proof. vm_compute. reflexivity. Qed.
