(* ===== verification/Io.v ===== *)
(** * Ports, registers and intrusive lists ([arch/x86_64/io.c], [includes/io.h])

    The hardware is a parameter: an instance of [Bus] gives the effect of port
    and memory-mapped accesses, of model-specific registers and of CR4 on the
    state of the device.  The drivers are written against the class; their
    theorems hold for every device, or for an instance that models the chip.
    The circular lists of [io.h] live in the byte memory. *)

From stdpp Require Import prelude gmap list numbers tactics.
From S2P Require Import Prelude Memory.

Class Bus (D : Type) := {
  bus_in : Z → Z → D → Z * D;             (* operand width, port *)
  bus_out : Z → Z → Z → D → D;            (* operand width, port, value *)
  mmio_read : Z → D → Z * D;              (* 32-bit register at an address *)
  mmio_write : Z → Z → D → D;
  msr_read : Z → D → Z;
  msr_write : Z → Z → D → D;
  cr4_read : D → Z;
  cr4_write : Z → D → D
}.

(** A computation on a part of the state. *)
Definition zoom {S T A} (get : T → S) (set : S → T → T) (c : M S A) : M T A := λ t,
  match c (get t) with Some (a, s) => Some (a, set s t) | None => None end.

Lemma wp_zoom {S T A} (get : T → S) (set : S → T → T) (c : M S A) Q t :
  wp c (λ a s, Q a (set s t)) (get t) → wp (zoom get set c) Q t.
Proof. unfold wp, zoom. destruct (c (get t)) as [[a s]|]; done. Qed.

Section ports.
Context {D : Type} `{Bus D}.

Definition port_in (w port : Z) : M D Z := λ d, let '(v, d) := bus_in w port d in Some (wrap w v, d).
Definition port_out (w port v : Z) : M D unit := modify (bus_out w port (wrap w v)).

Definition inb (port : Z) : M D Z := port_in 8 port.
Definition outb (port val : Z) : M D unit := port_out 8 port val.
Definition inw (port : Z) : M D Z := port_in 16 port.
Definition outw (port value : Z) : M D unit := port_out 16 port value.
Definition inl (port : Z) : M D Z := port_in 32 port.
Definition outl (port value : Z) : M D unit := port_out 32 port value.

Definition UNUSED_PORT : Z := 0x80.
Definition iowait : M D unit := outb UNUSED_PORT 0.

(** [EDX:EAX] of a model-specific register. *)
Definition cpuGetMSR (msr : Z) : M D (Z * Z) :=
  v ← gets (msr_read msr); mret (u32 v, u32 (Z.shiftr v 32)).
Definition cpuSetMSR (msr eax edx : Z) : M D unit :=
  modify (msr_write msr (Z.lor (u32 eax) (Z.shiftl (u32 edx) 32))).

Definition ReadCR4 : M D Z := gets (λ d, u64 (cr4_read d)).
Definition WriteCR4 (cr4 : Z) : M D unit := modify (cr4_write (u64 cr4)).

Definition reg_read (a : Z) : M D Z := λ d, let '(v, d) := mmio_read a d in Some (u32 v, d).
Definition reg_write (a v : Z) : M D unit := modify (mmio_write a (u32 v)).
End ports.

(** ** Intrusive lists: [next] at +0, [prev] at +8 of a [list_t] *)

Definition next_of (m : gmap Z Z) (n : Z) : Z := load64 m n.
Definition prev_of (m : gmap Z Z) (n : Z) : Z := load64 m (n + 8).
Definition set_next (m : gmap Z Z) (n v : Z) : gmap Z Z := store64 m n v.
Definition set_prev (m : gmap Z Z) (n v : Z) : gmap Z Z := store64 m (n + 8) v.

Definition list_init (m : gmap Z Z) (list : Z) : gmap Z Z := set_prev (set_next m list list) list list.

Definition list_last (m : gmap Z Z) (list : Z) : Z :=
  if negb (prev_of m list =? list) then prev_of m list else 0.
Definition list_next (m : gmap Z Z) (list : Z) : Z :=
  if negb (next_of m list =? list) then next_of m list else 0.

Definition list_insert (m : gmap Z Z) (new link : Z) : gmap Z Z :=
  let m := set_prev m new (prev_of m link) in
  let m := set_next m new link in
  let m := set_next m (prev_of m new) new in
  set_prev m (next_of m new) new.
Definition list_append (m : gmap Z Z) (new into : Z) : gmap Z Z := list_insert m new into.

Definition list_remove (m : gmap Z Z) (list : Z) : gmap Z Z :=
  let m := set_next m (prev_of m list) (next_of m list) in
  let m := set_prev m (next_of m list) (prev_of m list) in
  let m := set_next m list list in
  set_prev m list list.

(** The nodes [l] hang between [x] and [y] in both directions. *)
Fixpoint seg (m : gmap Z Z) (x : Z) (l : list Z) (y : Z) : Prop :=
  match l with
  | [] => next_of m x = y ∧ prev_of m y = x
  | z :: l => next_of m x = z ∧ prev_of m z = x ∧ seg m z l y
  end.

(** A list head [h] with the nodes [l]: a ring of nodes that do not overlap. *)
Record ring (m : gmap Z Z) (h : Z) (l : list Z) : Prop := {
  ring_seg : seg m h l h;
  ring_nodup : NoDup (h :: l);
}.

(** Nodes are 16-byte objects at addresses the 64-bit space holds. *)
Definition nodes_ok (ns : list Z) : Prop :=
  (∀ x, x ∈ ns → 0 <= x < 2 ^ 64) ∧ ∀ x y, x ∈ ns → y ∈ ns → x = y ∨ x + 16 <= y ∨ y + 16 <= x.

Section fields.
Context (ns : list Z) (Hns : nodes_ok ns).
Implicit Types x y v : Z.

Lemma next_set_next m x y v : x ∈ ns → y ∈ ns → v ∈ ns →
  next_of (set_next m x v) y = if decide (x = y) then v else next_of m y.
Proof.
  intros Hx Hy Hv. unfold next_of, set_next. destruct (decide (x = y)) as [->|Hn].
  - apply load64_store64_eq. by apply Hns.
  - apply load64_apart. destruct (proj2 Hns x y Hx Hy) as [?|?]; [done|]. unfold apart. lia.
Qed.
Lemma prev_set_prev m x y v : x ∈ ns → y ∈ ns → v ∈ ns →
  prev_of (set_prev m x v) y = if decide (x = y) then v else prev_of m y.
Proof.
  intros Hx Hy Hv. unfold prev_of, set_prev. destruct (decide (x = y)) as [->|Hn].
  - apply load64_store64_eq. by apply Hns.
  - apply load64_apart. destruct (proj2 Hns x y Hx Hy) as [?|?]; [done|]. unfold apart. lia.
Qed.
Lemma next_set_prev m x y v : x ∈ ns → y ∈ ns → next_of (set_prev m x v) y = next_of m y.
Proof.
  intros Hx Hy. unfold next_of, set_prev. apply load64_apart. unfold apart.
  destruct (proj2 Hns x y Hx Hy); lia.
Qed.
Lemma prev_set_next m x y v : x ∈ ns → y ∈ ns → prev_of (set_next m x v) y = prev_of m y.
Proof.
  intros Hx Hy. unfold prev_of, set_next. apply load64_apart. unfold apart.
  destruct (proj2 Hns x y Hx Hy); lia.
Qed.
End fields.

(** A segment only depends on the forward links of [x :: l] and the backward links of [l] and [y]. *)
Lemma seg_ext m m' x l y : (∀ n, n ∈ x :: l → next_of m' n = next_of m n) →
  (∀ n, n ∈ l ++ [y] → prev_of m' n = prev_of m n) → seg m x l y → seg m' x l y.
Proof.
  revert x. induction l as [|z l IH]; intros x Hn Hp; cbn [seg].
  - rewrite Hn, Hp by (cbn; left). done.
  - rewrite Hn by left. rewrite (Hp z) by (cbn; left). intros (-> & -> & Hs). split; [done|]. split; [done|].
    apply IH; [intros n Hi; apply Hn; by right|intros n Hi; apply Hp; cbn; by right|done].
Qed.

Lemma seg_app m x l1 z l2 y : seg m x (l1 ++ z :: l2) y ↔ seg m x l1 z ∧ seg m z l2 y.
Proof.
  revert x. induction l1 as [|w l1 IH]; intros x; cbn [app seg]; [tauto|]. rewrite IH. tauto.
Qed.

(** The node before [y]. *)
Fixpoint before (x : Z) (l : list Z) : Z := match l with [] => x | z :: l => before z l end.

Lemma seg_prev m x l y : seg m x l y → prev_of m y = before x l.
Proof. revert x. induction l as [|z l IH]; intros x; cbn; [tauto|]. intros (_ & _ & Hs). by apply IH. Qed.

Lemma before_snoc x l b : before x (l ++ [b]) = b.
Proof. revert x. induction l as [|z l IH]; intros x; cbn; [done|apply IH]. Qed.

Lemma before_elem x l : before x l ∈ x :: l.
Proof. revert x. induction l as [|z l IH]; intros x; cbn; [left|]. right. apply IH. Qed.

(** Reading the links back after writes to nodes known to be equal or distinct. *)
Ltac links Hns :=
  repeat first
    [ rewrite (next_set_prev _ Hns) by done | rewrite (prev_set_next _ Hns) by done
    | rewrite (next_set_next _ Hns) by done | rewrite (prev_set_prev _ Hns) by done
    | rewrite decide_True by congruence | rewrite decide_False by congruence ]; done.

(** The new node between [b] and [h], in terms of the links. *)
Lemma list_insert_links m ns new h b : nodes_ok ns → new ∈ ns → h ∈ ns → b ∈ ns → b ≠ new → h ≠ new → prev_of m h = b →
  let m' := list_insert m new h in
  next_of m' b = new ∧ prev_of m' new = b ∧ next_of m' new = h ∧ prev_of m' h = new ∧
  (∀ n, n ∈ ns → n ≠ b → n ≠ new → next_of m' n = next_of m n) ∧
  (∀ n, n ∈ ns → n ≠ h → n ≠ new → prev_of m' n = prev_of m n).
Proof.
  intros Hns Hn Hh Hb Hbn Hhn Hp m'. subst m'. unfold list_insert. rewrite Hp.
  set (m1 := set_next (set_prev m new b) new h).
  assert (prev_of m1 new = b) as E1 by (unfold m1; links Hns).
  assert (next_of (set_next m1 b new) new = h) as E3 by (unfold m1; links Hns).
  rewrite E1, E3. unfold m1. split_and!; try intros n Hin H1 H2; links Hns.
Qed.

(** [list_append] puts the new node at the end of a ring: forwards and
    backwards the list is the old one followed by the node. *)
Theorem list_append_correct m h l new : ring m h l → new ∉ h :: l → nodes_ok (new :: h :: l) →
  ring (list_append m new h) h (l ++ [new]).
Proof.
  intros [Hs Hnd] Hnew Hns. pose proof (before_elem h l) as Hb.
  assert (before h l ≠ new) by (intros E; by rewrite E in Hb). assert (h ≠ new) by set_solver.
  destruct (list_insert_links m (new :: h :: l) new h (before h l)) as (L1 & L2 & L3 & L4 & Ln & Lp);
    [done|left|by right; left|by right|done|done|by eapply seg_prev|].
  fold (list_append m new h) in *. set (m' := list_append m new h) in *. split.
  - apply seg_app. cbn [seg]. split; [|done]. clear Hb.
    destruct l as [|b l _] using rev_ind; [done|]. rewrite before_snoc in *.
    apply seg_app in Hs as [Hs _]. apply seg_app. cbn [seg]. split; [|done].
    apply list.NoDup_cons in Hnd as [Hh Hnd]. apply list.NoDup_app in Hnd as (_ & Hbl & _).
    eapply seg_ext; [| |exact Hs]; intros n Hin.
    + apply Ln; [set_solver| |set_solver]. intros ->. apply elem_of_cons in Hin as [->|Hin]; [set_solver|].
      apply (Hbl b Hin). by left.
    + apply Lp; [set_solver| |set_solver]. intros ->. set_solver.
  - apply list.NoDup_cons in Hnd as [Hh Hnd]. apply list.NoDup_cons. split; [set_solver|].
    apply list.NoDup_app. split; [done|]. split; [set_solver|apply NoDup_singleton].
Qed.

(** The neighbours of a removed node joined, in terms of the links. *)
Lemma list_remove_links m ns a x b : nodes_ok ns → a ∈ ns → x ∈ ns → b ∈ ns → a ≠ x → b ≠ x →
  prev_of m x = a → next_of m x = b →
  let m' := list_remove m x in
  next_of m' a = b ∧ prev_of m' b = a ∧ next_of m' x = x ∧ prev_of m' x = x ∧
  (∀ n, n ∈ ns → n ≠ a → n ≠ x → next_of m' n = next_of m n) ∧
  (∀ n, n ∈ ns → n ≠ b → n ≠ x → prev_of m' n = prev_of m n).
Proof.
  intros Hns Ha Hx Hb Hax Hbx Hp Hn m'. subst m'. unfold list_remove. rewrite Hp, Hn.
  assert (next_of (set_next m a b) x = b) as E1 by links Hns.
  assert (prev_of (set_next m a b) x = a) as E2 by links Hns.
  rewrite E1, E2. split_and!; try intros n Hin H1 H2; links Hns.
Qed.

(** [list_remove] unlinks a node of a ring: the others stay linked in order
    in both directions and the node becomes a list of its own. *)
Theorem list_remove_correct m h l1 x l2 : ring m h (l1 ++ x :: l2) → nodes_ok (h :: l1 ++ x :: l2) →
  ring (list_remove m x) h (l1 ++ l2) ∧ ring (list_remove m x) x [].
Proof.
  intros [Hs Hnd] Hns. apply seg_app in Hs as [Hs1 Hs2].
  assert (next_of m x = match l2 with [] => h | b :: _ => b end) as Hb by (destruct l2; apply Hs2).
  set (b := match l2 with [] => h | b :: _ => b end) in *.
  assert (b ∈ h :: l2) as Hbin by (destruct l2; set_solver).
  pose proof (before_elem h l1) as Ha. set (a := before h l1) in *.
  assert (x ∉ h :: l1 ∧ x ∉ h :: l2 ∧ NoDup (h :: l1 ++ l2)) as (Hx1 & Hx2 & Hnd').
  { apply list.NoDup_cons in Hnd as [Hh Hnd]. apply list.NoDup_app in Hnd as (N1 & N2 & N3).
    apply list.NoDup_cons in N3 as [Hx N3]. split_and!; [set_solver|set_solver|].
    apply list.NoDup_cons. split; [set_solver|]. apply list.NoDup_app. split_and!; set_solver. }
  destruct (list_remove_links m (h :: l1 ++ x :: l2) a x b) as (L1 & L2 & L3 & L4 & Ln & Lp);
    [done|set_solver|set_solver|set_solver|set_solver|set_solver|by eapply seg_prev|done|].
  set (m' := list_remove m x) in *. split; [|by split; [|apply NoDup_singleton]].
  split; [|done]. clear Hns.
  assert (seg m' h l1 b) as Hs1'.
  { clear Hs2 L3 L4 Hb. clearbody b. destruct l1 as [|c l1 _] using rev_ind; [done|]. subst a. rewrite before_snoc in *.
    apply seg_app in Hs1 as [Hs1 _]. apply seg_app. split; [|done].
    apply list.NoDup_cons in Hnd' as [Hh Hnd']. apply list.NoDup_app in Hnd' as (N1 & N2 & _).
    apply list.NoDup_app in N1 as (_ & Hcl & _).
    eapply seg_ext; [| |exact Hs1]; intros n Hin.
    - apply Ln; [set_solver| |set_solver]. intros ->. apply elem_of_cons in Hin as [->|Hin]; [set_solver|].
      apply (Hcl c Hin). by left.
    - apply Lp; [set_solver| |set_solver]. intros ->. apply elem_of_cons in Hbin as [->|Hbin]; [set_solver|].
      by apply (N2 b Hin). }
  destruct l2 as [|z l2].
  - by rewrite app_nil_r.
  - apply seg_app. split; [done|]. destruct Hs2 as (_ & _ & Hs2). subst b.
    apply list.NoDup_cons in Hnd' as [Hh Hnd']. apply list.NoDup_app in Hnd' as (_ & N2 & N3).
    apply list.NoDup_cons in N3 as [Hz _]. eapply seg_ext; [| |exact Hs2]; intros n Hin.
    + apply Ln; [set_solver| |set_solver]. intros ->. apply elem_of_cons in Ha as [->|Ha]; [set_solver|].
      by apply (N2 a Ha).
    + apply Lp; [set_solver| |set_solver]. intros ->. apply elem_of_app in Hin as [Hin|Hin]; [done|set_solver].
Qed.

(** A head at 0x100 with the nodes 0x200 and 0x300. *)
Definition ring_demo : gmap Z Z := list_append (list_append (list_init ∅ 0x100) 0x200 0x100) 0x300 0x100.

Lemma ring_demo_ok : ring ring_demo 0x100 [0x200; 0x300].
Proof. split; [vm_compute; repeat split|]. by apply (bool_decide_unpack _); vm_compute. Qed.

Lemma list_append_correct_witness : ring (list_append ring_demo 0x400 0x100) 0x100 [0x200; 0x300; 0x400].
Proof.
  apply (list_append_correct ring_demo 0x100 [0x200; 0x300] 0x400 ring_demo_ok); [set_solver|].
  split; intros; set_unfold; lia.
Defined.

Lemma list_remove_correct_witness :
  ring (list_remove ring_demo 0x200) 0x100 [0x300] ∧ ring (list_remove ring_demo 0x200) 0x200 [].
Proof.
  apply (list_remove_correct ring_demo 0x100 [] 0x200 [0x300] ring_demo_ok).
  split; intros; set_unfold; lia.
Defined.
