(* ===== verification/Pic.v ===== *)
(** * The 8259 interrupt controllers ([drivers/pic/pic.c])

    The driver over any [Bus], and [pics]: the cascaded pair of 8259A chips as
    their data sheet describes them (initialisation sequence, mask register,
    in-service and request registers, end-of-interrupt command), an instance of
    [Bus] on which the driver's effect is stated. *)

From stdpp Require Import prelude gmap list numbers tactics.
From S2P Require Import Prelude Io.

Definition PIC1_COMMAND_PORT : Z := 0x20.
Definition PIC1_DATA_PORT : Z := 0x21.
Definition PIC2_COMMAND_PORT : Z := 0xA0.
Definition PIC2_DATA_PORT : Z := 0xA1.
Definition PIC_ICW1_ICW4 : Z := 0x01.
Definition PIC_ICW1_INITIALIZE : Z := 0x10.
Definition PIC_ICW4_8086 : Z := 0x1.
Definition PIC_CMD_END_OF_INTERRUPT : Z := 0x20.
Definition PIC_CMD_READ_IRR : Z := 0x0A.
Definition PIC_CMD_READ_ISR : Z := 0x0B.

Section driver.
Context {D : Type} `{Bus D}.

Definition PIC_Configure (offsetPic1 offsetPic2 : Z) : M D unit :=
  outb PIC1_COMMAND_PORT (Z.lor PIC_ICW1_ICW4 PIC_ICW1_INITIALIZE);; iowait;;
  outb PIC2_COMMAND_PORT (Z.lor PIC_ICW1_ICW4 PIC_ICW1_INITIALIZE);; iowait;;
  outb PIC1_DATA_PORT offsetPic1;; iowait;;
  outb PIC2_DATA_PORT offsetPic2;; iowait;;
  outb PIC1_DATA_PORT 0x4;; iowait;;
  outb PIC2_DATA_PORT 0x2;; iowait;;
  outb PIC1_DATA_PORT PIC_ICW4_8086;; iowait;;
  outb PIC2_DATA_PORT PIC_ICW4_8086;; iowait;;
  outb PIC1_DATA_PORT 0;; iowait;;
  outb PIC2_DATA_PORT 0;; iowait.

Definition PIC_SendEndOfInterrupt (irq : Z) : M D unit :=
  mwhen (8 <=? irq) (outb PIC2_COMMAND_PORT PIC_CMD_END_OF_INTERRUPT;; iowait);;
  outb PIC1_COMMAND_PORT PIC_CMD_END_OF_INTERRUPT.

Definition PIC_Disable : M D unit :=
  outb PIC1_DATA_PORT 0xFF;; iowait;;
  outb PIC2_DATA_PORT 0xFF;; iowait.

(** The source computes a [port] it then discards; the register read and
    written is the one of the first controller. *)
Definition PIC_Mask (irq : Z) : M D unit :=
  let irq := if irq <? 8 then irq else irq - 8 in
  mask ← inb PIC1_DATA_PORT;
  outb PIC1_DATA_PORT (Z.lor mask (Z.shiftl 1 irq)).

Definition PIC_Unmask (irq : Z) : M D unit :=
  let irq := if irq <? 8 then irq else irq - 8 in
  mask ← inb PIC1_DATA_PORT;
  outb PIC1_DATA_PORT (Z.land mask (Z.lnot (Z.shiftl 1 irq))).

Definition PIC_ReadIrqRequestRegister : M D Z :=
  outb PIC1_COMMAND_PORT PIC_CMD_READ_IRR;;
  outb PIC2_COMMAND_PORT PIC_CMD_READ_IRR;;
  lo ← inb PIC2_COMMAND_PORT; hi ← inb PIC2_COMMAND_PORT;
  mret (u16 (Z.lor lo (Z.shiftl hi 8))).

Definition PIC_ReadInServiceRegister : M D Z :=
  outb PIC1_COMMAND_PORT PIC_CMD_READ_ISR;;
  outb PIC2_COMMAND_PORT PIC_CMD_READ_ISR;;
  lo ← inb PIC2_COMMAND_PORT; hi ← inb PIC2_COMMAND_PORT;
  mret (u16 (Z.lor lo (Z.shiftl hi 8))).
End driver.

(** ** The 8259A *)

(** The word a chip expects next on its data port. *)
Inductive icw_step := Operating | WantICW2 | WantICW3 | WantICW4.

Record chip := mk_chip {
  step : icw_step; want4 : bool; single : bool;
  vector : Z; cascade : Z; mode : Z;
  imr : Z; irr : Z; isr : Z; read_isr : bool
}.

(** The highest-priority bit of a register is the lowest one set. *)
Fixpoint clear_lowest (n : nat) (i v : Z) : Z :=
  match n with
  | O => v
  | S n => if Z.testbit v i then Z.clearbit v i else clear_lowest n (i + 1) v
  end.

Definition chip_command (v : Z) (c : chip) : chip :=
  if Z.testbit v 4 then
    mk_chip WantICW2 (Z.testbit v 0) (Z.testbit v 1) (vector c) (cascade c) (mode c) 0 0 0 false
  else if Z.testbit v 3 then
    if Z.testbit v 1 then
      mk_chip (step c) (want4 c) (single c) (vector c) (cascade c) (mode c) (imr c) (irr c) (isr c) (Z.testbit v 0)
    else c
  else if Z.shiftr v 5 =? 1 then
    mk_chip (step c) (want4 c) (single c) (vector c) (cascade c) (mode c) (imr c) (irr c)
      (clear_lowest 8 0 (isr c)) (read_isr c)
  else c.

Definition chip_data (v : Z) (c : chip) : chip :=
  let after3 := if want4 c then WantICW4 else Operating in
  match step c with
  | WantICW2 => mk_chip (if single c then after3 else WantICW3) (want4 c) (single c) (Z.land v 0xF8) (cascade c) (mode c)
                  (imr c) (irr c) (isr c) (read_isr c)
  | WantICW3 => mk_chip after3 (want4 c) (single c) (vector c) v (mode c) (imr c) (irr c) (isr c) (read_isr c)
  | WantICW4 => mk_chip Operating (want4 c) (single c) (vector c) (cascade c) v (imr c) (irr c) (isr c) (read_isr c)
  | Operating => mk_chip Operating (want4 c) (single c) (vector c) (cascade c) (mode c) v (irr c) (isr c) (read_isr c)
  end.

Definition chip_status (c : chip) : Z := if read_isr c then isr c else irr c.

Record pics := mk_pics { pic1 : chip; pic2 : chip }.

#[export] Instance pics_bus : Bus pics := {|
  bus_in w port d :=
    (if port =? 0x20 then chip_status (pic1 d) else if port =? 0x21 then imr (pic1 d)
     else if port =? 0xA0 then chip_status (pic2 d) else if port =? 0xA1 then imr (pic2 d) else 0xFF, d);
  bus_out w port v d :=
    if port =? 0x20 then mk_pics (chip_command v (pic1 d)) (pic2 d)
    else if port =? 0x21 then mk_pics (chip_data v (pic1 d)) (pic2 d)
    else if port =? 0xA0 then mk_pics (pic1 d) (chip_command v (pic2 d))
    else if port =? 0xA1 then mk_pics (pic1 d) (chip_data v (pic2 d)) else d;
  mmio_read a d := (0, d); mmio_write a v d := d;
  msr_read r d := 0; msr_write r v d := d; cr4_read d := 0; cr4_write v d := d
|}.

(** A chip that finished initialisation, its mask register and interrupts in service. *)
Definition operating (c : chip) (vec casc mask inservice : Z) : Prop :=
  step c = Operating ∧ vector c = vec ∧ cascade c = casc ∧ mode c = 1 ∧ imr c = mask ∧ isr c = inservice.

Lemma vector_byte o : 0 <= o < 256 → o mod 8 = 0 → Z.land (u8 o) 0xF8 = o.
Proof.
  intros Ho H8. rewrite wrap_small by lia.
  assert (∀ n : nat, (n < 32)%nat → Z.land (8 * Z.of_nat n) 0xF8 = 8 * Z.of_nat n) as Hall.
  { intros n Hn. do 32 (destruct n as [|n]; [reflexivity|]). lia. }
  specialize (Hall (Z.to_nat (o / 8))). rewrite Z2Nat.id in Hall by zlia.
  replace (8 * (o / 8)) with o in Hall by zlia. apply Hall. zlia.
Qed.

(** whatever state the two chips are in, [PIC_Configure] takes both through
    the whole initialisation sequence: they end up operating in 8086 mode with
    the given vector offsets, cascaded on line 2, nothing masked and nothing in
    service. *)
Theorem PIC_Configure_correct d o1 o2 : 0 <= o1 < 256 → 0 <= o2 < 256 → o1 mod 8 = 0 → o2 mod 8 = 0 →
  wp (PIC_Configure o1 o2) (λ _ d', operating (pic1 d') o1 4 0 0 ∧ operating (pic2 d') o2 2 0 0) d.
Proof.
  intros H1 H2 A1 A2. unfold wp, PIC_Configure, iowait, outb, port_out, bind, modify, UNUSED_PORT, operating.
  change (Z.lor PIC_ICW1_ICW4 PIC_ICW1_INITIALIZE) with 0x11. destruct d as [c1 c2]. cbn -[wrap Z.land].
  change (u8 17) with 17. lazy -[wrap Z.land].
  rewrite !vector_byte by done. done.
Qed.

(** on lines 0 to 7 [PIC_Mask] sets exactly the line's bit of the first
    controller's mask register, [PIC_Unmask] clears exactly it, and everything
    else stays. *)
Theorem PIC_mask_correct d irq : 0 <= irq < 8 → step (pic1 d) = Operating → 0 <= imr (pic1 d) < 256 →
  wp (PIC_Mask irq) (λ _ d', pic2 d' = pic2 d ∧ vector (pic1 d') = vector (pic1 d) ∧ isr (pic1 d') = isr (pic1 d) ∧
    ∀ i, 0 <= i < 8 → Z.testbit (imr (pic1 d')) i = (if i =? irq then true else Z.testbit (imr (pic1 d)) i)) d ∧
  wp (PIC_Unmask irq) (λ _ d', pic2 d' = pic2 d ∧ vector (pic1 d') = vector (pic1 d) ∧ isr (pic1 d') = isr (pic1 d) ∧
    ∀ i, 0 <= i < 8 → Z.testbit (imr (pic1 d')) i = (if i =? irq then false else Z.testbit (imr (pic1 d)) i)) d.
Proof.
  intros Hi Hs Hm. unfold PIC_Mask, PIC_Unmask, inb, outb, port_in, port_out, wp, bind, modify.
  rewrite (proj2 (Z.ltb_lt irq 8)) by lia. cbn -[wrap Z.lor Z.land Z.shiftl Z.lnot Z.testbit].
  unfold chip_data. rewrite Hs. cbn -[wrap Z.lor Z.land Z.shiftl Z.lnot Z.testbit].
  rewrite (wrap_small 8 (imr (pic1 d))) by lia.
  split; (split; [done|]; split; [done|]; split; [done|]); intros i Hr; unfold wrap;
    rewrite Z.mod_pow2_bits_low by lia.
  - rewrite Z.lor_spec, Z.shiftl_spec by lia. destruct (Z.eqb_spec i irq) as [->|Hn].
    + rewrite Z.sub_diag. by rewrite orb_true_r.
    + destruct (Z.lt_ge_cases i irq).
      * rewrite (Z.testbit_neg_r 1), orb_false_r by lia. done.
      * replace (Z.testbit 1 (i - irq)) with false; [by rewrite orb_false_r|]. symmetry. apply Z.bits_above_log2; cbn; lia.
  - rewrite Z.land_spec, Z.lnot_spec, Z.shiftl_spec by lia. destruct (Z.eqb_spec i irq) as [->|Hn].
    + rewrite Z.sub_diag. by rewrite andb_false_r.
    + destruct (Z.lt_ge_cases i irq).
      * rewrite (Z.testbit_neg_r 1), andb_true_r by lia. done.
      * replace (Z.testbit 1 (i - irq)) with false; [by rewrite andb_true_r|]. symmetry. apply Z.bits_above_log2; cbn; lia.
Qed.

(** on lines 8 to 15 [PIC_Mask] misses its controller: the second one is
    untouched and line [irq - 8] of the first is masked instead. *)
Theorem PIC_mask_slave_wrong d irq : 8 <= irq < 16 → step (pic1 d) = Operating → 0 <= imr (pic1 d) < 256 →
  wp (PIC_Mask irq) (λ _ d', pic2 d' = pic2 d ∧ imr (pic1 d') = Z.lor (imr (pic1 d)) (2 ^ (irq - 8))) d.
Proof.
  intros Hi Hs Hm. unfold PIC_Mask, inb, outb, port_in, port_out, wp, bind, modify.
  rewrite (proj2 (Z.ltb_ge irq 8)) by lia. cbn -[wrap Z.lor Z.shiftl Z.pow].
  unfold chip_data. rewrite Hs. cbn -[wrap Z.lor Z.shiftl Z.pow].
  rewrite (wrap_small 8 (imr (pic1 d))) by lia. split; [done|]. rewrite Z.shiftl_1_l. apply wrap_small.
  pose proof (Z.pow_lt_mono_r 2 (irq - 8) 8). pose proof (Z.pow_nonneg 2 (irq - 8)).
  apply lor_range; lia.
Qed.

(** Line [k] is the one of highest priority in a register. *)
Definition first_bit (v k : Z) : Prop := 0 <= k < 8 ∧ Z.testbit v k = true ∧ ∀ j, 0 <= j < k → Z.testbit v j = false.

Lemma clear_lowest_first n i v k : i <= k < i + Z.of_nat n → Z.testbit v k = true →
  (∀ j, i <= j < k → Z.testbit v j = false) → clear_lowest n i v = Z.clearbit v k.
Proof.
  revert i. induction n as [|n IH]; intros i Hk Hv Hlow; [lia|]. cbn [clear_lowest].
  destruct (Z.eq_dec i k) as [->|Hn]; [by rewrite Hv|]. rewrite (Hlow i) by lia.
  apply IH; [lia|done|]. intros j Hj. apply Hlow. lia.
Qed.

Lemma first_bit_cleared v k : first_bit v k → clear_lowest 8 0 v = Z.clearbit v k.
Proof. intros (Hk & Hv & Hlow). apply clear_lowest_first; [lia|done|done]. Qed.

(** acknowledging an interrupt ends it: when line [irq] is the one being
    serviced (and, for a line of the second controller, the cascade line 2 on
    the first), [PIC_SendEndOfInterrupt] clears those in-service bits and no
    other, and leaves the mask registers alone. *)
Theorem PIC_EOI_correct d irq : 0 <= irq < 16 →
  first_bit (isr (pic1 d)) (if irq <? 8 then irq else 2) → (8 <= irq → first_bit (isr (pic2 d)) (irq - 8)) →
  wp (PIC_SendEndOfInterrupt irq) (λ _ d',
    isr (pic1 d') = Z.clearbit (isr (pic1 d)) (if irq <? 8 then irq else 2) ∧
    isr (pic2 d') = (if irq <? 8 then isr (pic2 d) else Z.clearbit (isr (pic2 d)) (irq - 8)) ∧
    imr (pic1 d') = imr (pic1 d) ∧ imr (pic2 d') = imr (pic2 d)) d.
Proof.
  intros Hi H1 H2. rewrite <- (first_bit_cleared _ _ H1).
  unfold PIC_SendEndOfInterrupt, mwhen, wp, bind. destruct (Z.leb_spec 8 irq), (Z.ltb_spec irq 8); try lia.
  - rewrite <- (first_bit_cleared _ _ (H2 ltac:(lia))). repeat split.
  - repeat split.
Qed.

(** both register reads return the second controller's register twice: the
    first controller's requests and in-service lines are never seen. *)
Theorem PIC_read_registers d : 0 <= isr (pic2 d) < 256 → 0 <= irr (pic2 d) < 256 →
  wp PIC_ReadInServiceRegister (λ r _, r = 257 * isr (pic2 d)) d ∧
  wp PIC_ReadIrqRequestRegister (λ r _, r = 257 * irr (pic2 d)) d.
Proof.
  intros H1 H2. unfold PIC_ReadInServiceRegister, PIC_ReadIrqRequestRegister, wp, bind, inb, outb, port_in, port_out, modify, mret.
  change (u8 PIC_CMD_READ_ISR) with 11. change (u8 PIC_CMD_READ_IRR) with 10.
  destruct d as [c1 c2]. cbn [pic2] in *. lazy -[wrap Z.lor Z.shiftl Z.mul isr irr Z.pow]. cbn [isr irr].
  rewrite !(wrap_small 8) by lia. rewrite !Z.shiftl_mul_pow2 by lia.
  split; rewrite lor_add by lia; rewrite wrap_small; lia.
Qed.

(** Two chips in an arbitrary state: halfway through an initialisation, and running. *)
Definition pics_demo : pics :=
  mk_pics (mk_chip Operating true false 0 4 1 0xFF 0 0x14 false)
          (mk_chip WantICW3 false false 0 0 0 0x55 0x3 0x20 true).

Lemma PIC_Configure_correct_witness :
  wp (PIC_Configure 0xE0 0xE8) (λ _ d', operating (pic1 d') 0xE0 4 0 0 ∧ operating (pic2 d') 0xE8 2 0 0) pics_demo.
Proof. apply (PIC_Configure_correct pics_demo 0xE0 0xE8); (lia || reflexivity). Defined.

Lemma PIC_mask_correct_witness : wp (PIC_Mask 1) (λ _ d', pic2 d' = pic2 pics_demo) pics_demo.
Proof.
  destruct (PIC_mask_correct pics_demo 1) as [H _]; [lia|reflexivity|cbn; lia|].
  eapply wp_mono; [exact H|]. intros _ d' (E & _). exact E.
Defined.

Lemma PIC_mask_slave_wrong_witness :
  wp (PIC_Mask 12) (λ _ d', pic2 d' = pic2 pics_demo ∧ imr (pic1 d') = Z.lor 0xFF (2 ^ (12 - 8))) pics_demo.
Proof. apply (PIC_mask_slave_wrong pics_demo 12); [lia|reflexivity|cbn; lia]. Defined.

Lemma PIC_EOI_correct_witness : wp (PIC_SendEndOfInterrupt 13) (λ _ d',
    isr (pic1 d') = 0x10 ∧ isr (pic2 d') = 0 ∧ imr (pic1 d') = 0xFF ∧ imr (pic2 d') = 0x55) pics_demo.
Proof.
  apply (PIC_EOI_correct pics_demo 13); [lia| |].
  - split; [cbn; lia|]. split; [reflexivity|]. intros j Hj. cbn in Hj. assert (j = 0 ∨ j = 1) as [->| ->] by lia; reflexivity.
  - intros _. split; [lia|]. split; [reflexivity|]. intros j Hj.
    assert (j = 0 ∨ j = 1 ∨ j = 2 ∨ j = 3 ∨ j = 4) as [->|[->|[->|[->| ->]]]] by lia; reflexivity.
Defined.

Lemma PIC_read_registers_witness :
  wp PIC_ReadInServiceRegister (λ r _, r = 257 * 0x20) pics_demo ∧
  wp PIC_ReadIrqRequestRegister (λ r _, r = 257 * 0x3) pics_demo.
Proof. apply (PIC_read_registers pics_demo); cbn; lia. Defined.
