(* ===== verification/Gdt.v ===== *)
(** * Segment descriptors and the task state segment ([arch/x86_64/gdt.c])

    The descriptor table as the packed structs of the source; [decode_segment]
    and [decode_tss] read a descriptor the way the processor does.  The part of
    the processor [GDT_Load] and [ltr] touch is the record [cpu]. *)

From stdpp Require Import prelude gmap list numbers tactics.
From S2P Require Import Prelude.

Record tss_entry := mk_tss {
  rsp0 : Z; rsp1 : Z; rsp2 : Z;
  ist : list Z;                                   (* ist1 .. ist7 *)
  iopb_offset : Z
}.
(** Packed: 4 + 3*8 + 8 + 7*8 + 8 + 2 + 2 bytes. *)
Definition sizeof_tss : Z := 104.

Record GDTEntry_t := mk_gdt {
  LimitLow : Z; BaseLow : Z; BaseMiddle : Z; Access : Z; FlagsLimitHi : Z; BaseHigh : Z
}.
Record GDTDescriptor_t := mk_gdtr { Limit : Z; Ptr : Z }.

Definition GDT_ACCESS_CODE_READABLE : Z := 0x02.
Definition GDT_ACCESS_DATA_WRITEABLE : Z := 0x02.
Definition GDT_ACCESS_DATA_SEGMENT : Z := 0x10.
Definition GDT_ACCESS_CODE_SEGMENT : Z := 0x18.
Definition GDT_ACCESS_RING0 : Z := 0x00.
Definition GDT_ACCESS_RING3 : Z := 0x60.
Definition GDT_ACCESS_PRESENT : Z := 0x80.
Definition GDT_FLAG_64BIT : Z := 0x20.
Definition GDT_FLAG_GRANULARITY_4K : Z := 0x80.

Definition GDT_LIMIT_LOW (limit : Z) : Z := Z.land limit 0xFFFF.
Definition GDT_BASE_LOW (base : Z) : Z := Z.land base 0xFFFF.
Definition GDT_BASE_MIDDLE (base : Z) : Z := Z.land (Z.shiftr base 16) 0xFF.
Definition GDT_FLAGS_LIMIT_HI (limit flags : Z) : Z := Z.lor (Z.land (Z.shiftr limit 16) 0xF) (Z.land flags 0xF0).
Definition GDT_BASE_HIGH (base : Z) : Z := Z.land (Z.shiftr base 24) 0xFF.

Definition GDT_ENTRY (base limit access flags : Z) : GDTEntry_t :=
  mk_gdt (GDT_LIMIT_LOW limit) (GDT_BASE_LOW base) (GDT_BASE_MIDDLE base) access
    (GDT_FLAGS_LIMIT_HI limit flags) (GDT_BASE_HIGH base).

(** The initial value of [g_GDT]. *)
Definition g_GDT : list GDTEntry_t :=
  [ GDT_ENTRY 0 0 0 0;
    GDT_ENTRY 0 0xFFFFF
      (Z.lor (Z.lor (Z.lor GDT_ACCESS_PRESENT GDT_ACCESS_RING0) GDT_ACCESS_CODE_SEGMENT) GDT_ACCESS_CODE_READABLE)
      (Z.lor GDT_FLAG_64BIT GDT_FLAG_GRANULARITY_4K);
    GDT_ENTRY 0 0xFFFFF
      (Z.lor (Z.lor (Z.lor GDT_ACCESS_PRESENT GDT_ACCESS_RING0) GDT_ACCESS_DATA_SEGMENT) GDT_ACCESS_DATA_WRITEABLE)
      GDT_FLAG_GRANULARITY_4K;
    GDT_ENTRY 0 0xFFFFF
      (Z.lor (Z.lor (Z.lor GDT_ACCESS_PRESENT GDT_ACCESS_RING3) GDT_ACCESS_CODE_SEGMENT) GDT_ACCESS_CODE_READABLE)
      (Z.lor GDT_FLAG_64BIT GDT_FLAG_GRANULARITY_4K);
    GDT_ENTRY 0 0xFFFFF
      (Z.lor (Z.lor (Z.lor GDT_ACCESS_PRESENT GDT_ACCESS_RING3) GDT_ACCESS_DATA_SEGMENT) GDT_ACCESS_DATA_WRITEABLE)
      GDT_FLAG_GRANULARITY_4K;
    GDT_ENTRY 0 (sizeof_tss - 1) 0x89 0x00;
    GDT_ENTRY 0 0 0 0 ].

Definition GDT_CODE_SEGMENT : Z := 0x08.
Definition GDT_DATA_SEGMENT : Z := 0x10.

Record cpu := mk_cpu {
  gdtr : GDTDescriptor_t;
  cs : Z; ds : Z; es : Z; fs : Z; gs : Z; ss : Z; tr : Z
}.

(** The table, the [tss] object and the processor. *)
Record gdt_state := mk_gdt_state { table : list GDTEntry_t; tss : tss_entry; regs : cpu }.

(** [lgdt], the data segments, and [cs] through a far return. *)
Definition GDT_Load (descriptor : GDTDescriptor_t) (cs_ ds_ : Z) : M gdt_state unit :=
  modify (λ s, mk_gdt_state (table s) (tss s) (mk_cpu descriptor (u16 cs_) (u16 ds_) (u16 ds_) (u16 ds_) (u16 ds_) (u16 ds_) (tr (regs s)))).

Definition set_entry_base (tss_base : Z) (e : GDTEntry_t) : GDTEntry_t :=
  mk_gdt (LimitLow e) (Z.land tss_base 0xFFFF) (Z.land (Z.shiftr tss_base 16) 0xFF) (Access e) (FlagsLimitHi e)
    (Z.land (Z.shiftr tss_base 24) 0xFF).
(** [*(uint32_t * )&g_GDT[6] = v]: the first two fields. *)
Definition set_entry_word (v : Z) (e : GDTEntry_t) : GDTEntry_t :=
  mk_gdt (u16 v) (u16 (Z.shiftr v 16)) (BaseMiddle e) (Access e) (FlagsLimitHi e) (BaseHigh e).

Definition alter_entry (i : Z) (f : GDTEntry_t → GDTEntry_t) : M gdt_state unit :=
  t ← gets table; e ← of_option (zlookup t i); t' ← of_option (zupdate t i (f e));
  modify (λ s, mk_gdt_state t' (tss s) (regs s)).

Definition TSS_Initialize (tss_base : Z) : M gdt_state unit :=
  modify (λ s, mk_gdt_state (table s) (mk_tss 0 0 0 [0; 0; 0; 0; 0; 0; 0] (u16 sizeof_tss)) (regs s));;
  alter_entry 5 (set_entry_base tss_base);;
  alter_entry 6 (set_entry_word (Z.land (Z.shiftr tss_base 32) 0xFFFFFFFF)).

(** [g_GDT_addr] is the address of the table; [halt] stops the machine. *)
Definition GDT_Initialize (g_GDT_addr tss_base : Z) : M gdt_state unit :=
  TSS_Initialize tss_base;;
  GDT_Load (mk_gdtr (8 * 7 - 1) g_GDT_addr) GDT_CODE_SEGMENT GDT_DATA_SEGMENT;;
  c ← gets (λ s, cs (regs s)); d ← gets (λ s, ds (regs s));
  modify (λ s, mk_gdt_state (table s) (tss s)
    (mk_cpu (gdtr (regs s)) (cs (regs s)) (ds (regs s)) (es (regs s)) (fs (regs s)) (gs (regs s)) (ss (regs s)) 0x28));;
  massert ((c =? GDT_CODE_SEGMENT) && (d =? GDT_DATA_SEGMENT)).

(** ** How the processor reads the table *)

Record segment := mk_segment {
  seg_base : Z; seg_limit : Z; seg_present : bool; seg_dpl : Z; seg_system : bool; seg_type : Z;
  seg_long : bool; seg_db : bool; seg_pages : bool
}.

Definition decode_segment (e : GDTEntry_t) : segment :=
  mk_segment
    (BaseLow e + BaseMiddle e * 2 ^ 16 + BaseHigh e * 2 ^ 24)
    (LimitLow e + (FlagsLimitHi e mod 16) * 2 ^ 16)
    (Z.testbit (Access e) 7) (Access e / 32 mod 4) (negb (Z.testbit (Access e) 4)) (Access e mod 16)
    (Z.testbit (FlagsLimitHi e) 5) (Z.testbit (FlagsLimitHi e) 6) (Z.testbit (FlagsLimitHi e) 7).

(** A system descriptor takes two slots; the second holds the upper half of the base. *)
Definition decode_tss (lo hi : GDTEntry_t) : segment :=
  let s := decode_segment lo in
  mk_segment (seg_base s + (LimitLow hi + BaseLow hi * 2 ^ 16) * 2 ^ 32) (seg_limit s) (seg_present s) (seg_dpl s)
    (seg_system s) (seg_type s) (seg_long s) (seg_db s) (seg_pages s).

(** The descriptor a selector refers to. *)
Definition selector_entry (t : list GDTEntry_t) (sel : Z) : option GDTEntry_t := zlookup t (sel / 8).

(** A 64-bit code or data segment of the given privilege over the whole address space. *)
Definition code64 (dpl : Z) : segment := mk_segment 0 0xFFFFF true dpl false 0xA true false true.
Definition data_segment (dpl : Z) : segment := mk_segment 0 0xFFFFF true dpl false 0x2 false false true.
(** An available 64-bit task state segment. *)
Definition tss64 (base limit : Z) : segment := mk_segment base limit true 0 true 0x9 false false false.

Lemma land_high_nibble x : Z.land x 0xF0 = (x / 2 ^ 4 mod 2 ^ 4) * 2 ^ 4.
Proof.
  rewrite <- (land_field x 4 4 15), <- Z.shiftl_mul_pow2 by lia.
  rewrite Z.shiftl_land, <- Z.ldiff_ones_r by lia. change (Z.shiftl 15 4) with 0xF0.
  apply Z.bits_inj'. intros i Hi. rewrite !Z.land_spec, Z.ldiff_spec, Z.testbit_ones_nonneg by lia.
  destruct (Z.ltb_spec i 4); [|by rewrite andb_true_r].
  assert (i = 0 ∨ i = 1 ∨ i = 2 ∨ i = 3) as [->|[->|[->| ->]]] by lia; by rewrite !andb_false_r.
Qed.

Lemma limit_flags limit flags : 0 <= limit →
  GDT_FLAGS_LIMIT_HI limit flags mod 16 = limit / 2 ^ 16 mod 2 ^ 4 ∧
  ∀ i, 4 <= i < 8 → Z.testbit (GDT_FLAGS_LIMIT_HI limit flags) i = Z.testbit flags i.
Proof.
  intros Hl. unfold GDT_FLAGS_LIMIT_HI. split.
  - rewrite (land_field _ 16 4), land_high_nibble by lia. rewrite lor_add by zlia. zlia.
  - intros i Hi. rewrite Z.lor_spec, !Z.land_spec.
    assert (i = 4 ∨ i = 5 ∨ i = 6 ∨ i = 7) as [->|[->|[->| ->]]] by lia;
      by rewrite andb_false_r, andb_true_r.
Qed.

(** encoding and decoding a descriptor are inverse: every base below 4 GiB,
    20-bit limit, access byte and flag nibble comes back from the six fields. *)
Theorem GDT_ENTRY_roundtrip base limit access flags : 0 <= base < 2 ^ 32 → 0 <= limit < 2 ^ 20 →
  let e := GDT_ENTRY base limit access flags in
  seg_base (decode_segment e) = base ∧ seg_limit (decode_segment e) = limit ∧ Access e = access ∧
  seg_long (decode_segment e) = Z.testbit flags 5 ∧ seg_db (decode_segment e) = Z.testbit flags 6 ∧
  seg_pages (decode_segment e) = Z.testbit flags 7.
Proof.
  intros Hb Hl e. subst e.
  cbn [GDT_ENTRY decode_segment seg_base seg_limit seg_long seg_db seg_pages BaseLow BaseMiddle BaseHigh LimitLow FlagsLimitHi Access].
  destruct (limit_flags limit flags) as [-> Hbits]; [lia|]. rewrite !Hbits by lia.
  unfold GDT_BASE_LOW, GDT_BASE_MIDDLE, GDT_BASE_HIGH, GDT_LIMIT_LOW.
  rewrite (land_field _ 16 8), (land_field _ 24 8), !(land_low _ 16) by lia. split; [zlia|]. split; [zlia|done].
Qed.

Lemma GDT_Initialize_spec s addr tss_base : table s = g_GDT → 0 <= tss_base < 2 ^ 64 →
  wp (GDT_Initialize addr tss_base) (λ _ s',
    gdtr (regs s') = mk_gdtr 55 addr ∧ cs (regs s') = 0x08 ∧ ss (regs s') = 0x10 ∧ ds (regs s') = 0x10 ∧
    decode_segment <$> selector_entry (table s') 0x08 = Some (code64 0) ∧
    decode_segment <$> selector_entry (table s') 0x10 = Some (data_segment 0) ∧
    decode_segment <$> selector_entry (table s') 0x1B = Some (code64 3) ∧
    decode_segment <$> selector_entry (table s') 0x23 = Some (data_segment 3) ∧
    tr (regs s') = 0x28 ∧
    (∃ lo hi, selector_entry (table s') (tr (regs s')) = Some lo ∧ selector_entry (table s') (tr (regs s') + 8) = Some hi ∧
       decode_tss lo hi = tss64 tss_base (sizeof_tss - 1)) ∧
    sizeof_tss - 1 < iopb_offset (tss s')) s.
Proof.
  intros Ht Hb. destruct s as [t ts r]. cbn in Ht. subst t.
  unfold GDT_Initialize, TSS_Initialize, alter_entry, GDT_Load. wp_steps. cbn [table].
  eapply wp_of_option; [reflexivity|]. wp_steps. eapply wp_of_option; [reflexivity|]. wp_steps. cbn [table tss regs].
  eapply wp_of_option; [reflexivity|]. wp_steps. eapply wp_of_option; [reflexivity|]. wp_steps.
  cbn [table tss regs]. apply wp_massert; [reflexivity|]. cbn [table tss regs tr cs ds ss gdtr].
  split_and!; try reflexivity. eexists _, _. split; [reflexivity|]. split; [reflexivity|].
  unfold decode_tss, tss64. f_equal.
  cbn [decode_segment seg_base set_entry_base set_entry_word BaseLow BaseMiddle BaseHigh LimitLow].
  rewrite (land_field _ 16 8), (land_field _ 24 8), (land_field _ 32 32), (land_low _ 16) by lia.
  unfold wrap. rewrite Z.shiftr_div_pow2 by lia. zlia.
Qed.


Lemma GDT_ENTRY_roundtrip_witness : let e := GDT_ENTRY 0x12345678 0xABCDE 0x9A 0xA0 in
  seg_base (decode_segment e) = 0x12345678 ∧ seg_limit (decode_segment e) = 0xABCDE ∧ Access e = 0x9A ∧
  seg_long (decode_segment e) = true ∧ seg_db (decode_segment e) = false ∧ seg_pages (decode_segment e) = true.
Proof. apply (GDT_ENTRY_roundtrip 0x12345678 0xABCDE 0x9A 0xA0); lia. Defined.

Definition gdt_boot : gdt_state := mk_gdt_state g_GDT (mk_tss 0 0 0 [] 0) (mk_cpu (mk_gdtr 0 0) 0 0 0 0 0 0 0).

