(* ===== verification/Apic.v ===== *)
(** * Local and I/O APIC registers ([drivers/pic/apic/apic.c], [apic.h], the
    register functions of [apic_irq.c], and the keyboard line of
    [kernel/shell/keyboard.c])

    The driver over any [Bus]; [apics] is the register file it talks to: local
    APIC registers by address, the I/O APIC behind its select and window
    registers, and the processor's MSRs and CR4. *)

From stdpp Require Import prelude gmap list numbers tactics.
From S2P Require Import Prelude Io.

Definition APIC_EOI : Z := 0xB0.
Definition APIC_LVT_TIMER : Z := 0x320.
Definition APIC_BASE : Z := 0xFEE00000.
Definition APIC_IO_BASE : Z := 0xFEC00000.
Definition APIC_REGISTER_OFFSET : Z := 0x10.
Definition CR4_APIC_BIT : Z := 0x200.
Definition IA32_APIC_BASE_MSR : Z := 0x1B.
Definition IA32_APIC_BASE_MSR_ENABLE : Z := 0x800.
Definition APIC_DELIVERY_MODE_FIXED : Z := 0x00000000.
Definition APIC_SVR : Z := 0xF0.
Definition IOAPIC_REG_SELECT : Z := 0x00.
Definition IOAPIC_REG_WINDOW : Z := 0x10.
Definition IOAPIC_IRQ1_ENTRY : Z := 0x12.
Definition IOAPIC_IRQ1_VECTOR : Z := 0x21.

Section driver.
Context {D : Type} `{Bus D}.

(** [apic_base[reg / sizeof(uint32_t)]] *)
Definition APIC_Write (reg value : Z) : M D unit := reg_write (APIC_BASE + 4 * (reg / 4)) value.
Definition APIC_Read (reg : Z) : M D Z := reg_read (APIC_BASE + 4 * (reg / 4)).

Definition APIC_ReadIO (reg : Z) : M D Z :=
  reg_write (APIC_IO_BASE + 4 * (IOAPIC_REG_SELECT / 4)) reg;;
  reg_read (APIC_IO_BASE + 4 * (IOAPIC_REG_WINDOW / 4)).
Definition APIC_WriteIO (reg value : Z) : M D unit :=
  reg_write (APIC_IO_BASE + 4 * (IOAPIC_REG_SELECT / 4)) reg;;
  reg_write (APIC_IO_BASE + 4 * (IOAPIC_REG_WINDOW / 4)) value.

Definition LAPIC_SendEOI : M D unit := APIC_Write APIC_EOI 0.

Definition cpu_set_apic_base (apic : Z) : M D unit :=
  let edx := 0 in
  let eax := Z.lor (Z.land apic 0xFFFFF000) IA32_APIC_BASE_MSR_ENABLE in
  cpuSetMSR IA32_APIC_BASE_MSR eax edx.

Definition cpu_get_apic_base : M D Z :=
  '(eax, _) ← cpuGetMSR IA32_APIC_BASE_MSR; mret (Z.land eax 0xFFFFF000).

Definition ConfigureIMCR : M D unit :=
  al ← inb 0x22;
  mwhen (truthy (Z.land al 0x80)) (outb 0x22 0x70;; outb 0x23 0x1).

(** The result of the second MSR read only selects a log line. *)
Definition APIC_Initialize : M D unit :=
  cr4 ← ReadCR4; WriteCR4 (Z.lor cr4 CR4_APIC_BIT);;
  '(eax, edx) ← cpuGetMSR IA32_APIC_BASE_MSR;
  mwhen (negb (truthy (Z.land eax IA32_APIC_BASE_MSR_ENABLE)))
    (cpuSetMSR IA32_APIC_BASE_MSR (Z.lor eax IA32_APIC_BASE_MSR_ENABLE) edx);;
  _ ← cpuGetMSR IA32_APIC_BASE_MSR;
  svr ← APIC_Read APIC_SVR;
  APIC_Write APIC_SVR (Z.lor (Z.lor svr 0x100) 0xFF).

Definition APIC_EnableIRQ (irq : Z) : M D unit :=
  value ← APIC_Read (u32 (APIC_LVT_TIMER + irq * APIC_REGISTER_OFFSET));
  APIC_Write (u32 (APIC_LVT_TIMER + irq * APIC_REGISTER_OFFSET)) (Z.land value (cnot 32 0x10000)).
Definition APIC_DisableIRQ (irq : Z) : M D unit :=
  value ← APIC_Read (u32 (APIC_LVT_TIMER + irq * APIC_REGISTER_OFFSET));
  APIC_Write (u32 (APIC_LVT_TIMER + irq * APIC_REGISTER_OFFSET)) (Z.lor value 0x10000).

Definition APIC_EnableIOIRQ (irq interrupt_destination : Z) : M D unit :=
  let redirection_entry := u32 (irq * APIC_REGISTER_OFFSET) in
  let value := Z.lor interrupt_destination APIC_DELIVERY_MODE_FIXED in
  APIC_WriteIO redirection_entry (Z.land value (cnot 32 0x10000)).
Definition APIC_DisableIOIRQ (irq : Z) : M D unit :=
  let redirection_entry := u32 (irq * APIC_REGISTER_OFFSET) in
  value ← APIC_ReadIO redirection_entry;
  APIC_WriteIO redirection_entry (Z.lor value 0x10000).

Definition IOAPIC_ConfigureKeyboard : M D unit :=
  entry_low ← APIC_ReadIO IOAPIC_IRQ1_ENTRY;
  entry_high ← APIC_ReadIO (IOAPIC_IRQ1_ENTRY + 1);
  let entry_low := Z.land entry_low (cnot 32 0x000000FF) in
  let entry_low := IOAPIC_IRQ1_VECTOR in
  let entry_low := Z.land entry_low (cnot 32 0x00000700) in
  let entry_low := Z.lor entry_low APIC_DELIVERY_MODE_FIXED in
  let entry_low := Z.land entry_low (cnot 32 (Z.shiftl 1 15)) in
  let entry_low := Z.land entry_low (cnot 32 (Z.shiftl 1 13)) in
  let entry_low := Z.land entry_low (cnot 32 (Z.shiftl 1 16)) in
  let entry_high := Z.land entry_high (cnot 32 0xFF000000) in
  let entry_high := Z.lor entry_high (Z.shiftl 0 24) in
  APIC_WriteIO IOAPIC_IRQ1_ENTRY entry_low;;
  APIC_WriteIO (IOAPIC_IRQ1_ENTRY + 1) entry_high.

Definition IOAPIC_MaskIRQ1 : M D unit :=
  entry_low ← APIC_ReadIO IOAPIC_IRQ1_ENTRY;
  entry_high ← APIC_ReadIO (IOAPIC_IRQ1_ENTRY + 1);
  APIC_WriteIO IOAPIC_IRQ1_ENTRY (Z.lor entry_low 0x00010000);;
  APIC_WriteIO (IOAPIC_IRQ1_ENTRY + 1) entry_high.
End driver.

(** ** The register file *)

Record apics := mk_apics {
  lapic : gmap Z Z;                 (* local APIC registers by offset *)
  ioregsel : Z; ioapic : gmap Z Z;  (* I/O APIC registers by index *)
  msrs : gmap Z Z; cr4 : Z
}.
Definition reg (m : gmap Z Z) (i : Z) : Z := default 0 (m !! i).

#[export] Instance apics_bus : Bus apics := {|
  bus_in w port d := (0, d); bus_out w port v d := d;
  mmio_read a d :=
    (if a =? 0xFEC00000 then ioregsel d else if a =? 0xFEC00010 then reg (ioapic d) (ioregsel d)
     else reg (lapic d) (a - 0xFEE00000), d);
  mmio_write a v d :=
    if a =? 0xFEC00000 then mk_apics (lapic d) v (ioapic d) (msrs d) (cr4 d)
    else if a =? 0xFEC00010 then mk_apics (lapic d) (ioregsel d) (<[ioregsel d := v]> (ioapic d)) (msrs d) (cr4 d)
    else mk_apics (<[a - 0xFEE00000 := v]> (lapic d)) (ioregsel d) (ioapic d) (msrs d) (cr4 d);
  msr_read r d := reg (msrs d) r;
  msr_write r v d := mk_apics (lapic d) (ioregsel d) (ioapic d) (<[r := v]> (msrs d)) (cr4 d);
  cr4_read d := cr4 d;
  cr4_write v d := mk_apics (lapic d) (ioregsel d) (ioapic d) (msrs d) v
|}.

Lemma reg_insert m i j v : reg (<[i := v]> m) j = if decide (i = j) then v else reg m j.
Proof.
  unfold reg. destruct (decide (i = j)) as [->|Hn]; [by rewrite lookup_insert_eq|by rewrite lookup_insert_ne].
Qed.

(** The I/O APIC accesses reach the register with the index. *)
Lemma ReadIO_spec r d Q : 0 <= r < 2 ^ 32 →
  Q (u32 (reg (ioapic d) r)) (mk_apics (lapic d) r (ioapic d) (msrs d) (cr4 d)) → wp (APIC_ReadIO r) Q d.
Proof.
  intros Hr HQ. unfold APIC_ReadIO, reg_write, reg_read, wp, bind, modify. rewrite (wrap_small 32 r) by lia. exact HQ.
Qed.
Lemma WriteIO_spec r v d Q : 0 <= r < 2 ^ 32 →
  Q tt (mk_apics (lapic d) r (<[r := u32 v]> (ioapic d)) (msrs d) (cr4 d)) → wp (APIC_WriteIO r v) Q d.
Proof.
  intros Hr HQ. unfold APIC_WriteIO, reg_write, wp, bind, modify. rewrite (wrap_small 32 r) by lia. exact HQ.
Qed.

Ltac io_step :=
  match goal with
  | |- wp (APIC_ReadIO _) _ _ => apply ReadIO_spec; [lia|]
  | |- wp (APIC_WriteIO _ _) _ _ => apply WriteIO_spec; [lia|]
  | _ => wp_step
  end; cbv beta.
Ltac io_steps := unfold IOAPIC_IRQ1_ENTRY; change (0x12 + 1) with 0x13; repeat io_step; cbn [lapic ioregsel ioapic msrs cr4].

Lemma IOAPIC_ConfigureKeyboard_spec d : 0 <= reg (ioapic d) 0x13 < 2 ^ 32 →
  wp IOAPIC_ConfigureKeyboard (λ _ d',
    reg (ioapic d') 0x12 = 0x21 ∧ reg (ioapic d') 0x13 = reg (ioapic d) 0x13 mod 2 ^ 24 ∧
    (∀ i, i ≠ 0x12 → i ≠ 0x13 → reg (ioapic d') i = reg (ioapic d) i) ∧ lapic d' = lapic d ∧ msrs d' = msrs d) d.
Proof.
  intros Hr. unfold IOAPIC_ConfigureKeyboard. io_steps.
  rewrite !reg_insert. rewrite decide_False, !decide_True by done. split; [reflexivity|]. split.
  - rewrite (wrap_small 32 (reg _ _)) by done. change (Z.shiftl 0 24) with 0. rewrite Z.lor_0_r.
    rewrite land_cnot by lia. change (Z.lnot 0xFF000000) with (Z.lor (Z.lnot (2 ^ 32 - 1)) (2 ^ 24 - 1)).
    rewrite Z.land_lor_distr_r, land_lnot_ones, land_ones_mod by lia. rewrite (Z.mod_small _ (2 ^ 32)) by lia.
    rewrite Z.sub_diag, Z.lor_0_l. apply wrap_small. zlia.
  - split; [|done]. intros i H1 H2. by rewrite !reg_insert, !decide_False by congruence.
Qed.

(** [IOAPIC_ConfigureKeyboard] programs the redirection entry of line 1 and
    nothing else: vector 0x21, fixed delivery, edge triggered, active high, not
    masked, to processor 0; the other bits of the upper half stay. *)
Theorem IOAPIC_ConfigureKeyboard_correct d : 0 <= reg (ioapic d) 0x13 < 2 ^ 32 →
  wp IOAPIC_ConfigureKeyboard (λ _ d',
    reg (ioapic d') 0x12 = 0x21 ∧ reg (ioapic d') 0x13 = reg (ioapic d) 0x13 mod 2 ^ 24 ∧
    (∀ i, i ≠ 0x12 → i ≠ 0x13 → reg (ioapic d') i = reg (ioapic d) i) ∧ lapic d' = lapic d) d.
Proof. intros Hr. wp_use IOAPIC_ConfigureKeyboard_spec; [done|]. by intros _ d' (H1 & H2 & H3 & H4 & _). Qed.

(** [IOAPIC_MaskIRQ1] sets the mask bit of line 1's entry and changes no
    other bit of the I/O APIC. *)
Theorem IOAPIC_MaskIRQ1_correct d : 0 <= reg (ioapic d) 0x12 < 2 ^ 32 → 0 <= reg (ioapic d) 0x13 < 2 ^ 32 →
  wp IOAPIC_MaskIRQ1 (λ _ d',
    reg (ioapic d') 0x12 = Z.setbit (reg (ioapic d) 0x12) 16 ∧
    ∀ i, i ≠ 0x12 → reg (ioapic d') i = reg (ioapic d) i) d.
Proof.
  intros H1 H2. unfold IOAPIC_MaskIRQ1. io_steps. rewrite !(wrap_small 32 (reg _ _)) by done. split.
  - rewrite !reg_insert, decide_False, decide_True by done. rewrite Z.setbit_spec'.
    apply wrap_small, lor_range; lia.
  - intros i Hi. rewrite reg_insert. destruct (decide (_ = i)) as [<-|]; [done|].
    by rewrite reg_insert, decide_False by congruence.
Qed.

(** A 64-bit value from its halves, with bit 11 set in the lower one. *)
Lemma halves_setbit v : 0 <= v < 2 ^ 64 →
  Z.lor (u32 (Z.lor (u32 v) 0x800)) (Z.shiftl (u32 (u32 (Z.shiftr v 32))) 32) = Z.setbit v 11.
Proof.
  intros Hv. rewrite Z.shiftr_div_pow2 by lia. pose proof (wrap_range 32 v ltac:(lia)) as Hl.
  rewrite (wrap_small 32 (Z.lor _ _)) by (apply lor_range; lia).
  rewrite !(wrap_small 32 (v / 2 ^ 32)) by (rewrite ?wrap_small; zlia).
  rewrite Z.setbit_spec', <- Z.lor_assoc, (Z.lor_comm 0x800), Z.lor_assoc. f_equal.
  rewrite Z.shiftl_mul_pow2, lor_add by lia. unfold wrap. zlia.
Qed.

Lemma enable_bit v : 0 <= v < 2 ^ 64 → truthy (Z.land (u32 v) IA32_APIC_BASE_MSR_ENABLE) = Z.testbit v 11.
Proof.
  intros Hv. unfold IA32_APIC_BASE_MSR_ENABLE. change 0x800 with (2 ^ 11). rewrite testbit_b2z_pow2 by lia.
  unfold wrap. rewrite Z.mod_pow2_bits_low by lia. by destruct (Z.testbit v 11).
Qed.

Lemma setbit_idem v i : 0 <= i → Z.testbit v i = true → Z.setbit v i = v.
Proof.
  intros Hi Hb. apply Z.bits_inj'. intros k Hk. rewrite Z.setbit_eqb by done.
  destruct (Z.eqb_spec i k) as [->|]; [by rewrite Hb|done].
Qed.

(** The spurious-interrupt register gets its two fields. *)
Lemma enable_svr d Q : 0 <= reg (lapic d) APIC_SVR < 2 ^ 32 →
  (∀ l', reg l' APIC_SVR = Z.lor (reg (lapic d) APIC_SVR) 0x1FF → (∀ i, i ≠ APIC_SVR → reg l' i = reg (lapic d) i) →
     Q tt (mk_apics l' (ioregsel d) (ioapic d) (msrs d) (cr4 d))) →
  wp (APIC_Read APIC_SVR) (λ svr d', wp (APIC_Write APIC_SVR (Z.lor (Z.lor svr 0x100) 0xFF)) Q d') d.
Proof.
  intros Hs HQ. apply (HQ (<[APIC_SVR := u32 (Z.lor (Z.lor (u32 (reg (lapic d) APIC_SVR)) 0x100) 0xFF)]> (lapic d))).
  - rewrite reg_insert, decide_True by done. rewrite (wrap_small 32 (reg _ _)) by done. rewrite <- Z.lor_assoc.
    change (Z.lor 0x100 0xFF) with 0x1FF. apply wrap_small, lor_range; lia.
  - intros i Hi. by rewrite reg_insert, decide_False by congruence.
Qed.

(** [APIC_Initialize] leaves the local APIC enabled: the enable bit of the
    base MSR is set and the rest of the register kept, and the spurious-interrupt
    register has the software-enable bit and vector 0xFF; no other local APIC or
    I/O APIC register changes. *)
Theorem APIC_Initialize_correct d :
  0 <= reg (msrs d) IA32_APIC_BASE_MSR < 2 ^ 64 → 0 <= reg (lapic d) APIC_SVR < 2 ^ 32 →
  wp APIC_Initialize (λ _ d',
    reg (msrs d') IA32_APIC_BASE_MSR = Z.setbit (reg (msrs d) IA32_APIC_BASE_MSR) 11 ∧
    reg (lapic d') APIC_SVR = Z.lor (reg (lapic d) APIC_SVR) 0x1FF ∧
    (∀ i, i ≠ APIC_SVR → reg (lapic d') i = reg (lapic d) i) ∧ ioapic d' = ioapic d) d.
Proof.
  intros Hm Hs. unfold APIC_Initialize, ReadCR4, WriteCR4, cpuGetMSR. wp_steps.
  cbn [msr_read cr4_write apics_bus msrs]. rewrite enable_bit by done. unfold mwhen.
  destruct (Z.testbit (reg (msrs d) IA32_APIC_BASE_MSR) 11) eqn:Eb; cbn [negb].
  - wp_steps. apply enable_svr; [done|]. intros m' E1 E2. cbn [msrs ioapic]. split; [by rewrite setbit_idem|done].
  - unfold cpuSetMSR. wp_steps. cbn [msr_write apics_bus lapic ioregsel ioapic msrs cr4].
    apply enable_svr; [done|]. intros m' E1 E2. cbn [msrs ioapic]. split; [|done].
    rewrite reg_insert, decide_True by done. by apply halves_setbit.
Qed.

(** Accesses of the local APIC's page reach the register with the offset. *)
Lemma lapic_address off : 0 <= off < 0x1000 → off mod 4 = 0 →
  (APIC_BASE + 4 * (off / 4) =? 0xFEC00000) = false ∧ (APIC_BASE + 4 * (off / 4) =? 0xFEC00010) = false ∧
  APIC_BASE + 4 * (off / 4) - 0xFEE00000 = off.
Proof. intros Ho H4. unfold APIC_BASE. rewrite !Z.eqb_neq. zlia. Qed.

Lemma APIC_Read_spec off d Q : 0 <= off < 0x1000 → off mod 4 = 0 → Q (u32 (reg (lapic d) off)) d → wp (APIC_Read off) Q d.
Proof.
  intros Ho H4 HQ. destruct (lapic_address off Ho H4) as (E1 & E2 & E3).
  unfold APIC_Read, reg_read, wp. cbn [mmio_read apics_bus]. by rewrite E1, E2, E3.
Qed.
Lemma APIC_Write_spec off v d Q : 0 <= off < 0x1000 → off mod 4 = 0 →
  Q tt (mk_apics (<[off := u32 v]> (lapic d)) (ioregsel d) (ioapic d) (msrs d) (cr4 d)) → wp (APIC_Write off v) Q d.
Proof.
  intros Ho H4 HQ. destruct (lapic_address off Ho H4) as (E1 & E2 & E3).
  unfold APIC_Write, reg_write, wp, modify. cbn [mmio_write apics_bus]. by rewrite E1, E2, E3.
Qed.

(** [APIC_DisableIRQ] masks and [APIC_EnableIRQ] unmasks a local vector table
    entry: disabling sets the mask bit, enabling again clears it, and no other bit
    of the entry and no other register changes. *)
Theorem APIC_mask_roundtrip d irq : 0 <= irq < 6 →
  let r := APIC_LVT_TIMER + irq * 0x10 in 0 <= reg (lapic d) r < 2 ^ 32 →
  wp (APIC_DisableIRQ irq) (λ _ d1,
    reg (lapic d1) r = Z.setbit (reg (lapic d) r) 16 ∧ (∀ i, i ≠ r → reg (lapic d1) i = reg (lapic d) i) ∧
    wp (APIC_EnableIRQ irq) (λ _ d2,
      reg (lapic d2) r = Z.clearbit (reg (lapic d) r) 16 ∧ ∀ i, i ≠ r → reg (lapic d2) i = reg (lapic d) i) d1) d.
Proof.
  intros Hi r Hr. assert (0x320 <= r <= 0x370 ∧ r mod 4 = 0) as [Hr1 Hr2] by (unfold r, APIC_LVT_TIMER; zlia).
  unfold APIC_DisableIRQ, APIC_EnableIRQ, APIC_REGISTER_OFFSET. fold r. rewrite (wrap_small 32 r) by lia. clearbody r.
  apply wp_bind, APIC_Read_spec; [lia|done|]. apply APIC_Write_spec; [lia|done|]. cbn [lapic].
  rewrite (wrap_small 32 (reg _ _)) by done. rewrite wrap_small by (apply lor_range; lia).
  change 0x10000 with (2 ^ 16). rewrite <- Z.setbit_spec'. split; [by rewrite reg_insert, decide_True|].
  split; [intros i Hn; by rewrite reg_insert, decide_False by congruence|].
  apply wp_bind, APIC_Read_spec; [lia|done|]. apply APIC_Write_spec; [lia|done|]. cbn [lapic].
  rewrite !reg_insert, !decide_True by done.
  assert (0 <= Z.setbit (reg (lapic d) r) 16 < 2 ^ 32) as Hs by (rewrite Z.setbit_spec'; apply lor_range; lia).
  rewrite (wrap_small 32 (Z.setbit _ _)) by done. rewrite land_cnot by lia. split.
  - rewrite wrap_small by (apply land_range; lia). rewrite <- Z.ldiff_land, <- Z.clearbit_spec'.
    apply Z.bits_inj'. intros k Hk. rewrite !Z.clearbit_eqb, Z.setbit_eqb by lia.
    by destruct (Z.eqb_spec 16 k); rewrite ?andb_false_r, ?orb_false_l.
  - intros i Hn. by rewrite !reg_insert, !decide_False by congruence.
Qed.

(** [APIC_EnableIOIRQ] addresses the redirection table by [irq * 16], not by
    [0x10 + 2 * irq]: asked for line 1 it writes the entry of line 0 and leaves
    the one of line 1 alone. *)
Theorem APIC_EnableIOIRQ_wrong_entry d vector : 0 <= vector < 256 →
  wp (APIC_EnableIOIRQ 1 vector) (λ _ d',
    reg (ioapic d') 0x10 = vector ∧ reg (ioapic d') 0x12 = reg (ioapic d) 0x12) d.
Proof.
  intros Hv. unfold APIC_EnableIOIRQ. change (u32 (1 * APIC_REGISTER_OFFSET)) with 0x10.
  apply WriteIO_spec; [lia|]. cbn [ioapic]. rewrite !reg_insert, decide_True, decide_False by done. split; [|done].
  unfold APIC_DELIVERY_MODE_FIXED. rewrite Z.lor_0_r, land_cnot by lia. rewrite wrap_small by (apply land_range; lia).
  rewrite <- Z.ldiff_land. apply Z.bits_inj'. intros k Hk. change 0x10000 with (2 ^ 16).
  rewrite Z.ldiff_spec, Z.pow2_bits_eqb by lia. destruct (Z.eqb_spec 16 k) as [<-|]; [|by rewrite andb_true_r].
  by rewrite (testbit_high 8) by lia.
Qed.

Definition apics_demo : apics :=
  mk_apics {[APIC_SVR := 0xFF; APIC_LVT_TIMER + 1 * 0x10 := 0x10031]} 0 {[0x12 := 0x10000; 0x13 := 0xFF000000]}
    {[IA32_APIC_BASE_MSR := 0xFEE00100]} 0.

Lemma IOAPIC_ConfigureKeyboard_correct_witness :
  wp IOAPIC_ConfigureKeyboard (λ _ d', reg (ioapic d') 0x12 = 0x21 ∧ reg (ioapic d') 0x13 = 0) apics_demo.
Proof.
  eapply wp_mono; [apply (IOAPIC_ConfigureKeyboard_correct apics_demo); vm_compute; split; [discriminate|reflexivity]|].
  cbv beta. intros _ d' (E1 & E2 & _). split; [exact E1|rewrite E2; reflexivity].
Defined.

Lemma IOAPIC_MaskIRQ1_correct_witness : wp IOAPIC_MaskIRQ1 (λ _ d', reg (ioapic d') 0x12 = 0x10000) apics_demo.
Proof.
  eapply wp_mono; [apply (IOAPIC_MaskIRQ1_correct apics_demo); vm_compute; split; (discriminate || reflexivity)|].
  cbv beta. intros _ d' (E1 & _). rewrite E1. reflexivity.
Defined.

Lemma APIC_Initialize_correct_witness :
  wp APIC_Initialize (λ _ d', reg (msrs d') IA32_APIC_BASE_MSR = 0xFEE00900 ∧ reg (lapic d') APIC_SVR = 0x1FF) apics_demo.
Proof.
  eapply wp_mono; [apply (APIC_Initialize_correct apics_demo); vm_compute; split; (discriminate || reflexivity)|].
  cbv beta. intros _ d' (E1 & E2 & _). split; [rewrite E1; reflexivity|rewrite E2; reflexivity].
Defined.

Lemma APIC_mask_roundtrip_witness :
  wp (APIC_DisableIRQ 1) (λ _ d1, reg (lapic d1) 0x330 = 0x10031) apics_demo.
Proof.
  eapply wp_mono; [apply (APIC_mask_roundtrip apics_demo 1); [lia|vm_compute; split; (discriminate || reflexivity)]|].
  cbv beta. intros _ d' (E1 & _). exact E1.
Defined.

Lemma APIC_EnableIOIRQ_wrong_entry_witness : wp (APIC_EnableIOIRQ 1 0x21) (λ _ d',
    reg (ioapic d') 0x10 = 0x21 ∧ reg (ioapic d') 0x12 = reg (ioapic apics_demo) 0x12) apics_demo.
Proof. apply (APIC_EnableIOIRQ_wrong_entry apics_demo 0x21). lia. Defined.
