(* ===== verification/Interrupts.v ===== *)
(** * Interrupt gates and dispatch ([arch/x86_64/idt.c], [isr.c], [isrs_gen.c],
    [drivers/pic/pic_irq.c], [drivers/pic/apic/apic_irq.c])

    The state holds the gate table, the handler tables, the messages printed and
    the device.  The assembly stubs are a parameter, [isr_stub i] being the
    address of [ISRi]; a driver's handler is a number and [driver] its effect.
    [halt] is a flag of the state: every call of it is the last thing its caller
    does.  An index outside of a table stops the machine. *)

From Stdlib Require Import ZifyBool.
From stdpp Require Import prelude gmap list numbers tactics.
From S2P Require Import Prelude Io Pic Apic Gdt.

Record IDTEntry_t := mk_gate {
  GateBaseLow : Z; SegmentSelector : Z; IST : Z; Flags : Z; GateBaseMiddle : Z; GateBaseHigh : Z; Reserved : Z
}.

Definition IDT_FLAG_GATE_32BIT_INT : Z := 0xE.
Definition IDT_FLAG_RING0 : Z := Z.shiftl 0 5.
Definition IDT_FLAG_PRESENT : Z := 0x80.
Definition APIC_REMAP_OFFSET : Z := 0x20.
Definition MAX_IRQS : Z := 64.
Definition PIC_REMAP_OFFSET : Z := 0xE0.
Definition APIC_ISR : Z := 0x100.
Definition APIC_IRR : Z := 0x200.

(** The interrupted context; only the vector and the error code are examined. *)
Record Registers_t := mk_regs { interrupt : Z; error : Z }.

(** Functions stored in [g_ISRHandlers]; [NULL] is [None]. *)
Inductive isr_fn := page_fault_handler_fn | APIC_IRQ_Handler_fn | PIC_IRQ_Handler_fn.

(** What is printed, up to the register dumps. *)
Inductive message :=
  | KernelPanic
  | UnhandledInterrupt (v : Z)
  | UnhandledException (v : Z)
  | PageFault (error : Z)
  | InvalidRead
  | InvalidWrite
  | UnhandledIRQ (irq : Z)
  | InvalidIRQ (irq : Z).

Record irq_state (D : Type) := mk_irq {
  g_IDT : list IDTEntry_t;
  g_ISRHandlers : list (option isr_fn);
  g_PICIRQHandlers : list (option Z);
  g_APICIRQHandlers : list (option Z);
  console : list message;
  halted : bool;
  device : D
}.
Arguments mk_irq {D}. Arguments g_IDT {D}. Arguments g_ISRHandlers {D}. Arguments g_PICIRQHandlers {D}.
Arguments g_APICIRQHandlers {D}. Arguments console {D}. Arguments halted {D}. Arguments device {D}.

Section interrupts.
Context {D : Type} `{Bus D} (isr_stub : Z → Z) (driver : Z → Registers_t → M (irq_state D) unit).
Abbreviation I := (M (irq_state D)).

Definition set_idt (v : list IDTEntry_t) (s : irq_state D) : irq_state D :=
  mk_irq v (g_ISRHandlers s) (g_PICIRQHandlers s) (g_APICIRQHandlers s) (console s) (halted s) (device s).
Definition set_handlers (v : list (option isr_fn)) (s : irq_state D) : irq_state D :=
  mk_irq (g_IDT s) v (g_PICIRQHandlers s) (g_APICIRQHandlers s) (console s) (halted s) (device s).
Definition set_pic_handlers (v : list (option Z)) (s : irq_state D) : irq_state D :=
  mk_irq (g_IDT s) (g_ISRHandlers s) v (g_APICIRQHandlers s) (console s) (halted s) (device s).
Definition set_apic_handlers (v : list (option Z)) (s : irq_state D) : irq_state D :=
  mk_irq (g_IDT s) (g_ISRHandlers s) (g_PICIRQHandlers s) v (console s) (halted s) (device s).
Definition set_device (v : D) (s : irq_state D) : irq_state D :=
  mk_irq (g_IDT s) (g_ISRHandlers s) (g_PICIRQHandlers s) (g_APICIRQHandlers s) (console s) (halted s) v.
Definition print (msg : message) : I unit :=
  modify (λ s, mk_irq (g_IDT s) (g_ISRHandlers s) (g_PICIRQHandlers s) (g_APICIRQHandlers s)
                 (console s ++ [msg]) (halted s) (device s)).
Definition halt : I unit :=
  modify (λ s, mk_irq (g_IDT s) (g_ISRHandlers s) (g_PICIRQHandlers s) (g_APICIRQHandlers s)
                 (console s) true (device s)).
Definition on_device {A} (c : M D A) : I A := zoom device set_device c.

Definition alter_gate (i : Z) (f : IDTEntry_t → IDTEntry_t) : I unit :=
  t ← gets g_IDT; e ← of_option (zlookup t i); t' ← of_option (zupdate t i (f e)); modify (set_idt t').

(** ** [idt.c] *)

Definition IDT_SetGate (interrupt base segmentDescriptor flags : Z) : I unit :=
  alter_gate interrupt (λ _, mk_gate (Z.land base 0xFFFF) segmentDescriptor 0 flags
    (Z.land (Z.shiftr base 16) 0xFFFF) (Z.land (Z.shiftr base 32) 0xFFFFFFFF) 0).

Definition set_flags (f : Z → Z) (e : IDTEntry_t) : IDTEntry_t :=
  mk_gate (GateBaseLow e) (SegmentSelector e) (IST e) (u8 (f (Flags e))) (GateBaseMiddle e) (GateBaseHigh e) (Reserved e).
Definition IDT_EnableGate (interrupt : Z) : I unit :=
  alter_gate interrupt (set_flags (λ v, Z.lor v IDT_FLAG_PRESENT)).
Definition IDT_DisableGate (interrupt : Z) : I unit :=
  alter_gate interrupt (set_flags (λ v, Z.land v (Z.lnot IDT_FLAG_PRESENT))).

(** ** [isrs_gen.c]: [IDT_SetGate(i, ISRi, ...)] for every vector in turn *)

Fixpoint for_each (n : nat) (i : Z) (body : Z → I unit) : I unit :=
  match n with
  | O => mret tt
  | S n => body i;; for_each n (i + 1) body
  end.

Definition ISR_InitializeGates : I unit :=
  for_each 256 0 (λ i, IDT_SetGate i (isr_stub i) GDT_CODE_SEGMENT (Z.lor IDT_FLAG_RING0 IDT_FLAG_GATE_32BIT_INT)).

(** ** [isr.c] *)

Definition ISR_RegisterHandler (interrupt : Z) (handler : isr_fn) : I unit :=
  t ← gets g_ISRHandlers; t' ← of_option (zupdate t interrupt (Some handler)); modify (set_handlers t');;
  IDT_EnableGate interrupt.

Definition ISR_Initialize : I unit :=
  ISR_InitializeGates;;
  ISR_RegisterHandler 14 page_fault_handler_fn;;
  for_each 256 0 (λ i, mwhen (negb (i =? 14)) (IDT_EnableGate i)).

Definition page_fault_handler (regs : Registers_t) : I unit :=
  print KernelPanic;; print (PageFault (error regs));;
  (if truthy (Z.land (error regs) 0x1) then print InvalidRead else print InvalidWrite);;
  halt.

(** ** [pic_irq.c] *)

Definition PIC_IRQ_Handler (regs : Registers_t) : I unit :=
  let irq := s32 (interrupt regs - PIC_REMAP_OFFSET) in
  pic_isr ← on_device PIC_ReadInServiceRegister;
  pic_irr ← on_device PIC_ReadIrqRequestRegister;
  t ← gets g_PICIRQHandlers; h ← of_option (zlookup t irq);
  (match h with Some f => driver f regs | None => print (UnhandledIRQ irq) end);;
  on_device (PIC_SendEndOfInterrupt irq).

Definition PIC_IRQ_Initialize : I unit :=
  on_device (PIC_Configure PIC_REMAP_OFFSET (PIC_REMAP_OFFSET + 8));;
  for_each 16 0 (λ i, ISR_RegisterHandler (PIC_REMAP_OFFSET + i) PIC_IRQ_Handler_fn).

Definition PIC_IRQ_RegisterHandler (irq : Z) (handler : Z) : I unit :=
  t ← gets g_PICIRQHandlers; t' ← of_option (zupdate t irq (Some handler)); modify (set_pic_handlers t').

(** ** [apic_irq.c] *)

Definition APIC_IRQ_Handler (regs : Registers_t) : I unit :=
  let irq := s32 (interrupt regs - APIC_REMAP_OFFSET) in
  apic_isr ← on_device (APIC_Read APIC_ISR);
  apic_irr ← on_device (APIC_Read APIC_IRR);
  t ← gets g_APICIRQHandlers; h ← of_option (zlookup t irq);
  (match h with Some f => driver f regs | None => print (UnhandledIRQ irq) end);;
  on_device LAPIC_SendEOI.

Definition APIC_IRQ_Initialize : I unit :=
  on_device APIC_Initialize;;
  for_each (Z.to_nat MAX_IRQS) 0 (λ i, ISR_RegisterHandler (APIC_REMAP_OFFSET + i) APIC_IRQ_Handler_fn).

(** [irq] is unsigned: only the upper bound can fail. *)
Definition APIC_IRQ_RegisterHandler (irq : Z) (handler : Z) : I unit :=
  if (irq <? 0) || (MAX_IRQS <=? irq) then print (InvalidIRQ irq)
  else t ← gets g_APICIRQHandlers; t' ← of_option (zupdate t irq (Some handler)); modify (set_apic_handlers t').

(** ** The common entry of all stubs *)

Definition call_isr (f : isr_fn) (regs : Registers_t) : I unit :=
  match f with
  | page_fault_handler_fn => page_fault_handler regs
  | APIC_IRQ_Handler_fn => APIC_IRQ_Handler regs
  | PIC_IRQ_Handler_fn => PIC_IRQ_Handler regs
  end.

Definition ISR_Handler (regs : Registers_t) : I unit :=
  t ← gets g_ISRHandlers; h ← of_option (zlookup t (interrupt regs));
  match h with
  | Some f => call_isr f regs
  | None =>
    if 32 <=? interrupt regs then print KernelPanic;; print (UnhandledInterrupt (interrupt regs))
    else print KernelPanic;; print (UnhandledException (interrupt regs));; halt
  end.
End interrupts.

(** ** Gates *)

(** The address the processor jumps to through a gate. *)
Definition gate_target (g : IDTEntry_t) : Z := GateBaseLow g + GateBaseMiddle g * 2 ^ 16 + GateBaseHigh g * 2 ^ 32.

(** A ring 0 interrupt gate of the kernel's code segment to [addr], present or not. *)
Definition gate_to (addr : Z) (present : bool) (g : IDTEntry_t) : Prop :=
  gate_target g = addr ∧ SegmentSelector g = GDT_CODE_SEGMENT ∧ IST g = 0 ∧ Reserved g = 0 ∧
  Flags g = if present then 0x8E else 0x0E.

Lemma new_gate_to addr : 0 <= addr < 2 ^ 64 →
  gate_to addr false (mk_gate (Z.land addr 0xFFFF) GDT_CODE_SEGMENT 0 (Z.lor IDT_FLAG_RING0 IDT_FLAG_GATE_32BIT_INT)
    (Z.land (Z.shiftr addr 16) 0xFFFF) (Z.land (Z.shiftr addr 32) 0xFFFFFFFF) 0).
Proof.
  intros Ha. unfold gate_to, gate_target. cbn [GateBaseLow GateBaseMiddle GateBaseHigh SegmentSelector IST Reserved Flags].
  rewrite (land_field _ 16 16), (land_field _ 32 32), (land_low _ 16) by lia. split; [zlia|done].
Qed.

Lemma enable_gate_to addr p g : gate_to addr p g → gate_to addr true (set_flags (λ v, Z.lor v IDT_FLAG_PRESENT) g).
Proof. intros (H1 & H2 & H3 & H4 & H5). repeat split; try done. cbn. rewrite H5. by destruct p. Qed.

Section proofs.
Context {D : Type} `{Bus D} (isr_stub : Z → Z) (driver : Z → Registers_t → M (irq_state D) unit).
Abbreviation I := (M (irq_state D)).
Implicit Types s : irq_state D.

Lemma for_each_wp n i (body : Z → I unit) (P : Z → irq_state D → Prop) s :
  (∀ k s, i <= k < i + Z.of_nat n → P k s → wp (body k) (λ _, P (k + 1)) s) → P i s →
  wp (for_each n i body) (λ _, P (i + Z.of_nat n)) s.
Proof.
  revert i s. induction n as [|n IH]; intros i s Hb HP; cbn [for_each].
  - apply wp_ret. by rewrite Z.add_0_r.
  - apply wp_bind. eapply wp_mono; [apply Hb; [lia|done]|]. intros [] s' HP'. cbv beta in *.
    replace (i + Z.of_nat (S n)) with (i + 1 + Z.of_nat n) by lia. apply IH; [|done].
    intros k s2 Hk. apply Hb. lia.
Qed.

Lemma alter_gate_spec i f s e Q : zlookup (g_IDT s) i = Some e →
  Q tt (set_idt (<[Z.to_nat i := f e]> (g_IDT s)) s) → wp (alter_gate i f) Q s.
Proof.
  intros Hl HQ. pose proof (zlookup_range _ _ _ Hl). unfold alter_gate. wp_steps.
  eapply wp_of_option; [exact Hl|]. wp_steps. eapply wp_of_option; [by apply zupdate_Some|]. by wp_steps.
Qed.

(** Gate [v] leads to stub [v]; [on] tells which gates are present. *)
Definition gates (on : Z → bool) (hi : Z) s : Prop :=
  length (g_IDT s) = 256%nat ∧
  ∀ v, 0 <= v < hi → ∃ g, zlookup (g_IDT s) v = Some g ∧ gate_to (isr_stub v) (on v) g.

(** Everything but the gates. *)
Definition same_but_idt s s' : Prop := s' = set_idt (g_IDT s') s.

Lemma gates_insert on on' hi hi' s i g : gates on hi s → 0 <= i < 256 → gate_to (isr_stub i) (on' i) g →
  (∀ v, 0 <= v < hi' → v ≠ i → v < hi ∧ on' v = on v) → gates on' hi' (set_idt (<[Z.to_nat i := g]> (g_IDT s)) s).
Proof.
  intros [Hl Hg] Hi Hgi Hv. split; cbn [g_IDT set_idt]; [by rewrite length_insert|]. intros v Hr.
  destruct (Z.eq_dec v i) as [->|Hn].
  - exists g. split; [|done]. apply zlookup_insert_eq. lia.
  - rewrite zlookup_insert_ne by lia. destruct (Hv v Hr Hn) as [Hlt ->]. apply Hg. lia.
Qed.

Lemma enable_gates on hi s i : gates on hi s → 0 <= i < hi → hi <= 256 →
  wp (IDT_EnableGate i) (λ _ s', gates (λ v, on v || (v =? i)) hi s' ∧ same_but_idt s s') s.
Proof.
  intros Hg Hi Hhi. destruct (proj2 Hg i Hi) as (g & Hl & Hgi). unfold IDT_EnableGate.
  eapply alter_gate_spec; [exact Hl|]. split; [|done].
  eapply gates_insert; [exact Hg|lia| |].
  - rewrite Z.eqb_refl, orb_true_r. by eapply enable_gate_to.
  - intros v Hr Hn. split; [lia|]. rewrite (proj2 (Z.eqb_neq v i)) by done. by rewrite orb_false_r.
Qed.

Lemma gates_ext on on' hi s : (∀ v, 0 <= v < hi → on v = on' v) → gates on hi s → gates on' hi s.
Proof. intros He [Hl Hg]. split; [done|]. intros v Hv. rewrite <- He by done. by apply Hg. Qed.

Lemma gates_idt on hi s s' : g_IDT s' = g_IDT s → gates on hi s → gates on hi s'.
Proof. unfold gates. by intros ->. Qed.

Lemma same_but_trans s s1 s2 : same_but_idt s s1 → same_but_idt s1 s2 → same_but_idt s s2.
Proof. unfold same_but_idt. intros E1 E2. rewrite E2, E1. done. Qed.

Lemma ISR_InitializeGates_spec s : length (g_IDT s) = 256%nat → (∀ v, 0 <= isr_stub v < 2 ^ 64) →
  wp (ISR_InitializeGates isr_stub) (λ _ s', gates (λ _, false) 256 s' ∧ same_but_idt s s') s.
Proof.
  intros Hl Hst. unfold ISR_InitializeGates.
  eapply wp_mono; [apply (for_each_wp 256 0 _ (λ k s', gates (λ _, false) k s' ∧ same_but_idt s s'))|by intros [] s' ?].
  - intros k s1 Hk [Hg Hs]. destruct (zlookup_Some (g_IDT s1) k) as [e He]; [rewrite (proj1 Hg); lia|].
    eapply alter_gate_spec; [exact He|]. split.
    + eapply gates_insert; [exact Hg|lia|by apply new_gate_to|]. intros v Hv Hn. split; [lia|done].
    + eapply same_but_trans; [exact Hs|done].
  - split; [|by destruct s]. split; [done|]. intros v Hv. lia.
Qed.

Lemma ISR_RegisterHandler_spec on s i f : gates on 256 s → 0 <= i < 256 → length (g_ISRHandlers s) = 256%nat →
  wp (ISR_RegisterHandler i f) (λ _ s', gates (λ v, on v || (v =? i)) 256 s' ∧
    g_ISRHandlers s' = <[Z.to_nat i := Some f]> (g_ISRHandlers s) ∧
    same_but_idt (set_handlers (g_ISRHandlers s') s) s') s.
Proof.
  intros Hg Hi Hl. unfold ISR_RegisterHandler. wp_steps. eapply wp_of_option; [apply zupdate_Some; lia|]. wp_steps.
  eapply wp_mono; [apply (enable_gates on 256)|]; [by eapply gates_idt; [|exact Hg]|lia|lia|].
  intros [] s' [Hg' Hs]. split; [done|]. split; [by rewrite Hs|]. rewrite Hs. done.
Qed.

Lemma ISR_Initialize_spec s : length (g_IDT s) = 256%nat → length (g_ISRHandlers s) = 256%nat →
  (∀ v, 0 <= isr_stub v < 2 ^ 64) →
  wp (ISR_Initialize isr_stub) (λ _ s',
    gates (λ _, true) 256 s' ∧
    g_ISRHandlers s' = <[14%nat := Some page_fault_handler_fn]> (g_ISRHandlers s) ∧
    same_but_idt (set_handlers (g_ISRHandlers s') s) s') s.
Proof.
  intros Hl Hh Hst. unfold ISR_Initialize. apply wp_bind.
  wp_use ISR_InitializeGates_spec; [done|done|]. intros _ s1 [Hg1 Hs1]. apply wp_bind.
  wp_use ISR_RegisterHandler_spec; [exact Hg1|lia|by rewrite Hs1|]. intros _ s2 (Hg2 & Hh2 & Hs2).
  eapply wp_mono.
  - apply (for_each_wp 256 0 _ (λ k s', gates (λ v, (v =? 14) || (v <? k)) 256 s' ∧ same_but_idt s2 s')).
    + intros k s3 Hk [Hg3 Hs3]. unfold mwhen. destruct (Z.eqb_spec k 14) as [->|Hn]; cbn [negb].
      * apply wp_ret. split; [|done]. eapply gates_ext; [|exact Hg3]. intros v Hv. lia.
      * eapply wp_mono; [apply (enable_gates _ 256 s3 k Hg3); lia|]. intros [] s4 [Hg4 Hs4].
        split; [|by eapply same_but_trans]. eapply gates_ext; [|exact Hg4]. intros v Hv. cbv beta. lia.
    + split; [|by destruct s2]. eapply gates_ext; [|exact Hg2]. intros v Hv. cbv beta. lia.
  - intros [] s3 [Hg3 Hs3]. cbv beta in *. split.
    + eapply gates_ext; [|exact Hg3]. intros v Hv. cbv beta. lia.
    + rewrite Hs3. cbn [g_ISRHandlers set_idt]. rewrite Hh2. split; [by rewrite Hs1|].
      rewrite Hs2, Hs1. cbn. rewrite Hh2, Hs1. done.
Qed.
(** after [ISR_Initialize] every one of the 256 vectors has a present ring 0
    interrupt gate of the kernel code segment to its own stub, the page fault
    handler is registered on vector 14, and no other handler changed. *)
Theorem ISR_Initialize_correct s : length (g_IDT s) = 256%nat → length (g_ISRHandlers s) = 256%nat →
  (∀ v, 0 <= isr_stub v < 2 ^ 64) →
  wp (ISR_Initialize isr_stub) (λ _ s',
    (∀ v, 0 <= v < 256 → ∃ g, zlookup (g_IDT s') v = Some g ∧ gate_to (isr_stub v) true g) ∧
    g_ISRHandlers s' = <[14%nat := Some page_fault_handler_fn]> (g_ISRHandlers s) ∧
    same_but_idt (set_handlers (g_ISRHandlers s') s) s') s.
Proof.
  intros Hl Hh Hst. wp_use ISR_Initialize_spec; [done..|]. intros [] s' ([_ Hg] & Hrest). split; [exact Hg|exact Hrest].
Qed.
End proofs.

(** ** Dispatch *)

(** Reading a local APIC register has no effect. *)
Class QuietReads (D : Type) `{Bus D} : Prop :=
  quiet_read r d : 0 <= r < 0x1000 → r mod 4 = 0 → ∃ v, APIC_Read r d = Some (v, d).

#[export] Instance apics_quiet : QuietReads apics.
Proof.
  intros r d Hr H4. pose proof (APIC_Read_spec r d (λ _ d', d' = d) Hr H4 eq_refl) as Hw.
  unfold wp in Hw. destruct (APIC_Read r d) as [[v d']|]; [|done]. rewrite Hw. by eexists.
Qed.

Section routing.
Context {D : Type} `{QuietReads D} (isr_stub : Z → Z) (driver : Z → Registers_t → M (irq_state D) unit).
Implicit Types s : irq_state D.

Lemma read_lapic r s Q : 0 <= r < 0x1000 → r mod 4 = 0 →
  (∀ v, Q v s) → wp (on_device (APIC_Read r)) Q s.
Proof.
  intros Hr H4 HQ. apply wp_zoom. destruct (quiet_read r (device s) Hr H4) as [v E].
  unfold wp. rewrite E. replace (set_device (device s) s) with s by (by destruct s). apply HQ.
Qed.

Lemma APIC_dispatch s irq f regs Q : 0 <= irq < 64 → interrupt regs = APIC_REMAP_OFFSET + irq →
  zlookup (g_ISRHandlers s) (APIC_REMAP_OFFSET + irq) = Some (Some APIC_IRQ_Handler_fn) →
  zlookup (g_APICIRQHandlers s) irq = Some (Some f) →
  wp (driver f regs) (λ _ s1, wp (on_device LAPIC_SendEOI) Q s1) s → wp (ISR_Handler driver regs) Q s.
Proof.
  intros Hi Hr Hh Ha Hd. unfold ISR_Handler. wp_steps. rewrite Hr. eapply wp_of_option; [exact Hh|].
  cbn [call_isr]. unfold APIC_IRQ_Handler. rewrite Hr. replace (APIC_REMAP_OFFSET + irq - APIC_REMAP_OFFSET) with irq by lia.
  rewrite swrap_small by lia. apply wp_bind, read_lapic; [unfold APIC_ISR; lia|done|]. intros v1.
  apply wp_bind, read_lapic; [unfold APIC_IRR; lia|done|]. intros v2. wp_steps.
  eapply wp_of_option; [exact Ha|]. wp_steps. exact Hd.
Qed.

(** The handlers of a range of vectors. *)
Lemma register_all s lo (n : nat) on f : gates isr_stub on 256 s → length (g_ISRHandlers s) = 256%nat →
  0 <= lo → lo + Z.of_nat n <= 256 →
  let range k v := (lo <=? v) && (v <? lo + k) in
  wp (for_each n 0 (λ i, ISR_RegisterHandler (lo + i) f)) (λ _ s',
    gates isr_stub (λ v, on v || range (Z.of_nat n) v) 256 s' ∧
    (∀ v, zlookup (g_ISRHandlers s') v = if range (Z.of_nat n) v then Some (Some f) else zlookup (g_ISRHandlers s) v) ∧
    s' = set_idt (g_IDT s') (set_handlers (g_ISRHandlers s') s)) s.
Proof.
  intros Hg Hl Hlo Hn range.
  set (P := λ k s', gates isr_stub (λ v, on v || range k v) 256 s' ∧ length (g_ISRHandlers s') = 256%nat ∧
     (∀ v, zlookup (g_ISRHandlers s') v = if range k v then Some (Some f) else zlookup (g_ISRHandlers s) v) ∧
     s' = set_idt (g_IDT s') (set_handlers (g_ISRHandlers s') s)).
  eapply wp_mono; [apply (for_each_wp n 0 _ P)|].
  - intros k s1 Hk (Hg1 & Hl1 & Hv1 & E1).
    eapply wp_mono; [apply (ISR_RegisterHandler_spec isr_stub _ s1 (lo + k) f Hg1); [lia|done]|].
    intros [] s2 (Hg2 & Hh2 & Hs2). split_and!.
    + eapply gates_ext; [|exact Hg2]. intros v Hv. unfold range. lia.
    + by rewrite Hh2, length_insert.
    + intros v. rewrite Hh2. destruct (Z.eq_dec v (lo + k)) as [->|Hne].
      * rewrite zlookup_insert_eq by lia. unfold range. by replace ((lo <=? lo + k) && (lo + k <? lo + (k + 1))) with true by lia.
      * rewrite zlookup_insert_ne by lia. rewrite Hv1. unfold range. by replace (v <? lo + (k + 1)) with (v <? lo + k) by lia.
    + rewrite Hs2, E1. done.
  - split_and!; [|done| |by destruct s].
    + eapply gates_ext; [|exact Hg]. intros v Hv. unfold range. lia.
    + intros v. unfold range. by replace ((lo <=? v) && (v <? lo + 0)) with false by lia.
  - intros [] s' (Hg' & _ & Hv & E). by split_and!.
Qed.

Lemma APIC_IRQ_Initialize_spec s on (P : D → Prop) : gates isr_stub on 256 s → length (g_ISRHandlers s) = 256%nat →
  wp APIC_Initialize (λ _, P) (device s) →
  let range v := (0x20 <=? v) && (v <? 0x60) in
  wp APIC_IRQ_Initialize (λ _ s',
    gates isr_stub (λ v, on v || range v) 256 s' ∧
    (∀ v, zlookup (g_ISRHandlers s') v = if range v then Some (Some APIC_IRQ_Handler_fn) else zlookup (g_ISRHandlers s) v) ∧
    P (device s') ∧ s' = set_idt (g_IDT s') (set_handlers (g_ISRHandlers s') (set_device (device s') s))) s.
Proof.
  intros Hg Hl HI range. unfold APIC_IRQ_Initialize. apply wp_bind, wp_zoom.
  eapply wp_mono; [exact HI|]. intros [] d' Hd.
  eapply wp_mono; [apply (register_all (set_device d' s) APIC_REMAP_OFFSET (Z.to_nat MAX_IRQS) on)|]; [by eapply gates_idt; [|exact Hg]|done|done|done|].
  intros [] s1 (Hg1 & Hv & E). split; [exact Hg1|]. split; [exact Hv|]. rewrite E. by split.
Qed.

Lemma APIC_IRQ_RegisterHandler_spec s irq f : 0 <= irq < 64 → length (g_APICIRQHandlers s) = 64%nat →
  wp (APIC_IRQ_RegisterHandler irq f) (λ _ s',
    s' = set_apic_handlers (<[Z.to_nat irq := Some f]> (g_APICIRQHandlers s)) s) s.
Proof.
  intros Hi Hl. unfold APIC_IRQ_RegisterHandler.
  replace ((irq <? 0) || (MAX_IRQS <=? irq)) with false by (unfold MAX_IRQS; lia).
  wp_steps. eapply wp_of_option; [apply zupdate_Some; lia|]. by wp_steps.
Qed.
End routing.

Section dispatch.
Context (isr_stub : Z → Z) (driver : Z → Registers_t → M (irq_state apics) unit).
Implicit Types s : irq_state apics.

Lemma APIC_Initialize_runs d : wp (S := apics) APIC_Initialize (λ _ _, True) d.
Proof.
  unfold APIC_Initialize, ReadCR4, WriteCR4, cpuGetMSR, cpuSetMSR, mwhen. wp_steps.
  destruct (negb _); wp_steps; done.
Qed.

(** C16: an interrupt line set up through the APIC reaches its driver: after
    [APIC_IRQ_Initialize] and [APIC_IRQ_RegisterHandler], an interrupt on vector
    [0x20 + irq] runs the registered handler and then signals the end of the
    interrupt; exceptions keep their handlers. *)
Theorem APIC_IRQ_reaches_driver s on irq f : gates isr_stub on 256 s → length (g_ISRHandlers s) = 256%nat →
  length (g_APICIRQHandlers s) = 64%nat → 0 <= irq < 64 →
  wp (APIC_IRQ_Initialize;; APIC_IRQ_RegisterHandler irq f) (λ _ s',
    (∀ regs Q, interrupt regs = APIC_REMAP_OFFSET + irq →
       wp (driver f regs) (λ _ s1, wp (on_device LAPIC_SendEOI) Q s1) s' → wp (ISR_Handler driver regs) Q s') ∧
    ∀ v, 0 <= v < 32 → zlookup (g_ISRHandlers s') v = zlookup (g_ISRHandlers s) v) s.
Proof.
  intros Hg Hl Ha Hi. apply wp_bind.
  wp_use (APIC_IRQ_Initialize_spec isr_stub s on (λ _, True) Hg Hl); [apply APIC_Initialize_runs|].
  intros [] s1 (_ & Hv & _ & E). assert (g_APICIRQHandlers s1 = g_APICIRQHandlers s) as Ea by (by rewrite E).
  wp_use (APIC_IRQ_RegisterHandler_spec s1 irq f Hi); [by rewrite Ea|]. intros [] s2 ->. cbn [g_ISRHandlers set_apic_handlers].
  split.
  - intros regs Q Hr Hd. eapply APIC_dispatch; [exact Hi|done| | |exact Hd].
    + cbn [g_ISRHandlers set_apic_handlers]. rewrite Hv. unfold APIC_REMAP_OFFSET.
      by replace ((0x20 <=? 0x20 + irq) && (0x20 + irq <? 0x60)) with true by lia.
    + apply zlookup_insert_eq. rewrite Ea. lia.
  - intros v Hr. rewrite Hv. by replace ((0x20 <=? v) && (v <? 0x60)) with false by lia.
Qed.

(** an exception without a handler stops the machine after the panic
    messages; an interrupt without one only prints them and returns. *)
Theorem ISR_Handler_unhandled s regs : zlookup (g_ISRHandlers s) (interrupt regs) = Some None →
  wp (ISR_Handler driver regs) (λ _ s',
    halted s' = (if 32 <=? interrupt regs then halted s else true) ∧
    console s' = console s ++ [KernelPanic;
      if 32 <=? interrupt regs then UnhandledInterrupt (interrupt regs) else UnhandledException (interrupt regs)] ∧
    device s' = device s) s.
Proof.
  intros Hh. unfold ISR_Handler. wp_steps. eapply wp_of_option; [exact Hh|].
  destruct (32 <=? interrupt regs); cbn; by rewrite <- app_assoc.
Qed.

(** the page fault report tests the wrong bit of the error code: a read of
    a page that is not present (code 0) is reported as an invalid write, and a
    write to a read-only page (code 3) as an invalid read. *)
Theorem page_fault_report s : halted s = false →
  wp (page_fault_handler (mk_regs 14 0)) (λ _ s', halted s' = true ∧ console s' = console s ++ [KernelPanic; PageFault 0; InvalidWrite]) s ∧
  wp (page_fault_handler (mk_regs 14 3)) (λ _ s', halted s' = true ∧ console s' = console s ++ [KernelPanic; PageFault 3; InvalidRead]) s.
Proof.
  intros Hs. unfold page_fault_handler. cbn [error].
  change (truthy (Z.land 0 1)) with false. change (truthy (Z.land 3 1)) with true. cbv iota.
  split; unfold print, halt; wp_steps; cbn [console halted]; rewrite <- !app_assoc; done.
Qed.
End dispatch.

(** The tables before initialisation, with stubs 16 bytes apart. *)
Definition irq_demo : irq_state apics :=
  mk_irq (replicate 256 (mk_gate 0 0 0 0 0 0 0)) (replicate 256 None) (replicate 16 None) (replicate 64 None) [] false
    (mk_apics ∅ 0 ∅ ∅ 0).
Definition stub_demo (v : Z) : Z := 0xFFFFFFFF80001000 + 16 * (v mod 256).

Lemma ISR_Initialize_correct_witness : wp (ISR_Initialize stub_demo) (λ _ s',
    ∃ g, zlookup (g_IDT s') 200 = Some g ∧ gate_to 0xFFFFFFFF80001C80 true g) irq_demo.
Proof.
  eapply wp_mono; [apply (ISR_Initialize_correct stub_demo irq_demo); [reflexivity|reflexivity|]|].
  - intros v. unfold stub_demo. pose proof (Z.mod_pos_bound v 256). lia.
  - cbv beta. intros _ s' (Hg & _). exact (Hg 200 ltac:(lia)).
Defined.

(** Gates 0 to 255 to the same stubs, all present. *)
Definition gates_demo : list IDTEntry_t :=
  map (λ i, mk_gate (Z.land (stub_demo (Z.of_nat i)) 0xFFFF) GDT_CODE_SEGMENT 0 0x8E
              (Z.land (Z.shiftr (stub_demo (Z.of_nat i)) 16) 0xFFFF) (Z.land (Z.shiftr (stub_demo (Z.of_nat i)) 32) 0xFFFFFFFF) 0)
      (seq 0 256).

Lemma gates_demo_ok : gates stub_demo (λ _, true) 256 (set_idt gates_demo irq_demo).
Proof.
  split; [reflexivity|]. intros v Hv. cbn [g_IDT set_idt]. unfold zlookup, gates_demo.
  rewrite (proj2 (Z.leb_le 0 v)) by lia. rewrite list_lookup_fmap, lookup_seq_lt by lia. eexists. split; [reflexivity|].
  cbn [Nat.add]. rewrite Z2Nat.id by lia. destruct (new_gate_to (stub_demo v)) as (Ht & _); [|by split].
  unfold stub_demo. pose proof (Z.mod_pos_bound v 256). lia.
Qed.

Lemma APIC_IRQ_reaches_driver_witness :
  wp (APIC_IRQ_Initialize;; APIC_IRQ_RegisterHandler 1 7) (λ _ s',
    ∀ regs Q, interrupt regs = 0x21 → wp (on_device LAPIC_SendEOI) Q s' →
      wp (ISR_Handler (λ _ _, mret tt) regs) Q s') (set_idt gates_demo irq_demo).
Proof.
  eapply wp_mono; [apply (APIC_IRQ_reaches_driver stub_demo (λ _ _, mret tt) _ (λ _, true) 1 7 gates_demo_ok); [reflexivity|reflexivity|lia]|].
  cbv beta. intros _ s' [Hd _] regs Q Hr HQ. apply Hd; [exact Hr|exact HQ].
Defined.

Lemma ISR_Handler_unhandled_witness : wp (ISR_Handler (λ _ _, mret tt) (mk_regs 13 0)) (λ _ s',
    halted s' = true ∧ console s' = [KernelPanic; UnhandledException 13] ∧ device s' = device irq_demo) irq_demo.
Proof. apply (ISR_Handler_unhandled (λ _ _, mret tt) irq_demo (mk_regs 13 0)). reflexivity. Defined.

Lemma page_fault_report_witness :
  wp (page_fault_handler (mk_regs 14 0)) (λ _ s', halted s' = true ∧ console s' = [KernelPanic; PageFault 0; InvalidWrite]) irq_demo ∧
  wp (page_fault_handler (mk_regs 14 3)) (λ _ s', halted s' = true ∧ console s' = [KernelPanic; PageFault 3; InvalidRead]) irq_demo.
Proof. apply (page_fault_report irq_demo). reflexivity. Defined.
