(* ===== verification/Keyboard.v ===== *)
(** * The PS/2 keyboard ([kernel/shell/keyboard.c], [includes/keyboard.h],
    [tools/includes/util.h])

    [keyboard_t] with the static variables of [keyboard_handler] and [getc], and
    the device.  Polling loops take fuel.  [getc] runs while interrupts change
    the key tables: its schedule lists, for every key it inspects, the number of
    keyboard interrupts taken just before.  [us_char] is the US layout as the key
    caps show it, independent of the driver's table. *)

From stdpp Require Import prelude gmap list numbers tactics.
From S2P Require Import Prelude Io Pic Apic TlsfBits.

Definition KEYBOARD_DATA_PORT : Z := 0x60.
Definition KEYBOARD_CMD_PORT : Z := 0x64.
Definition CMD_LED_STATE : Z := 0xED.
Definition CMD_IDENTIFY_KEYBOARD : Z := 0xF2.
Definition CMD_TYPEMATIC_BYTE : Z := 0xF3.
Definition CMD_ENABLE_SCANNING : Z := 0xF4.
Definition CMD_RESET : Z := 0xFF.
Definition RES_ACK : Z := 0xFA.
Definition RES_SELF_TEST_PASSED : Z := 0xAA.
Definition RES_SELF_TEST_FAILED : Z := 0xFC.
Definition RES_RESEND : Z := 0xFE.
Definition REPEAT_RATE_MASK : Z := 0x1F.
Definition DELAY_MASK : Z := 0x60.
Definition UNUSED_BIT_MASK : Z := 0x80.
Definition REPEAT_RATE_SHIFT : Z := 0.
Definition DELAY_SHIFT : Z := 5.
Definition KEY_NULL : Z := 0.
Definition KEY_ESC : Z := 1.
Definition KEY_BACKSPACE : Z := 8.
Definition KEY_TAB : Z := 9.
Definition KEY_ENTER : Z := 10.
Definition KEY_INSERT : Z := 0x90.
Definition KEY_DELETE : Z := 0x91.
Definition KEY_HOME : Z := 0x92.
Definition KEY_END : Z := 0x93.
Definition KEY_PAGE_UP : Z := 0x94.
Definition KEY_PAGE_DOWN : Z := 0x95.
Definition KEY_LEFT : Z := 0x9B.
Definition KEY_UP : Z := 0x98.
Definition KEY_RIGHT : Z := 0x9D.
Definition KEY_DOWN : Z := 0xA0.
Definition KEY_F (n : Z) : Z := 0x80 + (n - 1).
Definition KEY_LCTRL : Z := 0x1D.
Definition KEY_RCTRL : Z := 0x1D.
Definition KEY_LALT : Z := 0x38.
Definition KEY_RALT : Z := 0x38.
Definition KEY_LSHIFT : Z := 0x2A.
Definition KEY_RSHIFT : Z := 0x36.
Definition KEY_CAPS_LOCK : Z := 0x3A.
Definition KEY_SCROLL_LOCK : Z := 0x46.
Definition KEY_NUM_LOCK : Z := 0x45.
Definition KEY_MOD_ALT : Z := 0x0200.
Definition KEY_MOD_CTRL : Z := 0x0400.
Definition KEY_MOD_SHIFT : Z := 0x0800.
Definition KEY_MOD_CAPS_LOCK : Z := 0x1000.
Definition KEY_MOD_NUM_LOCK : Z := 0x2000.
Definition KEY_MOD_SCROLL_LOCK : Z := 0x4000.
Definition KEYBOARD_RELEASE : Z := 0x80.
Definition MAGIC_CAPSLOCK_TOGGLE : Z := 0x3A.

(** Entries the initialiser does not name are zero. *)
Definition pad128 (l : list Z) : list Z := l ++ replicate (128 - length l) 0.

Definition keyboard_layout_us : list (list Z) :=
  [ pad128
      [KEY_NULL; KEY_ESC; 49; 50; 51; 52; 53; 54; 55; 56; 57; 48;
       45; 61; KEY_BACKSPACE; KEY_TAB; 113; 119; 101; 114; 116; 121; 117;
       105; 111; 112; 91; 93; KEY_ENTER; 0; 97; 115; 100; 102; 103; 104; 106;
       107; 108; 59; 39; 96; 0; 92; 122; 120; 99; 118; 98; 110; 109;
       44; 46; 47; 0; 0; 0; 32; 0; KEY_F 1; KEY_F 2; KEY_F 3; KEY_F 4; KEY_F 5;
       KEY_F 6; KEY_F 7; KEY_F 8; KEY_F 9; KEY_F 10; 0; 0; KEY_HOME; KEY_UP;
       KEY_PAGE_UP; 45; KEY_LEFT; 53; KEY_RIGHT; 43; KEY_END; KEY_DOWN;
       KEY_PAGE_DOWN; KEY_INSERT; KEY_DELETE; 0; 0; 0; KEY_F 11; KEY_F 12];
    pad128
      [KEY_NULL; KEY_ESC; 33; 64; 35; 36; 37; 94; 38; 42; 40; 41;
       95; 43; KEY_BACKSPACE; KEY_TAB; 81; 87; 69; 82; 84; 89; 85;
       73; 79; 80; 123; 125; KEY_ENTER; 0; 65; 83; 68; 70; 71; 72;
       74; 75; 76; 58; 34; 126; 0; 124; 90; 88; 67; 86; 66; 78;
       77; 60; 62; 63; 0; 0; 0; 32; 0; KEY_F 1; KEY_F 2; KEY_F 3; KEY_F 4;
       KEY_F 5; KEY_F 6; KEY_F 7; KEY_F 8; KEY_F 9; KEY_F 10; 0; 0; KEY_HOME; KEY_UP;
       KEY_PAGE_UP; 45; KEY_LEFT; 53; KEY_RIGHT; 43; KEY_END; KEY_DOWN;
       KEY_PAGE_DOWN; KEY_INSERT; KEY_DELETE; 0; 0; 0; KEY_F 11; KEY_F 12] ].

(** [BIT_SET], [HIBIT] and the key macros. *)
Definition HIBIT (x : Z) : Z := 31 - builtin_clz x.
Definition BIT_SET (v n : Z) (x : bool) : Z :=
  Z.lxor v (Z.land (Z.lxor (if x then -1 else 0) v) (Z.shiftl 1 n)).
Definition KEY_IS_PRESS (s : Z) : bool := negb (truthy (Z.land s KEYBOARD_RELEASE)).
Definition KEY_SCANCODE (s : Z) : Z := Z.land s 0x7F.
Definition KEY_MOD (s m : Z) : bool := truthy (Z.land s m).
Definition KEY_CHAR (s : Z) : Z :=
  match keyboard_layout_us !! (if KEY_MOD s KEY_MOD_SHIFT then 1%nat else 0%nat) with
  | Some row => default 0 (row !! Z.to_nat (KEY_SCANCODE s))
  | None => 0
  end.

Record keyboard_t := mk_keyboard { mods : Z; keys : list bool; chars : list bool }.

Record kbd_state (D : Type) := mk_kbd {
  keyboard : keyboard_t;
  extended : bool;                   (* static of keyboard_handler *)
  key_was_pressed : list bool;       (* static of getc *)
  kdev : D
}.
Arguments mk_kbd {D}. Arguments keyboard {D}. Arguments extended {D}. Arguments key_was_pressed {D}. Arguments kdev {D}.

Section driver.
Context {D : Type} `{Bus D}.
Abbreviation K := (M (kbd_state D)).

Definition keyboard_send_command (cmd : Z) : M D unit := outb KEYBOARD_CMD_PORT cmd.
Definition keyboard_send_data (data : Z) : M D unit := outb KEYBOARD_DATA_PORT data.
Definition keyboard_read_response : M D Z := inb KEYBOARD_DATA_PORT.

(** [while (!(inb(0x64) & 0x01));] then [inb(0x60)] *)
Fixpoint keyboard_read_response_safe (fuel : nat) : M D Z :=
  match fuel with
  | O => mstop
  | S fuel => status ← inb 0x64;
              if truthy (Z.land status 0x01) then inb 0x60 else keyboard_read_response_safe fuel
  end.

Definition typematic_byte (repeat_rate delay_time : Z) : Z :=
  let b := u8 (Z.lor 0 (Z.shiftl (Z.land repeat_rate REPEAT_RATE_MASK) REPEAT_RATE_SHIFT)) in
  let b := u8 (Z.lor b (Z.shiftl (Z.land delay_time DELAY_MASK) DELAY_SHIFT)) in
  u8 (Z.land b (Z.lnot UNUSED_BIT_MASK)).

(** 0 for an acknowledge, 1 for a resend request, 2 for anything else. *)
Definition ack_code (response : Z) : Z :=
  if response =? RES_ACK then 0 else if response =? RES_RESEND then 1 else 2.

Definition keyboard_set_typematic (repeat_rate delay_time : Z) : M D Z :=
  keyboard_send_command CMD_TYPEMATIC_BYTE;;
  keyboard_send_data (typematic_byte repeat_rate delay_time);;
  iowait;;
  response ← keyboard_read_response; mret (ack_code response).

Definition keyboard_set_leds (fuel : nat) (led_state : Z) : M D Z :=
  keyboard_send_command CMD_LED_STATE;; keyboard_send_data (u8 led_state);;
  response ← keyboard_read_response_safe fuel; mret (ack_code response).

Definition keyboard_enable_scanning (fuel : nat) : M D Z :=
  keyboard_send_command CMD_ENABLE_SCANNING;;
  response ← keyboard_read_response_safe fuel; mret (ack_code response).

Definition keyboard_reset (fuel : nat) : M D Z :=
  keyboard_send_command CMD_RESET;;
  response ← keyboard_read_response_safe fuel;
  if response =? RES_ACK then
    response ← keyboard_read_response_safe fuel;
    mret (if response =? RES_SELF_TEST_PASSED then 0 else if response =? RES_SELF_TEST_FAILED then 3 else 2)
  else mret (if response =? RES_RESEND then 1 else 2).

Definition keyboard_identify (fuel : nat) : M D Z :=
  keyboard_send_command CMD_IDENTIFY_KEYBOARD;;
  response ← keyboard_read_response_safe fuel; mret (ack_code response).

(** ** The interrupt handler *)

Definition on_dev {A} (c : M D A) : K A :=
  zoom kdev (λ d s, mk_kbd (keyboard s) (extended s) (key_was_pressed s) d) c.
Definition set_keyboard (f : keyboard_t → option keyboard_t) : K unit :=
  k ← gets keyboard; k' ← of_option (f k);
  modify (λ s, mk_kbd k' (extended s) (key_was_pressed s) (kdev s)).
Definition set_extended (b : bool) : K unit :=
  modify (λ s, mk_kbd (keyboard s) b (key_was_pressed s) (kdev s)).

Definition set_mods (f : Z → Z) (k : keyboard_t) : option keyboard_t :=
  Some (mk_keyboard (u16 (f (mods k))) (keys k) (chars k)).
Definition set_key (i : Z) (b : bool) (k : keyboard_t) : option keyboard_t :=
  match zupdate (keys k) i b with Some l => Some (mk_keyboard (mods k) l (chars k)) | None => None end.
Definition set_char (i : Z) (b : bool) (k : keyboard_t) : option keyboard_t :=
  match zupdate (chars k) i b with Some l => Some (mk_keyboard (mods k) (keys k) l) | None => None end.

Definition modifier (m scancode : Z) : K unit :=
  set_keyboard (set_mods (λ v, BIT_SET v (HIBIT m) (KEY_IS_PRESS scancode))).

(** Both modifier chains; they differ in the caps lock test. *)
Definition modifier_keys (caps : K unit) (is_caps : bool) (scancode : Z) : K unit :=
  let sc := KEY_SCANCODE scancode in
  if (sc =? KEY_LALT) || (sc =? KEY_RALT) then modifier KEY_MOD_ALT scancode
  else if (sc =? KEY_LCTRL) || (sc =? KEY_RCTRL) then modifier KEY_MOD_CTRL scancode
  else if (sc =? KEY_LSHIFT) || (sc =? KEY_RSHIFT) then modifier KEY_MOD_SHIFT scancode
  else if is_caps then caps
  else if sc =? KEY_NUM_LOCK then modifier KEY_MOD_NUM_LOCK scancode
  else if sc =? KEY_SCROLL_LOCK then modifier KEY_MOD_SCROLL_LOCK scancode
  else mret tt.

Definition extended_key (code : Z) : option Z :=
  if code =? 0x4B then Some KEY_LEFT else if code =? 0x4D then Some KEY_RIGHT
  else if code =? 0x48 then Some KEY_UP else if code =? 0x50 then Some KEY_DOWN
  else if code =? 0x53 then Some KEY_DELETE else None.

(** [keyDOWN], a [char]: letters are capitalised by caps lock. *)
Definition key_down (scancode m : Z) : Z :=
  let c := s8 (KEY_CHAR (Z.lor scancode m)) in
  if truthy (Z.land m KEY_MOD_CAPS_LOCK) && (97 <=? c) && (c <=? 122)
  then s8 (c + (if truthy (Z.land m KEY_MOD_SHIFT) then 32 else -32)) else c.

Definition keyboard_handler (fuel : nat) : K unit :=
  on_dev iowait;;
  scancode ← on_dev (keyboard_read_response_safe fuel);
  if scancode =? 0xE0 then set_extended true
  else
    let is_release := truthy (Z.land scancode 0x80) in
    let code := Z.land scancode 0x7F in
    ext ← gets extended;
    if ext : bool then
      (match extended_key code with
       | Some k => set_keyboard (set_key k (negb is_release))
       | None => mret tt
       end);;
      set_extended false;;
      modifier_keys (modifier KEY_MOD_CAPS_LOCK scancode) (KEY_SCANCODE scancode =? KEY_CAPS_LOCK) scancode
    else
      modifier_keys (set_keyboard (set_mods (λ v, Z.lxor v KEY_MOD_CAPS_LOCK))) (scancode =? MAGIC_CAPSLOCK_TOGGLE) scancode;;
      set_keyboard (set_key code (KEY_IS_PRESS scancode));;
      m ← gets (λ s, mods (keyboard s));
      set_keyboard (set_char (u8 (key_down scancode m)) (KEY_IS_PRESS scancode));;
      on_dev LAPIC_SendEOI.

(** ** [getc] *)

Definition returned_key (key : Z) : bool :=
  ((32 <=? key) && (key <=? 126)) || (key =? KEY_ENTER) || (key =? KEY_BACKSPACE) || (key =? KEY_TAB).

(** One key of the scan: a character to return, if any. *)
Definition getc_key (key : Z) : K (option Z) :=
  k ← gets keyboard; c ← of_option (zlookup (chars k) key);
  p ← gets key_was_pressed; w ← of_option (zlookup p key);
  let mark (b : bool) : K unit :=
    p' ← of_option (zupdate p key b); modify (λ s, mk_kbd (keyboard s) (extended s) p' (kdev s)) in
  if c && negb w then mark true;; mret (if returned_key key then Some key else None)
  else if negb c && w then mark false;; mret None
  else mret None.

Fixpoint interrupts (n : nat) (fuel : nat) : K unit :=
  match n with O => mret tt | S n => keyboard_handler fuel;; interrupts n fuel end.

(** The scan over 0 .. 127, again and again; [sched] is the interrupts taken
    before each inspection and stops the model when it is used up. *)
Fixpoint getc (fuel : nat) (sched : list nat) (key : Z) : K Z :=
  match sched with
  | [] => mstop
  | n :: sched =>
    interrupts n fuel;;
    r ← getc_key key;
    match r with
    | Some c => mret c
    | None => getc fuel sched (if key + 1 <? 128 then key + 1 else 0)
    end
  end.
End driver.

(** ** The keyboard controller and the local APIC's end-of-interrupt register *)

Record ps2 := mk_ps2 { queue : list Z; eois : Z; sent : list (Z * Z) }.

#[export] Instance ps2_bus : Bus ps2 := {|
  bus_in w port d :=
    if port =? 0x64 then (match queue d with [] => 0 | _ => 1 end, d)
    else match queue d with
         | c :: q => if port =? 0x60 then (c, mk_ps2 q (eois d) (sent d)) else (0, d)
         | [] => (0, d)
         end;
  bus_out w port v d :=
    if port =? 0x80 then d else mk_ps2 (queue d) (eois d) (sent d ++ [(port, v)]);
  mmio_read a d := (0, d);
  mmio_write a v d := if a =? 0xFEE000B0 then mk_ps2 (queue d) (eois d + 1) (sent d) else d;
  msr_read r d := 0; msr_write r v d := d; cr4_read d := 0; cr4_write v d := d
|}.

Abbreviation kbd := (kbd_state ps2).

(** ** The effect of a scan code *)

(** The modifier word after a scan code; [ext]: after the prefix 0xE0. *)
Definition new_mods (ext : bool) (sc m : Z) : Z :=
  let code := KEY_SCANCODE sc in
  let put k := u16 (BIT_SET m (HIBIT k) (KEY_IS_PRESS sc)) in
  if code =? 0x38 then put KEY_MOD_ALT
  else if code =? 0x1D then put KEY_MOD_CTRL
  else if (code =? 0x2A) || (code =? 0x36) then put KEY_MOD_SHIFT
  else if (if ext then code =? 0x3A else sc =? 0x3A)
       then (if ext then put KEY_MOD_CAPS_LOCK else u16 (Z.lxor m KEY_MOD_CAPS_LOCK))
  else if code =? 0x45 then put KEY_MOD_NUM_LOCK
  else if code =? 0x46 then put KEY_MOD_SCROLL_LOCK
  else m.

(** The state after the interrupt for scan code [sc]. *)
Definition after_scan (sc : Z) (k : keyboard_t) (ext : bool) (p : list bool) (q : list Z) (n : Z) (tr : list (Z * Z)) : kbd :=
  let code := Z.to_nat (Z.land sc 0x7F) in
  if sc =? 0xE0 then mk_kbd k true p (mk_ps2 q n tr)
  else if ext then
    mk_kbd (mk_keyboard (new_mods true sc (mods k))
             (match extended_key (Z.land sc 0x7F) with
              | Some i => <[Z.to_nat i := KEY_IS_PRESS sc]> (keys k) | None => keys k end) (chars k))
      false p (mk_ps2 q n tr)
  else
    let m := new_mods false sc (mods k) in
    mk_kbd (mk_keyboard m (<[code := KEY_IS_PRESS sc]> (keys k))
             (<[Z.to_nat (u8 (key_down sc m)) := KEY_IS_PRESS sc]> (chars k)))
      false p (mk_ps2 q (n + 1) tr).

Lemma read_scancode fuel sc q n tr : 0 <= sc < 256 →
  keyboard_read_response_safe (S fuel) (mk_ps2 (sc :: q) n tr) = Some (sc, mk_ps2 q n tr).
Proof.
  intros Hsc. unfold keyboard_read_response_safe, inb, port_in, bind.
  cbn [bus_in ps2_bus queue Z.eqb Pos.eqb]. change (truthy (Z.land (u8 1) 1)) with true. cbv iota.
  cbn [bus_in ps2_bus queue Z.eqb Pos.eqb]. by rewrite wrap_small.
Qed.

Lemma modifier_keys_spec (ext : bool) (caps : M kbd unit) sc k e p d Q :
  (∀ Q, Q tt (mk_kbd (mk_keyboard (if ext then u16 (BIT_SET (mods k) (HIBIT KEY_MOD_CAPS_LOCK) (KEY_IS_PRESS sc))
                                   else u16 (Z.lxor (mods k) KEY_MOD_CAPS_LOCK)) (keys k) (chars k)) e p d) →
        wp caps Q (mk_kbd k e p d)) →
  Q tt (mk_kbd (mk_keyboard (new_mods ext sc (mods k)) (keys k) (chars k)) e p d) →
  wp (modifier_keys caps (if ext then KEY_SCANCODE sc =? KEY_CAPS_LOCK else sc =? MAGIC_CAPSLOCK_TOGGLE) sc) Q
    (mk_kbd k e p d).
Proof.
  intros Hcaps HQ. unfold modifier_keys, new_mods in *.
  change KEY_LALT with 0x38. change KEY_RALT with 0x38. change KEY_LCTRL with 0x1D. change KEY_RCTRL with 0x1D.
  change KEY_LSHIFT with 0x2A. change KEY_RSHIFT with 0x36. change KEY_CAPS_LOCK with 0x3A.
  change MAGIC_CAPSLOCK_TOGGLE with 0x3A. change KEY_NUM_LOCK with 0x45. change KEY_SCROLL_LOCK with 0x46.
  rewrite !orb_diag. destruct (KEY_SCANCODE sc =? 0x38); [exact HQ|].
  destruct (KEY_SCANCODE sc =? 0x1D); [exact HQ|]. destruct (_ || _); [exact HQ|].
  destruct (if ext then KEY_SCANCODE sc =? 58 else sc =? 58); [by apply Hcaps|].
  destruct (KEY_SCANCODE sc =? 0x45); [exact HQ|]. destruct (KEY_SCANCODE sc =? 0x46); [exact HQ|].
  apply wp_ret. by destruct k.
Qed.

Lemma set_keyboard_spec f (k k' : keyboard_t) e p (d : ps2) Q : f k = Some k' → Q tt (mk_kbd k' e p d) →
  wp (set_keyboard f) Q (mk_kbd k e p d).
Proof. intros E HQ. unfold set_keyboard. wp_steps. cbn [keyboard]. eapply wp_of_option; [exact E|]. by wp_steps. Qed.

Lemma handler_effect fuel sc k ext p q n tr : 0 <= sc < 256 →
  length (keys k) = 256%nat → length (chars k) = 256%nat →
  wp (keyboard_handler (S fuel)) (λ _ s', s' = after_scan sc k ext p q n tr) (mk_kbd k ext p (mk_ps2 (sc :: q) n tr)).
Proof.
  intros Hsc Hk Hc. unfold keyboard_handler. apply wp_bind.
  change (wp (on_dev iowait) ?Q ?s) with (Q tt s). cbv beta.
  apply wp_bind, wp_zoom. cbn [kdev]. apply wp_run. eexists _, _. split; [by apply read_scancode|]. cbv beta.
  cbn [keyboard extended key_was_pressed]. unfold after_scan. destruct (sc =? 224); [done|]. cbv zeta.
  apply wp_bind, wp_gets. cbn [extended]. assert (Z.land sc 0x7F = sc mod 2 ^ 7) as Ec by (apply (land_ones_mod sc 7); lia).
  assert (negb (truthy (Z.land sc 128)) = KEY_IS_PRESS sc) as -> by done. destruct ext.
  - apply wp_bind. set (k1 := mk_keyboard (mods k) (match extended_key (Z.land sc 127) with
              | Some i => <[Z.to_nat i := KEY_IS_PRESS sc]> (keys k) | None => keys k end) (chars k)).
    assert (wp (match extended_key (Z.land sc 127) with Some k => set_keyboard (set_key k (KEY_IS_PRESS sc)) | None => mret tt end)
              (λ _ s', s' = mk_kbd k1 true p (mk_ps2 q n tr)) (mk_kbd k true p (mk_ps2 q n tr))) as Hext.
    { unfold k1, extended_key. repeat case_if; try (by apply wp_ret; destruct k);
        (eapply set_keyboard_spec; [unfold set_key; rewrite zupdate_Some; [reflexivity|rewrite Hk; done]|done]). }
    eapply wp_mono; [exact Hext|]. intros _ s' ->. cbv beta. apply wp_bind, wp_modify. cbn [keyboard key_was_pressed kdev].
    apply (modifier_keys_spec true); [|done]. intros Q HQ. by eapply set_keyboard_spec.
  - apply wp_bind, (modifier_keys_spec false); [intros Q HQ; by eapply set_keyboard_spec|]. cbv beta.
    set (m := new_mods false sc (mods k)). apply wp_bind. eapply set_keyboard_spec.
    { unfold set_key. cbn [keys]. rewrite zupdate_Some; [reflexivity|]. rewrite Hk, Ec. zlia. }
    cbv beta. apply wp_bind, wp_gets. cbn [keyboard mods]. apply wp_bind. eapply set_keyboard_spec.
    { unfold set_char. cbn [chars]. rewrite zupdate_Some; [reflexivity|]. rewrite Hc.
      pose proof (wrap_range 8 (key_down sc m) ltac:(lia)). lia. }
    cbv beta. done.
Qed.

(** ** Typing

    The shell's view: one [getc] per key stroke, the keyboard's interrupts falling
    anywhere between its inspections of the table.  A stroke comes with its
    timing: the inspections made while the key before it is still down, those
    made with no key down, and those made after the key went down. *)

Record stroke := mk_stroke { scan : Z; held : nat; pause : nat; rest : nat }.

(** Between two keys, and after a press, [getc] gets once around the table. *)
Definition in_time (k : stroke) : Prop := (128 <= pause k)%nat ∧ (127 <= rest k)%nat.

(** The interrupts during one call; [down]: the key before is down at its start. *)
Definition schedule (down : bool) (k : stroke) : list nat :=
  (if down then replicate (held k) 0%nat ++ 1%nat :: replicate (pause k - 1) 0%nat else replicate (pause k) 0%nat) ++
  1%nat :: replicate (rest k) 0%nat.

Fixpoint session (fuel : nat) (down : bool) (ks : list stroke) : M kbd (list Z) :=
  match ks with
  | [] => mwhen down (interrupts 1 fuel);; mret []
  | k :: ks => c ← getc fuel (schedule down k) 0; l ← session fuel true ks; mret (c :: l)
  end.

(** ** The US layout

    What each key of scan code set 1 is labelled with: rows of letters, rows of
    symbols below and above, and the keys that type a control character. *)

Definition letter_rows : list (Z * list Z) :=
  [(0x10, [113; 119; 101; 114; 116; 121; 117; 105; 111; 112]);      (* q w e r t y u i o p *)
   (0x1E, [97; 115; 100; 102; 103; 104; 106; 107; 108]);            (* a s d f g h j k l *)
   (0x2C, [122; 120; 99; 118; 98; 110; 109])].                      (* z x c v b n m *)
Definition symbol_rows : list (Z * list (Z * Z)) :=
  [(0x02, [(49, 33); (50, 64); (51, 35); (52, 36); (53, 37); (54, 94); (55, 38); (56, 42); (57, 40); (48, 41); (45, 95); (61, 43)]);
   (0x0E, [(8, 8); (9, 9)]);                                         (* backspace, tab *)
   (0x1A, [(91, 123); (93, 125); (10, 10)]);                         (* brackets, enter *)
   (0x27, [(59, 58); (39, 34); (96, 126)]);
   (0x2B, [(92, 124)]);
   (0x33, [(44, 60); (46, 62); (47, 63)]);
   (0x39, [(32, 32)])].

Fixpoint in_rows {A} (rows : list (Z * list A)) (sc : Z) : option A :=
  match rows with
  | [] => None
  | (first, l) :: rows => match zlookup l (sc - first) with Some a => Some a | None => in_rows rows sc end
  end.

(** The character a key types: either of shift and caps lock gives a capital. *)
Definition us_char (shift caps : bool) (sc : Z) : option Z :=
  match in_rows letter_rows sc with
  | Some c => Some (if shift || caps then c - 32 else c)
  | None => match in_rows symbol_rows sc with Some (low, high) => Some (if shift then high else low) | None => None end
  end.

(** A key that is not a modifier, and the character it types. *)
Definition plain (sc : Z) : Prop :=
  0 <= sc < 128 ∧ sc ≠ 0x38 ∧ sc ≠ 0x1D ∧ sc ≠ 0x2A ∧ sc ≠ 0x36 ∧ sc ≠ 0x3A ∧ sc ≠ 0x45 ∧ sc ≠ 0x46 ∧ sc ≠ 0x60.
Definition typed (m sc : Z) : Z := u8 (key_down sc m).

Definition no_keys (m : Z) : keyboard_t := mk_keyboard m (replicate 256 false) (replicate 256 false).

(** The modifier word uses the bits from 9 up. *)
Definition mods_ok (m : Z) : Prop := 0 <= m < 2 ^ 16 ∧ m mod 2 ^ 9 = 0.

Section typing.
Context (m : Z) (Hm : mods_ok m).

Lemma mods_low i : 0 <= i < 9 → Z.testbit m i = false.
Proof. intros Hi. destruct Hm as [_ H]. rewrite <- (Z.mod_pow2_bits_low m 9 i) by lia. rewrite H. apply Z.bits_0. Qed.

Lemma scancode_mods sc : KEY_SCANCODE (Z.lor sc m) = KEY_SCANCODE sc.
Proof.
  unfold KEY_SCANCODE. apply Z.bits_inj'. intros i Hi. rewrite !Z.land_spec, Z.lor_spec.
  destruct (Z.lt_ge_cases i 9); [by rewrite mods_low, orb_false_r by lia|].
  rewrite (testbit_high 7 127) by lia. by rewrite !andb_false_r.
Qed.

Lemma scancode_release sc : 0 <= sc < 128 → KEY_SCANCODE (sc + 128) = sc ∧ KEY_SCANCODE sc = sc.
Proof. intros Hs. unfold KEY_SCANCODE. rewrite !(land_ones_mod _ 7 : _ → Z.land _ 127 = _) by lia. zlia. Qed.

Lemma is_press sc : 0 <= sc < 128 → KEY_IS_PRESS sc = true ∧ KEY_IS_PRESS (sc + 128) = false.
Proof.
  intros Hs. unfold KEY_IS_PRESS, KEYBOARD_RELEASE. change 0x80 with (2 ^ 7).
  rewrite !testbit_b2z_pow2 by lia. rewrite (testbit_high 7 sc) by lia.
  assert (Z.testbit (sc + 2 ^ 7) 7 = true) as ->; [|done]. rewrite Z.testbit_true by lia. zlia.
Qed.

Lemma shift_mods sc : 0 <= sc < 256 → KEY_MOD (Z.lor sc m) KEY_MOD_SHIFT = Z.testbit m 11.
Proof.
  intros Hs. unfold KEY_MOD, KEY_MOD_SHIFT. change 0x800 with (2 ^ 11). rewrite testbit_b2z_pow2 by lia.
  rewrite Z.lor_spec, (testbit_high 8 sc) by lia. by destruct (Z.testbit m 11).
Qed.

(** Pressing and releasing give the same character. *)
Lemma key_down_release sc : 0 <= sc < 128 → key_down (sc + 128) m = key_down sc m.
Proof.
  intros Hs. assert (KEY_CHAR (Z.lor (sc + 128) m) = KEY_CHAR (Z.lor sc m)) as E; [|unfold key_down; by rewrite E].
  unfold KEY_CHAR. rewrite !shift_mods, !scancode_mods by lia. by destruct (scancode_release sc Hs) as [-> ->].
Qed.

Lemma plain_mods sc : plain sc → new_mods false sc m = m ∧ new_mods false (sc + 128) m = m.
Proof.
  intros (Hs & Hp). unfold new_mods. destruct (scancode_release sc Hs) as [-> ->].
  rewrite !(proj2 (Z.eqb_neq sc _)) by tauto. cbn [orb]. rewrite (proj2 (Z.eqb_neq (sc + 128) 0x3A)) by lia. done.
Qed.

(** The state while key [sc] is down, and after it came up. *)
Lemma press_release sc p q n tr : plain sc →
  after_scan sc (no_keys m) false p q n tr =
    mk_kbd (mk_keyboard m (<[Z.to_nat sc := true]> (replicate 256 false)) (<[Z.to_nat (typed m sc) := true]> (replicate 256 false)))
      false p (mk_ps2 q (n + 1) tr) ∧
  after_scan (sc + 128) (mk_keyboard m (<[Z.to_nat sc := true]> (replicate 256 false))
      (<[Z.to_nat (typed m sc) := true]> (replicate 256 false))) false p q n tr =
    mk_kbd (no_keys m) false p (mk_ps2 q (n + 1) tr).
Proof.
  intros Hp. pose proof Hp as (Hs & _ & _ & _ & _ & _ & _ & _ & H60). destruct (plain_mods sc Hp) as [M1 M2].
  destruct (is_press sc Hs) as [P1 P2]. destruct (scancode_release sc Hs) as [S1 S2]. unfold KEY_SCANCODE in S1, S2.
  unfold after_scan. rewrite !(proj2 (Z.eqb_neq _ 224)) by lia. cbn [mods keys chars no_keys].
  rewrite M1, M2, P1, P2, S1, S2, key_down_release by done. unfold typed. split; [done|].
  rewrite !list_insert_insert_eq, !insert_replicate. done.
Qed.

(** A key of the table that is up: its mark is removed. *)
Lemma getc_key_up key k e p (d : ps2) : zlookup (chars k) key = Some false → 0 <= key < 128 → length p = 128%nat →
  getc_key key (mk_kbd k e p d) = Some (None, mk_kbd k e (<[Z.to_nat key := false]> p) d).
Proof.
  intros Hc Hk Hp. destruct (zlookup_Some p key) as [w Hw]; [lia|].
  cbv [getc_key bind gets of_option mret keyboard key_was_pressed]. rewrite Hc. cbv iota beta. rewrite Hw. cbv iota beta.
  destruct w; cbn [andb negb].
  - rewrite zupdate_Some by lia. done.
  - rewrite list_insert_id; [done|]. unfold zlookup in Hw. by rewrite (proj2 (Z.leb_le 0 key)) in Hw by lia.
Qed.

(** A key that went down since the last scan: it is marked and returned. *)
Lemma getc_key_down key k e p (d : ps2) : zlookup (chars k) key = Some true → zlookup p key = Some false → 0 <= key < 128 →
  length p = 128%nat → returned_key key = true →
  getc_key key (mk_kbd k e p d) = Some (Some key, mk_kbd k e (<[Z.to_nat key := true]> p) d).
Proof.
  intros Hc Hw Hk Hp Hr. cbv [getc_key bind gets of_option mret keyboard key_was_pressed].
  rewrite Hc. cbv iota beta. rewrite Hw. cbv iota beta. cbn [andb negb]. rewrite zupdate_Some by lia. by rewrite Hr.
Qed.

Lemma up_chars key : 0 <= key < 128 → zlookup (replicate 256 false) key = Some false.
Proof. intros Hk. unfold zlookup. rewrite (proj2 (Z.leb_le 0 key)) by lia. apply lookup_replicate_2. lia. Qed.

(** The key inspected next. *)
Definition next_key (key : Z) : Z := if key + 1 <? 128 then key + 1 else 0.
Lemma next_key_range key : 0 <= key < 128 → 0 <= next_key key < 128.
Proof. unfold next_key. destruct (Z.ltb_spec (key + 1) 128); lia. Qed.
Lemma next_key_mod key : 0 <= key < 128 → next_key key = (key + 1) mod 128.
Proof. intros Hk. unfold next_key. destruct (Z.ltb_spec (key + 1) 128); zlia. Qed.

(** [n] inspections from [key] on with no key down. *)
Fixpoint cleared (n : nat) (key : Z) (p : list bool) : list bool :=
  match n with O => p | S n => cleared n (next_key key) (<[Z.to_nat key := false]> p) end.

Lemma cleared_lookup n key p i : length p = 128%nat → 0 <= key < 128 → 0 <= i < 128 →
  cleared n key p !! Z.to_nat i = if (i - key) mod 128 <? Z.of_nat n then Some false else p !! Z.to_nat i.
Proof.
  revert key p. induction n as [|n IH]; intros key p Hl Hk Hi; cbn [cleared].
  { by rewrite (proj2 (Z.ltb_ge _ _)) by (apply Z.mod_pos_bound; lia). }
  rewrite IH by (rewrite ?length_insert; first [done|apply next_key_range; lia]).
  destruct (Z.eq_dec i key) as [->|Hne].
  - rewrite list_lookup_insert_eq by lia. rewrite Z.sub_diag, Z.mod_0_l, (proj2 (Z.ltb_lt 0 (Z.of_nat (S n)))) by lia.
    by destruct (_ <? _).
  - rewrite list_lookup_insert_ne by lia. replace ((i - next_key key) mod 128) with ((i - key) mod 128 - 1).
    2:{ rewrite next_key_mod by done. clear -Hk Hi Hne. zlia. }
    destruct (Z.ltb_spec ((i - key) mod 128 - 1) (Z.of_nat n)), (Z.ltb_spec ((i - key) mod 128) (Z.of_nat (S n))); (done || lia).
Qed.

Lemma length_cleared n key p : length (cleared n key p) = length p.
Proof. revert key p. induction n as [|n IH]; intros key p; cbn [cleared]; [done|]. by rewrite IH, length_insert. Qed.

Lemma cleared_all n key p : length p = 128%nat → 0 <= key < 128 → (128 <= n)%nat → cleared n key p = replicate 128 false.
Proof.
  intros Hl Hk Hn. apply list_eq. intros i. destruct (decide (i < 128)%nat) as [Hi|Hi].
  - rewrite lookup_replicate_2 by done. rewrite <- (Nat2Z.id i) at 1. rewrite cleared_lookup by (done || lia).
    rewrite (proj2 (Z.ltb_lt _ _)); [done|]. pose proof (Z.mod_pos_bound (Z.of_nat i - key) 128 ltac:(lia)). lia.
  - rewrite !lookup_ge_None_2; [done|rewrite length_replicate; lia|rewrite length_cleared; lia].
Qed.

Lemma iter_next_range n key : 0 <= key < 128 → 0 <= Nat.iter n next_key key < 128.
Proof. intros Hk. induction n as [|n IH]; [done|]. by apply next_key_range. Qed.
Lemma iter_next_l n key : Nat.iter n next_key (next_key key) = Nat.iter (S n) next_key key.
Proof. by rewrite Nat.iter_succ_r. Qed.

Lemma quiet_pass fuel n sched key p (d : ps2) : 0 <= key < 128 → length p = 128%nat →
  getc fuel (replicate n 0%nat ++ sched) key (mk_kbd (no_keys m) false p d) =
  getc fuel sched (Nat.iter n next_key key) (mk_kbd (no_keys m) false (cleared n key p) d).
Proof.
  revert key p. induction n as [|n IH]; intros key p Hk Hl; [done|].
  change (replicate (S n) 0%nat ++ sched) with (0%nat :: replicate n 0%nat ++ sched).
  cbn [getc interrupts]. unfold bind at 1. cbn [mret]. unfold bind.
  rewrite getc_key_up by (first [apply up_chars; lia | done | lia]). cbv beta iota. fold (next_key key).
  rewrite IH by (rewrite ?length_insert; first [done|by apply next_key_range]). by rewrite iter_next_l.
Qed.

(** The table with one key down. *)
Definition down_at (ks : list bool) (c : Z) : keyboard_t := mk_keyboard m ks (<[Z.to_nat c := true]> (replicate 256 false)).

Lemma down_other ks c key : 0 <= key < 128 → 0 <= c < 128 → key ≠ c → zlookup (chars (down_at ks c)) key = Some false.
Proof. intros Hk Hc Hn. cbn [down_at chars]. rewrite zlookup_insert_ne by lia. by apply up_chars. Qed.
Lemma down_self ks c : 0 <= c < 128 → zlookup (chars (down_at ks c)) c = Some true.
Proof. intros Hc. cbn [down_at chars]. apply zlookup_insert_eq. rewrite length_replicate. lia. Qed.

(** A key that stays down after it was returned is not returned again. *)
Lemma held_pass fuel n sched c key ks (d : ps2) : 0 <= key < 128 → 0 <= c < 128 →
  let s := mk_kbd (down_at ks c) false (<[Z.to_nat c := true]> (replicate 128 false)) d in
  getc fuel (replicate n 0%nat ++ sched) key s = getc fuel sched (Nat.iter n next_key key) s.
Proof.
  intros Hk Hc s. revert key Hk. induction n as [|n IH]; intros key Hk; [done|].
  change (replicate (S n) 0%nat ++ sched) with (0%nat :: replicate n 0%nat ++ sched).
  cbn [getc interrupts]. unfold bind at 1. cbn [mret]. unfold bind.
  assert (getc_key key s = Some (None, s)) as ->.
  { unfold s. destruct (Z.eq_dec key c) as [->|Hn].
    - cbv [getc_key bind gets of_option mret keyboard key_was_pressed]. rewrite down_self by done. cbv iota beta.
      rewrite zlookup_insert_eq by (rewrite length_replicate; lia). done.
    - rewrite getc_key_up by (first [by apply down_other | done | by rewrite length_insert]).
      rewrite list_insert_insert_ne, insert_replicate by lia. done. }
  cbv beta iota. fold (next_key key). rewrite IH by (by apply next_key_range). by rewrite iter_next_l.
Qed.

(** A key that went down is returned when its turn comes. *)
Lemma finding_pass fuel n c key ks (d : ps2) : 0 <= key < 128 → 0 <= c < 128 → (c - key) mod 128 < Z.of_nat n → returned_key c = true →
  getc fuel (replicate n 0%nat) key (mk_kbd (down_at ks c) false (replicate 128 false) d) =
  Some (c, mk_kbd (down_at ks c) false (<[Z.to_nat c := true]> (replicate 128 false)) d).
Proof.
  revert key. induction n as [|n IH]; intros key Hk Hc Hlt Hr; [pose proof (Z.mod_pos_bound (c - key) 128); lia|].
  change (replicate (S n) 0%nat) with (0%nat :: replicate n 0%nat).
  cbn [getc interrupts]. unfold bind at 1. cbn [mret]. unfold bind.
  destruct (Z.eq_dec key c) as [->|Hn].
  - rewrite getc_key_down; [done|by apply down_self| |lia|done|done].
    unfold zlookup. rewrite (proj2 (Z.leb_le 0 c)) by lia. apply lookup_replicate_2. lia.
  - rewrite getc_key_up by (first [by apply down_other | done]). rewrite insert_replicate. fold (next_key key).
    apply IH; [by apply next_key_range|done| |done]. rewrite next_key_mod by done. clear -Hlt Hk Hc Hn. zlia.
Qed.

(** An interrupt taken just before an inspection. *)
Lemma getc_interrupt fuel sched key (s s' : kbd) : keyboard_handler fuel s = Some (tt, s') →
  getc fuel (1%nat :: sched) key s = getc fuel (0%nat :: sched) key s'.
Proof. intros E. cbn [getc interrupts]. unfold bind at 1 3. cbn [mret]. unfold bind at 1. by rewrite E. Qed.

Lemma handler_run fuel sc k p q n tr : 0 <= sc < 256 → length (keys k) = 256%nat → length (chars k) = 256%nat →
  keyboard_handler (S fuel) (mk_kbd k false p (mk_ps2 (sc :: q) n tr)) = Some (tt, after_scan sc k false p q n tr).
Proof.
  intros Hs Hk Hc. pose proof (handler_effect fuel sc k false p q n tr Hs Hk Hc) as Hw.
  unfold wp in Hw. destruct (keyboard_handler _ _) as [[[] s']|]; [by rewrite Hw|done].
Qed.

Definition key_up (p : list bool) (q : list Z) (n : Z) (tr : list (Z * Z)) : kbd := mk_kbd (no_keys m) false p (mk_ps2 q n tr).
Definition key_pressed (sc : Z) (q : list Z) (n : Z) (tr : list (Z * Z)) : kbd :=
  mk_kbd (down_at (<[Z.to_nat sc := true]> (replicate 256 false)) (typed m sc)) false
    (<[Z.to_nat (typed m sc) := true]> (replicate 128 false)) (mk_ps2 q n tr).

Lemma typed_range sc : returned_key (typed m sc) = true → 0 <= typed m sc < 128.
Proof.
  intros Hr. pose proof (wrap_range 8 (key_down sc m) ltac:(lia)) as H0. fold (typed m sc) in H0. unfold returned_key in Hr.
  rewrite !orb_true_iff, andb_true_iff, !Z.leb_le, !Z.eqb_eq in Hr. unfold KEY_ENTER, KEY_BACKSPACE, KEY_TAB in *. lia.
Qed.

(** From a table with no key down: the key goes down and is returned. *)
Lemma getc_press fuel sc pause rest key p q n tr : plain sc → returned_key (typed m sc) = true → length p = 128%nat →
  0 <= key < 128 → (128 <= pause)%nat → (127 <= rest)%nat →
  getc (S fuel) (replicate pause 0%nat ++ 1%nat :: replicate rest 0%nat) key (key_up p (sc :: q) n tr) =
  Some (typed m sc, key_pressed sc q (n + 1) tr).
Proof.
  intros Hp Hr Hl Hk Hpa Hre. pose proof Hp as (Hs & _). unfold key_up. rewrite quiet_pass, cleared_all by done.
  rewrite (getc_interrupt _ _ _ _ (after_scan sc (no_keys m) false (replicate 128 false) q n tr)) by (apply handler_run; [lia|done|done]).
  destruct (press_release sc (replicate 128 false) q n tr Hp) as [-> _]. pose proof (typed_range sc Hr) as Ht.
  change (0%nat :: replicate rest 0%nat) with (replicate (S rest) 0%nat).
  apply finding_pass; [by apply iter_next_range|done| |done].
  pose proof (Z.mod_pos_bound (typed m sc - Nat.iter pause next_key key) 128). lia.
Qed.

(** A whole stroke, the key before it being down or up at the start. *)
Lemma getc_stroke fuel k prev p q n tr : plain (scan k) → returned_key (typed m (scan k)) = true → in_time k →
  getc (S fuel) (schedule false k) 0 (key_up (replicate 128 false) (scan k :: q) n tr) = Some (typed m (scan k), key_pressed (scan k) q (n + 1) tr) ∧
  (length p = 128%nat →
   getc (S fuel) (schedule false k) 0 (key_up p (scan k :: q) n tr) = Some (typed m (scan k), key_pressed (scan k) q (n + 1) tr)) ∧
  (plain prev → returned_key (typed m prev) = true →
   getc (S fuel) (schedule true k) 0 (key_pressed prev (prev + 128 :: scan k :: q) n tr) =
     Some (typed m (scan k), key_pressed (scan k) q (n + 2) tr)).
Proof.
  intros Hp Hr [Hpa Hre]. split; [by apply getc_press|]. split; [by intros; apply getc_press|].
  intros Hpp Hpr. unfold schedule. rewrite <- app_assoc. cbn [app]. pose proof (typed_range prev Hpr) as Ht.
  unfold key_pressed at 1. rewrite held_pass by (done || lia). pose proof Hpp as (Hs & _).
  rewrite (getc_interrupt _ _ _ _ (key_up (<[Z.to_nat (typed m prev) := true]> (replicate 128 false)) (scan k :: q) (n + 1) tr)).
  - change (0%nat :: replicate (pause k - 1) 0%nat ++ 1%nat :: replicate (rest k) 0%nat)
      with (replicate (S (pause k - 1)) 0%nat ++ 1%nat :: replicate (rest k) 0%nat).
    rewrite getc_press by (rewrite ?length_insert; first [done|lia|by apply iter_next_range]). do 3 f_equal. lia.
  - rewrite handler_run by (lia || (cbn [down_at keys chars]; by rewrite length_insert)).
    unfold down_at. by destruct (press_release prev (<[Z.to_nat (typed m prev) := true]> (replicate 128 false)) (scan k :: q) n tr Hpp) as [_ ->].
Qed.

(** *** The driver's layout is the US layout *)

(** Only shift and caps lock matter. *)
Definition set_of (shift caps : bool) : Z := (if shift then KEY_MOD_SHIFT else 0) + (if caps then KEY_MOD_CAPS_LOCK else 0).

Lemma typed_set sc : 0 <= sc < 128 → typed m sc = typed (set_of (Z.testbit m 11) (Z.testbit m 12)) sc.
Proof.
  intros Hs. unfold typed. f_equal. unfold key_down.
  assert (∀ x, truthy (Z.land x KEY_MOD_SHIFT) = Z.testbit x 11) as E11.
  { intros x. unfold KEY_MOD_SHIFT. change 0x800 with (2 ^ 11). rewrite testbit_b2z_pow2 by lia. by destruct (Z.testbit x 11). }
  assert (∀ x, truthy (Z.land x KEY_MOD_CAPS_LOCK) = Z.testbit x 12) as E12.
  { intros x. unfold KEY_MOD_CAPS_LOCK. change 0x1000 with (2 ^ 12). rewrite testbit_b2z_pow2 by lia. by destruct (Z.testbit x 12). }
  rewrite !E11, !E12. set (w := set_of _ _).
  assert (Z.testbit w 11 = Z.testbit m 11 ∧ Z.testbit w 12 = Z.testbit m 12) as [W1 W2].
  { unfold w. by destruct (Z.testbit m 11), (Z.testbit m 12). }
  rewrite W1, W2. assert (KEY_CHAR (Z.lor sc w) = KEY_CHAR (Z.lor sc m)) as ->; [|done]. unfold KEY_CHAR.
  assert (KEY_SCANCODE (Z.lor sc w) = KEY_SCANCODE (Z.lor sc m)) as ->.
  { rewrite scancode_mods. unfold KEY_SCANCODE. rewrite Z.land_lor_distr_l. assert (Z.land w 0x7F = 0) as ->; [|apply Z.lor_0_r].
    unfold w. by destruct (Z.testbit m 11), (Z.testbit m 12). }
  assert (KEY_MOD (Z.lor sc w) KEY_MOD_SHIFT = KEY_MOD (Z.lor sc m) KEY_MOD_SHIFT) as ->; [|done].
  unfold KEY_MOD. by rewrite !E11, !Z.lor_spec, W1.
Qed.
End typing.

Lemma in_rows_range {A} (rows : list (Z * list A)) sc : (∀ first l, (first, l) ∈ rows → 0 <= first ∧ first + Z.of_nat (length l) <= 128) →
  is_Some (in_rows rows sc) → 0 <= sc < 128.
Proof.
  induction rows as [|[first l] rows IH]; intros Hr; [by intros []|]. cbn [in_rows].
  destruct (zlookup l (sc - first)) as [a|] eqn:E.
  - intros _. apply zlookup_range in E. destruct (Hr first l ltac:(left)). lia.
  - apply IH. intros f k Hin. apply Hr. by right.
Qed.

Lemma us_char_range shift caps sc : is_Some (us_char shift caps sc) → 0 <= sc < 128.
Proof.
  unfold us_char. intros Hs. destruct (in_rows letter_rows sc) eqn:E1; [|destruct (in_rows symbol_rows sc) eqn:E2; [|by destruct Hs]].
  - apply (in_rows_range letter_rows); [|by rewrite E1]. intros f l Hin. unfold letter_rows in Hin. rewrite !elem_of_cons, elem_of_nil in Hin.
    destruct Hin as [[= -> ->]|[[= -> ->]|[[= -> ->]|[]]]]; cbn; lia.
  - apply (in_rows_range symbol_rows); [|by rewrite E2]. intros f l Hin. unfold symbol_rows in Hin. rewrite !elem_of_cons, elem_of_nil in Hin.
    repeat destruct Hin as [[= -> ->]|Hin]; [cbn; lia..|done].
Qed.

(** The driver's tables and its treatment of caps lock, key by key. *)
Definition layout_key_ok (shift caps : bool) (sc : Z) : bool :=
  match us_char shift caps sc with
  | Some c => (typed (set_of shift caps) sc =? c) && returned_key c &&
      forallb (λ k, negb (sc =? k)) [0x38; 0x1D; 0x2A; 0x36; 0x3A; 0x45; 0x46; 0x60]
  | None => true
  end.
Lemma layout_ok : forallb (λ sc, layout_key_ok false false sc && layout_key_ok false true sc &&
  (layout_key_ok true false sc && layout_key_ok true true sc)) (seqZ 0 128) = true.
Proof. vm_compute. reflexivity. Qed.

Lemma us_char_typed m sc c : mods_ok m → us_char (Z.testbit m 11) (Z.testbit m 12) sc = Some c →
  plain sc ∧ typed m sc = c ∧ returned_key c = true.
Proof.
  intros Hm Hc. pose proof (us_char_range _ _ sc (ex_intro _ c Hc)) as Hs. rewrite typed_set by done.
  pose proof layout_ok as Hall. rewrite forallb_forall in Hall.
  specialize (Hall sc ltac:(by apply list_elem_of_In, elem_of_seqZ; lia)).
  assert (layout_key_ok (Z.testbit m 11) (Z.testbit m 12) sc = true) as Hk.
  { rewrite !andb_true_iff in Hall. destruct (Z.testbit m 11), (Z.testbit m 12); tauto. }
  unfold layout_key_ok in Hk. rewrite Hc in Hk. rewrite !andb_true_iff, Z.eqb_eq in Hk. cbn [forallb] in Hk.
  rewrite !andb_true_iff, !negb_true_iff, !Z.eqb_neq in Hk. destruct Hk as [[-> ->] Hn]. unfold plain. tauto.
Qed.

(** The text a session types: under shift with caps lock no letters, where the
    driver does not restore lower case. *)
Definition types (m : Z) (k : stroke) (c : Z) : Prop :=
  us_char (Z.testbit m 11) (Z.testbit m 12) (scan k) = Some c ∧ in_time k ∧
  (Z.testbit m 11 && Z.testbit m 12 = true → in_rows letter_rows (scan k) = None).

(** The session of [keyboard_types], the key before it being up or down. *)
Lemma session_spec fuel m ks text q : mods_ok m → Forall2 (types m) ks text →
  (∀ p n tr, length p = 128%nat →
    wp (session (S fuel) false ks) (λ r s', r = text ∧ keyboard s' = no_keys m ∧ queue (kdev s') = q ∧
        eois (kdev s') = n + 2 * Z.of_nat (length ks))
      (key_up m p (flat_map (λ k, [scan k; scan k + 128]) ks ++ q) n tr)) ∧
  (∀ prev n tr, plain prev → returned_key (typed m prev) = true →
    wp (session (S fuel) true ks) (λ r s', r = text ∧ keyboard s' = no_keys m ∧ queue (kdev s') = q ∧
        eois (kdev s') = n + 1 + 2 * Z.of_nat (length ks))
      (key_pressed m prev (prev + 128 :: flat_map (λ k, [scan k; scan k + 128]) ks ++ q) n tr)).
Proof.
  intros Hm Hks. induction Hks as [|k c ks text (Hc & Ht & _) _ [_ IH]]; cbn [session flat_map app length]; split.
  - intros p n tr Hl. cbn [mwhen]. apply wp_bind, wp_ret, wp_ret. cbn. split_and!; (done || lia).
  - intros prev n tr Hp Hr. cbn [mwhen interrupts]. apply wp_bind, wp_bind. pose proof Hp as (Hs & _).
    unfold wp at 1. unfold key_pressed. rewrite handler_run by (lia || (cbn [down_at keys chars]; by rewrite length_insert)).
    unfold down_at. destruct (press_release m Hm prev (<[Z.to_nat (typed m prev) := true]> (replicate 128 false)) q n tr Hp) as [_ ->].
    apply wp_ret, wp_ret. cbn. split_and!; (done || lia).
  - intros p n tr Hl. destruct (us_char_typed m (scan k) c Hm Hc) as (Hp & <- & Hr).
    apply wp_bind. unfold wp at 1. destruct (getc_stroke m Hm fuel k 0 p (scan k + 128 :: flat_map (λ k, [scan k; scan k + 128]) ks ++ q) n tr Hp Hr Ht)
      as (_ & -> & _); [|done]. apply wp_bind. eapply wp_mono; [by apply IH|].
    intros r s' (-> & Hk & Hq & He). apply wp_ret. split_and!; (done || lia).
  - intros prev n tr Hpp Hpr. destruct (us_char_typed m (scan k) c Hm Hc) as (Hp & <- & Hr).
    apply wp_bind. unfold wp at 1.
    destruct (getc_stroke m Hm fuel k prev (replicate 128 false) (scan k + 128 :: flat_map (λ k, [scan k; scan k + 128]) ks ++ q) n tr Hp Hr Ht)
      as (_ & _ & ->); [|done..]. apply wp_bind. eapply wp_mono; [by apply IH|].
    intros r s' (-> & Hk & Hq & He). apply wp_ret. split_and!; (done || lia).
Qed.

(** C10: typing works: keys struck one after the other, under any setting of the
    modifiers, are read by [getc], one call each, as the characters the US layout
    labels them with, in order; afterwards no key is down and each scan code was
    acknowledged.  The interrupts may fall anywhere, as long as [getc] gets once
    around its table between a release and the next press, and after a press.
    Either of shift and caps lock gives capitals; letters under both are left
    out, where the driver types a capital instead of a small letter. *)
Theorem keyboard_types fuel m ks text p q n tr : mods_ok m → Forall2 (types m) ks text → length p = 128%nat →
  wp (session (S fuel) false ks) (λ r s', r = text ∧ keyboard s' = no_keys m ∧ queue (kdev s') = q ∧
      eois (kdev s') = n + 2 * Z.of_nat (length ks))
    (mk_kbd (no_keys m) false p (mk_ps2 (flat_map (λ k, [scan k; scan k + 128]) ks ++ q) n tr)).
Proof. intros Hm Hks Hl. by apply (proj1 (session_spec fuel m ks text q Hm Hks)). Qed.

(** C40: the interrupt handler implements the scan code protocol: the prefix 0xE0
    is remembered; a prefixed code sets or clears its navigation key and updates
    the modifiers; any other code updates the modifiers, its key, and the
    character it stands for under the new modifiers, and acknowledges the
    interrupt once.  No index leaves the tables. *)
Theorem keyboard_handler_correct fuel sc k ext p q n tr : 0 <= sc < 256 →
  length (keys k) = 256%nat → length (chars k) = 256%nat →
  wp (keyboard_handler (S fuel)) (λ _ s', s' = after_scan sc k ext p q n tr) (mk_kbd k ext p (mk_ps2 (sc :: q) n tr)).
Proof. apply handler_effect. Qed.

(** releasing shift before the letter leaves the capital down for ever: after
    shift, [a], shift up, [a] up the table still has [A] down, and the next shifted
    [a] is not returned by two full scans of [getc]. *)
Theorem shift_release_sticks :
  ∃ s', interrupts 4 1 (mk_kbd (no_keys 0) false (replicate 128 false) (mk_ps2 [0x2A; 0x1E; 0xAA; 0x9E] 0 [])) = Some (tt, s') ∧
    zlookup (chars (keyboard s')) 65 = Some true ∧
    getc 1 (replicate 128 0%nat ++ 2%nat :: replicate 127 0%nat)
      0 (mk_kbd (keyboard s') (extended s') (<[65%nat := true]> (replicate 128 false)) (mk_ps2 [0x2A; 0x1E] 0 [])) = None.
Proof. eexists. split; [vm_compute; reflexivity|]. split; vm_compute; reflexivity. Qed.

(** the typematic delay is lost: the byte sent to the keyboard is the same for
    all four delays, since the already shifted values are shifted again. *)
Theorem typematic_delay_lost rate delay : 0 <= rate → typematic_byte rate delay = rate mod 32.
Proof.
  intros Hr. unfold typematic_byte, REPEAT_RATE_MASK, REPEAT_RATE_SHIFT, DELAY_MASK, DELAY_SHIFT, UNUSED_BIT_MASK.
  rewrite (land_ones_mod rate 5 : _ → Z.land rate 0x1F = _) by lia. rewrite Z.shiftl_0_r, Z.lor_0_l.
  assert (0 <= rate mod 2 ^ 5 < 32) as Hb by zlia. rewrite (wrap_small 8 (rate mod 2 ^ 5)) by lia.
  assert (u8 (Z.lor (rate mod 2 ^ 5) (Z.shiftl (Z.land delay 96) 5)) = rate mod 2 ^ 5) as ->.
  { apply Z.bits_inj'. intros i Hi. unfold wrap. destruct (Z.lt_ge_cases i 8).
    - rewrite Z.mod_pow2_bits_low, Z.lor_spec, Z.shiftl_spec, Z.land_spec by lia.
      replace (Z.testbit 96 (i - 5)) with false; [by rewrite andb_false_r, orb_false_r|].
      assert (i - 5 < 0 ∨ i - 5 = 0 ∨ i - 5 = 1 ∨ i - 5 = 2) as [Hn|[->|[->| ->]]] by lia; [by rewrite Z.testbit_neg_r|done..].
    - rewrite Z.mod_pow2_bits_high by lia. by rewrite (testbit_high 5) by lia. }
  rewrite <- Z.ldiff_land. assert (Z.ldiff (rate mod 2 ^ 5) 128 = rate mod 2 ^ 5) as ->.
  2:{ rewrite wrap_small; [done|lia]. }
  apply Z.bits_inj'. intros i Hi. rewrite Z.ldiff_spec. destruct (Z.lt_ge_cases i 5).
  - assert (i = 0 ∨ i = 1 ∨ i = 2 ∨ i = 3 ∨ i = 4) as [->|[->|[->|[->| ->]]]] by lia; by rewrite andb_true_r.
  - by rewrite (testbit_high 5) by lia.
Qed.

(** Caps lock on: the keys [h], [i], [1] and enter, with different timings. *)
Definition strokes_demo : list stroke := [mk_stroke 0x23 0 128 127; mk_stroke 0x17 5 200 300; mk_stroke 0x02 0 131 127; mk_stroke 0x1C 1000 128 500].

Lemma keyboard_types_witness :
  wp (session 1 false strokes_demo) (λ r s', r = [72; 73; 49; 10] ∧ keyboard s' = no_keys KEY_MOD_CAPS_LOCK ∧
      queue (kdev s') = [] ∧ eois (kdev s') = 8)
    (mk_kbd (no_keys KEY_MOD_CAPS_LOCK) false (replicate 128 false)
       (mk_ps2 [0x23; 0xA3; 0x17; 0x97; 0x02; 0x82; 0x1C; 0x9C] 0 [])).
Proof.
  apply (keyboard_types 0 KEY_MOD_CAPS_LOCK strokes_demo [72; 73; 49; 10] (replicate 128 false) [] 0 []).
  - split; [unfold KEY_MOD_CAPS_LOCK; lia|reflexivity].
  - repeat constructor; cbn [pause rest strokes_demo]; try lia; try (vm_compute; reflexivity); discriminate.
  - reflexivity.
Defined.

Lemma keyboard_handler_correct_witness :
  wp (keyboard_handler 1) (λ _ s', s' = after_scan 0x2A (no_keys 0) false (replicate 128 false) [0x1E] 0 [])
    (mk_kbd (no_keys 0) false (replicate 128 false) (mk_ps2 [0x2A; 0x1E] 0 [])).
Proof. apply (keyboard_handler_correct 0 0x2A (no_keys 0) false (replicate 128 false) [0x1E] 0 []); (lia || reflexivity). Defined.

Lemma typematic_delay_lost_witness : typematic_byte 0x0B 0x60 = 0x0B.
Proof. apply (typematic_delay_lost 0x0B 0x60). lia. Defined.
