(* ===== verification/Pci.v ===== *)
(** * PCI configuration space ([drivers/pci/pci.c])

    Configuration mechanism 1 over any [Bus], the enumeration of buses, and the
    sizing of base address registers.  The storage, USB and memory drivers the
    enumeration calls are a class; the calls are recorded in order and run over the
    machine's state.  [pci_hw] is the configuration space behind
    the two ports: registers with the bits that can be written. *)

From Stdlib Require Import ZifyBool.
From stdpp Require Import prelude gmap list numbers tactics.
From S2P Require Import Prelude Io.

Definition PCI_CONFIG_ADDRESS : Z := 0xCF8.
Definition PCI_CONFIG_DATA : Z := 0xCFC.

(** Controllers reported and drivers called by the enumeration. *)
Inductive storage_kind := UnknownStorage | IDE | RAID | SataAHCI | SataOther.
Inductive usb_kind := UnknownUSB | UHCI | OHCI | EHCI | XHCI.
Inductive pci_event :=
  | MapPage (virt phys flags : Z)                             (* map_page *)
  | SearchSata (ahci_base : Z)                                (* sata_search *)
  | StorageFound (k : storage_kind) (bus device func vid did : Z)
  | InitEHCI (bus device func : Z)                            (* ehci_pci_init *)
  | UsbFound (k : usb_kind) (bus device func vid did : Z).

Record pci_state (D : Type) := mk_pci { pbus : D; pid_rn : Z; events : list pci_event }.
Arguments mk_pci {D}. Arguments pbus {D}. Arguments pid_rn {D}. Arguments events {D}.

(** The drivers of other files that the enumeration hands its findings to. *)
Class PciDrivers (D : Type) := {
  call_map_page : Z → Z → Z → M D unit;
  call_sata_search : Z → M D unit;
  call_ehci_pci_init : Z → Z → Z → M D unit
}.

(** Bit 31, bus, device, function and the register's dword offset. *)
Definition config_address (bus device func offset : Z) : Z :=
  Z.lor (Z.lor (Z.lor (Z.lor (Z.shiftl 1 31) (Z.shiftl bus 16)) (Z.shiftl device 11)) (Z.shiftl func 8)) (Z.land offset 0xFC).

Section driver.
Context {D : Type} `{Bus D}.
Abbreviation P := (M (pci_state D)).

Definition pci_read (bus device func offset : Z) : M D Z :=
  outl PCI_CONFIG_ADDRESS (config_address bus device func offset);; inl PCI_CONFIG_DATA.
Definition pci_write (bus device func offset data : Z) : M D unit :=
  outl PCI_CONFIG_ADDRESS (config_address bus device func offset);; outl PCI_CONFIG_DATA data.

Definition pci_get_bar_size (bus device func offset : Z) : M D Z :=
  orig ← pci_read bus device func offset;
  pci_write bus device func offset 0xFFFFFFFF;;
  size_mask ← pci_read bus device func offset;
  pci_write bus device func offset orig;;
  let size_mask := Z.land size_mask (cnot 32 0xF) in
  mret (u32 (cnot 32 size_mask + 1)).

Definition pci_read_bar (bus device func bar_num : Z) : M D Z :=
  if 5 <? bar_num then mret 0 else pci_read bus device func (u8 (0x10 + bar_num * 4)).

Definition on_bus {A} (c : M D A) : P A := zoom pbus (λ d s, mk_pci d (pid_rn s) (events s)) c.
Definition emit (e : pci_event) : P unit := modify (λ s, mk_pci (pbus s) (pid_rn s) (events s ++ [e])).
Definition set_pid (v : Z) : P unit := modify (λ s, mk_pci (pbus s) v (events s)).

Context `{PciDrivers D}.

(** The flags of the mapping: writable, uncached, written through. *)
Definition mmio_flags : Z := Z.lor (Z.lor 0x2 0x10) 0x8.

(** A storage controller: an AHCI one is mapped and searched first. *)
Definition scan_storage (bus device func vid did subclass prog_if : Z) : P unit :=
  if subclass =? 0x01 then emit (StorageFound IDE bus device func vid did)
  else if subclass =? 0x04 then emit (StorageFound RAID bus device func vid did)
  else if subclass =? 0x06 then
    if prog_if =? 0x01 then
      bar5 ← on_bus (pci_read bus device func 0x24);
      let ahci_base := Z.land bar5 0xFFFFFFF0 in
      set_pid 7;;
      emit (MapPage ahci_base ahci_base mmio_flags);; on_bus (call_map_page ahci_base ahci_base mmio_flags);;
      emit (SearchSata ahci_base);; on_bus (call_sata_search ahci_base);;
      emit (StorageFound SataAHCI bus device func vid did)
    else emit (StorageFound SataOther bus device func vid did)
  else emit (StorageFound UnknownStorage bus device func vid did).

Definition scan_usb (bus device func vid did prog_if : Z) : P unit :=
  if prog_if =? 0x00 then emit (UsbFound UHCI bus device func vid did)
  else if prog_if =? 0x10 then emit (UsbFound OHCI bus device func vid did)
  else if prog_if =? 0x20 then emit (InitEHCI bus device func);; on_bus (call_ehci_pci_init bus device func);; emit (UsbFound EHCI bus device func vid did)
  else if prog_if =? 0x30 then emit (UsbFound XHCI bus device func vid did)
  else emit (UsbFound UnknownUSB bus device func vid did).

(** The body of the function loop; [scan_bus] is the recursive call for a bridge. *)
Definition scan_function (scan_bus : Z → P unit) (bus device func : Z) : P unit :=
  vd ← on_bus (pci_read bus device func 0x00);
  let vid := Z.land vd 0xFFFF in
  if vid =? 0xFFFF then mret tt
  else
    let did := Z.land (Z.shiftr vd 16) 0xFFFF in
    class_data ← on_bus (pci_read bus device func 0x08);
    let class_code := Z.land (Z.shiftr class_data 24) 0xFF in
    let subclass := Z.land (Z.shiftr class_data 16) 0xFF in
    let prog_if := Z.land (Z.shiftr class_data 8) 0xFF in
    if class_code =? 0x01 then scan_storage bus device func vid did subclass prog_if
    else if (class_code =? 0x0C) && (subclass =? 0x03) then scan_usb bus device func vid did prog_if
    else if (class_code =? 0x06) && (subclass =? 0x04) then
      bus_data ← on_bus (pci_read bus device func 0x18);
      scan_bus (Z.land (Z.shiftr bus_data 8) 0xFF)
    else mret tt.

Fixpoint loop (n : nat) (i : Z) (body : Z → P unit) : P unit :=
  match n with O => mret tt | S n => body i;; loop n (i + 1) body end.

Definition scan_pci_device (scan_bus : Z → P unit) (bus device : Z) : P unit :=
  vendor_data ← on_bus (pci_read bus device 0 0x00);
  if Z.land vendor_data 0xFFFF =? 0xFFFF then mret tt
  else
    header_data ← on_bus (pci_read bus device 0 0x0C);
    let header_type := Z.land (Z.shiftr header_data 16) 0xFF in
    let func_limit := if truthy (Z.land header_type 0x80) then 8%nat else 1%nat in
    loop func_limit 0 (scan_function scan_bus bus device).

(** The recursion through bridges takes fuel: [None] is a stack that never unwinds. *)
Fixpoint scan_pci_bus (fuel : nat) (bus : Z) : P unit :=
  match fuel with
  | O => mstop
  | S fuel => loop 32 0 (scan_pci_device (scan_pci_bus fuel) bus)
  end.

Definition start_pci_enumeration (fuel : nat) : P unit :=
  header_data ← on_bus (pci_read 0 0 0 0x0C);
  let header_type := Z.land (Z.shiftr header_data 16) 0xFF in
  if Z.land header_type 0x80 =? 0 then scan_pci_bus fuel 0
  else loop 8 0 (λ func,
    vd ← on_bus (pci_read 0 0 func 0x00);
    if Z.land vd 0xFFFF =? 0xFFFF then mret tt
    else bus_data ← on_bus (pci_read 0 0 func 0x18);
         scan_pci_bus fuel (Z.land (Z.shiftr bus_data 8) 0xFF)).
End driver.

(** ** The configuration space *)

Record pci_hw := mk_hw { address : Z; space : Z → Z; wmask : Z → Z }.
Definition hw_write (v : Z) (d : pci_hw) : pci_hw :=
  let a := address d in
  mk_hw a (λ x, if x =? a then Z.lor (Z.land (space d a) (Z.lnot (wmask d a))) (Z.land v (wmask d a)) else space d x) (wmask d).

#[export] Instance pci_hw_bus : Bus pci_hw := {|
  bus_in w port d := (if port =? 0xCFC then space d (address d) else 0, d);
  bus_out w port v d :=
    if port =? 0xCF8 then mk_hw v (space d) (wmask d) else if port =? 0xCFC then hw_write v d else d;
  mmio_read a d := (0, d); mmio_write a v d := d;
  msr_read r d := 0; msr_write r v d := d; cr4_read d := 0; cr4_write v d := d
|}.

(** A machine around the configuration space: the ports lead to it, the drivers
    work on all of it. *)
Record pci_machine (E : Type) := mk_machine { hw : pci_hw; others : E }.
Arguments mk_machine {E}. Arguments hw {E}. Arguments others {E}.

#[export] Instance pci_machine_bus {E} : Bus (pci_machine E) := {|
  bus_in w port d := let '(v, h) := bus_in w port (hw d) in (v, mk_machine h (others d));
  bus_out w port v d := mk_machine (bus_out w port v (hw d)) (others d);
  mmio_read a d := (0, d); mmio_write a v d := d;
  msr_read r d := 0; msr_write r v d := d; cr4_read d := 0; cr4_write v d := d
|}.

(** Drivers that come back with the configuration space as it was. *)
Class QuietDrivers (E : Type) `{PciDrivers (pci_machine E)} : Prop := {
  quiet_map_page v p f d : wp (call_map_page v p f) (λ _ d', space (hw d') = space (hw d)) d;
  quiet_sata_search b d : wp (call_sata_search b) (λ _ d', space (hw d') = space (hw d)) d;
  quiet_ehci_pci_init b dev f d : wp (call_ehci_pci_init b dev f) (λ _ d', space (hw d') = space (hw d)) d
}.

(** ** Addresses *)

Definition bdf_ok (bus device func offset : Z) : Prop :=
  0 <= bus < 256 ∧ 0 <= device < 32 ∧ 0 <= func < 8 ∧ 0 <= offset < 256 ∧ offset mod 4 = 0.

Lemma config_address_value bus device func offset : bdf_ok bus device func offset →
  config_address bus device func offset = 2 ^ 31 + bus * 2 ^ 16 + device * 2 ^ 11 + func * 2 ^ 8 + offset.
Proof.
  intros (Hb & Hd & Hf & Ho & H4). unfold config_address.
  assert (Z.land offset 0xFC = offset) as ->.
  { replace 0xFC with (Z.land 255 (Z.lnot (2 ^ 2 - 1))) by done. rewrite Z.land_assoc, land_lnot_ones by lia.
    rewrite (land_ones_mod _ 8 : _ → Z.land _ 255 = _) by lia. rewrite (Z.mod_small offset) by lia. change (2 ^ 2) with 4. lia. }
  rewrite !Z.shiftl_mul_pow2 by lia.
  rewrite (Z.lor_comm (1 * 2 ^ 31)), (lor_add 31) by lia.
  replace (bus * 2 ^ 16 + 1 * 2 ^ 31) with ((bus + 2 ^ 15) * 2 ^ 16) by lia.
  rewrite (Z.lor_comm _ (device * 2 ^ 11)), (lor_add 16) by lia.
  replace (device * 2 ^ 11 + (bus + 2 ^ 15) * 2 ^ 16) with ((device + (bus + 2 ^ 15) * 2 ^ 5) * 2 ^ 11) by lia.
  rewrite (Z.lor_comm _ (func * 2 ^ 8)), (lor_add 11) by lia.
  replace (func * 2 ^ 8 + (device + (bus + 2 ^ 15) * 2 ^ 5) * 2 ^ 11)
    with ((func + (device + (bus + 2 ^ 15) * 2 ^ 5) * 2 ^ 3) * 2 ^ 8) by lia.
  rewrite (Z.lor_comm _ offset), (lor_add 8) by lia. lia.
Qed.

(** distinct registers have distinct addresses: the configuration address
    determines bus, device, function and register. *)
Theorem config_address_injective b d f o b' d' f' o' : bdf_ok b d f o → bdf_ok b' d' f' o' →
  config_address b d f o = config_address b' d' f' o' → b = b' ∧ d = d' ∧ f = f' ∧ o = o'.
Proof.
  intros H1 H2. rewrite !config_address_value by done. destruct H1 as (? & ? & ? & ? & _), H2 as (? & ? & ? & ? & _). lia.
Qed.

Lemma config_address_word b d f o : bdf_ok b d f o → 0 <= config_address b d f o < 2 ^ 32.
Proof. intros Hok. rewrite config_address_value by done. destruct Hok as (? & ? & ? & ? & _). lia. Qed.

(** ** Base address registers *)

Lemma pci_read_spec b d f o hw Q : bdf_ok b d f o →
  Q (u32 (space hw (config_address b d f o))) (mk_hw (config_address b d f o) (space hw) (wmask hw)) →
  wp (pci_read b d f o) Q hw.
Proof.
  intros Hok HQ. unfold pci_read, outl, inl, port_out, port_in, wp, bind, modify.
  rewrite (wrap_small 32 (config_address b d f o)) by (by apply config_address_word). exact HQ.
Qed.
Lemma pci_write_spec b d f o v hw Q : bdf_ok b d f o →
  Q tt (hw_write (u32 v) (mk_hw (config_address b d f o) (space hw) (wmask hw))) → wp (pci_write b d f o v) Q hw.
Proof.
  intros Hok HQ. unfold pci_write, outl, port_out, wp, bind, modify.
  rewrite (wrap_small 32 (config_address b d f o)) by (by apply config_address_word). exact HQ.
Qed.

(** A memory BAR of [2 ^ k] bytes: the address bits from [k] up can be written,
    the four type bits are fixed, the bits between read as zero. *)
Definition memory_bar (k : Z) (hw : pci_hw) (a : Z) : Prop :=
  4 <= k < 32 ∧ wmask hw a = 2 ^ 32 - 2 ^ k ∧ 0 <= space hw a < 2 ^ 32 ∧ space hw a mod 2 ^ k < 2 ^ 4.

(** The bits from [k] up of a word. *)
Lemma land_top x k : 0 <= k <= 32 → 0 <= x < 2 ^ 32 → Z.land x (2 ^ 32 - 2 ^ k) = x - x mod 2 ^ k.
Proof.
  intros Hk Hx. rewrite <- land_lnot_ones by lia.
  apply Z.bits_inj'. intros i Hi. rewrite !Z.land_spec. destruct (Z.lt_ge_cases i 32); [|by rewrite (testbit_high 32 x) by lia].
  f_equal. replace (2 ^ 32 - 2 ^ k) with (Z.shiftl (Z.ones (32 - k)) k).
  - rewrite Z.shiftl_spec, Z.testbit_ones by lia. replace (2 ^ k - 1) with (Z.ones k) by (rewrite Z.ones_equiv; lia).
    rewrite Z.lnot_spec, Z.testbit_ones by lia. lia.
  - rewrite Z.shiftl_mul_pow2, Z.ones_equiv by lia. rewrite <- Z.sub_1_r, Z.mul_sub_distr_r, <- Z.pow_add_r by lia.
    replace (32 - k + k) with 32 by lia. lia.
Qed.

Lemma land_bottom x k : 0 <= k <= 32 → 0 <= x < 2 ^ 32 → Z.land x (Z.lnot (2 ^ 32 - 2 ^ k)) = x mod 2 ^ k.
Proof.
  intros Hk Hx. rewrite <- Z.ldiff_land.
  assert (Z.ldiff x (2 ^ 32 - 2 ^ k) = x - Z.land x (2 ^ 32 - 2 ^ k)) as ->; [|rewrite land_top by lia; lia].
  rewrite (Z.sub_nocarry_ldiff x); apply Z.bits_inj'; intros i Hi;
    rewrite ?Z.ldiff_spec, ?Z.land_spec, ?Z.bits_0; by destruct (Z.testbit x i), (Z.testbit (2 ^ 32 - 2 ^ k) i).
Qed.

(** Writing [v] to a BAR that holds [x]: the lower bits stay, the upper ones are [v]'s. *)
Lemma bar_merge x v k : 4 <= k < 32 → 0 <= x < 2 ^ 32 → 0 <= v < 2 ^ 32 →
  Z.lor (Z.land x (Z.lnot (2 ^ 32 - 2 ^ k))) (Z.land v (2 ^ 32 - 2 ^ k)) = x mod 2 ^ k + (v - v mod 2 ^ k).
Proof.
  intros Hk Hx Hv. rewrite land_bottom, land_top by lia. pose proof (Z.mod_pos_bound x (2 ^ k) ltac:(lia)).
  replace (v - v mod 2 ^ k) with (v / 2 ^ k * 2 ^ k) by (pose proof (Z.div_mod v (2 ^ k)); lia). apply lor_add; lia.
Qed.

Lemma pow2_split k : 0 <= k <= 32 → 2 ^ 32 = 2 ^ (32 - k) * 2 ^ k.
Proof. intros Hk. rewrite <- Z.pow_add_r by lia. f_equal. lia. Qed.

Lemma top_mod k j r : 0 <= j <= k → k <= 32 → 0 <= r < 2 ^ j → (r + (2 ^ 32 - 2 ^ k)) mod 2 ^ j = r.
Proof.
  intros Hj Hk Hr. pose proof (pow2_split j ltac:(lia)) as E1.
  assert (2 ^ k = 2 ^ (k - j) * 2 ^ j) as E2 by (rewrite <- Z.pow_add_r by lia; f_equal; lia).
  replace (r + (2 ^ 32 - 2 ^ k)) with (r + (2 ^ (32 - j) - 2 ^ (k - j)) * 2 ^ j) by lia.
  rewrite Z_mod_plus_full. by apply Z.mod_small.
Qed.

(** The sizing arithmetic. *)
Lemma bar_size_value k low : 4 <= k < 32 → 0 <= low < 2 ^ 4 →
  u32 (cnot 32 (Z.land (low + (2 ^ 32 - 2 ^ k)) (cnot 32 0xF)) + 1) = 2 ^ k.
Proof.
  intros Hk Hl. pose proof (Z.pow_le_mono_r 2 4 k ltac:(lia) ltac:(lia)) as H4.
  pose proof (Z.pow_lt_mono_r 2 k 32 ltac:(lia) ltac:(lia) ltac:(lia)) as H32.
  change (cnot 32 0xF) with (2 ^ 32 - 2 ^ 4). rewrite land_top by lia.
  assert ((low + (2 ^ 32 - 2 ^ k)) mod 2 ^ 4 = low) as -> by (apply top_mod; lia).
  rewrite cnot_spec by lia. rewrite wrap_small; lia.
Qed.

(** [pci_get_bar_size] returns the size of a memory BAR and leaves the whole
    configuration space, the BAR included, as it was. *)
Theorem pci_get_bar_size_correct b d f o k hw : bdf_ok b d f o → memory_bar k hw (config_address b d f o) →
  wp (pci_get_bar_size b d f o) (λ size hw', size = 2 ^ k ∧ ∀ x, space hw' x = space hw x) hw.
Proof.
  intros Hok (Hk & Hm & Hx & Hlow). set (a := config_address b d f o) in *. unfold pci_get_bar_size.
  assert (0 < 2 ^ k <= 2 ^ 32) as Hpk by (split; [lia|apply Z.pow_le_mono_r; lia]).
  apply wp_bind, pci_read_spec; [done|]. fold a. apply wp_bind, pci_write_spec; [done|]. fold a.
  apply wp_bind, pci_read_spec; [done|]. fold a. apply wp_bind, pci_write_spec; [done|]. fold a. apply wp_ret.
  unfold hw_write. cbn [space wmask address]. rewrite Z.eqb_refl, Hm.
  rewrite (wrap_small 32 (space hw a)) by done. change (u32 0xFFFFFFFF) with (2 ^ 32 - 1).
  rewrite bar_merge by lia. assert ((2 ^ 32 - 1) mod 2 ^ k = 2 ^ k - 1) as Eones
    by (replace (2 ^ 32 - 1) with (2 ^ k - 1 + (2 ^ 32 - 2 ^ k)) by lia; apply top_mod; lia).
  rewrite Eones. replace (2 ^ 32 - 1 - (2 ^ k - 1)) with (2 ^ 32 - 2 ^ k) by lia.
  pose proof (Z.mod_pos_bound (space hw a) (2 ^ k) ltac:(lia)). split.
  - rewrite (wrap_small 32 (space hw a mod 2 ^ k + (2 ^ 32 - 2 ^ k))) by lia. apply bar_size_value; lia.
  - intros x. destruct (Z.eqb_spec x a) as [->|]; [|done].
    rewrite (wrap_small 32 (space hw a)) by done. rewrite bar_merge by lia.
    rewrite top_mod by lia. lia.
Qed.

(** ** Enumeration *)

Section enumeration.
Context {R : Type} `{QuietDrivers R} (cfg : Z → Z).

(** A register of a function. *)
Definition creg (b d f o : Z) : Z := u32 (cfg (config_address b d f o)).
Definition vendor (b d f : Z) : Z := creg b d f 0 mod 2 ^ 16.
Definition device_id (b d f : Z) : Z := creg b d f 0 / 2 ^ 16 mod 2 ^ 16.
Definition class (b d f : Z) : Z := creg b d f 8 / 2 ^ 24 mod 2 ^ 8.
Definition subclass (b d f : Z) : Z := creg b d f 8 / 2 ^ 16 mod 2 ^ 8.
Definition prog_if (b d f : Z) : Z := creg b d f 8 / 2 ^ 8 mod 2 ^ 8.
Definition multifunction (b d : Z) : bool := Z.testbit (creg b d 0 12) 23.
Definition is_bridge (b d f : Z) : bool := (class b d f =? 6) && (subclass b d f =? 4).

(** The functions a device has. *)
Definition functions (b d : Z) : list Z :=
  if vendor b d 0 =? 0xFFFF then []
  else filter (λ f, vendor b d f ≠ 0xFFFF) (map Z.of_nat (seq 0 (if multifunction b d then 8 else 1))).

(** What is reported of a function that is not a bridge. *)
Definition report (b d f : Z) : list pci_event :=
  let v := vendor b d f in let i := device_id b d f in
  if class b d f =? 1 then
    if subclass b d f =? 1 then [StorageFound IDE b d f v i]
    else if subclass b d f =? 4 then [StorageFound RAID b d f v i]
    else if subclass b d f =? 6 then
      if prog_if b d f =? 1 then (let base := Z.land (creg b d f 0x24) 0xFFFFFFF0 in
        [MapPage base base mmio_flags; SearchSata base; StorageFound SataAHCI b d f v i])
      else [StorageFound SataOther b d f v i]
    else [StorageFound UnknownStorage b d f v i]
  else if (class b d f =? 0xC) && (subclass b d f =? 3) then
    if prog_if b d f =? 0 then [UsbFound UHCI b d f v i]
    else if prog_if b d f =? 0x10 then [UsbFound OHCI b d f v i]
    else if prog_if b d f =? 0x20 then [InitEHCI b d f; UsbFound EHCI b d f v i]
    else if prog_if b d f =? 0x30 then [UsbFound XHCI b d f v i]
    else [UsbFound UnknownUSB b d f v i]
  else [].

(** A state whose configuration space is [cfg], with the events so far. *)
Definition scanned (evs : list pci_event) (s : pci_state (pci_machine R)) : Prop := space (hw (pbus s)) = cfg ∧ events s = evs.

Lemma read_spec b d f o s evs Q : bdf_ok b d f o → scanned evs s → (∀ s', scanned evs s' → Q (creg b d f o) s') →
  wp (on_bus (pci_read b d f o)) Q s.
Proof.
  intros Hok [Hs He] HQ. apply wp_zoom. unfold pci_read, outl, inl, port_out, port_in, wp, bind, modify.
  rewrite (wrap_small 32 (config_address b d f o)) by (by apply config_address_word).
  pose (h := mk_hw (config_address b d f o) cfg (wmask (hw (pbus s)))).
  specialize (HQ (mk_pci (mk_machine h (others (pbus s))) (pid_rn s) (events s)) ltac:(by split)). unfold h, creg in HQ.
  rewrite <- Hs in HQ. exact HQ.
Qed.

Lemma call_spec (c : M (pci_machine R) unit) s evs Q : scanned evs s → (∀ d, wp c (λ _ d', space (hw d') = space (hw d)) d) →
  (∀ s', scanned evs s' → Q tt s') → wp (on_bus c) Q s.
Proof.
  intros [Hs He] Hc HQ. apply wp_zoom. eapply wp_mono; [apply Hc|]. intros [] d' Hd. apply HQ. split; [|done]. cbn. by rewrite Hd.
Qed.

Lemma emit_spec e s evs Q : scanned evs s → (∀ s', scanned (evs ++ [e]) s' → Q tt s') → wp (emit e) Q s.
Proof. intros [Hs He] HQ. apply wp_modify, HQ. split; [done|]. cbn. by rewrite He. Qed.

Lemma loop_spec n i (body : Z → M (pci_state (pci_machine R)) unit) (g : Z → list pci_event) s evs :
  (∀ k s evs, i <= k < i + Z.of_nat n → scanned evs s → wp (body k) (λ _ s', scanned (evs ++ g k) s') s) →
  scanned evs s →
  wp (loop n i body) (λ _ s', scanned (evs ++ flat_map (λ k, g (i + Z.of_nat k)) (seq 0 n)) s') s.
Proof.
  revert i s evs. induction n as [|n IH]; intros i s evs Hb Hs; cbn [loop].
  - apply wp_ret. cbn. by rewrite app_nil_r.
  - apply wp_bind. eapply wp_mono; [apply Hb; [lia|exact Hs]|]. intros [] s1 Hs1. cbv beta in Hs1.
    eapply wp_mono; [apply (IH (i + 1) s1 (evs ++ g i)); [|exact Hs1]|].
    + intros k s2 evs2 Hk. apply Hb. lia.
    + intros [] s2 Hs2. cbn [seq flat_map]. rewrite <- seq_shift, flat_map_concat_map, map_map, <- flat_map_concat_map.
      rewrite app_assoc, Z.add_0_r. erewrite flat_map_ext; [exact Hs2|]. intros k. cbv beta. f_equal. lia.
Qed.

Ltac scan_steps :=
  repeat match goal with
  | |- wp (bind _ _) _ _ => apply wp_bind
  | |- wp (mret _) _ _ => apply wp_ret
  | H : scanned _ ?s |- wp (emit _) _ ?s => eapply emit_spec; [exact H|]; clear dependent s; intros s H
  | H : scanned _ ?s |- wp (set_pid _) _ ?s => apply wp_modify
  end; cbv beta.

Lemma storage_spec b d f s evs : 0 <= b < 256 → 0 <= d < 32 → 0 <= f < 8 → class b d f = 1 → scanned evs s →
  wp (scan_storage b d f (vendor b d f) (device_id b d f) (subclass b d f) (prog_if b d f))
    (λ _ s', scanned (evs ++ report b d f) s') s.
Proof.
  intros Hb Hd Hf Hc Hs. unfold scan_storage, report. rewrite Hc. cbn [Z.eqb Pos.eqb].
  repeat case_if; try (eapply emit_spec; [exact Hs|]; done).
  apply wp_bind. eapply read_spec; [by repeat split; lia|exact Hs|]. clear s Hs. intros s [Hs He].
  cbv zeta. apply wp_bind, wp_modify, wp_bind. eapply (emit_spec _ _ evs); [by split|]. intros s1 Hs1.
  apply wp_bind. eapply call_spec; [exact Hs1|intros; apply quiet_map_page|]. intros s2 Hs2.
  apply wp_bind. eapply emit_spec; [exact Hs2|]. intros s3 Hs3.
  apply wp_bind. eapply call_spec; [exact Hs3|intros; apply quiet_sata_search|]. intros s4 Hs4.
  eapply emit_spec; [exact Hs4|]. intros s5 Hs5. by rewrite <- !app_assoc in Hs5.
Qed.

Lemma usb_spec b d f s evs : class b d f = 0xC → subclass b d f = 3 → scanned evs s →
  wp (scan_usb b d f (vendor b d f) (device_id b d f) (prog_if b d f)) (λ _ s', scanned (evs ++ report b d f) s') s.
Proof.
  intros Hc Hsc Hs. unfold scan_usb, report. rewrite Hc, Hsc. cbn [Z.eqb Pos.eqb andb].
  repeat case_if; try (eapply emit_spec; [exact Hs|]; done).
  apply wp_bind. eapply emit_spec; [exact Hs|]. intros s1 Hs1.
  apply wp_bind. eapply call_spec; [exact Hs1|intros; apply quiet_ehci_pci_init|]. intros s2 Hs2.
  eapply emit_spec; [exact Hs2|]. intros s3 Hs3. by rewrite <- app_assoc in Hs3.
Qed.

Lemma scan_function_spec scan_bus b d f s evs : 0 <= b < 256 → 0 <= d < 32 → 0 <= f < 8 → is_bridge b d f = false →
  scanned evs s →
  wp (scan_function scan_bus b d f) (λ _ s', scanned (evs ++ if vendor b d f =? 0xFFFF then [] else report b d f) s') s.
Proof.
  intros Hb Hd Hf Hbr Hs. unfold scan_function.
  apply wp_bind. eapply read_spec; [by repeat split; lia|exact Hs|]. clear s Hs. intros s Hs. cbv zeta.
  rewrite (land_low (creg b d f 0) 16), (land_field (creg b d f 0) 16 16) by lia. fold (vendor b d f) (device_id b d f).
  destruct (vendor b d f =? 0xFFFF); [apply wp_ret; by rewrite app_nil_r|].
  apply wp_bind. eapply read_spec; [by repeat split; lia|exact Hs|]. clear s Hs. intros s Hs.
  rewrite (land_field (creg b d f 8) 24 8), (land_field (creg b d f 8) 16 8), (land_field (creg b d f 8) 8 8) by lia.
  fold (class b d f) (subclass b d f) (prog_if b d f). unfold is_bridge in Hbr.
  destruct (Z.eqb_spec (class b d f) 1) as [E1|E1]; [by apply storage_spec|].
  destruct ((class b d f =? 12) && (subclass b d f =? 3)) eqn:E2; [boolprop; by apply usb_spec|].
  rewrite Hbr. apply wp_ret. unfold report. rewrite (proj2 (Z.eqb_neq _ _) E1), E2. by rewrite app_nil_r.
Qed.

(** The loop over the functions visits those the device has. *)
Lemma flat_map_filter {A B} (P : A → Prop) `{∀ x, Decision (P x)} (g : A → list B) (l : list A) :
  flat_map (λ x, if bool_decide (P x) then g x else []) l = flat_map g (filter P l).
Proof.
  induction l as [|x l IH]; [done|]. cbn [flat_map]. rewrite filter_cons, IH. by destruct (decide (P x)) as [Hp|Hp];
    [rewrite bool_decide_eq_true_2 by done|rewrite bool_decide_eq_false_2 by done].
Qed.

Lemma scan_device_spec scan_bus b d s evs : 0 <= b < 256 → 0 <= d < 32 → (∀ f, 0 <= f < 8 → is_bridge b d f = false) →
  scanned evs s →
  wp (scan_pci_device scan_bus b d) (λ _ s', scanned (evs ++ flat_map (report b d) (functions b d)) s') s.
Proof.
  intros Hb Hd Hbr Hs. unfold scan_pci_device, functions.
  apply wp_bind. eapply read_spec; [by repeat split; lia|exact Hs|]. clear s Hs. intros s Hs.
  rewrite (land_low _ 16) by lia. fold (vendor b d 0).
  destruct (vendor b d 0 =? 0xFFFF); [apply wp_ret; by rewrite app_nil_r|].
  apply wp_bind. eapply read_spec; [by repeat split; lia|exact Hs|]. clear s Hs. intros s Hs. cbv zeta.
  assert (truthy (Z.land (Z.land (Z.shiftr (creg b d 0 12) 16) 255) 128) = multifunction b d) as ->.
  { unfold multifunction. rewrite <- Z.land_assoc. change (Z.land 255 128) with (2 ^ 7). rewrite testbit_b2z_pow2 by lia.
    rewrite Z.shiftr_spec by lia. by destruct (Z.testbit _ _). }
  set (n := if multifunction b d then 8%nat else 1%nat). assert (n <= 8)%nat as Hn by (unfold n; destruct (multifunction b d); lia).
  eapply wp_mono; [apply (loop_spec n 0 _ (λ f, if vendor b d f =? 0xFFFF then [] else report b d f))|].
  - intros k s1 evs1 Hk Hs1. apply scan_function_spec; [done|done|lia|apply Hbr; lia|done].
  - exact Hs.
  - intros [] s' Hs'. cbv beta in *. rewrite <- flat_map_filter.
    rewrite (flat_map_concat_map _ (map Z.of_nat _)), map_map, <- flat_map_concat_map.
    erewrite flat_map_ext; [exact Hs'|]. intros k. cbv beta. rewrite Z.add_0_l.
    destruct (Z.eqb_spec (vendor b d (Z.of_nat k)) 0xFFFF) as [E|E].
    + rewrite bool_decide_eq_false_2; [done|]. intros Hne. by apply Hne.
    + by rewrite bool_decide_eq_true_2.
Qed.
End enumeration.


Lemma bind_run {S A B} (c : M S A) (k : A → M S B) s a s' : c s = Some (a, s') → bind c k s = k a s'.
Proof. unfold bind. by intros ->. Qed.
Lemma bind_none {S A B} (c : M S A) (k : A → M S B) s : c s = None → bind c k s = None.
Proof. unfold bind. by intros ->. Qed.

(** A register read as an equation. *)
Lemma read_run {E} b d f o (s : pci_state (pci_machine E)) : bdf_ok b d f o →
  ∃ s', on_bus (pci_read b d f o) s = Some (creg (space (hw (pbus s))) b d f o, s') ∧ space (hw (pbus s')) = space (hw (pbus s)).
Proof.
  intros Hok. pose proof (read_spec (space (hw (pbus s))) b d f o s (events s)
    (λ v s', v = creg (space (hw (pbus s))) b d f o ∧ space (hw (pbus s')) = space (hw (pbus s))) Hok) as Hw.
  unfold wp in Hw. destruct (on_bus _ _) as [[v s']|].
  - destruct Hw as [-> Hs]; [done|by intros s2 [H _]|]. by exists s'.
  - exfalso. apply Hw; [done|by intros s2 [H _]].
Qed.

Ltac read_step Hs :=
  match goal with
  | |- bind (on_bus (pci_read ?b ?d ?f ?o)) _ ?s = _ =>
    let s' := fresh "s" in let E := fresh "E" in let Hs' := fresh "Hs" in
    destruct (read_run b d f o s) as (s' & E & Hs'); [by repeat split|];
    erewrite bind_run by exact E; rewrite Hs in *; clear E
  end.

(** a bridge that is not configured yet is followed for ever: with a PCI
    bridge whose secondary bus number is still 0 as the first device of bus 0, the
    recursion never returns, whatever the stack. *)
Theorem scan_pci_bus_loops {E} `{PciDrivers (pci_machine E)} cfg fuel (s : pci_state (pci_machine E)) : space (hw (pbus s)) = cfg → vendor cfg 0 0 0 ≠ 0xFFFF → is_bridge cfg 0 0 0 = true →
  creg cfg 0 0 0 0x18 / 2 ^ 8 mod 2 ^ 8 = 0 → scan_pci_bus fuel 0 s = None.
Proof.
  intros Hs Hv Hbr Hsec. revert s Hs. induction fuel as [|fuel IH]; intros s Hs; [done|].
  assert (∀ s, space (hw (pbus s)) = cfg → scan_function (scan_pci_bus fuel) 0 0 0 s = None) as Hfn.
  { clear s Hs. intros s Hs. unfold scan_function. read_step Hs. cbv zeta. rewrite (land_low (creg cfg 0 0 0 0) 16) by lia. fold (vendor cfg 0 0 0).
    rewrite (proj2 (Z.eqb_neq _ _) Hv). read_step Hs0.
    rewrite (land_field (creg cfg 0 0 0 8) 24 8), (land_field (creg cfg 0 0 0 8) 16 8) by lia.
    fold (class cfg 0 0 0) (subclass cfg 0 0 0).
    unfold is_bridge in Hbr. apply andb_true_iff in Hbr as [E1%Z.eqb_eq E2%Z.eqb_eq]. rewrite E1, E2. cbn [Z.eqb Pos.eqb andb].
    read_step Hs1. rewrite (land_field _ 8 8), Hsec by lia. by apply IH. }
  cbn [scan_pci_bus]. change (loop 32 0 ?f) with (f 0;; loop 31 1 f). apply bind_none.
  unfold scan_pci_device. read_step Hs. rewrite (land_low (creg cfg 0 0 0 0) 16) by lia. fold (vendor cfg 0 0 0).
  rewrite (proj2 (Z.eqb_neq _ _) Hv). read_step Hs0. cbv zeta.
  destruct (truthy _); [change (loop 8 0 ?f) with (f 0;; loop 7 1 f)|change (loop 1 0 ?f) with (f 0;; loop 0 1 f)];
    apply bind_none, Hfn; done.
Qed.

(** An AHCI controller at device 3, a BAR of 8 KiB at 0xFEBF0000; nothing else. *)
Definition cfg_demo (a : Z) : Z :=
  if a =? config_address 0 3 0 0 then 0x29228086 else if a =? config_address 0 3 0 8 then 0x01060102
  else if a =? config_address 0 3 0 0x24 then 0xFEBF0000 else if a =? config_address 0 3 0 12 then 0 else 0xFFFFFFFF.
Definition hw_demo : pci_hw := mk_hw 0 cfg_demo (λ a, if a =? config_address 0 3 0 0x24 then 0xFFFFE000 else 0).
(** A bridge with secondary bus 0 in every slot. *)
Definition bridge_demo : pci_hw := mk_hw 0 (λ a, 0x06040000) (λ a, 0).

Lemma config_address_injective_witness : config_address 1 2 3 4 = config_address 1 2 3 4 → 1 = 1 ∧ 2 = 2 ∧ 3 = 3 ∧ 4 = 4.
Proof. apply (config_address_injective 1 2 3 4 1 2 3 4); repeat split; lia. Defined.

Lemma pci_get_bar_size_correct_witness :
  wp (pci_get_bar_size 0 3 0 0x24) (λ size hw', size = 2 ^ 13 ∧ ∀ x, space hw' x = space hw_demo x) hw_demo.
Proof.
  apply (pci_get_bar_size_correct 0 3 0 0x24 13 hw_demo); [repeat split; lia|].
  unfold memory_bar. split; [lia|]. split; [reflexivity|]. split; [vm_compute; split; [discriminate|reflexivity]|reflexivity].
Defined.

Lemma no_bridge_demo d f : 0 <= d < 32 → 0 <= f < 8 → is_bridge cfg_demo 0 d f = false.
Proof.
  intros Hd Hf.
  assert (forallb (λ d, forallb (λ f, negb (is_bridge cfg_demo 0 (Z.of_nat d) (Z.of_nat f))) (seq 0 8)) (seq 0 32) = true) as Hall
    by (vm_compute; reflexivity).
  rewrite forallb_forall in Hall. specialize (Hall (Z.to_nat d) ltac:(apply in_seq; lia)). cbv beta in Hall.
  rewrite forallb_forall in Hall. specialize (Hall (Z.to_nat f) ltac:(apply in_seq; lia)). cbv beta in Hall.
  rewrite !Z2Nat.id in Hall by lia. by apply negb_true_iff.
Qed.

(** Drivers that count their calls, in a machine whose other state is the count. *)
Definition count_call : M (pci_machine Z) unit := modify (λ d, mk_machine (hw d) (others d + 1)).
#[local] Instance counting_drivers : PciDrivers (pci_machine Z) :=
  {| call_map_page _ _ _ := count_call; call_sata_search _ := count_call; call_ehci_pci_init _ _ _ := count_call |}.
#[local] Instance counting_quiet : QuietDrivers Z.
Proof. by split. Qed.


Lemma scan_pci_bus_loops_witness : scan_pci_bus 1000 0 (mk_pci (mk_machine bridge_demo 0) 0 []) = None.
Proof. apply (scan_pci_bus_loops (space bridge_demo) 1000); [reflexivity|discriminate|reflexivity|reflexivity]. Defined.
