(* ===== verification/Arith.v ===== *)
(** * Integer helpers ([klibc/limits.c], [tools/math.c], [tools/includes/endian.h])

    Checked arithmetic, bit reversal, the 64-by-32-bit division the compiler
    calls, and byte order conversion.  A function that stores through a pointer
    and returns a code is a pair: the code and the value stored, if any.  C's
    division truncates: [Z.quot]. *)

From stdpp Require Import prelude gmap list numbers tactics.
From S2P Require Import Prelude Memory KString.

Definition INT_MAX : Z := 2147483647.
Definition INT_MIN : Z := -2147483648.
Definition SCHAR_MIN : Z := -128.
Definition SCHAR_MAX : Z := 127.
Definition PID_MAX : Z := 32768.

(** ** [limits.c] *)

Definition safe_add (a b : Z) : Z * option Z :=
  if (0 <? a) && (INT_MAX - a <? b) then (-1, None)
  else if (a <? 0) && (b <? INT_MIN - a) then (-1, None)
  else (0, Some (s32 (a + b))).

Definition safe_multiply (a b : Z) : Z * option Z :=
  let overflow :=
    if 0 <? a then
      if 0 <? b then Z.quot INT_MAX b <? a else b <? Z.quot INT_MIN a
    else
      if 0 <? b then a <? Z.quot INT_MIN b else negb (a =? 0) && (b <? Z.quot INT_MAX a) in
  if overflow then (-1, None) else (0, Some (s32 (a * b))).

(** The limit is a macro that may be undefined; without it nothing is checked.
    [strict] is the comparison of [validate_filename], [len > NAME_MAX]. *)
Fixpoint validate_length (fuel : nat) (strict : bool) (limit : Z) (m : mem_t) (path len : Z) : option Z :=
  match fuel with
  | O => None
  | S fuel =>
    if load8 m (path + len) =? 0 then Some 0
    else let len := u64 (len + 1) in
         if (if strict then limit <? len else limit <=? len) then Some (-1)
         else validate_length fuel strict limit m path len
  end.
Definition validate_path (PATH_MAX : option Z) (fuel : nat) (m : mem_t) (path : Z) : option Z :=
  match PATH_MAX with Some limit => validate_length fuel false limit m path 0 | None => Some 0 end.
Definition validate_filename (NAME_MAX : option Z) (fuel : nat) (m : mem_t) (name : Z) : option Z :=
  match NAME_MAX with Some limit => validate_length fuel true limit m name 0 | None => Some 0 end.

Definition clamp_to_char (value : Z) : Z :=
  if value <? SCHAR_MIN then SCHAR_MIN else if SCHAR_MAX <? value then SCHAR_MAX else value.

Definition unsigned_to_signed (val : Z) : Z * option Z :=
  if INT_MAX <? val then (-1, None) else (0, Some (s32 val)).

Definition validate_pid (pid : Z) : Z := if (pid <=? 0) || (PID_MAX <? pid) then -1 else 0.

Fixpoint reverse_loop32 (n : nat) (value result : Z) : Z :=
  match n with
  | O => result
  | S n => reverse_loop32 n (Z.shiftr value 1) (Z.lor (u32 (Z.shiftl result 1)) (Z.land value 1))
  end.
Definition reverse_bits (value : Z) : Z := reverse_loop32 32 value 0.

Fixpoint bits_loop (fuel : nat) (value bits : Z) : option Z :=
  if 0 <? value then match fuel with O => None | S fuel => bits_loop fuel (Z.shiftr value 1) (bits + 1) end
  else Some bits.
(** A word is empty after 32 shifts. *)
Definition bits_needed (value : Z) : option Z := if value =? 0 then Some 1 else bits_loop 32 value 0.

(** ** [math.c]: [__udivdi3] and [__umoddi3] *)

(** [while ((d << shift) <= r && shift < 32) shift++;] with the 32-bit shift. *)
Fixpoint shift_loop (n : nat) (d r shift : Z) : Z :=
  match n with
  | O => shift
  | S n => if u32 (Z.shiftl d shift) <=? r then shift_loop n d r (shift + 1) else shift
  end.

(** [for (i = shift - 1; i >= 0; i--)] *)
Fixpoint div_loop (i : nat) (d q r : Z) : Z * Z :=
  match i with
  | O => (q, r)
  | S i =>
    let t := u64 (Z.shiftl d (Z.of_nat i)) in
    if t <=? r then div_loop i d (Z.lor q (u64 (Z.shiftl 1 (Z.of_nat i)))) (r - t) else div_loop i d q r
  end.

(** Division by zero raises interrupt 0: [None]. *)
Definition udivdi3 (n d : Z) : option Z :=
  if d =? 0 then None
  else if n <? d then Some 0
  else Some (fst (div_loop (Z.to_nat (shift_loop 32 d n 0)) d 0 n)).
Definition umoddi3 (n d : Z) : option Z :=
  if d =? 0 then None
  else if n <? d then Some n
  else Some (snd (div_loop (Z.to_nat (shift_loop 32 d n 0)) d 0 n)).

(** ** [endian.h] on the little-endian build *)

Definition be64toh (be : Z) : Z :=
  Z.lor (Z.lor (Z.lor (Z.lor (Z.lor (Z.lor (Z.lor
    (Z.shiftr (Z.land be 0xFF00000000000000) 56)
    (Z.shiftr (Z.land be 0x00FF000000000000) 40))
    (Z.shiftr (Z.land be 0x0000FF0000000000) 24))
    (Z.shiftr (Z.land be 0x000000FF00000000) 8))
    (Z.shiftl (Z.land be 0x00000000FF000000) 8))
    (Z.shiftl (Z.land be 0x0000000000FF0000) 24))
    (Z.shiftl (Z.land be 0x000000000000FF00) 40))
    (Z.shiftl (Z.land be 0x00000000000000FF) 56).
Definition le64toh (le : Z) : Z := le.
Definition be32toh (be : Z) : Z :=
  Z.lor (Z.lor (Z.lor
    (Z.shiftr (Z.land be 0xFF000000) 24)
    (Z.shiftr (Z.land be 0x00FF0000) 8))
    (Z.shiftl (Z.land be 0x0000FF00) 8))
    (Z.shiftl (Z.land be 0x000000FF) 24).
Definition le32toh (le : Z) : Z := le.
Definition be16toh (be : Z) : Z := Z.lor (Z.shiftr (Z.land be 0xFF00) 8) (Z.shiftl (Z.land be 0x00FF) 8).
Definition le16toh (le : Z) : Z := le.
Definition bew64toh (be : Z) : Z :=
  Z.lor (Z.lor (Z.lor
    (Z.shiftr (Z.land be 0xFFFF000000000000) 48)
    (Z.shiftr (Z.land be 0x0000FFFF00000000) 16))
    (Z.shiftl (Z.land be 0x00000000FFFF0000) 16))
    (Z.shiftl (Z.land be 0x000000000000FFFF) 48).
Definition lew64toh (le : Z) : Z := le.
Definition bew32toh (be : Z) : Z :=
  Z.lor (Z.shiftr (Z.land be 0xFFFF0000) 16) (Z.shiftl (Z.land be 0x0000FFFF) 16).
Definition lew32toh (le : Z) : Z := le.
Definition lebbew64toh (lbe : Z) : Z := bew64toh (le64toh lbe).
Definition beblew64toh (lbe : Z) : Z := lew64toh (be64toh lbe).
Definition lebbew32toh (lbe : Z) : Z := bew32toh (le32toh lbe).
Definition beblew32toh (lbe : Z) : Z := lew32toh (be32toh lbe).

(** ** Checked arithmetic *)

Definition int (x : Z) : Prop := INT_MIN <= x <= INT_MAX.

#[export] Instance int_dec x : Decision (int x).
Proof. unfold int. apply _. Defined.

Lemma int_wrap x : int x → s32 x = x.
Proof. unfold int, INT_MIN, INT_MAX. intros Hx. apply swrap_small; lia. Qed.

(** The test of each sign case of [safe_multiply] against the exact product. *)
Lemma overflow_pos_pos a b : int a → int b → 0 < a → 0 < b → Z.quot INT_MAX b < a ↔ ¬ int (a * b).
Proof.
  unfold int, INT_MAX, INT_MIN. intros Ha Hb H1 H2. rewrite Z.quot_div_nonneg by lia.
  pose proof (Z.div_mod 2147483647 b ltac:(lia)). pose proof (Z.mod_pos_bound 2147483647 b ltac:(lia)).
  set (q := 2147483647 / b) in *. split; intros H3; [intros H4; nia|]. destruct (Z.lt_ge_cases q a); [done|]. exfalso. apply H3. nia.
Qed.
Lemma overflow_neg x b c : 0 < b → 0 <= x → c < Z.quot (- x) b ↔ c * b < - x.
Proof.
  intros Hb Hx. rewrite Z.quot_opp_l, Z.quot_div_nonneg by lia.
  pose proof (Z.div_mod x b ltac:(lia)). pose proof (Z.mod_pos_bound x b ltac:(lia)). set (q := x / b) in *. nia.
Qed.
Lemma overflow_neg_neg a b : int a → int b → a < 0 → b <= 0 → b < Z.quot INT_MAX a ↔ ¬ int (a * b).
Proof.
  unfold int, INT_MAX, INT_MIN. intros Ha Hb H1 H2. replace a with (- - a) at 1 by lia. rewrite Z.quot_opp_r by lia.
  rewrite <- Z.quot_opp_l by lia. rewrite overflow_neg by lia. nia.
Qed.

Lemma safe_multiply_spec a b : int a → int b →
  safe_multiply a b = if bool_decide (int (a * b)) then (0, Some (a * b)) else (-1, None).
Proof.
  intros Ha Hb. unfold safe_multiply.
  assert (∀ ov, (ov = true ↔ ¬ int (a * b)) → (if ov : bool then (-1, None) else (0, Some (s32 (a * b)))) =
            if bool_decide (int (a * b)) then (0, Some (a * b)) else (-1, None)) as Hcase.
  { intros ov Hov. case_bool_decide as Hi.
    - destruct ov; [by destruct (proj1 Hov eq_refl)|]. by rewrite int_wrap.
    - by rewrite (proj2 Hov Hi). }
  apply Hcase. unfold int, INT_MAX, INT_MIN in *.
  destruct (Z.ltb_spec 0 a), (Z.ltb_spec 0 b).
  - rewrite Z.ltb_lt. apply (overflow_pos_pos a b); done.
  - rewrite Z.ltb_lt. change (-2147483648) with (- (2147483648)). rewrite overflow_neg by lia. nia.
  - rewrite Z.ltb_lt. change (-2147483648) with (- (2147483648)). rewrite overflow_neg by lia. nia.
  - destruct (Z.eqb_spec a 0) as [->|Hn]; cbn [negb andb]; [split; [done|]; intros Hx; exfalso; apply Hx; lia|].
    rewrite Z.ltb_lt. apply (overflow_neg_neg a b); try done; lia.
Qed.

Lemma safe_add_spec a b : int a → int b →
  safe_add a b = if bool_decide (int (a + b)) then (0, Some (a + b)) else (-1, None).
Proof.
  intros Ha Hb. unfold safe_add. unfold int, INT_MAX, INT_MIN in *.
  case_bool_decide as Hi.
  - rewrite swrap_small by lia.
    destruct (Z.ltb_spec 0 a), (Z.ltb_spec (2147483647 - a) b), (Z.ltb_spec a 0), (Z.ltb_spec b (-2147483648 - a)); cbn [andb]; done || lia.
  - destruct (Z.ltb_spec 0 a), (Z.ltb_spec (2147483647 - a) b), (Z.ltb_spec a 0), (Z.ltb_spec b (-2147483648 - a)); cbn [andb]; done || lia.
Qed.

(** [safe_add] and [safe_multiply] detect exactly the results an [int] cannot
    hold: they fail and store nothing if the exact sum or product is out of range,
    and store it otherwise. *)
Theorem safe_arithmetic a b : int a → int b →
  (safe_add a b = if bool_decide (int (a + b)) then (0, Some (a + b)) else (-1, None)) ∧
  (safe_multiply a b = if bool_decide (int (a * b)) then (0, Some (a * b)) else (-1, None)).
Proof. intros Ha Hb. split; [by apply safe_add_spec|by apply safe_multiply_spec]. Qed.

(** ** Bits *)

Lemma reverse_loop32_bit n value result k i : 0 <= result < 2 ^ 32 → Z.of_nat n + k = 32 → 0 <= k →
  result < 2 ^ k → 0 <= i < 32 →
  Z.testbit (reverse_loop32 n value result) i =
    if i <? Z.of_nat n then Z.testbit value (Z.of_nat n - 1 - i) else Z.testbit result (i - Z.of_nat n).
Proof.
  revert value result k. induction n as [|n IH]; intros value result k Hr Hk Hk0 Hrk Hi; cbn [reverse_loop32].
  - rewrite (proj2 (Z.ltb_ge i (Z.of_nat 0))) by lia. f_equal. lia.
  - assert (2 ^ (k + 1) = 2 * 2 ^ k) as Ep by (by rewrite Z.pow_add_r by lia; lia).
    assert (2 ^ (k + 1) <= 2 ^ 32) as Hle by (apply Z.pow_le_mono_r; lia).
    rewrite Z.shiftl_mul_pow2 by lia. change (2 ^ 1) with 2. rewrite (wrap_small 32 (result * 2)) by lia.
    assert (0 <= Z.land value 1 < 2) as Hb by (change 1 with (2 ^ 1 - 1); rewrite land_ones_mod by lia; zlia).
    assert (0 <= Z.lor (result * 2) (Z.land value 1) < 2 ^ (k + 1)) as Hr2 by (apply lor_range; lia).
    rewrite (IH _ _ (k + 1)) by lia. rewrite Nat2Z.inj_succ.
    destruct (Z.ltb_spec i (Z.of_nat n)), (Z.ltb_spec i (Z.succ (Z.of_nat n))); try lia.
    + rewrite Z.shiftr_spec by lia. f_equal. lia.
    + replace i with (Z.of_nat n) by lia. rewrite Z.sub_diag, Z.lor_spec, Z.land_spec.
      rewrite (Z.mul_comm result), Z.testbit_even_0. replace (Z.succ (Z.of_nat n) - 1 - Z.of_nat n) with 0 by lia.
      by rewrite andb_true_r.
    + rewrite Z.lor_spec, Z.land_spec. replace (i - Z.of_nat n) with (Z.succ (i - Z.succ (Z.of_nat n))) by lia.
      rewrite (Z.mul_comm result), Z.testbit_even_succ by lia.
      rewrite (testbit_high 1 1), andb_false_r, orb_false_r by lia. done.
Qed.

Lemma bits_loop_spec fuel v bits : 0 <= v < 2 ^ Z.of_nat fuel →
  bits_loop fuel v bits = Some (bits + if v =? 0 then 0 else Z.log2 v + 1).
Proof.
  revert v bits. induction fuel as [|fuel IH]; intros v bits Hv; cbn [bits_loop].
  - assert (v = 0) as -> by lia. cbn. f_equal. lia.
  - destruct (Z.ltb_spec 0 v) as [Hp|Hp]; [|replace v with 0 by lia; cbn; f_equal; lia].
    rewrite Nat2Z.inj_succ, Z.pow_succ_r in Hv by lia. rewrite Z.shiftr_div_pow2 by lia. change (2 ^ 1) with 2.
    rewrite IH by zlia. f_equal. rewrite (proj2 (Z.eqb_neq v 0)) by lia.
    destruct (Z.eqb_spec (v / 2) 0) as [Hz|Hz]; [replace v with 1 by zlia; cbn; lia|].
    assert (Z.log2 v = Z.succ (Z.log2 (v / 2))) as ->; [|lia].
    destruct (Z.log2_spec (v / 2) ltac:(zlia)) as [Hl Hh]. pose proof (Z.log2_nonneg (v / 2)).
    apply Z.log2_unique; [lia|]. rewrite !Z.pow_succ_r in * by lia. zlia.
Qed.

(** [reverse_bits] reverses the 32 bits of a word, and [bits_needed] is the
    length of the word in bits (one for zero); both return for every word. *)
Theorem bit_helpers_correct v : 0 <= v < 2 ^ 32 →
  (∀ i, 0 <= i < 32 → Z.testbit (reverse_bits v) i = Z.testbit v (31 - i)) ∧
  bits_needed v = Some (if v =? 0 then 1 else Z.log2 v + 1).
Proof.
  intros Hv. split.
  - intros i Hi. unfold reverse_bits. rewrite (reverse_loop32_bit 32 v 0 0 i) by lia.
    rewrite (proj2 (Z.ltb_lt i (Z.of_nat 32))) by lia. reflexivity.
  - unfold bits_needed. destruct (v =? 0) eqn:E; [done|]. by rewrite bits_loop_spec, E by (cbn; lia).
Qed.

(** ** The division routines *)

(** The loop that aligns the divisor stops at 32, or where the shifted divisor
    exceeds the dividend: the 32-bit shift can only make it look smaller. *)
Lemma shift_loop_spec n d r shift : 0 < d → 0 <= shift →
  shift <= shift_loop n d r shift <= shift + Z.of_nat n ∧
  (shift_loop n d r shift = shift + Z.of_nat n ∨ r < d * 2 ^ shift_loop n d r shift).
Proof.
  intros Hd. revert shift. induction n as [|n IH]; intros shift Hs; cbn [shift_loop]; [lia|].
  destruct (Z.leb_spec (u32 (Z.shiftl d shift)) r) as [Hle|Hgt].
  - destruct (IH (shift + 1) ltac:(lia)). lia.
  - split; [lia|]. right. eapply Z.lt_le_trans; [apply Hgt|]. rewrite Z.shiftl_mul_pow2 by done.
    apply Z.mod_le; [|lia]. pose proof (Z.pow_pos_nonneg 2 shift). nia.
Qed.

Lemma div_loop_spec i d k r : 0 < d < 2 ^ 32 → (i <= 32)%nat → 0 <= k → 0 <= r < d * 2 ^ Z.of_nat i →
  div_loop i d (k * 2 ^ Z.of_nat i) r = (k * 2 ^ Z.of_nat i + r / d, r mod d).
Proof.
  intros Hd. revert k r. induction i as [|i IH]; intros k r Hi Hk Hr; cbn [div_loop].
  - rewrite Z.mul_1_r in Hr. rewrite Z.div_small, Z.mod_small by lia. f_equal. lia.
  - rewrite Nat2Z.inj_succ, Z.pow_succ_r in * by lia. set (e := 2 ^ Z.of_nat i) in *.
    assert (0 < e) by (apply Z.pow_pos_nonneg; lia).
    assert (e <= 2 ^ 31) by (apply Z.pow_le_mono_r; lia).
    assert (d * e < 2 ^ 64) as Hde by nia.
    rewrite !Z.shiftl_mul_pow2 by lia. fold e. rewrite (wrap_small 64 (d * e)), (wrap_small 64 (1 * e)) by nia.
    destruct (Z.leb_spec (d * e) r) as [Hle|Hgt].
    + assert (Z.lor (k * (2 * e)) (1 * e) = (2 * k + 1) * e) as ->.
      { rewrite Z.lor_comm. replace (k * (2 * e)) with (k * 2 ^ (Z.of_nat i + 1)) by (rewrite Z.pow_add_r by lia; fold e; lia).
        rewrite lor_add; [|lia|rewrite Z.pow_add_r by lia; fold e; lia]. rewrite Z.pow_add_r by lia. fold e. lia. }
      rewrite IH by nia. f_equal.
      * replace r with (r - d * e + e * d) at 2 by lia. rewrite Z.div_add by lia. lia.
      * replace r with (r - d * e + e * d) at 2 by lia. by rewrite Z.mod_add by lia.
    + replace (k * (2 * e)) with (2 * k * e) by lia. by rewrite IH by nia.
Qed.

(** [__udivdi3] and [__umoddi3] compute quotient and remainder of a 64-bit by
    a 32-bit number whenever the quotient fits in 32 bits, and raise interrupt 0
    on a zero divisor. *)
Theorem udivdi3_correct n d : 0 <= n < 2 ^ 64 → 0 <= d < 2 ^ 32 → n / d < 2 ^ 32 →
  udivdi3 n d = (if d =? 0 then None else Some (n / d)) ∧ umoddi3 n d = (if d =? 0 then None else Some (n mod d)).
Proof.
  intros Hn Hd Hq. unfold udivdi3, umoddi3. destruct (Z.eqb_spec d 0) as [|Hd0]; [done|].
  destruct (Z.ltb_spec n d) as [Hlt|Hge]; [by rewrite Z.div_small, Z.mod_small by lia|].
  destruct (shift_loop_spec 32 d n 0) as [Hs Hs2]; [lia..|]. set (s := shift_loop 32 d n 0) in *.
  assert (n < d * 2 ^ Z.of_nat (Z.to_nat s)) as Hb.
  { rewrite Z2Nat.id by lia. destruct Hs2 as [->|]; [|done]. pose proof (Z.div_mod n d Hd0). pose proof (Z.mod_pos_bound n d ltac:(lia)). change (0 + Z.of_nat 32) with 32. nia. }
  pose proof (div_loop_spec (Z.to_nat s) d 0 n ltac:(lia) ltac:(lia) ltac:(lia) ltac:(lia)) as Hl. rewrite Z.mul_0_l, Z.add_0_l in Hl. by rewrite Hl.
Qed.

(** a quotient that needs more than 32 bits is truncated: the alignment loop
    stops at 32, and [2^40 / 1] comes out as [2^32 - 1]. *)
Theorem udivdi3_saturates : udivdi3 (2 ^ 40) 1 = Some (2 ^ 32 - 1) ∧ umoddi3 (2 ^ 40) 1 = Some (2 ^ 40 - (2 ^ 32 - 1)).
Proof. by vm_compute. Qed.

(** ** Byte order *)

(** A big-endian number of [n] bytes in memory: the most significant byte first. *)
Fixpoint load_be (n : nat) (m : mem_t) (a : Z) : Z :=
  match n with
  | O => 0
  | S n => load8 m a * 256 ^ Z.of_nat n + load_be n m (a + 1)
  end.

Lemma loadn_byte n m a k : (k < n)%nat → loadn n m a / 2 ^ (8 * Z.of_nat k) mod 2 ^ 8 = load8 m (a + Z.of_nat k).
Proof.
  revert a k. induction n as [|n IH]; intros a k Hk; [lia|]. change (loadn (S n) m a) with (load8 m a + 256 * loadn n m (a + 1)).
  pose proof (load8_range m a). destruct k as [|k].
  - change (8 * Z.of_nat 0) with 0. rewrite Z.pow_0_r, Z.div_1_r, Z.add_0_r. change (2 ^ 8) with 256.
    rewrite Z.mul_comm, Z.mod_add by lia. by apply Z.mod_small.
  - replace (8 * Z.of_nat (S k)) with (8 + 8 * Z.of_nat k) by lia. rewrite Z.pow_add_r by lia.
    rewrite <- Z.div_div by (try apply Z.pow_pos_nonneg; lia). change (2 ^ 8) with 256 at 1.
    rewrite (Z.mul_comm 256), Z.div_add, (Z.div_small (load8 m a)), Z.add_0_l by lia.
    rewrite IH by lia. f_equal. lia.
Qed.

(** The byte of [x] selected by a mask, moved to another place. *)
Lemma mask_field x k mask w : 0 <= k → 0 <= w → mask = (2 ^ w - 1) * 2 ^ k →
  Z.land x mask = (x / 2 ^ k mod 2 ^ w) * 2 ^ k.
Proof.
  intros Hk Hw ->. rewrite <- land_field with (mask := 2 ^ w - 1), <- !Z.shiftl_mul_pow2 by done.
  apply Z.bits_inj'. intros i Hi. rewrite Z.land_spec, !Z.shiftl_spec by done.
  destruct (Z.lt_ge_cases i k); [by rewrite !(Z.testbit_neg_r _ (i - k)), andb_false_r by lia|].
  rewrite Z.land_spec, Z.shiftr_spec by lia. do 2 f_equal. lia.
Qed.

Lemma field_down x k j e mask w : 0 <= e → 0 <= j → k = e + j → 0 <= w → mask = (2 ^ w - 1) * 2 ^ k →
  Z.shiftr (Z.land x mask) j = (x / 2 ^ k mod 2 ^ w) * 2 ^ e.
Proof.
  intros He Hj -> Hw Hm. rewrite (mask_field x (e + j) mask w), Z.shiftr_div_pow2, Z.pow_add_r by lia.
  rewrite Z.mul_assoc. apply Z.div_mul. apply Z.pow_nonzero; lia.
Qed.
Lemma field_up x k j e mask w : 0 <= j → 0 <= k → e = k + j → 0 <= w → mask = (2 ^ w - 1) * 2 ^ k →
  Z.shiftl (Z.land x mask) j = (x / 2 ^ k mod 2 ^ w) * 2 ^ e.
Proof.
  intros Hj Hk -> Hw Hm. rewrite (mask_field x k mask w), Z.shiftl_mul_pow2 by lia.
  rewrite Z.pow_add_r by lia. lia.
Qed.

(** Joining one more field above the [n] bits already collected. *)
Lemma join_field x n f w : 0 <= n → 0 <= w → 0 <= x < 2 ^ n → 0 <= f < 2 ^ w →
  Z.lor x (f * 2 ^ n) = x + f * 2 ^ n ∧ 0 <= x + f * 2 ^ n < 2 ^ (n + w).
Proof.
  intros Hn Hw Hx Hf. split; [by apply lor_add|]. rewrite Z.pow_add_r by done. nia.
Qed.

Lemma loadn_field n m a k w : 0 <= k → 0 <= w → k + w <= 8 * Z.of_nat n → k mod 8 = 0 → w = 8 →
  loadn n m a / 2 ^ k mod 2 ^ w = load8 m (a + k / 8).
Proof.
  intros Hk Hw Hn Hm ->. pose proof (loadn_byte n m a (Z.to_nat (k / 8)) ltac:(zlia)) as H.
  rewrite Z2Nat.id in H by zlia. by replace (8 * (k / 8)) with k in H by zlia.
Qed.

(** Two bytes at once: the 16-bit units of the word-swapped formats. *)
Lemma loadn_field16 n m a k : 0 <= k → k + 16 <= 8 * Z.of_nat n → k mod 8 = 0 →
  loadn n m a / 2 ^ k mod 2 ^ 16 = load16 m (a + k / 8).
Proof.
  intros Hk Hn Hm. pose proof (loadn_field n m a k 8 ltac:(lia) ltac:(lia) ltac:(lia) Hm eq_refl) as H1.
  pose proof (loadn_field n m a (k + 8) 8 ltac:(lia) ltac:(lia) ltac:(lia) ltac:(zlia) eq_refl) as H2.
  rewrite Z.pow_add_r, <- Z.div_div in H2 by (try apply Z.pow_pos_nonneg; lia).
  replace (a + (k + 8) / 8) with (a + k / 8 + 1) in H2 by zlia.
  change (load16 m (a + k / 8)) with (load8 m (a + k / 8) + 256 * (load8 m (a + k / 8 + 1) + 256 * 0)).
  rewrite <- H1, <- H2. set (y := loadn n m a / 2 ^ k). change (2 ^ 16) with (256 * 256). change (2 ^ 8) with 256. zlia.
Qed.

(** The innermost [Z.lor] joins a field of [w] bits to what is below it. *)
Ltac join w :=
  match goal with
  | |- context [Z.lor ?x (?f * 2 ^ ?n)] =>
    lazymatch x with context [Z.lor _ _] => fail | _ => idtac end;
    let E := fresh in let B := fresh in
    destruct (join_field x n f w) as [E B]; [lia|lia|lia|lia|rewrite E; clear E]
  end.

Ltac byte_bounds m :=
  repeat match goal with
  | |- context [load8 m ?b] =>
    lazymatch goal with H : 0 <= load8 m b < 256 |- _ => fail | _ => pose proof (load8_range m b) end
  end.

(** Both sides as sums of bytes at computed addresses. *)
Ltac bytes_eq m :=
  byte_bounds m; repeat join 8; cbn [load_be]; rewrite ?Z.add_0_r, <- ?Z.add_assoc;
  repeat match goal with
  | |- context [load8 m (?a + ?k)] => let k' := eval vm_compute in k in progress change (a + k) with (a + k')
  | |- context [256 ^ Z.of_nat ?n] => let k := eval vm_compute in (256 ^ Z.of_nat n) in change (256 ^ Z.of_nat n) with k
  end; rewrite ?Z.add_0_r; lia.

Section endian.
Variables (m : mem_t) (a : Z).

Lemma be64toh_bytes : be64toh (load64 m a) = load_be 8 m a.
Proof.
  unfold be64toh. set (x := load64 m a).
  rewrite (field_down x 56 56 0 _ 8), (field_down x 48 40 8 _ 8), (field_down x 40 24 16 _ 8), (field_down x 32 8 24 _ 8),
    (field_up x 24 8 32 _ 8), (field_up x 16 24 40 _ 8), (field_up x 8 40 48 _ 8), (field_up x 0 56 56 _ 8) by (done || lia).
  unfold x. rewrite !loadn_field by done. bytes_eq m.
Qed.
Lemma be32toh_bytes : be32toh (load32 m a) = load_be 4 m a.
Proof.
  unfold be32toh. set (x := load32 m a).
  rewrite (field_down x 24 24 0 _ 8), (field_down x 16 8 8 _ 8), (field_up x 8 8 16 _ 8), (field_up x 0 24 24 _ 8) by (done || lia).
  unfold x. rewrite !loadn_field by done. bytes_eq m.
Qed.
Lemma be16toh_bytes : be16toh (load16 m a) = load_be 2 m a.
Proof.
  unfold be16toh. set (x := load16 m a).
  rewrite (field_down x 8 8 0 _ 8), (field_up x 0 8 8 _ 8) by (done || lia).
  unfold x. rewrite !loadn_field by done. bytes_eq m.
Qed.
Lemma bew64toh_words : bew64toh (load64 m a) =
  load16 m (a + 6) + load16 m (a + 4) * 2 ^ 16 + load16 m (a + 2) * 2 ^ 32 + load16 m a * 2 ^ 48.
Proof.
  unfold bew64toh. set (x := load64 m a).
  rewrite (field_down x 48 48 0 _ 16), (field_down x 32 16 16 _ 16), (field_up x 16 16 32 _ 16), (field_up x 0 48 48 _ 16) by (done || lia).
  unfold x. rewrite !loadn_field16 by done.
  change (48 / 8) with 6. change (32 / 8) with 4. change (16 / 8) with 2. change (0 / 8) with 0. rewrite Z.add_0_r.
  pose proof (loadn_range 2 m) as Hr. change (256 ^ Z.of_nat 2) with (2 ^ 16) in Hr.
  pose proof (Hr a). pose proof (Hr (a + 2)). pose proof (Hr (a + 4)). pose proof (Hr (a + 6)). repeat join 16. lia.
Qed.
Lemma bew32toh_words : bew32toh (load32 m a) = load16 m (a + 2) + load16 m a * 2 ^ 16.
Proof.
  unfold bew32toh. set (x := load32 m a).
  rewrite (field_down x 16 16 0 _ 16), (field_up x 0 16 16 _ 16) by (done || lia).
  unfold x. rewrite !loadn_field16 by done. change (16 / 8) with 2. change (0 / 8) with 0. rewrite Z.add_0_r.
  pose proof (loadn_range 2 m) as Hr. change (256 ^ Z.of_nat 2) with (2 ^ 16) in Hr.
  pose proof (Hr a). pose proof (Hr (a + 2)). repeat join 16. lia.
Qed.
End endian.

(** applied to what a little-endian load reads, [be16toh], [be32toh] and
    [be64toh] give the big-endian value of the bytes in memory, and the [bew]
    variants the value of 16-bit little-endian units stored most significant
    first. *)
Theorem endian_correct m a :
  be16toh (load16 m a) = load_be 2 m a ∧ be32toh (load32 m a) = load_be 4 m a ∧ be64toh (load64 m a) = load_be 8 m a ∧
  lebbew32toh (load32 m a) = load16 m (a + 2) + load16 m a * 2 ^ 16 ∧
  lebbew64toh (load64 m a) = load16 m (a + 6) + load16 m (a + 4) * 2 ^ 16 + load16 m (a + 2) * 2 ^ 32 + load16 m a * 2 ^ 48.
Proof. by rewrite be16toh_bytes, be32toh_bytes, be64toh_bytes, <- bew64toh_words, <- bew32toh_words. Qed.

(** ** Witnesses *)

Lemma safe_arithmetic_witness :
  int 65536 ∧ int 32768 ∧ safe_add 65536 32768 = (0, Some 98304) ∧ safe_multiply 65536 32768 = (-1, None).
Proof.
  assert (int 65536) as Ha by done. assert (int 32768) as Hb by done.
  destruct (safe_arithmetic 65536 32768 Ha Hb) as [H1 H2]. split; [exact Ha|]. split; [exact Hb|]. by rewrite H1, H2.
Defined.

Lemma bit_helpers_correct_witness : 0 <= 5 < 2 ^ 32 ∧ Z.testbit (reverse_bits 5) 29 = true ∧ bits_needed 5 = Some 3.
Proof.
  assert (0 <= 5 < 2 ^ 32) as H by done. destruct (bit_helpers_correct 5 H) as [H1 H2].
  split; [exact H|]. split; [by rewrite (H1 29)|exact H2].
Defined.

Lemma udivdi3_correct_witness : 10 ^ 18 / (10 ^ 9 + 7) < 2 ^ 32 ∧ udivdi3 (10 ^ 18) (10 ^ 9 + 7) = Some 999999993.
Proof.
  assert (0 <= 10 ^ 18 < 2 ^ 64) as H1 by done. assert (0 <= 10 ^ 9 + 7 < 2 ^ 32) as H2 by done.
  assert (10 ^ 18 / (10 ^ 9 + 7) < 2 ^ 32) as H3 by done. split; [exact H3|].
  exact (proj1 (udivdi3_correct _ _ H1 H2 H3)).
Defined.
