(* ===== verification/Ata.v ===== *)
(** * ATA disks in programmed I/O ([drivers/storage/ata.c], [includes/ata.h])

    The driver over the port class of [Io], with the byte memory its buffers
    live in and its two globals as state.  The [_manual] variants of the code
    differ from the plain ones in the base port only, so both are the same
    transfer at two bases.  The result codes are the code's. *)

From stdpp Require Import prelude gmap list numbers tactics.
From S2P Require Import Prelude Memory Io.

Definition ATA_PRIMARY_IO : Z := 0x1F0.
Definition ATA_SECONDARY_IO : Z := 0x170.
Definition ATA_REG_DATA : Z := 0.
Definition ATA_REG_ERROR : Z := 1.
Definition ATA_REG_SECCOUNT : Z := 2.
Definition ATA_REG_LBA_LOW : Z := 3.
Definition ATA_REG_LBA_MID : Z := 4.
Definition ATA_REG_LBA_HIGH : Z := 5.
Definition ATA_REG_DRIVE_HEAD : Z := 6.
Definition ATA_REG_COMMAND : Z := 7.
Definition ATA_REG_STATUS : Z := 7.
Definition ATA_CMD_READ_SECTORS : Z := 0x20.
Definition ATA_CMD_READ_SECTORS_EXT : Z := 0x24.
Definition ATA_CMD_WRITE_SECTORS : Z := 0x30.
Definition ATA_CMD_WRITE_SECTORS_EXT : Z := 0x34.
Definition ATA_CMD_CACHE_FLUSH : Z := 0xE7.
Definition ATA_CMD_CACHE_FLUSH_EXT : Z := 0xEA.
Definition ATA_CMD_IDENTIFY : Z := 0xEC.

Record ata_state (D : Type) := mk_ata { dev : D; mem : gmap Z Z; ata_status : Z; ata_error : Z }.
Arguments mk_ata {D}. Arguments dev {D}. Arguments mem {D}. Arguments ata_status {D}. Arguments ata_error {D}.

(** Base port and drive/head byte of a drive number. *)
Definition ata_get_io_and_head (drive : Z) : Z * Z :=
  (if drive <? 2 then ATA_PRIMARY_IO else ATA_SECONDARY_IO,
   Z.lor 0xE0 (if truthy (Z.land drive 1) then 0x10 else 0x00)).

Section ata.
Context {D : Type} `{Bus D}.
Abbreviation A := (M (ata_state D)).

Definition on_drive {X} (c : M D X) : A X := zoom dev (λ d s, mk_ata d (mem s) (ata_status s) (ata_error s)) c.
Definition in_reg (io_base r : Z) : A Z := on_drive (inb (u16 (io_base + r))).
Definition out_reg (io_base r v : Z) : A unit := on_drive (outb (u16 (io_base + r)) v).
Definition set_ata_status (v : Z) : A unit := modify (λ s, mk_ata (dev s) (mem s) v (ata_error s)).
Definition set_ata_error (v : Z) : A unit := modify (λ s, mk_ata (dev s) (mem s) (ata_status s) v).
Definition set_memory (f : gmap Z Z → gmap Z Z) : A unit :=
  modify (λ s, mk_ata (dev s) (f (mem s)) (ata_status s) (ata_error s)).

Fixpoint wait_loop (n : nat) (io_base : Z) (needs_drq : bool) : A Z :=
  match n with
  | O => mret (-1)
  | S n =>
    st ← in_reg io_base ATA_REG_STATUS;
    set_ata_status st;;
    if truthy (Z.land st 0x01) then
      e ← in_reg io_base ATA_REG_ERROR;
      set_ata_error e;;
      mret (-2)
    else if negb (truthy (Z.land st 0x80)) && (negb needs_drq || truthy (Z.land st 0x08)) then mret 0
    else wait_loop n io_base needs_drq
  end.
Definition ata_wait_ready (io_base : Z) (needs_drq : bool) : A Z := wait_loop (Z.to_nat 100000) io_base needs_drq.

Definition ata_write_48bit_lba (io_base lba sector_count : Z) : A unit :=
  out_reg io_base ATA_REG_SECCOUNT (Z.land (Z.shiftr sector_count 8) 0xFF);;
  out_reg io_base ATA_REG_LBA_LOW (Z.land (Z.shiftr lba 24) 0xFF);;
  out_reg io_base ATA_REG_LBA_MID (Z.land (Z.shiftr lba 32) 0xFF);;
  out_reg io_base ATA_REG_LBA_HIGH (Z.land (Z.shiftr lba 40) 0xFF);;
  out_reg io_base ATA_REG_SECCOUNT (Z.land sector_count 0xFF);;
  out_reg io_base ATA_REG_LBA_LOW (Z.land lba 0xFF);;
  out_reg io_base ATA_REG_LBA_MID (Z.land (Z.shiftr lba 8) 0xFF);;
  out_reg io_base ATA_REG_LBA_HIGH (Z.land (Z.shiftr lba 16) 0xFF).

(** The words of one sector from the data port to [a], and back. *)
Fixpoint read_words (n : nat) (io_base a : Z) : A unit :=
  match n with
  | O => mret tt
  | S n =>
    word ← on_drive (inw (u16 (io_base + ATA_REG_DATA)));
    set_memory (λ m, store8 (store8 m a (Z.land word 0xFF)) (a + 1) (Z.shiftr word 8));;
    read_words n io_base (a + 2)
  end.
Fixpoint write_words (n : nat) (io_base a : Z) : A unit :=
  match n with
  | O => mret tt
  | S n =>
    word ← gets (λ s, Z.lor (load8 (mem s) a) (Z.shiftl (load8 (mem s) (a + 1)) 8));
    on_drive (outw (u16 (io_base + ATA_REG_DATA)) word);;
    write_words n io_base (a + 2)
  end.

(** [for (s = 0; s < sector_count; s++)]: wait for the data phase, then transfer
    one sector with [body], whose words are those of
    [for (i = 0; i < sector_size_bytes; i += 2)]. *)
Definition sector_words (sector_size_bytes : Z) : nat := Z.to_nat ((sector_size_bytes + 1) / 2).
Fixpoint sectors (err : Z) (body : Z → A unit) (n : nat) (io_base a sector_size_bytes : Z) : A Z :=
  match n with
  | O => mret 0
  | S n =>
    r ← ata_wait_ready io_base true;
    if truthy r then mret err
    else
      body a;;
      sectors err body n io_base (a + sector_size_bytes) sector_size_bytes
  end.
Definition read_sectors (sector_count io_base buffer sector_size_bytes : Z) : A Z :=
  sectors (-2) (read_words (sector_words sector_size_bytes) io_base) (Z.to_nat sector_count) io_base buffer sector_size_bytes.
Definition write_sectors (sector_count io_base buffer sector_size_bytes : Z) : A Z :=
  sectors (-2) (write_words (sector_words sector_size_bytes) io_base) (Z.to_nat sector_count) io_base buffer sector_size_bytes.

(** The 28-bit task file and command. *)
Definition command28 (io_base drive_head lba sector_count cmd : Z) : A unit :=
  out_reg io_base ATA_REG_DRIVE_HEAD drive_head;;
  out_reg io_base ATA_REG_SECCOUNT sector_count;;
  out_reg io_base ATA_REG_LBA_LOW (Z.land lba 0xFF);;
  out_reg io_base ATA_REG_LBA_MID (Z.land (Z.shiftr lba 8) 0xFF);;
  out_reg io_base ATA_REG_LBA_HIGH (Z.land (Z.shiftr lba 16) 0xFF);;
  out_reg io_base ATA_REG_COMMAND cmd.

(** Selecting a drive: the head byte and four status reads as a delay. *)
Definition select_drive (io_base drive_head : Z) : A unit :=
  out_reg io_base ATA_REG_DRIVE_HEAD drive_head;;
  in_reg io_base ATA_REG_STATUS;; in_reg io_base ATA_REG_STATUS;;
  in_reg io_base ATA_REG_STATUS;; in_reg io_base ATA_REG_STATUS;;
  mret tt.

Definition read28 (io_base drive lba sector_count buffer sector_size_bytes : Z) : A Z :=
  if 2 ^ 28 <=? lba then mret (-3)
  else
    let drive_head := Z.lor (snd (ata_get_io_and_head drive)) (Z.land (Z.shiftr lba 24) 0x0F) in
    r ← ata_wait_ready io_base false;
    if truthy r then mret (-1)
    else
      command28 io_base drive_head lba sector_count ATA_CMD_READ_SECTORS;;
      read_sectors sector_count io_base buffer sector_size_bytes.
Definition ata_read_sector_28bit (lba sector_count buffer drive sector_size_bytes : Z) : A Z :=
  read28 (fst (ata_get_io_and_head drive)) drive lba sector_count buffer sector_size_bytes.
Definition ata_read_sector_28bit_manual (lba sector_count buffer base_pmio drive sector_size_bytes : Z) : A Z :=
  read28 base_pmio drive lba sector_count buffer sector_size_bytes.

Definition read48 (io_base drive lba sector_count buffer sector_size_bytes : Z) : A Z :=
  let drive_head := Z.lor (snd (ata_get_io_and_head drive)) 0x40 in
  r ← ata_wait_ready io_base false;
  if truthy r then mret (-1)
  else
    select_drive io_base drive_head;;
    ata_write_48bit_lba io_base lba sector_count;;
    out_reg io_base ATA_REG_COMMAND ATA_CMD_READ_SECTORS_EXT;;
    read_sectors sector_count io_base buffer sector_size_bytes.
Definition ata_read_sector_48bit (lba sector_count buffer drive sector_size_bytes : Z) : A Z :=
  read48 (fst (ata_get_io_and_head drive)) drive lba sector_count buffer sector_size_bytes.
Definition ata_read_sector_48bit_manual (lba sector_count buffer base_pmio drive sector_size_bytes : Z) : A Z :=
  read48 base_pmio drive lba sector_count buffer sector_size_bytes.

(** The loop of at most 255 sectors per command. [n] bounds its iterations. *)
Fixpoint chunks (n : nat) (read : Z → Z → Z → A Z) (lba_reading lba sector_count buffer sector_size_bytes : Z) : A Z :=
  match n with
  | O => mstop
  | S n =>
    if lba_reading <? sector_count then
      let left := u16 (sector_count - lba_reading) in
      let sector_count_reading := if 255 <? left then 255 else left in
      res ← read (u32 (lba + lba_reading)) (u8 sector_count_reading) (buffer + u32 (lba_reading * sector_size_bytes));
      if truthy res then mret res
      else chunks n read (u32 (lba_reading + 255)) lba sector_count buffer sector_size_bytes
    else mret 0
  end.
Definition read_auto (io_base drive lba sector_count buffer sector_size_bytes : Z) : A Z :=
  if (lba <? 2 ^ 28) && (sector_count <=? 255) then
    read28 io_base drive lba sector_count buffer sector_size_bytes
  else
    res ← (if u64 (lba + sector_count) <? 2 ^ 28 then
             chunks 259 (λ lba count buf, read28 io_base drive lba count buf sector_size_bytes) 0 lba sector_count buffer sector_size_bytes
           else mret 0);
    if truthy res then mret res else read48 io_base drive lba sector_count buffer sector_size_bytes.
Definition ata_read_sector_auto (lba sector_count buffer drive sector_size_bytes : Z) : A Z :=
  read_auto (fst (ata_get_io_and_head drive)) drive lba sector_count buffer sector_size_bytes.
Definition ata_read_sector_semiauto (lba sector_count buffer base_pmio drive sector_size_bytes : Z) : A Z :=
  read_auto base_pmio drive lba sector_count buffer sector_size_bytes.

Definition flush_with (cmd io_base drive_head : Z) : A Z :=
  select_drive io_base drive_head;;
  out_reg io_base ATA_REG_COMMAND cmd;;
  ata_wait_ready io_base false.
Definition ata_flush_cache (io_base drive_head : Z) : A Z := flush_with ATA_CMD_CACHE_FLUSH io_base drive_head.
Definition ata_flush_cache_ext (io_base drive_head : Z) : A Z := flush_with ATA_CMD_CACHE_FLUSH_EXT io_base drive_head.

Definition ata_write_sector_28bit (lba sector_count buffer drive sector_size_bytes : Z) : A Z :=
  if 2 ^ 28 <=? lba then mret (-3)
  else
    let '(io_base, drive_head) := ata_get_io_and_head drive in
    let drive_head := Z.lor drive_head (Z.land (Z.shiftr lba 24) 0x0F) in
    r ← ata_wait_ready io_base false;
    if truthy r then mret (-1)
    else
      command28 io_base drive_head lba sector_count ATA_CMD_WRITE_SECTORS;;
      r ← write_sectors sector_count io_base buffer sector_size_bytes;
      if truthy r then mret r else ata_flush_cache io_base drive_head.
Definition ata_write_sector_48bit (lba sector_count buffer drive sector_size_bytes : Z) : A Z :=
  let '(io_base, drive_head) := ata_get_io_and_head drive in
  let drive_head := Z.lor drive_head 0x40 in
  r ← ata_wait_ready io_base false;
  if truthy r then mret (-1)
  else
    select_drive io_base drive_head;;
    ata_write_48bit_lba io_base lba sector_count;;
    out_reg io_base ATA_REG_COMMAND ATA_CMD_WRITE_SECTORS_EXT;;
    r ← write_sectors sector_count io_base buffer sector_size_bytes;
    if truthy r then mret r else ata_flush_cache_ext io_base drive_head.
Definition ata_write_sector_auto (lba sector_count buffer drive sector_size_bytes : Z) : A Z :=
  if (lba <? 2 ^ 28) && (sector_count <=? 255)
  then ata_write_sector_28bit lba sector_count buffer drive sector_size_bytes
  else ata_write_sector_48bit lba sector_count buffer drive sector_size_bytes.

(** [identify_data] is an array of 256 words at [data]. *)
Fixpoint read_array (n : nat) (io_base data : Z) : A unit :=
  match n with
  | O => mret tt
  | S n =>
    word ← on_drive (inw (u16 (io_base + ATA_REG_DATA)));
    set_memory (λ m, store16 m data word);;
    read_array n io_base (data + 2)
  end.
Definition identify (io_base drive data : Z) : A Z :=
  let drive_head := snd (ata_get_io_and_head drive) in
  select_drive io_base drive_head;;
  out_reg io_base ATA_REG_SECCOUNT 0;;
  out_reg io_base ATA_REG_LBA_LOW 0;;
  out_reg io_base ATA_REG_LBA_MID 0;;
  out_reg io_base ATA_REG_LBA_HIGH 0;;
  out_reg io_base ATA_REG_COMMAND ATA_CMD_IDENTIFY;;
  r ← ata_wait_ready io_base true;
  if truthy r then mret (-1)
  else
    read_array 256 io_base data;;
    first ← gets (λ s, load16 (mem s) data);
    mret (if first =? 0 then -2 else 0).
Definition identify_ata (drive data : Z) : A Z := identify (fst (ata_get_io_and_head drive)) drive data.
Definition identify_ata_manual (drive data pmio_base : Z) : A Z := identify pmio_base drive data.
End ata.
