(* ===== verification/AtaDisk.v ===== *)
(** * A drive on an ATA channel, as a device for [Ata]

    The contract of the drive in the ATA command set, executable: the task file
    with its two-deep registers, the busy and data-request phases of programmed
    I/O in blocks, the sector read and write commands in both address widths,
    IDENTIFY and the cache flush.  [latency] is how many status reads the drive
    stays busy after a command and between blocks.  While it is busy, or waits
    for data, the drive ignores its registers and new commands, as the standard
    allows. *)

From stdpp Require Import prelude gmap list numbers tactics.
From S2P Require Import Prelude Memory Io Ata.

Inductive phase :=
| Idle
| DataIn (blk : Z) (src : gmap Z Z) (pos rest : Z)    (* in blocks of [blk] bytes *)
| DataOut (pos rest : Z)
| Packet (limit : Z) (got : list Z).                 (* the bytes of the packet so far *)

Record taskfile := mk_tf {
  head : Z; sc : Z; low : Z; mid : Z; high : Z;
  sc' : Z; low' : Z; mid' : Z; high' : Z    (* the bytes written before *)
}.

Record drive := mk_drive {
  io : Z; second : bool;          (* base port, drive 1 of the channel *)
  latency : nat; fault : bool;
  ident : gmap Z Z;               (* the IDENTIFY block *)
  disc : option Z;                (* a packet device, and its last address *)
  busy : nat; tf : taskfile; ph : phase;
  cache : gmap Z Z;               (* what the drive reads back *)
  platter : gmap Z Z              (* what survives a power loss *)
}.
Definition block : Z := 512.
Definition disc_block : Z := 2048.

Definition set_busy (n : nat) (d : drive) : drive :=
  mk_drive (io d) (second d) (latency d) (fault d) (ident d) (disc d) n (tf d) (ph d) (cache d) (platter d).
Definition set_ph (p : phase) (d : drive) : drive :=
  mk_drive (io d) (second d) (latency d) (fault d) (ident d) (disc d) (busy d) (tf d) p (cache d) (platter d).
Definition set_tf (t : taskfile) (d : drive) : drive :=
  mk_drive (io d) (second d) (latency d) (fault d) (ident d) (disc d) (busy d) t (ph d) (cache d) (platter d).
Definition set_cache (c : gmap Z Z) (d : drive) : drive :=
  mk_drive (io d) (second d) (latency d) (fault d) (ident d) (disc d) (busy d) (tf d) (ph d) c (platter d).
Definition set_platter (c : gmap Z Z) (d : drive) : drive :=
  mk_drive (io d) (second d) (latency d) (fault d) (ident d) (disc d) (busy d) (tf d) (ph d) (cache d) c.

Definition lba28 (t : taskfile) : Z := low t + mid t * 2 ^ 8 + high t * 2 ^ 16 + head t mod 16 * 2 ^ 24.
Definition lba48 (t : taskfile) : Z :=
  low t + mid t * 2 ^ 8 + high t * 2 ^ 16 + low' t * 2 ^ 24 + mid' t * 2 ^ 32 + high' t * 2 ^ 40.
Definition count28 (t : taskfile) : Z := if sc t =? 0 then 256 else sc t.
Definition count48 (t : taskfile) : Z := let n := sc t + sc' t * 2 ^ 8 in if n =? 0 then 65536 else n.

(** Starting a command: busy for a while, then in its data phase. *)
Definition start (p : phase) (d : drive) : drive := set_busy (latency d) (set_ph p d).
Definition exec (cmd : Z) (d : drive) : drive :=
  let t := tf d in
  if negb (Bool.eqb (Z.testbit (head t) 4) (second d)) then d
  else match disc d with
  | None =>
    if cmd =? 0xEC then start (DataIn block (ident d) 0 block) d
    else if (cmd =? 0xE7) || (cmd =? 0xEA) then start Idle (set_platter (cache d) d)
    else if negb (Z.testbit (head t) 6) then d
    else if cmd =? 0x20 then start (DataIn block (cache d) (lba28 t * block) (count28 t * block)) d
    else if cmd =? 0x24 then start (DataIn block (cache d) (lba48 t * block) (count48 t * block)) d
    else if cmd =? 0x30 then start (DataOut (lba28 t * block) (count28 t * block)) d
    else if cmd =? 0x34 then start (DataOut (lba48 t * block) (count48 t * block)) d
    else d
  | Some _ =>
    if cmd =? 0xA1 then start (DataIn block (ident d) 0 block) d
    else if cmd =? 0xA0 then start (Packet (mid t + high t * 2 ^ 8) []) d
    else d
  end.

(** The packet commands READ(10) and READ CAPACITY(10): big-endian fields. *)
Definition be_bytes (l : list Z) : Z := foldl (λ acc b, acc * 256 + b) 0 l.
Definition bytes_of (n : nat) (v : Z) : list Z := map (λ k, v / 2 ^ (8 * Z.of_nat k) mod 256) (reverse (seq 0 n)).
Definition map_bytes (l : list Z) : gmap Z Z := list_to_map (zip (map Z.of_nat (seq 0 (length l))) l).
Definition exec_packet (limit : Z) (p : list Z) (d : drive) : drive :=
  match disc d, p with
  | Some last, [op; _; l3; l2; l1; l0; _; n1; n0; _; _; _] =>
    if op =? 0x28 then
      let n := be_bytes [n1; n0] in
      start (if n =? 0 then Idle else DataIn limit (cache d) (be_bytes [l3; l2; l1; l0] * disc_block) (n * disc_block)) d
    else if op =? 0x25 then
      start (DataIn limit (map_bytes (bytes_of 4 last ++ bytes_of 4 disc_block)) 0 8) d
    else start Idle d
  | _, _ => start Idle d
  end.

Definition tf_write (r v : Z) (t : taskfile) : taskfile :=
  match r with
  | 2 => mk_tf (head t) v (low t) (mid t) (high t) (sc t) (low' t) (mid' t) (high' t)
  | 3 => mk_tf (head t) (sc t) v (mid t) (high t) (sc' t) (low t) (mid' t) (high' t)
  | 4 => mk_tf (head t) (sc t) (low t) v (high t) (sc' t) (low' t) (mid t) (high' t)
  | 5 => mk_tf (head t) (sc t) (low t) (mid t) v (sc' t) (low' t) (mid' t) (high t)
  | 6 => mk_tf v (sc t) (low t) (mid t) (high t) (sc' t) (low' t) (mid' t) (high' t)
  | _ => t
  end.
Definition reg_out (r v : Z) (d : drive) : drive :=
  match busy d, ph d with
  | O, Idle => if r =? 7 then exec v d else set_tf (tf_write r v (tf d)) d
  | _, _ => d
  end.

(** After a block the drive is busy again, after the last one it is idle. *)
Definition moved (blk : Z) (p : phase) (rest : Z) (d : drive) : drive :=
  if rest =? 0 then set_ph Idle d
  else if rest mod blk =? 0 then set_busy (latency d) (set_ph p d)
  else set_ph p d.
Definition data_in (d : drive) : Z * drive :=
  match busy d, ph d with
  | O, DataIn blk src pos rest => (load16 src pos, moved blk (DataIn blk src (pos + 2) (rest - 2)) (rest - 2) d)
  | _, _ => (0xFFFF, d)
  end.
Definition data_out (v : Z) (d : drive) : drive :=
  match busy d, ph d with
  | O, DataOut pos rest =>
    let d := set_cache (store16 (cache d) pos v) d in
    if rest - 2 =? 0 then start Idle d else moved block (DataOut (pos + 2) (rest - 2)) (rest - 2) d
  | O, Packet limit got =>
    let got := got ++ [v mod 256; v / 256 mod 256] in
    if (length got =? 12)%nat then exec_packet limit got d else set_ph (Packet limit got) d
  | _, _ => d
  end.

Definition status (d : drive) : Z :=
  match busy d, ph d with
  | S _, _ => 0x80
  | O, p => Z.lor (match p with Idle => 0x50 | _ => 0x58 end) (if fault d then 1 else 0)
  end.

#[export] Instance drive_bus : Bus drive := {|
  bus_in w port d :=
    let r := port - io d in
    if (r =? 7) && (w =? 8) then (status d, set_busy (pred (busy d)) d)
    else if (r =? 1) && (w =? 8) then (4, d)
    else if (r =? 0) && (w =? 16) then data_in d
    else (0xFF, d);
  bus_out w port v d :=
    let r := port - io d in
    if (r =? 0) && (w =? 16) then data_out v d
    else if (0 <=? r) && (r <=? 7) && (w =? 8) then reg_out r v d
    else d;
  mmio_read a d := (0, d); mmio_write a v d := d;
  msr_read r d := 0; msr_write r v d := d; cr4_read d := 0; cr4_write v d := d
|}.

(** ** Bytes copied between the memory and the drive *)

Record copied (m m' : gmap Z Z) (a : Z) (src : gmap Z Z) (p n : Z) : Prop := {
  copied_in : ∀ k, 0 <= k < n → load8 m' (a + k) = load8 src (p + k);
  copied_out : same_outside (λ x, a <= x < a + n) m m'
}.

Lemma copied_nil m a src p : copied m m a src p 0.
Proof. split; [lia|done]. Qed.

Lemma copied_app m1 m2 m3 a src p n k : 0 <= n → 0 <= k → copied m1 m2 a src p n → copied m2 m3 (a + n) src (p + n) k →
  copied m1 m3 a src p (n + k).
Proof.
  intros Hn Hk [H1 H2] [H3 H4]. split.
  - intros i Hi. destruct (Z.lt_ge_cases i n).
    + rewrite H4 by lia. apply H1. lia.
    + replace (a + i) with (a + n + (i - n)) by lia. rewrite H3 by lia. f_equal. lia.
  - intros x Hx. rewrite H4 by lia. apply H2. lia.
Qed.

(** One word, as the code stores the two bytes of what [inw] returns. *)
Lemma load16_bytes m a : load16 m a = load8 m a + 256 * load8 m (a + 1).
Proof. change (load16 m a) with (load8 m a + 256 * (load8 m (a + 1) + 256 * 0)). lia. Qed.

Lemma copied_word m a src p :
  copied m (store8 (store8 m a (Z.land (load16 src p) 0xFF)) (a + 1) (Z.shiftr (load16 src p) 8)) a src p 2.
Proof.
  pose proof (load8_range src p). pose proof (load8_range src (p + 1)). split.
  - intros k Hk. assert (k = 0 ∨ k = 1) as [-> | ->] by lia.
    + rewrite load8_store8_ne by lia. rewrite !Z.add_0_r, load8_store8_eq, load16_bytes.
      rewrite (land_low _ 8) by done. change (2 ^ 8) with 256. zlia.
    + rewrite load8_store8_eq, load16_bytes, Z.shiftr_div_pow2 by lia. change (2 ^ 8) with 256. zlia.
  - intros x Hx. rewrite !load8_store8_ne by lia. done.
Qed.

Lemma copied_store16 m p src a :
  copied m (store16 m p (Z.lor (load8 src a) (Z.shiftl (load8 src (a + 1)) 8))) p src a 2.
Proof.
  pose proof (load8_range src a). pose proof (load8_range src (a + 1)).
  rewrite Z.shiftl_mul_pow2, lor_add by lia. change (2 ^ 8) with 256.
  change (store16 m p ?v) with (store8 (store8 m p v) (p + 1) (v / 256)). split.
  - intros k Hk. assert (k = 0 ∨ k = 1) as [-> | ->] by lia.
    + rewrite load8_store8_ne by lia. rewrite !Z.add_0_r, load8_store8_eq. zlia.
    + rewrite load8_store8_eq. zlia.
  - intros x Hx. rewrite !load8_store8_ne by lia. done.
Qed.

(** ** Register accesses *)

Section accesses.
Implicit Types (s : ata_state drive) (d : drive).

Definition port_ok d : Prop := 0 <= io d <= 0xFF00.
Definition with_dev d s : ata_state drive := mk_ata d (mem s) (ata_status s) (ata_error s).

Lemma in_status s Q : port_ok (dev s) →
  Q (status (dev s)) (with_dev (set_busy (pred (busy (dev s))) (dev s)) s) → wp (in_reg (io (dev s)) ATA_REG_STATUS) Q s.
Proof.
  intros Hp HQ. unfold in_reg, on_drive. apply wp_zoom. unfold inb, port_in, wp. cbn [bus_in drive_bus].
  unfold ATA_REG_STATUS. rewrite (wrap_small 16 (io (dev s) + 7)) by (unfold port_ok in Hp; lia).
  replace (io (dev s) + 7 - io (dev s)) with 7 by lia. cbn [Z.eqb Pos.eqb andb].
  replace (u8 (status (dev s))) with (status (dev s)); [exact HQ|].
  unfold status. destruct (busy (dev s)), (ph (dev s)), (fault (dev s)); done.
Qed.

Lemma in_error s Q : port_ok (dev s) → Q 4 s → wp (in_reg (io (dev s)) ATA_REG_ERROR) Q s.
Proof.
  intros Hp HQ. unfold in_reg, on_drive. apply wp_zoom. unfold inb, port_in, wp. cbn [bus_in drive_bus].
  unfold ATA_REG_ERROR. rewrite (wrap_small 16 (io (dev s) + 1)) by (unfold port_ok in Hp; lia).
  replace (io (dev s) + 1 - io (dev s)) with 1 by lia. cbn [Z.eqb Pos.eqb andb]. by destruct s.
Qed.

Lemma out_reg_spec s r v Q : port_ok (dev s) → 1 <= r <= 7 → Q tt (with_dev (reg_out r (u8 v) (dev s)) s) →
  wp (out_reg (io (dev s)) r v) Q s.
Proof.
  intros Hp Hr HQ. unfold out_reg, on_drive. apply wp_zoom. unfold outb, port_out, wp, modify. cbn [bus_out drive_bus].
  rewrite (wrap_small 16 (io (dev s) + r)) by (unfold port_ok in Hp; lia).
  replace (io (dev s) + r - io (dev s)) with r by lia. rewrite (proj2 (Z.eqb_neq r 0)) by lia.
  rewrite (proj2 (Z.leb_le 0 r)), (proj2 (Z.leb_le r 7)) by lia. exact HQ.
Qed.

Lemma data_in_spec s Q : port_ok (dev s) →
  Q (u16 (data_in (dev s)).1) (with_dev (data_in (dev s)).2 s) →
  wp (on_drive (inw (u16 (io (dev s) + ATA_REG_DATA)))) Q s.
Proof.
  intros Hp HQ. unfold on_drive. apply wp_zoom. unfold inw, port_in, wp. cbn [bus_in drive_bus].
  unfold ATA_REG_DATA. rewrite (wrap_small 16 (io (dev s) + 0)) by (unfold port_ok in Hp; lia).
  replace (io (dev s) + 0 - io (dev s)) with 0 by lia. cbn [Z.eqb andb]. change (16 =? 16) with true. cbn [andb].
  destruct (data_in (dev s)) as [v d]. exact HQ.
Qed.

Lemma data_out_spec s v Q : port_ok (dev s) → Q tt (with_dev (data_out (u16 v) (dev s)) s) →
  wp (on_drive (outw (u16 (io (dev s) + ATA_REG_DATA)) v)) Q s.
Proof.
  intros Hp HQ. unfold on_drive. apply wp_zoom. unfold outw, port_out, wp, modify. cbn [bus_out drive_bus].
  unfold ATA_REG_DATA. rewrite (wrap_small 16 (io (dev s) + 0)) by (unfold port_ok in Hp; lia).
  replace (io (dev s) + 0 - io (dev s)) with 0 by lia. exact HQ.
Qed.

(** Waiting: the polls run the busy counter down. *)
Definition wants_data (d : drive) : bool := match ph d with Idle => false | _ => true end.

Lemma wait_loop_spec n drq s Q : port_ok (dev s) → fault (dev s) = false → (busy (dev s) < n)%nat →
  (drq = true → wants_data (dev s) = true) →
  (∀ st, Q 0 (mk_ata (set_busy 0 (dev s)) (mem s) st (ata_error s))) → wp (wait_loop n (io (dev s)) drq) Q s.
Proof.
  revert s. induction n as [|n IH]; intros s Hp Hf Hb Hd HQ; [lia|]. cbn [wait_loop].
  apply wp_bind, in_status; [done|]. cbv beta. apply wp_bind, wp_modify.
  unfold status. destruct (busy (dev s)) as [|b] eqn:Eb.
  - rewrite Hf. assert ((drq = true → wants_data (dev s) = true) ∧ (set_busy 0 (dev s) = set_busy (pred 0) (dev s))) as [Hd' E] by done.
    specialize (HQ). unfold wants_data in Hd'.
    destruct (ph (dev s)); destruct drq; try (by specialize (Hd' eq_refl)); apply wp_ret, HQ.
  - cbn [pred]. change (truthy (Z.land 128 1)) with false. change (truthy (Z.land 128 128)) with true. cbn [negb andb].
    specialize (IH (mk_ata (set_busy b (dev s)) (mem s) 128 (ata_error s))). apply IH; try done; cbn; lia.
Qed.

Lemma wait_ready_spec drq s Q : port_ok (dev s) → fault (dev s) = false → (busy (dev s) < Z.to_nat 100000)%nat →
  (drq = true → wants_data (dev s) = true) →
  (∀ st, Q 0 (mk_ata (set_busy 0 (dev s)) (mem s) st (ata_error s))) → wp (ata_wait_ready (io (dev s)) drq) Q s.
Proof. apply wait_loop_spec. Qed.

Lemma wait_loop_busy n drq s Q : port_ok (dev s) → (n <= busy (dev s))%nat →
  (∀ st, Q (-1) (mk_ata (set_busy (busy (dev s) - n) (dev s)) (mem s) st (ata_error s))) → wp (wait_loop n (io (dev s)) drq) Q s.
Proof.
  revert s. induction n as [|n IH]; intros s Hp Hb HQ; cbn [wait_loop].
  - apply wp_ret. specialize (HQ (ata_status s)). rewrite Nat.sub_0_r in HQ. by destruct s as [[] ? ? ?].
  - apply wp_bind, in_status; [done|]. cbv beta. apply wp_bind, wp_modify.
    unfold status. destruct (busy (dev s)) as [|b] eqn:Eb; [lia|]. cbn [pred].
    change (truthy (Z.land 128 1)) with false. change (truthy (Z.land 128 128)) with true. cbn [negb andb].
    specialize (IH (mk_ata (set_busy b (dev s)) (mem s) 128 (ata_error s))). apply IH; cbn; [done|lia|].
    intros st. apply HQ.
Qed.

Lemma wait_ready_fault drq s Q : port_ok (dev s) → busy (dev s) = O → fault (dev s) = true →
  (∀ st, Q (-2) (mk_ata (set_busy 0 (dev s)) (mem s) st 4)) → wp (ata_wait_ready (io (dev s)) drq) Q s.
Proof.
  intros Hp Hb Hf HQ. unfold ata_wait_ready. assert (∃ n, Z.to_nat 100000 = S n) as [n ->] by (exists (Z.to_nat 99999); lia).
  cbn [wait_loop]. apply wp_bind, in_status; [done|]. cbv beta. apply wp_bind, wp_modify. rewrite Hb. cbn [pred].
  assert (truthy (Z.land (status (dev s)) 1) = true) as ->.
  { unfold status. rewrite Hb, Hf. by destruct (ph (dev s)). }
  apply wp_bind. apply (in_error (mk_ata (set_busy 0 (dev s)) (mem s) (status (dev s)) (ata_error s))); [done|].
  apply wp_bind, wp_modify, wp_ret, HQ.
Qed.
End accesses.

(** ** Transfers *)

Section transfers.
Implicit Types (s : ata_state drive) (d : drive).

(** What a transfer leaves: the drive [d], the memory in relation [R]. *)
Definition now d (R : gmap Z Z → Prop) (s' : ata_state drive) : Prop := dev s' = d ∧ R (mem s').

Definition after_in d blk src pos rest : drive :=
  if rest =? 0 then set_ph Idle d else set_busy (latency d) (set_ph (DataIn blk src pos rest) d).
Definition after_out d pos rest : drive :=
  if rest =? 0 then start Idle d else set_busy (latency d) (set_ph (DataOut pos rest) d).

Lemma set_ph_ph p q d : set_ph p (set_ph q d) = set_ph p d.
Proof. done. Qed.

Lemma mid_block blk q (n : nat) : 0 <= q → (1 <= n)%nat → 2 * Z.of_nat n < blk → (q * blk + 2 * Z.of_nat n) mod blk ≠ 0.
Proof. intros. rewrite Z.add_comm, Z.mod_add, Z.mod_small by lia. lia. Qed.

Lemma read_words_spec blk n s a src pos q Q : port_ok (dev s) → busy (dev s) = O →
  (1 <= n)%nat → 2 * Z.of_nat n <= blk → 0 <= q → ph (dev s) = DataIn blk src pos (q * blk + 2 * Z.of_nat n) →
  (∀ s', now (after_in (dev s) blk src (pos + 2 * Z.of_nat n) (q * blk)) (λ m', copied (mem s) m' a src pos (2 * Z.of_nat n)) s' →
     Q tt s') →
  wp (read_words n (io (dev s)) a) Q s.
Proof.
  revert s a pos. induction n as [|n IH]; intros s a pos Hp Hb Hn Hle Hq Hph HQ; [lia|]. cbn [read_words].
  assert (data_in (dev s) = (load16 src pos, moved blk (DataIn blk src (pos + 2) (q * blk + 2 * Z.of_nat (S n) - 2))
    (q * blk + 2 * Z.of_nat (S n) - 2) (dev s))) as Ed by (unfold data_in; by rewrite Hb, Hph).
  apply wp_bind, data_in_spec; [done|]. cbv beta. rewrite Ed. cbn [fst snd].
  rewrite (wrap_small 16 (load16 src pos)) by (pose proof (loadn_range 2 src pos); done).
  apply wp_bind, wp_modify. replace (q * blk + 2 * Z.of_nat (S n) - 2) with (q * blk + 2 * Z.of_nat n) by lia.
  destruct n as [|n].
  - replace (q * blk + 2 * Z.of_nat 0) with (q * blk) by lia. apply wp_ret, HQ. split; [|apply copied_word].
    cbn [dev with_dev]. unfold moved, after_in. change (2 * Z.of_nat 1) with 2. by rewrite Z.mod_mul by lia.
  - set (k := S n) in *. assert (moved blk (DataIn blk src (pos + 2) (q * blk + 2 * Z.of_nat k)) (q * blk + 2 * Z.of_nat k) (dev s) =
      set_ph (DataIn blk src (pos + 2) (q * blk + 2 * Z.of_nat k)) (dev s)) as ->.
    { unfold moved. pose proof (mid_block blk q k).
      destruct (Z.eqb_spec (q * blk + 2 * Z.of_nat k) 0); [nia|].
      by destruct (Z.eqb_spec ((q * blk + 2 * Z.of_nat k) mod blk) 0); [lia|]. }
    match goal with |- wp _ _ ?t => apply (IH t (a + 2) (pos + 2)) end; try done; try lia.
    intros s' [Hd Hc]. apply HQ. split.
    + rewrite Hd. cbn [dev with_dev]. replace (pos + 2 + 2 * Z.of_nat k) with (pos + 2 * Z.of_nat (S k)) by lia.
      unfold after_in. by destruct (q * blk =? 0).
    + replace (2 * Z.of_nat (S k)) with (2 + 2 * Z.of_nat k) by lia.
      eapply copied_app; [lia|lia|apply copied_word|exact Hc].
Qed.

Lemma write_words_spec n s a pos q Q : port_ok (dev s) → busy (dev s) = O →
  (1 <= n)%nat → 2 * Z.of_nat n <= block → 0 <= q → ph (dev s) = DataOut pos (q * block + 2 * Z.of_nat n) →
  (∀ s' c, now (after_out (set_cache c (dev s)) (pos + 2 * Z.of_nat n) (q * block)) (eq (mem s)) s' →
     copied (cache (dev s)) c pos (mem s) a (2 * Z.of_nat n) → Q tt s') →
  wp (write_words n (io (dev s)) a) Q s.
Proof.
  revert s a pos. induction n as [|n IH]; intros s a pos Hp Hb Hn Hle Hq Hph HQ; [lia|]. cbn [write_words].
  apply wp_bind, wp_gets. set (w := Z.lor _ _).
  assert (u16 w = w) as Hw.
  { pose proof (load8_range (mem s) a). pose proof (load8_range (mem s) (a + 1)).
    apply wrap_small. unfold w. rewrite Z.shiftl_mul_pow2, lor_add by lia. change (2 ^ 8) with 256. change (2 ^ 16) with 65536. lia. }
  apply wp_bind, data_out_spec; [done|]. cbv beta. rewrite Hw. unfold data_out at 1. rewrite Hb, Hph.
  replace (q * block + 2 * Z.of_nat (S n) - 2) with (q * block + 2 * Z.of_nat n) by lia. cbv zeta.
  set (c := store16 (cache (dev s)) pos w).
  destruct n as [|n].
  - replace (q * block + 2 * Z.of_nat 0) with (q * block) by lia. apply wp_ret, (HQ _ c); [|apply copied_store16]. split; [|done].
    cbn [dev with_dev]. unfold moved, after_out. change (2 * Z.of_nat 1) with 2. rewrite Z.mod_mul by done.
    by destruct (q * block =? 0).
  - set (k := S n) in *.
    assert (∀ x, (if q * block + 2 * Z.of_nat k =? 0 then x else
        moved block (DataOut (pos + 2) (q * block + 2 * Z.of_nat k)) (q * block + 2 * Z.of_nat k) (set_cache c (dev s))) =
      set_ph (DataOut (pos + 2) (q * block + 2 * Z.of_nat k)) (set_cache c (dev s))) as ->.
    { intros x. unfold moved. pose proof (mid_block block q k). unfold block in *.
      destruct (Z.eqb_spec (q * 512 + 2 * Z.of_nat k) 0); [lia|].
      by destruct (Z.eqb_spec ((q * 512 + 2 * Z.of_nat k) mod 512) 0); [lia|]. }
    match goal with |- wp _ _ ?t => apply (IH t (a + 2) (pos + 2)) end; try done; try lia.
    intros s' c' [Hd Hc] Hcc. apply (HQ s' c').
    + split; [|exact Hc]. rewrite Hd. cbn [dev with_dev].
      replace (pos + 2 + 2 * Z.of_nat k) with (pos + 2 * Z.of_nat (S k)) by lia.
      unfold after_out. by destruct (q * block =? 0).
    + replace (2 * Z.of_nat (S k)) with (2 + 2 * Z.of_nat k) by lia.
      eapply copied_app; [lia|lia|apply copied_store16|exact Hcc].
Qed.
End transfers.
