(* ===== verification/AtaProps.v ===== *)
(** * What the ATA driver does with a drive

    The commands of [Ata] run on the drive of [AtaDisk]: whole transfers, the
    choice between the address widths, the result codes, and what is left on
    the platter. *)

From stdpp Require Import prelude gmap list numbers tactics.
From S2P Require Import Prelude Memory Io Ata AtaDisk.

(** A working drive that answers within the driver's patience. *)
Record ready (d : drive) : Prop := {
  ready_port : port_ok d;
  ready_fault : fault d = false;
  ready_busy : (busy d < Z.to_nat 100000)%nat;
  ready_latency : (latency d < Z.to_nat 100000)%nat
}.
Definition rest_of (d : drive) : drive := set_busy 0 (set_ph Idle d).

Section sectors.
Implicit Types (s : ata_state drive).

Lemma sectors_read err blk k body n s a src pos Q : ready (dev s) → (1 <= n)%nat → 2 <= blk → 2 * Z.of_nat k = blk →
  (∀ a t, body a t = read_words k (io (dev s)) a t) → ph (dev s) = DataIn blk src pos (Z.of_nat n * blk) →
  (∀ s', now (rest_of (dev s)) (λ m', copied (mem s) m' a src pos (Z.of_nat n * blk)) s' → Q 0 s') →
  wp (sectors err body n (io (dev s)) a blk) Q s.
Proof.
  intros Hr Hn Hblk Ew Hbody.
  revert s a pos Hr Hn Hbody. induction n as [|n IH]; intros s a pos [Hp Hf Hb Hl] Hn Hbody Hph HQ; [lia|]. cbn [sectors].
  apply wp_bind, wait_ready_spec; [exact Hp|exact Hf|exact Hb|unfold wants_data; by rewrite Hph|]. intros st.
  change (truthy 0) with false. cbv iota. apply wp_bind. unfold wp at 1. rewrite Hbody.
  match goal with |- match _ _ _ _ ?t with _ => _ end => apply (read_words_spec blk k t a src pos (Z.of_nat n)) end;
    [exact Hp|done|lia|lia|lia| |]; rewrite ?Ew.
  { cbn [dev set_busy ph]. rewrite Hph. f_equal. lia. }
  intros s' [Hd Hc]. cbn [dev mem] in Hd, Hc. unfold after_in in Hd. destruct n as [|n].
  - apply wp_ret, HQ. rewrite Z.mul_1_l. split; [exact Hd|exact Hc].
  - destruct (Z.eqb_spec (Z.of_nat (S n) * blk) 0) as [Hz|_]; [nia|].
    pose proof (IH s' (a + blk) (pos + blk)) as IH'. rewrite Hd in IH'. apply IH'; [by constructor|lia|exact Hbody|done|].
    intros s2 [Hd2 Hc2]. apply HQ. split; [exact Hd2|].
    replace (Z.of_nat (S (S n)) * blk) with (blk + Z.of_nat (S n) * blk) by lia.
    eapply copied_app; [lia|nia|exact Hc|exact Hc2].
Qed.

Lemma sectors_write n s a pos Q : ready (dev s) → (1 <= n)%nat → ph (dev s) = DataOut pos (Z.of_nat n * block) →
  (∀ s' c, now (start Idle (set_cache c (dev s))) (eq (mem s)) s' →
     copied (cache (dev s)) c pos (mem s) a (Z.of_nat n * block) → Q 0 s') →
  wp (sectors (-2) (write_words (sector_words block) (io (dev s))) n (io (dev s)) a block) Q s.
Proof.
  revert s a pos. induction n as [|n IH]; intros s a pos [Hp Hf Hb Hl] Hn Hph HQ; [lia|]. cbn [sectors].
  apply wp_bind, wait_ready_spec; [exact Hp|exact Hf|exact Hb|unfold wants_data; by rewrite Hph|]. intros st.
  change (truthy 0) with false. cbv iota. apply wp_bind. change (sector_words block) with 256%nat.
  match goal with |- wp _ _ ?t => apply (write_words_spec 256 t a pos (Z.of_nat n)) end;
    [exact Hp|done|lia|unfold block; lia|lia| |].
  { cbn [dev set_busy ph]. rewrite Hph. f_equal. unfold block. lia. }
  intros s' c [Hd Hm] Hc. cbn [dev mem set_busy cache] in Hd, Hm, Hc. unfold after_out in Hd. destruct n as [|n].
  - apply wp_ret, (HQ _ c); [|exact Hc]. split; [exact Hd|exact Hm].
  - destruct (Z.eqb_spec (Z.of_nat (S n) * block) 0) as [Hz|_]; [unfold block in Hz; lia|].
    pose proof (IH s' (a + block) (pos + 512)) as IH'. rewrite Hd, <- Hm in IH'. apply IH'; [by constructor|lia|done|].
    intros s2 c2 [Hd2 Hm2] Hc2. apply (HQ s2 c2); [by split|].
    replace (Z.of_nat (S (S n)) * block) with (2 * Z.of_nat 256 + Z.of_nat (S n) * block) by (unfold block; lia).
    eapply copied_app; [lia|unfold block; lia|exact Hc|exact Hc2].
Qed.
End sectors.

(** ** The task file *)

Definition drive_bit (drive : Z) : bool := Z.odd drive.

Lemma drive_head_value drive x : 0 <= x < 16 → Z.lor (snd (ata_get_io_and_head drive)) x = 224 + (if drive_bit drive then 16 else 0) + x.
Proof.
  intros Hx. unfold ata_get_io_and_head, drive_bit. cbn [snd]. rewrite Z.lor_comm.
  rewrite <- Z.bit0_odd. change 1 with (2 ^ 0) at 1. rewrite testbit_b2z_pow2 by lia.
  destruct (Z.testbit drive 0); match goal with |- Z.lor x ?y = _ =>
    let v := eval vm_compute in (y / 2 ^ 4) in change y with (v * 2 ^ 4) end; rewrite lor_add by lia; lia.
Qed.

Lemma byte_value lba k : 0 <= k → u8 (Z.land (Z.shiftr lba k) 0xFF) = lba / 2 ^ k mod 2 ^ 8.
Proof. intros Hk. rewrite (land_field lba k 8) by done. apply wrap_small. by apply Z.mod_pos_bound. Qed.
Lemma byte_value0 lba : u8 (Z.land lba 0xFF) = lba mod 2 ^ 8.
Proof. rewrite (land_low lba 8) by done. apply wrap_small. by apply Z.mod_pos_bound. Qed.

(** The bytes of an address, joined again. *)
Lemma split_bytes lba k : 0 <= lba → 0 <= k → lba mod 2 ^ (k + 8) = lba mod 2 ^ k + lba / 2 ^ k mod 2 ^ 8 * 2 ^ k.
Proof. intros Hl Hk. rewrite Z.pow_add_r, Z.rem_mul_r by lia. lia. Qed.
Lemma lba_bytes lba : 0 <= lba < 2 ^ 48 →
  lba mod 2 ^ 8 + lba / 2 ^ 8 mod 2 ^ 8 * 2 ^ 8 + lba / 2 ^ 16 mod 2 ^ 8 * 2 ^ 16 + lba / 2 ^ 24 mod 2 ^ 8 * 2 ^ 24 +
  lba / 2 ^ 32 mod 2 ^ 8 * 2 ^ 32 + lba / 2 ^ 40 mod 2 ^ 8 * 2 ^ 40 = lba.
Proof.
  intros Hl. assert (∀ k, 0 <= k → lba mod 2 ^ (k + 8) = lba mod 2 ^ k + lba / 2 ^ k mod 2 ^ 8 * 2 ^ k) as H by (intros; apply split_bytes; lia).
  pose proof (H 8 ltac:(lia)) as H1. pose proof (H 16 ltac:(lia)) as H2. pose proof (H 24 ltac:(lia)) as H3.
  pose proof (H 32 ltac:(lia)) as H4. pose proof (H 40 ltac:(lia)) as H5. pose proof (Z.mod_small lba (2 ^ 48) Hl) as H6.
  change (8 + 8) with 16 in H1. change (16 + 8) with 24 in H2. change (24 + 8) with 32 in H3.
  change (32 + 8) with 40 in H4. change (40 + 8) with 48 in H5. rewrite <- H6 at 7. rewrite H5, H4, H3, H2, H1. lia.
Qed.

(** ** Commands *)

(** The drive after a served command: idle, the same drive. *)
Record served (d d' : drive) : Prop := {
  served_id : io d' = io d ∧ second d' = second d ∧ latency d' = latency d ∧ fault d' = fault d ∧ ident d' = ident d ∧ disc d' = disc d;
  served_idle : ph d' = Idle;
  served_busy : (busy d' <= latency d)%nat
}.
Lemma served_ready d d' : ready d → served d d' → ready d'.
Proof.
  intros [Hp Hf Hb Hl] [(E1 & E2 & E3 & E4 & _) _ Hb']. split.
  - unfold port_ok in *. by rewrite E1.
  - by rewrite E4.
  - eapply Nat.le_lt_trans; [exact Hb'|exact Hl].
  - by rewrite E3.
Qed.
Lemma served_trans d1 d2 d3 : served d1 d2 → served d2 d3 → served d1 d3.
Proof.
  intros [(A1 & A2 & A3 & A4 & A5 & A6) _ _] [(B1 & B2 & B3 & B4 & B5 & B6) Hi Hb]. split; [|done|].
  - by rewrite B1, B2, B3, B4, B5, B6.
  - by rewrite <- A3.
Qed.

Section commands.
Implicit Types (s : ata_state drive).

Definition quiet (d : drive) : Prop := port_ok d ∧ busy d = O ∧ ph d = Idle.

(** The state with other contents of the task file. *)
Definition retf (t : taskfile) s : ata_state drive := with_dev (set_tf t (dev s)) s.
Lemma retf_same s : s = retf (tf (dev s)) s.
Proof. by destruct s as [[] ? ? ?]. Qed.

Lemma out_tf s t r v Q : quiet (dev s) → 1 <= r <= 6 → Q tt (retf (tf_write r (u8 v) t) s) →
  wp (out_reg (io (dev s)) r v) Q (retf t s).
Proof.
  intros (Hp & Hb & Hi) Hr HQ. apply (out_reg_spec (retf t s)); [done|lia|]. unfold reg_out.
  change (busy (dev (retf t s))) with (busy (dev s)). change (ph (dev (retf t s))) with (ph (dev s)). rewrite Hb, Hi.
  by rewrite (proj2 (Z.eqb_neq r 7)) by lia.
Qed.
Lemma out_cmd s t v Q : quiet (dev s) → Q tt (with_dev (exec (u8 v) (set_tf t (dev s))) s) →
  wp (out_reg (io (dev s)) ATA_REG_COMMAND v) Q (retf t s).
Proof.
  intros (Hp & Hb & Hi) HQ. apply (out_reg_spec (retf t s)); [done|done|]. unfold reg_out.
  change (busy (dev (retf t s))) with (busy (dev s)). change (ph (dev (retf t s))) with (ph (dev s)). by rewrite Hb, Hi.
Qed.

Ltac reg_write Hq := apply wp_bind, (out_tf _ _ _ _ _ Hq); [done|]; cbv beta.

Definition addressed28 (hd lba count : Z) (t : taskfile) : Prop := head t = hd ∧ sc t = count ∧ lba28 t = lba.
Definition addressed48 (hd lba count : Z) (t : taskfile) : Prop := head t = hd ∧ count48 t = count ∧ lba48 t = lba.

Lemma command28_spec s hd lba count cmd Q : quiet (dev s) → 0 <= lba < 2 ^ 28 → 0 <= count < 256 →
  0 <= hd < 256 → hd mod 16 = lba / 2 ^ 24 →
  (∀ t, addressed28 hd lba count t → Q tt (with_dev (exec (u8 cmd) (set_tf t (dev s))) s)) →
  wp (command28 (io (dev s)) hd lba count cmd) Q s.
Proof.
  intros Hq Hl Hc Hh Hhd HQ. unfold command28, ATA_REG_DRIVE_HEAD, ATA_REG_SECCOUNT, ATA_REG_LBA_LOW, ATA_REG_LBA_MID, ATA_REG_LBA_HIGH.
  rewrite (retf_same s) at 2. do 5 reg_write Hq. apply (out_cmd _ _ _ _ Hq).
  apply HQ. unfold addressed28, lba28. lazy beta iota zeta delta [tf_write head sc low mid high].
  rewrite !byte_value, byte_value0 by done. rewrite (wrap_small 8 hd), (wrap_small 8 count) by lia. split; [done|]. split; [done|].
  pose proof (lba_bytes lba ltac:(lia)) as HL. assert (lba / 2 ^ 24 mod 2 ^ 8 = lba / 2 ^ 24) as E by (apply Z.mod_small; zlia).
  assert (lba / 2 ^ 32 = 0) as E1 by (apply Z.div_small; lia). assert (lba / 2 ^ 40 = 0) as E2 by (apply Z.div_small; lia).
  rewrite E1, E2, E in HL. change (0 mod 2 ^ 8) with 0 in HL. rewrite Hhd. lia.
Qed.

Lemma write_48bit_lba_spec s lba count Q : quiet (dev s) → 0 <= lba < 2 ^ 48 → 1 <= count < 65536 →
  (∀ t, addressed48 (head (tf (dev s))) lba count t → Q tt (retf t s)) →
  wp (ata_write_48bit_lba (io (dev s)) lba count) Q s.
Proof.
  intros Hq Hl Hc HQ. unfold ata_write_48bit_lba, ATA_REG_SECCOUNT, ATA_REG_LBA_LOW, ATA_REG_LBA_MID, ATA_REG_LBA_HIGH.
  rewrite (retf_same s) at 2. do 7 reg_write Hq. apply (out_tf _ _ _ _ _ Hq); [done|].
  apply HQ. unfold addressed48, lba48, count48. lazy beta iota delta [tf_write head sc low mid high sc' low' mid' high'].
  rewrite !byte_value, !byte_value0 by done. split; [done|]. split; [|exact (lba_bytes lba Hl)].
  assert (count mod 2 ^ 8 + count / 2 ^ 8 mod 2 ^ 8 * 2 ^ 8 = count) as ->.
  { rewrite (Z.mod_small (count / 2 ^ 8)) by zlia. zlia. }
  cbv zeta. by rewrite (proj2 (Z.eqb_neq count 0)) by lia.
Qed.

Lemma select_drive_spec s hd Q : quiet (dev s) → 0 <= hd < 256 →
  (∀ t, head t = hd → Q tt (retf t s)) → wp (select_drive (io (dev s)) hd) Q s.
Proof.
  intros Hq Hh HQ. unfold select_drive, ATA_REG_DRIVE_HEAD. rewrite (retf_same s) at 2. reg_write Hq.
  assert (∀ t R, R (status (dev s)) (retf t s) → wp (in_reg (io (dev s)) ATA_REG_STATUS) R (retf t s)) as Hst.
  { intros t R HR. destruct Hq as (Hp & Hb & Hi). apply (in_status (retf t s)); [done|].
    change (busy (dev (retf t s))) with (busy (dev s)). rewrite Hb. cbn [pred].
    replace (with_dev (set_busy 0 (dev (retf t s))) (retf t s)) with (retf t s); [exact HR|].
    unfold retf, with_dev, set_tf, set_busy. cbn. by rewrite Hb. }
  do 4 apply wp_bind, Hst. apply wp_ret, HQ. cbn [tf_write head]. by apply wrap_small.
Qed.
End commands.

(** ** Reading and writing *)

Lemma bit_value a n b : 0 <= n → a / 2 ^ n mod 2 = Z.b2z b → Z.testbit a n = b.
Proof. intros Hn H. rewrite <- Z.testbit_spec' in H by done. by destruct (Z.testbit a n), b. Qed.

Definition head_byte (drive x : Z) : Z := 224 + (if drive_bit drive then 16 else 0) + x.
Lemma head_byte_bits drive x : 0 <= x < 16 →
  0 <= head_byte drive x < 256 ∧ head_byte drive x mod 16 = x ∧
  Z.testbit (head_byte drive x) 4 = drive_bit drive ∧ Z.testbit (head_byte drive x) 6 = true.
Proof.
  intros Hx. unfold head_byte. split; [destruct (drive_bit drive); lia|].
  split; [destruct (drive_bit drive); zlia|].
  split; apply bit_value; try lia; destruct (drive_bit drive); cbn [Z.b2z]; change (2 ^ 4) with 16; change (2 ^ 6) with 64; zlia.
Qed.
Lemma head48 drive : Z.lor (snd (ata_get_io_and_head drive)) 0x40 = head_byte drive 0.
Proof.
  pose proof (drive_head_value drive 0 ltac:(lia)) as H. rewrite Z.lor_0_r in H. rewrite H. unfold head_byte.
  by destruct (drive_bit drive).
Qed.

(** Waiting for an idle drive. *)
Lemma wait_idle s Q : ready (dev s) → ph (dev s) = Idle →
  (∀ st, Q 0 (mk_ata (rest_of (dev s)) (mem s) st (ata_error s))) → wp (ata_wait_ready (io (dev s)) false) Q s.
Proof.
  intros [Hp Hf Hb _] Hi HQ. apply wait_ready_spec; [exact Hp|exact Hf|exact Hb|done|].
  intros st. specialize (HQ st). unfold rest_of in HQ. rewrite <- Hi in HQ. by destruct s as [[] ? ? ?].
Qed.

Record fetched (s : ata_state drive) (n buf lba : Z) (s' : ata_state drive) : Prop := {
  fetched_served : served (dev s) (dev s');
  fetched_cache : cache (dev s') = cache (dev s) ∧ platter (dev s') = platter (dev s);
  fetched_data : copied (mem s) (mem s') buf (cache (dev s)) (lba * block) (n * block)
}.

Lemma exec_addressed cmd t d drive x : 0 <= x < 16 → head t = head_byte drive x → drive_bit drive = second d → disc d = None →
  exec cmd (set_tf t d) =
    let d := set_tf t d in
    if cmd =? 0xEC then start (DataIn block (ident d) 0 block) d
    else if (cmd =? 0xE7) || (cmd =? 0xEA) then start Idle (set_platter (cache d) d)
    else if cmd =? 0x20 then start (DataIn block (cache d) (lba28 t * block) (count28 t * block)) d
    else if cmd =? 0x24 then start (DataIn block (cache d) (lba48 t * block) (count48 t * block)) d
    else if cmd =? 0x30 then start (DataOut (lba28 t * block) (count28 t * block)) d
    else if cmd =? 0x34 then start (DataOut (lba48 t * block) (count48 t * block)) d
    else d.
Proof.
  intros Hx Ht Hd Hn. unfold exec. cbn [tf set_tf second disc]. destruct (head_byte_bits drive x Hx) as (_ & _ & H4 & H6).
  by rewrite Ht, H4, H6, Hd, Hn, Bool.eqb_reflx.
Qed.

(** The data phase of a read command, from the state the command leaves. *)
Lemma read_phase s0 s n buf lba t : ready (dev s0) → 1 <= n →
  dev s = start (DataIn block (cache (dev s0)) (lba * block) (n * block)) (set_tf t (rest_of (dev s0))) → mem s = mem s0 →
  wp (read_sectors n (io (dev s0)) buf block) (λ r s', r = 0 ∧ fetched s0 n buf lba s') s.
Proof.
  intros [Hp Hf Hb Hl] Hn Hd Hm. pose proof (sectors_read (-2) block (sector_words block) (read_words (sector_words block) (io (dev s))) (Z.to_nat n) s buf (cache (dev s0)) (lba * block)) as H.
  rewrite Hd, Hm, Z2Nat.id in H by lia. apply H; [by constructor|lia|done|done|done|done|].
  intros s' [Hd' Hc]. split; [done|]. constructor; rewrite ?Hd'; [|done|exact Hc].
  constructor; [done|done|cbn; lia].
Qed.

Lemma read28_spec s drive lba count buf : ready (dev s) → ph (dev s) = Idle → drive_bit drive = second (dev s) → disc (dev s) = None →
  0 <= lba < 2 ^ 28 → 1 <= count < 256 →
  wp (read28 (io (dev s)) drive lba count buf block) (λ r s', r = 0 ∧ fetched s count buf lba s') s.
Proof.
  intros Hr Hi Hd HN Hl Hc. unfold read28. rewrite (proj2 (Z.leb_gt _ _)) by lia.
  assert (Z.land (Z.shiftr lba 24) 15 = lba / 2 ^ 24) as Ex by (rewrite (land_field lba 24 4) by done; apply Z.mod_small; zlia).
  assert (0 <= lba / 2 ^ 24 < 16) as Hx by zlia.
  cbv zeta. rewrite Ex, drive_head_value by done. change (224 + _ + _) with (head_byte drive (lba / 2 ^ 24)).
  apply wp_bind, wait_idle; [done|done|]. intros st. change (truthy 0) with false. cbv iota.
  destruct (head_byte_bits drive (lba / 2 ^ 24) Hx) as (Hh & Hm & _).
  set (s1 := mk_ata _ _ _ _). apply wp_bind. apply (command28_spec s1); [by destruct Hr|done|lia|done|done|].
  intros t (Ht & Hs & Ha). change (u8 ATA_CMD_READ_SECTORS) with 0x20. rewrite (exec_addressed 0x20 t (dev s1) drive _ Hx Ht Hd HN).
  cbv zeta. cbn [Z.eqb Pos.eqb orb]. apply (read_phase s _ count buf lba t); [done|lia| |done].
  cbn [dev with_dev]. unfold count28. rewrite Ha, Hs, (proj2 (Z.eqb_neq count 0)) by lia. done.
Qed.

Lemma read48_spec s drive lba count buf : ready (dev s) → ph (dev s) = Idle → drive_bit drive = second (dev s) → disc (dev s) = None →
  0 <= lba < 2 ^ 48 → 1 <= count < 65536 →
  wp (read48 (io (dev s)) drive lba count buf block) (λ r s', r = 0 ∧ fetched s count buf lba s') s.
Proof.
  intros Hr Hi Hd HN Hl Hc. unfold read48. cbv zeta. rewrite head48.
  apply wp_bind, wait_idle; [done|done|]. intros st. change (truthy 0) with false. cbv iota.
  destruct (head_byte_bits drive 0 ltac:(lia)) as (Hh & _).
  set (s1 := mk_ata _ _ _ _). apply wp_bind. apply (select_drive_spec s1); [by destruct Hr|done|]. intros t1 Ht1.
  apply wp_bind. apply (write_48bit_lba_spec (retf t1 s1)); [by destruct Hr|done|done|]. intros t (Ht & Hn & Ha).
  apply wp_bind. apply (out_cmd (retf t1 s1) t); [by destruct Hr|].
  change (u8 ATA_CMD_READ_SECTORS_EXT) with 0x24. rewrite (exec_addressed 0x24 t (dev (retf t1 s1)) drive 0); [|lia|by rewrite Ht|exact Hd|exact HN].
  cbv zeta. cbn [Z.eqb Pos.eqb orb]. apply (read_phase s _ count buf lba t); [done|lia| |done].
  cbn [dev with_dev]. rewrite Ha, Hn. done.
Qed.

Lemma fetched_refl s buf lba : ready (dev s) → ph (dev s) = Idle → (busy (dev s) <= latency (dev s))%nat → fetched s 0 buf lba s.
Proof. intros Hr Hi Hb. constructor; [by constructor|done|apply copied_nil]. Qed.

Lemma fetched_app s0 s1 s2 n k buf lba : 0 <= n → 0 <= k →
  fetched s0 n buf lba s1 → fetched s1 k (buf + n * block) (lba + n) s2 → fetched s0 (n + k) buf lba s2.
Proof.
  intros Hn Hk [V1 [C1 P1] D1] [V2 [C2 P2] D2]. constructor.
  - by eapply served_trans.
  - by rewrite C2, P2.
  - rewrite C1, Z.mul_add_distr_r in D2. rewrite Z.mul_add_distr_r.
    eapply copied_app; [unfold block; lia|unfold block; lia|exact D1|exact D2].
Qed.

Lemma fetched_again s0 s1 s2 n buf lba : fetched s0 n buf lba s1 → fetched s1 n buf lba s2 → fetched s0 n buf lba s2.
Proof.
  intros [V1 [C1 P1] [_ O1]] [V2 [C2 P2] [I2 O2]]. constructor.
  - by eapply served_trans.
  - by rewrite C2, P2.
  - split; [by rewrite <- C1|]. intros x Hx. rewrite O2, O1; done.
Qed.

Lemma chunks_spec n s0 s drive i lba count buf : ready (dev s0) → drive_bit drive = second (dev s0) → disc (dev s0) = None →
  0 <= lba → 0 <= i → count < 65536 → lba + count < 2 ^ 28 → (1 <= n)%nat → count <= i + 255 * (Z.of_nat n - 1) →
  fetched s0 (Z.min i count) buf lba s →
  wp (chunks n (λ lba count buf, read28 (io (dev s0)) drive lba count buf block) i lba count buf block)
    (λ r s', r = 0 ∧ fetched s0 count buf lba s') s.
Proof.
  intros Hr Hd HN Hl Hi Hc Hlc. revert s i Hi. induction n as [|n IH]; intros s i Hi Hn Hfuel HF; [lia|]. cbn [chunks].
  destruct (Z.ltb_spec i count) as [Hlt|Hge]; [|apply wp_ret; by rewrite Z.min_r in HF by lia].
  rewrite Z.min_l in HF by lia. cbv zeta. rewrite (wrap_small 16), (wrap_small 32 (lba + i)) by lia.
  set (k := if 255 <? count - i then 255 else count - i).
  assert (1 <= k < 256 ∧ k = Z.min 255 (count - i)) as [Hk Ek] by (unfold k; destruct (Z.ltb_spec 255 (count - i)); lia).
  unfold block at 1. rewrite (wrap_small 8 k), (wrap_small 32 (i * 512)), (wrap_small 32 (i + 255)) by lia. fold block.
  destruct (fetched_served _ _ _ _ _ HF) as [(Eio & Esec & _ & _ & _ & Edisc) Hidle _]. pose proof (fetched_served _ _ _ _ _ HF) as HS.
  apply wp_bind. rewrite <- Eio. eapply wp_mono; [apply read28_spec|].
  - by eapply served_ready.
  - done.
  - by rewrite Esec.
  - by rewrite Edisc.
  - lia.
  - done.
  - intros r s1 [-> HF1]. cbv beta. change (truthy 0) with false. cbv iota. rewrite Eio. apply IH; [lia|lia|lia|].
    replace (Z.min (i + 255) count) with (i + k) by lia. eapply fetched_app; [lia|lia|exact HF|exact HF1].
Qed.

Lemma read_auto_spec s drive lba count buf : ready (dev s) → ph (dev s) = Idle → (busy (dev s) <= latency (dev s))%nat →
  drive_bit drive = second (dev s) → disc (dev s) = None → 0 <= lba < 2 ^ 48 → 1 <= count < 65536 →
  wp (read_auto (io (dev s)) drive lba count buf block) (λ r s', r = 0 ∧ fetched s count buf lba s') s.
Proof.
  intros Hr Hi Hb Hd HN Hl Hc. unfold read_auto. rewrite (wrap_small 64) by lia.
  destruct (Z.ltb_spec lba (2 ^ 28)) as [H28|H28], (Z.leb_spec count 255) as [H255|H255]; cbn [andb];
    [apply read28_spec; done || lia|..].
  all: apply wp_bind; eapply (wp_mono _ (λ r s1, r = 0 ∧ (s1 = s ∨ fetched s count buf lba s1))).
  1, 3, 5: destruct (Z.ltb_spec (lba + count) (2 ^ 28)); [|apply wp_ret; auto];
    (eapply wp_mono; [eapply (chunks_spec 259 s s)|intros r s1 [-> HF]; auto]); try done; try lia;
    rewrite Z.min_l by lia; by apply fetched_refl.
  all: intros r s1 [-> HF]; cbv beta; change (truthy 0) with false; cbv iota.
  all: destruct HF as [->|HF]; [by apply read48_spec|].
  all: destruct (fetched_served _ _ _ _ _ HF) as [(Eio & Esec & _ & _ & _ & Edisc) Hidle _]; pose proof (fetched_served _ _ _ _ _ HF) as HS.
  all: rewrite <- Eio; eapply wp_mono; [apply read48_spec; [by eapply served_ready|done|by rewrite Esec|by rewrite Edisc|done|done]|].
  all: intros r s2 [-> HF2]; (split; [done|by eapply fetched_again]).
Qed.

Record stored (s : ata_state drive) (n buf lba : Z) (s' : ata_state drive) : Prop := {
  stored_served : served (dev s) (dev s');
  stored_mem : mem s' = mem s;
  stored_data : copied (cache (dev s)) (cache (dev s')) (lba * block) (mem s) buf (n * block);
  (** the flush is only obeyed by a drive that is done within its four status reads *)
  stored_platter : platter (dev s') = if bool_decide (latency (dev s) <= 4)%nat then cache (dev s') else platter (dev s)
}.

(** Selecting a drive that may still be busy: its head register already holds
    the byte. *)
Lemma select_busy s hd Q : port_ok (dev s) → ph (dev s) = Idle → head (tf (dev s)) = hd → 0 <= hd < 256 →
  (∀ t, head t = hd → Q tt (with_dev (set_busy (busy (dev s) - 4) (set_tf t (dev s))) s)) →
  wp (select_drive (io (dev s)) hd) Q s.
Proof.
  intros Hp Hi Ht Hh HQ. unfold select_drive, ATA_REG_DRIVE_HEAD. apply wp_bind, out_reg_spec; [done|lia|]. cbv beta.
  assert (∀ k t R, R (status (set_busy k (set_tf t (dev s)))) (with_dev (set_busy (pred k) (set_tf t (dev s))) s) →
    wp (in_reg (io (dev s)) ATA_REG_STATUS) R (with_dev (set_busy k (set_tf t (dev s))) s)) as Hst.
  { intros k t R HR. by apply (in_status (with_dev (set_busy k (set_tf t (dev s))) s)). }
  assert (∃ t, head t = hd ∧ reg_out 6 (u8 hd) (dev s) = set_busy (busy (dev s)) (set_tf t (dev s))) as (t & Ht' & ->).
  { unfold reg_out. rewrite Hi. destruct (busy (dev s)) eqn:Eb.
    - exists (tf_write 6 (u8 hd) (tf (dev s))). split; [cbn [tf_write head]; by apply wrap_small|].
      cbn [Z.eqb Pos.eqb]. rewrite <- Eb. by destruct (dev s).
    - exists (tf (dev s)). split; [done|]. rewrite <- Eb. by destruct (dev s). }
  do 4 apply wp_bind, Hst. apply wp_ret. specialize (HQ t Ht').
  by replace (pred (pred (pred (pred (busy (dev s)))))) with (busy (dev s) - 4)%nat by lia.
Qed.

Lemma flush_spec cmd s drive x Q : cmd = ATA_CMD_CACHE_FLUSH ∨ cmd = ATA_CMD_CACHE_FLUSH_EXT → ready (dev s) → ph (dev s) = Idle →
  0 <= x < 16 → head (tf (dev s)) = head_byte drive x → drive_bit drive = second (dev s) → disc (dev s) = None →
  (∀ t st, Q 0 (mk_ata (rest_of (set_tf t (set_platter (if bool_decide (busy (dev s) <= 4)%nat then cache (dev s) else platter (dev s)) (dev s))))
                  (mem s) st (ata_error s))) →
  wp (flush_with cmd (io (dev s)) (head_byte drive x)) Q s.
Proof.
  intros Hcmd [Hp Hf Hb Hl] Hi Hx Ht Hd HN HQ. unfold flush_with. apply wp_bind, select_busy; [done|done|done|by apply head_byte_bits|].
  intros t Ht'. apply wp_bind.
  set (s1 := with_dev _ _). apply (out_reg_spec s1); [done|done|]. cbv beta.
  assert (reg_out ATA_REG_COMMAND (u8 cmd) (dev s1) =
    if bool_decide (busy (dev s) <= 4)%nat then start Idle (set_platter (cache (dev s)) (set_tf t (dev s)))
    else dev s1) as ->.
  { unfold reg_out. change (ph (dev s1)) with (ph (dev s)). rewrite Hi. change (busy (dev s1)) with (busy (dev s) - 4)%nat.
    case_bool_decide as Hbusy; [|by destruct (busy (dev s) - 4)%nat eqn:E; [lia|]].
    replace (busy (dev s) - 4)%nat with O by lia. cbn [Z.eqb Pos.eqb ATA_REG_COMMAND].
    change (dev s1) with (set_tf t (set_busy (busy (dev s) - 4) (dev s))).
    rewrite (exec_addressed (u8 cmd) t (set_busy (busy (dev s) - 4) (dev s)) drive x Hx Ht' Hd HN). by destruct Hcmd as [-> | ->]. }
  case_bool_decide as Hbusy.
  - set (s2 := with_dev _ _). apply (wait_ready_spec false s2); [done|done|done|done|]. intros st.
    specialize (HQ t st). unfold rest_of in HQ. exact HQ.
  - unfold with_dev at 1. apply (wait_ready_spec false s1); [done|done|cbn; lia|done|]. intros st.
    specialize (HQ t st). unfold rest_of in HQ.
    match goal with |- Q 0 ?a => match type of HQ with Q 0 ?b => replace a with b; [exact HQ|] end end.
    unfold s1, set_platter, set_busy, set_tf, set_ph, with_dev. cbn. by rewrite Hi.
Qed.

Lemma write_phase cmd s0 s drive x n buf lba t : cmd = ATA_CMD_CACHE_FLUSH ∨ cmd = ATA_CMD_CACHE_FLUSH_EXT →
  ready (dev s0) → 1 <= n → 0 <= x < 16 → head t = head_byte drive x → drive_bit drive = second (dev s0) → disc (dev s0) = None →
  dev s = start (DataOut (lba * block) (n * block)) (set_tf t (rest_of (dev s0))) → mem s = mem s0 →
  wp (r ← write_sectors n (io (dev s0)) buf block;
      if truthy r then mret r else flush_with cmd (io (dev s0)) (head_byte drive x))
    (λ r s', r = 0 ∧ stored s0 n buf lba s') s.
Proof.
  intros Hcmd [Hp Hf Hb Hl] Hn Hx Ht Hd HN Hds Hm. apply wp_bind.
  pose proof (sectors_write (Z.to_nat n) s buf (lba * block)) as H. rewrite Hds, Hm, Z2Nat.id in H by lia.
  apply H; [by constructor|lia|done|]. intros s' c [Hd' Hm'] Hc. cbv beta. change (truthy 0) with false. cbv iota.
  pose proof (flush_spec cmd s' drive x) as HF. rewrite Hd' in HF.
  apply HF; [done|by constructor|done|done|done|done|done|].
  intros t' st. split; [done|]. constructor; [by constructor; [done|done|cbn; lia]|by rewrite Hm'|exact Hc|done].
Qed.

Lemma write28_spec s drive lba count buf : ready (dev s) → ph (dev s) = Idle → drive_bit drive = second (dev s) → disc (dev s) = None →
  io (dev s) = fst (ata_get_io_and_head drive) → 0 <= lba < 2 ^ 28 → 1 <= count < 256 →
  wp (ata_write_sector_28bit lba count buf drive block) (λ r s', r = 0 ∧ stored s count buf lba s') s.
Proof.
  intros Hr Hi Hd HN Hio Hl Hc. unfold ata_write_sector_28bit. rewrite (proj2 (Z.leb_gt _ _)) by lia.
  assert (Z.land (Z.shiftr lba 24) 15 = lba / 2 ^ 24) as Ex by (rewrite (land_field lba 24 4) by done; apply Z.mod_small; zlia).
  assert (0 <= lba / 2 ^ 24 < 16) as Hx by zlia.
  rewrite (surjective_pairing (ata_get_io_and_head drive)), <- Hio.
  cbv zeta. rewrite Ex, drive_head_value by done. change (224 + _ + _) with (head_byte drive (lba / 2 ^ 24)).
  apply wp_bind, wait_idle; [done|done|]. intros st. change (truthy 0) with false. cbv iota.
  destruct (head_byte_bits drive (lba / 2 ^ 24) Hx) as (Hh & Hm & _).
  set (s1 := mk_ata _ _ _ _). apply wp_bind. apply (command28_spec s1); [by destruct Hr|done|lia|done|done|].
  intros t (Ht & Hs & Ha). change (u8 ATA_CMD_WRITE_SECTORS) with 0x30. rewrite (exec_addressed 0x30 t (dev s1) drive _ Hx Ht Hd HN).
  cbv zeta. cbn [Z.eqb Pos.eqb orb]. apply (write_phase ATA_CMD_CACHE_FLUSH s _ drive _ count buf lba t); try done; [auto|lia|].
  cbn [dev with_dev]. unfold count28. rewrite Ha, Hs, (proj2 (Z.eqb_neq count 0)) by lia. done.
Qed.

Lemma write48_spec s drive lba count buf : ready (dev s) → ph (dev s) = Idle → drive_bit drive = second (dev s) → disc (dev s) = None →
  io (dev s) = fst (ata_get_io_and_head drive) → 0 <= lba < 2 ^ 48 → 1 <= count < 65536 →
  wp (ata_write_sector_48bit lba count buf drive block) (λ r s', r = 0 ∧ stored s count buf lba s') s.
Proof.
  intros Hr Hi Hd HN Hio Hl Hc. unfold ata_write_sector_48bit.
  rewrite (surjective_pairing (ata_get_io_and_head drive)), <- Hio. cbv zeta. rewrite head48.
  apply wp_bind, wait_idle; [done|done|]. intros st. change (truthy 0) with false. cbv iota.
  destruct (head_byte_bits drive 0 ltac:(lia)) as (Hh & _).
  set (s1 := mk_ata _ _ _ _). apply wp_bind. apply (select_drive_spec s1); [by destruct Hr|done|]. intros t1 Ht1.
  apply wp_bind. apply (write_48bit_lba_spec (retf t1 s1)); [by destruct Hr|done|done|]. intros t (Ht & Hn & Ha).
  apply wp_bind. apply (out_cmd (retf t1 s1) t); [by destruct Hr|].
  change (u8 ATA_CMD_WRITE_SECTORS_EXT) with 0x34. rewrite (exec_addressed 0x34 t (dev (retf t1 s1)) drive 0); [|lia|by rewrite Ht|exact Hd|exact HN].
  cbv zeta. cbn [Z.eqb Pos.eqb orb]. apply (write_phase ATA_CMD_CACHE_FLUSH_EXT s _ drive 0 count buf lba t); try done; [auto|lia|by rewrite Ht|].
  cbn [dev with_dev]. rewrite Ha, Hn. done.
Qed.

(** ** Properties *)

(** Drive number [drive] of the driver is the device [d], at rest. *)
Record attached (number : Z) (d : drive) : Prop := {
  attached_ready : ready d;
  attached_idle : ph d = Idle ∧ (busy d <= latency d)%nat;
  attached_number : drive_bit number = second d ∧ io d = fst (ata_get_io_and_head number) ∧ disc d = None
}.
Lemma served_attached n d d' : attached n d → served d d' → attached n d'.
Proof.
  intros [Hr Hi (Hb & Hio & HN)] Hs. pose proof (served_ready _ _ Hr Hs). destruct Hs as [(E1 & E2 & E3 & _ & _ & E6) Hi' Hb'].
  constructor; [done|by rewrite E3|by rewrite E1, E2, E6].
Qed.

Lemma write_auto_spec s drive lba count buf : attached drive (dev s) → 0 <= lba < 2 ^ 48 → 1 <= count < 2 ^ 16 →
  wp (ata_write_sector_auto lba count buf drive block) (λ r s', r = 0 ∧ stored s count buf lba s') s.
Proof.
  intros [Hr [Hi Hb] (Hd & Hio & HN)] Hl Hc. unfold ata_write_sector_auto.
  destruct (Z.ltb_spec lba (2 ^ 28)), (Z.leb_spec count 255); cbn [andb]; (apply write28_spec || apply write48_spec); done || lia.
Qed.
Lemma ata_read_spec s drive lba count buf : attached drive (dev s) → 0 <= lba < 2 ^ 48 → 1 <= count < 2 ^ 16 →
  wp (ata_read_sector_auto lba count buf drive block) (λ r s', r = 0 ∧ fetched s count buf lba s') s.
Proof.
  intros [Hr [Hi Hb] (Hd & Hio & HN)] Hl Hc. unfold ata_read_sector_auto. rewrite <- Hio. by apply read_auto_spec.
Qed.

(** reading sectors works in every address range, whichever mixture of 28-bit
    and 48-bit commands it takes: from a drive that answers in time the buffer
    receives exactly the bytes of [count] sectors from [lba] on, no other byte of
    memory and no byte of the disk changes, and the drive is left at rest. *)
Theorem ata_read_correct s drive lba count buf : attached drive (dev s) → 0 <= lba < 2 ^ 48 → 1 <= count < 2 ^ 16 →
  wp (ata_read_sector_auto lba count buf drive block) (λ r s', r = 0 ∧ attached drive (dev s') ∧
    cache (dev s') = cache (dev s) ∧ platter (dev s') = platter (dev s) ∧
    (∀ k, 0 <= k < count * block → load8 (mem s') (buf + k) = load8 (cache (dev s)) (lba * block + k)) ∧
    (∀ a, ¬ buf <= a < buf + count * block → load8 (mem s') a = load8 (mem s) a)) s.
Proof.
  intros Ha Hl Hc. eapply wp_mono; [by apply ata_read_spec|].
  intros r s' [-> [Hs [C P] [D O]]]. split; [done|]. split; [by eapply served_attached|]. done.
Qed.

(** C17: what is written is read back: after [ata_write_sector_auto] byte [k] of
    the sectors from [lba] on is byte [k] of the buffer (the drive takes the low
    byte of each word of its data register first), every other byte of the disk
    is unchanged, and
    [ata_read_sector_auto] of the same sectors returns the buffer's bytes, at any
    place and in any address range.  The data is on the platter provided the
    drive is done with the last sector within the four status reads that precede
    the flush command; otherwise the command is lost and nothing reports it. *)
Theorem ata_write_read_roundtrip s drive lba count buf buf' : attached drive (dev s) → 0 <= lba < 2 ^ 48 → 1 <= count < 2 ^ 16 →
  wp (r ← ata_write_sector_auto lba count buf drive block;
      d ← gets dev;
      r' ← ata_read_sector_auto lba count buf' drive block;
      mret (r, d, r')) (λ '(r, d, r') s', r = 0 ∧ r' = 0 ∧
    (∀ k, 0 <= k < count * block → load8 (cache d) (lba * block + k) = load8 (mem s) (buf + k)) ∧
    (∀ k, 0 <= k < count * block → load8 (mem s') (buf' + k) = load8 (mem s) (buf + k)) ∧
    (∀ x, ¬ lba * block <= x < (lba + count) * block → load8 (cache d) x = load8 (cache (dev s)) x) ∧
    platter d = (if bool_decide (latency (dev s) <= 4)%nat then cache d else platter (dev s)) ∧
    attached drive (dev s')) s.
Proof.
  intros Ha Hl Hc. apply wp_bind. eapply wp_mono; [by apply write_auto_spec|].
  intros r s1 [-> [Hs Hm [D O] HP]]. apply wp_bind, wp_gets, wp_bind.
  pose proof (served_attached _ _ _ Ha Hs) as Ha1.
  eapply wp_mono; [by apply (ata_read_spec s1)|]. intros r' s2 [-> [Hs2 _ [D2 _]]]. apply wp_ret.
  split; [done|]. split; [done|]. split; [exact D|]. split; [|split; [|split]].
  - intros k Hk. rewrite D2 by done. by apply D.
  - intros x Hx. apply O. rewrite <- Z.mul_add_distr_r. done.
  - exact HP.
  - by eapply served_attached.
Qed.

(** the failures are reported and leave everything alone: an address beyond
    28 bits is refused with -3 before any access, a drive that stays busy for
    the 100000 polls gives -1 and has received no command, and a drive in an
    error state gives -1 with its error register kept in [ata_error]. *)
Theorem ata_read_errors s drive lba count buf : port_ok (dev s) → io (dev s) = fst (ata_get_io_and_head drive) →
  let read := ata_read_sector_28bit lba count buf drive block in
  (2 ^ 28 <= lba → wp read (λ r s', r = -3 ∧ s' = s) s) ∧
  (lba < 2 ^ 28 → (Z.to_nat 100000 <= busy (dev s))%nat → wp read (λ r s',
    r = -1 ∧ mem s' = mem s ∧ dev s' = set_busy (busy (dev s) - Z.to_nat 100000) (dev s)) s) ∧
  (lba < 2 ^ 28 → busy (dev s) = O → fault (dev s) = true → wp read (λ r s',
    r = -1 ∧ mem s' = mem s ∧ dev s' = dev s ∧ ata_error s' = 4) s).
Proof.
  intros Hp Hio. cbv zeta. unfold ata_read_sector_28bit, read28. rewrite <- Hio. split; [|split].
  - intros H28. rewrite (proj2 (Z.leb_le _ _)) by lia. by apply wp_ret.
  - intros H28 Hb. rewrite (proj2 (Z.leb_gt _ _)) by lia. apply wp_bind, wait_loop_busy; [done|done|].
    intros st. change (truthy (-1)) with true. by apply wp_ret.
  - intros H28 Hb Hf. rewrite (proj2 (Z.leb_gt _ _)) by lia. apply wp_bind, wait_ready_fault; [done|done|done|].
    intros st. change (truthy (-2)) with true. apply wp_ret. repeat split. cbn [dev]. rewrite <- Hb. by destruct (dev s).
Qed.

(** ** A disk to try them on *)

Definition mem_of (l : list (Z * Z)) : gmap Z Z := list_to_map l.
Definition disk_demo : drive :=
  mk_drive ATA_PRIMARY_IO false 2 false (mem_of [(0, 0x40)]) None 0 (mk_tf 0 0 0 0 0 0 0 0 0) Idle
    (mem_of [(5 * 512, 0x55); (9 * 512, 0x99)]) (mem_of [(5 * 512, 0x55); (9 * 512, 0x99)]).
Definition ata_demo : ata_state drive := mk_ata disk_demo (mem_of [(0x1000, 0xAB)]) 0 0.
Lemma ata_demo_attached : attached 0 (dev ata_demo).
Proof.
  constructor; [|split; [done|]|done].
  - constructor; [unfold port_ok; change (io (dev ata_demo)) with 0x1F0; lia|done| |]; change (dev ata_demo) with disk_demo; cbn [busy latency disk_demo]; lia.
  - change (dev ata_demo) with disk_demo. cbn [busy latency disk_demo]. lia.
Qed.

(** a request for no sectors is not a no-op: the drive reads it as 256 and
    is left in its data phase, so the next request, for another sector, is
    answered with the data of the first. *)
Theorem ata_zero_sectors_desynchronises :
  wp (r ← ata_read_sector_28bit 5 0 0x1000 0 block;
      r' ← ata_read_sector_28bit 9 1 0x2000 0 block;
      mret (r, r')) (λ r s', r = (0, 0) ∧ load8 (mem s') 0x2000 = 0x55 ∧ load8 (cache (dev s')) (9 * 512) = 0x99) ata_demo.
Proof. vm_compute. repeat split. Qed.

(** ** Witnesses *)

Lemma ata_read_correct_witness : wp (ata_read_sector_auto 5 1 0x1000 0 block) (λ r s', load8 (mem s') 0x1000 = 0x55) ata_demo.
Proof.
  eapply wp_mono; [apply (ata_read_correct ata_demo 0 5 1 0x1000 ata_demo_attached); done|].
  intros r s' (_ & _ & _ & _ & H & _). specialize (H 0 ltac:(done)). exact H.
Defined.

Lemma ata_write_read_roundtrip_witness :
  wp (r ← ata_write_sector_auto (2 ^ 30) 1 0x1000 0 block; d ← gets dev;
      r' ← ata_read_sector_auto (2 ^ 30) 1 0x8000 0 block; mret (r, d, r')) (λ '(r, d, r') s',
    load8 (platter d) (2 ^ 30 * 512) = 0xAB ∧ load8 (mem s') 0x8000 = 0xAB ∧ platter d = cache d) ata_demo.
Proof.
  eapply wp_mono; [apply (ata_write_read_roundtrip ata_demo 0 (2 ^ 30) 1 0x1000 0x8000 ata_demo_attached); done|].
  intros [[r d] r'] s' (_ & _ & HD & H & _ & HP & _). change (bool_decide _) with true in HP. cbv iota in HP. rewrite HP.
  split; [exact (HD 0 ltac:(done))|]. split; [exact (H 0 ltac:(done))|done].
Defined.

Lemma ata_read_errors_witness : wp (ata_read_sector_28bit (2 ^ 28) 1 0x1000 0 block) (λ r s', r = -3 ∧ s' = ata_demo) ata_demo.
Proof. apply (ata_read_errors ata_demo 0 (2 ^ 28) 1 0x1000); done. Defined.
