(* ===== verification/Atapi.v ===== *)
(** * ATAPI packet devices ([drivers/storage/atapi.c], [includes/atapi.h], [includes/scsi.h])

    The packet commands of the optical drives over the ATA register accesses of
    [Ata], and what they do with the packet device of [AtaDisk].  As in [Ata],
    a [_manual] variant is the plain one at another base port; READ CAPACITY is
    the exception, whose [_manual] variant lacks a wait. *)

From stdpp Require Import prelude gmap list numbers tactics.
From S2P Require Import Prelude Memory Io Arith Ata AtaDisk AtaProps.

Definition ATAPI_CMD_PACKET : Z := 0xA0.
Definition ATAPI_CMD_IDENTIFY : Z := 0xA1.
Definition ATA_REG_FEATURES : Z := 1.

(** [read10_capabillity_buffer_t]: [last_lba], then [sector_size]. *)
Definition capability_size : Z := 8.

(** ** The packets, arrays of bytes *)

Definition clear (n : nat) (cmd : list Z) : list Z := replicate n 0 ++ drop n cmd.
Definition build_read_capacity_atapi_cmd (cmd : list Z) : list Z := <[0%nat := 0x25]> (clear 10 cmd).
Definition build_read10_atapi_cmd (cmd : list Z) (lba sector_count : Z) : list Z :=
  let cmd := <[0%nat := 0x28]> (clear 12 cmd) in
  let cmd := <[2%nat := Z.land (Z.shiftr lba 24) 0xFF]> cmd in
  let cmd := <[3%nat := Z.land (Z.shiftr lba 16) 0xFF]> cmd in
  let cmd := <[4%nat := Z.land (Z.shiftr lba 8) 0xFF]> cmd in
  let cmd := <[5%nat := Z.land lba 0xFF]> cmd in
  let cmd := <[7%nat := Z.land (Z.shiftr sector_count 8) 0xFF]> cmd in
  <[8%nat := Z.land sector_count 0xFF]> cmd.

Section atapi.
Context {D : Type} `{Bus D}.
Abbreviation A := (M (ata_state D)).

(** [rep outsw]: the first [n] words of the bytes [buf]. *)
Fixpoint outsw (n : nat) (port : Z) (buf : list Z) : M D unit :=
  match n, buf with
  | S n, b0 :: b1 :: buf => outw port (b0 + 256 * b1);; outsw n port buf
  | _, _ => mret tt
  end.

Definition atapi_registers (io_base mid high cmd : Z) : A unit :=
  out_reg io_base ATA_REG_FEATURES 0;;
  out_reg io_base ATA_REG_SECCOUNT 0;;
  out_reg io_base ATA_REG_LBA_LOW 0;;
  out_reg io_base ATA_REG_LBA_MID mid;;
  out_reg io_base ATA_REG_LBA_HIGH high;;
  out_reg io_base ATA_REG_COMMAND cmd.

(** From the selection of the drive to the sent packet. *)
Definition send_packet (io_base drive mid high : Z) (packet : list Z) : A Z :=
  out_reg io_base ATA_REG_DRIVE_HEAD (snd (ata_get_io_and_head drive));;
  r ← ata_wait_ready io_base false;
  if truthy r then mret (-1)
  else
    atapi_registers io_base mid high ATAPI_CMD_PACKET;;
    r ← ata_wait_ready io_base true;
    if truthy r then
      st ← in_reg io_base ATA_REG_STATUS; set_ata_status st;;
      e ← in_reg io_base ATA_REG_ERROR; set_ata_error e;;
      mret (-2)
    else
      on_drive (outsw 6 (u16 (io_base + ATA_REG_DATA)) packet);;
      mret 0.

(** [for (i = 0; i < sector_size / 2; i++)] of sector [s], whose index into the
    word array is a 32-bit number. *)
Fixpoint indexed_words (n : nat) (io_base buf base i : Z) : A unit :=
  match n with
  | O => mret tt
  | S n =>
    word ← on_drive (inw (u16 (io_base + ATA_REG_DATA)));
    set_memory (λ m, store16 m (buf + 2 * u32 (base + i)) word);;
    indexed_words n io_base buf base (i + 1)
  end.
Fixpoint packet_sectors (n : nat) (io_base buf s sector_size : Z) : A Z :=
  match n with
  | O => mret 0
  | S n =>
    r ← ata_wait_ready io_base true;
    if truthy r then mret (-3)
    else
      indexed_words (Z.to_nat (sector_size / 2)) io_base buf (s * (sector_size / 2)) 0;;
      packet_sectors n io_base buf (s + 1) sector_size
  end.

Definition packet_read (io_base lba sector_count buffer drive sector_size : Z) : A Z :=
  r ← send_packet io_base drive 0 8 (build_read10_atapi_cmd (replicate 12 0) lba sector_count);
  if truthy r then mret r else packet_sectors (Z.to_nat sector_count) io_base buffer 0 sector_size.
Definition atapi_read_sector (lba sector_count buffer drive sector_size : Z) : A Z :=
  packet_read (fst (ata_get_io_and_head drive)) lba sector_count buffer drive sector_size.
Definition atapi_read_sector_manual (lba sector_count buffer drive pmio_base sector_size : Z) : A Z :=
  packet_read pmio_base lba sector_count buffer drive sector_size.

Definition ata_io_wait (io_base : Z) : A unit :=
  in_reg io_base 0x206;; in_reg io_base 0x206;; in_reg io_base 0x206;; in_reg io_base 0x206;; mret tt.

Definition packet_identify (io_base drive identify_data : Z) : A Z :=
  out_reg io_base ATA_REG_DRIVE_HEAD (snd (ata_get_io_and_head drive));;
  ata_io_wait io_base;;
  atapi_registers io_base 0 0 ATAPI_CMD_IDENTIFY;;
  r ← ata_wait_ready io_base true;
  if truthy r then mret (-1) else read_array 256 io_base identify_data;; mret 0.
Definition identify_atapi (drive identify_data : Z) : A Z :=
  packet_identify (fst (ata_get_io_and_head drive)) drive identify_data.
Definition identify_atapi_manual (drive identify_data pmio_base : Z) : A Z :=
  packet_identify pmio_base drive identify_data.

(** READ CAPACITY; the answer's two fields are byte-swapped in place. *)
Definition swap_fields (buffer : Z) : A unit :=
  set_memory (λ m, store32 m (buffer + 4) (be32toh (load32 m (buffer + 4))));;
  set_memory (λ m, store32 m buffer (be32toh (load32 m buffer))).
Definition send_capacity (io_base drive : Z) : A Z :=
  send_packet io_base drive (Z.land capability_size 0xFF) (Z.land (Z.shiftr capability_size 8) 0xFF)
    (build_read_capacity_atapi_cmd (replicate 12 0)).
Definition identify_atapi_useful (buffer drive : Z) : A Z :=
  let io_base := fst (ata_get_io_and_head drive) in
  r ← send_capacity io_base drive;
  if truthy r then mret r
  else
    r ← ata_wait_ready io_base true;
    if truthy r then mret (-3)
    else
      read_array (Z.to_nat (capability_size / 2)) io_base buffer;;
      swap_fields buffer;;
      mret 0.
Definition identify_atapi_useful_manual (buffer drive pmio_base : Z) : A Z :=
  r ← send_capacity pmio_base drive;
  if truthy r then mret r
  else
    read_array (Z.to_nat (capability_size / 2)) pmio_base buffer;;
    swap_fields buffer;;
    mret 0.
End atapi.

(** ** The packet phase of the device *)

Definition byte (b : Z) : Prop := 0 <= b < 256.

Section packets.
Implicit Types (s : ata_state drive) (d : drive).

Lemma packet_word d limit got b0 b1 (Q : unit → drive → Prop) : port_ok d → busy d = O → ph d = Packet limit got → byte b0 → byte b1 →
  Q tt (let got := got ++ [b0; b1] in if (length got =? 12)%nat then exec_packet limit got d else set_ph (Packet limit got) d) →
  wp (outw (u16 (io d + ATA_REG_DATA)) (b0 + 256 * b1)) Q d.
Proof.
  unfold byte. intros Hp Hb Hph H0 H1 HQ. apply wp_modify. cbn [bus_out drive_bus].
  rewrite (wrap_small 16 (io d + ATA_REG_DATA)) by (unfold port_ok, ATA_REG_DATA in *; lia).
  replace (io d + ATA_REG_DATA - io d) with 0 by (unfold ATA_REG_DATA; lia). rewrite (wrap_small 16 (b0 + 256 * b1)) by lia.
  cbn [Z.eqb andb]. change (16 =? 16) with true. cbn [andb]. cbv beta iota. unfold data_out. rewrite Hb, Hph.
  replace ((b0 + 256 * b1) mod 256) with b0 by zlia. replace ((b0 + 256 * b1) / 256 mod 256) with b1 by zlia. exact HQ.
Qed.

Lemma outsw_spec n d limit got buf (Q : unit → drive → Prop) : port_ok d → busy d = O → ph d = Packet limit got →
  Forall byte buf → length buf = (2 * S n)%nat → (length got + 2 * S n = 12)%nat →
  (∀ q, Q tt (exec_packet limit (got ++ buf) (set_ph q d))) →
  wp (outsw (S n) (u16 (io d + ATA_REG_DATA)) buf) Q d.
Proof.
  revert d got buf. induction n as [|n IH]; intros d got buf Hp Hb Hph Hbuf Hl Hg HQ;
    (destruct buf as [|b0 [|b1 buf]]; [done..|]); apply Forall_cons_iff in Hbuf as [H0 Hbuf]; apply Forall_cons_iff in Hbuf as [H1 Hbuf].
  all: apply wp_bind, (packet_word d limit got); [done..|]; cbv zeta; rewrite length_app; cbn [length].
  - destruct buf; [|done]. rewrite (proj2 (Nat.eqb_eq _ _)) by lia. apply wp_ret. specialize (HQ (ph d)). by destruct d.
  - rewrite (proj2 (Nat.eqb_neq _ _)) by lia. apply (IH (set_ph (Packet limit (got ++ [b0; b1])) d) (got ++ [b0; b1])); try done.
    + cbn [length] in Hl. lia.
    + rewrite length_app. cbn [length]. lia.
    + intros q. rewrite <- app_assoc. apply HQ.
Qed.

(** A packet device, selected or not, waiting for a command. *)
Record packet_ready (number last : Z) d : Prop := {
  packet_working : ready d;
  packet_quiet : quiet d;
  packet_number : drive_bit number = second d ∧ disc d = Some last
}.

Lemma atapi_registers_spec s mid high cmd Q : quiet (dev s) → byte mid → byte high →
  (∀ t, head t = head (tf (dev s)) → AtaDisk.mid t = mid → AtaDisk.high t = high →
     Q tt (with_dev (exec (u8 cmd) (set_tf t (dev s))) s)) →
  wp (atapi_registers (io (dev s)) mid high cmd) Q s.
Proof.
  intros Hq Hm Hh HQ. unfold atapi_registers, ATA_REG_FEATURES, ATA_REG_SECCOUNT, ATA_REG_LBA_LOW, ATA_REG_LBA_MID, ATA_REG_LBA_HIGH.
  rewrite (retf_same s) at 2. do 5 (apply wp_bind, (out_tf _ _ _ _ _ Hq); [done|]; cbv beta).
  apply (out_cmd _ _ _ _ Hq). apply HQ; [done|..]; lazy beta iota delta [tf_write AtaDisk.mid AtaDisk.high];
    apply wrap_small; exact Hm || exact Hh.
Qed.

Lemma exec_packet_cmd cmd t d number last : head t = head_byte number 0 → drive_bit number = second d → disc d = Some last →
  exec cmd (set_tf t d) =
    let d := set_tf t d in
    if cmd =? 0xA1 then start (DataIn block (ident d) 0 block) d
    else if cmd =? 0xA0 then start (Packet (AtaDisk.mid t + AtaDisk.high t * 2 ^ 8) []) d
    else d.
Proof.
  intros Ht Hd Hn. unfold exec. cbn [tf set_tf second disc]. destruct (head_byte_bits number 0 ltac:(lia)) as (_ & _ & H4 & _).
  by rewrite Ht, H4, Hd, Hn, Bool.eqb_reflx.
Qed.

Lemma drive_head0 number : snd (ata_get_io_and_head number) = head_byte number 0.
Proof. pose proof (drive_head_value number 0 ltac:(lia)) as H. rewrite Z.lor_0_r in H. exact H. Qed.

Lemma send_packet_spec s number last mid high packet Q : packet_ready number last (dev s) → byte mid → byte high →
  Forall byte packet → length packet = 12%nat →
  (∀ t q st, Q 0 (mk_ata (exec_packet (mid + high * 2 ^ 8) packet (set_ph q (set_busy 0 (set_tf t (dev s))))) (mem s) st (ata_error s))) →
  wp (send_packet (io (dev s)) number mid high packet) Q s.
Proof.
  intros [Hr Hq [Hn Hd]] Hm Hh Hp Hl HQ. unfold send_packet. rewrite drive_head0.
  destruct (head_byte_bits number 0 ltac:(lia)) as (Hb & _). unfold ATA_REG_DRIVE_HEAD.
  apply wp_bind. rewrite (retf_same s) at 2. apply (out_tf _ _ _ _ _ Hq); [done|]. set (t1 := tf_write _ _ _).
  assert (head t1 = head_byte number 0) as Ht1 by (by apply wrap_small).
  apply wp_bind, (wait_idle (retf t1 s)); [destruct Hr; by constructor|by destruct Hq as (_ & _ & ?)|].
  intros st. change (truthy 0) with false. cbv iota. set (s1 := mk_ata _ _ _ _).
  apply wp_bind, (atapi_registers_spec s1); [by destruct Hq as (? & _ & _)|done|done|].
  intros t Ht Htm Hth. change (u8 ATAPI_CMD_PACKET) with 0xA0.
  rewrite (exec_packet_cmd 0xA0 t (dev s1) number last); [|by rewrite Ht|done|done]. cbv zeta. cbn [Z.eqb Pos.eqb].
  rewrite Htm, Hth. set (s2 := with_dev _ _). destruct Hr as [Hport Hf Hbusy Hlat].
  apply wp_bind, (wait_ready_spec true s2); [done|done|exact Hlat|done|].
  intros st2. change (truthy 0) with false. cbv iota. apply wp_bind. unfold on_drive at 1. apply wp_zoom.
  match goal with |- wp _ _ ?d => apply (outsw_spec 5 d (mid + high * 2 ^ 8) [] packet); try done end.
  intros q. apply wp_ret. apply (HQ t q).
Qed.
End packets.

(** ** The data phase *)

Lemma bind_ext {S A B} (c : M S A) (k k' : A → M S B) s : (∀ a s, k a s = k' a s) → bind c k s = bind c k' s.
Proof. intros H. unfold bind. by destruct (c s) as [[a s']|]. Qed.

Lemma store_word m a v : store8 (store8 m a (Z.land v 0xFF)) (a + 1) (Z.shiftr v 8) = store16 m a v.
Proof.
  change (store16 m a v) with (store8 (store8 m a v) (a + 1) (v / 256)). unfold store8.
  rewrite Z.shiftr_div_pow2, (land_low v 8) by done. change (2 ^ 8) with 256. by rewrite Zmod_mod.
Qed.

Section data.
Context {D : Type} `{Bus D}.
Implicit Types (s : ata_state D).

Lemma read_array_words n io a s : read_array n io a s = read_words n io a s.
Proof.
  revert a s. induction n as [|n IH]; intros a s; [done|]. cbn [read_array read_words].
  apply bind_ext. intros w s1. transitivity (bind (set_memory (λ m, store16 m a w)) (λ _, read_words n io (a + 2)) s1).
  - apply bind_ext. intros _ s2. apply IH.
  - unfold bind, set_memory, modify. by rewrite store_word.
Qed.

Lemma indexed_words_eq n io buf base i s : 0 <= base + i → base + i + Z.of_nat n <= 2 ^ 32 →
  indexed_words n io buf base i s = read_words n io (buf + 2 * (base + i)) s.
Proof.
  revert i s. induction n as [|n IH]; intros i s H0 Hn; [done|]. rewrite <- read_array_words. cbn [indexed_words read_array].
  rewrite (wrap_small 32) by lia. apply bind_ext. intros w s1. apply bind_ext. intros _ s2.
  rewrite IH by lia. rewrite read_array_words. f_equal. lia.
Qed.

(** The sector loop is that of [Ata] as long as the word index fits. *)
Lemma packet_sectors_eq n io buf k i s : 0 <= k → 0 <= i → (i + Z.of_nat n) * k <= 2 ^ 32 →
  packet_sectors n io buf i (2 * k) s = sectors (-3) (read_words (Z.to_nat k) io) n io (buf + i * (2 * k)) (2 * k) s.
Proof.
  intros Hk. revert i s. induction n as [|n IH]; intros i s Hi Hn; [done|]. cbn [packet_sectors sectors].
  apply bind_ext. intros r s1. destruct (truthy r); [done|].
  replace (2 * k / 2) with k by zlia.
  transitivity (bind (read_words (Z.to_nat k) io (buf + i * (2 * k))) (λ _, packet_sectors n io buf (i + 1) (2 * k)) s1).
  - unfold bind. rewrite indexed_words_eq by nia. by replace (2 * (i * k + 0)) with (i * (2 * k)) by lia.
  - apply bind_ext. intros _ s2. rewrite IH by nia. f_equal. lia.
Qed.
End data.

(** The READ(10) packet, byte by byte, and its fields again. *)
Lemma read10_packet lba count : build_read10_atapi_cmd (replicate 12 0) lba count =
  [0x28; 0; Z.land (Z.shiftr lba 24) 0xFF; Z.land (Z.shiftr lba 16) 0xFF; Z.land (Z.shiftr lba 8) 0xFF; Z.land lba 0xFF; 0;
   Z.land (Z.shiftr count 8) 0xFF; Z.land count 0xFF; 0; 0; 0].
Proof. done. Qed.

Lemma byte_land x : byte (Z.land x 0xFF).
Proof. unfold byte. rewrite (land_low x 8) by done. by apply Z.mod_pos_bound. Qed.

Lemma read10_fields lba count : 0 <= lba < 2 ^ 32 → 0 <= count < 2 ^ 16 →
  be_bytes [Z.land (Z.shiftr lba 24) 0xFF; Z.land (Z.shiftr lba 16) 0xFF; Z.land (Z.shiftr lba 8) 0xFF; Z.land lba 0xFF] = lba ∧
  be_bytes [Z.land (Z.shiftr count 8) 0xFF; Z.land count 0xFF] = count.
Proof.
  intros Hl Hc. unfold be_bytes. cbn [foldl].
  rewrite (land_field lba 24 8), (land_field lba 16 8), (land_field lba 8 8), (land_low lba 8), (land_field count 8 8), (land_low count 8) by done.
  pose proof (lba_bytes lba ltac:(lia)) as HL. assert (lba / 2 ^ 32 = 0) as E1 by (apply Z.div_small; lia).
  assert (lba / 2 ^ 40 = 0) as E2 by (apply Z.div_small; lia). rewrite E1, E2 in HL. change (0 mod 2 ^ 8) with 0 in HL.
  split; [lia|]. change (2 ^ 8) with 256. zlia.
Qed.

(** A drive of packets after a served command. *)
Lemma packet_ready_same number last d d' : packet_ready number last d →
  io d' = io d ∧ second d' = second d ∧ latency d' = latency d ∧ fault d' = fault d ∧ disc d' = disc d →
  busy d' = O → ph d' = Idle → packet_ready number last d'.
Proof.
  intros [[Hp Hf Hb Hl] (_ & _ & _) [Hn Hd]] (E1 & E2 & E3 & E4 & E5) Hb' Hi'.
  constructor; [constructor|split; [|done]|]; unfold port_ok in *; rewrite ?E1, ?E2, ?E3, ?E4, ?E5, ?Hb'; try done. lia.
Qed.

Section reading.
Implicit Types (s : ata_state drive).

Lemma packet_read_spec s number last lba count buf : packet_ready number last (dev s) → 0 <= lba < 2 ^ 32 → 1 <= count < 2 ^ 16 →
  wp (packet_read (io (dev s)) lba count buf number disc_block) (λ r s', r = 0 ∧ packet_ready number last (dev s') ∧
    cache (dev s') = cache (dev s) ∧
    (∀ k, 0 <= k < count * disc_block → load8 (mem s') (buf + k) = load8 (cache (dev s)) (lba * disc_block + k)) ∧
    same_outside (λ a, buf <= a < buf + count * disc_block) (mem s) (mem s')) s.
Proof.
  intros Hr Hl Hc. unfold packet_read. rewrite read10_packet.
  destruct (read10_fields lba count Hl ltac:(lia)) as [EL EC].
  apply wp_bind, (send_packet_spec s number last); [done|done|done| |done|].
  { repeat constructor; (apply byte_land || done). }
  intros t q st. change (truthy 0) with false. cbv iota. unfold exec_packet.
  pose proof (proj2 (packet_number _ _ _ Hr)) as Hd. cbn [disc set_ph set_busy set_tf]. rewrite Hd, EL, EC.
  cbn [Z.eqb Pos.eqb]. rewrite (proj2 (Z.eqb_neq count 0)) by lia. change (0 + 8 * 2 ^ 8) with disc_block.
  set (s1 := mk_ata _ _ _ _). unfold wp at 1. change disc_block with (2 * 1024) at 1. rewrite packet_sectors_eq by lia.
  destruct Hr as [[Hp Hf Hb Hlat] Hq Hn] eqn:E.
  pose proof (sectors_read (-3) disc_block 1024 (read_words (Z.to_nat 1024) (io (dev s1))) (Z.to_nat count) s1 buf
    (cache (dev s)) (lba * disc_block)) as HS. rewrite Z2Nat.id in HS by lia.
  rewrite Z.mul_0_l, Z.add_0_r. apply HS; [by constructor|lia|done|done|done|done|].
  intros s' [Hd' [HI HO]]. split; [done|]. rewrite Hd'. split; [by eapply packet_ready_same|].
  split; [done|]. split; [exact HI|exact HO].
Qed.

(** C20: an optical drive that answers in time delivers exactly the [count]
    blocks of 2048 bytes from [lba] on: they fill the buffer, no other byte of
    memory and none of the disc changes, and the drive is ready for the next
    packet. *)
Theorem atapi_read_correct s number last lba count buf : packet_ready number last (dev s) →
  io (dev s) = fst (ata_get_io_and_head number) → 0 <= lba < 2 ^ 32 → 1 <= count < 2 ^ 16 →
  wp (atapi_read_sector lba count buf number disc_block) (λ r s', r = 0 ∧ packet_ready number last (dev s') ∧
    cache (dev s') = cache (dev s) ∧
    (∀ k, 0 <= k < count * disc_block → load8 (mem s') (buf + k) = load8 (cache (dev s)) (lba * disc_block + k)) ∧
    same_outside (λ a, buf <= a < buf + count * disc_block) (mem s) (mem s')) s.
Proof. intros Hr Hio. unfold atapi_read_sector. rewrite <- Hio. by apply packet_read_spec. Qed.

(** READ CAPACITY: the eight bytes of the answer. *)
Lemma map_bytes8 b0 b1 b2 b3 b4 b5 b6 b7 : Forall byte [b0; b1; b2; b3; b4; b5; b6; b7] →
  let m := map_bytes [b0; b1; b2; b3; b4; b5; b6; b7] in
  load_be 4 m 0 = be_bytes [b0; b1; b2; b3] ∧ load_be 4 m 4 = be_bytes [b4; b5; b6; b7].
Proof.
  intros HF. repeat (apply Forall_cons_iff in HF as [? HF]). cbv zeta. set (m := map_bytes _).
  assert (∀ k b, byte b → m !! k = Some b → load8 m k = b) as HL.
  { intros k b Hb Hk. unfold load8. rewrite Hk. by apply Z.mod_small. }
  unfold be_bytes. cbn [foldl]. cbn [load_be].
  repeat match goal with |- context [load8 m (?a + ?k)] => let v := eval vm_compute in (a + k) in change (a + k) with v end.
  rewrite (HL 0 b0), (HL 1 b1), (HL 2 b2), (HL 3 b3), (HL 4 b4), (HL 5 b5), (HL 6 b6), (HL 7 b7) by (done || vm_compute; reflexivity).
  cbn [Z.of_nat Pos.of_succ_nat Pos.succ]. lia.
Qed.

Lemma be_bytes_of v : 0 <= v < 2 ^ 32 → be_bytes (bytes_of 4 v) = v.
Proof.
  intros Hv. pose proof (lba_bytes v ltac:(lia)) as HL. assert (v / 2 ^ 32 = 0) as E1 by (apply Z.div_small; lia).
  assert (v / 2 ^ 40 = 0) as E2 by (apply Z.div_small; lia). rewrite E1, E2 in HL. change (0 mod 2 ^ 8) with 0 in HL.
  change (be_bytes (bytes_of 4 v)) with
    ((((0 * 256 + v / 2 ^ 24 mod 256) * 256 + v / 2 ^ 16 mod 256) * 256 + v / 2 ^ 8 mod 256) * 256 + v / 2 ^ 0 mod 256).
  change (2 ^ 8) with 256 in *. rewrite Z.pow_0_r, Z.div_1_r. lia.
Qed.
Lemma bytes_of_byte n v : Forall byte (bytes_of n v).
Proof. unfold bytes_of. apply Forall_map, Forall_true. intros k. by apply Z.mod_pos_bound. Qed.

Lemma load_be_ext n m m' a a' : (∀ i, 0 <= i < Z.of_nat n → load8 m (a + i) = load8 m' (a' + i)) → load_be n m a = load_be n m' a'.
Proof.
  revert a a'. induction n as [|n IH]; intros a a' H; [done|]. cbn [load_be]. rewrite (IH (a + 1) (a' + 1)).
  - pose proof (H 0 ltac:(lia)) as H0. rewrite !Z.add_0_r in H0. by rewrite H0.
  - intros i Hi. rewrite <- !Z.add_assoc. apply H. lia.
Qed.
Lemma load_be_range n m a : 0 <= load_be n m a < 256 ^ Z.of_nat n.
Proof.
  revert a. induction n as [|n IH]; intros a; [done|]. cbn [load_be]. specialize (IH (a + 1)). pose proof (load8_range m a).
  rewrite Nat2Z.inj_succ, Z.pow_succ_r by lia. nia.
Qed.

Lemma swap_fields_spec {D} buf (s : ata_state D) Q :
  (∀ m', load32 m' buf = load_be 4 (mem s) buf → load32 m' (buf + 4) = load_be 4 (mem s) (buf + 4) →
     same_outside (λ a, buf <= a < buf + 8) (mem s) m' → Q tt (mk_ata (dev s) m' (ata_status s) (ata_error s))) →
  wp (swap_fields buf) Q s.
Proof.
  intros HQ. unfold swap_fields, set_memory. apply wp_bind, wp_modify, wp_modify. rewrite !be32toh_bytes. cbn [mem dev ata_status ata_error].
  set (m1 := store32 _ (buf + 4) _). assert (load_be 4 m1 buf = load_be 4 (mem s) buf) as ->.
  { apply load_be_ext. intros i Hi. apply load8_storen_out. lia. }
  apply HQ.
  - rewrite loadn_storen_eq. apply Z.mod_small, load_be_range.
  - rewrite loadn_storen_ne by lia. unfold m1. rewrite loadn_storen_eq. apply Z.mod_small, load_be_range.
  - intros x Hx. cbv beta in Hx. rewrite load8_storen_out by lia. apply load8_storen_out. lia.
Qed.

(** The drive between the packet and the answer. *)
Lemma send_capacity_spec s number last Q : packet_ready number last (dev s) →
  (∀ t st, Q 0 (mk_ata (start (DataIn 8 (map_bytes (bytes_of 4 last ++ bytes_of 4 disc_block)) 0 8) (set_busy 0 (set_tf t (dev s))))
     (mem s) st (ata_error s))) →
  wp (send_capacity (io (dev s)) number) Q s.
Proof.
  intros Hr HQ. unfold send_capacity. apply (send_packet_spec s number last); [done|done|done|by repeat constructor|done|].
  intros t q st. unfold exec_packet. pose proof (proj2 (packet_number _ _ _ Hr)) as Hd. cbn [disc set_ph set_busy set_tf].
  rewrite Hd. apply (HQ t st).
Qed.

(** READ CAPACITY reports the disc: the structure at [buf] holds the last
    address and the block size in the machine's byte order, nothing else is
    written, and the drive is ready again. *)
Theorem identify_atapi_useful_correct s number last buf : packet_ready number last (dev s) →
  io (dev s) = fst (ata_get_io_and_head number) → 0 <= last < 2 ^ 32 →
  wp (identify_atapi_useful buf number) (λ r s', r = 0 ∧ packet_ready number last (dev s') ∧
    load32 (mem s') buf = last ∧ load32 (mem s') (buf + 4) = disc_block ∧
    same_outside (λ a, buf <= a < buf + capability_size) (mem s) (mem s')) s.
Proof.
  intros Hr Hio Hl. unfold identify_atapi_useful. cbv zeta. rewrite <- Hio.
  apply wp_bind, (send_capacity_spec s number last); [done|]. intros t st. change (truthy 0) with false. cbv iota.
  set (s1 := mk_ata _ _ _ _). destruct (packet_working _ _ _ Hr) as [Hp Hf Hb Hlat].
  apply wp_bind, (wait_ready_spec true s1); [done|done|exact Hlat|done|].
  intros st2. change (truthy 0) with false. cbv iota. apply wp_bind. unfold wp at 1. rewrite read_array_words.
  set (s2 := mk_ata _ _ _ _). apply (read_words_spec 8 4 s2 buf (map_bytes (bytes_of 4 last ++ bytes_of 4 disc_block)) 0 0);
    [done|done|lia|lia|done|done|].
  intros s3 [Hd3 [HI HO]]. apply wp_bind, swap_fields_spec. intros m' H0 H4 Hs. apply wp_ret.
  split; [done|]. cbn [dev mem]. split; [|split; [|split]].
  - rewrite Hd3. by eapply packet_ready_same.
  - rewrite H0, (load_be_ext 4 _ (map_bytes (bytes_of 4 last ++ bytes_of 4 disc_block)) buf 0) by (intros i Hi; by apply HI; lia).
    pose proof (bytes_of_byte 4 last) as HB. pose proof (be_bytes_of last Hl) as HE.
    destruct (map_bytes8 (last / 2 ^ 24 mod 256) (last / 2 ^ 16 mod 256) (last / 2 ^ 8 mod 256) (last / 2 ^ 0 mod 256) 0 0 8 0) as [E _].
    { repeat constructor; try done; by apply Z.mod_pos_bound. }
    etransitivity; [exact E|exact HE].
  - rewrite H4, (load_be_ext 4 _ (map_bytes (bytes_of 4 last ++ bytes_of 4 disc_block)) (buf + 4) 4).
    2: { intros i Hi. rewrite <- Z.add_assoc. apply HI. lia. }
    destruct (map_bytes8 (last / 2 ^ 24 mod 256) (last / 2 ^ 16 mod 256) (last / 2 ^ 8 mod 256) (last / 2 ^ 0 mod 256) 0 0 8 0) as [_ E].
    { repeat constructor; try done; by apply Z.mod_pos_bound. }
    exact E.
  - intros x Hx. rewrite Hs by exact Hx. by apply HO.
Qed.

(** A drive still busy answers a read of its data port with all ones. *)
Lemma read_array_busy n s a Q : port_ok (dev s) → (1 <= busy (dev s))%nat →
  (∀ m', (∀ k, 0 <= k < 2 * Z.of_nat n → load8 m' (a + k) = 0xFF) → same_outside (λ x, a <= x < a + 2 * Z.of_nat n) (mem s) m' →
     Q tt (mk_ata (dev s) m' (ata_status s) (ata_error s))) →
  wp (read_array n (io (dev s)) a) Q s.
Proof.
  revert s a. induction n as [|n IH]; intros s a Hp Hb HQ; cbn [read_array].
  { apply wp_ret. specialize (HQ (mem s)). destruct s. apply HQ; [lia|done]. }
  assert (data_in (dev s) = (0xFFFF, dev s)) as Ed by (unfold data_in; by destruct (busy (dev s)); [lia|]).
  apply wp_bind, data_in_spec; [done|]. cbv beta. rewrite Ed. cbn [fst snd]. apply wp_bind, wp_modify.
  set (s1 := mk_ata _ _ _ _). apply (IH s1); [done|done|]. intros m' HI HO. apply HQ.
  - intros k Hk. destruct (Z.lt_ge_cases k 2) as [H2|H2].
    + rewrite HO by lia. change (mem s1) with (store8 (store8 (mem s) a (u16 0xFFFF)) (a + 1) (u16 0xFFFF / 256)).
      assert (k = 0 ∨ k = 1) as [-> | ->] by lia; [|apply load8_store8_eq].
      rewrite load8_store8_ne, Z.add_0_r by lia. apply load8_store8_eq.
    + replace (a + k) with (a + 2 + (k - 2)) by lia. apply HI. lia.
  - intros x Hx. cbv beta in Hx. rewrite HO by lia. apply load8_storen_out. lia.
Qed.

(** the [_manual] variant of READ CAPACITY does not wait for the answer: on
    a drive that needs any time at all it succeeds and reports a disc of 2^32
    blocks of 2^32 - 1 bytes, whatever the disc is. *)
Theorem identify_atapi_useful_manual_no_wait s number last buf : packet_ready number last (dev s) → (1 <= latency (dev s))%nat →
  wp (identify_atapi_useful_manual buf number (io (dev s))) (λ r s', r = 0 ∧
    load32 (mem s') buf = 0xFFFFFFFF ∧ load32 (mem s') (buf + 4) = 0xFFFFFFFF) s.
Proof.
  intros Hr Hl. unfold identify_atapi_useful_manual. apply wp_bind, (send_capacity_spec s number last); [done|].
  intros t st. change (truthy 0) with false. cbv iota. set (s1 := mk_ata _ _ _ _).
  apply wp_bind, (read_array_busy _ s1); [by destruct (packet_working _ _ _ Hr)|done|]. intros m' HI _.
  change (2 * Z.of_nat (Z.to_nat (capability_size / 2))) with 8 in HI.
  apply wp_bind, swap_fields_spec. cbn [dev mem ata_status ata_error]. intros m2 H0 H4 _. apply wp_ret. split; [done|].
  assert (∀ k, 0 <= k → k + 4 <= 8 → load_be 4 m' (buf + k) = 0xFFFFFFFF) as HB.
  { intros k Hk Hk'. cbn [load_be]. rewrite <- !Z.add_assoc. by rewrite !HI by lia. }
  cbn [mem]. rewrite H0, H4, HB by lia. split; [|done]. rewrite <- (HB 0) by lia. by rewrite Z.add_0_r.
Qed.

(** IDENTIFY PACKET DEVICE copies the drive's 512 bytes into the array. *)
Theorem identify_atapi_correct s number last a : packet_ready number last (dev s) → io (dev s) = fst (ata_get_io_and_head number) →
  wp (identify_atapi number a) (λ r s', r = 0 ∧ packet_ready number last (dev s') ∧ copied (mem s) (mem s') a (ident (dev s)) 0 block) s.
Proof.
  intros Hr Hio. pose proof Hr as [[Hp Hf Hb Hlat] Hq [Hn Hd]]. unfold identify_atapi, packet_identify.
  rewrite <- Hio, drive_head0. destruct (head_byte_bits number 0 ltac:(lia)) as (Hh & _). unfold ATA_REG_DRIVE_HEAD.
  apply wp_bind. rewrite (retf_same s) at 2. apply (out_tf _ _ _ _ _ Hq); [done|]. set (t1 := tf_write _ _ _).
  assert (head t1 = head_byte number 0) as Ht1 by (by apply wrap_small).
  assert (∀ R, R 0xFF (retf t1 s) → wp (in_reg (io (dev s)) 0x206) R (retf t1 s)) as Halt.
  { intros R HR. unfold in_reg, on_drive. apply wp_zoom. unfold inb, port_in, wp. cbn [bus_in drive_bus dev retf with_dev].
    change (io (set_tf t1 (dev s))) with (io (dev s)). rewrite (wrap_small 16 (io (dev s) + 0x206)) by (rewrite Hio; unfold ata_get_io_and_head; by case_if).
    change (io (set_tf t1 (dev s))) with (io (dev s)). replace (io (dev s) + 0x206 - io (dev s)) with 0x206 by lia. exact HR. }
  apply wp_bind. unfold ata_io_wait. do 4 apply wp_bind, Halt. apply wp_ret.
  apply wp_bind, (atapi_registers_spec (retf t1 s)); [done|done|done|]. intros t Ht _ _.
  change (u8 ATAPI_CMD_IDENTIFY) with 0xA1. rewrite (exec_packet_cmd 0xA1 t (dev (retf t1 s)) number last); [|by rewrite Ht|done|done].
  cbv zeta. cbn [Z.eqb Pos.eqb]. set (s2 := with_dev _ _).
  apply wp_bind, (wait_ready_spec true s2); [done|done|exact Hlat|done|]. intros st. change (truthy 0) with false. cbv iota.
  apply wp_bind. unfold wp at 1. rewrite read_array_words. set (s3 := mk_ata _ _ _ _).
  apply (read_words_spec block 256 s3 a (ident (dev s)) 0 0); [done|done|lia|done|done|done|].
  intros s4 [Hd4 Hc]. apply wp_ret. split; [done|]. rewrite Hd4. split; [by eapply packet_ready_same|exact Hc].
Qed.
End reading.

(** ** A drive to try them on *)

Definition cd_demo : drive :=
  mk_drive ATA_SECONDARY_IO false 1 false (mem_of [(0, 0x80); (1, 0x85)]) (Some 1000) 0 (mk_tf 0 0 0 0 0 0 0 0 0) Idle
    (mem_of [(16 * 2048 + 1, 0x43)]) ∅.
Definition atapi_demo : ata_state drive := mk_ata cd_demo ∅ 0 0.
Lemma cd_ready : packet_ready 2 1000 (dev atapi_demo).
Proof.
  constructor; [|split; [|done]|done]; [|unfold port_ok; change (io (dev atapi_demo)) with 0x170; lia].
  constructor; [unfold port_ok; change (io (dev atapi_demo)) with 0x170; lia|done| |]; change (dev atapi_demo) with cd_demo; cbn [busy latency cd_demo]; lia.
Qed.

Lemma atapi_read_correct_witness : wp (atapi_read_sector 16 1 0x1000 2 disc_block) (λ r s', load8 (mem s') 0x1001 = 0x43) atapi_demo.
Proof.
  eapply wp_mono; [apply (atapi_read_correct atapi_demo 2 1000 16 1 0x1000 cd_ready); done|].
  intros r s' (_ & _ & _ & H & _). exact (H 1 ltac:(done)).
Defined.

Lemma identify_atapi_useful_correct_witness : wp (identify_atapi_useful 0x1000 2) (λ r s', load32 (mem s') 0x1000 = 1000) atapi_demo.
Proof.
  eapply wp_mono; [apply (identify_atapi_useful_correct atapi_demo 2 1000 0x1000 cd_ready); done|].
  intros r s' (_ & _ & H & _). exact H.
Defined.

Lemma identify_atapi_useful_manual_no_wait_witness :
  wp (identify_atapi_useful_manual 0x1000 2 0x170) (λ r s', r = 0 ∧ load32 (mem s') 0x1000 = 0xFFFFFFFF) atapi_demo.
Proof.
  eapply wp_mono; [apply (identify_atapi_useful_manual_no_wait atapi_demo 2 1000 0x1000 cd_ready); cbn; lia|].
  intros r s' (H & H' & _). by split.
Defined.

Lemma identify_atapi_correct_witness : wp (identify_atapi 2 0x1000) (λ r s', load8 (mem s') 0x1001 = 0x85) atapi_demo.
Proof.
  eapply wp_mono; [apply (identify_atapi_correct atapi_demo 2 1000 0x1000 cd_ready); done|].
  intros r s' (_ & _ & [H _]). exact (H 1 ltac:(done)).
Defined.
