(* ===== verification/KPrintf.v ===== *)
(** * What [printf] prints

    The text a format denotes for [printf] of [klibc/stdio.c], and that
    [KStdio.printf] prints it.  Numbers pass through a signed 32-bit [itoa],
    whatever their conversion and length modifier say: [pformat_text] is what it
    prints, [pformat_doc] what [klibc/includes/stdio.h] documents, which is the
    same as long as the numbers fit. *)

From stdpp Require Import prelude gmap list numbers tactics.
From S2P Require Import Prelude Memory KString KStdlib KStdio.

(** ** Formats *)

Inductive pconv := PD | PU | PX | PO | PP | PS | PC.
Inductive plen := PNone | PL | PLL | PBig.
Inductive pdirective :=
  | PChar (c : Z)
  | PPercent
  | PField (zero_pad : bool) (width : Z) (len : plen) (cv : pconv).

Definition pconv_char (cv : pconv) : Z :=
  match cv with PD => 100 | PU => 117 | PX => 120 | PO => 111 | PP => 112 | PS => 115 | PC => 99 end.
Definition plen_chars (l : plen) : list Z := match l with PNone => [] | PL => [108] | PLL => [108; 108] | PBig => [76] end.
Definition plen_flags (l : plen) : bool * bool :=
  match l with PNone => (false, false) | PL => (true, false) | PLL | PBig => (false, true) end.
Definition pdirective_chars (d : pdirective) : list Z :=
  match d with
  | PChar c => [c]
  | PPercent => [37; 37]
  | PField z w l cv => 37 :: (if z then [48] else []) ++ map digit_char (width_digits w) ++ plen_chars l ++ [pconv_char cv]
  end.
Definition pformat_chars (ds : list pdirective) : list Z := concat (map pdirective_chars ds).

(** ** Their text *)

Definition pconv_text (z : bool) (w : Z) (cv : pconv) (v : varg) : option (list Z) :=
  match cv, v with
  | PD, Word a | PU, Word a => Some (padded z w (itoa_chars (s32 a) 10))
  | PO, Word a => Some (padded z w (itoa_chars (s32 a) 8))
  | PX, Word a | PP, Word a => Some ([48; 120] ++ padded z w (itoa_chars (s32 a) 16))
  | PS, Text _ s => Some (padded z w s)
  | PC, Word a => Some [u8 a]
  | _, _ => None
  end.

Fixpoint pformat_text (ds : list pdirective) (args : list varg) : option (list Z) :=
  match ds with
  | [] => Some []
  | PChar c :: ds => match pformat_text ds args with Some t => Some (c :: t) | None => None end
  | PPercent :: ds => match pformat_text ds args with Some t => Some (37 :: t) | None => None end
  | PField z w l cv :: ds =>
    match args with
    | [] => None
    | v :: args =>
      match pconv_text z w cv v, pformat_text ds args with
      | Some t, Some t' => Some (t ++ t')
      | _, _ => None
      end
    end
  end.

Definition pdirective_ok (d : pdirective) : Prop :=
  match d with PChar c => 0 < c < 256 ∧ c ≠ 37 | PPercent => True | PField _ w _ _ => 0 <= w < 2 ^ 31 end.

(** ** Reading a directive *)

Lemma pconv_char_other cv : pconv_char cv ≠ 108 ∧ pconv_char cv ≠ 76 ∧ 57 < pconv_char cv < 256.
Proof. destruct cv; cbn; lia. Qed.

Lemma printf_length_spec m a l cv rest : cstr m a (plen_chars l ++ pconv_char cv :: rest) →
  printf_length m a = ((plen_flags l).1, (plen_flags l).2, a + Z.of_nat (length (plen_chars l))).
Proof.
  intros Hs. pose proof (pconv_char_other cv) as (H1 & H2 & _). unfold printf_length.
  destruct l; cbn in Hs; repeat destruct Hs as (? & _ & Hs); cbn [plen_flags plen_chars length fst snd];
    repeat match goal with H : load8 m _ = _ |- _ => rewrite H; clear H end; cbn [Z.eqb Pos.eqb];
    rewrite ?(proj2 (Z.eqb_neq (pconv_char cv) _)) by done; try done; by rewrite Z.add_0_r.
Qed.

(** The width does not begin with [0]: that would be the flag. *)
Lemma pfield_head w l cv rest : 0 <= w < 2 ^ 31 →
  head (map digit_char (width_digits w) ++ plen_chars l ++ pconv_char cv :: rest) ≠ Some 48.
Proof.
  intros Hw. destruct (Z.eq_dec w 0) as [->|Hnz].
  - pose proof (pconv_char_other cv). destruct l; cbn; intros [= E]; lia.
  - assert (head (width_digits w) ≠ Some 0) as Hh.
    { unfold width_digits. rewrite head_reverse. apply digs_last; [lia|]. cbn. lia. }
    pose proof (width_digits_range w) as Hr. destruct (width_digits w) as [|d ds] eqn:E.
    + apply (f_equal reverse) in E. unfold width_digits in E. rewrite reverse_involutive in E. cbn [digs] in E.
      by rewrite (proj2 (Z.eqb_neq w 0)) in E.
    + cbn. specialize (Hr d ltac:(left)). cbn in Hh. assert (d ≠ 0) by congruence. intros [= E48].
      destruct (digit_char_range d) as [?|?]; lia.
Qed.

Lemma read_pfield fuel m fmt z w l cv rest : 0 <= w < 2 ^ 31 → (10 < fuel)%nat →
  cstr m fmt (pdirective_chars (PField z w l cv) ++ rest) →
  load8 m fmt = 37 ∧
  ∃ f1 f2 f3, (if load8 m (fmt + 1) =? 48 then (48, fmt + 1 + 1) else (32, fmt + 1)) = (if z then 48 else 32, f1) ∧
    read_width fuel m f1 0 = Some (w, f2) ∧ printf_length m f2 = ((plen_flags l).1, (plen_flags l).2, f3) ∧
    load8 m f3 = pconv_char cv ∧ cstr m (f3 + 1) rest ∧
    f3 + 1 = fmt + Z.of_nat (length (pdirective_chars (PField z w l cv))).
Proof.
  intros Hw Hf Hs. cbn [pdirective_chars app] in Hs. destruct Hs as (Hp & _ & Hs). split; [done|].
  pose proof (pfield_head w l cv rest Hw) as Hh. rewrite <- !app_assoc in Hs. cbn [app] in Hs.
  set (f1 := if z then fmt + 1 + 1 else fmt + 1).
  assert ((load8 m (fmt + 1) =? 48) = z ∧
          cstr m f1 (map digit_char (width_digits w) ++ plen_chars l ++ pconv_char cv :: rest)) as (Ez & Hs1).
  { unfold f1. destruct z; cbn [app] in Hs.
    - destruct Hs as (-> & _ & Hs). done.
    - split; [|done]. apply Z.eqb_neq. destruct (_ ++ _) as [|c tl]; cbn in Hs, Hh; [lia|]. destruct Hs as (-> & _). congruence. }
  rewrite Ez. pose proof (read_width_spec fuel m f1 (width_digits w) 0 _ Hs1 (width_digits_range w)) as Er.
  rewrite width_digits_value in Er by done. pose proof (width_digits_length w).
  apply cstr_app in Hs1. rewrite length_map in Hs1. set (f2 := f1 + Z.of_nat (length (width_digits w))) in *.
  pose proof (printf_length_spec m f2 l cv rest Hs1) as El. apply cstr_app in Hs1.
  set (f3 := f2 + Z.of_nat (length (plen_chars l))) in *. destruct Hs1 as (Hc & _ & Hs3).
  exists f1, f2, f3. split_and!; try done.
  - unfold f1. by destruct z.
  - apply Er; [|lia]. intros ch Hch. pose proof (pconv_char_other cv). destruct l; cbn in Hch; simplify_eq; lia.
  - unfold f3, f2, f1. cbn [pdirective_chars length]. rewrite !length_app, length_map. destruct z; cbn [length]; lia.
Qed.

(** ** One conversion *)

Lemma string_at_spec fuel m p l : cstr m p l → (length l < fuel)%nat → string_at fuel m p = Some l.
Proof.
  revert fuel p. induction l as [|c l IH]; intros [|fuel] p Hs Hf; cbn in Hf; try lia; cbn [string_at].
  - cbn in Hs. by rewrite Hs.
  - destruct Hs as (-> & Hc & Hs). rewrite (proj2 (Z.eqb_neq c 0)) by done. by rewrite (IH fuel (p + 1) Hs) by lia.
Qed.

Lemma printf_field_spec fuel m p w z l : cstr m p l → (length l < fuel)%nat →
  printf_field fuel m p w (if z : bool then 48 else 32) = Some (padded z w l).
Proof. intros Hs Hf. unfold printf_field. by rewrite (string_at_spec fuel m p l). Qed.

(** Every number is cut down to [int]. *)
Lemma int_argument (isl isll : bool) a : s32 (if isll then u64 a else if isl then s64 a else s32 a) = s32 a.
Proof.
  assert (∀ x, (x mod 2 ^ 64) mod 2 ^ 32 = x mod 2 ^ 32) as E64 by (intros; apply Z.mod_mod_divide; by exists (2 ^ 32)).
  apply swrap_cong. destruct isll; [apply E64|]. destruct isl; [|apply swrap_mod].
  by rewrite <- E64, swrap_mod, E64.
Qed.

Lemma printf_number fuel m buf w z a base : (34 <= fuel)%nat → 2 <= base <= 36 →
  ∃ m', itoa fuel m (s32 a) buf base = Some m' ∧
    printf_field fuel m' buf w (if z : bool then 48 else 32) = Some (padded z w (itoa_chars (s32 a) base)) ∧
    same_outside (λ x, buf <= x < buf + 34) m m'.
Proof.
  intros Hf Hb. pose proof (swrap_range 32 a ltac:(lia)) as Hr. change (2 ^ (32 - 1)) with (2 ^ 31) in Hr.
  destruct (itoa_spec fuel m (s32 a) buf base ltac:(lia) Hb Hr) as (m' & E & Hs & Ho).
  exists m'. split; [done|]. split; [|done]. apply printf_field_spec; [done|].
  pose proof (itoa_chars_length (s32 a) base). lia.
Qed.

(** A string argument is in place. *)
Definition text_at (ns : Z) (m : mem_t) (k : nat) (v : varg) : Prop :=
  match v with Word _ => True | Text a s => cstr m (if a =? 0 then ns else a) s ∧ (length s < k)%nat end.

Lemma printf_convert_spec fuel ns buf m z w l cv v t args : pconv_text z w cv v = Some t → (34 <= fuel)%nat → text_at ns m fuel v →
  ∃ m', printf_convert fuel ns buf m (pconv_char cv) w (if z then 48 else 32) (plen_flags l).1 (plen_flags l).2 (varg_word v :: args) =
      Some (m', t, args) ∧ same_outside (λ x, buf <= x < buf + 34) m m'.
Proof.
  intros Ht Hf Hv.
  destruct cv, v as [a|a s]; try discriminate Ht; injection Ht as <-; unfold printf_convert; cbn [pconv_char va_arg varg_word];
    cbn [Z.eqb Pos.eqb orb]; rewrite ?int_argument.
  1, 2: destruct (printf_number fuel m buf w z a 10 Hf ltac:(lia)) as (m' & -> & -> & Ho); by exists m'.
  - destruct (printf_number fuel m buf w z a 16 Hf ltac:(lia)) as (m' & -> & -> & Ho). by exists m'.
  - destruct (printf_number fuel m buf w z a 8 Hf ltac:(lia)) as (m' & -> & -> & Ho). by exists m'.
  - pose proof (int_argument false true a) as E. cbn iota in E. rewrite E.
    destruct (printf_number fuel m buf w z a 16 Hf ltac:(lia)) as (m' & -> & -> & Ho). by exists m'.
  - destruct Hv as [Hs Hl]. rewrite (printf_field_spec fuel m _ w z s Hs Hl). by exists m.
  - by exists m.
Qed.

(** ** The whole format *)

Section printf.
Context (ns buf : Z) (k : nat).

Definition clear_of_buf (p n : Z) : Prop := p + n < buf ∨ buf + 34 <= p.
Definition ptexts_ok (m : mem_t) (args : list varg) : Prop :=
  ∀ a s, Text a s ∈ args → cstr m (if a =? 0 then ns else a) s ∧ (length s < k)%nat ∧
    clear_of_buf (if a =? 0 then ns else a) (Z.of_nat (length s)).

Lemma clear_cstr m m' p l : same_outside (λ x, buf <= x < buf + 34) m m' → clear_of_buf p (Z.of_nat (length l)) →
  cstr m p l → cstr m' p l.
Proof. intros Hs Hc. apply cstr_ext. intros i Hi. apply Hs. unfold clear_of_buf in Hc. lia. Qed.

Lemma ptexts_same m m' args : same_outside (λ x, buf <= x < buf + 34) m m' → ptexts_ok m args → ptexts_ok m' args.
Proof. intros Hs Hx a s Hin. destruct (Hx a s Hin) as (Hc & Hl & Ho). split; [by eapply clear_cstr|done]. Qed.

Lemma printf_loop_spec ds fuel m fmt args out txt n : Forall pdirective_ok ds → pformat_text ds args = Some txt →
  cstr m fmt (pformat_chars ds) → clear_of_buf fmt (Z.of_nat (length (pformat_chars ds))) → ptexts_ok m args →
  (34 <= k)%nat → (length ds + k < fuel)%nat → 0 <= n → n + Z.of_nat (length txt) < 2 ^ 31 →
  printf_loop fuel ns buf m fmt (map varg_word args) out n = Some (out ++ txt, n + Z.of_nat (length txt)).
Proof.
  intros Hds Ht Hs Hc Hx Hk. revert fuel m fmt args out txt n Ht Hs Hc Hx.
  induction Hds as [|d ds Hd _ IH]; intros fuel m fmt args out txt n Ht Hs Hc Hx Hf Hn Hl;
    (destruct fuel as [|fuel]; [cbn in Hf; lia|]); cbn [printf_loop length] in *.
  - injection Ht as <-. cbn in Hs. rewrite Hs. cbn [Z.eqb length]. by rewrite app_nil_r, Z.add_0_r.
  - destruct d as [c| |z w l cv].
    + destruct Hd as [Hd1 Hd2]. cbn [pformat_text] in Ht. destruct (pformat_text ds args) as [t'|] eqn:Et; [|done]. injection Ht as <-.
      change (pformat_chars (PChar c :: ds)) with (c :: pformat_chars ds) in *. destruct Hs as (-> & Hz & Hs).
      rewrite (proj2 (Z.eqb_neq c 0)), (proj2 (Z.eqb_neq c 37)) by done. cbn [negb length] in *.
      rewrite (swrap_small 32 (n + 1)) by lia. rewrite (IH fuel m (fmt + 1) args (out ++ [c]) t'); try done; try lia.
      * rewrite <- app_assoc. do 2 f_equal. lia.
      * unfold clear_of_buf in *. lia.
    + cbn [pformat_text] in Ht. destruct (pformat_text ds args) as [t'|] eqn:Et; [|done]. injection Ht as <-.
      change (pformat_chars (PPercent :: ds)) with (37 :: 37 :: pformat_chars ds) in *. destruct Hs as (-> & _ & H2 & _ & Hs).
      cbn [Z.eqb Pos.eqb negb length] in *. rewrite H2. cbn [Z.eqb Pos.eqb]. cbv beta iota.
      assert (read_width fuel m (fmt + 1) 0 = Some (0, fmt + 1)) as ->.
      { destruct fuel; [lia|]. cbn [read_width]. by rewrite H2. }
      unfold printf_length. rewrite H2. cbn [Z.eqb Pos.eqb]. cbv beta iota. rewrite H2.
      change (printf_convert fuel ns buf m 37 0 32 false false (map varg_word args)) with (Some (m, [37], map varg_word args)).
      cbv beta iota. cbn [length]. rewrite (swrap_small 32 (n + _)) by lia.
      rewrite (IH fuel m (fmt + 1 + 1) args (out ++ [37]) t'); try done; try lia.
      * rewrite <- app_assoc. do 2 f_equal. lia.
      * unfold clear_of_buf in *. lia.
    + cbn [pformat_text] in Ht. destruct args as [|v args]; [done|]. destruct (pconv_text z w cv v) as [t|] eqn:Ev; [|done].
      destruct (pformat_text ds args) as [t'|] eqn:Et; [|done]. injection Ht as <-.
      change (pformat_chars (PField z w l cv :: ds)) with (pdirective_chars (PField z w l cv) ++ pformat_chars ds) in *.
      destruct (read_pfield fuel m fmt z w l cv _ Hd ltac:(lia) Hs) as (Hp & f1 & f2 & f3 & E1 & E2 & E3 & E4 & Hs' & E5).
      rewrite Hp. cbn [Z.eqb Pos.eqb negb]. rewrite E1, E2, E3, E4. cbn [map].
      destruct (printf_convert_spec fuel ns buf m z w l cv v t (map varg_word args) Ev) as (m' & -> & Hsame); [lia| |].
      { destruct v as [|a s]; [done|]. destruct (Hx a s ltac:(left)) as (H1 & H2 & _). split; [done|lia]. }
      rewrite length_app in Hl. rewrite (swrap_small 32 (n + _)) by lia. rewrite length_app in Hc.
      assert (clear_of_buf (f3 + 1) (Z.of_nat (length (pformat_chars ds)))) as Hc' by (unfold clear_of_buf in *; lia).
      rewrite (IH fuel m' (f3 + 1) args (out ++ t) t'); try done; try lia.
      * rewrite length_app, <- app_assoc. do 2 f_equal. lia.
      * by eapply clear_cstr.
      * eapply ptexts_same; [done|]. intros a s Hin. apply Hx. by right.
Qed.
End printf.

Lemma printf_spec ns buf m fmt ds args txt k fuel (terminal : bool) :
  Forall pdirective_ok ds → pformat_text ds args = Some txt → cstr m fmt (pformat_chars ds) →
  clear_of_buf buf fmt (Z.of_nat (length (pformat_chars ds))) → ptexts_ok ns buf k m args →
  (34 <= k)%nat → (length ds + k < fuel)%nat → Z.of_nat (length txt) < 2 ^ 31 →
  printf terminal fuel ns buf m fmt (map varg_word args) =
    Some (if terminal then (txt, Z.of_nat (length txt)) else ([], -1)).
Proof.
  intros Hds Ht Hs Hc Hx Hk Hf Hl. unfold printf. destruct terminal; [|done].
  by rewrite (printf_loop_spec ns buf k ds fuel m fmt args [] txt 0).
Qed.

(** ** What the conversions are documented to print

    [%d] the signed number, [%u], [%x], [%o] the unsigned one, at the width the
    length modifier gives the argument, [%p] the 64-bit pointer, written with
    the numerals of [KStdio].  [Some] where the text is also what a signed
    32-bit [itoa] makes of the argument: decimal numbers that fit an [int],
    hexadecimal and octal ones below [2 ^ 32], and no zero flag on a negative
    number. *)

Definition pwide (l : plen) : bool := match l with PNone => false | _ => true end.
Definition pvalue (l : plen) (cv : pconv) (a : Z) : Z :=
  match cv with
  | PD => if pwide l then s64 a else s32 a
  | PU | PX | PO => if pwide l then u64 a else u32 a
  | _ => u64 a
  end.
Definition pdoc_fits (z : bool) (cv : pconv) (v : Z) : bool :=
  match cv with
  | PD => (- 2 ^ 31 <=? v) && (v <? 2 ^ 31) && negb (z && (v <? 0))
  | PU => v <? 2 ^ 31
  | _ => v <? 2 ^ 32
  end.
Definition pdoc_number (z : bool) (w : Z) (cv : pconv) (v : Z) : list Z :=
  match cv with
  | PD => padded z w (signed_text v)
  | PU => padded z w (number_text 10 false v)
  | PO => padded z w (number_text 8 false v)
  | _ => [48; 120] ++ padded z w (number_text 16 false v)
  end.
Definition pdoc_text (z : bool) (w : Z) (l : plen) (cv : pconv) (v : varg) : option (list Z) :=
  match cv, v with
  | PS, Text _ s => Some (padded z w s)
  | PC, Word a => Some [u8 a]
  | PS, Word _ | _, Text _ _ => None
  | _, Word a => if pdoc_fits z cv (pvalue l cv a) then Some (pdoc_number z w cv (pvalue l cv a)) else None
  end.

Fixpoint pformat_doc (ds : list pdirective) (args : list varg) : option (list Z) :=
  match ds with
  | [] => Some []
  | PChar c :: ds => match pformat_doc ds args with Some t => Some (c :: t) | None => None end
  | PPercent :: ds => match pformat_doc ds args with Some t => Some (37 :: t) | None => None end
  | PField z w l cv :: ds =>
    match args with
    | [] => None
    | v :: args =>
      match pdoc_text z w l cv v, pformat_doc ds args with
      | Some t, Some t' => Some (t ++ t')
      | _, _ => None
      end
    end
  end.

(** *** [itoa] agrees with it *)

Lemma digs_32_64 b n : 2 <= b → 0 <= n < 2 ^ 32 → digs 64 b n = digs 32 b n.
Proof.
  intros Hb Hn. apply (digs_stable 32 32); [done|].
  assert (2 ^ 32 <= b ^ 32) by (apply Z.pow_le_mono_l; lia). change (Z.of_nat 32) with 32. lia.
Qed.

Lemma digit_char_hex b n : 2 <= b <= 16 → map digit_char (reverse (digs 32 b n)) = map (hex_char false) (reverse (digs 32 b n)).
Proof.
  intros Hb. apply map_ext_in. intros d Hd%list_elem_of_In. rewrite elem_of_reverse in Hd. apply digs_range in Hd; [|lia].
  unfold hex_char. destruct (digit_char_range d) as [(_ & ? & ->)|(_ & ? & ->)]; [lia| |];
    destruct (Z.ltb_spec d 10); lia.
Qed.

Lemma itoa_unsigned b a v : 2 <= b <= 16 → a mod 2 ^ 32 = v → (b = 10 → v < 2 ^ 31) →
  itoa_chars (s32 a) b = number_text b false v.
Proof.
  intros Hb <- H10. unfold itoa_chars, number_text. pose proof (wrap_range 32 a ltac:(lia)) as Hr. unfold wrap in Hr.
  assert (s32 a = s32 (a mod 2 ^ 32)) as E by (apply swrap_cong; by rewrite Z.mod_mod).
  assert (u32 (s32 a) = a mod 2 ^ 32) as Eu by apply swrap_mod.
  revert H10 Hr E Eu. generalize (a mod 2 ^ 32) as v. intros v H10 Hr E Eu. destruct (Z.eqb_spec (s32 a) 0) as [E0|E0].
  - rewrite E0 in Eu. by rewrite <- Eu.
  - rewrite (proj2 (Z.eqb_neq v 0)) by (intros ->; by apply E0).
    rewrite Eu, digs_32_64, <- digit_char_hex by lia. case_match eqn:Ed; [|done].
    apply andb_true_iff in Ed as [Hn%Z.ltb_lt ->%Z.eqb_eq]. rewrite E, swrap_small in Hn by lia. lia.
Qed.

Lemma itoa_signed v : - 2 ^ 31 <= v < 2 ^ 31 → itoa_chars v 10 = signed_text v.
Proof.
  intros Hv. unfold signed_text. destruct (Z.ltb_spec v 0) as [Hn|Hn].
  - unfold itoa_chars, number_text. rewrite (proj2 (Z.eqb_neq v 0)), (proj2 (Z.eqb_neq (- v) 0)), (proj2 (Z.ltb_lt v 0)) by lia.
    cbn [Z.eqb Pos.eqb andb]. by rewrite digs_32_64, <- digit_char_hex by lia.
  - rewrite <- (itoa_unsigned 10 v v); [|lia|apply Z.mod_small; lia|lia]. by rewrite swrap_small by lia.
Qed.

(** The number of the argument and the [int] that [itoa] gets are congruent. *)
Lemma pvalue_mod l cv a : pvalue l cv a mod 2 ^ 32 = a mod 2 ^ 32.
Proof.
  assert (∀ x, (x mod 2 ^ 64) mod 2 ^ 32 = x mod 2 ^ 32) as E64 by (intros; apply Z.mod_mod_divide; by exists (2 ^ 32)).
  destruct cv, l; cbn [pvalue pwide]; try apply E64; try apply swrap_mod; try apply Z.mod_mod; try done;
    by rewrite <- E64, swrap_mod, E64.
Qed.

Lemma pvalue_nonneg l cv a : cv ≠ PD → 0 <= pvalue l cv a.
Proof. intros Hc. destruct cv; [done|..]; cbn [pvalue]; try destruct (pwide l); by apply Z.mod_pos_bound. Qed.

Lemma pdoc_text_spec z w l cv v t : pdoc_text z w l cv v = Some t → pconv_text z w cv v = Some t.
Proof.
  destruct v as [a|a s]; [|by destruct cv]. pose proof (pvalue_mod l cv a) as Em. pose proof (pvalue_nonneg l cv a) as Hn.
  intros Ht. destruct cv; try done; cbn [pdoc_text pconv_text] in *; (case_match eqn:Ef; [|done]); apply Some_inj in Ht; subst t;
    unfold pdoc_fits in Ef; cbn [pdoc_number];
    [apply andb_true_iff in Ef as [[? ?]%andb_true_iff _]|specialize (Hn ltac:(done))..]; do 2 f_equal.
  1: rewrite <- itoa_signed by lia; rewrite <- (swrap_small 32 (pvalue l PD a)) by lia; f_equal; by apply swrap_cong.
  all: try do 2 f_equal; apply itoa_unsigned; [lia| |lia]; rewrite <- Em; apply Z.mod_small; lia.
Qed.

Lemma pformat_doc_spec ds args t : pformat_doc ds args = Some t → pformat_text ds args = Some t.
Proof.
  revert args t. induction ds as [|[c| |z w l cv] ds IH]; intros args t; cbn [pformat_doc pformat_text]; [done|..].
  - destruct (pformat_doc ds args) as [t'|] eqn:E; [|done]. by rewrite (IH args t').
  - destruct (pformat_doc ds args) as [t'|] eqn:E; [|done]. by rewrite (IH args t').
  - destruct args as [|v args]; [done|]. destruct (pdoc_text z w l cv v) as [tv|] eqn:Ev; [|done].
    destruct (pformat_doc ds args) as [t'|] eqn:E; [|done]. by rewrite (pdoc_text_spec z w l cv v tv), (IH args t').
Qed.


(** The format "n=%05u, %s; %llx" with 42, "ok" and [0xFEE00000], a word whose
    signed 32-bit value is negative. *)
Definition printf_demo : mem_t :=
  put_string (put_string ∅ 0x100 [110; 61; 37; 48; 53; 117; 44; 32; 37; 115; 59; 32; 37; 108; 108; 120]) 0x200 [111; 107].
