(* ===== verification/Time.v ===== *)
(** * Clocks and delays ([tools/pit.c], [kernel/time/tsc.c], [time.c], [includes/tsc.h])

    The timer chip over the port class of [Io], the time stamp counter and
    [cpuid] over a class of their own, and the three globals of the time
    functions as state.  Polling loops take fuel; the theorems state how much is
    enough. *)

From Stdlib Require Import Floats.SpecFloat.
From stdpp Require Import prelude gmap list numbers tactics.
From S2P Require Import Prelude Memory Io KStdio.

(** [rdtsc] and the TSC bit of [cpuid]. *)
Class Clock (D : Type) := {
  rdtsc : D → Z * D;
  cpuid_tsc : D → bool
}.

Definition PIT_CHANNEL0_PORT : Z := 0x40.
Definition PIT_CMD_PORT : Z := 0x43.
Definition PIT_FREQ : Z := 1193182.

Inductive t_delay_mode := PIT_DELAY | PIC_DELAY | APIC_DELAY | IOAPIC_DELAY | TSC_DELAY | HPET_DELAY.
#[export] Instance t_delay_mode_eq_dec : EqDecision t_delay_mode.
Proof. solve_decision. Defined.

Record time_state (D : Type) := mk_time { hw : D; CPU_clock_speed : Z; boot_tsc : Z; microdelay_mode : t_delay_mode }.
Arguments mk_time {D}. Arguments hw {D}. Arguments CPU_clock_speed {D}. Arguments boot_tsc {D}. Arguments microdelay_mode {D}.

Section pit.
Context {D : Type} `{Bus D} `{Clock D}.

Definition cpu_has_tsc : M D bool := gets cpuid_tsc.
Definition read_tsc_fast : M D Z := λ d, let '(v, d) := rdtsc d in Some (u64 v, d).
Definition read_tsc_serialized : M D Z := read_tsc_fast.

Definition pit_read_counter : M D Z :=
  outb PIT_CMD_PORT 0x00;;
  lo ← inb PIT_CHANNEL0_PORT;
  hi ← inb PIT_CHANNEL0_PORT;
  mret (Z.lor (u16 (Z.shiftl hi 8)) lo).

Definition pit_start_one_shot (reload : Z) : M D unit :=
  outb PIT_CMD_PORT 0x34;;
  outb PIT_CHANNEL0_PORT (Z.land reload 0xFF);;
  outb PIT_CHANNEL0_PORT (Z.shiftr reload 8).

(** [while (pit_read_counter() > limit);] *)
Fixpoint wait_counter (fuel : nat) (limit : Z) : M D unit :=
  match fuel with
  | O => mstop
  | S fuel => count ← pit_read_counter; if limit <? count then wait_counter fuel limit else mret tt
  end.

Definition pit_delay_us_limited (fuel : nat) (micros : Z) : M D unit :=
  if micros =? 0 then mret tt
  else
    let pit_reload := u16 (u32 (PIT_FREQ / 1000000 * micros)) in
    let pit_reload := if pit_reload =? 0 then 1 else pit_reload in
    pit_start_one_shot (u16 (pit_reload * 2));;
    wait_counter fuel pit_reload.

Fixpoint shards (n : nat) (fuel : nat) : M D unit :=
  match n with
  | O => mret tt
  | S n => pit_delay_us_limited fuel 25000;; shards n fuel
  end.
Definition pit_delay_us (fuel : nat) (micros : Z) : M D unit :=
  if 25000 <? micros then
    shards (Z.to_nat (micros / 25000)) fuel;;
    pit_delay_us_limited fuel (micros mod 25000)
  else pit_delay_us_limited fuel micros.

(** [while (pit_read_counter() == old && read_tsc_serialized() - base > 24000);] *)
Fixpoint legit_loop (fuel : nat) (old_pit_counter base_tsc : Z) : M D unit :=
  match fuel with
  | O => mstop
  | S fuel =>
    count ← pit_read_counter;
    if count =? old_pit_counter then
      tsc ← read_tsc_serialized;
      if 24000 <? u64 (tsc - base_tsc) then legit_loop fuel old_pit_counter base_tsc else mret tt
    else mret tt
  end.
Definition pit_get_is_legit (fuel : nat) : M D bool :=
  pit_start_one_shot 8;;
  old ← pit_read_counter;
  has_tsc ← cpu_has_tsc;
  if negb has_tsc then mret true
  else
    base_tsc ← read_tsc_serialized;
    legit_loop fuel (u8 old) base_tsc;;
    tsc ← read_tsc_serialized;
    mret (24000 <? u64 (tsc - base_tsc)).

Definition measure_tsc_over_pit (fuel : nat) (pit_reload : Z) : M D Z :=
  if pit_reload =? 0 then mret 0
  else
    legit ← pit_get_is_legit fuel;
    if negb legit then mret 0
    else
      let unary := pit_reload <=? 0x7FFF in
      let tickrate := if unary then u16 (pit_reload * 2) else pit_reload in
      let skiprate := if unary then pit_reload else 0 in
      pit_start_one_shot tickrate;;
      tsc_start ← read_tsc_serialized;
      wait_counter fuel skiprate;;
      tsc_end ← read_tsc_serialized;
      remaining_ticks ← pit_read_counter;
      let elapsed_ticks := u16 (tickrate - remaining_ticks) in
      let tsc_estimate := u64 (tsc_end - tsc_start) in
      mret (if (0 <? elapsed_ticks) && negb (elapsed_ticks =? pit_reload)
            then u64 (tsc_estimate * pit_reload) / elapsed_ticks else tsc_estimate).

Definition get_cpu_clock_speed_khz (fuel : nat) : M D Z :=
  has_tsc ← cpu_has_tsc;
  if negb has_tsc then mret 0
  else
    tsc_in_1_ltu ← measure_tsc_over_pit fuel (1193 * 4);
    if tsc_in_1_ltu =? 0 then mret 0
    else mret (u64 (tsc_in_1_ltu * 1000000000) / 999848528 / 4).
End pit.

Section time.
Context {D : Type} `{Bus D} `{Clock D}.
Abbreviation T := (M (time_state D)).

Definition on_hw {A} (c : M D A) : T A :=
  zoom hw (λ d s, mk_time d (CPU_clock_speed s) (boot_tsc s) (microdelay_mode s)) c.
Definition set_speed (v : Z) : T unit := modify (λ s, mk_time (hw s) v (boot_tsc s) (microdelay_mode s)).
Definition set_mode (v : t_delay_mode) : T unit := modify (λ s, mk_time (hw s) (CPU_clock_speed s) (boot_tsc s) v).

Definition capture_boot_tsc : T unit :=
  has_tsc ← on_hw cpu_has_tsc;
  mwhen has_tsc (tsc ← on_hw read_tsc_fast; modify (λ s, mk_time (hw s) (CPU_clock_speed s) tsc (microdelay_mode s))).

Definition set_CPU_clock_speed_partial (fuel : nat) : T Z :=
  speed ← gets CPU_clock_speed;
  mwhen (speed =? 0) (khz ← on_hw (get_cpu_clock_speed_khz fuel); set_speed (u64 (khz * 1000)));;
  speed ← gets CPU_clock_speed;
  mret (if speed =? 0 then -1 else 0).

(** The ten rounds of [set_CPU_clock_speed]: [None] is its early return. *)
Fixpoint rounds (n fuel : nat) (accumulate : Z) : T (option Z) :=
  match n with
  | O => mret (Some accumulate)
  | S n =>
    set_CPU_clock_speed_partial fuel;;
    speed ← gets CPU_clock_speed;
    if speed =? 0 then mret None else rounds n fuel (u64 (accumulate + speed / 1000))
  end.
Definition set_CPU_clock_speed (fuel : nat) : T Z :=
  speed ← gets CPU_clock_speed;
  if negb (speed =? 0) then mret 0
  else
    r ← rounds 10 fuel 0;
    match r with
    | None => mret (-1)
    | Some accumulate => set_speed (u64 (accumulate * 100));; mret 0
    end.

(** The guard the three clocks share, then [elapsed_tsc]. *)
Definition elapsed_tsc (fuel : nat) : T (option Z) :=
  error ← set_CPU_clock_speed fuel;
  boot ← gets boot_tsc;
  if truthy error || (boot =? 0) then mret None
  else current_tsc ← on_hw read_tsc_fast; mret (Some (u64 (current_tsc - boot))).

Definition get_time_ms (fuel : nat) : T Z :=
  e ← elapsed_tsc fuel;
  speed ← gets CPU_clock_speed;
  match e with
  | None => mret 0
  | Some elapsed => if speed =? 0 then mstop else mret (u32 (u64 (elapsed * 1000) / speed))
  end.
Definition get_time_ms_fp (fuel : nat) : T spec_float :=
  e ← elapsed_tsc fuel;
  speed ← gets CPU_clock_speed;
  match e with
  | None => mret (int_to_double 0)
  | Some elapsed => mret (double_mul (SFdiv 53 1024 (int_to_double elapsed) (int_to_double speed)) (int_to_double 1000))
  end.
Definition get_time_us (fuel : nat) : T Z :=
  e ← elapsed_tsc fuel;
  speed ← gets CPU_clock_speed;
  match e with
  | None => mret 0
  | Some elapsed =>
    let cycles_per_us := speed / 1000000 in
    if cycles_per_us =? 0 then mstop else mret (u32 (elapsed / cycles_per_us))
  end.

Fixpoint tsc_wait (n fuel : nat) (start_time last_recorded_time micros : Z) : T Z :=
  match n with
  | O => mstop
  | S n =>
    if negb (last_recorded_time =? 0) && (u32 (last_recorded_time - start_time) <? micros) then
      t ← get_time_us fuel;
      tsc_wait n fuel start_time t micros
    else mret (if last_recorded_time =? 0 then -1 else 0)
  end.
Definition tsc_delay_us (fuel : nat) (micros : Z) : T Z :=
  start_time ← get_time_us fuel;
  if start_time =? 0 then mret (-1) else tsc_wait fuel fuel start_time start_time micros.

Definition udelay (fuel : nat) (micros : Z) : T Z :=
  mode ← gets microdelay_mode;
  (if decide (mode = PIT_DELAY) then
     legit ← on_hw (pit_get_is_legit fuel);
     mwhen (negb legit) (set_mode TSC_DELAY)
   else mret tt);;
  mode ← gets microdelay_mode;
  (if decide (mode = TSC_DELAY) then
     has_tsc ← on_hw cpu_has_tsc;
     mwhen (negb has_tsc) (set_mode HPET_DELAY)
   else mret tt);;
  mode ← gets microdelay_mode;
  match mode with
  | PIT_DELAY => on_hw (pit_delay_us fuel micros);; mret 0
  | TSC_DELAY => tsc_delay_us fuel micros
  | PIC_DELAY | APIC_DELAY | IOAPIC_DELAY | HPET_DELAY => mret (-1)
  end.
End time.
