(* ===== verification/TimeProps.v ===== *)
(** * The clocks on a timer chip

    Channel 0 of the 8254 and a time stamp counter as a device for [Time]: [rate]
    TSC ticks per tick of the chip's 1193182 Hz input, and [cost] TSC ticks per
    access, port or [rdtsc].  In mode 2 the counter runs from the reload value
    down to 1 and starts again. *)

From Stdlib Require Import Floats.SpecFloat.
From stdpp Require Import prelude gmap list numbers tactics.
From S2P Require Import Prelude Memory Io KStdio Time.

Inductive counting :=
| Stopped
| Low                              (* waiting for the low byte of the reload value *)
| High (lo : Z)
| Counting (reload start : Z).     (* since the TSC value [start] *)

Record timer := mk_timer {
  rate : Z; cost : Z; has_tsc : bool;
  now : Z; counter : counting;
  latched : option (Z * bool)      (* the latched count; its low byte has been read *)
}.

Definition count_at (t : timer) : Z :=
  match counter t with
  | Counting reload start => reload - (now t - start) / rate t mod reload
  | _ => 0
  end.
Definition tick (t : timer) : timer := mk_timer (rate t) (cost t) (has_tsc t) (now t + cost t) (counter t) (latched t).
Definition set_counter (c : counting) (t : timer) : timer := mk_timer (rate t) (cost t) (has_tsc t) (now t) c None.
Definition set_latch (l : option (Z * bool)) (t : timer) : timer := mk_timer (rate t) (cost t) (has_tsc t) (now t) (counter t) l.

Definition timer_out (port v : Z) (t : timer) : timer :=
  if port =? 0x43 then
    if v =? 0x00 then set_latch (Some (count_at t, false)) t
    else if v =? 0x34 then set_counter Low t
    else t
  else if port =? 0x40 then
    match counter t with
    | Low => set_counter (High v) t
    | High lo => set_counter (Counting (let n := lo + 256 * v in if n =? 0 then 65536 else n) (now t)) t
    | _ => t
    end
  else t.
Definition timer_in (port : Z) (t : timer) : Z * timer :=
  if port =? 0x40 then
    match latched t with
    | Some (c, false) => (c mod 256, set_latch (Some (c, true)) t)
    | Some (c, true) => (c / 256 mod 256, set_latch None t)
    | None => (count_at t mod 256, t)
    end
  else (0xFF, t).

#[export] Instance timer_bus : Bus timer := {|
  bus_in w port t := timer_in port (tick t);
  bus_out w port v t := timer_out port v (tick t);
  mmio_read a t := (0, t); mmio_write a v t := t;
  msr_read r t := 0; msr_write r v t := t; cr4_read t := 0; cr4_write v t := t
|}.
#[export] Instance timer_clock : Clock timer := {|
  rdtsc t := (now (tick t), tick t);
  cpuid_tsc t := has_tsc t
|}.

(** The time passes in the range of a 64-bit counter. *)
Record timer_ok (t : timer) : Prop := {
  ok_rate : 1 <= rate t <= 100000;
  ok_cost : 1 <= cost t <= 1000 * rate t
}.
(** A timer counting down from [reload] since [start], [d] later. *)
Definition running (t : timer) (reload start d : Z) : timer :=
  mk_timer (rate t) (cost t) (has_tsc t) (start + d) (Counting reload start) None.

Section timer.
Implicit Types (t : timer) (reload start d : Z).

Lemma start_spec t reload Q : 0 < reload < 2 ^ 16 →
  Q tt (running t reload (now t + 3 * cost t) 0) → wp (pit_start_one_shot reload) Q t.
Proof.
  intros Hr HQ. unfold pit_start_one_shot, outb, port_out. do 2 apply wp_bind, wp_modify. apply wp_modify.
  cbn [bus_out timer_bus]. change (wrap 8 0x34) with 0x34.
  unfold timer_out, PIT_CMD_PORT, PIT_CHANNEL0_PORT. cbn [Z.eqb Pos.eqb tick counter set_counter now rate cost has_tsc latched].
  rewrite (land_low reload 8), Z.shiftr_div_pow2 by done. change (2 ^ 8) with 256.
  rewrite (wrap_small 8 (reload mod 256)), (wrap_small 8 (reload / 256)) by (change (2 ^ 8) with 256; zlia).
  unfold running in HQ.
  match goal with |- Q tt ?a => match type of HQ with Q tt ?b => replace a with b; [exact HQ|] end end.
  unfold set_counter, tick. cbn [rate cost has_tsc now].
  replace (reload mod 256 + 256 * (reload / 256)) with reload by zlia. cbv zeta.
  rewrite (proj2 (Z.eqb_neq reload 0)) by lia. f_equal; [lia|]. f_equal. lia.
Qed.

Definition count_after t reload d : Z := reload - d / rate t mod reload.

Lemma read_counter_spec t reload start d Q : 0 < reload < 2 ^ 16 →
  Q (count_after t reload (d + cost t)) (running t reload start (d + 3 * cost t)) →
  wp pit_read_counter Q (running t reload start d).
Proof.
  intros Hr HQ. unfold pit_read_counter. apply wp_bind. unfold outb, port_out. apply wp_modify.
  cbn [bus_out timer_bus]. change (wrap 8 0) with 0. unfold timer_out, PIT_CMD_PORT, tick, running. cbn [Z.eqb Pos.eqb rate cost has_tsc now counter latched set_latch].
  unfold count_at. cbn [counter now rate]. replace (start + d + cost t - start) with (d + cost t) by lia.
  fold (count_after t reload (d + cost t)). set (c := count_after _ _ _) in *.
  assert (0 <= c < 2 ^ 16) as Hc.
  { unfold c, count_after. pose proof (Z.mod_pos_bound ((d + cost t) / rate t) reload ltac:(lia)). lia. }
  unfold inb, port_in, wp, bind. cbn [bus_in timer_bus]. unfold timer_in, PIT_CHANNEL0_PORT, tick, set_latch.
  cbn [Z.eqb Pos.eqb rate cost has_tsc now counter latched].
  rewrite (wrap_small 8 (c mod 256)), (wrap_small 8 (c / 256 mod 256)) by (change (2 ^ 8) with 256; zlia).
  unfold mret. replace (Z.lor (u16 (Z.shiftl (c / 256 mod 256) 8)) (c mod 256)) with c.
  - unfold running in HQ. replace (start + d + cost t + cost t + cost t) with (start + (d + 3 * cost t)) by lia. exact HQ.
  - rewrite Z.shiftl_mul_pow2 by lia. rewrite (wrap_small 16) by (change (2 ^ 8) with 256; change (2 ^ 16) with 65536; zlia).
    rewrite Z.lor_comm, lor_add by (change (2 ^ 8) with 256; zlia). change (2 ^ 8) with 256. zlia.
Qed.

Lemma tsc_spec t reload start d Q : 0 <= start + d + cost t < 2 ^ 64 →
  Q (start + d + cost t) (running t reload start (d + cost t)) → wp read_tsc_serialized Q (running t reload start d).
Proof.
  intros Hr HQ. unfold read_tsc_serialized, read_tsc_fast, wp. cbn [rdtsc timer_clock]. unfold tick, running in *. cbn [now rate cost has_tsc counter latched].
  rewrite wrap_small by done. by replace (start + (d + cost t)) with (start + d + cost t) in HQ by lia.
Qed.
End timer.

Section waiting.
Implicit Types (t : timer) (reload start d limit : Z).

(** Before the counter starts again it has passed [limit] when
    [(reload - limit) * rate] TSC ticks are over. *)
Lemma count_limit t reload limit d : 1 <= rate t → 0 <= limit < reload → 0 <= d < reload * rate t →
  (limit <? count_after t reload d) = (d <? (reload - limit) * rate t).
Proof.
  intros Hr Hl Hd. unfold count_after. rewrite (Z.mod_small (d / rate t)).
  - destruct (Z.ltb_spec d ((reload - limit) * rate t)) as [H|H]; [apply Z.ltb_lt|apply Z.ltb_ge].
    + pose proof (Z.div_lt_upper_bound d (rate t) (reload - limit) ltac:(lia) ltac:(lia)). lia.
    + pose proof (Z.div_le_lower_bound d (rate t) (reload - limit) ltac:(lia) ltac:(lia)). lia.
  - split; [apply Z.div_pos; lia|apply Z.div_lt_upper_bound; lia].
Qed.

Lemma wait_spec fuel t reload start d limit Q : timer_ok t → 0 < reload < 2 ^ 16 → 0 <= limit < reload →
  let goal := (reload - limit) * rate t in
  0 <= d → d + cost t < reload * rate t → goal + 3 * cost t <= reload * rate t →
  goal - d - cost t <= 3 * cost t * (Z.of_nat fuel - 1) → (1 <= fuel)%nat →
  (∀ d', goal <= d' → d' < goal + 3 * cost t ∨ d' = d + cost t → Q tt (running t reload start (d' + 2 * cost t))) →
  wp (wait_counter fuel limit) Q (running t reload start d).
Proof.
  intros [Hr Hc] Hre Hl goal. revert d. induction fuel as [|fuel IH]; intros d Hd H1 H2 Hf Hf1 HQ; [lia|]. cbn [wait_counter].
  apply wp_bind, read_counter_spec; [done|]. rewrite count_limit by lia. fold goal.
  destruct (Z.ltb_spec (d + cost t) goal) as [Hlt|Hge].
  - apply IH; try lia. intros d' Hg Hd'. apply HQ; [done|]. left. lia.
  - apply wp_ret. replace (d + 3 * cost t) with (d + cost t + 2 * cost t) by lia. apply HQ; [done|]. by right.
Qed.

(** The test for a working timer measures how long two accesses take. *)
Lemma legit_fast fuel t Q : timer_ok t → has_tsc t = true → 0 <= now t → now t + 20 * cost t < 2 ^ 64 → 5 * cost t <= 24000 → (1 <= fuel)%nat →
  (∀ d, 0 <= d <= 9 * cost t → Q false (running t 8 (now t + 3 * cost t) d)) → wp (pit_get_is_legit fuel) Q t.
Proof.
  intros [Hr Hc] Ht H0 Hb Hfast Hf HQ. unfold pit_get_is_legit. apply wp_bind, start_spec; [lia|].
  apply wp_bind, read_counter_spec; [lia|]. apply wp_bind, wp_gets. cbn [cpuid_tsc timer_clock running has_tsc]. rewrite Ht. cbn [negb].
  fold (running t 8 (now t + 3 * cost t) (0 + 3 * cost t)).
  apply wp_bind, tsc_spec; [lia|]. apply wp_bind. destruct fuel as [|fuel]; [lia|]. cbn [legit_loop].
  apply wp_bind, read_counter_spec; [lia|]. set (s := now t + 3 * cost t) in *. case_if.
  - apply wp_bind, tsc_spec; [lia|]. rewrite (wrap_small 64) by lia. rewrite (proj2 (Z.ltb_ge _ _)) by lia. apply wp_ret.
    apply wp_bind, tsc_spec; [lia|]. rewrite (wrap_small 64) by lia. rewrite (proj2 (Z.ltb_ge _ _)) by lia. apply wp_ret, HQ. lia.
  - apply wp_ret, wp_bind, tsc_spec; [lia|]. rewrite (wrap_small 64) by lia. rewrite (proj2 (Z.ltb_ge _ _)) by lia. apply wp_ret, HQ. lia.
Qed.
Lemma legit_slow fuel t Q : timer_ok t → has_tsc t = true → 0 <= now t → now t + 20 * cost t < 2 ^ 64 → 24000 < 4 * cost t → (1 <= fuel)%nat →
  cost t / rate t mod 8 ≠ 5 * cost t / rate t mod 8 →
  Q true (running t 8 (now t + 3 * cost t) (8 * cost t)) → wp (pit_get_is_legit fuel) Q t.
Proof.
  intros [Hr Hc] Ht H0 Hb Hslow Hf Hne HQ. unfold pit_get_is_legit. apply wp_bind, start_spec; [lia|].
  apply wp_bind, read_counter_spec; [lia|]. apply wp_bind, wp_gets. cbn [cpuid_tsc timer_clock running has_tsc]. rewrite Ht. cbn [negb].
  fold (running t 8 (now t + 3 * cost t) (0 + 3 * cost t)).
  apply wp_bind, tsc_spec; [lia|]. apply wp_bind. destruct fuel as [|fuel]; [lia|]. cbn [legit_loop].
  apply wp_bind, read_counter_spec; [lia|]. set (s := now t + 3 * cost t) in *. rewrite !Z.add_0_l.
  replace (3 * cost t + cost t + cost t) with (5 * cost t) by lia. unfold count_after at 1 2.
  rewrite (wrap_small 8) by (change (2 ^ 8) with 256; zlia). rewrite (proj2 (Z.eqb_neq _ _)) by lia.
  apply wp_ret, wp_bind, tsc_spec; [lia|]. rewrite (wrap_small 64) by lia. rewrite (proj2 (Z.ltb_lt _ _)) by lia. apply wp_ret.
  by replace (3 * cost t + cost t + 3 * cost t + cost t) with (8 * cost t) by lia.
Qed.

(** A delay of at most 25 ms waits that many ticks of the chip. *)
Lemma delay_limited_spec fuel t micros Q : timer_ok t → 1 <= micros <= 25000 → 3 * cost t <= micros * rate t →
  micros * rate t <= 3 * cost t * (Z.of_nat fuel - 1) →
  (∀ d, micros * rate t <= d <= micros * rate t + 5 * cost t → Q tt (running t (micros * 2) (now t + 3 * cost t) d)) →
  wp (pit_delay_us_limited fuel micros) Q t.
Proof.
  intros Ht Hm Hc Hf HQ. pose proof Ht as [Hr Hcc]. unfold pit_delay_us_limited. rewrite (proj2 (Z.eqb_neq micros 0)) by lia.
  change (PIT_FREQ / 1000000) with 1. rewrite Z.mul_1_l, (wrap_small 32), (wrap_small 16 micros) by lia. cbv zeta.
  rewrite (proj2 (Z.eqb_neq micros 0)), (wrap_small 16) by lia.
  apply wp_bind, start_spec; [lia|]. apply (wait_spec fuel t (micros * 2) _ 0 micros); try lia; try done.
  intros d' H1 H2. apply HQ. lia.
Qed.
End waiting.

(** ** Measuring the clock *)

(** [measure_tsc_over_pit(4772)] on a machine whose accesses are slow enough for
    the test and fast enough for the measurement. *)
Record measurable (t : timer) (fuel : nat) : Prop := {
  m_ok : timer_ok t;
  m_tsc : has_tsc t = true;
  m_slow : 24000 < 4 * cost t;
  m_fast : cost t <= 500 * rate t;
  m_differ : cost t / rate t mod 8 ≠ 5 * cost t / rate t mod 8;
  m_now : 0 <= now t;
  m_time : now t + 9544 * rate t + 100 * cost t < 2 ^ 64;
  m_fuel : 4772 * rate t <= 3 * cost t * (Z.of_nat fuel - 1)
}.

Lemma estimate_bounds R c d' : 1 <= R <= 100000 → 6000 < c → 4772 * R <= d' < 4772 * R + 3 * c →
  let e := (d' + 4 * c) / R in
  let est := if (0 <? e) && negb (e =? 4772) then (d' + 2 * c) * 4772 / e else d' + 2 * c in
  4772 <= e ∧ 4772 * R - 2 * c <= est <= 4773 * R.
Proof.
  intros HR Hc Hd e est. assert (e * R <= d' + 4 * c < e * R + R) as He.
  { unfold e. pose proof (Z.mul_div_le (d' + 4 * c) R ltac:(lia)). pose proof (Z.mul_succ_div_gt (d' + 4 * c) R ltac:(lia)). lia. }
  assert (4772 <= e) as He2 by (apply Z.div_le_lower_bound; lia). split; [done|].
  unfold est. rewrite (proj2 (Z.ltb_lt 0 e)) by lia. cbn [andb]. destruct (Z.eqb_spec e 4772) as [E|E]; cbn [negb].
  - rewrite E in He. lia.
  - split.
    + apply Z.div_le_lower_bound; [lia|]. apply (Z.mul_le_mono_pos_r _ _ R); [lia|].
      assert (0 <= 2 * c * (d' + 4 * c - 4772 * R)) by (apply Z.mul_nonneg_nonneg; lia).
      destruct (Z.le_gt_cases 0 (4772 * R - 2 * c)) as [HL|HL].
      * pose proof (Z.mul_le_mono_nonneg_l _ _ _ HL (proj1 He)). lia.
      * pose proof (Z.mul_nonneg_nonneg (e * R) (- (4772 * R - 2 * c)) ltac:(apply Z.mul_nonneg_nonneg; lia) ltac:(lia)).
        pose proof (Z.mul_nonneg_nonneg (d' + 2 * c) R ltac:(lia) ltac:(lia)). lia.
    + assert ((d' + 2 * c) * 4772 / e < 4773 * R + 1); [|lia]. apply Z.div_lt_upper_bound; [lia|]. lia.
Qed.

Lemma measure_spec fuel t Q : measurable t fuel →
  (∀ est t', 4772 * rate t - 2 * cost t <= est <= 4773 * rate t → rate t' = rate t → cost t' = cost t → has_tsc t' = has_tsc t →
     now t <= now t' <= now t + 4772 * rate t + 30 * cost t → Q est t') →
  wp (measure_tsc_over_pit fuel 4772) Q t.
Proof.
  intros [[Hr Hc] Htsc Hslow Hfast Hdiff Hnow Htime Hfuel] HQ. unfold measure_tsc_over_pit. cbn [Z.eqb].
  assert (1 <= fuel)%nat by lia. assert (timer_ok t) by done.
  apply wp_bind, legit_slow; try done; [lia|]. cbn [negb]. change (4772 <=? 32767) with true. cbv iota zeta. change (u16 (4772 * 2)) with 9544.
  set (t1 := running t 8 _ _). apply wp_bind, (start_spec t1); [lia|]. set (s := now t1 + 3 * cost t1).
  assert (s = now t + 14 * cost t) as Es by (unfold s, t1, running; cbn [now cost]; lia).
  change (running t1 9544 s 0) with (running t 9544 s 0). clearbody s. clear t1.
  apply wp_bind, tsc_spec; [lia|]. rewrite Z.add_0_l, Z.add_0_r.
  apply wp_bind, (wait_spec fuel t 9544 s (cost t) 4772); [done|lia|lia|lia|lia|lia|lia|lia|].
  intros d' H1 H2. replace (9544 - 4772) with 4772 in * by lia.
  assert (d' < 4772 * rate t + 3 * cost t) as H3 by lia.
  apply wp_bind, tsc_spec; [lia|]. apply wp_bind, read_counter_spec; [lia|].
  replace (d' + 2 * cost t + cost t + cost t) with (d' + 4 * cost t) by lia. unfold count_after.
  destruct (estimate_bounds (rate t) (cost t) d') as [He Hest]; [lia|lia|lia|].
  assert ((d' + 4 * cost t) / rate t < 9544) as He' by (apply Z.div_lt_upper_bound; lia).
  rewrite (Z.mod_small _ 9544) by lia. set (e := (d' + 4 * cost t) / rate t) in *.
  replace (9544 - (9544 - e)) with e by lia. rewrite (wrap_small 16 e) by lia.
  replace (s + (d' + 2 * cost t) + cost t - (s + cost t)) with (d' + 2 * cost t) by lia.
  rewrite (wrap_small 64 (d' + 2 * cost t)), (wrap_small 64 ((d' + 2 * cost t) * 4772)) by lia.
  apply wp_ret, HQ; [exact Hest|done|done|done|]. cbn [now running]. lia.
Qed.

(** The clock speed agrees with the true one, [1193182 * rate], up to the time
    of a few accesses. *)
Definition speed_close (t : timer) (speed : Z) : Prop :=
  1193180 * rate t - 501 * cost t - 1000 <= speed <= 1193431 * rate t.

Lemma khz_bounds R c est : 1 <= R <= 100000 → 0 <= c <= 500 * R → 4772 * R - 2 * c <= est <= 4773 * R →
  let khz := est * 1000000000 / 999848528 / 4 in
  0 < khz ∧ 1193180 * R - 501 * c - 1000 <= khz * 1000 <= 1193431 * R.
Proof. intros HR Hc He khz. unfold khz. rewrite Z.div_div by lia. change (999848528 * 4) with 3999394112. zlia. Qed.

Section clock.
Implicit Types (s : time_state timer) (t : timer).

Definition with_speed (t : timer) (speed : Z) s : time_state timer := mk_time t speed (boot_tsc s) (microdelay_mode s).

Lemma rounds_known n fuel acc k s : CPU_clock_speed s = k * 1000 → 0 < k → 0 <= acc → acc + Z.of_nat n * k < 2 ^ 64 →
  wp (rounds n fuel acc) (λ r s', r = Some (acc + Z.of_nat n * k) ∧ s' = s) s.
Proof.
  intros Hs Hk. revert acc. induction n as [|n IH]; intros acc Ha Hb; cbn [rounds].
  - apply wp_ret. split; [f_equal; lia|done].
  - unfold set_CPU_clock_speed_partial. apply wp_bind, wp_bind, wp_gets. rewrite Hs.
    rewrite (proj2 (Z.eqb_neq (k * 1000) 0)) by lia. apply wp_bind, wp_ret, wp_bind, wp_gets, wp_ret, wp_bind, wp_gets.
    rewrite Hs, (proj2 (Z.eqb_neq (k * 1000) 0)), Z.div_mul by lia. rewrite wrap_small by lia.
    eapply wp_mono; [apply IH; lia|]. intros r s' [-> ->]. split; [f_equal; lia|done].
Qed.

Lemma khz_spec fuel t Q : measurable t fuel →
  (∀ k t', 0 < k → 1193180 * rate t - 501 * cost t - 1000 <= k * 1000 <= 1193431 * rate t →
     rate t' = rate t → cost t' = cost t → now t <= now t' <= now t + 4772 * rate t + 30 * cost t → Q k t') →
  wp (get_cpu_clock_speed_khz fuel) Q t.
Proof.
  intros Hm HQ. unfold get_cpu_clock_speed_khz. apply wp_bind, wp_gets. cbn [cpuid_tsc timer_clock]. rewrite (m_tsc _ _ Hm). cbn [negb].
  pose proof (m_ok _ _ Hm) as [Hr Hc]. pose proof (m_fast _ _ Hm).
  apply wp_bind, measure_spec; [done|]. intros est t' He E1 E2 E3 Hn. rewrite (proj2 (Z.eqb_neq est 0)) by lia.
  rewrite wrap_small by lia. apply wp_ret.
  destruct (khz_bounds (rate t) (cost t) est) as [Hk1 Hk2]; [lia|lia|lia|]. by apply HQ.
Qed.

Lemma set_speed_spec fuel s Q : measurable (hw s) fuel → CPU_clock_speed s = 0 →
  (∀ speed t', speed_close (hw s) speed → 0 < speed → rate t' = rate (hw s) → cost t' = cost (hw s) →
     now (hw s) <= now t' <= now (hw s) + 4772 * rate (hw s) + 30 * cost (hw s) → Q 0 (with_speed t' speed s)) →
  wp (set_CPU_clock_speed fuel) Q s.
Proof.
  intros Hm H0 HQ. unfold set_CPU_clock_speed. apply wp_bind, wp_gets. rewrite H0. cbn [Z.eqb negb]. apply wp_bind.
  cbn [rounds]. unfold set_CPU_clock_speed_partial at 1. apply wp_bind, wp_bind, wp_gets. rewrite H0. cbn [Z.eqb mwhen].
  apply wp_bind, wp_bind. unfold on_hw. apply wp_zoom, khz_spec; [done|]. intros k t' Hk Hkb E1 E2 Hn.
  pose proof (m_ok _ _ Hm) as [Hr Hc].
  apply wp_modify, wp_bind, wp_gets, wp_ret, wp_bind, wp_gets. cbn [CPU_clock_speed].
  rewrite (wrap_small 64 (k * 1000)), (proj2 (Z.eqb_neq (k * 1000) 0)), Z.div_mul, (wrap_small 64) by lia.
  eapply wp_mono; [apply (rounds_known 9 fuel (0 + k) k); cbn [CPU_clock_speed]; lia|].
  intros r s' [-> ->]. apply wp_bind, wp_modify, wp_ret. cbn [hw boot_tsc microdelay_mode].
  replace (u64 ((0 + k + Z.of_nat 9 * k) * 100)) with (k * 1000) by (rewrite wrap_small; lia).
  apply HQ; [exact Hkb|lia|done|done|done].
Qed.
End clock.

Section theorems.
Implicit Types (s : time_state timer) (t : timer).

(** C21: on a machine where the timer passes the kernel's test, the first reading
    of the clock calibrates it: the measurement ends, the clock speed is the true
    one up to the time of a few accesses and 0.02 percent, and the result is the
    time since boot in milliseconds at that speed, modulo 2^32. *)
Theorem get_time_ms_correct fuel s : measurable (hw s) fuel → CPU_clock_speed s = 0 → 0 < boot_tsc s <= now (hw s) →
  (now (hw s) + 4772 * rate (hw s) + 40 * cost (hw s)) * 1000 < 2 ^ 64 →
  wp (get_time_ms fuel) (λ ms s', speed_close (hw s) (CPU_clock_speed s') ∧
    ms = u32 ((now (hw s') - boot_tsc s) * 1000 / CPU_clock_speed s')) s.
Proof.
  intros Hm H0 Hb Ht. unfold get_time_ms, elapsed_tsc. pose proof (m_ok _ _ Hm) as [Hr Hc].
  apply wp_bind, wp_bind, set_speed_spec; [done|done|]. intros speed t' Hs Hp E1 E2 Hn.
  apply wp_bind, wp_gets. cbn [boot_tsc with_speed]. change (truthy 0) with false. rewrite (proj2 (Z.eqb_neq (boot_tsc s) 0)) by lia. cbn [orb].
  apply wp_bind. unfold on_hw. apply wp_zoom. unfold read_tsc_fast, wp at 1. cbn [hw rdtsc timer_clock with_speed]. unfold tick. cbn [now].
  rewrite (wrap_small 64 (now t' + cost t')) by lia. apply wp_ret, wp_bind, wp_gets. cbn [CPU_clock_speed with_speed].
  rewrite (proj2 (Z.eqb_neq speed 0)) by lia. apply wp_ret. split; [done|]. cbn [hw now CPU_clock_speed].
  rewrite (wrap_small 64 (now t' + cost t' - boot_tsc s)) by lia. rewrite (wrap_small 64) by lia. done.
Qed.

(** The guard of every clock on a machine that fails the test. *)
Lemma elapsed_fast fuel s Q : timer_ok (hw s) → has_tsc (hw s) = true → 0 <= now (hw s) → now (hw s) + 20 * cost (hw s) < 2 ^ 64 →
  5 * cost (hw s) <= 24000 → (1 <= fuel)%nat → CPU_clock_speed s = 0 →
  (∀ t', Q None (with_speed t' 0 s)) → wp (elapsed_tsc fuel) Q s.
Proof.
  intros Ht Htsc H0 Hb Hfast Hf Hs HQ. unfold elapsed_tsc, set_CPU_clock_speed. apply wp_bind, wp_bind, wp_gets. rewrite Hs. cbn [Z.eqb negb].
  apply wp_bind. cbn [rounds]. unfold set_CPU_clock_speed_partial. apply wp_bind, wp_bind, wp_gets. rewrite Hs. cbn [Z.eqb mwhen].
  apply wp_bind, wp_bind. unfold on_hw. apply wp_zoom. unfold get_cpu_clock_speed_khz, measure_tsc_over_pit.
  apply wp_bind, wp_gets. cbn [cpuid_tsc timer_clock]. rewrite Htsc. cbn [negb]. change (1193 * 4 =? 0) with false. cbv iota.
  apply wp_bind, wp_bind, legit_fast; try done. intros d Hd. cbn [negb]. apply wp_ret. cbn [Z.eqb]. apply wp_ret, wp_modify.
  change (u64 (0 * 1000)) with 0.
  apply wp_bind, wp_gets, wp_ret, wp_bind, wp_gets. cbn [CPU_clock_speed Z.eqb]. apply wp_ret, wp_ret, wp_bind, wp_gets.
  change (truthy (-1)) with true. cbn [orb]. apply wp_ret. apply HQ.
Qed.

(** the test for a working timer passes only when a few port accesses take
    more than 24000 TSC ticks.  On a machine that is faster than that the clock
    is never calibrated: the time is always 0, and a delay in the default mode
    reports an error at once. *)
Theorem clock_stands_still fuel s micros : timer_ok (hw s) → has_tsc (hw s) = true → 0 <= now (hw s) → now (hw s) + 20 * cost (hw s) < 2 ^ 64 →
  5 * cost (hw s) <= 24000 → (1 <= fuel)%nat → CPU_clock_speed s = 0 →
  wp (get_time_ms fuel) (λ ms s', ms = 0 ∧ CPU_clock_speed s' = 0) s ∧
  (microdelay_mode s = TSC_DELAY → wp (udelay fuel micros) (λ r s', r = -1 ∧ CPU_clock_speed s' = 0) s).
Proof.
  intros Ht Htsc H0 Hb Hfast Hf Hs. split.
  - unfold get_time_ms. by apply wp_bind, elapsed_fast.
  - intros Hmode. unfold udelay. apply wp_bind, wp_gets. rewrite Hmode, decide_False by done. apply wp_bind, wp_ret, wp_bind, wp_gets.
    rewrite Hmode, decide_True by done. apply wp_bind, wp_bind. unfold on_hw. apply wp_zoom, wp_gets. cbn [cpuid_tsc timer_clock].
    rewrite Htsc. cbn [negb mwhen]. apply wp_ret, wp_bind, wp_gets. cbn [microdelay_mode]. rewrite Hmode.
    unfold tsc_delay_us, get_time_us. apply wp_bind, wp_bind.
    apply (elapsed_fast fuel (mk_time (hw s) (CPU_clock_speed s) (boot_tsc s) TSC_DELAY)); done.
Qed.

(** The 25 ms pieces of a long delay. *)
Lemma shards_spec n fuel t Q : timer_ok t → 3 * cost t <= 25000 * rate t → 25000 * rate t <= 3 * cost t * (Z.of_nat fuel - 1) →
  (∀ t', rate t' = rate t → cost t' = cost t →
     Z.of_nat n * 25000 * rate t <= now t' - now t <= Z.of_nat n * (25000 * rate t + 8 * cost t) → Q tt t') →
  wp (shards n fuel) Q t.
Proof.
  revert t. induction n as [|n IH]; intros t Ht Hc Hf HQ; cbn [shards].
  { apply wp_ret, HQ; lia. }
  apply wp_bind, delay_limited_spec; [done|lia|done|done|]. intros d Hd.
  apply IH; [by destruct Ht|exact Hc|exact Hf|]. intros t' E1 E2 Hn. cbn [rate cost now running] in E1, E2, Hn. apply HQ; [done|done|]. lia.
Qed.

(** [pit_delay_us] ends and takes one tick of the timer per microsecond asked
    for, plus the time of its port accesses.  A tick lasts 1 / 1.193182
    microseconds, so the delay is 16 percent too short when accesses are fast:
    the factor 1193182 / 1000000 is computed in integers, as 1. *)
Theorem pit_delay_us_short fuel t micros : timer_ok t → 1 <= micros < 2 ^ 32 →
  micros mod 25000 = 0 ∨ 3 * cost t <= micros mod 25000 * rate t → 25000 * rate t <= 3 * cost t * (Z.of_nat fuel - 1) →
  wp (pit_delay_us fuel micros) (λ _ t', micros * rate t <= now t' - now t <= micros * rate t + 8 * cost t * (micros / 25000 + 1)) t.
Proof.
  intros Ht Hm Hrem Hf. pose proof Ht as [Hr Hc]. unfold pit_delay_us. destruct (Z.ltb_spec 25000 micros) as [Hlong|Hshort].
  - pose proof (Z.div_mod micros 25000 ltac:(lia)) as Em. pose proof (Z.mod_pos_bound micros 25000 ltac:(lia)) as Hmod.
    assert (1 <= micros / 25000) by (apply Z.div_le_lower_bound; lia).
    set (q := micros / 25000) in *. set (r := micros mod 25000) in *. clearbody q r. subst micros.
    apply wp_bind, shards_spec; [done|lia|done|]. intros t' E1 E2 Hn. rewrite Z2Nat.id in Hn by lia.
    destruct (Z.eq_dec r 0) as [->|E0]; [apply wp_ret; lia|].
    apply delay_limited_spec; rewrite ?E1, ?E2; [constructor; rewrite ?E1, ?E2; lia|lia|lia|nia|].
    intros d Hd. cbn [now running]. rewrite ?E2 in *. lia.
  - assert (0 <= micros / 25000) by (apply Z.div_pos; lia).
    apply delay_limited_spec; [done|lia| |nia|].
    { destruct (Z.eq_dec micros 25000) as [->|]; [lia|]. rewrite (Z.mod_small micros) in Hrem by lia. lia. }
    intros d Hd. cbn [now running]. nia.
Qed.

End theorems.

(** ** Delays by the time stamp counter *)

Section tsc_delay.
Context (boot speed : Z) (mode : t_delay_mode).
Definition calibrated (t : timer) : time_state timer := mk_time t speed boot mode.
(** Microseconds since boot, as the kernel counts them. *)
Definition micros_at (x : Z) : Z := (x - boot) / (speed / 1000000).

Context (Hspeed : 1000000 <= speed) (Hboot : 0 < boot).

Lemma get_time_us_spec fuel t Q : boot <= now t + cost t < 2 ^ 64 → 0 <= micros_at (now t + cost t) < 2 ^ 32 →
  Q (micros_at (now t + cost t)) (calibrated (tick t)) → wp (get_time_us fuel) Q (calibrated t).
Proof.
  intros Hn Hm HQ. unfold get_time_us, elapsed_tsc, set_CPU_clock_speed. apply wp_bind, wp_bind, wp_bind, wp_gets. cbn [CPU_clock_speed calibrated].
  rewrite (proj2 (Z.eqb_neq speed 0)) by lia. cbn [negb]. apply wp_ret, wp_bind, wp_gets. cbn [boot_tsc calibrated]. change (truthy 0) with false.
  rewrite (proj2 (Z.eqb_neq boot 0)) by lia. cbn [orb]. apply wp_bind. unfold on_hw. apply wp_zoom. unfold read_tsc_fast, wp at 1.
  cbn [hw rdtsc timer_clock calibrated]. change (now (tick t)) with (now t + cost t). rewrite (wrap_small 64 (now t + cost t)) by lia.
  apply wp_ret, wp_bind, wp_gets. cbn [CPU_clock_speed calibrated]. cbv zeta. rewrite (wrap_small 64) by lia.
  assert (1 <= speed / 1000000) by (apply Z.div_le_lower_bound; lia). rewrite (proj2 (Z.eqb_neq (speed / 1000000) 0)) by lia.
  apply wp_ret. fold (micros_at (now t + cost t)). rewrite wrap_small by lia. exact HQ.
Qed.

Lemma micros_mono x y : x <= y → micros_at x <= micros_at y.
Proof. intros H. unfold micros_at. apply Z.div_le_mono; [|lia]. apply Z.div_str_pos. lia. Qed.

Lemma tsc_wait_spec n fuel t start micros : 1 <= cost t → boot <= now t → 0 <= micros < 2 ^ 32 → 1 <= start <= micros_at (now t) →
  now t + Z.of_nat n * cost t < 2 ^ 64 → micros_at (now t + Z.of_nat n * cost t) < 2 ^ 32 → (1 <= n)%nat →
  (start + micros) * (speed / 1000000) <= now t - boot + cost t * (Z.of_nat n - 1) →
  wp (tsc_wait n fuel start (micros_at (now t)) micros) (λ r s', r = 0 ∧ ∃ t', s' = calibrated t' ∧ start + micros <= micros_at (now t')) (calibrated t).
Proof.
  revert t. induction n as [|n IH]; intros t Hc Hb Hmi Hs Hend1 Hend2 Hn Hf; [lia|]. cbn [tsc_wait].
  assert (1 <= speed / 1000000) as Hcyc by (apply Z.div_le_lower_bound; lia).
  pose proof (micros_mono (now t) (now t + Z.of_nat (S n) * cost t) ltac:(lia)).
  rewrite (proj2 (Z.eqb_neq _ 0)), (wrap_small 32) by lia. cbn [negb andb].
  destruct (Z.ltb_spec (micros_at (now t) - start) micros) as [Hlt|Hge].
  - assert (now t - boot < (start + micros) * (speed / 1000000)) as Hnow.
    { assert (micros_at (now t) < start + micros) as Hlt' by lia. unfold micros_at in Hlt'.
      pose proof (Z.mul_succ_div_gt (now t - boot) (speed / 1000000) ltac:(lia)). nia. }
    destruct n as [|n]; [lia|].
    pose proof (micros_mono (now t) (now t + cost t) ltac:(lia)).
    pose proof (micros_mono (now t + cost t) (now t + Z.of_nat (S (S n)) * cost t) ltac:(lia)).
    apply wp_bind, get_time_us_spec; [lia|lia|]. apply (IH (tick t)); cbn [now cost tick]; try lia.
    replace (now t + cost t + Z.of_nat (S n) * cost t) with (now t + Z.of_nat (S (S n)) * cost t) by lia. lia.
  - apply wp_ret. split; [done|]. exists t. split; [done|lia].
Qed.

(** with a calibrated clock [tsc_delay_us] ends and lasts at least the
    microseconds asked for as [get_time_us] counts them, unless the 32-bit
    count of microseconds overflows meanwhile. *)
Theorem tsc_delay_us_correct fuel t micros : 1 <= cost t → boot <= now t → 0 <= micros < 2 ^ 32 → 1 <= micros_at (now t + cost t) →
  now t + (Z.of_nat fuel + 1) * cost t < 2 ^ 64 → micros_at (now t + (Z.of_nat fuel + 1) * cost t) < 2 ^ 32 → (1 <= fuel)%nat →
  (micros_at (now t + cost t) + micros) * (speed / 1000000) <= now t - boot + cost t * Z.of_nat fuel →
  wp (tsc_delay_us fuel micros) (λ r s', r = 0 ∧ ∃ t', s' = calibrated t' ∧
    micros_at (now t + cost t) + micros <= micros_at (now t')) (calibrated t).
Proof.
  intros Hc Hb Hmi H1 Hend1 Hend2 Hf Hfuel. unfold tsc_delay_us.
  pose proof (micros_mono (now t + cost t) (now t + (Z.of_nat fuel + 1) * cost t) ltac:(nia)).
  apply wp_bind, get_time_us_spec; [nia|lia|]. rewrite (proj2 (Z.eqb_neq _ 0)) by lia.
  apply (tsc_wait_spec fuel fuel (tick t)); cbn [now cost tick]; try lia.
  replace (now t + cost t + Z.of_nat fuel * cost t) with (now t + (Z.of_nat fuel + 1) * cost t) by lia. lia.
Qed.
End tsc_delay.

(** ** Machines with slow and with fast port accesses *)

Definition machine (rate cost : Z) : timer := mk_timer rate cost true 1000000 Stopped None.
Definition clock_demo (cost : Z) : time_state timer := mk_time (machine 2500 cost) 0 500000 TSC_DELAY.
Lemma machine_ok rate cost : 1 <= rate <= 100000 → 1 <= cost <= rate * 1000 → timer_ok (machine rate cost).
Proof. intros Hr Hc. constructor; cbn [TimeProps.rate machine TimeProps.cost]; lia. Qed.
Lemma machine_measurable : measurable (hw (clock_demo 7000)) 600.
Proof. constructor; try (vm_compute; (reflexivity || congruence)); try (cbn; lia). by apply machine_ok. Qed.

Lemma get_time_ms_correct_witness :
  wp (get_time_ms 600) (λ ms s', 1193180 * 2500 - 501 * 7000 - 1000 <= CPU_clock_speed s' <= 1193431 * 2500) (clock_demo 7000).
Proof.
  eapply wp_mono; [apply (get_time_ms_correct 600 (clock_demo 7000) machine_measurable); [done|cbn; lia|cbn; lia]|].
  intros ms s' [H HM]. exact H.
Defined.

Lemma clock_stands_still_witness : wp (udelay 10 1000) (λ r s', r = -1) (clock_demo 2000).
Proof.
  destruct (clock_stands_still 10 (clock_demo 2000) 1000) as [_ H]; [by apply machine_ok|done|done|done|done|lia|done|].
  eapply wp_mono; [apply (H eq_refl)|]. by intros r s' [-> ?].
Defined.

Lemma pit_delay_us_short_witness :
  wp (pit_delay_us 1700 50000) (λ _ t', (now t' - 1000000) * 1000000 < 50000 * PIT_FREQ * 10) (machine 10 50).
Proof.
  eapply wp_mono; [apply (pit_delay_us_short 1700 (machine 10 50) 50000); [by apply machine_ok|done|by left|cbn; lia]|].
  intros u t' H. cbn [rate cost now machine] in H. unfold PIT_FREQ. change (50000 / 25000) with 2 in H. lia.
Defined.

Lemma tsc_delay_us_correct_witness :
  wp (tsc_delay_us 200 5) (λ r s', r = 0) (calibrated 500000 3000000000 TSC_DELAY (machine 2500 200)).
Proof.
  eapply wp_mono; [apply (tsc_delay_us_correct 500000 3000000000 TSC_DELAY); try (cbn; lia); vm_compute; (reflexivity || congruence)|].
  by intros r s' [-> ?].
Defined.
