(* ===== verification/Shell.v ===== *)
(** * The interactive shell ([kernel/shell/shell.c])

    The line editor and the commands, over the byte memory that holds the line
    buffer and the string literals, [strcmp] of [KString], [printf] of [KStdio],
    the clock of [Time] and the counters of [Pmm].  [lit] is where the linker
    puts a literal; the terminal is the list of bytes written to it, and [keys]
    the characters [getc] is going to return, one per [next_key].  [None] is a machine that stopped,
    waits for a key, or ran out of fuel. *)

From Stdlib Require Import Strings.String Strings.Ascii.
From stdpp Require Import prelude gmap list numbers tactics.
From S2P Require Import Prelude Memory KString KStdio Io Time Pmm.

(** The bytes of a literal. *)
Definition txt (s : string) : list Z := map (λ c, Z.of_N (N_of_ascii c)) (list_ascii_of_string s).
Definition ln (s : string) : list Z := txt s ++ [10].

(** Deciding that a string is in place, and a linker. *)
Fixpoint cstr_b (m : mem_t) (a : Z) (l : list Z) : bool :=
  match l with [] => load8 m a =? 0 | c :: l => (load8 m a =? c) && negb (c =? 0) && cstr_b m (a + 1) l end.
Lemma cstr_b_sound m a l : cstr_b m a l = true → cstr m a l.
Proof. revert a. induction l as [|c l IH]; intros a Hb; cbn in *; boolprop; [done|]. split; [done|]. split; [done|]. by apply IH. Qed.

(** Every literal of [ls] behind the other from [a] on. *)
Fixpoint link (ls : list (list Z)) (a : Z) (l : list Z) : Z :=
  match ls with
  | [] => 0
  | l' :: ls => if decide (l = l') then a else link ls (a + Z.of_nat (length l') + 1) l
  end.

Inductive shell_command_t :=
  SHCMD_HELP | SHCMD_ECHO | SHCMD_CLEAR | SHCMD_PMMSTATS | SHCMD_PANIC | SHCMD_BIRDSAY | SHCMD_UPTIME | SHCMD_UNKNOWN.

Record shell_state (D : Type) := mk_shell {
  time : time_state D; frames : mm_state; mem : mem_t; term : list Z; keys : list Z
}.
Arguments mk_shell {D}. Arguments time {D}. Arguments frames {D}. Arguments mem {D}. Arguments term {D}. Arguments keys {D}.

Section shell.
Context {D : Type} `{Bus D} `{Clock D}.
(** Literals, the literal "(null)", [printf]'s buffer, the terminal, the fuel. *)
Context (lit : list Z → Z) (null_str pbuf : Z) (global_flanterm : bool) (fuel : nat).
Abbreviation S := (M (shell_state D)).

Definition set_mem (f : mem_t → mem_t) : S unit := modify (λ s, mk_shell (time s) (frames s) (f (mem s)) (term s) (keys s)).
Definition write_term (l : list Z) : S unit := modify (λ s, mk_shell (time s) (frames s) (mem s) (term s ++ l) (keys s)).
Definition on_time {A} (c : M (time_state D) A) : S A :=
  zoom time (λ t s, mk_shell t (frames s) (mem s) (term s) (keys s)) c.
Definition on_frames {A} (c : M mm_state A) : S A :=
  zoom frames (λ p s, mk_shell (time s) p (mem s) (term s) (keys s)) c.
Definition byte_at (a : Z) : S Z := gets (λ s, load8 (mem s) a).
Definition print (format : list Z) (args : list Z) : S unit :=
  m ← gets mem;
  r ← of_option (printf global_flanterm fuel null_str pbuf m (lit format) args);
  write_term (fst r).
Definition next_key : S Z := λ s,
  match keys s with
  | [] => None
  | k :: ks => Some (s8 k, mk_shell (time s) (frames s) (mem s) (term s) ks)
  end.

Definition same_string (buffer : Z) (name : string) : S bool :=
  m ← gets mem;
  r ← of_option (strcmp fuel m buffer (lit (txt name)));
  mret (r =? 0).
Fixpoint find_command (l : list (string * shell_command_t)) (buffer : Z) : S shell_command_t :=
  match l with
  | [] => mret SHCMD_UNKNOWN
  | (name, cmd) :: l => same ← same_string buffer name; if same : bool then mret cmd else find_command l buffer
  end.
Definition commands : list (string * shell_command_t) :=
  [("help", SHCMD_HELP); ("echo", SHCMD_ECHO); ("clear", SHCMD_CLEAR); ("pmmstats", SHCMD_PMMSTATS);
   ("panic", SHCMD_PANIC); ("birdsay", SHCMD_BIRDSAY); ("uptime", SHCMD_UPTIME)]%string.
Definition get_command (buffer : Z) : S shell_command_t := find_command commands buffer.

Definition print_string (str : Z) : S unit := print (txt "%s") [str].
Definition print_char (c : Z) : S unit := print (txt "%c") [c].

Definition cmd_help : S unit :=
  print (ln "Available commands:") [];;
  print (ln "  help      - Show this help") [];;
  print (ln "  echo      - Echo arguments") [];;
  print (ln "  clear     - Clear screen") [];;
  print (ln "  pmmstats  - Gets the PMM stats") [];;
  print (ln "  panic     - Calls a kernel panic") [];;
  print (ln "  birdsay   - Cowsay, but with a bird") [];;
  print (ln "  uptime    - Gets the uptime in seconds") [].

Definition cmd_clear : S unit :=
  mwhen global_flanterm (write_term (27 :: txt "[2J");; write_term (27 :: txt "[H")).

Definition uptime : S unit := ms ← on_time (get_time_ms fuel); print (ln "Uptime: %d second(s)") [ms / 1000].

Definition megabytes (pages : Z) : Z := u64 (pages * PAGE_SIZE) / (1024 * 1024).
Definition pmmstats : S unit :=
  total ← on_frames pmm_get_total_pages;
  free ← on_frames pmm_get_free_pages;
  used ← on_frames pmm_get_used_pages;
  print (ln "PMM Statistics:") [];;
  print (ln "  Total pages: %llu pages (%llu MB)") [total; megabytes total];;
  print (ln "  Free pages : %llu pages (%llu MB)") [free; megabytes free];;
  print (ln "  Used pages : %llu pages (%llu MB)") [used; megabytes used];;
  print (ln "  Page size  : %llu KB") [PAGE_SIZE / 1024].

(** [panic] ends in [halt]. *)
Definition spanic : S unit := mstop.

(** [while ( *p == ' ') p++;] and [while ( *p && *p != ' ') p++;] *)
Fixpoint skip_spaces (n : nat) (p : Z) : S Z :=
  match n with
  | O => mstop
  | Datatypes.S n => c ← byte_at p; if c =? 32 then skip_spaces n (p + 1) else mret p
  end.
Fixpoint skip_word (n : nat) (p : Z) : S Z :=
  match n with
  | O => mstop
  | Datatypes.S n => c ← byte_at p; if truthy c && negb (c =? 32) then skip_word n (p + 1) else mret p
  end.

Definition execute (buffer : Z) : S unit :=
  buffer ← skip_spaces fuel buffer;
  c ← byte_at buffer;
  if c =? 0 then mret tt
  else
    args ← skip_word fuel buffer;
    c ← byte_at args;
    '(args, has_args) ← (
      if truthy c then
        set_mem (λ m, store8 m args 0);;
        args ← skip_spaces fuel (args + 1);
        c ← byte_at args;
        mret (args, truthy c)
      else mret (args, false));
    cmd ← get_command buffer;
    match cmd with
    | SHCMD_HELP => cmd_help
    | SHCMD_ECHO =>
      if has_args : bool then print_string args;; print (ln "") []
      else print_char 10
    | SHCMD_CLEAR => cmd_clear
    | SHCMD_PMMSTATS => pmmstats
    | SHCMD_PANIC => spanic
    | SHCMD_UPTIME => uptime
    | SHCMD_BIRDSAY =>
      if has_args then
        print (ln "   \\") [];;
        print (ln "   (o>") [];;
        print (ln "\\_//)") [];;
        print (ln " \_/_)") [];;
        print (txt "  _|_  ----> ") [];;
        print_string args;;
        print (ln "") []
      else print_char 10
    | SHCMD_UNKNOWN =>
      print (txt "Unknown command: %s") [buffer];;
      print (10 :: ln "Type 'help' for available commands.") []
    end.

(** The line editor: [n] bounds the number of keys. *)
Fixpoint read_line (n : nat) (buffer pos : Z) : S Z :=
  match n with
  | O => mstop
  | Datatypes.S n =>
    c ← next_key;
    if (c =? 10) || (c =? 13) then print (ln "") [];; mret pos
    else if (c =? 8) || (c =? 127) then
      if 0 <? pos then print [8; 32; 8] [];; read_line n buffer (pos - 1)
      else read_line n buffer pos
    else if (32 <=? c) && (c <? 127) && (pos <? 255) then
      set_mem (λ m, store8 m (buffer + pos) c);;
      print (txt "%c") [c];;
      read_line n buffer (pos + 1)
    else read_line n buffer pos
  end.
Definition shell_round (buffer : Z) : S unit :=
  print (txt "vnix@root:$> ") [];;
  pos ← read_line fuel buffer 0;
  set_mem (λ m, store8 m (buffer + pos) 0);;
  execute buffer.

Fixpoint shell_rounds (n : nat) (buffer : Z) : S unit :=
  match n with
  | O => mret tt
  | Datatypes.S n => shell_round buffer;; shell_rounds n buffer
  end.
(** [n] rounds of the endless loop. *)
Definition shell_main (n : nat) (buffer : Z) : S unit :=
  print (ln "╔════════════════════════════════════════╗") [];;
  print (ln "║   VNiX Interactive Shell v1.2          ║") [];;
  print (ln "║   Type 'help' for available commands   ║") [];;
  print (ln "╚════════════════════════════════════════╝" ++ [10]) [];;
  shell_rounds n buffer.
End shell.
