(* ===== verification/ShellProps.v ===== *)
(** * What the shell answers

    The line a sequence of keys leaves in the buffer, the reply to a line, and
    the transcript of a session of [Shell]. *)

From Stdlib Require Import Strings.String.
From stdpp Require Import prelude gmap list numbers tactics.
From S2P Require Import Prelude Memory KString KStdlib KStdio KPrintf Io Time TimeProps Pmm Shell.

(** ** Specification *)

(** The line editor on the text typed so far. *)
Definition is_erase (k : Z) : bool := (k =? 8) || (k =? 127).
Definition is_end (k : Z) : bool := (k =? 10) || (k =? 13).
Definition is_text (k : Z) : bool := (32 <=? k) && (k <? 127).
Definition edit_key (l : list Z) (k : Z) : list Z :=
  if is_erase k then take (length l - 1) l
  else if is_text k && (length l <? 255)%nat then l ++ [k] else l.
Definition echo_key (l : list Z) (k : Z) : list Z :=
  if is_erase k then (if (0 <? length l)%nat then [8; 32; 8] else [])
  else if is_text k && (length l <? 255)%nat then [k] else [].
Definition edited (l ks : list Z) : list Z := foldl edit_key l ks.
Fixpoint echoed (l ks : list Z) : list Z :=
  match ks with [] => [] | k :: ks => echo_key l k ++ echoed (edit_key l k) ks end.

(** A line split into command and arguments. *)
Fixpoint strip (l : list Z) : list Z := match l with 32 :: l => strip l | _ => l end.
Fixpoint word (l : list Z) : list Z := match l with c :: l => if c =? 32 then [] else c :: word l | [] => [] end.
Definition command (l : list Z) : list Z := word (strip l).
Definition arguments (l : list Z) : list Z := strip (drop (S (length (command l))) (strip l)).

Definition help_text : list Z :=
  ln "Available commands:" ++ ln "  help      - Show this help" ++ ln "  echo      - Echo arguments" ++ ln "  clear     - Clear screen" ++
  ln "  pmmstats  - Gets the PMM stats" ++ ln "  panic     - Calls a kernel panic" ++ ln "  birdsay   - Cowsay, but with a bird" ++
  ln "  uptime    - Gets the uptime in seconds".
Definition bird : list Z :=
  ln "   \\" ++ ln "   (o>" ++ ln "\\_//)" ++ ln " \_/_)" ++ txt "  _|_  ----> ".

Definition stats (label : string) (pages : Z) : list Z :=
  txt label ++ number_text 10 false pages ++ txt " pages (" ++ number_text 10 false (pages * 4 / 1024) ++ ln " MB)".
Definition stats_text (total free : Z) : list Z :=
  ln "PMM Statistics:" ++ stats "  Total pages: " total ++ stats "  Free pages : " free ++ stats "  Used pages : " (total - free) ++
  ln "  Page size  : 4 KB".

(** The reply to a line, with [f] the frame allocator; [None] for [panic], which
    halts, for [uptime], whose reply depends on the time, and for [pmmstats]
    when the counters do not fit an [int]. *)
Definition reply (f : mm_state) (l : list Z) : option (list Z) :=
  let w := command l in
  let a := arguments l in
  if decide (strip l = []) then Some []
  else if decide (w = txt "help") then Some help_text
  else if decide (w = txt "echo") then Some (a ++ [10])
  else if decide (w = txt "clear") then Some (27 :: txt "[2J" ++ 27 :: txt "[H")
  else if decide (w = txt "pmmstats") then
    (if decide (0 <= pmm_free_pages f <= pmm_total_pages f ∧ pmm_total_pages f < 2 ^ 31)
     then Some (stats_text (pmm_total_pages f) (pmm_free_pages f)) else None)
  else if decide (w = txt "panic" ∨ w = txt "uptime") then None
  else if decide (w = txt "birdsay") then Some (if decide (a = []) then [10] else bird ++ a ++ [10])
  else Some (txt "Unknown command: " ++ w ++ 10 :: ln "Type 'help' for available commands.").

(** ** Literals in memory *)

Definition formats : list (list Z) :=
  [ln ""; ln "Available commands:"; ln "  help      - Show this help"; ln "  echo      - Echo arguments"; ln "  clear     - Clear screen";
   ln "  pmmstats  - Gets the PMM stats"; ln "  panic     - Calls a kernel panic"; ln "  birdsay   - Cowsay, but with a bird";
   ln "  uptime    - Gets the uptime in seconds"; ln "   \\"; ln "   (o>"; ln "\\_//)"; ln " \_/_)"; txt "  _|_  ----> ";
   10 :: ln "Type 'help' for available commands."; [8; 32; 8]; txt "vnix@root:$> ";
   ln "╔════════════════════════════════════════╗"; ln "║   VNiX Interactive Shell v1.2          ║";
   ln "║   Type 'help' for available commands   ║"; ln "╚════════════════════════════════════════╝" ++ [10];
   txt "%s"; txt "%c"; txt "Unknown command: %s"; ln "PMM Statistics:"; ln "  Total pages: %llu pages (%llu MB)";
   ln "  Free pages : %llu pages (%llu MB)"; ln "  Used pages : %llu pages (%llu MB)"; ln "  Page size  : %llu KB";
   ln "Uptime: %d second(s)"].
Definition literals : list (list Z) := formats ++ map (λ p, txt (fst p)) commands.

Section layout.
Context (lit : list Z → Z) (null_str pbuf buffer : Z) (terminal : bool) (fuel : nat).

(** The literals are in place and nothing overlaps. *)
Record placed (m : mem_t) : Prop := {
  placed_lit : ∀ l, l ∈ literals → cstr m (lit l) l;
  placed_apart : ∀ l, l ∈ literals → lit l + Z.of_nat (length l) < buffer ∨ buffer + 256 <= lit l;
  placed_clear : ∀ l, l ∈ literals → clear_of_buf pbuf (lit l) (Z.of_nat (length l));
  placed_buffer : 0 < buffer ∧ (buffer + 256 < pbuf ∨ pbuf + 34 <= buffer)
}.

Definition within_buffer (m m' : mem_t) : Prop := same_outside (λ x, buffer <= x < buffer + 256) m m'.
Lemma placed_within m m' : within_buffer m m' → placed m → placed m'.
Proof.
  intros Hw [H1 H2 H3 H4]. constructor; [|done..]. intros l Hl. eapply cstr_ext; [|by apply H1].
  intros i Hi. apply Hw. destruct (H2 l Hl); lia.
Qed.

Context (Hfuel : (1024 <= fuel)%nat).
Context {D : Type} `{Bus D} `{Clock D}.
Implicit Types (s : shell_state D).

Definition shown (l : list Z) : list Z := if terminal then l else [].
Definition with_term l s : shell_state D := mk_shell (time s) (frames s) (mem s) (term s ++ l) (keys s).

Abbreviation printL := (print lit null_str pbuf terminal fuel).

(** [print] of a format in [formats] shows the text the format denotes. *)
Lemma print_spec ds args l t s Q : placed (mem s) → l ∈ literals → pformat_chars ds = l → Forall pdirective_ok ds →
  pformat_text ds args = Some t → ptexts_ok null_str pbuf 512 (mem s) args → (length ds < 512)%nat → Z.of_nat (length t) < 2 ^ 31 →
  Q tt (with_term (shown t) s) → wp (printL l (map varg_word args)) Q s.
Proof.
  intros Hp Hl <- Hok Ht Hx Hn Hlen HQ. unfold print. apply wp_bind, wp_gets, wp_bind. cbv beta.
  eapply wp_of_option.
  - apply (printf_spec null_str pbuf (mem s) _ ds args t 512); try done; try lia.
    + by apply (placed_lit _ Hp).
    + by apply (placed_clear _ Hp).
  - apply wp_modify. unfold shown, with_term in HQ. cbv beta. by destruct terminal.
Qed.

Definition plain (l : list Z) : bool := forallb (λ c, (0 <? c) && (c <? 256) && negb (c =? 37)) l.
Lemma plain_chars l : pformat_chars (map PChar l) = l.
Proof. induction l as [|c l IH]; [done|]. cbn. f_equal. exact IH. Qed.
Lemma plain_text l ds args : pformat_text (map PChar l ++ ds) args = match pformat_text ds args with Some t => Some (l ++ t) | None => None end.
Proof. induction l as [|c l IH]; cbn; [by destruct (pformat_text ds args)|]. rewrite IH. by destruct (pformat_text ds args). Qed.
Lemma plain_ok l : plain l = true → Forall pdirective_ok (map PChar l).
Proof.
  unfold plain. rewrite forallb_forall. intros H1. apply Forall_map, List.Forall_forall. intros c Hc. cbn.
  specialize (H1 c Hc). boolprop. lia.
Qed.

Lemma print_plain l s Q : placed (mem s) → l ∈ literals → plain l && (length l <? 512)%nat = true →
  Q tt (with_term (shown l) s) → wp (printL l []) Q s.
Proof.
  intros Hp Hl Hpl HQ. boolprop. apply Nat.ltb_lt in H2.
  apply (print_spec (map PChar l) [] l l); try done.
  - apply plain_chars.
  - by apply plain_ok.
  - rewrite <- (app_nil_r (map PChar l)), plain_text. cbn. by rewrite app_nil_r.
  - intros a t Ht. by apply not_elem_of_nil in Ht.
  - by rewrite length_map.
  - lia.
Qed.

(** A string inside of the line buffer as the argument of [%s]. *)
Lemma buffer_text m p l : placed m → cstr m p l → buffer <= p → p + Z.of_nat (length l) < buffer + 256 →
  ptexts_ok null_str pbuf 512 m [Text p l].
Proof.
  intros Hp Hs H1 H2 a t Ht. apply list_elem_of_singleton in Ht. injection Ht as -> ->. destruct (placed_buffer _ Hp) as [Hb Hd].
  rewrite (proj2 (Z.eqb_neq p 0)) by lia. split; [done|]. split; [lia|]. unfold clear_of_buf. lia.
Qed.
Lemma print_string_spec p l s Q : placed (mem s) → cstr (mem s) p l → buffer <= p → p + Z.of_nat (length l) < buffer + 256 →
  Q tt (with_term (shown l) s) → wp (print_string lit null_str pbuf terminal fuel p) Q s.
Proof.
  intros Hp Hs H1 H2 HQ. unfold print_string.
  apply (print_spec [PField false 0 PNone PS] [Text p l] _ l); try done.
  - apply elem_of_app. left. unfold formats. do 21 right. left.
  - by repeat constructor.
  - cbn [pformat_text pconv_text]. unfold padded. rewrite app_nil_r. by replace (Z.to_nat (0 - Z.of_nat (length l))) with 0%nat by lia.
  - by apply buffer_text.
  - cbn. lia.
  - lia.
Qed.

Lemma print_char_spec c s Q : placed (mem s) → 0 <= c < 256 → Q tt (with_term (shown [c]) s) →
  wp (print_char lit null_str pbuf terminal fuel c) Q s.
Proof.
  intros Hp Hc HQ. unfold print_char. apply (print_spec [PField false 0 PNone PC] [Word c] _ [c]); try done.
  - apply elem_of_app. left. unfold formats. do 22 right. left.
  - by repeat constructor.
  - cbn. by rewrite wrap_small by lia.
  - intros a t Ht. by apply list_elem_of_singleton in Ht.
  - cbn. lia.
Qed.

Lemma shown_app a b : shown (a ++ b) = shown a ++ shown b.
Proof. unfold shown. by destruct terminal. Qed.

Lemma shown_nil : shown [] = [].
Proof. unfold shown. by destruct terminal. Qed.

(** ** The line editor *)

Lemma edit_key_length l k : (length l <= 255)%nat → (length (edit_key l k) <= 255)%nat.
Proof.
  intros Hl. unfold edit_key. repeat case_if; rewrite ?length_take, ?length_app; cbn [length]; try lia.
  apply Nat.ltb_lt in H2. lia.
Qed.
Lemma edited_length l ks : (length l <= 255)%nat → (length (edited l ks) <= 255)%nat.
Proof. unfold edited. revert l. induction ks as [|k ks IH]; intros l Hl; [done|]. cbn. by apply IH, edit_key_length. Qed.

(** What the code tests of a key, a signed [char]. *)
Lemma key_tests k : 0 <= k < 256 →
  ((s8 k =? 10) || (s8 k =? 13)) = is_end k ∧ ((s8 k =? 8) || (s8 k =? 127)) = is_erase k ∧
  ((32 <=? s8 k) && (s8 k <? 127)) = is_text k ∧ (is_text k = true → s8 k = k).
Proof.
  intros Hk. unfold is_end, is_erase, is_text. destruct (Z.lt_ge_cases k 128) as [Hl|Hl].
  - by rewrite swrap_small by lia.
  - assert (s8 k = k - 256) as ->.
    { rewrite (swrap_cong 8 k (k - 256)) by (change (2 ^ 8) with 256; zlia). apply swrap_small; lia. }
    rewrite !(proj2 (Z.eqb_neq _ _)), (proj2 (Z.leb_gt 32 _)), (proj2 (Z.ltb_ge k 127)) by lia. by rewrite !andb_false_r.
Qed.

Lemma read_line_spec n l s ks e rest Q : placed (mem s) → bytes (mem s) buffer l → (length l <= 255)%nat →
  keys s = ks ++ e :: rest → Forall (λ k, 0 <= k < 256 ∧ is_end k = false) ks → 0 <= e < 256 ∧ is_end e = true → (length ks < n)%nat →
  (∀ m', bytes m' buffer (edited l ks) → within_buffer (mem s) m' →
     Q (Z.of_nat (length (edited l ks))) (mk_shell (time s) (frames s) m' (term s ++ shown (echoed l ks ++ [10])) rest)) →
  wp (read_line lit null_str pbuf terminal fuel n buffer (Z.of_nat (length l))) Q s.
Proof.
  revert n l s. induction ks as [|k ks IH]; intros n l s Hp Hb Hl Hk Hks He Hn HQ; (destruct n as [|n]; [cbn in Hn; lia|]); cbn [read_line].
  - destruct (key_tests e (proj1 He)) as (E1 & _). apply wp_bind. unfold next_key, wp at 1. rewrite Hk. cbn [app]. rewrite E1, (proj2 He).
    apply wp_bind, print_plain; [done|apply elem_of_app; left; left|done|]. apply wp_ret. by apply HQ.
  - apply Forall_cons_iff in Hks as [[Hk0 Hke] Hks]. destruct (key_tests k Hk0) as (E1 & E2 & E3 & E4).
    apply wp_bind. unfold next_key, wp at 1. rewrite Hk. cbn [app]. rewrite E1, E2, E3, Hke. clear E1 E2 E3.
    cbn [echoed] in HQ. unfold echo_key in HQ. change (edited l (k :: ks)) with (edited (edit_key l k) ks) in HQ.
    unfold edit_key in *. destruct (is_erase k) eqn:Ee.
    + destruct (Nat.ltb_spec 0 (length l)) as [Hpos|Hz].
      * rewrite (proj2 (Z.ltb_lt 0 _)) by lia. apply wp_bind, print_plain; [done|apply elem_of_app; left; unfold formats; do 15 right; left|done|].
        replace (Z.of_nat (length l) - 1) with (Z.of_nat (length (take (length l - 1) l))) by (rewrite length_take; lia).
        apply IH; try done.
        -- rewrite <- (take_drop (length l - 1) l) in Hb. by apply bytes_app in Hb as [Hb _].
        -- rewrite length_take. lia.
        -- cbn in Hn. lia.
        -- cbn [mem term time frames with_term]. intros m' Hb' Hw. rewrite <- app_assoc, <- shown_app, app_assoc. by apply HQ.
      * rewrite (proj2 (Z.ltb_ge 0 _)) by lia. destruct l; [|cbn in Hz; lia]. apply (IH n []); try done. cbn in Hn. lia.
    + assert ((Z.of_nat (length l) <? 255) = (length l <? 255)%nat) as ->.
      { destruct (Nat.ltb_spec (length l) 255), (Z.ltb_spec (Z.of_nat (length l)) 255); (done || lia). }
      destruct (is_text k && (length l <? 255)%nat) eqn:Et.
      * apply andb_true_iff in Et as [Et1 Et2]. apply Nat.ltb_lt in Et2. rewrite (E4 Et1).
        apply wp_bind, wp_modify. set (s1 := mk_shell _ _ _ _ _).
        assert (within_buffer (mem s) (mem s1)) as Hw1 by (intros x Hx; cbn; rewrite load8_store8_ne; [done|lia]).
        apply wp_bind, (print_char_spec k s1); [by eapply placed_within|done|].
        replace (Z.of_nat (length l) + 1) with (Z.of_nat (length (l ++ [k]))) by (rewrite length_app; cbn; lia).
        apply IH; try done.
        -- by eapply placed_within.
        -- cbn [mem with_term s1]. apply bytes_app. split; [|cbn; split; [|done]].
           ++ eapply bytes_ext; [|exact Hb]. intros i Hi. rewrite load8_store8_ne by lia. done.
           ++ rewrite load8_store8_eq. by apply Z.mod_small.
        -- rewrite length_app. cbn. lia.
        -- cbn in Hn. lia.
        -- cbn [mem term time frames with_term s1]. intros m' Hb' Hw. rewrite <- app_assoc, <- shown_app, app_assoc. apply HQ; [done|].
           intros x Hx. rewrite Hw by done. by apply Hw1.
      * apply IH; try done. cbn in Hn. lia.
Qed.

(** ** Parsing *)

Lemma strip_spec l : ∃ j, l = repeat 32 j ++ strip l ∧ head (strip l) ≠ Some 32.
Proof.
  induction l as [|c l (j & IH & Hh)]; [by exists 0%nat|]. destruct (Z.eq_dec c 32) as [->|Hc].
  - exists (S j). cbn. by rewrite <- IH.
  - exists 0%nat. cbn. destruct c as [|p|p]; try done. do 6 (destruct p as [p|p|]; try done).
Qed.

Lemma cstr_skip m p l1 l2 : cstr m p (l1 ++ l2) → cstr m (p + Z.of_nat (length l1)) l2.
Proof. intros Hs. by apply cstr_app in Hs. Qed.

Lemma cstr_cut m m' p l1 l2 : cstr m p (l1 ++ l2) → (∀ i, p <= i < p + Z.of_nat (length l1) → load8 m' i = load8 m i) →
  load8 m' (p + Z.of_nat (length l1)) = 0 → cstr m' p l1.
Proof.
  revert p. induction l1 as [|c l1 IH]; intros p Hs Hsame Hend; cbn in *; [by rewrite Z.add_0_r in Hend|].
  destruct Hs as (H1 & H2 & Hs). rewrite Hsame by lia. split; [done|]. split; [done|]. apply IH; [done|intros i Hi; apply Hsame; lia|].
  by replace (p + 1 + Z.of_nat (length l1)) with (p + Z.of_nat (S (length l1))) by lia.
Qed.

Lemma skip_spaces_spec n p l s Q : cstr (mem s) p l → (length l < n)%nat →
  (∀ j, l = repeat 32 j ++ strip l → Q (p + Z.of_nat j) s) → wp (skip_spaces n p) Q s.
Proof.
  revert p l. induction n as [|n IH]; intros p l Hs Hn HQ; [lia|]. cbn [skip_spaces]. apply wp_bind, wp_gets.
  destruct l as [|c l].
  - cbn in Hs. rewrite Hs. cbn [Z.eqb]. apply wp_ret. specialize (HQ 0%nat eq_refl). by rewrite Z.add_0_r in HQ.
  - destruct Hs as (-> & Hc & Hs). destruct (Z.eqb_spec c 32) as [->|Hne].
    + apply (IH (p + 1) l); [done|cbn in Hn; lia|]. intros j Hj. specialize (HQ (S j)). replace (p + 1 + Z.of_nat j) with (p + Z.of_nat (S j)) by lia.
      apply HQ. cbn. by rewrite <- Hj.
    + apply wp_ret. destruct (strip_spec (c :: l)) as ([|j] & Hj & _); [|by injection Hj as ->].
      specialize (HQ 0%nat Hj). by rewrite Z.add_0_r in HQ.
Qed.

Lemma word_prefix l : l = word l ++ drop (length (word l)) l ∧ (drop (length (word l)) l = [] ∨ head (drop (length (word l)) l) = Some 32).
Proof.
  induction l as [|c l [IH1 IH2]]; [cbn; auto|]. cbn [word]. destruct (Z.eqb_spec c 32) as [->|Hc]; cbn; [auto|].
  split; [by rewrite <- IH1|done].
Qed.

Lemma skip_word_spec n p l s Q : cstr (mem s) p l → (length l < n)%nat →
  Q (p + Z.of_nat (length (word l))) s → wp (skip_word n p) Q s.
Proof.
  revert p l. induction n as [|n IH]; intros p l Hs Hn HQ; [lia|]. cbn [skip_word]. apply wp_bind, wp_gets.
  destruct l as [|c l].
  - cbn in Hs. rewrite Hs. cbn. apply wp_ret. by rewrite Z.add_0_r in HQ.
  - destruct Hs as (-> & Hc & Hs). rewrite (proj2 (truthy_true c)) by done. cbn [word andb] in *. destruct (Z.eqb_spec c 32) as [->|Hne]; cbn [negb].
    + apply wp_ret. by rewrite Z.add_0_r in HQ.
    + apply (IH (p + 1) l); [done|cbn in Hn; lia|]. cbn [length] in HQ. by replace (p + 1 + Z.of_nat (length (word l))) with (p + Z.of_nat (S (length (word l)))) by lia.
Qed.

Lemma lcmp_eq_0 m p q w v : cstr m p w → cstr m q v → lcmp w v = 0 ↔ w = v.
Proof. intros H1 H2. apply lcmp_zero; intros c Hc; eapply cstr_range in Hc; [|done| |done]; lia. Qed.

Fixpoint named (l : list (string * shell_command_t)) (w : list Z) : shell_command_t :=
  match l with [] => SHCMD_UNKNOWN | (n, c) :: l => if decide (w = txt n) then c else named l w end.

Lemma find_command_spec l p w s Q : placed (mem s) → Forall (λ p, txt (fst p) ∈ literals) l → cstr (mem s) p w → (length w < 1024)%nat →
  Q (named l w) s → wp (find_command lit fuel l p) Q s.
Proof.
  intros Hp Hl Hs Hw HQ. induction Hl as [|[n c] l Hin _ IH]; cbn [find_command]; [by apply wp_ret|].
  cbn [fst] in Hin. apply wp_bind. unfold same_string. apply wp_bind, wp_gets, wp_bind. cbv beta.
  pose proof (placed_lit _ Hp _ Hin) as Hlit.
  eapply wp_of_option; [apply (strcmp_lcmp fuel (mem s) p (lit (txt n)) w (txt n)); [done|done|lia]|].
  apply wp_ret. cbn [named] in HQ.
  destruct (decide (w = txt n)) as [->|Hne].
  - rewrite (proj2 (lcmp_eq_0 _ _ _ _ _ Hs Hlit) eq_refl). cbn [Z.eqb]. by apply wp_ret.
  - rewrite (proj2 (Z.eqb_neq _ 0)); [by apply IH|]. intros E. by apply (lcmp_eq_0 _ _ _ _ _ Hs Hlit) in E.
Qed.

(** ** The commands *)

Lemma formats_literal l : l ∈ formats → l ∈ literals.
Proof. intros Hl. apply elem_of_app. by left. Qed.

Lemma with_term_term a b s : with_term b (with_term a s) = with_term (a ++ b) s.
Proof. unfold with_term. cbn. by rewrite app_assoc. Qed.

(** Print a literal format, the [i]-th of [formats]. *)
Ltac say i :=
  first [apply wp_bind; apply print_plain | apply print_plain];
  [try done|apply formats_literal, (list_elem_of_lookup_2 _ i); reflexivity|reflexivity|]; cbv beta; rewrite ?with_term_term, <- ?shown_app.

Lemma cmd_help_spec s Q : placed (mem s) → Q tt (with_term (shown help_text) s) → wp (cmd_help lit null_str pbuf terminal fuel) Q s.
Proof.
  intros Hp HQ. unfold cmd_help. say 1%nat. say 2%nat. say 3%nat. say 4%nat. say 5%nat. say 6%nat. say 7%nat. say 8%nat.
  rewrite <- ?app_assoc. exact HQ.
Qed.

Lemma bird_spec p a s Q : placed (mem s) → cstr (mem s) p a → buffer <= p → p + Z.of_nat (length a) < buffer + 256 →
  Q tt (with_term (shown (bird ++ a ++ [10])) s) →
  wp (print lit null_str pbuf terminal fuel (ln "   \\") [];; print lit null_str pbuf terminal fuel (ln "   (o>") [];;
      print lit null_str pbuf terminal fuel (ln "\\_//)") [];; print lit null_str pbuf terminal fuel (ln " \_/_)") [];;
      print lit null_str pbuf terminal fuel (txt "  _|_  ----> ") [];; print_string lit null_str pbuf terminal fuel p;;
      print lit null_str pbuf terminal fuel (ln "") []) Q s.
Proof.
  intros Hp Ha H1 H2 HQ. say 9%nat. say 10%nat. say 11%nat. say 12%nat. say 13%nat.
  apply wp_bind, (print_string_spec p a); [done..|]. rewrite with_term_term, <- shown_app. say 0%nat.
  rewrite <- ?app_assoc. exact HQ.
Qed.

Lemma unknown_spec p w s Q : placed (mem s) → cstr (mem s) p w → buffer <= p → p + Z.of_nat (length w) < buffer + 256 →
  Q tt (with_term (shown (txt "Unknown command: " ++ w ++ 10 :: ln "Type 'help' for available commands.")) s) →
  wp (print lit null_str pbuf terminal fuel (txt "Unknown command: %s") [p];;
      print lit null_str pbuf terminal fuel (10 :: ln "Type 'help' for available commands.") []) Q s.
Proof.
  intros Hp Hw H1 H2 HQ. apply wp_bind.
  apply (print_spec (map PChar (txt "Unknown command: ") ++ [PField false 0 PNone PS]) [Text p w] _ (txt "Unknown command: " ++ w)); try done.
  - apply formats_literal, (list_elem_of_lookup_2 _ 23%nat). reflexivity.
  - apply Forall_app. split; [by apply plain_ok|by repeat constructor].
  - rewrite plain_text. cbn [pformat_text pconv_text]. unfold padded. rewrite app_nil_r.
    by replace (Z.to_nat (0 - Z.of_nat (length w))) with 0%nat by lia.
  - by apply buffer_text.
  - cbn. lia.
  - rewrite length_app. change (length (txt "Unknown command: ")) with 17%nat. lia.
  - say 14%nat. rewrite <- ?app_assoc. exact HQ.
Qed.

(** ** The commands that report state *)

Definition llu : pdirective := PField false 0 PLL PU.
Definition decimal (n : Z) : list Z := itoa_chars (s32 n) 10.
Lemma plain_field l n ds args : pformat_text (map PChar l ++ llu :: ds) (Word n :: args) =
  match pformat_text ds args with Some t => Some (l ++ decimal n ++ t) | None => None end.
Proof.
  rewrite plain_text. cbn [pformat_text llu pconv_text]. unfold padded.
  replace (Z.to_nat (0 - _)) with 0%nat by lia. by destruct (pformat_text ds args).
Qed.
Lemma words_ok m ns : ptexts_ok null_str pbuf 512 m (map Word ns).
Proof. intros a t Ht. apply list_elem_of_fmap in Ht as (n & ? & _). done. Qed.
Lemma decimal_length n : (length (decimal n) <= 33)%nat.
Proof. apply itoa_chars_length. Qed.

(** A format with two numbers between three plain texts. *)
Lemma print_two l1 l2 l3 n1 n2 l s Q : placed (mem s) → l ∈ literals → l = l1 ++ txt "%llu" ++ l2 ++ txt "%llu" ++ l3 →
  plain l1 && plain l2 && plain l3 = true → (length l1 + length l2 + length l3 <= 100)%nat →
  Q tt (with_term (shown (l1 ++ decimal n1 ++ l2 ++ decimal n2 ++ l3)) s) → wp (printL l [n1; n2]) Q s.
Proof.
  intros Hp Hl El Hpl Hlen HQ. boolprop. pose proof (decimal_length n1). pose proof (decimal_length n2).
  apply (print_spec (map PChar l1 ++ llu :: map PChar l2 ++ llu :: map PChar l3) [Word n1; Word n2] l (l1 ++ decimal n1 ++ l2 ++ decimal n2 ++ l3)); try done.
  - rewrite El. unfold pformat_chars. rewrite map_app, concat_app. cbn [map concat]. rewrite map_app, concat_app. cbn [map concat].
    fold (pformat_chars (map PChar l1)) (pformat_chars (map PChar l2)) (pformat_chars (map PChar l3)). rewrite !plain_chars. done.
  - apply Forall_app. split; [by apply plain_ok|]. constructor; [cbn; lia|]. apply Forall_app. split; [by apply plain_ok|].
    constructor; [cbn; lia|by apply plain_ok].
  - rewrite !plain_field, <- (app_nil_r (map PChar l3)), plain_text. cbn. by rewrite app_nil_r.
  - apply (words_ok _ [n1; n2]).
  - rewrite !length_app; cbn [length]; rewrite !length_app; cbn [length]; rewrite !length_map. lia.
  - rewrite !length_app. lia.
Qed.

Lemma decimal_number n : 0 <= n < 2 ^ 31 → decimal n = number_text 10 false n.
Proof. intros Hn. apply itoa_unsigned; [lia|apply Z.mod_small; lia|lia]. Qed.
Lemma megabytes_small n : 0 <= n < 2 ^ 31 → megabytes n = n * 4 / 1024 ∧ 0 <= megabytes n < 2 ^ 31.
Proof.
  intros Hn. unfold megabytes, PAGE_SIZE. rewrite wrap_small by lia. replace (n * 4 / 1024) with (n / 256).
  - assert (n * 4096 / (1024 * 1024) = n / 256) as ->.
    { change (1024 * 1024) with (256 * 4096). by rewrite Z.div_mul_cancel_r. }
    split; [done|]. split; [by apply Z.div_pos; lia|apply Z.div_lt_upper_bound; lia].
  - change 1024 with (256 * 4). by rewrite Z.div_mul_cancel_r.
Qed.

(** One line of the statistics. *)
Lemma stats_line label n s Q : placed (mem s) → txt label ++ txt "%llu pages (%llu MB)" ++ [10] ∈ literals → plain (txt label) = true →
  (length (txt label) <= 20)%nat → 0 <= n < 2 ^ 31 → Q tt (with_term (shown (stats label n)) s) →
  wp (printL (txt label ++ txt "%llu pages (%llu MB)" ++ [10]) [n; megabytes n]) Q s.
Proof.
  intros Hp Hin Hpl Hlen Hn HQ. destruct (megabytes_small n Hn) as [Em Hm].
  apply (print_two (txt label) (txt " pages (") (ln " MB)") n (megabytes n) _ s); [done|done|by cbn|by rewrite Hpl|cbn; lia|].
  rewrite !decimal_number, Em by done. exact HQ.
Qed.

(** [pmmstats] reports the counters of the frame allocator and their size in
    megabytes. *)
Lemma pmmstats_spec s Q : placed (mem s) → 0 <= pmm_free_pages (frames s) <= pmm_total_pages (frames s) →
  pmm_total_pages (frames s) < 2 ^ 31 →
  Q tt (with_term (shown (stats_text (pmm_total_pages (frames s)) (pmm_free_pages (frames s)))) s) →
  wp (pmmstats lit null_str pbuf terminal fuel) Q s.
Proof.
  intros Hp Hf Ht HQ. unfold pmmstats. do 3 (apply wp_bind; unfold on_frames; apply wp_zoom, wp_gets; cbn [frames]).
  replace (mk_shell (time s) (frames s) (mem s) (term s) (keys s)) with s by by destruct s.
  rewrite (wrap_small 64 (_ - _)) by lia. say 24%nat.
  apply wp_bind, (stats_line "  Total pages: "%string); [done|apply formats_literal, (list_elem_of_lookup_2 _ 25%nat); reflexivity|done|cbn; lia|lia|].
  rewrite with_term_term, <- shown_app.
  apply wp_bind, (stats_line "  Free pages : "%string); [done|apply formats_literal, (list_elem_of_lookup_2 _ 26%nat); reflexivity|done|cbn; lia|lia|].
  rewrite with_term_term, <- shown_app.
  apply wp_bind, (stats_line "  Used pages : "%string); [done|apply formats_literal, (list_elem_of_lookup_2 _ 27%nat); reflexivity|done|cbn; lia|lia|].
  rewrite with_term_term, <- shown_app.
  apply (print_spec (map PChar (txt "  Page size  : ") ++ llu :: map PChar (ln " KB")) [Word 4] _ (ln "  Page size  : 4 KB")); try done.
  - apply formats_literal, (list_elem_of_lookup_2 _ 28%nat). reflexivity.
  - apply Forall_app. split; [by apply plain_ok|]. constructor; [cbn; lia|by apply plain_ok].
  - apply (words_ok _ [4]).
  - cbn. lia.
  - rewrite with_term_term, <- shown_app, <- !app_assoc. exact HQ.
Qed.

(** From the parsed line on. *)
Lemma dispatch_spec p w q a (has_args : bool) t s Q : placed (mem s) → cstr (mem s) p w → cstr (mem s) q a →
  buffer <= p → p + Z.of_nat (length w) < buffer + 256 → buffer <= q → q + Z.of_nat (length a) < buffer + 256 →
  has_args = negb (bool_decide (a = [])) →
  (if decide (w = txt "help") then Some help_text
   else if decide (w = txt "echo") then Some (a ++ [10])
   else if decide (w = txt "clear") then Some (27 :: txt "[2J" ++ 27 :: txt "[H")
   else if decide (w = txt "pmmstats") then
     (if decide (0 <= pmm_free_pages (frames s) <= pmm_total_pages (frames s) ∧ pmm_total_pages (frames s) < 2 ^ 31)
      then Some (stats_text (pmm_total_pages (frames s)) (pmm_free_pages (frames s))) else None)
   else if decide (w = txt "panic" ∨ w = txt "uptime") then None
   else if decide (w = txt "birdsay") then Some (if decide (a = []) then [10] else bird ++ a ++ [10])
   else Some (txt "Unknown command: " ++ w ++ 10 :: ln "Type 'help' for available commands.")) = Some t →
  Q tt (with_term (shown t) s) →
  wp (cmd ← get_command lit fuel p;
      match cmd with
      | SHCMD_HELP => cmd_help lit null_str pbuf terminal fuel
      | SHCMD_ECHO =>
        if has_args then print_string lit null_str pbuf terminal fuel q;; print lit null_str pbuf terminal fuel (ln "") []
        else print_char lit null_str pbuf terminal fuel 10
      | SHCMD_CLEAR => cmd_clear terminal
      | SHCMD_PMMSTATS => pmmstats lit null_str pbuf terminal fuel
      | SHCMD_PANIC => spanic
      | SHCMD_UPTIME => uptime lit null_str pbuf terminal fuel
      | SHCMD_BIRDSAY =>
        if has_args then
          print lit null_str pbuf terminal fuel (ln "   \\") [];; print lit null_str pbuf terminal fuel (ln "   (o>") [];;
          print lit null_str pbuf terminal fuel (ln "\\_//)") [];; print lit null_str pbuf terminal fuel (ln " \_/_)") [];;
          print lit null_str pbuf terminal fuel (txt "  _|_  ----> ") [];; print_string lit null_str pbuf terminal fuel q;;
          print lit null_str pbuf terminal fuel (ln "") []
        else print_char lit null_str pbuf terminal fuel 10
      | SHCMD_UNKNOWN =>
        print lit null_str pbuf terminal fuel (txt "Unknown command: %s") [p];;
        print lit null_str pbuf terminal fuel (10 :: ln "Type 'help' for available commands.") []
      end) Q s.
Proof.
  intros Hp Hw Ha Hp1 Hp2 Hq1 Hq2 -> Ht HQ. apply wp_bind. unfold get_command.
  apply (find_command_spec commands p w); [done| |done|lia|].
  { apply Forall_forall. intros x Hx. apply elem_of_app. right. apply list_elem_of_In in Hx.
    exact (list_elem_of_fmap_2 (λ p, txt (fst p)) commands x Hx). }
  unfold named, commands. assert (∀ c, 0 <= c < 256 → Q tt (with_term (shown [c]) s) → wp (print_char lit null_str pbuf terminal fuel c) Q s) as Hchar.
  { intros c Hc HQc. by apply print_char_spec. }
  destruct (decide (w = txt "help")) as [->|Nh]; [injection Ht as <-; by apply cmd_help_spec|].
  destruct (decide (w = txt "echo")) as [->|Ne]; [injection Ht as <-|].
  { case_bool_decide as Ea; cbn [negb]; [subst a; by apply Hchar|].
    apply wp_bind, (print_string_spec q a); [done..|]. say 0%nat. exact HQ. }
  destruct (decide (w = txt "clear")) as [->|Nc]; [injection Ht as <-|].
  { unfold cmd_clear, mwhen. unfold shown, with_term in HQ. destruct terminal.
    - apply wp_bind, wp_modify, wp_modify. cbn [time frames mem term keys]. by rewrite <- app_assoc.
    - apply wp_ret. rewrite app_nil_r in HQ. by destruct s. }
  destruct (decide (w = txt "pmmstats")) as [->|Np].
  { destruct (decide _) as [[Hf Ht']|]; [injection Ht as <-|done]. by apply pmmstats_spec. }
  destruct (decide (w = txt "panic" ∨ w = txt "uptime")) as [|Ns]; [done|].
  rewrite (decide_False (P := w = txt "panic")) by tauto.
  destruct (decide (w = txt "birdsay")) as [->|Nb]; [injection Ht as <-|].
  { case_bool_decide as Ea; cbn [negb].
    - subst a. by apply Hchar.
    - rewrite decide_False in HQ by done. by apply (bird_spec q a). }
  rewrite decide_False by tauto. injection Ht as <-. by apply (unknown_spec p w).
Qed.

Lemma drop_word_space l d : drop (length (word l)) l = 32 :: d → drop (S (length (word l))) l = d.
Proof. intros E. rewrite <- Nat.add_1_r, <- drop_drop, E. done. Qed.

(** a line is executed as its words say: it gets exactly the reply of its
    command to its arguments (the text of [echo] and [birdsay], the help, the
    clear sequence, the complaint about an unknown word), with blanks before the
    command and between it and the arguments skipped; an empty line gets none.
    Only the line buffer is written. *)
Theorem execute_correct l t s : placed (mem s) → cstr (mem s) buffer l → (length l <= 255)%nat → reply (frames s) l = Some t →
  wp (execute lit null_str pbuf terminal fuel buffer) (λ _ s', ∃ m', s' = mk_shell (time s) (frames s) m' (term s ++ shown t) (keys s) ∧
    within_buffer (mem s) m') s.
Proof.
  intros Hp Hs Hl Ht. unfold execute. pose proof (placed_buffer _ Hp) as [Hb _].
  apply wp_bind, (skip_spaces_spec fuel buffer l); [done|lia|]. intros j Hj.
  set (l1 := strip l) in *. assert (cstr (mem s) (buffer + Z.of_nat j) l1) as Hs1.
  { rewrite Hj in Hs. apply cstr_skip in Hs. by rewrite repeat_length in Hs. }
  assert (j + length l1 <= 255)%nat as Hl1 by (rewrite Hj, length_app, repeat_length in Hl; lia).
  unfold reply, command, arguments in Ht. fold l1 in Ht. change (command l) with (word l1) in Ht.
  apply wp_bind, wp_gets. destruct (decide (l1 = [])) as [E1|N1].
  { rewrite E1 in Hs1. cbn in Hs1. rewrite Hs1. cbn [Z.eqb]. injection Ht as <-. apply wp_ret.
    exists (mem s). split; [|done]. rewrite shown_nil, app_nil_r. by destruct s. }
  assert (load8 (mem s) (buffer + Z.of_nat j) ≠ 0) as Hnz.
  { destruct l1 as [|c l1]; [done|]. by destruct Hs1 as (-> & Hc & _). }
  rewrite (proj2 (Z.eqb_neq _ 0)) by done. apply wp_bind, (skip_word_spec fuel _ l1); [done|lia|].
  destruct (word_prefix l1) as [Hpre Hd]. set (w := word l1) in *. set (p := buffer + Z.of_nat j) in *.
  set (d := drop (length w) l1) in *. assert (length l1 = length w + length d)%nat as Hlen by (rewrite Hpre at 1; by rewrite length_app).
  assert (cstr (mem s) (p + Z.of_nat (length w)) d) as Hsd by (rewrite Hpre in Hs1; by apply cstr_skip in Hs1).
  apply wp_bind, wp_gets. destruct Hd as [Ed|Hd].
  - rewrite Ed in Hsd. cbn in Hsd. rewrite Hsd. change (truthy 0) with false. cbv iota. apply wp_bind, wp_ret.
    assert (l1 = w) as Ew by (rewrite Hpre, Ed; by rewrite app_nil_r).
    apply (dispatch_spec p w (p + Z.of_nat (length w)) [] false t); try done; try lia.
    + by rewrite <- Ew.
    + cbn. lia.
    + rewrite <- Ht.
      assert (strip (drop (S (length w)) l1) = []) as ->; [|done].
      by rewrite drop_ge by (rewrite Hlen, Ed; cbn; lia).
    + exists (mem s). by split.
  - destruct d as [|c d'] eqn:Ed; [done|]. injection Hd as ->. destruct Hsd as (Hc & _ & Hsd). rewrite Hc.
    change (truthy 32) with true. cbv iota. apply wp_bind, wp_bind, wp_modify.
    set (m1 := store8 (mem s) (p + Z.of_nat (length w)) 0). set (s1 := mk_shell _ _ _ _ _). cbn [length] in Hlen.
    assert (within_buffer (mem s) m1) as Hw1 by (intros x Hx; unfold m1; rewrite load8_store8_ne; [done|lia]).
    assert (cstr m1 (p + Z.of_nat (length w) + 1) d') as Hs2 by (eapply cstr_ext; [|exact Hsd]; intros i Hi; unfold m1; rewrite load8_store8_ne; [done|lia]).
    assert (cstr m1 p w) as Hsw.
    { rewrite Hpre in Hs1. eapply cstr_cut; [exact Hs1| |unfold m1; by rewrite load8_store8_eq].
      intros i Hi. unfold m1. rewrite load8_store8_ne; [done|lia]. }
    apply wp_bind, (skip_spaces_spec fuel _ d' s1); [exact Hs2|lia|]. intros j2 Hj2. set (a := strip d') in *.
    assert (cstr m1 (p + Z.of_nat (length w) + 1 + Z.of_nat j2) a) as Hsa.
    { rewrite Hj2 in Hs2. apply cstr_skip in Hs2. by rewrite repeat_length in Hs2. }
    assert (j2 + length a = length d')%nat as Hla by (pose proof (f_equal length Hj2) as E; rewrite length_app, repeat_length in E; lia).
    apply wp_bind, wp_gets, wp_ret.
    apply (dispatch_spec p w (p + Z.of_nat (length w) + 1 + Z.of_nat j2) a _ t s1); try done; try lia.
    + by eapply placed_within.
    + cbn [mem s1]. destruct a as [|c a]; [cbn in Hsa; by rewrite Hsa|]. destruct Hsa as (-> & Hca & _). by apply truthy_true.
    + rewrite <- Ht. pose proof (drop_word_space l1 d' Ed) as E. fold w in E. by rewrite E.
    + exists m1. by split.
Qed.
(** ** The clock *)

(** [uptime] shows the whole seconds of the kernel's clock; on a machine
    whose port accesses are fast the clock stands still and it shows 0 for ever. *)
Theorem uptime_correct s (R : Z → time_state D → Prop) : placed (mem s) → wp (get_time_ms fuel) R (time s) →
  wp (uptime lit null_str pbuf terminal fuel) (λ _ s', ∃ ms, R ms (time s') ∧ mem s' = mem s ∧
    term s' = term s ++ shown (txt "Uptime: " ++ decimal (ms / 1000) ++ ln " second(s)")) s.
Proof.
  intros Hp HR. unfold uptime, on_time. apply wp_bind, wp_zoom. eapply wp_mono; [exact HR|]. intros ms t' Hms.
  pose proof (decimal_length (ms / 1000)).
  apply (print_spec (map PChar (txt "Uptime: ") ++ PField false 0 PNone PD :: map PChar (ln " second(s)")) [Word (ms / 1000)] _
    (txt "Uptime: " ++ decimal (ms / 1000) ++ ln " second(s)")); try done.
  - apply formats_literal, (list_elem_of_lookup_2 _ 29%nat). reflexivity.
  - apply Forall_app. split; [by apply plain_ok|]. constructor; [cbn; lia|by apply plain_ok].
  - rewrite plain_text. cbn [pformat_text pconv_text]. rewrite <- (app_nil_r (map PChar (ln " second(s)"))), plain_text.
    cbn [pformat_text]. unfold padded. replace (Z.to_nat (0 - _)) with 0%nat by lia. by rewrite app_nil_r.
  - apply (words_ok _ [ms / 1000]).
  - cbn. lia.
  - rewrite !length_app. change (length (txt "Uptime: ")) with 8%nat. change (length (ln " second(s)")) with 11%nat. lia.
  - by exists ms.
Qed.

(** ** A session *)

Lemma edited_text l ks : Forall (λ c, 32 <= c < 127) l → Forall (λ c, 32 <= c < 127) (edited l ks).
Proof.
  unfold edited. revert l. induction ks as [|k ks IH]; intros l Hl; [done|]. cbn. apply IH. unfold edit_key.
  destruct (is_erase k); [by apply Forall_take|]. destruct (is_text k && _) eqn:E; [|done].
  apply Forall_app. split; [done|]. unfold is_text in E. boolprop. repeat constructor; lia.
Qed.

(** Keys of one line and the key that ends it. *)
Definition line_ok (p : list Z * Z) : Prop :=
  Forall (λ k, 0 <= k < 256 ∧ is_end k = false) (fst p) ∧ 0 <= snd p < 256 ∧ is_end (snd p) = true ∧ (length (fst p) < fuel)%nat.
Definition transcript (f : mm_state) (ks : list Z) : option (list Z) :=
  match reply f (edited [] ks) with Some t => Some (txt "vnix@root:$> " ++ echoed [] ks ++ 10 :: t) | None => None end.

Lemma shell_round_spec ks e rest t s Q : placed (mem s) → keys s = ks ++ e :: rest → line_ok (ks, e) → transcript (frames s) ks = Some t →
  (∀ m', placed m' → Q tt (mk_shell (time s) (frames s) m' (term s ++ shown t) rest)) →
  wp (shell_round lit null_str pbuf terminal fuel buffer) Q s.
Proof.
  intros Hp Hk (Hks & He1 & He2 & Hn) Ht HQ. unfold transcript in Ht. destruct (reply (frames s) (edited [] ks)) as [r|] eqn:Er; [|done].
  assert (t = txt "vnix@root:$> " ++ echoed [] ks ++ 10 :: r) as -> by congruence. unfold shell_round. say 16%nat.
  apply wp_bind, (read_line_spec fuel [] (with_term (shown (txt "vnix@root:$> ")) s) ks e rest); try done; [cbn; lia|].
  intros m1 Hb Hw. set (l := edited [] ks) in *. pose proof (edited_length [] ks ltac:(cbn; lia)) as Hlen. fold l in Hlen.
  apply wp_bind, wp_modify. cbn [mem time frames term keys with_term]. set (m2 := store8 m1 (buffer + Z.of_nat (length l)) 0).
  assert (within_buffer (mem s) m2) as Hw2.
  { intros x Hx. unfold m2. rewrite load8_store8_ne by lia. by apply Hw. }
  assert (cstr m2 buffer l) as Hs.
  { apply bytes_cstr; [| |unfold m2; by rewrite load8_store8_eq].
    - eapply bytes_ext; [|exact Hb]. intros i Hi. unfold m2. rewrite load8_store8_ne; [done|lia].
    - intros c Hc. pose proof (edited_text [] ks ltac:(by constructor)) as HF. fold l in HF.
      rewrite List.Forall_forall in HF. apply list_elem_of_In in Hc. specialize (HF c Hc). lia. }
  eapply wp_mono; [apply (execute_correct l r); [by eapply placed_within|exact Hs|exact Hlen|exact Er]|].
  intros u s' (m3 & -> & Hw3). cbn [mem time frames term keys] in *. specialize (HQ m3).
  destruct u. rewrite <- !app_assoc, <- !shown_app, <- app_assoc. apply HQ. eapply placed_within; [|exact Hp]. intros x Hx. rewrite Hw3 by done. by apply Hw2.
Qed.

Definition banner : list Z :=
  ln "╔════════════════════════════════════════╗" ++ ln "║   VNiX Interactive Shell v1.2          ║" ++
  ln "║   Type 'help' for available commands   ║" ++ ln "╚════════════════════════════════════════╝" ++ [10].
Fixpoint transcripts (f : mm_state) (lines : list (list Z * Z)) : option (list Z) :=
  match lines with
  | [] => Some []
  | (ks, _) :: lines =>
    match transcript f ks, transcripts f lines with Some t, Some t' => Some (t ++ t') | _, _ => None end
  end.

Lemma shell_rounds_spec lines rest t s Q : placed (mem s) → Forall line_ok lines →
  keys s = concat (map (λ p, fst p ++ [snd p]) lines) ++ rest → transcripts (frames s) lines = Some t →
  (∀ m', placed m' → Q tt (mk_shell (time s) (frames s) m' (term s ++ shown t) rest)) →
  wp (shell_rounds lit null_str pbuf terminal fuel (length lines) buffer) Q s.
Proof.
  intros Hp Hl. revert t s Hp. induction Hl as [|[ks e] lines Hok _ IH]; intros t s Hp Hk Ht HQ; cbn [shell_rounds length].
  - injection Ht as <-. apply wp_ret. specialize (HQ (mem s) Hp). rewrite shown_nil, app_nil_r in HQ. cbn in Hk. rewrite <- Hk in HQ. by destruct s.
  - cbn [transcripts] in Ht. destruct (transcript (frames s) ks) as [t1|] eqn:E1; [|done]. destruct (transcripts (frames s) lines) as [t2|] eqn:E2; [|done].
    injection Ht as <-. cbn [map concat fst snd] in Hk. rewrite <- !app_assoc in Hk. cbn [app] in Hk.
    apply wp_bind, (shell_round_spec ks e (concat (map (λ p, fst p ++ [snd p]) lines) ++ rest) t1); [done|done|done|done|].
    intros m1 Hp1. apply (IH t2); [done|done|done|]. intros m2 Hp2. cbn [time frames term]. rewrite <- app_assoc, <- shown_app. by apply HQ.
Qed.

(** C9: a session at the shell: for every sequence of typed lines whose commands
    are not [panic] and [uptime], corrected with backspace or not, the terminal
    shows the banner and then, line by line, the prompt, the echo of the keys,
    and the reply to the line as edited, at most 255 characters of it: the help,
    the text of [echo] and [birdsay], the clear sequence, the counters of the
    frame allocator for [pmmstats] as long as they fit an [int], the complaint
    about an unknown word, nothing for an empty line.  Every line is answered
    before the next is read.  [panic] halts the kernel and the reply of [uptime]
    is the clock's, so sessions with them are not claimed. *)
Theorem shell_session lines rest t s : placed (mem s) → Forall line_ok lines →
  keys s = concat (map (λ p, fst p ++ [snd p]) lines) ++ rest → transcripts (frames s) lines = Some t →
  wp (shell_main lit null_str pbuf terminal fuel (length lines) buffer) (λ _ s',
    term s' = term s ++ shown (banner ++ t) ∧ keys s' = rest ∧ placed (mem s')) s.
Proof.
  intros Hp Hl Hk Ht. unfold shell_main. say 17%nat. say 18%nat. say 19%nat. say 20%nat.
  apply (shell_rounds_spec lines rest t); [done|done|done|done|]. intros m' Hp'. split; [|done].
  cbn [term with_term]. rewrite <- app_assoc, <- shown_app. unfold banner. by rewrite <- !app_assoc.
Qed.
End layout.

(** ** A machine to try it on *)

Definition lit_demo : list Z → Z := link literals 0x2000.
Definition rodata : mem_t := foldl (λ m l, put_string m (lit_demo l) l) ∅ literals.
Definition keys_demo : list Z := txt "ecgx" ++ [8; 8] ++ txt "ho  good day".
Definition shell_demo : shell_state TimeProps.timer :=
  mk_shell (TimeProps.clock_demo 7000) (mk_mm ∅ 0 0 0 0 0 0) rodata [] (keys_demo ++ [10]).
Definition shell_session_demo : shell_state TimeProps.timer :=
  mk_shell (TimeProps.clock_demo 7000) (mk_mm ∅ 0 0 1024 500 0 0) rodata [] (keys_demo ++ [10] ++ txt "pmmstats" ++ [13]).

Lemma demo_placed : placed lit_demo 0x800 0x1000 (mem shell_demo).
Proof.
  assert (forallb (λ l, cstr_b rodata (lit_demo l) l && (0x1100 <=? lit_demo l)) literals = true) as Hb by (vm_compute; reflexivity).
  rewrite forallb_forall in Hb.
  assert (∀ l, l ∈ literals → cstr rodata (lit_demo l) l ∧ 0x1100 <= lit_demo l) as Hl.
  { intros l Hl. apply list_elem_of_In in Hl. specialize (Hb l Hl). apply andb_true_iff in Hb as [H1 H2].
    split; [by apply cstr_b_sound|by apply Z.leb_le]. }
  constructor; [by intros l [? _]%Hl|intros l [_ ?]%Hl; right; exact H|intros l [_ ?]%Hl; right; lia|lia].
Qed.

Lemma shell_session_witness :
  let t := txt "vnix@root:$> " ++ txt "ecgx" ++ [8; 32; 8; 8; 32; 8] ++ txt "ho  good day" ++ [10] ++ ln "good day" ++
    txt "vnix@root:$> " ++ ln "pmmstats" ++ ln "PMM Statistics:" ++ ln "  Total pages: 1024 pages (4 MB)" ++
    ln "  Free pages : 500 pages (1 MB)" ++ ln "  Used pages : 524 pages (2 MB)" ++ ln "  Page size  : 4 KB" in
  wp (shell_main lit_demo 0x900 0x800 true 1024 2 0x1000) (λ _ s', term s' = banner ++ t) shell_session_demo.
Proof.
  intros t. eapply wp_mono; [apply (shell_session lit_demo 0x900 0x800 0x1000 true 1024 ltac:(lia) [(keys_demo, 10); (txt "pmmstats", 13)] []
    t shell_session_demo demo_placed)|].
  - repeat (constructor; [split; [|split; [done|split; [done|vm_compute; lia]]]; apply (bool_decide_unpack _); vm_compute; exact I|]).
    constructor.
  - reflexivity.
  - vm_compute. reflexivity.
  - intros u s' (H & _). exact H.
Defined.

Lemma execute_correct_witness :
  let line := txt "  birdsay   tweet" in
  wp (execute lit_demo 0x900 0x800 true 1024 0x1000) (λ _ s', term s' = bird ++ ln "tweet")
    (mk_shell (time shell_demo) (frames shell_demo) (put_string rodata 0x1000 line) [] []).
Proof.
  intros line.
  assert (within_buffer 0x1000 rodata (put_string rodata 0x1000 line)) as Hw.
  { intros x Hx. unfold put_string. destruct (put_chars_spec rodata 0x1000 (line ++ [0])) as (m' & -> & _ & Ho).
    - intros c Hc. apply list_elem_of_In in Hc. revert c Hc. apply List.Forall_forall, (bool_decide_unpack _). vm_compute. exact I.
    - cbn [fst]. apply Ho. cbn. lia. }
  eapply wp_mono; [apply (execute_correct lit_demo 0x900 0x800 0x1000 true 1024 ltac:(lia) line (bird ++ ln "tweet"))|].
  - eapply placed_within; [exact Hw|exact demo_placed].
  - apply cstr_b_sound. vm_compute. reflexivity.
  - cbn. lia.
  - vm_compute. reflexivity.
  - intros u s' (m' & -> & _). reflexivity.
Defined.

Lemma uptime_correct_witness :
  wp (uptime lit_demo 0x900 0x800 true 1024) (λ _ s', term s' = ln "Uptime: 0 second(s)")
    (mk_shell (clock_demo 2000) (frames shell_demo) rodata [] []).
Proof.
  eapply wp_mono; [apply (uptime_correct lit_demo 0x900 0x800 0x1000 true 1024 ltac:(lia)); [exact demo_placed|]|].
  - destruct (clock_stands_still 1024 (clock_demo 2000) 0) as [H _]; [by apply machine_ok|done|done|done|done|lia|done|exact H].
  - intros u s' (ms & [-> _] & _ & H). rewrite H. reflexivity.
Defined.
