(* ===== verification/Serial.v ===== *)
(** * The serial console ([tools/serial.c])

    The UART over the port class of [Io]; formats and strings are read from a
    byte memory, [printk] formats into its static buffer with [vsprintf].
    Polling loops and string loops take fuel. *)

From stdpp Require Import prelude gmap list numbers tactics.
From S2P Require Import Prelude Memory KString KStdlib KStdio KPrintf Io.

Definition SERIAL_COM1 : Z := 0x3F8.

Section serial.
Context {D : Type} `{Bus D}.

Definition serial_init : M D unit :=
  outb (SERIAL_COM1 + 1) 0x00;;
  outb (SERIAL_COM1 + 3) 0x80;;
  outb (SERIAL_COM1 + 0) 0x01;;
  outb (SERIAL_COM1 + 1) 0x00;;
  outb (SERIAL_COM1 + 3) 0x03;;
  outb (SERIAL_COM1 + 2) 0xC7;;
  outb (SERIAL_COM1 + 4) 0x0B.

Fixpoint serial_wait_tx (fuel : nat) : M D unit :=
  match fuel with
  | O => mstop
  | S fuel => v ← inb (SERIAL_COM1 + 5); if truthy (Z.land v 0x20) then mret tt else serial_wait_tx fuel
  end.
Definition putc (fuel : nat) (c : Z) : M D unit := serial_wait_tx fuel;; outb SERIAL_COM1 (u8 c).
Fixpoint putcs (fuel : nat) (l : list Z) : M D unit :=
  match l with [] => mret tt | c :: l => putc fuel c;; putcs fuel l end.

(** [strlen] is evaluated again before every character. *)
Fixpoint write_loop (n fuel : nat) (m : mem_t) (msg i : Z) : M D unit :=
  match n with
  | O => mstop
  | S n =>
    len ← of_option (strlen fuel m msg);
    if i <? len then
      let c := load8 m (msg + i) in
      mwhen (c =? 10) (putc fuel 13);;
      putc fuel c;;
      write_loop n fuel m msg (i + 1)
    else mret tt
  end.
Definition serial_write (fuel : nat) (m : mem_t) (msg : Z) : M D unit := write_loop fuel fuel m msg 0.

(** The digits in [buffer], the least significant first. *)
Fixpoint hex_buffer (n : nat) (buffer : list Z) (num : Z) : list Z :=
  match n with
  | O => buffer
  | S n =>
    if 0 <? num then
      let d := Z.land num 0xF in
      hex_buffer n (buffer ++ [if d <? 10 then 48 + d else 87 + d]) (Z.shiftr num 4)
    else buffer
  end.
Definition serial_print_hex (fuel : nat) (num width : Z) : M D unit :=
  if num =? 0 then putc fuel 48
  else
    let buffer := hex_buffer 16 [] num in
    let buffer := buffer ++ replicate (Z.to_nat (width - Z.of_nat (length buffer))) 48 in
    putcs fuel (reverse buffer).

Fixpoint dec_buffer (n : nat) (buffer : list Z) (num : Z) : option (list Z) :=
  if 0 <? num then
    match n with
    | O => None                                    (* the array has 20 elements *)
    | S n => dec_buffer n (buffer ++ [48 + num mod 10]) (num / 10)
    end
  else Some buffer.
Definition serial_print_dec (fuel : nat) (num : Z) : M D unit :=
  mwhen (num <? 0) (putc fuel 45);;
  let num := if num <? 0 then s64 (- num) else num in
  if num =? 0 then putc fuel 48
  else buffer ← of_option (dec_buffer 20 [] num); putcs fuel (reverse buffer).

Definition serial_convert (fuel : nat) (m : mem_t) (c : Z) (is_long is_longlong : bool) (args : list Z) : M D (list Z) :=
  if (c =? 100) || (c =? 105) then                         (* d, i *)
    '(a, args) ← of_option (va_arg args); serial_print_dec fuel (s32 a);; mret args
  else if c =? 117 then                                     (* u *)
    '(a, args) ← of_option (va_arg args); serial_print_dec fuel (u32 a);; mret args
  else if (c =? 120) || (c =? 88) then                      (* x, X *)
    '(a, args) ← of_option (va_arg args);
    let val := if is_longlong || is_long then u64 a else u32 a in
    mwhen (is_longlong || (c =? 120) && negb (val =? 0)) (putcs fuel [48; 120]);;
    serial_print_hex fuel val (if is_longlong || is_long then 16 else 0);;
    mret args
  else if c =? 112 then                                     (* p *)
    putcs fuel [48; 120];;
    '(a, args) ← of_option (va_arg args); serial_print_hex fuel (u64 a) 0;; mret args
  else if c =? 115 then                                     (* s *)
    '(a, args) ← of_option (va_arg args); serial_write fuel m a;; mret args
  else if c =? 99 then                                      (* c *)
    '(a, args) ← of_option (va_arg args); putc fuel (u8 a);; mret args
  else if c =? 37 then putc fuel 37;; mret args
  else putc fuel 37;; putc fuel c;; mret args.

Fixpoint serial_loop (n fuel : nat) (m : mem_t) (p : Z) (args : list Z) : M D unit :=
  match n with
  | O => mstop
  | S n =>
    let c := load8 m p in
    if c =? 0 then mret tt
    else if (c =? 37) && truthy (load8 m (p + 1)) then
      let '(is_long, is_longlong, p) := printf_length m (p + 1) in
      args ← serial_convert fuel m (load8 m p) is_long is_longlong args;
      serial_loop n fuel m (p + 1) args
    else
      mwhen (c =? 10) (putc fuel 13);;
      putc fuel c;;
      serial_loop n fuel m (p + 1) args
  end.
Definition serial_printf (fuel : nat) (m : mem_t) (fmt : Z) (args : list Z) : M D unit := serial_loop fuel fuel m fmt args.

(** [buf] is the static buffer; [serial_write] reads what [vsprintf] left there. *)
Definition printk (fuel : nat) (null_str buf : Z) (m : mem_t) (fmt : Z) (args : list Z) : M D (mem_t * Z) :=
  '(m, i) ← of_option (vsprintf fuel null_str m buf fmt args);
  serial_write fuel m buf;;
  mret (m, i).
End serial.

(** ** A UART *)

Record uart := mk_uart {
  delay : nat; waiting : nat;           (* status reads until the transmitter is empty *)
  lcr : Z; ier : Z; fcr : Z; mcr : Z; divisor : Z * Z;
  sent : list Z
}.
Definition set_waiting (n : nat) (u : uart) : uart := mk_uart (delay u) n (lcr u) (ier u) (fcr u) (mcr u) (divisor u) (sent u).
Definition dlab (u : uart) : bool := Z.testbit (lcr u) 7.
Definition uart_out (port v : Z) (u : uart) : uart :=
  if port =? 0x3F8 then
    if dlab u then mk_uart (delay u) (waiting u) (lcr u) (ier u) (fcr u) (mcr u) (v, snd (divisor u)) (sent u)
    else match waiting u with
         | O => mk_uart (delay u) (delay u) (lcr u) (ier u) (fcr u) (mcr u) (divisor u) (sent u ++ [v])
         | _ => u                       (* overrun *)
         end
  else if port =? 0x3F9 then
    if dlab u then mk_uart (delay u) (waiting u) (lcr u) (ier u) (fcr u) (mcr u) (fst (divisor u), v) (sent u)
    else mk_uart (delay u) (waiting u) (lcr u) v (fcr u) (mcr u) (divisor u) (sent u)
  else if port =? 0x3FA then mk_uart (delay u) (waiting u) (lcr u) (ier u) v (mcr u) (divisor u) (sent u)
  else if port =? 0x3FB then mk_uart (delay u) (waiting u) v (ier u) (fcr u) (mcr u) (divisor u) (sent u)
  else if port =? 0x3FC then mk_uart (delay u) (waiting u) (lcr u) (ier u) (fcr u) v (divisor u) (sent u)
  else u.
#[export] Instance uart_bus : Bus uart := {|
  bus_in w port u := if port =? 0x3FD then (match waiting u with O => 0x60 | _ => 0 end, set_waiting (pred (waiting u)) u) else (0, u);
  bus_out w port v u := uart_out port v u;
  mmio_read a u := (0, u); mmio_write a v u := u;
  msr_read r u := 0; msr_write r v u := u; cr4_read u := 0; cr4_write v u := u
|}.

(** The console is set up and [fuel] outlasts a character. *)
Definition console (fuel : nat) (u : uart) : Prop := dlab u = false ∧ (delay u < fuel)%nat ∧ (waiting u < fuel)%nat.
Definition after (l : list Z) (u u' : uart) : Prop :=
  sent u' = sent u ++ l ∧ lcr u' = lcr u ∧ delay u' = delay u ∧ (waiting u' <= Nat.max (delay u) (waiting u))%nat.

Lemma after_nil u : after [] u u.
Proof. unfold after. rewrite app_nil_r. repeat split; lia. Qed.
Lemma after_app a b u1 u2 u3 : after a u1 u2 → after b u2 u3 → after (a ++ b) u1 u3.
Proof. intros (A1 & A2 & A3 & A4) (B1 & B2 & B3 & B4). unfold after. rewrite B1, A1, B2, B3, app_assoc. repeat split; [done|done|lia]. Qed.
Lemma after_console fuel l u u' : console fuel u → after l u u' → console fuel u'.
Proof. intros (C1 & C2 & C3) (A1 & A2 & A3 & A4). unfold console, dlab in *. rewrite A2, A3. repeat split; [done|done|lia]. Qed.

Section console.
Context (fuel : nat).
Implicit Types (u : uart).

Lemma wait_tx_spec n u Q : (waiting u < n)%nat → Q tt (set_waiting 0 u) → wp (serial_wait_tx n) Q u.
Proof.
  revert u. induction n as [|n IH]; intros u Hn HQ; [lia|]. cbn [serial_wait_tx]. apply wp_bind. unfold inb, port_in, wp at 1. cbn [bus_in uart_bus].
  change (SERIAL_COM1 + 5 =? 0x3FD) with true. cbv iota. destruct (waiting u) as [|w] eqn:E; cbn [pred].
  - change (truthy (Z.land (wrap 8 96) 32)) with true. cbv iota. by apply wp_ret.
  - change (truthy (Z.land (wrap 8 0) 32)) with false. cbv iota. apply IH; [cbn; lia|]. exact HQ.
Qed.

Lemma putc_spec c u Q : console fuel u → (∀ u', after [u8 c] u u' → Q tt u') → wp (putc fuel c) Q u.
Proof.
  intros (C1 & C2 & C3) HQ. unfold putc. apply wp_bind, wait_tx_spec; [done|]. unfold outb, port_out. apply wp_modify.
  cbn [bus_out uart_bus]. unfold uart_out. change (SERIAL_COM1 =? 0x3F8) with true. cbv iota. change (dlab (set_waiting 0 u)) with (dlab u).
  rewrite C1. cbn [waiting set_waiting delay lcr ier fcr mcr divisor sent]. apply HQ. rewrite wrap_wrap. unfold after. cbn. repeat split. lia.
Qed.

Lemma putcs_spec l u Q : console fuel u → Forall (λ c, 0 <= c < 256) l → (∀ u', after l u u' → Q tt u') → wp (putcs fuel l) Q u.
Proof.
  intros Hc Hl. revert u Hc. induction Hl as [|c l Hc0 _ IH]; intros u Hc HQ; cbn [putcs]; [apply wp_ret, HQ, after_nil|].
  apply wp_bind, putc_spec; [done|]. intros u1 A1. rewrite wrap_small in A1 by done. apply IH; [by eapply after_console|].
  intros u2 A2. apply HQ. by eapply (after_app [c] l).
Qed.

(** Newlines go out as CR LF. *)
Definition crlf (l : list Z) : list Z := concat (map (λ c, if c =? 10 then [13; 10] else [c]) l).

Lemma crlf_cons c l : crlf (c :: l) = crlf [c] ++ crlf l.
Proof. unfold crlf. cbn. by rewrite app_nil_r. Qed.

Lemma put_crlf {A} c (k : M uart A) u Q : console fuel u → 0 <= c < 256 → (∀ u', after (crlf [c]) u u' → wp k Q u') →
  wp (mwhen (c =? 10) (putc fuel 13);; putc fuel c;; k) Q u.
Proof.
  intros Hc Hr HQ. unfold crlf in HQ. cbn in HQ. apply wp_bind. destruct (c =? 10) eqn:E; cbn [mwhen].
  - apply putc_spec; [done|]. intros u1 A1. apply wp_bind, putc_spec; [by eapply after_console|]. intros u2 A2. apply HQ.
    boolprop. subst c. by eapply (after_app [13] [10]).
  - apply wp_ret, wp_bind, putc_spec; [done|]. intros u1 A1. rewrite wrap_small in A1 by done. by apply HQ.
Qed.

Lemma write_loop_spec n m msg l1 l2 u Q : cstr m msg (l1 ++ l2) → (length (l1 ++ l2) < fuel)%nat → (length l2 < n)%nat → Z.of_nat fuel < 2 ^ 64 →
  console fuel u → (∀ u', after (crlf l2) u u' → Q tt u') → wp (write_loop n fuel m msg (Z.of_nat (length l1))) Q u.
Proof.
  intros Hs Hf. revert n l1 u Hs Hf. induction l2 as [|c l2 IH]; intros n l1 u Hs Hf Hn Hb Hc HQ; (destruct n as [|n]; [cbn in Hn; lia|]); cbn [write_loop].
  all: apply wp_bind; eapply wp_of_option; [apply (strlen_spec fuel m msg _ Hs Hf); lia|]; rewrite length_app in *; cbn [length] in *.
  - rewrite (proj2 (Z.ltb_ge _ _)) by lia. apply wp_ret, HQ, after_nil.
  - rewrite (proj2 (Z.ltb_lt _ _)) by lia.
    pose proof (cstr_app _ _ _ _ Hs) as (E & Hnz & _). rewrite E. cbv zeta.
    apply put_crlf; [done|pose proof (load8_range m (msg + Z.of_nat (length l1))); lia|]. intros u1 A1.
    replace (Z.of_nat (length l1) + 1) with (Z.of_nat (length (l1 ++ [c]))) by (rewrite length_app; cbn; lia).
    apply IH; [by rewrite <- app_assoc|rewrite !length_app; cbn [length]; lia|lia|done|by eapply after_console|].
    intros u2 A2. apply HQ. rewrite crlf_cons. by eapply after_app.
Qed.
Lemma serial_write_spec m msg l u Q : cstr m msg l → (length l < fuel)%nat → Z.of_nat fuel < 2 ^ 64 → console fuel u →
  (∀ u', after (crlf l) u u' → Q tt u') → wp (serial_write fuel m msg) Q u.
Proof. intros Hs Hf Hb Hc HQ. apply (write_loop_spec fuel m msg [] l); done. Qed.

(** ** Numbers *)

Lemma hex_buffer_spec n buffer num : 0 <= num → hex_buffer n buffer num = buffer ++ map (hex_char false) (digs n 16 num).
Proof.
  revert buffer num. induction n as [|n IH]; intros buffer num Hn; cbn [hex_buffer digs map]; [by rewrite app_nil_r|].
  destruct (Z.ltb_spec 0 num); [|replace num with 0 by lia; cbn; by rewrite app_nil_r].
  rewrite (proj2 (Z.eqb_neq num 0)) by lia. rewrite Z.shiftr_div_pow2, (land_low num 4) by done. change (2 ^ 4) with 16.
  rewrite IH by (apply Z.div_pos; lia). cbn [map]. rewrite <- app_assoc. cbn [app]. do 2 f_equal. unfold hex_char.
  destruct (num mod 16 <? 10); lia.
Qed.
Lemma dec_buffer_spec n buffer num : 0 <= num < 10 ^ Z.of_nat n → dec_buffer n buffer num = Some (buffer ++ map (hex_char false) (digs n 10 num)).
Proof.
  revert buffer num. induction n as [|n IH]; intros buffer num Hn; cbn [dec_buffer digs map].
  - cbn in Hn. rewrite (proj2 (Z.ltb_ge 0 num)) by lia. by rewrite app_nil_r.
  - destruct (Z.ltb_spec 0 num); [|replace num with 0 by lia; cbn; by rewrite app_nil_r].
    rewrite (proj2 (Z.eqb_neq num 0)) by lia. rewrite Nat2Z.inj_succ, Z.pow_succ_r in Hn by lia.
    rewrite IH by (split; [apply Z.div_pos; lia|apply Z.div_lt_upper_bound; lia]). cbn [map]. rewrite <- app_assoc. cbn [app]. do 3 f_equal.
    unfold hex_char. pose proof (Z.mod_pos_bound num 10 ltac:(lia)). by rewrite (proj2 (Z.ltb_lt _ _)) by lia.
Qed.

(** A number padded with zeros to [width] digits, zero itself excepted. *)
Definition hex_text (num width : Z) : list Z :=
  if num =? 0 then [48]
  else let l := number_text 16 false num in replicate (Z.to_nat (width - Z.of_nat (length l))) 48 ++ l.

Lemma number_text_digs k base num : 2 <= base → num ≠ 0 → 0 <= num < base ^ Z.of_nat k → (k <= 64)%nat →
  number_text base false num = reverse (map (hex_char false) (digs k base num)).
Proof.
  intros Hb Hnz Hn Hk. unfold number_text. rewrite (proj2 (Z.eqb_neq num 0)) by done. rewrite map_reverse.
  by replace 64%nat with (k + (64 - k))%nat by lia; rewrite digs_stable by lia.
Qed.

Lemma digits_bytes k base n : 2 <= base <= 16 → Forall (λ c, 0 <= c < 256) (reverse (map (hex_char false) (digs k base n))).
Proof.
  intros Hb. apply List.Forall_forall. intros c Hin. apply list_elem_of_In in Hin. rewrite elem_of_reverse in Hin.
  apply list_elem_of_fmap in Hin as (d & -> & Hd). apply hex_char_range. pose proof (digs_range k base n d ltac:(lia) Hd). lia.
Qed.

Lemma print_hex_spec num width u Q : console fuel u → 0 <= num < 2 ^ 64 → 0 <= width <= 16 →
  (∀ u', after (hex_text num width) u u' → Q tt u') → wp (serial_print_hex fuel num width) Q u.
Proof.
  intros Hc Hn Hw HQ. unfold serial_print_hex, hex_text in *. destruct (Z.eqb_spec num 0) as [->|Hnz]; [by apply putc_spec|].
  rewrite hex_buffer_spec, app_nil_l by lia. cbv zeta in *. rewrite (number_text_digs 16 16) in HQ by (done || lia).
  rewrite length_reverse in HQ. rewrite reverse_app, reverse_replicate. apply putcs_spec; [done| |exact HQ].
  apply Forall_app. split; [by apply Forall_replicate|by apply digits_bytes].
Qed.

Lemma print_dec_spec num u Q : console fuel u → - 2 ^ 63 < num < 2 ^ 63 → (∀ u', after (signed_text num) u u' → Q tt u') →
  wp (serial_print_dec fuel num) Q u.
Proof.
  intros Hc Hn HQ. unfold serial_print_dec, signed_text in *.
  assert (∀ v u1 R, console fuel u1 → 0 <= v < 2 ^ 63 → (∀ u', after (number_text 10 false v) u1 u' → R tt u') →
    wp (if v =? 0 then putc fuel 48 else buffer ← of_option (dec_buffer 20 [] v); putcs fuel (reverse buffer)) R u1) as Hpos.
  { intros v u1 R Hc1 Hv HR. destruct (Z.eqb_spec v 0) as [->|Hnz]; [by apply putc_spec|].
    apply wp_bind. eapply wp_of_option; [apply dec_buffer_spec; lia|]. rewrite app_nil_l.
    rewrite (number_text_digs 20 10) in HR by (done || lia). apply putcs_spec; [done|by apply digits_bytes|done]. }
  apply wp_bind. destruct (Z.ltb_spec num 0); cbn [mwhen].
  - apply putc_spec; [done|]. intros u1 A1. rewrite (swrap_small 64) by lia. apply Hpos; [by eapply after_console|lia|].
    intros u2 A2. apply HQ. by eapply (after_app [45]).
  - apply wp_ret, Hpos; [done|lia|done].
Qed.

(** ** Formats *)

Inductive sconv := SD | SI | SU | SX | SUpX | SP | SS | SC.
Inductive sdirective := SChar (c : Z) | SPercent | SField (l : plen) (cv : sconv).

Definition sconv_char (cv : sconv) : Z :=
  match cv with SD => 100 | SI => 105 | SU => 117 | SX => 120 | SUpX => 88 | SP => 112 | SS => 115 | SC => 99 end.
Definition sdirective_chars (d : sdirective) : list Z :=
  match d with SChar c => [c] | SPercent => [37; 37] | SField l cv => 37 :: plen_chars l ++ [sconv_char cv] end.
Definition sformat_chars (ds : list sdirective) : list Z := concat (map sdirective_chars ds).

Definition hex_field (prefix : bool) (l : plen) (a : Z) : list Z :=
  let wide := match l with PNone => false | _ => true end in
  let val := if wide then u64 a else u32 a in
  (if snd (plen_flags l) || prefix && negb (val =? 0) then [48; 120] else []) ++ hex_text val (if wide then 16 else 0).
Definition sconv_text (l : plen) (cv : sconv) (v : varg) : option (list Z) :=
  match cv, v with
  | SD, Word a | SI, Word a => Some (signed_text (s32 a))
  | SU, Word a => Some (number_text 10 false (u32 a))
  | SX, Word a => Some (hex_field true l a)
  | SUpX, Word a => Some (hex_field false l a)
  | SP, Word a => Some ([48; 120] ++ hex_text (u64 a) 0)
  | SS, Text _ s => Some (crlf s)
  | SC, Word a => Some [u8 a]
  | _, _ => None
  end.
Fixpoint sformat_text (ds : list sdirective) (args : list varg) : option (list Z) :=
  match ds with
  | [] => Some []
  | SChar c :: ds => match sformat_text ds args with Some t => Some (crlf [c] ++ t) | None => None end
  | SPercent :: ds => match sformat_text ds args with Some t => Some (37 :: t) | None => None end
  | SField l cv :: ds =>
    match args with
    | [] => None
    | v :: args =>
      match sconv_text l cv v, sformat_text ds args with
      | Some t, Some t' => Some (t ++ t')
      | _, _ => None
      end
    end
  end.
Definition sdirective_ok (d : sdirective) : Prop := match d with SChar c => 0 < c < 256 ∧ c ≠ 37 | _ => True end.
Definition sarg_ok (m : mem_t) (v : varg) : Prop := match v with Word _ => True | Text a s => cstr m a s ∧ (length s < fuel)%nat end.

Lemma sprintf_length m a l cv rest : cstr m a (plen_chars l ++ sconv_char cv :: rest) →
  printf_length m a = ((plen_flags l).1, (plen_flags l).2, a + Z.of_nat (length (plen_chars l))).
Proof.
  intros Hs. assert (sconv_char cv ≠ 108 ∧ sconv_char cv ≠ 76) as [H1 H2] by (destruct cv; done). unfold printf_length.
  destruct l; cbn in Hs; repeat destruct Hs as (? & _ & Hs); cbn [plen_flags plen_chars length fst snd];
    repeat match goal with H : load8 m _ = _ |- _ => rewrite H; clear H end; cbn [Z.eqb Pos.eqb];
    rewrite ?(proj2 (Z.eqb_neq (sconv_char cv) _)) by done; try done; by rewrite Z.add_0_r.
Qed.

Lemma print_hex_field {A} prefix l a (k : M uart A) u Q : console fuel u → (∀ u', after (hex_field prefix l a) u u' → wp k Q u') →
  let wide := snd (plen_flags l) || fst (plen_flags l) in
  let val := if wide then u64 a else u32 a in
  wp (mwhen (snd (plen_flags l) || prefix && negb (val =? 0)) (putcs fuel [48; 120]);;
      serial_print_hex fuel val (if wide then 16 else 0);; k) Q u.
Proof.
  intros Hc HQ wide val. pose proof (wrap_range 64 a ltac:(lia)). pose proof (wrap_range 32 a ltac:(lia)).
  assert (wide = match l with PNone => false | _ => true end) as Ew by (by destruct l).
  unfold hex_field in HQ. rewrite <- Ew in HQ. cbv zeta in HQ. fold val in HQ.
  assert (0 <= val < 2 ^ 64) as Hv by (unfold val; destruct wide; lia).
  apply wp_bind. destruct (snd (plen_flags l) || prefix && negb (val =? 0)); cbn [mwhen].
  - apply putcs_spec; [done|by repeat constructor|]. intros u1 A1. apply wp_bind, print_hex_spec; [by eapply after_console|done|by destruct wide|].
    intros u2 A2. apply HQ. by eapply after_app.
  - apply wp_ret, wp_bind, print_hex_spec; [done|done|by destruct wide|done].
Qed.

Lemma serial_convert_spec m l cv v args t u Q : sconv_text l cv v = Some t → sarg_ok m v → Z.of_nat fuel < 2 ^ 64 → console fuel u →
  (∀ u', after t u u' → Q args u') →
  wp (serial_convert fuel m (sconv_char cv) (plen_flags l).1 (plen_flags l).2 (varg_word v :: args)) Q u.
Proof.
  intros Ht Hv Hf Hc HQ. pose proof (wrap_range 64 (varg_word v) ltac:(lia)). pose proof (wrap_range 32 (varg_word v) ltac:(lia)).
  pose proof (swrap_range 32 (varg_word v) ltac:(lia)) as Hsr. change (2 ^ (32 - 1)) with (2 ^ 31) in Hsr.
  destruct cv, v as [a|a s]; try discriminate Ht; assert (Some t = Some t) as _ by done; unfold serial_convert; cbn [sconv_char varg_word] in *;
    cbn [Z.eqb Pos.eqb orb andb].
  all: try (apply wp_bind; eapply wp_of_option; [reflexivity|]).
  - apply wp_bind, print_dec_spec; [done|lia|]. intros u' A. apply wp_ret, HQ. injection Ht as <-. exact A.
  - apply wp_bind, print_dec_spec; [done|lia|]. intros u' A. apply wp_ret, HQ. injection Ht as <-. exact A.
  - apply wp_bind, print_dec_spec; [done|lia|]. intros u' A. apply wp_ret, HQ. injection Ht as <-. unfold signed_text in A.
    by rewrite (proj2 (Z.ltb_ge (u32 a) 0)) in A by lia.
  - apply (print_hex_field true); [done|]. intros u' A. apply wp_ret, HQ. injection Ht as <-. exact A.
  - apply (print_hex_field false); [done|]. intros u' A. apply wp_ret, HQ. injection Ht as <-. exact A.
  - apply wp_bind, putcs_spec; [done|by repeat constructor|]. intros u1 A1. apply wp_bind. eapply wp_of_option; [reflexivity|].
    apply wp_bind, print_hex_spec; [by eapply after_console|done|done|]. intros u2 A2. apply wp_ret, HQ. injection Ht as <-. exact (after_app [48; 120] _ _ _ _ A1 A2).
  - destruct Hv as [Hs Hl]. apply wp_bind, (serial_write_spec m a s); [done|done|done|done|]. intros u' A. apply wp_ret, HQ. injection Ht as <-. exact A.
  - apply wp_bind, putc_spec; [done|]. intros u' A. apply wp_ret, HQ. injection Ht as <-. by rewrite wrap_wrap in A.
Qed.

Lemma serial_loop_spec ds n m p args t u : Forall sdirective_ok ds → sformat_text ds args = Some t → cstr m p (sformat_chars ds) →
  Forall (sarg_ok m) args → (length ds < n)%nat → Z.of_nat fuel < 2 ^ 64 → console fuel u →
  wp (serial_loop n fuel m p (map varg_word args)) (λ _ u', after t u u') u.
Proof.
  intros Hds. revert n p args t u. induction Hds as [|d ds Hd _ IH]; intros n p args t u Ht Hs Ha Hn Hf Hc;
    (destruct n as [|n]; [cbn in Hn; lia|]); cbn [serial_loop length] in *.
  - injection Ht as <-. cbn in Hs. rewrite Hs. cbn [Z.eqb]. apply wp_ret, after_nil.
  - destruct d as [c| |l cv]; cbn [sformat_text] in Ht.
    + destruct Hd as [H1 H2]. destruct (sformat_text ds args) as [t'|] eqn:Et; [|done].
      assert (t = crlf [c] ++ t') as -> by congruence. change (sformat_chars (SChar c :: ds)) with (c :: sformat_chars ds) in Hs.
      destruct Hs as (-> & _ & Hs). rewrite (proj2 (Z.eqb_neq c 0)), (proj2 (Z.eqb_neq c 37)) by lia. cbn [andb].
      apply put_crlf; [done|lia|]. intros u1 A1.
      eapply wp_mono; [apply (IH n (p + 1) args t'); [done|done|done|lia|done|by eapply after_console]|]. intros ? u2 A2. by eapply after_app.
    + destruct (sformat_text ds args) as [t'|] eqn:Et; [|done]. assert (t = 37 :: t') as -> by congruence. change (37 :: t') with ([37] ++ t').
      change (sformat_chars (SPercent :: ds)) with (37 :: 37 :: sformat_chars ds) in Hs. destruct Hs as (-> & _ & E & _ & Hs).
      rewrite E. cbn [Z.eqb Pos.eqb andb]. change (truthy 37) with true. cbv iota. unfold printf_length. rewrite E. cbn [Z.eqb Pos.eqb]. cbv iota beta.
      rewrite E. apply wp_bind. change (serial_convert fuel m 37 false false (map varg_word args)) with (putc fuel 37;; @mret uart _ (map varg_word args)).
      apply wp_bind, putc_spec; [done|]. intros u1 A1. apply wp_ret.
      eapply wp_mono; [apply (IH n (p + 1 + 1) args t'); [done|done|done|lia|done|by eapply after_console]|]. intros ? u2 A2. by eapply after_app.
    + destruct args as [|v args]; [done|]. destruct (sconv_text l cv v) as [t1|] eqn:E1; [|done].
      destruct (sformat_text ds args) as [t'|] eqn:Et; [|done]. assert (t = t1 ++ t') as -> by congruence.
      change (sformat_chars (SField l cv :: ds)) with (sdirective_chars (SField l cv) ++ sformat_chars ds) in Hs.
      cbn [sdirective_chars] in Hs. rewrite <- app_comm_cons, <- app_assoc in Hs. cbn [app] in Hs. destruct Hs as (-> & _ & Hs).
      apply Forall_cons_iff in Ha as [Hv Ha]. cbn [Z.eqb Pos.eqb].
      assert (truthy (load8 m (p + 1)) = true) as ->.
      { apply truthy_true. destruct l, cv; cbn in Hs; destruct Hs as (-> & ? & _); done. }
      cbn [andb]. rewrite (sprintf_length m (p + 1) l cv _ Hs). pose proof (cstr_app _ _ _ _ Hs) as (-> & _ & Hs').
      cbn [map]. apply wp_bind, (serial_convert_spec m l cv v _ t1); [done|done|done|done|]. intros u1 A1.
      eapply wp_mono; [apply (IH n _ args t'); [done|exact Hs'|done|lia|done|by eapply after_console]|]. intros ? u2 A2. by eapply after_app.
Qed.
End console.

(** ** Properties *)

(** after [serial_init] the UART is at 115200 baud (divisor 1) with 8 data
    bits, no parity, one stop bit, interrupts off, FIFO and modem lines on, and
    [putc] transmits: the divisor latch is closed again. *)
Theorem serial_init_correct u : dlab u = false → wp serial_init (λ _ u',
  divisor u' = (1, 0) ∧ lcr u' = 3 ∧ ier u' = 0 ∧ fcr u' = 0xC7 ∧ mcr u' = 0x0B ∧ sent u' = sent u ∧
  delay u' = delay u ∧ waiting u' = waiting u ∧ dlab u' = false) u.
Proof.
  intros Hd. unfold serial_init, outb, port_out. repeat (apply wp_bind, wp_modify). apply wp_modify. cbn [bus_out uart_bus].
  replace (uart_out (SERIAL_COM1 + 1) (wrap 8 0) u) with (mk_uart (delay u) (waiting u) (lcr u) 0 (fcr u) (mcr u) (divisor u) (sent u)).
  - vm_compute. repeat split.
  - unfold uart_out. change (SERIAL_COM1 + 1 =? 0x3F8) with false. change (SERIAL_COM1 + 1 =? 0x3F9) with true. by rewrite Hd.
Qed.

(** C22: [serial_printf] transmits the text of its format, no byte of it lost
    whatever the speed of the transmitter: ordinary characters and strings with
    newlines as CR LF, [%d], [%u], [%c], [%p], and [%x], [%X] with prefix and
    zero padding by length modifier. *)
Theorem serial_printf_correct fuel m fmt ds args t u : Forall sdirective_ok ds → sformat_text ds args = Some t →
  cstr m fmt (sformat_chars ds) → Forall (sarg_ok fuel m) args → (length ds < fuel)%nat → Z.of_nat fuel < 2 ^ 64 → console fuel u →
  wp (serial_printf fuel m fmt (map varg_word args)) (λ _ u', sent u' = sent u ++ t ∧ console fuel u') u.
Proof.
  intros Hds Ht Hs Ha Hn Hf Hc. unfold serial_printf. eapply wp_mono; [by apply (serial_loop_spec fuel ds fuel m fmt args t u)|].
  intros ? u' A. cbv beta in A. split; [apply A|by eapply after_console].
Qed.

(** [printk] formats like [vsprintf] and transmits the result: the text goes
    out with newlines as CR LF and its length is returned.  The buffer receives
    the whole text and its NUL even when that is more than the 1024 bytes it has. *)
Theorem printk_correct fuel ns buf m fmt ds args txt k u :
  Forall directive_ok ds → format_text ds args = Some txt → cstr m fmt (format_chars ds) → Forall (λ c, c ≠ 0) txt →
  Z.of_nat (length txt) < 2 ^ 31 → let hi := buf + Z.of_nat (length txt) + 1 in
  outside buf hi fmt (Z.of_nat (length (format_chars ds))) → texts_ok ns m buf hi k args →
  (65 <= k)%nat → (length ds + k < fuel)%nat → (length txt < fuel)%nat → Z.of_nat fuel < 2 ^ 64 → console fuel u →
  wp (printk fuel ns buf m fmt (map varg_word args)) (λ r u',
    snd r = Z.of_nat (length txt) ∧ wrote m (fst r) buf (txt ++ [0]) ∧ sent u' = sent u ++ crlf txt ∧ console fuel u') u.
Proof.
  intros Hds Ht Hs Hnz Hl hi Ho Hx Hk Hf Hft Hf64 Hc. unfold printk.
  destruct (vsprintf_correct ns m buf fmt ds args txt k fuel) as (m' & E & Hw); [done..|].
  apply wp_bind. eapply wp_of_option; [exact E|]. apply wp_bind.
  assert (cstr m' buf txt) as Hs'.
  { destruct Hw as [Hb _]. apply bytes_app in Hb as [Hb (H0 & _)]. apply bytes_cstr; [done| |done].
    intros c Hin. rewrite List.Forall_forall in Hnz. by apply Hnz, list_elem_of_In. }
  apply (serial_write_spec fuel m' buf txt); [done..|]. intros u' A. apply wp_ret. split; [done|]. split; [done|].
  split; [apply A|by eapply after_console].
Qed.

(** a format that ends in a length modifier makes [serial_printf] step over
    the terminator: of the bytes "%l", NUL, "AB", NUL it transmits the percent
    sign, the NUL and what lies behind the end of the format. *)
Theorem serial_printf_overreads :
  wp (serial_printf 20 (put_chars ∅ 0x100 [37; 108; 0; 65; 66; 0]).1 0x100 []) (λ _ u', sent u' = [37; 0; 65; 66])
    (mk_uart 0 0 3 0 0 0 (1, 0) []).
Proof. vm_compute. reflexivity. Qed.

(** ** Witnesses *)

Definition uart_demo : uart := mk_uart 3 0 3 0 0xC7 0x0B (1, 0) [].
Lemma uart_demo_console : console 200 uart_demo.
Proof. split; [done|]. cbn. lia. Qed.

Lemma serial_init_correct_witness : wp serial_init (λ _ u', lcr u' = 3) uart_demo.
Proof. eapply wp_mono; [by apply (serial_init_correct uart_demo)|]. intros ? u' (_ & H & _). exact H. Defined.

(** "a=%lx" and a newline with 255. *)
Lemma serial_printf_correct_witness :
  wp (serial_printf 200 (put_string ∅ 0x100 [97; 61; 37; 108; 120; 10]) 0x100 [255])
    (λ _ u', sent u' = [97; 61; 48; 120] ++ replicate 14 48 ++ [102; 102; 13; 10]) uart_demo.
Proof.
  eapply wp_mono; [apply (serial_printf_correct 200 (put_string ∅ 0x100 [97; 61; 37; 108; 120; 10]) 0x100
    [SChar 97; SChar 61; SField PL SX; SChar 10] [Word 255] ([97; 61; 48; 120] ++ replicate 14 48 ++ [102; 102; 13; 10]) uart_demo)|].
  - repeat constructor; cbn; lia.
  - vm_compute. reflexivity.
  - vm_compute. repeat split; discriminate.
  - by repeat constructor.
  - cbn. lia.
  - done.
  - apply uart_demo_console.
  - intros ? u' [H _]. exact H.
Defined.

Lemma printk_correct_witness :
  wp (printk 200 0x900 0x500 (put_string ∅ 0x100 [110; 61; 37; 100; 10]) 0x100 [42])
    (λ r u', snd r = 5 ∧ sent u' = [110; 61; 52; 50; 13; 10]) uart_demo.
Proof.
  eapply wp_mono; [apply (printk_correct 200 0x900 0x500 (put_string ∅ 0x100 [110; 61; 37; 100; 10]) 0x100
    [Char 110; Char 61; Field false 0 LenNone ConvD; Char 10] [Word 42] [110; 61; 52; 50; 10] 65 uart_demo)|].
  - repeat constructor; cbn; lia.
  - vm_compute. reflexivity.
  - vm_compute. repeat split; discriminate.
  - by repeat constructor.
  - done.
  - left. vm_compute. reflexivity.
  - intros a s Hin. by apply list_elem_of_singleton in Hin.
  - lia.
  - cbn. lia.
  - cbn. lia.
  - done.
  - apply uart_demo_console.
  - intros r u' (H1 & _ & H2 & _). by split.
Defined.
