(* ===== verification/LogInfo.v ===== *)
(** * The log ([tools/log-info.c], [tools/includes/log-info.h])

    [log_to_terminal] assembles a message in a buffer of 1024 bytes on its
    stack, between the small buffers [itoa] fills, and hands it to the terminal.
    [lit] is where the linker puts a literal.  The theorem gives the text of
    every message and exactly the memory it writes: nothing bounds the buffer. *)

From Stdlib Require Import Strings.String.
From stdpp Require Import prelude gmap list numbers tactics.
From S2P Require Import Prelude Memory KString KStdlib KStdio Io Time TimeProps Shell.

Inductive result_t := Ok | Info | Warn | Fatal.

Definition COLOR_RESET : list Z := 27 :: txt "[0m".
Definition COLOR_DIM : list Z := 27 :: txt "[2m".
Definition COLOR_GREEN : list Z := 27 :: txt "[32m".
Definition COLOR_BOLD : list Z := 27 :: txt "[1m".
Definition COLOR_YELLOW : list Z := 27 :: txt "[33m".
Definition COLOR_RED : list Z := 27 :: txt "[31m".

Definition result_str (status : result_t) : list Z :=
  match status with Ok => txt "OK: " | Info => txt "INFO: " | Warn => txt "WARN: " | Fatal => txt "FATAL: " end.
Definition get_status_color (status : result_t) : list Z :=
  match status with Ok => COLOR_GREEN | Info => COLOR_BOLD | Warn => COLOR_YELLOW | Fatal => COLOR_RED end.
Definition is_info (status : result_t) : bool := match status with Info => true | _ => false end.

(** The clock, the memory, the output pointer [ptr], the terminal's bytes. *)
Record log_state (D : Type) := mk_log { time : time_state D; mem : mem_t; ptr : Z; term : list Z }.
Arguments mk_log {D}. Arguments time {D}. Arguments mem {D}. Arguments ptr {D}. Arguments term {D}.

Section log.
Context {D : Type} `{Bus D} `{Clock D}.
(** Literals, the locals of the function, the terminal, the fuel. *)
Context (lit : list Z → Z) (message sec_str ms_str line_str num hex : Z) (global_flanterm : bool) (fuel : nat).
Abbreviation L := (M (log_state D)).

Definition log_byte (a : Z) : L Z := gets (λ s, load8 (mem s) a).
Definition set_out (m : mem_t) (p : Z) : L unit := modify (λ s, mk_log (time s) m p (term s)).
(** [*ptr++ = c;] *)
Definition log_put (c : Z) : L unit := modify (λ s, mk_log (time s) (store8 (mem s) (ptr s) c) (ptr s + 1) (term s)).
(** [ptr = strcpy_advance(ptr, src);] *)
Definition strcpy_advance (src : Z) : L unit :=
  m ← gets mem; p ← gets ptr; '(m, p) ← of_option (copy_chars fuel m p src); set_out m p.
(** [itoa(value, str, base); ptr = strcpy_advance(ptr, str);] *)
Definition put_number (value str base : Z) : L unit :=
  m ← gets mem; p ← gets ptr;
  m ← of_option (itoa fuel m value str base);
  set_out m p;;
  strcpy_advance str.
(** The bytes a call of [flanterm_write] is given; [Term] is what it does with
    them. *)
Definition to_terminal (buf count : Z) : L unit :=
  modify (λ s, mk_log (time s) (mem s) (ptr s) (term s ++ bytes_at (mem s) buf count)).
Definition log_clock {A} (c : M (time_state D) A) : L A := zoom time (λ t s, mk_log t (mem s) (ptr s) (term s)) c.

(** Behind the last separator of the path. *)
Fixpoint find_slash (n : nat) (file last_slash : Z) : L Z :=
  match n with
  | O => mstop
  | S n =>
    c ← log_byte file;
    if c =? 0 then mret last_slash
    else find_slash n (file + 1) (if (c =? 47) || (c =? 92) then file + 1 else last_slash)
  end.

Definition log_convert (c : Z) (args : list Z) : L (list Z) :=
  if (c =? 100) || (c =? 105) then
    '(a, args) ← of_option (va_arg args); put_number (s32 a) num 10;; mret args
  else if c =? 117 then
    '(a, args) ← of_option (va_arg args); put_number (s32 (u32 a)) num 10;; mret args
  else if c =? 115 then
    '(a, args) ← of_option (va_arg args); mwhen (truthy a) (strcpy_advance a);; mret args
  else if (c =? 112) || (c =? 120) then
    '(a, args) ← of_option (va_arg args); log_put 48;; log_put 120;; put_number (s32 (u64 a)) hex 16;; mret args
  else if c =? 37 then log_put 37;; mret args
  else log_put 37;; log_put c;; mret args.

Fixpoint log_format (n : nat) (fmt : Z) (args : list Z) : L unit :=
  match n with
  | O => mstop
  | S n =>
    c ← log_byte fmt;
    if c =? 0 then mret tt
    else
      '(fmt, args) ← (
        if c =? 37 then c ← log_byte (fmt + 1); args ← log_convert c args; mret (fmt + 1, args)
        else log_put c;; mret (fmt, args));
      c ← log_byte fmt;
      log_format n (if truthy c then fmt + 1 else fmt) args
  end.

(** The time in seconds, three digits behind the point. *)
Definition put_stamp (ms : Z) : L unit :=
  let secs := u32 (ms / 1000) in
  let msecs := u32 (ms mod 1000) in
  log_put 91;;
  (if secs <? 10 then log_put 32;; log_put 32 else mwhen (secs <? 100) (log_put 32));;
  put_number (s32 secs) sec_str 10;;
  log_put 46;;
  mwhen (msecs <? 100) (log_put 48);;
  mwhen (msecs <? 10) (log_put 48);;
  put_number (s32 msecs) ms_str 10;;
  log_put 93;; log_put 32.

Definition log_to_terminal (status : result_t) (from file line fmt : Z) (args : list Z) : L unit :=
  if negb global_flanterm then mret tt
  else
    let from := if from =? 0 then lit (txt "<unknown>") else from in
    let file := if file =? 0 then lit (txt "<unknown>") else file in
    if fmt =? 0 then mret tt
    else
      m ← gets mem; set_out m message;;
      ms ← log_clock (get_time_ms fuel);
      put_stamp ms;;
      strcpy_advance (lit (get_status_color status));;
      strcpy_advance (lit (result_str status));;
      mwhen (negb (is_info status)) (strcpy_advance (lit COLOR_RESET));;
      strcpy_advance (lit COLOR_DIM);;
      log_put 91;;
      strcpy_advance from;;
      strcpy_advance (lit (txt " in "));;
      last_slash ← find_slash fuel file file;
      strcpy_advance last_slash;;
      log_put 58;;
      put_number (s32 line) line_str 10;;
      log_put 93;;
      strcpy_advance (lit COLOR_RESET);;
      log_put 32;;
      log_format fuel fmt args;;
      ptr ← gets ptr;
      modify (λ s, mk_log (time s) (store8 (mem s) ptr 0) ptr (term s));;
      to_terminal message (ptr - message).

Definition printcol (color text : Z) : L unit :=
  if global_flanterm then
    m ← gets mem;
    n ← of_option (strlen fuel m color); to_terminal color n;;
    n ← of_option (strlen fuel m text); to_terminal text n;;
    n ← of_option (strlen fuel m (lit COLOR_RESET)); to_terminal (lit COLOR_RESET) n
  else mret tt.
End log.

(** ** The text of a message *)

Definition is_separator (c : Z) : bool := (c =? 47) || (c =? 92).
Fixpoint basename_from (l acc : list Z) : list Z :=
  match l with [] => acc | c :: l => basename_from l (if is_separator c then l else acc) end.
Definition basename (l : list Z) : list Z := basename_from l l.

Inductive lconv := LD | LI | LU | LX | LP | LS.
Inductive ldirective := LChar (c : Z) | LPercent | LField (cv : lconv) | LOther (c : Z).
Definition lconv_char (cv : lconv) : Z :=
  match cv with LD => 100 | LI => 105 | LU => 117 | LX => 120 | LP => 112 | LS => 115 end.
Definition ldirective_chars (d : ldirective) : list Z :=
  match d with LChar c => [c] | LPercent => [37; 37] | LField cv => [37; lconv_char cv] | LOther c => [37; c] end.
Definition lformat_chars (ds : list ldirective) : list Z := concat (map ldirective_chars ds).
Definition ldirective_ok (d : ldirective) : Prop :=
  match d with
  | LChar c => 0 < c < 256 ∧ c ≠ 37
  | LOther c => 0 < c < 256 ∧ c ∉ [37; 100; 105; 112; 115; 117; 120]
  | _ => True
  end.
Definition lconv_text (cv : lconv) (v : varg) : option (list Z) :=
  match cv, v with
  | LD, Word a | LI, Word a | LU, Word a => Some (itoa_chars (s32 a) 10)
  | LX, Word a | LP, Word a => Some ([48; 120] ++ itoa_chars (s32 a) 16)
  | LS, Text a s => Some (if a =? 0 then [] else s)
  | _, _ => None
  end.
Fixpoint lformat_text (ds : list ldirective) (args : list varg) : option (list Z) :=
  match ds with
  | [] => Some []
  | LField cv :: ds =>
    match args with
    | [] => None
    | v :: args =>
      match lconv_text cv v, lformat_text ds args with Some t, Some t' => Some (t ++ t') | _, _ => None end
    end
  | d :: ds =>
    match lformat_text ds args with
    | Some t => Some ((match d with LPercent => [37] | _ => ldirective_chars d end) ++ t)
    | None => None
    end
  end.

(** [   1.005], three digits behind the point. *)
Definition stamp (ms : Z) : list Z :=
  let secs := ms / 1000 in let msecs := ms mod 1000 in
  [91] ++ (if secs <? 10 then [32; 32] else if secs <? 100 then [32] else []) ++ itoa_chars secs 10 ++ [46] ++
  (if msecs <? 100 then [48] else []) ++ (if msecs <? 10 then [48] else []) ++ itoa_chars msecs 10 ++ [93; 32].
Definition log_text (ms : Z) (status : result_t) (from file : list Z) (line : Z) (body : list Z) : list Z :=
  stamp ms ++ get_status_color status ++ result_str status ++ (if is_info status then [] else COLOR_RESET) ++ COLOR_DIM ++
  [91] ++ from ++ txt " in " ++ basename file ++ [58] ++ itoa_chars (s32 line) 10 ++ [93] ++ COLOR_RESET ++ [32] ++ body.

Lemma itoa_chars_short value base : base = 10 ∨ base = 16 → - 2 ^ 31 <= value < 2 ^ 31 →
  (length (itoa_chars value base) <= 11)%nat.
Proof.
  intros Hb Hv. assert (∀ b n, b = 10 ∨ b = 16 → 0 <= n < 2 ^ 32 → (length (digs 32 b n) <= 10)%nat) as Hd.
  { intros b n Hb' Hn. change 32%nat with (10 + 22)%nat.
    assert (2 <= b ∧ n < b ^ Z.of_nat 10) as [Hb2 Hlt].
    { change (Z.of_nat 10) with 10. destruct Hb' as [-> | ->]; split; try lia. }
    rewrite digs_stable by lia. apply digs_length. }
  pose proof (wrap_range 32 value ltac:(lia)). unfold itoa_chars. repeat case_if; cbn [length]; rewrite ?length_map, ?length_reverse; [lia|..].
  - specialize (Hd base (- value) Hb). lia.
  - specialize (Hd base (u32 value) Hb). lia.
Qed.

(** [get_time_ms] returns a 32-bit number. *)
Lemma get_time_ms_range {D} `{Bus D} `{Clock D} fuel (t t' : time_state D) ms : get_time_ms fuel t = Some (ms, t') → 0 <= ms < 2 ^ 32.
Proof.
  unfold get_time_ms, bind, gets. destruct (elapsed_tsc fuel t) as [[e t1]|]; [|done].
  destruct e as [e|]; [|intros [= <- <-]; lia]. destruct (_ =? 0); [done|]. intros [= <- <-]. by apply wrap_range.
Qed.

Section log_proofs.
Context {D : Type} `{Bus D} `{Clock D}.
Context (lit : list Z → Z) (message sec_str ms_str line_str num hex : Z) (fuel : nat).
Context (m0 : mem_t) (N : Z).
Implicit Types (s : log_state D).

(** The buffers [itoa] writes, of 16 bytes. *)
Definition buffers : list Z := [sec_str; ms_str; line_str; num; hex].
Definition local (x : Z) : Prop := ∃ b, b ∈ buffers ∧ b <= x < b + 16.
Definition written (n : Z) (x : Z) : Prop := message <= x < message + n ∨ local x.
(** [N] bytes of message stay clear of them. *)
Definition frame_ok : Prop := ∀ b, b ∈ buffers → b + 16 <= message ∨ message + N <= b.
Record source (p : Z) (l : list Z) : Prop := {
  source_text : cstr m0 p l;
  source_fuel : (length l < fuel)%nat;
  source_message : p + Z.of_nat (length l) < message ∨ message + N <= p;
  source_local b : b ∈ buffers → p + Z.of_nat (length l) < b ∨ b + 16 <= p
}.
(** The message so far. *)
Record at_out (tm : time_state D) (tr : list Z) (t : list Z) (s : log_state D) : Prop := {
  out_time : time s = tm;
  out_term : term s = tr;
  out_ptr : ptr s = message + Z.of_nat (length t);
  out_bytes : bytes (mem s) message t;
  out_frame : same_outside (written (Z.of_nat (length t))) m0 (mem s)
}.
Context (Hframe : frame_ok) (Hfuel : (33 <= fuel)%nat).

Lemma local_apart x n : n <= N → message <= x < message + n → ¬ local x.
Proof. intros Hn Hx (b & Hb & Hbx). destruct (Hframe b Hb); lia. Qed.

Lemma source_now tm tr t s p l : at_out tm tr t s → Z.of_nat (length t) <= N → source p l → cstr (mem s) p l.
Proof.
  intros [_ _ _ _ Ho] Ht [Hs _ Hm Hl]. eapply cstr_ext; [|exact Hs]. intros i Hi. apply Ho.
  intros [Hx|(b & Hb & Hbx)]; [lia|]. destruct (Hl b Hb); lia.
Qed.

(** Writing [l] at the end of the message. *)
Lemma out_wrote tm tr t l s m' : at_out tm tr t s → Z.of_nat (length (t ++ l)) <= N → wrote (mem s) m' (ptr s) l →
  at_out tm tr (t ++ l) (mk_log tm m' (ptr s + Z.of_nat (length l)) tr).
Proof.
  intros [H1 H2 H3 H4 H5] HN [Hb Ho]. rewrite length_app in HN. rewrite H3 in *. split; cbn; [done|done| | |].
  - rewrite length_app. lia.
  - apply bytes_app. split; [|done]. eapply bytes_ext; [|exact H4]. intros i Hi. apply Ho. lia.
  - intros x Hx. rewrite length_app in Hx. rewrite Ho; [apply H5|].
    + intros [?|?]; apply Hx; [left; lia|by right].
    + unfold written in Hx. destruct (Z.lt_ge_cases x (message + Z.of_nat (length t))); [by left|]. right.
      destruct (Z.lt_ge_cases x (message + Z.of_nat (length t) + Z.of_nat (length l))); [|done].
      exfalso. apply Hx. left. lia.
Qed.

Lemma put_spec tm tr t c s Q : at_out tm tr t s → Z.of_nat (length (t ++ [c])) <= N → 0 <= c < 256 →
  (∀ s', at_out tm tr (t ++ [c]) s' → Q tt s') → wp (log_put c) Q s.
Proof.
  intros A HN Hc HQ. apply wp_modify. pose proof (out_wrote tm tr t [c] s _ A HN (wrote_byte (mem s) (ptr s) c Hc)) as A'.
  destruct A as [<- <- _ _ _]. apply HQ, A'.
Qed.

Lemma puts_spec tm tr t p l s Q : at_out tm tr t s → Z.of_nat (length (t ++ l)) <= N → cstr (mem s) p l → (length l < fuel)%nat →
  (p + Z.of_nat (length l) < ptr s ∨ ptr s + Z.of_nat (length l) <= p) →
  (∀ s', at_out tm tr (t ++ l) s' → Q tt s') → wp (strcpy_advance fuel p) Q s.
Proof.
  intros A HN Hs Hl Hd HQ. destruct (copy_chars_spec fuel (mem s) (ptr s) p l Hs Hl Hd) as (m' & E & Hw).
  unfold strcpy_advance. do 2 (apply wp_bind, wp_gets; cbv beta). apply wp_bind. eapply wp_of_option; [exact E|]. cbv beta iota.
  apply wp_modify. pose proof (out_wrote tm tr t l s m' A HN Hw) as A'. destruct A as [<- <- _ _ _]. apply HQ, A'.
Qed.

Lemma source_spec tm tr t p l s Q : at_out tm tr t s → Z.of_nat (length (t ++ l)) <= N → source p l →
  (∀ s', at_out tm tr (t ++ l) s' → Q tt s') → wp (strcpy_advance fuel p) Q s.
Proof.
  intros A HN Hs HQ. rewrite length_app in HN. apply (puts_spec tm tr t p l); [done|rewrite length_app; lia| | | |done].
  - eapply source_now; [exact A|lia|exact Hs].
  - by destruct Hs.
  - destruct A as [_ _ -> _ _]. destruct (source_message p l Hs); lia.
Qed.

Lemma put_number_spec tm tr t v b base s Q : at_out tm tr t s → Z.of_nat (length (t ++ itoa_chars v base)) <= N →
  b ∈ buffers → base = 10 ∨ base = 16 → - 2 ^ 31 <= v < 2 ^ 31 →
  (∀ s', at_out tm tr (t ++ itoa_chars v base) s' → Q tt s') → wp (put_number fuel v b base) Q s.
Proof.
  intros A HN Hb Hbase Hv HQ. rewrite length_app in HN. pose proof (itoa_chars_short v base Hbase Hv) as Hlen.
  destruct (itoa_exact fuel (mem s) v b base) as (m' & E & Hs & Ho); [lia|lia|lia|].
  unfold put_number. do 2 (apply wp_bind, wp_gets; cbv beta). apply wp_bind. eapply wp_of_option; [exact E|]. cbv beta.
  apply wp_bind, wp_modify. assert (∀ i, i < b ∨ b + 16 <= i → load8 m' i = load8 (mem s) i) as Ho' by (intros i Hi; apply Ho; lia).
  destruct A as [A1 A2 A3 A4 A5]. destruct (Hframe b Hb) as [Hd|Hd].
  all: apply (puts_spec tm tr t b (itoa_chars v base)); cbn [time mem ptr term]; [split; cbn; try done| |done|lia|lia|done].
  all: try (rewrite length_app; lia).
  1, 3: eapply bytes_ext; [|exact A4]; intros i Hi; apply Ho'; lia.
  all: intros x Hx; rewrite Ho'; [by apply A5|].
  all: destruct (Z.lt_ge_cases x b); [by left|]; right; destruct (Z.lt_ge_cases x (b + 16)); [|done]; exfalso; apply Hx; right; exists b; split; [done|lia].
Qed.

(** The pointer behind the last separator points at the base name. *)
Lemma find_slash_spec n base pre l j s Q : cstr (mem s) (base + Z.of_nat (length pre)) l → (length l < n)%nat → (j <= length (pre ++ l))%nat →
  (∀ k, (k <= length (pre ++ l))%nat → drop k (pre ++ l) = basename_from l (drop j (pre ++ l)) → Q (base + Z.of_nat k) s) →
  wp (find_slash n (base + Z.of_nat (length pre)) (base + Z.of_nat j)) Q s.
Proof.
  revert pre l j. induction n as [|n IH]; intros pre l j Hs Hl Hj HQ; [lia|]. cbn [find_slash]. apply wp_bind, wp_gets.
  destruct l as [|c l]; cbn [cstr length basename_from] in *.
  - rewrite Hs. cbn [Z.eqb]. apply wp_ret. by apply HQ.
  - destruct Hs as (-> & Hc & Hs). rewrite (proj2 (Z.eqb_neq c 0)) by done. fold (is_separator c).
    assert (pre ++ c :: l = (pre ++ [c]) ++ l) as E by (by rewrite <- app_assoc).
    assert (base + Z.of_nat (length pre) + 1 = base + Z.of_nat (length (pre ++ [c]))) as Ep by (rewrite length_app; cbn [length]; lia).
    rewrite Ep in *. replace (if is_separator c then base + Z.of_nat (length (pre ++ [c])) else base + Z.of_nat j)
      with (base + Z.of_nat (if is_separator c then length (pre ++ [c]) else j)) by (by destruct (is_separator c)).
    rewrite E in *. apply (IH (pre ++ [c]) l); [done|lia|destruct (is_separator c); [rewrite !length_app; lia|done]|]. intros k Hk Ek. apply HQ; [done|]. rewrite Ek. f_equal. destruct (is_separator c); [|done].
    by rewrite drop_app_length.
Qed.

Lemma source_drop p l k : (k <= length l)%nat → source p l → source (p + Z.of_nat k) (drop k l).
Proof.
  intros Hk [Hs Hf Hm Hl]. rewrite <- (take_drop k l) in Hs. apply cstr_app in Hs. rewrite length_take_le in Hs by done.
  split; [done|rewrite length_drop; lia|rewrite length_drop; lia|]. intros b Hb. rewrite length_drop. destruct (Hl b Hb); lia.
Qed.

Lemma log_convert_spec tm tr t cv v t' args s Q : at_out tm tr t s → lconv_text cv v = Some t' →
  Z.of_nat (length (t ++ t')) <= N → (∀ a l, v = Text a l → a ≠ 0 → source a l) →
  (∀ s', at_out tm tr (t ++ t') s' → Q args s') →
  wp (log_convert num hex fuel (lconv_char cv) (varg_word v :: args)) Q s.
Proof.
  intros A Ht HN Hv HQ.
  assert (num ∈ buffers ∧ hex ∈ buffers) as [Hnum Hhex] by (unfold buffers; set_solver).
  assert (∀ a, s32 (u32 a) = s32 a ∧ s32 (u64 a) = s32 a) as Hs32.
  { intros a. split; apply swrap_cong; [apply wrap_wrap|]. apply Z.mod_mod_divide. by exists (2 ^ 32). }
  assert (∀ a, - 2 ^ 31 <= s32 a < 2 ^ 31) as Hr by (intros a; by apply (swrap_range 32 a)).
  destruct cv, v as [a|a l]; try discriminate Ht; injection Ht as <-; unfold log_convert; cbn [lconv_char varg_word Z.eqb Pos.eqb orb];
    apply wp_bind; (eapply wp_of_option; [done|]); cbv beta iota.
  1, 2, 3: apply wp_bind; rewrite ?(proj1 (Hs32 a)); apply (put_number_spec tm tr t); [done|done|done|by left|by apply Hr|]; intros s' A'; by apply wp_ret, HQ.
  1, 2: rewrite (proj2 (Hs32 a)); rewrite !length_app in HN; cbn [length] in HN;
    apply wp_bind, (put_spec tm tr t 48); [done|rewrite length_app; cbn [length]; lia|lia|]; intros s1 A1; cbv beta;
    apply wp_bind, (put_spec tm tr (t ++ [48]) 120); [done|rewrite !length_app; cbn [length]; lia|lia|]; intros s2 A2; cbv beta;
    rewrite <- app_assoc in A2; cbn [app] in A2;
    apply wp_bind, (put_number_spec tm tr (t ++ [48; 120])); [done|rewrite !length_app; cbn [length]; lia|done|by right|by apply Hr|];
    intros s3 A3; rewrite <- app_assoc in A3; by apply wp_ret, HQ.
  unfold truthy. destruct (Z.eqb_spec a 0) as [->|Hz]; cbn [negb mwhen].
  - apply wp_bind, wp_ret, wp_ret, HQ. by rewrite app_nil_r.
  - apply wp_bind, (source_spec tm tr t a l); [done|done|by apply Hv|]. intros s' A'. by apply wp_ret, HQ.
Qed.

(** The arguments are strings in place. *)
Definition strings_ok (args : list varg) : Prop := ∀ a l, Text a l ∈ args → a ≠ 0 → source a l.

Lemma log_format_spec ds n fmt args tm tr t t' s Q : Forall ldirective_ok ds → lformat_text ds args = Some t' →
  source fmt (lformat_chars ds) → strings_ok args → (length ds < n)%nat → Z.of_nat (length (t ++ t')) <= N → at_out tm tr t s →
  (∀ s', at_out tm tr (t ++ t') s' → Q tt s') → wp (log_format num hex fuel n fmt (map varg_word args)) Q s.
Proof.
  intros Hds. revert n fmt args t t' s. induction Hds as [|d ds Hd _ IH]; intros n fmt args t t' s Ht Hs Hx Hn HN A HQ;
    (destruct n as [|n]; [cbn in Hn; lia|]); cbn [log_format]; apply wp_bind, wp_gets.
  - injection Ht as <-. pose proof (source_now _ _ _ _ _ _ A ltac:(rewrite app_nil_r in HN; lia) Hs) as E. cbn in E. rewrite E. cbn [Z.eqb].
    apply wp_ret, HQ. by rewrite app_nil_r.
  - change (lformat_chars (d :: ds)) with (ldirective_chars d ++ lformat_chars ds) in Hs.
    assert (Z.of_nat (length t) <= N) as HNt by (rewrite length_app in HN; lia).
    pose proof (source_now _ _ _ _ _ _ A HNt Hs) as Hc.
    assert (source (fmt + Z.of_nat (length (ldirective_chars d))) (lformat_chars ds)) as Hs'.
    { rewrite <- (drop_app_length (ldirective_chars d) (lformat_chars ds)). apply source_drop; [rewrite length_app; lia|done]. }
    destruct d as [c| |cv|c]; cbn [ldirective_chars length app lformat_text] in *.
    + destruct (lformat_text ds args) as [t1|] eqn:Et; [|done]. injection Ht as <-. rewrite (app_assoc t [c] t1 : t ++ c :: t1 = _) in *.
      destruct Hc as (-> & Hc0 & _). rewrite (proj2 (Z.eqb_neq c 0)), (proj2 (Z.eqb_neq c 37)) by (done || by destruct Hd).
      apply wp_bind, wp_bind, (put_spec tm tr t c); [done|rewrite length_app in HN; lia|destruct Hd; lia|]. intros s1 A1. cbv beta.
      apply wp_ret. apply wp_bind, wp_gets. pose proof (source_now _ _ _ _ _ _ A1 ltac:(rewrite length_app in HN; lia) Hs) as Hc1.
      destruct Hc1 as (-> & _ & _). unfold truthy. rewrite (proj2 (Z.eqb_neq c 0)) by done. cbn [negb].
      apply (IH n (fmt + 1) args (t ++ [c]) t1); try done. lia.
    + destruct (lformat_text ds args) as [t1|] eqn:Et; [|done]. injection Ht as <-. rewrite (app_assoc t [37] t1 : t ++ 37 :: t1 = _) in *.
      destruct Hc as (-> & _ & Hc2 & _ & _). cbn [Z.eqb Pos.eqb].
      apply wp_bind, wp_bind, wp_gets. rewrite Hc2. unfold log_convert. cbn [Z.eqb Pos.eqb orb].
      apply wp_bind, wp_bind, (put_spec tm tr t 37); [done|rewrite length_app in HN; lia|lia|]. intros s1 A1. cbv beta.
      do 2 apply wp_ret. apply wp_bind, wp_gets. pose proof (source_now _ _ _ _ _ _ A1 ltac:(rewrite length_app in HN; lia) Hs) as Hc1.
      destruct Hc1 as (_ & _ & -> & _ & _). cbn [truthy negb Z.eqb]. replace (fmt + 1 + 1) with (fmt + 2) by lia.
      apply (IH n (fmt + 2) args (t ++ [37]) t1); try done. lia.
    + destruct args as [|v args]; [done|]. destruct (lconv_text cv v) as [tv|] eqn:Ev; [|done].
      destruct (lformat_text ds args) as [t1|] eqn:Et; [|done]. injection Ht as <-. rewrite (app_assoc t tv t1) in *.
      destruct Hc as (-> & _ & Hc2 & Hcz & _). cbn [Z.eqb Pos.eqb map].
      apply wp_bind, wp_bind, wp_gets. rewrite Hc2. apply wp_bind.
      apply (log_convert_spec tm tr t cv v tv); [done|done|rewrite length_app in HN; lia|intros a l -> Ha; apply Hx; [left|done]|].
      intros s1 A1. apply wp_ret, wp_bind, wp_gets. pose proof (source_now _ _ _ _ _ _ A1 ltac:(rewrite length_app in HN; lia) Hs) as Hc1.
      destruct Hc1 as (_ & _ & -> & _ & _). unfold truthy. rewrite (proj2 (Z.eqb_neq _ 0)) by done. cbn [negb].
      replace (fmt + 1 + 1) with (fmt + 2) by lia.
      apply (IH n (fmt + 2) args (t ++ tv) t1); try done; [|lia]. intros a l Hin. apply Hx. by right.
    + destruct (lformat_text ds args) as [t1|] eqn:Et; [|done]. injection Ht as <-. rewrite (app_assoc t [37; c] t1 : t ++ 37 :: c :: t1 = _) in *.
      destruct Hc as (-> & _ & Hc2 & Hcz & _). cbn [Z.eqb Pos.eqb]. destruct Hd as [Hd1 Hd2].
      apply wp_bind, wp_bind, wp_gets. rewrite Hc2. unfold log_convert.
      rewrite !(proj2 (Z.eqb_neq c _)) by (intros ->; apply Hd2; set_solver). cbn [orb]. rewrite !length_app in HN; cbn [length] in HN.
      apply wp_bind, wp_bind, (put_spec tm tr t 37); [done|rewrite length_app; cbn [length]; lia|lia|]. intros s1 A1. cbv beta.
      apply wp_bind, (put_spec tm tr (t ++ [37]) c); [done|rewrite !length_app; cbn [length]; lia|lia|]. intros s2 A2. cbv beta.
      rewrite <- app_assoc in A2. cbn [app] in A2.
      do 2 apply wp_ret. apply wp_bind, wp_gets. pose proof (source_now _ _ _ _ _ _ A2 ltac:(rewrite length_app; cbn [length]; lia) Hs) as Hc1.
      destruct Hc1 as (_ & _ & -> & _ & _). unfold truthy. rewrite (proj2 (Z.eqb_neq c 0)) by done. cbn [negb].
      replace (fmt + 1 + 1) with (fmt + 2) by lia.
      apply (IH n (fmt + 2) args (t ++ [37; c]) t1); try done; [lia|]. rewrite !length_app. cbn [length]. lia.
Qed.

Lemma mput_spec tm tr t c (b : bool) s Q : at_out tm tr t s → Z.of_nat (length t + 1) <= N → 0 <= c < 256 →
  (∀ s', at_out tm tr (t ++ if b then [c] else []) s' → Q tt s') → wp (mwhen b (log_put c)) Q s.
Proof.
  intros A HN Hc HQ. destruct b; cbn [mwhen].
  - apply (put_spec tm tr t c); [done|rewrite length_app; cbn [length]; lia|done|done].
  - apply wp_ret, HQ. by rewrite app_nil_r.
Qed.

(** The literals of the function. *)
Definition log_literals : list (list Z) :=
  [COLOR_RESET; COLOR_DIM; txt " in "] ++ map get_status_color [Ok; Info; Warn; Fatal] ++ map result_str [Ok; Info; Warn; Fatal].
Definition literals_ok : Prop := ∀ l, l ∈ log_literals → source (lit l) l.
Lemma log_literal l : bool_decide (l ∈ log_literals) = true → l ∈ log_literals.
Proof. apply bool_decide_eq_true. Qed.
Lemma color_literal status : get_status_color status ∈ log_literals.
Proof. destruct status; unfold log_literals; cbn [map app]; set_solver. Qed.
Lemma result_literal status : result_str status ∈ log_literals.
Proof. destruct status; unfold log_literals; cbn [map app]; set_solver. Qed.

Lemma stamp_parts ms : 0 <= ms < 2 ^ 32 → u32 (ms / 1000) = ms / 1000 ∧ u32 (ms mod 1000) = ms mod 1000 ∧
  s32 (ms / 1000) = ms / 1000 ∧ s32 (ms mod 1000) = ms mod 1000 ∧ 0 <= ms / 1000 < 2 ^ 31 ∧ 0 <= ms mod 1000 < 1000.
Proof.
  intros Hms. assert (0 <= ms / 1000 < 2 ^ 31 ∧ 0 <= ms mod 1000 < 1000) as [H1 H2] by zlia.
  rewrite !wrap_small, !swrap_small by lia. done.
Qed.

Ltac log_len := rewrite ?length_app in *; cbn [length] in *; lia.
Ltac log_put A := apply wp_bind; eapply put_spec; [exact A|log_len|lia|]; clear A; intros ? A; cbv beta.
Ltac log_mput A := apply wp_bind; eapply mput_spec; [exact A|log_len|lia|]; clear A; intros ? A; cbv beta.
Ltac log_source A H := apply wp_bind; eapply source_spec; [exact A| |exact H|]; [log_len|]; clear A; intros ? A; cbv beta.
Ltac log_number A := apply wp_bind; eapply put_number_spec; [exact A|log_len|unfold buffers; set_solver|by left|lia|]; clear A; intros ? A; cbv beta.

Lemma put_stamp_spec tm tr ms s Q : at_out tm tr [] s → 0 <= ms < 2 ^ 32 → Z.of_nat (length (stamp ms)) <= N →
  (∀ s', at_out tm tr (stamp ms) s' → Q tt s') → wp (put_stamp sec_str ms_str fuel ms) Q s.
Proof.
  intros A Hms HN HQ. destruct (stamp_parts ms Hms) as (E1 & E2 & E3 & E4 & H1 & H2).
  unfold stamp, put_stamp in *. rewrite E1, E2. rewrite E3, E4. set (secs := ms / 1000) in *. set (msecs := ms mod 1000) in *.
  cbv zeta in *. log_put A. apply wp_bind.
  match goal with |- wp _ ?R _ => assert (∀ s', at_out tm tr ([91] ++ if secs <? 10 then [32; 32] else if secs <? 100 then [32] else []) s' → R tt s') as HR end.
  { clear A s. intros ? A. log_number A. log_put A. log_mput A. log_mput A. log_number A. log_put A.
    eapply put_spec; [exact A|log_len|lia|]. clear A. intros ? A. apply HQ. rewrite <- !app_assoc in A. exact A. }
  destruct (secs <? 10).
  - log_put A. eapply put_spec; [exact A|log_len|lia|]. clear A. intros ? A. apply HR. exact A.
  - eapply mput_spec; [exact A|log_len|lia|]. clear A. intros ? A. apply HR. exact A.
Qed.

Definition or_unknown (a : Z) : Z := if a =? 0 then lit (txt "<unknown>") else a.

Lemma log_run status from file line fmt args ds lf ll body ms tm s (Q : unit → log_state D → Prop) : mem s = m0 → fmt ≠ 0 →
  literals_ok → source (or_unknown from) lf → source (or_unknown file) ll → source fmt (lformat_chars ds) → strings_ok args →
  Forall ldirective_ok ds → lformat_text ds args = Some body → (length ds < fuel)%nat → get_time_ms fuel (time s) = Some (ms, tm) →
  Z.of_nat (length (log_text ms status lf ll line body)) + 1 <= N →
  (∀ s' s'', at_out tm (term s) (log_text ms status lf ll line body) s' →
     s'' = mk_log tm (store8 (mem s') (ptr s') 0) (ptr s') (term s) →
     wp (to_terminal message (ptr s' - message)) Q s'') →
  wp (log_to_terminal lit message sec_str ms_str line_str num hex true fuel status from file line fmt (map varg_word args)) Q s.
Proof.
  intros Hm Hz Hlit Hfrom Hfile Hfmt Hx Hds Ht Hn Htime HN HQ. unfold log_to_terminal. cbn [negb]. fold (or_unknown from). fold (or_unknown file).
  rewrite (proj2 (Z.eqb_neq fmt 0)) by done. apply wp_bind, wp_gets, wp_bind, wp_modify.
  apply wp_bind. unfold log_clock. apply wp_zoom. unfold wp at 1. cbn [time mem ptr term]. rewrite Htime.
  pose proof (get_time_ms_range fuel _ _ _ Htime) as Hms. rewrite Hm.
  assert (at_out tm (term s) [] (mk_log tm m0 message (term s))) as A by (split; cbn; done || lia).
  unfold log_text in *. rewrite ?length_app in HN; cbn [length] in HN.
  assert (- 2 ^ 31 <= s32 line < 2 ^ 31) as Hline by (by apply (swrap_range 32 line)).
  apply wp_bind. eapply put_stamp_spec; [exact A|done|lia|]. clear A. intros ? A. cbv beta.
  log_source A (Hlit _ (color_literal status)). log_source A (Hlit _ (result_literal status)).
  apply wp_bind.
  match goal with |- wp _ ?R _ => assert (∀ s', at_out tm (term s) ((stamp ms ++ get_status_color status) ++ result_str status ++
    if is_info status then [] else COLOR_RESET) s' → R tt s') as HR end.
  2:{ destruct (is_info status); cbn [negb mwhen].
      - apply wp_ret, HR. by rewrite app_nil_r.
      - eapply source_spec; [exact A| |exact (Hlit COLOR_RESET (log_literal COLOR_RESET eq_refl))|]; [log_len|]. intros ? A'. apply HR. by rewrite <- app_assoc in A'. }
  clear A. intros ? A. log_source A (Hlit COLOR_DIM (log_literal COLOR_DIM eq_refl)). log_put A. log_source A Hfrom. log_source A (Hlit (txt " in ") (log_literal (txt " in ") eq_refl)).
  apply wp_bind. pose proof (λ s Q, find_slash_spec fuel (or_unknown file) [] ll 0 s Q) as Hslash.
  change (Z.of_nat (length [])) with 0 in Hslash. change (Z.of_nat 0) with 0 in Hslash. rewrite Z.add_0_r in Hslash.
  apply Hslash; [eapply source_now; [exact A|log_len|exact Hfile]|by destruct Hfile|lia|].
  intros k Hk Ek. change (drop k ll = basename ll) in Ek. pose proof (source_drop _ ll _ Hk Hfile) as Hbase. rewrite Ek in Hbase.
  log_source A Hbase. log_put A. log_number A. log_put A. log_source A (Hlit COLOR_RESET (log_literal COLOR_RESET eq_refl)). log_put A.
  apply wp_bind. eapply log_format_spec; [exact Hds|exact Ht|exact Hfmt|exact Hx|exact Hn| |exact A|]; [log_len|]. clear A. intros sf A. cbv beta.
  apply wp_bind, wp_gets, wp_bind, wp_modify. eapply (HQ sf); [by rewrite <- !app_assoc in A|].
  by destruct A as [-> -> _ _ _].
Qed.
End log_proofs.

(** ** Reading the message back *)

Lemma bytes_at_bytes m a l : bytes m a l → bytes_at m a (Z.of_nat (length l)) = l.
Proof.
  intros Hb. unfold bytes_at. rewrite Nat2Z.id. apply list_eq. intros i. rewrite list_lookup_fmap.
  destruct (decide (i < length l)%nat) as [Hi|Hi].
  - rewrite lookup_seq_lt by done. destruct (lookup_lt_is_Some_2 l i Hi) as [c Hc]. rewrite Hc. cbn. f_equal.
    by apply (proj1 (bytes_lookup m a l) Hb).
  - rewrite (lookup_ge_None_2 l) by lia. by rewrite lookup_ge_None_2 by (rewrite length_seq; lia).
Qed.
Lemma cstr_bytes m a l : cstr m a l → bytes m a l.
Proof. revert a. induction l as [|c l IH]; intros a; [done|]. intros (H1 & _ & H2). split; [done|by apply IH]. Qed.

Section log_theorems.
Context {D : Type} `{Bus D} `{Clock D}.
Context (lit : list Z → Z) (message sec_str ms_str line_str num hex : Z) (fuel : nat).
Implicit Types (s : log_state D).

Abbreviation log := (log_to_terminal lit message sec_str ms_str line_str num hex).

(** A call of the log: its strings in place, clear of [N] bytes of message. *)
Record log_call (m : mem_t) (N : Z) (from file fmt : Z) (args : list varg) (ds : list ldirective) (lf ll : list Z) : Prop := {
  call_frame : frame_ok message sec_str ms_str line_str num hex N;
  call_literals : literals_ok lit message sec_str ms_str line_str num hex fuel m N;
  call_from : source message sec_str ms_str line_str num hex fuel m N (or_unknown lit from) lf;
  call_file : source message sec_str ms_str line_str num hex fuel m N (or_unknown lit file) ll;
  call_fmt : fmt ≠ 0 ∧ source message sec_str ms_str line_str num hex fuel m N fmt (lformat_chars ds);
  call_args : strings_ok message sec_str ms_str line_str num hex fuel m N args
}.

Lemma log_to_terminal_spec status from file line fmt args ds lf ll body ms tm s :
  let t := log_text ms status lf ll line body in
  log_call (mem s) (Z.of_nat (length t) + 1) from file fmt args ds lf ll →
  Forall ldirective_ok ds → lformat_text ds args = Some body → (length ds < fuel)%nat → (33 <= fuel)%nat →
  get_time_ms fuel (time s) = Some (ms, tm) →
  wp (log true fuel status from file line fmt (map varg_word args)) (λ _ s',
    time s' = tm ∧ term s' = term s ++ t ∧ bytes (mem s') message (t ++ [0]) ∧
    same_outside (written message sec_str ms_str line_str num hex (Z.of_nat (length t) + 1)) (mem s) (mem s')) s ∧
  log false fuel status from file line fmt (map varg_word args) s = Some (tt, s).
Proof.
  intros t [Hf Hl Hfrom Hfile [Hz Hfmt] Hx] Hds Ht Hn Hfuel Htime. split; [|done].
  eapply log_run; try done. fold t. intros s' s'' [A1 A2 A3 A4 A5] ->. rewrite A3. replace (message + _ - message) with (Z.of_nat (length t)) by lia.
  apply wp_modify. cbn [time mem ptr term].
  assert (bytes (store8 (mem s') (message + Z.of_nat (length t)) 0) message t) as Hb.
  { eapply bytes_ext; [|exact A4]. intros i Hi. apply load8_store8_ne. lia. }
  rewrite bytes_at_bytes by done. split_and!; try done.
  - apply bytes_app. split; [done|]. cbn. split; [|done]. by rewrite load8_store8_eq.
  - intros x Hx'. assert (x ≠ message + Z.of_nat (length t)) by (intros ->; apply Hx'; left; lia).
    rewrite load8_store8_ne by lia. apply A5. intros [?|?]; apply Hx'; [left; lia|by right].
Qed.

(** C30: a log message other than an [Info] one is its time stamp, the coloured
    status with its prefix, the function, the base name of the file, the line and
    the formatted text, whose numbers are cut down to an [int], and it is what
    the terminal gets; the bytes the call changes are the number buffers and as
    many bytes from [message] on as the text needs with its terminator, however
    many the array holds.  Without a terminal nothing happens.  An [Info] message
    has a prefix too, against the comment in [log-info.h] (see
    [log_info_prefix]). *)
Theorem log_to_terminal_correct status from file line fmt args ds lf ll body ms tm s :
  let prefix := match status with Warn => txt "WARN: " | Fatal => txt "FATAL: " | _ => txt "OK: " end in
  let t := stamp ms ++ get_status_color status ++ prefix ++ COLOR_RESET ++ COLOR_DIM ++
    [91] ++ lf ++ txt " in " ++ basename ll ++ [58] ++ itoa_chars (s32 line) 10 ++ [93] ++ COLOR_RESET ++ [32] ++ body in
  status ≠ Info →
  log_call (mem s) (Z.of_nat (length t) + 1) from file fmt args ds lf ll →
  Forall ldirective_ok ds → lformat_text ds args = Some body → (length ds < fuel)%nat → (33 <= fuel)%nat →
  get_time_ms fuel (time s) = Some (ms, tm) →
  wp (log true fuel status from file line fmt (map varg_word args)) (λ _ s',
    time s' = tm ∧ term s' = term s ++ t ∧ bytes (mem s') message (t ++ [0]) ∧
    same_outside (written message sec_str ms_str line_str num hex (Z.of_nat (length t) + 1)) (mem s) (mem s')) s ∧
  log false fuel status from file line fmt (map varg_word args) s = Some (tt, s).
Proof. intros prefix t Hs. assert (t = log_text ms status lf ll line body) as -> by (by destruct status). apply log_to_terminal_spec. Qed.

(** The comment on [Info] says that it has no prefix. *)
Lemma log_info_prefix from file line fmt args ds lf ll body ms tm s :
  let t := log_text ms Info lf ll line body in
  log_call (mem s) (Z.of_nat (length t) + 1) from file fmt args ds lf ll →
  Forall ldirective_ok ds → lformat_text ds args = Some body → (length ds < fuel)%nat → (33 <= fuel)%nat →
  get_time_ms fuel (time s) = Some (ms, tm) →
  wp (log true fuel Info from file line fmt (map varg_word args)) (λ _ s', ∃ rest,
    term s' = term s ++ stamp ms ++ COLOR_BOLD ++ txt "INFO: " ++ rest) s.
Proof.
  intros t Hc Hd Ht Hn Hf Hm. destruct (log_to_terminal_spec Info from file line fmt args ds lf ll body ms tm s Hc Hd Ht Hn Hf Hm) as [Hw _].
  eapply wp_mono; [exact Hw|]. intros u s' (_ & E & _). eexists. exact E.
Qed.

(** A coloured string: the colour, the text, the reset sequence. *)
Theorem printcol_correct color text lc lt s : cstr (mem s) color lc → cstr (mem s) text lt → cstr (mem s) (lit COLOR_RESET) COLOR_RESET →
  (length lc < fuel)%nat → (length lt < fuel)%nat → (4 < fuel)%nat → Z.of_nat fuel < 2 ^ 64 →
  wp (printcol lit true fuel color text) (λ _ s', s' = mk_log (time s) (mem s) (ptr s) (term s ++ lc ++ lt ++ COLOR_RESET)) s.
Proof.
  intros Hc Ht Hr Hlc Hlt Hf Hfuel. unfold printcol. apply wp_bind, wp_gets.
  assert (∀ p l (k : M (log_state D) unit) Q s1, mem s1 = mem s → cstr (mem s) p l → (length l < fuel)%nat →
    wp k Q (mk_log (time s1) (mem s1) (ptr s1) (term s1 ++ l)) →
    wp (n ← of_option (strlen fuel (mem s) p); to_terminal p n;; k) Q s1) as Hstep.
  { intros p l k Q s1 Hm Hp Hl HQ. apply wp_bind. eapply wp_of_option; [apply (strlen_spec fuel _ _ l); [done..|lia]|]. cbv beta.
    apply wp_bind, wp_modify. rewrite Hm in *. rewrite bytes_at_bytes; [done|]. by apply cstr_bytes. }
  apply (Hstep color lc); [done..|]. apply (Hstep text lt); [done..|].
  apply wp_bind. eapply wp_of_option; [apply (strlen_spec fuel _ _ COLOR_RESET); [done|cbn; lia|cbn; lia]|]. cbv beta.
  apply wp_modify. cbn [time mem ptr term]. rewrite bytes_at_bytes by (by apply cstr_bytes). by rewrite <- !app_assoc.
Qed.
End log_theorems.

(** ** A message to try it on *)

Definition source_b (message : Z) (bufs : list Z) (fuel : nat) (m : mem_t) (N p : Z) (l : list Z) : bool :=
  cstr_b m p l && (Nat.ltb (length l) fuel) && ((p + Z.of_nat (length l) <? message) || (message + N <=? p)) &&
  forallb (λ b, (p + Z.of_nat (length l) <? b) || (b + 16 <=? p)) bufs.
Lemma source_b_sound message sec_str ms_str line_str num hex fuel m N p l :
  source_b message (buffers sec_str ms_str line_str num hex) fuel m N p l = true → source message sec_str ms_str line_str num hex fuel m N p l.
Proof.
  unfold source_b. rewrite !andb_true_iff, orb_true_iff, forallb_forall. intros (((H1 & H2) & H3) & H4).
  split; [by apply cstr_b_sound|by apply Nat.ltb_lt|lia|].
  intros b Hb. apply list_elem_of_In in Hb. specialize (H4 b Hb). apply orb_true_iff in H4. lia.
Qed.

Definition log_lit : list Z → Z := link log_literals 0x2000.
Definition log_rodata : mem_t :=
  put_string (put_string (put_string (put_string (foldl (λ m l, put_string m (log_lit l) l) ∅ log_literals)
    0x4000 (txt "init_heap")) 0x4100 (txt "kernel/kernel.c")) 0x4200 (txt "at %p: %d%% %s%q")) 0x4300 (txt "ok").
(** 1.005 seconds after the boot, on a 1 GHz processor. *)
Definition log_demo : log_state timer :=
  mk_log (mk_time (mk_timer 1000 1000 true 1005000000 Stopped None) 1000000000 1000 TSC_DELAY) log_rodata 0 [].

Lemma log_to_terminal_correct_witness :
  Warn ≠ Info ∧ wp (log_to_terminal log_lit 0x8000 0x7000 0x7010 0x7020 0x7030 0x7040 true 200 Warn 0x4000 0x4100 7 0x4200 [0xFFFFFFFF80123456; -5; 0x4300])
    (λ _ s', term s' = txt "[  1.005] " ++ COLOR_YELLOW ++ txt "WARN: " ++ COLOR_RESET ++ COLOR_DIM ++
       txt "[init_heap in kernel.c:7]" ++ COLOR_RESET ++ txt " at 0x80123456: -5% ok%q") log_demo.
Proof.
  split; [done|]. destruct (log_to_terminal_correct log_lit 0x8000 0x7000 0x7010 0x7020 0x7030 0x7040 200 Warn 0x4000 0x4100 7 0x4200
    [Word 0xFFFFFFFF80123456; Word (-5); Text 0x4300 (txt "ok")]
    (map LChar (txt "at ") ++ [LField LP] ++ map LChar (txt ": ") ++ [LField LD; LPercent; LChar 32; LField LS; LOther 113])
    (txt "init_heap") (txt "kernel/kernel.c") (txt "at 0x80123456: -5% ok%q") 1005
    (mk_time (mk_timer 1000 1000 true 1005001000 Stopped None) 1000000000 1000 TSC_DELAY) log_demo) as [H _].
  - done.
  - split; [|intros l Hl|..|split; [done|]|intros a l Hin Ha].
    3, 4, 5: apply source_b_sound; vm_compute; reflexivity.
    + intros b Hb. left. apply list_elem_of_In in Hb. cbn in Hb. intuition (subst; vm_compute; discriminate).
    + apply source_b_sound. revert l Hl. setoid_rewrite list_elem_of_In. apply forallb_forall. vm_compute. reflexivity.
    + apply list_elem_of_In in Hin. cbn in Hin. destruct Hin as [Hin|[Hin|[Hin|[]]]]; try discriminate Hin.
      injection Hin as <- <-. apply source_b_sound. vm_compute. reflexivity.
  - repeat (constructor; [first [exact I|split; [split; vm_compute; reflexivity|by vm_compute]|split; [vm_compute; split; reflexivity|apply (bool_decide_unpack _); vm_compute; exact I]]|]). constructor.
  - vm_compute. reflexivity.
  - cbn. lia.
  - lia.
  - vm_compute. reflexivity.
  - eapply wp_mono; [exact H|]. intros u s' (_ & Ht & _). rewrite Ht. vm_compute. reflexivity.
Defined.

Lemma printcol_correct_witness :
  wp (printcol log_lit true 100 (log_lit COLOR_RED) 0x4300) (λ _ s', term s' = COLOR_RED ++ txt "ok" ++ COLOR_RESET) log_demo.
Proof.
  eapply wp_mono; [apply (printcol_correct log_lit 100 (log_lit COLOR_RED) 0x4300 COLOR_RED (txt "ok") log_demo)|].
  1, 2, 3: apply cstr_b_sound; vm_compute; reflexivity.
  1, 2, 3: cbn; lia.
  - reflexivity.
  - intros u s' ->. reflexivity.
Defined.
