(* ===== verification/Sata.v ===== *)
(** * AHCI disks ([drivers/storage/sata.c], [includes/sata.h])

    The driver over the register class of [Io] and the allocator interface of
    [KHeap]: the state [S] has memory-mapped port registers and a heap whose
    memory the command structures are built in.  [udelay] is that of [Time] on
    the same state.  Writing to the null pointer stops the machine; [clflush] and
    the log have no effect on this state. *)

From stdpp Require Import prelude gmap list numbers tactics.
From S2P Require Import Prelude Memory Io KHeap Arith Atapi.

Definition SATA_WAIT_TIMEOUT : Z := 1000.
Definition SATA_WAIT_TIMEOUT_PER_SECTOR : Z := 250.

(** Port registers. *)
Definition PxCLB : Z := 0x00.
Definition PxCLBU : Z := 0x04.
Definition PxFB : Z := 0x08.
Definition PxFBU : Z := 0x0C.
Definition PxIS : Z := 0x10.
Definition PxCMD : Z := 0x18.
Definition PxTFD : Z := 0x20.
Definition PxSIG : Z := 0x24.
Definition PxSSTS : Z := 0x28.
Definition PxSERR : Z := 0x30.
Definition PxCI : Z := 0x38.

(** [ahci_port_mem_t]: command list, received FIS, command tables. *)
Definition sizeof_port_mem : Z := 9472.
Definition cl (port_mem : Z) : Z := port_mem.
Definition rfis (port_mem : Z) : Z := port_mem + 1024.
Definition ct (port_mem : Z) : Z := port_mem + 1280.
(** [hba_cmd_tbl_t]: the command FIS, the packet at +64, the entries at +128. *)
Definition sizeof_cmd_tbl : Z := 144.
Definition acmd (tbl : Z) : Z := tbl + 64.
Definition prdt_entry (tbl i : Z) : Z := tbl + 128 + 16 * i.

(** ** The command structures *)

(** [cmd_header[0]]: [flags], [prdt_length], [ctba], [ctbau]. *)
Definition set_header (m : gmap Z Z) (h flags prdt_length : Z) : gmap Z Z := store16 (store16 m h flags) (h + 2) (u16 prdt_length).
Definition set_ctba (m : gmap Z Z) (h addr : Z) : gmap Z Z :=
  store32 (store32 m (h + 8) (u32 addr)) (h + 12) (u32 (Z.shiftr (u64 addr) 32)).

(** [hba_prdt_entry_t]: the bit fields [dbc] and [i] share the last word. *)
Definition set_prdt (m : gmap Z Z) (e addr dbc : Z) : gmap Z Z :=
  let m := store32 m e (u32 addr) in
  let m := store32 m (e + 4) (u32 (Z.shiftr (u64 addr) 32)) in
  let m := store32 m (e + 12) (Z.lor (Z.land (load32 m (e + 12)) (cnot 32 0x3FFFFF)) (Z.land dbc 0x3FFFFF)) in
  store32 m (e + 12) (Z.lor (load32 m (e + 12)) (Z.shiftl 1 31)).

(** [for (; i < prdt_entries - 1; i++)], then the last entry. *)
Fixpoint fill_prdt (n : nat) (m : gmap Z Z) (tbl i buf remaining_sectors : Z) : gmap Z Z :=
  match n with
  | O => set_prdt m (prdt_entry tbl i) buf (s32 (Z.shiftl remaining_sectors 9 - 1))
  | S n =>
    let m := set_prdt m (prdt_entry tbl i) buf (8 * 1024 - 1) in
    fill_prdt n m tbl (i + 1) (u64 (buf + 8 * 1024)) (remaining_sectors - 16)
  end.

(** [fis_reg_h2d_t]: cleared, then type, [c] bit and command. *)
Definition sizeof_fis : Z := 20.
Definition start_fis (m : gmap Z Z) (fis command : Z) : gmap Z Z :=
  let m := memset m fis 0 sizeof_fis in
  let m := store8 m fis 0x27 in
  let m := store8 m (fis + 1) (Z.lor (load8 m (fis + 1)) 0x80) in
  store8 m (fis + 2) command.
Definition read_fis (m : gmap Z Z) (fis lba sector_count : Z) : gmap Z Z :=
  let m := start_fis m fis 0x25 in
  let m := store8 m (fis + 7) (Z.shiftl 1 6) in
  let m := store8 m (fis + 4) (u8 (Z.land lba 0xFF)) in
  let m := store8 m (fis + 5) (u8 (Z.land (Z.shiftr lba 8) 0xFF)) in
  let m := store8 m (fis + 6) (u8 (Z.land (Z.shiftr lba 16) 0xFF)) in
  let m := store8 m (fis + 8) (u8 (Z.land (Z.shiftr lba 24) 0xFF)) in
  let m := store8 m (fis + 9) (u8 (Z.land (Z.shiftr lba 32) 0xFF)) in
  let m := store8 m (fis + 10) (u8 (Z.land (Z.shiftr lba 40) 0xFF)) in
  let m := store8 m (fis + 12) (Z.land sector_count 0xFF) in
  store8 m (fis + 13) (Z.land (Z.shiftr sector_count 8) 0xFF).

(** What [sata_ahci_read_sector] writes between stopping and starting the port. *)
Definition prdt_entries (sector_count : Z) : Z :=
  let n := (sector_count + 15) / 16 in if 65535 <? n then 65535 else n.
Definition build_read (m : gmap Z Z) (port_mem lba sector_count buffer : Z) : gmap Z Z :=
  let m := memset m (cl port_mem) 0 32 in
  let m := set_header m (cl port_mem) 5 (prdt_entries sector_count) in
  let m := memset m (ct port_mem) 0 sizeof_cmd_tbl in
  let m := set_ctba m (cl port_mem) (ct port_mem) in
  let m := fill_prdt (Z.to_nat (prdt_entries sector_count - 1)) m (ct port_mem) 0 buffer sector_count in
  read_fis m (ct port_mem) lba sector_count.

(** The IDENTIFY commands do not clear the structures first. *)
Definition build_identify (m : gmap Z Z) (port_mem command buffer : Z) : gmap Z Z :=
  let m := set_header m (cl port_mem) 5 1 in
  let m := set_ctba m (cl port_mem) (ct port_mem) in
  let m := set_prdt m (prdt_entry (ct port_mem) 0) buffer (512 - 1) in
  start_fis m (ct port_mem) command.

(** The packet commands: [atapi_cmd] is the packet, [byte_count] the transfer. *)
Fixpoint put_list (m : gmap Z Z) (a : Z) (l : list Z) : gmap Z Z :=
  match l with [] => m | c :: l => put_list (store8 m a c) (a + 1) l end.
Definition build_packet (m : gmap Z Z) (port_mem ct_phys buf_phys byte_count : Z) (atapi_cmd : list Z) : gmap Z Z :=
  let m := memset m (cl port_mem) 0 32 in
  let m := store16 m (cl port_mem + 2) 1 in
  let m := store16 m (cl port_mem) (Z.lor 5 (Z.shiftl 1 5)) in
  let m := set_ctba m (cl port_mem) ct_phys in
  let m := set_prdt m (prdt_entry (ct port_mem) 0) buf_phys (Z.land (byte_count - 1) 0x003FFFFF) in
  let m := memset m (acmd (ct port_mem)) 0 16 in
  let m := put_list m (acmd (ct port_mem)) atapi_cmd in
  let m := start_fis m (ct port_mem) 0xA0 in
  store8 m (ct port_mem + 7) 0xA0.

(** ** The driver *)

(** How a timed wait ends: the condition went away with [timeout] left, or the
    body broke out with a value. *)
Inductive waited := Left (timeout : Z) | Broke (v : Z).

(** What [sata_search] reports of a port. *)
Inductive found :=
| SataDrive (p guid : Z) | AtapiDrive (p guid : Z) | EnclosureBridge (p : Z) | PortMultiplier (p : Z) | UnknownDevice (p sig : Z).

Section sata.
Context {S : Type} `{Bus S} `{Allocator S}.
(** The busy wait of [Time], the direct map, the fuel of the endless waits. *)
Context (udelay : Z → M S unit) (hhdm_offset : Z) (fuel : nat).

Definition virt_phys (virt : Z) : Z := u64 (virt - hhdm_offset).

Definition set_bits (a bits : Z) : M S unit := v ← reg_read a; reg_write a (Z.lor v bits).
Definition clear_bits (a bits : Z) : M S unit := v ← reg_read a; reg_write a (Z.land v (cnot 32 bits)).

(** [while (( *a & bits) && timeout--) body] *)
Fixpoint wait_while (timeout : nat) (a bits : Z) (body : Z → M S (option Z)) : M S waited :=
  v ← reg_read a;
  if truthy (Z.land v bits) then
    match timeout with
    | O => mret (Left (2 ^ 32 - 1))
    | Datatypes.S timeout =>
      r ← body (Z.of_nat timeout);
      match r with
      | Some e => mret (Broke e)
      | None => wait_while timeout a bits body
      end
    end
  else mret (Left (Z.of_nat timeout)).
(** [while ( *a & bits);] *)
Fixpoint wait_forever (n : nat) (a bits : Z) : M S unit :=
  match n with
  | O => mstop
  | Datatypes.S n => v ← reg_read a; if truthy (Z.land v bits) then wait_forever n a bits else mret tt
  end.

(** The three loop bodies: a time-out check, an error check, nothing. *)
Definition check_timeout (err : Z) (timeout : Z) : M S (option Z) :=
  if timeout =? 0 then mret (Some err) else udelay 10;; mret None.
Definition check_error (port_base errors : Z) (timeout : Z) : M S (option Z) :=
  isr ← reg_read (port_base + PxIS);
  if truthy (Z.land isr errors) then mret (Some isr) else udelay 10;; mret None.
Definition just_wait (timeout : Z) : M S (option Z) := udelay 10;; mret None.

(** Command list and FIS base addresses. *)
Definition set_bases (port_base cl fb : Z) : M S unit :=
  reg_write (port_base + PxCLB) (u32 cl);;
  reg_write (port_base + PxCLBU) (u32 (Z.shiftr (u64 cl) 32));;
  reg_write (port_base + PxFB) (u32 fb);;
  reg_write (port_base + PxFBU) (u32 (Z.shiftr (u64 fb) 32)).

Definition leave_with (port_mem r : Z) : M S Z := free port_mem;; mret r.

Definition sata_ahci_read_sector (port_base lba sector_count buffer : Z) : M S Z :=
  port_mem ← malloc sizeof_port_mem;
  massert (truthy port_mem);;
  al_store (λ m, memset m port_mem 0 sizeof_port_mem);;
  set_bases port_base (cl port_mem) (rfis port_mem);;
  clear_bits (port_base + PxCMD) 0x01;;
  clear_bits (port_base + PxCMD) (Z.shiftl 1 4);;
  w ← wait_while (Z.to_nat SATA_WAIT_TIMEOUT) (port_base + PxCMD) (Z.shiftl 1 15) (check_timeout 6);
  match w with
  | Broke e => leave_with port_mem e
  | Left _ =>
    w ← wait_while (Z.to_nat SATA_WAIT_TIMEOUT) (port_base + PxCMD) (Z.shiftl 1 14) (check_timeout 7);
    match w with
    | Broke e => leave_with port_mem e
    | Left _ =>
      al_store (λ m, build_read m port_mem lba sector_count buffer);;
      reg_write (port_base + PxIS) (2 ^ 32 - 1);;
      clear_bits (port_base + PxCMD) 0x11;;
      wait_forever fuel (port_base + PxCMD) (Z.lor (Z.shiftl 1 14) (Z.shiftl 1 15));;
      set_bits (port_base + PxCMD) (Z.shiftl 1 4);;
      set_bits (port_base + PxCMD) 1;;
      set_bits (port_base + PxCI) 1;;
      w ← wait_while (Z.to_nat (SATA_WAIT_TIMEOUT + sector_count * SATA_WAIT_TIMEOUT_PER_SECTOR)) (port_base + PxCI) 1
            (check_error port_base (Z.lor (Z.shiftl 1 30) (Z.shiftl 1 31)));
      match w with
      | Broke _ => leave_with port_mem 8
      | Left timeout => leave_with port_mem (if timeout =? 0 then 9 else 0)
      end
    end
  end.

(** IDENTIFY DEVICE and IDENTIFY PACKET DEVICE differ in the command only. *)
Definition ahci_identify (command port_base buffer : Z) : M S Z :=
  port_mem ← malloc sizeof_port_mem;
  set_bases port_base (cl port_mem) (rfis port_mem);;
  clear_bits (port_base + PxCMD) 0x01;;
  clear_bits (port_base + PxCMD) (Z.shiftl 1 4);;
  wait_forever fuel (port_base + PxCMD) (Z.shiftl 1 15);;
  wait_forever fuel (port_base + PxCMD) (Z.shiftl 1 14);;
  massert (truthy port_mem);;
  al_store (λ m, build_identify m port_mem command buffer);;
  reg_write (port_base + PxIS) (2 ^ 32 - 1);;
  set_bits (port_base + PxCMD) 0x11;;
  set_bits (port_base + PxCI) 1;;
  w ← wait_while (Z.to_nat SATA_WAIT_TIMEOUT) (port_base + PxCI) 1 (check_error port_base (Z.shiftl 1 30));
  match w with
  | Broke _ => leave_with port_mem 8
  | Left _ => leave_with port_mem 0
  end.
Definition sata_ahci_identify (port_base buffer : Z) : M S Z := ahci_identify 0xEC port_base buffer.
Definition sata_ahci_identify_satapi (port_base buffer : Z) : M S Z := ahci_identify 0xA1 port_base buffer.

(** The packet commands, from the zeroed structures to the issued command. *)
Definition issue_packet (port_base port_mem buffer byte_count : Z) (atapi_cmd : list Z) : M S bool :=
  al_store (λ m, memset m port_mem 0 sizeof_port_mem);;
  set_bases port_base (virt_phys (cl port_mem)) (virt_phys (rfis port_mem));;
  clear_bits (port_base + PxCMD) (Z.lor 1 (Z.shiftl 1 4));;
  w ← wait_while (Z.to_nat SATA_WAIT_TIMEOUT) (port_base + PxCMD) (Z.lor (Z.shiftl 1 14) (Z.shiftl 1 15)) just_wait;
  match w with
  | Left 0 | Broke _ => mret false
  | Left _ =>
    al_store (λ m, build_packet m port_mem (virt_phys (ct port_mem)) (virt_phys buffer) byte_count atapi_cmd);;
    reg_write (port_base + PxIS) (2 ^ 32 - 1);;
    reg_write (port_base + PxSERR) (2 ^ 32 - 1);;
    set_bits (port_base + PxCMD) (Z.shiftl 1 4);;
    set_bits (port_base + PxCMD) 1;;
    reg_write (port_base + PxCI) 1;;
    mret true
  end.

(** [atapi_cmd] is uninitialised when the packet is built: [stack] is what the
    twelve bytes happen to hold. *)
Definition sata_ahci_identify_satapi_properly (stack : list Z) (port_base buffer : Z) : M S Z :=
  if buffer =? 0 then mret (-1)
  else
    port_mem ← malloc sizeof_port_mem;
    if port_mem =? 0 then mret (-1)
    else
      issued ← issue_packet port_base port_mem buffer 8 (build_read_capacity_atapi_cmd stack);
      if negb issued then leave_with port_mem (-1)
      else
        w ← wait_while (Z.to_nat SATA_WAIT_TIMEOUT) (port_base + PxCI) 1 just_wait;
        match w with
        | Left 0 | Broke _ => leave_with port_mem (-1)
        | Left _ =>
          al_store (λ m, store32 m (buffer + 4) (be32toh (load32 m (buffer + 4))));;
          al_store (λ m, store32 m buffer (be32toh (load32 m buffer)));;
          leave_with port_mem 0
        end.

(** The failure exit waits and reads three registers for its message. *)
Definition read_failed (port_base port_mem : Z) : M S Z :=
  udelay 50;;
  reg_read (port_base + PxIS);;
  reg_read (port_base + PxTFD);;
  reg_read (port_base + PxSERR);;
  leave_with port_mem (-1).
Definition sata_ahci_read_sector_satapi (stack : list Z) (port_base lba sector_count buffer : Z) : M S Z :=
  if (buffer =? 0) || (sector_count =? 0) then mret (-1)
  else
    port_mem ← malloc sizeof_port_mem;
    if port_mem =? 0 then mret (-1)
    else
      issued ← issue_packet port_base port_mem buffer (u32 (sector_count * 2048)) (build_read10_atapi_cmd stack lba sector_count);
      if negb issued then read_failed port_base port_mem
      else
        w ← wait_while (Z.to_nat (SATA_WAIT_TIMEOUT + sector_count * SATA_WAIT_TIMEOUT_PER_SECTOR)) (port_base + PxCI) 1
              (check_error port_base (Z.lor (Z.shiftl 1 30) (Z.shiftl 1 31)));
        match w with
        | Left 0 | Broke _ => read_failed port_base port_mem
        | Left _ =>
          wait_while (Z.to_nat SATA_WAIT_TIMEOUT) (port_base + PxCI) 1 just_wait;;
          leave_with port_mem 0
        end.

(** One implemented port of [sata_search]: [None] when no device answers. *)
Definition align_up_size (x a : Z) : Z := Z.land (u64 (x + (a - 1))) (cnot 64 (a - 1)).
Definition load_array32 (a i : Z) : M S Z := gets (λ s, load32 (al_mem s) (a + 4 * i)).
Definition search_port (stack : list Z) (mmio_base p : Z) : M S (option found) :=
  let port_base := u32 (mmio_base + 0x100 + p * 0x80) in
  ssts ← reg_read (port_base + PxSSTS);
  let det := Z.land ssts 0x0F in
  let ipm := Z.land (Z.shiftr ssts 8) 0x0F in
  if negb (det =? 3) || negb (ipm =? 1) then mret None
  else
    sig ← reg_read (port_base + PxSIG);
    if sig =? 0x00000101 then
      identify_buffer ← malloc 512;
      sata_ahci_identify port_base identify_buffer;;
      massert (truthy identify_buffer);;
      word ← gets (λ s, load16 (al_mem s) (identify_buffer + 2 * 117));
      let sector_size := if truthy word then word else 512 in
      let size := align_up_size 600 sector_size in
      read_buffer ← malloc size;
      sata_ahci_read_sector port_base 0 (u16 (size / sector_size)) read_buffer;;
      massert (truthy read_buffer);;
      guid ← load_array32 read_buffer 0x8E;
      free read_buffer;;
      free identify_buffer;;
      mret (Some (SataDrive p guid))
    else if sig =? 0xEB140101 then
      read_buffer ← malloc 2048;
      sata_ahci_read_sector_satapi stack port_base 0 1 read_buffer;;
      massert (truthy read_buffer);;
      guid ← load_array32 read_buffer 0x8E;
      free read_buffer;;
      mret (Some (AtapiDrive p guid))
    else if sig =? 0x96690101 then mret (Some (EnclosureBridge p))
    else if sig =? 0xC33C0101 then mret (Some (PortMultiplier p))
    else mret (Some (UnknownDevice p sig)).

(** [for (p = 0; p < 32; p++)] from [p] on; the result is what the log reports. *)
Fixpoint search_ports (n : nat) (stack : list Z) (mmio_base pi p : Z) : M S (list found) :=
  match n with
  | O => mret []
  | Datatypes.S n =>
    r ← (if truthy (Z.land pi (Z.shiftl 1 p)) then search_port stack mmio_base p else mret None);
    l ← search_ports n stack mmio_base pi (p + 1);
    mret (match r with Some f => f :: l | None => l end)
  end.
Definition sata_search (stack : list Z) (mmio_base : Z) : M S (list found) :=
  pi ← reg_read (mmio_base + 0x0C);
  search_ports 32 stack mmio_base pi 0.
End sata.
