(* ===== verification/SataHba.v ===== *)
(** * An AHCI port with a drive behind it, as a device for [Sata]

    The contract of a host bus adapter's port in the AHCI standard, for the first
    command slot: the command and FIS engines with the time they take to stop,
    the command header, the command table with its FIS, its packet and its
    scatter list fetched from memory, the transfer, and the received FIS.  The
    adapter sees memory at bus addresses; [view] is the memory address behind a
    bus address.  The low bits its address registers do not have read as zero.
    [latency] is how often the command register reads busy after a command. *)

From stdpp Require Import prelude gmap list numbers tactics.
From S2P Require Import Prelude Memory Io KHeap Ata AtaDisk Sata.

Record port := mk_port {
  base : Z; view : Z → Z;
  settle : nat; latency : nat; fault : bool;
  sig : Z; ident : gmap Z Z;
  disc : option Z;                 (* a packet device, and its last address *)
  disk : gmap Z Z;
  clb : Z; fb : Z;                 (* as written, 64 bits *)
  is_ : Z;
  st : bool; fre : bool; stopping : nat;
  busy : option nat                (* the command's remaining polls *)
}.
Definition set_clb (v : Z) (p : port) : port :=
  mk_port (base p) (view p) (settle p) (latency p) (fault p) (sig p) (ident p) (disc p) (disk p) v (fb p) (is_ p) (st p) (fre p) (stopping p) (busy p).
Definition set_fb (v : Z) (p : port) : port :=
  mk_port (base p) (view p) (settle p) (latency p) (fault p) (sig p) (ident p) (disc p) (disk p) (clb p) v (is_ p) (st p) (fre p) (stopping p) (busy p).
Definition set_is (v : Z) (p : port) : port :=
  mk_port (base p) (view p) (settle p) (latency p) (fault p) (sig p) (ident p) (disc p) (disk p) (clb p) (fb p) v (st p) (fre p) (stopping p) (busy p).
Definition set_engines (st fre : bool) (n : nat) (p : port) : port :=
  mk_port (base p) (view p) (settle p) (latency p) (fault p) (sig p) (ident p) (disc p) (disk p) (clb p) (fb p) (is_ p) st fre n (busy p).
Definition set_busy (b : option nat) (p : port) : port :=
  mk_port (base p) (view p) (settle p) (latency p) (fault p) (sig p) (ident p) (disc p) (disk p) (clb p) (fb p) (is_ p) (st p) (fre p) (stopping p) b.

(** ** The adapter's accesses to memory *)

Section bus.
Context (view : Z → Z).
Fixpoint bus_load (n : nat) (m : gmap Z Z) (a : Z) : Z :=
  match n with O => 0 | S n => load8 m (view a) + 256 * bus_load n m (a + 1) end.
Fixpoint bus_store (m : gmap Z Z) (a : Z) (l : list Z) : gmap Z Z :=
  match l with [] => m | c :: l => bus_store (store8 m (view a) c) (a + 1) l end.
(** [n] bytes of [src] from [pos] on to the bus address [a]. *)
Fixpoint bus_copy (n : nat) (m : gmap Z Z) (a : Z) (src : gmap Z Z) (pos : Z) : gmap Z Z :=
  match n with
  | O => m
  | S n => bus_copy n (store8 m (view a) (load8 src pos)) (a + 1) src (pos + 1)
  end.
(** [n] entries of the scatter list at [e]; the bytes left over. *)
Fixpoint scatter (n : nat) (m : gmap Z Z) (e : Z) (src : gmap Z Z) (pos len : Z) : gmap Z Z * Z :=
  match n with
  | O => (m, len)
  | S n =>
    if len <=? 0 then (m, len)
    else
      let k := Z.min len (bus_load 4 m (e + 12) mod 2 ^ 22 + 1) in
      scatter n (bus_copy (Z.to_nat k) m (bus_load 8 m e) src pos) (e + 16) src (pos + k) (len - k)
  end.
End bus.

(** ** Commands *)

(** The data a command FIS at [t] asks for: source, position and length. *)
Definition fis_lba (view : Z → Z) (m : gmap Z Z) (t : Z) : Z := bus_load view 3 m (t + 4) + 2 ^ 24 * bus_load view 3 m (t + 8).
Definition fis_count (view : Z → Z) (m : gmap Z Z) (t : Z) : Z :=
  let n := bus_load view 2 m (t + 12) in if n =? 0 then 65536 else n.
Definition packet_data (p : port) (last : Z) (packet : list Z) : option (gmap Z Z * Z * Z) :=
  match packet with
  | [op; _; l3; l2; l1; l0; _; n1; n0; _; _; _] =>
    if op =? 0x28 then Some (disk p, be_bytes [l3; l2; l1; l0] * disc_block, be_bytes [n1; n0] * disc_block)
    else if op =? 0x25 then Some (map_bytes (bytes_of 4 last ++ bytes_of 4 disc_block), 0, 8)
    else None
  | _ => None
  end.
Definition command_data (p : port) (flags : Z) (m : gmap Z Z) (t : Z) : option (gmap Z Z * Z * Z) :=
  let v := view p in
  let command := bus_load v 1 m (t + 2) in
  if negb (flags mod 32 =? 5) || Z.testbit flags 6 || negb (bus_load v 1 m t =? 0x27) || negb (Z.testbit (bus_load v 1 m (t + 1)) 7) then None
  else match disc p with
  | None =>
    if command =? 0xEC then Some (ident p, 0, block)
    else if (command =? 0x25) && Z.testbit (bus_load v 1 m (t + 7)) 6 then
      Some (disk p, fis_lba v m t * block, fis_count v m t * block)
    else None
  | Some last =>
    if command =? 0xA1 then Some (ident p, 0, block)
    else if (command =? 0xA0) && Z.testbit flags 5 then
      packet_data p last (map (λ i, bus_load v 1 m (t + 64 + Z.of_nat i)) (seq 0 12))
    else None
  end.

(** The finished command: memory, interrupt status, and whether it succeeded. *)
Definition received_fis (ok : bool) : list Z := [0x34; 0x40; if ok then 0x50 else 0x51; if ok then 0 else 4] ++ replicate 16 0.
Definition header_at (p : port) : Z := clb p - clb p mod 1024.
Definition table_at (p : port) (m : gmap Z Z) : Z := let t := bus_load (view p) 8 m (header_at p + 8) in t - t mod 128.
Definition finish (p : port) (m : gmap Z Z) : gmap Z Z * Z :=
  let h := header_at p in
  let t := table_at p m in
  match (if fault p then None else command_data p (bus_load (view p) 2 m h) m t) with
  | None => (bus_store (view p) m (fb p - fb p mod 256 + 64) (received_fis false), 2 ^ 30)
  | Some (src, pos, len) =>
    let '(m, rest) := scatter (view p) (Z.to_nat (bus_load (view p) 2 m (h + 2))) m (t + 128) src pos len in
    let m := bus_store (view p) m (h + 4) (map (λ k, (len - rest) / 2 ^ (8 * k) mod 256) [0; 1; 2; 3]) in
    (bus_store (view p) m (fb p - fb p mod 256 + 64) (received_fis true), if 0 <? rest then 2 ^ 24 + 1 else 1)
  end.

(** ** The machine: a heap, the port, a clock *)

Record ahci (H C : Type) := mk_ahci { heap : H; hba : port; clock : C }.
Arguments mk_ahci {H C}. Arguments heap {H C}. Arguments hba {H C}. Arguments clock {H C}.

Section machine.
Context {H C : Type} `{Allocator H}.
Implicit Types s : ahci H C.

Definition on_heap {A} (c : M H A) : M (ahci H C) A := zoom heap (λ h s, mk_ahci h (hba s) (clock s)) c.
Definition on_clock {A} (c : M C A) : M (ahci H C) A := zoom clock (λ k s, mk_ahci (heap s) (hba s) k) c.
Definition set_hba (p : port) s : ahci H C := mk_ahci (heap s) p (clock s).

#[export] Instance ahci_allocator : Allocator (ahci H C) := {
  al_mem s := al_mem (heap s);
  al_malloc n := on_heap (al_malloc n);
  al_free p := on_heap (al_free p);
  al_realloc p n := on_heap (al_realloc p n);
  al_store f := on_heap (al_store f)
}.

(** The polled command register: when its time is up the transfer happens; a
    failed command keeps its bit. *)
Definition poll_command s : Z * ahci H C :=
  let p := hba s in
  match busy p with
  | None => (0, s)
  | Some (Datatypes.S n) => (1, set_hba (set_busy (Some n) p) s)
  | Some O =>
    let '(m, i) := finish p (al_mem (heap s)) in
    let heap' := match al_store (λ _, m) (heap s) with Some (_, h) => h | None => heap s end in
    let failed := Z.testbit i 30 in
    (if failed then 1 else 0, mk_ahci heap' (set_is (Z.lor (is_ p) i) (set_busy (if failed then Some O else None) p)) (clock s))
  end.
Definition poll_engines s : Z * ahci H C :=
  let p := hba s in
  let slow := match stopping p with O => false | _ => true end in
  (Z.b2z (st p) + 2 ^ 4 * Z.b2z (fre p) + 2 ^ 14 * Z.b2z (fre p || slow) + 2 ^ 15 * Z.b2z (st p || slow),
   set_hba (set_engines (st p) (fre p) (pred (stopping p)) p) s).
Definition read_reg (r : Z) s : Z * ahci H C :=
  let p := hba s in
  if r =? PxCLB then (clb p mod 2 ^ 32, s)
  else if r =? PxCLBU then (clb p / 2 ^ 32, s)
  else if r =? PxFB then (fb p mod 2 ^ 32, s)
  else if r =? PxFBU then (fb p / 2 ^ 32, s)
  else if r =? PxIS then (is_ p, s)
  else if r =? PxCMD then poll_engines s
  else if r =? PxTFD then (if fault p then 0x51 else 0x50, s)
  else if r =? PxSIG then (sig p, s)
  else if r =? PxSSTS then (0x113, s)
  else if r =? PxCI then poll_command s
  else (0, s).

Definition write_command (v : Z) (p : port) : port :=
  let st' := Z.testbit v 0 in
  let fre' := Z.testbit v 4 in
  let p := if st p && negb st' then set_busy None p else p in
  set_engines st' fre' (if st p && negb st' || fre p && negb fre' then settle p else stopping p) p.
Definition issue (v : Z) (p : port) : port :=
  if Z.testbit v 0 && st p && fre p then match busy p with None => set_busy (Some (latency p)) p | Some _ => p end else p.
Definition write_reg (r v : Z) (p : port) : port :=
  if r =? PxCLB then set_clb (clb p / 2 ^ 32 * 2 ^ 32 + v) p
  else if r =? PxCLBU then set_clb (clb p mod 2 ^ 32 + v * 2 ^ 32) p
  else if r =? PxFB then set_fb (fb p / 2 ^ 32 * 2 ^ 32 + v) p
  else if r =? PxFBU then set_fb (fb p mod 2 ^ 32 + v * 2 ^ 32) p
  else if r =? PxIS then set_is (Z.land (is_ p) (cnot 32 v)) p
  else if r =? PxCMD then write_command v p
  else if r =? PxCI then issue v p
  else p.

#[export] Instance ahci_bus : Bus (ahci H C) := {|
  bus_in w port s := (0, s); bus_out w port v s := s;
  mmio_read a s := read_reg (a - base (hba s)) s;
  mmio_write a v s := set_hba (write_reg (a - base (hba s)) v (hba s)) s;
  msr_read r s := 0; msr_write r v s := s; cr4_read s := 0; cr4_write v s := s
|}.
End machine.
