(* ===== verification/SataProps.v ===== *)
(** * The AHCI driver on the port of [SataHba]

    What the driver builds in memory ([sata_read_command], for any addresses),
    what an adapter makes of it that sees the driver's addresses, errors, and the
    runs in which the code's time-out test misses the time-out. *)

From stdpp Require Import prelude gmap list numbers tactics.
From S2P Require Import Prelude Memory Io KHeap Arith Ata AtaDisk Atapi Sata SataHba.

(** ** Memory accesses that do not meet *)

Lemma loadn_add n k m a : loadn (n + k) m a = loadn n m a + 256 ^ Z.of_nat n * loadn k m (a + Z.of_nat n).
Proof.
  revert a. induction n as [|n IH]; intros a.
  - change (loadn 0 m a) with 0. rewrite Z.add_0_r. cbn. by destruct (loadn k m a).
  - change (load8 m a + 256 * loadn (n + k) m (a + 1) = load8 m a + 256 * loadn n m (a + 1) + 256 ^ Z.of_nat (S n) * loadn k m (a + Z.of_nat (S n))).
    rewrite IH, Nat2Z.inj_succ, Z.pow_succ_r by lia. replace (a + 1 + Z.of_nat n) with (a + Z.succ (Z.of_nat n)) by lia. lia.
Qed.
Lemma load64_words m a : load64 m a = load32 m a + 2 ^ 32 * load32 m (a + 4).
Proof. exact (loadn_add 4 4 m a). Qed.
Lemma loadn_1 m a : loadn 1 m a = load8 m a.
Proof. change (load8 m a + 256 * 0 = load8 m a). lia. Qed.
Lemma load8_store8 m a b v : load8 (store8 m a v) b = if decide (a = b) then v mod 256 else load8 m b.
Proof. case_decide as E; [subst; apply load8_store8_eq|by apply load8_store8_ne]. Qed.
(** Through stores at other addresses to the one at this address. *)
Ltac mem8 := repeat first [rewrite load8_store8_eq | rewrite load8_store8_ne by lia].
Lemma loadn_store8_ne n m a b v : a < b ∨ b + Z.of_nat n <= a → loadn n (store8 m a v) b = loadn n m b.
Proof. intros Ha. apply loadn_ext. intros i Hi. apply load8_store8_ne. lia. Qed.

Definition off (a n : Z) (m m' : gmap Z Z) : Prop := ∀ x, x < a ∨ a + n <= x → load8 m' x = load8 m x.
Lemma off_trans a n m1 m2 m3 : off a n m1 m2 → off a n m2 m3 → off a n m1 m3.
Proof. intros A B x Hx. by rewrite B, A by done. Qed.
Lemma off_sub a n b k m m' : b <= a → a + n <= b + k → off a n m m' → off b k m m'.
Proof. intros H1 H2 A x Hx. apply A. lia. Qed.
Lemma off_storen n m a v : off a (Z.of_nat n) m (storen n m a v).
Proof. intros x Hx. apply load8_storen_out. lia. Qed.
Lemma off_store8 m a v : off a 1 m (store8 m a v).
Proof. intros x Hx. apply load8_store8_ne. lia. Qed.
Lemma off_memset m a v n : 0 <= n → off a n m (memset m a v n).
Proof. intros Hn x Hx. apply memset_loop_out. lia. Qed.
Lemma off_loadn a n m m' k b : off a n m m' → b + Z.of_nat k <= a ∨ a + n <= b → loadn k m' b = loadn k m b.
Proof. intros A Hb. apply loadn_ext. intros i Hi. apply A. lia. Qed.

(** ** Entries of the scatter list *)

Lemma land_dbc w d : Z.lor (Z.land w (cnot 32 0x3FFFFF)) (Z.land d 0x3FFFFF) mod 2 ^ 22 = d mod 2 ^ 22.
Proof.
  apply Z.bits_inj'. intros i Hi. rewrite !Z.testbit_mod_pow2 by done. destruct (Z.ltb_spec i 22); [|done].
  rewrite Z.lor_spec, !Z.land_spec. change 0x3FFFFF with (Z.ones 22). rewrite Z.ones_spec_low by lia.
  unfold cnot, wrap. rewrite Z.testbit_mod_pow2 by done. rewrite (proj2 (Z.ltb_lt i 32)) by lia.
  rewrite Z.lnot_spec, Z.ones_spec_low by lia. cbn. by rewrite andb_false_r, andb_true_r.
Qed.
Lemma lor_high w : Z.lor w (Z.shiftl 1 31) mod 2 ^ 22 = w mod 2 ^ 22.
Proof.
  apply Z.bits_inj'. intros i Hi. rewrite !Z.testbit_mod_pow2 by done. destruct (Z.ltb_spec i 22); [|done].
  rewrite Z.lor_spec. change (Z.shiftl 1 31) with (2 ^ 31). rewrite Z.pow2_bits_false by lia. by rewrite orb_false_r.
Qed.
Lemma mod_pow_le x a b : 0 <= a <= b → (x mod 2 ^ b) mod 2 ^ a = x mod 2 ^ a.
Proof. intros Hab. apply Z.mod_mod_divide. exists (2 ^ (b - a)). rewrite <- Z.pow_add_r by lia. f_equal. lia. Qed.

Record entry (m : gmap Z Z) (e addr size : Z) : Prop := {
  entry_addr : load64 m e = addr;
  entry_size : load32 m (e + 12) mod 2 ^ 22 + 1 = size
}.
Lemma entry_off a n m m' e addr size : off a n m m' → e + 16 <= a ∨ a + n <= e → entry m e addr size → entry m' e addr size.
Proof. intros A He [H1 H2]. split; [rewrite <- H1|rewrite <- H2; do 2 f_equal]; eapply off_loadn; try done; lia. Qed.

Lemma split_word addr m a : 0 <= addr < 2 ^ 64 → load32 m a = u32 addr → load32 m (a + 4) = u32 (Z.shiftr (u64 addr) 32) → load64 m a = addr.
Proof.
  intros Ha H1 H2. rewrite load64_words, H1, H2, Z.shiftr_div_pow2 by done. rewrite (wrap_small 64) by done.
  unfold wrap. change (2 ^ 64) with (2 ^ 32 * 2 ^ 32) in Ha. rewrite (Z.mod_small (addr / 2 ^ 32)); [zlia|].
  split; [apply Z.div_pos; lia|apply Z.div_lt_upper_bound; lia].
Qed.

Lemma set_prdt_spec m e addr dbc : 0 <= addr < 2 ^ 64 →
  entry (set_prdt m e addr dbc) e addr (dbc mod 2 ^ 22 + 1) ∧ off e 16 m (set_prdt m e addr dbc).
Proof.
  intros Ha. unfold set_prdt. set (m1 := store32 m e _). set (m2 := store32 m1 _ _).
  set (m3 := store32 m2 _ _). set (m4 := store32 m3 _ _).
  split; [split|].
  - apply split_word; [done|..].
    + unfold m4, m3, m2, m1. rewrite !(loadn_storen_ne 4 4) by lia. rewrite loadn_storen_eq. apply Z.mod_small, (wrap_range 32). lia.
    + unfold m4, m3. rewrite !(loadn_storen_ne 4 4) by lia. unfold m2. rewrite loadn_storen_eq. apply Z.mod_small, (wrap_range 32). lia.
  - unfold m4. rewrite loadn_storen_eq. change (256 ^ Z.of_nat 4) with (2 ^ 32). rewrite mod_pow_le, lor_high by lia.
    unfold m3. rewrite loadn_storen_eq. change (256 ^ Z.of_nat 4) with (2 ^ 32). rewrite mod_pow_le, land_dbc by lia. done.
  - intros x Hx. unfold m4, m3, m2, m1. rewrite !load8_storen_out by lia. done.
Qed.

(** The size of entry [j] of a transfer of [len] bytes in pieces of [b]. *)
Definition piece (b len j : Z) : Z := Z.min b (len - b * j).

Lemma fill_prdt_spec n m tbl i buf rem : 0 <= buf → buf + 8192 * (Z.of_nat n + 1) < 2 ^ 64 →
  16 * Z.of_nat n < rem <= 16 * (Z.of_nat n + 1) →
  let m' := fill_prdt n m tbl i buf rem in
  off (prdt_entry tbl i) (16 * (Z.of_nat n + 1)) m m' ∧
  ∀ j, 0 <= j <= Z.of_nat n → entry m' (prdt_entry tbl (i + j)) (buf + 8192 * j) (piece 8192 (512 * rem) j).
Proof.
  revert m i buf rem. induction n as [|n IH]; intros m i buf rem Hb Hl Hr; cbn [fill_prdt]; cbv zeta.
  - destruct (set_prdt_spec m (prdt_entry tbl i) buf (s32 (Z.shiftl rem 9 - 1)) ltac:(lia)) as [He Ho]. split.
    + eapply off_sub; [..|exact Ho]; lia.
    + intros j Hj. replace j with 0 by lia. rewrite Z.add_0_r. destruct He as [H1 H2]. split; [lia|]. rewrite H2.
      rewrite Z.shiftl_mul_pow2, swrap_small by lia. unfold piece. rewrite Z.mod_small by lia. lia.
  - set (m1 := set_prdt m (prdt_entry tbl i) buf (8 * 1024 - 1)).
    destruct (set_prdt_spec m (prdt_entry tbl i) buf (8 * 1024 - 1) ltac:(lia)) as [He Ho]. fold m1 in He, Ho.
    rewrite (wrap_small 64) by lia.
    destruct (IH m1 (i + 1) (buf + 8 * 1024) (rem - 16)) as [Ho' He']; [lia..|]. split.
    + eapply off_trans; (eapply off_sub; [..|eassumption]); unfold prdt_entry; lia.
    + intros j Hj. destruct (Z.eq_dec j 0) as [->|Hnz].
      * eapply entry_off; [exact Ho'|unfold prdt_entry; lia|]. rewrite Z.add_0_r. destruct He as [H1 H2].
        split; [lia|]. rewrite H2. unfold piece. change ((8 * 1024 - 1) mod 2 ^ 22) with 8191. lia.
      * destruct (He' (j - 1)) as [H1 H2]; [lia|]. replace (i + 1 + (j - 1)) with (i + j) in H1, H2 by lia.
        split; [rewrite H1; lia|]. rewrite H2. unfold piece. f_equal; lia.
Qed.

(** ** The command FIS *)

Record fis_at (m : gmap Z Z) (t command : Z) : Prop := {
  fis_type : load8 m t = 0x27;
  fis_c : load8 m (t + 1) = 0x80;
  fis_command : load8 m (t + 2) = command
}.
Lemma start_fis_spec m t command : 0 <= command < 256 →
  fis_at (start_fis m t command) t command ∧ off t 20 m (start_fis m t command) ∧
  ∀ i, 3 <= i < 20 → load8 (start_fis m t command) (t + i) = 0.
Proof.
  intros Hc. unfold start_fis, sizeof_fis. set (m1 := memset m t 0 20).
  assert (∀ i, 0 <= i < 20 → load8 m1 (t + i) = 0) as Hz by (intros i Hi; unfold m1, memset; rewrite memset_loop_in by lia; done).
  assert (off t 20 m m1) as Ho by (by apply off_memset). split_and!.
  - split.
    + rewrite !load8_store8_ne by lia. by rewrite load8_store8_eq.
    + rewrite load8_store8_ne by lia. rewrite load8_store8_eq, load8_store8_ne by lia. by rewrite Hz by lia.
    + rewrite load8_store8_eq. by apply Z.mod_small.
  - intros x Hx. rewrite !load8_store8_ne by lia. by apply Ho.
  - intros i Hi. rewrite !load8_store8_ne by lia. apply Hz. lia.
Qed.

Lemma store8_small m a v b : 0 <= v < 256 → load8 (store8 m a v) b = if decide (a = b) then v else load8 m b.
Proof. intros Hv. rewrite load8_store8. case_decide; [by apply Z.mod_small|done]. Qed.

Lemma read_fis_spec m t lba count : 0 <= lba < 2 ^ 48 → 0 <= count < 2 ^ 16 →
  fis_at (read_fis m t lba count) t 0x25 ∧ off t 20 m (read_fis m t lba count) ∧
  load8 (read_fis m t lba count) (t + 7) = 0x40 ∧
  loadn 3 (read_fis m t lba count) (t + 4) + 2 ^ 24 * loadn 3 (read_fis m t lba count) (t + 8) = lba ∧
  loadn 2 (read_fis m t lba count) (t + 12) = count.
Proof.
  intros Hl Hn. destruct (start_fis_spec m t 0x25 ltac:(lia)) as ([F1 F2 F3] & Ho & _).
  unfold read_fis. set (m1 := start_fis m t 37) in *. cbv zeta.
  rewrite !Z.shiftr_div_pow2 by done. rewrite !(land_low _ 8 0xFF) by done.
  rewrite !(wrap_small 8) by (apply Z.mod_pos_bound; done). change (Z.shiftl 1 6) with 0x40. change (2 ^ 8) with 256.
  split_and!; [split| | | |].
  1, 2, 3: rewrite !load8_store8_ne by lia; done.
  - intros x Hx. rewrite !load8_store8_ne by lia. by apply Ho.
  - rewrite !load8_store8_ne by lia. by rewrite load8_store8_eq.
  - change (loadn 3 ?m ?a) with (load8 m a + 256 * (load8 m (a + 1) + 256 * (load8 m (a + 1 + 1) + 256 * 0))).
    rewrite <- !Z.add_assoc. cbn [Z.add Pos.add Pos.add_carry Pos.succ]. mem8. rewrite !Zmod_mod. change (2 ^ 48) with 281474976710656 in Hl.
    change (2 ^ 8) with 256. change (2 ^ 16) with 65536. change (2 ^ 24) with 16777216. change (2 ^ 32) with 4294967296. change (2 ^ 40) with 1099511627776. zlia.
  - change (loadn 2 ?m ?a) with (load8 m a + 256 * (load8 m (a + 1) + 256 * 0)).
    rewrite <- !Z.add_assoc. cbn [Z.add Pos.add Pos.add_carry Pos.succ]. mem8. rewrite !Zmod_mod. change (2 ^ 16) with 65536 in Hn. zlia.
Qed.

(** ** The command of [sata_ahci_read_sector] *)

Definition entries (count : Z) : Z := (count + 15) / 16.
Record read_built (m : gmap Z Z) (p lba count buffer : Z) : Prop := {
  built_flags : load16 m p = 5;
  built_length : load16 m (p + 2) = entries count;
  built_table : load64 m (p + 8) = ct p;
  built_fis : fis_at m (ct p) 0x25;
  built_device : load8 m (ct p + 7) = 0x40;
  built_lba : loadn 3 m (ct p + 4) + 2 ^ 24 * loadn 3 m (ct p + 8) = lba;
  built_count : loadn 2 m (ct p + 12) = count;
  built_entry j : 0 <= j < entries count → entry m (prdt_entry (ct p) j) (buffer + 8192 * j) (piece 8192 (512 * count) j)
}.

Lemma set_header_spec m h flags len : 0 <= flags < 2 ^ 16 → 0 <= len < 2 ^ 16 →
  load16 (set_header m h flags len) h = flags ∧ load16 (set_header m h flags len) (h + 2) = len ∧ off h 4 m (set_header m h flags len).
Proof.
  intros Hf Hl. unfold set_header. rewrite (wrap_small 16) by done. split_and!.
  - rewrite (loadn_storen_ne 2 2) by lia. rewrite loadn_storen_eq. by apply Z.mod_small.
  - rewrite loadn_storen_eq. by apply Z.mod_small.
  - intros x Hx. rewrite !load8_storen_out by lia. done.
Qed.
Lemma set_ctba_spec m h addr : 0 <= addr < 2 ^ 64 → load64 (set_ctba m h addr) (h + 8) = addr ∧ off (h + 8) 8 m (set_ctba m h addr).
Proof.
  intros Ha. unfold set_ctba. split.
  - apply split_word; [done|..].
    + rewrite (loadn_storen_ne 4 4) by lia. rewrite loadn_storen_eq. apply Z.mod_small, (wrap_range 32). lia.
    + replace (h + 8 + 4) with (h + 12) by lia. rewrite loadn_storen_eq. apply Z.mod_small, (wrap_range 32). lia.
  - intros x Hx. rewrite !load8_storen_out by lia. done.
Qed.

(** [n] sectors need [entries n] pieces of 16, the last one with what is left. *)
Lemma entries_range count : 1 <= count <= 8064 → 1 <= entries count <= 504 ∧ 16 * (entries count - 1) < count <= 16 * entries count.
Proof. unfold entries. intros. zlia. Qed.

Lemma build_read_spec m p lba count buffer : 0 <= p → p + sizeof_port_mem < 2 ^ 64 → 0 <= buffer → buffer + 512 * count + 8192 < 2 ^ 64 →
  1 <= count <= 8064 → 0 <= lba < 2 ^ 48 →
  read_built (build_read m p lba count buffer) p lba count buffer ∧ off p sizeof_port_mem m (build_read m p lba count buffer).
Proof.
  unfold sizeof_port_mem. intros Hp Hpe Hb Hbe Hc Hl. destruct (entries_range count Hc) as [He Hec].
  unfold build_read, prdt_entries. fold (entries count). rewrite (proj2 (Z.ltb_ge 65535 (entries count))) by lia. cbv zeta.
  set (m1 := memset m (cl p) 0 32). set (m2 := set_header m1 (cl p) 5 _). set (m3 := memset m2 (ct p) 0 sizeof_cmd_tbl).
  set (m4 := set_ctba m3 (cl p) (ct p)). set (m5 := fill_prdt _ m4 (ct p) 0 buffer count). unfold cl in *.
  destruct (set_header_spec m1 p 5 (entries count)) as (F1 & F2 & F3); [lia..|]. fold m2 in F1, F2, F3.
  destruct (set_ctba_spec m3 p (ct p)) as (T1 & T2); [unfold ct; lia|]. fold m4 in T1, T2.
  destruct (fill_prdt_spec (Z.to_nat (entries count - 1)) m4 (ct p) 0 buffer count) as (E1 & E2); [lia..|]. fold m5 in E1, E2.
  rewrite Z2Nat.id in E1, E2 by lia.
  destruct (read_fis_spec m5 (ct p) lba count) as (R1 & R2 & R3 & R4 & R5); [done|lia|]. set (m6 := read_fis _ _ _ _) in *.
  assert (off p 32 m m1) as O1 by (by apply off_memset).
  assert (off (ct p) sizeof_cmd_tbl m2 m3) as O3 by (by apply off_memset). unfold ct, prdt_entry, sizeof_cmd_tbl in *.
  split.
  - split; try done.
    + rewrite (off_loadn _ _ _ _ 2 p R2), (off_loadn _ _ _ _ 2 p E1), (off_loadn _ _ _ _ 2 p T2), (off_loadn _ _ _ _ 2 p O3) by lia. done.
    + rewrite (off_loadn _ _ _ _ 2 _ R2), (off_loadn _ _ _ _ 2 _ E1), (off_loadn _ _ _ _ 2 _ T2), (off_loadn _ _ _ _ 2 _ O3) by lia. done.
    + unfold ct. rewrite (off_loadn _ _ _ _ 8 _ R2), (off_loadn _ _ _ _ 8 _ E1) by lia. done.
    + intros j Hj. eapply entry_off; [exact R2|unfold prdt_entry, ct; lia|]. apply (E2 j). lia.
  - eapply off_trans; [eapply off_sub; [..|exact O1]; lia|]. eapply off_trans; [eapply off_sub; [..|exact F3]; lia|].
    eapply off_trans; [eapply off_sub; [..|exact O3]; lia|]. eapply off_trans; [eapply off_sub; [..|exact T2]; lia|].
    eapply off_trans; [eapply off_sub; [..|exact E1]; lia|]. eapply off_sub; [..|exact R2]; lia.
Qed.

(** C32: the command of a disk read, for 1 to 8064 sectors: the structures
    [sata_ahci_read_sector] writes before it issues the command are, at the
    offsets and in the layout of the AHCI standard, a header for a command of
    five words with one scatter entry for every 16 sectors begun, the table's
    address as the driver sees it, a READ DMA EXT command for exactly these
    sectors, and entries that cover the buffer's bytes without gap or overlap,
    8192 bytes each and the last one what is left.  Nothing outside of the 9472
    bytes of the command memory is written.  The addresses must not wrap; from
    8065 sectors on the entries leave the command memory (see
    [sata_read_overruns]). *)
Theorem sata_read_command m p lba count buffer : 0 <= p → p + 9472 < 2 ^ 64 → 0 <= buffer → buffer + 512 * count + 8192 < 2 ^ 64 →
  1 <= count <= 8064 → 0 <= lba < 2 ^ 48 →
  let m' := build_read m p lba count buffer in
  let byte i := load8 m' (p + 1280 + i) in
  load16 m' p = 5 ∧ load16 m' (p + 2) = (count + 15) / 16 ∧ load64 m' (p + 8) = p + 1280 ∧
  byte 0 = 0x27 ∧ byte 1 = 0x80 ∧ byte 2 = 0x25 ∧ byte 7 = 0x40 ∧
  loadn 3 m' (p + 1284) + 2 ^ 24 * loadn 3 m' (p + 1288) = lba ∧ loadn 2 m' (p + 1292) = count ∧
  (∀ j, 0 <= j < (count + 15) / 16 → load64 m' (p + 1408 + 16 * j) = buffer + 8192 * j ∧
     load32 m' (p + 1408 + 16 * j + 12) mod 2 ^ 22 + 1 = Z.min 8192 (512 * count - 8192 * j)) ∧
  ∀ x, x < p ∨ p + 9472 <= x → load8 m' x = load8 m x.
Proof.
  intros Hp Hpe Hb Hbe Hc Hl. cbv zeta.
  destruct (build_read_spec m p lba count buffer Hp Hpe Hb Hbe Hc Hl) as [[B1 B2 B3 [F1 F2 F3] B4 B5 B6 B7] Ho].
  set (m' := build_read _ _ _ _ _) in *. unfold prdt_entry, ct in *. rewrite Z.add_0_r. split_and!; try done.
  - rewrite <- B5. f_equal; [f_equal; lia|do 2 f_equal; lia].
  - rewrite <- B6. f_equal. lia.
  - intros j Hj. destruct (B7 j Hj) as [E1 E2]. replace (p + 1408 + 16 * j) with (p + 1280 + 128 + 16 * j) by lia. done.
Qed.

(** ** The adapter's side *)

(** Bus addresses [a] to [a + n] are the memory addresses from [v] on. *)
Definition maps (view : Z → Z) (a v n : Z) : Prop := ∀ i, 0 <= i < n → view (a + i) = v + i.
Lemma maps_sub view a v n k j : maps view a v n → 0 <= k → k + j <= n → maps view (a + k) (v + k) j.
Proof. intros Hm Hk Hj i Hi. rewrite <- !Z.add_assoc. apply Hm. lia. Qed.

Section adapter.
Context (view : Z → Z).

Lemma bus_load_spec n m a v : maps view a v (Z.of_nat n) → bus_load view n m a = loadn n m v.
Proof.
  revert a v. induction n as [|n IH]; intros a v Hm; [done|].
  change (loadn (S n) m v) with (load8 m v + 256 * loadn n m (v + 1)). cbn [bus_load].
  rewrite (IH (a + 1) (v + 1)) by (apply (maps_sub view a v (Z.of_nat (S n))); [done|lia..]).
  specialize (Hm 0 ltac:(lia)). rewrite !Z.add_0_r in Hm. by rewrite Hm.
Qed.
Lemma bus_store_spec m a v l : maps view a v (Z.of_nat (length l)) → off v (Z.of_nat (length l)) m (bus_store view m a l).
Proof.
  revert m a v. induction l as [|c l IH]; intros m a v Hm; [done|]. cbn [bus_store length].
  pose proof (Hm 0 ltac:(cbn; lia)) as H0. rewrite !Z.add_0_r in H0. rewrite H0. apply (off_trans _ _ m (store8 m v c)).
  - apply (off_sub v 1); [lia..|apply off_store8].
  - eapply off_sub; [| |apply (IH _ (a + 1) (v + 1))]; [lia..|]. apply (maps_sub view a v (Z.of_nat (length (c :: l)))); [done|cbn [length]; lia..].
Qed.
Lemma bus_copy_spec n m a v src pos : maps view a v (Z.of_nat n) → copied m (bus_copy view n m a src pos) v src pos (Z.of_nat n).
Proof.
  revert m a v pos. induction n as [|n IH]; intros m a v pos Hm; [apply copied_nil|]. cbn [bus_copy].
  pose proof (Hm 0 ltac:(lia)) as H0. rewrite !Z.add_0_r in H0. rewrite H0.
  rewrite Nat2Z.inj_succ, <- Z.add_1_l. eapply (copied_app m (store8 m v (load8 src pos))); [lia..| |].
  - split; [|intros x Hx; apply load8_store8_ne; lia]. intros k Hk. replace k with 0 by lia. rewrite !Z.add_0_r, load8_store8_eq.
    apply Z.mod_small, load8_range.
  - apply IH. apply (maps_sub view a v (Z.of_nat (S n))); [done|lia..].
Qed.

(** [n] entries of pieces of [b] deliver [len] bytes in a row. *)
Lemma scatter_spec b n m e ve src pos len a v : 0 < b → b * (Z.of_nat n - 1) < len <= b * Z.of_nat n → 0 < len →
  maps view e ve (16 * Z.of_nat n) → maps view a v len → v + len <= ve ∨ ve + 16 * Z.of_nat n <= v →
  (∀ j, 0 <= j < Z.of_nat n → entry m (ve + 16 * j) (a + b * j) (piece b len j)) →
  ∃ m', scatter view n m e src pos len = (m', 0) ∧ copied m m' v src pos len.
Proof.
  intros Hb. revert m e ve pos len a v. induction n as [|n IH]; intros m e ve pos len a v Hl Hlen He Ha Hd Hent; [lia|].
  cbn [scatter]. rewrite (proj2 (Z.leb_gt len 0)) by done.
  destruct (Hent 0 ltac:(lia)) as [E1 E2].
  replace (ve + 16 * 0) with ve in E1, E2 by lia. replace (a + b * 0) with a in E1 by lia.
  rewrite (bus_load_spec 4 m (e + 12) (ve + 12)) by (apply (maps_sub view e ve (16 * Z.of_nat (S n))); [done|lia..]).
  rewrite (bus_load_spec 8 m e ve) by (intros i Hi; apply He; lia). rewrite E1, E2.
  unfold piece. rewrite Z.mul_0_r, Z.sub_0_r. set (k := Z.min len (Z.min b len)). assert (0 < k <= len ∧ k = Z.min b len) as [Hk Ek] by lia.
  pose proof (bus_copy_spec (Z.to_nat k) m a v src pos) as Hcopy. rewrite Z2Nat.id in Hcopy by lia.
  specialize (Hcopy ltac:(intros i Hi; apply Ha; lia)). set (m1 := bus_copy _ _ _ _ _ _) in *. cbv zeta.
  destruct (Z.eq_dec k len) as [Ekl|Ekl].
  - rewrite Ekl in *. rewrite Z.sub_diag. exists m1. split; [|done]. destruct n; [done|]. cbn [scatter]. by rewrite (proj2 (Z.leb_le 0 0)).
  - assert (k = b) as -> by lia. destruct (IH m1 (e + 16) (ve + 16) (pos + b) (len - b) (a + b) (v + b)) as (m' & E & Hc); try lia.
    + apply (maps_sub view e ve (16 * Z.of_nat (S n))); [done|lia..].
    + apply (maps_sub view a v len); [done|lia..].
    + intros j Hj. destruct (Hent (j + 1) ltac:(lia)) as [F1 F2].
      assert (∀ c w, 16 * (j + 1) <= c → c + Z.of_nat w <= 16 * (j + 1) + 16 → loadn w m1 (ve + c) = loadn w m (ve + c)) as Hkeep.
      { intros c w H1 H2. apply loadn_ext. intros i Hi. destruct Hcopy as [_ Ho]. apply Ho. lia. }
      replace (ve + 16 + 16 * j) with (ve + 16 * (j + 1)) by lia. split.
      * rewrite Hkeep, F1 by lia. lia.
      * rewrite <- Z.add_assoc, Hkeep, Z.add_assoc, F2 by lia. unfold piece. f_equal; lia.
    + exists m'. split; [done|]. pose proof (copied_app m m1 m' v src pos b (len - b) ltac:(lia) ltac:(lia) Hcopy Hc) as Hcc.
      by replace (b + (len - b)) with len in Hcc by lia.
Qed.
End adapter.

(** [len] bytes of [src] arrived at [buffer]; only the port's block changed besides. *)
Record delivered (m m' : gmap Z Z) (p buffer : Z) (src : gmap Z Z) (pos len : Z) : Prop := {
  delivered_in k : 0 <= k < len → load8 m' (buffer + k) = load8 src (pos + k);
  delivered_out x : ¬ (buffer <= x < buffer + len) → ¬ (p <= x < p + sizeof_port_mem) → load8 m' x = load8 m x
}.
Definition clear_of (p buffer len : Z) : Prop := buffer + len <= p ∨ p + sizeof_port_mem <= buffer.

(** The bases the driver programs: the block [v] at its bus address [b]. *)
Record based (P : port) (b v : Z) : Prop := {
  based_cl : clb P = b;
  based_fb : fb P = b + 1024;
  based_aligned : b mod 1024 = 0;
  based_maps : maps (view P) b v sizeof_port_mem
}.

Section finish.
Implicit Types (P : port).

Lemma based_header P b v : based P b v → header_at P = b.
Proof. intros [H1 _ H3 _]. unfold header_at. rewrite H1, H3. lia. Qed.
Lemma based_load n P b v m a : based P b v → 0 <= a → a + Z.of_nat n <= sizeof_port_mem → bus_load (view P) n m (b + a) = loadn n m (v + a).
Proof. intros [_ _ _ Hm] Ha Hn. apply bus_load_spec. by apply (maps_sub _ _ _ sizeof_port_mem). Qed.
Lemma based_load1 P b v m a : based P b v → 0 <= a < sizeof_port_mem → bus_load (view P) 1 m (b + a) = load8 m (v + a).
Proof. intros HP Ha. rewrite (based_load 1 P b v) by (done || lia). apply loadn_1. Qed.
Lemma based_table P b v m : based P b v → load64 m (v + 8) = b + 1280 → table_at P m = b + 1280.
Proof.
  intros HP Ht. unfold table_at. rewrite (based_header P b v), (based_load 8 P b v) by (done || unfold sizeof_port_mem; lia).
  rewrite Ht. destruct HP as [_ _ Ha _]. zlia.
Qed.
Lemma based_store P b v m a l : based P b v → 0 <= a → a + Z.of_nat (length l) <= sizeof_port_mem →
  off v sizeof_port_mem m (bus_store (view P) m (b + a) l).
Proof.
  intros [_ _ _ Hm] Ha Hn. eapply off_sub; [..|apply (bus_store_spec (view P) m (b + a) (v + a))]; [lia..|].
  by apply (maps_sub _ _ _ sizeof_port_mem).
Qed.
Lemma based_fis P b v m ok : based P b v → off v sizeof_port_mem m (bus_store (view P) m (fb P - fb P mod 256 + 64) (received_fis ok)).
Proof.
  intros HP. pose proof (based_fb _ _ _ HP) as ->. pose proof (based_aligned _ _ _ HP) as Ha.
  assert ((b + 1024) mod 256 = 0) as -> by zlia. replace (b + 1024 - 0 + 64) with (b + 1088) by lia. apply based_store; [done|lia|]. cbn. unfold sizeof_port_mem. lia.
Qed.

(** A command that asks for [len] bytes and describes [len] bytes of buffer. *)
Lemma finish_data P b v m piece_size n buf_bus buffer src pos len : based P b v → fault P = false →
  command_data P (load16 m v) m (b + 1280) = Some (src, pos, len) → load64 m (v + 8) = b + 1280 →
  load16 m (v + 2) = n → 0 < n <= 504 → 0 < piece_size → piece_size * (n - 1) < len <= piece_size * n → 0 < len →
  maps (view P) buf_bus buffer len → clear_of v buffer len →
  (∀ j, 0 <= j < n → entry m (prdt_entry (ct v) j) (buf_bus + piece_size * j) (piece piece_size len j)) →
  ∃ m', finish P m = (m', 1) ∧ delivered m m' v buffer src pos len.
Proof.
  intros HP Hf Hcmd Ht Hn Hnr Hps Hlen Hpos Hmaps Hclear Hent. unfold finish. rewrite Hf.
  rewrite (based_header P b v) by done. rewrite (based_table P b v) by done.
  pose proof (based_load 2 P b v m 0 HP ltac:(lia) ltac:(unfold sizeof_port_mem; lia)) as E0. rewrite !Z.add_0_r in E0. rewrite E0, Hcmd.
  rewrite (based_load 2 P b v m 2), Hn by (done || unfold sizeof_port_mem; lia).
  destruct (scatter_spec (view P) piece_size (Z.to_nat n) m (b + 1280 + 128) (v + 1408) src pos len buf_bus buffer) as (m1 & -> & [C1 C2]).
  1, 2, 3: lia.
  - rewrite Z2Nat.id by lia. replace (b + 1280 + 128) with (b + 1408) by lia.
    apply (maps_sub _ _ _ sizeof_port_mem); [by destruct HP|lia|unfold sizeof_port_mem; lia].
  - done.
  - rewrite Z2Nat.id by lia. unfold clear_of, sizeof_port_mem in Hclear. lia.
  - intros j Hj. replace (v + 1408 + 16 * j) with (prdt_entry (ct v) j) by (unfold prdt_entry, ct; lia). apply Hent. lia.
  - rewrite Z.ltb_irrefl. eexists. split; [reflexivity|].
    pose proof (based_store P b v m1 4 (map (λ k, (len - 0) / 2 ^ (8 * k) mod 256) [0; 1; 2; 3]) HP) as S1.
    specialize (S1 ltac:(lia) ltac:(unfold sizeof_port_mem; cbn; lia)). set (m2 := bus_store _ m1 _ _) in *.
    pose proof (based_fis P b v m2 true HP) as S2. set (m3 := bus_store _ m2 _ _) in *. unfold clear_of in Hclear. split.
    + intros k Hk. rewrite S2, S1 by lia. by apply C1.
    + intros x Hx1 Hx2. rewrite S2, S1 by lia. by apply C2.
Qed.

Lemma finish_fault P b v m : based P b v → fault P = true → ∃ m', finish P m = (m', 2 ^ 30) ∧ off v sizeof_port_mem m m'.
Proof. intros HP Hf. unfold finish. rewrite Hf. eexists. split; [reflexivity|]. by apply (based_fis P b v). Qed.

Lemma fis_at_bus P b v m t command : based P b v → 0 <= t <= 9000 → fis_at m (v + t) command →
  bus_load (view P) 1 m (b + t) = 0x27 ∧ bus_load (view P) 1 m (b + t + 1) = 0x80 ∧ bus_load (view P) 1 m (b + t + 2) = command.
Proof.
  intros HP Ht [H1 H2 H3]. rewrite <- !Z.add_assoc in *.
  rewrite !(based_load1 P b v) by (done || unfold sizeof_port_mem; lia). done.
Qed.

Lemma command_read P v m lba count buffer : based P v v → disc P = None → read_built m v lba count buffer → 1 <= count →
  command_data P (load16 m v) m (v + 1280) = Some (disk P, lba * block, count * block).
Proof.
  intros HP Hd [B1 _ _ B4 B5 B6 B7 _] Hc. unfold command_data. rewrite B1, Hd.
  destruct (fis_at_bus P v v m 1280 0x25 HP ltac:(lia) B4) as (-> & -> & ->).
  change (negb (5 mod 32 =? 5) || Z.testbit 5 6 || negb (0x27 =? 0x27) || negb (Z.testbit 0x80 7)) with false. cbv iota.
  change (0x25 =? 0xEC) with false. cbv iota. unfold ct in *. rewrite <- !Z.add_assoc in *.
  rewrite (based_load1 P v v) by (done || unfold sizeof_port_mem; lia). rewrite B5. change ((0x25 =? 0x25) && Z.testbit 0x40 6) with true. cbv iota.
  unfold fis_lba, fis_count. rewrite <- !Z.add_assoc. rewrite !(based_load _ P v v) by (done || unfold sizeof_port_mem; cbn; lia).
  rewrite B6, B7. rewrite (proj2 (Z.eqb_neq count 0)) by lia. done.
Qed.

Lemma finish_read P p m lba count buffer : based P p p → fault P = false → disc P = None → 1 <= count <= 8064 →
  read_built m p lba count buffer → maps (view P) buffer buffer (count * block) → clear_of p buffer (count * block) →
  ∃ m', finish P m = (m', 1) ∧ delivered m m' p buffer (disk P) (lba * block) (count * block).
Proof.
  intros HP Hf Hd Hc HB Hm Hcl. destruct (entries_range count Hc) as [He1 He2]. unfold block in *.
  apply (finish_data P p p m 8192 (entries count) buffer); try done; try lia.
  - apply (command_read P p m lba count buffer); [done|done|done|lia].
  - by destruct HB.
  - by destruct HB.
  - replace (count * 512) with (512 * count) by lia. by destruct HB.
Qed.
End finish.
