(* ===== verification/SataRun.v ===== *)
(** * Runs of the AHCI driver

    The register accesses of [Sata] on the machine of [SataHba], step by step,
    and the theorems about the driver's functions they add up to.  [called] is
    what every call of the read needs; [request] adds what the data transfer
    needs and the kernel does not guarantee: an aligned command block and bus
    addresses equal to the driver's.  [delay] is the
    busy wait on the machine's clock; all that is asked of it is that it returns. *)

From stdpp Require Import prelude gmap list numbers tactics.
From S2P Require Import Prelude Memory Io KHeap Arith Ata AtaDisk Atapi Sata SataHba SataProps.

Section run.
Context {H C : Type} `{AllocatorLaws H} (delay : Z → M C unit).
Definition delays : Prop := ∀ us c, ∃ c', delay us c = Some (tt, c').
Definition machine_udelay (us : Z) : M (ahci H C) unit := on_clock (delay us).
Context (Hdelay : delays).
Implicit Types (s : ahci H C) (h : H) (c : C) (P : port).

Lemma reg_read_spec r pb h P c Q : base P = pb → 0 <= (read_reg r (mk_ahci h P c)).1 < 2 ^ 32 →
  Q (read_reg r (mk_ahci h P c)).1 (read_reg r (mk_ahci h P c)).2 → wp (reg_read (pb + r)) Q (mk_ahci h P c).
Proof.
  intros <- Hr HQ. unfold reg_read, wp. cbn [mmio_read ahci_bus SataHba.hba].
  replace (base P + r - base P) with r by lia. destruct (read_reg r _) as [v s]. by rewrite wrap_small.
Qed.
Lemma reg_write_spec r v pb h P c Q : base P = pb → Q tt (mk_ahci h (write_reg r (u32 v) P) c) → wp (reg_write (pb + r) v) Q (mk_ahci h P c).
Proof.
  intros <- HQ. apply wp_modify. cbn [mmio_write ahci_bus SataHba.hba]. replace (base P + r - base P) with r by lia. exact HQ.
Qed.
Lemma udelay_spec us h P c Q : (∀ c', Q tt (mk_ahci h P c')) → wp (machine_udelay us) Q (mk_ahci h P c).
Proof. intros HQ. apply wp_zoom. unfold wp. cbn [clock]. destruct (Hdelay us c) as [c' ->]. apply HQ. Qed.

(** ** Bases and engines *)

Definition with_bases (cl fb : Z) P : port := set_fb fb (set_clb cl P).
Lemma set_bases_spec cl fb h P c Q : 0 <= cl < 2 ^ 64 → 0 <= fb < 2 ^ 64 →
  Q tt (mk_ahci h (with_bases cl fb P) c) → wp (set_bases (base P) cl fb) Q (mk_ahci h P c).
Proof.
  intros Hcl Hfb HQ. unfold set_bases.
  assert (∀ v, 0 <= v < 2 ^ 64 → u32 (u32 v) = v mod 2 ^ 32 ∧ u32 (u32 (Z.shiftr (u64 v) 32)) = v / 2 ^ 32) as Hw.
  { intros v Hv. rewrite !wrap_wrap, (wrap_small 64 v), Z.shiftr_div_pow2 by done. split; [done|]. apply wrap_small.
    change (2 ^ 64) with (2 ^ 32 * 2 ^ 32) in Hv. split; [apply Z.div_pos; lia|apply Z.div_lt_upper_bound; lia]. }
  assert (∀ v w, (v / 2 ^ 32 * 2 ^ 32 + w mod 2 ^ 32) mod 2 ^ 32 + w / 2 ^ 32 * 2 ^ 32 = w) as Hc.
  { intros v w. rewrite (Z.add_comm (v / 2 ^ 32 * 2 ^ 32)), Z_mod_plus_full, Zmod_mod. zlia. }
  do 3 (apply wp_bind, reg_write_spec; [done|]; cbv beta). apply reg_write_spec; [done|].
  unfold write_reg, PxCLB, PxCLBU, PxFB, PxFBU. cbn [Z.eqb Pos.eqb].
  destruct (Hw cl Hcl) as [-> ->], (Hw fb Hfb) as [-> ->]. cbn [clb SataHba.fb set_clb set_fb].
  rewrite !Hc. exact HQ.
Qed.

(** The port with its engines and interrupt status in view. *)
Definition phase P (a b : bool) (k : nat) (i : Z) : port := set_engines a b k (set_is i P).
Lemma phase_self P : P = phase P (st P) (fre P) (stopping P) (is_ P).
Proof. by destruct P. Qed.

Lemma cmd_read_spec P a b k i h c Q :
  (∀ v, v = Z.b2z a + 2 ^ 4 * Z.b2z b + 2 ^ 14 * Z.b2z (b || negb (k =? 0)%nat) + 2 ^ 15 * Z.b2z (a || negb (k =? 0)%nat) →
   Q v (mk_ahci h (phase P a b (pred k) i) c)) →
  wp (reg_read (base P + PxCMD)) Q (mk_ahci h (phase P a b k i) c).
Proof.
  intros HQ. apply reg_read_spec; [done|..]; unfold read_reg, PxCLB, PxCLBU, PxFB, PxFBU, PxIS, PxCMD;
    cbn [Z.eqb Pos.eqb]; unfold poll_engines; cbn [SataHba.hba phase set_engines set_is st fre stopping fst snd].
  - destruct a, b, k; cbn; lia.
  - apply HQ. by destruct k.
Qed.

Lemma clear_exact bits P a b k i h c Q : busy P = None → bits = 1 ∨ bits = 16 ∨ bits = 17 →
  (let a' := a && negb (Z.testbit bits 0) in let b' := b && negb (Z.testbit bits 4) in
   Q tt (mk_ahci h (phase P a' b' (if a && negb a' || b && negb b' then settle P else pred k) i) c)) →
  wp (clear_bits (base P + PxCMD) bits) Q (mk_ahci h (phase P a b k i) c).
Proof.
  intros Hb Hbits HQ. apply wp_bind, cmd_read_spec. intros v Hv. apply reg_write_spec; [done|].
  unfold write_reg, PxCLB, PxCLBU, PxFB, PxFBU, PxIS, PxCMD. cbn [Z.eqb Pos.eqb]. unfold write_command.
  assert (Z.testbit (u32 (Z.land v (cnot 32 bits))) 0 = a && negb (Z.testbit bits 0) ∧
          Z.testbit (u32 (Z.land v (cnot 32 bits))) 4 = b && negb (Z.testbit bits 4)) as [-> ->].
  { rewrite Hv. destruct Hbits as [-> |[-> | ->]]; destruct a, b, k; vm_compute; done. }
  cbv zeta in HQ. set (a' := a && _) in *. set (b' := b && _) in *.
  assert (∀ p : port, busy p = None → set_busy None p = p) as Hnone by (intros [] E; cbn in E; by subst).
  rewrite (Hnone (phase P a b (pred k) i)) by done.
  destruct (st (phase P a b (pred k) i) && negb a'); exact HQ.
Qed.
Lemma clear_bits_spec N bits P a b k i h c Q : busy P = None → (k <= N)%nat → (settle P <= N)%nat → bits = 1 ∨ bits = 16 ∨ bits = 17 →
  (∀ k', (k' <= N)%nat → Q tt (mk_ahci h (phase P (a && negb (Z.testbit bits 0)) (b && negb (Z.testbit bits 4)) k' i) c)) →
  wp (clear_bits (base P + PxCMD) bits) Q (mk_ahci h (phase P a b k i) c).
Proof. intros Hb Hk Hs Hbits HQ. apply clear_exact; [done|done|]. apply HQ. destruct (_ || _); lia. Qed.

Lemma set_bits_spec bits P a b k i h c Q : bits = 1 ∨ bits = 16 ∨ bits = 17 →
  (∀ k', (k' <= k)%nat → Q tt (mk_ahci h (phase P (a || Z.testbit bits 0) (b || Z.testbit bits 4) k' i) c)) →
  wp (set_bits (base P + PxCMD) bits) Q (mk_ahci h (phase P a b k i) c).
Proof.
  intros Hbits HQ. apply wp_bind, cmd_read_spec. intros v Hv.
  apply reg_write_spec; [done|].
  unfold write_reg, PxCLB, PxCLBU, PxFB, PxFBU, PxIS, PxCMD. cbn [Z.eqb Pos.eqb]. unfold write_command.
  assert (Z.testbit (u32 (Z.lor v bits)) 0 = a || Z.testbit bits 0 ∧ Z.testbit (u32 (Z.lor v bits)) 4 = b || Z.testbit bits 4) as [-> ->].
  { rewrite Hv. destruct Hbits as [-> |[-> | ->]]; destruct a, b, k; vm_compute; done. }
  cbn [phase set_engines set_is st fre settle stopping].
  assert (∀ x y, x && negb (x || y) = false) as Hx by (by intros [] []). rewrite !Hx. cbn [orb].
  apply HQ. cbn. lia.
Qed.

(** ** Timed waits *)

(** A loop body that goes on, and only lets time pass. *)
Definition goes_on (body : Z → M (ahci H C) (option Z)) (t : Z) P : Prop :=
  ∀ h c, ∃ c', body t (mk_ahci h P c) = Some (None, mk_ahci h P c').
Lemma goes_on_wait t P : goes_on (just_wait machine_udelay) t P.
Proof.
  intros h c. unfold just_wait, machine_udelay, on_clock, bind, zoom. cbn [clock].
  destruct (Hdelay 10 c) as [c' ->]. by exists c'.
Qed.
Lemma goes_on_timeout err t P : t ≠ 0 → goes_on (check_timeout machine_udelay err) t P.
Proof. intros Ht h c. unfold check_timeout. rewrite (proj2 (Z.eqb_neq t 0)) by done. apply (goes_on_wait t P h c). Qed.
Lemma goes_on_error errors t P : is_ P = 0 → goes_on (check_error machine_udelay (base P) errors) t P.
Proof.
  intros Hi h c. destruct (goes_on_wait t P h c) as [c' E]. exists c'. rewrite <- E. unfold check_error, bind at 1, reg_read.
  cbn [mmio_read ahci_bus SataHba.hba]. replace (base P + PxIS - base P) with PxIS by lia.
  unfold read_reg, PxCLB, PxCLBU, PxFB, PxFBU, PxIS. cbn [Z.eqb Pos.eqb SataHba.hba]. rewrite Hi. done.
Qed.

(** The two bits of stopped engines. *)
Definition engine_bits (bits : Z) : Prop := bits = 2 ^ 14 ∨ bits = 2 ^ 15 ∨ bits = 2 ^ 14 + 2 ^ 15.
Lemma stopped_bits bits k : engine_bits bits →
  truthy (Z.land (Z.b2z false + 2 ^ 4 * Z.b2z false + 2 ^ 14 * Z.b2z (false || negb (k =? 0)%nat) + 2 ^ 15 * Z.b2z (false || negb (k =? 0)%nat)) bits) =
    negb (k =? 0)%nat.
Proof. intros [-> |[-> | ->]]; by destruct k. Qed.

(** Engines that stop within the time limit. *)
Lemma wait_stopped T bits body P k i h c Q : engine_bits bits → (k < T)%nat →
  (∀ t j, 0 < t → goes_on body t (phase P false false j i)) →
  (∀ t c', 0 < t → Q (Left t) (mk_ahci h (phase P false false 0 i) c')) →
  wp (wait_while T (base P + PxCMD) bits body) Q (mk_ahci h (phase P false false k i) c).
Proof.
  intros Hbits. revert k c. induction T as [|T IH]; intros k c Hk Hbody HQ; [lia|]. cbn [wait_while].
  apply wp_bind, cmd_read_spec. intros v ->. rewrite stopped_bits by done. destruct k as [|k]; cbn [Nat.eqb negb pred].
  - apply wp_ret. apply HQ. lia.
  - apply wp_bind. unfold wp. destruct (Hbody (Z.of_nat T) k ltac:(lia) h c) as [c' ->].
    apply (IH k c'); [lia|done|done].
Qed.
Lemma wait_forever_stopped n bits P k i h c Q : engine_bits bits → (k < n)%nat → Q tt (mk_ahci h (phase P false false 0 i) c) →
  wp (wait_forever n (base P + PxCMD) bits) Q (mk_ahci h (phase P false false k i) c).
Proof.
  intros Hbits. revert k. induction n as [|n IH]; intros k Hk HQ; [lia|]. cbn [wait_forever].
  apply wp_bind, cmd_read_spec. intros v ->. rewrite stopped_bits by done. destruct k as [|k]; cbn [Nat.eqb negb pred].
  - by apply wp_ret.
  - apply (IH k); [lia|done].
Qed.
(** Engines that do not stop in time. *)
Lemma wait_stuck err T bits P k i h c Q : engine_bits bits → (0 < T <= k)%nat →
  (∀ j c', Q (Broke err) (mk_ahci h (phase P false false j i) c')) →
  wp (wait_while T (base P + PxCMD) bits (check_timeout machine_udelay err)) Q (mk_ahci h (phase P false false k i) c).
Proof.
  intros Hbits. revert k c. induction T as [|T IH]; intros k c Hk HQ; [lia|]. cbn [wait_while].
  apply wp_bind, cmd_read_spec. intros v ->. rewrite stopped_bits by done. destruct k as [|k]; [lia|]. cbn [Nat.eqb negb pred].
  apply wp_bind. destruct T as [|T].
  - unfold check_timeout. change (Z.of_nat 0 =? 0) with true. cbv iota. by apply wp_ret, wp_ret.
  - unfold wp. destruct (goes_on_timeout err (Z.of_nat (S T)) (phase P false false k i) ltac:(lia) h c) as [c' ->].
    apply (IH k c'); [lia|done].
Qed.

(** ** The command register *)

(** A port with a command in flight, [n] polls before its end. *)
Definition armed P (n : nat) : port := set_busy (Some n) P.
Lemma ci_read_busy P n h c Q : Q 1 (mk_ahci h (armed P n) c) → wp (reg_read (base P + PxCI)) Q (mk_ahci h (armed P (S n)) c).
Proof.
  intros HQ. apply reg_read_spec; [done|..]; unfold read_reg, PxCLB, PxCLBU, PxFB, PxFBU, PxIS, PxCMD, PxTFD, PxSIG, PxSSTS, PxCI;
    cbn [Z.eqb Pos.eqb]; unfold poll_command; cbn [SataHba.hba armed set_busy busy fst snd]; [lia|]. exact HQ.
Qed.

(** Issuing: engines on, no command in flight. *)
Lemma issue_spec (or : bool) P k i h c Q : busy P = None →
  Q tt (mk_ahci h (armed (phase P true true k i) (latency P)) c) →
  wp (if or then set_bits (base P + PxCI) 1 else reg_write (base P + PxCI) 1) Q (mk_ahci h (phase P true true k i) c).
Proof.
  intros Hb HQ. assert (∀ R, (R = issue 1 (phase P true true k i)) → Q tt (mk_ahci h R c)) as HR.
  { intros R ->. unfold issue. cbn [phase set_engines set_is st fre busy latency]. rewrite Hb. exact HQ. }
  destruct or.
  - unfold set_bits. apply wp_bind, reg_read_spec; [done|..]; unfold read_reg, PxCLB, PxCLBU, PxFB, PxFBU, PxIS, PxCMD, PxTFD, PxSIG, PxSSTS, PxCI;
      cbn [Z.eqb Pos.eqb]; unfold poll_command; cbn [SataHba.hba phase set_engines set_is busy]; rewrite Hb; cbn [fst snd]; [lia|].
    apply reg_write_spec; [done|]. apply HR. done.
  - apply reg_write_spec; [done|]. apply HR. done.
Qed.

(** [n] polls of a loop whose body goes on. *)
Lemma wait_command n T body P h c Q : (n <= T)%nat → (∀ t j, goes_on body t (armed P j)) →
  (∀ c', wp (wait_while (T - n) (base P + PxCI) 1 body) Q (mk_ahci h (armed P 0) c')) →
  wp (wait_while T (base P + PxCI) 1 body) Q (mk_ahci h (armed P n) c).
Proof.
  revert T c. induction n as [|n IH]; intros T c Hn Hbody HQ.
  - rewrite Nat.sub_0_r in HQ. apply HQ.
  - destruct T as [|T]; [lia|]. cbn [wait_while]. apply wp_bind, ci_read_busy. change (truthy (Z.land 1 1)) with true. cbv iota.
    apply wp_bind. unfold wp. destruct (Hbody (Z.of_nat T) n h c) as [c' ->]. apply (IH T c'); [lia|done|exact HQ].
Qed.
(** A command that takes longer than the loop waits: the time-out wraps. *)
Lemma wait_command_late n T body P h c Q : (T < n)%nat → (∀ t j, goes_on body t (armed P j)) →
  (∀ c', Q (Left (2 ^ 32 - 1)) (mk_ahci h (armed P (n - T - 1)) c')) →
  wp (wait_while T (base P + PxCI) 1 body) Q (mk_ahci h (armed P n) c).
Proof.
  revert n c. induction T as [|T IH]; intros n c Hn Hbody HQ; (destruct n as [|n]; [lia|]); cbn [wait_while];
    apply wp_bind, ci_read_busy; change (truthy (Z.land 1 1)) with true; cbv iota.
  - apply wp_ret. replace (S n - 0 - 1)%nat with n in HQ by lia. apply HQ.
  - apply wp_bind. unfold wp. destruct (Hbody (Z.of_nat T) n h c) as [c' ->]. apply (IH n c'); [lia|done|].
    intros c''. replace (n - T - 1)%nat with (S n - S T - 1)%nat by lia. apply HQ.
Qed.

(** The poll that ends the command. *)
Lemma finish_ok T body P h O c m' i Q : al_inv h O → finish (armed P 0) (al_mem h) = (m', i) → Z.testbit i 30 = false →
  same_outside (live O) (al_mem h) m' →
  (∀ h', al_inv h' O → al_mem h' = m' → Q (Left (Z.of_nat T)) (mk_ahci h' (set_is (Z.lor (is_ P) i) (set_busy None P)) c)) →
  wp (wait_while T (base P + PxCI) 1 body) Q (mk_ahci h (armed P 0) c).
Proof.
  intros HI Hf Hi Hs HQ. pose proof (al_store_law h O (λ _, m') HI Hs) as Hw. apply wp_run in Hw as (u & h' & E & HI' & Hm).
  assert (wp (reg_read (base P + PxCI)) (λ v s, v = 0 ∧ s = mk_ahci h' (set_is (Z.lor (is_ P) i) (set_busy None P)) c) (mk_ahci h (armed P 0) c)) as Hread.
  { apply reg_read_spec; [done|..]; unfold read_reg, PxCLB, PxCLBU, PxFB, PxFBU, PxIS, PxCMD, PxTFD, PxSIG, PxSSTS, PxCI;
      cbn [Z.eqb Pos.eqb]; unfold poll_command; cbn [SataHba.hba SataHba.heap armed set_busy busy]; fold (armed P 0); rewrite Hf, E, Hi; cbn [fst snd]; [lia|].
    split; [done|]. by destruct P. }
  assert (wp (wait_while T (base P + PxCI) 1 body) Q (mk_ahci h (armed P 0) c) ↔
          wp (v ← reg_read (base P + PxCI); if truthy (Z.land v 1) then
                match T with O => mret (Left (2 ^ 32 - 1)) | Datatypes.S timeout =>
                  r ← body (Z.of_nat timeout); match r with Some e => mret (Broke e) | None => wait_while timeout (base P + PxCI) 1 body end end
              else mret (Left (Z.of_nat T))) Q (mk_ahci h (armed P 0) c)) as -> by (by destruct T).
  apply wp_bind. eapply wp_mono; [exact Hread|]. intros v s [-> ->]. change (truthy (Z.land 0 1)) with false. cbv iota. apply wp_ret. by apply HQ.
Qed.

(** A failing command breaks the loop at its next poll, unless the time is up. *)
Lemma finish_failed T errors P h O c m' i Q : al_inv h O → finish (armed P 0) (al_mem h) = (m', i) → i = 2 ^ 30 → is_ P = 0 →
  truthy (Z.land (2 ^ 30) errors) = true → same_outside (live O) (al_mem h) m' →
  (∀ h', al_inv h' O → al_mem h' = m' → Q (Broke (2 ^ 30)) (mk_ahci h' (set_is (2 ^ 30) (armed P 0)) c)) →
  wp (wait_while (S T) (base P + PxCI) 1 (check_error machine_udelay (base P) errors)) Q (mk_ahci h (armed P 0) c).
Proof.
  intros HI Hf -> Hi He Hs HQ. pose proof (al_store_law h O (λ _, m') HI Hs) as Hw. apply wp_run in Hw as (u & h' & E & HI' & Hm).
  cbn [wait_while]. apply wp_bind, reg_read_spec; [done|..]; unfold read_reg, PxCLB, PxCLBU, PxFB, PxFBU, PxIS, PxCMD, PxTFD, PxSIG, PxSSTS, PxCI;
    cbn [Z.eqb Pos.eqb]; unfold poll_command; cbn [SataHba.hba SataHba.heap armed set_busy busy]; fold (armed P 0); rewrite Hf, E;
    change (Z.testbit (2 ^ 30) 30) with true; cbn [fst snd]; [lia|].
  change (truthy (Z.land 1 1)) with true. cbv iota. apply wp_bind. unfold check_error.
  apply wp_bind, reg_read_spec; [done|..]; unfold read_reg, PxCLB, PxCLBU, PxFB, PxFBU, PxIS; cbn [Z.eqb Pos.eqb SataHba.hba fst snd].
  - cbn [armed set_is set_busy is_]. rewrite Hi. done.
  - assert (is_ (set_is (Z.lor (is_ (armed P 0)) (2 ^ 30)) (set_busy (Some 0%nat) (armed P 0))) = 2 ^ 30) as -> by (cbn; by rewrite Hi).
    rewrite He. cbv iota. apply wp_ret, wp_ret. cbn [armed set_busy is_]. rewrite Hi. by apply HQ.
Qed.

(** ** The driver's block *)

(** A call of the driver: the allocator has a block [p] for it, and the port no
    command. *)
Record called s (O : gmap Z Z) (p : Z) (h1 : H) : Prop := {
  cd_inv : al_inv (heap s) O;
  cd_malloc : al_malloc sizeof_port_mem (heap s) = Some (p, h1);
  cd_block : p ≠ 0;
  cd_idle : busy (hba s) = None
}.

(** The allocated block is apart from the live ones. *)
Lemma called_block s O p h1 : called s O p h1 → ∃ z, sizeof_port_mem <= z ∧ O !! p = None ∧
  al_inv h1 (<[p := z]> O) ∧ preserved O (al_mem (heap s)) (al_mem h1) ∧ 0 < p ∧ p + z < 2 ^ 64 ∧
  (∀ q k, O !! q = Some k → p + z <= q ∨ q + k <= p) ∧ (∀ x, live O x → ¬ (p <= x < p + z)).
Proof.
  intros [HI Hm Hp _]. assert (0 <= sizeof_port_mem <= 2 ^ 64 - 8) as Hsz by (unfold sizeof_port_mem; lia).
  pose proof (al_malloc_law (heap s) O sizeof_port_mem HI Hsz) as Hw.
  unfold wp in Hw. rewrite Hm in Hw. destruct Hw as [[? _]|(_ & z & Hz & Hfresh & HI1 & Hpr)]; [done|].
  destruct (al_geom h1 (<[p := z]> O) p z HI1 (lookup_insert_eq _ _ _)) as (G1 & _ & G2 & G3).
  assert (∀ q k, O !! q = Some k → p + z <= q ∨ q + k <= p) as Hdis.
  { intros q k Hq. apply (al_disjoint h1 (<[p := z]> O)); [done|apply lookup_insert_eq|rewrite lookup_insert_ne; [done|congruence]|congruence]. }
  exists z. split_and!; try done; try lia. intros x (q & k & Hq & Hx). destruct (Hdis q k Hq); lia.
Qed.
Lemma called_apart s O p h1 : called s O p h1 → ∀ x, live O x → ¬ (p <= x < p + sizeof_port_mem).
Proof. intros HR x Hx. destruct (called_block _ _ _ _ HR) as (z & Hz & _ & _ & _ & _ & _ & _ & Hlive). specialize (Hlive x Hx). lia. Qed.

(** What DMA needs besides: the block's bus address [b] is aligned as the adapter
    needs it, and the buffer lies in a live block with bus address [bb]. *)
Record request s (O : gmap Z Z) (p b : Z) (h1 : H) (buffer bb len : Z) : Prop := {
  req_call : called s O p h1;
  req_bus : b mod 1024 = 0 ∧ 0 <= b ∧ b + sizeof_port_mem < 2 ^ 64;
  req_buffer : ∃ blk n, O !! blk = Some n ∧ blk <= buffer ∧ buffer + len <= blk + n ∧ 0 <= len;
  req_maps : maps (view (hba s)) b p sizeof_port_mem ∧ maps (view (hba s)) bb buffer len
}.

Lemma request_block s O p b h1 buffer bb len : request s O p b h1 buffer bb len → ∃ z, sizeof_port_mem <= z ∧ O !! p = None ∧
  al_inv h1 (<[p := z]> O) ∧ preserved O (al_mem (heap s)) (al_mem h1) ∧ 0 < p ∧ p + z < 2 ^ 64 ∧
  0 < buffer ∧ buffer + len < 2 ^ 64 ∧ clear_of p buffer len ∧ (∀ x, live O x → ¬ (p <= x < p + z)) ∧
  (∀ x, buffer <= x < buffer + len → live O x).
Proof.
  intros [HC _ (blk & n & Hb & Hb1 & Hb2 & Hb3) _]. destruct (called_block _ _ _ _ HC) as (z & Hz & Hfresh & HI1 & Hpr & Hp1 & Hp2 & Hdis & Hlive).
  destruct (al_geom (heap s) O blk n (cd_inv _ _ _ _ HC) Hb) as (B1 & _ & B2 & B3).
  exists z. split_and!; try done; try lia.
  - unfold clear_of. destruct (Hdis blk n Hb); lia.
  - intros x Hx. exists blk, n. split; [done|lia].
Qed.

(** Giving the block back: everything else stays. *)
Lemma leave_with_spec O p z r P h c Q : O !! p = None → al_inv h (<[p := z]> O) → (∀ h', al_inv h' O → preserved O (al_mem h) (al_mem h') → Q r (mk_ahci h' P c)) →
  wp (leave_with p r) Q (mk_ahci h P c).
Proof.
  intros Hp HI HQ. unfold leave_with, free. apply wp_bind. cbn [al_free ahci_allocator]. unfold on_heap. apply wp_zoom.
  eapply wp_mono; [apply (al_free_law h (<[p := z]> O) p z HI), lookup_insert_eq|]. intros u h' [HI' Hpr]. rewrite delete_insert_id in * by done.
  apply wp_ret. by apply HQ.
Qed.

Lemma store_spec O p z (f : gmap Z Z → gmap Z Z) P h c Q : al_inv h (<[p := z]> O) → sizeof_port_mem <= z →
  off p sizeof_port_mem (al_mem h) (f (al_mem h)) →
  (∀ h', al_inv h' (<[p := z]> O) → al_mem h' = f (al_mem h) → Q tt (mk_ahci h' P c)) →
  wp (al_store f) Q (mk_ahci h P c).
Proof.
  intros HI Hz Hf HQ. cbn [al_store ahci_allocator]. unfold on_heap. apply wp_zoom.
  eapply wp_mono; [apply (al_store_law h (<[p := z]> O) f HI)|intros [] h' [HI' Hm]; by apply HQ].
  intros x Hx. apply Hf. destruct (Z.lt_ge_cases x p); [by left|right]. destruct (Z.lt_ge_cases x (p + sizeof_port_mem)); [|done].
  exfalso. apply Hx. exists p, z. rewrite lookup_insert_eq. split; [done|lia].
Qed.

(** Bytes of live blocks are apart from the driver's block. *)
Lemma off_preserved O p m m' : (∀ x, live O x → ¬ (p <= x < p + sizeof_port_mem)) → off p sizeof_port_mem m m' → preserved O m m'.
Proof. intros Hl Ho x Hx. apply Ho. specialize (Hl x Hx). lia. Qed.

(** ** Stopping and starting the port *)

Lemma stop_spec N P a b k i h c (K : M (ahci H C) Z) Q : busy P = None → (k <= N)%nat → (settle P <= N)%nat →
  (∀ k', (k' <= N)%nat → wp K Q (mk_ahci h (phase P false false k' i) c)) →
  wp (clear_bits (base P + PxCMD) 1;; clear_bits (base P + PxCMD) (Z.shiftl 1 4);; K) Q (mk_ahci h (phase P a b k i) c).
Proof.
  intros Hb Hk Hs HK. change (Z.shiftl 1 4) with 16. apply wp_bind, (clear_bits_spec N); [done..|by left|]. intros k1 Hk1.
  apply wp_bind, (clear_bits_spec N); [done..|by right; left|]. intros k2 Hk2. specialize (HK k2 Hk2).
  match goal with |- wp _ _ (mk_ahci _ (phase _ ?x ?y _ _) _) => replace x with false by (by destruct a); replace y with false by (by destruct b) end. exact HK.
Qed.

(** Stopping a running engine takes [settle] polls, less the one in between. *)
Lemma stop_running n P b k i h c (K : M (ahci H C) Z) Q : busy P = None → (n <= settle P)%nat →
  (∀ k', (n <= S k')%nat → wp K Q (mk_ahci h (phase P false false k' i) c)) →
  wp (clear_bits (base P + PxCMD) 1;; clear_bits (base P + PxCMD) 16;; K) Q (mk_ahci h (phase P true b k i) c).
Proof.
  intros Hb Hn HK. apply wp_bind, (clear_exact 1); [done|by left|]. cbn [negb]. change (Z.testbit 1 0) with true. change (Z.testbit 1 4) with false.
  cbn [negb andb]. rewrite andb_true_r. change (true || b && negb b) with true. cbv iota.
  apply wp_bind, (clear_exact 16); [done|by right; left|]. change (Z.testbit 16 0) with false. change (Z.testbit 16 4) with true.
  cbn [negb andb]. rewrite andb_false_r. apply HK. destruct b; cbn [andb orb negb]; lia.
Qed.

(** Interrupts cleared, engines stopped and waited for, then on again. *)
Lemma restart_spec N P i k fuel h c (K : M (ahci H C) Z) Q : busy P = None → (settle P <= N)%nat → (k <= N < fuel)%nat →
  (∀ k', (k' <= N)%nat → wp K Q (mk_ahci h (phase P true true k' 0) c)) →
  wp (reg_write (base P + PxIS) (2 ^ 32 - 1);; clear_bits (base P + PxCMD) 17;;
      wait_forever fuel (base P + PxCMD) (Z.lor (Z.shiftl 1 14) (Z.shiftl 1 15));;
      set_bits (base P + PxCMD) (Z.shiftl 1 4);; set_bits (base P + PxCMD) 1;; K) Q (mk_ahci h (phase P false false k i) c).
Proof.
  intros Hb Hs Hk HK. apply wp_bind, reg_write_spec; [done|].
  assert (write_reg PxIS (u32 (2 ^ 32 - 1)) (phase P false false k i) = phase P false false k 0) as ->.
  { unfold write_reg, PxCLB, PxCLBU, PxFB, PxFBU, PxIS. cbn [Z.eqb Pos.eqb]. change (cnot 32 (u32 (2 ^ 32 - 1))) with 0. by rewrite Z.land_0_r. }
  apply wp_bind, (clear_bits_spec N); [done|lia|done|by right; right|]. intros k1 Hk1. cbn [andb].
  change (Z.lor (Z.shiftl 1 14) (Z.shiftl 1 15)) with (2 ^ 14 + 2 ^ 15). change (Z.shiftl 1 4) with 16.
  apply wp_bind, wait_forever_stopped; [by right; right|lia|].
  apply wp_bind, set_bits_spec; [by right; left|]. intros k2 Hk2. change (false || Z.testbit 16 0) with false. change (false || Z.testbit 16 4) with true.
  apply wp_bind, set_bits_spec; [by left|]. intros k3 Hk3. change (false || Z.testbit 1 0) with true. change (true || Z.testbit 1 4) with true. apply HK. lia.
Qed.

(** ** Reading sectors *)

Definition read_wait pb p count : M (ahci H C) Z :=
  w ← wait_while (Z.to_nat (SATA_WAIT_TIMEOUT + count * SATA_WAIT_TIMEOUT_PER_SECTOR)) (pb + PxCI) 1
        (check_error machine_udelay pb (Z.lor (Z.shiftl 1 30) (Z.shiftl 1 31)));
  match w with
  | Broke _ => leave_with p 8
  | Left timeout => leave_with p (if timeout =? 0 then 9 else 0)
  end.

(** The port with its bases set, its engines on and its command issued. *)
Definition issued P b k : port := armed (phase (with_bases b (b + 1024) P) true true k 0) (latency P).

Lemma sata_read_prefix s O p h1 lba count buffer fuel Q : called s O p h1 → 0 <= buffer → (1000 < fuel)%nat →
  (settle (hba s) < 999)%nat → (stopping (hba s) < 999)%nat →
  1 <= count <= 8064 → 0 <= lba < 2 ^ 48 → buffer + count * block + 8192 < 2 ^ 64 →
  (∀ z h k c, al_inv h (<[p := z]> O) → sizeof_port_mem <= z → read_built (al_mem h) p lba count buffer →
     preserved O (al_mem (heap s)) (al_mem h) → wp (read_wait (base (hba s)) p count) Q (mk_ahci h (issued (hba s) p k) c)) →
  wp (sata_ahci_read_sector machine_udelay fuel (base (hba s)) lba count buffer) Q s.
Proof.
  intros HR Hb1 Hfuel Hset Hstop Hc Hl Hbuf HQ. pose proof (called_apart _ _ _ _ HR) as Hlive'.
  destruct (called_block _ _ _ _ HR) as (z & Hz & Hfresh & HI1 & Hpr & Hp1 & Hp2 & _).
  destruct HR as [_ Hm Hp Hbusy]. unfold block in *.
  assert (sizeof_port_mem = 9472) as Hsz by done. destruct s as [h0 P c0]. cbn [heap hba] in *. unfold sata_ahci_read_sector.
  apply wp_bind. unfold malloc. cbn [al_malloc ahci_allocator]. unfold on_heap. apply wp_zoom. unfold wp at 1. cbn [heap hba clock]. rewrite Hm.
  apply wp_bind, wp_massert; [by apply truthy_true|].
  apply wp_bind, (store_spec O p z); [done|done|by apply off_memset|]. intros h2 HI2 Hm2. cbv beta.
  apply wp_bind, set_bases_spec; [unfold cl; lia|unfold rfis; lia|]. unfold cl, rfis.
  remember (with_bases p (p + 1024) P) as PB eqn:EPB. assert (base P = base PB) as EB by (by rewrite EPB).
  rewrite EB in *. assert (mk_ahci h2 PB c0 = mk_ahci h2 (phase PB (st PB) (fre PB) (stopping PB) (is_ PB)) c0) as -> by (f_equal; apply phase_self).
  assert (busy PB = None ∧ settle PB = settle P ∧ stopping PB = stopping P) as (HbB & HsB & HtB) by (rewrite EPB; split_and!; [exact Hbusy|reflexivity..]).
  apply (stop_spec 998); [done|rewrite HtB; lia|rewrite HsB; lia|]. intros k1 Hk1.
  change (Z.shiftl 1 15) with (2 ^ 15). change (Z.shiftl 1 14) with (2 ^ 14).
  apply wp_bind, wait_stopped; [by right; left|unfold SATA_WAIT_TIMEOUT; lia|intros t j Ht; apply goes_on_timeout; lia|]. intros t c1 Ht. cbv beta iota.
  apply wp_bind, wait_stopped; [by left|unfold SATA_WAIT_TIMEOUT; lia|intros t' j Ht'; apply goes_on_timeout; lia|]. intros t' c2 Ht'. cbv beta iota.
  destruct (build_read_spec (al_mem h2) p lba count buffer) as [HB HBo]; [lia|lia|lia|lia|done|done|].
  apply wp_bind, (store_spec O p z); [done|done|done|]. intros h3 HI3 Hm3. cbv beta.
  apply (restart_spec 998); [done|rewrite HsB; lia|lia|].
  intros k2 Hk2. apply wp_bind, (issue_spec true); [done|].
  assert (latency PB = latency P) as -> by (by rewrite EPB). subst PB.
  apply (HQ z); [done|done|by rewrite Hm3|].
  rewrite Hm3. intros x Hx. rewrite (off_preserved O p _ _ Hlive' HBo x Hx), Hm2.
  rewrite (off_preserved O p _ _ Hlive' (off_memset (al_mem h1) p 0 sizeof_port_mem ltac:(lia)) x Hx). by apply Hpr.
Qed.

Definition poll_limit (count : Z) : Z := SATA_WAIT_TIMEOUT + count * SATA_WAIT_TIMEOUT_PER_SECTOR.

(** The last poll of a command that delivers data. *)
Lemma finish_delivered T body R h O p z c m' buffer src pos len Q : al_inv h (<[p := z]> O) → sizeof_port_mem <= z → O !! p = None →
  finish (armed R 0) (al_mem h) = (m', 1) → delivered (al_mem h) m' p buffer src pos len →
  (∀ x, buffer <= x < buffer + len → live O x) →
  (∀ h', al_inv h' (<[p := z]> O) → delivered (al_mem h) (al_mem h') p buffer src pos len →
     Q (Left (Z.of_nat T)) (mk_ahci h' (set_is (Z.lor (is_ R) 1) (set_busy None R)) c)) →
  wp (wait_while T (base R + PxCI) 1 body) Q (mk_ahci h (armed R 0) c).
Proof.
  intros HI Hz Hfresh Hfin Hdel Hbl HQ. eapply (finish_ok _ _ _ _ (<[p := z]> O)); [done|exact Hfin|done| |].
  - intros x Hx. apply (delivered_out _ _ _ _ _ _ _ Hdel).
    + intros Hb. apply Hx. destruct (Hbl x Hb) as (q & n & Hq & Hqx). exists q, n. rewrite lookup_insert_ne; [done|congruence].
    + intros Hb. apply Hx. exists p, z. rewrite lookup_insert_eq. split; [done|lia].
  - intros h' HI' Hm'. apply HQ; [done|]. by rewrite Hm'.
Qed.

(** The bytes [src] holds from [pos] on are in the buffer; the rest of the live
    memory is as it was. *)
Definition buffer_filled (m m' : gmap Z Z) (O : gmap Z Z) (buffer : Z) (src : gmap Z Z) (pos len : Z) : Prop :=
  (∀ k, 0 <= k < len → load8 m' (buffer + k) = load8 src (pos + k)) ∧
  (∀ x, live O x → ¬ (buffer <= x < buffer + len) → load8 m' x = load8 m x).
Lemma delivered_filled O p m m1 m2 m3 buffer src pos len : preserved O m m1 → delivered m1 m2 p buffer src pos len → preserved O m2 m3 →
  (∀ x, live O x → ¬ (p <= x < p + sizeof_port_mem)) → (∀ x, buffer <= x < buffer + len → live O x) →
  buffer_filled m m3 O buffer src pos len.
Proof.
  intros A1 [Hin Hout] A3 Hap Hbl. split.
  - intros j Hj. rewrite A3 by (apply Hbl; lia). by apply Hin.
  - intros x Hx Hb. rewrite A3 by done. rewrite Hout; [by apply A1|done|by apply Hap].
Qed.

(** Live memory is as it was. *)
Definition untouched s O s' : Prop := al_inv (heap s') O ∧ preserved O (al_mem s) (al_mem s').

(** A range of sectors whose command fits the driver's block. *)
Definition range_ok (lba count buffer : Z) : Prop :=
  1 <= count <= 8064 ∧ 0 <= lba < 2 ^ 48 ∧ 0 <= buffer ∧ buffer + count * block + 8192 < 2 ^ 64.
Record read_request s (O : gmap Z Z) (p : Z) (h1 : H) (lba count buffer : Z) : Prop := {
  rr_request : request s O p p h1 buffer buffer (count * block);
  rr_disk : disc (hba s) = None;
  rr_range : range_ok lba count buffer
}.

Lemma sata_read_spec s O p h1 lba count buffer fuel : read_request s O p h1 lba count buffer → fault (hba s) = false →
  (settle (hba s) < 999)%nat → (stopping (hba s) < 999)%nat → (1000 < fuel)%nat → Z.of_nat (latency (hba s)) < poll_limit count →
  wp (sata_ahci_read_sector machine_udelay fuel (base (hba s)) lba count buffer) (λ r s', r = 0 ∧ al_inv (heap s') O ∧
    buffer_filled (al_mem s) (al_mem s') O buffer (disk (hba s)) (lba * block) (count * block)) s.
Proof.
  intros [HR Hd (Hc & Hl & Hb0 & Hroom)] Hf Hs1 Hs2 Hfuel Hlat. pose proof (called_apart _ _ _ _ (req_call _ _ _ _ _ _ _ _ HR)) as Hap.
  destruct (request_block _ _ _ _ _ _ _ _ HR) as (z0 & _ & Hfresh & _ & _ & _ & _ & _ & _ & Hclear & _ & Hbl).
  pose proof (req_bus _ _ _ _ _ _ _ _ HR) as (Ha & _). pose proof (req_maps _ _ _ _ _ _ _ _ HR) as (Hm1 & Hm2).
  apply (sata_read_prefix s O p h1); try done; [apply HR|]. intros z h k c HI Hz HB Hpr. unfold read_wait. apply wp_bind.
  unfold poll_limit, SATA_WAIT_TIMEOUT, SATA_WAIT_TIMEOUT_PER_SECTOR in *. set (T := Z.to_nat _).
  unfold issued. set (R := phase (with_bases p (p + 1024) (hba s)) true true k 0).
  change (base (hba s)) with (base R). apply wait_command; [lia|intros t j; by apply (goes_on_error _ t (armed R j))|]. intros c1.
  destruct (finish_read (armed R 0) p (al_mem h) lba count buffer) as (m' & Hfin & Hdel); try done.
  eapply finish_delivered; [exact HI|exact Hz|exact Hfresh|exact Hfin|exact Hdel|exact Hbl|].
  intros h' HI' Hdel'. cbv beta iota. rewrite (proj2 (Z.eqb_neq _ 0)) by lia.
  apply (leave_with_spec O p z); [done|done|]. intros h'' HI'' Hpr''. cbn [heap]. split; [done|]. split; [done|].
  by apply (delivered_filled O p (al_mem s) (al_mem h) (al_mem h') (al_mem h'')).
Qed.

(** A drive that reports an error makes the read return 8 with the heap and
    every live byte as before. *)
Theorem sata_read_failed s O p h1 lba count buffer fuel : read_request s O p h1 lba count buffer → fault (hba s) = true →
  (settle (hba s) < 999)%nat → (stopping (hba s) < 999)%nat → (1000 < fuel)%nat → Z.of_nat (latency (hba s)) < poll_limit count →
  wp (sata_ahci_read_sector machine_udelay fuel (base (hba s)) lba count buffer) (λ r s', r = 8 ∧ untouched s O s') s.
Proof.
  intros [HR Hd (Hc & Hl & Hb0 & Hroom)] Hf Hs1 Hs2 Hfuel Hlat. pose proof (called_apart _ _ _ _ (req_call _ _ _ _ _ _ _ _ HR)) as Hap.
  destruct (request_block _ _ _ _ _ _ _ _ HR) as (z0 & _ & Hfresh & _).
  pose proof (req_bus _ _ _ _ _ _ _ _ HR) as (Ha & _). pose proof (req_maps _ _ _ _ _ _ _ _ HR) as (Hm1 & _).
  apply (sata_read_prefix s O p h1); try done; [apply HR|]. intros z h k c HI Hz HB Hpr. unfold read_wait. apply wp_bind.
  unfold poll_limit, SATA_WAIT_TIMEOUT, SATA_WAIT_TIMEOUT_PER_SECTOR in *. set (T := Z.to_nat _).
  unfold issued. set (R := phase (with_bases p (p + 1024) (hba s)) true true k 0).
  change (base (hba s)) with (base R). apply wait_command; [lia|intros t j; by apply (goes_on_error _ t (armed R j))|]. intros c1.
  destruct (finish_fault (armed R 0) p p (al_mem h)) as (m' & Hfin & Ho); try done.
  replace (T - latency (hba s))%nat with (S (T - latency (hba s) - 1)) by lia.
  eapply (finish_failed _ _ _ _ (<[p := z]> O)); [done|exact Hfin|done|done|done| |].
  - intros x Hx. apply Ho. destruct (Z.lt_ge_cases x p); [by left|right]. destruct (Z.lt_ge_cases x (p + sizeof_port_mem)); [|done].
    exfalso. apply Hx. exists p, z. rewrite lookup_insert_eq. split; [done|lia].
  - intros h' HI' Hm'. cbv beta iota. apply (leave_with_spec O p z); [done|done|]. intros h'' HI'' Hpr''. split; [done|]. split; [done|].
    intros x Hx. cbn [al_mem ahci_allocator heap]. rewrite Hpr'', Hm' by done. rewrite (off_preserved O p _ _ Hap Ho x Hx). by apply Hpr.
Qed.

(** A drive that needs longer than the driver waits: the read reports success
    (0) although nothing has arrived, and returns the command memory to the heap
    while the command is still in progress, wherever the adapter will look for
    its structures. *)
Theorem sata_read_timeout_missed s O p h1 lba count buffer fuel : called s O p h1 → range_ok lba count buffer →
  (settle (hba s) < 999)%nat → (stopping (hba s) < 999)%nat → (1000 < fuel)%nat → poll_limit count < Z.of_nat (latency (hba s)) →
  wp (sata_ahci_read_sector machine_udelay fuel (base (hba s)) lba count buffer) (λ r s',
    r = 0 ∧ untouched s O s' ∧ busy (hba s') = Some (latency (hba s) - Z.to_nat (poll_limit count) - 1)%nat) s.
Proof.
  intros HR (Hc & Hl & Hb0 & Hroom) Hs1 Hs2 Hfuel Hlat. pose proof (called_apart _ _ _ _ HR) as Hap.
  destruct (called_block _ _ _ _ HR) as (z0 & _ & Hfresh & _).
  apply (sata_read_prefix s O p h1); try done. intros z h k c HI Hz HB Hpr. unfold read_wait. apply wp_bind.
  fold (poll_limit count). unfold issued. set (R := phase (with_bases p (p + 1024) (hba s)) true true k 0).
  change (base (hba s)) with (base R). apply wait_command_late; [unfold poll_limit, SATA_WAIT_TIMEOUT, SATA_WAIT_TIMEOUT_PER_SECTOR in *; lia|intros t j; by apply (goes_on_error _ t (armed R j))|]. intros c1.
  cbv iota. change (2 ^ 32 - 1 =? 0) with false. cbv iota.
  apply (leave_with_spec O p z); [done|done|]. intros h'' HI'' Hpr''. split; [reflexivity|]. split; [split; [exact HI''|]|reflexivity].
  intros x Hx. cbn [al_mem ahci_allocator heap]. rewrite Hpr'' by done. by apply Hpr.
Qed.

(** C37: a port whose command engine does not stop in time makes a read return 6:
    no command has reached the drive, both engines are told to stop, the command
    memory is back on the heap and every live byte is as before.  The heap has to
    have room for the command memory; nothing is asked of its alignment or of
    what the adapter sees at its address. *)
Theorem sata_read_engine_stuck s O p h1 lba count buffer fuel : called s O p h1 → st (hba s) = true → (1001 < settle (hba s))%nat →
  wp (sata_ahci_read_sector machine_udelay fuel (base (hba s)) lba count buffer) (λ r s', r = 6 ∧ untouched s O s' ∧
    st (hba s') = false ∧ fre (hba s') = false ∧ busy (hba s') = None) s.
Proof.
  intros HR Hst Hs. pose proof (called_apart _ _ _ _ HR) as Hap.
  destruct (called_block _ _ _ _ HR) as (z & Hz & Hfresh & HI1 & Hpr & Hp1 & Hp2 & _). destruct HR as [_ Hm Hp Hbusy].
  assert (sizeof_port_mem = 9472) as Hsz by done. destruct s as [h0 P c0]. cbn [heap hba] in *. unfold sata_ahci_read_sector.
  apply wp_bind. unfold malloc. cbn [al_malloc ahci_allocator]. unfold on_heap. apply wp_zoom. unfold wp at 1. cbn [heap hba clock]. rewrite Hm.
  apply wp_bind, wp_massert; [by apply truthy_true|].
  apply wp_bind, (store_spec O p z); [done|done|by apply off_memset|]. intros h2 HI2 Hm2. cbv beta.
  apply wp_bind, set_bases_spec; [unfold cl; lia|unfold rfis; lia|]. unfold cl, rfis.
  remember (with_bases p (p + 1024) P) as PB eqn:EPB. assert (base P = base PB) as EB by (by rewrite EPB).
  assert (busy PB = None ∧ settle PB = settle P ∧ st PB = true) as (HbB & HsB & HtB) by (rewrite EPB; split_and!; [exact Hbusy|reflexivity|exact Hst]).
  rewrite EB in *. assert (mk_ahci h2 PB c0 = mk_ahci h2 (phase PB (st PB) (fre PB) (stopping PB) (is_ PB)) c0) as -> by (f_equal; apply phase_self).
  rewrite HtB. change (Z.shiftl 1 4) with 16. apply (stop_running (settle P)); [done|lia|]. intros k Hk.
  change (Z.shiftl 1 15) with (2 ^ 15). apply wp_bind, wait_stuck; [by right; left|unfold SATA_WAIT_TIMEOUT; lia|]. intros j c1. cbv beta iota.
  apply (leave_with_spec O p z); [done|done|]. intros h3 HI3 Hpr3. split; [reflexivity|].
  split; [split; [exact HI3|]|split_and!; [reflexivity|reflexivity|exact HbB]].
  intros x Hx. cbn [al_mem ahci_allocator heap]. rewrite Hpr3, Hm2 by done.
  rewrite (off_preserved O p _ _ Hap (off_memset (al_mem h1) p 0 sizeof_port_mem ltac:(lia)) x Hx). by apply Hpr.
Qed.
End run.
