(* ===== verification/SataPacket.v ===== *)
(** * IDENTIFY and the packet commands over AHCI

    The structures of a packet command ([sata_packet_command], for any addresses),
    and the remaining functions of [Sata] on the machine of [SataHba]: the optical
    drive's sectors and capacity, whose addresses the driver translates with
    [virt_phys], and the IDENTIFY data of either kind of drive. *)

From stdpp Require Import prelude gmap list numbers tactics.
From S2P Require Import Prelude Memory Io KHeap Arith Ata AtaDisk Atapi Sata SataHba SataProps SataRun.

(** ** What is in memory *)

Lemma put_list_spec m a l : (∀ i c, l !! i = Some c → 0 <= c < 256) →
  (∀ i c, l !! i = Some c → load8 (put_list m a l) (a + Z.of_nat i) = c) ∧ off a (Z.of_nat (length l)) m (put_list m a l).
Proof.
  revert m a. induction l as [|c l IH]; intros m a Hl; cbn [put_list length]; [done|].
  destruct (IH (store8 m a c) (a + 1)) as [H1 H2]; [intros i d Hd; by apply (Hl (S i) d)|]. split.
  - intros [|i] d Hd; cbn in Hd.
    + injection Hd as <-. rewrite Z.add_0_r, H2 by lia. rewrite load8_store8_eq. apply Z.mod_small. by apply (Hl 0%nat c).
    + replace (a + Z.of_nat (S i)) with (a + 1 + Z.of_nat i) by lia. by apply H1.
  - apply (off_trans _ _ m (store8 m a c)); [apply (off_sub a 1); [lia..|apply off_store8]|].
    eapply off_sub; [..|exact H2]; lia.
Qed.

(** One entry, one command. *)
Record simple_built (m : gmap Z Z) (p table flags command buf_bus len : Z) : Prop := {
  simple_flags : load16 m p = flags;
  simple_length : load16 m (p + 2) = 1;
  simple_table : load64 m (p + 8) = table;
  simple_fis : fis_at m (ct p) command;
  simple_entry : entry m (prdt_entry (ct p) 0) buf_bus len
}.

Lemma build_identify_spec m p command buffer : 0 <= p → p + sizeof_port_mem < 2 ^ 64 → 0 <= buffer < 2 ^ 64 → 0 <= command < 256 →
  simple_built (build_identify m p command buffer) p (ct p) 5 command buffer block ∧ off p sizeof_port_mem m (build_identify m p command buffer).
Proof.
  unfold sizeof_port_mem. intros Hp Hpe Hb Hc. unfold build_identify, cl. cbv zeta.
  set (m1 := set_header m p 5 1). set (m2 := set_ctba m1 p (ct p)). set (m3 := set_prdt m2 _ buffer _).
  destruct (set_header_spec m p 5 1) as (F1 & F2 & F3); [lia..|]. fold m1 in F1, F2, F3.
  destruct (set_ctba_spec m1 p (ct p)) as (T1 & T2); [unfold ct; lia|]. fold m2 in T1, T2.
  destruct (set_prdt_spec m2 (prdt_entry (ct p) 0) buffer (512 - 1) Hb) as (E1 & E2). fold m3 in E1, E2.
  destruct (start_fis_spec m3 (ct p) command Hc) as (R1 & R2 & _). set (m4 := start_fis _ _ _) in *.
  change ((512 - 1) mod 2 ^ 22 + 1) with block in E1. unfold ct, prdt_entry in *. split.
  - split; try done.
    + rewrite (off_loadn _ _ _ _ 2 _ R2), (off_loadn _ _ _ _ 2 _ E2), (off_loadn _ _ _ _ 2 _ T2) by lia. done.
    + rewrite (off_loadn _ _ _ _ 2 _ R2), (off_loadn _ _ _ _ 2 _ E2), (off_loadn _ _ _ _ 2 _ T2) by lia. done.
    + rewrite (off_loadn _ _ _ _ 8 _ R2), (off_loadn _ _ _ _ 8 _ E2) by lia. done.
    + eapply entry_off; [exact R2|unfold prdt_entry, ct; lia|]. exact E1.
  - eapply off_trans; [eapply off_sub; [..|exact F3]; lia|]. eapply off_trans; [eapply off_sub; [..|exact T2]; lia|].
    eapply off_trans; [eapply off_sub; [..|exact E2]; lia|]. eapply off_sub; [..|exact R2]; lia.
Qed.

Lemma build_packet_spec m p table buf_bus len packet : 0 <= p → p + sizeof_port_mem < 2 ^ 64 → 0 <= table < 2 ^ 64 → 0 <= buf_bus < 2 ^ 64 →
  1 <= len <= 2 ^ 22 → length packet = 12%nat → Forall byte packet →
  let m' := build_packet m p table buf_bus len packet in
  simple_built m' p table 37 0xA0 buf_bus len ∧ (∀ i c, packet !! i = Some c → load8 m' (ct p + 64 + Z.of_nat i) = c) ∧
  off p sizeof_port_mem m m'.
Proof.
  unfold sizeof_port_mem. intros Hp Hpe Ht Hb Hl Hlen Hby. cbv zeta. unfold build_packet, cl, acmd.
  change (Z.lor 5 (Z.shiftl 1 5)) with 37. cbv zeta.
  set (m1 := memset m p 0 32). set (m2 := store16 m1 (p + 2) 1). set (m3 := store16 m2 p 37). set (m4 := set_ctba m3 p table).
  set (m5 := set_prdt m4 _ buf_bus _). set (m6 := memset m5 _ 0 16). set (m7 := put_list m6 _ packet). set (m8 := start_fis m7 _ _).
  destruct (set_ctba_spec m3 p table Ht) as (T1 & T2). fold m4 in T1, T2.
  destruct (set_prdt_spec m4 (prdt_entry (ct p) 0) buf_bus (Z.land (len - 1) 0x003FFFFF) Hb) as (E1 & E2). fold m5 in E1, E2.
  assert (Z.land (len - 1) 0x003FFFFF mod 2 ^ 22 + 1 = len) as El by (rewrite (land_low _ 22), Zmod_mod, Z.mod_small by (done || lia); lia).
  rewrite El in E1. assert (∀ i c, packet !! i = Some c → 0 <= c < 256) as Hby'.
  { intros i c Hc. rewrite Forall_lookup in Hby. by apply (Hby i). }
  destruct (put_list_spec m6 (ct p + 64) packet Hby') as (P1 & P2). fold m7 in P1, P2.
  destruct (start_fis_spec m7 (ct p) 0xA0) as ([R1 R2 R3] & R4 & _); [lia|]. fold m8 in R1, R2, R3, R4.
  assert (off p 32 m m1) as O1 by (by apply off_memset).
  assert (off (p + 2) 2 m1 m2) as O2 by (apply (off_storen 2)). assert (off p 2 m2 m3) as O3 by (apply (off_storen 2)).
  assert (off (ct p + 64) 16 m5 m6) as O6 by (by apply off_memset). set (m9 := store8 m8 (ct p + 7) 160).
  assert (off (ct p + 7) 1 m8 m9) as O9 by apply off_store8. rewrite Hlen in P2. unfold ct, prdt_entry in *. split_and!.
  - split; [| | |split|].
    + rewrite (off_loadn _ _ _ _ 2 _ O9), (off_loadn _ _ _ _ 2 _ R4), (off_loadn _ _ _ _ 2 _ P2), (off_loadn _ _ _ _ 2 _ O6), (off_loadn _ _ _ _ 2 _ E2), (off_loadn _ _ _ _ 2 _ T2) by lia.
      unfold m3. by rewrite loadn_storen_eq.
    + rewrite (off_loadn _ _ _ _ 2 _ O9), (off_loadn _ _ _ _ 2 _ R4), (off_loadn _ _ _ _ 2 _ P2), (off_loadn _ _ _ _ 2 _ O6), (off_loadn _ _ _ _ 2 _ E2), (off_loadn _ _ _ _ 2 _ T2), (off_loadn _ _ _ _ 2 _ O3) by lia.
      unfold m2. by rewrite loadn_storen_eq.
    + rewrite (off_loadn _ _ _ _ 8 _ O9), (off_loadn _ _ _ _ 8 _ R4), (off_loadn _ _ _ _ 8 _ P2), (off_loadn _ _ _ _ 8 _ O6), (off_loadn _ _ _ _ 8 _ E2) by lia. done.
    + unfold ct. rewrite O9 by lia. done.
    + unfold ct. rewrite O9 by lia. done.
    + unfold ct. rewrite O9 by lia. done.
    + unfold ct. eapply entry_off; [exact O9|unfold prdt_entry; lia|]. eapply entry_off; [exact R4|unfold prdt_entry; lia|].
      eapply entry_off; [exact P2|unfold prdt_entry; lia|]. eapply entry_off; [exact O6|unfold prdt_entry; lia|]. exact E1.
  - intros i c Hc. pose proof (lookup_lt_Some _ _ _ Hc). rewrite O9, R4 by lia. by apply P1.
  - eapply off_trans; [eapply off_sub; [..|exact O1]; lia|]. eapply off_trans; [eapply off_sub; [..|exact O2]; lia|].
    eapply off_trans; [eapply off_sub; [..|exact O3]; lia|]. eapply off_trans; [eapply off_sub; [..|exact T2]; lia|].
    eapply off_trans; [eapply off_sub; [..|exact E2]; lia|]. eapply off_trans; [eapply off_sub; [..|exact O6]; lia|].
    eapply off_trans; [eapply off_sub; [..|exact P2]; lia|]. eapply off_trans; [eapply off_sub; [..|exact R4]; lia|].
    eapply off_sub; [..|exact O9]; lia.
Qed.

(** C35: the command of a packet read, for 1 to 2048 blocks of the disc: the
    structures [sata_ahci_read_sector_satapi] writes before it issues the command
    are, at the offsets and in the layout of the AHCI standard, a header for a
    packet command of five words with one scatter entry, the table's address with
    the offset of the direct map taken off, a PACKET command, a READ(10) packet
    for exactly these blocks whatever the stack held, and an entry for exactly
    their bytes at the buffer's address, translated the same way.  Nothing
    outside of the 9472 bytes of the command memory is written. *)
Theorem sata_packet_command m p hhdm lba count buffer stack : 0 <= p → p + 9472 < 2 ^ 64 →
  0 <= lba < 2 ^ 32 → 1 <= count <= 2048 → length stack = 12%nat →
  let m' := build_packet m p (virt_phys hhdm (ct p)) (virt_phys hhdm buffer) (u32 (count * 2048)) (build_read10_atapi_cmd stack lba count) in
  let byte i := load8 m' (p + 1280 + i) in
  load16 m' p = 5 + 2 ^ 5 ∧ load16 m' (p + 2) = 1 ∧ load64 m' (p + 8) = (p + 1280 - hhdm) mod 2 ^ 64 ∧
  byte 0 = 0x27 ∧ byte 1 = 0x80 ∧ byte 2 = 0xA0 ∧
  byte 64 = 0x28 ∧ ((byte 66 * 256 + byte 67) * 256 + byte 68) * 256 + byte 69 = lba ∧ byte 71 * 256 + byte 72 = count ∧
  byte 65 = 0 ∧ byte 70 = 0 ∧ byte 73 = 0 ∧
  load64 m' (p + 1408) = (buffer - hhdm) mod 2 ^ 64 ∧ load32 m' (p + 1420) mod 2 ^ 22 + 1 = count * 2048 ∧
  ∀ x, x < p ∨ p + 9472 <= x → load8 m' x = load8 m x.
Proof.
  intros Hp Hpe Hl Hc Hs. cbv zeta. rewrite (wrap_small 32 (count * 2048)) by lia.
  assert (build_read10_atapi_cmd stack lba count = build_read10_atapi_cmd (replicate 12 0) lba count) as ->.
  { do 12 (destruct stack as [|? stack]; [discriminate|]). by destruct stack. }
  destruct (build_packet_spec m p (virt_phys hhdm (ct p)) (virt_phys hhdm buffer) (count * 2048) (build_read10_atapi_cmd (replicate 12 0) lba count))
    as ([B1 B2 B3 [F1 F2 F3] [E1 E2]] & HP & Ho); [done|done|by apply wrap_range|by apply wrap_range|lia|done|rewrite read10_packet; repeat constructor; (apply byte_land || done)|].
  rewrite read10_packet in *. destruct (read10_fields lba count Hl ltac:(lia)) as [HL HC]. unfold be_bytes in HL, HC. cbn [foldl] in HL, HC.
  set (m' := build_packet _ _ _ _ _ _) in *. unfold prdt_entry, ct in *.
  assert (∀ i k v, [0x28; 0; Z.land (Z.shiftr lba 24) 0xFF; Z.land (Z.shiftr lba 16) 0xFF; Z.land (Z.shiftr lba 8) 0xFF; Z.land lba 0xFF; 0;
    Z.land (Z.shiftr count 8) 0xFF; Z.land count 0xFF; 0; 0; 0] !! i = Some v → k = 64 + Z.of_nat i →
    load8 m' (p + 1280 + k) = v) as HP'.
  { intros i k v Hv ->. rewrite Z.add_assoc. by apply HP. }
  rewrite (HP' 0%nat 64 _ eq_refl eq_refl), (HP' 1%nat 65 _ eq_refl eq_refl), (HP' 2%nat 66 _ eq_refl eq_refl), (HP' 3%nat 67 _ eq_refl eq_refl), (HP' 4%nat 68 _ eq_refl eq_refl), (HP' 5%nat 69 _ eq_refl eq_refl),
    (HP' 6%nat 70 _ eq_refl eq_refl), (HP' 7%nat 71 _ eq_refl eq_refl), (HP' 8%nat 72 _ eq_refl eq_refl), (HP' 9%nat 73 _ eq_refl eq_refl).
  rewrite Z.add_0_r. split_and!; try done.
  - etransitivity; [|exact E1]. f_equal. lia.
  - etransitivity; [|exact E2]. do 3 f_equal. lia.
Qed.

(** ** What the adapter makes of it *)

Section commands.
Implicit Types (P : port).

Lemma command_identify P b v m flags command table buf_bus len : based P b v → flags = 5 → 0 <= command < 256 → simple_built m v table flags command buf_bus len →
  command = (if disc P is Some _ then 0xA1 else 0xEC) → command_data P (load16 m v) m (b + 1280) = Some (ident P, 0, block).
Proof.
  intros HP -> Hc [B1 _ _ B4 _] Hcmd. unfold command_data. rewrite B1.
  destruct (fis_at_bus P b v m 1280 command HP ltac:(lia) B4) as (-> & -> & ->).
  change (negb (5 mod 32 =? 5) || Z.testbit 5 6 || negb (0x27 =? 0x27) || negb (Z.testbit 0x80 7)) with false. cbv iota.
  by destruct (disc P); subst command.
Qed.

Lemma command_packet P b v m last table buf_bus len packet r : based P b v → disc P = Some last →
  simple_built m v table 37 0xA0 buf_bus len → (∀ i c, packet !! i = Some c → load8 m (ct v + 64 + Z.of_nat i) = c) → length packet = 12%nat →
  packet_data P last packet = r → command_data P (load16 m v) m (b + 1280) = r.
Proof.
  intros HP Hd [B1 _ _ B4 _] Hpk Hlen Hr. unfold command_data. rewrite B1, Hd.
  destruct (fis_at_bus P b v m 1280 0xA0 HP ltac:(lia) B4) as (-> & -> & ->).
  change (negb (37 mod 32 =? 5) || Z.testbit 37 6 || negb (0x27 =? 0x27) || negb (Z.testbit 0x80 7)) with false. cbv iota.
  change (0xA0 =? 0xA1) with false. change ((0xA0 =? 0xA0) && Z.testbit 37 5) with true. cbv iota. rewrite <- Hr. f_equal.
  apply list_eq. intros i. rewrite list_lookup_fmap. destruct (decide (i < 12)%nat) as [Hi|Hi].
  - rewrite lookup_seq_lt by done. destruct (lookup_lt_is_Some_2 packet i ltac:(lia)) as [c Hc]. rewrite Hc. cbn [fmap option_fmap option_map].
    f_equal. rewrite <- !Z.add_assoc. rewrite (based_load1 P b v) by (done || unfold sizeof_port_mem; lia).
    rewrite <- (Hpk i c Hc). f_equal. unfold ct. lia.
  - rewrite (lookup_ge_None_2 packet) by lia. by rewrite lookup_ge_None_2 by (rewrite length_seq; lia).
Qed.

(** The single entry of these commands. *)
Lemma finish_simple P b v m flags command table buf_bus buffer src pos len : based P b v → fault P = false →
  simple_built m v table flags command buf_bus len → table = b + 1280 → command_data P (load16 m v) m (b + 1280) = Some (src, pos, len) →
  0 < len → maps (view P) buf_bus buffer len → clear_of v buffer len →
  ∃ m', finish P m = (m', 1) ∧ delivered m m' v buffer src pos len.
Proof.
  intros HP Hf [B1 B2 B3 B4 B5] -> Hc Hl Hm Hcl. apply (finish_data P b v m len 1 buf_bus buffer); try done; try lia.
  intros j Hj. replace j with 0 by lia. rewrite Z.mul_0_r, Z.add_0_r. unfold piece. rewrite Z.mul_0_r, Z.sub_0_r, Z.min_id. exact B5.
Qed.
End commands.

(** ** The runs *)

Section run.
Context {H C : Type} `{AllocatorLaws H} (delay : Z → M C unit) (Hdelay : delays delay).
Implicit Types (s : ahci H C) (h : H) (c : C) (P : port).

(** A machine ready for a command: the port stops in time and does not fail. *)
Definition port_in_time P (N : nat) : Prop := fault P = false ∧ (settle P < N)%nat ∧ (stopping P < N)%nat.

Lemma phase_state h P c : mk_ahci h P c = mk_ahci h (phase P (st P) (fre P) (stopping P) (is_ P)) c.
Proof. f_equal. apply phase_self. Qed.

Lemma set_engines_on P k i h c (K : M (ahci H C) Z) Q : busy P = None → (∀ k', (k' <= k)%nat → wp K Q (mk_ahci h (phase P true true k' i) c)) →
  wp (set_bits (base P + PxCMD) 0x11;; K) Q (mk_ahci h (phase P false false k i) c).
Proof.
  intros Hb HK. apply wp_bind, set_bits_spec; [by right; right|]. intros k' Hk.
  change (false || Z.testbit 0x11 0) with true. change (false || Z.testbit 0x11 4) with true. by apply HK.
Qed.
Lemma write_is P a b k i h c (K : M (ahci H C) Z) Q : wp K Q (mk_ahci h (phase P a b k 0) c) →
  wp (reg_write (base P + PxIS) (2 ^ 32 - 1);; K) Q (mk_ahci h (phase P a b k i) c).
Proof.
  intros HK. apply wp_bind, reg_write_spec; [done|].
  assert (write_reg PxIS (u32 (2 ^ 32 - 1)) (phase P a b k i) = phase P a b k 0) as ->; [|done].
  unfold write_reg, PxCLB, PxCLBU, PxFB, PxFBU, PxIS. cbn [Z.eqb Pos.eqb]. change (cnot 32 (u32 (2 ^ 32 - 1))) with 0. by rewrite Z.land_0_r.
Qed.

Lemma identify_prefix s O p h1 command buffer fuel Q : request s O p p h1 buffer buffer block → port_in_time (hba s) 998 → (998 < fuel)%nat →
  0 <= command < 256 →
  (∀ z h k c, al_inv h (<[p := z]> O) → sizeof_port_mem <= z → simple_built (al_mem h) p (p + 1280) 5 command buffer block →
     preserved O (al_mem (heap s)) (al_mem h) →
     wp (w ← wait_while (Z.to_nat SATA_WAIT_TIMEOUT) (base (hba s) + PxCI) 1 (check_error (machine_udelay delay) (base (hba s)) (Z.shiftl 1 30));
         match w with Broke _ => leave_with p 8 | Left _ => leave_with p 0 end) Q (mk_ahci h (issued (hba s) p k) c)) →
  wp (ahci_identify (machine_udelay delay) fuel command (base (hba s)) buffer) Q s.
Proof.
  intros HR (_ & Hset & Hstop) Hfuel Hc HQ. pose proof (called_apart _ _ _ _ (req_call _ _ _ _ _ _ _ _ HR)) as Hap.
  destruct (request_block _ _ _ _ _ _ _ _ HR) as (z & Hz & Hfresh & HI1 & Hpr & Hp1 & Hp2 & Hb1 & Hb2 & _).
  destruct HR as [[_ Hm Hp Hbusy] (Ha & Hb3 & Hb4) _ _]. assert (sizeof_port_mem = 9472 ∧ block = 512) as [Hsz Hblk] by done.
  destruct s as [h0 P c0]. cbn [heap hba] in *. unfold ahci_identify.
  apply wp_bind. unfold malloc. cbn [al_malloc ahci_allocator]. unfold on_heap. apply wp_zoom. unfold wp at 1. cbn [heap hba clock]. rewrite Hm.
  apply wp_bind, set_bases_spec; [unfold cl; lia|unfold rfis; lia|]. unfold cl, rfis.
  remember (with_bases p (p + 1024) P) as PB eqn:EPB. assert (base P = base PB) as EB by (by rewrite EPB).
  assert (busy PB = None ∧ settle PB = settle P ∧ stopping PB = stopping P ∧ latency PB = latency P) as (HbB & HsB & HtB & HlB)
    by (rewrite EPB; split_and!; [exact Hbusy|reflexivity..]).
  rewrite EB in *. rewrite phase_state.
  apply (stop_spec 998); [done|rewrite HtB; lia|rewrite HsB; lia|]. intros k1 Hk1.
  apply wp_bind, wait_forever_stopped; [by right; left|lia|]. cbv beta.
  apply wp_bind, wait_forever_stopped; [by left|lia|]. cbv beta.
  apply wp_bind, wp_massert; [by apply truthy_true|].
  destruct (build_identify_spec (al_mem h1) p command buffer) as [HB HBo]; [lia|lia|lia|done|].
  apply wp_bind, (store_spec O p z); [done|done|done|]. intros h3 HI3 Hm3. cbv beta.
  apply write_is, set_engines_on; [done|]. intros k2 Hk2.
  apply wp_bind, (issue_spec true); [done|]. rewrite HlB. subst PB.
  apply (HQ z); [done|done|by rewrite Hm3|]. rewrite Hm3. intros x Hx. rewrite (off_preserved O p _ _ Hap HBo x Hx). by apply Hpr.
Qed.

(** IDENTIFY DEVICE and IDENTIFY PACKET DEVICE fill the 512 bytes of the
    buffer with the drive's identification data and nothing else, if the drive
    answers within the driver's number of polls; if it does not, they return 0
    with the buffer unchanged. *)
Theorem sata_identify_correct s O p h1 buffer fuel : request s O p p h1 buffer buffer block → port_in_time (hba s) 998 → (998 < fuel)%nat →
  wp ((if disc (hba s) is Some _ then sata_ahci_identify_satapi (machine_udelay delay) fuel else sata_ahci_identify (machine_udelay delay) fuel)
        (base (hba s)) buffer) (λ r s', r = 0 ∧ al_inv (heap s') O ∧
    if (latency (hba s) <=? 1000)%nat then buffer_filled (al_mem s) (al_mem s') O buffer (ident (hba s)) 0 block
    else preserved O (al_mem s) (al_mem s')) s.
Proof.
  intros HR Hin Hfuel. pose proof (called_apart _ _ _ _ (req_call _ _ _ _ _ _ _ _ HR)) as Hap.
  destruct (request_block _ _ _ _ _ _ _ _ HR) as (z0 & _ & Hfresh & _ & _ & _ & _ & _ & _ & Hclear & _ & Hbl).
  pose proof (req_bus _ _ _ _ _ _ _ _ HR) as (Ha & _). pose proof (req_maps _ _ _ _ _ _ _ _ HR) as (Hm1 & Hm2).
  set (command := if disc (hba s) is Some _ then 0xA1 else 0xEC).
  assert (0 <= command < 256) as Hc by (unfold command; destruct (disc (hba s)); lia).
  match goal with |- wp ?c ?Q s => enough (wp (ahci_identify (machine_udelay delay) fuel command (base (hba s)) buffer) Q s) as HE
    by (unfold command in HE; destruct (disc (hba s)); exact HE) end.
  apply (identify_prefix s O p h1); try done. intros z h k c HI Hz HB Hpr. apply wp_bind.
  unfold issued. set (R := phase (with_bases p (p + 1024) (hba s)) true true k 0).
  change (base (hba s)) with (base R). change (Z.to_nat SATA_WAIT_TIMEOUT) with 1000%nat.
  destruct (Nat.leb_spec (latency (hba s)) 1000) as [Hlat|Hlat].
  - apply wait_command; [lia|intros t j; by apply (goes_on_error _ Hdelay _ t (armed R j))|]. intros c1.
    pose proof (command_identify (armed R 0) p p (al_mem h) 5 command (p + 1280) buffer block ltac:(done) eq_refl Hc HB eq_refl) as Hcmd.
    destruct (finish_simple (armed R 0) p p (al_mem h) 5 command (p + 1280) buffer buffer (ident (hba s)) 0 block) as (m' & Hfin & Hdel); try done.
    { by destruct Hin. }
    eapply finish_delivered; [exact HI|exact Hz|exact Hfresh|exact Hfin|exact Hdel|exact Hbl|].
    intros h' HI' Hdel'. cbv beta iota. apply (leave_with_spec O p z); [done|done|]. intros h'' HI'' Hpr''. cbn [heap]. split; [done|]. split; [done|].
    by apply (delivered_filled O p (al_mem s) (al_mem h) (al_mem h') (al_mem h'')).
  - apply wait_command_late; [lia|intros t j; by apply (goes_on_error _ Hdelay _ t (armed R j))|]. intros c1. cbv beta iota.
    apply (leave_with_spec O p z); [done|done|]. intros h'' HI'' Hpr''. cbn [heap]. split; [done|]. split; [done|].
    intros x Hx. cbn [al_mem ahci_allocator heap]. rewrite Hpr'' by done. by apply Hpr.
Qed.

(** ** Packets *)

Lemma packet_issued O p z b bb h P c buffer len packet hhdm Q : al_inv h (<[p := z]> O) → sizeof_port_mem <= z → 0 < p → p + z < 2 ^ 64 →
  b = p - hhdm → 0 <= b → b + sizeof_port_mem < 2 ^ 64 → bb = buffer - hhdm → 0 <= bb < 2 ^ 64 →
  busy P = None → (settle P < 1000)%nat → (stopping P < 1000)%nat → 1 <= len <= 2 ^ 22 → length packet = 12%nat → Forall byte packet →
  (∀ h' k c', al_inv h' (<[p := z]> O) → simple_built (al_mem h') p (b + 1280) 37 0xA0 bb len →
     (∀ i v, packet !! i = Some v → load8 (al_mem h') (ct p + 64 + Z.of_nat i) = v) → off p sizeof_port_mem (al_mem h) (al_mem h') →
     Q true (mk_ahci h' (issued P b k) c')) →
  wp (issue_packet (machine_udelay delay) hhdm (base P) p buffer len packet) Q (mk_ahci h P c).
Proof.
  intros HI Hz Hp1 Hp2 Eb Hb0 Hb1 Ebb Hbb Hbusy Hset Hstop Hl Hlen Hby HQ. assert (sizeof_port_mem = 9472) as Hsz by done.
  unfold issue_packet, virt_phys, cl, rfis, ct.
  replace (p + 1024 - hhdm) with (b + 1024) by lia. replace (p + 1280 - hhdm) with (b + 1280) by lia. rewrite <- Eb, <- Ebb.
  rewrite !(wrap_small 64) by lia.
  apply wp_bind, (store_spec O p z); [done|done|by apply off_memset|]. intros h2 HI2 Hm2. cbv beta.
  apply wp_bind, set_bases_spec; [lia|lia|].
  remember (with_bases b (b + 1024) P) as PB eqn:EPB. assert (base P = base PB) as EB by (by rewrite EPB).
  assert (busy PB = None ∧ settle PB = settle P ∧ stopping PB = stopping P ∧ latency PB = latency P) as (HbB & HsB & HtB & HlB)
    by (rewrite EPB; split_and!; [exact Hbusy|reflexivity..]).
  rewrite EB. rewrite phase_state. change (Z.lor 1 (Z.shiftl 1 4)) with 17.
  apply wp_bind, (clear_bits_spec 999); [done|rewrite HtB; lia|rewrite HsB; lia|by right; right|]. intros k1 Hk1. cbv beta.
  change (Z.testbit 17 0) with true. change (Z.testbit 17 4) with true. cbn [negb]. rewrite !andb_false_r.
  change (Z.lor (Z.shiftl 1 14) (Z.shiftl 1 15)) with (2 ^ 14 + 2 ^ 15). change (Z.to_nat SATA_WAIT_TIMEOUT) with 1000%nat.
  apply wp_bind, wait_stopped; [by right; right|lia|intros t j Ht; by apply goes_on_wait|]. intros t c1 Ht. cbv beta iota.
  destruct t as [|t|]; [lia| |lia].
  destruct (build_packet_spec (al_mem h2) p (b + 1280) bb len packet) as (HB & HB2 & HBo); [lia|lia|lia|lia|done|done|done|].
  apply wp_bind, (store_spec O p z); [done|done|done|]. intros h3 HI3 Hm3. cbv beta.
  apply wp_bind, reg_write_spec; [done|].
  assert (write_reg PxIS (u32 (2 ^ 32 - 1)) (phase PB false false 0 (is_ PB)) = phase PB false false 0 0) as ->.
  { unfold write_reg, PxCLB, PxCLBU, PxFB, PxFBU, PxIS. cbn [Z.eqb Pos.eqb]. change (cnot 32 (u32 (2 ^ 32 - 1))) with 0. by rewrite Z.land_0_r. }
  apply wp_bind, reg_write_spec; [done|]. change (write_reg PxSERR ?v ?q) with q. change (Z.shiftl 1 4) with 16.
  apply wp_bind, set_bits_spec; [by right; left|]. intros k2 Hk2. change (false || Z.testbit 16 0) with false. change (false || Z.testbit 16 4) with true.
  apply wp_bind, set_bits_spec; [by left|]. intros k3 Hk3. change (false || Z.testbit 1 0) with true. change (true || Z.testbit 1 4) with true.
  apply wp_bind, (issue_spec false); [done|]. rewrite HlB. subst PB. apply wp_ret.
  apply (HQ h3 k3); [done|by rewrite Hm3|rewrite Hm3; exact HB2|]. rewrite Hm3. eapply off_trans; [|exact HBo]. rewrite Hm2. by apply off_memset.
Qed.

Lemma ci_idle T body P h c Q : busy P = None → Q (Left (Z.of_nat T)) (mk_ahci h P c) → wp (wait_while T (base P + PxCI) 1 body) Q (mk_ahci h P c).
Proof.
  intros Hb HQ. assert (wp (reg_read (base P + PxCI)) (λ v s, v = 0 ∧ s = mk_ahci h P c) (mk_ahci h P c)) as Hread.
  { apply reg_read_spec; [done|..]; unfold read_reg, PxCLB, PxCLBU, PxFB, PxFBU, PxIS, PxCMD, PxTFD, PxSIG, PxSSTS, PxCI;
      cbn [Z.eqb Pos.eqb]; unfold poll_command; cbn [SataHba.hba]; rewrite Hb; cbn [fst snd]; [lia|done]. }
  destruct T; cbn [wait_while]; apply wp_bind; (eapply wp_mono; [exact Hread|]); intros v s [-> ->];
    change (truthy (Z.land 0 1)) with false; cbv iota; by apply wp_ret.
Qed.

Lemma read10_stack stack lba count : length stack = 12%nat → build_read10_atapi_cmd stack lba count = build_read10_atapi_cmd (replicate 12 0) lba count.
Proof. intros Hs. do 12 (destruct stack as [|? stack]; [discriminate|]). by destruct stack. Qed.

(** What a call on an optical drive is given. *)
Record packet_request s (O : gmap Z Z) (p : Z) (h1 : H) (hhdm buffer len last : Z) : Prop := {
  pr_request : request s O p (p - hhdm) h1 buffer (buffer - hhdm) len;
  pr_direct : 0 <= buffer - hhdm < 2 ^ 64;
  pr_disc : disc (hba s) = Some last;
  pr_in_time : port_in_time (hba s) 1000
}.

Lemma sata_packet_read_spec s O p h1 hhdm last lba count buffer stack : packet_request s O p h1 hhdm buffer (count * disc_block) last →
  0 <= lba < 2 ^ 32 → 1 <= count <= 2048 → length stack = 12%nat → Z.of_nat (latency (hba s)) < poll_limit count →
  wp (sata_ahci_read_sector_satapi (machine_udelay delay) hhdm stack (base (hba s)) lba count buffer) (λ r s', r = 0 ∧ al_inv (heap s') O ∧
    buffer_filled (al_mem s) (al_mem s') O buffer (disk (hba s)) (lba * disc_block) (count * disc_block)) s.
Proof.
  intros [HR Hdir Hdisc (Hf & Hset & Hstop)] Hl Hc Hs Hlat. pose proof (called_apart _ _ _ _ (req_call _ _ _ _ _ _ _ _ HR)) as Hap.
  destruct (request_block _ _ _ _ _ _ _ _ HR) as (z & Hz & Hfresh & HI1 & Hpr & Hp1 & Hp2 & Hb1 & Hb2 & Hclear & _ & Hbl).
  destruct HR as [[_ Hm Hp Hbusy] (Ha & Hb3 & Hb4) _ [Hm1 Hm2]].
  assert (disc_block = 2048 ∧ sizeof_port_mem = 9472) as [Hdb Hsz] by done.
  destruct s as [h0 P c0]. cbn [heap hba] in *. unfold sata_ahci_read_sector_satapi.
  rewrite (proj2 (Z.eqb_neq buffer 0)), (proj2 (Z.eqb_neq count 0)) by lia. cbn [orb].
  apply wp_bind. unfold malloc. cbn [al_malloc ahci_allocator]. unfold on_heap. apply wp_zoom. unfold wp at 1. cbn [heap hba clock]. rewrite Hm.
  rewrite (proj2 (Z.eqb_neq p 0)) by done. rewrite read10_stack by done.
  rewrite (wrap_small 32 (count * 2048)) by lia.
  apply wp_bind, (packet_issued O p z (p - hhdm) (buffer - hhdm)); try done; [lia|rewrite read10_packet; repeat constructor; (apply byte_land || done)|].
  intros h k c HI HB Hpk Ho. cbn [negb]. apply wp_bind. unfold issued. set (R := phase (with_bases (p - hhdm) (p - hhdm + 1024) P) true true k 0).
  change (base P) with (base R). unfold poll_limit, SATA_WAIT_TIMEOUT, SATA_WAIT_TIMEOUT_PER_SECTOR in *. set (T := Z.to_nat _).
  apply wait_command; [lia|intros t j; by apply (goes_on_error _ Hdelay _ t (armed R j))|]. intros c1.
  assert (packet_data (armed R 0) last (build_read10_atapi_cmd (replicate 12 0) lba count) = Some (disk P, lba * disc_block, count * disc_block)) as Hpd.
  { rewrite read10_packet. unfold packet_data. cbn [Z.eqb Pos.eqb]. destruct (read10_fields lba count Hl ltac:(lia)) as [-> ->]. done. }
  pose proof (command_packet (armed R 0) (p - hhdm) p (al_mem h) last _ _ _ _ _ ltac:(done) Hdisc HB Hpk eq_refl Hpd) as Hcmd.
  destruct (finish_simple (armed R 0) (p - hhdm) p (al_mem h) 37 0xA0 (p - hhdm + 1280) (buffer - hhdm) buffer (disk P) (lba * disc_block) (count * disc_block))
    as (m' & Hfin & Hdel); try done; [unfold disc_block; lia|].
  eapply finish_delivered; [exact HI|exact Hz|exact Hfresh|exact Hfin|exact Hdel|exact Hbl|].
  intros h' HI' Hdel'. cbv beta. assert (∃ t, Z.of_nat (T - latency P) = Z.pos t) as [t ->].
  { destruct (Z.of_nat (T - latency P)) eqn:E; [lia|by eexists|lia]. }
  apply wp_bind. set (R' := set_is _ _). change (base R) with (base R'). apply ci_idle; [done|]. cbv beta.
  apply (leave_with_spec O p z); [done|done|]. intros h'' HI'' Hpr''. cbn [heap]. split; [done|]. split; [done|].
  apply (delivered_filled O p (al_mem h0) (al_mem h) (al_mem h') (al_mem h'')); try done.
  intros x Hx. rewrite (off_preserved O p _ _ Hap Ho x Hx). by apply Hpr.
Qed.

(** ** The capacity *)

Lemma live_insert O p z x : O !! p = None → live O x → live (<[p := z]> O) x.
Proof. intros Hp (q & n & Hq & Hx). exists q, n. split; [|done]. rewrite lookup_insert_ne; [done|congruence]. Qed.

Lemma buffer_store O f buffer len P h c Q : al_inv h O → (∀ x, buffer <= x < buffer + len → live O x) → off buffer len (al_mem h) (f (al_mem h)) →
  (∀ h', al_inv h' O → al_mem h' = f (al_mem h) → Q tt (mk_ahci h' P c)) → wp (al_store f) Q (mk_ahci h P c).
Proof.
  intros HI Hl Hf HQ. cbn [al_store ahci_allocator]. unfold on_heap. apply wp_zoom.
  eapply wp_mono; [apply (al_store_law h O f HI)|intros [] h' [HI' Hm]; by apply HQ].
  intros x Hx. apply Hf. destruct (Z.lt_ge_cases x buffer); [by left|right]. destruct (Z.lt_ge_cases x (buffer + len)); [|done].
  exfalso. apply Hx, Hl. lia.
Qed.

(** The two byte-swapped words. *)
Lemma swapped_words m buf : let m1 := store32 m (buf + 4) (be32toh (load32 m (buf + 4))) in let m2 := store32 m1 buf (be32toh (load32 m1 buf)) in
  load32 m2 buf = load_be 4 m buf ∧ load32 m2 (buf + 4) = load_be 4 m (buf + 4) ∧ off buf 8 m m1 ∧ off buf 8 m1 m2.
Proof.
  cbv zeta. rewrite !be32toh_bytes. set (m1 := store32 m (buf + 4) _).
  assert (load_be 4 m1 buf = load_be 4 m buf) as -> by (apply load_be_ext; intros i Hi; apply load8_storen_out; lia). split_and!.
  - rewrite loadn_storen_eq. apply Z.mod_small, load_be_range.
  - rewrite loadn_storen_ne by lia. unfold m1. rewrite loadn_storen_eq. apply Z.mod_small, load_be_range.
  - intros x Hx. apply load8_storen_out. lia.
  - intros x Hx. apply load8_storen_out. lia.
Qed.

(** The answer to READ CAPACITY. *)
Definition capacity_answer (last : Z) : gmap Z Z := map_bytes (bytes_of 4 last ++ bytes_of 4 disc_block).
Lemma capacity_fields last : 0 <= last < 2 ^ 32 → load_be 4 (capacity_answer last) 0 = last ∧ load_be 4 (capacity_answer last) 4 = disc_block.
Proof.
  intros Hl. destruct (map_bytes8 (last / 2 ^ 24 mod 256) (last / 2 ^ 16 mod 256) (last / 2 ^ 8 mod 256) (last / 2 ^ 0 mod 256) 0 0 8 0) as [E1 E2].
  { repeat constructor; try done; by apply Z.mod_pos_bound. }
  split; [|exact E2]. etransitivity; [exact E1|exact (be_bytes_of last Hl)].
Qed.
Lemma capacity_packet stack : length stack = 12%nat → Forall byte stack →
  ∃ x y, build_read_capacity_atapi_cmd stack = [0x25; 0; 0; 0; 0; 0; 0; 0; 0; 0; x; y] ∧ byte x ∧ byte y.
Proof.
  intros Hs HF. do 12 (destruct stack as [|? stack]; [discriminate|]). destruct stack; [|done].
  rewrite !Forall_cons_iff in HF. eexists _, _. split; [reflexivity|]. tauto.
Qed.

(** The capacity structure holds the drive's answer in the machine's byte order,
    whatever the two bytes of the packet the code does not initialise are. *)
Theorem sata_capacity_correct s O p h1 hhdm last buffer stack : packet_request s O p h1 hhdm buffer capability_size last →
  0 <= last < 2 ^ 32 → length stack = 12%nat → Forall byte stack → (latency (hba s) < 1000)%nat →
  wp (sata_ahci_identify_satapi_properly (machine_udelay delay) hhdm stack (base (hba s)) buffer) (λ r s', r = 0 ∧ al_inv (heap s') O ∧
    load32 (al_mem s') buffer = last ∧ load32 (al_mem s') (buffer + 4) = disc_block ∧
    ∀ x, live O x → ¬ (buffer <= x < buffer + 8) → load8 (al_mem s') x = load8 (al_mem s) x) s.
Proof.
  intros [HR Hdir Hdisc (Hf & Hset & Hstop)] Hl Hs HF Hlat. pose proof (called_apart _ _ _ _ (req_call _ _ _ _ _ _ _ _ HR)) as Hap.
  destruct (request_block _ _ _ _ _ _ _ _ HR) as (z & Hz & Hfresh & HI1 & Hpr & Hp1 & Hp2 & Hb1 & Hb2 & Hclear & _ & Hbl).
  destruct HR as [[_ Hm Hp Hbusy] (Ha & Hb3 & Hb4) _ [Hm1 Hm2]]. change capability_size with 8 in *.
  destruct s as [h0 P c0]. cbn [heap hba] in *. unfold sata_ahci_identify_satapi_properly. rewrite (proj2 (Z.eqb_neq buffer 0)) by lia.
  apply wp_bind. unfold malloc. cbn [al_malloc ahci_allocator]. unfold on_heap. apply wp_zoom. unfold wp at 1. cbn [heap hba clock]. rewrite Hm.
  rewrite (proj2 (Z.eqb_neq p 0)) by done. destruct (capacity_packet stack Hs HF) as (x & y & -> & Hx & Hy).
  apply wp_bind, (packet_issued O p z (p - hhdm) (buffer - hhdm)); try done; [do 12 (constructor; [first [assumption|by vm_compute]|]); constructor|].
  intros h k c HI HB Hpk Ho. cbn [negb]. apply wp_bind. unfold issued. set (R := phase (with_bases (p - hhdm) (p - hhdm + 1024) P) true true k 0).
  change (base P) with (base R). change (Z.to_nat SATA_WAIT_TIMEOUT) with 1000%nat.
  change (latency P) with (latency R) in *. apply wait_command; [lia|intros t j; by apply goes_on_wait|]. intros c1.
  pose proof (command_packet (armed R 0) (p - hhdm) p (al_mem h) last _ _ _ _ _ ltac:(done) Hdisc HB Hpk eq_refl eq_refl) as Hcmd.
  destruct (finish_simple (armed R 0) (p - hhdm) p (al_mem h) 37 0xA0 (p - hhdm + 1280) (buffer - hhdm) buffer (capacity_answer last) 0 8)
    as (m' & Hfin & Hdel); try done.
  eapply finish_delivered; [exact HI|exact Hz|exact Hfresh|exact Hfin|exact Hdel|exact Hbl|].
  intros h' HI' [Hin Hout]. cbv beta. assert (∃ t, Z.of_nat (1000 - latency R) = Z.pos t) as [t ->].
  { destruct (Z.of_nat (1000 - latency R)) eqn:E; [lia|by eexists|lia]. }
  destruct (swapped_words (al_mem h') buffer) as (W1 & W2 & W3 & W4). destruct (capacity_fields last Hl) as [F1 F2].
  assert (∀ x, buffer <= x < buffer + 8 → live (<[p := z]> O) x) as Hbl' by (intros; by apply live_insert, Hbl).
  apply wp_bind, (buffer_store (<[p := z]> O) _ buffer 8); [done|done|exact W3|]. intros h2 HI2 E2. cbv beta. rewrite <- E2 in W1, W2, W3, W4.
  apply wp_bind, (buffer_store (<[p := z]> O) _ buffer 8); [done|done|exact W4|]. intros h3 HI3 E3. cbv beta. rewrite <- E3 in W1, W2, W4.
  apply (leave_with_spec O p z); [done|done|]. intros h'' HI'' Hpr''. cbn [heap al_mem ahci_allocator]. split; [done|]. split; [done|].
  assert (∀ a, buffer <= a → a + 4 <= buffer + 8 → load32 (al_mem h'') a = load32 (al_mem h3) a) as Hend.
  { intros a Ha1 Ha2. apply loadn_ext. intros i Hi. apply Hpr'', Hbl. lia. }
  rewrite !Hend, W1, W2 by lia. split_and!.
  - rewrite (load_be_ext 4 _ (capacity_answer last) buffer 0); [exact F1|]. intros i Hi. apply Hin. lia.
  - rewrite (load_be_ext 4 _ (capacity_answer last) (buffer + 4) 4); [exact F2|]. intros i Hi. rewrite <- Z.add_assoc. apply Hin. lia.
  - intros a Ha1 Ha2. rewrite Hpr'' by done. rewrite W4, W3 by lia. rewrite Hout; [|done|by apply Hap].
    rewrite (off_preserved O p _ _ Hap Ho a Ha1). by apply Hpr.
Qed.
End run.
