(* ===== verification/SataDemo.v ===== *)
(** * The AHCI driver on a concrete machine

    A small TLSF heap whose next block of the driver's size is aligned as the
    adapter needs it, a drive, and the theorems of [SataRun] and [SataPacket] on
    it; and the reads whose scatter list leaves the driver's block. *)

From stdpp Require Import prelude gmap list numbers tactics.
From S2P Require Import Prelude Memory TlsfBits Tlsf TlsfInv TlsfOps TlsfMerge TlsfMain TlsfInit KHeap TlsfProps Io Arith Ata AtaDisk Atapi Sata SataHba SataProps SataRun SataPacket.

(** ** Reads that are too long *)

(** From 8065 sectors on the last entry of the scatter list lies behind the
    9472 bytes the driver allocated, and is written there. *)
Theorem sata_read_overruns m p lba count buffer : 0 <= p → 0 <= buffer → buffer + 512 * count + 8192 < 2 ^ 64 → 8064 < count < 2 ^ 16 →
  p + sizeof_port_mem <= prdt_entry (ct p) (entries count - 1) ∧
  load64 (build_read m p lba count buffer) (prdt_entry (ct p) (entries count - 1)) = buffer + 8192 * (entries count - 1).
Proof.
  intros Hp Hb Hroom Hc. assert (504 < entries count <= 4096 ∧ 16 * (entries count - 1) < count <= 16 * entries count) as [He Hec] by (unfold entries; zlia).
  split; [unfold sizeof_port_mem, prdt_entry, ct; lia|].
  unfold build_read, prdt_entries. fold (entries count). rewrite (proj2 (Z.ltb_ge 65535 (entries count))) by lia. cbv zeta.
  match goal with |- context [fill_prdt ?n ?m ?t ?i ?b ?r] => destruct (fill_prdt_spec n m t i b r) as [_ HE]; [lia..|]; set (m5 := fill_prdt n m t i b r) in * end.
  unfold read_fis, start_fis. cbv zeta. rewrite !loadn_store8_ne by (unfold prdt_entry; lia).
  rewrite (off_loadn (ct p) 20 m5 _ 8 _ (off_memset m5 (ct p) 0 sizeof_fis ltac:(done))) by (unfold prdt_entry; lia).
  specialize (HE (entries count - 1) ltac:(lia)). by destruct HE as [HE _].
Qed.
Lemma sata_read_overruns_witness :
  let m := build_read ∅ 0x100000 0 8065 0x200000 in load64 m (prdt_entry (ct 0x100000) 504) = 0x200000 + 8192 * 504.
Proof. apply (sata_read_overruns ∅ 0x100000 0 8065 0x200000); lia. Defined.

(** ** The machine *)

Definition disk_heap0 : tlsf_state := run (tlsf_create_with_pool 4712 40000) empty_state.
Definition disk_heap : tlsf_state := run (tlsf_malloc 2048) disk_heap0.
Definition driver_heap : tlsf_state := run (tlsf_malloc sizeof_port_mem) disk_heap.

Lemma disk_heap_ok : ∃ z, 2048 <= z ∧ refines disk_heap {[11256 := z]}.
Proof.
  assert (refines disk_heap0 ∅) as H0.
  { assert (wp (tlsf_create_with_pool 4712 40000) (λ r s', r = 4712 ∧ control s' = 4712 ∧ heap_ok s' (boot_map 4712 40000)) empty_state) as H.
    { apply tlsf_create_with_pool_spec; [lia|done|lia|]. change tlsf_size with 6536. lia. }
    apply (wp_run_state _ _ _ 0) in H as (_ & _ & H). exists (boot_map 4712 40000). split; [exact H|].
    intros p n. split; [discriminate|]. intros Ho. by apply boot_map_unowned in Ho. }
  pose proof (wp_run_state (tlsf_malloc 2048) _ disk_heap0 0 (refines_malloc disk_heap0 ∅ 2048 H0 ltac:(lia))) as Hw.
  assert (result 0 (tlsf_malloc 2048) disk_heap0 = 11256) as E by (vm_compute; reflexivity). rewrite E in Hw. clear E.
  destruct Hw as [[E0 _]|(_ & z & Hz & _ & HI & _)]; [discriminate E0|]. exists z. split; [exact Hz|exact HI].
Qed.
Lemma driver_heap_ok : tlsf_malloc sizeof_port_mem disk_heap = Some (13312, driver_heap).
Proof. vm_compute. reflexivity. Qed.

Definition no_delay (us : Z) : M unit unit := mret tt.
Lemma no_delay_delays : delays no_delay.
Proof. intros us c. by exists c. Qed.

(** A running port that takes 5 polls to stop; bus addresses are [hhdm] below
    memory addresses. *)
Definition port_demo (hhdm : Z) (latency : nat) (fault : bool) (disc : option Z) : port :=
  mk_port 0xF0000100 (λ a, a + hhdm) 5 latency fault 0x101 (store16 ∅ 0 0x0C5A) disc (store16 ∅ (3 * 512) 0xAA55) 0 0 0 true true 0 None.
Definition disk_machine (hhdm : Z) (latency : nat) (fault : bool) (disc : option Z) : ahci tlsf_state unit :=
  mk_ahci disk_heap (port_demo hhdm latency fault disc) tt.

Lemma disk_machine_called hhdm latency fault disc : ∃ O z, 2048 <= z ∧ O = {[11256 := z]} ∧
  called (disk_machine hhdm latency fault disc) O 13312 driver_heap.
Proof.
  destruct disk_heap_ok as (z & Hz & HO). exists {[11256 := z]}, z. split; [exact Hz|]. split; [done|].
  split; [exact HO|exact driver_heap_ok|done|done].
Qed.
Lemma disk_machine_request hhdm latency fault disc len : hhdm mod 1024 = 0 → 0 <= hhdm <= 8192 → 0 <= len <= 2048 →
  ∃ O, request (disk_machine hhdm latency fault disc) O 13312 (13312 - hhdm) driver_heap 11256 (11256 - hhdm) len.
Proof.
  intros Hh Hr Hl. destruct (disk_machine_called hhdm latency fault disc) as (O & z & Hz & -> & HC). exists {[11256 := z]}. split.
  - exact HC.
  - unfold sizeof_port_mem. split; [zlia|lia].
  - exists 11256, z. rewrite lookup_singleton_eq. split; [done|lia].
  - split; intros i Hi; cbn; lia.
Qed.
Lemma disk_machine_read hhdm latency fault lba : hhdm = 0 → 0 <= lba < 2 ^ 48 →
  ∃ O, read_request (disk_machine hhdm latency fault None) O 13312 driver_heap lba 2 11256.
Proof.
  intros -> Hl. destruct (disk_machine_request 0 latency fault None 1024) as [O HR]; [done|lia|lia|]. exists O.
  split; [exact HR|done|]. unfold range_ok, block. lia.
Qed.

Abbreviation udelay_demo := (machine_udelay no_delay).

(** A drive that fails, and one that is too slow to be waited for. *)
Lemma sata_read_failed_witness : ∃ O,
  wp (sata_ahci_read_sector udelay_demo 1001 0xF0000100 3 2 11256) (λ r s', r = 8 ∧ untouched (disk_machine 0 7 true None) O s') (disk_machine 0 7 true None).
Proof.
  destruct (disk_machine_read 0 7 true 3) as [O HR]; [done|lia|]. exists O.
  apply (sata_read_failed no_delay no_delay_delays _ O 13312 driver_heap 3 2 11256 1001 HR).
  1: done. 1, 2, 3: cbn; lia. vm_compute; reflexivity.
Defined.
Lemma sata_read_timeout_missed_witness : ∃ O,
  wp (sata_ahci_read_sector udelay_demo 1001 0xF0000100 3 2 11256) (λ r s', r = 0 ∧ untouched (disk_machine 0 1600 false None) O s' ∧
    busy (hba s') = Some 99%nat) (disk_machine 0 1600 false None).
Proof.
  destruct (disk_machine_called 0 1600 false None) as (O & z & _ & _ & HC). exists O.
  eapply wp_mono; [apply (sata_read_timeout_missed no_delay no_delay_delays _ O 13312 driver_heap 3 2 11256 1001 HC)|].
  1: unfold range_ok, block; lia. 1, 2, 3: cbn; lia. 1: vm_compute; reflexivity.
  intros r s' (-> & HU & ->). split; [done|]. split; [exact HU|]. vm_compute. reflexivity.
Defined.

(** A port whose engine takes 2000 polls to stop. *)
Definition stuck_machine : ahci tlsf_state unit :=
  mk_ahci disk_heap (mk_port 0xF0000100 (λ a, a) 2000 7 false 0x101 ∅ None ∅ 0 0 0 true true 0 None) tt.
Lemma sata_read_engine_stuck_witness : ∃ O,
  wp (sata_ahci_read_sector udelay_demo 1001 0xF0000100 3 2 11256) (λ r s', r = 6 ∧ untouched stuck_machine O s' ∧
    st (hba s') = false ∧ fre (hba s') = false ∧ busy (hba s') = None) stuck_machine.
Proof.
  destruct disk_heap_ok as (z & Hz & HO). exists {[11256 := z]}.
  apply (sata_read_engine_stuck no_delay no_delay_delays stuck_machine {[11256 := z]} 13312 driver_heap 3 2 11256 1001); [|done|cbn; lia].
  split; [exact HO|exact driver_heap_ok|done|done].
Defined.

(** The command for sectors 3 to 39: two whole entries and one for five
    sectors. *)
Lemma sata_read_command_witness : let m' := build_read ∅ 0xFFFFFFFF80105008 3 37 0x5000 in
  load16 m' 0xFFFFFFFF8010500A = 3 ∧ load32 m' (0xFFFFFFFF80105008 + 1408 + 32 + 12) mod 2 ^ 22 + 1 = 5 * 512.
Proof.
  intros m'. destruct (sata_read_command ∅ 0xFFFFFFFF80105008 3 37 0x5000) as (_ & E & _ & _ & _ & _ & _ & _ & _ & HE & _); [lia..|].
  split; [exact E|]. destruct (HE 2 ltac:(vm_compute; split; [discriminate|reflexivity])) as [_ E2]. exact E2.
Defined.
Lemma sata_packet_command_witness :
  let m' := build_packet ∅ 0xFFFF800000100008 (virt_phys 0xFFFF800000000000 (ct 0xFFFF800000100008)) (virt_phys 0xFFFF800000000000 0xFFFF800000200000)
    (u32 (2 * 2048)) (build_read10_atapi_cmd [1; 2; 3; 4; 5; 6; 7; 8; 9; 10; 11; 12] 16 2) in
  load64 m' 0xFFFF800000100010 = 0x100508 ∧ load64 m' (0xFFFF800000100008 + 1408) = 0x200000.
Proof.
  intros m'. destruct (sata_packet_command ∅ 0xFFFF800000100008 0xFFFF800000000000 16 2 0xFFFF800000200000 [1; 2; 3; 4; 5; 6; 7; 8; 9; 10; 11; 12])
    as (_ & _ & E1 & _ & _ & _ & _ & _ & _ & _ & _ & _ & E2 & _); [lia|lia|lia|lia|done|].
  split; [etransitivity; [exact E1|vm_compute; reflexivity]|etransitivity; [exact E2|vm_compute; reflexivity]].
Defined.

Lemma sata_identify_correct_witness : ∃ O,
  wp (sata_ahci_identify udelay_demo 999 0xF0000100 11256) (λ r s', r = 0 ∧ al_inv (heap s') O ∧
    load8 (al_mem s') 11256 = 0x5A ∧ load8 (al_mem s') 11257 = 0x0C) (disk_machine 0 7 false None).
Proof.
  destruct (disk_machine_request 0 7 false None block) as [O HR]; [done|lia|unfold block; lia|]. exists O.
  eapply wp_mono; [apply (sata_identify_correct no_delay no_delay_delays _ O 13312 driver_heap 11256 999 HR)|].
  - split_and!; [done|cbn; lia..].
  - lia.
  - intros r s' (-> & HI & Hin & _). split; [done|]. split; [done|].
    split; [exact (Hin 0 ltac:(unfold block; lia))|exact (Hin 1 ltac:(unfold block; lia))].
Defined.

(** An optical drive behind a direct map at 2048: its block 0 holds sector 3's
    word at offset 1536. *)
Lemma disc_machine_request len : 0 <= len <= 2048 →
  ∃ O, packet_request (disk_machine 2048 7 false (Some 332799)) O 13312 driver_heap 2048 11256 len 332799.
Proof.
  intros Hl. destruct (disk_machine_request 2048 7 false (Some 332799) len) as [O HR]; [done|lia|lia|]. exists O.
  split; [exact HR|lia|done|split_and!; [done|cbn; lia..]].
Qed.
Lemma sata_capacity_correct_witness : ∃ O,
  wp (sata_ahci_identify_satapi_properly udelay_demo 2048 [1; 2; 3; 4; 5; 6; 7; 8; 9; 10; 11; 12] 0xF0000100 11256) (λ r s', r = 0 ∧ al_inv (heap s') O ∧
    load32 (al_mem s') 11256 = 332799 ∧ load32 (al_mem s') 11260 = 2048) (disk_machine 2048 7 false (Some 332799)).
Proof.
  destruct (disc_machine_request 8) as [O HR]; [lia|]. exists O.
  eapply wp_mono; [apply (sata_capacity_correct no_delay no_delay_delays _ O 13312 driver_heap 2048 332799 11256 _ HR)|].
  - lia.
  - done.
  - apply (bool_decide_unpack _). vm_compute. exact I.
  - cbn. lia.
  - intros r s' (-> & HI & H0 & H4 & _). done.
Defined.
