(* ===== verification/Storage.v ===== *)
(** * The storage manager ([drivers/storage/storage.c], [stinit.c])

    [drive_read] dispatches on the type letter of a device structure in memory;
    [storage_init] probes the two ATA channels and registers what answers.  The
    state joins the PIO channel of [Ata] and the AHCI machine of [Sata]: they
    share the memory.

    [storage.h] and [stinit.h] both define [storage_device_t], with different
    layouts; each file sees its own. *)

From stdpp Require Import prelude gmap list numbers tactics.
From S2P Require Import Prelude Memory Io KHeap Ata Atapi Sata.

(** [storage.h]: the letter, the union at 8, the sector size behind it. *)
Definition type_identifier (m : gmap Z Z) (dev : Z) : Z := load8 m dev.
Definition sata_port_base (m : gmap Z Z) (dev : Z) : Z := load64 m (dev + 8).
Definition pata_drive_number (m : gmap Z Z) (dev : Z) : Z := load8 m (dev + 8).
Definition pata_pmio_base (m : gmap Z Z) (dev : Z) : Z := load16 m (dev + 12).
Definition device_sector_size (m : gmap Z Z) (dev : Z) : Z := load32 m (dev + 32).

(** [stinit.h]. *)
Record storage_device := mk_device { device_type : Z; device_data : Z; sector_size : Z }.
Definition sizeof_storage_device : Z := 24.
Definition put_device (m : gmap Z Z) (a : Z) (d : storage_device) : gmap Z Z :=
  store64 (store64 (store8 m a (device_type d)) (a + 8) (device_data d)) (a + 16) (sector_size d).
Definition MAX_STORAGE_DEVICES : Z := 1028.

Record storage (D S : Type) := mk_storage {
  pio : D; pio_status : Z; pio_error : Z;       (* the ATA channel, [ata_status], [ata_error] *)
  host : S;                                     (* memory, heap and AHCI registers *)
  storage_devices : list storage_device;        (* the first [storage_device_count] elements *)
  sata_temp_devices : list storage_device       (* the first [sata_temp_count] elements *)
}.
Arguments mk_storage {D S}. Arguments pio {D S}. Arguments pio_status {D S}. Arguments pio_error {D S}.
Arguments host {D S}. Arguments storage_devices {D S}. Arguments sata_temp_devices {D S}.

Section storage.
Context {D S : Type} `{Bus D} `{Bus S} `{Allocator S}.
Context (udelay : Z → M S unit) (hhdm_offset : Z) (fuel : nat) (stack : list Z).
Abbreviation T := (M (storage D S)).
Implicit Types s : storage D S.

Definition on_host {A} (c : M S A) : T A :=
  zoom host (λ h s, mk_storage (pio s) (pio_status s) (pio_error s) h (storage_devices s) (sata_temp_devices s)) c.
(** The PIO driver works on the same memory. *)
Definition channel s : ata_state D := mk_ata (pio s) (al_mem (host s)) (pio_status s) (pio_error s).
Definition on_ata {A} (c : M (ata_state D) A) : T A := λ s,
  match c (channel s) with
  | Some (a, t) =>
    match al_store (λ _, mem t) (host s) with
    | Some (_, h) => Some (a, mk_storage (dev t) (ata_status t) (ata_error t) h (storage_devices s) (sata_temp_devices s))
    | None => None
    end
  | None => None
  end.
Definition memory : T (gmap Z Z) := gets (λ s, al_mem (host s)).

Definition drive_read (device lba sector_count buf : Z) : T Z :=
  m ← memory;
  let type := type_identifier m device in
  let drive := pata_drive_number m device in
  let size := device_sector_size m device in
  if type =? 80 (* P *) then on_ata (ata_read_sector_auto lba (u16 sector_count) buf drive (u16 size))
  else if type =? 81 (* Q *) then on_ata (atapi_read_sector (u32 lba) (u16 sector_count) buf drive size)
  else if type =? 112 (* p *) then
    on_ata (ata_read_sector_semiauto lba (u16 sector_count) buf (pata_pmio_base m device) drive (u16 size))
  else if type =? 113 (* q *) then
    on_ata (atapi_read_sector_manual (u32 lba) (u16 sector_count) buf drive (pata_pmio_base m device) size)
  else if type =? 83 (* S *) then
    on_host (sata_ahci_read_sector udelay fuel (sata_port_base m device) lba (u16 sector_count) buf)
  else if type =? 84 (* T *) then
    on_host (sata_ahci_read_sector_satapi udelay hhdm_offset stack (sata_port_base m device) (u32 lba) (u16 sector_count) buf)
  else mret 9.

(** ** Registration *)

Definition set_devices (l : list storage_device) : T unit :=
  modify (λ s, mk_storage (pio s) (pio_status s) (pio_error s) (host s) l (sata_temp_devices s)).
Definition set_temp (l : list storage_device) : T unit :=
  modify (λ s, mk_storage (pio s) (pio_status s) (pio_error s) (host s) (storage_devices s) l).
Definition sata_init : T unit := set_temp [mk_device 83 0 512].
Definition register_device (dev : storage_device) : T unit :=
  l ← gets storage_devices;
  if MAX_STORAGE_DEVICES <=? Z.of_nat (length l) then mret tt
  else set_devices (l ++ [dev]);; sata_init.

(** [device_data = malloc(n); memcpy(device_data, src, n);] *)
Definition keep_data (src n : Z) : T Z :=
  p ← on_host (malloc n);
  massert (truthy p);;
  on_host (al_store (λ m, memcpy m p src n));;
  mret p.
Definition probe_ata (identify_data drive : Z) : T unit :=
  r ← on_ata (identify_ata drive identify_data);
  mwhen (negb (truthy r)) (p ← keep_data identify_data 512; register_device (mk_device 80 p 512)).
Definition probe_atapi (buffer drive : Z) : T unit :=
  r ← on_ata (identify_atapi_useful buffer drive);
  mwhen (negb (truthy r)) (
    m ← memory;
    p ← keep_data buffer capability_size;
    register_device (mk_device 81 p (load32 m (buffer + 4)))).
(** [for (i = 0; i < sata_temp_count; i++) register_device(sata_temp_devices[i]);] *)
Fixpoint register_temp (n : nat) (i : nat) : T unit :=
  match n with
  | O => mstop
  | Datatypes.S n =>
    l ← gets sata_temp_devices;
    match l !! i with
    | Some d => register_device d;; register_temp n (Datatypes.S i)
    | None => mret tt
    end
  end.
(** [identify_data] and [buffer] are the places of two locals. *)
Definition storage_init (identify_data buffer : Z) : T unit :=
  probe_ata identify_data 0;; probe_ata identify_data 1;;
  probe_atapi buffer 0;; probe_atapi buffer 1;;
  register_temp fuel 0.
End storage.
