(* ===== verification/StorageProps.v ===== *)
(** * Reads through the storage manager

    One abstract block device and its PIO implementations: [backs] says that the
    device structure a caller passes stands for a drive that holds [src], and
    [drive_read_correct] that the read delivers its sectors.  The rest is about
    registration, and about the two layouts of the device structure. *)

From stdpp Require Import prelude gmap list numbers tactics.
From S2P Require Import Prelude Memory Tlsf TlsfBits KHeap TlsfProps Io Ata AtaDisk AtaProps Atapi Sata SataHba SataProps SataRun SataDemo Storage.

(** ** The AHCI machine's memory is an allocator's *)

#[export] Instance ahci_allocator_laws {H C} `{AllocatorLaws H} : AllocatorLaws (ahci H C).
Proof.
  refine {| al_inv s O := al_inv (heap s) O |}.
  - intros s O p n. apply al_geom.
  - intros s O p n q m. apply al_disjoint.
  - intros s O n HI Hn. apply wp_zoom. eapply wp_mono; [by apply (al_malloc_law (heap s) O n)|].
    intros p h [[-> ->]|Hp]; [left; by destruct s|by right].
  - intros s O p n HI Hp. apply wp_zoom. eapply wp_mono; [by apply (al_free_law (heap s) O p n)|]. done.
  - intros s O p n size HI Hp Hs. apply wp_zoom. eapply wp_mono; [by apply (al_realloc_law (heap s) O p n size)|].
    intros r h [[-> ->]|Hr]; [left; by destruct s|by right].
  - intros s O HI. apply wp_zoom. eapply wp_mono; [by apply (al_free_null_law (heap s) O)|]. intros u h ->. by destruct s.
  - intros s O n HI Hn. apply wp_zoom. eapply wp_mono; [by apply (al_realloc_null_law (heap s) O n)|].
    intros p h [[-> ->]|Hp]; [left; by destruct s|by right].
  - intros s O p n HI Hp. apply wp_zoom. eapply wp_mono; [by apply (al_realloc_zero_law (heap s) O p n)|]. done.
  - intros s O f HI Hf. apply wp_zoom. eapply wp_mono; [by apply (al_store_law (heap s) O f)|]. done.
Defined.

Section reads.
Context {H C : Type} `{AllocatorLaws H} (delay : Z → M C unit).
Context (hhdm_offset : Z) (fuel : nat) (stack : list Z).
Abbreviation machine := (storage drive (ahci H C)).
Implicit Types s : machine.
Abbreviation read := (drive_read (machine_udelay delay) hhdm_offset fuel stack).

Definition live_range (O : gmap Z Z) (a n : Z) : Prop := ∀ x, a <= x < a + n → live O x.
(** What a read of the device must do. *)
Definition reads s (O : gmap Z Z) (buffer : Z) (src : gmap Z Z) (pos len : Z) (r : Z) s' : Prop :=
  r = 0 ∧ al_inv (host s') O ∧ buffer_filled (al_mem (host s)) (al_mem (host s')) O buffer src pos len.

(** A PIO transfer that writes the buffer only. *)
Lemma on_ata_spec (c : M (ata_state drive) Z) s O buffer src pos len : al_inv (host s) O → live_range O buffer len →
  wp c (λ r t, r = 0 ∧ copied (al_mem (host s)) (mem t) buffer src pos len) (channel s) →
  wp (on_ata c) (reads s O buffer src pos len) s.
Proof.
  intros HI Hl Hc. apply wp_run in Hc as (r & t & Ec & -> & [Hin Hout]). unfold wp, on_ata. rewrite Ec.
  assert (same_outside (live O) (al_mem (host s)) (mem t)) as Hs by (intros x Hx; apply Hout; intros Hb; by apply Hx, Hl).
  pose proof (al_store_law (host s) O (λ _, mem t) HI Hs) as Hw. apply wp_run in Hw as ([] & h & Eh & HI' & Hm).
  rewrite Eh. split; [done|]. split; [exact HI'|]. cbn [host] in *. rewrite Hm. split; [exact Hin|]. intros x _ Hx. by apply Hout.
Qed.

(** ** The block device behind a device structure *)

Inductive backs s (O : gmap Z Z) (device lba count buffer : Z) : Z → gmap Z Z → Prop :=
| backs_ata (number := pata_drive_number (al_mem (host s)) device) :
    type_identifier (al_mem (host s)) device = 80 → device_sector_size (al_mem (host s)) device = block →
    attached number (pio s) → 0 <= lba < 2 ^ 48 →
    backs s O device lba count buffer block (cache (pio s))
| backs_ata_manual (number := pata_drive_number (al_mem (host s)) device) :
    type_identifier (al_mem (host s)) device = 112 → device_sector_size (al_mem (host s)) device = block →
    io (pio s) = pata_pmio_base (al_mem (host s)) device →
    ready (pio s) → ph (pio s) = Idle → (AtaDisk.busy (pio s) <= AtaDisk.latency (pio s))%nat →
    drive_bit number = second (pio s) → AtaDisk.disc (pio s) = None → 0 <= lba < 2 ^ 48 →
    backs s O device lba count buffer block (cache (pio s))
| backs_atapi last (number := pata_drive_number (al_mem (host s)) device) :
    type_identifier (al_mem (host s)) device = 81 → device_sector_size (al_mem (host s)) device = disc_block →
    packet_ready number last (pio s) → io (pio s) = fst (ata_get_io_and_head number) → 0 <= lba < 2 ^ 32 →
    backs s O device lba count buffer disc_block (cache (pio s))
| backs_atapi_manual last (number := pata_drive_number (al_mem (host s)) device) :
    type_identifier (al_mem (host s)) device = 113 → device_sector_size (al_mem (host s)) device = disc_block →
    packet_ready number last (pio s) → io (pio s) = pata_pmio_base (al_mem (host s)) device → 0 <= lba < 2 ^ 32 →
    backs s O device lba count buffer disc_block (cache (pio s)).

Lemma drive_read_spec s O device lba count buffer size src : al_inv (host s) O → live_range O buffer (count * size) →
  1 <= count < 2 ^ 16 → backs s O device lba count buffer size src →
  wp (read device lba count buffer) (reads s O buffer src (lba * size) (count * size)) s.
Proof.
  intros HI Hl Hc HB. unfold drive_read. apply wp_bind, wp_gets. rewrite (wrap_small 16 count) by lia.
  destruct HB as [number Ht Hs Ha Hlba|number Ht Hs Hio Hr Hi Hb Hd HN Hlba|last number Ht Hs Hp Hio Hlba|last number Ht Hs Hp Hio Hlba]; try subst number; rewrite Ht; cbn [Z.eqb Pos.eqb]; rewrite ?Hs.
  - apply on_ata_spec; [done|done|]. change (u16 block) with block. eapply wp_mono; [by apply ata_read_spec|].
    intros r t [-> HF]. split; [done|]. exact (fetched_data _ _ _ _ _ HF).
  - apply on_ata_spec; [done|done|]. change (u16 block) with block. unfold ata_read_sector_semiauto. rewrite <- Hio.
    eapply wp_mono; [by apply (read_auto_spec (channel s))|]. intros r t [-> HF]. split; [done|]. exact (fetched_data _ _ _ _ _ HF).
  - apply on_ata_spec; [done|done|]. unfold atapi_read_sector. rewrite (wrap_small 32 lba), <- Hio by lia.
    eapply wp_mono; [by apply (packet_read_spec (channel s) _ last)|]. intros r t (-> & _ & _ & Hin & Hout). split; [done|]. by split.
  - apply on_ata_spec; [done|done|]. unfold atapi_read_sector_manual. rewrite (wrap_small 32 lba), <- Hio by lia.
    eapply wp_mono; [by apply (packet_read_spec (channel s) _ last)|]. intros r t (-> & _ & _ & Hin & Hout). split; [done|]. by split.
Qed.

(** C33: the ATA and ATAPI drives are one block device: a read of 1 to 65535
    sectors through a device structure of type P, p, Q or q, whose sector size is
    512 for a disk and 2048 for an optical drive, and which names a drive that is
    attached, at rest and in time for the driver's polls, by its number or by its
    number and port base, returns 0 and fills the buffer with exactly those
    sectors of its contents, leaves every other live byte alone and the heap as
    it was.  The buffer lies in live blocks of the heap; sector numbers have 48
    bits for a disk and 32 for an optical drive.  AHCI devices (S and T) are not
    claimed, and the structures [storage_init] registers have another layout (see
    [registered_device_misread]). *)
Theorem drive_read_correct s O device lba count buffer size src : al_inv (host s) O → live_range O buffer (count * size) →
  1 <= count < 2 ^ 16 → backs s O device lba count buffer size src →
  wp (read device lba count buffer) (reads s O buffer src (lba * size) (count * size)) s.
Proof. apply drive_read_spec. Qed.

(** The count is cut to 16 bits: 65536 sectors are none. *)
Lemma drive_read_truncates device lba count buffer s : read device lba (count + 65536) buffer s = read device lba count buffer s.
Proof.
  unfold drive_read. assert (u16 (count + 65536) = u16 count) as ->; [|done].
  unfold wrap. replace 65536 with (1 * 2 ^ 16) by done. apply Z_mod_plus_full.
Qed.

(** An unknown letter returns 9, which is also a time-out of the AHCI driver. *)
Lemma drive_read_unknown device lba count buffer s : type_identifier (al_mem (host s)) device ∉ [80; 81; 112; 113; 83; 84] →
  read device lba count buffer s = Some (9, s).
Proof.
  intros Ht. unfold drive_read, bind, memory, gets. rewrite !not_elem_of_cons in Ht.
  destruct Ht as (? & ? & ? & ? & ? & ? & _).
  repeat match goal with |- context [?a =? ?b] => rewrite (proj2 (Z.eqb_neq a b)) by done end. done.
Qed.
End reads.

(** ** Registration *)

(** Computations that return in every state. *)
Definition total {S A} (c : M S A) : Prop := ∀ s, is_Some (c s).
Lemma total_ret {S A} (a : A) : total (mret a : M S A).
Proof. by eexists. Qed.
Lemma total_bind {S A B} (c : M S A) (f : A → M S B) : total c → (∀ a, total (f a)) → total (bind c f).
Proof. intros Hc Hf s. destruct (Hc s) as [[a s'] E]. unfold bind. rewrite E. apply Hf. Qed.
Lemma total_modify {S} (f : S → S) : total (modify f).
Proof. by eexists. Qed.
Lemma total_gets {S A} (f : S → A) : total (gets f).
Proof. by eexists. Qed.
Lemma total_zoom {S T A} (get : T → S) (set : S → T → T) (c : M S A) : total c → total (zoom get set c).
Proof. intros Hc t. unfold zoom. destruct (Hc (get t)) as [[a s] ->]. by eexists. Qed.
Lemma total_when {S} (b : bool) (c : M S unit) : total c → total (mwhen b c).
Proof. destruct b; [done|intros; apply total_ret]. Qed.
Lemma total_if {S A} (b : bool) (c d : M S A) : total c → total d → total (if b then c else d).
Proof. by destruct b. Qed.
Lemma total_wp {S A} (c : M S A) s : total c → wp c (λ _ _, True) s.
Proof. intros Hc. unfold wp. by destruct (Hc s) as [[a s'] ->]. Qed.
Create HintDb totality.
#[export] Hint Resolve total_ret total_modify total_gets : totality.
Ltac totality := repeat (intros; first [solve [auto with totality] | apply total_bind | apply total_zoom | apply total_if | apply total_when]).

Section identify.
Context {D : Type} `{Bus D}.
Lemma total_in w port : total (port_in (D:=D) w port).
Proof. intros d. unfold port_in. destruct (bus_in w port d). by eexists. Qed.
Lemma total_in_reg io_base r : total (in_reg (D:=D) io_base r).
Proof. apply total_zoom, total_in. Qed.
Lemma total_out_reg io_base r v : total (out_reg (D:=D) io_base r v).
Proof. apply total_zoom, total_modify. Qed.
Hint Resolve total_in total_in_reg total_out_reg : totality.
Lemma total_wait n io_base drq : total (wait_loop (D:=D) n io_base drq).
Proof. induction n as [|n IH]; cbn [wait_loop]; unfold set_ata_status, set_ata_error; totality. Qed.
Lemma total_ready io_base drq : total (ata_wait_ready (D:=D) io_base drq).
Proof. apply total_wait. Qed.
Lemma total_read_array n io_base a : total (read_array (D:=D) n io_base a).
Proof. revert a. induction n as [|n IH]; intros a; cbn [read_array]; unfold on_drive, set_memory, inw; totality. Qed.
Hint Resolve total_ready total_read_array : totality.
Lemma total_identify_ata drive data : total (identify_ata (D:=D) drive data).
Proof. unfold identify_ata, identify. totality. Qed.
Lemma total_outsw n port buf : total (outsw (D:=D) n port buf).
Proof. revert buf. induction n as [|n IH]; intros [|b0 [|b1 buf]]; cbn [outsw]; unfold outw, port_out; totality. Qed.
Hint Resolve total_outsw : totality.
Lemma total_send_packet io_base drive mid high packet : total (send_packet (D:=D) io_base drive mid high packet).
Proof. unfold send_packet, atapi_registers, on_drive, set_ata_status, set_ata_error. totality. Qed.
Hint Resolve total_send_packet : totality.
Lemma total_identify_atapi buffer drive : total (identify_atapi_useful (D:=D) buffer drive).
Proof. unfold identify_atapi_useful, send_capacity, swap_fields, set_memory. totality. Qed.
End identify.

(** ** What [storage_init] registers *)

Section registration.
Context {D S : Type} `{Bus D} `{Bus S} `{Allocator S}.
(** A heap that does not run out. *)
Context (Hmalloc : ∀ n (h : S), ∃ p h', al_malloc n h = Some (p, h') ∧ p ≠ 0).
Context (Hstore : ∀ f, total (al_store (S:=S) f)).
Implicit Types s : storage D S.

(** [found l]: from the one list of devices to the other, with the AHCI driver's
    fixed device behind it as soon as something was registered. *)
Definition sata_dummy : storage_device := mk_device 83 0 512.
Definition probed (d : storage_device) : Prop := device_data d ≠ 0 ∧ (device_type d = 80 ∧ sector_size d = 512 ∨ device_type d = 81).
Record grown (n : nat) s s' : Prop := {
  grown_list : ∃ l, storage_devices s' = storage_devices s ++ l ∧ (length l <= n)%nat ∧ Forall probed l ∧
    sata_temp_devices s' = if l is [] then sata_temp_devices s else [sata_dummy]
}.
Lemma grown_none s s' : storage_devices s' = storage_devices s → sata_temp_devices s' = sata_temp_devices s → grown 0 s s'.
Proof. intros E1 E2. split. exists []. by rewrite E1, E2, app_nil_r. Qed.
Lemma grown_trans n k s s1 s' : grown n s s1 → grown k s1 s' → grown (n + k) s s'.
Proof.
  intros [(l & E1 & L1 & F1 & T1)] [(l' & E2 & L2 & F2 & T2)]. split. exists (l ++ l').
  rewrite E2, E1, T2, T1, length_app, app_assoc. split; [done|]. split; [lia|]. split; [by apply Forall_app|].
  destruct l'; [by rewrite app_nil_r|by destruct l].
Qed.

Lemma on_ata_keeps {A} (c : M (ata_state D) A) s Q : total c →
  (∀ a s', storage_devices s' = storage_devices s → sata_temp_devices s' = sata_temp_devices s → Q a s') → wp (on_ata c) Q s.
Proof.
  intros Hc HQ. unfold wp, on_ata. destruct (Hc (channel s)) as [[a t] ->].
  destruct (Hstore (λ _, mem t) (host s)) as [[u h] ->]. by apply HQ.
Qed.
Lemma keep_data_spec src n s Q : (∀ p s', p ≠ 0 → storage_devices s' = storage_devices s → sata_temp_devices s' = sata_temp_devices s → Q p s') →
  wp (keep_data src n) Q s.
Proof.
  intros HQ. unfold keep_data, malloc. destruct (Hmalloc n (host s)) as (p & h & E & Hp).
  apply wp_bind, wp_zoom. unfold wp at 1. rewrite E. apply wp_bind, wp_massert; [by apply truthy_true|].
  apply wp_bind, wp_zoom. unfold wp at 1. cbn [host].
  destruct (Hstore (λ m, memcpy m p src n) h) as [[u h'] ->]. apply wp_ret. by apply HQ.
Qed.
Lemma register_spec d s : Z.of_nat (length (storage_devices s)) < MAX_STORAGE_DEVICES →
  wp (register_device d) (λ _ s', storage_devices s' = storage_devices s ++ [d] ∧ sata_temp_devices s' = [sata_dummy]) s.
Proof.
  intros Hl. unfold register_device. apply wp_bind, wp_gets. rewrite (proj2 (Z.leb_gt _ _)) by done.
  apply wp_bind, wp_modify, wp_modify. done.
Qed.
Lemma register_probed d s s1 : Z.of_nat (length (storage_devices s)) < MAX_STORAGE_DEVICES → probed d →
  storage_devices s1 = storage_devices s → sata_temp_devices s1 = sata_temp_devices s → wp (register_device d) (λ _ s', grown 1 s s') s1.
Proof.
  intros Hl Hd E1 E2. eapply wp_mono; [apply register_spec; by rewrite E1|]. intros _ s' [E3 E4].
  split. exists [d]. rewrite E3, E1. split; [done|]. split; [done|]. split; [by constructor|done].
Qed.

Lemma probe_ata_spec data drive s : Z.of_nat (length (storage_devices s)) < MAX_STORAGE_DEVICES →
  wp (probe_ata data drive) (λ _ s', grown 1 s s') s.
Proof.
  intros Hl. unfold probe_ata. apply wp_bind, on_ata_keeps; [apply total_identify_ata|]. intros r s1 E1 E2.
  destruct (negb (truthy r)); cbn [mwhen]; [|apply wp_ret; apply (grown_trans 0 1 s s1); [by apply grown_none|split; exists []; rewrite app_nil_r; auto]].
  apply wp_bind, keep_data_spec. intros p s2 Hp E3 E4. apply register_probed; [done|split; [done|by left]|congruence..].
Qed.
Lemma probe_atapi_spec buffer drive s : Z.of_nat (length (storage_devices s)) < MAX_STORAGE_DEVICES →
  wp (probe_atapi buffer drive) (λ _ s', grown 1 s s') s.
Proof.
  intros Hl. unfold probe_atapi. apply wp_bind, on_ata_keeps; [apply total_identify_atapi|]. intros r s1 E1 E2.
  destruct (negb (truthy r)); cbn [mwhen]; [|apply wp_ret; apply (grown_trans 0 1 s s1); [by apply grown_none|split; exists []; rewrite app_nil_r; auto]].
  apply wp_bind, wp_gets, wp_bind, keep_data_spec. intros p s2 Hp E3 E4. apply register_probed; [done|split; [done|by right]|congruence..].
Qed.

(** The shape of the list of devices, whatever hardware answers the four probes:
    at most four ATA and ATAPI devices, and behind them the AHCI driver's fixed
    device, but that only if there was another one. *)
Lemma storage_init_registers fuel data buffer s : (2 <= fuel)%nat → storage_devices s = [] → sata_temp_devices s = [] →
  wp (storage_init fuel data buffer) (λ _ s', ∃ l, (length l <= 4)%nat ∧ Forall probed l ∧
    storage_devices s' = l ++ (if l is [] then [] else [sata_dummy])) s.
Proof.
  intros Hf E0 T0. unfold storage_init.
  assert (∀ n s1, (n <= 3)%nat → grown n s s1 → Z.of_nat (length (storage_devices s1)) < MAX_STORAGE_DEVICES) as Hroom.
  { intros n s1 Hn [(l & -> & Hl & _)]. rewrite E0. cbn [app]. unfold MAX_STORAGE_DEVICES. lia. }
  apply wp_bind. eapply wp_mono; [apply probe_ata_spec; by rewrite E0|]. intros [] s1 G1.
  apply wp_bind. eapply wp_mono; [apply probe_ata_spec; by eapply (Hroom 1%nat); [lia|]|]. intros [] s2 G2. pose proof (grown_trans _ _ _ _ _ G1 G2) as G12.
  apply wp_bind. eapply wp_mono; [apply probe_atapi_spec; by eapply (Hroom 2%nat); [lia|]|]. intros [] s3 G3. pose proof (grown_trans _ _ _ _ _ G12 G3) as G13.
  apply wp_bind. eapply wp_mono; [apply probe_atapi_spec; by eapply (Hroom 3%nat); [lia|]|]. intros [] s4 G4.
  destruct (grown_trans _ _ _ _ _ G13 G4) as [(l & El & Hl & Fl & Tl)]. rewrite E0 in El. cbn [app] in El.
  destruct fuel as [|[|fuel]]; [lia..|]. cbn [register_temp]. apply wp_bind, wp_gets. rewrite Tl. destruct l as [|d l].
  - cbv iota. rewrite T0. apply wp_ret. exists []. by rewrite El.
  - cbn [lookup list_lookup]. apply wp_bind. eapply wp_mono; [apply register_spec; rewrite El; unfold MAX_STORAGE_DEVICES; lia|].
    intros [] s5 [E5 T5]. apply wp_bind, wp_gets. rewrite T5. cbn [lookup list_lookup]. apply wp_ret.
    exists (d :: l). rewrite E5, El. done.
Qed.
End registration.

(** ** Two layouts *)

(** The registered devices as [stinit.h] lays them out. *)
Fixpoint put_devices (m : gmap Z Z) (a : Z) (l : list storage_device) : gmap Z Z :=
  match l with [] => m | d :: l => put_devices (put_device m a d) (a + sizeof_storage_device) l end.
Definition device_fits (d : storage_device) : Prop := 0 <= device_type d < 256 ∧ 0 <= device_data d < 2 ^ 64 ∧ 0 <= sector_size d < 2 ^ 64.

Lemma put_devices_below m a l n b : b + Z.of_nat n <= a → loadn n (put_devices m a l) b = loadn n m b.
Proof.
  revert m a. induction l as [|d l IH]; intros m a Hb; [done|]. cbn [put_devices]. rewrite IH by (unfold sizeof_storage_device; lia).
  apply loadn_ext. intros i Hi. unfold put_device. rewrite !load8_storen_out by lia. apply load8_store8_ne. lia.
Qed.
Record device_at (m : gmap Z Z) (a : Z) (d : storage_device) : Prop := {
  at_type : load8 m a = device_type d;
  at_data : load64 m (a + 8) = device_data d;
  at_size : load64 m (a + 16) = sector_size d
}.
Lemma put_devices_at m a l i d : l !! i = Some d → device_fits d → device_at (put_devices m a l) (a + sizeof_storage_device * Z.of_nat i) d.
Proof.
  intros Hi (Ht & Hd & Hs). revert m a i Hi. induction l as [|d0 l IH]; intros m a i Hi; [done|].
  destruct i as [|i]; cbn [put_devices lookup list_lookup] in *.
  - injection Hi as ->. rewrite Z.mul_0_r, Z.add_0_r.
    assert (∀ n b, b + Z.of_nat n <= a + 24 → loadn n (put_devices (put_device m a d) (a + sizeof_storage_device) l) b = loadn n (put_device m a d) b) as Hb
      by (intros; by apply put_devices_below).
    unfold put_device in *. split; [rewrite <- loadn_1|..]; rewrite Hb by lia.
    + rewrite loadn_1, !load8_storen_out, load8_store8_eq by lia. by apply Z.mod_small.
    + rewrite loadn_storen_ne, load64_store64_eq by lia. done.
    + by apply load64_store64_eq.
  - replace (a + sizeof_storage_device * Z.of_nat (S i)) with (a + sizeof_storage_device + sizeof_storage_device * Z.of_nat i) by lia.
    by apply IH.
Qed.

(** A registered device is not what [drive_read] takes it for: of the array
    [stinit.h] describes it takes the low byte of the pointer to the
    identification data as drive number, and the low half of the next device's
    pointer as sector size. *)
Theorem registered_device_misread {D S} `{Bus D} `{Bus S} `{Allocator S} udelay hhdm_offset fuel stack m a l i d d' lba count buffer
    (s : storage D S) : al_mem (host s) = put_devices m a l → l !! i = Some d → l !! (i + 1)%nat = Some d' →
  device_fits d → device_fits d' → device_type d = 80 →
  drive_read udelay hhdm_offset fuel stack (a + sizeof_storage_device * Z.of_nat i) lba count buffer s =
  on_ata (ata_read_sector_auto lba (u16 count) buffer (device_data d mod 256) (u16 (device_data d'))) s.
Proof.
  intros Hm Hi Hi' Hd Hd' Ht. destruct (put_devices_at m a l i d Hi Hd) as [T1 D1 _]. destruct (put_devices_at m a l _ d' Hi' Hd') as [_ D2 _].
  unfold drive_read, bind, memory, gets. rewrite Hm. set (e := a + sizeof_storage_device * Z.of_nat i) in *.
  unfold type_identifier, pata_drive_number, device_sector_size. rewrite T1, Ht. cbn [Z.eqb Pos.eqb].
  assert (load8 (put_devices m a l) (e + 8) = device_data d mod 256) as ->.
  { rewrite <- D1. pose proof (loadn_add 1 7 (put_devices m a l) (e + 8)) as E8. cbn [Nat.add] in E8. rewrite E8, loadn_1. clear E8. change (256 ^ Z.of_nat 1) with 256. pose proof (loadn_range 1 (put_devices m a l) (e + 8)) as Hr. rewrite loadn_1 in Hr. rewrite (Z.mul_comm 256), Z_mod_plus_full. symmetry. by apply Z.mod_small. }
  assert (u16 (load32 (put_devices m a l) (e + 32)) = u16 (device_data d')) as ->; [|done].
  replace (e + 32) with (a + sizeof_storage_device * Z.of_nat (i + 1) + 8) by (unfold e, sizeof_storage_device; lia).
  rewrite <- D2, load64_words. unfold wrap. set (hi := load32 _ _). rewrite Z.mul_comm. replace (2 ^ 32) with (2 ^ 16 * 2 ^ 16) by done.
  rewrite Z.mul_assoc, Z_mod_plus_full. done.
Qed.

(** ** Witnesses *)

(** The demo machine of [SataDemo] with the disk of [AtaProps] on the first
    channel.  The device structure lies at 12280, behind the buffer in the
    client's block. *)
Definition structure (type num size : Z) (m : gmap Z Z) : gmap Z Z :=
  store32 (store64 (store8 m 12280 type) (12280 + 8) num) (12280 + 32) size.
Definition storage_heap (type num size : Z) : tlsf_state := with_heap (structure type num size) disk_heap.
Definition storage_machine (type num size : Z) : storage drive (ahci tlsf_state unit) :=
  mk_storage disk_demo 0 0 (mk_ahci (storage_heap type num size) (port_demo 0 7 false None) tt) [] [].

Lemma storage_heap_ok type num size : ∃ O, refines (storage_heap type num size) O ∧ live_range O 11256 1024.
Proof.
  destruct disk_heap_ok as (z & Hz & HO). exists {[11256 := z]}.
  assert (live_range {[11256 := z]} 11256 2048) as HL.
  { intros x Hx. exists 11256, z. rewrite lookup_singleton_eq. split; [done|lia]. }
  split; [|intros x Hx; apply HL; lia].
  assert (same_outside (live {[11256 := z]}) (Tlsf.heap disk_heap) (structure type num size (Tlsf.heap disk_heap))) as Hs.
  { intros x Hx. unfold structure. assert (¬ 11256 <= x < 11256 + 2048) by (intros Hb; by apply Hx, HL).
    rewrite !load8_storen_out by lia. apply load8_store8_ne. lia. }
  pose proof (al_store_law disk_heap _ (structure type num size) HO Hs) as Hw. by destruct Hw.
Qed.

Lemma drive_read_correct_witness :
  wp (drive_read (machine_udelay no_delay) 0 1001 (replicate 12 0) 12280 5 1 11256)
    (λ r s', r = 0 ∧ load8 (al_mem (host s')) 11256 = 0x55) (storage_machine 80 0 512).
Proof.
  destruct (storage_heap_ok 80 0 512) as (O & HO & HL).
  eapply wp_mono; [apply (drive_read_correct no_delay 0 1001 (replicate 12 0) (storage_machine 80 0 512) O 12280 5 1 11256 block (cache disk_demo))|].
  - exact HO.
  - intros x Hx. apply HL. unfold block in Hx. lia.
  - lia.
  - apply backs_ata; [vm_compute; reflexivity|vm_compute; reflexivity| |lia].
    assert (pata_drive_number (al_mem (host (storage_machine 80 0 512))) 12280 = 0) as -> by (vm_compute; reflexivity).
    exact ata_demo_attached.
  - intros r s' (-> & _ & Hin & _). split; [done|]. exact (Hin 0 ltac:(unfold block; lia)).
Defined.

(** Two registered disks whose identification data are at 0x5008 and 0x6010. *)
Lemma registered_device_misread_witness :
  let s := mk_storage disk_demo 0 0 (mk_ahci (with_heap (λ m, put_devices m 0x3000 [mk_device 80 0x5008 512; mk_device 80 0x6010 512]) disk_heap)
             (port_demo 0 7 false None) tt) [] [] in
  drive_read (machine_udelay no_delay) 0 1001 (replicate 12 0) 0x3000 5 1 11256 s = on_ata (ata_read_sector_auto 5 1 11256 8 0x6010) s.
Proof.
  apply (registered_device_misread (machine_udelay no_delay) 0 1001 (replicate 12 0) (Tlsf.heap disk_heap) 0x3000
    [mk_device 80 0x5008 512; mk_device 80 0x6010 512] 0 (mk_device 80 0x5008 512) (mk_device 80 0x6010 512) 5 1 11256); try done; cbn; lia.
Defined.

(** A machine whose heap hands out ever higher addresses. *)
Record bump := mk_bump { bump_mem : gmap Z Z; bump_top : Z }.
#[local] Instance bump_allocator : Allocator bump := {|
  al_mem := bump_mem;
  al_malloc n := λ s, Some (Z.max 8 (bump_top s), mk_bump (bump_mem s) (Z.max 8 (bump_top s) + Z.max 8 n));
  al_free _ := mret tt;
  al_realloc _ _ := mret 0;
  al_store f := modify (λ s, mk_bump (f (bump_mem s)) (bump_top s))
|}.
#[local] Instance bump_bus : Bus bump := {|
  bus_in w p s := (0, s); bus_out w p v s := s; mmio_read a s := (0, s); mmio_write a v s := s;
  msr_read r s := 0; msr_write r v s := s; cr4_read s := 0; cr4_write v s := s
|}.
Lemma storage_init_registers_witness : let s := mk_storage disk_demo 0 0 (mk_bump ∅ 0x8000) [] [] in
  wp (storage_init 2 0x1000 0x2000) (λ _ s', ∃ l, (length l <= 4)%nat ∧ Forall probed l ∧
    storage_devices s' = l ++ (if l is [] then [] else [sata_dummy])) s ∧
  wp (storage_init 2 0x1000 0x2000) (λ _ s', storage_devices s' = [mk_device 80 0x8000 512; sata_dummy]) s.
Proof.
  intros s. split; [|vm_compute; reflexivity].
  apply storage_init_registers; [|intros f h; by eexists|lia|done|done].
  intros n h. exists (Z.max 8 (bump_top h)). eexists. split; [reflexivity|lia].
Defined.
