(* ===== verification/Ehci.v ===== *)
(** * EHCI host controller and USB mass storage ([drivers/hci/ehci.c], [includes/ehci.h])

    The driver over the frame allocator and the direct map ([Pmm], [Vmm]) and
    over controller registers.  Queue heads and transfer descriptors are bytes
    of frames.  The controller works while time passes, so the clock and
    [udelay] are computations on the whole state.  The pid stamps ([pid_rn]) and
    the log are left out; register reads inside of a log call are kept. *)

From stdpp Require Import prelude gmap list numbers tactics.
From S2P Require Import Prelude Memory Pmm Vmm Io Pci.

Definition EHCI_RUN_STOP : Z := Z.shiftl 1 0.
Definition EHCI_RESET : Z := Z.shiftl 1 1.
Definition EHCI_ASYNC_EN : Z := Z.shiftl 1 5.
Definition EHCI_USBSTS_HCHALTED : Z := Z.shiftl 1 12.
Definition USB_REQ_GET_DESCRIPTOR : Z := 0x06.
Definition USB_REQ_SET_ADDRESS : Z := 0x05.
Definition USB_REQ_SET_CONFIGURATION : Z := 0x09.
Definition USB_CLASS_MASS_STORAGE : Z := 0x08.
Definition USB_SUBCLASS_SCSI : Z := 0x06.
Definition USB_PROTOCOL_BULK_ONLY : Z := 0x50.
Definition PORTSC_CONNECTED : Z := Z.shiftl 1 0.
Definition PORTSC_CONNECT_CHANGE : Z := Z.shiftl 1 1.
Definition PORTSC_ENABLED : Z := Z.shiftl 1 2.
Definition PORTSC_ENABLE_CHANGE : Z := Z.shiftl 1 3.
Definition PORTSC_RESET : Z := Z.shiftl 1 8.
Definition PORTSC_POWER : Z := Z.shiftl 1 12.
Definition PORTSC_OWNER : Z := Z.shiftl 1 13.
Definition PID_OUT : Z := 0.
Definition PID_IN : Z := 1.
Definition CBW_SIGNATURE : Z := 0x43425355.
Definition CSW_SIGNATURE : Z := 0x53425355.
Definition SCSI_READ10 : Z := 0x28.
Definition PTE_WRITE_THROUGH : Z := Z.shiftl 1 3.
Definition PTE_CACHE_DISABLE : Z := Z.shiftl 1 4.
Definition HCSPARAMS_N_PORTS (x : Z) : Z := Z.land x 0x0F.

(** [struct ehci_regs], as offsets. *)
Definition USBCMD : Z := 0x00.
Definition USBSTS : Z := 0x04.
Definition USBINTR : Z := 0x08.
Definition PERIODICLISTBASE : Z := 0x14.
Definition ASYNCLISTADDR : Z := 0x18.
Definition CONFIGFLAG : Z := 0x40.
Definition PORTSC (i : Z) : Z := 0x44 + 4 * i.

(** [qtd_t] and [qh_t], whose fields are packed. *)
Definition sizeof_qtd : Z := 32.
Definition sizeof_qh : Z := 64.
Definition qtd_next (q : Z) : Z := q.
Definition qtd_alt_next (q : Z) : Z := q + 4.
Definition qtd_token (q : Z) : Z := q + 8.
Definition qtd_buffer (q i : Z) : Z := q + 12 + 4 * i.
Definition horiz_link (qh : Z) : Z := qh.
Definition ep_char (qh : Z) : Z := qh + 4.
Definition ep_cap (qh : Z) : Z := qh + 8.
Definition curr_qtd (qh : Z) : Z := qh + 12.
Definition overlay (qh : Z) : Z := qh + 16.

(** [usb_ctrl_setup_t], [usb_endpoint_t], [usb_device_t]. *)
Record usb_setup := mk_setup { bmRequestType : Z; bRequest : Z; wValue : Z; wIndex : Z; wLength : Z }.
Definition put_setup (m : gmap Z Z) (a : Z) (s : usb_setup) : gmap Z Z :=
  store16 (store16 (store16 (store8 (store8 m a (bmRequestType s)) (a + 1) (bRequest s)) (a + 2) (wValue s)) (a + 4) (wIndex s)) (a + 6) (wLength s).
Record usb_endpoint := mk_endpoint { ep_addr : Z; max_packet : Z; attrs : Z }.
Record usb_device := mk_usb_device { address : Z; config_value : Z; bulk_in : usb_endpoint; bulk_out : usb_endpoint; iface_number : Z }.

(** The memory manager, the controller, the globals of the file. *)
Record usb (H : Type) := mk_usb {
  mm : mm_state; hc : H;
  ehci : Z; async_list_head : Z; async_list_head_phys : Z; global_tag : Z
}.
Arguments mk_usb {H}. Arguments mm {H}. Arguments hc {H}. Arguments ehci {H}. Arguments async_list_head {H}.
Arguments async_list_head_phys {H}. Arguments global_tag {H}.

Section ehci.
Context {H : Type} `{Bus H}.
Abbreviation U := (M (usb H)).
Context (get_time_ms : U Z) (udelay : Z → U unit) (fuel : nat).
Implicit Types s : usb H.

Definition on_mm {A} (c : MM A) : U A :=
  zoom mm (λ x s, mk_usb x (hc s) (ehci s) (async_list_head s) (async_list_head_phys s) (global_tag s)) c.
Definition on_hc {A} (c : M H A) : U A :=
  zoom hc (λ x s, mk_usb (mm s) x (ehci s) (async_list_head s) (async_list_head_phys s) (global_tag s)) c.
Definition set_ehci (p : Z) : U unit :=
  modify (λ s, mk_usb (mm s) (hc s) p (async_list_head s) (async_list_head_phys s) (global_tag s)).
Definition set_list_head (p : Z) : U unit :=
  modify (λ s, mk_usb (mm s) (hc s) (ehci s) p (async_list_head_phys s) (global_tag s)).
Definition set_list_head_phys (p : Z) : U unit :=
  modify (λ s, mk_usb (mm s) (hc s) (ehci s) (async_list_head s) p (global_tag s)).
Definition next_tag : U Z :=
  modify (λ s, mk_usb (mm s) (hc s) (ehci s) (async_list_head s) (async_list_head_phys s) (u32 (global_tag s + 1)));;
  gets global_tag.
Definition update_mem (f : gmap Z Z → gmap Z Z) : U unit := on_mm (modify (set_mem f)).
Definition read32 (a : Z) : U Z := gets (λ s, load32 (Pmm.mem (mm s)) a).
Definition write32 (a v : Z) : U unit := update_mem (λ m, store32 m a v).
Definition to_virt (p : Z) : U Z := on_mm (phys_to_virt p).
Definition to_phys (v : Z) : U Z := on_mm (virt_to_phys v).

(** Registers of [ehci], and of a base in a local. *)
Definition op_read (r : Z) : U Z := op ← gets ehci; on_hc (reg_read (op + r)).
Definition op_write (r v : Z) : U unit := op ← gets ehci; on_hc (reg_write (op + r) v).
Definition op_set (r bits : Z) : U unit := v ← op_read r; op_write r (Z.lor v bits).
Definition op_clear (r bits : Z) : U unit := v ← op_read r; op_write r (Z.land v (cnot 32 bits)).

(** ** Controller *)

(** [while (!ready) { if (get_time_ms() - start > limit) return; udelay(us); }];
    the result says whether [ready] came true. *)
Fixpoint poll_until (n : nat) (ready : U bool) (start limit us : Z) : U bool :=
  match n with
  | O => mstop
  | S n =>
    r ← ready;
    if r then mret true
    else
      now ← get_time_ms;
      if limit <? u32 (now - start) then mret false
      else udelay us;; poll_until n ready start limit us
  end.
Definition bit_set (r bits : Z) : U bool := v ← op_read r; mret (truthy (Z.land v bits)).
Definition bit_clear (r bits : Z) : U bool := v ← op_read r; mret (negb (truthy (Z.land v bits))).
Definition log_regs : U unit := op_read USBSTS;; op_read USBCMD;; mret tt.

Definition ehci_stop_controller : U Z :=
  op_clear USBCMD EHCI_RUN_STOP;;
  start ← get_time_ms;
  halted ← poll_until fuel (bit_set USBSTS EHCI_USBSTS_HCHALTED) start 500 1000;
  log_regs;;
  mret (if halted then 0 else -1).

(** From the reset command on. *)
Definition reset_now : U Z :=
  udelay 1000;;
  op_write USBCMD EHCI_RESET;;
  op_read USBCMD;;
  start ← get_time_ms;
  done ← poll_until fuel (bit_clear USBCMD EHCI_RESET) start 1000 1000;
  log_regs;;
  if done then udelay 1000;; mret 0 else mret (-1).
Definition ehci_reset_controller : U Z :=
  halted ← bit_set USBSTS EHCI_USBSTS_HCHALTED;
  if negb halted then
    r ← ehci_stop_controller;
    if r <? 0 then mret (-2) else reset_now
  else reset_now.

Definition ehci_init_async_list : U Z :=
  qh_page_phys ← on_mm palloc;
  if qh_page_phys =? 0 then mret (-1)
  else
    qh_page ← to_virt qh_page_phys;
    update_mem (λ m, memset m qh_page 0 4096);;
    set_list_head qh_page;;
    phys ← to_phys qh_page;
    set_list_head_phys phys;;
    write32 (horiz_link qh_page) (Z.lor (u32 phys) 0x2);;
    write32 (ep_char qh_page) 0;;
    write32 (ep_cap qh_page) 0x40000000;;
    write32 (curr_qtd qh_page) 0x1;;
    write32 (qtd_next (overlay qh_page)) 0x1;;
    write32 (qtd_token (overlay qh_page)) 0x40;;
    op_write ASYNCLISTADDR (u32 phys);;
    mret 0.

Definition ehci_init_simple : U Z :=
  r ← ehci_stop_controller;
  if r <? 0 then mret (-1)
  else
    r ← ehci_reset_controller;
    if r <? 0 then mret (-2)
    else
      r ← ehci_init_async_list;
      if r <? 0 then mret (-3)
      else
        op_write PERIODICLISTBASE 0;;
        op_write USBINTR 0;;
        op_set USBCMD (Z.lor EHCI_ASYNC_EN EHCI_RUN_STOP);;
        start ← get_time_ms;
        poll_until fuel (bit_set USBSTS (Z.shiftl 1 15)) start 100 100;;
        op_read USBCMD;;
        op_read USBSTS;;
        mret 0.

(** ** Ports *)

Definition ehci_port_connected (port_num : Z) : U Z :=
  if (port_num <? 0) || (16 <=? port_num) then mret 0
  else v ← op_read (PORTSC port_num); mret (if truthy (Z.land v PORTSC_CONNECTED) then 1 else 0).

(** The endless loop of [ehci_reset_port]: enabled, handed over, or timed out. *)
Fixpoint wait_enabled (n : nat) (portsc start : Z) : U Z :=
  match n with
  | O => mstop
  | S n =>
    v ← op_read portsc;
    if truthy (Z.land v PORTSC_ENABLED) then mret 0
    else
      v ← op_read portsc;
      if negb (truthy (Z.land v PORTSC_RESET)) then op_set portsc PORTSC_OWNER;; mret (-3)
      else
        now ← get_time_ms;
        if 500 <? u32 (now - start) then mret (-4)
        else udelay 1000;; wait_enabled n portsc start
  end.
Definition ehci_reset_port (port_num : Z) : U Z :=
  if (port_num <? 0) || (16 <=? port_num) then mret (-1)
  else
    let portsc := PORTSC port_num in
    v ← op_read portsc;
    if negb (truthy (Z.land v PORTSC_CONNECTED)) then mret (-2)
    else
      v ← op_read portsc;
      mwhen (truthy (Z.land v PORTSC_ENABLED)) (op_clear portsc PORTSC_ENABLED;; udelay 1000);;
      op_set portsc PORTSC_RESET;;
      udelay 50000;;
      op_clear portsc PORTSC_RESET;;
      start ← get_time_ms;
      r ← wait_enabled fuel portsc start;
      if r =? 0 then
        op_set portsc (Z.lor PORTSC_CONNECT_CHANGE PORTSC_ENABLE_CHANGE);;
        udelay 10000;;
        mret 0
      else mret r.

(** [for (i = 0; i < num_ports && i < 16; i++)] *)
Fixpoint power_ports (n : nat) (i num_ports : Z) : U unit :=
  match n with
  | O => mret tt
  | S n => if i <? num_ports then op_set (PORTSC i) PORTSC_POWER;; power_ports n (i + 1) num_ports else mret tt
  end.
Definition ehci_power_on_ports (num_ports : Z) : U unit := power_ports 16 0 num_ports;; udelay 20000.

(** [Some] is the port number written to [*port_num_out]. *)
Fixpoint find_port (n : nat) (i : Z) : U (Z * option Z) :=
  match n with
  | O => mret (-1, None)
  | S n =>
    c ← ehci_port_connected i;
    if truthy c then
      rc ← ehci_reset_port i;
      if rc =? 0 then mret (0, Some i) else find_port n (i + 1)
    else find_port n (i + 1)
  end.
Definition ehci_find_and_reset_device : U (Z * option Z) := find_port 16 0.
End ehci.

(** ** Transfers *)

Section transfers.
Context {H : Type} `{Bus H}.
Abbreviation U := (M (usb H)).
Context (get_time_ms : U Z) (udelay : Z → U unit) (fuel : nat).
Implicit Types s : usb H.

(** [buffer[i]] for the pages behind the first. *)
Fixpoint more_pages (n : nat) (m : gmap Z Z) (q i buf_phys len : Z) : gmap Z Z :=
  match n with
  | O => m
  | S n =>
    if i * 4096 <? len then
      more_pages n (store32 m (qtd_buffer q i) (Z.land (u32 (buf_phys + i * 4096)) (cnot 32 0xFFF))) q (i + 1) buf_phys len
    else m
  end.
Definition build_bulk_qtd (m : gmap Z Z) (qtd buf_phys len pid : Z) : gmap Z Z :=
  let m := store32 m (qtd_next qtd) 0x1 in
  let m := store32 m (qtd_alt_next qtd) 0x1 in
  let m := store32 m (qtd_token qtd)
    (u32 (Z.lor (Z.lor (Z.lor (Z.shiftl 1 7) (u64 (Z.shiftl len 16))) (Z.shiftl 3 10)) (Z.shiftl pid 8))) in
  let m := store32 m (qtd_buffer qtd 0) (u32 buf_phys) in
  more_pages 4 m qtd 1 buf_phys len.
Definition build_bulk_qh (m : gmap Z Z) (qh qtd devaddr ep_num link : Z) : gmap Z Z :=
  let m := store32 m (ep_char qh) (Z.lor (Z.lor (Z.lor devaddr (Z.shiftl ep_num 8)) (Z.shiftl 512 16)) (Z.shiftl 2 12)) in
  let m := store32 m (ep_cap qh) (Z.shiftl 1 30) in
  let m := store32 m (curr_qtd qh) 0 in
  let m := memcpy m (overlay qh) qtd sizeof_qtd in
  store32 m (horiz_link qh) link.

(** Taking the queue head out of the list again, and its page back. *)
Definition unlink_qh (qh page_phys r : Z) : U Z :=
  link ← read32 (horiz_link qh);
  head ← gets async_list_head;
  write32 (horiz_link head) link;;
  on_mm (pfree page_phys);;
  mret r.
Fixpoint wait_bulk (n : nat) (qh page_phys start timeout_ms : Z) : U Z :=
  match n with
  | O => mstop
  | S n =>
    overlay_token ← read32 (qtd_token (overlay qh));
    if negb (truthy (Z.land overlay_token (Z.shiftl 1 7))) then unlink_qh qh page_phys 0
    else if truthy (Z.land overlay_token 0x7E) then unlink_qh qh page_phys (-3)
    else
      now ← get_time_ms;
      if timeout_ms <? u32 (now - start) then unlink_qh qh page_phys (-2)
      else udelay 100;; wait_bulk n qh page_phys start timeout_ms
  end.
Definition ehci_submit_bulk_simple (devaddr ep_addr data_vaddr len dir_in timeout_ms : Z) : U Z :=
  head ← gets async_list_head;
  if head =? 0 then mret (-1)
  else
    page_phys ← on_mm palloc;
    if page_phys =? 0 then mret (-1)
    else
      qh ← to_virt page_phys;
      let qtd := qh + ALIGN_UP sizeof_qh 64 in
      update_mem (λ m, memset m qh 0 sizeof_qh);;
      update_mem (λ m, memset m qtd 0 sizeof_qtd);;
      qh_phys ← to_phys qh;
      buf_phys ← to_phys data_vaddr;
      let pid := if truthy dir_in then PID_IN else PID_OUT in
      update_mem (λ m, build_bulk_qtd m qtd buf_phys len pid);;
      link ← read32 (horiz_link head);
      update_mem (λ m, build_bulk_qh m qh qtd devaddr (Z.land ep_addr 0x0F) link);;
      write32 (horiz_link head) (Z.lor (u32 qh_phys) 0x2);;
      start ← get_time_ms;
      wait_bulk fuel qh page_phys start timeout_ms.

(** [while (USBSTS & (1 << 15) && timeout_ctr--) udelay(10);] *)
Fixpoint wait_async_off (n : nat) : U unit :=
  v ← op_read USBSTS;
  if truthy (Z.land v (Z.shiftl 1 15)) then
    match n with O => mret tt | S n => udelay 10;; wait_async_off n end
  else mret tt.
Definition ehci_flush_async : U Z :=
  op_clear USBCMD (Z.shiftl 1 5);;
  udelay 50;;
  wait_async_off (Z.to_nat 10000);;
  v ← op_read USBSTS;
  mret (if truthy (Z.land v (Z.shiftl 1 15)) then -1 else 0).
Definition ehci_run_async : U unit :=
  head ← gets async_list_head;
  op_write ASYNCLISTADDR (u32 head);;
  udelay 20;;
  op_set USBCMD (Z.shiftl 1 5);;
  udelay 20.

(** ** Control transfers *)

Fixpoint five_pages (n : nat) (m : gmap Z Z) (q i buf : Z) : gmap Z Z :=
  match n with O => m | S n => five_pages n (store32 m (qtd_buffer q i) (u32 buf)) q (i + 1) (u64 (buf + 4096)) end.
Definition build_control (m : gmap Z Z) (mem phys_mem devaddr : Z) (setup : usb_setup) (data_buf data_len : Z) : gmap Z Z :=
  let qh := mem in
  let qtd_setup := mem + 64 in
  let qtd_data := mem + 128 in
  let qtd_status := mem + 192 in
  let m := memset m qh 0 sizeof_qh in
  let m := memset m qtd_setup 0 sizeof_qtd in
  let m := memset m qtd_data 0 sizeof_qtd in
  let m := memset m qtd_status 0 sizeof_qtd in
  let m := store32 m (qtd_next qtd_setup) (u32 (phys_mem + 128)) in
  let m := store32 m (qtd_token qtd_setup) (Z.shiftl 8 16) in
  let m := put_setup m (qtd_buffer qtd_setup 0) setup in
  let m :=
    if negb (data_buf =? 0) && negb (data_len =? 0) then
      let m := store32 m (qtd_next qtd_data) (u32 (phys_mem + 192)) in
      let m := store32 m (qtd_token qtd_data) (Z.shiftl (Z.land data_len 0x7FFF) 16) in
      five_pages 5 m qtd_data 0 data_buf
    else store32 m (qtd_next qtd_setup) (u32 (phys_mem + 192)) in
  let m := store32 m (qtd_next qtd_status) 1 in
  let m := store32 m (qtd_token qtd_status) 0 in
  let m := store32 m (curr_qtd qh) 0 in
  let m := memcpy m (overlay qh) qtd_setup sizeof_qtd in
  let m := store32 m (horiz_link qh) 1 in
  let m := store32 m (ep_char qh) (Z.lor (Z.shiftl devaddr 8) (Z.shiftl 64 16)) in
  store32 m (ep_cap qh) 0.

(** The exits after the queue head became the list. *)
Definition leave_control (old_head mem_phys r : Z) : U Z :=
  set_list_head old_head;;
  on_mm (pfree mem_phys);;
  mret r.
Fixpoint wait_control (n : nat) (qh start : Z) : U bool :=
  match n with
  | O => mstop
  | S n =>
    token ← read32 (qtd_token (overlay qh));
    if truthy (Z.land token (Z.shiftl 1 7)) then
      now ← get_time_ms;
      if 5000 <? u64 (now - start) then mret false
      else udelay 100;; wait_control n qh start
    else mret true
  end.
Definition usb_control_transfer (devaddr : Z) (setup : option usb_setup) (data_buf data_len : Z) : U Z :=
  match setup with
  | None => mret (-1)
  | Some setup =>
    mem_phys ← on_mm palloc;
    if mem_phys =? 0 then mret (-2)
    else
      mem ← to_virt mem_phys;
      update_mem (λ m, memset m mem 0 4096);;
      phys_mem ← to_phys mem;
      update_mem (λ m, build_control m mem phys_mem devaddr setup data_buf data_len);;
      old_head ← gets async_list_head;
      set_list_head mem;;
      f ← ehci_flush_async;
      if truthy f then leave_control old_head mem_phys (-3)
      else
        ehci_run_async;;
        start ← get_time_ms;
        completed ← wait_control fuel mem start;
        if negb completed then leave_control old_head mem_phys (-4)
        else
          token ← read32 (qtd_token (mem + 128));
          let actual :=
            if truthy data_len && negb (truthy (Z.land token (Z.shiftl 15 3)))
            then data_len - Z.land (Z.shiftr token 16) 0x7FFF else data_len in
          leave_control old_head mem_phys actual
  end.

Definition get_descriptor (devaddr type desc_buf len : Z) : U Z :=
  usb_control_transfer devaddr (Some (mk_setup 0x80 USB_REQ_GET_DESCRIPTOR (Z.shiftl type 8) 0 len)) desc_buf len.
Definition usb_get_device_descriptor (devaddr desc_buf len : Z) : U Z := get_descriptor devaddr 0x01 desc_buf len.
Definition usb_get_config_descriptor (devaddr desc_buf len : Z) : U Z := get_descriptor devaddr 0x02 desc_buf len.
Definition usb_set_address (new_addr : Z) : U Z :=
  rc ← usb_control_transfer 0 (Some (mk_setup 0x00 USB_REQ_SET_ADDRESS new_addr 0 0)) 0 0;
  mwhen (rc =? 0) (udelay 2000);;
  mret rc.
Definition usb_set_configuration (devaddr config_value : Z) : U Z :=
  usb_control_transfer devaddr (Some (mk_setup 0x00 USB_REQ_SET_CONFIGURATION config_value 0 0)) 0 0.
Definition usb_msd_reset (devaddr iface_num : Z) : U Z :=
  usb_control_transfer devaddr (Some (mk_setup 0x21 0xFF 0 iface_num 0)) 0 0.

(** ** Enumeration *)

Definition set_bulk_in (e : usb_endpoint) (d : usb_device) : usb_device :=
  mk_usb_device (address d) (config_value d) e (bulk_out d) (iface_number d).
Definition set_bulk_out (e : usb_endpoint) (d : usb_device) : usb_device :=
  mk_usb_device (address d) (config_value d) (bulk_in d) e (iface_number d).
Definition set_iface (n : Z) (d : usb_device) : usb_device :=
  mk_usb_device (address d) (config_value d) (bulk_in d) (bulk_out d) n.
Definition set_address (a : Z) (d : usb_device) : usb_device :=
  mk_usb_device a (config_value d) (bulk_in d) (bulk_out d) (iface_number d).
Definition set_config (c : Z) (d : usb_device) : usb_device :=
  mk_usb_device (address d) c (bulk_in d) (bulk_out d) (iface_number d).

(** One descriptor at [ptr]: interface (9 bytes) or endpoint (7 bytes). *)
Definition is_msd_interface (m : gmap Z Z) (ptr : Z) : bool :=
  (load8 m (ptr + 5) =? USB_CLASS_MASS_STORAGE) && (load8 m (ptr + 6) =? USB_SUBCLASS_SCSI) &&
  (load8 m (ptr + 7) =? USB_PROTOCOL_BULK_ONLY).
Definition parse_one (m : gmap Z Z) (ptr : Z) (out_dev : usb_device) (found_msd : bool) : usb_device * bool :=
  let len := load8 m ptr in
  let type := load8 m (ptr + 1) in
  if (type =? 0x04) && (9 <=? len) then
    if is_msd_interface m ptr then (set_iface (load8 m (ptr + 2)) out_dev, true) else (out_dev, found_msd)
  else if (type =? 0x05) && (7 <=? len) then
    if found_msd && (Z.land (load8 m (ptr + 3)) 0x03 =? 0x02) then
      let e := mk_endpoint (load8 m (ptr + 2)) (load16 m (ptr + 4)) (load8 m (ptr + 3)) in
      if truthy (Z.land (load8 m (ptr + 2)) 0x80) then (set_bulk_in e out_dev, found_msd)
      else (set_bulk_out e out_dev, found_msd)
    else (out_dev, found_msd)
  else (out_dev, found_msd).
(** [while (ptr < end)]; [None] when the fuel runs out. *)
Fixpoint parse_descriptors (n : nat) (m : gmap Z Z) (ptr end_ : Z) (out_dev : usb_device) (found_msd : bool) : option (usb_device * bool) :=
  if ptr <? end_ then
    match n with
    | O => None
    | S n =>
      let len := load8 m ptr in
      if len <? 2 then Some (out_dev, found_msd)
      else let '(d, f) := parse_one m ptr out_dev found_msd in parse_descriptors n m (ptr + len) end_ d f
    end
  else Some (out_dev, found_msd).

Definition find_mass_storage_device (out_dev : usb_device) : U (Z * usb_device) :=
  desc_buf_phys ← on_mm palloc;
  if desc_buf_phys =? 0 then mret (-1, out_dev)
  else
    desc_buf ← to_virt desc_buf_phys;
    let leave r d := on_mm (pfree desc_buf_phys);; mret (r, d) in
    update_mem (λ m, memset m desc_buf 0 4096);;
    res ← usb_get_device_descriptor 0 desc_buf 18;
    if truthy res then leave (-100 - res) out_dev
    else
      r ← usb_set_address 1;
      if truthy r then leave (-3) out_dev
      else
        let out_dev := set_address 1 out_dev in
        r ← usb_get_config_descriptor 1 desc_buf 9;
        if truthy r then leave (-4) out_dev
        else
          wTotalLength ← gets (λ s, load16 (Pmm.mem (mm s)) (desc_buf + 2));
          let total_len := if 1024 <? wTotalLength then 1024 else wTotalLength in
          r ← usb_get_config_descriptor 1 desc_buf total_len;
          if truthy r then leave (-5) out_dev
          else
            m ← gets (λ s, Pmm.mem (mm s));
            let out_dev := set_config (load8 m (desc_buf + 5)) out_dev in
            '(out_dev, found_msd) ← of_option (parse_descriptors fuel m (desc_buf + 9) (desc_buf + total_len) out_dev false);
            on_mm (pfree desc_buf_phys);;
            if negb found_msd then mret (-6, out_dev)
            else
              r ← usb_set_configuration (address out_dev) (config_value out_dev);
              if truthy r then mret (-7, out_dev)
              else
                udelay 100000;;
                usb_msd_reset (address out_dev) (iface_number out_dev);;
                udelay 100000;;
                mret (0, out_dev).

(** ** Mass storage *)

Definition msd_send_cbw (dev : usb_device) (cbw_buf : Z) : U Z :=
  ehci_submit_bulk_simple (address dev) (ep_addr (bulk_out dev)) cbw_buf 31 0 1000.
Definition msd_receive_csw (dev : usb_device) (csw_buf : Z) : U Z :=
  ehci_submit_bulk_simple (address dev) (ep_addr (bulk_in dev)) csw_buf 13 1 1000.

Definition sizeof_CBW : Z := 31.
Definition sizeof_CSW : Z := 13.
(** [cb[6]] keeps the zero of the memset. *)
Definition build_cbw (m : gmap Z Z) (cbw tag lba : Z) : gmap Z Z :=
  let m := store32 m cbw CBW_SIGNATURE in
  let m := store32 m (cbw + 4) tag in
  let m := store32 m (cbw + 8) 512 in
  let m := store8 m (cbw + 12) 0x80 in
  let m := store8 m (cbw + 13) 0 in
  let m := store8 m (cbw + 14) 10 in
  let cb i := cbw + 15 + i in
  let m := store8 m (cb 0) SCSI_READ10 in
  let m := store8 m (cb 1) 0 in
  let m := store8 m (cb 2) (Z.land (Z.shiftr lba 24) 0xFF) in
  let m := store8 m (cb 3) (Z.land (Z.shiftr lba 16) 0xFF) in
  let m := store8 m (cb 4) (Z.land (Z.shiftr lba 8) 0xFF) in
  let m := store8 m (cb 5) (Z.land lba 0xFF) in
  let m := store8 m (cb 7) 0 in
  store8 m (cb 8) 1.
Definition msd_read_sector (dev : usb_device) (lba buf_vaddr : Z) : U Z :=
  page_phys ← on_mm palloc;
  if page_phys =? 0 then mret (-1)
  else
    cbw ← to_virt page_phys;
    let csw := cbw + ALIGN_UP sizeof_CBW 16 in
    let leave r := on_mm (pfree page_phys);; mret r in
    update_mem (λ m, memset m cbw 0 sizeof_CBW);;
    tag ← next_tag;
    update_mem (λ m, build_cbw m cbw tag lba);;
    r ← msd_send_cbw dev cbw;
    if truthy r then leave (-2)
    else
      r ← ehci_submit_bulk_simple (address dev) (ep_addr (bulk_in dev)) buf_vaddr 512 1 1000;
      if truthy r then leave (-3)
      else
        update_mem (λ m, memset m csw 0 sizeof_CSW);;
        r ← msd_receive_csw dev csw;
        if truthy r then leave (-4)
        else
          m ← gets (λ s, Pmm.mem (mm s));
          if negb (load32 m csw =? CSW_SIGNATURE) then leave (-5)
          else if negb (load32 m (csw + 4) =? load32 m (cbw + 4)) then leave (-6)
          else if negb (load8 m (csw + 12) =? 0) then leave (-7)
          else leave 0.
End transfers.

(** ** Start-up *)

Section startup.
Context {H : Type} `{Bus H}.
Abbreviation U := (M (usb H)).
Context (get_time_ms : U Z) (udelay : Z → U unit) (fuel : nat).

(** Number of ports, base, and the operational registers; [None] for a null pointer. *)
Definition pci_map_ehci_mmio (bar0_virt : Z) : U (option (Z * Z * Z)) :=
  if bar0_virt =? 0 then mret None
  else
    cap ← on_hc (reg_read bar0_virt);
    hcsparams ← on_hc (reg_read (bar0_virt + 4));
    set_ehci bar0_virt;;
    mret (Some (HCSPARAMS_N_PORTS hcsparams, bar0_virt, u64 (bar0_virt + u8 cap))).

Definition read_sector0_example (dev : usb_device) : U Z :=
  mmio ← pci_map_ehci_mmio 0;
  match mmio with
  | None => mret (-1)
  | Some (ports, _, op) =>
    set_ehci op;;
    r ← ehci_init_simple get_time_ms udelay fuel;
    if truthy r then mret (-2)
    else
      ehci_power_on_ports udelay ports;;
      '(r, _) ← ehci_find_and_reset_device get_time_ms udelay fuel;
      if truthy r then mret (-3)
      else
        '(r, dev) ← find_mass_storage_device get_time_ms udelay fuel dev;
        if truthy r then mret (-4)
        else
          sector_buf_phys ← on_mm palloc;
          if sector_buf_phys =? 0 then mret (-5)
          else
            sector_buf ← to_virt sector_buf_phys;
            update_mem (λ m, memset m sector_buf 0 512);;
            rc ← msd_read_sector get_time_ms udelay fuel dev 0 sector_buf;
            on_mm (pfree sector_buf_phys);;
            mret (if truthy rc then rc - 5 else 0)
  end.

(** [while (!( *a & bits));] and [while ( *a & bits);] on a register. *)
Fixpoint spin_until (n : nat) (ready : U bool) : U unit :=
  match n with
  | O => mstop
  | S n => r ← ready; if r then mret tt else spin_until n ready
  end.
Definition ehci_init (phys_mmio : Z) : U unit :=
  cap ← to_virt phys_mmio;
  caplength ← on_hc (reg_read cap);
  let op := u64 (cap + u8 caplength) in
  let get r := on_hc (reg_read (op + r)) in
  let put r v := on_hc (reg_write (op + r) v) in
  on_hc (reg_read cap);;
  v ← get USBCMD; put USBCMD (Z.land v (cnot 32 1));;
  spin_until fuel (v ← get USBSTS; mret (truthy (Z.land v (Z.shiftl 1 12))));;
  v ← get USBCMD; put USBCMD (Z.lor v (Z.shiftl 1 1));;
  spin_until fuel (v ← get USBCMD; mret (negb (truthy (Z.land v (Z.shiftl 1 1)))));;
  qh_phys ← on_mm palloc;
  qh ← to_virt qh_phys;
  update_mem (λ m, memset m qh 0 4096);;
  write32 qh (u32 (Z.lor qh_phys 0x2));;
  write32 (qh + 4) (Z.shiftl 1 30);;
  write32 (qh + 8) 1;;
  put ASYNCLISTADDR (u32 qh_phys);;
  v ← get USBCMD; put USBCMD (Z.lor v (Z.shiftl 1 5));;
  v ← get USBCMD; put USBCMD (Z.lor v 1);;
  put CONFIGFLAG 1.

(** [for (off = 0; off < size; off += 0x1000)] *)
Fixpoint map_registers (n : nat) (phys off size : Z) : U unit :=
  if off <? size then
    match n with
    | O => mstop
    | S n =>
      on_mm (map_page (u64 (phys + off)) (u64 (phys + off))
        (Z.lor (Z.lor (Z.lor PTE_PRESENT PTE_WRITABLE) PTE_CACHE_DISABLE) PTE_WRITE_THROUGH));;
      map_registers n phys (off + 0x1000) size
    end
  else mret tt.
Definition ehci_pci_init (bus dev func : Z) : U unit :=
  bar0 ← on_hc (pci_read bus dev func 0x10);
  if truthy (Z.land bar0 0x1) then mret tt
  else
    let phys := Z.land bar0 0xFFFFFFF0 in
    size ← on_hc (pci_get_bar_size bus dev func 0x10);
    map_registers fuel phys 0 size;;
    ehci_init phys.
End startup.
