(* ===== verification/EhciMem.v ===== *)
(** * Frames and transfer structures of the EHCI driver

    The frame allocator as the driver uses it, and what the queue heads and
    descriptors it builds hold. *)

From stdpp Require Import prelude gmap list numbers tactics.
From S2P Require Import Prelude Memory Pmm Vmm Io Ehci.

(** ** The frame allocator *)

(** A memory manager with [l] free, [T] frames in all, and the direct map at [off]. *)
Definition mmok (off T : Z) (l : list Z) (x : mm_state) : Prop :=
  pmm_ok x l ∧ hhdm_response x = off ∧ hhdm_offset x = off ∧ pmm_total_pages x = T.

(** A change of memory that leaves the headers of the free frames alone. *)
Definition clear_of (l : list Z) (P : Z → Prop) : Prop := ∀ b i, b ∈ l → b <= i < b + 16 → ¬ P i.
Lemma mmok_mem off T l x m P : mmok off T l x → same_outside P (Pmm.mem x) m → clear_of l P → mmok off T l (set_mem (λ _, m) x).
Proof.
  intros [HO HE] Hs Hc. split; [|exact HE]. destruct HO as [H1 H2 H3 H4 H5]. split; try done. cbn.
  eapply flist_frame; [|exact H1]. intros b Hb. split; apply loadn_ext; intros i Hi; apply Hs, (Hc b); (done || lia).
Qed.

Lemma wp_both {S A} (c : M S A) P Q s : wp c P s → wp c Q s → wp c (λ a s', P a s' ∧ Q a s') s.
Proof. unfold wp. destruct (c s) as [[a s']|]; done. Qed.

Lemma pfree_offset p x : wp (pfree p) (λ _ x', hhdm_offset x' = hhdm_offset x) x.
Proof. unfold pfree. wp_steps. done. Qed.

Section frames.
Context {H : Type}.
Implicit Types (h : H) (x : mm_state).

Lemma alloc_spec off T a l x h e hd hp tg (Q : Z → usb H → Prop) : mmok off T (a :: l) x →
  (∀ x', mmok off T l x' → Pmm.mem x' = Pmm.mem x → Q (a - off) (mk_usb x' h e hd hp tg)) →
  wp (on_mm palloc) Q (mk_usb x h e hd hp tg).
Proof.
  intros (HO & Hr & Ho & HT) HQ. apply wp_zoom. eapply wp_mono; [exact (palloc_spec x (a :: l) HO)|].
  intros r x' (-> & HO' & Hm & Hr' & Ho' & _ & HT'). rewrite Hr. apply HQ; [|done]. split_and!; [done|congruence..].
Qed.
Lemma alloc_none off T x h e hd hp tg (Q : Z → usb H → Prop) : mmok off T [] x → Q 0 (mk_usb x h e hd hp tg) →
  wp (on_mm palloc) Q (mk_usb x h e hd hp tg).
Proof. intros (HO & _) HQ. apply wp_zoom. eapply wp_mono; [exact (palloc_spec x [] HO)|]. by intros r x' [-> ->]. Qed.
Lemma free_spec off T a l x h e hd hp tg (Q : unit → usb H → Prop) : mmok off T l x → frame off a → a ∉ l → Z.of_nat (length l) < T →
  (∀ x', mmok off T (a :: l) x' → same_outside (λ i, a <= i < a + 16) (Pmm.mem x) (Pmm.mem x') → Q tt (mk_usb x' h e hd hp tg)) →
  wp (on_mm (pfree (a - off))) Q (mk_usb x h e hd hp tg).
Proof.
  intros (HO & <- & Ho & <-) Ha Hn Hl HQ. apply wp_zoom. assert (a - hhdm_response x + hhdm_response x = a) as Ea by lia.
  pose proof (pfree_spec x l (a - hhdm_response x) HO) as Hf. rewrite Ea in Hf.
  eapply wp_mono; [apply wp_both; [by apply Hf|apply pfree_offset]|].
  intros [] x' ((HO' & HT' & Hr' & Hm) & Ho'). cbn [mm] in Ho'. apply HQ.
  - split_and!; [done|congruence..].
  - intros i Hi. apply Hm. lia.
Qed.
Lemma virt_spec off T l p x h e hd hp tg (Q : Z → usb H → Prop) : mmok off T l x → Q (u64 (p + off)) (mk_usb x h e hd hp tg) →
  wp (to_virt p) Q (mk_usb x h e hd hp tg).
Proof. intros (_ & _ & Ho & _) HQ. apply wp_zoom, wp_gets. cbn [mm]. by rewrite Ho. Qed.
Lemma phys_spec off T l v x h e hd hp tg (Q : Z → usb H → Prop) : mmok off T l x → Q (u64 (v - off)) (mk_usb x h e hd hp tg) →
  wp (to_phys v) Q (mk_usb x h e hd hp tg).
Proof. intros (_ & _ & Ho & _) HQ. apply wp_zoom, wp_gets. cbn [mm]. by rewrite Ho. Qed.
Lemma update_spec off T l P f x h e hd hp tg (Q : unit → usb H → Prop) : mmok off T l x → same_outside P (Pmm.mem x) (f (Pmm.mem x)) → clear_of l P →
  (∀ x', mmok off T l x' → Pmm.mem x' = f (Pmm.mem x) → Q tt (mk_usb x' h e hd hp tg)) →
  wp (update_mem f) Q (mk_usb x h e hd hp tg).
Proof.
  intros HO Hs Hc HQ. apply wp_zoom, wp_modify. cbn [mm hc ehci async_list_head async_list_head_phys global_tag].
  change (set_mem f x) with (set_mem (λ _, f (Pmm.mem x)) x). apply HQ; [by eapply mmok_mem|done].
Qed.
End frames.

(** A page that is not on the list is clear of it. *)
Lemma page_clear off T l x a P : mmok off T l x → frame off a → a ∉ l → (∀ i, P i → a <= i < a + 4096) → clear_of l P.
Proof.
  intros (HO & Hr & _) Ha Hn HP b i Hb Hi HPi. pose proof (pk_frames _ _ HO b Hb) as Hf. rewrite Hr in Hf.
  destruct (frames_apart off a b Ha Hf) as [?|?]; [by intros ->|..]; specialize (HP i HPi); lia.
Qed.

(** ** Loads after stores *)

Lemma same_outside_trans (P : Z → Prop) m1 m2 m3 : same_outside P m1 m2 → same_outside P m2 m3 → same_outside P m1 m3.
Proof. intros H1 H2 x Hx. by rewrite H2, H1. Qed.
Lemma same_outside_weaken (P Q : Z → Prop) m m' : (∀ x, P x → Q x) → same_outside P m m' → same_outside Q m m'.
Proof. intros HPQ Hs x Hx. apply Hs. naive_solver. Qed.
Lemma storen_outside n m a v : same_outside (λ x, a <= x < a + Z.of_nat n) m (storen n m a v).
Proof. intros x Hx. apply load8_storen_out. lia. Qed.
Lemma store8_outside m a v : same_outside (λ x, a <= x < a + 1) m (store8 m a v).
Proof. intros x Hx. apply load8_store8_ne. lia. Qed.
Lemma memset_outside m a v n : 0 <= n → same_outside (λ x, a <= x < a + n) m (memset m a v n).
Proof. intros Hn x Hx. apply memset_loop_out. lia. Qed.
Lemma memcpy_outside m d s n : 0 <= n → d + n <= s → same_outside (λ x, d <= x < d + n) m (memcpy m d s n).
Proof. intros Hn Hd x Hx. apply memcpy_spec; lia. Qed.
Lemma loadn_memset n m a k v : a <= k → k + Z.of_nat n <= a + v → loadn n (memset m a 0 v) k = 0.
Proof.
  revert k. induction n as [|n IH]; intros k Ha Hk; [done|].
  change (load8 (memset m a 0 v) k + 256 * loadn n (memset m a 0 v) (k + 1) = 0). rewrite IH by lia.
  unfold memset. rewrite memset_loop_in by lia. done.
Qed.
Lemma loadn_memcpy n m d s len k : d + len <= s → 0 <= k → k + Z.of_nat n <= len → loadn n (memcpy m d s len) (d + k) = loadn n m (s + k).
Proof.
  intros Hd Hk Hn. destruct (memcpy_spec m d s len) as [Hin _]; [lia|lia|]. revert k Hk Hn. induction n as [|n IH]; intros k Hk Hn; [done|].
  change (load8 (memcpy m d s len) (d + k) + 256 * loadn n (memcpy m d s len) (d + k + 1) = load8 m (s + k) + 256 * loadn n m (s + k + 1)).
  rewrite Hin by lia. rewrite <- !Z.add_assoc, IH by lia. done.
Qed.

(** A value that ends in zeros has none of the low bits. *)
Lemma land_scaled n c k : 0 <= k → 0 <= c < 2 ^ k → Z.land (n * 2 ^ k) c = 0.
Proof.
  intros Hk Hc. rewrite <- Z.shiftl_mul_pow2 by lia. apply Z.bits_inj'. intros i Hi. rewrite Z.land_spec, Z.bits_0.
  destruct (Z.lt_ge_cases i k); [by rewrite Z.shiftl_spec_low|]. by rewrite (testbit_high k c i), andb_false_r.
Qed.

(** ** Bulk transfers *)

(** What the controller reads of a queue head of one transfer. *)
Record queue_head (m : gmap Z Z) (q link char token buf : Z) : Prop := {
  qh_link : load32 m q = link;
  qh_char : load32 m (q + 4) = char;
  qh_token : load32 m (q + 24) = token;
  qh_buffer : load32 m (q + 28) = buf
}.
Definition bulk_char (devaddr ep : Z) : Z := Z.lor (Z.lor (Z.lor devaddr (Z.shiftl ep 8)) (Z.shiftl 512 16)) (Z.shiftl 2 12).
Definition bulk_token (len pid : Z) : Z :=
  u32 (Z.lor (Z.lor (Z.lor (Z.shiftl 1 7) (u64 (Z.shiftl len 16))) (Z.shiftl 3 10)) (Z.shiftl pid 8)).

Ltac solve_outside := repeat (eapply same_outside_trans; [|first [apply storen_outside|apply store8_outside|apply memset_outside; lia|apply memcpy_outside; lia]]).

Lemma build_bulk_spec m q devaddr ep link buf len pid : 0 <= len <= 4096 → 0 <= link < 2 ^ 32 → 0 <= buf < 2 ^ 32 → 0 <= bulk_char devaddr ep < 2 ^ 32 →
  let m' := build_bulk_qh (build_bulk_qtd m (q + 64) buf len pid) q (q + 64) devaddr ep link in
  queue_head m' q link (bulk_char devaddr ep) (bulk_token len pid) buf ∧ same_outside (λ x, q <= x < q + 96) m m'.
Proof.
  intros Hl Hlink Hbuf Hchar. unfold build_bulk_qtd, build_bulk_qh, horiz_link, ep_char, ep_cap, curr_qtd, overlay, qtd_next, qtd_alt_next, qtd_token, qtd_buffer, sizeof_qtd.
  cbv zeta. cbn [more_pages]. change (1 * 4096) with 4096. rewrite (proj2 (Z.ltb_ge 4096 len)) by lia. fold (bulk_char devaddr ep) (bulk_token len pid).
  assert (0 <= bulk_token len pid < 2 ^ 32) as Ht by (apply wrap_range; lia). cbv zeta. rewrite (wrap_small 32 buf) by lia. split.
  - split.
    + rewrite loadn_storen_eq. by apply Z.mod_small.
    + rewrite loadn_storen_ne by lia. rewrite (loadn_ext 4 _ _ (q + 4)) by (intros i Hi; apply memcpy_outside; lia).
      rewrite !(loadn_storen_ne 4 4 _ _ (q + 4)) by lia. rewrite loadn_storen_eq. by apply Z.mod_small.
    + rewrite loadn_storen_ne by lia. replace (q + 24) with (q + 16 + 8) by lia. rewrite loadn_memcpy by lia.
      rewrite !(loadn_storen_ne 4 4 _ _ (q + 64 + 8)) by lia. rewrite loadn_storen_eq. by apply Z.mod_small.
    + rewrite loadn_storen_ne by lia. replace (q + 28) with (q + 16 + 12) by lia. rewrite loadn_memcpy by lia.
      rewrite !(loadn_storen_ne 4 4 _ _ (q + 64 + 12)) by lia. replace (q + 64 + 12 + 4 * 0) with (q + 64 + 12) by lia. rewrite loadn_storen_eq. by apply Z.mod_small.
  - intros x Hx. rewrite load8_storen_out by lia. rewrite (memcpy_outside _ (q + 16) (q + 64) 32) by lia.
    rewrite !load8_storen_out by lia. done.
Qed.
Lemma build_bulk_qtd_outside m qtd buf len pid : len <= 4096 → same_outside (λ x, qtd <= x < qtd + 32) m (build_bulk_qtd m qtd buf len pid).
Proof.
  intros Hl x Hx. unfold build_bulk_qtd, qtd_next, qtd_alt_next, qtd_token, qtd_buffer. cbv zeta. cbn [more_pages].
  change (1 * 4096) with 4096. rewrite (proj2 (Z.ltb_ge 4096 len)) by lia. by rewrite !load8_storen_out by lia.
Qed.
Lemma build_bulk_qh_outside m q devaddr ep link : same_outside (λ x, q <= x < q + 64) m (build_bulk_qh m q (q + 64) devaddr ep link).
Proof.
  intros x Hx. unfold build_bulk_qh, horiz_link, ep_char, ep_cap, curr_qtd, overlay, sizeof_qtd. cbv zeta.
  rewrite load8_storen_out by lia. rewrite (memcpy_outside _ (q + 16) (q + 64) 32) by lia. by rewrite !load8_storen_out by lia.
Qed.
