(* ===== verification/EhciHc.v ===== *)
(** * A host controller with its asynchronous schedule, as a device for [Ehci]

    The EHCI standard's contract for what the driver uses: the command and
    status registers with the polls they take to follow a command, and, whenever
    time passes while the schedule is on, one pass over the ring of queue heads:
    an active transfer is offered to the device, its data moves between the
    device and the memory the buffer pointers name, and its token is retired,
    halted or left for the next pass.  The controller sees memory at physical
    addresses.  Control endpoints and the ports' electrical state are not in
    this model. *)

From stdpp Require Import prelude gmap list numbers tactics.
From S2P Require Import Prelude Memory Pmm Io Ehci.

(** What a device does with a packet. *)
Inductive answer := Nak | Stall | Ack | Data (toggle : bool) (bytes : list Z).
Class Device (D : Type) := {
  dev_out : Z → Z → bool → list Z → D → answer * D;      (* address, endpoint, toggle, data *)
  dev_in : Z → Z → D → answer * D
}.

(** ** Transfers

    [off] is the direct map: the memory of physical address [a] is at [off + a].
    [q] below is the memory address of a queue head. *)

Section transfer.
Context {D : Type} `{Device D} (off : Z).

Definition token_of (m : gmap Z Z) (q : Z) : Z := load32 m (q + 24).
Definition active (token : Z) : bool := Z.testbit token 7 && negb (Z.testbit token 6).
Definition total_of (token : Z) : Z := token / 2 ^ 16 mod 2 ^ 15.
Definition pid_of (token : Z) : Z := token / 2 ^ 8 mod 4.
Definition toggle_of (token : Z) : bool := Z.testbit token 31.
Definition address_of (char : Z) : Z := char mod 2 ^ 7.
Definition endpoint_of (char : Z) : Z := char / 2 ^ 8 mod 2 ^ 4.
Definition packet_of (char : Z) : Z := char / 2 ^ 16 mod 2 ^ 11.

(** Memory of the [k]-th byte of the transfer. *)
Definition byte_of (m : gmap Z Z) (q k : Z) : Z :=
  let o := load32 m (q + 28) mod 4096 + k in
  let page := load32 m (q + 28 + 4 * (o / 4096)) in
  off + (page - page mod 4096 + o mod 4096).
Definition out_bytes (m : gmap Z Z) (q : Z) (n : nat) : list Z := map (λ i, load8 m (byte_of m q (Z.of_nat i))) (seq 0 n).
Fixpoint in_bytes (m0 m : gmap Z Z) (q k : Z) (l : list Z) : gmap Z Z :=
  match l with [] => m | c :: l => in_bytes m0 (store8 m (byte_of m0 q k) c) q (k + 1) l end.

(** The token of a transfer that moved [n] bytes, and of a failed one. *)
Definition retire (char token n : Z) : Z :=
  let packets := Z.max 1 ((n + packet_of char - 1) / packet_of char) in
  let toggle := xorb (toggle_of token) (Z.odd packets) in
  Z.b2z toggle * 2 ^ 31 + (total_of token - n) * 2 ^ 16 + (token mod 2 ^ 16 - 2 ^ 7).
Definition halt (token : Z) : Z := token - 2 ^ 7 + 2 ^ 6.

Definition run_packet (m : gmap Z Z) (q : Z) (d : D) : gmap Z Z * D :=
  let token := token_of m q in
  let char := load32 m (q + 4) in
  let set t m := store32 m (q + 24) t in
  if negb (active token) then (m, d)
  else if pid_of token =? PID_OUT then
    match dev_out (address_of char) (endpoint_of char) (toggle_of token) (out_bytes m q (Z.to_nat (total_of token))) d with
    | (Ack, d) => (set (retire char token (total_of token)) m, d)
    | (Nak, d) => (m, d)
    | (_, d) => (set (halt token) m, d)
    end
  else if pid_of token =? PID_IN then
    match dev_in (address_of char) (endpoint_of char) d with
    | (Data t l, d) =>
      if negb (Bool.eqb t (toggle_of token)) then (m, d)     (* taken for a repetition *)
      else if Z.of_nat (length l) <=? total_of token then
        (set (retire char token (Z.of_nat (length l))) (in_bytes m m q 0 l), d)
      else (set (halt token) m, d)
    | (Nak, d) => (m, d)
    | (_, d) => (set (halt token) m, d)
    end
  else (set (halt token) m, d).

(** The ring from [a] (physical) until it closes or ends. *)
Fixpoint walk (n : nat) (m : gmap Z Z) (a first : Z) (d : D) : gmap Z Z * D :=
  match n with
  | O => (m, d)
  | S n =>
    let '(m, d) := run_packet m (off + a) d in
    let link := load32 m (off + a) in
    let next := link - link mod 32 in
    if Z.odd link || (next =? first) then (m, d) else walk n m next first d
  end.
End transfer.

(** ** Registers *)

Record ehc (D : Type) := mk_ehc {
  base : Z; now : Z;                      (* microseconds *)
  settle : nat; slow : nat;               (* polls until the status follows *)
  run : bool; async : bool; resetting : bool;
  halted : bool; async_on : bool;         (* the status *)
  alist : Z; routed : bool;
  dev : D
}.
Arguments mk_ehc {D}. Arguments base {D}. Arguments now {D}. Arguments settle {D}. Arguments slow {D}. Arguments run {D}.
Arguments async {D}. Arguments resetting {D}. Arguments halted {D}. Arguments async_on {D}. Arguments alist {D}.
Arguments routed {D}. Arguments dev {D}.

Section controller.
Context {D : Type} `{Device D}.
Implicit Types c : ehc D.

(** A poll: the status follows the command once its time is up. *)
Definition poll c : ehc D :=
  match slow c with
  | S n => mk_ehc (base c) (now c) (settle c) n (run c) (async c) (resetting c) (halted c) (async_on c) (alist c) (routed c) (dev c)
  | O => mk_ehc (base c) (now c) (settle c) O (run c) (async c) false (negb (run c)) (run c && async c) (alist c) (routed c) (dev c)
  end.
Definition command c : Z := Z.b2z (run c) + 2 * Z.b2z (resetting c) + 2 ^ 5 * Z.b2z (async c).
Definition status c : Z := 2 ^ 12 * Z.b2z (halted c) + 2 ^ 15 * Z.b2z (async_on c).
Definition write_cmd (v : Z) c : ehc D :=
  if Z.testbit v 1 then
    mk_ehc (base c) (now c) (settle c) (settle c) false false true true false 0 false (dev c)
  else
    mk_ehc (base c) (now c) (settle c) (settle c) (Z.testbit v 0) (Z.testbit v 5) (resetting c) (halted c) (async_on c) (alist c) (routed c) (dev c).
Definition write_op (r v : Z) c : ehc D :=
  if r =? USBCMD then write_cmd v c
  else if r =? ASYNCLISTADDR then
    mk_ehc (base c) (now c) (settle c) (slow c) (run c) (async c) (resetting c) (halted c) (async_on c) (v - v mod 32) (routed c) (dev c)
  else if r =? CONFIGFLAG then
    mk_ehc (base c) (now c) (settle c) (slow c) (run c) (async c) (resetting c) (halted c) (async_on c) (alist c) (Z.testbit v 0) (dev c)
  else c.
(** Capability registers in the 32 bytes before the operational ones. *)
Definition read_op (r : Z) c : Z * ehc D :=
  if r =? USBCMD then let c := poll c in (command c, c)
  else if r =? USBSTS then let c := poll c in (status c, c)
  else if r =? ASYNCLISTADDR then (alist c, c)
  else if r =? CONFIGFLAG then (Z.b2z (routed c), c)
  else if r =? -32 then (0x01000020, c)
  else (0, c).

#[export] Instance ehc_bus : Bus (ehc D) := {|
  bus_in w port c := (0, c); bus_out w port v c := c;
  mmio_read a c := read_op (a - base c) c;
  mmio_write a v c := write_op (a - base c) v c;
  msr_read r c := 0; msr_write r v c := c; cr4_read c := 0; cr4_write v c := c
|}.

(** Time passes: the clock advances, and a pass over the schedule if it is on. *)
Definition advance (us : Z) (d : D) c : ehc D :=
  mk_ehc (base c) (now c + us) (settle c) (slow c) (run c) (async c) (resetting c) (halted c) (async_on c) (alist c) (routed c) d.
Definition scheduled c : bool := run c && async c.
Definition hc_udelay (us : Z) : M (usb (ehc D)) unit := modify (λ s,
  let c := hc s in
  let '(m, d) := if scheduled c then walk (hhdm_offset (mm s)) 16 (Pmm.mem (mm s)) (alist c) (alist c) (dev c)
                 else (Pmm.mem (mm s), dev c) in
  mk_usb (set_mem (λ _, m) (mm s)) (advance us d c) (ehci s) (async_list_head s) (async_list_head_phys s) (global_tag s)).
Definition hc_time_ms : M (usb (ehc D)) Z := gets (λ s, u32 (now (hc s) / 1000)).
End controller.
