(* ===== verification/EhciBulk.v ===== *)
(** * Bulk transfers on the controller of [EhciHc]

    One pass over the ring of the list head and the driver's queue head, the
    wait of [ehci_submit_bulk_simple] for its end, and the transfers in either
    direction. *)

From stdpp Require Import prelude gmap list numbers tactics.
From S2P Require Import Prelude Memory Pmm Vmm Io AtaProps Ehci EhciMem EhciHc.

(** ** Tokens *)

Lemma bulk_token_value len pid : 0 <= len < 2 ^ 15 → pid = 0 ∨ pid = 1 → bulk_token len pid = 3200 + pid * 2 ^ 8 + len * 2 ^ 16.
Proof.
  intros Hl Hp. unfold bulk_token. rewrite (Z.shiftl_mul_pow2 len) by lia. rewrite (wrap_small 64 (len * 2 ^ 16)) by lia.
  rewrite <- !Z.lor_assoc, (Z.lor_comm (len * 2 ^ 16)), !Z.lor_assoc.
  assert (Z.lor (Z.lor (Z.shiftl 1 7) (Z.shiftl 3 10)) (Z.shiftl pid 8) = 3200 + pid * 2 ^ 8) as -> by (by destruct Hp as [-> | ->]).
  rewrite lor_add by (destruct Hp; lia). apply wrap_small. destruct Hp; lia.
Qed.
Lemma bulk_char_value devaddr ep : 0 <= devaddr < 2 ^ 7 → 0 <= ep < 2 ^ 4 → bulk_char devaddr ep = devaddr + ep * 2 ^ 8 + 2 * 2 ^ 12 + 512 * 2 ^ 16.
Proof.
  intros Hd He. unfold bulk_char. rewrite (Z.shiftl_mul_pow2 ep) by lia. rewrite <- (Z.lor_assoc _ (Z.shiftl 512 16)).
  change (Z.lor (Z.shiftl 512 16) (Z.shiftl 2 12)) with (8194 * 2 ^ 12). rewrite (lor_add 8) by lia. rewrite lor_add by lia. lia.
Qed.

Record fresh_token (token len pid : Z) : Prop := {
  ft_active : active token = true;
  ft_pid : pid_of token = pid;
  ft_total : total_of token = len;
  ft_toggle : toggle_of token = false
}.
Lemma bulk_token_fresh len pid : 0 <= len < 2 ^ 15 → pid = 0 ∨ pid = 1 → fresh_token (bulk_token len pid) len pid.
Proof.
  intros Hl Hp. rewrite bulk_token_value by done. split; unfold active, pid_of, total_of, toggle_of.
  - rewrite (bit_value _ 7 true), (bit_value _ 6 false); [done|lia| |lia|]; destruct Hp as [-> | ->]; cbn [Z.b2z]; zlia.
  - destruct Hp as [-> | ->]; zlia.
  - destruct Hp as [-> | ->]; zlia.
  - apply bit_value; [lia|]. destruct Hp as [-> | ->]; cbn [Z.b2z]; zlia.
Qed.
(** The driver's test of the active bit. *)
Lemma active_bit token : truthy (Z.land token (Z.shiftl 1 7)) = Z.testbit token 7.
Proof. change (Z.shiftl 1 7) with (2 ^ 7). rewrite testbit_b2z_pow2 by lia. by destruct (Z.testbit token 7). Qed.
Lemma error_bits len pid : 0 <= len < 2 ^ 15 → pid = 0 ∨ pid = 1 → truthy (Z.land (bulk_token len pid) 0x7E) = false.
Proof.
  intros Hl Hp. rewrite bulk_token_value by done. replace (3200 + pid * 2 ^ 8 + len * 2 ^ 16) with ((25 + pid * 2 + len * 2 ^ 9) * 2 ^ 7) by lia.
  by rewrite land_scaled.
Qed.
Lemma retired_inactive char len pid n : 0 <= len < 2 ^ 15 → pid = 0 ∨ pid = 1 → 0 <= n <= len →
  0 <= retire char (bulk_token len pid) n < 2 ^ 32 ∧ Z.testbit (retire char (bulk_token len pid) n) 7 = false.
Proof.
  intros Hl Hp Hn. unfold retire. rewrite (ft_total _ _ _ (bulk_token_fresh len pid Hl Hp)). rewrite bulk_token_value by done.
  set (b := xorb _ _). assert ((3200 + pid * 2 ^ 8 + len * 2 ^ 16) mod 2 ^ 16 = 3200 + pid * 2 ^ 8) as -> by (destruct Hp as [-> | ->]; zlia).
  assert (0 <= Z.b2z b <= 1) by (destruct b; cbn; lia). split; [destruct Hp as [-> | ->]; lia|].
  apply bit_value; [lia|]. destruct b, Hp as [-> | ->]; cbn [Z.b2z]; zlia.
Qed.
Lemma halted_inactive len pid : 0 <= len < 2 ^ 15 → pid = 0 ∨ pid = 1 →
  0 <= halt (bulk_token len pid) < 2 ^ 32 ∧ Z.testbit (halt (bulk_token len pid)) 7 = false.
Proof.
  intros Hl Hp. unfold halt. rewrite bulk_token_value by done. split; [destruct Hp as [-> | ->]; lia|].
  apply bit_value; [lia|]. destruct Hp as [-> | ->]; cbn [Z.b2z]; zlia.
Qed.

(** ** One pass *)

Section pass.
Context {D : Type} `{Device D} (off : Z).
Implicit Types (m : gmap Z Z) (d : D) (c : ehc D) (x : mm_state).

(** A list head [hp] alone, linked to itself and with nothing to do. *)
Record idle_list m (hp : Z) : Prop := {
  il_link : load32 m (off + hp) = hp + 2;
  il_token : active (load32 m (off + hp + 24)) = false
}.
(** The driver's queue head [q] behind it. *)
Record two_ring m (hp q : Z) : Prop := {
  tr_link : load32 m (off + hp) = q - off + 2;
  tr_token : active (load32 m (off + hp + 24)) = false;
  tr_back : load32 m q = hp + 2
}.
Definition page_of (a : Z) : Prop := 0 <= a ∧ a mod 4096 = 0 ∧ a + 4096 <= 2 ^ 32.

Lemma next_link a : page_of a → Z.odd (a + 2) = false ∧ a + 2 - (a + 2) mod 32 = a.
Proof.
  intros (H0 & Hm & _). split; [|zlia]. rewrite <- Z.negb_even. apply negb_false_iff, Z.even_spec. exists (a / 2 + 1). zlia.
Qed.
Lemma walk_step n m a first d : walk off (S n) m a first d =
  let '(m, d) := run_packet off m (off + a) d in
  let link := load32 m (off + a) in
  if Z.odd link || (link - link mod 32 =? first) then (m, d) else walk off n m (link - link mod 32) first d.
Proof. done. Qed.
Lemma execute_idle m q d : active (load32 m (q + 24)) = false → run_packet off m q d = (m, d).
Proof. intros Hq. unfold run_packet, token_of. by rewrite Hq. Qed.
Lemma walk_ring m hp q d m1 d1 : two_ring m hp q → page_of hp → page_of (q - off) → q - off ≠ hp →
  run_packet off m q d = (m1, d1) → load32 m1 q = hp + 2 → walk off 16 m hp hp d = (m1, d1).
Proof.
  intros [H1 H2 H3] Hh Hq Hne He Hl. rewrite walk_step, execute_idle by done. cbv beta iota zeta.
  rewrite H1. destruct (next_link _ Hq) as [-> ->]. rewrite (proj2 (Z.eqb_neq _ _) Hne). cbn [orb].
  rewrite walk_step. replace (off + (q - off)) with q by lia. rewrite He. cbv beta iota zeta. rewrite Hl. destruct (next_link _ Hh) as [-> ->]. by rewrite Z.eqb_refl.
Qed.

(** [k] passes that change nothing but the device. *)
Fixpoint passes m (q : Z) (k : nat) d d' : Prop :=
  match k with O => d' = d | S k => ∃ d1, run_packet off m q d = (m, d1) ∧ passes m q k d1 d' end.

Lemma advance_twice us us' d d' c : advance us' d' (advance us d c) = advance (us + us') d' c.
Proof. unfold advance. cbn. f_equal. lia. Qed.
Lemma set_mem_same x : set_mem (λ _, Pmm.mem x) x = x.
Proof. by destruct x. Qed.

Lemma udelay_ring us x c e hd hp tg q m1 d1 (Q : unit → usb (ehc D) → Prop) : hhdm_offset x = off → scheduled c = true → two_ring (Pmm.mem x) (alist c) q →
  page_of (alist c) → page_of (q - off) → q - off ≠ alist c → run_packet off (Pmm.mem x) q (dev c) = (m1, d1) → load32 m1 q = alist c + 2 →
  Q tt (mk_usb (set_mem (λ _, m1) x) (advance us d1 c) e hd hp tg) → wp (hc_udelay us) Q (mk_usb x c e hd hp tg).
Proof.
  intros Ho Hs Hr Hh Hq Hne He Hl HQ. apply wp_modify. cbn [hc mm ehci async_list_head async_list_head_phys global_tag].
  rewrite Hs, Ho, (walk_ring _ _ _ _ m1 d1 Hr Hh Hq Hne He Hl). exact HQ.
Qed.

(** Elapsed milliseconds. *)
Lemma elapsed_ms t0 dt : 0 <= dt < 2 ^ 40 → u32 (u32 ((t0 + dt) / 1000) - u32 (t0 / 1000)) <= dt / 1000 + 1.
Proof.
  intros Hd. unfold wrap. rewrite <- Zminus_mod. assert (dt / 1000 <= (t0 + dt) / 1000 - t0 / 1000 <= dt / 1000 + 1) by zlia.
  assert (0 <= dt / 1000) by zlia. etransitivity; [apply Z.mod_le; lia|lia].
Qed.

Lemma wait_passes n k x c e hd hp tg q pg start timeout dk m1 d1 len pid t0 (Q : Z → usb (ehc D) → Prop) :
  hhdm_offset x = off → scheduled c = true → two_ring (Pmm.mem x) (alist c) q → page_of (alist c) → page_of (q - off) → q - off ≠ alist c →
  token_of (Pmm.mem x) q = bulk_token len pid → 0 <= len < 2 ^ 15 → pid = 0 ∨ pid = 1 →
  passes (Pmm.mem x) q k (dev c) dk → run_packet off (Pmm.mem x) q dk = (m1, d1) → load32 m1 q = alist c + 2 → Z.testbit (token_of m1 q) 7 = false →
  start = u32 (t0 / 1000) → t0 <= now c → (now c - t0) + 100 * Z.of_nat k <= 1000 * (timeout - 1) → 0 <= timeout < 2 ^ 28 → (k + 1 < n)%nat →
  wp (unlink_qh q pg 0) Q (mk_usb (set_mem (λ _, m1) x) (advance (100 * (Z.of_nat k + 1)) d1 c) e hd hp tg) →
  wp (wait_bulk hc_time_ms hc_udelay n q pg start timeout) Q (mk_usb x c e hd hp tg).
Proof.
  intros Ho Hs Hr Hh Hq Hne Htok Hlen Hpid Hp He Hl Ht -> Ht0 Htime Hto Hn HQ. revert n c Hs Hr Hh Hne Hp Hl Ht0 Htime Hn HQ.
  induction k as [|k IH]; intros n c Hs Hr Hh Hne Hp Hl Ht0 Htime Hn HQ; (destruct n as [|n]; [lia|]); cbn [wait_bulk].
  all: apply wp_bind, wp_gets; cbn [mm]; unfold qtd_token, overlay; replace (q + 16 + 8) with (q + 24) by lia.
  all: change (load32 (Pmm.mem x) (q + 24)) with (token_of (Pmm.mem x) q); rewrite Htok, active_bit.
  all: pose proof (ft_active _ _ _ (bulk_token_fresh len pid Hlen Hpid)) as Ha; unfold active in Ha; apply andb_true_iff in Ha as [-> _]; cbn [negb].
  all: rewrite error_bits by done; apply wp_bind, wp_gets; cbn [hc].
  all: pose proof (elapsed_ms t0 (now c - t0) ltac:(lia)) as Hel; replace (t0 + (now c - t0)) with (now c) in Hel by lia.
  all: assert ((now c - t0) / 1000 + 1 <= timeout) by zlia; rewrite (proj2 (Z.ltb_ge timeout _)) by lia; apply wp_bind.
  - cbn [passes] in Hp. subst dk. eapply udelay_ring; try done. destruct n as [|n]; [lia|]. cbn [wait_bulk].
    apply wp_bind, wp_gets. cbn [mm set_mem Pmm.mem]. unfold qtd_token, overlay. replace (q + 16 + 8) with (q + 24) by lia.
    change (load32 m1 (q + 24)) with (token_of m1 q). rewrite active_bit, Ht. exact HQ.
  - destruct Hp as (d2 & He2 & Hp). eapply udelay_ring; try done; [by destruct Hr|]. rewrite set_mem_same.
    apply IH; try done; [cbn; lia|cbn [now advance]; lia|lia|]. rewrite advance_twice.
    replace (100 + 100 * (Z.of_nat k + 1)) with (100 * (Z.of_nat (S k) + 1)) by lia. exact HQ.
Qed.

(** A transfer the device never ends. *)
Lemma elapsed_exact t0 dt : 0 <= dt < 2 ^ 40 → dt / 1000 <= u32 (u32 ((t0 + dt) / 1000) - u32 (t0 / 1000)).
Proof.
  intros Hd. unfold wrap. rewrite <- Zminus_mod. rewrite Z.mod_small; zlia.
Qed.
Lemma bulk_stuck n x c e hd hp tg q pg timeout len pid t0 (R : D → Prop) (Q : Z → usb (ehc D) → Prop) :
  hhdm_offset x = off → two_ring (Pmm.mem x) (alist c) q → page_of (alist c) → page_of (q - off) → q - off ≠ alist c → scheduled c = true →
  token_of (Pmm.mem x) q = bulk_token len pid → 0 <= len < 2 ^ 15 → pid = 0 ∨ pid = 1 →
  (∀ d, R d → ∃ d', run_packet off (Pmm.mem x) q d = (Pmm.mem x, d') ∧ R d') → R (dev c) →
  0 <= now c - t0 < 1000 * (timeout + 1) + 100 → 0 <= timeout < 2 ^ 28 → 1000 * (timeout + 1) + 100 <= now c - t0 + 100 * Z.of_nat n →
  (∀ us d, 0 <= us → now c - t0 + us < 1000 * (timeout + 1) + 100 → R d → wp (unlink_qh q pg (-2)) Q (mk_usb x (advance us d c) e hd hp tg)) →
  wp (wait_bulk hc_time_ms hc_udelay n q pg (u32 (t0 / 1000)) timeout) Q (mk_usb x c e hd hp tg).
Proof.
  intros Ho. revert c. induction n as [|n IH]; intros c Hr Hh Hq Hne Hs Htok Hlen Hpid HR Hc Hdt Hto Hn HQ; [lia|]. cbn [wait_bulk].
  apply wp_bind, wp_gets. cbn [mm]. unfold qtd_token, overlay. replace (q + 16 + 8) with (q + 24) by lia.
  change (load32 (Pmm.mem x) (q + 24)) with (token_of (Pmm.mem x) q). rewrite Htok, active_bit.
  pose proof (ft_active _ _ _ (bulk_token_fresh len pid Hlen Hpid)) as Ha. unfold active in Ha. apply andb_true_iff in Ha as [-> _]. cbn [negb].
  rewrite error_bits by done. apply wp_bind, wp_gets. cbn [hc].
  pose proof (elapsed_exact t0 (now c - t0) ltac:(lia)) as Hel. replace (t0 + (now c - t0)) with (now c) in Hel by lia.
  destruct (Z.ltb_spec timeout (u32 (u32 (now c / 1000) - u32 (t0 / 1000)))) as [_|Hle].
  - specialize (HQ 0 (dev c) ltac:(lia) ltac:(lia) Hc). unfold advance in HQ. rewrite Z.add_0_r in HQ. by destruct c.
  - destruct (HR _ Hc) as (d1 & He & Hd1). apply wp_bind. eapply udelay_ring; try done; [by destruct Hr|]. rewrite set_mem_same.
    assert (now c - t0 < 1000 * (timeout + 1)) by zlia.
    apply IH; try done; cbn [now advance]; try lia. intros us d Hus Hlt Hd. rewrite advance_twice. apply HQ; (done || lia).
Qed.
End pass.

(** ** [ehci_submit_bulk_simple] *)

Definition in_page (a x : Z) : Prop := a <= x < a + 4096.
Lemma link_value p : page_of p → Z.lor (u32 p) 2 = p + 2.
Proof.
  intros (H0 & Hm & H1). rewrite wrap_small by lia. rewrite Z.lor_comm. replace p with (p / 4096 * 2 ^ 12) by zlia.
  rewrite lor_add by lia. lia.
Qed.

Section bulk.
Context {D : Type} `{Device D} (off T : Z).
Implicit Types (m : gmap Z Z) (d : D) (c : ehc D) (x : mm_state).

(** The driver's situation: a free page, a running controller whose list head is
    alone on the ring, and a data buffer in one page, apart from all of these. *)
Record bulk_request (page : Z) (l : list Z) x c (hd buf len : Z) : Prop := {
  bq_mm : mmok off T (page :: l) x;
  bq_schedule : scheduled c = true ∧ alist c = hd - off;
  bq_idle : idle_list off (Pmm.mem x) (hd - off);
  bq_head : page_of (hd - off) ∧ hd ∉ page :: l ∧ frame off hd;
  bq_page : page_of (page - off) ∧ page ≠ off;
  bq_buffer : off <= buf ∧ buf - off + len <= 2 ^ 32 ∧ 0 < len ∧ (buf - off) mod 4096 + len <= 4096;
  bq_apart : ∀ i, buf <= i < buf + len → ¬ in_page hd i ∧ ¬ in_page page i;
  bq_clear : clear_of l (λ i, buf <= i < buf + len)
}.

(** How the transfer ends on the controller: after [k] passes without an answer,
    one that retires the token, having written the page and the buffer only. *)
Definition outcome (page hd buf len devaddr ep pid : Z) m (k : nat) d (Post : gmap Z Z → D → Prop) : Prop := ∀ m2,
  queue_head m2 page (hd - off + 2) (bulk_char devaddr ep) (bulk_token len pid) (buf - off) →
  (∀ i, buf <= i < buf + len → load8 m2 i = load8 m i) →
  ∃ dk m1 d1, passes off m2 page k d dk ∧ run_packet off m2 page dk = (m1, d1) ∧ load32 m1 page = hd - off + 2 ∧
    Z.testbit (token_of m1 page) 7 = false ∧ same_outside (λ i, in_page page i ∨ buf <= i < buf + len) m2 m1 ∧ Post m1 d1.

(** What is left when the call returns, after at most [lim] microseconds. *)
Record bulk_done (page : Z) (l : list Z) x c (hd buf len lim : Z) (Post : gmap Z Z → D → Prop) x' c' : Prop := {
  bd_mm : mmok off T (page :: l) x';
  bd_idle : idle_list off (Pmm.mem x') (hd - off);
  bd_ctl : ∃ us d1, c' = advance us d1 c ∧ 0 <= us <= lim ∧ ∃ m1, Post m1 d1 ∧
    same_outside (λ i, in_page page i ∨ hd <= i < hd + 4) m1 (Pmm.mem x');
  bd_rest : same_outside (λ i, in_page page i ∨ buf <= i < buf + len ∨ hd <= i < hd + 4) (Pmm.mem x) (Pmm.mem x')
}.

Lemma unlink_spec page l x c e hd hp tg r (Q : Z → usb (ehc D) → Prop) : mmok off T l x → frame off page → page ∉ l → Z.of_nat (length l) < T →
  frame off hd → hd ∉ page :: l → load32 (Pmm.mem x) page = hd - off + 2 → page_of (hd - off) →
  (∀ x', mmok off T (page :: l) x' → load32 (Pmm.mem x') hd = hd - off + 2 →
     same_outside (λ i, in_page page i ∨ hd <= i < hd + 4) (Pmm.mem x) (Pmm.mem x') → Q r (mk_usb x' c e hd hp tg)) →
  wp (unlink_qh page (page - off) r) Q (mk_usb x c e hd hp tg).
Proof.
  intros HO Hf Hn Hl Hfh Hnh Hlink (Hh0 & _ & Hh1) HQ. rewrite not_elem_of_cons in Hnh. destruct Hnh as [Hne Hnh].
  unfold unlink_qh, horiz_link. apply wp_bind, wp_gets. cbn [mm]. rewrite Hlink. apply wp_bind, wp_gets. cbn [async_list_head].
  apply wp_bind. eapply update_spec; [exact HO|apply storen_outside|eapply page_clear; try done; lia|]. intros x1 HO1 E1. cbv beta.
  apply wp_bind. eapply free_spec; try done. intros x2 HO2 Hs. apply wp_ret, HQ; [done|..].
  - rewrite (loadn_ext 4 _ (Pmm.mem x1)) by (intros i Hi; apply Hs; destruct (frames_apart off page hd Hf Hfh); [done|lia..]).
    rewrite E1, loadn_storen_eq. apply Z.mod_small. lia.
  - intros i Hi. rewrite Hs, E1; [apply load8_storen_out|]; unfold in_page in Hi; lia.
Qed.

(** The queue head is built and put behind the list head. *)
Lemma submit_build page l x c e hd hp tg buf len devaddr ep_addr dir timeout fuel (Q : Z → usb (ehc D) → Prop) :
  let pid := if truthy dir then PID_IN else PID_OUT in
  bulk_request page l x c hd buf len → hd ≠ 0 → 0 <= devaddr < 2 ^ 7 → off + 2 ^ 32 <= 2 ^ 64 →
  (∀ x', mmok off T l x' → queue_head (Pmm.mem x') page (hd - off + 2) (bulk_char devaddr (ep_addr mod 2 ^ 4)) (bulk_token len pid) (buf - off) →
     two_ring off (Pmm.mem x') (hd - off) page → same_outside (λ i, in_page page i ∨ hd <= i < hd + 4) (Pmm.mem x) (Pmm.mem x') →
     wp (wait_bulk hc_time_ms hc_udelay fuel page (page - off) (u32 (now c / 1000)) timeout) Q (mk_usb x' c e hd hp tg)) →
  wp (ehci_submit_bulk_simple hc_time_ms hc_udelay fuel devaddr ep_addr buf len dir timeout) Q (mk_usb x c e hd hp tg).
Proof.
  intros pid [Hmm _ [Hlink Htok] (Hh & Hnh & Hfh) (Hp & Hpn) (Hb0 & Hb1 & Hl0 & Hb2) _ _] Hhd Hdev Hoff HQ.
  pose proof Hmm as ([_ Hnd Hfr _ HT] & Hr & _ & HTT). apply list.NoDup_cons in Hnd as [Hnp _].
  assert (frame off page) as Hfp by (rewrite <- Hr; apply Hfr; set_solver). rewrite HTT in HT. cbn [length] in HT.
  pose proof Hfp as (Ho0 & Ho1 & Ho2 & Ho3 & Ho4 & _). pose proof Hnh as Hnh'. rewrite not_elem_of_cons in Hnh'. destruct Hnh' as [Hne Hnh'].
  pose proof Hh as (Hh0 & Hhm & Hh1). pose proof Hp as (Hp0 & Hpm & Hp1).
  assert (hd + 4096 <= page ∨ page + 4096 <= hd) as Hd by (destruct (frames_apart off page hd Hfp Hfh); [done|lia..]).
  replace (off + (hd - off)) with hd in Hlink, Htok by lia.
  assert (∀ P f y c' e' hp' tg' (Q' : unit → usb (ehc D) → Prop), mmok off T l y → same_outside P (Pmm.mem y) (f (Pmm.mem y)) → (∀ i, P i → in_page page i) →
    (∀ y', mmok off T l y' → Pmm.mem y' = f (Pmm.mem y) → Q' tt (mk_usb y' c' e' hd hp' tg')) → wp (update_mem f) Q' (mk_usb y c' e' hd hp' tg')) as Hupd.
  { intros P f y c' e' hp' tg' Q' HO HP Hin HQ'. eapply update_spec; [exact HO|exact HP|eapply page_clear; [exact HO|exact Hfp|exact Hnp|exact Hin]|exact HQ']. }
  unfold ehci_submit_bulk_simple. apply wp_bind, wp_gets. cbn [async_list_head]. rewrite (proj2 (Z.eqb_neq hd 0)) by done.
  apply wp_bind. eapply alloc_spec; [exact Hmm|]. intros x1 HO1 E1. rewrite (proj2 (Z.eqb_neq (page - off) 0)) by lia.
  apply wp_bind. eapply virt_spec; [exact HO1|]. replace (page - off + off) with page by lia. rewrite (wrap_small 64 page) by lia.
  change (ALIGN_UP sizeof_qh 64) with 64. change sizeof_qh with 64. change sizeof_qtd with 32. cbv zeta.
  apply wp_bind. eapply (Hupd _ _ x1); [exact HO1|apply memset_outside; lia|unfold in_page; lia|]. intros x2 HO2 E2. cbv beta.
  apply wp_bind. eapply (Hupd _ _ x2); [exact HO2|apply memset_outside; lia|unfold in_page; lia|]. intros x3 HO3 E3. cbv beta.
  apply wp_bind. eapply phys_spec; [exact HO3|]. rewrite (wrap_small 64 (page - off)) by lia.
  apply wp_bind. eapply phys_spec; [exact HO3|]. rewrite (wrap_small 64 (buf - off)) by lia. fold pid.
  assert (0 <= len <= 4096) as Hlen by zlia.
  apply wp_bind. eapply (Hupd _ _ x3); [exact HO3|apply build_bulk_qtd_outside; lia|unfold in_page; lia|]. intros x4 HO4 E4. cbv beta.
  assert (load32 (Pmm.mem x4) hd = hd - off + 2) as El.
  { rewrite <- Hlink, E4, <- E1. apply loadn_ext. intros i Hi. rewrite build_bulk_qtd_outside by lia.
    rewrite E3, memset_outside by lia. rewrite E2. apply memset_outside; lia. }
  apply wp_bind, wp_gets. cbn [mm]. unfold horiz_link. rewrite El.
  apply wp_bind. eapply (Hupd _ _ x4); [exact HO4|apply build_bulk_qh_outside|unfold in_page; lia|]. intros x5 HO5 E5. cbv beta.
  assert (0 <= ep_addr mod 2 ^ 4 < 2 ^ 4) as Hep by (apply Z.mod_pos_bound; lia).
  change 15 with (Z.ones 4) in E5. rewrite Z.land_ones in E5 by lia.
  destruct (build_bulk_spec (Pmm.mem x3) page devaddr (ep_addr mod 2 ^ 4) (hd - off + 2) (buf - off) len pid Hlen ltac:(lia) ltac:(lia)
    ltac:(rewrite bulk_char_value by lia; lia)) as [[HL HC HT' HB] Hs5]. rewrite <- E4, <- E5 in HL, HC, HT', HB, Hs5.
  assert (same_outside (in_page page) (Pmm.mem x) (Pmm.mem x5)) as Hs.
  { intros i Hi. unfold in_page in Hi. rewrite Hs5 by lia. rewrite E3, memset_outside by lia. rewrite E2, memset_outside by lia. by rewrite E1. }
  rewrite link_value by done. apply wp_bind. unfold write32.
  eapply update_spec; [exact HO5|apply storen_outside|eapply page_clear; [exact HO5|exact Hfh|done|lia]|]. intros x6 HO6 E6. cbv beta in E6.
  apply wp_bind, wp_gets. cbn [hc]. apply HQ; [done|split..|].
  1-4: rewrite E6, loadn_storen_ne by lia; done.
  - replace (off + (hd - off)) with hd by lia. rewrite E6, loadn_storen_eq. apply Z.mod_small. lia.
  - replace (off + (hd - off) + 24) with (hd + 24) in * by lia. rewrite <- Htok, E6, loadn_storen_ne by lia. f_equal. apply loadn_ext.
    intros i Hi. apply Hs. unfold in_page. lia.
  - rewrite E6, loadn_storen_ne by lia. done.
  - intros i Hi. unfold in_page in *. rewrite E6, load8_storen_out by lia. apply Hs. unfold in_page. lia.
Qed.

(** From the end of the wait to the caller's state. *)
Lemma finish_spec page l x c e hd hp tg buf len lim us d1 r x2 m1 Post (Q : Z → usb (ehc D) → Prop) :
  bulk_request page l x c hd buf len → mmok off T l x2 → two_ring off (Pmm.mem x2) (hd - off) page →
  same_outside (λ i, in_page page i ∨ hd <= i < hd + 4) (Pmm.mem x) (Pmm.mem x2) →
  same_outside (λ i, in_page page i ∨ buf <= i < buf + len) (Pmm.mem x2) m1 → load32 m1 page = hd - off + 2 → Post m1 d1 → 0 <= us <= lim →
  (∀ x' c', bulk_done page l x c hd buf len lim Post x' c' → Q r (mk_usb x' c' e hd hp tg)) →
  wp (unlink_qh page (page - off) r) Q (mk_usb (set_mem (λ _, m1) x2) (advance us d1 c) e hd hp tg).
Proof.
  intros Hreq HO2 Hring Hs Hs1 Hl1 HP Hus HQ. pose proof Hreq as [Hmm _ Hidle (Hh & Hnh & Hfh) (Hp & Hpn) _ Hap Hcl].
  pose proof Hmm as ([_ Hnd Hfr _ HT] & Hr & Ho & HTT). apply list.NoDup_cons in Hnd as [Hnp _]. rewrite HTT in HT. cbn [length] in HT.
  assert (frame off page) as Hfp by (rewrite <- Hr; apply Hfr; set_solver). pose proof Hnh as Hnh'. rewrite not_elem_of_cons in Hnh'. destruct Hnh' as [Hne Hnh'].
  assert (hd + 4096 <= page ∨ page + 4096 <= hd) as Hd by (pose proof Hfp as (? & ? & ? & ? & ?); destruct (frames_apart off page hd Hfp Hfh); [done|lia..]).
  assert (mmok off T l (set_mem (λ _, m1) x2)) as HO3.
  { eapply mmok_mem; [exact HO2|exact Hs1|]. intros b i Hb Hi [Hpg|Hbf]; [|by eapply Hcl].
    eapply (page_clear off T l x2 page (in_page page)); try done. }
  eapply unlink_spec; try done; [lia|]. intros x' HO' Hlk Hs'. cbn [set_mem Pmm.mem] in Hs'. apply HQ. split; [done|split|..].
  - by replace (off + (hd - off)) with hd by lia.
  - rewrite <- (il_token _ _ _ Hidle). replace (off + (hd - off) + 24) with (hd + 24) by lia. f_equal. apply loadn_ext. intros i Hi.
    rewrite Hs', Hs1, Hs; [done|..]; unfold in_page in *; try lia. intros [?|Hbi]; [lia|]. destruct (Hap i Hbi) as [Hn _]. apply Hn. unfold in_page. lia.
  - eexists _, d1. split_and!; [reflexivity|lia|lia|by exists m1].
  - intros i Hi. rewrite Hs', Hs1, Hs; unfold in_page in *; (done || lia).
Qed.

(** The call, for a device whose answers give the [outcome]. *)
Lemma submit_spec page l x c e hd hp tg buf len devaddr ep_addr dir timeout fuel k Post (Q : Z → usb (ehc D) → Prop) :
  let pid := if truthy dir then PID_IN else PID_OUT in
  bulk_request page l x c hd buf len → hd ≠ 0 → 0 <= devaddr < 2 ^ 7 → off + 2 ^ 32 <= 2 ^ 64 →
  Z.of_nat k + 10 <= 10 * timeout → timeout < 2 ^ 28 → (k + 1 < fuel)%nat →
  outcome page hd buf len devaddr (ep_addr mod 2 ^ 4) pid (Pmm.mem x) k (dev c) Post →
  (∀ x' c', bulk_done page l x c hd buf len (100 * (Z.of_nat k + 1)) Post x' c' → Q 0 (mk_usb x' c' e hd hp tg)) →
  wp (ehci_submit_bulk_simple hc_time_ms hc_udelay fuel devaddr ep_addr buf len dir timeout) Q (mk_usb x c e hd hp tg).
Proof.
  intros pid Hreq Hhd Hdev Hoff Hk Hto Hfuel Hout HQ. eapply submit_build; try done. intros x2 HO2 Hq Hring Hs.
  pose proof Hreq as [_ [Hsch Hal] _ (Hh & Hnh & Hfh) (Hp & Hpn) (Hb0 & Hb1 & Hl0 & Hb2) Hap Hcl].
  destruct (Hout (Pmm.mem x2)) as (dk & m1 & d1 & Hpass & Hex & Hl1 & Hret & Hs1 & HP); [done|..].
  { intros i Hi. apply Hs. destruct (Hap i Hi). unfold in_page in *. lia. }
  rewrite not_elem_of_cons in Hnh. destruct Hnh as [Hne _]. pose proof HO2 as (_ & _ & Ho2 & _).
  eapply (wait_passes off fuel k x2 c e hd hp tg page (page - off) _ timeout dk m1 d1 len pid (now c)).
  all: rewrite ?Hal. 1: exact Ho2. 1: exact Hsch. 1: exact Hring. 1: exact Hh. 1: exact Hp. 1: lia.
  - exact (qh_token _ _ _ _ _ _ Hq).
  - zlia.
  - unfold pid, PID_IN, PID_OUT. destruct (truthy dir); lia.
  - exact Hpass.
  - exact Hex.
  - exact Hl1.
  - exact Hret.
  - reflexivity.
  - lia.
  - lia.
  - lia.
  - lia.
  - eapply finish_spec; try done. lia.
Qed.

(** The call, for a device that keeps the transfer open for good. *)
Lemma submit_stuck page l x c e hd hp tg buf len devaddr ep_addr dir timeout fuel (R : D → Prop) (Q : Z → usb (ehc D) → Prop) :
  let pid := if truthy dir then PID_IN else PID_OUT in
  bulk_request page l x c hd buf len → hd ≠ 0 → 0 <= devaddr < 2 ^ 7 → off + 2 ^ 32 <= 2 ^ 64 →
  0 <= timeout < 2 ^ 28 → 10 * (timeout + 1) < Z.of_nat fuel →
  (∀ m2 d, queue_head m2 page (hd - off + 2) (bulk_char devaddr (ep_addr mod 2 ^ 4)) (bulk_token len pid) (buf - off) →
     (∀ i, buf <= i < buf + len → load8 m2 i = load8 (Pmm.mem x) i) → R d → ∃ d', run_packet off m2 page d = (m2, d') ∧ R d') → R (dev c) →
  (∀ x' c', bulk_done page l x c hd buf len (1000 * (timeout + 1) + 100) (λ m d, R d ∧ ∀ i, buf <= i < buf + len → load8 m i = load8 (Pmm.mem x) i) x' c' →
     Q (-2) (mk_usb x' c' e hd hp tg)) →
  wp (ehci_submit_bulk_simple hc_time_ms hc_udelay fuel devaddr ep_addr buf len dir timeout) Q (mk_usb x c e hd hp tg).
Proof.
  intros pid Hreq Hhd Hdev Hoff Hto Hfuel HR Hc HQ. eapply submit_build; try done. intros x2 HO2 Hq Hring Hs.
  pose proof Hreq as [_ [Hsch Hal] _ (Hh & Hnh & Hfh) (Hp & Hpn) (Hb0 & Hb1 & Hl0 & Hb2) Hap Hcl].
  assert (∀ i, buf <= i < buf + len → load8 (Pmm.mem x2) i = load8 (Pmm.mem x) i) as Hbuf.
  { intros i Hi. apply Hs. destruct (Hap i Hi). unfold in_page in *. lia. }
  rewrite not_elem_of_cons in Hnh. destruct Hnh as [Hne _]. pose proof HO2 as (_ & _ & Ho2 & _).
  eapply (bulk_stuck off fuel x2 c e hd hp tg page (page - off) timeout len pid (now c) R).
  all: rewrite ?Hal. 1: exact Ho2. 1: exact Hring. 1: exact Hh. 1: exact Hp. 1: lia. 1: exact Hsch.
  - exact (qh_token _ _ _ _ _ _ Hq).
  - zlia.
  - unfold pid, PID_IN, PID_OUT. destruct (truthy dir); lia.
  - intros d Hd. by apply HR.
  - exact Hc.
  - lia.
  - lia.
  - lia.
  - intros us d Hus Hlt Hd. rewrite <- (set_mem_same x2). eapply finish_spec; [exact Hreq|exact HO2|exact Hring|exact Hs|by intros i _|apply (tr_back _ _ _ _ Hring)|..|exact HQ]; [by split|lia].
Qed.
End bulk.
