(* ===== verification/EhciPipe.v ===== *)
(** * Bulk transfers by what the device answers

    The outcome of [EhciBulk.outcome] for each answer: data taken or given, a
    stall, and a device that keeps the controller waiting. *)

From stdpp Require Import prelude gmap list numbers tactics.
From S2P Require Import Prelude Memory Pmm Vmm Io AtaProps Ehci EhciMem EhciHc EhciBulk.

Section pipe.
Context {D : Type} `{Device D} (off T : Z).
Implicit Types (m : gmap Z Z) (d : D) (c : ehc D) (x : mm_state) (l b : list Z).

Definition bytes_at m (buf : Z) (n : nat) : list Z := map (λ i, load8 m (buf + Z.of_nat i)) (seq 0 n).
Lemma bytes_at_ext m m' buf n : (∀ i, buf <= i < buf + Z.of_nat n → load8 m' i = load8 m i) → bytes_at m' buf n = bytes_at m buf n.
Proof. intros Hm. apply map_ext_in. intros i Hi. apply in_seq in Hi. apply Hm. lia. Qed.
Lemma length_bytes_at m buf n : length (bytes_at m buf n) = n.
Proof. unfold bytes_at. by rewrite length_map, length_seq. Qed.
Lemma lookup_bytes_at m buf n i : (i < n)%nat → bytes_at m buf n !! i = Some (load8 m (buf + Z.of_nat i)).
Proof. intros Hi. unfold bytes_at. rewrite list_lookup_fmap, lookup_seq_lt by done. done. Qed.

(** The device's answer to the packet of a transfer, whose toggle is always zero. *)
Definition bulk_answer (devaddr ep pid : Z) b d : answer * D :=
  if pid =? PID_OUT then dev_out devaddr ep false b d else dev_in devaddr ep d.
Fixpoint naks (devaddr ep pid : Z) b (k : nat) d d' : Prop :=
  match k with O => d' = d | S k => ∃ d1, bulk_answer devaddr ep pid b d = (Nak, d1) ∧ naks devaddr ep pid b k d1 d' end.
(** The answers that end a transfer of [len] bytes, and the buffer then. *)
Inductive ends (pid len : Z) b : answer → list Z → Prop :=
| ends_out : pid = PID_OUT → ends pid len b Ack b
| ends_in l : pid = PID_IN → Z.of_nat (length l) <= len → Forall (λ c : Z, 0 <= c < 256) l → ends pid len b (Data false l) (l ++ drop (length l) b)
| ends_stall : ends pid len b Stall b.

(** ** The controller's side *)

Section head.
Context (m : gmap Z Z) (q link devaddr ep pid buf len : Z).
Context (Hq : queue_head m q link (bulk_char devaddr ep) (bulk_token len pid) (buf - off)).
Context (Hdev : 0 <= devaddr < 2 ^ 7) (Hep : 0 <= ep < 2 ^ 4) (Hpid : pid = 0 ∨ pid = 1) (Hlen : 0 <= len < 2 ^ 15).
Context (Hbuf : 0 <= buf - off ∧ (buf - off) mod 4096 + len <= 4096).

Lemma byte_of_buffer k : 0 <= k < len → byte_of off m q k = buf + k.
Proof.
  intros Hk. unfold byte_of. rewrite (qh_buffer _ _ _ _ _ _ Hq). assert (((buf - off) mod 4096 + k) / 4096 = 0) as -> by zlia.
  replace (q + 28 + 4 * 0) with (q + 28) by lia. rewrite (qh_buffer _ _ _ _ _ _ Hq). zlia.
Qed.
Lemma in_bytes_spec l : ∀ m1 k, 0 <= k → k + Z.of_nat (length l) <= len → Forall (λ c : Z, 0 <= c < 256) l →
  let m' := in_bytes off m m1 q k l in
  same_outside (λ i, buf + k <= i < buf + k + Z.of_nat (length l)) m1 m' ∧ bytes_at m' (buf + k) (length l) = l.
Proof.
  induction l as [|c l IH]; intros m1 k Hk Hl Hc; cbn [in_bytes length] in *; [by split|]. apply list.Forall_cons in Hc as [Hc1 Hc].
  destruct (IH (store8 m1 (byte_of off m q k) c) (k + 1) ltac:(lia) ltac:(lia) Hc) as [Ho Hb]. rewrite byte_of_buffer in Ho by lia. rewrite byte_of_buffer in Hb by lia. rewrite byte_of_buffer by lia. split.
  - intros i Hi. rewrite Ho by lia. apply load8_store8_ne. lia.
  - unfold bytes_at. cbn [seq map]. f_equal.
    + replace (buf + k + Z.of_nat 0) with (buf + k) by lia. rewrite Ho by lia. rewrite load8_store8_eq. apply Z.mod_small. lia.
    + rewrite <- Hb at 2. unfold bytes_at. rewrite <- seq_shift, map_map. apply map_ext. intros i. f_equal. lia.
Qed.
Lemma out_bytes_buffer : out_bytes off m q (Z.to_nat len) = bytes_at m buf (Z.to_nat len).
Proof. apply map_ext_in. intros i Hi. apply in_seq in Hi. rewrite byte_of_buffer by lia. done. Qed.

Lemma char_fields : address_of (bulk_char devaddr ep) = devaddr ∧ endpoint_of (bulk_char devaddr ep) = ep.
Proof. unfold address_of, endpoint_of. rewrite bulk_char_value by done. split; zlia. Qed.

(** [run_packet] without the decoding. *)
Lemma execute_bulk d a d1 : bulk_answer devaddr ep pid (bytes_at m buf (Z.to_nat len)) d = (a, d1) →
  let set t m := store32 m (q + 24) t in
  let token := bulk_token len pid in
  run_packet off m q d = match a with
  | Nak => (m, d1)
  | Stall => (set (halt token) m, d1)
  | Ack => (set (if pid =? PID_OUT then retire (bulk_char devaddr ep) token len else halt token) m, d1)
  | Data t l =>
    if pid =? PID_OUT then (set (halt token) m, d1)
    else if t then (m, d1)
    else if Z.of_nat (length l) <=? len then (set (retire (bulk_char devaddr ep) token (Z.of_nat (length l))) (in_bytes off m m q 0 l), d1)
    else (set (halt token) m, d1)
  end.
Proof.
  intros Ha. cbv zeta. unfold run_packet, token_of. destruct (bulk_token_fresh len pid Hlen Hpid) as [F1 F2 F3 F4].
  rewrite (qh_token _ _ _ _ _ _ Hq), (qh_char _ _ _ _ _ _ Hq), F1, F2, F3, F4, out_bytes_buffer. destruct char_fields as [-> ->]. cbn [negb].
  unfold bulk_answer in Ha. destruct Hpid as [-> | ->]; cbn [Z.eqb PID_OUT PID_IN Pos.eqb] in *; rewrite Ha; destruct a as [| | |t l]; try done.
  by destruct t.
Qed.

Context (Hapart : ∀ i, buf <= i < buf + len → ¬ in_page q i).
Definition touched (i : Z) : Prop := in_page q i ∨ buf <= i < buf + len.

(** Retiring the token [t] over a memory whose buffer holds [b']. *)
Lemma set_token m1 t b' : same_outside (λ i, buf <= i < buf + len) m m1 → bytes_at m1 buf (Z.to_nat len) = b' →
  0 <= t < 2 ^ 32 → Z.testbit t 7 = false →
  let m2 := store32 m1 (q + 24) t in
  Z.testbit (token_of m2 q) 7 = false ∧ same_outside touched m m2 ∧ load32 m2 q = link ∧ bytes_at m2 buf (Z.to_nat len) = b'.
Proof.
  intros Hs Hb Ht Ht7. cbv zeta. unfold token_of. rewrite loadn_storen_eq, Z.mod_small by exact Ht. split_and!; [done|..].
  - intros i Hi. unfold touched, in_page in Hi. rewrite load8_storen_out by lia. apply Hs. lia.
  - rewrite loadn_storen_ne by lia. rewrite <- (qh_link _ _ _ _ _ _ Hq). apply loadn_ext. intros i Hi. apply Hs. intros Hi'.
    apply (Hapart i Hi'). unfold in_page. lia.
  - rewrite <- Hb. apply bytes_at_ext. intros i Hi. apply load8_storen_out. destruct (Z.lt_ge_cases i (q + 24)); [lia|].
    destruct (Z.lt_ge_cases i (q + 28)); [|lia]. destruct (Hapart i); [lia|]. unfold in_page. lia.
Qed.

(** An answer that ends the transfer. *)
Lemma execute_ends d a d1 b' : bulk_answer devaddr ep pid (bytes_at m buf (Z.to_nat len)) d = (a, d1) →
  ends pid len (bytes_at m buf (Z.to_nat len)) a b' →
  ∃ m1, run_packet off m q d = (m1, d1) ∧ Z.testbit (token_of m1 q) 7 = false ∧ same_outside touched m m1 ∧ load32 m1 q = link ∧
    bytes_at m1 buf (Z.to_nat len) = b'.
Proof.
  intros Ha He. rewrite (execute_bulk _ _ _ Ha). destruct He as [E|l E Hl Hc|]; eexists; (split; [try reflexivity|]).
  - rewrite E. apply set_token; try done; apply retired_inactive; (done || lia).
  - rewrite E. cbn [Z.eqb PID_OUT PID_IN Pos.eqb]. rewrite (proj2 (Z.leb_le _ _) Hl). reflexivity.
  - destruct (in_bytes_spec l m 0 ltac:(lia) ltac:(lia) Hc) as [Ho Hb]. rewrite Z.add_0_r in Ho, Hb.
    apply set_token; try (apply retired_inactive; (done || lia)).
    + intros i Hi. apply Ho. lia.
    + assert (Z.to_nat len = length l + (Z.to_nat len - length l))%nat as -> by lia. unfold bytes_at at 1 in Hb. unfold bytes_at at 1. rewrite seq_app, map_app, Hb.
      f_equal. unfold bytes_at. rewrite seq_app, map_app, drop_app_length'; [|by rewrite length_map, length_seq].
      apply map_ext_in. intros i Hi. apply in_seq in Hi. apply Ho. lia.
  - apply set_token; try done; apply halted_inactive; done.
Qed.
End head.

(** ** The driver's side *)

Lemma naks_passes m q link devaddr ep pid buf len k d dk :
  queue_head m q link (bulk_char devaddr ep) (bulk_token len pid) (buf - off) → 0 <= devaddr < 2 ^ 7 → 0 <= ep < 2 ^ 4 → pid = 0 ∨ pid = 1 → 0 <= len < 2 ^ 15 →
  0 <= buf - off ∧ (buf - off) mod 4096 + len <= 4096 →
  naks devaddr ep pid (bytes_at m buf (Z.to_nat len)) k d dk → passes off m q k d dk.
Proof.
  intros Hq Hd He Hp Hl Hb. revert d. induction k as [|k IH]; intros d; cbn [naks passes]; [done|]. intros (d1 & Ha & Hk).
  exists d1. split; [|by apply IH]. by eapply execute_bulk in Ha.
Qed.

Lemma ends_outcome page l x c hd buf len devaddr ep pid k dk a d1 b' : bulk_request off T page l x c hd buf len →
  0 <= devaddr < 2 ^ 7 → 0 <= ep < 2 ^ 4 → pid = 0 ∨ pid = 1 →
  let b := bytes_at (Pmm.mem x) buf (Z.to_nat len) in
  naks devaddr ep pid b k (dev c) dk → bulk_answer devaddr ep pid b dk = (a, d1) → ends pid len b a b' →
  outcome off page hd buf len devaddr ep pid (Pmm.mem x) k (dev c) (λ m d, d = d1 ∧ bytes_at m buf (Z.to_nat len) = b').
Proof.
  intros Hreq Hd He Hp b Hn Ha Hends m2 Hq Hm2. destruct (bq_buffer _ _ _ _ _ _ _ _ _ Hreq) as (Hb0 & Hb1 & Hl0 & Hb2).
  assert (bytes_at m2 buf (Z.to_nat len) = b) as Eb by (apply bytes_at_ext; intros i Hi; apply Hm2; lia).
  rewrite <- Eb in Ha, Hends, Hn. edestruct execute_ends as (m1 & Hex & Ht & Hs & Hl & Hb'); [exact Hq|..|exact Ha|exact Hends|]; try (done || zlia).
  { intros i Hi. by apply (bq_apart _ _ _ _ _ _ _ _ _ Hreq i). }
  exists dk, m1, d1. split_and!; try done. eapply naks_passes; (done || zlia).
Qed.

(** The caller's buffer and the device after the call. *)
Lemma done_buffer page l x c hd buf len lim d1 b' x' c' : bulk_request off T page l x c hd buf len →
  bulk_done off T page l x c hd buf len lim (λ m d, d = d1 ∧ bytes_at m buf (Z.to_nat len) = b') x' c' →
  dev c' = d1 ∧ bytes_at (Pmm.mem x') buf (Z.to_nat len) = b'.
Proof.
  intros Hreq Hd. destruct (bd_ctl _ _ _ _ _ _ _ _ _ _ _ _ _ Hd) as (us & d2 & -> & _ & m1 & [-> <-] & Hs). split; [done|].
  apply bytes_at_ext. intros i Hi. apply Hs. destruct (bq_apart _ _ _ _ _ _ _ _ _ Hreq i) as [Hh Hp]; [lia|]. unfold in_page in *. lia.
Qed.

Lemma submit_answered page l x c e hd hp tg buf len devaddr ep_addr dir timeout fuel k dk a d1 b' (Q : Z → usb (ehc D) → Prop) :
  let pid := if truthy dir then PID_IN else PID_OUT in
  let b := bytes_at (Pmm.mem x) buf (Z.to_nat len) in
  bulk_request off T page l x c hd buf len → hd ≠ 0 → 0 <= devaddr < 2 ^ 7 → off + 2 ^ 32 <= 2 ^ 64 →
  Z.of_nat k + 10 <= 10 * timeout → timeout < 2 ^ 28 → (k + 1 < fuel)%nat →
  naks devaddr (ep_addr mod 2 ^ 4) pid b k (dev c) dk → bulk_answer devaddr (ep_addr mod 2 ^ 4) pid b dk = (a, d1) → ends pid len b a b' →
  (∀ x' c', bulk_done off T page l x c hd buf len (100 * (Z.of_nat k + 1)) (λ m d, d = d1 ∧ bytes_at m buf (Z.to_nat len) = b') x' c' →
     dev c' = d1 → bytes_at (Pmm.mem x') buf (Z.to_nat len) = b' → Q 0 (mk_usb x' c' e hd hp tg)) →
  wp (ehci_submit_bulk_simple hc_time_ms hc_udelay fuel devaddr ep_addr buf len dir timeout) Q (mk_usb x c e hd hp tg).
Proof.
  intros pid b Hreq Hhd Hdev Hoff Hk Hto Hfuel Hn Ha He HQ. assert (pid = 0 ∨ pid = 1) as Hpid by (unfold pid, PID_IN, PID_OUT; destruct (truthy dir); lia).
  eapply submit_spec; try done.
  - eapply ends_outcome; try done. apply Z.mod_pos_bound. lia.
  - intros x' c' Hd. destruct (done_buffer _ _ _ _ _ _ _ _ _ _ _ _ Hreq Hd). by apply HQ.
Qed.

(** Answers that keep a transfer open. *)
Definition keeps_open (devaddr ep pid : Z) b (R : D → Prop) : Prop :=
  ∀ d, R d → ∃ a d', bulk_answer devaddr ep pid b d = (a, d') ∧ R d' ∧ (a = Nak ∨ pid = PID_IN ∧ ∃ l, a = Data true l).
Lemma submit_timeout page l x c e hd hp tg buf len devaddr ep_addr dir timeout fuel R (Q : Z → usb (ehc D) → Prop) :
  let pid := if truthy dir then PID_IN else PID_OUT in
  bulk_request off T page l x c hd buf len → hd ≠ 0 → 0 <= devaddr < 2 ^ 7 → off + 2 ^ 32 <= 2 ^ 64 →
  0 <= timeout < 2 ^ 28 → 10 * (timeout + 1) < Z.of_nat fuel → R (dev c) →
  keeps_open devaddr (ep_addr mod 2 ^ 4) pid (bytes_at (Pmm.mem x) buf (Z.to_nat len)) R →
  (∀ x' c', bulk_done off T page l x c hd buf len (1000 * (timeout + 1) + 100)
     (λ m d, R d ∧ ∀ i, buf <= i < buf + len → load8 m i = load8 (Pmm.mem x) i) x' c' → Q (-2) (mk_usb x' c' e hd hp tg)) →
  wp (ehci_submit_bulk_simple hc_time_ms hc_udelay fuel devaddr ep_addr buf len dir timeout) Q (mk_usb x c e hd hp tg).
Proof.
  intros pid Hreq Hhd Hdev Hoff Hto Hfuel Hc HR HQ. assert (pid = 0 ∨ pid = 1) as Hpid by (unfold pid, PID_IN, PID_OUT; destruct (truthy dir); lia).
  eapply submit_stuck; try done. intros m2 d Hq Hm2 Hd. destruct (bq_buffer _ _ _ _ _ _ _ _ _ Hreq) as (Hb0 & Hb1 & Hl0 & Hb2).
  assert (bytes_at m2 buf (Z.to_nat len) = bytes_at (Pmm.mem x) buf (Z.to_nat len)) as Eb by (apply bytes_at_ext; intros i Hi; apply Hm2; lia).
  destruct (HR d Hd) as (a & d' & Ha & Hd' & Hcase). exists d'. split; [|done]. rewrite <- Eb in Ha.
  assert (0 <= ep_addr mod 2 ^ 4 < 2 ^ 4) as Hep by (apply Z.mod_pos_bound; lia).
  erewrite execute_bulk; [|exact Hq|exact Hdev|exact Hep|exact Hpid|zlia|lia|exact Ha].
  destruct Hcase as [-> |[Hp [l' ->]]]; [done|]. fold pid. by rewrite Hp.
Qed.
End pipe.

Section calls.
Context {D : Type} `{Device D}.

(** a bulk transfer whose packet the device answers, after [k] polls without
    an answer, ends with 0 within [k + 1] polls, the page returned and the ring
    as it was: an OUT transfer has delivered exactly the buffer, an IN transfer
    has put the device's bytes at the front of the buffer and kept the rest.
    The same holds, with nothing transferred, when the device stalls. *)
Theorem ehci_submit_bulk_correct off T page l x (c : ehc D) e hd hp tg buf len devaddr ep_addr dir timeout fuel k dk a d1 b' :
  let pid := if truthy dir then PID_IN else PID_OUT in
  let b := bytes_at (Pmm.mem x) buf (Z.to_nat len) in
  bulk_request off T page l x c hd buf len → hd ≠ 0 → 0 <= devaddr < 2 ^ 7 → off + 2 ^ 32 <= 2 ^ 64 →
  Z.of_nat k + 10 <= 10 * timeout → timeout < 2 ^ 28 → (k + 1 < fuel)%nat →
  naks devaddr (ep_addr mod 2 ^ 4) pid b k (dev c) dk → bulk_answer devaddr (ep_addr mod 2 ^ 4) pid b dk = (a, d1) → ends pid len b a b' →
  ∃ x' c', ehci_submit_bulk_simple hc_time_ms hc_udelay fuel devaddr ep_addr buf len dir timeout (mk_usb x c e hd hp tg) =
      Some (0, mk_usb x' c' e hd hp tg) ∧
    dev c' = d1 ∧ bytes_at (Pmm.mem x') buf (Z.to_nat len) = b' ∧
    mmok off T (page :: l) x' ∧ idle_list off (Pmm.mem x') (hd - off) ∧ now c' <= now c + 100 * (Z.of_nat k + 1) ∧
    same_outside (λ i, in_page page i ∨ buf <= i < buf + len ∨ hd <= i < hd + 4) (Pmm.mem x) (Pmm.mem x').
Proof.
  intros pid b Hreq Hhd Hdev Hoff Hk Hto Hfuel Hn Ha He.
  assert (wp (ehci_submit_bulk_simple hc_time_ms hc_udelay fuel devaddr ep_addr buf len dir timeout)
    (λ r s', r = 0 ∧ ∃ x' c', s' = mk_usb x' c' e hd hp tg ∧ dev c' = d1 ∧ bytes_at (Pmm.mem x') buf (Z.to_nat len) = b' ∧
       bulk_done off T page l x c hd buf len (100 * (Z.of_nat k + 1)) (λ m d, d = d1 ∧ bytes_at m buf (Z.to_nat len) = b') x' c') (mk_usb x c e hd hp tg)) as Hw.
  { eapply submit_answered; try done. intros x' c' Hd E1 E2. eauto 10. }
  unfold wp in Hw. destruct (ehci_submit_bulk_simple _ _ _ _ _ _ _ _ _ _) as [[r s']|]; [|done].
  destruct Hw as (-> & x' & c' & -> & E1 & E2 & [Hm Hi (us & d & -> & Hus & _) Hr]). exists x', (advance us d c). split_and!; try done. cbn. lia.
Qed.

(** a device that never ends the transfer (no answer for good, or data with
    the other toggle, which the controller takes for a repetition) makes the
    call return -2 after the timeout, with the page returned, the ring as it was
    and the buffer untouched; the loop needs at most ten polls per millisecond. *)
Theorem ehci_submit_bulk_timeout off T page l x (c : ehc D) e hd hp tg buf len devaddr ep_addr dir timeout fuel (R : D → Prop) :
  let pid := if truthy dir then PID_IN else PID_OUT in
  let b := bytes_at (Pmm.mem x) buf (Z.to_nat len) in
  bulk_request off T page l x c hd buf len → hd ≠ 0 → 0 <= devaddr < 2 ^ 7 → off + 2 ^ 32 <= 2 ^ 64 →
  0 <= timeout < 2 ^ 28 → 10 * (timeout + 1) < Z.of_nat fuel → R (dev c) → keeps_open devaddr (ep_addr mod 2 ^ 4) pid b R →
  ∃ x' c', ehci_submit_bulk_simple hc_time_ms hc_udelay fuel devaddr ep_addr buf len dir timeout (mk_usb x c e hd hp tg) =
      Some (-2, mk_usb x' c' e hd hp tg) ∧
    R (dev c') ∧ mmok off T (page :: l) x' ∧ idle_list off (Pmm.mem x') (hd - off) ∧ now c' <= now c + 1000 * (timeout + 1) + 100 ∧
    same_outside (λ i, in_page page i ∨ hd <= i < hd + 4) (Pmm.mem x) (Pmm.mem x').
Proof.
  intros pid b Hreq Hhd Hdev Hoff Hto Hfuel Hc HR.
  assert (wp (ehci_submit_bulk_simple hc_time_ms hc_udelay fuel devaddr ep_addr buf len dir timeout)
    (λ r s', r = -2 ∧ ∃ x' c', s' = mk_usb x' c' e hd hp tg ∧
       bulk_done off T page l x c hd buf len (1000 * (timeout + 1) + 100) (λ m d, R d ∧ ∀ i, buf <= i < buf + len → load8 m i = load8 (Pmm.mem x) i) x' c')
    (mk_usb x c e hd hp tg)) as Hw by (eapply (submit_timeout off T); eauto 10).
  unfold wp in Hw. destruct (ehci_submit_bulk_simple _ _ _ _ _ _ _ _ _ _) as [[r s']|]; [|done].
  destruct Hw as (-> & x' & c' & -> & [Hm Hi (us & d & -> & Hus & m1 & [Hd Hb] & Hs) Hr]). exists x', (advance us d c). split_and!; try done; [cbn; lia|].
  intros i Hi'. destruct (decide (buf <= i < buf + len)) as [Hin|Hout].
  - rewrite <- Hb by done. by apply Hs.
  - apply Hr. tauto.
Qed.
End calls.
