(* ===== verification/EhciMsd.v ===== *)
(** * Reading a sector from a mass-storage device ([msd_read_sector])

    A bulk-only device for [EhciHc], the command and status wrappers as byte
    lists, and the three transfers of a read put together. *)

From stdpp Require Import prelude gmap list numbers tactics.
From S2P Require Import Prelude Memory Pmm Vmm Io AtaProps Ehci EhciMem EhciHc EhciBulk EhciPipe.

(** ** The device *)

Fixpoint le (l : list Z) : Z := match l with [] => 0 | c :: l => c + 256 * le l end.
Definition be (l : list Z) : Z := le (reverse l).

Inductive bot_phase := Idle | Sending (tag data : list Z) | Status (tag : list Z).
(** [strict]: the device keeps data toggles as the USB standard wants; [lag]: the
    polls without an answer before each answer. *)
Record bot := mk_bot {
  bot_addr : Z; bot_in : Z; bot_out : Z; sector : Z → list Z;
  strict : bool; lag : nat; patience : nat; phase : bot_phase; in_toggle : bool; out_toggle : bool
}.
Definition set_patience (n : nat) (d : bot) : bot :=
  mk_bot (bot_addr d) (bot_in d) (bot_out d) (sector d) (strict d) (lag d) n (phase d) (in_toggle d) (out_toggle d).
(** The state behind a packet: the next phase, either toggle moved on. *)
Definition after_out (p : bot_phase) (d : bot) : bot :=
  mk_bot (bot_addr d) (bot_in d) (bot_out d) (sector d) (strict d) (lag d) (lag d) p (in_toggle d) (negb (out_toggle d)).
Definition after_in (p : bot_phase) (d : bot) : bot :=
  mk_bot (bot_addr d) (bot_in d) (bot_out d) (sector d) (strict d) (lag d) (lag d) p (negb (in_toggle d)) (out_toggle d).

(** A READ(10) of one sector: tag and sector number. *)
Definition command (b : list Z) : option (list Z * Z) :=
  if bool_decide (length b = 31%nat) && (le (take 4 b) =? CBW_SIGNATURE) && (le (take 4 (drop 8 b)) =? 512) &&
    (nth 12 b 0 =? 0x80) && (nth 15 b 0 =? SCSI_READ10) && (be (take 2 (drop 22 b)) =? 1)
  then Some (take 4 (drop 4 b), be (take 4 (drop 17 b))) else None.
Definition csw_bytes (tag : list Z) : list Z := [0x55; 0x53; 0x42; 0x53] ++ tag ++ replicate 5 0.

#[export] Instance bot_device : Device bot := {|
  dev_out a ep t b d :=
    if negb ((a =? bot_addr d) && (ep =? bot_out d)) then (Nak, d)
    else match patience d with
    | S n => (Nak, set_patience n d)
    | O =>
      if strict d && negb (Bool.eqb t (out_toggle d)) then (Ack, d)      (* a repetition *)
      else match command b with
      | Some (tag, lba) => (Ack, after_out (Sending tag (sector d lba)) d)
      | None => (Stall, d)
      end
    end;
  dev_in a ep d :=
    if negb ((a =? bot_addr d) && (ep =? bot_in d)) then (Nak, d)
    else match patience d with
    | S n => (Nak, set_patience n d)
    | O =>
      match phase d with
      | Idle => (Nak, d)
      | Sending tag data => (Data (strict d && in_toggle d) data, after_in (Status tag) d)
      | Status tag => (Data (strict d && in_toggle d) (csw_bytes tag), after_in Idle d)
      end
    end
|}.

Lemma bot_naks a ep pid b (d : bot) : a = bot_addr d → ep = (if pid =? PID_OUT then bot_out d else bot_in d) →
  naks a ep pid b (patience d) d (set_patience 0 d).
Proof.
  intros -> ->. remember (patience d) as n eqn:En. revert d En. induction n as [|n IH]; intros d En; cbn [naks].
  - destruct d; cbn in *. by rewrite <- En.
  - exists (set_patience n d). split.
    + unfold bulk_answer, dev_out, dev_in, bot_device. rewrite <- En, Z.eqb_refl. destruct (pid =? PID_OUT); by rewrite Z.eqb_refl.
    + specialize (IH (set_patience n d) eq_refl). by destruct d.
Qed.

(** ** The wrappers as bytes *)

Lemma bytes_at_store8 m a i v n : 0 <= i < Z.of_nat n → bytes_at (store8 m (a + i) v) a n = <[Z.to_nat i := v mod 256]> (bytes_at m a n).
Proof.
  intros Hi. apply list_eq. intros j. destruct (decide (j < n)%nat) as [Hj|Hj].
  - rewrite lookup_bytes_at by done. destruct (decide (j = Z.to_nat i)) as [->|Hne].
    + rewrite list_lookup_insert_eq by (rewrite length_bytes_at; lia). rewrite Z2Nat.id by lia. by rewrite load8_store8_eq.
    + rewrite list_lookup_insert_ne by done. rewrite lookup_bytes_at by done. rewrite load8_store8_ne by lia. done.
  - rewrite !lookup_ge_None_2; [done|rewrite length_insert, length_bytes_at; lia|rewrite length_bytes_at; lia].
Qed.
Lemma bytes_at_memset m a n : bytes_at (memset m a 0 (Z.of_nat n)) a n = replicate n 0.
Proof.
  apply list_eq. intros j. destruct (decide (j < n)%nat) as [Hj|Hj].
  - rewrite lookup_bytes_at, lookup_replicate_2 by done. unfold memset. rewrite memset_loop_in by lia. done.
  - rewrite !lookup_ge_None_2; [done|rewrite length_replicate; lia|rewrite length_bytes_at; lia].
Qed.
Lemma store32_bytes m a v : store32 m a v = store8 (store8 (store8 (store8 m a v) (a + 1) (v / 256)) (a + 1 + 1) (v / 256 / 256)) (a + 1 + 1 + 1) (v / 256 / 256 / 256).
Proof. done. Qed.
Lemma loadn_bytes n m a : loadn n m a = le (bytes_at m a n).
Proof.
  revert a. induction n as [|n IH]; intros a; [done|]. change (loadn (S n) m a) with (load8 m a + 256 * loadn n m (a + 1)).
  unfold bytes_at. cbn [seq map le]. rewrite IH. replace (a + Z.of_nat 0) with a by lia. do 2 f_equal. unfold bytes_at.
  rewrite <- seq_shift, map_map. f_equal. apply map_ext. intros i. f_equal. lia.
Qed.
Lemma bytes_at_sub m a n i k : (i + k <= n)%nat → bytes_at m (a + Z.of_nat i) k = take k (drop i (bytes_at m a n)).
Proof.
  intros Hi. apply list_eq. intros j. destruct (decide (j < k)%nat) as [Hj|Hj].
  - rewrite lookup_take_lt, lookup_drop, !lookup_bytes_at by lia. do 2 f_equal. lia.
  - rewrite !lookup_ge_None_2; [done|rewrite length_take; lia|rewrite length_bytes_at; lia].
Qed.

Definition le32_bytes (v : Z) : list Z := [v mod 256; v / 256 mod 256; v / 256 / 256 mod 256; v / 256 / 256 / 256 mod 256].
Definition be32_bytes (v : Z) : list Z := [v / 2 ^ 24 mod 256; v / 2 ^ 16 mod 256; v / 2 ^ 8 mod 256; v mod 256].
Definition cbw_bytes (tag lba : Z) : list Z :=
  [0x55; 0x53; 0x42; 0x43] ++ le32_bytes tag ++ [0; 2; 0; 0; 0x80; 0; 10; SCSI_READ10; 0] ++ be32_bytes lba ++ [0; 0; 1] ++ replicate 7 0.

Lemma cbw_inserts t0 t1 t2 t3 b0 b1 b2 b3 : foldr (λ '(i, v) l, <[Z.to_nat i := v]> l) (replicate 31 0)
  [(23, 1); (22, 0); (20, b0); (19, b1); (18, b2); (17, b3); (16, 0); (15, SCSI_READ10); (14, 10); (13, 0); (12, 0x80); (11, 0); (10, 0); (9, 2); (8, 0);
   (7, t3); (6, t2); (5, t1); (4, t0); (3, 0x43); (2, 0x42); (1, 0x53); (0, 0x55)] =
  [0x55; 0x53; 0x42; 0x43; t0; t1; t2; t3; 0; 2; 0; 0; 0x80; 0; 10; SCSI_READ10; 0; b3; b2; b1; b0; 0; 0; 1; 0; 0; 0; 0; 0; 0; 0].
Proof. vm_compute. reflexivity. Qed.
Lemma build_cbw_bytes m cbw tag lba : 0 <= lba → bytes_at (build_cbw (memset m cbw 0 31) cbw tag lba) cbw 31 = cbw_bytes tag lba.
Proof.
  intros Hl. unfold build_cbw. cbv zeta. rewrite !store32_bytes. change 0xFF with (Z.ones 8). rewrite !Z.land_ones, !Z.shiftr_div_pow2 by lia.
  rewrite <- !Z.add_assoc.
  replace (store8 (memset m cbw 0 31) cbw CBW_SIGNATURE) with (store8 (memset m cbw 0 31) (cbw + 0) CBW_SIGNATURE) by (f_equal; lia).
  rewrite !bytes_at_store8 by lia. change 31 with (Z.of_nat 31) at 1. rewrite bytes_at_memset.
  change (2 ^ 8) with 256. rewrite !Zmod_mod. 
  etransitivity; [|apply (cbw_inserts (tag mod 256) (tag / 256 mod 256) (tag / 256 / 256 mod 256) (tag / 256 / 256 / 256 mod 256)
    (lba mod 256) (lba / 256 mod 256) (lba / 2 ^ 16 mod 256) (lba / 2 ^ 24 mod 256))].
  cbn [foldr]. repeat (f_equal; try reflexivity).
Qed.
Lemma build_cbw_outside m cbw tag lba : same_outside (λ i, cbw <= i < cbw + 31) m (build_cbw m cbw tag lba).
Proof. intros i Hi. unfold build_cbw. cbv zeta. by rewrite !load8_store8_ne, !load8_storen_out by lia. Qed.

Lemma le_bytes v : 0 <= v < 2 ^ 32 → le (le32_bytes v) = v.
Proof. intros Hv. cbn [le le32_bytes]. zlia. Qed.
Lemma be_bytes v : 0 <= v < 2 ^ 32 → be (be32_bytes v) = v.
Proof.
  intros Hv. change (be (be32_bytes v)) with (v mod 256 + 256 * (v / 2 ^ 8 mod 256 + 256 * (v / 2 ^ 16 mod 256 + 256 * (v / 2 ^ 24 mod 256 + 256 * 0)))). zlia.
Qed.
Lemma command_cbw tag lba : 0 <= lba < 2 ^ 32 → command (cbw_bytes tag lba) = Some (le32_bytes tag, lba).
Proof.
  intros Hl. rewrite <- (be_bytes lba Hl) at 2. reflexivity.
Qed.

(** ** Transfers in a row *)

Section session.
Context {D : Type} `{Device D} (off T : Z) (page : Z) (l : list Z) (hd : Z) (fuel : nat).
Implicit Types (x : mm_state) (c : ehc D) (b : list Z).
Context (Hoff : off + 2 ^ 32 <= 2 ^ 64) (Hfuel : 10010 < Z.of_nat fuel) (Hhd : hd ≠ 0).

(** Between transfers: the page of the next one, the schedule idle. *)
Record ready x c : Prop := {
  rd_mm : mmok off T (page :: l) x;
  rd_schedule : scheduled c = true ∧ alist c = hd - off;
  rd_idle : idle_list off (Pmm.mem x) (hd - off);
  rd_head : page_of (hd - off) ∧ hd ∉ page :: l ∧ frame off hd;
  rd_page : page_of (page - off) ∧ page ≠ off
}.
Record buffer_ok (buf len : Z) : Prop := {
  bf_place : off <= buf ∧ buf - off + len <= 2 ^ 32 ∧ 0 < len ∧ (buf - off) mod 4096 + len <= 4096;
  bf_apart : ∀ i, buf <= i < buf + len → ¬ in_page hd i ∧ ¬ in_page page i;
  bf_clear : clear_of l (λ i, buf <= i < buf + len)
}.
Lemma ready_request x c buf len : ready x c → buffer_ok buf len → bulk_request off T page l x c hd buf len.
Proof. by intros [? ? ? ? ?] [? ? ?]. Qed.
Lemma done_ready x c buf len lim Post x' c' : ready x c → bulk_done off T page l x c hd buf len lim Post x' c' → ready x' c'.
Proof. intros [? [? ?] ? ? ?] [? ? (us & d & -> & _) ?]. by split. Qed.

(** A transfer the device answers, and one it keeps open, from idle to idle. *)
Lemma transfer x c e hp tg buf len devaddr ep dir k dk a d1 b' (Q : Z → usb (ehc D) → Prop) :
  let pid := if truthy dir then PID_IN else PID_OUT in
  let b := bytes_at (Pmm.mem x) buf (Z.to_nat len) in
  ready x c → buffer_ok buf len → 0 <= devaddr < 2 ^ 7 → Z.of_nat k <= 9990 →
  naks devaddr (ep mod 2 ^ 4) pid b k (dev c) dk → bulk_answer devaddr (ep mod 2 ^ 4) pid b dk = (a, d1) → ends pid len b a b' →
  (∀ x' c', ready x' c' → dev c' = d1 → bytes_at (Pmm.mem x') buf (Z.to_nat len) = b' →
     same_outside (λ i, in_page page i ∨ buf <= i < buf + len ∨ hd <= i < hd + 4) (Pmm.mem x) (Pmm.mem x') → Q 0 (mk_usb x' c' e hd hp tg)) →
  wp (ehci_submit_bulk_simple hc_time_ms hc_udelay fuel devaddr ep buf len dir 1000) Q (mk_usb x c e hd hp tg).
Proof using Hoff Hfuel Hhd.
  intros pid b Hr Hb Hd Hk Hn Ha He HQ. eapply submit_answered; try done; [by apply ready_request|lia|lia|].
  intros x' c' Hdone E1 E2. apply HQ; try done; [by eapply done_ready|apply Hdone].
Qed.
Lemma transfer_open x c e hp tg buf len devaddr ep dir R (Q : Z → usb (ehc D) → Prop) :
  let pid := if truthy dir then PID_IN else PID_OUT in
  ready x c → buffer_ok buf len → 0 <= devaddr < 2 ^ 7 → R (dev c) →
  keeps_open devaddr (ep mod 2 ^ 4) pid (bytes_at (Pmm.mem x) buf (Z.to_nat len)) R →
  (∀ x' c', ready x' c' → R (dev c') →
     same_outside (λ i, in_page page i ∨ buf <= i < buf + len ∨ hd <= i < hd + 4) (Pmm.mem x) (Pmm.mem x') → Q (-2) (mk_usb x' c' e hd hp tg)) →
  wp (ehci_submit_bulk_simple hc_time_ms hc_udelay fuel devaddr ep buf len dir 1000) Q (mk_usb x c e hd hp tg).
Proof using Hoff Hfuel Hhd.
  intros pid Hr Hb Hd Hc HR HQ. eapply (submit_timeout off T page l x c e hd hp tg buf len devaddr ep dir 1000 fuel R); try done; [by apply ready_request|].
  intros x' c' Hdone. apply HQ; [by eapply done_ready| |apply Hdone].
  by destruct (bd_ctl _ _ _ _ _ _ _ _ _ _ _ _ _ Hdone) as (us & d1 & -> & _ & m1 & [Hd1 _] & _).
Qed.
End session.
