(* ===== verification/EhciRead.v ===== *)
(** * [msd_read_sector] from end to end

    The command, the data and the status transfer over the device of [EhciMsd]:
    a device that ignores toggles gives its sector; one that keeps them as the
    standard wants has its status taken for a repetition. *)

From stdpp Require Import prelude gmap list numbers tactics.
From S2P Require Import Prelude Memory Pmm Vmm Io AtaProps Ehci EhciMem EhciHc EhciBulk EhciPipe EhciMsd.

Section read.
Context (off T : Z) (P page : Z) (l : list Z) (hd buf : Z) (fuel : nat) (lba : Z).
Context (Hoff : off + 2 ^ 32 <= 2 ^ 64) (Hfuel : 10010 < Z.of_nat fuel) (Hhd : hd ≠ 0) (Hlba : 0 <= lba < 2 ^ 32).
Implicit Types (x : mm_state) (c : ehc bot) (d : bot).

(** The frames [P] (wrappers) and [page] (queue heads) are the next two free
    ones; the caller's sector lies in one page, apart from all the others. *)
Record read_ok x c : Prop := {
  ro_mm : mmok off T (P :: page :: l) x;
  ro_schedule : scheduled c = true ∧ alist c = hd - off;
  ro_idle : idle_list off (Pmm.mem x) (hd - off);
  ro_head : page_of (hd - off) ∧ hd ∉ P :: page :: l ∧ frame off hd;
  ro_pages : page_of (P - off) ∧ P ≠ off ∧ page_of (page - off) ∧ page ≠ off;
  ro_buffer : off <= buf ∧ buf - off + 512 <= 2 ^ 32 ∧ (buf - off) mod 4096 + 512 <= 4096;
  ro_apart : ∀ i, buf <= i < buf + 512 → ¬ in_page hd i ∧ ¬ in_page page i ∧ ¬ in_page P i;
  ro_clear : clear_of l (λ i, buf <= i < buf + 512)
}.
(** The driver's description of the device fits the device. *)
Record device_ok (dev : usb_device) d : Prop := {
  do_address : address dev = bot_addr d ∧ 0 <= bot_addr d < 2 ^ 7;
  do_in : ep_addr (bulk_in dev) mod 2 ^ 4 = bot_in d;
  do_out : ep_addr (bulk_out dev) mod 2 ^ 4 = bot_out d;
  do_lag : Z.of_nat (lag d) <= 9990 ∧ Z.of_nat (patience d) <= 9990;
  do_sector : length (sector d lba) = 512%nat ∧ Forall (λ v : Z, 0 <= v < 256) (sector d lba)
}.

Lemma answer_out d b tag : patience d = 0%nat → strict d && negb (Bool.eqb false (out_toggle d)) = false → command b = Some (tag, lba) →
  bulk_answer (bot_addr d) (bot_out d) PID_OUT b d = (Ack, after_out (Sending tag (sector d lba)) d).
Proof. intros Hp Hs Hc. unfold bulk_answer, dev_out, bot_device. cbn [Z.eqb PID_OUT]. by rewrite !Z.eqb_refl, Hp, Hs, Hc. Qed.
Lemma answer_in d b p : patience d = 0%nat → phase d = p →
  bulk_answer (bot_addr d) (bot_in d) PID_IN b d = match p with
  | Idle => (Nak, d)
  | Sending tag data => (Data (strict d && in_toggle d) data, after_in (Status tag) d)
  | Status tag => (Data (strict d && in_toggle d) (csw_bytes tag), after_in Idle d)
  end.
Proof. intros Hp <-. unfold bulk_answer, dev_in, bot_device. cbn [Z.eqb PID_OUT PID_IN Pos.eqb]. by rewrite !Z.eqb_refl, Hp. Qed.

(** Buffers inside of the page [P]. *)
Lemma page_buffer x c o n : read_ok x c → 0 <= o → 0 < n → o + n <= 4096 → buffer_ok off page l hd (P + o) n.
Proof.
  intros [(HO & Hr & _) _ _ (_ & Hnh & Hfh) ((Hp0 & Hpm & Hp1) & _ & (Hq0 & Hqm & Hq1) & _) _ _ _] Ho Hn Hle.
  destruct HO as [_ Hnd Hfr _ _]. rewrite Hr in Hfr. apply list.NoDup_cons in Hnd as [HP _].
  assert (frame off P) as HfP by (apply Hfr; set_solver). rewrite not_elem_of_cons in Hnh. destruct Hnh as [HneP _].
  assert (frame off page) as Hfp by (apply Hfr; set_solver). split.
  - zlia.
  - destruct (frames_apart off P page HfP Hfp); [intros ->; set_solver|..];
      (destruct (frames_apart off P hd HfP Hfh); [done|..]); unfold in_page; lia.
  - intros b i Hb Hi HPi. destruct (frames_apart off P b HfP (Hfr b ltac:(set_solver))); [intros ->; set_solver|lia..].
Qed.
Lemma user_buffer x c : read_ok x c → buffer_ok off page l hd buf 512.
Proof. intros [_ _ _ _ _ (?&?&?) Ha Hc]. split; [lia| |done]. intros i Hi. by destruct (Ha i Hi) as (?&?&?). Qed.
Lemma read_ready x c x1 : read_ok x c → mmok off T (page :: l) x1 → Pmm.mem x1 = Pmm.mem x → ready off T page l hd x1 c.
Proof.
  intros [_ Hs Hi (Hh1 & Hh2 & Hh3) (_&_&?&?) _ _ _] Hm E. rewrite not_elem_of_cons in Hh2. destruct Hh2. split; try done. by rewrite E.
Qed.
(** Writing the page [P]. *)
Lemma update_page x0 c0 R f x c e hp tg (Q : unit → usb (ehc bot) → Prop) : read_ok x0 c0 → ready off T page l hd x c →
  same_outside R (Pmm.mem x) (f (Pmm.mem x)) → (∀ i, R i → in_page P i) →
  (∀ x', ready off T page l hd x' c → Pmm.mem x' = f (Pmm.mem x) → Q tt (mk_usb x' c e hd hp tg)) →
  wp (update_mem f) Q (mk_usb x c e hd hp tg).
Proof.
  intros Hro [Hm Hs [Hi1 Hi2] Hh Hp] HR HRP HQ. pose proof (page_buffer x0 c0 0 4096 Hro ltac:(lia) ltac:(lia) ltac:(lia)) as [_ Ha Hc]. rewrite Z.add_0_r in Ha, Hc.
  eapply update_spec; [exact Hm|exact HR| |].
  - destruct (ro_mm _ _ Hro) as (HO & Hr & _). destruct HO as [_ Hnd Hfr _ _]. rewrite Hr in Hfr. apply list.NoDup_cons in Hnd as [HP _].
    intros b i Hb Hi HRi. apply HRP in HRi. unfold in_page in HRi. assert (frame off P) as HfP by (apply Hfr; set_solver).
    destruct (frames_apart off P b HfP (Hfr b ltac:(set_solver))); [intros ->; set_solver|lia..].
  - intros x' Hm' E. apply HQ; [|done]. split; try done. split.
    + rewrite <- Hi1, E. apply loadn_ext. intros i Hi. apply HR. intros Hri. apply HRP, Ha in Hri as [Hri _]. apply Hri. unfold in_page. lia.
    + rewrite <- Hi2, E. f_equal. apply loadn_ext. intros i Hi. apply HR. intros Hri. apply HRP, Ha in Hri as [Hri _]. apply Hri. unfold in_page. lia.
Qed.

(** ** The transfers *)

Definition fresh_toggles d : Prop := strict d = true → out_toggle d = false ∧ in_toggle d = false.
Lemma fresh_bits d : fresh_toggles d → strict d && negb (Bool.eqb false (out_toggle d)) = false ∧ strict d && in_toggle d = false.
Proof. unfold fresh_toggles. destruct (strict d); [|done]. by intros [-> ->]. Qed.
(** The device behind the command, and behind the data. *)
Definition commanded (tag : list Z) d : bot := after_out (Sending tag (sector d lba)) (set_patience 0 d).
Definition given (tag : list Z) d : bot := after_in (Status tag) (set_patience 0 (commanded tag d)).

Definition touched_read (i : Z) : Prop := in_page P i ∨ in_page page i ∨ buf <= i < buf + 512 ∨ hd <= i < hd + 4.
Lemma same_transfer b n m m' : same_outside (λ i, in_page page i ∨ b <= i < b + n ∨ hd <= i < hd + 4) m m' →
  (∀ i, b <= i < b + n → in_page P i ∨ buf <= i < buf + 512) → same_outside touched_read m m'.
Proof. intros Hs Hb. eapply same_outside_weaken; [|exact Hs]. unfold touched_read. intros i [?|[Hi|?]]; [tauto|destruct (Hb i Hi); tauto|tauto]. Qed.

Lemma command_transfer x0 c0 x c e hp tg tag dev d (Q : Z → usb (ehc bot) → Prop) : read_ok x0 c0 → ready off T page l hd x c →
  device_ok dev d → EhciHc.dev c = d → fresh_toggles d → bytes_at (Pmm.mem x) P 31 = cbw_bytes tag lba →
  (∀ x' c', ready off T page l hd x' c' → EhciHc.dev c' = commanded (le32_bytes tag) d → bytes_at (Pmm.mem x') P 31 = cbw_bytes tag lba →
     same_outside touched_read (Pmm.mem x) (Pmm.mem x') → Q 0 (mk_usb x' c' e hd hp tg)) →
  wp (msd_send_cbw hc_time_ms hc_udelay fuel dev P) Q (mk_usb x c e hd hp tg).
Proof using Hoff Hfuel Hhd Hlba.
  intros Hro Hr [[Ea Hd] _ Eo [_ Hpat] _] Ed Hf Hb HQ. unfold msd_send_cbw. rewrite Ea.
  pose proof (page_buffer x0 c0 0 31 Hro ltac:(lia) ltac:(lia) ltac:(lia)) as Hbuf. rewrite Z.add_0_r in Hbuf.
  eapply transfer with (k := patience d) (dk := set_patience 0 d); try done; rewrite ?Ed, ?Eo; change (Z.to_nat 31) with 31%nat; rewrite ?Hb.
  - by apply bot_naks.
  - apply (answer_out (set_patience 0 d)); [done|by apply fresh_bits|by apply command_cbw].
  - by apply ends_out.
  - intros x' c' Hr' Ed' Hb' Hs. apply HQ; try done. eapply same_transfer; [exact Hs|]. intros i Hi. left. unfold in_page. lia.
Qed.
Lemma data_transfer x0 c0 x c e hp tg tag dev d (Q : Z → usb (ehc bot) → Prop) : read_ok x0 c0 → ready off T page l hd x c →
  device_ok dev d → EhciHc.dev c = commanded tag d → fresh_toggles d →
  (∀ x' c', ready off T page l hd x' c' → EhciHc.dev c' = given tag d → bytes_at (Pmm.mem x') buf 512 = sector d lba →
     bytes_at (Pmm.mem x') P 31 = bytes_at (Pmm.mem x) P 31 → same_outside touched_read (Pmm.mem x) (Pmm.mem x') → Q 0 (mk_usb x' c' e hd hp tg)) →
  wp (ehci_submit_bulk_simple hc_time_ms hc_udelay fuel (address dev) (ep_addr (bulk_in dev)) buf 512 1 1000) Q (mk_usb x c e hd hp tg).
Proof using Hoff Hfuel Hhd Hlba.
  intros Hro Hr [[Ea Hd] Ei _ [Hlag _] [Hlen Hby]] Ed Hf HQ. rewrite Ea.
  pose proof (page_buffer x0 c0 0 31 Hro ltac:(lia) ltac:(lia) ltac:(lia)) as HPb. rewrite Z.add_0_r in HPb.
  eapply transfer with (k := lag d) (dk := set_patience 0 (commanded tag d)) (b' := sector d lba); rewrite ?Ed, ?Ei; try done; [by eapply user_buffer|..].
  - by apply (bot_naks (bot_addr d) (bot_in d) PID_IN _ (commanded tag d)).
  - exact (answer_in (set_patience 0 (commanded tag d)) _ _ eq_refl eq_refl).
  - cbn. rewrite (proj2 (fresh_bits d Hf)).
    pose proof (ends_in PID_IN 512 (bytes_at (Pmm.mem x) buf 512) (sector d lba) eq_refl ltac:(lia) Hby) as He.
    rewrite drop_ge, app_nil_r in He by (rewrite length_bytes_at; lia). exact He.
  - intros x' c' Hr' Ed' Hb' Hs. apply HQ; try done; [|eapply same_transfer; [exact Hs|tauto]].
    apply bytes_at_ext. intros i Hi. apply Hs. destruct (bf_apart _ _ _ _ _ _ HPb i Hi).
    intros [?|[Hi'|?]]; [done| |by unfold in_page in *; lia]. destruct (ro_apart _ _ Hro i Hi') as (_ & _ & HnP). apply HnP. unfold in_page. lia.
Qed.

(** The status: delivered by a device that ignores toggles, dropped as a
    repetition from one that keeps them. *)
Lemma status_transfer x0 c0 x c e hp tg tag dev d (Q : Z → usb (ehc bot) → Prop) : read_ok x0 c0 → ready off T page l hd x c →
  device_ok dev d → EhciHc.dev c = given (le32_bytes tag) d → fresh_toggles d →
  (∀ r x' c', ready off T page l hd x' c' → (if strict d then r = -2 else r = 0 ∧ bytes_at (Pmm.mem x') (P + 32) 13 = csw_bytes (le32_bytes tag)) →
     phase (EhciHc.dev c') = (if strict d then phase (EhciHc.dev c') else Idle) →
     bytes_at (Pmm.mem x') P 31 = bytes_at (Pmm.mem x) P 31 → bytes_at (Pmm.mem x') buf 512 = bytes_at (Pmm.mem x) buf 512 →
     same_outside touched_read (Pmm.mem x) (Pmm.mem x') → Q r (mk_usb x' c' e hd hp tg)) →
  wp (msd_receive_csw hc_time_ms hc_udelay fuel dev (P + 32)) Q (mk_usb x c e hd hp tg).
Proof using Hoff Hfuel Hhd Hlba.
  intros Hro Hr [[Ea Hd] Ei _ [Hlag _] _] Ed Hf HQ. unfold msd_receive_csw. rewrite Ea.
  pose proof (page_buffer x0 c0 32 13 Hro ltac:(lia) ltac:(lia) ltac:(lia)) as Hbuf.
  pose proof (page_buffer x0 c0 0 31 Hro ltac:(lia) ltac:(lia) ltac:(lia)) as HPb. rewrite Z.add_0_r in HPb.
  assert (∀ x' : mm_state, same_outside (λ i, in_page page i ∨ P + 32 <= i < P + 32 + 13 ∨ hd <= i < hd + 4) (Pmm.mem x) (Pmm.mem x') →
    bytes_at (Pmm.mem x') P 31 = bytes_at (Pmm.mem x) P 31 ∧ bytes_at (Pmm.mem x') buf 512 = bytes_at (Pmm.mem x) buf 512 ∧
    same_outside touched_read (Pmm.mem x) (Pmm.mem x')) as Hsame.
  { intros x' Hs. split_and!.
    - apply bytes_at_ext. intros i Hi. apply Hs. destruct (bf_apart _ _ _ _ _ _ HPb i Hi). unfold in_page in *. lia.
    - apply bytes_at_ext. intros i Hi. apply Hs. destruct (ro_apart _ _ Hro i Hi) as (?&?&?). unfold in_page in *. lia.
    - eapply same_transfer; [exact Hs|]. intros i Hi. left. unfold in_page. lia. }
  destruct (strict d) eqn:Es.
  - eapply transfer_open with (R := λ d', strict d' = true ∧ bot_addr d' = bot_addr d ∧ bot_in d' = bot_in d ∧
      (phase d' = Status (le32_bytes tag) ∧ in_toggle d' = true ∨ phase d' = Idle)); try done.
    + rewrite Ed. destruct (Hf Es) as [_ Et]. split_and!; [done..|]. left. split; [done|]. cbn. by rewrite Et.
    + rewrite Ei. intros d' (Hs & Hda & Hdi & Hph). destruct (patience d') as [|n] eqn:Ep.
      * rewrite <- Hda, <- Hdi. destruct Hph as [[Hph Ht]|Hph].
        -- eexists _, _. split; [exact (answer_in d' _ _ Ep Hph)|]. rewrite Hs, Ht. split; [|right; by eauto]. split_and!; [done..|by right].
        -- eexists _, _. split; [exact (answer_in d' _ _ Ep Hph)|]. split; [|by left]. split_and!; [done..|by right].
      * exists Nak, (set_patience n d'). split; [|split; [done|by left]]. unfold bulk_answer, dev_in, bot_device. cbn [Z.eqb PID_OUT PID_IN Pos.eqb truthy negb].
        rewrite <- Hda, <- Hdi, !Z.eqb_refl, Ep. done.
    + intros x' c' Hr' _ Hs. destruct (Hsame x' Hs) as (?&?&?). by apply HQ.
  - eapply transfer with (k := lag d) (dk := set_patience 0 (given (le32_bytes tag) d)) (b' := csw_bytes (le32_bytes tag)); rewrite ?Ed, ?Ei; try done.
    + by apply (bot_naks (bot_addr d) (bot_in d) PID_IN _ (given (le32_bytes tag) d)).
    + exact (answer_in (set_patience 0 (given (le32_bytes tag) d)) _ _ eq_refl eq_refl).
    + cbn. rewrite Es. cbn.
      pose proof (ends_in PID_IN 13 (bytes_at (Pmm.mem x) (P + 32) 13) (csw_bytes (le32_bytes tag)) eq_refl ltac:(done)) as He.
      rewrite drop_ge, app_nil_r in He by (rewrite length_bytes_at; done). apply He.
      repeat (apply list.Forall_cons; split); try done; apply Z.mod_pos_bound; lia.
    + intros x' c' Hr' Ed' Hb' Hs. destruct (Hsame x' Hs) as (?&?&?). apply HQ; try done. by rewrite Ed'.
Qed.

(** ** The whole read *)

Lemma status_fields m tag lba' : bytes_at m (P + 32) 13 = csw_bytes (le32_bytes tag) → bytes_at m P 31 = cbw_bytes tag lba' →
  load32 m (P + 32) = CSW_SIGNATURE ∧ load32 m (P + 32 + 4) = load32 m (P + 4) ∧ load8 m (P + 32 + 12) = 0.
Proof.
  intros Hc Hb. split_and!.
  - rewrite loadn_bytes. replace (P + 32) with (P + 32 + Z.of_nat 0) by lia. rewrite (bytes_at_sub m (P + 32) 13 0 4) by lia. by rewrite Hc.
  - rewrite !loadn_bytes. change 4 with (Z.of_nat 4). rewrite (bytes_at_sub m (P + 32) 13 4 4), (bytes_at_sub m P 31 4 4) by lia. by rewrite Hc, Hb.
  - pose proof (lookup_bytes_at m (P + 32) 13 12 ltac:(lia)) as Hl. rewrite Hc in Hl. change 12 with (Z.of_nat 12). by injection Hl.
Qed.
Lemma page_free x0 c0 x c e hp tg r (Q : Z → usb (ehc bot) → Prop) : read_ok x0 c0 → ready off T page l hd x c →
  (∀ x', mmok off T (P :: page :: l) x' → idle_list off (Pmm.mem x') (hd - off) → same_outside (in_page P) (Pmm.mem x) (Pmm.mem x') → Q r (mk_usb x' c e hd hp tg)) →
  wp (on_mm (pfree (P - off));; mret r) Q (mk_usb x c e hd hp tg).
Proof.
  intros Hro [Hm _ [Hi1 Hi2] _ _] HQ. destruct (ro_mm _ _ Hro) as (HO & Hr & _ & HT). destruct HO as [_ Hnd Hfr _ HTT]. rewrite HT in HTT.
  rewrite Hr in Hfr. apply list.NoDup_cons in Hnd as [HP _]. cbn [length] in HTT.
  pose proof (page_buffer x0 c0 0 4096 Hro ltac:(lia) ltac:(lia) ltac:(lia)) as [_ Ha _]. rewrite Z.add_0_r in Ha.
  apply wp_bind. eapply free_spec; [exact Hm|apply Hfr; set_solver|done|cbn [length]; lia|]. intros x' Hm' Hs. apply wp_ret, HQ; [done|split|].
  - rewrite <- Hi1. apply loadn_ext. intros i Hi. apply Hs. intros Hri. destruct (Ha i) as [Hn _]; [lia|]. apply Hn. unfold in_page. lia.
  - rewrite <- Hi2. f_equal. apply loadn_ext. intros i Hi. apply Hs. intros Hri. destruct (Ha i) as [Hn _]; [lia|]. apply Hn. unfold in_page. lia.
  - intros i Hi. apply Hs. unfold in_page in Hi. lia.
Qed.

Definition read_done x e hp tg d (r : Z) (s' : usb (ehc bot)) : Prop :=
  r = (if strict d then -4 else 0) ∧ ∃ x' c', s' = mk_usb x' c' e hd hp (u32 (tg + 1)) ∧
    bytes_at (Pmm.mem x') buf 512 = sector d lba ∧ mmok off T (P :: page :: l) x' ∧ idle_list off (Pmm.mem x') (hd - off) ∧
    (strict d = false → phase (EhciHc.dev c') = Idle) ∧ same_outside touched_read (Pmm.mem x) (Pmm.mem x').

Lemma read_leave x c x7 c7 e hp tg r : let d := EhciHc.dev c in read_ok x c → ready off T page l hd x7 c7 → r = (if strict d then -4 else 0) →
  bytes_at (Pmm.mem x7) buf 512 = sector d lba → (strict d = false → phase (EhciHc.dev c7) = Idle) → same_outside touched_read (Pmm.mem x) (Pmm.mem x7) →
  wp (on_mm (pfree (P - off));; mret r) (read_done x e hp tg d) (mk_usb x7 c7 e hd hp (u32 (tg + 1))).
Proof.
  intros d Hro Hr7 Er Hb Hph Hs. eapply page_free; [exact Hro|exact Hr7|]. intros x' Hm' Hi' Hs'. split; [exact Er|]. exists x', c7. split_and!; try done.
  - rewrite <- Hb. apply bytes_at_ext. intros i Hi. apply Hs'. by destruct (ro_apart _ _ Hro i Hi) as (_&_&?).
  - intros i Hi. rewrite Hs', Hs; [done|done|]. unfold touched_read in Hi. tauto.
Qed.
Lemma read_sector_spec x c e hp tg dev : let d := EhciHc.dev c in read_ok x c → device_ok dev d → phase d = Idle → fresh_toggles d →
  wp (msd_read_sector hc_time_ms hc_udelay fuel dev lba buf) (read_done x e hp tg d) (mk_usb x c e hd hp tg).
Proof using Hoff Hfuel Hhd Hlba.
  intros d Hro Hdo _ Hf. pose proof (ro_pages _ _ Hro) as ((HP0 & HPm & HP1) & HPn & _). unfold msd_read_sector.
  apply wp_bind. eapply alloc_spec; [apply (ro_mm _ _ Hro)|]. intros x1 HO1 E1. rewrite (proj2 (Z.eqb_neq (P - off) 0)) by lia.
  pose proof (read_ready x c x1 Hro HO1 E1) as Hr1. apply wp_bind. eapply virt_spec; [exact HO1|]. replace (P - off + off) with P by lia.
  rewrite (wrap_small 64 P) by (destruct (ro_mm _ _ Hro) as ([_ _ Hfr _ _] & Hr & _); rewrite Hr in Hfr; destruct (Hfr P) as (?&?&?&?&?&?); [set_solver|lia]).
  change (ALIGN_UP sizeof_CBW 16) with 32. change sizeof_CBW with 31. change sizeof_CSW with 13. cbv zeta.
  apply wp_bind. eapply (update_page x c); [exact Hro|exact Hr1|apply memset_outside; lia|unfold in_page; lia|]. intros x2 Hr2 E2.
  apply wp_bind. unfold next_tag. apply wp_bind, wp_modify, wp_gets. cbn [mm hc ehci async_list_head async_list_head_phys global_tag].
  apply wp_bind. eapply (update_page x c (λ i, P <= i < P + 31)); [exact Hro|exact Hr2|apply build_cbw_outside|unfold in_page; lia|]. intros x3 Hr3 E3. cbv beta in E2, E3.
  apply wp_bind. eapply (command_transfer x c); [exact Hro|exact Hr3|exact Hdo|done|exact Hf|by rewrite E3, E2, build_cbw_bytes by lia|].
  intros x4 c4 Hr4 Ed4 Hb4 Hs4. cbn [truthy negb Z.eqb]. apply wp_bind. eapply (data_transfer x c); [exact Hro|exact Hr4|exact Hdo|exact Ed4|exact Hf|].
  intros x5 c5 Hr5 Ed5 Hbuf5 Hb5 Hs5. cbn [truthy negb Z.eqb].
  apply wp_bind. eapply (update_page x c); [exact Hro|exact Hr5|apply memset_outside; lia|unfold in_page; lia|]. intros x6 Hr6 E6. cbv beta in E6.
  assert (same_outside touched_read (Pmm.mem x) (Pmm.mem x6)) as Hs6.
  { intros i Hi. pose proof Hi as Hi'. unfold touched_read, in_page in Hi'. rewrite E6, memset_outside by lia. rewrite Hs5, Hs4 by done.
    rewrite E3, build_cbw_outside by lia. rewrite E2, memset_outside by lia. by rewrite E1. }
  assert (bytes_at (Pmm.mem x6) P 31 = cbw_bytes (u32 (tg + 1)) lba ∧ bytes_at (Pmm.mem x6) buf 512 = sector d lba) as [Hb6 Hbuf6].
  { split; [rewrite <- Hb4, <- Hb5|rewrite <- Hbuf5]; apply bytes_at_ext; intros i Hi; rewrite E6; apply memset_outside; [lia|lia| |]; try lia.
    destruct (ro_apart _ _ Hro i Hi) as (_&_&Hn). unfold in_page in Hn. lia. }
  apply wp_bind. eapply (status_transfer x c); [exact Hro|exact Hr6|exact Hdo|exact Ed5|exact Hf|]. intros r x7 c7 Hr7 Hres Hph Hb7 Hbuf7 Hs7.
  rewrite Hb6 in Hb7. rewrite Hbuf6 in Hbuf7.
  assert (same_outside touched_read (Pmm.mem x) (Pmm.mem x7)) as Hs by (by eapply same_outside_trans).
  assert (strict d = false → phase (EhciHc.dev c7) = Idle) as Hidle by (intros Es; by rewrite Hph, Es).
  destruct (strict d) eqn:Es.
  - rewrite Hres. cbn [truthy negb Z.eqb]. eapply read_leave; [exact Hro|exact Hr7|fold d; by rewrite Es|done|fold d; by rewrite Es|done].
  - destruct Hres as [-> Hcsw]. cbn [truthy negb Z.eqb]. apply wp_bind, wp_gets. cbn [mm].
    destruct (status_fields _ _ _ Hcsw Hb7) as (-> & -> & ->). rewrite !Z.eqb_refl. cbn [negb]. eapply read_leave; [exact Hro|exact Hr7|fold d; by rewrite Es|done|fold d; by rewrite Es|done].
Qed.
End read.

(** ** The theorems *)


(** a device that keeps data toggles as the USB standard wants sends its
    status with the other toggle, which a transfer always built with toggle 0
    takes for a repetition: the sector is in the buffer, but [msd_read_sector]
    returns -4. *)
Theorem msd_read_sector_status_lost off T P page l hd buf fuel lba x (c : ehc bot) e hp tg dev :
  off + 2 ^ 32 <= 2 ^ 64 → 10010 < Z.of_nat fuel → hd ≠ 0 → 0 <= lba < 2 ^ 32 → read_ok off T P page l hd buf x c → device_ok lba dev (EhciHc.dev c) →
  phase (EhciHc.dev c) = Idle → strict (EhciHc.dev c) = true → out_toggle (EhciHc.dev c) = false → in_toggle (EhciHc.dev c) = false →
  ∃ x' c', msd_read_sector hc_time_ms hc_udelay fuel dev lba buf (mk_usb x c e hd hp tg) = Some (-4, mk_usb x' c' e hd hp (u32 (tg + 1))) ∧
    bytes_at (Pmm.mem x') buf 512 = sector (EhciHc.dev c) lba ∧ mmok off T (P :: page :: l) x'.
Proof.
  intros Hoff Hfuel Hhd Hlba Hro Hdo Hi Hs Ho Hin.
  pose proof (read_sector_spec off T P page l hd buf fuel lba Hoff Hfuel Hhd Hlba x c e hp tg dev Hro Hdo Hi (λ _, conj Ho Hin)) as Hw.
  unfold wp in Hw. destruct (msd_read_sector _ _ _ _ _ _ _) as [[r s']|]; [|done].
  destruct Hw as (-> & x' & c' & -> & Hb & Hm & _). rewrite Hs. by exists x', c'.
Qed.
