(* ===== verification/EhciControl.v ===== *)
(** * Control transfers and enumeration ([usb_control_transfer], [find_mass_storage_device])

    The descriptors of a control transfer never carry the active bit, so the wait
    ends at once.  On a controller that leaves memory alone ([quiet]) the call
    reports success with nothing moved, and the enumeration reads zeros. *)

From stdpp Require Import prelude gmap list numbers tactics.
From S2P Require Import Prelude Memory Pmm Vmm Io AtaProps Ehci EhciMem.

(** ** What [build_control] leaves in the page *)

Lemma five_pages_outside n : ∀ m q i buf, 0 <= i → same_outside (λ x, q + 12 + 4 * i <= x < q + 12 + 4 * (i + Z.of_nat n)) m (five_pages n m q i buf).
Proof.
  induction n as [|n IH]; intros m q i buf Hi x Hx; cbn [five_pages]; [done|].
  rewrite IH by lia. apply load8_storen_out. unfold qtd_buffer. lia.
Qed.
Lemma loadn_outside (P : Z → Prop) n m m' a : same_outside P m m' → (∀ i, a <= i < a + Z.of_nat n → ¬ P i) → loadn n m' a = loadn n m a.
Proof. intros Hs HP. apply loadn_ext. intros i Hi. by apply Hs, HP. Qed.

Section built.
Context (m : gmap Z Z) (mem phys devaddr : Z) (setup : usb_setup) (data_buf data_len : Z).
Context (Hdev : 0 <= devaddr < 2 ^ 16).

Definition has_data : bool := negb (data_buf =? 0) && negb (data_len =? 0).
Definition data_token : Z := if has_data then data_len mod 2 ^ 15 * 2 ^ 16 else 0.


Definition built : gmap Z Z := build_control m mem phys devaddr setup data_buf data_len.

Lemma put_setup_outside m1 a : same_outside (λ x, a <= x < a + 8) m1 (put_setup m1 a setup).
Proof. intros x Hx. unfold put_setup. by rewrite !load8_storen_out, !load8_store8_ne by lia. Qed.
Lemma data_part_outside m1 : same_outside (λ x, mem + 128 <= x < mem + 160 ∨ mem + 64 <= x < mem + 68) m1
  (if has_data then five_pages 5 (store32 (store32 m1 (mem + 128) (u32 (phys + 192))) (mem + 128 + 8) (Z.shiftl (Z.land data_len 0x7FFF) 16)) (mem + 128) 0 data_buf
   else store32 m1 (mem + 64) (u32 (phys + 192))).
Proof.
  intros x Hx. destruct has_data; [|apply load8_storen_out; lia]. rewrite five_pages_outside by lia. rewrite !load8_storen_out by lia. done.
Qed.

Lemma built_outside : same_outside (λ x, mem <= x < mem + 4096) m built.
Proof.
  intros x Hx. unfold built, build_control, horiz_link, ep_char, ep_cap, curr_qtd, overlay, qtd_next, qtd_token, qtd_buffer, sizeof_qh, sizeof_qtd. cbv zeta.
  rewrite !load8_storen_out by lia. rewrite memcpy_outside by lia. rewrite !load8_storen_out by lia. fold has_data.
  rewrite data_part_outside by lia. rewrite put_setup_outside by lia. rewrite !load8_storen_out by lia. by rewrite !memset_outside by lia.
Qed.
Lemma built_tokens : load32 built (mem + 24) = 2 ^ 19 ∧ load32 built (mem + 136) = data_token.
Proof.
  unfold built, build_control, horiz_link, ep_char, ep_cap, curr_qtd, overlay, qtd_next, qtd_token, qtd_buffer, sizeof_qh, sizeof_qtd. cbv zeta. fold has_data.
  rewrite !(loadn_storen_ne 4 4 _ _ (mem + 24)), !(loadn_storen_ne 4 4 _ _ (mem + 136)) by lia. split.
  - replace (mem + 24) with (mem + 16 + 8) by lia. rewrite loadn_memcpy by lia. rewrite !(loadn_storen_ne 4 4 _ _ (mem + 64 + 8)) by lia.
    rewrite (loadn_outside _ 4 _ _ _ (data_part_outside _)) by lia. rewrite (loadn_outside _ 4 _ _ _ (put_setup_outside _ _)) by lia.
    rewrite loadn_storen_eq. done.
  - rewrite (loadn_outside _ 4 _ _ _ (memcpy_outside _ (mem + 16) (mem + 64) 32 ltac:(lia) ltac:(lia))) by lia.
    rewrite !(loadn_storen_ne 4 4 _ _ (mem + 136)) by lia. unfold data_token. destruct has_data.
    + rewrite (loadn_outside _ 4 _ _ _ (five_pages_outside 5 _ (mem + 128) 0 data_buf ltac:(lia))) by lia. replace (mem + 128 + 8) with (mem + 136) by lia. rewrite loadn_storen_eq.
      change 0x7FFF with (Z.ones 15). rewrite Z.land_ones, Z.shiftl_mul_pow2 by lia. apply Z.mod_small.
      assert (0 <= data_len mod 2 ^ 15 < 2 ^ 15) by (apply Z.mod_pos_bound; lia). lia.
    + rewrite !(loadn_storen_ne 4 4 _ _ (mem + 136)) by lia. rewrite (loadn_outside _ 4 _ _ _ (put_setup_outside _ _)) by lia.
      rewrite !(loadn_storen_ne 4 4 _ _ (mem + 136)) by lia. rewrite (loadn_outside _ 4 _ _ _ (memset_outside _ (mem + 192) 0 32 ltac:(lia))) by lia.
      rewrite loadn_memset by lia. done.
Qed.
End built.

(** The length the call computes from the data descriptor's token. *)
Lemma actual_length data_buf data_len : 0 <= data_len < 2 ^ 15 → let token := data_token data_buf data_len in
  (if truthy data_len && negb (truthy (Z.land token (Z.shiftl 15 3))) then data_len - Z.land (Z.shiftr token 16) 0x7FFF else data_len) =
  (if has_data data_buf data_len then 0 else data_len).
Proof.
  intros Hl. cbv zeta. unfold data_token. change 0x7FFF with (Z.ones 15). rewrite Z.land_ones, Z.shiftr_div_pow2 by lia.
  destruct (has_data data_buf data_len) eqn:E.
  - rewrite land_scaled by (done || lia). unfold has_data in E. apply andb_true_iff in E as [_ E]. apply negb_true_iff, Z.eqb_neq in E.
    rewrite (proj2 (truthy_true data_len)) by done. rewrite Z.div_mul, Zmod_mod, Z.mod_small by lia. cbn. lia.
  - change (0 / 2 ^ 16 mod 2 ^ 15) with 0. destruct (truthy data_len && _); lia.
Qed.

(** ** The calls *)

Section control.
Context {H : Type} `{Bus H} (off T : Z) (get_time_ms : M (usb H) Z) (udelay : Z → M (usb H) unit) (fuel : nat).
Implicit Types (h : H) (x : mm_state).

(** A computation of the controller and the clock that leaves the kernel's state alone. *)
Definition quiet {A} (c : M (usb H) A) : Prop := ∀ x h e hd hp tg, wp c (λ _ s', ∃ h', s' = mk_usb x h' e hd hp tg) (mk_usb x h e hd hp tg).
Context (Htime : quiet get_time_ms) (Hdelay : ∀ us, quiet (udelay us)) (Hfuel : fuel ≠ 0%nat).

Lemma quiet_ret {A} (a : A) : quiet (mret a).
Proof. intros x h e hd hp tg. apply wp_ret. by exists h. Qed.
Lemma quiet_bind {A B} (c : M (usb H) A) (f : A → M (usb H) B) : quiet c → (∀ a, quiet (f a)) → quiet (bind c f).
Proof.
  intros Hc Hf x h e hd hp tg. apply wp_bind. eapply wp_mono; [exact (Hc x h e hd hp tg)|]. intros a s' [h' ->]. apply Hf.
Qed.
Lemma quiet_on_hc {A} (c : M H A) : (∀ h, ∃ a h', c h = Some (a, h')) → quiet (on_hc c).
Proof. intros Hc x h e hd hp tg. apply wp_zoom. cbn [hc]. destruct (Hc h) as (a & h' & E). unfold wp. rewrite E. by exists h'. Qed.
Lemma quiet_read r : quiet (op_read r).
Proof. intros x h e hd hp tg. apply wp_bind, wp_gets. apply quiet_on_hc. intros h0. unfold reg_read. destruct (mmio_read _ h0). eauto. Qed.
Lemma quiet_write r v : quiet (op_write r v).
Proof. intros x h e hd hp tg. apply wp_bind, wp_gets. apply quiet_on_hc. intros h0. unfold reg_write. eauto. Qed.
Lemma quiet_gets {A} (f : usb H → A) : quiet (gets f).
Proof. intros x h e hd hp tg. apply wp_gets. by exists h. Qed.

Lemma quiet_when (p : bool) (c : M (usb H) unit) : quiet c → quiet (mwhen p c).
Proof. intros Hc. destruct p; [exact Hc|apply quiet_ret]. Qed.
Lemma quiet_wait_off n : quiet (wait_async_off udelay n).
Proof.
  induction n as [|n IH]; cbn [wait_async_off]; (apply quiet_bind; [apply quiet_read|]); intros v; destruct (truthy _); try apply quiet_ret.
  apply quiet_bind; [apply Hdelay|]. by intros [].
Qed.
Lemma quiet_flush : quiet (ehci_flush_async udelay).
Proof.
  unfold ehci_flush_async, op_clear. repeat (apply quiet_bind; [first [apply quiet_read|apply quiet_write|apply Hdelay|apply quiet_wait_off|apply quiet_bind; [apply quiet_read|intros; apply quiet_write]]|intros ?]).
  apply quiet_ret.
Qed.
Lemma quiet_run_async : quiet (ehci_run_async udelay).
Proof.
  unfold ehci_run_async, op_set. repeat (apply quiet_bind; [first [apply quiet_gets|apply quiet_read|apply quiet_write|apply Hdelay|apply quiet_bind; [apply quiet_read|intros; apply quiet_write]]|intros ?]).
  apply Hdelay.
Qed.
Lemma idle_token : truthy (Z.land (2 ^ 19) (Z.shiftl 1 7)) = false.
Proof. done. Qed.
(** What [ehci_flush_async] returns. *)
Lemma flush_result x h e hd hp tg : wp (ehci_flush_async udelay) (λ r s', (r = -1 ∨ r = 0) ∧ ∃ h', s' = mk_usb x h' e hd hp tg) (mk_usb x h e hd hp tg).
Proof.
  unfold ehci_flush_async, op_clear. apply wp_bind. eapply wp_mono; [apply (quiet_bind (op_read USBCMD)); [apply quiet_read|intros; apply quiet_write]|].
  intros [] s1 [h1 ->]. apply wp_bind. eapply wp_mono; [apply Hdelay|]. intros [] s2 [h2 ->]. apply wp_bind. eapply wp_mono; [apply quiet_wait_off|].
  intros [] s3 [h3 ->]. apply wp_bind. eapply wp_mono; [apply quiet_read|]. intros v s4 [h4 ->]. apply wp_ret. split; [destruct (truthy _); auto|by exists h4].
Qed.

(** A transfer without the active bit counts as completed. *)
Lemma wait_inactive n qh start x h e hd hp tg (Q : bool → usb H → Prop) : n ≠ 0%nat → load32 (Pmm.mem x) (qh + 24) = 2 ^ 19 →
  Q true (mk_usb x h e hd hp tg) → wp (wait_control get_time_ms udelay n qh start) Q (mk_usb x h e hd hp tg).
Proof.
  intros Hn Ht HQ. destruct n as [|n]; [done|]. cbn [wait_control]. apply wp_bind, wp_gets. cbn [mm]. unfold qtd_token, overlay.
  replace (qh + 16 + 8) with (qh + 24) by lia. rewrite Ht, idle_token. by apply wp_ret.
Qed.

(** ** One control transfer *)

(** The call gives its frame [a] back and has touched nothing else. *)
Definition control_done (a : Z) (l : list Z) (data_buf data_len : Z) x e hd hp tg (r : Z) (s' : usb H) : Prop :=
  (r = -3 ∨ r = (if has_data data_buf data_len then 0 else data_len)) ∧
  ∃ x' h', s' = mk_usb x' h' e hd hp tg ∧ mmok off T (a :: l) x' ∧ same_outside (λ i, a <= i < a + 4096) (Pmm.mem x) (Pmm.mem x').

Lemma leave_spec a l x1 h e hd' hd hp tg r data_buf data_len x : mmok off T l x1 → frame off a → a ∉ l → Z.of_nat (length l) < T →
  same_outside (λ i, a <= i < a + 4096) (Pmm.mem x) (Pmm.mem x1) → r = -3 ∨ r = (if has_data data_buf data_len then 0 else data_len) →
  wp (leave_control hd (a - off) r) (control_done a l data_buf data_len x e hd hp tg) (mk_usb x1 h e hd' hp tg).
Proof.
  intros Hm Hf Hn Hl Hs Hr. unfold leave_control, set_list_head. apply wp_bind, wp_modify. cbn [mm hc ehci async_list_head_phys global_tag].
  apply wp_bind. eapply free_spec; try done. intros x' Hm' Hs'. apply wp_ret. split; [done|]. exists x', h. split_and!; try done.
  intros i Hi. rewrite Hs' by lia. by apply Hs.
Qed.

#[local] Opaque build_control.
Lemma control_spec a l x h e hd hp tg devaddr setup data_buf data_len : mmok off T (a :: l) x → a ≠ off → 0 <= data_len < 2 ^ 15 →
  wp (usb_control_transfer get_time_ms udelay fuel devaddr (Some setup) data_buf data_len) (control_done a l data_buf data_len x e hd hp tg) (mk_usb x h e hd hp tg).
Proof using Htime Hdelay Hfuel.
  intros Hm Hao Hlen. pose proof Hm as ([_ Hnd Hfr _ HT] & Hr & _ & HTT). apply list.NoDup_cons in Hnd as [Hn _].
  assert (frame off a) as Hf by (rewrite <- Hr; apply Hfr; set_solver). rewrite HTT in HT. cbn [length] in HT. pose proof Hf as (_ & ? & ? & ? & ? & ?).
  unfold usb_control_transfer. apply wp_bind. eapply alloc_spec; [exact Hm|]. intros x1 Hm1 E1. rewrite (proj2 (Z.eqb_neq (a - off) 0)) by lia.
  apply wp_bind. eapply virt_spec; [exact Hm1|]. replace (a - off + off) with a by lia. rewrite (wrap_small 64 a) by lia.
  apply wp_bind. eapply update_spec; [exact Hm1|apply memset_outside; lia|eapply page_clear; [exact Hm1|exact Hf|exact Hn|lia]|]. intros x2 Hm2 E2. cbv beta in E2.
  apply wp_bind. eapply phys_spec; [exact Hm2|]. rewrite (wrap_small 64 (a - off)) by lia.
  pose proof (built_outside (Pmm.mem x2) a (a - off) devaddr setup data_buf data_len) as Hb. unfold built in Hb.
  apply wp_bind. eapply update_spec; [exact Hm2|exact Hb|eapply page_clear; [exact Hm2|exact Hf|exact Hn|lia]|].
  intros x3 Hm3 E3. cbv beta in E3.
  assert (same_outside (λ i, a <= i < a + 4096) (Pmm.mem x) (Pmm.mem x3)) as Hs.
  { intros i Hi. rewrite E3, (Hb i Hi), E2, memset_outside by lia. by rewrite E1. }
  destruct (built_tokens (Pmm.mem x2) a (a - off) devaddr setup data_buf data_len) as [Ht Hd]. unfold built in Ht, Hd. rewrite <- E3 in Ht, Hd.
  apply wp_bind, wp_gets. cbn [async_list_head]. apply wp_bind, wp_modify. cbn [mm hc ehci async_list_head_phys global_tag].
  apply wp_bind. eapply wp_mono; [apply flush_result|]. intros f s4 [Hf4 [h4 ->]]. destruct (truthy f); [eapply leave_spec; [exact Hm3|exact Hf|exact Hn|lia|exact Hs|by left]|].
  apply wp_bind. eapply wp_mono; [apply quiet_run_async|]. intros [] s5 [h5 ->].
  apply wp_bind. eapply wp_mono; [apply Htime|]. intros start s6 [h6 ->].
  clear E3 Hb. apply wp_bind. apply wait_inactive; [exact Hfuel|exact Ht|]. cbn [negb].
  apply wp_bind, wp_gets. cbn [mm]. unfold qtd_token. replace (a + 128 + 8) with (a + 136) by lia. rewrite Hd. eapply leave_spec; [exact Hm3|exact Hf|exact Hn|lia|exact Hs|right].
  by apply actual_length.
Qed.

(** ** Enumeration *)

(** The descriptor page [a] stays zero between the transfers; [b] is their page. *)
Record enumerating (a b : Z) (l : list Z) x x1 : Prop := {
  en_mm : mmok off T (b :: l) x1;
  en_zero : ∀ i, a <= i < a + 4096 → load8 (Pmm.mem x1) i = 0;
  en_rest : same_outside (λ i, a <= i < a + 4096 ∨ b <= i < b + 4096) (Pmm.mem x) (Pmm.mem x1)
}.
Definition nothing_found (a b : Z) (l : list Z) x e hd hp tg (rd : Z * usb_device) (s' : usb H) : Prop :=
  fst rd ∈ [-97; -3; -4; -5; -6] ∧
  ∃ x' h', s' = mk_usb x' h' e hd hp tg ∧ mmok off T (a :: b :: l) x' ∧
    same_outside (λ i, a <= i < a + 4096 ∨ b <= i < b + 4096) (Pmm.mem x) (Pmm.mem x').

Section frames.
Context (a b : Z) (l : list Z) (x : mm_state) (e hd hp tg : Z).
Context (Hmm : mmok off T (a :: b :: l) x) (Hboff : b ≠ off) (Haoff : a ≠ off).

Lemma en_frames : frame off a ∧ frame off b ∧ a ∉ b :: l ∧ b ∉ l ∧ Z.of_nat (length (b :: l)) < T ∧ a ≠ b.
Proof.
  destruct Hmm as ([_ Hnd Hfr _ HT] & Hr & _ & HTT). rewrite Hr in Hfr. rewrite HTT in HT. apply list.NoDup_cons in Hnd as [Ha Hnd].
  pose proof Hnd as [Hb _]%list.NoDup_cons. cbn [length] in *. split_and!; [apply Hfr; set_solver|apply Hfr; set_solver|done|done|lia|set_solver].
Qed.
Lemma transfer_quiet x1 h devaddr setup data_buf data_len (Q : Z → usb H → Prop) : enumerating a b l x x1 → 0 <= data_len < 2 ^ 15 → data_buf ≠ 0 ∨ data_len = 0 →
  (∀ r x2 h2, r = -3 ∨ r = 0 → enumerating a b l x x2 → Q r (mk_usb x2 h2 e hd hp tg)) →
  wp (usb_control_transfer get_time_ms udelay fuel devaddr (Some setup) data_buf data_len) Q (mk_usb x1 h e hd hp tg).
Proof using Htime Hdelay Hfuel Hmm Hboff Haoff.
  intros [Hm Hz Hs] Hl Hd HQ. destruct en_frames as (Hfa & Hfb & _ & _ & _ & Hne). eapply wp_mono; [by apply (control_spec b l)|].
  intros r s' (Hr & x2 & h2 & -> & Hm2 & Hs2). apply HQ.
  - destruct Hr as [->| ->]; [by left|right]. unfold has_data. destruct (Z.eqb_spec data_len 0) as [->|]; [by rewrite andb_false_r|].
    rewrite (proj2 (Z.eqb_neq data_buf 0)) by (destruct Hd; done). done.
  - split; [done|..].
    + intros i Hi. rewrite Hs2; [by apply Hz|]. destruct (frames_apart off a b Hfa Hfb Hne); lia.
    + intros i Hi. rewrite Hs2 by lia. by apply Hs.
Qed.
Lemma leave_find x1 h r d : enumerating a b l x x1 → r ∈ [-97; -3; -4; -5; -6] →
  wp (on_mm (pfree (a - off));; mret (r, d)) (nothing_found a b l x e hd hp tg) (mk_usb x1 h e hd hp tg).
Proof.
  intros [Hm _ Hs] Hr. destruct en_frames as (Hfa & _ & Hna & _ & Hl & _). apply wp_bind. eapply free_spec; try done.
  intros x2 Hm2 Hs2. apply wp_ret. split; [done|]. exists x2, h. split_and!; try done. intros i Hi. rewrite Hs2 by lia. by apply Hs.
Qed.
Lemma zero_page x1 i n : enumerating a b l x x1 → 0 <= i → i + Z.of_nat n <= 4096 → loadn n (Pmm.mem x1) (a + i) = 0.
Proof.
  intros [_ Hz _]. revert i. induction n as [|n IH]; intros i Hi Hn; [done|].
  change (load8 (Pmm.mem x1) (a + i) + 256 * loadn n (Pmm.mem x1) (a + i + 1) = 0). rewrite Hz by lia. rewrite <- Z.add_assoc, IH by lia. done.
Qed.

Lemma find_spec h d : wp (find_mass_storage_device get_time_ms udelay fuel d) (nothing_found a b l x e hd hp tg) (mk_usb x h e hd hp tg).
Proof using Htime Hdelay Hfuel Hmm Hboff Haoff.
  destruct en_frames as (Hfa & Hfb & Hna & Hnb & Hl & Hne). pose proof Hfa as (_ & ? & ? & ? & ? & ?).
  unfold find_mass_storage_device. apply wp_bind. eapply alloc_spec; [exact Hmm|]. intros x1 Hm1 E1. rewrite (proj2 (Z.eqb_neq (a - off) 0)) by lia.
  apply wp_bind. eapply virt_spec; [exact Hm1|]. replace (a - off + off) with a by lia. rewrite (wrap_small 64 a) by lia. cbv zeta.
  apply wp_bind. eapply update_spec; [exact Hm1|apply memset_outside; lia|eapply page_clear; [exact Hm1|exact Hfa|exact Hna|lia]|]. intros x2 Hm2 E2. cbv beta in E2.
  assert (enumerating a b l x x2) as He.
  { split; [done|..].
    - intros i Hi. rewrite E2. unfold memset. by rewrite memset_loop_in by lia.
    - intros i Hi. rewrite E2, memset_outside by lia. by rewrite E1. }
  unfold usb_get_device_descriptor, usb_get_config_descriptor, get_descriptor, usb_set_address.
  apply wp_bind. eapply (transfer_quiet x2); [exact He|lia|lia|]. intros r x3 h3 [->| ->] He3; cbn [truthy negb Z.eqb]; [eapply leave_find; [eassumption|by apply (bool_decide_unpack _)]|].
  apply wp_bind. apply wp_bind. eapply (transfer_quiet x3); [exact He3|lia|lia|].
  intros r x4 h4 Hr4 He4. apply wp_bind. eapply wp_mono; [apply quiet_when, Hdelay|]. intros [] s5 [h5 ->]. apply wp_ret.
  destruct Hr4 as [->| ->]; cbn [truthy negb Z.eqb]; [eapply leave_find; [eassumption|by apply (bool_decide_unpack _)]|].
  apply wp_bind. eapply (transfer_quiet x4); [exact He4|lia|lia|]. intros r x6 h6 [->| ->] He6; cbn [truthy negb Z.eqb]; [eapply leave_find; [eassumption|by apply (bool_decide_unpack _)]|].
  apply wp_bind, wp_gets. cbn [mm]. rewrite (zero_page x6 2 2 He6) by lia. change (1024 <? 0) with false. cbv iota zeta.
  apply wp_bind. eapply (transfer_quiet x6); [exact He6|lia|lia|]. intros r x7 h7 [->| ->] He7; cbn [truthy negb Z.eqb]; [eapply leave_find; [eassumption|by apply (bool_decide_unpack _)]|].
  apply wp_bind, wp_gets. cbn [mm]. apply wp_bind. rewrite Z.add_0_r.
  assert (∀ n m d', parse_descriptors n m (a + 9) a d' false = Some (d', false)) as Hparse.
  { intros n m d'. destruct n; cbn [parse_descriptors]; by rewrite (proj2 (Z.ltb_ge (a + 9) a)) by lia. }
  eapply wp_of_option; [apply Hparse|].
  eapply leave_find; [exact He7|by apply (bool_decide_unpack _)].
Qed.
End frames.
End control.

(** On a controller that does no work of its own, so that waiting changes nothing
    but the controller, [find_mass_storage_device] ends with one of its error
    codes and both frames free again: each control transfer is over at once,
    with nothing transferred, and the configuration read is zero. *)
Theorem find_mass_storage_device_fails {H} `{Bus H} off T get_time_ms udelay fuel a b l x (h : H) e hd hp tg d :
  quiet get_time_ms → (∀ us, quiet (udelay us)) → fuel ≠ 0%nat → mmok off T (a :: b :: l) x → a ≠ off → b ≠ off →
  ∃ r d' x' h', find_mass_storage_device get_time_ms udelay fuel d (mk_usb x h e hd hp tg) = Some (r, d', mk_usb x' h' e hd hp tg) ∧
    r ∈ [-97; -3; -4; -5; -6] ∧ mmok off T (a :: b :: l) x' ∧
    same_outside (λ i, a <= i < a + 4096 ∨ b <= i < b + 4096) (Pmm.mem x) (Pmm.mem x').
Proof.
  intros Ht Hd Hf Hm Ha Hb. pose proof (find_spec off T get_time_ms udelay fuel Ht Hd Hf a b l x e hd hp tg Hm Hb Ha h d) as Hw.
  unfold wp in Hw. destruct (find_mass_storage_device _ _ _ _ _) as [[[r d'] s']|]; [|done].
  destruct Hw as (Hr & x' & h' & -> & Hm' & Hs). by exists r, d', x', h'.
Qed.

(** one control transfer, on any such controller: -3 when the schedule cannot
    be stopped, and otherwise the answer of a transfer that moved nothing, with
    the setup packet never on the bus and memory as it was outside of its frame. *)
Theorem usb_control_transfer_blind {H} `{Bus H} off T get_time_ms udelay fuel a l x (h : H) e hd hp tg devaddr setup data_buf data_len :
  quiet get_time_ms → (∀ us, quiet (udelay us)) → fuel ≠ 0%nat → mmok off T (a :: l) x → a ≠ off → 0 <= data_len < 2 ^ 15 → data_buf ≠ 0 ∨ data_len = 0 →
  ∃ r x' h', usb_control_transfer get_time_ms udelay fuel devaddr (Some setup) data_buf data_len (mk_usb x h e hd hp tg) = Some (r, mk_usb x' h' e hd hp tg) ∧
    (r = -3 ∨ r = 0) ∧ mmok off T (a :: l) x' ∧ same_outside (λ i, a <= i < a + 4096) (Pmm.mem x) (Pmm.mem x').
Proof.
  intros Ht Hd Hf Hm Ha Hl Hb. pose proof (control_spec off T get_time_ms udelay fuel Ht Hd Hf a l x h e hd hp tg devaddr setup data_buf data_len Hm Ha Hl) as Hw.
  unfold wp in Hw. destruct (usb_control_transfer _ _ _ _ _ _ _ _) as [[r s']|]; [|done].
  destruct Hw as (Hr & x' & h' & -> & Hm' & Hs). exists r, x', h'. split_and!; try done. destruct Hr as [->| ->]; [by left|right].
  unfold has_data. destruct (Z.eqb_spec data_len 0) as [->|]; [by rewrite andb_false_r|].
  rewrite (proj2 (Z.eqb_neq data_buf 0)) by (destruct Hb; done). done.
Qed.

(** The example passes no register base: it never gets past its first check. *)
Lemma read_sector0_example_fails {H} `{Bus H} get_time_ms udelay fuel (dev : usb_device) (s : usb H) :
  read_sector0_example get_time_ms udelay fuel dev s = Some (-1, s).
Proof. done. Qed.
