(* ===== verification/EhciDemo.v ===== *)
(** * The EHCI driver on a concrete machine

    A small free list behind a direct map at 1 MB, a controller that is running,
    a device, and the theorems of [EhciPipe], [EhciRead] and [EhciControl] on them. *)

From stdpp Require Import prelude gmap list numbers tactics.
From S2P Require Import Prelude Memory Pmm Vmm Io Ehci EhciMem EhciHc EhciBulk EhciPipe EhciMsd EhciRead EhciControl.

Definition demo_off : Z := 0x100000.
Definition frame_at (n : Z) : Z := demo_off + 0x1000 * n.
(** The frames 2, 3 and 4 are free; frame 1 is the list head. *)
Definition demo_memory : gmap Z Z :=
  let free m a next := store64 (store64 m (frame_at a) (0x1000 * a)) (frame_at a + 8) next in
  let m := free (free (free ∅ 4 0) 3 (frame_at 4)) 2 (frame_at 3) in
  store32 (store32 m (frame_at 1) 0x1002) (frame_at 1 + 24) 0x40.
Definition demo_frames : list Z := [frame_at 2; frame_at 3; frame_at 4].
Definition demo_mm : mm_state := mk_mm demo_memory demo_off (frame_at 2) 3 3 demo_off 0.

(** Sector [n] holds the byte [n] throughout. *)
Definition demo_sector (n : Z) : list Z := replicate 512 (n mod 256).
Definition demo_bot (strict : bool) : bot := mk_bot 1 1 2 demo_sector strict 2 1 Idle false false.
Definition demo_dev : usb_device := mk_usb_device 1 1 (mk_endpoint 0x81 512 2) (mk_endpoint 0x02 512 2) 0.
Definition demo_hc {D} (d : D) : ehc D := mk_ehc 0xFE000020 7000 3 0 true true false false true 0x1000 true d.
Definition demo_usb {D} (d : D) : usb (ehc D) := mk_usb demo_mm (demo_hc d) 0xFE000020 (frame_at 1) 0x1000 0.

Lemma demo_mmok : mmok demo_off 3 demo_frames demo_mm.
Proof.
  split; [|done]. split.
  - vm_compute. repeat split.
  - apply (bool_decide_unpack _). vm_compute. done.
  - intros a Ha. unfold demo_frames in Ha. change (hhdm_response demo_mm) with demo_off. rewrite !elem_of_cons in Ha. unfold frame, demo_off.
    destruct Ha as [->|[->|[->|Ha]]]; unfold frame_at, demo_off; [| | |by apply not_elem_of_nil in Ha]; split_and!; (lia || done).
  - reflexivity.
  - vm_compute. split; [discriminate|reflexivity].
Qed.
Lemma demo_idle : idle_list demo_off demo_memory 0x1000.
Proof. split; vm_compute; reflexivity. Qed.
Lemma demo_head : page_of (frame_at 1 - demo_off) ∧ frame_at 1 ∉ demo_frames ∧ frame demo_off (frame_at 1).
Proof.
  split_and!; try done; try (unfold frame_at, demo_off; lia).
  unfold demo_frames. rewrite !not_elem_of_cons. unfold frame_at. split_and!; try lia. apply not_elem_of_nil.
Qed.
Lemma demo_read_ok s : read_ok demo_off 3 (frame_at 2) (frame_at 3) [frame_at 4] (frame_at 1) (frame_at 5) demo_mm (demo_hc (demo_bot s)).
Proof.
  split; [exact demo_mmok|done|exact demo_idle|exact demo_head|..].
  - unfold frame_at, demo_off, page_of. split_and!; (done || lia).
  - unfold frame_at, demo_off. split_and!; (done || lia).
  - intros i Hi. unfold in_page, frame_at in *. lia.
  - intros b i Hb Hi. apply list_elem_of_singleton in Hb as ->. unfold frame_at in *. lia.
Qed.
Lemma demo_device_ok lba s : device_ok lba demo_dev (demo_bot s).
Proof. split; try done. split; [done|]. apply list.Forall_replicate. apply Z.mod_pos_bound. lia. Qed.

Lemma msd_read_sector_status_lost_witness : ∃ x' c',
  msd_read_sector hc_time_ms hc_udelay (Z.to_nat 10020) demo_dev 7 (frame_at 5) (demo_usb (demo_bot true)) = Some (-4, mk_usb x' c' 0xFE000020 (frame_at 1) 0x1000 1) ∧
  bytes_at (Pmm.mem x') (frame_at 5) 512 = replicate 512 7.
Proof.
  destruct (msd_read_sector_status_lost demo_off 3 (frame_at 2) (frame_at 3) [frame_at 4] (frame_at 1) (frame_at 5) (Z.to_nat 10020) 7 demo_mm
    (demo_hc (demo_bot true)) 0xFE000020 0x1000 0 demo_dev) as (x' & c' & E & Hb & _);
    [by vm_compute|by vm_compute|done|done|apply demo_read_ok|apply demo_device_ok|by vm_compute..|].
  exists x', c'. split; [exact E|exact Hb].
Defined.

(** ** Single transfers *)

Lemma demo_request s : bulk_request demo_off 3 (frame_at 2) [frame_at 3; frame_at 4] demo_mm (demo_hc (demo_bot s)) (frame_at 1) (frame_at 5) 31.
Proof.
  split; [exact demo_mmok|done|exact demo_idle|exact demo_head|..].
  - unfold frame_at, demo_off, page_of. split_and!; (done || lia).
  - unfold frame_at, demo_off. split_and!; (done || lia).
  - intros i Hi. unfold in_page, frame_at in *. lia.
  - intros b i Hb Hi. rewrite !elem_of_cons in Hb. unfold frame_at in *. destruct Hb as [->|[->|Hb]]; [lia..|by apply not_elem_of_nil in Hb].
Qed.
(** A command of zeros is no command: the device stalls, the call returns 0. *)
Lemma ehci_submit_bulk_correct_witness : ∃ x' c',
  ehci_submit_bulk_simple hc_time_ms hc_udelay (Z.to_nat 10020) 1 2 (frame_at 5) 31 0 1000 (demo_usb (demo_bot false)) = Some (0, mk_usb x' c' 0xFE000020 (frame_at 1) 0x1000 0).
Proof.
  destruct (ehci_submit_bulk_correct demo_off 3 (frame_at 2) [frame_at 3; frame_at 4] demo_mm (demo_hc (demo_bot false)) 0xFE000020 (frame_at 1) 0x1000 0
    (frame_at 5) 31 1 2 0 1000 (Z.to_nat 10020) 1 (set_patience 0 (demo_bot false)) Stall (set_patience 0 (demo_bot false))
    (bytes_at demo_memory (frame_at 5) 31)) as (x' & c' & E & _);
    [apply demo_request|done|done|by vm_compute|done|done| |..].
  - apply Nat2Z.inj_lt. by vm_compute.
  - exists (set_patience 0 (demo_bot false)). split; reflexivity.
  - reflexivity.
  - apply ends_stall.
  - exists x', c'. exact E.
Defined.
Lemma ehci_submit_bulk_timeout_witness : ∃ x' c',
  ehci_submit_bulk_simple hc_time_ms hc_udelay (Z.to_nat 10020) 1 0x81 (frame_at 5) 31 1 1000 (demo_usb (demo_bot false)) = Some (-2, mk_usb x' c' 0xFE000020 (frame_at 1) 0x1000 0).
Proof.
  destruct (ehci_submit_bulk_timeout demo_off 3 (frame_at 2) [frame_at 3; frame_at 4] demo_mm (demo_hc (demo_bot false)) 0xFE000020 (frame_at 1) 0x1000 0
    (frame_at 5) 31 1 0x81 1 1000 (Z.to_nat 10020) (λ d, d = demo_bot false ∨ d = set_patience 0 (demo_bot false))) as (x' & c' & E & _);
    [apply demo_request|done|done|by vm_compute|done|by vm_compute|by left| |exists x', c'; exact E].
  intros d [->| ->]; exists Nak, (set_patience 0 (demo_bot false)); (split; [reflexivity|]); (split; [by right|by left]).
Defined.

(** ** Enumeration *)

Lemma find_mass_storage_device_fails_witness : ∃ r d' x' h',
  find_mass_storage_device (mret 0) (λ _, mret tt) 1 demo_dev (demo_usb (demo_bot false)) = Some (r, d', mk_usb x' h' 0xFE000020 (frame_at 1) 0x1000 0) ∧
  r ∈ [-97; -3; -4; -5; -6].
Proof.
  destruct (find_mass_storage_device_fails demo_off 3 (mret 0) (λ _, mret tt) 1 (frame_at 2) (frame_at 3) [frame_at 4] demo_mm (demo_hc (demo_bot false))
    0xFE000020 (frame_at 1) 0x1000 0 demo_dev) as (r & d' & x' & h' & E & Hr & _);
    [apply quiet_ret|intros; apply quiet_ret|done|exact demo_mmok|done|done|].
  exists r, d', x', h'. split; [exact E|exact Hr].
Defined.
Lemma usb_control_transfer_blind_witness : ∃ r x' h',
  usb_control_transfer (mret 0) (λ _, mret tt) 1 0 (Some (mk_setup 0x80 USB_REQ_GET_DESCRIPTOR 0x100 0 18)) (frame_at 5) 18 (demo_usb (demo_bot false)) =
    Some (r, mk_usb x' h' 0xFE000020 (frame_at 1) 0x1000 0) ∧ (r = -3 ∨ r = 0).
Proof.
  destruct (usb_control_transfer_blind demo_off 3 (mret 0) (λ _, mret tt) 1 (frame_at 2) [frame_at 3; frame_at 4] demo_mm (demo_hc (demo_bot false))
    0xFE000020 (frame_at 1) 0x1000 0 0 (mk_setup 0x80 USB_REQ_GET_DESCRIPTOR 0x100 0 18) (frame_at 5) 18) as (r & x' & h' & E & Hr & _);
    [apply quiet_ret|intros; apply quiet_ret|done|exact demo_mmok|done|done|by left|].
  exists r, x', h'. split; [exact E|exact Hr].
Defined.
