(* ===== verification/Riscv.v ===== *)
(** * The RISC-V emulator ([drivers/emul/rv_vm.h])

    One step of the machine, over the callbacks its user installs.  The registers
    are [uint32_t]; the [int32_t] copies the code computes with are written out
    with [s32].  A panic, a shift or division C leaves undefined, an index behind
    [masks] and a load that overruns its variable stop the machine. *)

From stdpp Require Import prelude gmap list numbers tactics.
From S2P Require Import Prelude Memory.

(** [struct RvVm]; [env] is what the callbacks keep. *)
Record RvVm (E : Type) := mk_vm { regs : list Z; ip : Z; stval : Z; env : E }.
Arguments mk_vm {E}. Arguments regs {E}. Arguments ip {E}. Arguments stval {E}. Arguments env {E}.

Definition RV_VM_ERR_NON32_BIT : Z := 1.
Definition RV_VM_ERR_UNSUP_OPCODE : Z := 2.

Definition rv_get_inst_len16 (tag : Z) : Z :=
  if negb (Z.land tag 0x3 =? 0x3) then 1
  else if negb (Z.land (Z.shiftr tag 2) 0x7 =? 0x7) then 2
  else if negb (Z.land (Z.shiftr tag 5) 0x1 =? 0x1) then 4
  else 0.

(** ** Fields of an instruction *)

Definition RV_R32_OP (dword : Z) : Z := Z.land dword 0x7f.
Definition RV_R32_RD (dword : Z) : Z := Z.land (Z.shiftr dword 7) 0x1f.
Definition RV_R32_R1 (dword : Z) : Z := Z.land (Z.shiftr dword 15) 0x1f.
Definition RV_R32_R2 (dword : Z) : Z := Z.land (Z.shiftr dword 20) 0x1f.
Definition RV_R32_IMM_U (dword : Z) : Z := Z.shiftr (s32 dword) 12.
Definition RV_R32_IMM_I (dword : Z) : Z := Z.shiftr (s32 dword) 20.
Definition RV_R32_IMM_S (dword : Z) : Z :=
  Z.lor (Z.land (Z.shiftr (s32 dword) 7) 0x1f) (s32 (Z.shiftl (Z.shiftr (s32 dword) 25) 5)).
Definition RV_R32_IMM_B (dword : Z) : Z :=
  let d := s32 dword in
  Z.shiftr (s32 (Z.shiftl
    (Z.lor (Z.lor (Z.lor (Z.land (Z.shiftr d 7) 0x1e)
      (Z.shiftl (Z.land (Z.shiftr d 25) 0x3f) 5))
      (Z.shiftl (Z.land (Z.shiftr d 7) 0x01) 11))
      (Z.shiftl (Z.land (Z.shiftr d 30) 0x01) 12)) 20)) 20.
Definition RV_R32_IMM_J (dword : Z) : Z :=
  let imm := Z.shiftr (s32 dword) 12 in
  let a := Z.land (Z.shiftr imm 9) 0x3ff in
  let b := Z.land (Z.shiftr imm 8) 0x1 in
  let c := Z.land imm 0xff in
  let d := Z.shiftr imm 19 in
  Z.lor (Z.lor (Z.lor (s32 (Z.shiftl d 20)) (Z.shiftl c 12)) (Z.shiftl b 11)) (Z.shiftl a 1).
Definition RV_R32_FUNCT3 (dword : Z) : Z := Z.land (Z.shiftr dword 12) 0x7.
Definition RV_R32_FUNCT7 (dword : Z) : Z := Z.land (Z.shiftr dword 25) 0x7f.

Definition RV_IMM_INT_MATH_OP : Z := 0x13.
Definition RV_REG_INT_MATH_OP : Z := 0x33.
Definition RV_STORE_OP : Z := 0x23.
Definition RV_LUI_OP : Z := 0x37.
Definition RV_AUIPC_OP : Z := 0x17.
Definition RV_LOAD_OP : Z := 0x03.
Definition RV_BRANCH_OP : Z := 0x63.
Definition RV_JAL_OP : Z := 0x6f.
Definition RV_JALR_OP : Z := 0x67.
Definition RV_ENVIRONMENT_OP : Z := 0x73.

(** ** Arithmetic on [int32_t] *)

(** [a << n] and [a >> n]; C defines neither for other amounts. *)
Definition shl32 (a n : Z) : option Z := if (0 <=? n) && (n <? 32) then Some (s32 (Z.shiftl a n)) else None.
Definition shr32 (a n : Z) : option Z := if (0 <=? n) && (n <? 32) then Some (Z.shiftr a n) else None.

Definition imm_math (funct3 a b : Z) : option Z :=
  match funct3 with
  | 0 => Some (s32 (a + b))
  | 1 => shl32 a (Z.land b 0x1f)
  | 2 => Some (if a <? b then 1 else 0)
  | 3 => Some (if u32 a <? u32 b then 1 else 0)
  | 4 => Some (Z.lxor a b)
  | 5 => if Z.shiftr b 5 =? 0x20 then shr32 a (Z.land b 0x1f) else shr32 (u32 a) (Z.land b 0x1f)
  | 6 => Some (Z.lor a b)
  | 7 => Some (Z.land a b)
  | _ => None
  end.
Definition reg_math (key a b : Z) : option Z :=
  match key with
  | 0x000 => Some (s32 (a + b))
  | 0x001 => shl32 a b
  | 0x002 => Some (if a <? b then 1 else 0)
  | 0x003 => Some (if u32 a <? u32 b then 1 else 0)
  | 0x004 => Some (Z.lxor a b)
  | 0x005 => shr32 (u32 a) (u32 b)
  | 0x006 => Some (Z.lor a b)
  | 0x007 => Some (Z.land a b)
  | 0x010 => Some (s32 (a * b))
  | 0x015 => if u32 b =? 0 then None else Some (u32 a / u32 b)
  | 0x017 => if u32 b =? 0 then None else Some (u32 a mod u32 b)
  | 0x200 => Some (s32 (a - b))
  | 0x205 => shr32 a b
  | _ => None
  end.
Definition branch_taken (funct3 rs1 rs2 : Z) : bool :=
  let res :=
    match funct3 / 2 with
    | 0 => rs1 =? rs2
    | 1 => false
    | 2 => rs1 <? rs2
    | _ => u32 rs1 <? u32 rs2
    end in
  if truthy (Z.land funct3 0x1) then negb res else res.
Definition masks : list Z := [0xFF; 0xFFFF; -1].

(** ** One step *)

Section step.
Context {E : Type}.
Abbreviation V := (M (RvVm E)).
(** Data of [size] bytes behind the result code. *)
Context (read : Z → Z → V (Z * Z)) (write32 : Z → Z → Z → V Z) (on_environ : Z → V Z).

Definition get_reg (r : Z) : V Z := gets (λ vm, nth (Z.to_nat r) (regs vm) 0).
Definition set_reg (r v : Z) : V unit := modify (λ vm, mk_vm (<[Z.to_nat r := u32 v]> (regs vm)) (ip vm) (stval vm) (env vm)).
Definition get_ip : V Z := gets ip.
Definition set_ip (v : Z) : V unit := modify (λ vm, mk_vm (regs vm) (u32 v) (stval vm) (env vm)).
Definition next (r : Z) : V Z := p ← get_ip; set_ip (p + 4);; mret r.

Definition step_store (inst : Z) : V Z :=
  let shift := RV_R32_FUNCT3 inst mod 4 in
  let byte_size := Z.shiftl 1 shift in
  rs1 ← get_reg (RV_R32_R1 inst);
  rs2 ← get_reg (RV_R32_R2 inst);
  mask ← of_option (masks !! Z.to_nat shift);
  e ← write32 (u32 (rs1 + RV_R32_IMM_S inst)) (u32 (Z.land rs2 mask)) byte_size;
  if e <? 0 then mret e else next 0.
(** The amount that is to extend the sign: the mask is [unsigned], so it is 0 or 1. *)
Definition sign_extend (funct3 byte_size : Z) : Z :=
  Z.land ((4 - byte_size) * 8) (Z.shiftr (u32 (Z.shiftl (Z.shiftr (Z.land funct3 0x4) 2) 31)) 31).
Definition step_load (inst : Z) : V Z :=
  let shift := RV_R32_FUNCT3 inst mod 4 in
  let byte_size := Z.shiftl 1 shift in
  let sign_extend := sign_extend (RV_R32_FUNCT3 inst) byte_size in
  rs1 ← get_reg (RV_R32_R1 inst);
  if 4 <? byte_size then mstop
  else
    '(e, data) ← read (u32 (rs1 + RV_R32_IMM_I inst)) byte_size;
    if e <? 0 then mret e
    else
      data ← of_option (shl32 (s32 data) (sign_extend * 8));
      data ← of_option (shr32 data (sign_extend * 8));
      set_reg (RV_R32_RD inst) data;;
      next 0.
Definition exec_inst (inst : Z) : V Z :=
  let op := RV_R32_OP inst in
  if op =? RV_IMM_INT_MATH_OP then
    a ← get_reg (RV_R32_R1 inst);
    c ← of_option (imm_math (RV_R32_FUNCT3 inst) (s32 a) (RV_R32_IMM_I inst));
    set_reg (RV_R32_RD inst) c;;
    next 0
  else if op =? RV_REG_INT_MATH_OP then
    a ← get_reg (RV_R32_R1 inst);
    b ← get_reg (RV_R32_R2 inst);
    c ← of_option (reg_math (Z.lor (Z.shiftl (RV_R32_FUNCT7 inst) 4) (RV_R32_FUNCT3 inst)) (s32 a) (s32 b));
    set_reg (RV_R32_RD inst) c;;
    next 0
  else if op =? RV_STORE_OP then step_store inst
  else if op =? RV_LOAD_OP then step_load inst
  else if op =? RV_LUI_OP then
    set_reg (RV_R32_RD inst) (Z.shiftl (RV_R32_IMM_U inst) 12);;
    next 0
  else if op =? RV_AUIPC_OP then
    p ← get_ip;
    set_reg (RV_R32_RD inst) (p + Z.shiftl (RV_R32_IMM_U inst) 12);;
    next 0
  else if op =? RV_BRANCH_OP then
    rs1 ← get_reg (RV_R32_R1 inst);
    rs2 ← get_reg (RV_R32_R2 inst);
    mwhen (branch_taken (RV_R32_FUNCT3 inst) (s32 rs1) (s32 rs2)) (p ← get_ip; set_ip (p + (RV_R32_IMM_B inst - 4)));;
    next 0
  else if op =? RV_JAL_OP then
    p ← get_ip;
    set_reg (RV_R32_RD inst) (p + 4);;
    set_ip (p + (RV_R32_IMM_J inst - 4));;
    next 0
  else if op =? RV_JALR_OP then
    p ← get_ip;
    set_reg (RV_R32_RD inst) (p + 4);;
    rs1 ← get_reg (RV_R32_R1 inst);
    set_ip (rs1 + RV_R32_IMM_I inst - 4);;
    next 0
  else if (op =? RV_ENVIRONMENT_OP) && (RV_R32_FUNCT3 inst =? 0) && (u32 (RV_R32_IMM_I inst) <? 2) then
    p ← get_ip;
    set_ip (p + 4);;
    on_environ (RV_R32_IMM_I inst)
  else mret (- RV_VM_ERR_UNSUP_OPCODE).
Definition rv_vm_step : V Z :=
  set_reg 0 0;;
  p ← get_ip;
  '(e, inst) ← read p 4;
  if e <? 0 then mret e
  else if negb (rv_get_inst_len16 inst =? 2) then mret (- RV_VM_ERR_NON32_BIT)
  else exec_inst inst.
End step.
