(* ===== verification/RiscvIsa.v ===== *)
(** * The emulator against the RV32IM reference

    The instructions of RV32I and of the M extension, their encodings and what
    each does to the registers, the program counter and memory, as the manual
    has it; and that the emulator's decoder takes the encodings apart. *)

From stdpp Require Import prelude gmap list numbers tactics.
From S2P Require Import Prelude Memory Riscv.

(** ** The reference *)

Inductive alu := ADD | SLL | SLT | SLTU | XOR | SRL | OR | AND | SUB | SRA | MUL | MULH | MULHSU | MULHU | DIV | DIVU | REM | REMU.
Inductive alui := ADDI | SLTI | SLTIU | XORI | ORI | ANDI.
Inductive shift := SLLI | SRLI | SRAI.
Inductive cond := BEQ | BNE | BLT | BGE | BLTU | BGEU.
Inductive width := B | H | W.
Inductive instr :=
| Op (o : alu) (rd rs1 rs2 : Z)
| OpImm (o : alui) (rd rs1 imm : Z)
| Shift (o : shift) (rd rs1 shamt : Z)
| Lui (rd imm : Z)
| Auipc (rd imm : Z)
| Jal (rd imm : Z)
| Jalr (rd rs1 imm : Z)
| Branch (c : cond) (rs1 rs2 imm : Z)
| Load (w : width) (unsigned : bool) (rd rs1 imm : Z)
| Store (w : width) (rs1 rs2 imm : Z).

(** *** Encoding *)

Definition r_type (f7 rs2 rs1 f3 rd op : Z) : Z := op + rd * 2 ^ 7 + f3 * 2 ^ 12 + rs1 * 2 ^ 15 + rs2 * 2 ^ 20 + f7 * 2 ^ 25.
Definition i_type (imm rs1 f3 rd op : Z) : Z := op + rd * 2 ^ 7 + f3 * 2 ^ 12 + rs1 * 2 ^ 15 + imm mod 2 ^ 12 * 2 ^ 20.
Definition s_type (imm rs2 rs1 f3 op : Z) : Z :=
  op + imm mod 2 ^ 5 * 2 ^ 7 + f3 * 2 ^ 12 + rs1 * 2 ^ 15 + rs2 * 2 ^ 20 + imm / 2 ^ 5 mod 2 ^ 7 * 2 ^ 25.
(** [imm[12|10:5]] and [imm[4:1|11]]. *)
Definition b_type (imm rs2 rs1 f3 op : Z) : Z :=
  op + (imm / 2 ^ 11 mod 2 * 2 ^ 7 + imm / 2 mod 2 ^ 4 * 2 ^ 8) + f3 * 2 ^ 12 + rs1 * 2 ^ 15 + rs2 * 2 ^ 20 +
  (imm / 2 ^ 5 mod 2 ^ 6 * 2 ^ 25 + imm / 2 ^ 12 mod 2 * 2 ^ 31).
Definition u_type (imm rd op : Z) : Z := op + rd * 2 ^ 7 + imm mod 2 ^ 20 * 2 ^ 12.
(** [imm[20|10:1|11|19:12]]. *)
Definition j_type (imm rd op : Z) : Z :=
  op + rd * 2 ^ 7 + (imm / 2 ^ 12 mod 2 ^ 8 * 2 ^ 12 + imm / 2 ^ 11 mod 2 * 2 ^ 20 + imm / 2 mod 2 ^ 10 * 2 ^ 21 + imm / 2 ^ 20 mod 2 * 2 ^ 31).

Definition alu_funct (o : alu) : Z * Z :=       (* funct7, funct3 *)
  match o with
  | ADD => (0, 0) | SLL => (0, 1) | SLT => (0, 2) | SLTU => (0, 3) | XOR => (0, 4) | SRL => (0, 5) | OR => (0, 6) | AND => (0, 7)
  | SUB => (0x20, 0) | SRA => (0x20, 5)
  | MUL => (1, 0) | MULH => (1, 1) | MULHSU => (1, 2) | MULHU => (1, 3) | DIV => (1, 4) | DIVU => (1, 5) | REM => (1, 6) | REMU => (1, 7)
  end.
Definition alui_funct (o : alui) : Z := match o with ADDI => 0 | SLTI => 2 | SLTIU => 3 | XORI => 4 | ORI => 6 | ANDI => 7 end.
Definition shift_funct (o : shift) : Z * Z := match o with SLLI => (0, 1) | SRLI => (0, 5) | SRAI => (0x20, 5) end.
Definition cond_funct (c : cond) : Z := match c with BEQ => 0 | BNE => 1 | BLT => 4 | BGE => 5 | BLTU => 6 | BGEU => 7 end.
Definition width_funct (w : width) : Z := match w with B => 0 | H => 1 | W => 2 end.
Definition width_bytes (w : width) : nat := match w with B => 1 | H => 2 | W => 4 end.

Definition encode (i : instr) : Z :=
  match i with
  | Op o rd rs1 rs2 => r_type (fst (alu_funct o)) rs2 rs1 (snd (alu_funct o)) rd 0x33
  | OpImm o rd rs1 imm => i_type imm rs1 (alui_funct o) rd 0x13
  | Shift o rd rs1 shamt => r_type (fst (shift_funct o)) shamt rs1 (snd (shift_funct o)) rd 0x13
  | Lui rd imm => u_type imm rd 0x37
  | Auipc rd imm => u_type imm rd 0x17
  | Jal rd imm => j_type imm rd 0x6f
  | Jalr rd rs1 imm => i_type imm rs1 0 rd 0x67
  | Branch c rs1 rs2 imm => b_type imm rs2 rs1 (cond_funct c) 0x63
  | Load w unsigned rd rs1 imm => i_type imm rs1 (width_funct w + (if unsigned then 4 else 0)) rd 0x03
  | Store w rs1 rs2 imm => s_type imm rs2 rs1 (width_funct w) 0x23
  end.

Definition reg_ok (r : Z) : Prop := 0 <= r < 32.
Definition instr_ok (i : instr) : Prop :=
  match i with
  | Op _ rd rs1 rs2 => reg_ok rd ∧ reg_ok rs1 ∧ reg_ok rs2
  | OpImm _ rd rs1 imm => reg_ok rd ∧ reg_ok rs1 ∧ -2048 <= imm < 2048
  | Shift _ rd rs1 shamt => reg_ok rd ∧ reg_ok rs1 ∧ 0 <= shamt < 32
  | Lui rd imm | Auipc rd imm => reg_ok rd ∧ 0 <= imm < 2 ^ 20
  | Jal rd imm => reg_ok rd ∧ - 2 ^ 20 <= imm < 2 ^ 20 ∧ imm mod 2 = 0
  | Jalr rd rs1 imm => reg_ok rd ∧ reg_ok rs1 ∧ -2048 <= imm < 2048
  | Branch _ rs1 rs2 imm => reg_ok rs1 ∧ reg_ok rs2 ∧ -4096 <= imm < 4096 ∧ imm mod 2 = 0
  | Load w unsigned rd rs1 imm => reg_ok rd ∧ reg_ok rs1 ∧ -2048 <= imm < 2048 ∧ (w = W → unsigned = false)
  | Store _ rs1 rs2 imm => reg_ok rs1 ∧ reg_ok rs2 ∧ -2048 <= imm < 2048
  end.

(** *** Execution *)

Record hart := mk_hart { gpr : Z → Z; pc : Z; ram : gmap Z Z }.
Definition x (h : hart) (r : Z) : Z := if r =? 0 then 0 else gpr h r.
Definition write (rd v : Z) (h : hart) : hart := mk_hart (λ r, if r =? rd then u32 v else gpr h r) (pc h) (ram h).
Definition jump (p : Z) (h : hart) : hart := mk_hart (gpr h) (u32 p) (ram h).
Definition advance (h : hart) : hart := jump (pc h + 4) h.

Definition alu_value (o : alu) (a b : Z) : Z :=
  match o with
  | ADD => a + b
  | SUB => a - b
  | SLL => a * 2 ^ (b mod 32)
  | SLT => Z.b2z (s32 a <? s32 b)
  | SLTU => Z.b2z (a <? b)
  | XOR => Z.lxor a b
  | OR => Z.lor a b
  | AND => Z.land a b
  | SRL => a / 2 ^ (b mod 32)
  | SRA => s32 a / 2 ^ (b mod 32)
  | MUL => a * b
  | MULH => s32 a * s32 b / 2 ^ 32
  | MULHSU => s32 a * b / 2 ^ 32
  | MULHU => a * b / 2 ^ 32
  | DIV => if b =? 0 then -1 else Z.quot (s32 a) (s32 b)
  | DIVU => if b =? 0 then -1 else a / b
  | REM => if b =? 0 then a else Z.rem (s32 a) (s32 b)
  | REMU => if b =? 0 then a else a mod b
  end.
Definition alui_value (o : alui) (a imm : Z) : Z :=
  match o with
  | ADDI => a + imm
  | SLTI => Z.b2z (s32 a <? imm)
  | SLTIU => Z.b2z (a <? u32 imm)
  | XORI => Z.lxor a (u32 imm)
  | ORI => Z.lor a (u32 imm)
  | ANDI => Z.land a (u32 imm)
  end.
Definition shift_value (o : shift) (a n : Z) : Z :=
  match o with SLLI => a * 2 ^ n | SRLI => a / 2 ^ n | SRAI => s32 a / 2 ^ n end.
Definition cond_holds (c : cond) (a b : Z) : bool :=
  match c with
  | BEQ => a =? b | BNE => negb (a =? b)
  | BLT => s32 a <? s32 b | BGE => negb (s32 a <? s32 b)
  | BLTU => a <? b | BGEU => negb (a <? b)
  end.
Definition load_value (w : width) (unsigned : bool) (v : Z) : Z :=
  if unsigned then v else swrap (8 * Z.of_nat (width_bytes w)) v.

Definition isa_step (i : instr) (h : hart) : hart :=
  match i with
  | Op o rd rs1 rs2 => advance (write rd (alu_value o (x h rs1) (x h rs2)) h)
  | OpImm o rd rs1 imm => advance (write rd (alui_value o (x h rs1) imm) h)
  | Shift o rd rs1 shamt => advance (write rd (shift_value o (x h rs1) shamt) h)
  | Lui rd imm => advance (write rd (imm * 2 ^ 12) h)
  | Auipc rd imm => advance (write rd (pc h + imm * 2 ^ 12) h)
  | Jal rd imm => jump (pc h + imm) (write rd (pc h + 4) h)
  | Jalr rd rs1 imm => let t := u32 (x h rs1 + imm) in jump (t - t mod 2) (write rd (pc h + 4) h)
  | Branch c rs1 rs2 imm => if cond_holds c (x h rs1) (x h rs2) then jump (pc h + imm) h else advance h
  | Load w unsigned rd rs1 imm =>
    advance (write rd (load_value w unsigned (loadn (width_bytes w) (ram h) (u32 (x h rs1 + imm)))) h)
  | Store w rs1 rs2 imm => advance (mk_hart (gpr h) (pc h) (storen (width_bytes w) (ram h) (u32 (x h rs1 + imm)) (x h rs2)))
  end.

(** Where the emulator follows the reference; outside of it are multiplications'
    high halves and signed division (a panic), register shifts by 32 and more and
    division by zero (undefined in C), negative bytes and halfwords (not
    extended), taken branches of 2 KiB and more (their top bit is dropped), and
    [jalr] over its own base register or to an odd address. *)
Definition supported (i : instr) (h : hart) : Prop :=
  match i with
  | Op o _ _ rs2 =>
    match o with
    | SLL | SRL | SRA => x h rs2 < 32
    | DIVU | REMU => x h rs2 ≠ 0
    | MULH | MULHSU | MULHU | DIV | REM => False
    | _ => True
    end
  | Jalr rd rs1 imm => rd ≠ rs1 ∧ (x h rs1 + imm) mod 2 = 0
  | Branch c rs1 rs2 imm => cond_holds c (x h rs1) (x h rs2) = true → -2048 <= imm < 2048
  | Load w unsigned _ rs1 imm =>
    unsigned = false → w ≠ W → loadn (width_bytes w) (ram h) (u32 (x h rs1 + imm)) < 2 ^ (8 * Z.of_nat (width_bytes w) - 1)
  | _ => True
  end.

(** ** The machine under test: memory as bytes *)

Definition ram_read (at_ size : Z) : M (RvVm (gmap Z Z)) (Z * Z) := gets (λ vm, (0, loadn (Z.to_nat size) (env vm) at_)).
Definition ram_write (at_ value size : Z) : M (RvVm (gmap Z Z)) Z :=
  modify (λ vm, mk_vm (regs vm) (ip vm) (stval vm) (storen (Z.to_nat size) (env vm) at_ value));; mret 0.

(** The same machine, but for what [x0] was left with. *)
Record same_hart (vm : RvVm (gmap Z Z)) (h : hart) : Prop := {
  sh_regs : length (regs vm) = 32%nat;
  sh_gpr : ∀ r, 0 < r < 32 → nth (Z.to_nat r) (regs vm) 0 = gpr h r;
  sh_range : ∀ r, 0 < r < 32 → 0 <= gpr h r < 2 ^ 32;
  sh_pc : ip vm = pc h;
  sh_ram : env vm = ram h
}.

(** ** Decoding what was encoded

    The fields [rv_vm_step] takes out of an instruction word are those its
    encoding put there, for each of the six formats. *)

(** A word by its fields; [top] is what I-type immediates fill. *)
Definition word (op rd f3 rs1 top : Z) : Z := op + rd * 2 ^ 7 + f3 * 2 ^ 12 + rs1 * 2 ^ 15 + top * 2 ^ 20.
Record fields_ok (op rd f3 rs1 top : Z) : Prop := {
  fo_op : 0 <= op < 2 ^ 7; fo_rd : 0 <= rd < 2 ^ 5; fo_f3 : 0 <= f3 < 2 ^ 3; fo_rs1 : 0 <= rs1 < 2 ^ 5; fo_top : 0 <= top < 2 ^ 12
}.

Section word.
Context (op rd f3 rs1 top : Z) (Hf : fields_ok op rd f3 rs1 top).
Let d := word op rd f3 rs1 top.

Lemma word_bound : 0 <= d < 2 ^ 32.
Proof. destruct Hf. unfold d, word. lia. Qed.
Lemma word_op : RV_R32_OP d = op.
Proof. destruct Hf. unfold RV_R32_OP. rewrite (land_low d 7) by done. unfold d, word. zlia. Qed.
Lemma word_rd : RV_R32_RD d = rd.
Proof. destruct Hf. unfold RV_R32_RD. rewrite (land_field d 7 5) by done. unfold d, word. zlia. Qed.
Lemma word_funct3 : RV_R32_FUNCT3 d = f3.
Proof. destruct Hf. unfold RV_R32_FUNCT3. rewrite (land_field d 12 3) by done. unfold d, word. zlia. Qed.
Lemma word_r1 : RV_R32_R1 d = rs1.
Proof. destruct Hf. unfold RV_R32_R1. rewrite (land_field d 15 5) by done. unfold d, word. zlia. Qed.
Lemma word_r2 : RV_R32_R2 d = top mod 2 ^ 5.
Proof. destruct Hf. unfold RV_R32_R2. rewrite (land_field d 20 5) by done. unfold d, word. zlia. Qed.
Lemma word_funct7 : RV_R32_FUNCT7 d = top / 2 ^ 5.
Proof. destruct Hf. unfold RV_R32_FUNCT7. rewrite (land_field d 25 7) by done. unfold d, word. zlia. Qed.

(** The signed parts. *)
Lemma word_signed : s32 d = op + rd * 2 ^ 7 + f3 * 2 ^ 12 + rs1 * 2 ^ 15 + swrap 12 top * 2 ^ 20.
Proof. destruct Hf. unfold d, word, swrap. zlia. Qed.
Lemma word_imm_i : RV_R32_IMM_I d = swrap 12 top.
Proof. unfold RV_R32_IMM_I. rewrite word_signed, Z.shiftr_div_pow2 by lia. destruct Hf. zlia. Qed.
Lemma word_imm_u : RV_R32_IMM_U d = f3 + rs1 * 2 ^ 3 + swrap 12 top * 2 ^ 8.
Proof. unfold RV_R32_IMM_U. rewrite word_signed, Z.shiftr_div_pow2 by lia. destruct Hf. zlia. Qed.
Lemma signed_range : - 2 ^ 11 <= swrap 12 top < 2 ^ 11.
Proof. exact (swrap_range 12 top ltac:(lia)). Qed.
Lemma word_imm_s : RV_R32_IMM_S d = rd + swrap 12 top / 2 ^ 5 * 2 ^ 5.
Proof.
  pose proof signed_range. unfold RV_R32_IMM_S. rewrite (land_field (s32 d) 7 5), word_signed by done. destruct Hf.
  rewrite Z.shiftr_div_pow2, Z.shiftl_mul_pow2 by lia. set (t := swrap 12 top) in *.
  assert ((op + rd * 2 ^ 7 + f3 * 2 ^ 12 + rs1 * 2 ^ 15 + t * 2 ^ 20) / 2 ^ 25 = t / 2 ^ 5) as -> by zlia.
  assert ((op + rd * 2 ^ 7 + f3 * 2 ^ 12 + rs1 * 2 ^ 15 + t * 2 ^ 20) / 2 ^ 7 mod 2 ^ 5 = rd) as -> by zlia.
  rewrite swrap_small by zlia. by apply lor_add.
Qed.

Lemma land_30 y : Z.land y 0x1e = y / 2 mod 2 ^ 4 * 2.
Proof.
  assert (y / 2 mod 2 ^ 4 * 2 = Z.shiftl (Z.land (Z.shiftr y 1) (Z.ones 4)) 1) as -> by (rewrite Z.land_ones, Z.shiftr_div_pow2, Z.shiftl_mul_pow2 by lia; done).
  apply Z.bits_inj'. intros i Hi. rewrite Z.land_spec. destruct (decide (i = 0)) as [->|].
  - rewrite andb_comm. by rewrite Z.shiftl_spec_low.
  - rewrite Z.shiftl_spec, Z.land_spec, Z.shiftr_spec by lia. replace (i - 1 + 1) with i by lia. f_equal.
    change 0x1e with (Z.shiftl (Z.ones 4) 1). by rewrite Z.shiftl_spec.
Qed.
Lemma word_imm_b : RV_R32_IMM_B d = swrap 12 (rd / 2 * 2 + top / 2 ^ 5 mod 2 ^ 6 * 2 ^ 5 + rd mod 2 * 2 ^ 11).
Proof.
  pose proof signed_range. unfold RV_R32_IMM_B. cbv zeta. rewrite land_30, (land_field (s32 d) 25 6), (land_field (s32 d) 7 1), (land_field (s32 d) 30 1) by done.
  rewrite !Z.shiftr_div_pow2 by lia. rewrite word_signed. destruct Hf. set (t := swrap 12 top) in *.
  set (w := op + rd * 2 ^ 7 + f3 * 2 ^ 12 + rs1 * 2 ^ 15 + t * 2 ^ 20).
  assert (w / 2 ^ 7 / 2 mod 2 ^ 4 * 2 = rd / 2 * 2) as -> by (unfold w; zlia).
  assert (w / 2 ^ 25 mod 2 ^ 6 = top / 2 ^ 5 mod 2 ^ 6) as -> by (unfold w, t, swrap; zlia).
  assert (w / 2 ^ 7 mod 2 ^ 1 = rd mod 2) as -> by (unfold w; zlia).
  assert (0 <= w / 2 ^ 30 mod 2 ^ 1 < 2) as Hq by (apply Z.mod_pos_bound; lia). set (q := w / 2 ^ 30 mod 2 ^ 1) in *. clearbody q.
  rewrite !Z.shiftl_mul_pow2 by lia. rewrite (lor_add 5), (lor_add 11), (lor_add 12) by zlia.
  unfold swrap. zlia.
Qed.
Lemma word_imm_j : RV_R32_IMM_J d = swrap 12 top / 2 ^ 11 * 2 ^ 20 + (f3 + rs1 * 2 ^ 3) * 2 ^ 12 + top mod 2 * 2 ^ 11 + top / 2 mod 2 ^ 10 * 2.
Proof.
  pose proof signed_range. unfold RV_R32_IMM_J. cbv zeta. change (Z.shiftr (s32 d) 12) with (RV_R32_IMM_U d). rewrite word_imm_u.
  set (m := f3 + rs1 * 2 ^ 3 + swrap 12 top * 2 ^ 8). rewrite (land_field m 9 10), (land_field m 8 1), (land_low m 8), Z.shiftr_div_pow2 by lia. destruct Hf.
  assert (m / 2 ^ 9 mod 2 ^ 10 = top / 2 mod 2 ^ 10) as -> by (unfold m, swrap; zlia).
  assert (m / 2 ^ 8 mod 2 ^ 1 = top mod 2) as -> by (unfold m, swrap; zlia).
  assert (m mod 2 ^ 8 = f3 + rs1 * 2 ^ 3) as -> by (unfold m; zlia).
  assert (m / 2 ^ 19 = swrap 12 top / 2 ^ 11) as -> by (unfold m; zlia).
  clear m. set (k := swrap 12 top / 2 ^ 11). assert (-1 <= k <= 0) by (unfold k; zlia). clearbody k.
  rewrite !Z.shiftl_mul_pow2 by lia. rewrite swrap_small by lia.
  rewrite (Z.lor_comm (k * 2 ^ 20)), (lor_add 20) by lia. rewrite (Z.lor_comm _ (top mod 2 * 2 ^ 11)).
  replace ((f3 + rs1 * 2 ^ 3) * 2 ^ 12 + k * 2 ^ 20) with ((f3 + rs1 * 2 ^ 3 + k * 2 ^ 8) * 2 ^ 12) by lia. rewrite (lor_add 12) by zlia.
  rewrite Z.lor_comm. replace (top mod 2 * 2 ^ 11 + (f3 + rs1 * 2 ^ 3 + k * 2 ^ 8) * 2 ^ 12) with ((top mod 2 + (f3 + rs1 * 2 ^ 3 + k * 2 ^ 8) * 2) * 2 ^ 11) by lia.
  rewrite (lor_add 11) by zlia. lia.
Qed.

(** A 32-bit instruction, for the length test. *)
Lemma word_length : op mod 4 = 3 → op / 4 mod 8 ≠ 7 → rv_get_inst_len16 d = 2.
Proof.
  intros H3 H7. destruct Hf. unfold rv_get_inst_len16. rewrite (land_low d 2), (land_field d 2 3) by done.
  assert (d mod 2 ^ 2 = 3) as -> by (unfold d, word; zlia). assert (d / 2 ^ 2 mod 2 ^ 3 = op / 4 mod 8) as -> by (unfold d, word; zlia).
  rewrite (proj2 (Z.eqb_neq _ _) H7). done.
Qed.
End word.

(** ** The six formats *)

Lemma r_word op rd rs1 rs2 f3 f7 : 0 <= op < 2 ^ 7 → 0 <= rd < 32 → 0 <= rs1 < 32 → 0 <= rs2 < 32 → 0 <= f3 < 8 → 0 <= f7 < 2 ^ 7 → 
  r_type f7 rs2 rs1 f3 rd op = word op rd f3 rs1 (rs2 + f7 * 2 ^ 5) ∧ fields_ok op rd f3 rs1 (rs2 + f7 * 2 ^ 5) ∧
  (rs2 + f7 * 2 ^ 5) mod 2 ^ 5 = rs2 ∧ (rs2 + f7 * 2 ^ 5) / 2 ^ 5 = f7.
Proof. intros. unfold r_type, word. split_and!; [lia|split; lia|zlia|zlia]. Qed.
Lemma i_word op rd rs1 f3 imm : 0 <= op < 2 ^ 7 → 0 <= rd < 32 → 0 <= rs1 < 32 → 0 <= f3 < 8 →  -2048 <= imm < 2048 → i_type imm rs1 f3 rd op = word op rd f3 rs1 (imm mod 2 ^ 12) ∧ fields_ok op rd f3 rs1 (imm mod 2 ^ 12) ∧
  swrap 12 (imm mod 2 ^ 12) = imm.
Proof. intros ? ? ? ? Hi. unfold i_type, word. split_and!; [lia|split; zlia|unfold swrap; zlia]. Qed.
Lemma s_word op rs1 rs2 f3 imm : 0 <= op < 2 ^ 7 → 0 <= rs1 < 32 → 0 <= rs2 < 32 → 0 <= f3 < 8 →  -2048 <= imm < 2048 → let top := rs2 + imm / 2 ^ 5 mod 2 ^ 7 * 2 ^ 5 in
  s_type imm rs2 rs1 f3 op = word op (imm mod 2 ^ 5) f3 rs1 top ∧ fields_ok op (imm mod 2 ^ 5) f3 rs1 top ∧ top mod 2 ^ 5 = rs2 ∧
  imm mod 2 ^ 5 + swrap 12 top / 2 ^ 5 * 2 ^ 5 = imm.
Proof. intros ? ? ? ? Hi top. unfold s_type, word, top. split_and!; [lia|split; zlia|zlia|unfold swrap; zlia]. Qed.
Lemma b_word op rs1 rs2 f3 imm : 0 <= op < 2 ^ 7 → 0 <= rs1 < 32 → 0 <= rs2 < 32 → 0 <= f3 < 8 →  -4096 <= imm < 4096 → imm mod 2 = 0 → let rd' := imm / 2 ^ 11 mod 2 + imm / 2 mod 2 ^ 4 * 2 in
  let top := rs2 + (imm / 2 ^ 5 mod 2 ^ 6 + imm / 2 ^ 12 mod 2 * 2 ^ 6) * 2 ^ 5 in
  b_type imm rs2 rs1 f3 op = word op rd' f3 rs1 top ∧ fields_ok op rd' f3 rs1 top ∧ top mod 2 ^ 5 = rs2 ∧
  (-2048 <= imm < 2048 → swrap 12 (rd' / 2 * 2 + top / 2 ^ 5 mod 2 ^ 6 * 2 ^ 5 + rd' mod 2 * 2 ^ 11) = imm).
Proof.
  intros ? ? ? ? Hi Hm rd' top. unfold b_type, word, rd', top. split_and!; [lia|split; zlia|zlia|]. intros Hn.
  match goal with |- swrap 12 ?v = _ => assert (v = imm mod 2 ^ 12) as -> by zlia end. unfold swrap. zlia.
Qed.
Lemma u_word op rd imm : 0 <= op < 2 ^ 7 → 0 <= rd < 32 →  0 <= imm < 2 ^ 20 → let f3' := imm mod 8 in let rs1' := imm / 8 mod 32 in let top := imm / 2 ^ 8 in
  u_type imm rd op = word op rd f3' rs1' top ∧ fields_ok op rd f3' rs1' top ∧ (f3' + rs1' * 2 ^ 3 + swrap 12 top * 2 ^ 8) mod 2 ^ 20 = imm.
Proof. intros ? ? Hi f3' rs1' top. unfold u_type, word, f3', rs1', top. split_and!; [zlia|split; zlia|unfold swrap; zlia]. Qed.
Lemma j_word op rd imm : 0 <= op < 2 ^ 7 → 0 <= rd < 32 →  - 2 ^ 20 <= imm < 2 ^ 20 → imm mod 2 = 0 → let f3' := imm / 2 ^ 12 mod 8 in let rs1' := imm / 2 ^ 15 mod 32 in
  let top := imm / 2 ^ 11 mod 2 + imm / 2 mod 2 ^ 10 * 2 + imm / 2 ^ 20 mod 2 * 2 ^ 11 in
  j_type imm rd op = word op rd f3' rs1' top ∧ fields_ok op rd f3' rs1' top ∧
  swrap 12 top / 2 ^ 11 * 2 ^ 20 + (f3' + rs1' * 2 ^ 3) * 2 ^ 12 + top mod 2 * 2 ^ 11 + top / 2 mod 2 ^ 10 * 2 = imm.
Proof.
  intros ? ? Hi Hm f3' rs1' top. unfold j_type, word, f3', rs1', top. split_and!; [zlia|split; zlia|].
  assert (top mod 2 = imm / 2 ^ 11 mod 2 ∧ top / 2 mod 2 ^ 10 = imm / 2 mod 2 ^ 10 ∧ swrap 12 top / 2 ^ 11 = - (imm / 2 ^ 20 mod 2)) as (E1 & E2 & E3).
  { unfold top, swrap. split_and!; zlia. }
  fold top. rewrite E1, E2, E3. zlia.
Qed.
