(* ===== verification/RiscvProps.v ===== *)
(** * A step of the emulator is a step of the reference

    [rv_vm_step] on a memory that holds the encoding of an instruction leaves
    the machine [isa_step] gives, for every instruction the emulator supports. *)

From stdpp Require Import prelude gmap list numbers tactics.
From S2P Require Import Prelude Memory Riscv RiscvIsa.

(** ** Values *)

Definition word32 (a : Z) : Prop := 0 <= a < 2 ^ 32.
Lemma u32_of_s32 a : u32 (s32 a) = u32 a.
Proof. apply wrap_swrap. Qed.
Lemma u32_id a : word32 a → u32 a = a.
Proof. apply wrap_small. Qed.
Lemma s32_range a : - 2 ^ 31 <= s32 a < 2 ^ 31.
Proof. exact (swrap_range 32 a ltac:(lia)). Qed.
Lemma s32_eqb a b : word32 a → word32 b → (s32 a =? s32 b) = (a =? b).
Proof.
  intros Ha Hb. apply Bool.eq_iff_eq_true. rewrite !Z.eqb_eq. split; [|congruence]. intros E.
  rewrite <- (u32_id a Ha), <- (u32_id b Hb), <- u32_of_s32, E. apply u32_of_s32.
Qed.
Lemma u32_cong a b : a mod 2 ^ 32 = b mod 2 ^ 32 → u32 a = u32 b.
Proof. done. Qed.

(** Bitwise operations go by bits, so they commute with the reduction. *)
Lemma mod_land n a b : 0 <= n → Z.land a b mod 2 ^ n = Z.land (a mod 2 ^ n) (b mod 2 ^ n).
Proof.
  intros Hn. rewrite <- !Z.land_ones by done. apply Z.bits_inj'. intros i Hi. rewrite !Z.land_spec. destruct (Z.testbit a i), (Z.testbit b i), (Z.testbit (Z.ones n) i); done.
Qed.
Lemma mod_lor n a b : 0 <= n → Z.lor a b mod 2 ^ n = Z.lor (a mod 2 ^ n) (b mod 2 ^ n).
Proof.
  intros Hn. rewrite <- !Z.land_ones by done. apply Z.bits_inj'. intros i Hi. rewrite !Z.lor_spec, !Z.land_spec, Z.lor_spec. destruct (Z.testbit a i), (Z.testbit b i), (Z.testbit (Z.ones n) i); done.
Qed.
Lemma mod_lxor n a b : 0 <= n → Z.lxor a b mod 2 ^ n = Z.lxor (a mod 2 ^ n) (b mod 2 ^ n).
Proof.
  intros Hn. rewrite <- !Z.land_ones by done. apply Z.bits_inj'. intros i Hi. rewrite !Z.lxor_spec, !Z.land_spec, Z.lxor_spec. destruct (Z.testbit a i), (Z.testbit b i), (Z.testbit (Z.ones n) i); done.
Qed.
Lemma bitop_s32 (f : Z → Z → Z) a b : (∀ a b, f a b mod 2 ^ 32 = f (a mod 2 ^ 32) (b mod 2 ^ 32)) → u32 (f (s32 a) (s32 b)) = u32 (f a b).
Proof. intros Hf. unfold wrap at 1 2. rewrite Hf, (Hf a b). by rewrite !swrap_mod. Qed.

Lemma shl_value a n : 0 <= n < 32 → ∃ c, shl32 (s32 a) n = Some c ∧ u32 c = u32 (a * 2 ^ n).
Proof.
  intros Hn. unfold shl32. rewrite (proj2 (Z.leb_le 0 n)), (proj2 (Z.ltb_lt n 32)) by lia. eexists. split; [done|].
  rewrite u32_of_s32, Z.shiftl_mul_pow2 by lia. unfold wrap. by rewrite <- Zmult_mod_idemp_l, swrap_mod, Zmult_mod_idemp_l.
Qed.
Lemma shr_value a n : 0 <= n < 32 → ∃ c, shr32 a n = Some c ∧ u32 c = u32 (a / 2 ^ n).
Proof.
  intros Hn. unfold shr32. rewrite (proj2 (Z.leb_le 0 n)), (proj2 (Z.ltb_lt n 32)) by lia. eexists. split; [done|]. by rewrite Z.shiftr_div_pow2 by lia.
Qed.

(** The two arithmetic groups compute what the reference has. *)
Definition computes (c : option Z) (v : Z) : Prop := ∃ c', c = Some c' ∧ u32 c' = u32 v.
Lemma computes_some c v : u32 c = u32 v → computes (Some c) v.
Proof. intros E. by exists c. Qed.

Lemma alui_computes o a imm : word32 a → -2048 <= imm < 2048 → computes (imm_math (alui_funct o) (s32 a) imm) (alui_value o a imm).
Proof.
  intros Ha Hi. assert (s32 imm = imm) as Ei by (apply swrap_small; lia). destruct o; apply computes_some; cbn [alui_value alui_funct].
  - rewrite u32_of_s32. unfold wrap. by rewrite <- Zplus_mod_idemp_l, swrap_mod, Zplus_mod_idemp_l.
  - by destruct (s32 a <? imm).
  - rewrite u32_of_s32, (u32_id a) by done. by destruct (a <? u32 imm).
  - rewrite <- Ei at 1. rewrite bitop_s32 by (intros; by apply mod_lxor). unfold wrap. rewrite mod_lxor, (mod_lxor 32 a) by done. by rewrite Zmod_mod.
  - rewrite <- Ei at 1. rewrite bitop_s32 by (intros; by apply mod_lor). unfold wrap. rewrite mod_lor, (mod_lor 32 a) by done. by rewrite Zmod_mod.
  - rewrite <- Ei at 1. rewrite bitop_s32 by (intros; by apply mod_land). unfold wrap. rewrite mod_land, (mod_land 32 a) by done. by rewrite Zmod_mod.
Qed.
Lemma alu_computes o a b : word32 a → word32 b →
  match o with SLL | SRL | SRA => b < 32 | DIVU | REMU => b ≠ 0 | MULH | MULHSU | MULHU | DIV | REM => False | _ => True end →
  computes (reg_math (Z.lor (Z.shiftl (fst (alu_funct o)) 4) (snd (alu_funct o))) (s32 a) (s32 b)) (alu_value o a b).
Proof.
  intros Ha Hb Hs. pose proof Ha as [? _]. pose proof Hb as [? _].
  assert (∀ f : Z → Z → Z, (∀ a b, f a b mod 2 ^ 32 = f (a mod 2 ^ 32) (b mod 2 ^ 32)) → u32 (f (s32 a) (s32 b)) = u32 (f a b)) as Hbit by (intros; by apply bitop_s32).
  destruct o; try done; cbn [alu_funct fst snd alu_value].
  - apply computes_some. rewrite u32_of_s32. unfold wrap. by rewrite Zplus_mod, !swrap_mod, <- Zplus_mod.
  - change (computes (shl32 (s32 a) (s32 b)) (a * 2 ^ (b mod 32))). rewrite (swrap_small 32 b), Z.mod_small by lia. apply shl_value. lia.
  - apply computes_some. by destruct (s32 a <? s32 b).
  - apply computes_some. rewrite !u32_of_s32, (u32_id a), (u32_id b) by done. by destruct (a <? b).
  - apply computes_some, Hbit. intros. by apply mod_lxor.
  - change (computes (shr32 (u32 (s32 a)) (u32 (s32 b))) (a / 2 ^ (b mod 32))). rewrite !u32_of_s32, (u32_id a), (u32_id b), Z.mod_small by (done || lia). apply shr_value. lia.
  - apply computes_some, Hbit. intros. by apply mod_lor.
  - apply computes_some, Hbit. intros. by apply mod_land.
  - apply computes_some. rewrite u32_of_s32. unfold wrap. by rewrite Zminus_mod, !swrap_mod, <- Zminus_mod.
  - change (computes (shr32 (s32 a) (s32 b)) (s32 a / 2 ^ (b mod 32))). rewrite (swrap_small 32 b), Z.mod_small by lia. apply shr_value. lia.
  - apply computes_some. rewrite u32_of_s32. unfold wrap. by rewrite Zmult_mod, !swrap_mod, <- Zmult_mod.
  - change (computes (if u32 (s32 b) =? 0 then None else Some (u32 (s32 a) / u32 (s32 b))) (if b =? 0 then -1 else a / b)).
    rewrite !u32_of_s32, (u32_id a), (u32_id b), (proj2 (Z.eqb_neq b 0)) by done. by apply computes_some.
  - change (computes (if u32 (s32 b) =? 0 then None else Some (u32 (s32 a) mod u32 (s32 b))) (if b =? 0 then a else a mod b)).
    rewrite !u32_of_s32, (u32_id a), (u32_id b), (proj2 (Z.eqb_neq b 0)) by done. by apply computes_some.
Qed.
Lemma shift_computes o a n : word32 a → 0 <= n < 32 →
  computes (imm_math (snd (shift_funct o)) (s32 a) (n + fst (shift_funct o) * 2 ^ 5)) (shift_value o a n).
Proof.
  intros Ha Hn. assert (∀ k, Z.land (n + k * 2 ^ 5) 0x1f = n) as El by (intros k; rewrite (land_low _ 5) by done; zlia).
  assert (∀ k, Z.shiftr (n + k * 2 ^ 5) 5 = k) as Er by (intros k; rewrite Z.shiftr_div_pow2 by lia; zlia).
  destruct o; cbn [shift_funct fst snd shift_value imm_math].
  - rewrite (El 0). by apply shl_value.
  - rewrite (Er 0), (El 0), u32_of_s32, u32_id by done. by apply shr_value.
  - rewrite (Er 0x20), (El 0x20). by apply shr_value.
Qed.

(** Branches. *)
Lemma branch_cond c a b : word32 a → word32 b → branch_taken (cond_funct c) (s32 a) (s32 b) = cond_holds c a b.
Proof.
  intros Ha Hb. destruct c; cbn [cond_funct cond_holds]; unfold branch_taken; cbv zeta.
  - change (0 / 2) with 0. cbn [Z.land truthy]. by apply s32_eqb.
  - change (1 / 2) with 0. change (truthy (Z.land 1 1)) with true. cbv iota. by rewrite s32_eqb.
  - done.
  - done.
  - change (6 / 2) with 3. change (truthy (Z.land 6 1)) with false. cbv iota. by rewrite !u32_of_s32, (u32_id a), (u32_id b).
  - change (7 / 2) with 3. change (truthy (Z.land 7 1)) with true. cbv iota. by rewrite !u32_of_s32, (u32_id a), (u32_id b).
Qed.

(** ** Execution *)

(** The machine once [x0] has been cleared. *)
Record started (vm : RvVm (gmap Z Z)) (h : hart) : Prop := {
  st_regs : length (regs vm) = 32%nat;
  st_x : ∀ r, 0 <= r < 32 → nth (Z.to_nat r) (regs vm) 0 = x h r ∧ word32 (x h r);
  st_pc : ip vm = pc h;
  st_ram : env vm = ram h
}.
Lemma nth_insert (l : list Z) r rd v : 0 <= rd < 32 → 0 <= r < 32 → length l = 32%nat →
  nth (Z.to_nat r) (<[Z.to_nat rd := v]> l) 0 = if r =? rd then v else nth (Z.to_nat r) l 0.
Proof.
  intros Hrd Hr Hl. rewrite !nth_lookup. destruct (Z.eqb_spec r rd) as [->|Hne].
  - by rewrite list_lookup_insert_eq by lia.
  - by rewrite list_lookup_insert_ne by lia.
Qed.
Lemma clear_spec vm h Q : same_hart vm h → (∀ vm', started vm' h → Q tt vm') → wp (set_reg 0 0) Q vm.
Proof.
  intros [Hl Hg Hr Hp Hm] HQ. apply wp_modify, HQ. split; cbn [regs ip env]; try done.
  - by rewrite length_insert.
  - intros r Hr'. rewrite (nth_insert (regs vm) r 0) by (done || lia). unfold x. destruct (Z.eqb_spec r 0) as [->|Hne]; [by split|].
    rewrite Hg by lia. split; [done|]. apply Hr. lia.
Qed.
Lemma get_reg_spec vm h r Q : started vm h → 0 <= r < 32 → (word32 (x h r) → Q (x h r) vm) → wp (get_reg r) Q vm.
Proof. intros Hs Hr HQ. apply wp_gets. destruct (st_x _ _ Hs r Hr) as [-> Hx]. by apply HQ. Qed.

(** The state behind a write, and behind a jump. *)
Lemma write_spec vm h rd c v Q : started vm h → 0 <= rd < 32 → u32 c = u32 v → (∀ vm', same_hart vm' (write rd v h) → Q tt vm') → wp (set_reg rd c) Q vm.
Proof.
  intros Hs Hrd E HQ. pose proof Hs as [Hl Hx Hp Hm]. apply wp_modify, HQ. split; cbn [regs ip env write gpr pc ram]; try done.
  - by rewrite length_insert.
  - intros r Hr. rewrite nth_insert by (done || lia). destruct (r =? rd); [done|]. destruct (Hx r ltac:(lia)) as [-> _]. unfold x.
    by rewrite (proj2 (Z.eqb_neq r 0)) by lia.
  - intros r Hr. cbv beta. destruct (r =? rd); [apply wrap_range; lia|]. destruct (Hx r ltac:(lia)) as [_ Hw]. unfold x in Hw.
    by rewrite (proj2 (Z.eqb_neq r 0)) in Hw by lia.
Qed.
Lemma started_same vm h : started vm h → same_hart vm h.
Proof.
  intros [Hl Hx Hp Hm]. split; try done; intros r Hr; destruct (Hx r ltac:(lia)) as [E Hw]; unfold x in *;
    rewrite (proj2 (Z.eqb_neq r 0)) in * by lia; done.
Qed.
Lemma jump_spec vm h p q Q : same_hart vm h → u32 p = u32 q → (∀ vm', same_hart vm' (jump q h) → Q tt vm') → wp (set_ip p) Q vm.
Proof. intros [? ? ? ? ?] E HQ. apply wp_modify, HQ. by split. Qed.
Definition done_with (h : hart) : Z → RvVm (gmap Z Z) → Prop := λ r vm, r = 0 ∧ same_hart vm h.
Lemma next_spec vm h : same_hart vm h → wp (next 0) (done_with (advance h)) vm.
Proof.
  intros Hs. unfold next. apply wp_bind, wp_gets. apply wp_bind. rewrite (sh_pc _ _ Hs). eapply jump_spec; [exact Hs|done|].
  intros vm' Hs'. apply wp_ret. by split.
Qed.
Lemma write_next vm h rd c v : started vm h → 0 <= rd < 32 → u32 c = u32 v → wp (set_reg rd c;; next 0) (done_with (advance (write rd v h))) vm.
Proof. intros Hs Hrd E. apply wp_bind. eapply write_spec; try done. intros vm' Hs'. by apply next_spec. Qed.

(** ** One instruction *)

Lemma store8_mod m a v : store8 m a (v mod 256) = store8 m a v.
Proof. unfold store8. by rewrite Zmod_mod. Qed.
Lemma storen_mod n m a v v' : v mod 256 ^ Z.of_nat n = v' mod 256 ^ Z.of_nat n → storen n m a v = storen n m a v'.
Proof.
  revert m a v v'. induction n as [|n IH]; intros m a v v' E; [done|]. rewrite Nat2Z.inj_succ, Z.pow_succ_r in E by lia.
  rewrite !Z.rem_mul_r in E by (try apply Z.pow_nonzero; lia). pose proof (Z.mod_pos_bound v 256 ltac:(lia)). pose proof (Z.mod_pos_bound v' 256 ltac:(lia)).
  change (storen n (store8 m a v) (a + 1) (v / 256) = storen n (store8 m a v') (a + 1) (v' / 256)).
  rewrite <- (store8_mod m a v), <- (store8_mod m a v'). assert (v mod 256 = v' mod 256) as -> by lia. apply IH. lia.
Qed.

Section instr.
Context (on_environ : Z → M (RvVm (gmap Z Z)) Z).
Abbreviation run_one := (exec_inst ram_read ram_write on_environ).
Implicit Types (vm : RvVm (gmap Z Z)) (h : hart).

(** [exec_inst] on a word: the operation code selects the case. *)
Lemma exec_op o rd rs1 rs2 vm h : let i := Op o rd rs1 rs2 in started vm h → instr_ok i → supported i h → wp (run_one (encode i)) (done_with (isa_step i h)) vm.
Proof.
  intros i Hs (Hrd & Hr1 & Hr2) Hsup. unfold i. cbn [encode isa_step]. unfold reg_ok in *.
  destruct (r_word 0x33 rd rs1 rs2 (snd (alu_funct o)) (fst (alu_funct o)) ltac:(lia) Hrd Hr1 Hr2 ltac:(by destruct o) ltac:(by destruct o)) as (-> & Hf & E1 & E2).
  unfold exec_inst. cbv zeta. rewrite (word_op _ _ _ _ _ Hf), (word_r1 _ _ _ _ _ Hf), (word_r2 _ _ _ _ _ Hf), (word_rd _ _ _ _ _ Hf), (word_funct3 _ _ _ _ _ Hf), (word_funct7 _ _ _ _ _ Hf), E1, E2.
  cbn [Z.eqb Pos.eqb RV_IMM_INT_MATH_OP RV_REG_INT_MATH_OP].
  apply wp_bind. eapply get_reg_spec; [exact Hs|done|]. intros Ha. apply wp_bind. eapply get_reg_spec; [exact Hs|done|]. intros Hb.
  destruct (alu_computes o _ _ Ha Hb) as (c & Ec & Ev); [by destruct o|]. apply wp_bind. eapply wp_of_option; [exact Ec|]. by apply write_next.
Qed.
Lemma exec_op_imm o rd rs1 imm vm h : let i := OpImm o rd rs1 imm in started vm h → instr_ok i → wp (run_one (encode i)) (done_with (isa_step i h)) vm.
Proof.
  intros i Hs (Hrd & Hr1 & Hi). unfold i. cbn [encode isa_step]. unfold reg_ok in *.
  destruct (i_word 0x13 rd rs1 (alui_funct o) imm ltac:(lia) Hrd Hr1 ltac:(by destruct o) Hi) as (-> & Hf & E1).
  unfold exec_inst. cbv zeta. rewrite (word_op _ _ _ _ _ Hf), (word_r1 _ _ _ _ _ Hf), (word_rd _ _ _ _ _ Hf), (word_funct3 _ _ _ _ _ Hf), (word_imm_i _ _ _ _ _ Hf), E1.
  cbn [Z.eqb Pos.eqb RV_IMM_INT_MATH_OP].
  apply wp_bind. eapply get_reg_spec; [exact Hs|done|]. intros Ha.
  destruct (alui_computes o _ imm Ha Hi) as (c & Ec & Ev). apply wp_bind. eapply wp_of_option; [exact Ec|]. by apply write_next.
Qed.
Lemma exec_shift o rd rs1 n vm h : let i := Shift o rd rs1 n in started vm h → instr_ok i → wp (run_one (encode i)) (done_with (isa_step i h)) vm.
Proof.
  intros i Hs (Hrd & Hr1 & Hn). unfold i. cbn [encode isa_step]. unfold reg_ok in *.
  destruct (r_word 0x13 rd rs1 n (snd (shift_funct o)) (fst (shift_funct o)) ltac:(lia) Hrd Hr1 Hn ltac:(by destruct o) ltac:(by destruct o)) as (-> & Hf & E1 & E2).
  unfold exec_inst. cbv zeta. rewrite (word_op _ _ _ _ _ Hf), (word_r1 _ _ _ _ _ Hf), (word_rd _ _ _ _ _ Hf), (word_funct3 _ _ _ _ _ Hf), (word_imm_i _ _ _ _ _ Hf).
  cbn [Z.eqb Pos.eqb RV_IMM_INT_MATH_OP]. rewrite swrap_small by (destruct o; cbn [shift_funct fst]; lia).
  apply wp_bind. eapply get_reg_spec; [exact Hs|done|]. intros Ha.
  destruct (shift_computes o _ n Ha Hn) as (c & Ec & Ev). apply wp_bind. eapply wp_of_option; [exact Ec|]. by apply write_next.
Qed.
Lemma u_imm op rd imm : 0 <= op < 2 ^ 7 → 0 <= rd < 32 → 0 <= imm < 2 ^ 20 → ∃ f3 rs1 top, u_type imm rd op = word op rd f3 rs1 top ∧ fields_ok op rd f3 rs1 top ∧
  ∀ p, u32 (p + Z.shiftl (RV_R32_IMM_U (u_type imm rd op)) 12) = u32 (p + imm * 2 ^ 12).
Proof.
  intros Hop Hrd Hi. destruct (u_word op rd imm Hop Hrd Hi) as (E & Hf & Em). eexists _, _, _. split; [exact E|]. split; [exact Hf|].
  intros p. rewrite E, (word_imm_u _ _ _ _ _ Hf), Z.shiftl_mul_pow2 by lia. unfold wrap. rewrite <- Zplus_mod_idemp_r, <- (Zplus_mod_idemp_r (imm * 2 ^ 12)). do 2 f_equal.
  change (2 ^ 32) with (2 ^ 20 * 2 ^ 12). rewrite !Zmult_mod_distr_r. by rewrite Em, (Z.mod_small imm) by lia.
Qed.
Lemma exec_lui rd imm vm h : let i := Lui rd imm in started vm h → instr_ok i → wp (run_one (encode i)) (done_with (isa_step i h)) vm.
Proof.
  intros i Hs (Hrd & Hi). unfold i. cbn [encode isa_step]. destruct (u_imm 0x37 rd imm ltac:(lia) Hrd Hi) as (f3 & rs1 & top & E & Hf & Ev).
  unfold exec_inst. cbv zeta. specialize (Ev 0). rewrite !Z.add_0_l in Ev. rewrite E in Ev |- *. rewrite (word_op _ _ _ _ _ Hf), (word_rd _ _ _ _ _ Hf).
  cbn [Z.eqb Pos.eqb RV_IMM_INT_MATH_OP RV_REG_INT_MATH_OP RV_STORE_OP RV_LOAD_OP RV_LUI_OP]. by apply write_next.
Qed.
Lemma exec_auipc rd imm vm h : let i := Auipc rd imm in started vm h → instr_ok i → wp (run_one (encode i)) (done_with (isa_step i h)) vm.
Proof.
  intros i Hs (Hrd & Hi). unfold i. cbn [encode isa_step]. destruct (u_imm 0x17 rd imm ltac:(lia) Hrd Hi) as (f3 & rs1 & top & E & Hf & Ev).
  unfold exec_inst. cbv zeta. specialize (Ev (pc h)). rewrite E in Ev |- *. rewrite (word_op _ _ _ _ _ Hf), (word_rd _ _ _ _ _ Hf).
  cbn [Z.eqb Pos.eqb RV_IMM_INT_MATH_OP RV_REG_INT_MATH_OP RV_STORE_OP RV_LOAD_OP RV_LUI_OP RV_AUIPC_OP].
  apply wp_bind, wp_gets. rewrite (st_pc _ _ Hs). by apply write_next.
Qed.
Lemma pc_of vm h : same_hart vm h → ip vm = pc h. Proof. by intros []. Qed.
(** [vm->ip += t - 4] and the [+ 4] at the end. *)
Lemma jump_next vm h p : same_hart vm h → wp (set_ip (p - 4);; next 0) (done_with (jump p h)) vm.
Proof.
  intros Hs. apply wp_bind. eapply jump_spec; [exact Hs|done|]. intros vm' Hs'. eapply wp_mono; [by apply next_spec|].
  intros r vm2 [-> Hs2]. split; [done|]. assert (jump p h = advance (jump (p - 4) h)) as ->; [|done]. unfold advance, jump. cbn [pc gpr ram]. f_equal.
  unfold wrap. rewrite Zplus_mod_idemp_l. f_equal. lia.
Qed.
Lemma exec_jal rd imm vm h : let i := Jal rd imm in started vm h → instr_ok i → wp (run_one (encode i)) (done_with (isa_step i h)) vm.
Proof.
  intros i Hs (Hrd & Hi & Hm). unfold i. cbn [encode isa_step]. unfold reg_ok in *.
  destruct (j_word 0x6f rd imm ltac:(lia) Hrd Hi Hm) as (E & Hf & Em). cbv zeta in E, Hf, Em. rewrite E.
  unfold exec_inst. cbv zeta. rewrite (word_op _ _ _ _ _ Hf), (word_rd _ _ _ _ _ Hf), (word_imm_j _ _ _ _ _ Hf), Em.
  cbn [Z.eqb Pos.eqb RV_IMM_INT_MATH_OP RV_REG_INT_MATH_OP RV_STORE_OP RV_LOAD_OP RV_LUI_OP RV_AUIPC_OP RV_BRANCH_OP RV_JAL_OP].
  apply wp_bind, wp_gets. rewrite (st_pc _ _ Hs). apply wp_bind. eapply write_spec; [exact Hs|done|done|]. intros vm1 Hs1.
  replace (pc h + (imm - 4)) with (pc h + imm - 4) by lia. by apply jump_next.
Qed.
Lemma exec_jalr rd rs1 imm vm h : let i := Jalr rd rs1 imm in started vm h → instr_ok i → supported i h → wp (run_one (encode i)) (done_with (isa_step i h)) vm.
Proof.
  intros i Hs (Hrd & Hr1 & Hi) [Hne Hev]. unfold i. cbn [encode isa_step]. unfold reg_ok in *.
  destruct (i_word 0x67 rd rs1 0 imm ltac:(lia) Hrd Hr1 ltac:(lia) Hi) as (-> & Hf & E1).
  unfold exec_inst. cbv zeta. rewrite (word_op _ _ _ _ _ Hf), (word_r1 _ _ _ _ _ Hf), (word_rd _ _ _ _ _ Hf), (word_imm_i _ _ _ _ _ Hf), E1.
  cbn [Z.eqb Pos.eqb RV_IMM_INT_MATH_OP RV_REG_INT_MATH_OP RV_STORE_OP RV_LOAD_OP RV_LUI_OP RV_AUIPC_OP RV_BRANCH_OP RV_JAL_OP RV_JALR_OP].
  apply wp_bind, wp_gets. rewrite (st_pc _ _ Hs). apply wp_bind. pose proof (st_x _ _ Hs rs1 Hr1) as [Ex _].
  unfold set_reg. apply wp_modify. apply wp_bind, wp_gets. cbn [regs]. rewrite nth_insert by (done || apply Hs). rewrite (proj2 (Z.eqb_neq rs1 rd)), Ex by done.
  set (vm1 := mk_vm _ _ _ _). assert (same_hart vm1 (write rd (pc h + 4) h)) as Hs1.
  { assert (wp (set_reg rd (pc h + 4)) (λ _ v, same_hart v (write rd (pc h + 4) h)) vm) as Hw by (eapply write_spec; eauto). exact Hw. }
  eapply wp_mono; [by apply jump_next|]. intros r vm2 [-> H2]. split; [done|].
  assert (u32 (x h rs1 + imm) mod 2 = 0) as E by (unfold wrap; zlia). rewrite E, Z.sub_0_r. destruct H2. split; try done.
  cbn [jump pc] in *. match goal with E : ip vm2 = _ |- _ => rewrite E end. unfold wrap. by rewrite Zmod_mod.
Qed.
Lemma exec_branch c rs1 rs2 imm vm h : let i := Branch c rs1 rs2 imm in started vm h → instr_ok i → supported i h → wp (run_one (encode i)) (done_with (isa_step i h)) vm.
Proof.
  intros i Hs (Hr1 & Hr2 & Hi & Hm) Hsup. unfold i. cbn [encode isa_step]. unfold reg_ok in *. cbn [supported i] in Hsup.
  destruct (b_word 0x63 rs1 rs2 (cond_funct c) imm ltac:(lia) Hr1 Hr2 ltac:(by destruct c) Hi Hm) as (E & Hf & E2 & Em). cbv zeta in E, Hf, E2, Em. rewrite E.
  unfold exec_inst. cbv zeta. rewrite (word_op _ _ _ _ _ Hf), (word_r1 _ _ _ _ _ Hf), (word_r2 _ _ _ _ _ Hf), (word_funct3 _ _ _ _ _ Hf), (word_imm_b _ _ _ _ _ Hf), E2.
  cbn [Z.eqb Pos.eqb RV_IMM_INT_MATH_OP RV_REG_INT_MATH_OP RV_STORE_OP RV_LOAD_OP RV_LUI_OP RV_AUIPC_OP RV_BRANCH_OP].
  apply wp_bind. eapply get_reg_spec; [exact Hs|done|]. intros Ha. apply wp_bind. eapply get_reg_spec; [exact Hs|done|]. intros Hb.
  rewrite (branch_cond c _ _ Ha Hb). apply started_same in Hs. destruct (cond_holds c (x h rs1) (x h rs2)) eqn:Ec; cbn [mwhen].
  - rewrite Em by (by apply Hsup). apply wp_bind, wp_bind, wp_gets. rewrite (pc_of _ _ Hs). replace (pc h + (imm - 4)) with (pc h + imm - 4) by lia.
    by apply wp_bind_inv, jump_next.
  - apply wp_bind, wp_ret. by apply next_spec.
Qed.

(** Loads and stores. *)
Lemma no_extension f3 n : 0 <= f3 < 8 → n = 1 ∨ n = 2 ∨ n = 4 → sign_extend f3 n = 0.
Proof.
  intros Hf Hn. assert (f3 = 0 ∨ f3 = 1 ∨ f3 = 2 ∨ f3 = 3 ∨ f3 = 4 ∨ f3 = 5 ∨ f3 = 6 ∨ f3 = 7) as Hc by lia.
  destruct Hn as [->|[->| ->]]; destruct Hc as [->|[->|[->|[->|[->|[->|[->| ->]]]]]]]; vm_compute; done.
Qed.
Lemma width_shift w : Z.shiftl 1 (width_funct w) = Z.of_nat (width_bytes w).
Proof. by destruct w. Qed.
Lemma funct3_width w (u : bool) : (width_funct w + (if u then 4 else 0)) mod 4 = width_funct w.
Proof. by destruct w, u. Qed.
Lemma load_extends w u v : 0 <= v < 256 ^ Z.of_nat (width_bytes w) → (u = false → w ≠ W → v < 2 ^ (8 * Z.of_nat (width_bytes w) - 1)) →
  u32 (s32 v) = u32 (load_value w u v).
Proof.
  intros Hv Hs. rewrite u32_of_s32. unfold load_value. destruct u; [done|]. destruct w; cbn [width_bytes] in *.
  - rewrite swrap_small; [done|lia|]. specialize (Hs eq_refl ltac:(done)). lia.
  - rewrite swrap_small; [done|lia|]. specialize (Hs eq_refl ltac:(done)). lia.
  - change (8 * Z.of_nat 4) with 32. by rewrite u32_of_s32.
Qed.
Lemma exec_load w u rd rs1 imm vm h : let i := Load w u rd rs1 imm in started vm h → instr_ok i → supported i h → wp (run_one (encode i)) (done_with (isa_step i h)) vm.
Proof.
  intros i Hs (Hrd & Hr1 & Hi & Hw) Hsup. unfold i. cbn [encode isa_step]. unfold reg_ok in *. cbn [supported i] in Hsup.
  destruct (i_word 0x03 rd rs1 (width_funct w + (if u then 4 else 0)) imm ltac:(lia) Hrd Hr1 ltac:(by destruct w, u) Hi) as (-> & Hf & E1).
  unfold exec_inst. cbv zeta. rewrite (word_op _ _ _ _ _ Hf). cbn [Z.eqb Pos.eqb RV_IMM_INT_MATH_OP RV_REG_INT_MATH_OP RV_STORE_OP RV_LOAD_OP].
  unfold step_load. cbv zeta. rewrite (word_r1 _ _ _ _ _ Hf), (word_rd _ _ _ _ _ Hf), (word_funct3 _ _ _ _ _ Hf), (word_imm_i _ _ _ _ _ Hf), E1.
  rewrite funct3_width, width_shift, no_extension by (destruct w, u; cbn; lia).
  apply wp_bind. eapply get_reg_spec; [exact Hs|done|]. intros Ha. rewrite (proj2 (Z.ltb_ge 4 _)) by (destruct w; cbn; lia).
  apply wp_bind, wp_gets. change (0 <? 0) with false. cbv iota. rewrite Nat2Z.id, (st_ram _ _ Hs).
  set (v := loadn (width_bytes w) (ram h) _) in *. assert (0 <= v < 256 ^ Z.of_nat (width_bytes w)) as Hv by apply loadn_range. clearbody v.
  apply wp_bind. eapply wp_of_option; [done|]. apply wp_bind. eapply wp_of_option; [done|]. rewrite Z.shiftl_0_r, Z.shiftr_0_r. apply write_next; try done.
  rewrite !u32_of_s32. rewrite <- (load_extends w u v Hv Hsup). by rewrite u32_of_s32.
Qed.
Lemma mask_value w : masks !! Z.to_nat (width_funct w) = Some (match w with W => -1 | _ => 2 ^ (8 * Z.of_nat (width_bytes w)) - 1 end).
Proof. by destruct w. Qed.
Lemma exec_store w rs1 rs2 imm vm h : let i := Store w rs1 rs2 imm in started vm h → instr_ok i → wp (run_one (encode i)) (done_with (isa_step i h)) vm.
Proof.
  intros i Hs (Hr1 & Hr2 & Hi). unfold i. cbn [encode isa_step]. unfold reg_ok in *.
  destruct (s_word 0x23 rs1 rs2 (width_funct w) imm ltac:(lia) Hr1 Hr2 ltac:(by destruct w) Hi) as (E & Hf & E2 & Em). cbv zeta in E, Hf, E2, Em. rewrite E.
  unfold exec_inst. cbv zeta. rewrite (word_op _ _ _ _ _ Hf). cbn [Z.eqb Pos.eqb RV_IMM_INT_MATH_OP RV_REG_INT_MATH_OP RV_STORE_OP].
  unfold step_store. cbv zeta. rewrite (word_r1 _ _ _ _ _ Hf), (word_r2 _ _ _ _ _ Hf), (word_funct3 _ _ _ _ _ Hf), (word_imm_s _ _ _ _ _ Hf), E2, Em.
  pose proof (funct3_width w false) as Ew. cbn [Z.add] in Ew. rewrite Z.add_0_r in Ew. rewrite Ew, width_shift.
  apply wp_bind. eapply get_reg_spec; [exact Hs|done|]. intros Ha. apply wp_bind. eapply get_reg_spec; [exact Hs|done|]. intros Hb.
  apply wp_bind. eapply wp_of_option; [apply mask_value|]. apply wp_bind, wp_bind, wp_modify, wp_ret. change (0 <? 0) with false. cbv iota. rewrite Nat2Z.id.
  apply started_same in Hs. destruct Hs as [Hl Hg Hrg Hp Hm]. apply next_spec. split; cbn [regs ip env gpr pc ram]; try done. rewrite Hm. apply storen_mod.
  destruct w; cbn [width_bytes].
  - rewrite (land_low _ 8) by done. rewrite wrap_small by zlia. change (256 ^ Z.of_nat 1) with (2 ^ 8). by rewrite Zmod_mod.
  - rewrite (land_low _ 16) by done. rewrite wrap_small by zlia. change (256 ^ Z.of_nat 2) with (2 ^ 16). by rewrite Zmod_mod.
  - rewrite Z.land_m1_r. by rewrite u32_id.
Qed.

(** ** The step *)

Lemma encode_word i : instr_ok i → ∃ op rd f3 rs1 top, encode i = word op rd f3 rs1 top ∧ fields_ok op rd f3 rs1 top ∧ op mod 4 = 3 ∧ op / 4 mod 8 ≠ 7.
Proof.
  destruct i as [o rd rs1 rs2|o rd rs1 imm|o rd rs1 n|rd imm|rd imm|rd imm|rd rs1 imm|c rs1 rs2 imm|w u rd rs1 imm|w rs1 rs2 imm]; cbn [instr_ok encode]; unfold reg_ok.
  - intros (? & ? & ?). destruct (r_word 0x33 rd rs1 rs2 (snd (alu_funct o)) (fst (alu_funct o))) as (E & Hf & _); [lia..|by destruct o|by destruct o|]. eauto 10.
  - intros (? & ? & ?). destruct (i_word 0x13 rd rs1 (alui_funct o) imm) as (E & Hf & _); [lia..|by destruct o|lia|]. eauto 10.
  - intros (? & ? & ?). destruct (r_word 0x13 rd rs1 n (snd (shift_funct o)) (fst (shift_funct o))) as (E & Hf & _); [lia..|by destruct o|by destruct o|]. eauto 10.
  - intros (? & ?). destruct (u_word 0x37 rd imm) as (E & Hf & _); [lia..|]. eauto 10.
  - intros (? & ?). destruct (u_word 0x17 rd imm) as (E & Hf & _); [lia..|]. eauto 10.
  - intros (? & ? & ?). destruct (j_word 0x6f rd imm) as (E & Hf & _); [lia..|]. eauto 10.
  - intros (? & ? & ?). destruct (i_word 0x67 rd rs1 0 imm) as (E & Hf & _); [lia..|]. eauto 10.
  - intros (? & ? & ? & ?). destruct (b_word 0x63 rs1 rs2 (cond_funct c) imm) as (E & Hf & _); [lia..|by destruct c|lia|lia|]. eauto 10.
  - intros (? & ? & ? & ?). destruct (i_word 0x03 rd rs1 (width_funct w + (if u then 4 else 0)) imm) as (E & Hf & _); [lia..|by destruct w, u|lia|]. eauto 10.
  - intros (? & ? & ?). destruct (s_word 0x23 rs1 rs2 (width_funct w) imm) as (E & Hf & _); [lia..|by destruct w|lia|]. eauto 10.
Qed.
Lemma step_spec i vm h : same_hart vm h → instr_ok i → supported i h → loadn 4 (ram h) (pc h) = encode i →
  wp (rv_vm_step ram_read ram_write on_environ) (done_with (isa_step i h)) vm.
Proof.
  intros Hs Hi Hsup Hcode. unfold rv_vm_step. apply wp_bind. eapply clear_spec; [exact Hs|]. intros vm0 H0. apply wp_bind, wp_gets. rewrite (st_pc _ _ H0).
  apply wp_bind, wp_gets. change (0 <? 0) with false. cbv iota. rewrite (st_ram _ _ H0). change (Z.to_nat 4) with 4%nat. rewrite Hcode.
  destruct (encode_word i Hi) as (op & rd & f3 & rs1 & top & E & Hf & H3 & H7). rewrite E, (word_length _ _ _ _ _ Hf H3 H7), <- E. cbn [Z.eqb Pos.eqb negb].
  destruct i; [by apply exec_op|by apply exec_op_imm|by apply exec_shift|by apply exec_lui|by apply exec_auipc|by apply exec_jal|by apply exec_jalr|by apply exec_branch|by apply exec_load|by apply exec_store].
Qed.
End instr.

(** ** What the emulator does

    The step and whole runs against the reference, the error results, calls into
    the environment, and the instructions on which the emulator differs. *)

Abbreviation machine := (RvVm (gmap Z Z)).

(** C18: on a memory that holds the encoding of a supported instruction at the
    program counter, [rv_vm_step] returns 0 and leaves registers, program counter
    and memory as the RV32IM reference has them. *)
Theorem rv_vm_step_correct on_environ i (vm : machine) h : same_hart vm h → instr_ok i → supported i h → loadn 4 (ram h) (pc h) = encode i →
  ∃ vm', rv_vm_step ram_read ram_write on_environ vm = Some (0, vm') ∧ same_hart vm' (isa_step i h).
Proof.
  intros Hs Hi Hsup Hc. pose proof (step_spec on_environ i vm h Hs Hi Hsup Hc) as Hw. unfold wp in Hw.
  destruct (rv_vm_step _ _ _ _) as [[r vm']|]; [|done]. destruct Hw as [-> Hw]. by exists vm'.
Qed.

(** ** Runs *)

(** [n] supported instructions of the reference, fetched from its own memory. *)
Inductive isa_run : nat → hart → hart → Prop :=
| run_done h : isa_run 0 h h
| run_step n h i h' : instr_ok i → supported i h → loadn 4 (ram h) (pc h) = encode i → isa_run n (isa_step i h) h' → isa_run (S n) h h'.
(** The user's loop: step until a result other than 0. *)
Fixpoint rv_run (on_environ : Z → M machine Z) (n : nat) : M machine Z :=
  match n with
  | O => mret 0
  | S n => e ← rv_vm_step ram_read ram_write on_environ; if e =? 0 then rv_run on_environ n else mret e
  end.
(** C19: whenever each of the next [n] instructions of the reference is one the
    emulator supports in the state it is reached in, stepping the emulator [n]
    times returns 0 each time and ends in the reference's registers, program
    counter and memory, code that modifies itself included.  Not supported are
    the high halves of products, signed division and remainder, division by
    zero, register shifts by 32 and more, loads that have a sign to extend,
    taken branches of 2 KiB and more, and [jalr] to an odd address or over its
    own base; a run that meets one of them is not claimed. *)
Theorem rv_run_refines on_environ n (vm : machine) h h' : same_hart vm h → isa_run n h h' →
  ∃ vm', rv_run on_environ n vm = Some (0, vm') ∧ same_hart vm' h'.
Proof.
  intros Hs Hr. revert vm Hs. induction Hr as [h|n h i h' Hi Hsup Hc _ IH]; intros vm Hs; [by exists vm|].
  pose proof (step_spec on_environ i vm h Hs Hi Hsup Hc) as Hw. unfold wp in Hw. cbn [rv_run]. unfold bind.
  destruct (rv_vm_step _ _ _ _) as [[r vm1]|]; [|done]. destruct Hw as [-> Hw]. rewrite Z.eqb_refl. by apply IH.
Qed.

(** ** Errors and the environment *)

Section errors.
Context {E : Type} (read : Z → Z → M (RvVm E) (Z * Z)) (write32 : Z → Z → Z → M (RvVm E) Z) (on_environ : Z → M (RvVm E) Z).
Implicit Types vm : RvVm E.

Definition cleared vm : RvVm E := mk_vm (<[0%nat := 0]> (regs vm)) (ip vm) (stval vm) (env vm).
(** What one step does with the word it fetched. *)
Definition step_on (inst : Z) vm : option (Z * RvVm E) :=
  if negb (rv_get_inst_len16 inst =? 2) then Some (-1, vm) else exec_inst read write32 on_environ inst vm.
Lemma step_fetch vm e inst vm1 : read (ip vm) 4 (cleared vm) = Some (e, inst, vm1) →
  rv_vm_step read write32 on_environ vm = if e <? 0 then Some (e, vm1) else step_on inst vm1.
Proof.
  intros Hr. unfold rv_vm_step, set_reg, get_ip, bind, modify, gets. cbn [ip]. change (u32 0) with 0. change (Z.to_nat 0) with 0%nat. fold (cleared vm). rewrite Hr.
  destruct (e <? 0); [done|]. unfold step_on. by destruct (negb _).
Qed.
(** [ecall] and [ebreak] hand over with the program counter behind them. *)
Lemma step_environ n vm : n = 0 ∨ n = 1 → step_on (i_type n 0 0 0 0x73) vm = on_environ n (mk_vm (regs vm) (u32 (ip vm + 4)) (stval vm) (env vm)).
Proof. by intros [->| ->]. Qed.
(** Every other operation code is refused, without an effect. *)
Lemma step_unknown inst vm : rv_get_inst_len16 inst = 2 → RV_R32_OP inst ∉ [0x13; 0x33; 0x23; 0x03; 0x37; 0x17; 0x63; 0x6f; 0x67; 0x73] → step_on inst vm = Some (-2, vm).
Proof.
  intros Hl Hop. unfold step_on. rewrite Hl. cbn [Z.eqb Pos.eqb negb]. unfold exec_inst. cbv zeta. rewrite !not_elem_of_cons in Hop.
  destruct Hop as (H1 & H2 & H3 & H4 & H5 & H6 & H7 & H8 & H9 & H10 & _).
  rewrite (proj2 (Z.eqb_neq _ RV_IMM_INT_MATH_OP) H1), (proj2 (Z.eqb_neq _ RV_REG_INT_MATH_OP) H2), (proj2 (Z.eqb_neq _ RV_STORE_OP) H3), (proj2 (Z.eqb_neq _ RV_LOAD_OP) H4),
    (proj2 (Z.eqb_neq _ RV_LUI_OP) H5), (proj2 (Z.eqb_neq _ RV_AUIPC_OP) H6), (proj2 (Z.eqb_neq _ RV_BRANCH_OP) H7), (proj2 (Z.eqb_neq _ RV_JAL_OP) H8),
    (proj2 (Z.eqb_neq _ RV_JALR_OP) H9), (proj2 (Z.eqb_neq _ RV_ENVIRONMENT_OP) H10). done.
Qed.
(** what [rv_vm_step] reports: the error of a failed fetch, -1 for an
    instruction of another length, -2 for an operation code it does not know,
    each with nothing but [x0] changed; and [ecall] and [ebreak] are answered by
    the environment, with the program counter behind the instruction. *)
Theorem rv_vm_step_results vm e inst vm1 : read (ip vm) 4 (cleared vm) = Some (e, inst, vm1) →
  let r := rv_vm_step read write32 on_environ vm in
  (e < 0 → r = Some (e, vm1)) ∧
  (0 <= e → rv_get_inst_len16 inst ≠ 2 → r = Some (-1, vm1)) ∧
  (0 <= e → rv_get_inst_len16 inst = 2 → RV_R32_OP inst ∉ [0x13; 0x33; 0x23; 0x03; 0x37; 0x17; 0x63; 0x6f; 0x67; 0x73] → r = Some (-2, vm1)) ∧
  (∀ n, 0 <= e → inst = i_type n 0 0 0 0x73 → n = 0 ∨ n = 1 → r = on_environ n (mk_vm (regs vm1) (u32 (ip vm1 + 4)) (stval vm1) (env vm1))).
Proof.
  intros Hr. cbv zeta. rewrite (step_fetch vm e inst vm1 Hr). split_and!.
  - intros He. by rewrite (proj2 (Z.ltb_lt e 0)).
  - intros He Hl. rewrite (proj2 (Z.ltb_ge e 0)) by done. unfold step_on. by rewrite (proj2 (Z.eqb_neq _ 2)).
  - intros He Hl Hop. rewrite (proj2 (Z.ltb_ge e 0)) by done. by apply step_unknown.
  - intros n He -> Hn. rewrite (proj2 (Z.ltb_ge e 0)) by done. by apply step_environ.
Qed.
End errors.

(** ** A concrete machine *)

Definition code_at (p : Z) (l : list instr) : gmap Z Z := foldl (λ m '(k, i), store32 m (p + 4 * Z.of_nat k) (encode i)) ∅ (imap pair l).
Definition demo_regs : list Z := [0; 0x1010; 7; 0] ++ replicate 28 0.
Definition demo_vm (l : list instr) : machine := mk_vm demo_regs 0x1000 0 (code_at 0x1000 l).
Definition demo_hart (l : list instr) : hart := mk_hart (λ r, nth (Z.to_nat r) demo_regs 0) 0x1000 (code_at 0x1000 l).
Definition demo_environ (n : Z) : M machine Z := mret (100 + n).
Definition demo_step (l : list instr) : option (Z * machine) := rv_vm_step ram_read ram_write demo_environ (demo_vm l).
(** Register [r] after one step. *)
Definition after (r : Z) (o : option (Z * machine)) : option Z := match o with Some (_, vm) => regs vm !! Z.to_nat r | None => None end.
Definition after_ip (o : option (Z * machine)) : option Z := match o with Some (_, vm) => Some (ip vm) | None => None end.

Lemma demo_same l : same_hart (demo_vm l) (demo_hart l).
Proof.
  split; try done. intros r Hr. cbn [demo_hart gpr].
  assert (Forall (λ v : Z, 0 <= v < 2 ^ 32) demo_regs) as Hall by (repeat (apply list.Forall_cons; split; [lia|]); by constructor).
  rewrite list.Forall_lookup in Hall. destruct (demo_regs !! Z.to_nat r) as [v|] eqn:E; [|apply lookup_ge_None in E; cbn in E; lia].
  apply nth_lookup_Some with (d := 0) in E as E'. rewrite E'. by eapply Hall.
Qed.
Lemma rv_vm_step_correct_witness : ∃ vm', demo_step [OpImm ADDI 3 2 (-5)] = Some (0, vm') ∧ same_hart vm' (isa_step (OpImm ADDI 3 2 (-5)) (demo_hart [OpImm ADDI 3 2 (-5)])).
Proof.
  apply (rv_vm_step_correct demo_environ (OpImm ADDI 3 2 (-5)) (demo_vm [OpImm ADDI 3 2 (-5)]) (demo_hart [OpImm ADDI 3 2 (-5)]));
    [apply demo_same|split_and!; done|done|vm_compute; reflexivity].
Defined.
(** x3 := 7 * 7; a store and a load of it; a branch over nothing. *)
Definition demo_program : list instr := [Op MUL 3 2 2; Store W 1 3 0x20; Load H true 4 1 0x20; Branch BNE 3 4 8].
Lemma rv_run_refines_witness : ∃ h' vm', rv_run demo_environ 4 (demo_vm demo_program) = Some (0, vm') ∧ same_hart vm' h' ∧ gpr h' 4 = 49 ∧ pc h' = 0x1010.
Proof.
  assert (isa_run 4 (demo_hart demo_program) (foldl (λ h i, isa_step i h) (demo_hart demo_program) demo_program)) as Hr.
  { cbn [foldl demo_program]. eapply (run_step 3 _ (Op MUL 3 2 2)); [by split_and!|done|by vm_compute|]. eapply (run_step 2 _ (Store W 1 3 0x20)); [by split_and!|done|by vm_compute|].
    eapply (run_step 1 _ (Load H true 4 1 0x20)); [by split_and!|done|by vm_compute|]. eapply (run_step 0 _ (Branch BNE 3 4 8)); [by split_and!|by vm_compute|by vm_compute|].
    apply run_done. }
  destruct (rv_run_refines demo_environ 4 _ _ _ (demo_same demo_program) Hr) as (vm' & E & Hs).
  eexists _, vm'. split; [exact E|]. split; [exact Hs|]. split; vm_compute; reflexivity.
Defined.
Lemma rv_vm_step_results_witness : demo_step [] = Some (-1, cleared (demo_vm [])).
Proof.
  destruct (rv_vm_step_results ram_read ram_write demo_environ (demo_vm []) 0 0 (cleared (demo_vm [])) ltac:(vm_compute; reflexivity)) as (_ & Hl & _).
  apply Hl; [lia|by vm_compute].
Defined.

(** ** Where the emulator differs *)

(** A negative byte is loaded without its sign. *)
Lemma lb_not_extended : let l := [Load B false 3 1 0; Op ADD 0 0 0; Op ADD 0 0 0; Op ADD 0 0 0; Store B 0 0 0x80] in
  load8 (code_at 0x1000 l) 0x1010 = 0x23 ∧ let m := store8 (code_at 0x1000 l) 0x1010 0x80 in
  after 3 (rv_vm_step ram_read ram_write demo_environ (mk_vm demo_regs 0x1000 0 m)) = Some 0x80 ∧
  gpr (isa_step (Load B false 3 1 0) (mk_hart (gpr (demo_hart l)) 0x1000 m)) 3 = 0xFFFFFF80.
Proof. by vm_compute. Qed.
(** A branch forward by 2 KiB goes back by as much. *)
Lemma branch_far_backwards : after_ip (demo_step [Branch BEQ 0 0 2048]) = Some 0x800 ∧ pc (isa_step (Branch BEQ 0 0 2048) (demo_hart [])) = 0x1800.
Proof. by vm_compute. Qed.
(** [jalr] through the register it writes jumps to behind itself. *)
Lemma jalr_own_base : after_ip (demo_step [Jalr 1 1 0]) = Some 0x1004 ∧ pc (isa_step (Jalr 1 1 0) (demo_hart [])) = 0x1010.
Proof. by vm_compute. Qed.
(** Division by zero, signed division and a shift by 32 stop the machine. *)
Lemma arithmetic_stops : demo_step [Op DIVU 3 2 3] = None ∧ demo_step [Op DIV 3 2 2] = None ∧
  rv_vm_step ram_read ram_write demo_environ (mk_vm (<[3%nat := 32]> demo_regs) 0x1000 0 (code_at 0x1000 [Op SLL 3 2 3])) = None.
Proof. by vm_compute. Qed.
(** The undefined branch codes 2 and 3 never and always jump. *)
Lemma branch_undefined : after_ip (rv_vm_step ram_read ram_write demo_environ (mk_vm demo_regs 0x1000 0 (store32 ∅ 0x1000 (b_type 8 0 0 3 0x63)))) = Some 0x1008.
Proof. by vm_compute. Qed.
