(* ===== verification/Simulation.v ===== *)
(** * Forward simulation between computations

    [simulates R f g]: from states related by [R], [f] does what [g] does, and
    ends in related states.  The relation is closed under the constructions
    programs are built from, so that a theorem about a component carries over to
    the system it is part of, and one about a specification to its
    implementation. *)

From stdpp Require Import prelude numbers tactics.
From S2P Require Import Prelude.

Section simulates.
Context {T S : Type} (R : T → S → Prop).

(** From related states [f] does what [g] does, and ends in related states. *)
Definition simulates {A} (f : M T A) (g : M S A) : Prop :=
  ∀ t s Q, R t s → wp g Q s → wp f (λ a t', ∃ s', Q a s' ∧ R t' s') t.

Lemma simulates_ret {A} (a : A) : simulates (mret a) (mret a).
Proof. intros t s Q HR HQ. apply wp_ret. by exists s. Qed.

Lemma simulates_bind {A B} (f : M T A) (g : M S A) (h : A → M T B) (k : A → M S B) :
  simulates f g → (∀ a, simulates (h a) (k a)) → simulates (bind f h) (bind g k).
Proof.
  intros Hf Hh t s Q HR HQ. apply wp_bind_inv in HQ. apply wp_bind.
  eapply wp_mono; [by eapply Hf|]. intros a t1 (s1 & H1 & HR1). by eapply Hh.
Qed.

Lemma simulates_gets {A} (f : T → A) (g : S → A) : (∀ t s, R t s → f t = g s) → simulates (gets f) (gets g).
Proof. intros E t s Q HR HQ. apply wp_gets. rewrite (E t s HR). by exists s. Qed.

Lemma simulates_modify (f : T → T) (g : S → S) : (∀ t s, R t s → R (f t) (g s)) →
  simulates (modify f) (modify g).
Proof. intros E t s Q HR HQ. apply wp_modify. exists (g s). auto. Qed.

Lemma simulates_stop {A} (f : M T A) : simulates f mstop.
Proof. intros t s Q HR []. Qed.

Lemma simulates_of_option {A} (o : option A) : simulates (of_option o) (of_option o).
Proof. destruct o; [apply simulates_ret|apply simulates_stop]. Qed.

Lemma simulates_if {A} (b : bool) (f1 f2 : M T A) (g1 g2 : M S A) : simulates f1 g1 → simulates f2 g2 →
  simulates (if b then f1 else f2) (if b then g1 else g2).
Proof. by destruct b. Qed.

(** A step of the detailed state alone. *)
Lemma simulates_then {A} (f : M T unit) (h : M T A) (k : M S A) :
  (∀ t s, R t s → wp f (λ _ t', R t' s) t) → simulates h k → simulates (f;; h) k.
Proof. intros Hf Hh t s Q HR HQ. apply wp_bind. eapply wp_mono; [by eapply Hf|]. intros [] t1 HR1. by eapply Hh. Qed.
End simulates.

(** Known simulations first, then the rule for the shape of the code. *)
Create HintDb simulates.
Ltac simulate :=
  repeat first
    [ solve [auto 2 with nocore simulates]
    | apply simulates_ret | apply simulates_of_option | apply simulates_stop
    | apply simulates_bind; [|intros ?] | apply simulates_if | progress unfold mwhen
    | match goal with |- simulates _ (match ?x with _ => _ end) _ => destruct x end ].
