(* ===== verification/Board.v ===== *)
(** * The machine the interrupt path runs on

    The interrupt controllers and the keyboard controller on one bus, and the
    keyboard driver's variables with them.  A driver routine that only touches
    one chip does on the board what it does on the chip alone: [on_apic] and
    [on_keyboard] are the forward simulations between the two ([Simulation]), so
    that the theorems about a chip carry over. *)

From stdpp Require Import prelude gmap list numbers tactics.
From S2P Require Import Prelude Simulation Io Apic Keyboard.

(** Ports lead to the keyboard controller, everything else to the APICs; the
    keyboard controller's model counts the ends of interrupts, so it sees the
    writes as well. *)
Record board := mk_board { ctl : apics; kbc : ps2 }.

#[export] Instance board_bus : Bus board := {|
  bus_in w port b := let '(v, k) := bus_in w port (kbc b) in (v, mk_board (ctl b) k);
  bus_out w port v b := mk_board (ctl b) (bus_out w port v (kbc b));
  mmio_read a b := let '(v, c) := mmio_read a (ctl b) in (v, mk_board c (kbc b));
  mmio_write a v b := mk_board (mmio_write a v (ctl b)) (mmio_write a v (kbc b));
  msr_read r b := msr_read r (ctl b);
  msr_write r v b := mk_board (msr_write r v (ctl b)) (kbc b);
  cr4_read b := cr4_read (ctl b);
  cr4_write v b := mk_board (cr4_write v (ctl b)) (kbc b)
|}.

(** A driver's variables are not in the way of its device. *)
Definition set_kdev {D} (d : D) (s : kbd_state D) : kbd_state D :=
  mk_kbd (keyboard s) (extended s) (key_was_pressed s) d.

#[export] Instance kbd_bus {D} `{Bus D} : Bus (kbd_state D) := {|
  bus_in w port s := let '(v, d) := bus_in w port (kdev s) in (v, set_kdev d s);
  bus_out w port v s := set_kdev (bus_out w port v (kdev s)) s;
  mmio_read a s := let '(v, d) := mmio_read a (kdev s) in (v, set_kdev d s);
  mmio_write a v s := set_kdev (mmio_write a v (kdev s)) s;
  msr_read r s := msr_read r (kdev s);
  msr_write r v s := set_kdev (msr_write r v (kdev s)) s;
  cr4_read s := cr4_read (kdev s);
  cr4_write v s := set_kdev (cr4_write v (kdev s)) s
|}.

Abbreviation machine := (kbd_state board).

(** ** The APICs on the machine *)

Definition apic_of (s : machine) : apics := ctl (kdev s).
Definition set_apic (c : apics) (s : machine) : machine := set_kdev (mk_board c (kbc (kdev s))) s.

(** The machine [s0] but for its APICs. *)
Definition with_apic (s0 s : machine) (c : apics) : Prop := s = set_apic c s0.
Abbreviation on_apic s0 := (simulates (with_apic s0)).

Section apic.
Context (s0 : machine).

Lemma on_apic_read a : on_apic s0 (reg_read a) (reg_read a).
Proof.
  intros t c Q -> HQ. unfold wp, reg_read in *. cbn [mmio_read kbd_bus board_bus kdev ctl set_apic set_kdev].
  destruct (mmio_read a c) as [v c']. by exists c'.
Qed.

(** A write that does not end an interrupt. *)
Lemma on_apic_write a v : a ≠ 0xFEE000B0 → on_apic s0 (reg_write a v) (reg_write a v).
Proof.
  intros Ha. apply simulates_modify. intros t c ->. unfold with_apic, set_apic, set_kdev.
  cbn [mmio_write kbd_bus board_bus ps2_bus kdev ctl kbc keyboard extended key_was_pressed set_kdev].
  by rewrite (proj2 (Z.eqb_neq _ _)).
Qed.

Lemma on_apic_get_msr r : on_apic s0 (cpuGetMSR r) (cpuGetMSR r).
Proof. apply simulates_bind; [|intros; apply simulates_ret]. by apply simulates_gets; intros t c ->. Qed.
Lemma on_apic_set_msr r v w : on_apic s0 (cpuSetMSR r v w) (cpuSetMSR r v w).
Proof. by apply simulates_modify; intros t c ->. Qed.
Lemma on_apic_read_cr4 : on_apic s0 ReadCR4 ReadCR4.
Proof. by apply simulates_gets; intros t c ->. Qed.
Lemma on_apic_write_cr4 v : on_apic s0 (WriteCR4 v) (WriteCR4 v).
Proof. by apply simulates_modify; intros t c ->. Qed.
End apic.
#[export] Hint Resolve on_apic_read on_apic_get_msr on_apic_set_msr on_apic_read_cr4 on_apic_write_cr4 : simulates.
#[export] Hint Extern 1 (on_apic _ (reg_write _ _) _) => by apply on_apic_write : simulates.

Section apic_drivers.
Context (s0 : machine).

Lemma on_apic_register r : on_apic s0 (APIC_Read r) (APIC_Read r).
Proof. apply on_apic_read. Qed.
Lemma on_apic_svr v : on_apic s0 (APIC_Write APIC_SVR v) (APIC_Write APIC_SVR v).
Proof. by apply on_apic_write. Qed.
Lemma on_apic_io_read r : on_apic s0 (APIC_ReadIO r) (APIC_ReadIO r).
Proof. unfold APIC_ReadIO. simulate. Qed.
Lemma on_apic_io_write r v : on_apic s0 (APIC_WriteIO r v) (APIC_WriteIO r v).
Proof. unfold APIC_WriteIO. simulate. Qed.
End apic_drivers.
#[export] Hint Resolve on_apic_register on_apic_svr on_apic_io_read on_apic_io_write : simulates.

Lemma on_apic_initialize s0 : on_apic s0 APIC_Initialize APIC_Initialize.
Proof. unfold APIC_Initialize. simulate. Qed.

Lemma on_apic_keyboard s0 : on_apic s0 IOAPIC_ConfigureKeyboard IOAPIC_ConfigureKeyboard.
Proof. unfold IOAPIC_ConfigureKeyboard. simulate. Qed.

(** What holds of the chip holds of the machine's. *)
Lemma apic_wp {A} (f : M machine A) (g : M apics A) Q s : on_apic s f g → wp g Q (apic_of s) →
  wp f (λ a s', Q a (apic_of s') ∧ s' = set_apic (apic_of s') s) s.
Proof.
  intros Hf HQ. eapply wp_mono; [apply (Hf s (apic_of s)); [by destruct s as [? ? ? []]|exact HQ]|].
  by intros a s' (c & Hc & ->).
Qed.

(** ** The keyboard driver on the machine *)

(** The driver touches the APICs only to end an interrupt. *)
Definition ended (c c' : apics) : Prop :=
  (∀ i, i ≠ APIC_EOI → reg (lapic c') i = reg (lapic c) i) ∧
  ioregsel c' = ioregsel c ∧ ioapic c' = ioapic c ∧ msrs c' = msrs c ∧ cr4 c' = cr4 c.

#[export] Instance ended_preorder : PreOrder ended.
Proof.
  split; [by intros c|]. intros c1 c2 c3 (H1 & E1 & E2 & E3 & E4) (H2 & F1 & F2 & F3 & F4).
  split; [intros i Hi; by rewrite H2, H1|]. split_and!; congruence.
Qed.

Lemma eoi_ended c v : ended c (mk_apics (<[APIC_EOI := v]> (lapic c)) (ioregsel c) (ioapic c) (msrs c) (cr4 c)).
Proof. split; [|done]. intros i Hi. cbn [lapic]. by rewrite reg_insert, decide_False by congruence. Qed.

(** The keyboard controller of the board is [d], up to [n] more ends of
    interrupts; the APICs are [c0] up to those. *)
Definition with_ports (c0 : apics) (n : Z) (b : board) (d : ps2) : Prop :=
  kbc b = mk_ps2 (queue d) (n + eois d) (sent d) ∧ ended c0 (ctl b).
Abbreviation on_ports c0 n := (simulates (with_ports c0 n)).

(** The same for the driver and its variables. *)
Definition with_driver (c0 : apics) (n : Z) (s : machine) (k : kbd) : Prop :=
  keyboard s = keyboard k ∧ extended s = extended k ∧ key_was_pressed s = key_was_pressed k ∧
  with_ports c0 n (kdev s) (kdev k).
Abbreviation on_keyboard c0 n := (simulates (with_driver c0 n)).

Section keyboard.
Context (c0 : apics) (n : Z).

Lemma on_ports_in w port : on_ports c0 n (port_in w port) (port_in w port).
Proof.
  intros [c k] [q e tr] Q [E He] HQ. cbn in E. subst k. unfold wp, port_in in *. cbn [bus_in board_bus ps2_bus kbc ctl queue] in *.
  destruct (port =? 0x64); [by exists (mk_ps2 q e tr)|]. destruct q as [|a q]; [by exists (mk_ps2 [] e tr)|].
  destruct (port =? 0x60); [by exists (mk_ps2 q e tr)|by exists (mk_ps2 (a :: q) e tr)].
Qed.

Lemma on_ports_out w port v : on_ports c0 n (port_out w port v) (port_out w port v).
Proof.
  apply simulates_modify. intros [c k] [q e tr] [E He]. cbn in E. subst k. split; [|done].
  cbn [bus_out board_bus ps2_bus kbc queue eois sent]. by destruct (port =? 0x80).
Qed.

Lemma on_ports_eoi : on_ports c0 n LAPIC_SendEOI LAPIC_SendEOI.
Proof.
  apply simulates_modify. intros [c k] [q e tr] [E He]. cbn in E. subst k. split.
  - change (mk_ps2 q (n + e + 1) tr = mk_ps2 q (n + (e + 1)) tr). f_equal. lia.
  - etrans; [exact He|]. apply (eoi_ended c 0).
Qed.
End keyboard.
#[export] Hint Resolve on_ports_in on_ports_out on_ports_eoi : simulates.

Section keyboard_driver.
Context (c0 : apics) (n : Z).

Lemma on_ports_response fuel : on_ports c0 n (keyboard_read_response_safe fuel) (keyboard_read_response_safe fuel).
Proof. induction fuel as [|fuel IH]; cbn [keyboard_read_response_safe]; [apply simulates_stop|]. unfold inb. simulate. Qed.

Lemma on_keyboard_dev {A} (f : M board A) (g : M ps2 A) : on_ports c0 n f g → on_keyboard c0 n (on_dev f) (on_dev g).
Proof.
  intros Hf [k e p b] [k' e' p' d] Q (E1 & E2 & E3 & HR) HQ. cbn in E1, E2, E3, HR. subst k' e' p'. apply wp_zoom.
  unfold wp, on_dev, zoom in HQ. cbn [keyboard extended key_was_pressed kdev] in HQ |- *.
  eapply wp_mono; [apply (Hf b d (λ a d, Q a (mk_kbd k e p d)) HR)|].
  - unfold wp. by destruct (g d) as [[a d']|].
  - intros a b' (d' & HQ' & HR'). by exists (mk_kbd k e p d').
Qed.

Lemma on_keyboard_set f : on_keyboard c0 n (set_keyboard f) (set_keyboard f).
Proof.
  unfold set_keyboard. apply simulates_bind; [by apply simulates_gets; intros s k (-> & _)|]. intros k. simulate.
  apply simulates_modify. by intros s' k' (_ & E2 & E3 & HR).
Qed.
Lemma on_keyboard_extended b : on_keyboard c0 n (set_extended b) (set_extended b).
Proof. apply simulates_modify. by intros s k (E1 & _ & E3 & HR). Qed.
Lemma on_keyboard_get_extended : on_keyboard c0 n (gets extended) (gets extended).
Proof. by apply simulates_gets; intros s k (_ & -> & _). Qed.
Lemma on_keyboard_get_mods : on_keyboard c0 n (gets (λ s, mods (keyboard s))) (gets (λ s, mods (keyboard s))).
Proof. by apply simulates_gets; intros s k (-> & _). Qed.
End keyboard_driver.
#[export] Hint Resolve on_ports_response on_keyboard_dev on_keyboard_set on_keyboard_extended
  on_keyboard_get_extended on_keyboard_get_mods : simulates.

Section handler.
Context (c0 : apics) (n : Z).

Lemma on_keyboard_modifiers f g b sc : on_keyboard c0 n f g → on_keyboard c0 n (modifier_keys f b sc) (modifier_keys g b sc).
Proof. intros Hf. unfold modifier_keys, modifier. simulate. Qed.
Hint Resolve on_keyboard_modifiers : simulates.

(** The handler behaves as on its controller alone. *)
Lemma on_keyboard_handler fuel : on_keyboard c0 n (keyboard_handler fuel) (keyboard_handler fuel).
Proof. unfold keyboard_handler, modifier, iowait, outb. simulate. Qed.

Lemma on_keyboard_getc_key key : on_keyboard c0 n (getc_key key) (getc_key key).
Proof.
  unfold getc_key. apply simulates_bind; [by apply simulates_gets; intros s k (-> & _)|]. intros k. simulate.
  { by apply simulates_gets; intros s k' (_ & _ & -> & _). }
  all: apply simulates_modify; by intros s k' (E1 & E2 & _ & HR).
Qed.
End handler.
