(* ===== verification/Boot.v ===== *)
(** * From power-on to typing ([kernel/kernel.c], the keyboard set-up of
    [kernel/shell/keyboard.c])

    The interrupt part of the start-up sequence, and what runs on top of it: an
    interrupt on the keyboard's line goes through the I/O APIC's redirection
    entry, the local APIC, the gate, the stub, the dispatch tables and the
    driver, and a caller of [getc] reads what was typed. *)

From stdpp Require Import prelude gmap list numbers tactics.
From S2P Require Import Prelude Simulation Io Pic Apic Gdt Interrupts Keyboard Board.

(** The drivers whose addresses are stored in the handler tables. *)
Definition keyboard_fn : Z := 1.

Section boot.
Context (isr_stub : Z → Z) (fuel : nat).
Abbreviation I := (M (irq_state machine)).

Definition run_driver (f : Z) (regs : Registers_t) : I unit :=
  if f =? keyboard_fn then on_device (keyboard_handler fuel) else mstop.

Definition keyboard_pic_init : I unit := PIC_IRQ_RegisterHandler 1 keyboard_fn;; on_device (PIC_Unmask 1).
Definition keyboard_apic_init : I unit := APIC_IRQ_RegisterHandler 1 keyboard_fn;; on_device IOAPIC_ConfigureKeyboard.

(** The interrupt part of [kernel_main]. *)
Definition start_interrupts : I unit := ISR_Initialize isr_stub;; APIC_IRQ_Initialize;; keyboard_apic_init.

(** ** An interrupt line, as the hardware delivers it *)

(** The processor takes vector [v]: the gate must be present and lead to the
    vector's stub, which calls the common entry. *)
Definition take_vector (v : Z) : I unit :=
  g ← gets (λ s, zlookup (g_IDT s) v);
  match g with
  | Some e => if (Flags e =? 0x8E) && (gate_target e =? isr_stub v) then ISR_Handler run_driver (mk_regs v 0) else mstop
  | None => mstop
  end.

(** The APICs deliver line [irq] when both are enabled, the line is not masked,
    its mode is fixed, and its destination is this processor. *)
Definition delivered (c : apics) (irq : Z) : option Z :=
  let low := reg (ioapic c) (0x10 + 2 * irq) in
  let high := reg (ioapic c) (0x11 + 2 * irq) in
  if Z.testbit (reg (msrs c) IA32_APIC_BASE_MSR) 11 && Z.testbit (reg (lapic c) APIC_SVR) 8 &&
     negb (Z.testbit low 16) && (low / 2 ^ 8 mod 8 =? 0) && (high / 2 ^ 24 =? reg (lapic c) 0x20 / 2 ^ 24)
  then Some (low mod 2 ^ 8) else None.

Definition raise_line (irq : Z) : I unit :=
  v ← gets (λ s, delivered (apic_of (device s)) irq);
  match v with Some v => take_vector v | None => mret tt end.

(** [getc] while lines are raised, and one call of it per key stroke. *)
Fixpoint raise_lines (irq : Z) (n : nat) : I unit :=
  match n with O => mret tt | S n => raise_line irq;; raise_lines irq n end.

Fixpoint getc_irq (sched : list nat) (key : Z) : I Z :=
  match sched with
  | [] => mstop
  | n :: sched =>
    raise_lines 1 n;;
    r ← on_device (getc_key key);
    match r with
    | Some c => mret c
    | None => getc_irq sched (if key + 1 <? 128 then key + 1 else 0)
    end
  end.

Fixpoint session_irq (down : bool) (ks : list stroke) : I (list Z) :=
  match ks with
  | [] => mwhen down (raise_lines 1 1);; mret []
  | k :: ks => c ← getc_irq (schedule down k) 0; l ← session_irq true ks; mret (c :: l)
  end.

(** ** What the interrupt part leaves *)

Record keyboard_ready (s : irq_state machine) : Prop := {
  kr_gates : gates isr_stub (λ _, true) 256 s;
  kr_isr : zlookup (g_ISRHandlers s) 0x21 = Some (Some APIC_IRQ_Handler_fn);
  kr_irq : zlookup (g_APICIRQHandlers s) 1 = Some (Some keyboard_fn);
  kr_line : delivered (apic_of (device s)) 1 = Some 0x21
}.

#[export] Instance machine_quiet : QuietReads machine.
Proof.
  intros r s Hr H4. pose proof (apic_wp (APIC_Read r) (APIC_Read r) (λ _ c', c' = apic_of s) s (on_apic_register s r)
    (APIC_Read_spec r (apic_of s) _ Hr H4 eq_refl)) as Hw.
  unfold wp in Hw. destruct (APIC_Read r s) as [[v s']|]; [|done]. destruct Hw as [E1 E2].
  rewrite E2, E1. exists v. by destruct s as [? ? ? []].
Qed.

Lemma start_interrupts_spec s :
  length (g_IDT s) = 256%nat → length (g_ISRHandlers s) = 256%nat → length (g_APICIRQHandlers s) = 64%nat →
  (∀ v, 0 <= isr_stub v < 2 ^ 64) →
  let c := apic_of (device s) in
  0 <= reg (msrs c) IA32_APIC_BASE_MSR < 2 ^ 64 → 0 <= reg (lapic c) APIC_SVR < 2 ^ 32 →
  0 <= reg (ioapic c) 0x13 < 2 ^ 32 → reg (lapic c) 0x20 / 2 ^ 24 = 0 →
  wp start_interrupts (λ _ s', keyboard_ready s' ∧
    zlookup (g_ISRHandlers s') 14 = Some (Some page_fault_handler_fn) ∧
    device s' = set_apic (apic_of (device s')) (device s) ∧ console s' = console s ∧ halted s' = halted s) s.
Proof.
  intros L1 L2 L3 Hst c Hm Hs Hio Hid. unfold start_interrupts. apply wp_bind.
  wp_use (ISR_Initialize_spec isr_stub s L1 L2 Hst). intros [] s1 (Hg1 & Hh1 & E1).
  assert (g_APICIRQHandlers s1 = g_APICIRQHandlers s ∧ device s1 = device s ∧ console s1 = console s ∧ halted s1 = halted s)
    as (A1 & D1 & C1 & F1) by (by rewrite E1).
  assert (length (g_ISRHandlers s1) = 256%nat) as L4 by (by rewrite Hh1, length_insert).
  apply wp_bind. eapply wp_mono.
  { apply (APIC_IRQ_Initialize_spec isr_stub s1 _ (λ d, (reg (msrs (apic_of d)) IA32_APIC_BASE_MSR = Z.setbit (reg (msrs c) IA32_APIC_BASE_MSR) 11 ∧
      reg (lapic (apic_of d)) APIC_SVR = Z.lor (reg (lapic c) APIC_SVR) 0x1FF ∧
      (∀ i, i ≠ APIC_SVR → reg (lapic (apic_of d)) i = reg (lapic c) i) ∧ ioapic (apic_of d) = ioapic c) ∧
      d = set_apic (apic_of d) (device s)) Hg1 L4).
    rewrite D1. exact (apic_wp _ _ _ _ (on_apic_initialize _) (APIC_Initialize_correct c Hm Hs)). }
  cbv beta. intros [] s2 (Hg2 & Hv2 & ((Bm & Bs & Bl & Bio) & Ed) & E2). unfold keyboard_apic_init. apply wp_bind.
  assert (g_APICIRQHandlers s2 = g_APICIRQHandlers s ∧ console s2 = console s ∧ halted s2 = halted s)
    as (A2 & C2 & F2) by (rewrite E2; by split_and!).
  wp_use (APIC_IRQ_RegisterHandler_spec s2 1 keyboard_fn); [lia|by rewrite A2|].
  intros [] s3 ->. apply wp_zoom. cbn [device set_apic_handlers].
  eapply wp_mono; [eapply (apic_wp _ _ _ _ (on_apic_keyboard _)), IOAPIC_ConfigureKeyboard_spec; by rewrite Bio|].
  intros [] d ((I1 & I2 & I3 & I4 & I5) & Ed3). split; [|split_and!].
  - split.
    + eapply gates_idt; [|eapply gates_ext; [|exact Hg2]]; [done|by intros v Hv].
    + cbn [g_ISRHandlers set_device set_apic_handlers]. by rewrite Hv2.
    + apply zlookup_insert_eq. rewrite A2. lia.
    + cbn [device set_device]. unfold delivered. change (0x10 + 2 * 1) with 0x12. change (0x11 + 2 * 1) with 0x13.
      rewrite I1, I2, I4, I5, Bm, Bs, Bl, Bio, Hid by done. rewrite Z.setbit_eq, Z.lor_spec by lia.
      change (Z.testbit 0x1FF 8) with true. rewrite orb_true_r.
      rewrite (Z.div_small (_ mod _)) by (apply Z.mod_pos_bound; lia). done.
  - cbn [g_ISRHandlers set_device set_apic_handlers]. rewrite Hv2, Hh1. cbn [andb]. by apply zlookup_insert_eq; rewrite L2.
  - cbn [device set_device]. rewrite Ed3, Ed at 1. done.
  - done.
  - done.
Qed.

(** ** An interrupt on the keyboard's line runs the driver *)

Lemma delivered_ended c c' irq : ended c c' → delivered c' irq = delivered c irq.
Proof. intros (E1 & _ & E2 & E3 & _). unfold delivered. by rewrite E2, E3, !E1. Qed.

Lemma ready_device s d : keyboard_ready s → ended (apic_of (device s)) (apic_of d) → keyboard_ready (set_device d s).
Proof. intros [H1 H2 H3 H4] He. split; try done. rewrite <- H4. by apply delivered_ended. Qed.

Lemma raise_dispatches s Q : keyboard_ready s →
  wp (on_device (keyboard_handler fuel)) (λ _ s1, wp (on_device LAPIC_SendEOI) Q s1) s → wp (raise_line 1) Q s.
Proof.
  intros [[Hl Hg] H2 H3 H4] Hd. unfold raise_line. wp_steps. rewrite H4. unfold take_vector. wp_steps.
  destruct (Hg 0x21 ltac:(lia)) as (g & -> & Ht & _ & _ & _ & Hf).
  rewrite Ht, Hf, !Z.eqb_refl. cbn [andb]. by eapply (APIC_dispatch _ s 1 keyboard_fn).
Qed.

(** The machine and the driver with its controller, the interrupt path ready. *)
Definition linked (n : Z) (s : irq_state machine) (k : kbd) : Prop :=
  keyboard_ready s ∧ with_driver (apic_of (device s)) n (device s) k.

Lemma with_driver_self c0 n s k : with_driver c0 n s k → with_driver (apic_of s) n s k.
Proof. intros (E1 & E2 & E3 & E4 & _). by repeat split. Qed.

Lemma linked_step n s k s1 k1 : linked n s k → with_driver (apic_of (device s)) n s1 k1 → linked n (set_device s1 s) k1.
Proof. intros [Hr _] Hd. split; [apply ready_device; [done|apply Hd]|by eapply with_driver_self]. Qed.

Lemma on_device_linked {A} n (f : M machine A) (g : M kbd A) : (∀ c0, on_keyboard c0 n f g) →
  simulates (linked n) (on_device f) g.
Proof.
  intros Hf s k Q Hl HQ. apply wp_zoom. eapply wp_mono; [apply (Hf _ _ _ _ (proj2 Hl) HQ)|].
  intros a s1 (k1 & H1 & Hd). exists k1. split; [done|by eapply linked_step].
Qed.

(** [APIC_IRQ_Handler] ends the interrupt the driver already ended. *)
Lemma raise_handler n s k Q : linked n s k → wp (keyboard_handler fuel) Q k →
  wp (raise_line 1) (λ a s', ∃ k', Q a k' ∧ linked (n + 1) s' k') s.
Proof.
  intros Hl HQ. apply raise_dispatches; [apply Hl|].
  eapply wp_mono; [eapply (on_device_linked n); [intros c0; apply on_keyboard_handler|exact Hl|exact HQ]|].
  intros [] s1 (k1 & H1 & [Hr (E1 & E2 & E3 & E4 & E5)]). apply wp_zoom. unfold LAPIC_SendEOI, APIC_Write, reg_write. wp_steps.
  exists k1. split; [done|]. split.
  - apply ready_device; [done|]. apply (eoi_ended (apic_of (device s1)) 0).
  - cbn [device set_device]. split_and!; try done. split.
    + cbn [kdev set_kdev]. change (mk_ps2 (queue (kbc (kdev (device s1)))) (eois (kbc (kdev (device s1))) + 1) (sent (kbc (kdev (device s1)))) =
        mk_ps2 (queue (kdev k1)) (n + 1 + eois (kdev k1)) (sent (kdev k1))). rewrite E4. cbn. f_equal. lia.
    + done.
Qed.

(** ** Typing through the interrupt path *)

Definition linked_any (s : irq_state machine) (k : kbd) : Prop := ∃ n, linked n s k.

Lemma raise_simulates : simulates linked_any (raise_line 1) (keyboard_handler fuel).
Proof.
  intros s k Q [n Hl] HQ. eapply wp_mono; [by eapply raise_handler|].
  intros a s' (k' & H1 & H2). exists k'. split; [done|by eexists].
Qed.

Lemma getc_key_linked key : simulates linked_any (on_device (getc_key key)) (getc_key key).
Proof.
  intros s k Q [n Hl] HQ. eapply wp_mono; [eapply (on_device_linked n); [intros c0; apply on_keyboard_getc_key|exact Hl|exact HQ]|].
  intros a s' (k' & H1 & H2). exists k'. split; [done|by eexists].
Qed.
Hint Resolve raise_simulates getc_key_linked : simulates.

Lemma raise_lines_simulates n : simulates linked_any (raise_lines 1 n) (interrupts n fuel).
Proof. induction n; cbn [raise_lines interrupts]; simulate. Qed.
Hint Resolve raise_lines_simulates : simulates.

Lemma getc_simulates sched key : simulates linked_any (getc_irq sched key) (getc fuel sched key).
Proof. revert key. induction sched; intros key; cbn [getc_irq getc]; simulate. Qed.
Hint Resolve getc_simulates : simulates.

Lemma session_simulates down ks : simulates linked_any (session_irq down ks) (session fuel down ks).
Proof. revert down. induction ks; intros down; cbn [session_irq session]; simulate; auto. Qed.

(** The driver's view of a machine. *)
Definition driver_of (s : machine) : kbd := mk_kbd (keyboard s) (extended s) (key_was_pressed s) (kbc (kdev s)).

Lemma linked_self s : keyboard_ready s → linked 0 s (driver_of (device s)).
Proof. intros Hr. split; [done|]. split_and!; try done. split; [|done]. by destruct s as [? ? ? ? ? ? [? ? ? [? []]]]. Qed.
End boot.

(** C11: the parts fit together: after the start-up sequence keys struck one
    after the other, every scan code arriving as an interrupt on the keyboard's
    line of the I/O APIC, are read by [getc] as the characters the US layout
    labels them with, and no key is left down; the timing is as free as in
    [Keyboard.keyboard_types], and letters under shift with caps lock are left
    out again. *)
Theorem typing_after_boot isr_stub fuel m ks text p q n tr c s :
  length (g_IDT s) = 256%nat → length (g_ISRHandlers s) = 256%nat → length (g_APICIRQHandlers s) = 64%nat →
  (∀ v, 0 <= isr_stub v < 2 ^ 64) →
  0 <= reg (msrs c) IA32_APIC_BASE_MSR < 2 ^ 64 → 0 <= reg (lapic c) APIC_SVR < 2 ^ 32 →
  0 <= reg (ioapic c) 0x13 < 2 ^ 32 → reg (lapic c) 0x20 / 2 ^ 24 = 0 →
  device s = mk_kbd (no_keys m) false p (mk_board c (mk_ps2 (flat_map (λ k, [scan k; scan k + 128]) ks ++ q) n tr)) →
  mods_ok m → Forall2 (types m) ks text → length p = 128%nat →
  wp (start_interrupts isr_stub;; session_irq isr_stub (S fuel) false ks)
    (λ r s', r = text ∧ keyboard (device s') = no_keys m ∧ queue (kbc (kdev (device s'))) = q) s.
Proof.
  intros L1 L2 L3 Hst Hm Hs Hio Hid Ed Hmo Hks Hp. apply wp_bind.
  wp_use (start_interrupts_spec isr_stub s L1 L2 L3 Hst); [rewrite Ed; done..|].
  intros [] s1 (Hr & _ & Ed1 & _). pose proof (linked_self isr_stub s1 Hr) as Hl.
  assert (driver_of (device s1) = key_up m p (flat_map (λ k, [scan k; scan k + 128]) ks ++ q) n tr) as Ek
    by (by rewrite Ed1, Ed).
  rewrite Ek in Hl. eapply wp_mono; [apply (session_simulates isr_stub (S fuel) false ks s1 _ _ (ex_intro _ 0 Hl)
    (proj1 (session_spec fuel m ks text q Hmo Hks) p n tr Hp))|].
  intros r s2 (k & (-> & H2 & H3 & _) & n' & _ & (E1 & _ & _ & E4 & _)).
  split; [done|]. split; [by rewrite E1|]. by rewrite E4.
Qed.

(** every ordinary key interrupt is ended twice, once by the driver and once by
    the dispatcher that called it. *)
Theorem keyboard_interrupt_ended_twice isr_stub fuel s sc q : keyboard_ready isr_stub s → 0 <= sc < 256 → sc ≠ 0xE0 →
  extended (device s) = false → length (keys (keyboard (device s))) = 256%nat → length (chars (keyboard (device s))) = 256%nat →
  queue (kbc (kdev (device s))) = sc :: q →
  wp (raise_line isr_stub (S fuel) 1) (λ _ s', keyboard_ready isr_stub s' ∧ queue (kbc (kdev (device s'))) = q ∧
    eois (kbc (kdev (device s'))) = eois (kbc (kdev (device s))) + 2) s.
Proof.
  intros Hr Hsc Hne Hx Hk Hc Hq. pose proof (linked_self isr_stub s Hr) as Hl.
  set (e := eois (kbc (kdev (device s)))).
  assert (driver_of (device s) = mk_kbd (keyboard (device s)) false (key_was_pressed (device s))
     (mk_ps2 (sc :: q) e (sent (kbc (kdev (device s)))))) as Ek.
  { unfold driver_of, e. rewrite Hx, <- Hq. by destruct (kbc _). }
  rewrite Ek in Hl. eapply wp_mono; [eapply raise_handler; [exact Hl|]|].
  { by apply (handler_effect fuel sc (keyboard (device s)) false (key_was_pressed (device s)) q e (sent (kbc (kdev (device s))))). }
  intros [] s' (k & -> & Hr' & (_ & _ & _ & E4 & _)). split; [done|]. rewrite E4.
  unfold after_scan. rewrite (proj2 (Z.eqb_neq _ _)) by done. cbn. split; [done|lia].
Qed.

(** The tables before initialisation, the APICs after reset, and the scan codes
    of [h] and [i] waiting. *)
Definition board_demo : irq_state machine :=
  mk_irq (replicate 256 (mk_gate 0 0 0 0 0 0 0)) (replicate 256 None) (replicate 16 None) (replicate 64 None) [] false
    (mk_kbd (no_keys 0) false (replicate 128 false)
      (mk_board (mk_apics (<[APIC_SVR := 0xFF]> ∅) 0 (<[0x12 := 0x10000]> ∅) (<[IA32_APIC_BASE_MSR := 0xFEE00900]> ∅) 0)
                (mk_ps2 [0x23; 0xA3; 0x17; 0x97] 0 []))).

Lemma stub_demo_range v : 0 <= stub_demo v < 2 ^ 64.
Proof. unfold stub_demo. pose proof (Z.mod_pos_bound v 256). lia. Qed.

Lemma typing_after_boot_witness :
  wp (start_interrupts stub_demo;; session_irq stub_demo 1 false [mk_stroke 0x23 0 128 127; mk_stroke 0x17 40 300 200])
    (λ r s', r = [104; 105] ∧ keyboard (device s') = no_keys 0 ∧ queue (kbc (kdev (device s'))) = []) board_demo.
Proof.
  apply (typing_after_boot stub_demo 0 0 [mk_stroke 0x23 0 128 127; mk_stroke 0x17 40 300 200] [104; 105] (replicate 128 false) [] 0 []
    (mk_apics (<[APIC_SVR := 0xFF]> ∅) 0 (<[0x12 := 0x10000]> ∅) (<[IA32_APIC_BASE_MSR := 0xFEE00900]> ∅) 0)).
  1-3: reflexivity.
  - exact stub_demo_range.
  - vm_compute; split; (discriminate || reflexivity).
  - vm_compute; split; (discriminate || reflexivity).
  - vm_compute; split; (discriminate || reflexivity).
  - vm_compute. reflexivity.
  - reflexivity.
  - split; [lia|reflexivity].
  - repeat constructor; cbn [pause rest]; try lia; try (vm_compute; reflexivity); discriminate.
  - reflexivity.
Defined.

Lemma wp_state {S} (c : M S unit) (P : S → Prop) s d : wp c (λ _, P) s → P match c s with Some (_, s') => s' | None => d end.
Proof. unfold wp. by destruct (c s) as [[[] s']|]. Qed.

Definition ready_demo : irq_state machine :=
  match start_interrupts stub_demo board_demo with Some (_, s) => s | None => board_demo end.

Lemma ready_demo_ok : keyboard_ready stub_demo ready_demo.
Proof.
  assert (wp (start_interrupts stub_demo) (λ _ s', keyboard_ready stub_demo s') board_demo) as Hw.
  { eapply wp_mono; [apply (start_interrupts_spec stub_demo board_demo eq_refl eq_refl eq_refl stub_demo_range)|by intros ? ? []];
      first [vm_compute; split; (discriminate || reflexivity) | vm_compute; reflexivity]. }
  exact (wp_state (start_interrupts stub_demo) (keyboard_ready stub_demo) board_demo board_demo Hw).
Qed.

Lemma keyboard_interrupt_ended_twice_witness :
  wp (raise_line stub_demo 1 1) (λ _ s', keyboard_ready stub_demo s' ∧ queue (kbc (kdev (device s'))) = [0xA3; 0x17; 0x97] ∧
    eois (kbc (kdev (device s'))) = 2) ready_demo.
Proof.
  apply (keyboard_interrupt_ended_twice stub_demo 0 ready_demo 0x23 [0xA3; 0x17; 0x97] ready_demo_ok);
    first [lia | vm_compute; reflexivity].
Defined.
