(* ===== verification/BootMem.v ===== *)
(** * Memory at start-up ([kernel/kernel.c] over [mm/pmm.c] and [mm/vmm.c])

    [kernel_main] runs [vmm_init] before [pmm_init]: the first takes over the
    boot loader's page tables, the second threads the free list through the
    usable frames.  Here: the address space survives the second step, and the
    two self-tests of [kernel.c], whose accesses go through the tables. *)

From stdpp Require Import prelude gmap list numbers tactics.
From S2P Require Import Prelude Memory Pmm Vmm.

(** ** [kernel.c]: the memory part of [kernel_main] *)

Definition memory_boot (cr3 : Z) (response : option Z) (entries : list memmap_entry) : MM unit :=
  vmm_init cr3 response;; pmm_init entries.

(** ** [kernel.c]: the self-tests

    An access to a virtual address reaches the frame its entry maps to; without
    an entry the page fault handler stops the machine. *)

Definition deref (virt : Z) : MM Z :=
  e ← gets (λ s, pte s virt); e ← of_option e; off ← gets hhdm_offset;
  mret (frame_of e + virt mod 4096 + off).
Definition write_through (virt v : Z) : MM unit := a ← deref virt; modify (set_mem (λ m, store64 m a v)).
Definition read_through (virt : Z) : MM Z := a ← deref virt; gets (λ s, load64 (mem s) a).

Definition test_pattern : Z := 0x1234567890ABCDEF.

(** The result is the branch taken: whether the value came back. *)
Definition vmm_test_mapping : MM bool :=
  map_page 0x1000000000 0x200000 (Z.lor PTE_PRESENT PTE_WRITABLE);;
  write_through 0x1000000000 test_pattern;;
  value ← read_through 0x1000000000;
  mret (value =? test_pattern).

Definition vmm_test_unmap : MM bool :=
  map_page 0x1000000000 0x200000 (Z.lor PTE_PRESENT PTE_WRITABLE);;
  write_through 0x1000000000 test_pattern;;
  value ← read_through 0x1000000000;
  unmap_page 0x1000000000;;
  mret (value =? test_pattern).

(** ** An address space whose tables keep their contents *)

Section agree.
Context {s s' : mm_state} {l : list Z} (HV : vm_ok s l).
Context (Eo : hhdm_offset s' = hhdm_offset s) (Er : kernel_pml4 s' = kernel_pml4 s).
Context (Hw : ∀ p t j, indices p → tblp (hhdm_offset s) (mem s) (kernel_pml4 s) p = Some t → 0 <= j < 512 →
  load64 (mem s') (t + 8 * j) = load64 (mem s) (t + 8 * j)).

Lemma agree_tblp p : indices p →
  tblp (hhdm_offset s') (mem s') (kernel_pml4 s') p = tblp (hhdm_offset s) (mem s) (kernel_pml4 s) p.
Proof.
  rewrite Eo, Er. induction p as [|j p IH] using rev_ind; intros Hp; [done|].
  pose proof (indices_prefix _ _ Hp) as Hq. rewrite !tblp_snoc, IH by done.
  destruct (tblp _ (mem s) _ p) as [t|] eqn:E; [|done]. unfold tbl_step. rewrite (Hw p t j Hq E); [done|].
  by eapply indices_last.
Qed.

Lemma agree_pte v : pte s' v = pte s v.
Proof.
  unfold pte. rewrite agree_tblp by apply path_indices. destruct (tblp _ _ _ _) as [t|] eqn:E; [|done].
  rewrite (Hw _ t (PT_INDEX v) (path_indices v) E); [done|]. by apply index_range.
Qed.

Lemma agree_vm_ok l' : pmm_ok s' l' → hhdm_response s' = hhdm_response s → (∀ a, a ∈ l' → a - hhdm_offset s < 2 ^ 52) →
  (∀ p t, indices p → tblp (hhdm_offset s) (mem s) (kernel_pml4 s) p = Some t → t ∉ l') → vm_ok s' l'.
Proof.
  intros HO Eh Hlow Hni. constructor.
  - done.
  - rewrite Eo, Eh. apply HV.
  - by rewrite Eo.
  - intros p t Hp. rewrite agree_tblp by done. intros Ht. rewrite Eo.
    split; [by apply (vk_frame _ _ HV p t)|by apply (Hni p)].
  - intros p q t Hp Hq. rewrite !agree_tblp by done. by apply (vk_inj _ _ HV).
  - intros p t i Hp. pose proof (indices_prefix _ _ Hp) as Hq. rewrite agree_tblp by done. intros Ht.
    rewrite (Hw p t i Hq Ht) by (by eapply indices_last). by apply (vk_high _ _ HV p t i).
Qed.
End agree.

(** ** [pmm_init] writes the headers of the frames it chains and nothing else *)

Definition untouched (off : Z) (fs : list Z) (s s' : mm_state) : Prop :=
  hhdm_response s' = hhdm_response s ∧ hhdm_offset s' = hhdm_offset s ∧ kernel_pml4 s' = kernel_pml4 s ∧
  ∀ i, (∀ f, f ∈ fs → i < f + off ∨ f + off + 16 <= i) → load8 (mem s') i = load8 (mem s) i.

Lemma untouched_trans off fs gs s1 s2 s3 : untouched off fs s1 s2 → untouched off gs s2 s3 → untouched off (fs ++ gs) s1 s3.
Proof.
  intros (E1 & E2 & E3 & H1) (F1 & F2 & F3 & H2). split_and!; try congruence. intros i Hi.
  rewrite H2, H1; [done|intros f Hf; apply Hi, elem_of_app; by left|intros f Hf; apply Hi, elem_of_app; by right].
Qed.

Section untouched.
Context (off : Z).

Lemma push_untouched f s : hhdm_response s = off → frame off (f + off) →
  wp (push_frame f) (λ _ s', untouched off [f] s s') s.
Proof.
  intros Eh (?&?&?&?&?&?). unfold push_frame. wp_steps. rewrite Eh, wrap_small by lia. split_and!; try done.
  intros i Hi. specialize (Hi f ltac:(by left)). cbn. rewrite !load8_storen_out; [done|lia..].
Qed.

(** Results only; [pmm_init_entries] shows that there is one. *)
Lemma frames_untouched n s base end_ s' : hhdm_response s = off → chainable off (frames_from base n) →
  base + 4096 * Z.of_nat n < 2 ^ 64 →
  pmm_add_frames n base end_ s = Some (tt, s') → untouched off (frames_from base n) s s'.
Proof.
  revert s base. induction n as [|n IH]; intros s base Eh Hch Hb; cbn [pmm_add_frames].
  { destruct (base <? end_); [done|]. by intros [= <-]. }
  rewrite frames_from_S in *. destruct (base <? end_); [|by intros [= <-]].
  pose proof (Hch base ltac:(by left)) as Hf. pose proof Hf as (?&?&?&?&?&?).
  pose proof (push_untouched base s Eh Hf) as Hp. unfold wp in Hp. unfold bind at 1.
  destruct (push_frame base s) as [[[] s1]|]; [|done]. cbn [bind modify]. change PAGE_SIZE with 4096.
  rewrite (wrap_small 64 (base + 4096)) by lia. intros Hr. apply (untouched_trans off [base] _ s s1); [done|].
  destruct Hp as (E1 & _). apply IH in Hr; [exact Hr|cbn; congruence| |lia].
  intros f Hin. apply Hch. by right.
Qed.

Lemma entry_untouched s e s' : hhdm_response s = off → entry_ok e → chainable off (usable_frames e) →
  pmm_add_entry e s = Some (tt, s') → untouched off (usable_frames e) s s'.
Proof.
  unfold pmm_add_entry, usable_frames. intros Eh (H1 & H2 & H3) Hch. destruct (e_type e =? LIMINE_MEMMAP_USABLE); cbn [mwhen].
  - cbv zeta in *. rewrite (wrap_small 64) in * by lia. intros Hr.
    destruct (align_up_page (e_base e)) as [A1 A2]; [lia..|].
    destruct (align_down_page (e_base e + e_length e)) as [D1 D2]; [lia|].
    eapply frames_untouched; [done|done| |exact Hr]. change PAGE_SIZE with 4096 in *. clear -A1 A2 D1 D2 H1 H2 H3. zlia.
  - by intros [= <-].
Qed.

Lemma init_untouched es s s' : hhdm_response s = off → Forall entry_ok es → chainable off (concat (usable_frames <$> es)) →
  pmm_init es s = Some (tt, s') → untouched off (concat (usable_frames <$> es)) s s'.
Proof.
  revert s. induction es as [|e es IH]; intros s Eh He Hch; cbn [pmm_init]; [by intros [= <-]|].
  rewrite fmap_cons in *. cbn [concat] in *. unfold bind. destruct (pmm_add_entry e s) as [[[] s1]|] eqn:E; [|done].
  apply Forall_cons_1 in He as [He Hes].
  intros Hr. apply entry_untouched in E; [|done|done|intros f Hf; apply Hch, elem_of_app; by left].
  pose proof E as (E1 & _). eapply untouched_trans; [exact E|]. apply IH; [congruence|done| |done].
  intros f Hf. apply Hch, elem_of_app. by right.
Qed.
End untouched.

(** ** The two steps together *)

(** What the boot loader left: nothing is chained yet. *)
Definition unchained (s : mm_state) : Prop := free_mem_head s = 0 ∧ pmm_free_pages s = 0 ∧ pmm_total_pages s = 0.

(** The state after [vmm_init]. *)
Definition taken_over (off cr3 : Z) (s : mm_state) : mm_state :=
  mk_mm (mem s) (hhdm_response s) (free_mem_head s) (pmm_total_pages s) (pmm_free_pages s) off (u64 (Z.land cr3 (cnot 64 0xFFF) + off)).

Lemma memory_boot_spec off cr3 entries s : let fs := concat (usable_frames <$> entries) in
  hhdm_response s = off → unchained s → Forall entry_ok entries → chainable off fs → NoDup fs → Z.of_nat (length fs) < 2 ^ 64 →
  wp (memory_boot cr3 (Some off) entries) (λ _ s', pmm_ok s' (reverse ((λ f, f + off) <$> fs)) ∧
    pmm_total_pages s' = Z.of_nat (length fs) ∧ untouched off fs (taken_over off cr3 s) s') s.
Proof.
  intros fs Eh (Z1 & Z2 & Z3) HE Hch Hnd Hn. unfold memory_boot, vmm_init. wp_steps.
  unfold phys_to_virt. wp_steps. cbn [default hhdm_offset mem hhdm_response free_mem_head pmm_total_pages pmm_free_pages kernel_pml4].
  change (id off) with off. fold (taken_over off cr3 s). set (s1 := taken_over off cr3 s).
  assert (pmm_ok s1 []) as HO.
  { constructor; cbn; rewrite ?Z1, ?Z2, ?Z3; try done; [by apply NoDup_nil_2|by intros a ?%not_elem_of_nil]. }
  assert (pmm_free_pages s1 = pmm_total_pages s1) as Ec0 by (cbn; congruence).
  pose proof (pmm_init_entries off entries s1 [] HO Eh Ec0 HE Hch Hnd
    ltac:(by intros f _ ?%not_elem_of_nil) Hn) as Hw.
  unfold wp in Hw |- *. destruct (pmm_init entries s1) as [[[] s']|] eqn:E; [|done]. destruct Hw as (HO' & Eh' & Ec).
  fold fs in HO'. unfold added in HO'. rewrite app_nil_r in HO'. split; [done|]. split.
  - by rewrite <- Ec, (pk_free _ _ HO'), length_reverse, length_fmap.
  - by apply (init_untouched off) in E.
Qed.

(** A page whose tables lie outside of the chained frames is translated as
    before. *)
Lemma untouched_pte off fs s s' v : untouched off fs s s' →
  (∀ n t, tblp (hhdm_offset s) (mem s) (kernel_pml4 s) (take n (path_of v)) = Some t →
     ∀ f, f ∈ fs → t + 4096 <= f + off ∨ f + off + 4096 <= t) →
  pte s' v = pte s v.
Proof.
  intros (_ & Eo & Er & Hm) Ht.
  assert (∀ n t j, tblp (hhdm_offset s) (mem s) (kernel_pml4 s) (take n (path_of v)) = Some t → 0 <= j < 512 →
    load64 (mem s') (t + 8 * j) = load64 (mem s) (t + 8 * j)) as Hw.
  { intros n t j E Hj. apply loadn_ext. intros i Hi. apply Hm. intros f Hf. specialize (Ht n t E f Hf). lia. }
  assert (∀ n, (n <= 3)%nat → tblp (hhdm_offset s) (mem s') (kernel_pml4 s) (take n (path_of v)) =
    tblp (hhdm_offset s) (mem s) (kernel_pml4 s) (take n (path_of v))) as Hp.
  { induction n as [|n IH]; intros Hn; [done|].
    destruct (path_of v !! n) as [i|] eqn:Ei.
    - rewrite (take_S_r _ _ i Ei), !tblp_snoc, IH by lia. destruct (tblp _ (mem s) _ (take n _)) as [t|] eqn:E; [|done].
      unfold tbl_step. rewrite (Hw n t i E); [done|]. destruct (path_indices v) as [_ Hi]. apply Hi. by eapply list_elem_of_lookup_2.
    - apply lookup_ge_None in Ei. cbn in Ei. lia. }
  unfold pte. rewrite Eo, Er. specialize (Hp 3%nat ltac:(lia)). change (take 3 (path_of v)) with (path_of v) in Hp. rewrite Hp.
  destruct (tblp _ (mem s) _ (path_of v)) as [t|] eqn:E; [|done].
  rewrite (Hw 3%nat t (PT_INDEX v) E); [done|]. by apply index_range.
Qed.

(** A tree of tables that meets no usable frame stays one. *)
Lemma untouched_vm_ok off fs s s' l : untouched off fs s s' → hhdm_offset s = off → vm_ok s [] → chainable off fs →
  pmm_ok s' l → (∀ a, a ∈ l → ∃ f, a = f + off ∧ f ∈ fs) → (∀ f, f ∈ fs → f < 2 ^ 52) →
  (∀ p t, indices p → tblp off (mem s) (kernel_pml4 s) p = Some t → t - off ∉ fs) → vm_ok s' l.
Proof.
  intros (U1 & U2 & U3 & U4) Eo HV Hch HO' Hin Hlow Hni.
  assert (∀ p t j, indices p → tblp (hhdm_offset s) (mem s) (kernel_pml4 s) p = Some t → 0 <= j < 512 →
    load64 (mem s') (t + 8 * j) = load64 (mem s) (t + 8 * j)) as Hwords.
  { intros p t j Hp Htb Hj. apply loadn_ext. intros i Hi. apply U4. intros f Hff.
    destruct (vk_frame _ _ HV p t Hp Htb) as [Ft _]. rewrite Eo in Ft.
    assert (t ≠ f + off) by (intros ->; rewrite Eo in Htb; apply (Hni p _ Hp Htb); by replace (f + off - off) with f by lia).
    destruct (frames_apart off t (f + off) Ft (Hch f Hff)); [done|lia..]. }
  eapply (agree_vm_ok HV U2 U3 Hwords); [done|congruence| |].
  - intros a (f & -> & Hff)%Hin. rewrite Eo. specialize (Hlow f Hff). lia.
  - intros p t Hp Htb (f & -> & Hff)%Hin. rewrite Eo in Htb. apply (Hni p _ Hp Htb). by replace (f + off - off) with f by lia.
Qed.

(** ** Accesses through a mapping *)

Lemma deref_spec s virt e Q : pte s virt = Some e → Q (frame_of e + virt mod 4096 + hhdm_offset s) s → wp (deref virt) Q s.
Proof. intros He HQ. unfold deref. wp_steps. eapply wp_of_option; [exact He|]. by wp_steps. Qed.

(** A store to a frame that is neither free nor a table. *)
Lemma spare_store s l a o x : vm_ok s l → spare s l a → frame (hhdm_offset s) a → 0 <= o → o + 8 <= 4096 →
  let s' := set_mem (λ m, store64 m (a + o) x) s in
  vm_ok s' l ∧ (∀ v, pte s' v = pte s v) ∧ spare s' l a.
Proof.
  intros HV [Na Ta] Fa H0 H8 s'.
  assert (∀ u j, frame (hhdm_offset s) u → u ≠ a → 0 <= j < 512 → load64 (mem s') (u + 8 * j) = load64 (mem s) (u + 8 * j)) as Hout.
  { intros u j Fu Hu Hj. apply load64_apart. unfold apart. destruct (frames_apart _ u a Fu Fa Hu); lia. }
  assert (∀ p t j, indices p → tblp (hhdm_offset s) (mem s) (kernel_pml4 s) p = Some t → 0 <= j < 512 →
    load64 (mem s') (t + 8 * j) = load64 (mem s) (t + 8 * j)) as Hw.
  { intros p t j Hp Ht Hj. destruct (vk_frame _ _ HV p t Hp Ht) as [Ft _]. apply Hout; [done| |done].
    intros ->. by apply (Ta p). }
  assert (pmm_ok s' l) as HO.
  { destruct (vk_pmm _ _ HV) as [P1 P2 P3 P4 P5]. constructor; try assumption. cbn.
    eapply flist_frame; [|exact P1]. intros b Hb.
    assert (frame (hhdm_offset s) b) as Fb by (rewrite (vk_off _ _ HV); by apply P3).
    assert (b ≠ a) as Hba by (by intros ->).
    pose proof (Hout b 0 Fb Hba ltac:(lia)) as W0. pose proof (Hout b 1 Fb Hba ltac:(lia)) as W1.
    replace (b + 8 * 0) with b in W0 by lia. by replace (b + 8 * 1) with (b + 8) in W1 by lia. }
  split; [|split].
  - apply (agree_vm_ok (s':=s') HV eq_refl eq_refl Hw l HO eq_refl); [apply (vk_low _ _ HV)|].
    intros p t Hp Ht. by apply (vk_frame _ _ HV p t).
  - intros v. by apply (agree_pte (s:=s) (s':=s') eq_refl eq_refl Hw).
  - split; [done|]. intros p Hp. rewrite (agree_tblp (s:=s) (s':=s') eq_refl eq_refl Hw p Hp). by apply Ta.
Qed.

(** ** The self-tests *)

Section test.
Context {s : mm_state} {l : list Z} (HV : vm_ok s l) (Hl : (3 <= length l)%nat).
Context (Hs : spare s l (0x200000 + hhdm_offset s)) (Hf : frame (hhdm_offset s) (0x200000 + hhdm_offset s)).

(** Mapping, writing and reading back, up to the comparison. *)
Lemma mapped_access (k : Z → MM bool) Q :
  (∀ s' l', vm_ok s' l' → hhdm_offset s' = hhdm_offset s →
     (∀ w, w / 4096 mod 2 ^ 36 = 0x1000000 → ∃ e, pte s' w = Some e ∧ frame_of e = 0x200000) →
     (∀ w, w / 4096 mod 2 ^ 36 ≠ 0x1000000 → pte s' w = pte s w) → wp (k test_pattern) Q s') →
  wp (map_page 0x1000000000 0x200000 (Z.lor PTE_PRESENT PTE_WRITABLE);;
      write_through 0x1000000000 test_pattern;; v ← read_through 0x1000000000; k v) Q s.
Proof.
  intros Hk. apply wp_bind. wp_use (map_page_spec s l 0x1000000000 0x200000 (Z.lor PTE_PRESENT PTE_WRITABLE) HV Hl); [lia|by split|].
  intros [] s1 ((l1 & V1 & O1 & S1) & He & Hn).
  assert (∀ w, w / 4096 mod 2 ^ 36 = 0x1000000 → pte s1 w = Some 0x200003) as He'.
  { intros w Hw. apply He, same_page_iff. by rewrite Hw. }
  pose proof (He' 0x1000000000 eq_refl) as E1.
  apply wp_bind, wp_bind. eapply deref_spec; [exact E1|]. apply wp_modify.
  change (frame_of 0x200003) with 0x200000. change (0x1000000000 mod 4096) with 0. rewrite O1, Z.add_0_r.
  set (a := 0x200000 + hhdm_offset s) in *.
  destruct (spare_store s1 l1 a 0 test_pattern V1 (S1 a Hs)) as (V2 & P2 & _); [by rewrite O1|lia|lia|].
  rewrite Z.add_0_r in V2, P2. set (s2 := set_mem (λ m, store64 m a test_pattern) s1) in *.
  apply wp_bind, wp_bind. eapply deref_spec; [rewrite P2; exact E1|].
  change (frame_of 0x200003) with 0x200000. change (0x1000000000 mod 4096) with 0. rewrite Z.add_0_r.
  change (hhdm_offset s2) with (hhdm_offset s1). rewrite O1. fold a. apply wp_gets.
  change (mem s2) with (store64 (mem s1) a test_pattern). rewrite load64_store64_eq by (by split).
  apply (Hk s2 l1 V2); [exact O1| |].
  - intros w Hw. exists 0x200003. split; [by rewrite P2, He'|done].
  - intros w Hw. rewrite P2. apply Hn. rewrite same_page_iff. by intros E; rewrite <- E in Hw.
Qed.
End test.

(** the kernel's mapping test passes on every address space with three free
    frames, as long as the frame it uses is neither free nor a page table: the
    value written through the new mapping is read back, and no other page's
    translation changes. *)
Theorem vmm_test_mapping_passes s l : vm_ok s l → (3 <= length l)%nat →
  spare s l (0x200000 + hhdm_offset s) → frame (hhdm_offset s) (0x200000 + hhdm_offset s) →
  wp vmm_test_mapping (λ r s', r = true ∧ (∃ l', vm_ok s' l') ∧
    ∀ w, w / 4096 mod 2 ^ 36 ≠ 0x1000000 → pte s' w = pte s w) s.
Proof.
  intros HV Hl Hs Hf. eapply (mapped_access HV Hl Hs Hf (λ v, mret (v =? test_pattern))).
  intros s' l' V' _ _ Hn. apply wp_ret. split; [done|]. split; [by exists l'|exact Hn].
Qed.

(** [vmm_test_unmap] passes under the same conditions and leaves every
    translation as it found it but its own page's, which is gone. *)
Theorem vmm_test_unmap_passes s l : vm_ok s l → (3 <= length l)%nat →
  spare s l (0x200000 + hhdm_offset s) → frame (hhdm_offset s) (0x200000 + hhdm_offset s) →
  wp vmm_test_unmap (λ r s', r = true ∧ (∃ l', vm_ok s' l') ∧
    (∀ w, w / 4096 mod 2 ^ 36 = 0x1000000 → pte s' w = None) ∧
    ∀ w, w / 4096 mod 2 ^ 36 ≠ 0x1000000 → pte s' w = pte s w) s.
Proof.
  intros HV Hl Hs Hf. eapply (mapped_access HV Hl Hs Hf (λ v, unmap_page 0x1000000000;; mret (v =? test_pattern))).
  intros s' l' V' _ _ Hn. apply wp_bind. wp_use (unmap_page_spec s' l' 0x1000000000 V'). intros [] s2 (V2 & He & Hn2).
  apply wp_ret. split; [done|]. split; [by exists l'|]. split; intros w Hw.
  - apply He, same_page_iff. by rewrite Hw.
  - rewrite Hn2; [by apply Hn|]. rewrite same_page_iff. by intros E; rewrite <- E in Hw.
Qed.

(** nothing keeps the test's frame out of the free list: on a machine whose
    memory map has the frame 0x200000, the test still passes, and once the
    frames before it are used up [palloc] hands out the test's pattern instead
    of a frame. *)
Theorem vmm_test_corrupts_free_list :
  match (memory_boot 0x10000 (Some 0x100000) [mk_entry 0x200000 0x1000 0; mk_entry 0x1000 0x3000 0];;
         r ← vmm_test_mapping; p ← palloc; mret (r, p)) (pmm_boot 0x100000) with
  | Some (rp, _) => Some rp
  | None => None
  end = Some (true, test_pattern).
Proof. vm_compute. reflexivity. Qed.

(** C15: starting the memory managers over the tables and the memory map of the
    boot loader, whatever those tables are: the root of the address space is the
    one in CR3, the free list holds exactly the whole frames of the usable
    entries, both counters are their number, and of all memory only the 16 bytes
    of the link at the start of each of these frames changed, so that every page
    whose tables lie outside of usable memory is translated as before.  The
    entries must not overlap and the direct map must cover their frames, as the
    boot protocol says. *)
Theorem memory_boot_correct off cr3 entries m : let fs := concat (usable_frames <$> entries) in
  let s := set_mem (λ _, m) (pmm_boot off) in
  Forall entry_ok entries → chainable off fs → NoDup fs → Z.of_nat (length fs) < 2 ^ 64 →
  wp (memory_boot cr3 (Some off) entries) (λ _ s', hhdm_offset s' = off ∧ kernel_pml4 s' = u64 (Z.land cr3 (cnot 64 0xFFF) + off) ∧
    pmm_ok s' (reverse ((λ f, f + off) <$> fs)) ∧
    pmm_total_pages s' = Z.of_nat (length fs) ∧ pmm_free_pages s' = Z.of_nat (length fs) ∧
    (∀ i, (∀ f, f ∈ fs → i < f + off ∨ f + off + 16 <= i) → load8 (mem s') i = load8 m i) ∧
    ∀ v, (∀ n t, tblp off m (kernel_pml4 s') (take n (path_of v)) = Some t →
            ∀ f, f ∈ fs → t + 4096 <= f + off ∨ f + off + 4096 <= t) →
         pte s' v = pte (taken_over off cr3 s) v) s.
Proof.
  intros fs s HE Hc Hn Hl. eapply wp_mono; [by apply (memory_boot_spec off cr3 entries s)|].
  intros _ s' (HO & Ht & HU). pose proof HU as (_ & E1 & E2 & HM). split_and!; try done.
  - by rewrite (pk_free _ _ HO), length_reverse, length_fmap.
  - intros v Hv. eapply untouched_pte; [exact HU|]. by rewrite <- E2.
Qed.

(** Tables that map the page at 0xFFFFFFFF80000000 to the frame 0x400000, from the
    root at physical 0x10000 on, under the direct map at 0xFFFF800000000000. *)
Definition direct_map : Z := 0xFFFF800000000000.
Definition boot_tables : gmap Z Z :=
  store64 (store64 (store64 (store64 ∅ (direct_map + 0x10000 + 8 * 511) 0x11003) (direct_map + 0x11000 + 8 * 510) 0x12003)
    (direct_map + 0x12000) 0x13003) (direct_map + 0x13000) 0x400003.
Definition loaded : mm_state := set_mem (λ _, boot_tables) (pmm_boot direct_map).
Definition memmap_demo : list memmap_entry := [mk_entry 0x1000 0x4000 0; mk_entry 0x10000 0x4000 5; mk_entry 0x200000 0x1800 0].

Lemma memmap_demo_ok : let fs := concat (usable_frames <$> memmap_demo) in
  Forall entry_ok memmap_demo ∧ chainable direct_map fs ∧ NoDup fs ∧ Z.of_nat (length fs) < 2 ^ 64.
Proof.
  intros fs. assert (fs = [0x1000; 0x2000; 0x3000; 0x4000; 0x200000]) as -> by reflexivity. split_and!.
  - repeat constructor; cbn; lia.
  - intros f Hf. rewrite !elem_of_cons in Hf. unfold frame.
    destruct Hf as [->|[->|[->|[->|[->|Hf]]]]]; [split_and!; vm_compute; (reflexivity || discriminate)..|by apply not_elem_of_nil in Hf].
  - repeat constructor; rewrite ?elem_of_cons, ?elem_of_nil; intuition discriminate.
  - reflexivity.
Qed.

Lemma memory_boot_correct_witness :
  wp (memory_boot 0x10018 (Some direct_map) memmap_demo) (λ _ s', kernel_pml4 s' = direct_map + 0x10000 ∧ pmm_free_pages s' = 5 ∧
    pte s' 0xFFFFFFFF80000123 = Some 0x400003) loaded.
Proof.
  destruct memmap_demo_ok as (M1 & M2 & M3 & M4).
  eapply wp_mono; [exact (memory_boot_correct direct_map 0x10018 memmap_demo boot_tables M1 M2 M3 M4)|].
  intros _ s' (_ & E1 & _ & _ & E3 & _ & E5). split; [exact E1|]. split; [exact E3|].
  rewrite E5; [vm_compute; reflexivity|]. rewrite E1. intros n t Ht f Hf.
  assert (direct_map + 0x10000 <= t < direct_map + 0x14000) as Hr.
  { destruct n as [|[|[|[|n]]]]; vm_compute in Ht; injection Ht as <-; split; vm_compute; (reflexivity || discriminate). }
  change (f ∈ [0x1000; 0x2000; 0x3000; 0x4000; 0x200000]) in Hf. rewrite !elem_of_cons in Hf.
  destruct Hf as [->|[->|[->|[->|[->|Hf]]]]]; [lia..|by apply not_elem_of_nil in Hf].
Defined.

(** An empty top-level table. *)
Lemma empty_tables m root p t : (∀ i, 0 <= i < 512 → load64 m (root + 8 * i) = 0) → indices p →
  tblp 0x100000 m root p = Some t → p = [] ∧ t = root.
Proof.
  intros Hz Hi Ht. destruct p as [|i p]; [cbn in Ht; split; congruence|]. exfalso. cbn [tblp] in Ht. unfold tbl_step in Ht.
  rewrite Hz, Z.bits_0 in Ht; [discriminate|]. destruct Hi as [_ Hi]. apply Hi. left.
Qed.

Lemma vm_demo_spare : spare vm_demo [0x104000; 0x103000; 0x102000; 0x101000] 0x300000.
Proof.
  split; [rewrite !elem_of_cons, elem_of_nil; intuition discriminate|]. intros p Hp Ht.
  apply (empty_tables (mem vm_demo) 0x110000 p) in Ht as [_ ?]; [done|intros i Hi; apply zero_page_in; lia|done].
Qed.

Lemma vmm_test_mapping_passes_witness : wp vmm_test_mapping (λ r s', r = true ∧ (∃ l', vm_ok s' l') ∧
    ∀ w, w / 4096 mod 2 ^ 36 ≠ 0x1000000 → pte s' w = pte vm_demo w) vm_demo.
Proof.
  apply (vmm_test_mapping_passes vm_demo _ vm_demo_ok); [cbn; lia|exact vm_demo_spare|].
  unfold frame. change (hhdm_offset vm_demo) with 0x100000. split_and!; reflexivity || lia.
Defined.

Lemma vmm_test_unmap_passes_witness : wp vmm_test_unmap (λ r s', r = true ∧ (∃ l', vm_ok s' l') ∧
    (∀ w, w / 4096 mod 2 ^ 36 = 0x1000000 → pte s' w = None) ∧
    ∀ w, w / 4096 mod 2 ^ 36 ≠ 0x1000000 → pte s' w = pte vm_demo w) vm_demo.
Proof.
  apply (vmm_test_unmap_passes vm_demo _ vm_demo_ok); [cbn; lia|exact vm_demo_spare|].
  unfold frame. change (hhdm_offset vm_demo) with 0x100000. split_and!; reflexivity || lia.
Defined.
