(* ===== verification/Kernel.v ===== *)
(** * [kernel_main] up to the drivers ([kernel/kernel.c], the table load of
    [arch/x86_64/idt.c])

    The states of the parts side by side, and the start-up sequence in the order
    of [kernel_main].  The parts share no memory: the allocator's buffer, the
    tables and the frames are separate objects of the kernel.  Linker and boot
    loader give the addresses in [image]. *)

From stdpp Require Import prelude gmap list numbers tactics.
From S2P Require Import Prelude Memory TlsfInv KHeap Io Pic Apic Gdt Interrupts Keyboard Board Boot Pmm Vmm BootMem.

Record image := mk_image {
  kernel_heap : Z; g_GDT_addr : Z; tss_addr : Z; g_IDT_addr : Z; isr_stub : Z → Z;
  cr3_boot : Z; hhdm : option Z; memmap : list memmap_entry
}.

(** [g_IDTDescriptor] and the operand of [lidt] and [sidt]. *)
Record IDTDescriptor_t := mk_idtr { Limit : Z; Ptr : Z }.

Record kernel := mk_kernel {
  kernel_tlsf : Tlsf.tlsf_state;
  segments : gdt_state;
  idtr : IDTDescriptor_t;
  memory : mm_state;
  irqs : irq_state machine
}.

Section kernel_main.
Context (i : image).
Abbreviation K := (M kernel).

Definition on_heap {A} : M Tlsf.tlsf_state A → K A := zoom kernel_tlsf (λ x k, mk_kernel x (segments k) (idtr k) (memory k) (irqs k)).
Definition on_segments {A} : M gdt_state A → K A := zoom segments (λ x k, mk_kernel (kernel_tlsf k) x (idtr k) (memory k) (irqs k)).
Definition on_memory {A} : M mm_state A → K A := zoom memory (λ x k, mk_kernel (kernel_tlsf k) (segments k) (idtr k) x (irqs k)).
Definition on_irqs {A} : M (irq_state machine) A → K A := zoom irqs (λ x k, mk_kernel (kernel_tlsf k) (segments k) (idtr k) (memory k) x).

(** [sizeof(g_IDT)] is 256 entries of 16 bytes. *)
Definition g_IDTDescriptor : IDTDescriptor_t := mk_idtr (16 * 256 - 1) (g_IDT_addr i).

Definition IDT_Load (d : IDTDescriptor_t) : K unit :=
  modify (λ k, mk_kernel (kernel_tlsf k) (segments k) d (memory k) (irqs k)).

(** The register is read back; a difference halts the machine. *)
Definition IDT_Initialize : K unit :=
  IDT_Load g_IDTDescriptor;;
  current ← gets idtr;
  massert ((Ptr current =? Ptr g_IDTDescriptor) && (Limit current =? Limit g_IDTDescriptor)).

(** [init_heap(); GDT_Initialize(); IDT_Initialize(); vmm_init(); pmm_init();
    ISR_Initialize(); APIC_IRQ_Initialize(); keyboard_apic_init();] *)
Definition kernel_main : K unit :=
  on_heap (init_heap (kernel_heap i));;
  on_segments (GDT_Initialize (g_GDT_addr i) (tss_addr i));;
  IDT_Initialize;;
  on_memory (vmm_init (cr3_boot i) (hhdm i));;
  on_memory (pmm_init (memmap i));;
  on_irqs (ISR_Initialize (isr_stub i));;
  on_irqs APIC_IRQ_Initialize;;
  on_irqs keyboard_apic_init.

(** What linker, boot loader and reset leave behind. *)
Record power_on (off : Z) (k : kernel) : Prop := {
  po_heap : 0 < kernel_heap i ∧ kernel_heap i mod 8 = 0 ∧ kernel_heap i + KERNEL_HEAP_SIZE < 2 ^ 64;
  po_gdt : table (segments k) = g_GDT ∧ 0 <= tss_addr i < 2 ^ 64;
  po_stubs : ∀ v, 0 <= isr_stub i v < 2 ^ 64;
  po_tables : length (g_IDT (irqs k)) = 256%nat ∧ length (g_ISRHandlers (irqs k)) = 256%nat ∧
    length (g_APICIRQHandlers (irqs k)) = 64%nat;
  po_apic : let c := apic_of (device (irqs k)) in
    0 <= reg (msrs c) IA32_APIC_BASE_MSR < 2 ^ 64 ∧ 0 <= reg (lapic c) APIC_SVR < 2 ^ 32 ∧
    0 <= reg (ioapic c) 0x13 < 2 ^ 32 ∧ reg (lapic c) 0x20 / 2 ^ 24 = 0;
  po_hhdm : hhdm i = Some off ∧ hhdm_response (memory k) = off;
  po_bss : unchained (memory k);
  po_memmap : let fs := concat (usable_frames <$> memmap i) in
    Forall entry_ok (memmap i) ∧ chainable off fs ∧ NoDup fs ∧ Z.of_nat (length fs) < 2 ^ 64
}.

(** Every part is in the state its clients rely on. *)
Record kernel_ready (off : Z) (k0 k : kernel) : Prop := {
  rd_heap : refines (kernel_tlsf k) ∅;
  rd_cpu : cs (regs (segments k)) = GDT_CODE_SEGMENT ∧ tr (regs (segments k)) = 0x28 ∧
    decode_segment <$> selector_entry (table (segments k)) (cs (regs (segments k))) = Some (code64 0);
  rd_idtr : idtr k = mk_idtr 4095 (g_IDT_addr i);
  rd_frames : pmm_ok (memory k) (reverse ((λ f, f + off) <$> concat (usable_frames <$> memmap i)));
  rd_space : untouched off (concat (usable_frames <$> memmap i)) (taken_over off (cr3_boot i) (memory k0)) (memory k);
  rd_faults : zlookup (g_ISRHandlers (irqs k)) 14 = Some (Some page_fault_handler_fn);
  rd_keyboard : keyboard_ready (isr_stub i) (irqs k)
}.

(** C12: after [kernel_main]'s initialisation every part is in the state its
    clients rely on: an empty consistent heap over the kernel's static array,
    wherever it is linked, the kernel's segments, the loaded interrupt table, the
    root of the boot loader's address space with exactly the usable frames free
    and every byte outside of their links as the boot loader left it, the page
    fault handler, and the keyboard's line routed to its driver. *)
Theorem kernel_main_ready off k : power_on off k → wp kernel_main (λ _ k', kernel_ready off k k') k.
Proof.
  intros [(H1 & H2 & H3) [G1 G2] Hst (L1 & L2 & L3) (A1 & A2 & A3 & A4) [Eh Er] Hz (M1 & M2 & M3 & M4)].
  unfold kernel_main. apply wp_bind, wp_zoom. wp_use (init_heap_spec (kernel_tlsf k) (kernel_heap i) H1 H2 H3).
  intros _ hs [_ Hh]. apply wp_bind, wp_zoom. cbn [segments].
  wp_use (GDT_Initialize_spec (segments k) (g_GDT_addr i) (tss_addr i) G1 G2).
  intros _ gs (_ & Hcs & _ & _ & Hcode & _ & _ & _ & Htr & _). cbn [kernel_tlsf idtr memory irqs].
  apply wp_bind. unfold IDT_Initialize, IDT_Load. wp_steps. apply wp_massert; [by rewrite !Z.eqb_refl|].
  cbn [kernel_tlsf segments idtr memory irqs]. rewrite Eh.
  (* the steps of one part in turn *)
  pose proof (memory_boot_spec off (cr3_boot i) (memmap i) (memory k) Er Hz M1 M2 M3 M4) as Hm.
  apply wp_bind_inv in Hm. apply wp_bind, wp_zoom. eapply wp_mono; [exact Hm|]. clear Hm. intros [] m1 Hm.
  apply wp_bind, wp_zoom. cbn [kernel_tlsf segments idtr memory irqs]. eapply wp_mono; [exact Hm|]. clear Hm. intros [] m2 (Hv & _ & Ho).
  pose proof (start_interrupts_spec (isr_stub i) (irqs k) L1 L2 L3 Hst A1 A2 A3 A4) as Hs. unfold start_interrupts in Hs.
  apply wp_bind_inv in Hs. apply wp_bind, wp_zoom. cbn [kernel_tlsf segments idtr memory irqs]. eapply wp_mono; [exact Hs|]. clear Hs. intros [] s1 Hs.
  apply wp_bind_inv in Hs. apply wp_bind, wp_zoom. cbn [kernel_tlsf segments idtr memory irqs]. eapply wp_mono; [exact Hs|]. clear Hs. intros [] s2 Hs.
  apply wp_zoom. cbn [kernel_tlsf segments idtr memory irqs]. eapply wp_mono; [exact Hs|]. clear Hs. intros [] s3 (Hk & Hf & _).
  constructor; cbn [kernel_tlsf segments idtr memory irqs]; [done| |done|done|done|done|done].
  rewrite Hcs. by split_and!.
Qed.
End kernel_main.

(** A machine with three entries in its memory map, the tables of [BootMem] and
    the addresses of an image linked at the top of the address space. *)
Definition image_demo : image :=
  mk_image 0xFFFFFFFF80105000 0xFFFFFFFF80010000 0xFFFFFFFF80023450 0xFFFFFFFF80030000 stub_demo 0x10018 (Some direct_map) memmap_demo.
Definition kernel_demo : kernel :=
  mk_kernel (Tlsf.mk_tlsf 0 ∅ 0 [] []) gdt_boot (mk_idtr 0 0) loaded board_demo.

Lemma kernel_demo_on : power_on image_demo direct_map kernel_demo.
Proof.
  split.
  - by split_and!.
  - split; [reflexivity|cbn; lia].
  - exact stub_demo_range.
  - repeat split.
  - cbv zeta. split_and!; vm_compute; discriminate || reflexivity.
  - done.
  - done.
  - exact memmap_demo_ok.
Qed.

Lemma kernel_main_ready_witness : wp (kernel_main image_demo) (λ _ k', kernel_ready image_demo direct_map kernel_demo k') kernel_demo.
Proof. apply (kernel_main_ready image_demo direct_map kernel_demo). exact kernel_demo_on. Defined.
