(* ===== verification/TermTables.v ===== *)
(** * Tables of the terminal ([kernel/terminal/src/flanterm.c],
    [flanterm_backends/fb.c])

    The 256-colour palette, the line drawing set, the widths of characters, the
    code page the font is drawn in, and the built-in font. *)

From stdpp Require Import prelude list numbers tactics.
From S2P Require Import Prelude.

Definition col256 : list Z :=
  [ 0x000000; 0x00005f; 0x000087; 0x0000af; 0x0000d7; 0x0000ff; 0x005f00; 0x005f5f;
    0x005f87; 0x005faf; 0x005fd7; 0x005fff; 0x008700; 0x00875f; 0x008787; 0x0087af;
    0x0087d7; 0x0087ff; 0x00af00; 0x00af5f; 0x00af87; 0x00afaf; 0x00afd7; 0x00afff;
    0x00d700; 0x00d75f; 0x00d787; 0x00d7af; 0x00d7d7; 0x00d7ff; 0x00ff00; 0x00ff5f;
    0x00ff87; 0x00ffaf; 0x00ffd7; 0x00ffff; 0x5f0000; 0x5f005f; 0x5f0087; 0x5f00af;
    0x5f00d7; 0x5f00ff; 0x5f5f00; 0x5f5f5f; 0x5f5f87; 0x5f5faf; 0x5f5fd7; 0x5f5fff;
    0x5f8700; 0x5f875f; 0x5f8787; 0x5f87af; 0x5f87d7; 0x5f87ff; 0x5faf00; 0x5faf5f;
    0x5faf87; 0x5fafaf; 0x5fafd7; 0x5fafff; 0x5fd700; 0x5fd75f; 0x5fd787; 0x5fd7af;
    0x5fd7d7; 0x5fd7ff; 0x5fff00; 0x5fff5f; 0x5fff87; 0x5fffaf; 0x5fffd7; 0x5fffff;
    0x870000; 0x87005f; 0x870087; 0x8700af; 0x8700d7; 0x8700ff; 0x875f00; 0x875f5f;
    0x875f87; 0x875faf; 0x875fd7; 0x875fff; 0x878700; 0x87875f; 0x878787; 0x8787af;
    0x8787d7; 0x8787ff; 0x87af00; 0x87af5f; 0x87af87; 0x87afaf; 0x87afd7; 0x87afff;
    0x87d700; 0x87d75f; 0x87d787; 0x87d7af; 0x87d7d7; 0x87d7ff; 0x87ff00; 0x87ff5f;
    0x87ff87; 0x87ffaf; 0x87ffd7; 0x87ffff; 0xaf0000; 0xaf005f; 0xaf0087; 0xaf00af;
    0xaf00d7; 0xaf00ff; 0xaf5f00; 0xaf5f5f; 0xaf5f87; 0xaf5faf; 0xaf5fd7; 0xaf5fff;
    0xaf8700; 0xaf875f; 0xaf8787; 0xaf87af; 0xaf87d7; 0xaf87ff; 0xafaf00; 0xafaf5f;
    0xafaf87; 0xafafaf; 0xafafd7; 0xafafff; 0xafd700; 0xafd75f; 0xafd787; 0xafd7af;
    0xafd7d7; 0xafd7ff; 0xafff00; 0xafff5f; 0xafff87; 0xafffaf; 0xafffd7; 0xafffff;
    0xd70000; 0xd7005f; 0xd70087; 0xd700af; 0xd700d7; 0xd700ff; 0xd75f00; 0xd75f5f;
    0xd75f87; 0xd75faf; 0xd75fd7; 0xd75fff; 0xd78700; 0xd7875f; 0xd78787; 0xd787af;
    0xd787d7; 0xd787ff; 0xd7af00; 0xd7af5f; 0xd7af87; 0xd7afaf; 0xd7afd7; 0xd7afff;
    0xd7d700; 0xd7d75f; 0xd7d787; 0xd7d7af; 0xd7d7d7; 0xd7d7ff; 0xd7ff00; 0xd7ff5f;
    0xd7ff87; 0xd7ffaf; 0xd7ffd7; 0xd7ffff; 0xff0000; 0xff005f; 0xff0087; 0xff00af;
    0xff00d7; 0xff00ff; 0xff5f00; 0xff5f5f; 0xff5f87; 0xff5faf; 0xff5fd7; 0xff5fff;
    0xff8700; 0xff875f; 0xff8787; 0xff87af; 0xff87d7; 0xff87ff; 0xffaf00; 0xffaf5f;
    0xffaf87; 0xffafaf; 0xffafd7; 0xffafff; 0xffd700; 0xffd75f; 0xffd787; 0xffd7af;
    0xffd7d7; 0xffd7ff; 0xffff00; 0xffff5f; 0xffff87; 0xffffaf; 0xffffd7; 0xffffff;
    0x080808; 0x121212; 0x1c1c1c; 0x262626; 0x303030; 0x3a3a3a; 0x444444; 0x4e4e4e;
    0x585858; 0x626262; 0x6c6c6c; 0x767676; 0x808080; 0x8a8a8a; 0x949494; 0x9e9e9e;
    0xa8a8a8; 0xb2b2b2; 0xbcbcbc; 0xc6c6c6; 0xd0d0d0; 0xdadada; 0xe4e4e4; 0xeeeeee ].

(** ** [dec_special_print]: the glyph of a character of the line drawing set *)

Definition dec_special : list (Z * Z) :=
  [ (96, 0x04); (48, 0xdb); (45, 0x18); (44, 0x1b); (46, 0x19); (97, 0xb1); (102, 0xf8); (103, 0xf1);
    (104, 0xb0); (106, 0xd9); (107, 0xbf); (108, 0xda); (109, 0xc0); (110, 0xc5); (113, 0xc4); (115, 0x5f);
    (116, 0xc3); (117, 0xb4); (118, 0xc1); (119, 0xc2); (120, 0xb3); (121, 0xf3); (122, 0xf2); (126, 0xfa);
    (95, 0xff); (43, 0x1a); (123, 0xe3); (125, 0x9c) ].

(** The [switch] over a table of cases. *)
Fixpoint switch (cases : list (Z * Z)) (x : Z) : option Z :=
  match cases with
  | [] => None
  | (k, v) :: cases => if x =? k then Some v else switch cases x
  end.

(** ** [mk_wcwidth] *)

Definition combining : list (Z * Z) :=
  [ (0x0300, 0x036F); (0x0483, 0x0486); (0x0488, 0x0489); (0x0591, 0x05BD);
    (0x05BF, 0x05BF); (0x05C1, 0x05C2); (0x05C4, 0x05C5); (0x05C7, 0x05C7);
    (0x0600, 0x0603); (0x0610, 0x0615); (0x064B, 0x065E); (0x0670, 0x0670);
    (0x06D6, 0x06E4); (0x06E7, 0x06E8); (0x06EA, 0x06ED); (0x070F, 0x070F);
    (0x0711, 0x0711); (0x0730, 0x074A); (0x07A6, 0x07B0); (0x07EB, 0x07F3);
    (0x0901, 0x0902); (0x093C, 0x093C); (0x0941, 0x0948); (0x094D, 0x094D);
    (0x0951, 0x0954); (0x0962, 0x0963); (0x0981, 0x0981); (0x09BC, 0x09BC);
    (0x09C1, 0x09C4); (0x09CD, 0x09CD); (0x09E2, 0x09E3); (0x0A01, 0x0A02);
    (0x0A3C, 0x0A3C); (0x0A41, 0x0A42); (0x0A47, 0x0A48); (0x0A4B, 0x0A4D);
    (0x0A70, 0x0A71); (0x0A81, 0x0A82); (0x0ABC, 0x0ABC); (0x0AC1, 0x0AC5);
    (0x0AC7, 0x0AC8); (0x0ACD, 0x0ACD); (0x0AE2, 0x0AE3); (0x0B01, 0x0B01);
    (0x0B3C, 0x0B3C); (0x0B3F, 0x0B3F); (0x0B41, 0x0B43); (0x0B4D, 0x0B4D);
    (0x0B56, 0x0B56); (0x0B82, 0x0B82); (0x0BC0, 0x0BC0); (0x0BCD, 0x0BCD);
    (0x0C3E, 0x0C40); (0x0C46, 0x0C48); (0x0C4A, 0x0C4D); (0x0C55, 0x0C56);
    (0x0CBC, 0x0CBC); (0x0CBF, 0x0CBF); (0x0CC6, 0x0CC6); (0x0CCC, 0x0CCD);
    (0x0CE2, 0x0CE3); (0x0D41, 0x0D43); (0x0D4D, 0x0D4D); (0x0DCA, 0x0DCA);
    (0x0DD2, 0x0DD4); (0x0DD6, 0x0DD6); (0x0E31, 0x0E31); (0x0E34, 0x0E3A);
    (0x0E47, 0x0E4E); (0x0EB1, 0x0EB1); (0x0EB4, 0x0EB9); (0x0EBB, 0x0EBC);
    (0x0EC8, 0x0ECD); (0x0F18, 0x0F19); (0x0F35, 0x0F35); (0x0F37, 0x0F37);
    (0x0F39, 0x0F39); (0x0F71, 0x0F7E); (0x0F80, 0x0F84); (0x0F86, 0x0F87);
    (0x0F90, 0x0F97); (0x0F99, 0x0FBC); (0x0FC6, 0x0FC6); (0x102D, 0x1030);
    (0x1032, 0x1032); (0x1036, 0x1037); (0x1039, 0x1039); (0x1058, 0x1059);
    (0x1160, 0x11FF); (0x135F, 0x135F); (0x1712, 0x1714); (0x1732, 0x1734);
    (0x1752, 0x1753); (0x1772, 0x1773); (0x17B4, 0x17B5); (0x17B7, 0x17BD);
    (0x17C6, 0x17C6); (0x17C9, 0x17D3); (0x17DD, 0x17DD); (0x180B, 0x180D);
    (0x18A9, 0x18A9); (0x1920, 0x1922); (0x1927, 0x1928); (0x1932, 0x1932);
    (0x1939, 0x193B); (0x1A17, 0x1A18); (0x1B00, 0x1B03); (0x1B34, 0x1B34);
    (0x1B36, 0x1B3A); (0x1B3C, 0x1B3C); (0x1B42, 0x1B42); (0x1B6B, 0x1B73);
    (0x1DC0, 0x1DCA); (0x1DFE, 0x1DFF); (0x200B, 0x200F); (0x202A, 0x202E);
    (0x2060, 0x2063); (0x206A, 0x206F); (0x20D0, 0x20EF); (0x302A, 0x302F);
    (0x3099, 0x309A); (0xA806, 0xA806); (0xA80B, 0xA80B); (0xA825, 0xA826);
    (0xFB1E, 0xFB1E); (0xFE00, 0xFE0F); (0xFE20, 0xFE23); (0xFEFF, 0xFEFF);
    (0xFFF9, 0xFFFB); (0x10A01, 0x10A03); (0x10A05, 0x10A06); (0x10A0C, 0x10A0F);
    (0x10A38, 0x10A3A); (0x10A3F, 0x10A3F); (0x1D167, 0x1D169); (0x1D173, 0x1D182);
    (0x1D185, 0x1D18B); (0x1D1AA, 0x1D1AD); (0x1D242, 0x1D244); (0xE0001, 0xE0001);
    (0xE0020, 0xE007F); (0xE0100, 0xE01EF) ].

(** The loop of [bisearch], with [int] indices; [None] is an index outside of
    the table or the end of the fuel. *)
Fixpoint bisearch_loop (fuel : nat) (ucs : Z) (table : list (Z * Z)) (min max : Z) : option bool :=
  if min <=? max then
    match fuel with
    | O => None
    | S fuel =>
      let mid := Z.quot (min + max) 2 in
      match zlookup table mid with
      | None => None
      | Some (first, last) =>
        if last <? ucs then bisearch_loop fuel ucs table (mid + 1) max
        else if ucs <? first then bisearch_loop fuel ucs table min (mid - 1)
        else Some true
      end
    end
  else Some false.

Definition bisearch (fuel : nat) (ucs : Z) (table : list (Z * Z)) (max : Z) : option bool :=
  match zlookup table 0, zlookup table max with
  | Some (first, _), Some (_, last) =>
    if (ucs <? first) || (last <? ucs) then Some false else bisearch_loop fuel ucs table 0 max
  | _, _ => None
  end.

Definition is_wide (ucs : Z) : bool :=
  (0x1100 <=? ucs) &&
  ((ucs <=? 0x115f) || (ucs =? 0x2329) || (ucs =? 0x232a) ||
   ((0x2e80 <=? ucs) && (ucs <=? 0xa4cf) && negb (ucs =? 0x303f)) ||
   ((0xac00 <=? ucs) && (ucs <=? 0xd7a3)) || ((0xf900 <=? ucs) && (ucs <=? 0xfaff)) ||
   ((0xfe10 <=? ucs) && (ucs <=? 0xfe19)) || ((0xfe30 <=? ucs) && (ucs <=? 0xfe6f)) ||
   ((0xff00 <=? ucs) && (ucs <=? 0xff60)) || ((0xffe0 <=? ucs) && (ucs <=? 0xffe6)) ||
   ((0x20000 <=? ucs) && (ucs <=? 0x2fffd)) || ((0x30000 <=? ucs) && (ucs <=? 0x3fffd))).

Definition mk_wcwidth (ucs : Z) : option Z :=
  if ucs =? 0 then Some 0
  else if (ucs <? 32) || ((0x7f <=? ucs) && (ucs <? 0xa0)) then Some 1
  else match bisearch 8 ucs combining (Z.of_nat (length combining) - 1) with
       | Some true => Some 0
       | Some false => Some (1 + Z.b2z (is_wide ucs))
       | None => None
       end.

(** ** [unicode_to_cp437] *)

Definition cp437 : list (Z * Z) :=
  [ (0x263a, 1); (0x263b, 2); (0x2665, 3); (0x2666, 4); (0x2663, 5); (0x2660, 6);
    (0x2022, 7); (0x25d8, 8); (0x25cb, 9); (0x25d9, 10); (0x2642, 11); (0x2640, 12);
    (0x266a, 13); (0x266b, 14); (0x263c, 15); (0x25ba, 16); (0x25c4, 17); (0x2195, 18);
    (0x203c, 19); (0x00b6, 20); (0x00a7, 21); (0x25ac, 22); (0x21a8, 23); (0x2191, 24);
    (0x2193, 25); (0x2192, 26); (0x2190, 27); (0x221f, 28); (0x2194, 29); (0x25b2, 30);
    (0x25bc, 31); (0x2302, 127); (0x00c7, 128); (0x00fc, 129); (0x00e9, 130); (0x00e2, 131);
    (0x00e4, 132); (0x00e0, 133); (0x00e5, 134); (0x00e7, 135); (0x00ea, 136); (0x00eb, 137);
    (0x00e8, 138); (0x00ef, 139); (0x00ee, 140); (0x00ec, 141); (0x00c4, 142); (0x00c5, 143);
    (0x00c9, 144); (0x00e6, 145); (0x00c6, 146); (0x00f4, 147); (0x00f6, 148); (0x00f2, 149);
    (0x00fb, 150); (0x00f9, 151); (0x00ff, 152); (0x00d6, 153); (0x00dc, 154); (0x00a2, 155);
    (0x00a3, 156); (0x00a5, 157); (0x20a7, 158); (0x0192, 159); (0x00e1, 160); (0x00ed, 161);
    (0x00f3, 162); (0x00fa, 163); (0x00f1, 164); (0x00d1, 165); (0x00aa, 166); (0x00ba, 167);
    (0x00bf, 168); (0x2310, 169); (0x00ac, 170); (0x00bd, 171); (0x00bc, 172); (0x00a1, 173);
    (0x00ab, 174); (0x00bb, 175); (0x2591, 176); (0x2592, 177); (0x2593, 178); (0x2502, 179);
    (0x2524, 180); (0x2561, 181); (0x2562, 182); (0x2556, 183); (0x2555, 184); (0x2563, 185);
    (0x2551, 186); (0x2557, 187); (0x255d, 188); (0x255c, 189); (0x255b, 190); (0x2510, 191);
    (0x2514, 192); (0x2534, 193); (0x252c, 194); (0x251c, 195); (0x2500, 196); (0x253c, 197);
    (0x255e, 198); (0x255f, 199); (0x255a, 200); (0x2554, 201); (0x2569, 202); (0x2566, 203);
    (0x2560, 204); (0x2550, 205); (0x256c, 206); (0x2567, 207); (0x2568, 208); (0x2564, 209);
    (0x2565, 210); (0x2559, 211); (0x2558, 212); (0x2552, 213); (0x2553, 214); (0x256b, 215);
    (0x256a, 216); (0x2518, 217); (0x250c, 218); (0x2588, 219); (0x2584, 220); (0x258c, 221);
    (0x2590, 222); (0x2580, 223); (0x03b1, 224); (0x00df, 225); (0x0393, 226); (0x03c0, 227);
    (0x03a3, 228); (0x03c3, 229); (0x00b5, 230); (0x03c4, 231); (0x03a6, 232); (0x0398, 233);
    (0x03a9, 234); (0x03b4, 235); (0x221e, 236); (0x03c6, 237); (0x03b5, 238); (0x2229, 239);
    (0x2261, 240); (0x00b1, 241); (0x2265, 242); (0x2264, 243); (0x2320, 244); (0x2321, 245);
    (0x00f7, 246); (0x2248, 247); (0x00b0, 248); (0x2219, 249); (0x00b7, 250); (0x221a, 251);
    (0x207f, 252); (0x00b2, 253); (0x25a0, 254) ].

Definition unicode_to_cp437 (code_point : Z) : Z := default (-1) (switch cp437 code_point).

(** ** The binary search finds the interval *)

Definition within (ucs : Z) (i : Z * Z) : bool := (i.1 <=? ucs) && (ucs <=? i.2).

(** Non-empty intervals in ascending order. *)
Definition ascending (table : list (Z * Z)) : Prop :=
  (∀ i a b, zlookup table i = Some (a, b) → a <= b) ∧
  (∀ i j a b c d, i < j → zlookup table i = Some (a, b) → zlookup table j = Some (c, d) → b < c).

(** The same, to be evaluated. *)
Fixpoint ascending_from (x : Z) (table : list (Z * Z)) : bool :=
  match table with
  | [] => true
  | (a, b) :: table => (x <? a) && (a <=? b) && ascending_from b table
  end.

Lemma ascending_from_spec x table : ascending_from x table = true →
  ∀ i a b, table !! i = Some (a, b) → x < a ∧ a <= b ∧ (∀ j c d, (i < j)%nat → table !! j = Some (c, d) → b < c).
Proof.
  revert x. induction table as [|[a0 b0] table IH]; intros x H i a b Hi; [done|]. cbn [ascending_from] in H. boolprop.
  destruct i as [|i].
  - injection Hi as <- <-. split; [lia|]. split; [lia|]. intros [|j] c d Hj Hl; [lia|].
    apply (IH b0) in Hl; [|done]. lia.
  - cbn in Hi. destruct (IH b0 ltac:(done) i a b Hi) as (HA1 & HA2 & HA3). split; [lia|]. split; [lia|].
    intros [|j] c d Hj Hl; [lia|]. apply (HA3 j c d); [lia|done].
Qed.

Lemma zlookup_nat {A} (l : list A) i x : zlookup l i = Some x ↔ 0 <= i ∧ l !! Z.to_nat i = Some x.
Proof.
  unfold zlookup. destruct (Z.leb_spec 0 i); split; [by split|by intros [_ ?]|done|intros [? _]; lia].
Qed.

Lemma ascending_from_ascending x table : ascending_from x table = true → ascending table.
Proof.
  intros H. split.
  - intros i a b [_ Hi]%zlookup_nat. apply (ascending_from_spec _ _ H) in Hi. tauto.
  - intros i j a b c d Hij [H0 Hi]%zlookup_nat [_ Hj]%zlookup_nat.
    apply (ascending_from_spec _ _ H) in Hi as (_ & _ & Hs). apply (Hs (Z.to_nat j) c d); [lia|done].
Qed.

Lemma within_spec ucs a b : within ucs (a, b) = true ↔ a <= ucs <= b.
Proof. unfold within. cbn. rewrite andb_true_iff, !Z.leb_le. done. Qed.

Lemma existsb_zlookup ucs table :
  existsb (within ucs) table = true ↔ ∃ i a b, zlookup table i = Some (a, b) ∧ a <= ucs <= b.
Proof.
  rewrite existsb_exists. split.
  - intros ([a b] & Hin & Hw). apply list_elem_of_In, list_elem_of_lookup in Hin as [i Hi].
    exists (Z.of_nat i), a, b. rewrite within_spec in Hw. split; [|done]. apply zlookup_nat. rewrite Nat2Z.id. split; [lia|done].
  - intros (i & a & b & [_ Hi]%zlookup_nat & Hw). exists (a, b). rewrite within_spec. split; [|done].
    apply list_elem_of_In. by eapply list_elem_of_lookup_2.
Qed.

Lemma existsb_none ucs table : (∀ i a b, zlookup table i = Some (a, b) → ¬ a <= ucs <= b) → existsb (within ucs) table = false.
Proof.
  intros H. destruct (existsb _ _) eqn:E; [|done]. apply existsb_zlookup in E as (i & a & b & Hi & Hw). by destruct (H i a b Hi).
Qed.

(** [2 ^ fuel - 1] intervals can be searched with [fuel]. *)
Lemma bisearch_loop_spec fuel ucs table min max : ascending table → 0 <= min → max < Z.of_nat (length table) →
  max - min + 1 < 2 ^ Z.of_nat fuel →
  (∀ i a b, zlookup table i = Some (a, b) → a <= ucs <= b → min <= i <= max) →
  bisearch_loop fuel ucs table min max = Some (existsb (within ucs) table).
Proof.
  intros Ht. revert min max. induction fuel as [|fuel IH]; intros min max Hmin Hmax Hf Hin; cbn [bisearch_loop];
    (destruct (Z.leb_spec min max) as [Hle|Hgt];
      [|rewrite existsb_none; [done|]; intros i a b Hi Hw; pose proof (Hin i a b Hi Hw); lia]).
  - cbn in Hf. lia.
  - rewrite Z.quot_div_nonneg by lia. set (mid := (min + max) / 2).
    assert (min <= mid <= max) as Hm by (unfold mid; zlia).
    destruct (zlookup_Some table mid) as [[a b] Hab]; [lia|]. rewrite Hab.
    rewrite Nat2Z.inj_succ, Z.pow_succ_r in Hf by lia. destruct Ht as [Hne Hasc]. pose proof (Hne mid a b Hab).
    destruct (Z.ltb_spec b ucs); [|destruct (Z.ltb_spec ucs a)].
    + apply IH; [lia|lia|unfold mid; zlia|]. intros i c d Hi Hw. pose proof (Hin i c d Hi Hw).
      destruct (Z.lt_trichotomy i mid) as [Hlt|[->|]]; [|rewrite Hab in Hi; injection Hi as <- <-; lia|lia].
      pose proof (Hasc i mid c d a b Hlt Hi Hab). lia.
    + apply IH; [lia|lia|unfold mid; zlia|]. intros i c d Hi Hw. pose proof (Hin i c d Hi Hw).
      destruct (Z.lt_trichotomy i mid) as [|[->|Hlt]]; [lia|rewrite Hab in Hi; injection Hi as <- <-; lia|].
      pose proof (Hasc mid i a b c d Hlt Hab Hi). lia.
    + symmetry. f_equal. apply existsb_zlookup. exists mid, a, b. split; [done|lia].
Qed.

Lemma bisearch_spec fuel ucs table : ascending table → (0 < length table)%nat → Z.of_nat (length table) < 2 ^ Z.of_nat fuel →
  bisearch fuel ucs table (Z.of_nat (length table) - 1) = Some (existsb (within ucs) table).
Proof.
  intros Ht Hl Hf. unfold bisearch.
  destruct (zlookup_Some table 0) as [[a b] Ha]; [lia|]. destruct (zlookup_Some table (Z.of_nat (length table) - 1)) as [[c d] Hc]; [lia|].
  rewrite Ha, Hc. destruct (_ || _) eqn:E.
  - rewrite existsb_none; [done|]. intros i e f Hi Hw. pose proof (zlookup_range _ _ _ Hi). destruct Ht as [Hne Hasc].
    apply orb_true_iff in E. rewrite !Z.ltb_lt in E. destruct E as [E|E].
    + destruct (Z.eq_dec i 0) as [->|]; [rewrite Ha in Hi; injection Hi as <- <-; lia|].
      pose proof (Hasc 0 i a b e f ltac:(lia) Ha Hi). pose proof (Hne 0 a b Ha). lia.
    + destruct (Z.eq_dec i (Z.of_nat (length table) - 1)) as [->|]; [rewrite Hc in Hi; injection Hi as <- <-; lia|].
      pose proof (Hasc i (Z.of_nat (length table) - 1) e f c d ltac:(lia) Hi Hc). pose proof (Hne _ c d Hc). lia.
  - apply bisearch_loop_spec; [done|lia|lia|lia|]. intros i e f Hi _. pose proof (zlookup_range _ _ _ Hi). lia.
Qed.

Lemma combining_ascending : ascending combining.
Proof. apply (ascending_from_ascending 0). reflexivity. Qed.

(** the width of a character: nothing for the null and the combining
    characters, two columns for the wide ones, one for everything else; the
    search of the table never leaves it. *)
Theorem mk_wcwidth_correct ucs : mk_wcwidth ucs =
  Some (if ucs =? 0 then 0
        else if (ucs <? 32) || ((0x7f <=? ucs) && (ucs <? 0xa0)) then 1
        else if existsb (within ucs) combining then 0 else 1 + Z.b2z (is_wide ucs)).
Proof.
  unfold mk_wcwidth. destruct (ucs =? 0); [done|]. destruct (_ || _); [done|].
  rewrite bisearch_spec; [by destruct (existsb _ _)|apply combining_ascending|cbn; lia|].
  change (Z.of_nat (length combining)) with 142. cbn. lia.
Qed.

Lemma mk_wcwidth_total ucs : ∃ w, mk_wcwidth ucs = Some w ∧ 0 <= w <= 2.
Proof.
  rewrite mk_wcwidth_correct. eexists. split; [done|].
  destruct (_ =? _); [lia|]. destruct (_ || _); [lia|]. destruct (existsb _ _); [lia|]. destruct (is_wide ucs); cbn; lia.
Qed.

Lemma switch_cases cases x v : switch cases x = Some v → (x, v) ∈ cases.
Proof.
  induction cases as [|[k w] cases IH]; cbn [switch]; [done|]. destruct (Z.eqb_spec x k) as [->|].
  - intros [= ->]. by left.
  - intros H. right. by apply IH.
Qed.

(** Every glyph the tables name is one of the font. *)
Lemma switch_range cases x v : Forall (λ '(_, v), 0 <= v < 256) cases → switch cases x = Some v → 0 <= v < 256.
Proof. intros Hf Hs. apply switch_cases in Hs. rewrite Forall_forall in Hf. apply list_elem_of_In in Hs. exact (Hf _ Hs). Qed.

(** ** The built-in font ([kernel/terminal/src/flanterm_backends/fb.c])

    256 glyphs of 16 rows, a byte per row. *)

Definition builtin_font_1 : list Z :=
  [ 0; 0; 0; 0; 0; 0; 0; 0; 0; 0; 0; 0; 0; 0; 0; 0;
    0; 0x3c; 0x42; 0x81; 0x81; 0xa5; 0xa5; 0x81; 0x81; 0xa5; 0x99; 0x81; 0x42; 0x3c; 0; 0;
    0; 0x3c; 0x7e; 0xff; 0xff; 0xdb; 0xdb; 0xff; 0xff; 0xdb; 0xe7; 0xff; 0x7e; 0x3c; 0; 0;
    0; 0; 0; 0x6c; 0xfe; 0xfe; 0xfe; 0x7c; 0x7c; 0x38; 0x38; 0x10; 0x10; 0; 0; 0;
    0; 0x10; 0x10; 0x38; 0x38; 0x7c; 0x7c; 0xfe; 0x7c; 0x7c; 0x38; 0x38; 0x10; 0x10; 0; 0;
    0; 0; 0; 0x18; 0x3c; 0x3c; 0xdb; 0xff; 0xff; 0xdb; 0x18; 0x18; 0x3c; 0; 0; 0;
    0; 0; 0; 0x18; 0x3c; 0x7e; 0xff; 0xff; 0xff; 0x66; 0x18; 0x18; 0x3c; 0; 0; 0;
    0; 0; 0; 0; 0; 0; 0x30; 0x78; 0x78; 0x30; 0; 0; 0; 0; 0; 0;
    0xff; 0xff; 0xff; 0xff; 0xff; 0xff; 0xe7; 0xc3; 0xc3; 0xe7; 0xff; 0xff; 0xff; 0xff; 0xff; 0xff;
    0; 0; 0; 0; 0; 0x78; 0xcc; 0x84; 0x84; 0xcc; 0x78; 0; 0; 0; 0; 0;
    0xff; 0xff; 0xff; 0xff; 0xff; 0xc3; 0x99; 0xbd; 0xbd; 0x99; 0xc3; 0xff; 0xff; 0xff; 0xff; 0xff;
    0; 0; 0; 0x1e; 0x0e; 0x1e; 0x32; 0x78; 0xcc; 0xcc; 0xcc; 0x78; 0; 0; 0; 0;
    0; 0; 0; 0x78; 0xcc; 0xcc; 0xcc; 0x78; 0x30; 0xfc; 0x30; 0x30; 0; 0; 0; 0;
    0; 0; 0x10; 0x18; 0x1c; 0x1e; 0x16; 0x12; 0x10; 0x10; 0x70; 0xf0; 0xe0; 0; 0; 0;
    0; 0x30; 0x38; 0x2c; 0x26; 0x32; 0x3a; 0x2e; 0x26; 0x22; 0x62; 0xe2; 0xc6; 0x0e; 0x0c; 0;
    0; 0; 0; 0x18; 0x18; 0xdb; 0x3c; 0xe7; 0x3c; 0xdb; 0x18; 0x18; 0; 0; 0; 0;
    0; 0; 0; 0x80; 0xc0; 0xe0; 0xf8; 0xfe; 0xf8; 0xe0; 0xc0; 0x80; 0; 0; 0; 0;
    0; 0; 0; 0x02; 0x06; 0x0e; 0x3e; 0xfe; 0x3e; 0x0e; 0x06; 0x02; 0; 0; 0; 0;
    0; 0; 0x30; 0x78; 0xfc; 0x30; 0x30; 0x30; 0x30; 0x30; 0xfc; 0x78; 0x30; 0; 0; 0;
    0; 0; 0xcc; 0xcc; 0xcc; 0xcc; 0xcc; 0xcc; 0xcc; 0xcc; 0; 0xcc; 0xcc; 0; 0; 0;
    0; 0; 0x7f; 0xdb; 0xdb; 0xdb; 0xdb; 0x7b; 0x1b; 0x1b; 0x1b; 0x1b; 0x1b; 0; 0; 0;
    0; 0; 0x7c; 0xc6; 0x60; 0x38; 0x6c; 0xc6; 0xc6; 0x6c; 0x38; 0x0c; 0xc6; 0x7c; 0; 0;
    0; 0; 0; 0; 0; 0; 0; 0; 0; 0; 0xfe; 0xfe; 0xfe; 0; 0; 0;
    0; 0; 0x30; 0x78; 0xfc; 0x30; 0x30; 0x30; 0x30; 0x30; 0xfc; 0x78; 0x30; 0xfc; 0; 0;
    0; 0; 0x30; 0x78; 0xfc; 0x30; 0x30; 0x30; 0x30; 0x30; 0x30; 0x30; 0x30; 0; 0; 0;
    0; 0; 0x30; 0x30; 0x30; 0x30; 0x30; 0x30; 0x30; 0x30; 0xfc; 0x78; 0x30; 0; 0; 0;
    0; 0; 0; 0; 0; 0x18; 0x0c; 0xfe; 0xfe; 0x0c; 0x18; 0; 0; 0; 0; 0;
    0; 0; 0; 0; 0; 0x30; 0x60; 0xfe; 0xfe; 0x60; 0x30; 0; 0; 0; 0; 0;
    0; 0; 0; 0; 0; 0; 0; 0xc0; 0xc0; 0xc0; 0xfe; 0; 0; 0; 0; 0;
    0; 0; 0; 0; 0; 0x24; 0x66; 0xff; 0xff; 0x66; 0x24; 0; 0; 0; 0; 0;
    0; 0; 0; 0; 0x10; 0x10; 0x38; 0x38; 0x7c; 0x7c; 0xfe; 0xfe; 0; 0; 0; 0;
    0; 0; 0; 0; 0xfe; 0xfe; 0x7c; 0x7c; 0x38; 0x38; 0x10; 0x10; 0; 0; 0; 0;
    0; 0; 0; 0; 0; 0; 0; 0; 0; 0; 0; 0; 0; 0; 0; 0;
    0; 0; 0x30; 0x78; 0x78; 0x78; 0x78; 0x30; 0x30; 0x30; 0; 0x30; 0x30; 0; 0; 0;
    0; 0; 0xcc; 0xcc; 0xcc; 0xcc; 0xcc; 0; 0; 0; 0; 0; 0; 0; 0; 0;
    0; 0; 0x6c; 0x6c; 0x6c; 0xfe; 0x6c; 0x6c; 0x6c; 0xfe; 0x6c; 0x6c; 0x6c; 0; 0; 0;
    0; 0x18; 0x18; 0x7c; 0xc6; 0xc0; 0xc0; 0x7c; 0x06; 0x06; 0xc6; 0x7c; 0x18; 0x18; 0; 0;
    0; 0; 0xc6; 0xc6; 0x0c; 0x0c; 0x18; 0x38; 0x30; 0x60; 0x60; 0xc6; 0xc6; 0; 0; 0;
    0; 0; 0x38; 0x6c; 0x6c; 0x38; 0x30; 0x76; 0xde; 0xcc; 0xcc; 0xde; 0x76; 0; 0; 0;
    0; 0; 0x18; 0x18; 0x18; 0x30; 0; 0; 0; 0; 0; 0; 0; 0; 0; 0;
    0; 0; 0x18; 0x30; 0x60; 0x60; 0x60; 0x60; 0x60; 0x60; 0x60; 0x30; 0x18; 0; 0; 0;
    0; 0; 0x60; 0x30; 0x18; 0x18; 0x18; 0x18; 0x18; 0x18; 0x18; 0x30; 0x60; 0; 0; 0;
    0; 0; 0; 0; 0; 0x6c; 0x38; 0xfe; 0x38; 0x6c; 0; 0; 0; 0; 0; 0;
    0; 0; 0; 0; 0; 0x18; 0x18; 0x7e; 0x18; 0x18; 0; 0; 0; 0; 0; 0;
    0; 0; 0; 0; 0; 0; 0; 0; 0; 0; 0; 0x18; 0x18; 0x30; 0; 0;
    0; 0; 0; 0; 0; 0; 0; 0xfe; 0; 0; 0; 0; 0; 0; 0; 0;
    0; 0; 0; 0; 0; 0; 0; 0; 0; 0; 0; 0x18; 0x18; 0; 0; 0;
    0; 0; 0x06; 0x06; 0x0c; 0x0c; 0x18; 0x38; 0x30; 0x60; 0x60; 0xc0; 0xc0; 0; 0; 0;
    0; 0; 0x7c; 0xc6; 0xc6; 0xc6; 0xd6; 0xd6; 0xd6; 0xc6; 0xc6; 0xc6; 0x7c; 0; 0; 0;
    0; 0; 0x18; 0x38; 0x78; 0x18; 0x18; 0x18; 0x18; 0x18; 0x18; 0x18; 0x7e; 0; 0; 0;
    0; 0; 0x7c; 0xc6; 0x06; 0x06; 0x0c; 0x18; 0x30; 0x60; 0xc0; 0xc0; 0xfe; 0; 0; 0;
    0; 0; 0x7c; 0xc6; 0x06; 0x06; 0x3c; 0x06; 0x06; 0x06; 0x06; 0xc6; 0x7c; 0; 0; 0;
    0; 0; 0x04; 0x0c; 0x1c; 0x3c; 0x6c; 0xcc; 0xfe; 0x0c; 0x0c; 0x0c; 0x0c; 0; 0; 0;
    0; 0; 0xfe; 0xc0; 0xc0; 0xc0; 0xfc; 0x06; 0x06; 0x06; 0x06; 0xc6; 0x7c; 0; 0; 0;
    0; 0; 0x3c; 0x60; 0xc0; 0xc0; 0xfc; 0xc6; 0xc6; 0xc6; 0xc6; 0xc6; 0x7c; 0; 0; 0;
    0; 0; 0xfe; 0xc6; 0x06; 0x06; 0x0c; 0x18; 0x30; 0x30; 0x30; 0x30; 0x30; 0; 0; 0;
    0; 0; 0x7c; 0xc6; 0xc6; 0xc6; 0x7c; 0xc6; 0xc6; 0xc6; 0xc6; 0xc6; 0x7c; 0; 0; 0;
    0; 0; 0x7c; 0xc6; 0xc6; 0xc6; 0xc6; 0x7e; 0x06; 0x06; 0x06; 0x0c; 0x78; 0; 0; 0;
    0; 0; 0; 0; 0; 0; 0; 0x18; 0x18; 0; 0; 0x18; 0x18; 0; 0; 0;
    0; 0; 0; 0; 0; 0; 0; 0x18; 0x18; 0; 0; 0x18; 0x18; 0x30; 0; 0;
    0; 0; 0x06; 0x0c; 0x18; 0x30; 0x60; 0xc0; 0x60; 0x30; 0x18; 0x0c; 0x06; 0; 0; 0;
    0; 0; 0; 0; 0; 0; 0xfe; 0; 0xfe; 0; 0; 0; 0; 0; 0; 0;
    0; 0; 0xc0; 0x60; 0x30; 0x18; 0x0c; 0x06; 0x0c; 0x18; 0x30; 0x60; 0xc0; 0; 0; 0;
    0; 0; 0x7c; 0xc6; 0xc6; 0x06; 0x0c; 0x18; 0x30; 0x30; 0; 0x30; 0x30; 0; 0; 0;
    0; 0; 0x7c; 0xc6; 0xc6; 0xc6; 0xde; 0xde; 0xde; 0xde; 0xc0; 0xc0; 0x7e; 0; 0; 0;
    0; 0; 0x38; 0x6c; 0xc6; 0xc6; 0xc6; 0xc6; 0xfe; 0xc6; 0xc6; 0xc6; 0xc6; 0; 0; 0;
    0; 0; 0xfc; 0xc6; 0xc6; 0xc6; 0xfc; 0xc6; 0xc6; 0xc6; 0xc6; 0xc6; 0xfc; 0; 0; 0;
    0; 0; 0x7c; 0xc6; 0xc0; 0xc0; 0xc0; 0xc0; 0xc0; 0xc0; 0xc0; 0xc6; 0x7c; 0; 0; 0;
    0; 0; 0xf8; 0xcc; 0xc6; 0xc6; 0xc6; 0xc6; 0xc6; 0xc6; 0xc6; 0xcc; 0xf8; 0; 0; 0;
    0; 0; 0xfe; 0xc0; 0xc0; 0xc0; 0xfc; 0xc0; 0xc0; 0xc0; 0xc0; 0xc0; 0xfe; 0; 0; 0;
    0; 0; 0xfe; 0xc0; 0xc0; 0xc0; 0xfc; 0xc0; 0xc0; 0xc0; 0xc0; 0xc0; 0xc0; 0; 0; 0;
    0; 0; 0x7c; 0xc6; 0xc0; 0xc0; 0xc0; 0xde; 0xc6; 0xc6; 0xc6; 0xc6; 0x7e; 0; 0; 0;
    0; 0; 0xc6; 0xc6; 0xc6; 0xc6; 0xc6; 0xfe; 0xc6; 0xc6; 0xc6; 0xc6; 0xc6; 0; 0; 0;
    0; 0; 0xfc; 0x30; 0x30; 0x30; 0x30; 0x30; 0x30; 0x30; 0x30; 0x30; 0xfc; 0; 0; 0;
    0; 0; 0x1e; 0x0c; 0x0c; 0x0c; 0x0c; 0x0c; 0x0c; 0x0c; 0xcc; 0xcc; 0x78; 0; 0; 0;
    0; 0; 0xc6; 0xc6; 0xcc; 0xd8; 0xf0; 0xe0; 0xf0; 0xd8; 0xcc; 0xc6; 0xc6; 0; 0; 0;
    0; 0; 0xc0; 0xc0; 0xc0; 0xc0; 0xc0; 0xc0; 0xc0; 0xc0; 0xc0; 0xc0; 0xfe; 0; 0; 0;
    0; 0; 0xc6; 0xc6; 0xee; 0xfe; 0xd6; 0xd6; 0xd6; 0xc6; 0xc6; 0xc6; 0xc6; 0; 0; 0;
    0; 0; 0xc6; 0xc6; 0xe6; 0xe6; 0xf6; 0xde; 0xce; 0xce; 0xc6; 0xc6; 0xc6; 0; 0; 0;
    0; 0; 0x7c; 0xc6; 0xc6; 0xc6; 0xc6; 0xc6; 0xc6; 0xc6; 0xc6; 0xc6; 0x7c; 0; 0; 0;
    0; 0; 0xfc; 0xc6; 0xc6; 0xc6; 0xc6; 0xfc; 0xc0; 0xc0; 0xc0; 0xc0; 0xc0; 0; 0; 0;
    0; 0; 0x7c; 0xc6; 0xc6; 0xc6; 0xc6; 0xc6; 0xc6; 0xc6; 0xf6; 0xda; 0x6c; 0x06; 0; 0;
    0; 0; 0xfc; 0xc6; 0xc6; 0xc6; 0xc6; 0xfc; 0xd8; 0xcc; 0xcc; 0xc6; 0xc6; 0; 0; 0;
    0; 0; 0x7c; 0xc6; 0xc0; 0x60; 0x30; 0x18; 0x0c; 0x06; 0x06; 0xc6; 0x7c; 0; 0; 0;
    0; 0; 0xff; 0x18; 0x18; 0x18; 0x18; 0x18; 0x18; 0x18; 0x18; 0x18; 0x18; 0; 0; 0;
    0; 0; 0xc6; 0xc6; 0xc6; 0xc6; 0xc6; 0xc6; 0xc6; 0xc6; 0xc6; 0xc6; 0x7c; 0; 0; 0;
    0; 0; 0xc6; 0xc6 ].

Definition builtin_font_2 : list Z :=
  [ 0xc6; 0xc6; 0xc6; 0xc6; 0xc6; 0xc6; 0x6c; 0x38; 0x10; 0; 0; 0; 0; 0; 0xc6; 0xc6;
    0xc6; 0xc6; 0xd6; 0xd6; 0xd6; 0xd6; 0xfe; 0x6c; 0x6c; 0; 0; 0; 0; 0; 0xc6; 0xc6;
    0xc6; 0x6c; 0x38; 0x38; 0x38; 0x6c; 0xc6; 0xc6; 0xc6; 0; 0; 0; 0; 0; 0xcc; 0xcc;
    0xcc; 0xcc; 0xcc; 0x78; 0x30; 0x30; 0x30; 0x30; 0x30; 0; 0; 0; 0; 0; 0xfe; 0x06;
    0x06; 0x0c; 0x18; 0x30; 0x60; 0xc0; 0xc0; 0xc0; 0xfe; 0; 0; 0; 0; 0; 0x78; 0x60;
    0x60; 0x60; 0x60; 0x60; 0x60; 0x60; 0x60; 0x60; 0x78; 0; 0; 0; 0; 0; 0xc0; 0xc0;
    0x60; 0x60; 0x30; 0x38; 0x18; 0x0c; 0x0c; 0x06; 0x06; 0; 0; 0; 0; 0; 0x78; 0x18;
    0x18; 0x18; 0x18; 0x18; 0x18; 0x18; 0x18; 0x18; 0x78; 0; 0; 0; 0; 0; 0x10; 0x38;
    0x6c; 0xc6; 0; 0; 0; 0; 0; 0; 0; 0; 0; 0; 0; 0; 0; 0;
    0; 0; 0; 0; 0; 0; 0; 0; 0; 0; 0xff; 0; 0; 0; 0x18; 0x18;
    0x18; 0x0c; 0; 0; 0; 0; 0; 0; 0; 0; 0; 0; 0; 0; 0; 0;
    0; 0x7c; 0x06; 0x06; 0x7e; 0xc6; 0xc6; 0xc6; 0x7e; 0; 0; 0; 0; 0; 0xc0; 0xc0;
    0xc0; 0xdc; 0xe6; 0xc6; 0xc6; 0xc6; 0xc6; 0xe6; 0xdc; 0; 0; 0; 0; 0; 0; 0;
    0; 0x7c; 0xc6; 0xc0; 0xc0; 0xc0; 0xc0; 0xc6; 0x7c; 0; 0; 0; 0; 0; 0x06; 0x06;
    0x06; 0x76; 0xce; 0xc6; 0xc6; 0xc6; 0xc6; 0xce; 0x76; 0; 0; 0; 0; 0; 0; 0;
    0; 0x7c; 0xc6; 0xc6; 0xfe; 0xc0; 0xc0; 0xc0; 0x7e; 0; 0; 0; 0; 0; 0x1c; 0x36;
    0x30; 0x30; 0xfc; 0x30; 0x30; 0x30; 0x30; 0x30; 0x30; 0; 0; 0; 0; 0; 0; 0;
    0; 0x76; 0xce; 0xc6; 0xc6; 0xc6; 0xce; 0x76; 0x06; 0xc6; 0x7c; 0; 0; 0; 0xc0; 0xc0;
    0xc0; 0xdc; 0xe6; 0xc6; 0xc6; 0xc6; 0xc6; 0xc6; 0xc6; 0; 0; 0; 0; 0; 0x18; 0;
    0; 0x38; 0x18; 0x18; 0x18; 0x18; 0x18; 0x18; 0x3c; 0; 0; 0; 0; 0; 0x06; 0;
    0; 0x1e; 0x06; 0x06; 0x06; 0x06; 0x06; 0x06; 0xc6; 0xc6; 0x7c; 0; 0; 0; 0xc0; 0xc0;
    0xc0; 0xc6; 0xcc; 0xd8; 0xf0; 0xf0; 0xd8; 0xcc; 0xc6; 0; 0; 0; 0; 0; 0x38; 0x18;
    0x18; 0x18; 0x18; 0x18; 0x18; 0x18; 0x18; 0x18; 0x3c; 0; 0; 0; 0; 0; 0; 0;
    0; 0xec; 0xfe; 0xd6; 0xd6; 0xd6; 0xd6; 0xc6; 0xc6; 0; 0; 0; 0; 0; 0; 0;
    0; 0xdc; 0xe6; 0xc6; 0xc6; 0xc6; 0xc6; 0xc6; 0xc6; 0; 0; 0; 0; 0; 0; 0;
    0; 0x7c; 0xc6; 0xc6; 0xc6; 0xc6; 0xc6; 0xc6; 0x7c; 0; 0; 0; 0; 0; 0; 0;
    0; 0xdc; 0xe6; 0xc6; 0xc6; 0xc6; 0xe6; 0xdc; 0xc0; 0xc0; 0xc0; 0; 0; 0; 0; 0;
    0; 0x76; 0xce; 0xc6; 0xc6; 0xc6; 0xce; 0x76; 0x06; 0x06; 0x06; 0; 0; 0; 0; 0;
    0; 0xdc; 0xe6; 0xc0; 0xc0; 0xc0; 0xc0; 0xc0; 0xc0; 0; 0; 0; 0; 0; 0; 0;
    0; 0x7c; 0xc6; 0xc0; 0x70; 0x1c; 0x06; 0xc6; 0x7c; 0; 0; 0; 0; 0; 0x30; 0x30;
    0x30; 0xfe; 0x30; 0x30; 0x30; 0x30; 0x30; 0x36; 0x1c; 0; 0; 0; 0; 0; 0; 0;
    0; 0xc6; 0xc6; 0xc6; 0xc6; 0xc6; 0xc6; 0xc6; 0x7c; 0; 0; 0; 0; 0; 0; 0;
    0; 0xc6; 0xc6; 0xc6; 0xc6; 0xc6; 0x6c; 0x38; 0x10; 0; 0; 0; 0; 0; 0; 0;
    0; 0xc6; 0xc6; 0xd6; 0xd6; 0xd6; 0xd6; 0xfe; 0x6c; 0; 0; 0; 0; 0; 0; 0;
    0; 0xc6; 0xc6; 0x6c; 0x38; 0x38; 0x6c; 0xc6; 0xc6; 0; 0; 0; 0; 0; 0; 0;
    0; 0xc6; 0xc6; 0xc6; 0xc6; 0xc6; 0xce; 0x76; 0x06; 0xc6; 0x7c; 0; 0; 0; 0; 0;
    0; 0xfe; 0x06; 0x0c; 0x18; 0x30; 0x60; 0xc0; 0xfe; 0; 0; 0; 0; 0; 0x1c; 0x30;
    0x30; 0x30; 0x30; 0xe0; 0x30; 0x30; 0x30; 0x30; 0x1c; 0; 0; 0; 0; 0; 0x30; 0x30;
    0x30; 0x30; 0x30; 0; 0x30; 0x30; 0x30; 0x30; 0x30; 0; 0; 0; 0; 0; 0xe0; 0x30;
    0x30; 0x30; 0x30; 0x1c; 0x30; 0x30; 0x30; 0x30; 0xe0; 0; 0; 0; 0; 0; 0; 0x76;
    0xdc; 0; 0; 0; 0; 0; 0; 0; 0; 0; 0; 0; 0; 0; 0; 0x10;
    0x10; 0x38; 0x38; 0x6c; 0x6c; 0xc6; 0xc6; 0xfe; 0; 0; 0; 0; 0; 0; 0x3c; 0x66;
    0xc0; 0xc0; 0xc0; 0xc0; 0xc0; 0xc0; 0x66; 0x3c; 0x18; 0xcc; 0x78; 0; 0; 0; 0x6c; 0x6c;
    0; 0xc6; 0xc6; 0xc6; 0xc6; 0xc6; 0xc6; 0xc6; 0x7c; 0; 0; 0; 0; 0x0c; 0x18; 0x30;
    0; 0x7c; 0xc6; 0xc6; 0xfe; 0xc0; 0xc0; 0xc0; 0x7e; 0; 0; 0; 0; 0x10; 0x38; 0x6c;
    0; 0x7c; 0x06; 0x06; 0x7e; 0xc6; 0xc6; 0xc6; 0x7e; 0; 0; 0; 0; 0; 0x6c; 0x6c;
    0; 0x7c; 0x06; 0x06; 0x7e; 0xc6; 0xc6; 0xc6; 0x7e; 0; 0; 0; 0; 0x60; 0x30; 0x18;
    0; 0x7c; 0x06; 0x06; 0x7e; 0xc6; 0xc6; 0xc6; 0x7e; 0; 0; 0; 0; 0x38; 0x6c; 0x38;
    0; 0x7c; 0x06; 0x06; 0x7e; 0xc6; 0xc6; 0xc6; 0x7e; 0; 0; 0; 0; 0; 0; 0;
    0; 0x7c; 0xc6; 0xc0; 0xc0; 0xc0; 0xc0; 0xc6; 0x7c; 0x18; 0x0c; 0x38; 0; 0x10; 0x38; 0x6c;
    0; 0x7c; 0xc6; 0xc6; 0xfe; 0xc0; 0xc0; 0xc0; 0x7e; 0; 0; 0; 0; 0; 0x6c; 0x6c;
    0; 0x7c; 0xc6; 0xc6; 0xfe; 0xc0; 0xc0; 0xc0; 0x7e; 0; 0; 0; 0; 0x60; 0x30; 0x18;
    0; 0x7c; 0xc6; 0xc6; 0xfe; 0xc0; 0xc0; 0xc0; 0x7e; 0; 0; 0; 0; 0; 0x6c; 0x6c;
    0; 0x38; 0x18; 0x18; 0x18; 0x18; 0x18; 0x18; 0x3c; 0; 0; 0; 0; 0x10; 0x38; 0x6c;
    0; 0x38; 0x18; 0x18; 0x18; 0x18; 0x18; 0x18; 0x3c; 0; 0; 0; 0; 0x60; 0x30; 0x18;
    0; 0x38; 0x18; 0x18; 0x18; 0x18; 0x18; 0x18; 0x3c; 0; 0; 0; 0xc6; 0xc6; 0x10; 0x38;
    0x6c; 0xc6; 0xc6; 0xc6; 0xfe; 0xc6; 0xc6; 0xc6; 0xc6; 0; 0; 0; 0x38; 0x6c; 0x38; 0;
    0x38; 0x6c; 0xc6; 0xc6; 0xc6; 0xfe; 0xc6; 0xc6; 0xc6; 0; 0; 0; 0x18; 0x30; 0x60; 0;
    0xfe; 0xc0; 0xc0; 0xfc; 0xc0; 0xc0; 0xc0; 0xc0; 0xfe; 0; 0; 0; 0; 0; 0; 0;
    0; 0xec; 0x36; 0x36; 0x76; 0xde; 0xd8; 0xd8; 0x6e; 0; 0; 0; 0; 0; 0x1e; 0x3c;
    0x6c; 0xcc; 0xcc; 0xfe; 0xcc; 0xcc; 0xcc; 0xcc; 0xce; 0; 0; 0; 0; 0x10; 0x38; 0x6c;
    0; 0x7c; 0xc6; 0xc6; 0xc6; 0xc6; 0xc6; 0xc6; 0x7c; 0; 0; 0; 0; 0; 0x6c; 0x6c;
    0; 0x7c; 0xc6; 0xc6; 0xc6; 0xc6; 0xc6; 0xc6; 0x7c; 0; 0; 0; 0; 0x60; 0x30; 0x18;
    0; 0x7c; 0xc6; 0xc6; 0xc6; 0xc6; 0xc6; 0xc6; 0x7c; 0; 0; 0; 0; 0x10; 0x38; 0x6c;
    0; 0xc6; 0xc6; 0xc6; 0xc6; 0xc6; 0xc6; 0xc6; 0x7c; 0; 0; 0; 0; 0x60; 0x30; 0x18;
    0; 0xc6; 0xc6; 0xc6; 0xc6; 0xc6; 0xc6; 0xc6; 0x7c; 0; 0; 0; 0; 0; 0x6c; 0x6c;
    0; 0xc6; 0xc6; 0xc6; 0xc6; 0xc6; 0xce; 0x76; 0x06; 0xc6; 0x7c; 0; 0x6c; 0x6c; 0; 0x7c;
    0xc6; 0xc6; 0xc6; 0xc6; 0xc6; 0xc6; 0xc6; 0xc6; 0x7c; 0; 0; 0; 0x6c; 0x6c; 0; 0xc6;
    0xc6; 0xc6; 0xc6; 0xc6; 0xc6; 0xc6; 0xc6; 0xc6; 0x7c; 0; 0; 0; 0; 0; 0; 0x30;
    0x30; 0x78; 0xcc; 0xc0; 0xc0; 0xcc; 0x78; 0x30; 0x30; 0; 0; 0; 0; 0; 0x38; 0x6c;
    0x60; 0x60; 0x60; 0xf8; 0x60; 0x60; 0x60; 0xe6; 0xfc; 0; 0; 0; 0; 0; 0xcc; 0xcc;
    0xcc; 0x78; 0x30; 0xfc; 0x30; 0xfc; 0x30; 0x30; 0x30; 0; 0; 0; 0; 0; 0xf8; 0xcc;
    0xcc; 0xf8; 0xc4; 0xcc; 0xde; 0xcc; 0xcc; 0xcc; 0xc6; 0; 0; 0; 0; 0; 0x0e; 0x1b;
    0x18; 0x18; 0x18; 0x7e; 0x18; 0x18; 0x18; 0x18; 0x18; 0xd8; 0x70; 0; 0; 0x0c; 0x18; 0x30;
    0; 0x7c; 0x06; 0x06; 0x7e; 0xc6; 0xc6; 0xc6; 0x7e; 0; 0; 0; 0; 0x0c; 0x18; 0x30;
    0; 0x38; 0x18; 0x18; 0x18; 0x18; 0x18; 0x18; 0x3c; 0; 0; 0; 0; 0x0c; 0x18; 0x30;
    0; 0x7c; 0xc6; 0xc6; 0xc6; 0xc6; 0xc6; 0xc6; 0x7c; 0; 0; 0; 0; 0x0c; 0x18; 0x30;
    0; 0xc6; 0xc6; 0xc6; 0xc6; 0xc6; 0xc6; 0xc6; 0x7c; 0; 0; 0; 0; 0x76; 0xdc; 0;
    0; 0xdc; 0xe6; 0xc6; 0xc6; 0xc6; 0xc6; 0xc6; 0xc6; 0; 0; 0; 0x76; 0xdc; 0; 0xc6;
    0xc6; 0xe6; 0xf6; 0xfe; 0xde; 0xce; 0xc6; 0xc6; 0xc6; 0; 0; 0; 0; 0x78; 0xd8; 0xd8;
    0x6c; 0; 0xfc; 0; 0; 0; 0; 0; 0; 0; 0; 0; 0; 0x38; 0x6c; 0x6c;
    0x38; 0; 0x7c; 0; 0; 0; 0; 0; 0; 0; 0; 0; 0; 0; 0x18; 0x18;
    0; 0x18; 0x18; 0x30; 0x60; 0xc0; 0xc6; 0xc6; 0x7c; 0; 0; 0; 0; 0; 0; 0;
    0; 0; 0; 0; 0xfe; 0xc0; 0xc0; 0xc0; 0; 0; 0; 0; 0; 0; 0; 0;
    0; 0; 0; 0; 0xfe; 0x06; 0x06; 0x06; 0; 0; 0; 0; 0; 0; 0xc0; 0xc2;
    0xc6; 0xcc; 0xd8; 0x30; 0x60; 0xdc; 0x86; 0x0c; 0x18; 0x3e; 0; 0; 0; 0; 0xc0; 0xc2;
    0xc6; 0xcc; 0xd8; 0x30 ].

Definition builtin_font_3 : list Z :=
  [ 0x66; 0xce; 0x9e; 0x3e; 0x06; 0x06; 0; 0; 0; 0; 0x30; 0x30; 0; 0x30; 0x30; 0x30;
    0x78; 0x78; 0x78; 0x78; 0x30; 0; 0; 0; 0; 0; 0; 0; 0; 0x36; 0x6c; 0xd8;
    0x6c; 0x36; 0; 0; 0; 0; 0; 0; 0; 0; 0; 0; 0; 0xd8; 0x6c; 0x36;
    0x6c; 0xd8; 0; 0; 0; 0; 0; 0; 0x22; 0x88; 0x22; 0x88; 0x22; 0x88; 0x22; 0x88;
    0x22; 0x88; 0x22; 0x88; 0x22; 0x88; 0x22; 0x88; 0x55; 0xaa; 0x55; 0xaa; 0x55; 0xaa; 0x55; 0xaa;
    0x55; 0xaa; 0x55; 0xaa; 0x55; 0xaa; 0x55; 0xaa; 0xdd; 0x77; 0xdd; 0x77; 0xdd; 0x77; 0xdd; 0x77;
    0xdd; 0x77; 0xdd; 0x77; 0xdd; 0x77; 0xdd; 0x77; 0x18; 0x18; 0x18; 0x18; 0x18; 0x18; 0x18; 0x18;
    0x18; 0x18; 0x18; 0x18; 0x18; 0x18; 0x18; 0x18; 0x18; 0x18; 0x18; 0x18; 0x18; 0x18; 0x18; 0xf8;
    0xf8; 0x18; 0x18; 0x18; 0x18; 0x18; 0x18; 0x18; 0x18; 0x18; 0x18; 0x18; 0x18; 0xf8; 0xf8; 0x18;
    0x18; 0xf8; 0xf8; 0x18; 0x18; 0x18; 0x18; 0x18; 0x36; 0x36; 0x36; 0x36; 0x36; 0x36; 0x36; 0xf6;
    0xf6; 0x36; 0x36; 0x36; 0x36; 0x36; 0x36; 0x36; 0; 0; 0; 0; 0; 0; 0; 0xfe;
    0xfe; 0x36; 0x36; 0x36; 0x36; 0x36; 0x36; 0x36; 0; 0; 0; 0; 0; 0xf8; 0xf8; 0x18;
    0x18; 0xf8; 0xf8; 0x18; 0x18; 0x18; 0x18; 0x18; 0x36; 0x36; 0x36; 0x36; 0x36; 0xf6; 0xf6; 0x06;
    0x06; 0xf6; 0xf6; 0x36; 0x36; 0x36; 0x36; 0x36; 0x36; 0x36; 0x36; 0x36; 0x36; 0x36; 0x36; 0x36;
    0x36; 0x36; 0x36; 0x36; 0x36; 0x36; 0x36; 0x36; 0; 0; 0; 0; 0; 0xfe; 0xfe; 0x06;
    0x06; 0xf6; 0xf6; 0x36; 0x36; 0x36; 0x36; 0x36; 0x36; 0x36; 0x36; 0x36; 0x36; 0xf6; 0xf6; 0x06;
    0x06; 0xfe; 0xfe; 0; 0; 0; 0; 0; 0x36; 0x36; 0x36; 0x36; 0x36; 0x36; 0x36; 0xfe;
    0xfe; 0; 0; 0; 0; 0; 0; 0; 0x18; 0x18; 0x18; 0x18; 0x18; 0xf8; 0xf8; 0x18;
    0x18; 0xf8; 0xf8; 0; 0; 0; 0; 0; 0; 0; 0; 0; 0; 0; 0; 0xf8;
    0xf8; 0x18; 0x18; 0x18; 0x18; 0x18; 0x18; 0x18; 0x18; 0x18; 0x18; 0x18; 0x18; 0x18; 0x18; 0x1f;
    0x1f; 0; 0; 0; 0; 0; 0; 0; 0x18; 0x18; 0x18; 0x18; 0x18; 0x18; 0x18; 0xff;
    0xff; 0; 0; 0; 0; 0; 0; 0; 0; 0; 0; 0; 0; 0; 0; 0xff;
    0xff; 0x18; 0x18; 0x18; 0x18; 0x18; 0x18; 0x18; 0x18; 0x18; 0x18; 0x18; 0x18; 0x18; 0x18; 0x1f;
    0x1f; 0x18; 0x18; 0x18; 0x18; 0x18; 0x18; 0x18; 0; 0; 0; 0; 0; 0; 0; 0xff;
    0xff; 0; 0; 0; 0; 0; 0; 0; 0x18; 0x18; 0x18; 0x18; 0x18; 0x18; 0x18; 0xff;
    0xff; 0x18; 0x18; 0x18; 0x18; 0x18; 0x18; 0x18; 0x18; 0x18; 0x18; 0x18; 0x18; 0x1f; 0x1f; 0x18;
    0x18; 0x1f; 0x1f; 0x18; 0x18; 0x18; 0x18; 0x18; 0x36; 0x36; 0x36; 0x36; 0x36; 0x36; 0x36; 0x37;
    0x37; 0x36; 0x36; 0x36; 0x36; 0x36; 0x36; 0x36; 0x36; 0x36; 0x36; 0x36; 0x36; 0x37; 0x37; 0x30;
    0x30; 0x3f; 0x3f; 0; 0; 0; 0; 0; 0; 0; 0; 0; 0; 0x3f; 0x3f; 0x30;
    0x30; 0x37; 0x37; 0x36; 0x36; 0x36; 0x36; 0x36; 0x36; 0x36; 0x36; 0x36; 0x36; 0xf7; 0xf7; 0;
    0; 0xff; 0xff; 0; 0; 0; 0; 0; 0; 0; 0; 0; 0; 0xff; 0xff; 0;
    0; 0xf7; 0xf7; 0x36; 0x36; 0x36; 0x36; 0x36; 0x36; 0x36; 0x36; 0x36; 0x36; 0x37; 0x37; 0x30;
    0x30; 0x37; 0x37; 0x36; 0x36; 0x36; 0x36; 0x36; 0; 0; 0; 0; 0; 0xff; 0xff; 0;
    0; 0xff; 0xff; 0; 0; 0; 0; 0; 0x36; 0x36; 0x36; 0x36; 0x36; 0xf7; 0xf7; 0;
    0; 0xf7; 0xf7; 0x36; 0x36; 0x36; 0x36; 0x36; 0x18; 0x18; 0x18; 0x18; 0x18; 0xff; 0xff; 0;
    0; 0xff; 0xff; 0; 0; 0; 0; 0; 0x36; 0x36; 0x36; 0x36; 0x36; 0x36; 0x36; 0xff;
    0xff; 0; 0; 0; 0; 0; 0; 0; 0; 0; 0; 0; 0; 0xff; 0xff; 0;
    0; 0xff; 0xff; 0x18; 0x18; 0x18; 0x18; 0x18; 0; 0; 0; 0; 0; 0; 0; 0xff;
    0xff; 0x36; 0x36; 0x36; 0x36; 0x36; 0x36; 0x36; 0x36; 0x36; 0x36; 0x36; 0x36; 0x36; 0x36; 0x3f;
    0x3f; 0; 0; 0; 0; 0; 0; 0; 0x18; 0x18; 0x18; 0x18; 0x18; 0x1f; 0x1f; 0x18;
    0x18; 0x1f; 0x1f; 0; 0; 0; 0; 0; 0; 0; 0; 0; 0; 0x1f; 0x1f; 0x18;
    0x18; 0x1f; 0x1f; 0x18; 0x18; 0x18; 0x18; 0x18; 0; 0; 0; 0; 0; 0; 0; 0x3f;
    0x3f; 0x36; 0x36; 0x36; 0x36; 0x36; 0x36; 0x36; 0x36; 0x36; 0x36; 0x36; 0x36; 0x36; 0x36; 0xff;
    0xff; 0x36; 0x36; 0x36; 0x36; 0x36; 0x36; 0x36; 0x18; 0x18; 0x18; 0x18; 0x18; 0xff; 0xff; 0x18;
    0x18; 0xff; 0xff; 0x18; 0x18; 0x18; 0x18; 0x18; 0x18; 0x18; 0x18; 0x18; 0x18; 0x18; 0x18; 0xf8;
    0xf8; 0; 0; 0; 0; 0; 0; 0; 0; 0; 0; 0; 0; 0; 0; 0x1f;
    0x1f; 0x18; 0x18; 0x18; 0x18; 0x18; 0x18; 0x18; 0xff; 0xff; 0xff; 0xff; 0xff; 0xff; 0xff; 0xff;
    0xff; 0xff; 0xff; 0xff; 0xff; 0xff; 0xff; 0xff; 0; 0; 0; 0; 0; 0; 0; 0;
    0xff; 0xff; 0xff; 0xff; 0xff; 0xff; 0xff; 0xff; 0xf0; 0xf0; 0xf0; 0xf0; 0xf0; 0xf0; 0xf0; 0xf0;
    0xf0; 0xf0; 0xf0; 0xf0; 0xf0; 0xf0; 0xf0; 0xf0; 0x0f; 0x0f; 0x0f; 0x0f; 0x0f; 0x0f; 0x0f; 0x0f;
    0x0f; 0x0f; 0x0f; 0x0f; 0x0f; 0x0f; 0x0f; 0x0f; 0xff; 0xff; 0xff; 0xff; 0xff; 0xff; 0xff; 0xff;
    0; 0; 0; 0; 0; 0; 0; 0; 0; 0; 0; 0; 0; 0x76; 0xd6; 0xdc;
    0xc8; 0xc8; 0xdc; 0xd6; 0x76; 0; 0; 0; 0; 0; 0x78; 0xcc; 0xcc; 0xcc; 0xd8; 0xcc;
    0xcc; 0xcc; 0xcc; 0xcc; 0xd8; 0xc0; 0xc0; 0; 0; 0; 0xfe; 0xc6; 0xc6; 0xc0; 0xc0; 0xc0;
    0xc0; 0xc0; 0xc0; 0xc0; 0xc0; 0; 0; 0; 0; 0; 0; 0; 0; 0x7e; 0xfe; 0x24;
    0x24; 0x24; 0x24; 0x66; 0xc6; 0; 0; 0; 0; 0; 0xfe; 0xfe; 0xc2; 0x60; 0x30; 0x18;
    0x30; 0x60; 0xc2; 0xfe; 0xfe; 0; 0; 0; 0; 0; 0; 0; 0; 0x7e; 0xc8; 0xcc;
    0xcc; 0xcc; 0xcc; 0xcc; 0x78; 0; 0; 0; 0; 0; 0; 0; 0; 0x66; 0x66; 0x66;
    0x66; 0x66; 0x66; 0x76; 0x6c; 0x60; 0xc0; 0; 0; 0; 0; 0; 0; 0x66; 0xfc; 0x98;
    0x18; 0x18; 0x18; 0x18; 0x18; 0; 0; 0; 0; 0; 0xfc; 0x30; 0x30; 0x78; 0xcc; 0xcc;
    0xcc; 0x78; 0x30; 0x30; 0xfc; 0; 0; 0; 0; 0; 0x38; 0x6c; 0xc6; 0xc6; 0xc6; 0xfe;
    0xc6; 0xc6; 0xc6; 0x6c; 0x38; 0; 0; 0; 0; 0; 0x38; 0x6c; 0xc6; 0xc6; 0xc6; 0xc6;
    0xc6; 0x6c; 0x6c; 0x6c; 0xee; 0; 0; 0; 0; 0; 0x78; 0xcc; 0x60; 0x30; 0x78; 0xcc;
    0xcc; 0xcc; 0xcc; 0xcc; 0x78; 0; 0; 0; 0; 0; 0; 0; 0; 0x76; 0xbb; 0x99;
    0x99; 0xdd; 0x6e; 0; 0; 0; 0; 0; 0; 0; 0x02; 0x06; 0x3c; 0x6c; 0xce; 0xd6;
    0xd6; 0xe6; 0x6c; 0x78; 0xc0; 0x80; 0; 0; 0; 0; 0x1e; 0x30; 0x60; 0xc0; 0xc0; 0xfe;
    0xc0; 0xc0; 0x60; 0x30; 0x1e; 0; 0; 0; 0; 0; 0x38; 0x6c; 0xc6; 0xc6; 0xc6; 0xc6;
    0xc6; 0xc6; 0xc6; 0xc6; 0xc6; 0; 0; 0; 0; 0; 0; 0; 0xfe; 0; 0; 0xfe;
    0; 0; 0xfe; 0; 0; 0; 0; 0; 0; 0; 0; 0; 0; 0x30; 0x30; 0xfc;
    0x30; 0x30; 0; 0; 0xfc; 0; 0; 0; 0; 0; 0; 0; 0x60; 0x30; 0x18; 0x0c;
    0x18; 0x30; 0x60; 0; 0xfc; 0; 0; 0; 0; 0; 0; 0; 0x18; 0x30; 0x60; 0xc0;
    0x60; 0x30; 0x18; 0; 0xfc; 0; 0; 0; 0; 0; 0x1c; 0x36; 0x36; 0x30; 0x30; 0x30;
    0x30; 0x30; 0x30; 0x30; 0x30; 0x30; 0x30; 0x30; 0x18; 0x18; 0x18; 0x18; 0x18; 0x18; 0x18; 0x18;
    0x18; 0x18; 0xd8; 0xd8; 0x70; 0; 0; 0; 0; 0; 0; 0; 0x30; 0x30; 0; 0xfc;
    0; 0x30; 0x30; 0; 0; 0; 0; 0; 0; 0; 0; 0; 0; 0x76; 0xdc; 0;
    0x76; 0xdc; 0; 0; 0; 0; 0; 0; 0; 0x78; 0xcc; 0xcc; 0xcc; 0x78; 0; 0;
    0; 0; 0; 0; 0; 0; 0; 0; 0; 0; 0; 0; 0; 0; 0; 0x30;
    0x30; 0; 0; 0; 0; 0; 0; 0; 0; 0; 0; 0; 0; 0; 0; 0x30;
    0; 0; 0; 0; 0; 0; 0; 0; 0; 0x0f; 0x0c; 0x0c; 0x0c; 0x0c; 0x0c; 0x0c;
    0x0c; 0xcc; 0x6c; 0x3c; 0x1c; 0x0c; 0; 0; 0; 0xd8; 0xec; 0xcc; 0xcc; 0xcc; 0xcc; 0xcc;
    0; 0; 0; 0; 0; 0; 0; 0; 0; 0x38; 0x6c; 0x0c; 0x18; 0x30; 0x60; 0x7c;
    0; 0; 0; 0; 0; 0; 0; 0; 0; 0; 0; 0; 0x78; 0x78; 0x78; 0x78;
    0x78; 0x78; 0x78; 0; 0; 0; 0; 0; 0; 0; 0; 0; 0; 0; 0; 0;
    0; 0; 0; 0; 0; 0; 0; 0 ].

Definition builtin_font : list Z := builtin_font_1 ++ builtin_font_2 ++ builtin_font_3.
