(* ===== verification/Term.v ===== *)
(** * The terminal emulator ([kernel/terminal/src/flanterm.c])

    Everything the kernel prints goes through [flanterm_write]: a byte-driven
    state machine for UTF-8, escape and control sequences over the operations of
    a back end.  The back end is an interface here ([Backend]); [TermFb] is the
    frame buffer the kernel installs.  A client callback is recorded, not run.
    An index outside of an array stops the machine; [None] is also the end of a
    loop's fuel, which the theorems show is never reached. *)

From Stdlib Require Import ZifyBool.
From stdpp Require Import prelude list numbers tactics.
From S2P Require Import Prelude TermTables.

Definition FLANTERM_MAX_ESC_VALUES : Z := 16.
Definition CHARSET_DEFAULT : Z := 0.
Definition CHARSET_DEC_SPECIAL : Z := 1.
Definition FLANTERM_OOB_OUTPUT_ONLCR : Z := Z.shiftl 1 4.
Definition SIZE_MAX : Z := 2 ^ 64 - 1.

(** The calls of [ctx->callback], with the arguments that vary. *)
Inductive callback_event :=
  | FLANTERM_CB_DEC (values : list Z) (c : Z)
  | FLANTERM_CB_BELL
  | FLANTERM_CB_PRIVATE_ID
  | FLANTERM_CB_STATUS_REPORT
  | FLANTERM_CB_POS_REPORT (x y : Z)
  | FLANTERM_CB_KBD_LEDS (leds : Z)
  | FLANTERM_CB_MODE (values : list Z) (c : Z)
  | FLANTERM_CB_LINUX (values : list Z).

(** [callback] tells whether a callback is set; [calls] are those made. *)
Record flanterm_context := mk_flanterm_context {
  tab_size : Z; autoflush : bool; cursor_enabled : bool; scroll_enabled : bool; control_sequence : bool;
  escape : bool; osc : bool; osc_escape : bool; rrr : bool; discard_next : bool; bold : bool; bg_bold : bool;
  reverse_video : bool; dec_private : bool; insert_mode : bool; csi_unhandled : bool; code_point : Z;
  unicode_remaining : Z; g_select : Z; charsets : list Z; current_charset : Z; escape_offset : Z;
  esc_values_i : Z; saved_cursor_x : Z; saved_cursor_y : Z; current_primary : Z; current_bg : Z;
  scroll_top_margin : Z; scroll_bottom_margin : Z; esc_values : list Z; oob_output : Z;
  saved_state_bold : bool; saved_state_bg_bold : bool; saved_state_reverse_video : bool;
  saved_state_current_charset : Z; saved_state_current_primary : Z; saved_state_current_bg : Z; rows : Z;
  cols : Z; callback : bool; calls : list callback_event
}.

(** A copy with one field changed. *)
Ltac upd p v c :=
  let fld q := first [unify p q; exact v | exact (q c)] in
  refine (mk_flanterm_context _ _ _ _ _ _ _ _ _ _ _ _ _ _ _ _ _ _ _ _ _ _ _ _ _ _ _ _ _ _ _ _ _ _ _ _ _ _ _ _ _);
  [fld tab_size | fld autoflush | fld cursor_enabled | fld scroll_enabled | fld control_sequence | fld escape
  |fld osc | fld osc_escape | fld rrr | fld discard_next | fld bold | fld bg_bold
  |fld reverse_video | fld dec_private | fld insert_mode | fld csi_unhandled | fld code_point | fld unicode_remaining
  |fld g_select | fld charsets | fld current_charset | fld escape_offset | fld esc_values_i | fld saved_cursor_x
  |fld saved_cursor_y | fld current_primary | fld current_bg | fld scroll_top_margin | fld scroll_bottom_margin | fld esc_values
  |fld oob_output | fld saved_state_bold | fld saved_state_bg_bold | fld saved_state_reverse_video | fld saved_state_current_charset | fld saved_state_current_primary
  |fld saved_state_current_bg | fld rows | fld cols | fld callback | fld calls ].

Definition set_tab_size (v : Z) (c : flanterm_context) : flanterm_context := ltac:(upd tab_size v c).
Definition set_autoflush (v : bool) (c : flanterm_context) : flanterm_context := ltac:(upd autoflush v c).
Definition set_cursor_enabled (v : bool) (c : flanterm_context) : flanterm_context := ltac:(upd cursor_enabled v c).
Definition set_scroll_enabled (v : bool) (c : flanterm_context) : flanterm_context := ltac:(upd scroll_enabled v c).
Definition set_control_sequence (v : bool) (c : flanterm_context) : flanterm_context := ltac:(upd control_sequence v c).
Definition set_escape (v : bool) (c : flanterm_context) : flanterm_context := ltac:(upd escape v c).
Definition set_osc (v : bool) (c : flanterm_context) : flanterm_context := ltac:(upd osc v c).
Definition set_osc_escape (v : bool) (c : flanterm_context) : flanterm_context := ltac:(upd osc_escape v c).
Definition set_rrr (v : bool) (c : flanterm_context) : flanterm_context := ltac:(upd rrr v c).
Definition set_discard_next (v : bool) (c : flanterm_context) : flanterm_context := ltac:(upd discard_next v c).
Definition set_bold (v : bool) (c : flanterm_context) : flanterm_context := ltac:(upd bold v c).
Definition set_bg_bold (v : bool) (c : flanterm_context) : flanterm_context := ltac:(upd bg_bold v c).
Definition set_reverse_video (v : bool) (c : flanterm_context) : flanterm_context := ltac:(upd reverse_video v c).
Definition set_dec_private (v : bool) (c : flanterm_context) : flanterm_context := ltac:(upd dec_private v c).
Definition set_insert_mode (v : bool) (c : flanterm_context) : flanterm_context := ltac:(upd insert_mode v c).
Definition set_csi_unhandled (v : bool) (c : flanterm_context) : flanterm_context := ltac:(upd csi_unhandled v c).
Definition set_code_point (v : Z) (c : flanterm_context) : flanterm_context := ltac:(upd code_point v c).
Definition set_unicode_remaining (v : Z) (c : flanterm_context) : flanterm_context := ltac:(upd unicode_remaining v c).
Definition set_g_select (v : Z) (c : flanterm_context) : flanterm_context := ltac:(upd g_select v c).
Definition set_charsets (v : list Z) (c : flanterm_context) : flanterm_context := ltac:(upd charsets v c).
Definition set_current_charset (v : Z) (c : flanterm_context) : flanterm_context := ltac:(upd current_charset v c).
Definition set_escape_offset (v : Z) (c : flanterm_context) : flanterm_context := ltac:(upd escape_offset v c).
Definition set_esc_values_i (v : Z) (c : flanterm_context) : flanterm_context := ltac:(upd esc_values_i v c).
Definition set_saved_cursor_x (v : Z) (c : flanterm_context) : flanterm_context := ltac:(upd saved_cursor_x v c).
Definition set_saved_cursor_y (v : Z) (c : flanterm_context) : flanterm_context := ltac:(upd saved_cursor_y v c).
Definition set_current_primary (v : Z) (c : flanterm_context) : flanterm_context := ltac:(upd current_primary v c).
Definition set_current_bg (v : Z) (c : flanterm_context) : flanterm_context := ltac:(upd current_bg v c).
Definition set_scroll_top_margin (v : Z) (c : flanterm_context) : flanterm_context := ltac:(upd scroll_top_margin v c).
Definition set_scroll_bottom_margin (v : Z) (c : flanterm_context) : flanterm_context := ltac:(upd scroll_bottom_margin v c).
Definition set_esc_values (v : list Z) (c : flanterm_context) : flanterm_context := ltac:(upd esc_values v c).
Definition set_oob_output (v : Z) (c : flanterm_context) : flanterm_context := ltac:(upd oob_output v c).
Definition set_saved_state_bold (v : bool) (c : flanterm_context) : flanterm_context := ltac:(upd saved_state_bold v c).
Definition set_saved_state_bg_bold (v : bool) (c : flanterm_context) : flanterm_context := ltac:(upd saved_state_bg_bold v c).
Definition set_saved_state_reverse_video (v : bool) (c : flanterm_context) : flanterm_context := ltac:(upd saved_state_reverse_video v c).
Definition set_saved_state_current_charset (v : Z) (c : flanterm_context) : flanterm_context := ltac:(upd saved_state_current_charset v c).
Definition set_saved_state_current_primary (v : Z) (c : flanterm_context) : flanterm_context := ltac:(upd saved_state_current_primary v c).
Definition set_saved_state_current_bg (v : Z) (c : flanterm_context) : flanterm_context := ltac:(upd saved_state_current_bg v c).
Definition set_callback (v : bool) (c : flanterm_context) : flanterm_context := ltac:(upd callback v c).
Definition set_calls (v : list callback_event) (c : flanterm_context) : flanterm_context := ltac:(upd calls v c).

(** The context and the back end's own state. *)
Record flanterm (B : Type) := mk_flanterm { ctx : flanterm_context; back : B }.
Arguments mk_flanterm {B}. Arguments ctx {B}. Arguments back {B}.

(** The function pointers a back end installs. *)
Class Backend (B : Type) := {
  raw_putchar : Z → M (flanterm B) unit;
  clear : bool → M (flanterm B) unit;
  set_cursor_pos : Z → Z → M (flanterm B) unit;
  get_cursor_pos : M (flanterm B) (Z * Z);
  set_text_fg : Z → M (flanterm B) unit;
  set_text_bg : Z → M (flanterm B) unit;
  set_text_fg_bright : Z → M (flanterm B) unit;
  set_text_bg_bright : Z → M (flanterm B) unit;
  set_text_fg_rgb : Z → M (flanterm B) unit;
  set_text_bg_rgb : Z → M (flanterm B) unit;
  set_text_fg_default : M (flanterm B) unit;
  set_text_bg_default : M (flanterm B) unit;
  set_text_fg_default_bright : M (flanterm B) unit;
  set_text_bg_default_bright : M (flanterm B) unit;
  move_character : Z → Z → Z → Z → M (flanterm B) unit;
  scroll : M (flanterm B) unit;
  revscroll : M (flanterm B) unit;
  swap_palette : M (flanterm B) unit;
  b_save_state : M (flanterm B) unit;
  b_restore_state : M (flanterm B) unit;
  double_buffer_flush : M (flanterm B) unit;
  b_full_refresh : M (flanterm B) unit
}.

Section terminal.
Context {B : Type} `{Backend B}.
Abbreviation T := (M (flanterm B)).

Definition get {A} (f : flanterm_context → A) : T A := gets (λ s, f (ctx s)).
Definition put (f : flanterm_context → flanterm_context) : T unit := modify (λ s, mk_flanterm (f (ctx s)) (back s)).
(** [if (ctx->callback != NULL) ctx->callback(...)] *)
Definition call_back (e : callback_event) : T unit :=
  put (λ c, if callback c then set_calls (calls c ++ [e]) c else c).

(** [for (size_t i = 0; i < n; i++) body] *)
Fixpoint repeat_n (n : nat) (body : T unit) : T unit :=
  match n with O => mret tt | S n => body;; repeat_n n body end.
Definition times (n : Z) (body : T unit) : T unit := repeat_n (Z.to_nat n) body.

Definition flanterm_context_reinit : T unit :=
  put (λ c, mk_flanterm_context 8 true true true false false false false false false false false false false false false
    (code_point c) 0 0 [CHARSET_DEFAULT; CHARSET_DEC_SPECIAL] 0 0 0 0 0 SIZE_MAX SIZE_MAX 0 (rows c) (esc_values c)
    FLANTERM_OOB_OUTPUT_ONLCR (saved_state_bold c) (saved_state_bg_bold c) (saved_state_reverse_video c)
    (saved_state_current_charset c) (saved_state_current_primary c) (saved_state_current_bg c) (rows c) (cols c)
    (callback c) (calls c)).

(** ** [sgr]: colours and attributes *)

(** The label [def]. *)
Definition sgr_default : T unit :=
  rv ← get reverse_video;
  mwhen rv (put (set_reverse_video false);; swap_palette);;
  put (set_bold false);; put (set_bg_bold false);;
  put (set_current_primary SIZE_MAX);; put (set_current_bg SIZE_MAX);;
  set_text_bg_default;; set_text_fg_default.

(** The four blocks of values 1, 22, 5 and 25: the operation on the current
    colour, or on the default one. *)
Definition sgr_intensity (current : flanterm_context → Z) (on_colour on_colour_rev : Z → T unit) (on_default on_default_rev : T unit) : T unit :=
  p ← get current; rv ← get reverse_video;
  if negb (p =? SIZE_MAX) then (if negb rv then on_colour p else on_colour_rev p)
  else (if negb rv then on_default else on_default_rev).

Definition set_fg (colour : Z) : T unit :=
  b ← get bold; bb ← get bg_bold; rv ← get reverse_video;
  if (b && negb rv) || (bb && rv) then set_text_fg_bright colour else set_text_fg colour.
Definition set_bg (colour : Z) : T unit :=
  b ← get bold; bb ← get bg_bold; rv ← get reverse_video;
  if (b && rv) || (bb && negb rv) then set_text_bg_bright colour else set_text_bg colour.

(** Values 39 and 49. *)
Definition sgr_reset (set_current : Z → flanterm_context → flanterm_context) (bright : flanterm_context → bool)
    (normal_colour bright_colour : T unit) : T unit :=
  put (set_current SIZE_MAX);;
  rv ← get reverse_video; mwhen rv swap_palette;;
  b ← get bright; (if negb b then normal_colour else bright_colour);;
  rv ← get reverse_video; mwhen rv swap_palette.

Definition sgr_value (v : Z) : T unit :=
  if v =? 0 then sgr_default
  else if v =? 1 then
    put (set_bold true);;
    sgr_intensity current_primary set_text_fg_bright set_text_bg_bright set_text_fg_default_bright set_text_bg_default_bright
  else if v =? 5 then
    put (set_bg_bold true);;
    sgr_intensity current_bg set_text_bg_bright set_text_fg_bright set_text_bg_default_bright set_text_fg_default_bright
  else if v =? 22 then
    put (set_bold false);;
    sgr_intensity current_primary set_text_fg set_text_bg set_text_fg_default set_text_bg_default
  else if v =? 25 then
    put (set_bg_bold false);;
    sgr_intensity current_bg set_text_bg set_text_fg set_text_bg_default set_text_fg_default
  else if (30 <=? v) && (v <=? 37) then
    put (set_current_primary (v - 30));; rv ← get reverse_video; if rv : bool then set_bg (v - 30) else set_fg (v - 30)
  else if (40 <=? v) && (v <=? 47) then
    put (set_current_bg (v - 40));; rv ← get reverse_video; if rv : bool then set_fg (v - 40) else set_bg (v - 40)
  else if (90 <=? v) && (v <=? 97) then
    put (set_current_primary (v - 90));; rv ← get reverse_video;
    if rv : bool then set_text_bg_bright (v - 90) else set_text_fg_bright (v - 90)
  else if (100 <=? v) && (v <=? 107) then
    put (set_current_bg (v - 100));; rv ← get reverse_video;
    if rv : bool then set_text_fg_bright (v - 100) else set_text_bg_bright (v - 100)
  else if v =? 39 then sgr_reset set_current_primary bold set_text_fg_default set_text_fg_default_bright
  else if v =? 49 then sgr_reset set_current_bg bg_bold set_text_bg_default set_text_bg_default_bright
  else if v =? 7 then rv ← get reverse_video; mwhen (negb rv) (put (set_reverse_video true);; swap_palette)
  else if v =? 27 then rv ← get reverse_video; mwhen rv (put (set_reverse_video false);; swap_palette)
  else mret tt.

(** Values 38 and 48 with colour number 5. *)
Definition sgr_256 (fg : bool) (col : Z) : T unit :=
  if col <? 8 then (if fg then set_text_fg else set_text_bg) col
  else if col <? 16 then (if fg then set_text_fg_bright else set_text_bg_bright) (col - 8)
  else if col <? 256 then
    rgb_value ← of_option (zlookup col256 (col - 16)); (if fg then set_text_fg_rgb else set_text_bg_rgb) rgb_value
  else mret tt.

Definition rgb (r g b : Z) : Z := Z.lor (Z.lor (Z.lor 0 (u32 (Z.shiftl r 16))) (u32 (Z.shiftl g 8))) b.

(** The loop over the values; too few values after 38 or 48 end it. *)
Fixpoint sgr_values (vs : list Z) : T unit :=
  match vs with
  | [] => mret tt
  | v :: vs =>
    if (v =? 38) || (v =? 48) then
      let fg := v =? 38 in
      match vs with
      | [] => mret tt
      | mode :: vs =>
        if mode =? 2 then
          match vs with
          | r :: g :: b :: vs => (if fg then set_text_fg_rgb else set_text_bg_rgb) (rgb r g b);; sgr_values vs
          | _ => mret tt
          end
        else if mode =? 5 then
          match vs with
          | col :: vs => sgr_256 fg col;; sgr_values vs
          | [] => mret tt
          end
        else sgr_values vs
      end
    else sgr_value v;; sgr_values vs
  end.

Definition sgr : T unit :=
  n ← get esc_values_i;
  if n =? 0 then sgr_default else vs ← get esc_values; sgr_values (take (Z.to_nat n) vs).

(** ** Private modes *)

(** ['h'] sets, ['l'] clears, anything else is ignored. *)
Definition set_or_clear (c : Z) : option bool :=
  if c =? 104 then Some true else if c =? 108 then Some false else None.

Definition esc (i : Z) : T Z := vs ← get esc_values; of_option (zlookup vs i).
Definition set_esc (i v : Z) : T unit := vs ← get esc_values; vs' ← of_option (zupdate vs i (u32 v)); put (set_esc_values vs').
(** The values handed to the callback. *)
Definition esc_args : T (list Z) := n ← get esc_values_i; vs ← get esc_values; mret (take (Z.to_nat n) vs).

Definition dec_private_parse (c : Z) : T unit :=
  put (set_dec_private false);;
  n ← get esc_values_i;
  if n =? 0 then mret tt
  else match set_or_clear c with
       | None => mret tt
       | Some set =>
         v ← esc 0;
         if v =? 25 then put (set_cursor_enabled set)
         else vs ← esc_args; call_back (FLANTERM_CB_DEC vs c)
       end.

Definition linux_private_parse : T unit :=
  n ← get esc_values_i;
  if n =? 0 then mret tt else vs ← esc_args; call_back (FLANTERM_CB_LINUX vs).

Definition mode_toggle (c : Z) : T unit :=
  n ← get esc_values_i;
  if n =? 0 then mret tt
  else match set_or_clear c with
       | None => mret tt
       | Some set =>
         v ← esc 0;
         if v =? 4 then put (set_insert_mode set)
         else vs ← esc_args; call_back (FLANTERM_CB_MODE vs c)
       end.

(** ** Operating system commands: skipped up to [BEL] or [ESC \\] *)

Definition osc_parse (c : Z) : T bool :=
  e ← get osc_escape;
  if e : bool then
    if c =? 92 then put (set_osc false);; put (set_osc_escape false);; put (set_escape false);; mret true
    else put (set_osc_escape false);; put (set_osc false);; mret false
  else
    (if c =? 0x1b then put (set_osc_escape true)
     else if c =? 7 then put (set_osc_escape false);; put (set_osc false);; put (set_escape false)
     else mret tt);;
    mret true.

(** ** Control sequences *)

(** [for (i = from; ; i--) { body; if (i == to) break; }] *)
Fixpoint down_to (fuel : nat) (i to : Z) (body : Z → T unit) : T unit :=
  match fuel with
  | O => mstop
  | S fuel => body i;; if i =? to then mret tt else down_to fuel (u64 (i - 1)) to body
  end.
(** [for (i = lo; i < hi; i++) body] *)
Fixpoint upwards (n : nat) (i : Z) (body : Z → T unit) : T unit :=
  match n with O => mret tt | S n => body i;; upwards n (i + 1) body end.
Definition for_range (lo hi : Z) (body : Z → T unit) : T unit := upwards (Z.to_nat (hi - lo)) lo body.

Definition cursor_up (x y : Z) : T unit :=
  e ← esc 0; mwhen (y <? e) (set_esc 0 y);;
  e ← esc 0;
  let dest_y := u64 (y - e) in
  top ← get scroll_top_margin; bottom ← get scroll_bottom_margin;
  let within := ((dest_y <=? top) && (top <=? y)) || ((dest_y <=? bottom) && (bottom <=? y)) in
  set_cursor_pos x (if within && (dest_y <? top) then top else dest_y).

Definition cursor_down (x y : Z) : T unit :=
  rows_ ← get rows; e ← esc 0; mwhen (u64 (rows_ - 1) <? y + e) (set_esc 0 (u64 (rows_ - 1) - y));;
  e ← esc 0;
  let dest_y := y + e in
  top ← get scroll_top_margin; bottom ← get scroll_bottom_margin;
  let within := ((y <=? top) && (top <=? dest_y)) || ((y <=? bottom) && (bottom <=? dest_y)) in
  set_cursor_pos x (if within && (bottom <=? dest_y) then u64 (bottom - 1) else dest_y).

Definition cursor_right (x y : Z) : T unit :=
  cols_ ← get cols; e ← esc 0; mwhen (u64 (cols_ - 1) <? x + e) (set_esc 0 (u64 (cols_ - 1) - x));;
  e ← esc 0; set_cursor_pos (x + e) y.
Definition cursor_left (x y : Z) : T unit :=
  e ← esc 0; mwhen (x <? e) (set_esc 0 x);; e ← esc 0; set_cursor_pos (u64 (x - e)) y.

(** A one-based coordinate, decremented in 32 bits and kept below [limit]. *)
Definition absolute (i limit : Z) : T Z :=
  e ← esc i; set_esc i (e - 1);;
  e ← esc i; mwhen (limit <=? e) (set_esc i (limit - 1));; esc i.
(** The same, with 0 standing for 1. *)
Definition absolute_or_1 (i limit : Z) : T Z :=
  e ← esc i; mwhen (negb (e =? 0)) (set_esc i (e - 1));;
  e ← esc i; mwhen (limit <=? e) (set_esc i (limit - 1));; esc i.

Definition blanks (n : Z) : T unit := times n (raw_putchar 32).

Definition cursor_position : T unit :=
  cols_ ← get cols; rows_ ← get rows;
  x ← absolute_or_1 1 cols_; y ← absolute_or_1 0 rows_; set_cursor_pos x y.

(** [esc_values[0]] bounded by [limit] *)
Definition count (limit : Z) : T Z := e ← esc 0; mret (if limit <? e then limit else e).

Definition delete_lines : T unit := rows_ ← get rows; n ← count rows_; times n scroll.
Definition insert_lines (y : Z) : T unit :=
  old ← get scroll_top_margin; put (set_scroll_top_margin y);;
  rows_ ← get rows; n ← count rows_; times n revscroll;;
  put (set_scroll_top_margin old).

(** The nested loops over rows and columns, which end at [(x, y)]. *)
Fixpoint erase_to (n : nat) (i cols_ x y : Z) : T unit :=
  match n with
  | O => mret tt
  | S n => raw_putchar 32;;
           if (i mod cols_ =? x) && (i / cols_ =? y) then set_cursor_pos x y else erase_to n (i + 1) cols_ x y
  end.

Definition erase_display (x y : Z) : T unit :=
  e ← esc 0; rows_ ← get rows; cols_ ← get cols;
  if e =? 0 then blanks (u64 ((rows_ - (y + 1)) * cols_ + (cols_ - (x + 1)) + 1));; set_cursor_pos x y
  else if e =? 1 then set_cursor_pos 0 0;; erase_to (Z.to_nat (rows_ * cols_)) 0 cols_ x y
  else if (e =? 2) || (e =? 3) then clear false
  else mret tt.

Definition erase_line (x y : Z) : T unit :=
  e ← esc 0; cols_ ← get cols;
  if e =? 0 then blanks (cols_ - x);; set_cursor_pos x y
  else if e =? 1 then set_cursor_pos 0 y;; blanks x
  else if e =? 2 then set_cursor_pos 0 y;; blanks cols_;; set_cursor_pos x y
  else mret tt.

Definition insert_characters (x y : Z) : T unit :=
  cols_ ← get cols;
  down_to (Z.to_nat cols_) (u64 (cols_ - 1)) x (λ i,
    e ← esc 0; move_character (i + e) y i y;; set_cursor_pos i y;; raw_putchar 32);;
  set_cursor_pos x y.

Definition erase_characters (x y : Z) : T unit :=
  cols_ ← get cols; n ← count cols_; blanks n;; set_cursor_pos x y.
Definition delete_characters (x y : Z) : T unit :=
  cols_ ← get cols; e ← esc 0;
  for_range (x + e) cols_ (λ i, e ← esc 0; move_character (u64 (i - e)) y i y);;
  e ← esc 0; set_cursor_pos (u64 (cols_ - e)) y;;
  erase_characters x y.

Definition set_margins : T unit :=
  e ← esc 0; mwhen (e =? 0) (set_esc 0 1);;
  e ← esc 1; mwhen (e =? 0) (set_esc 1 1);;
  rows_ ← get rows; n ← get esc_values_i; e0 ← esc 0; e1 ← esc 1;
  let top := if 0 <? n then u32 (e0 - 1) else 0 in
  let bottom := if 1 <? n then e1 else rows_ in
  (if (rows_ <=? top) || (rows_ <? bottom) || (u64 (bottom - 1) <=? top)
   then put (set_scroll_top_margin 0);; put (set_scroll_bottom_margin rows_)
   else put (set_scroll_top_margin top);; put (set_scroll_bottom_margin bottom));;
  set_cursor_pos 0 0.

Definition cursor_report (x y : Z) : T unit :=
  e ← esc 0;
  if e =? 5 then call_back FLANTERM_CB_STATUS_REPORT
  else if e =? 6 then call_back (FLANTERM_CB_POS_REPORT (x + 1) (y + 1))
  else mret tt.

(** The [switch] over the final byte; [None] is its default. *)
Definition csi_action (c x y : Z) : option (T unit) :=
  if c =? 70 then Some (cursor_up 0 y)                                               (* F *)
  else if c =? 65 then Some (cursor_up x y)                                          (* A *)
  else if c =? 69 then Some (cursor_down 0 y)                                        (* E *)
  else if (c =? 101) || (c =? 66) then Some (cursor_down x y)                        (* e B *)
  else if (c =? 97) || (c =? 67) then Some (cursor_right x y)                        (* a C *)
  else if c =? 68 then Some (cursor_left x y)                                        (* D *)
  else if c =? 99 then Some (call_back FLANTERM_CB_PRIVATE_ID)                       (* c *)
  else if c =? 100 then Some (rows_ ← get rows; e ← absolute 0 rows_; set_cursor_pos x e) (* d *)
  else if (c =? 71) || (c =? 96) then Some (cols_ ← get cols; e ← absolute 0 cols_; set_cursor_pos e y) (* G ` *)
  else if (c =? 72) || (c =? 102) then Some cursor_position                          (* H f *)
  else if c =? 77 then Some delete_lines                                             (* M *)
  else if c =? 76 then Some (insert_lines y)                                         (* L *)
  else if c =? 110 then Some (cursor_report x y)                                            (* n *)
  else if c =? 113 then Some (e ← esc 0; call_back (FLANTERM_CB_KBD_LEDS e))         (* q *)
  else if c =? 74 then Some (erase_display x y)                                      (* J *)
  else if c =? 64 then Some (insert_characters x y)                                  (* @ *)
  else if c =? 80 then Some (delete_characters x y)                                  (* P *)
  else if c =? 88 then Some (erase_characters x y)                                   (* X *)
  else if c =? 109 then Some sgr                                                     (* m *)
  else if c =? 115 then Some ('(sx, sy) ← get_cursor_pos; put (set_saved_cursor_x sx);; put (set_saved_cursor_y sy)) (* s *)
  else if c =? 117 then Some (sx ← get saved_cursor_x; sy ← get saved_cursor_y; set_cursor_pos sx sy) (* u *)
  else if c =? 75 then Some (erase_line x y)                                         (* K *)
  else if c =? 114 then Some set_margins                                             (* r *)
  else if (c =? 108) || (c =? 104) then Some (mode_toggle c)                         (* l h *)
  else if c =? 93 then Some linux_private_parse                                      (* ] *)
  else None.

(** The label [cleanup]. *)
Definition cleanup : T unit := put (set_control_sequence false);; put (set_escape false).

(** Values that were not given. *)
Definition fill_values (c : Z) : T unit :=
  let esc_default := if (c =? 74) || (c =? 75) || (c =? 113) then 0 else 1 in
  n ← get esc_values_i;
  put (λ t, set_esc_values (take (Z.to_nat n) (esc_values t) ++ replicate (16 - Z.to_nat n) esc_default) t).

(** From the filling of the values on. *)
Definition csi_final (c : Z) : T unit :=
  fill_values c;;
  d ← get dec_private;
  if d : bool then dec_private_parse c;; cleanup
  else
    r ← get scroll_enabled; put (set_scroll_enabled false);;
    '(x, y) ← get_cursor_pos;
    u ← get csi_unhandled;
    if u : bool then
      (if (0x40 <=? c) && (c <=? 0x7E) then put (set_csi_unhandled false);; cleanup else mret tt)
    else if c =? 0x1B then mret tt
    else match csi_action c x y with
         | None => put (set_csi_unhandled true)
         | Some act => act;; put (set_scroll_enabled r);; cleanup
         end.

Definition control_sequence_parse (c : Z) : T unit :=
  off ← get escape_offset;
  if (off =? 2) && (c =? 91) then put (set_discard_next true);; cleanup
  else if (off =? 2) && (c =? 63) then put (set_dec_private true)
  else if (48 <=? c) && (c <=? 57) then
    n ← get esc_values_i;
    if n =? FLANTERM_MAX_ESC_VALUES then mret tt
    else put (set_rrr true);; v ← esc n; set_esc n (u32 (v * 10));; v ← esc n; set_esc n (v + (c - 48))
  else
    r ← get rrr;
    if r : bool then
      n ← get esc_values_i; put (set_esc_values_i (n + 1));; put (set_rrr false);;
      if c =? 59 then mret tt else csi_final c
    else if c =? 59 then
      n ← get esc_values_i;
      if n =? FLANTERM_MAX_ESC_VALUES then mret tt else set_esc n 0;; put (set_esc_values_i (n + 1))
    else csi_final c.

(** ** Escape sequences *)

Definition restore_state : T unit :=
  put (λ c, set_bold (saved_state_bold c) c);; put (λ c, set_bg_bold (saved_state_bg_bold c) c);;
  put (λ c, set_reverse_video (saved_state_reverse_video c) c);;
  put (λ c, set_current_charset (saved_state_current_charset c) c);;
  put (λ c, set_current_primary (saved_state_current_primary c) c);;
  put (λ c, set_current_bg (saved_state_current_bg c) c);;
  b_restore_state.

Definition save_state : T unit :=
  b_save_state;;
  put (λ c, set_saved_state_bold (bold c) c);; put (λ c, set_saved_state_bg_bold (bg_bold c) c);;
  put (λ c, set_saved_state_reverse_video (reverse_video c) c);;
  put (λ c, set_saved_state_current_charset (current_charset c) c);;
  put (λ c, set_saved_state_current_primary (current_primary c) c);;
  put (λ c, set_saved_state_current_bg (current_bg c) c).

(** A line feed to column [x]; shared by [ESC D], [ESC E] and the control
    characters. *)
Definition line_feed (x y : Z) : T unit :=
  bottom ← get scroll_bottom_margin;
  if y =? u64 (bottom - 1) then scroll;; set_cursor_pos x y else set_cursor_pos x (y + 1).

Definition escape_command (c x y : Z) : T unit :=
  if c =? 55 then save_state                                       (* 7 *)
  else if c =? 56 then restore_state                               (* 8 *)
  else if c =? 99 then flanterm_context_reinit;; clear true        (* c *)
  else if c =? 68 then line_feed x y                               (* D *)
  else if c =? 69 then line_feed 0 y                               (* E *)
  else if c =? 77 then                                             (* M *)
    top ← get scroll_top_margin;
    if y =? top then revscroll;; set_cursor_pos 0 y else set_cursor_pos 0 (u64 (y - 1))
  else if c =? 90 then call_back FLANTERM_CB_PRIVATE_ID            (* Z *)
  else if (c =? 40) || (c =? 41) then put (set_g_select (c - 39))  (* left and right parenthesis *)
  else mret tt.

Definition start_csi : T unit :=
  put (set_esc_values (replicate 16 0));; put (set_esc_values_i 0);; put (set_rrr false);;
  put (set_csi_unhandled false);; put (set_control_sequence true).

(** From the test of [control_sequence] on. *)
Definition escape_rest (c : Z) : T unit :=
  cs ← get control_sequence;
  if cs : bool then control_sequence_parse c
  else
    '(x, y) ← get_cursor_pos;
    if c =? 93 then put (set_osc_escape false);; put (set_osc true)
    else if c =? 91 then start_csi
    else escape_command c x y;; put (set_escape false).

Definition escape_parse (c : Z) : T unit :=
  put (λ t, set_escape_offset (escape_offset t + 1) t);;
  o ← get osc;
  if o : bool then b ← osc_parse c; if b : bool then mret tt else escape_rest c
  else escape_rest c.

(** ** Characters *)

Definition dec_special_print (c : Z) : T bool :=
  match switch dec_special c with
  | Some g => raw_putchar g;; mret true
  | None => mret false
  end.

(** A decoded character: its glyph, or a replacement of its width. *)
Definition put_code_point (cp : Z) : T unit :=
  let cc := unicode_to_cp437 cp in
  if cc =? -1 then
    w ← of_option (mk_wcwidth (u32 cp));
    mwhen (0 <? w) (raw_putchar 0xfe);; blanks (w - 1)
  else raw_putchar cc.

Definition put_printable (c : Z) : T unit :=
  if (0x20 <=? c) && (c <=? 0x7e) then raw_putchar c else raw_putchar 0xfe.

Definition insert_gap (x y : Z) : T unit :=
  cols_ ← get cols;
  down_to (Z.to_nat cols_) (u64 (cols_ - 1)) x (λ i, move_character (i + 1) y i y).

Definition put_glyph (c x y : Z) : T unit :=
  ins ← get insert_mode; mwhen ins (insert_gap x y);;
  cs ← get charsets; cur ← get current_charset; set ← of_option (zlookup cs cur);
  if set =? CHARSET_DEC_SPECIAL then
    done ← dec_special_print c; if done : bool then mret tt else put_printable c
  else put_printable c.

Definition control_character (c x y : Z) : option (T unit) :=
  if (c =? 0) || (c =? 0x7f) then Some (mret tt)
  else if c =? 0x1b then Some (put (set_escape_offset 0);; put (set_escape true))
  else if c =? 9 then Some (
    tab ← get tab_size; cols_ ← get cols;
    if cols_ <=? x / tab + 1 then set_cursor_pos (u64 (cols_ - 1)) y else set_cursor_pos ((x / tab + 1) * tab) y)
  else if (c =? 0x0b) || (c =? 0x0c) || (c =? 10) then Some (
    oob ← get oob_output; line_feed (if truthy (Z.land oob FLANTERM_OOB_OUTPUT_ONLCR) then 0 else x) y)
  else if c =? 8 then Some (set_cursor_pos (u64 (x - 1)) y)
  else if c =? 13 then Some (set_cursor_pos 0 y)
  else if c =? 7 then Some (call_back FLANTERM_CB_BELL)
  else if c =? 14 then Some (put (set_current_charset 1))
  else if c =? 15 then Some (put (set_current_charset 0))
  else None.

(** The character after [ESC (] or [ESC )]. *)
Definition select_charset (c : Z) : T unit :=
  g ← get g_select; put (set_g_select (u8 (g - 1)));;
  g ← get g_select; cs ← get charsets;
  (if c =? 66 then cs' ← of_option (zupdate cs g CHARSET_DEFAULT); put (set_charsets cs')
   else if c =? 48 then cs' ← of_option (zupdate cs g CHARSET_DEC_SPECIAL); put (set_charsets cs')
   else mret tt);;
  put (set_g_select 0).

(** From the label [unicode_error] on. *)
Definition put_byte (c : Z) : T unit :=
  if (0xc0 <=? c) && (c <=? 0xf7) then
    if (0xc0 <=? c) && (c <=? 0xdf) then put (set_unicode_remaining 1);; put (set_code_point (Z.shiftl (Z.land c 0x1f) 6))
    else if (0xe0 <=? c) && (c <=? 0xef) then
      put (set_unicode_remaining 2);; put (set_code_point (Z.shiftl (Z.land c 0x0f) (6 * 2)))
    else if (0xf0 <=? c) && (c <=? 0xf7) then
      put (set_unicode_remaining 3);; put (set_code_point (Z.shiftl (Z.land c 0x07) (6 * 3)))
    else mret tt
  else
    e ← get escape;
    if e : bool then escape_parse c
    else
      g ← get g_select;
      if truthy g then select_charset c
      else
        '(x, y) ← get_cursor_pos;
        match control_character c x y with
        | Some act => act
        | None => put_glyph c x y
        end.

Definition discard : T unit :=
  put (set_discard_next false);; put (set_escape false);; put (set_control_sequence false);;
  put (set_unicode_remaining 0);; put (set_osc false);; put (set_osc_escape false);; put (set_g_select 0).

Definition flanterm_putchar (c : Z) : T unit :=
  d ← get discard_next;
  if d || (c =? 0x18) || (c =? 0x1a) then discard
  else
    rem ← get unicode_remaining;
    if negb (rem =? 0) then
      if negb (Z.land c 0xc0 =? 0x80) then put (set_unicode_remaining 0);; put_byte c
      else
        put (set_unicode_remaining (rem - 1));;
        put (λ t, set_code_point (Z.lor (code_point t) (Z.shiftl (Z.land c 0x3f) (6 * (rem - 1)))) t);;
        if negb (rem - 1 =? 0) then mret tt
        else cp ← get code_point; put_code_point cp
    else put_byte c.

(** ** The client's functions *)

Fixpoint put_all (buf : list Z) : T unit :=
  match buf with [] => mret tt | c :: buf => flanterm_putchar c;; put_all buf end.

Definition flanterm_write (buf : list Z) : T unit :=
  put_all buf;; a ← get autoflush; mwhen a double_buffer_flush.

Definition flanterm_flush : T unit := double_buffer_flush.
Definition flanterm_full_refresh : T unit := b_full_refresh.
Definition flanterm_get_dimensions : T (Z * Z) := x ← get cols; y ← get rows; mret (x, y).
Definition flanterm_set_autoflush (state : bool) : T unit := put (set_autoflush state).
Definition flanterm_set_callback (set : bool) : T unit := put (set_callback set).
Definition flanterm_get_oob_output : T Z := get oob_output.
Definition flanterm_set_oob_output (v : Z) : T unit := put (set_oob_output v).
End terminal.

(** Rules for the context. *)
Section context_rules.
Context {B : Type}.
Implicit Types s : flanterm B.

Lemma wp_get {A} (f : flanterm_context → A) Q s : Q (f (ctx s)) s → wp (get f) Q s.
Proof. intros H. by apply wp_gets. Qed.
Lemma wp_put f Q s : Q tt (mk_flanterm (f (ctx s)) (back s)) → wp (put f) Q s.
Proof. intros H. by apply wp_modify. Qed.
Lemma wp_get_bind {A C} (f : flanterm_context → A) (k : A → M _ C) Q s : wp (k (f (ctx s))) Q s → wp (bind (get f) k) Q s.
Proof. intros H. by apply wp_bind, wp_gets. Qed.
End context_rules.
