(* ===== verification/TermSim.v ===== *)
(** * The terminal over two back ends

    A back end whose operations simulate those of another makes the terminal
    over it simulate the terminal over the other, for every function of
    [flanterm.c] that takes characters.  [full_refresh] is not asked for: it is
    not called while characters are processed. *)

From stdpp Require Import prelude list numbers tactics.
From S2P Require Import Prelude Simulation TermTables Term.

(** A change of the context that keeps the dimensions. *)
Definition keeps_size (f : flanterm_context → flanterm_context) : Prop :=
  ∀ c, rows (f c) = rows c ∧ cols (f c) = cols c.

Class SimulatesBackend {B1 B2 : Type} `{Backend B1, Backend B2} (R : flanterm B1 → flanterm B2 → Prop) : Prop := {
  sim_ctx t s : R t s → ctx t = ctx s;
  sim_put f t s : keeps_size f → R t s → R (mk_flanterm (f (ctx t)) (back t)) (mk_flanterm (f (ctx s)) (back s));
  sim_raw_putchar c : simulates R (raw_putchar c) (raw_putchar c);
  sim_clear b : simulates R (clear b) (clear b);
  sim_set_cursor_pos x y : simulates R (set_cursor_pos x y) (set_cursor_pos x y);
  sim_get_cursor_pos : simulates R get_cursor_pos get_cursor_pos;
  sim_set_text_fg v : simulates R (set_text_fg v) (set_text_fg v);
  sim_set_text_bg v : simulates R (set_text_bg v) (set_text_bg v);
  sim_set_text_fg_bright v : simulates R (set_text_fg_bright v) (set_text_fg_bright v);
  sim_set_text_bg_bright v : simulates R (set_text_bg_bright v) (set_text_bg_bright v);
  sim_set_text_fg_rgb v : simulates R (set_text_fg_rgb v) (set_text_fg_rgb v);
  sim_set_text_bg_rgb v : simulates R (set_text_bg_rgb v) (set_text_bg_rgb v);
  sim_set_text_fg_default : simulates R set_text_fg_default set_text_fg_default;
  sim_set_text_bg_default : simulates R set_text_bg_default set_text_bg_default;
  sim_set_text_fg_default_bright : simulates R set_text_fg_default_bright set_text_fg_default_bright;
  sim_set_text_bg_default_bright : simulates R set_text_bg_default_bright set_text_bg_default_bright;
  sim_move_character a b c d : simulates R (move_character a b c d) (move_character a b c d);
  sim_scroll : simulates R scroll scroll;
  sim_revscroll : simulates R revscroll revscroll;
  sim_swap_palette : simulates R swap_palette swap_palette;
  sim_save_state : simulates R b_save_state b_save_state;
  sim_restore_state : simulates R b_restore_state b_restore_state;
  sim_double_buffer_flush : simulates R double_buffer_flush double_buffer_flush
}.
#[export] Hint Resolve sim_raw_putchar sim_clear sim_set_cursor_pos sim_get_cursor_pos sim_set_text_fg sim_set_text_bg
  sim_set_text_fg_bright sim_set_text_bg_bright sim_set_text_fg_rgb sim_set_text_bg_rgb sim_set_text_fg_default
  sim_set_text_bg_default sim_set_text_fg_default_bright sim_set_text_bg_default_bright sim_move_character sim_scroll
  sim_revscroll sim_swap_palette sim_save_state sim_restore_state sim_double_buffer_flush : simulates.

Section sim.
Context {B1 B2 : Type} `{Backend B1, Backend B2} (R : flanterm B1 → flanterm B2 → Prop) `{!SimulatesBackend R}.

Lemma sim_get {A} (f : flanterm_context → A) : simulates R (get f) (get f).
Proof. apply simulates_gets. intros t s HR. by rewrite (sim_ctx t s HR). Qed.

Lemma sim_put_put f : keeps_size f → simulates R (put f) (put f).
Proof. intros Hf. apply simulates_modify. intros t s. by apply sim_put. Qed.
End sim.
#[export] Hint Extern 1 (simulates ?R (get _) _) => apply (sim_get R) : simulates.
#[export] Hint Extern 1 (simulates ?R (put _) _) => apply (sim_put_put R); intros ?; split; reflexivity : simulates.

Section terminal.
Context {B1 B2 : Type} `{Backend B1, Backend B2} (R : flanterm B1 → flanterm B2 → Prop) `{!SimulatesBackend R}.

Lemma sim_call_back e : simulates R (call_back e) (call_back e).
Proof. apply sim_put_put; [done|]. intros c. by destruct (callback c). Qed.
Hint Resolve sim_call_back : simulates.

Lemma sim_repeat n f g : simulates R f g → simulates R (repeat_n n f) (repeat_n n g).
Proof. intros Hf. induction n; cbn [repeat_n]; simulate. Qed.
Lemma sim_times n f g : simulates R f g → simulates R (times n f) (times n g).
Proof. apply sim_repeat. Qed.
Hint Extern 2 (simulates _ (times _ _) _) => apply sim_times; solve [simulate] : simulates.

Lemma sim_down_to fuel i to f g : (∀ i, simulates R (f i) (g i)) → simulates R (down_to fuel i to f) (down_to fuel i to g).
Proof. intros Hf. revert i. induction fuel; intros i; cbn [down_to]; simulate; auto. Qed.
Lemma sim_upwards n i f g : (∀ i, simulates R (f i) (g i)) → simulates R (upwards n i f) (upwards n i g).
Proof. intros Hf. revert i. induction n; intros i; cbn [upwards]; simulate; auto. Qed.
Lemma sim_for_range lo hi f g : (∀ i, simulates R (f i) (g i)) → simulates R (for_range lo hi f) (for_range lo hi g).
Proof. apply sim_upwards. Qed.

Lemma sim_reinit : simulates R flanterm_context_reinit flanterm_context_reinit.
Proof. by apply sim_put_put. Qed.

Lemma sim_sgr_value v : simulates R (sgr_value v) (sgr_value v).
Proof. unfold sgr_value, sgr_default, sgr_intensity, sgr_reset, set_fg, set_bg. simulate. Qed.
Hint Resolve sim_sgr_value sim_reinit : simulates.

Lemma sim_sgr_values vs : simulates R (sgr_values vs) (sgr_values vs).
Proof.
  remember (length vs) as n eqn:E. revert vs E. induction n as [n IH] using lt_wf_ind; intros vs ->.
  destruct vs as [|v vs]; cbn [sgr_values]; [simulate|].
  assert (∀ l, (length l <= length vs)%nat → simulates R (sgr_values l) (sgr_values l)) as Hl.
  { intros l Hl. apply (IH (length l)); [cbn; lia|done]. }
  unfold sgr_256. cbv zeta. destruct (v =? 38), (v =? 48); cbn [orb]; simulate; apply Hl; cbn; lia.
Qed.
Hint Resolve sim_sgr_values : simulates.
Lemma sim_sgr : simulates R sgr sgr.
Proof. unfold sgr, sgr_default. simulate. Qed.

Lemma sim_set_esc i v : simulates R (set_esc i v) (set_esc i v).
Proof. unfold set_esc. simulate. Qed.
Lemma sim_esc i : simulates R (esc i) (esc i).
Proof. unfold esc. simulate. Qed.
Lemma sim_esc_args : simulates R esc_args esc_args.
Proof. unfold esc_args. simulate. Qed.
Lemma sim_count n : simulates R (count n) (count n).
Proof. unfold count, esc. simulate. Qed.
Lemma sim_blanks n : simulates R (blanks n) (blanks n).
Proof. apply sim_times. simulate. Qed.
Hint Resolve sim_sgr sim_set_esc sim_esc sim_esc_args sim_count sim_blanks : simulates.

Lemma sim_dec_private_parse c : simulates R (dec_private_parse c) (dec_private_parse c).
Proof. unfold dec_private_parse. simulate. Qed.
Lemma sim_linux_private_parse : simulates R linux_private_parse linux_private_parse.
Proof. unfold linux_private_parse. simulate. Qed.
Lemma sim_mode_toggle c : simulates R (mode_toggle c) (mode_toggle c).
Proof. unfold mode_toggle. simulate. Qed.
Lemma sim_osc_parse c : simulates R (osc_parse c) (osc_parse c).
Proof. unfold osc_parse. simulate. Qed.
Hint Resolve sim_dec_private_parse sim_linux_private_parse sim_mode_toggle sim_osc_parse : simulates.

Lemma sim_erase_to n i c x y : simulates R (erase_to n i c x y) (erase_to n i c x y).
Proof. revert i. induction n; intros i; cbn [erase_to]; simulate. Qed.
Hint Resolve sim_erase_to : simulates.

(** The loops and the actions of the control sequences. *)
Hint Extern 2 (simulates _ (for_range _ _ _) _) => apply sim_for_range; intros ?; solve [simulate] : simulates.
Hint Extern 2 (simulates _ (down_to _ _ _ _) _) => apply sim_down_to; intros ?; solve [simulate] : simulates.

Definition opt_sim (f : option (M (flanterm B1) unit)) (g : option (M (flanterm B2) unit)) : Prop :=
  match f, g with Some f, Some g => simulates R f g | None, None => True | _, _ => False end.

Ltac opt_cases := repeat match goal with |- opt_sim (if ?b then _ else _) _ => destruct b; [cbn [opt_sim]|] end; [..|done].

Lemma sim_csi_action c x y : opt_sim (csi_action c x y) (csi_action c x y).
Proof.
  unfold csi_action. opt_cases;
  unfold cursor_up, cursor_down, cursor_right, cursor_left, absolute, cursor_position, absolute_or_1, delete_lines, insert_lines,
    cursor_report, erase_display, erase_line, insert_characters, delete_characters, erase_characters, set_margins; simulate.
Qed.

Lemma sim_fill_values c : simulates R (fill_values c) (fill_values c).
Proof. unfold fill_values. simulate. Qed.
Lemma sim_cleanup : simulates R cleanup cleanup.
Proof. unfold cleanup. simulate. Qed.
Hint Resolve sim_fill_values sim_cleanup : simulates.

Lemma sim_csi_act c x y r : simulates R
  (match csi_action c x y with None => put (set_csi_unhandled true) | Some act => act;; put (set_scroll_enabled r);; cleanup end)
  (match csi_action c x y with None => put (set_csi_unhandled true) | Some act => act;; put (set_scroll_enabled r);; cleanup end).
Proof.
  pose proof (sim_csi_action c x y) as Ha.
  destruct (csi_action c x y), (csi_action c x y); cbn in Ha; try done; simulate.
Qed.
Hint Resolve sim_csi_act : simulates.

Lemma sim_csi_final c : simulates R (csi_final c) (csi_final c).
Proof. unfold csi_final. simulate. Qed.
Hint Resolve sim_csi_final : simulates.
Lemma sim_control_sequence_parse c : simulates R (control_sequence_parse c) (control_sequence_parse c).
Proof. unfold control_sequence_parse. simulate. Qed.
Hint Resolve sim_control_sequence_parse : simulates.

Lemma sim_save : simulates R save_state save_state.
Proof. unfold save_state. simulate. Qed.
Lemma sim_restore : simulates R restore_state restore_state.
Proof. unfold restore_state. simulate. Qed.
Lemma sim_line_feed x y : simulates R (line_feed x y) (line_feed x y).
Proof. unfold line_feed. simulate. Qed.
Hint Resolve sim_save sim_restore sim_line_feed : simulates.
Lemma sim_escape_command c x y : simulates R (escape_command c x y) (escape_command c x y).
Proof. unfold escape_command. simulate. Qed.
Hint Resolve sim_escape_command : simulates.
Lemma sim_escape_parse c : simulates R (escape_parse c) (escape_parse c).
Proof. unfold escape_parse, escape_rest, start_csi. simulate. Qed.
Hint Resolve sim_escape_parse : simulates.

Lemma sim_put_printable c : simulates R (put_printable c) (put_printable c).
Proof. unfold put_printable. simulate. Qed.
Hint Resolve sim_put_printable : simulates.
Lemma sim_put_glyph c x y : simulates R (put_glyph c x y) (put_glyph c x y).
Proof. unfold put_glyph, insert_gap, dec_special_print. simulate. Qed.
Hint Resolve sim_put_glyph : simulates.
Lemma sim_control_character c x y : opt_sim (control_character c x y) (control_character c x y).
Proof. unfold control_character. opt_cases; simulate. Qed.
Lemma sim_select_charset c : simulates R (select_charset c) (select_charset c).
Proof. unfold select_charset. simulate. Qed.
Hint Resolve sim_select_charset : simulates.
Lemma sim_control_act c x y : simulates R
  (match control_character c x y with Some act => act | None => put_glyph c x y end)
  (match control_character c x y with Some act => act | None => put_glyph c x y end).
Proof.
  pose proof (sim_control_character c x y) as Ha.
  destruct (control_character c x y), (control_character c x y); cbn in Ha; try done. simulate.
Qed.
Hint Resolve sim_control_act : simulates.

Lemma sim_put_byte c : simulates R (put_byte c) (put_byte c).
Proof. unfold put_byte. simulate. Qed.
Hint Resolve sim_put_byte : simulates.

Lemma sim_put_code_point cp : simulates R (put_code_point cp) (put_code_point cp).
Proof. unfold put_code_point. simulate. Qed.
Lemma sim_discard : simulates R discard discard.
Proof. unfold discard. simulate. Qed.
Hint Resolve sim_put_code_point sim_discard : simulates.
Lemma sim_putchar c : simulates R (flanterm_putchar c) (flanterm_putchar c).
Proof. unfold flanterm_putchar. simulate. Qed.
Hint Resolve sim_putchar : simulates.
Lemma sim_put_all buf : simulates R (put_all buf) (put_all buf).
Proof. induction buf; cbn [put_all]; simulate. Qed.
Hint Resolve sim_put_all : simulates.

Lemma sim_write buf : simulates R (flanterm_write buf) (flanterm_write buf).
Proof. unfold flanterm_write. simulate. Qed.
End terminal.
