(* ===== verification/TermFb.v ===== *)
(** * The frame buffer back end ([kernel/terminal/src/flanterm_backends/fb.c])

    A grid of cells as they are on the screen, a queue of cells to be drawn and
    a map from cells to queue entries.  [framebuffer] holds the pixels by
    address; pointers into the queue are indices.  An index outside of an array
    stops the machine.  The second half sets a terminal up and gives it back. *)

From stdpp Require Import prelude gmap list numbers tactics.
From S2P Require Import Prelude TermTables Term.

Definition FLANTERM_FB_FONT_GLYPHS : Z := 256.
Definition FLANTERM_FB_ROTATE_0 : Z := 0.
Definition FLANTERM_FB_ROTATE_90 : Z := 1.
Definition FLANTERM_FB_ROTATE_180 : Z := 2.
Definition FLANTERM_FB_ROTATE_270 : Z := 3.

Record flanterm_fb_char := mk_char { ch : Z; fg : Z; bg : Z }.
Record flanterm_fb_queue_item := mk_item { q_x : Z; q_y : Z; q_c : flanterm_fb_char }.

(** The function [plot_char] points to. *)
Inductive plot_fn :=
  | plot_char_scaled_canvas_fn | plot_char_scaled_uncanvas_fn
  | plot_char_unscaled_canvas_fn | plot_char_unscaled_uncanvas_fn.

(** The fields of [struct flanterm_fb_context] that only [flanterm_fb_init]
    writes, and those that change. *)
Record fb_config := mk_config {
  plot_char_fn : plot_fn; font_width : Z; font_height : Z; glyph_width : Z; glyph_height : Z;
  font_scale_x : Z; font_scale_y : Z; offset_x : Z; offset_y : Z;
  fb_address : Z; pitch : Z; width : Z; height : Z;
  red_mask_shift : Z; green_mask_shift : Z; blue_mask_shift : Z; rotation : Z;
  font_bits : list Z; font_bool : gmap Z bool; ansi_colours : list Z; ansi_bright_colours : list Z;
  default_fg : Z; default_bg : Z; default_fg_bright : Z; default_bg_bright : Z; canvas : option (list Z)
}.


(** ** Colours *)

(** A shift of a 32-bit value. *)
Definition shift_left32 (v n : Z) : Z := u32 (Z.shiftl v n).

Definition convert_colour (cfg : fb_config) (colour : Z) : Z :=
  let r := Z.land (Z.shiftr colour 16) 0xff in
  let g := Z.land (Z.shiftr colour 8) 0xff in
  let b := Z.land colour 0xff in
  Z.lor (Z.lor (shift_left32 r (red_mask_shift cfg)) (shift_left32 g (green_mask_shift cfg))) (shift_left32 b (blue_mask_shift cfg)).

(** [0xffffffff], the transparent colour. *)
Definition NO_COLOUR : Z := 0xffffffff.

(** ** Plotting *)

(** [for (i = from; n iterations; i++) m = f(i, m)], with early failure. *)
Fixpoint iterate {A} (n : nat) (i : Z) (f : Z → A → option A) (a : A) : option A :=
  match n with
  | O => Some a
  | S n => match f i a with Some a => iterate n (i + 1) f a | None => None end
  end.

(** The [switch] over the rotation: the pixel the glyph starts at, as an index,
    and the two strides, which are [int]s. *)
Definition target (cfg : fb_config) (x y : Z) : Z * Z * Z :=
  let line := pitch cfg / 4 in
  if rotation cfg =? FLANTERM_FB_ROTATE_90 then
    (u64 (u64 (height cfg - 1 - y) + x * line), -1, s32 line)
  else if rotation cfg =? FLANTERM_FB_ROTATE_180 then
    (u64 (u64 (width cfg - 1 - x) + u64 (height cfg - 1 - y) * line), s32 (- line), -1)
  else if rotation cfg =? FLANTERM_FB_ROTATE_270 then
    (u64 (y + u64 (width cfg - 1 - x) * line), 1, s32 (- line))
  else (u64 (x + y * line), s32 line, 1).

(** [framebuffer[i]] *)
Definition pixel (cfg : fb_config) (i : Z) : Z := fb_address cfg + 4 * i.

Abbreviation pixels := (gmap Z Z).
Definition put_pixel (cfg : fb_config) (i v : Z) (m : pixels) : pixels := <[pixel cfg i := v]> m.

Section plot.
Context (cfg : fb_config) (c : flanterm_fb_char) (x y : Z).

Definition glyph : Z := ch c * font_height cfg * font_width cfg.
Definition left : Z := offset_x cfg + x * glyph_width cfg.
Definition top : Z := offset_y cfg + y * glyph_height cfg.

(** A pixel of the canvas. *)
Definition canvas_at (gx gy : Z) : option Z :=
  match canvas cfg with Some l => zlookup l (left + (top + gy) * width cfg + gx) | None => None end.
(** A colour of the cell, or the canvas behind it. *)
Definition on_canvas (colour gx gy : Z) : option Z :=
  if colour =? NO_COLOUR then canvas_at gx gy else Some colour.

Definition plot_char_scaled_canvas (m : pixels) : option pixels :=
  let '(dest, outer_stride, inner_stride) := target cfg left top in
  iterate (Z.to_nat (glyph_height cfg)) 0 (λ gy m,
    let fy := u8 (gy / font_scale_y cfg) in
    iterate (Z.to_nat (font_width cfg)) 0 (λ fx m,
      iterate (Z.to_nat (font_scale_x cfg)) 0 (λ i m,
        let gx := font_scale_x cfg * fx + i in
        match on_canvas (bg c) gx gy, on_canvas (fg c) gx gy, font_bool cfg !! (glyph + fy * font_width cfg + fx) with
        | Some bg, Some fg, Some bit =>
          Some (put_pixel cfg (dest + gy * outer_stride + gx * inner_stride) (if bit : bool then fg else bg) m)
        | _, _, _ => None
        end) m) m) m.

Definition plot_char_unscaled_canvas (m : pixels) : option pixels :=
  let '(dest, outer_stride, inner_stride) := target cfg left top in
  iterate (Z.to_nat (glyph_height cfg)) 0 (λ gy m,
    iterate (Z.to_nat (font_width cfg)) 0 (λ fx m,
      match on_canvas (bg c) fx gy, on_canvas (fg c) fx gy, font_bool cfg !! (glyph + gy * font_width cfg + fx) with
      | Some bg, Some fg, Some bit =>
        Some (put_pixel cfg (dest + gy * outer_stride + fx * inner_stride) (if bit : bool then fg else bg) m)
      | _, _, _ => None
      end) m) m.

(** Without a canvas the transparent colour is the default background. *)
Definition opaque (colour : Z) : Z := if colour =? NO_COLOUR then default_bg cfg else colour.

Definition plot_char_scaled_uncanvas (m : pixels) : option pixels :=
  let '(dest, outer_stride, inner_stride) := target cfg left top in
  iterate (Z.to_nat (glyph_height cfg)) 0 (λ gy m,
    let fy := u8 (gy / font_scale_y cfg) in
    iterate (Z.to_nat (font_width cfg)) 0 (λ fx m,
      iterate (Z.to_nat (font_scale_x cfg)) 0 (λ i m,
        let gx := font_scale_x cfg * fx + i in
        match font_bool cfg !! (glyph + fy * font_width cfg + fx) with
        | Some bit => Some (put_pixel cfg (dest + gy * outer_stride + gx * inner_stride)
                              (if bit : bool then opaque (fg c) else opaque (bg c)) m)
        | None => None
        end) m) m) m.

Definition plot_char_unscaled_uncanvas (m : pixels) : option pixels :=
  let '(dest, outer_stride, inner_stride) := target cfg left top in
  iterate (Z.to_nat (glyph_height cfg)) 0 (λ gy m,
    iterate (Z.to_nat (font_width cfg)) 0 (λ fx m,
      match font_bool cfg !! (glyph + gy * font_width cfg + fx) with
      | Some bit => Some (put_pixel cfg (dest + gy * outer_stride + fx * inner_stride)
                            (if bit : bool then opaque (fg c) else opaque (bg c)) m)
      | None => None
      end) m) m.
End plot.

(** ** The state *)

Record flanterm_fb := mk_fb {
  config : fb_config;
  grid : list flanterm_fb_char; queue : list flanterm_fb_queue_item; queue_i : Z; qmap : list (option Z);
  text_fg : Z; text_bg : Z; cursor_x : Z; cursor_y : Z; saved_state_text_fg : Z; saved_state_text_bg : Z;
  saved_state_cursor_x : Z; saved_state_cursor_y : Z; old_cursor_x : Z; old_cursor_y : Z;
  framebuffer : gmap Z Z; flush_callback : bool; flushes : Z
}.

Ltac upd_fb p v c :=
  let fld q := first [unify p q; exact v | exact (q c)] in
  refine (mk_fb _ _ _ _ _ _ _ _ _ _ _ _ _ _ _ _ _ _);
  [fld config | fld grid | fld queue | fld queue_i | fld qmap | fld text_fg
  |fld text_bg | fld cursor_x | fld cursor_y | fld saved_state_text_fg | fld saved_state_text_bg | fld saved_state_cursor_x
  |fld saved_state_cursor_y | fld old_cursor_x | fld old_cursor_y | fld framebuffer | fld flush_callback | fld flushes ].
Definition set_grid (v : list flanterm_fb_char) (b : flanterm_fb) : flanterm_fb := ltac:(upd_fb grid v b).
Definition set_queue (v : list flanterm_fb_queue_item) (b : flanterm_fb) : flanterm_fb := ltac:(upd_fb queue v b).
Definition set_queue_i (v : Z) (b : flanterm_fb) : flanterm_fb := ltac:(upd_fb queue_i v b).
Definition set_qmap (v : list (option Z)) (b : flanterm_fb) : flanterm_fb := ltac:(upd_fb qmap v b).
Definition set_text_fg (v : Z) (b : flanterm_fb) : flanterm_fb := ltac:(upd_fb text_fg v b).
Definition set_text_bg (v : Z) (b : flanterm_fb) : flanterm_fb := ltac:(upd_fb text_bg v b).
Definition set_cursor_x (v : Z) (b : flanterm_fb) : flanterm_fb := ltac:(upd_fb cursor_x v b).
Definition set_cursor_y (v : Z) (b : flanterm_fb) : flanterm_fb := ltac:(upd_fb cursor_y v b).
Definition set_saved_state_text_fg (v : Z) (b : flanterm_fb) : flanterm_fb := ltac:(upd_fb saved_state_text_fg v b).
Definition set_saved_state_text_bg (v : Z) (b : flanterm_fb) : flanterm_fb := ltac:(upd_fb saved_state_text_bg v b).
Definition set_saved_state_cursor_x (v : Z) (b : flanterm_fb) : flanterm_fb := ltac:(upd_fb saved_state_cursor_x v b).
Definition set_saved_state_cursor_y (v : Z) (b : flanterm_fb) : flanterm_fb := ltac:(upd_fb saved_state_cursor_y v b).
Definition set_old_cursor_x (v : Z) (b : flanterm_fb) : flanterm_fb := ltac:(upd_fb old_cursor_x v b).
Definition set_old_cursor_y (v : Z) (b : flanterm_fb) : flanterm_fb := ltac:(upd_fb old_cursor_y v b).
Definition set_framebuffer (v : gmap Z Z) (b : flanterm_fb) : flanterm_fb := ltac:(upd_fb framebuffer v b).
Definition set_flush_callback (v : bool) (b : flanterm_fb) : flanterm_fb := ltac:(upd_fb flush_callback v b).
Definition set_flushes (v : Z) (b : flanterm_fb) : flanterm_fb := ltac:(upd_fb flushes v b).

Abbreviation T := (M (flanterm flanterm_fb)).

Definition getb {A} (f : flanterm_fb → A) : T A := gets (λ s, f (back s)).
Definition putb (f : flanterm_fb → flanterm_fb) : T unit := modify (λ s, mk_flanterm (ctx s) (f (back s))).
Definition get_config {A} (f : fb_config → A) : T A := getb (λ b, f (config b)).

(** A call of [ctx->plot_char]; a cell outside of the screen is not drawn. *)
Definition plot_char (c : flanterm_fb_char) (x y : Z) : T unit :=
  cols_ ← get cols; rows_ ← get rows;
  if (cols_ <=? x) || (rows_ <=? y) then mret tt
  else
    cfg ← getb config; m ← getb framebuffer;
    m' ← of_option
      (match plot_char_fn cfg with
       | plot_char_scaled_canvas_fn => plot_char_scaled_canvas
       | plot_char_scaled_uncanvas_fn => plot_char_scaled_uncanvas
       | plot_char_unscaled_canvas_fn => plot_char_unscaled_canvas
       | plot_char_unscaled_uncanvas_fn => plot_char_unscaled_uncanvas
       end cfg c x y m);
    putb (set_framebuffer m').

(** ** The queue *)

Definition compare_char (a b : flanterm_fb_char) : bool :=
  negb (negb (ch a =? ch b) || negb (bg a =? bg b) || negb (fg a =? fg b)).

(** [grid[i]] and [map[i]], read and written. *)
Definition grid_at (i : Z) : T flanterm_fb_char := g ← getb grid; of_option (zlookup g i).
Definition set_grid_at (i : Z) (c : flanterm_fb_char) : T unit :=
  g ← getb grid; g' ← of_option (zupdate g i c); putb (set_grid g').
Definition map_at (i : Z) : T (option Z) := m ← getb qmap; of_option (zlookup m i).
Definition set_map_at (i : Z) (q : option Z) : T unit :=
  m ← getb qmap; m' ← of_option (zupdate m i q); putb (set_qmap m').
Definition queue_at (k : Z) : T flanterm_fb_queue_item := q ← getb queue; of_option (zlookup q k).
Definition set_queue_at (k : Z) (item : flanterm_fb_queue_item) : T unit :=
  q ← getb queue; q' ← of_option (zupdate q k item); putb (set_queue q').

Definition push_to_queue (c : flanterm_fb_char) (x y : Z) : T unit :=
  cols_ ← get cols; rows_ ← get rows;
  if (cols_ <=? x) || (rows_ <=? y) then mret tt
  else
    let i := y * cols_ + x in
    q ← map_at i;
    match q with
    | None =>
      g ← grid_at i;
      if compare_char g c then mret tt
      else
        k ← getb queue_i; putb (set_queue_i (k + 1));;
        set_queue_at k (mk_item x y c);;
        set_map_at i (Some k)
    | Some k => item ← queue_at k; set_queue_at k (mk_item (q_x item) (q_y item) c)
    end.

(** The cell as it will be: the queued one, or the one on the screen. *)
Definition cell_at (i : Z) : T flanterm_fb_char :=
  q ← map_at i;
  match q with
  | Some k => item ← queue_at k; mret (q_c item)
  | None => grid_at i
  end.

Definition empty : T flanterm_fb_char := f ← getb text_fg; b ← getb text_bg; mret (mk_char 32 f b).

(** ** The operations *)

(** [for (i = start; i >= low; i--)], which also ends behind 0. *)
Fixpoint revscroll_rows (fuel : nat) (i low cols_ : Z) : T unit :=
  if i <? low then mret tt
  else if i =? SIZE_MAX then mret tt
  else match fuel with
       | O => mstop
       | S fuel =>
         c ← cell_at i;
         push_to_queue c ((i + cols_) mod cols_) ((i + cols_) / cols_);;
         revscroll_rows fuel (u64 (i - 1)) low cols_
       end.

Definition flanterm_fb_revscroll : T unit :=
  rows_ ← get rows; cols_ ← get cols; top ← get scroll_top_margin; bottom ← get scroll_bottom_margin;
  revscroll_rows (Z.to_nat (rows_ * cols_)) (u64 (u64 (bottom - 1) * cols_ - 1)) (top * cols_) cols_;;
  e ← empty;
  for_range 0 cols_ (λ i, push_to_queue e i top).

Definition flanterm_fb_scroll : T unit :=
  cols_ ← get cols; top ← get scroll_top_margin; bottom ← get scroll_bottom_margin;
  for_range ((top + 1) * cols_) (bottom * cols_) (λ i,
    c ← cell_at i; push_to_queue c ((i - cols_) mod cols_) ((i - cols_) / cols_));;
  e ← empty;
  for_range 0 cols_ (λ i, push_to_queue e i (u64 (bottom - 1))).

Definition flanterm_fb_clear (move : bool) : T unit :=
  rows_ ← get rows; cols_ ← get cols; e ← empty;
  for_range 0 (rows_ * cols_) (λ i, push_to_queue e (i mod cols_) (i / cols_));;
  mwhen move (putb (set_cursor_x 0);; putb (set_cursor_y 0)).

(** A coordinate beyond the screen; one that is negative as an [int] counts as
    0. *)
Definition clamp (v limit : Z) : Z :=
  if limit <=? v then (if s32 v <? 0 then 0 else u64 (limit - 1)) else v.

Definition flanterm_fb_set_cursor_pos (x y : Z) : T unit :=
  cols_ ← get cols; rows_ ← get rows;
  putb (set_cursor_x (clamp x cols_));; putb (set_cursor_y (clamp y rows_)).

Definition flanterm_fb_get_cursor_pos : T (Z * Z) :=
  cols_ ← get cols; rows_ ← get rows; x ← getb cursor_x; y ← getb cursor_y;
  mret (if cols_ <=? x then u64 (cols_ - 1) else x, if rows_ <=? y then u64 (rows_ - 1) else y).

Definition flanterm_fb_move_character (new_x new_y old_x old_y : Z) : T unit :=
  cols_ ← get cols; rows_ ← get rows;
  if (cols_ <=? old_x) || (rows_ <=? old_y) || (cols_ <=? new_x) || (rows_ <=? new_y) then mret tt
  else c ← cell_at (old_x + old_y * cols_); push_to_queue c new_x new_y.

Definition flanterm_fb_set_text_fg (fg : Z) : T unit :=
  l ← get_config ansi_colours; v ← of_option (zlookup l fg); putb (set_text_fg v).
Definition flanterm_fb_set_text_bg (bg : Z) : T unit :=
  l ← get_config ansi_colours; v ← of_option (zlookup l bg); putb (set_text_bg v).
Definition flanterm_fb_set_text_fg_bright (fg : Z) : T unit :=
  l ← get_config ansi_bright_colours; v ← of_option (zlookup l fg); putb (set_text_fg v).
Definition flanterm_fb_set_text_bg_bright (bg : Z) : T unit :=
  l ← get_config ansi_bright_colours; v ← of_option (zlookup l bg); putb (set_text_bg v).
Definition flanterm_fb_set_text_fg_rgb (fg : Z) : T unit := cfg ← getb config; putb (set_text_fg (convert_colour cfg fg)).
Definition flanterm_fb_set_text_bg_rgb (bg : Z) : T unit := cfg ← getb config; putb (set_text_bg (convert_colour cfg bg)).
Definition flanterm_fb_set_text_fg_default : T unit := v ← get_config default_fg; putb (set_text_fg v).
Definition flanterm_fb_set_text_bg_default : T unit := putb (set_text_bg 0xffffffff).
Definition flanterm_fb_set_text_fg_default_bright : T unit := v ← get_config default_fg_bright; putb (set_text_fg v).
Definition flanterm_fb_set_text_bg_default_bright : T unit := v ← get_config default_bg_bright; putb (set_text_bg v).
Definition flanterm_fb_swap_palette : T unit := putb (λ b, set_text_fg (text_bg b) (set_text_bg (text_fg b) b)).

Definition flanterm_fb_save_state : T unit :=
  putb (λ b, set_saved_state_text_fg (text_fg b) b);; putb (λ b, set_saved_state_text_bg (text_bg b) b);;
  putb (λ b, set_saved_state_cursor_x (cursor_x b) b);; putb (λ b, set_saved_state_cursor_y (cursor_y b) b).
Definition flanterm_fb_restore_state : T unit :=
  putb (λ b, set_text_fg (saved_state_text_fg b) b);; putb (λ b, set_text_bg (saved_state_text_bg b) b);;
  putb (λ b, set_cursor_x (saved_state_cursor_x b) b);; putb (λ b, set_cursor_y (saved_state_cursor_y b) b).

Definition draw_cursor : T unit :=
  cols_ ← get cols; rows_ ← get rows; x ← getb cursor_x; y ← getb cursor_y;
  if (cols_ <=? x) || (rows_ <=? y) then mret tt
  else
    let i := x + y * cols_ in
    q ← map_at i; c ← cell_at i;
    plot_char (mk_char (ch c) (bg c) (fg c)) x y;;
    match q with
    | Some _ => set_grid_at i c;; set_map_at i None
    | None => mret tt
    end.

(** One entry of the queue. *)
Definition flush_item (k : Z) : T unit :=
  cols_ ← get cols;
  item ← queue_at k;
  let offset := q_y item * cols_ + q_x item in
  q ← map_at offset;
  match q with
  | None => mret tt
  | Some _ =>
    plot_char (q_c item) (q_x item) (q_y item);; set_grid_at offset (q_c item);; set_map_at offset None
  end.

Definition call_flush_callback : T unit :=
  set ← getb flush_callback; mwhen set (putb (λ b, set_flushes (flushes b + 1) b)).

Definition flanterm_fb_double_buffer_flush : T unit :=
  enabled ← get cursor_enabled; mwhen enabled draw_cursor;;
  n ← getb queue_i; for_range 0 n flush_item;;
  cols_ ← get cols; rows_ ← get rows;
  x ← getb cursor_x; y ← getb cursor_y; old_x ← getb old_cursor_x; old_y ← getb old_cursor_y;
  mwhen ((negb (old_x =? x) || negb (old_y =? y)) || negb enabled)
    (mwhen ((old_x <? cols_) && (old_y <? rows_))
       (g ← grid_at (old_x + old_y * cols_); plot_char g old_x old_y));;
  putb (set_old_cursor_x x);; putb (set_old_cursor_y y);;
  putb (set_queue_i 0);;
  call_flush_callback.

(** Keeping the cursor above row [cols], not [rows], is what the source says. *)
Definition wrap_line : T unit :=
  putb (set_cursor_x 0);; putb (λ b, set_cursor_y (u64 (cursor_y b + 1)) b);;
  cols_ ← get cols; bottom ← get scroll_bottom_margin; y ← getb cursor_y;
  mwhen (y =? bottom) (putb (λ b, set_cursor_y (u64 (cursor_y b - 1)) b);; flanterm_fb_scroll);;
  y ← getb cursor_y; mwhen (cols_ <=? y) (putb (set_cursor_y (u64 (cols_ - 1)))).

Definition flanterm_fb_raw_putchar (c : Z) : T unit :=
  cols_ ← get cols; bottom ← get scroll_bottom_margin; scrolls ← get scroll_enabled;
  x ← getb cursor_x; y ← getb cursor_y;
  mwhen ((cols_ <=? x) && ((y <? u64 (bottom - 1)) || scrolls)) wrap_line;;
  f ← getb text_fg; b ← getb text_bg; x ← getb cursor_x; y ← getb cursor_y;
  putb (set_cursor_x (u64 (x + 1)));;
  push_to_queue (mk_char (u8 c) f b) x y.

(** The pixel a point of the screen is at, in [full_refresh]. *)
Definition rotated (cfg : fb_config) (x y : Z) : Z * Z :=
  if rotation cfg =? FLANTERM_FB_ROTATE_90 then (u64 (height cfg - 1 - y), x)
  else if rotation cfg =? FLANTERM_FB_ROTATE_180 then (u64 (width cfg - 1 - x), u64 (height cfg - 1 - y))
  else if rotation cfg =? FLANTERM_FB_ROTATE_270 then (y, u64 (width cfg - 1 - x))
  else (x, y).

Definition refresh_pixel (x y : Z) : T unit :=
  cfg ← getb config;
  let '(px, py) := rotated cfg x y in
  v ← of_option (match canvas cfg with Some l => zlookup l (y * width cfg + x) | None => Some (default_bg cfg) end);
  putb (λ b, set_framebuffer (put_pixel cfg (py * (pitch cfg / 4) + px) v (framebuffer b)) b).

Definition flanterm_fb_full_refresh : T unit :=
  h ← get_config height; w ← get_config width; rows_ ← get rows; cols_ ← get cols;
  for_range 0 h (λ y, for_range 0 w (λ x, refresh_pixel x y));;
  for_range 0 (rows_ * cols_) (λ i, g ← grid_at i; plot_char g (i mod cols_) (i / cols_));;
  enabled ← get cursor_enabled; mwhen enabled draw_cursor;;
  call_flush_callback.

Definition flanterm_fb_set_flush_callback (set : bool) : T unit := putb (set_flush_callback set).

(** The function pointers [flanterm_fb_init] installs. *)
#[export] Instance fb_backend : Backend flanterm_fb := {|
  raw_putchar := flanterm_fb_raw_putchar;
  Term.clear := flanterm_fb_clear;
  Term.set_cursor_pos := flanterm_fb_set_cursor_pos;
  Term.get_cursor_pos := flanterm_fb_get_cursor_pos;
  Term.set_text_fg := flanterm_fb_set_text_fg;
  Term.set_text_bg := flanterm_fb_set_text_bg;
  set_text_fg_bright := flanterm_fb_set_text_fg_bright;
  set_text_bg_bright := flanterm_fb_set_text_bg_bright;
  set_text_fg_rgb := flanterm_fb_set_text_fg_rgb;
  set_text_bg_rgb := flanterm_fb_set_text_bg_rgb;
  set_text_fg_default := flanterm_fb_set_text_fg_default;
  set_text_bg_default := flanterm_fb_set_text_bg_default;
  set_text_fg_default_bright := flanterm_fb_set_text_fg_default_bright;
  set_text_bg_default_bright := flanterm_fb_set_text_bg_default_bright;
  move_character := flanterm_fb_move_character;
  scroll := flanterm_fb_scroll;
  revscroll := flanterm_fb_revscroll;
  swap_palette := flanterm_fb_swap_palette;
  b_save_state := flanterm_fb_save_state;
  b_restore_state := flanterm_fb_restore_state;
  double_buffer_flush := flanterm_fb_double_buffer_flush;
  b_full_refresh := flanterm_fb_full_refresh
|}.

(** ** Setting up the frame buffer terminal ([flanterm_fb_init],
    [flanterm_fb_deinit] and the bump allocator of
    [kernel/terminal/src/flanterm_backends/fb.c])

    Memory is only asked for here: an allocation returns an address or fails,
    and the structures live in the state above.  A caller's allocator is
    an argument; [NULL] is the static pool. *)

Definition FLANTERM_FB_BUMP_ALLOC_POOL_SIZE : Z := 873000.
Definition FLANTERM_FB_WIDTH_LIMIT : Z := 1920.
Definition FLANTERM_FB_HEIGHT_LIMIT : Z := 1200.
(** [sizeof(struct flanterm_fb_context)] and of the elements of its arrays, on
    the 64-bit target. *)
Definition sizeof_context : Z := 816.
Definition sizeof_char : Z := 12.
Definition sizeof_queue_item : Z := 32.

(** The static variables of the allocator, and the state of the caller's. *)
Record alloc_state (E : Type) := mk_alloc {
  bump_alloc_ptr : Z; base_offset_added : bool; bump_allocated_instance : bool; client : E
}.
Arguments mk_alloc {E}. Arguments bump_alloc_ptr {E}. Arguments base_offset_added {E}.
Arguments bump_allocated_instance {E}. Arguments client {E}.

Section alloc.
Context {E : Type} (pool : Z).
Abbreviation A := (M (alloc_state E)).

Definition set_ptr (p : Z) : A unit :=
  modify (λ s, mk_alloc p (base_offset_added s) (bump_allocated_instance s) (client s)).
Definition set_instance (b : bool) : A unit :=
  modify (λ s, mk_alloc (bump_alloc_ptr s) (base_offset_added s) b (client s)).

(** [pool] is the address of [bump_alloc_pool]. *)
Definition align_pool : A unit :=
  added ← gets base_offset_added;
  mwhen (negb added)
    (let low := Z.land pool 0xf in
     mwhen (truthy low) (p ← gets bump_alloc_ptr; set_ptr (p + (0x10 - low)));;
     modify (λ s, mk_alloc (bump_alloc_ptr s) true (bump_allocated_instance s) (client s))).

Definition bump_alloc (size : Z) : A (option Z) :=
  align_pool;;
  let s := if truthy (Z.land size 0xf) then Z.land (u64 (size + 0x10)) (cnot 64 0xf) else size in
  p ← gets bump_alloc_ptr;
  let next_ptr := u64 (p + s) in
  if FLANTERM_FB_BUMP_ALLOC_POOL_SIZE <? next_ptr then mret None
  else set_ptr next_ptr;; mret (Some (pool + p)).

(** The arguments of [flanterm_fb_init]; [None] is a null pointer. *)
Record fb_args := mk_args {
  a_malloc : option (Z → A (option Z)); a_free : option (Z → Z → A unit);
  a_framebuffer : Z; a_width : Z; a_height : Z; a_pitch : Z;
  a_red_mask_size : Z; a_red_mask_shift : Z; a_green_mask_size : Z; a_green_mask_shift : Z;
  a_blue_mask_size : Z; a_blue_mask_shift : Z;
  a_canvas : option (list Z); a_ansi_colours : option (list Z); a_ansi_bright_colours : option (list Z);
  a_default_bg : option Z; a_default_fg : option Z; a_default_bg_bright : option Z; a_default_fg_bright : option Z;
  a_font : option (list Z); a_font_width : Z; a_font_height : Z; a_font_spacing : Z;
  a_font_scale_x : Z; a_font_scale_y : Z; a_margin : Z; a_rotation : Z
}.

(** ** What is computed from the arguments *)

Definition default_colours : list Z :=
  [0x00000000; 0x00aa0000; 0x0000aa00; 0x00aa5500; 0x000000aa; 0x00aa00aa; 0x0000aaaa; 0x00aaaaaa].
Definition default_bright_colours : list Z :=
  [0x00555555; 0x00ff5555; 0x0055ff55; 0x00ffff55; 0x005555ff; 0x00ff55ff; 0x0055ffff; 0x00ffffff].

(** Width and height along the text. *)
Definition turn (a : fb_args) : Z * Z :=
  if (a_rotation a =? FLANTERM_FB_ROTATE_90) || (a_rotation a =? FLANTERM_FB_ROTATE_270)
  then (a_height a, a_width a) else (a_width a, a_height a).

Definition choose_scale (w h sx sy : Z) : Z * Z :=
  if (sx =? 0) || (sy =? 0) then
    let '(sx, sy) := (1, 1) in
    let '(sx, sy) := if (1920 + 1920 / 3 <=? w) && (1080 + 1080 / 3 <=? h) then (2, 2) else (sx, sy) in
    if (3840 + 3840 / 3 <=? w) && (2160 + 2160 / 3 <=? h) then (4, 4) else (sx, sy)
  else (sx, sy).

(** The part of a large screen the static pool can serve. *)
Definition limit_size (fb w h pitch : Z) : Z * Z * Z :=
  if (FLANTERM_FB_WIDTH_LIMIT <? w) || (FLANTERM_FB_HEIGHT_LIMIT <? h) then
    let wl := if FLANTERM_FB_WIDTH_LIMIT <? w then FLANTERM_FB_WIDTH_LIMIT else w in
    let hl := if FLANTERM_FB_HEIGHT_LIMIT <? h then FLANTERM_FB_HEIGHT_LIMIT else h in
    (fb + ((h / 2 - hl / 2) * pitch + (w / 2 - wl / 2) * 4), wl, hl)
  else (fb, w, h).

(** The loops that expand the font: one [bool] per dot, a row of [w] dots for
    every byte. *)
Definition font_dot (bits : list Z) (h i y x : Z) : option bool :=
  match zlookup bits (i * h + y) with
  | Some row =>
    Some (if x <? 8 then truthy (Z.land row (Z.shiftr 0x80 x))
          else if (0xc0 <=? i) && (i <=? 0xdf) then truthy (Z.land row 1) else false)
  | None => None
  end.

Definition expand_font (bits : list Z) (h w : Z) : option (gmap Z bool) :=
  iterate (Z.to_nat FLANTERM_FB_FONT_GLYPHS) 0 (λ i m,
    iterate (Z.to_nat h) 0 (λ y m,
      let put x m := match font_dot bits h i y x with
                     | Some b => Some (<[i * h * w + y * w + x := b]> m)
                     | None => None
                     end in
      match iterate 8 0 put m with
      | Some m => iterate (Z.to_nat (w - 8)) 8 put m
      | None => None
      end) m) ∅.

(** ** [flanterm_fb_init] *)

(** The structures allocated so far, newest first: addresses and sizes. *)
Definition allocations := list (Z * Z).
Definition result : Type := option (allocations * flanterm flanterm_fb).

(** The label [fail]. *)
Definition fail (a : fb_args) (held : allocations) : A result :=
  match held, a_malloc a, a_free a with
  | [], _, _ => mret None
  | _, None, _ => set_ptr 0;; mret None
  | _, Some _, None => mret None
  | _, Some _, Some free => foldr (λ '(p, n) rest, free p n;; rest) (mret tt) held;; mret None
  end.

(** [p = _malloc(n); if (p == NULL) goto fail;] *)
Definition malloc_or_fail (a : fb_args) (n : Z) (held : allocations) (k : allocations → A result) : A result :=
  p ← match a_malloc a with Some malloc => malloc n | None => bump_alloc n end;
  match p with Some p => k ((p, n) :: held) | None => fail a held end.

(** [n] elements of an array that was passed in. *)
Definition elements {X} (n : Z) (l : list X) : A (list X) :=
  if n <=? Z.of_nat (length l) then mret (take (Z.to_nat n) l) else mstop.

(** The context after [memset], with its dimensions. *)
Definition fresh_context (rows cols : Z) : flanterm_context :=
  mk_flanterm_context 0 false false false false false false false false false false false false false false false
    0 0 0 [0; 0] 0 0 0 0 0 0 0 0 0 (replicate 16 0) 0 false false false 0 0 0 rows cols false [].

(** Font, its size and spacing: the caller's, or the built-in one. *)
Definition choose_font (a : fb_args) : list Z * Z * Z * Z :=
  match a_font a with
  | Some font => (font, a_font_width a, a_font_height a, a_font_spacing a)
  | None => (builtin_font, 8, 16, 1)
  end.

(** The shifts of the three colours. *)
Definition shifts (a : fb_args) : Z * Z * Z :=
  (u8 (a_red_mask_shift a + (a_red_mask_size a - 8)), u8 (a_green_mask_shift a + (a_green_mask_size a - 8)),
   u8 (a_blue_mask_shift a + (a_blue_mask_size a - 8))).

Definition choose_plot (canvas : option (list Z)) (sx sy : Z) : plot_fn :=
  if (sx =? 1) && (sy =? 1)
  then match canvas with None => plot_char_unscaled_uncanvas_fn | Some _ => plot_char_unscaled_canvas_fn end
  else match canvas with None => plot_char_scaled_uncanvas_fn | Some _ => plot_char_scaled_canvas_fn end.

(** The space between the margins. *)
Definition usable (a : fb_args) (size : Z) : Z := u64 (size - u64 (a_margin a * 2)).

(** The constant part of the context; [colours] and [image] are converted. *)
Definition make_config (a : fb_args) (fb w h sx sy fw fh : Z) (bits : list Z) (font : gmap Z bool)
    (colours brights : list Z) (image : option (list Z)) : fb_config :=
  let '(r, g, b) := shifts a in
  let cfg colours brights dfg dbg dfgb dbgb image :=
    mk_config (choose_plot image sx sy) fw fh (fw * sx) (fh * sy) sx sy
      (a_margin a + usable a w mod (fw * sx) / 2) (a_margin a + usable a h mod (fh * sy) / 2)
      fb (a_pitch a) w h r g b (a_rotation a) bits font colours brights dfg dbg dfgb dbgb image in
  let convert := convert_colour (cfg [] [] 0 0 0 0 None) in
  cfg (map convert colours) (map convert brights)
    (convert (default 0x00aaaaaa (a_default_fg a)))
    (match a_default_bg a with Some v => convert v | None => 0x00000000 end)
    (convert (default 0x00ffffff (a_default_fg_bright a))) (convert (default 0x00555555 (a_default_bg_bright a)))
    (option_map (map convert) image).

(** The context before its first drawing; [video] is what the screen shows. *)
Definition make_context (cfg : fb_config) (rows cols : Z) (video : pixels) : flanterm flanterm_fb :=
  let n := Z.to_nat (u64 (rows * cols)) in
  mk_flanterm (fresh_context rows cols)
    (mk_fb cfg (replicate n (mk_char 32 (default_fg cfg) NO_COLOUR)) (replicate n (mk_item 0 0 (mk_char 0 0 0))) 0
       (replicate n None) (default_fg cfg) NO_COLOUR 0 0 0 0 0 0 0 0 video false 0).

Definition flanterm_fb_init (a : fb_args) (video : pixels) : A result :=
  let '(w, h) := turn a in
  let '(sx, sy) := choose_scale w h (a_font_scale_x a) (a_font_scale_y a) in
  taken ← gets bump_allocated_instance;
  if (a_red_mask_size a <? 8) || negb (a_red_mask_size a =? a_green_mask_size a) ||
     negb (a_red_mask_size a =? a_blue_mask_size a) then mret None
  else
    let static := match a_malloc a with None => true | Some _ => false end in
    if static && taken then mret None
    else
      let '(fb, w, h) := if static then limit_size (a_framebuffer a) w h (a_pitch a) else (a_framebuffer a, w, h) in
      let image := if static then None else a_canvas a in
      malloc_or_fail a sizeof_context [] (λ held,
      colours ← elements 8 (default default_colours (a_ansi_colours a));
      brights ← elements 8 (default default_bright_colours (a_ansi_bright_colours a));
      let '(font, fw, fh, spacing) := choose_font a in
      let bytes := fw * fh * FLANTERM_FB_FONT_GLYPHS / 8 in
      malloc_or_fail a bytes held (λ held,
      bits ← elements bytes font;
      let fw := fw + spacing in
      malloc_or_fail a (FLANTERM_FB_FONT_GLYPHS * fh * fw) held (λ held,
      dots ← of_option (expand_font bits fh fw);
      massert (negb (fw * sx =? 0) && negb (fh * sy =? 0));;
      let cols := usable a w / (fw * sx) in
      let rows := usable a h / (fh * sy) in
      let cells := u64 (rows * cols) in
      malloc_or_fail a (u64 (cells * sizeof_char)) held (λ held,
      malloc_or_fail a (u64 (cells * sizeof_queue_item)) held (λ held,
      malloc_or_fail a (u64 (cells * 8)) held (λ held,
      let finish image held : A result :=
        let cfg := make_config a fb w h sx sy fw fh bits dots colours brights image in
        '(_, t) ← of_option ((flanterm_context_reinit;; flanterm_fb_full_refresh) (make_context cfg rows cols video));
        mwhen static (set_instance true);;
        mret (Some (held, t)) in
      match image with
      | None => finish None held
      | Some l => malloc_or_fail a (u64 (u64 (w * h) * 4)) held (λ held, l ← elements (u64 (w * h)) l; finish (Some l) held)
      end)))))).

(** ** [flanterm_fb_deinit] *)

(** The context itself, which was allocated first, is freed last. *)
Definition flanterm_fb_deinit (held : allocations) (free : option (Z → Z → A unit)) : A unit :=
  match free with
  | None => used ← gets bump_allocated_instance; mwhen used (set_ptr 0;; set_instance false)
  | Some free =>
    match rev held with
    | context :: arrays => foldr (λ '(p, n) rest, free p n;; rest) (mret tt) (arrays ++ [context])
    | [] => mret tt
    end
  end.
End alloc.
Arguments fb_args : clear implicits.

(** The call of [kernel_main]: the last three arguments that are not 0 are the
    font spacing and, as the rotation, the colour white. *)
Definition kernel_terminal (address width height pitch red_size red_shift green_size green_shift blue_size blue_shift : Z) :
    fb_args () :=
  mk_args None None address width height pitch red_size red_shift green_size green_shift blue_size blue_shift
    None None None None None None None None 0 0 1 0 0 0 0xFFFFFF.
