(* ===== verification/TermScreen.v ===== *)
(** * The screen a back end promises

    What the terminal may rely on: a picture of cells, a cursor, the two current
    colours, and what was shown at the last flush.  Scrolling and clearing are
    given by what every cell becomes; nothing is queued.  The operations are a
    back end themselves, so the whole terminal runs over this specification. *)

From stdpp Require Import prelude list numbers tactics.
From S2P Require Import Prelude TermTables Term TermFb.

Record palette := mk_palette {
  p_normal : list Z; p_bright : list Z; p_rgb : Z → Z; p_fg : Z; p_fg_bright : Z; p_bg_bright : Z
}.

Definition picture := Z → Z → flanterm_fb_char.

Record screen := mk_screen {
  colours : palette; cells : picture; shown : picture; cur_x : Z; cur_y : Z; now_fg : Z; now_bg : Z;
  kept_fg : Z; kept_bg : Z; kept_x : Z; kept_y : Z
}.

Definition put_cell (c : flanterm_fb_char) (x y : Z) (p : picture) : picture :=
  λ x' y', if (x' =? x) && (y' =? y) then c else p x' y'.
(** Rows [top + 1] to [bottom - 1] move up, the last one becomes [c]. *)
Definition scrolled (top bottom : Z) (c : flanterm_fb_char) (p : picture) : picture :=
  λ x y, if (top <=? y) && (y <? bottom - 1) then p x (y + 1) else if y =? bottom - 1 then c else p x y.
Definition scrolled_back (top bottom : Z) (c : flanterm_fb_char) (p : picture) : picture :=
  λ x y, if y =? top then c else if (top <? y) && (y <? bottom) then p x (y - 1) else p x y.
Definition inverse (c : flanterm_fb_char) : flanterm_fb_char := mk_char (ch c) (bg c) (fg c).

Definition set_cells (v : picture) (s : screen) : screen :=
  mk_screen (colours s) v (shown s) (cur_x s) (cur_y s) (now_fg s) (now_bg s) (kept_fg s) (kept_bg s) (kept_x s) (kept_y s).
Definition set_shown (v : picture) (s : screen) : screen :=
  mk_screen (colours s) (cells s) v (cur_x s) (cur_y s) (now_fg s) (now_bg s) (kept_fg s) (kept_bg s) (kept_x s) (kept_y s).
Definition set_cur (x y : Z) (s : screen) : screen :=
  mk_screen (colours s) (cells s) (shown s) x y (now_fg s) (now_bg s) (kept_fg s) (kept_bg s) (kept_x s) (kept_y s).
Definition set_now (f b : Z) (s : screen) : screen :=
  mk_screen (colours s) (cells s) (shown s) (cur_x s) (cur_y s) f b (kept_fg s) (kept_bg s) (kept_x s) (kept_y s).
Definition set_kept (f b x y : Z) (s : screen) : screen :=
  mk_screen (colours s) (cells s) (shown s) (cur_x s) (cur_y s) (now_fg s) (now_bg s) f b x y.

Abbreviation T := (M (flanterm screen)).
Definition gets_ {A} (f : screen → A) : T A := gets (λ s, f (back s)).
Definition puts (f : screen → screen) : T unit := modify (λ s, mk_flanterm (ctx s) (f (back s))).

(** A blank in the current colours. *)
Definition blank (s : screen) : flanterm_fb_char := mk_char 32 (now_fg s) (now_bg s).

Definition margins_ok (c : flanterm_context) : bool :=
  (0 <=? scroll_top_margin c) && (1 <=? scroll_bottom_margin c) && (scroll_bottom_margin c <=? rows c).

Definition s_scroll : T unit :=
  c ← get (λ c, c); massert (margins_ok c && (scroll_top_margin c <? scroll_bottom_margin c));;
  puts (λ s, set_cells (scrolled (scroll_top_margin c) (scroll_bottom_margin c) (blank s) (cells s)) s).
Definition s_revscroll : T unit :=
  c ← get (λ c, c); massert (margins_ok c);;
  puts (λ s, set_cells (scrolled_back (scroll_top_margin c) (scroll_bottom_margin c) (blank s) (cells s)) s).
Definition s_clear (move : bool) : T unit :=
  puts (λ s, set_cells (λ _ _, blank s) s);; mwhen move (puts (set_cur 0 0)).
(** A value of type [size_t]. *)
Definition is_size (v : Z) : bool := (0 <=? v) && (v <? 2 ^ 64).

Definition s_set_cursor_pos (x y : Z) : T unit :=
  massert (is_size x && is_size y);; c ← get (λ c, c); puts (set_cur (clamp x (cols c)) (clamp y (rows c))).
Definition s_get_cursor_pos : T (Z * Z) :=
  c ← get (λ c, c); x ← gets_ cur_x; y ← gets_ cur_y; mret (Z.min x (cols c - 1), Z.min y (rows c - 1)).
Definition s_move_character (new_x new_y old_x old_y : Z) : T unit :=
  massert (is_size new_x && is_size new_y && is_size old_x && is_size old_y);; c ← get (λ c, c);
  mwhen ((old_x <? cols c) && (old_y <? rows c) && (new_x <? cols c) && (new_y <? rows c))
    (puts (λ s, set_cells (put_cell (cells s old_x old_y) new_x new_y (cells s)) s)).

Definition s_set_fg (v : option Z) : T unit := v ← of_option v; puts (λ s, set_now v (now_bg s) s).
Definition s_set_bg (v : option Z) : T unit := v ← of_option v; puts (λ s, set_now (now_fg s) v s).

(** The end of a line that may be left: down one row, or scroll at the bottom
    margin; the row is kept below the number of columns. *)
Definition s_wrap : T unit :=
  puts (λ s, set_cur 0 (u64 (cur_y s + 1)) s);;
  cols_ ← get cols; bottom ← get scroll_bottom_margin; y ← gets_ cur_y;
  mwhen (y =? bottom) (puts (λ s, set_cur (cur_x s) (u64 (cur_y s - 1)) s);; s_scroll);;
  y ← gets_ cur_y; mwhen (cols_ <=? y) (puts (λ s, set_cur (cur_x s) (u64 (cols_ - 1)) s)).
Definition s_raw_putchar (v : Z) : T unit :=
  c ← get (λ c, c); x ← gets_ cur_x; y ← gets_ cur_y;
  mwhen ((cols c <=? x) && ((y <? u64 (scroll_bottom_margin c - 1)) || scroll_enabled c)) s_wrap;;
  puts (λ s, set_cells (put_cell (mk_char (u8 v) (now_fg s) (now_bg s)) (cur_x s) (cur_y s) (cells s))
               (set_cur (u64 (cur_x s + 1)) (cur_y s) s)).

(** The cursor is shown by inverting its cell. *)
Definition with_cursor (enabled : bool) (x y : Z) (p : picture) : picture :=
  λ x' y', if enabled && (x' =? x) && (y' =? y) then inverse (p x' y') else p x' y'.
Definition s_flush : T unit :=
  enabled ← get cursor_enabled; puts (λ s, set_shown (with_cursor enabled (cur_x s) (cur_y s) (cells s)) s).

#[export] Instance screen_backend : Backend screen := {|
  raw_putchar := s_raw_putchar;
  Term.clear := s_clear;
  Term.set_cursor_pos := s_set_cursor_pos;
  Term.get_cursor_pos := s_get_cursor_pos;
  Term.set_text_fg i := v ← gets_ (λ s, zlookup (p_normal (colours s)) i); s_set_fg v;
  Term.set_text_bg i := v ← gets_ (λ s, zlookup (p_normal (colours s)) i); s_set_bg v;
  set_text_fg_bright i := v ← gets_ (λ s, zlookup (p_bright (colours s)) i); s_set_fg v;
  set_text_bg_bright i := v ← gets_ (λ s, zlookup (p_bright (colours s)) i); s_set_bg v;
  set_text_fg_rgb c := v ← gets_ (λ s, p_rgb (colours s) c); s_set_fg (Some v);
  set_text_bg_rgb c := v ← gets_ (λ s, p_rgb (colours s) c); s_set_bg (Some v);
  set_text_fg_default := v ← gets_ (λ s, p_fg (colours s)); s_set_fg (Some v);
  set_text_bg_default := s_set_bg (Some NO_COLOUR);
  set_text_fg_default_bright := v ← gets_ (λ s, p_fg_bright (colours s)); s_set_fg (Some v);
  set_text_bg_default_bright := v ← gets_ (λ s, p_bg_bright (colours s)); s_set_bg (Some v);
  move_character := s_move_character;
  scroll := s_scroll;
  revscroll := s_revscroll;
  swap_palette := puts (λ s, set_now (now_bg s) (now_fg s) s);
  b_save_state := puts (λ s, set_kept (now_fg s) (now_bg s) (cur_x s) (cur_y s) s);
  b_restore_state := puts (λ s, set_cur (kept_x s) (kept_y s) (set_now (kept_fg s) (kept_bg s) s));
  double_buffer_flush := s_flush;
  b_full_refresh := mret tt
|}.
