(* ===== verification/TermPixels.v ===== *)
(** * Drawing a cell

    [plot_char] writes exactly the dots of one cell, wherever the rotation puts
    them: [displays cfg cols rows m p] says that the frame buffer [m] shows the
    picture [p]. *)

From Stdlib Require Import ZifyBool.
From stdpp Require Import prelude gmap list numbers tactics.
From S2P Require Import Prelude Term TermFb TermScreen.

(** ** Loops of writes *)

Section writes.
Context {A : Type}.

(** [f] succeeds, writes [w] to [a] for some [W a w] if there is one, and leaves
    every other address alone. *)
Definition writes (f : gmap Z A → option (gmap Z A)) (W : Z → A → Prop) : Prop :=
  ∀ m, ∃ m', f m = Some m' ∧ ∀ a, (∃ w, W a w ∧ m' !! a = Some w) ∨ ((∀ w, ¬ W a w) ∧ m' !! a = m !! a).

Lemma writes_one a v f : (∀ m, f m = Some (<[a := v]> m)) → writes f (λ b w, b = a ∧ w = v).
Proof.
  intros Hf m. exists (<[a := v]> m). split; [apply Hf|]. intros b. destruct (decide (b = a)) as [->|].
  - left. exists v. by rewrite lookup_insert_eq.
  - right. split; [naive_solver|]. by rewrite lookup_insert_ne by done.
Qed.

Lemma writes_iterate n i f W : (∀ j, i <= j < i + Z.of_nat n → writes (f j) (W j)) →
  writes (iterate n i f) (λ a w, ∃ j, i <= j < i + Z.of_nat n ∧ W j a w).
Proof.
  revert i. induction n as [|n IH]; intros i Hf m.
  - exists m. split; [done|]. intros a. right. split; [|done]. intros w (j & Hj & _). lia.
  - destruct (Hf i ltac:(lia) m) as (m1 & E1 & H1). destruct (IH (i + 1) ltac:(intros; apply Hf; lia) m1) as (m2 & E2 & H2).
    exists m2. split; [cbn [iterate]; by rewrite E1|]. intros a. destruct (H2 a) as [(w & (j & Hj & HW) & Hm)|[Hn Hm]].
    + left. exists w. split; [|done]. exists j. split; [lia|done].
    + destruct (H1 a) as [(w & HW & Hm1)|[Hn1 Hm1]].
      * left. exists w. split; [|by rewrite Hm]. exists i. split; [lia|done].
      * right. split; [|by rewrite Hm]. intros w (j & Hj & HW).
        destruct (Z.eq_dec j i) as [->|]; [by apply (Hn1 w)|]. apply (Hn w). exists j. split; [lia|done].
Qed.

Lemma writes_ext f g W V : (∀ m, f m = g m) → (∀ a w, W a w ↔ V a w) → writes f W → writes g V.
Proof.
  intros Hfg HWV Hf m. destruct (Hf m) as (m' & E & H). exists m'. split; [by rewrite <- Hfg|]. intros a.
  destruct (H a) as [(w & HW & Hm)|[Hn Hm]]; [left; exists w; split; [by apply HWV|done]|right; split; [|done]].
  intros w Hw. by apply (Hn w), HWV.
Qed.
End writes.

(** ** The geometry of the screen *)

Section geometry.
Context (cfg : fb_config) (cols rows : Z).

(** [pitch / 4], the pixels from one line to the next. *)
Definition stride : Z := pitch cfg / 4.

(** What [flanterm_fb_init] establishes: the cells lie on the screen, the turned
    screen in the frame buffer, and every glyph has its dots. *)
Record geometry_ok : Prop := {
  g_plot : plot_char_fn cfg = plot_char_scaled_uncanvas_fn ∨
           plot_char_fn cfg = plot_char_unscaled_uncanvas_fn ∧ font_scale_x cfg = 1 ∧ font_scale_y cfg = 1;
  g_canvas : canvas cfg = None;
  g_font : 0 < font_width cfg ∧ 0 < font_height cfg <= 256;
  g_scale : 0 < font_scale_x cfg ∧ 0 < font_scale_y cfg;
  g_glyph : glyph_width cfg = font_width cfg * font_scale_x cfg ∧ glyph_height cfg = font_height cfg * font_scale_y cfg;
  g_offset : 0 <= offset_x cfg ∧ 0 <= offset_y cfg;
  g_fits : offset_x cfg + cols * glyph_width cfg <= width cfg < 2 ^ 31 ∧
           offset_y cfg + rows * glyph_height cfg <= height cfg < 2 ^ 31;
  g_stride : width cfg <= stride ∧ height cfg <= stride ∨
             width cfg <= stride ∧ rotation cfg ≠ 1 ∧ rotation cfg ≠ 3 ∨
             height cfg <= stride ∧ (rotation cfg = 1 ∨ rotation cfg = 3);
  g_stride_int : stride < 2 ^ 31;
  g_dots : ∀ c y x, 0 <= c < 256 → 0 <= y < font_height cfg → 0 <= x < font_width cfg →
    is_Some (font_bool cfg !! (c * font_height cfg * font_width cfg + (y * font_width cfg + x)))
}.

(** The pixel of a point of the screen. *)
Definition point (x y : Z) : Z := let '(px, py) := rotated cfg x y in px + py * stride.

Definition on_screen (x y : Z) : Prop := 0 <= x < width cfg ∧ 0 <= y < height cfg.

Lemma rotated_plain x y : rotation cfg ≠ 1 → rotation cfg ≠ 2 → rotation cfg ≠ 3 → rotated cfg x y = (x, y).
Proof.
  intros. unfold rotated. by rewrite !(proj2 (Z.eqb_neq _ _)) by (unfold FLANTERM_FB_ROTATE_90, FLANTERM_FB_ROTATE_180, FLANTERM_FB_ROTATE_270; done).
Qed.

(** The four rotations. *)
Lemma rotation_cases : rotation cfg = 1 ∨ rotation cfg = 2 ∨ rotation cfg = 3 ∨
  (rotation cfg ≠ 1 ∧ rotation cfg ≠ 2 ∧ rotation cfg ≠ 3).
Proof. lia. Qed.

Lemma point_inj (Hg : geometry_ok) x y x' y' : on_screen x y → on_screen x' y' → point x y = point x' y' → x = x' ∧ y = y'.
Proof.
  intros [Hx Hy] [Hx' Hy'] E. destruct Hg as [_ _ _ _ _ _ [Hw Hh] Hs _ _].
  assert (∀ a b c d, 0 <= a < stride → 0 <= c < stride → a + b * stride = c + d * stride → a = c ∧ b = d) as Hinj.
  { intros a b c d Ha Hc He. assert (b = d) as ->; [|lia]. nia. }
  unfold point, rotated, FLANTERM_FB_ROTATE_90, FLANTERM_FB_ROTATE_180, FLANTERM_FB_ROTATE_270 in E.
  rewrite !wrap_small in E by lia.
  destruct (Z.eqb_spec (rotation cfg) 1); [|destruct (Z.eqb_spec (rotation cfg) 2); [|destruct (Z.eqb_spec (rotation cfg) 3)]];
    apply Hinj in E; lia.
Qed.

(** The strides walk from a point to its neighbours. *)
Lemma target_points (Hg : geometry_ok) x y gx gy : on_screen x y → on_screen (x + gx) (y + gy) → 0 <= gx → 0 <= gy →
  let '(dest, outer_stride, inner_stride) := target cfg x y in
  dest + gy * outer_stride + gx * inner_stride = point (x + gx) (y + gy).
Proof.
  intros [Hx Hy] [Hx' Hy'] Hgx Hgy. destruct Hg as [_ _ _ _ _ _ [Hw Hh] Hs Hi _].
  unfold target, point, rotated, FLANTERM_FB_ROTATE_90, FLANTERM_FB_ROTATE_180, FLANTERM_FB_ROTATE_270. fold stride.
  assert (0 <= stride) as H0 by lia.
  assert (∀ a b, 0 <= a < 2 ^ 31 → 0 <= b < 2 ^ 31 → u64 (a + b * stride) = a + b * stride) as Hu.
  { intros a b Ha Hb. apply wrap_small. assert (0 <= b * stride < 2 ^ 31 * 2 ^ 31) by nia. lia. }
  rewrite (swrap_small 32 stride), (swrap_small 32 (- stride)) by lia.
  rewrite !(wrap_small 64 (_ - 1 - _)) by lia.
  destruct (Z.eqb_spec (rotation cfg) 1); [|destruct (Z.eqb_spec (rotation cfg) 2); [|destruct (Z.eqb_spec (rotation cfg) 3)]];
    rewrite Hu by lia; lia.
Qed.
End geometry.

(** ** Drawing a cell *)

Section plot.
Context (cfg : fb_config) (cols rows : Z) (Hg : geometry_ok cfg cols rows).

(** The colour of a dot of a cell. *)
Definition dot (c : flanterm_fb_char) (gx gy : Z) : option Z :=
  (λ b : bool, if b then opaque cfg (fg c) else opaque cfg (bg c)) <$>
    font_bool cfg !! (glyph cfg c + (gy / font_scale_y cfg * font_width cfg + gx / font_scale_x cfg)).

(** A point of the cell in column [x] and row [y]. *)
Definition cell_pixel (x y gx gy : Z) : Z := pixel cfg (point cfg (left cfg x + gx) (top cfg y + gy)).
Definition in_glyph (gx gy : Z) : Prop := 0 <= gx < glyph_width cfg ∧ 0 <= gy < glyph_height cfg.
Definition in_cells (x y : Z) : Prop := 0 <= x < cols ∧ 0 <= y < rows.

Definition displays (m : pixels) (p : picture) : Prop :=
  ∀ x y gx gy, in_cells x y → in_glyph gx gy →
    ∃ v, dot (p x y) gx gy = Some v ∧ m !! cell_pixel x y gx gy = Some v.

Lemma glyph_positive : 0 < glyph_width cfg ∧ 0 < glyph_height cfg.
Proof. destruct Hg as [_ _ [] [] [] _ _ _ _ _]. nia. Qed.

Lemma cell_on_screen x y gx gy : in_cells x y → in_glyph gx gy → on_screen cfg (left cfg x + gx) (top cfg y + gy).
Proof.
  intros [Hx Hy] [Hgx Hgy]. destruct Hg as [_ _ _ _ _ [Ho1 Ho2] [Hw Hh] _ _ _]. unfold left, top, on_screen.
  assert (0 <= x * glyph_width cfg ∧ (x + 1) * glyph_width cfg <= cols * glyph_width cfg) by nia.
  assert (0 <= y * glyph_height cfg ∧ (y + 1) * glyph_height cfg <= rows * glyph_height cfg) by nia. lia.
Qed.

Lemma cell_pixel_inj x y gx gy x' y' gx' gy' : in_cells x y → in_glyph gx gy → in_cells x' y' → in_glyph gx' gy' →
  cell_pixel x y gx gy = cell_pixel x' y' gx' gy' → x = x' ∧ y = y' ∧ gx = gx' ∧ gy = gy'.
Proof.
  intros H1 H2 H3 H4 E. pose proof (cell_on_screen _ _ _ _ H1 H2) as S1. pose proof (cell_on_screen _ _ _ _ H3 H4) as S2.
  unfold cell_pixel, pixel in E. destruct (point_inj cfg cols rows Hg _ _ _ _ S1 S2) as [E1 E2]; [lia|].
  destruct H1 as [H1 H1'], H2 as [H2 H2'], H3 as [H3 H3'], H4 as [H4 H4']. unfold left, top in E1, E2.
  assert (x = x') as -> by nia. assert (y = y') as -> by nia. lia.
Qed.

Lemma dot_some c gx gy : 0 <= ch c < 256 → in_glyph gx gy → is_Some (dot c gx gy).
Proof.
  intros Hc [Hx Hy]. destruct Hg as [_ _ _ [Hs1 Hs2] [Hw Hh] _ _ _ _ Hd]. unfold dot, glyph. apply fmap_is_Some. apply Hd; [done| |].
  - split; [apply Z.div_pos; lia|apply Z.div_lt_upper_bound; lia].
  - split; [apply Z.div_pos; lia|apply Z.div_lt_upper_bound; lia].
Qed.

Definition plot_of : fb_config → flanterm_fb_char → Z → Z → pixels → option pixels :=
  match plot_char_fn cfg with
  | plot_char_scaled_canvas_fn => plot_char_scaled_canvas
  | plot_char_scaled_uncanvas_fn => plot_char_scaled_uncanvas
  | plot_char_unscaled_canvas_fn => plot_char_unscaled_canvas
  | plot_char_unscaled_uncanvas_fn => plot_char_unscaled_uncanvas
  end.

(** The writes of one cell. *)
Definition cell_writes (c : flanterm_fb_char) (x y a w : Z) : Prop :=
  ∃ gx gy, in_glyph gx gy ∧ a = cell_pixel x y gx gy ∧ dot c gx gy = Some w.

Lemma put_dot c x y dest o i gx gy : in_cells x y → in_glyph gx gy → 0 <= ch c < 256 →
  target cfg (left cfg x) (top cfg y) = (dest, o, i) →
  writes (λ m, match font_bool cfg !! (glyph cfg c + gy / font_scale_y cfg * font_width cfg + gx / font_scale_x cfg) with
               | Some bit => Some (put_pixel cfg (dest + gy * o + gx * i) (if bit : bool then opaque cfg (fg c) else opaque cfg (bg c)) m)
               | None => None end)
    (λ a w, a = cell_pixel x y gx gy ∧ dot c gx gy = Some w).
Proof.
  intros Hc Hi Hr Et. pose proof (target_points cfg cols rows Hg (left cfg x) (top cfg y) gx gy) as Ht. rewrite Et in Ht.
  pose proof glyph_positive. destruct Hi as [Hgx Hgy].
  rewrite Ht; [|rewrite <- (Z.add_0_r (left cfg x)), <- (Z.add_0_r (top cfg y)); apply cell_on_screen; [done|split; lia]
               |by apply cell_on_screen|lia|lia].
  destruct (dot_some c gx gy Hr ltac:(done)) as [v Hv]. rewrite Hv. unfold dot in Hv.
  rewrite <- Z.add_assoc. destruct (font_bool cfg !! _) as [bit|]; [|done]. cbn in Hv.
  eapply writes_ext; [intros m; reflexivity| |apply (writes_one (cell_pixel x y gx gy) v); intros m; unfold put_pixel, cell_pixel; congruence].
  intros a w. naive_solver.
Qed.

Lemma plot_writes c x y : in_cells x y → 0 <= ch c < 256 → writes (plot_of cfg c x y) (cell_writes c x y).
Proof.
  intros Hc Hr. pose proof Hg as [Hp _ [Hfw [Hfh1 Hfh2]] [Hs1 Hs2] [Hw Hh] _ _ _ _ _]. unfold plot_of.
  destruct (target cfg (left cfg x) (top cfg y)) as [[dest o] i] eqn:Et.
  pose (D gy gx := λ a w : Z, a = cell_pixel x y gx gy ∧ dot c gx gy = Some w).
  destruct Hp as [->|(-> & E1 & E2)].
  - unfold plot_char_scaled_uncanvas. rewrite Et.
    eapply writes_ext; [intros m; reflexivity| |apply (writes_iterate _ _ _ (λ gy a w, ∃ fx, 0 <= fx < 0 + Z.of_nat (Z.to_nat (font_width cfg)) ∧
      ∃ k, 0 <= k < 0 + Z.of_nat (Z.to_nat (font_scale_x cfg)) ∧ D gy (font_scale_x cfg * fx + k) a w)); intros gy Hgy].
    + intros a w. unfold cell_writes, in_glyph, D. rewrite !Z2Nat.id by (rewrite ?Hw, ?Hh; nia). split.
      * intros (gy & Hgy & fx & Hfx & k & Hk & -> & Hd). exists (font_scale_x cfg * fx + k), gy. split; [|done]. split; [nia|lia].
      * intros (gx & gy & [Hgx Hgy] & -> & Hd). exists gy. split; [lia|]. exists (gx / font_scale_x cfg).
        pose proof (Z.div_mod gx (font_scale_x cfg) ltac:(lia)). pose proof (Z.mod_pos_bound gx (font_scale_x cfg) ltac:(lia)).
        split; [split; [apply Z.div_pos; lia|apply Z.div_lt_upper_bound; lia]|].
        exists (gx mod font_scale_x cfg). split; [lia|]. by rewrite <- (Z.div_mod gx (font_scale_x cfg)) by lia.
    + rewrite Z2Nat.id in Hgy by nia. apply writes_iterate. intros fx Hfx. apply writes_iterate. intros k Hk.
      rewrite !Z2Nat.id in Hfx, Hk by lia.
      eapply writes_ext; [|intros a w; reflexivity|apply (put_dot c x y dest o i (font_scale_x cfg * fx + k) gy Hc ltac:(split; nia) Hr Et)].
      intros m. cbv zeta beta. assert (gy / font_scale_y cfg < 256) by (apply Z.div_lt_upper_bound; nia).
      rewrite (wrap_small 8) by (split; [apply Z.div_pos; lia|done]).
      rewrite (Z.mul_comm (font_scale_x cfg) fx), Z.div_add_l, (Z.div_small k) by lia. by rewrite Z.add_0_r.
  - unfold plot_char_unscaled_uncanvas. rewrite Et. rewrite E1 in Hw. rewrite E2 in Hh.
    eapply writes_ext; [intros m; reflexivity| |apply (writes_iterate _ _ _ (λ gy a w, ∃ fx, 0 <= fx < 0 + Z.of_nat (Z.to_nat (font_width cfg)) ∧
      D gy fx a w)); intros gy Hgy].
    + intros a w. unfold cell_writes, in_glyph, D. rewrite !Z2Nat.id by lia. split.
      * intros (gy & Hgy & fx & Hfx & -> & Hd). exists fx, gy. split; [|done]. split; lia.
      * intros (gx & gy & [Hgx Hgy] & -> & Hd). exists gy. split; [lia|]. exists gx. split; [lia|done].
    + rewrite Z2Nat.id in Hgy by lia. apply writes_iterate. intros fx Hfx. rewrite Z2Nat.id in Hfx by lia.
      eapply writes_ext; [|intros a w; reflexivity|apply (put_dot c x y dest o i fx gy Hc ltac:(split; lia) Hr Et)].
      intros m. cbv zeta beta. by rewrite E1, E2, !Z.div_1_r.
Qed.

(** The cells of [D] show [p]. *)
Definition displays_on (D : Z → Z → Prop) (m : pixels) (p : picture) : Prop :=
  ∀ x y gx gy, in_cells x y → D x y → in_glyph gx gy → ∃ v, dot (p x y) gx gy = Some v ∧ m !! cell_pixel x y gx gy = Some v.

(** A cell is drawn, the others stay. *)
Lemma plot_displays_on (D : Z → Z → Prop) c x y m p : in_cells x y → 0 <= ch c < 256 →
  displays_on (λ x' y', D x' y' ∧ (x', y') ≠ (x, y)) m p →
  ∃ m', plot_of cfg c x y m = Some m' ∧ displays_on (λ x' y', D x' y' ∨ (x', y') = (x, y)) m' (put_cell c x y p).
Proof.
  intros Hc Hr Hm. destruct (plot_writes c x y Hc Hr m) as (m' & E & H). exists m'. split; [done|].
  intros x' y' gx gy Hc' HD Hi. destruct (H (cell_pixel x' y' gx gy)) as [(w & (gx' & gy' & Hi' & Ha & Hd) & Hl)|[Hn Hl]].
  - destruct (cell_pixel_inj _ _ _ _ _ _ _ _ Hc' Hi Hc Hi' Ha) as (-> & -> & -> & ->).
    exists w. unfold put_cell. by rewrite !Z.eqb_refl.
  - destruct (decide ((x', y') = (x, y))) as [E'|Hne].
    + injection E' as -> ->. destruct (dot_some c gx gy Hr Hi) as [w Hw]. destruct (Hn w). by exists gx, gy.
    + destruct HD as [HD|]; [|done]. destruct (Hm x' y' gx gy Hc' (conj HD Hne) Hi) as (v & Hd & Hv). exists v. rewrite Hl. split; [|done].
      unfold put_cell. destruct (Z.eqb_spec x' x) as [->|]; [|done]. destruct (Z.eqb_spec y' y) as [->|]; [|done]. done.
Qed.

Lemma plot_displays c x y m p : in_cells x y → 0 <= ch c < 256 →
  displays_on (λ x' y', (x', y') ≠ (x, y)) m p →
  ∃ m', plot_of cfg c x y m = Some m' ∧ displays m' (put_cell c x y p).
Proof.
  intros Hc Hr Hm. destruct (plot_displays_on (λ _ _, True) c x y m p Hc Hr) as (m' & E & H).
  - intros x' y' gx gy H1 [_ H2]. by apply Hm.
  - exists m'. split; [done|]. intros x' y' gx gy H1. apply H; [done|by left].
Qed.
End plot.
