(* ===== verification/TermQueue.v ===== *)
(** * The queue of the frame buffer terminal

    Between two flushes every queued cell is known to the map and the other way
    around, so the queue cannot overflow, and the cells it holds together with
    the grid are a picture that the operations change as the specification says
    ([holds]): writing a cell, scrolling, clearing. *)

From Stdlib Require Import ZifyBool.
From stdpp Require Import prelude gmap list numbers tactics.
From S2P Require Import Prelude Term TermFb TermScreen TermPixels.

(** ** Loops *)

Lemma wp_upwards {B} n i (body : Z → M (flanterm B) unit) (I : Z → flanterm B → Prop) t :
  I i t → (∀ j t, i <= j < i + Z.of_nat n → I j t → wp (body j) (λ _ t', I (j + 1) t') t) →
  wp (upwards n i body) (λ _ t', I (i + Z.of_nat n) t') t.
Proof.
  revert i t. induction n as [|n IH]; intros i t Hi Hb; cbn [upwards].
  - apply wp_ret. by rewrite Z.add_0_r.
  - apply wp_bind. eapply wp_mono; [apply Hb; [lia|done]|]. intros [] t' Hi'.
    replace (i + Z.of_nat (S n)) with (i + 1 + Z.of_nat n) by lia. apply IH; [done|]. intros j t1 Hj. apply Hb. lia.
Qed.

Lemma wp_for_range {B} lo hi (body : Z → M (flanterm B) unit) (I : Z → flanterm B → Prop) t : lo <= hi →
  I lo t → (∀ j t, lo <= j < hi → I j t → wp (body j) (λ _ t', I (j + 1) t') t) →
  wp (for_range lo hi body) (λ _ t', I hi t') t.
Proof.
  intros Hle Hi Hb. unfold for_range. pose proof (wp_upwards (Z.to_nat (hi - lo)) lo body I t Hi) as H.
  rewrite Z2Nat.id in H by lia. replace (lo + (hi - lo)) with hi in H by lia. by apply H.
Qed.

(** ** Cells by index *)

Lemma cell_index_range cols rows x y : in_cells cols rows x y → 0 <= y * cols + x < rows * cols.
Proof. intros [Hx Hy]. assert (0 <= y * cols) by nia. assert ((y + 1) * cols <= rows * cols) by nia. lia. Qed.

Lemma index_inj cols rows x y x' y' : in_cells cols rows x y → in_cells cols rows x' y' →
  y * cols + x = y' * cols + x' → x = x' ∧ y = y'.
Proof. intros [Hx Hy] [Hx' Hy'] E. assert (y = y') as -> by nia. lia. Qed.

Lemma index_divmod cols x y : 0 <= x < cols → (y * cols + x) mod cols = x ∧ (y * cols + x) / cols = y.
Proof.
  intros Hx. rewrite Z.add_comm, Z_mod_plus_full, Z_div_plus_full by lia.
  rewrite Z.mod_small, Z.div_small by lia. lia.
Qed.

Lemma index_cells cols rows i : 0 < cols → 0 <= i < rows * cols → in_cells cols rows (i mod cols) (i / cols).
Proof.
  intros Hc Hi. split; [by apply Z.mod_pos_bound|]. split; [apply Z.div_pos; lia|apply Z.div_lt_upper_bound; lia].
Qed.

(** ** The queue and the map *)

(** What cell [i] is to be: the queued one, or the one on the screen. *)
Definition cell_of (b : flanterm_fb) (i : Z) : option flanterm_fb_char :=
  match zlookup (qmap b) i with
  | Some (Some k) => q_c <$> zlookup (queue b) k
  | Some None => zlookup (grid b) i
  | None => None
  end.

Section queue.
Context (cols_ rows_ : Z).
Abbreviation in_cells := (in_cells cols_ rows_).

(** Entry [k] belongs to cell [(x, y)]. *)
Definition entry (b : flanterm_fb) (k x y : Z) : Prop :=
  ∃ c, zlookup (queue b) k = Some (mk_item x y c) ∧ in_cells x y.

Record buffer_ok (b : flanterm_fb) : Prop := {
  b_grid : Z.of_nat (length (grid b)) = rows_ * cols_;
  b_queue : Z.of_nat (length (queue b)) = rows_ * cols_;
  b_qmap : Z.of_nat (length (qmap b)) = rows_ * cols_;
  b_count : 0 <= queue_i b;
  b_entry : ∀ k, 0 <= k < queue_i b → ∃ x y, entry b k x y ∧ zlookup (qmap b) (y * cols_ + x) = Some (Some k);
  b_map : ∀ i k, zlookup (qmap b) i = Some (Some k) → 0 <= k < queue_i b ∧ ∃ x y, entry b k x y ∧ i = y * cols_ + x
}.

Definition cells_are (b : flanterm_fb) (p : picture) : Prop :=
  ∀ x y, in_cells x y → cell_of b (y * cols_ + x) = Some (p x y).

(** A cell that is not queued leaves room in the queue: different entries
    belong to different cells. *)
Lemma queue_room b i : buffer_ok b → zlookup (qmap b) i = Some None → queue_i b < rows_ * cols_.
Proof.
  intros Hb Hi. pose proof (zlookup_range _ _ _ Hi) as Hr. rewrite (b_qmap _ Hb) in Hr.
  destruct (Z.lt_ge_cases (queue_i b) (rows_ * cols_)) as [|Hge]; [done|]. exfalso.
  (* the cells of the entries, and [i] *)
  pose (f k := match zlookup (queue b) k with Some item => q_y item * cols_ + q_x item | None => 0 end).
  assert (∀ k, 0 <= k < queue_i b → zlookup (qmap b) (f k) = Some (Some k)) as Hf.
  { intros k Hk. destruct (b_entry _ Hb k Hk) as (x & y & (c & E & _) & Hm). unfold f. by rewrite E. }
  assert (NoDup (i :: (f <$> seqZ 0 (rows_ * cols_)))) as Hnd.
  { constructor.
    - intros (k & -> & Hk%elem_of_seqZ)%list_elem_of_fmap. rewrite Hf in Hi by lia. done.
    - apply NoDup_fmap_2_strong; [|apply NoDup_seqZ]. intros k k' Hk%elem_of_seqZ Hk'%elem_of_seqZ E.
      pose proof (Hf k ltac:(lia)) as E1. rewrite E, Hf in E1 by lia. by injection E1. }
  assert ((i :: (f <$> seqZ 0 (rows_ * cols_))) ⊆ seqZ 0 (rows_ * cols_)) as Hsub.
  { intros j [->|(k & -> & Hk%elem_of_seqZ)%list_elem_of_fmap]%elem_of_cons; apply elem_of_seqZ; [lia|].
    pose proof (Hf k ltac:(lia)) as E%zlookup_range. rewrite (b_qmap _ Hb) in E. lia. }
  pose proof (submseteq_length _ _ (NoDup_submseteq _ _ Hnd Hsub)) as Hlen. cbn in Hlen. rewrite length_fmap in Hlen. lia.
Qed.

(** Only the queue and the map differ. *)
Definition requeued (b b' : flanterm_fb) : Prop :=
  b' = set_qmap (qmap b') (set_queue_i (queue_i b') (set_queue (queue b') b)).

Lemma requeued_refl b : requeued b b.
Proof. by destruct b. Qed.
Lemma requeued_trans b b' b'' : requeued b b' → requeued b' b'' → requeued b b''.
Proof. unfold requeued. intros E1 E2. rewrite E1 in E2. by destruct b, b', b''. Qed.

(** ** Writing and reading cells *)

(** [t] is [t0] with the picture [p] to be drawn. *)
Record holds (t0 : flanterm flanterm_fb) (p : picture) (t : flanterm flanterm_fb) : Prop := {
  h_ctx : ctx t = ctx t0;
  h_same : requeued (back t0) (back t);
  h_buf : buffer_ok (back t);
  h_cells : cells_are (back t) p
}.

Lemma holds_ext t0 p p' t : (∀ x y, in_cells x y → p x y = p' x y) → holds t0 p t → holds t0 p' t.
Proof. intros E [H1 H2 H3 H4]. split; [done..|]. intros x y Hc. rewrite <- E by done. by apply H4. Qed.

Context (t0 : flanterm flanterm_fb) (Ec : cols (ctx t0) = cols_) (Er : rows (ctx t0) = rows_) (Hpos : 0 < cols_).

Lemma cell_at_holds p t x y : holds t0 p t → in_cells x y →
  wp (cell_at (y * cols_ + x)) (λ c t', t' = t ∧ c = p x y) t.
Proof.
  intros [_ _ _ Hc] Hxy. specialize (Hc x y Hxy). unfold cell_of in Hc. unfold cell_at, map_at, grid_at, queue_at, getb.
  wp_steps. destruct (zlookup (qmap (back t)) _) as [[k|]|]; [| |done]; (eapply wp_of_option; [done|]); cbv beta iota; wp_steps.
  - destruct (zlookup (queue (back t)) k) as [item|]; [|done]. eapply wp_of_option; [done|]. wp_steps. cbn in Hc. by injection Hc.
  - eapply wp_of_option; [exact Hc|done].
Qed.

Lemma compare_char_true a b : compare_char a b = true → a = b.
Proof. destruct a, b. unfold compare_char. cbn. intros H. boolprop. congruence. Qed.

Lemma put_cell_in c x y p x' y' : put_cell c x y p x' y' = if decide ((x', y') = (x, y)) then c else p x' y'.
Proof.
  unfold put_cell. destruct (decide _) as [[= -> ->]|Hne]; [by rewrite !Z.eqb_refl|].
  destruct (Z.eqb_spec x' x) as [->|]; [|done]. destruct (Z.eqb_spec y' y) as [->|]; done.
Qed.

(** The cell is overwritten in the queue. *)
Lemma requeue_cells b k x y c p : buffer_ok b → cells_are b p → in_cells x y → zlookup (qmap b) (y * cols_ + x) = Some (Some k) →
  entry b k x y ∧ let b' := set_queue (<[Z.to_nat k := mk_item x y c]> (queue b)) b in
  buffer_ok b' ∧ cells_are b' (put_cell c x y p).
Proof.
  intros Hb Hc Hxy Hm. destruct (b_map _ Hb _ _ Hm) as [Hk (x0 & y0 & He & Ei)].
  destruct He as (c0 & Eq & Hxy0). destruct (index_inj _ _ _ _ _ _ Hxy Hxy0 Ei) as [<- <-]. split; [by exists c0|].
  pose proof (zlookup_range _ _ _ Eq) as Hr.
  assert (∀ k', zlookup (<[Z.to_nat k := mk_item x y c]> (queue b)) k' =
    if decide (k' = k) then Some (mk_item x y c) else zlookup (queue b) k') as Hl.
  { intros k'. destruct (decide (k' = k)) as [->|]; [by apply zlookup_insert_eq|]. apply zlookup_insert_ne; lia. }
  assert (∀ k' x' y', entry b k' x' y' → entry (set_queue (<[Z.to_nat k := mk_item x y c]> (queue b)) b) k' x' y') as Hent.
  { intros k' x' y' (c' & E' & H'). unfold entry. cbn [queue set_queue]. rewrite Hl. destruct (decide (k' = k)) as [->|].
    - rewrite Eq in E'. injection E' as <- <- _. by exists c.
    - by exists c'. }
  split.
  - destruct Hb as [H1 H2 H3 H4 H5 H6]. split; cbn [grid queue qmap queue_i set_queue]; [done|by rewrite length_insert|done|done| |].
    + intros k' Hk'. destruct (H5 k' Hk') as (x' & y' & He & Hm'). exists x', y'. auto.
    + intros i k' Hi. destruct (H6 i k' Hi) as [Hk' (x' & y' & He & E')]. split; [done|]. exists x', y'. auto.
  - intros x' y' Hxy'. rewrite put_cell_in. specialize (Hc x' y' Hxy'). unfold cell_of in *. cbn [qmap queue grid set_queue].
    destruct (decide _) as [[= -> ->]|Hne].
    + rewrite Hm, Hl. by rewrite decide_True.
    + destruct (zlookup (qmap b) (y' * cols_ + x')) as [[k'|]|] eqn:E'; [|done|done]. rewrite Hl.
      destruct (decide (k' = k)) as [->|]; [|done]. exfalso. apply Hne.
      destruct (b_map _ Hb _ _ E') as [_ (x1 & y1 & (c1 & Eq1 & H1) & Ei1)]. rewrite Eq in Eq1. injection Eq1 as <- <- _.
      destruct (index_inj _ _ _ _ _ _ Hxy' Hxy Ei1) as [-> ->]. done.
Qed.

(** The cell is added to the queue. *)
Lemma enqueue_cells b x y c p : buffer_ok b → cells_are b p → in_cells x y → zlookup (qmap b) (y * cols_ + x) = Some None →
  let k := queue_i b in
  let b' := set_qmap (<[Z.to_nat (y * cols_ + x) := Some k]> (qmap b))
              (set_queue (<[Z.to_nat k := mk_item x y c]> (queue b)) (set_queue_i (k + 1) b)) in
  k < rows_ * cols_ ∧ buffer_ok b' ∧ cells_are b' (put_cell c x y p).
Proof.
  intros Hb Hc Hxy Hm k b'. pose proof (queue_room b _ Hb Hm) as Hroom. pose proof (b_count _ Hb) as Hk0.
  pose proof (cell_index_range _ _ _ _ Hxy) as Hi. split; [done|].
  assert (∀ k', zlookup (queue b') k' = if decide (k' = k) then Some (mk_item x y c) else zlookup (queue b) k') as Hl.
  { intros k'. unfold b'. cbn [queue set_qmap set_queue set_queue_i]. destruct (decide (k' = k)) as [->|].
    - apply zlookup_insert_eq. rewrite (b_queue _ Hb). unfold k. lia.
    - apply zlookup_insert_ne; unfold k in *; lia. }
  assert (∀ i, zlookup (qmap b') i = if decide (i = y * cols_ + x) then Some (Some k) else zlookup (qmap b) i) as Hq.
  { intros i. unfold b'. cbn [qmap set_qmap set_queue set_queue_i]. destruct (decide (i = y * cols_ + x)) as [->|].
    - apply zlookup_insert_eq. rewrite (b_qmap _ Hb). lia.
    - apply zlookup_insert_ne; lia. }
  assert (∀ k' x' y', k' ≠ k → entry b k' x' y' → entry b' k' x' y') as Hent.
  { intros k' x' y' Hne (c' & E' & H'). exists c'. rewrite Hl, decide_False by done. done. }
  assert (entry b' k x y) as Hnew by (exists c; by rewrite Hl, decide_True).
  split.
  - split.
    + apply Hb.
    + unfold b'. cbn [queue set_qmap set_queue set_queue_i]. rewrite length_insert. apply Hb.
    + unfold b'. cbn [qmap set_qmap set_queue set_queue_i]. rewrite length_insert. apply Hb.
    + change (queue_i b') with (k + 1). unfold k. lia.
    + change (queue_i b') with (k + 1). intros k' Hk'. destruct (Z.eq_dec k' k) as [->|Hne].
      * exists x, y. split; [done|]. by rewrite Hq, decide_True.
      * destruct (b_entry _ Hb k') as (x' & y' & He & Hm'); [unfold k in *; lia|]. exists x', y'. split; [by apply Hent|].
        rewrite Hq. destruct (decide _) as [E|]; [|done]. rewrite E, Hm in Hm'. done.
    + change (queue_i b') with (k + 1). intros i k'. rewrite Hq. destruct (decide (i = _)) as [->|].
      * intros [= <-]. split; [unfold k; lia|]. by exists x, y.
      * intros Hi'. destruct (b_map _ Hb _ _ Hi') as [Hk' (x' & y' & He & E')]. split; [unfold k; lia|].
        exists x', y'. split; [apply Hent; [unfold k; lia|done]|done].
  - intros x' y' Hxy'. rewrite put_cell_in. specialize (Hc x' y' Hxy'). unfold cell_of in *. rewrite Hq.
    destruct (decide ((x', y') = (x, y))) as [[= -> ->]|Hne].
    + rewrite decide_True, Hl, decide_True by done. done.
    + rewrite decide_False; [|intros E; apply Hne; by destruct (index_inj _ _ _ _ _ _ Hxy' Hxy E) as [-> ->]].
      destruct (zlookup (qmap b) (y' * cols_ + x')) as [[k'|]|] eqn:E'; [|done|done].
      rewrite Hl. destruct (b_map _ Hb _ _ E') as [Hk' _]. rewrite decide_False by (unfold k; lia). done.
Qed.

Lemma push_holds p t c x y : holds t0 p t → 0 <= x → 0 <= y →
  wp (push_to_queue c x y) (λ _ t', holds t0 (put_cell c x y p) t') t.
Proof.
  intros H Hx Hy. pose proof H as [E1 E2 Hb Hc]. unfold push_to_queue, get. wp_steps. rewrite E1, Ec, Er.
  destruct (_ || _) eqn:E; boolprop.
  { apply wp_ret. eapply holds_ext; [|exact H]. intros x' y' [Hx' Hy']. rewrite put_cell_in, decide_False; [done|].
    intros [= -> ->]. lia. }
  assert (in_cells x y) as Hxy by (split; lia). specialize (Hc x y Hxy) as Hcell. unfold cell_of in Hcell.
  unfold map_at, grid_at, queue_at, set_queue_at, set_map_at, getb, putb. wp_steps.
  destruct (zlookup (qmap (back t)) _) as [[k|]|] eqn:Em; [| |done]; (eapply wp_of_option; [done|]); cbv beta iota; wp_steps.
  - destruct (requeue_cells (back t) k x y c p Hb Hc Hxy Em) as [(c0 & Eq & _) [Hb' Hc']].
    eapply wp_of_option; [done|]. wp_steps. eapply wp_of_option.
    { apply zupdate_Some. eapply zlookup_range, Eq. }
    cbn [q_x q_y back ctx]. wp_steps. split; [done| |done|done]. cbn [back].
    eapply requeued_trans; [exact E2|]. by destruct (back t).
  - destruct (zlookup (grid (back t)) _) as [g|] eqn:Eg; [|done]. eapply wp_of_option; [done|]. injection Hcell as ->.
    destruct (compare_char _ c) eqn:Ecmp.
    + apply wp_ret. apply compare_char_true in Ecmp as <-. eapply holds_ext; [|exact H]. intros x' y' _. rewrite put_cell_in.
      by destruct (decide _) as [[= -> ->]|].
    + destruct (enqueue_cells (back t) x y c p Hb Hc Hxy Em) as (Hroom & Hb' & Hc'). pose proof (b_count _ Hb).
      wp_steps. cbn [back ctx queue set_queue_i]. eapply wp_of_option.
      { apply zupdate_Some. rewrite (b_queue _ Hb). lia. }
      wp_steps. cbn [back ctx qmap set_queue set_queue_i]. eapply wp_of_option.
      { apply zupdate_Some. rewrite (b_qmap _ Hb). by apply cell_index_range. }
      wp_steps. split; [done| |done|done]. cbn [back]. eapply requeued_trans; [exact E2|]. by destruct (back t).
Qed.

(** A row of one cell. *)
Lemma fill_holds p t c y : holds t0 p t → 0 <= y →
  wp (for_range 0 cols_ (λ i, push_to_queue c i y)) (λ _ t', holds t0 (λ x' y', if y' =? y then c else p x' y') t') t.
Proof.
  intros H Hy. eapply wp_mono.
  - apply (wp_for_range 0 cols_ _ (λ i, holds t0 (λ x' y', if (y' =? y) && (x' <? i) then c else p x' y'))); [lia| |].
    + eapply holds_ext; [|exact H]. intros x' y' [Hx' _]. rewrite (proj2 (Z.ltb_ge _ _)) by lia. by rewrite andb_false_r.
    + intros i t1 Hi H1. eapply wp_mono; [apply (push_holds _ t1 c i y H1); lia|]. intros [] t2. apply holds_ext.
      intros x' y' _. rewrite put_cell_in. destruct (decide _) as [[= -> ->]|Hne].
      * rewrite Z.eqb_refl, (proj2 (Z.ltb_lt i (i + 1))) by lia. done.
      * destruct (Z.eqb_spec y' y) as [->|]; [|done]. cbn [andb].
        destruct (Z.ltb_spec x' i), (Z.ltb_spec x' (i + 1)); try done; [lia|]. assert (x' = i) as -> by lia. done.
  - intros [] t1. apply holds_ext. intros x' y' [Hx' _]. rewrite (proj2 (Z.ltb_lt x' cols_)) by lia. by rewrite andb_true_r.
Qed.
End queue.

(** ** The operations of the frame buffer on the picture

    Scrolling, clearing and moving queue what the specification says; a flush
    brings all of it to the screen. *)

Section ops.
Context (cols_ rows_ : Z) (Hpos : 0 < cols_) (Hrows : 0 < rows_).
Abbreviation in_cells := (in_cells cols_ rows_).
Abbreviation holds := (holds cols_ rows_).
Context (t0 : flanterm flanterm_fb) (Ec : cols (ctx t0) = cols_) (Er : rows (ctx t0) = rows_).

(** The blank cell in the current colours. *)
Definition blank_of (b : flanterm_fb) : flanterm_fb_char := mk_char 32 (text_fg b) (text_bg b).

Lemma empty_holds p t : holds t0 p t → wp TermFb.empty (λ c t', t' = t ∧ c = blank_of (back t0)) t.
Proof. intros H. unfold TermFb.empty, getb. wp_steps. split; [done|]. unfold blank_of. destruct H as [_ -> _ _]. done. Qed.

Lemma scroll_holds p t : holds t0 p t →
  0 <= scroll_top_margin (ctx t0) < scroll_bottom_margin (ctx t0) → scroll_bottom_margin (ctx t0) <= rows_ → rows_ < 2 ^ 64 →
  wp flanterm_fb_scroll (λ _ t', holds t0 (scrolled (scroll_top_margin (ctx t0)) (scroll_bottom_margin (ctx t0)) (blank_of (back t0)) p) t') t.
Proof.
  intros H. pose proof (h_ctx _ _ _ _ _ H) as E0.
  set (top := scroll_top_margin (ctx t0)). set (bottom := scroll_bottom_margin (ctx t0)). intros Htb Hbr Hr64.
  unfold flanterm_fb_scroll, get. wp_steps. rewrite E0, Ec. fold top bottom.
  pose (part i := λ x y, if (top * cols_ <=? y * cols_ + x) && (y * cols_ + x <? i - cols_) then p x (y + 1) else p x y).
  eapply wp_mono.
  { apply (wp_for_range _ _ _ (λ i, holds t0 (part i))); [nia| |].
    - eapply holds_ext; [|exact H]. intros x y [Hx Hy]. unfold part.
      destruct (Z.leb_spec (top * cols_) (y * cols_ + x)), (Z.ltb_spec (y * cols_ + x) ((top + 1) * cols_ - cols_)); try done. lia.
    - intros i t1 Hi H1. assert (in_cells (i mod cols_) (i / cols_)) as Hxy by (apply index_cells; nia).
      destruct Hxy as [Hx Hy]. pose proof (Z.div_mod i cols_ ltac:(lia)) as Ei.
      assert (top + 1 <= i / cols_) by (apply Z.div_le_lower_bound; lia).
      assert (i - cols_ = (i / cols_ - 1) * cols_ + i mod cols_) as Ei1 by lia.
      destruct (index_divmod cols_ (i mod cols_) (i / cols_ - 1) Hx) as [Em Ed]. rewrite <- Ei1 in Em, Ed. rewrite Em, Ed.
      apply wp_bind. replace i with (i / cols_ * cols_ + i mod cols_) at 1 by lia.
      eapply wp_mono; [apply (cell_at_holds cols_ rows_ t0 (part i)); [done|by split]|].
      intros c t2 [-> ->]. eapply wp_mono; [apply (push_holds cols_ rows_ t0 Ec Er (part i)); [done|lia|lia]|].
      intros [] t2. apply holds_ext. intros x y [Hx' Hy']. rewrite put_cell_in. unfold part.
      destruct (decide _) as [[= -> ->]|Hne].
      + rewrite (proj2 (Z.ltb_ge (i / cols_ * cols_ + i mod cols_) (i - cols_))), andb_false_r by lia.
        rewrite (proj2 (Z.leb_le (top * cols_) ((i / cols_ - 1) * cols_ + i mod cols_))),
          (proj2 (Z.ltb_lt ((i / cols_ - 1) * cols_ + i mod cols_) (i + 1 - cols_))) by nia. cbn [andb]. f_equal. lia.
      + destruct (Z.leb_spec (top * cols_) (y * cols_ + x)); [|done]. cbn [andb].
        destruct (Z.ltb_spec (y * cols_ + x) (i - cols_)), (Z.ltb_spec (y * cols_ + x) (i + 1 - cols_)); try done; [lia|].
        exfalso. apply Hne. destruct (index_inj cols_ rows_ x y (i mod cols_) (i / cols_ - 1)) as [-> ->]; [by split|split; lia|lia|done]. }
  intros [] t1 H1. wp_steps. eapply wp_mono; [by apply (empty_holds (part (bottom * cols_)))|]. intros c t2 [-> ->].
  rewrite wrap_small by lia. eapply wp_mono; [apply (fill_holds cols_ rows_ t0 Ec Er Hpos (part (bottom * cols_))); [done|lia]|].
  intros [] t2. apply holds_ext. intros x y [Hx Hy]. unfold scrolled, part.
  destruct (Z.eqb_spec y (bottom - 1)) as [->|].
  - by rewrite (proj2 (Z.ltb_ge (bottom - 1) (bottom - 1))), andb_false_r by lia.
  - destruct (Z.leb_spec top y), (Z.ltb_spec y (bottom - 1)), (Z.leb_spec (top * cols_) (y * cols_ + x)),
      (Z.ltb_spec (y * cols_ + x) (bottom * cols_ - cols_)); cbn [andb]; try done; exfalso; nia.
Qed.

(** The rows below [top] moved down, up to the cell before [i + cols]. *)
Definition moved_down (p : picture) (bottom i : Z) : picture :=
  λ x y, if (i + cols_ <? y * cols_ + x) && (y * cols_ + x <? bottom * cols_) then p x (y - 1) else p x y.

Lemma moved_down_step p bottom i : 0 <= i < (bottom - 1) * cols_ → bottom <= rows_ → ∀ x y, in_cells x y →
  put_cell (moved_down p bottom i (i mod cols_) (i / cols_)) (i mod cols_) (i / cols_ + 1) (moved_down p bottom i) x y =
  moved_down p bottom (i - 1) x y.
Proof.
  intros Hi Hb x y [Hx Hy]. pose proof (Z.div_mod i cols_ ltac:(lia)) as Ei. pose proof (Z.mod_pos_bound i cols_ Hpos) as Hm.
  pose proof (Z.div_pos i cols_ ltac:(lia) Hpos) as Hd.
  rewrite put_cell_in. unfold moved_down. destruct (decide _) as [[= -> ->]|Hne].
  - rewrite (proj2 (Z.ltb_ge (i + cols_) (i / cols_ * cols_ + i mod cols_))) by lia. cbn [andb].
    rewrite (proj2 (Z.ltb_lt (i - 1 + cols_) _)), (proj2 (Z.ltb_lt ((i / cols_ + 1) * cols_ + i mod cols_) _)) by nia.
    cbn [andb]. f_equal. lia.
  - destruct (Z.ltb_spec (i + cols_) (y * cols_ + x)), (Z.ltb_spec (i - 1 + cols_) (y * cols_ + x)); try done; [lia|].
    exfalso. apply Hne. assert (y * cols_ + x = (i / cols_ + 1) * cols_ + i mod cols_) as E by lia.
    assert (y = i / cols_ + 1) as -> by nia. f_equal. lia.
Qed.

Lemma revscroll_rows_holds fuel p bottom top i t : 0 <= top → bottom <= rows_ → rows_ * cols_ < 2 ^ 64 →
  -1 <= i < (bottom - 1) * cols_ → i < Z.of_nat fuel + top * cols_ → top * cols_ - 1 <= i →
  holds t0 (moved_down p bottom i) t →
  wp (revscroll_rows fuel (u64 i) (top * cols_) cols_) (λ _ t', holds t0 (moved_down p bottom (top * cols_ - 1)) t') t.
Proof.
  intros Ht Hb H64. revert i t. induction fuel as [|fuel IH]; intros i t Hi Hf Hlow H; cbn [revscroll_rows].
  all: destruct (Z.eq_dec i (-1)) as [->|Hne].
  1, 3: change (u64 (-1)) with SIZE_MAX; assert (top * cols_ = 0) as E0 by lia; rewrite E0 in *;
    change (SIZE_MAX <? 0) with false; cbv iota; rewrite Z.eqb_refl; by apply wp_ret.
  all: rewrite wrap_small by nia; destruct (Z.ltb_spec i (top * cols_)).
  1, 3: apply wp_ret; by replace (top * cols_ - 1) with i by lia.
  1: exfalso; lia.
  rewrite (proj2 (Z.eqb_neq i SIZE_MAX)) by (unfold SIZE_MAX; nia).
  assert (in_cells (i mod cols_) (i / cols_)) as Hxy by (apply index_cells; nia).
  pose proof (Z.div_mod i cols_ ltac:(lia)) as Ei.
  apply wp_bind. replace i with (i / cols_ * cols_ + i mod cols_) at 1 by lia.
  eapply wp_mono; [by apply (cell_at_holds cols_ rows_ t0 (moved_down p bottom i))|]. intros c t1 [-> ->].
  apply wp_bind. replace (i + cols_) with ((i / cols_ + 1) * cols_ + i mod cols_) by lia.
  destruct (index_divmod cols_ (i mod cols_) (i / cols_ + 1) (proj1 Hxy)) as [-> ->].
  eapply wp_mono; [apply (push_holds cols_ rows_ t0 Ec Er (moved_down p bottom i)); [done|apply Hxy|destruct Hxy; lia]|].
  intros [] t1 H1. apply IH; [lia|lia|lia|]. eapply holds_ext; [|exact H1]. apply moved_down_step; [lia|done].
Qed.

Lemma revscroll_holds p t : holds t0 p t → 0 <= scroll_top_margin (ctx t0) →
  1 <= scroll_bottom_margin (ctx t0) <= rows_ → rows_ * cols_ < 2 ^ 64 → rows_ < 2 ^ 64 →
  wp flanterm_fb_revscroll (λ _ t', holds t0 (scrolled_back (scroll_top_margin (ctx t0)) (scroll_bottom_margin (ctx t0)) (blank_of (back t0)) p) t') t.
Proof.
  intros H. pose proof (h_ctx _ _ _ _ _ H) as E0.
  set (top := scroll_top_margin (ctx t0)). set (bottom := scroll_bottom_margin (ctx t0)). intros Ht Hb H64 Hr64.
  unfold flanterm_fb_revscroll, get. wp_steps. rewrite E0, Ec, Er. fold top bottom.
  rewrite (wrap_small 64 (bottom - 1)) by lia.
  assert (∃ q, wp (revscroll_rows (Z.to_nat (rows_ * cols_)) (u64 ((bottom - 1) * cols_ - 1)) (top * cols_) cols_) (λ _ t', holds t0 q t') t ∧
    ∀ x y, in_cells x y → y ≠ top → q x y = if (top <? y) && (y <? bottom) then p x (y - 1) else p x y) as (q & Hq & Eq).
  { destruct (Z.le_gt_cases bottom top) as [Hle|Hgt].
    - exists p. split.
      + destruct (Z.eq_dec bottom 1) as [->|].
        * rewrite Z.sub_diag, Z.mul_0_l. change (u64 (0 - 1)) with SIZE_MAX.
          destruct (Z.to_nat (rows_ * cols_)); cbn [revscroll_rows]; rewrite Z.eqb_refl; destruct (_ <? _); by apply wp_ret.
        * rewrite wrap_small by nia. destruct (Z.to_nat (rows_ * cols_)); cbn [revscroll_rows];
            rewrite (proj2 (Z.ltb_lt ((bottom - 1) * cols_ - 1) (top * cols_))) by nia; by apply wp_ret.
      + intros x y [Hx Hy] Hne. destruct (Z.ltb_spec top y), (Z.ltb_spec y bottom); cbn [andb]; try done. lia.
    - exists (moved_down p bottom (top * cols_ - 1)). split.
      + apply (revscroll_rows_holds _ p bottom top); [done|lia|done|nia|rewrite Z2Nat.id by nia; nia|nia|].
        eapply holds_ext; [|exact H]. intros x y [Hx Hy]. unfold moved_down.
        destruct (Z.ltb_spec ((bottom - 1) * cols_ - 1 + cols_) (y * cols_ + x)), (Z.ltb_spec (y * cols_ + x) (bottom * cols_)); cbn [andb]; try done. lia.
      + intros x y [Hx Hy] Hne. unfold moved_down.
        destruct (Z.ltb_spec top y), (Z.ltb_spec y bottom), (Z.ltb_spec (top * cols_ - 1 + cols_) (y * cols_ + x)),
          (Z.ltb_spec (y * cols_ + x) (bottom * cols_)); cbn [andb]; try done; exfalso; nia. }
  eapply wp_mono; [exact Hq|]. intros [] t1 H1. wp_steps. eapply wp_mono; [by apply (empty_holds q)|]. intros c t2 [-> ->].
  eapply wp_mono; [by apply (fill_holds cols_ rows_ t0 Ec Er Hpos q)|]. intros [] t2. apply holds_ext.
  intros x y Hc. unfold scrolled_back. destruct (Z.eqb_spec y top) as [->|Hne]; [done|]. by apply Eq.
Qed.

Lemma clear_holds p t : holds t0 p t →
  wp (c ← TermFb.empty; for_range 0 (rows_ * cols_) (λ i, push_to_queue c (i mod cols_) (i / cols_)))
    (λ _ t', holds t0 (λ _ _, blank_of (back t0)) t') t.
Proof.
  intros H. apply wp_bind. eapply wp_mono; [by apply (empty_holds p)|]. intros c t1 [-> ->].
  eapply wp_mono.
  - apply (wp_for_range 0 (rows_ * cols_) _ (λ i, holds t0 (λ x y, if y * cols_ + x <? i then blank_of (back t0) else p x y))); [nia| |].
    + eapply holds_ext; [|exact H]. intros x y Hxy. pose proof (cell_index_range _ _ _ _ Hxy).
      by rewrite (proj2 (Z.ltb_ge _ _)) by lia.
    + intros i t2 Hi H2. pose proof (index_cells cols_ rows_ i Hpos Hi) as Hxy. pose proof (Z.div_mod i cols_ ltac:(lia)) as Ei.
      eapply wp_mono; [apply (push_holds cols_ rows_ t0 Ec Er _ _ _ _ _ H2); apply Hxy|]. intros [] t3. apply holds_ext.
      intros x y Hxy'. rewrite put_cell_in. destruct (decide _) as [[= -> ->]|Hne].
      * rewrite (proj2 (Z.ltb_lt _ (i + 1))) by lia. done.
      * destruct (Z.ltb_spec (y * cols_ + x) i), (Z.ltb_spec (y * cols_ + x) (i + 1)); try done; [lia|].
        exfalso. apply Hne. destruct (index_inj cols_ rows_ x y (i mod cols_) (i / cols_)) as [-> ->]; [done|done|lia|done].
  - intros [] t2. apply holds_ext. intros x y Hxy. pose proof (cell_index_range _ _ _ _ Hxy).
    by rewrite (proj2 (Z.ltb_lt _ _)) by lia.
Qed.
End ops.
