(* ===== verification/TermFlush.v ===== *)
(** * A flush and a full refresh show the picture

    [double_buffer_flush] draws every queued cell once, the cursor inverted, and
    the cell the cursor has left: afterwards the screen shows the picture with
    the cursor, and nothing is queued.  [full_refresh] draws everything. *)

From Stdlib Require Import ZifyBool.
From stdpp Require Import prelude gmap list numbers tactics.
From S2P Require Import Prelude Term TermFb TermScreen TermPixels TermQueue.

(** Only what a flush draws differs. *)
Definition redrawn (b b' : flanterm_fb) : Prop :=
  b' = set_framebuffer (framebuffer b') (set_grid (grid b') (set_qmap (qmap b') b)).

Lemma redrawn_refl b : redrawn b b.
Proof. by destruct b. Qed.
Lemma redrawn_trans b b' b'' : redrawn b b' → redrawn b' b'' → redrawn b b''.
Proof. unfold redrawn. intros E1 E2. rewrite E1 in E2. by destruct b, b', b''. Qed.

Lemma redrawn_fields b b' : redrawn b b' → config b' = config b ∧ queue b' = queue b ∧ queue_i b' = queue_i b ∧
  cursor_x b' = cursor_x b ∧ cursor_y b' = cursor_y b ∧ old_cursor_x b' = old_cursor_x b ∧ old_cursor_y b' = old_cursor_y b.
Proof. intros E. rewrite E. by destruct b. Qed.

Section flush.
Context (cols_ rows_ : Z) (Hpos : 0 < cols_) (Hrows : 0 < rows_).
Abbreviation in_cells := (in_cells cols_ rows_).
Context (t0 : flanterm flanterm_fb) (Ec : cols (ctx t0) = cols_) (Er : rows (ctx t0) = rows_).
Context (Hg : geometry_ok (config (back t0)) cols_ rows_) (Hb : buffer_ok cols_ rows_ (back t0)).
Abbreviation cfg := (config (back t0)).
Context (p : picture) (Hp : cells_are cols_ rows_ (back t0) p) (Hcodes : ∀ x y, in_cells x y → 0 <= ch (p x y) < 256).

(** The frame buffer shows [pic], of which the grid knows all but the
    [except]ions; the entries from [k] on are still to be drawn, and their cells
    are among [todo]. *)
Record drawing (except : Z → Z → Prop) (done : Z → Z → Prop) (k : Z) (pic : picture) (t : flanterm flanterm_fb) : Prop := {
  d_ctx : ctx t = ctx t0;
  d_same : redrawn (back t0) (back t);
  d_grid : Z.of_nat (length (grid (back t))) = rows_ * cols_;
  d_qmap : Z.of_nat (length (qmap (back t))) = rows_ * cols_;
  d_map : ∀ i k', zlookup (qmap (back t)) i = Some (Some k') → zlookup (qmap (back t0)) i = Some (Some k') ∧ k <= k';
  d_done : ∀ x y, in_cells x y → done x y → zlookup (qmap (back t)) (y * cols_ + x) = Some None;
  d_cells : cells_are cols_ rows_ (back t) p;
  d_pix : displays cfg cols_ rows_ (framebuffer (back t)) pic;
  d_drawn : ∀ x y, in_cells x y → ¬ except x y → zlookup (grid (back t)) (y * cols_ + x) = Some (pic x y)
}.

Lemma plot_wp ex dn k pic t c x y (Q : () → flanterm flanterm_fb → Prop) : drawing ex dn k pic t → in_cells x y → 0 <= ch c < 256 →
  (∀ m, displays cfg cols_ rows_ m (put_cell c x y pic) → Q tt (mk_flanterm (ctx t) (set_framebuffer m (back t)))) →
  wp (plot_char c x y) Q t.
Proof.
  intros H Hxy Hc HQ. unfold plot_char, get, getb, putb. wp_steps. rewrite (d_ctx _ _ _ _ _ H), Ec, Er.
  destruct Hxy as [Hx Hy]. rewrite (proj2 (Z.leb_gt cols_ x)), (proj2 (Z.leb_gt rows_ y)) by lia. cbn [orb]. wp_steps.
  destruct (redrawn_fields _ _ (d_same _ _ _ _ _ H)) as [-> _].
  destruct (plot_displays cfg cols_ rows_ Hg c x y (framebuffer (back t)) pic) as (m' & E & Hm); [by split|done| |].
  { intros x' y' gx gy Hc' _ Hi. by apply (d_pix _ _ _ _ _ H). }
  eapply wp_of_option; [exact E|]. wp_steps. rewrite (d_ctx _ _ _ _ _ H). rewrite <- (d_ctx _ _ _ _ _ H). by apply HQ.
Qed.

(** A queued cell that was drawn: the grid takes it, the map forgets it. *)
Lemma commit (ex ex' dn : Z → Z → Prop) k pic c t m x y : drawing ex dn k pic t → in_cells x y →
  displays cfg cols_ rows_ m (put_cell c x y pic) → (∀ x y, ex x y → ex' x y) → c = p x y ∨ ex' x y →
  wp (set_grid_at (y * cols_ + x) (p x y);; set_map_at (y * cols_ + x) None)
    (λ _ t', drawing ex' (λ x' y', dn x' y' ∨ (x', y') = (x, y)) k (put_cell c x y pic) t' ∧
      back t' = set_qmap (<[Z.to_nat (y * cols_ + x) := None]> (qmap (back t)))
        (set_grid (<[Z.to_nat (y * cols_ + x) := p x y]> (grid (back t))) (set_framebuffer m (back t))))
    (mk_flanterm (ctx t) (set_framebuffer m (back t))).
Proof.
  intros H Hxy Hm Hex Hpc. pose proof (cell_index_range _ _ _ _ Hxy) as Hi. destruct H as [D1 D2 D3 D4 D5 D6 D7 D8 D9].
  unfold set_grid_at, set_map_at, getb, putb. wp_steps. cbn [back ctx grid set_framebuffer].
  eapply wp_of_option; [apply zupdate_Some; lia|]. wp_steps. cbn [back ctx qmap set_framebuffer set_grid].
  eapply wp_of_option; [apply zupdate_Some; lia|]. wp_steps. cbn [back ctx]. split; [|done].
  assert (∀ x' y', in_cells x' y' → zlookup (<[Z.to_nat (y * cols_ + x) := p x y]> (grid (back t))) (y' * cols_ + x') =
    if decide ((x', y') = (x, y)) then Some (p x y) else zlookup (grid (back t)) (y' * cols_ + x')) as HG.
  { intros x' y' Hc. destruct (decide _) as [[= -> ->]|Hne]; [apply zlookup_insert_eq; lia|]. apply zlookup_insert_ne; [lia|].
    intros E. apply Hne. destruct (index_inj _ _ _ _ _ _ Hxy Hc E) as [-> ->]. done. }
  assert (∀ i, zlookup (<[Z.to_nat (y * cols_ + x) := None]> (qmap (back t))) i =
    if decide (i = y * cols_ + x) then Some None else zlookup (qmap (back t)) i) as HM.
  { intros i. destruct (decide _) as [->|Hne]; [apply zlookup_insert_eq; lia|]. apply zlookup_insert_ne; [lia|done]. }
  split; cbn [back ctx grid qmap framebuffer set_qmap set_grid set_framebuffer].
  - done.
  - eapply redrawn_trans; [exact D2|]. by destruct (back t).
  - by rewrite length_insert.
  - by rewrite length_insert.
  - intros i k'. rewrite HM. destruct (decide _); [done|]. apply D5.
  - intros x' y' Hc Hd. rewrite HM. destruct (decide _) as [|Hne]; [done|]. destruct Hd as [Hd|[= -> ->]]; [by apply D6|done].
  - intros x' y' Hc. unfold cell_of. cbn [qmap grid queue set_qmap set_grid set_framebuffer]. rewrite HM.
    destruct (decide _) as [E|Hne].
    + destruct (index_inj _ _ _ _ _ _ Hc Hxy E) as [-> ->]. by rewrite HG, decide_True.
    + rewrite HG by done. rewrite decide_False by (intros [= -> ->]; done). exact (D7 x' y' Hc).
  - done.
  - intros x' y' Hc Hn. rewrite HG by done. rewrite put_cell_in. destruct (decide _) as [[= -> ->]|].
    + destruct Hpc as [->|]; [done|]. done.
    + apply D9; [done|]. intros He. by apply Hn, Hex.
Qed.

(** ** The cursor *)

Abbreviation cx := (cursor_x (back t0)).
Abbreviation cy := (cursor_y (back t0)).
Context (Hcur : 0 <= cx ∧ 0 <= cy).

Definition at_cursor (enabled : bool) (x y : Z) : Prop := enabled = true ∧ (x, y) = (cx, cy).

Lemma drawing_weaken (ex ex' dn dn' : Z → Z → Prop) k pic t : (∀ x y, ex x y → ex' x y) → (∀ x y, in_cells x y → dn' x y → dn x y) →
  drawing ex dn k pic t → drawing ex' dn' k pic t.
Proof.
  intros He Hd [D1 D2 D3 D4 D5 D6 D7 D8 D9]. split; try done.
  - intros x y Hc Hxy. apply D6; [done|by apply Hd].
  - intros x y Hc Hn. apply D9; [done|]. intros Hx. by apply Hn, He.
Qed.

(** The frame buffer alone changes, at an exception. *)
Lemma redraw (ex dn : Z → Z → Prop) k pic c t m x y : drawing ex dn k pic t → ex x y ∨ zlookup (grid (back t)) (y * cols_ + x) = Some c →
  displays cfg cols_ rows_ m (put_cell c x y pic) → drawing ex dn k (put_cell c x y pic) (mk_flanterm (ctx t) (set_framebuffer m (back t))).
Proof.
  intros [D1 D2 D3 D4 D5 D6 D7 D8 D9] Hxy Hm. split; cbn [back ctx grid qmap framebuffer set_framebuffer]; try done.
  - eapply redrawn_trans; [exact D2|]. by destruct (back t).
  - intros x' y' Hc Hn. rewrite put_cell_in. destruct (decide _) as [[= -> ->]|]; [|by apply D9]. by destruct Hxy.
Qed.

Lemma draw_cursor_wp ex pic t : drawing ex (λ _ _, False) 0 pic t →
  wp draw_cursor (λ _ t', ∃ pic', drawing (λ x y, ex x y ∨ (x, y) = (cx, cy)) (λ x y, (x, y) = (cx, cy)) 0 pic' t' ∧
    (in_cells cx cy → pic' cx cy = inverse (p cx cy))) t.
Proof.
  intros H. pose proof (redrawn_fields _ _ (d_same _ _ _ _ _ H)) as (Ecfg & Eq & _ & Ex & Ey & _).
  unfold draw_cursor, get, getb. wp_steps. rewrite (d_ctx _ _ _ _ _ H), Ec, Er, Ex, Ey.
  destruct (_ || _) eqn:E; boolprop.
  { apply wp_ret. exists pic. destruct H as [D1 D2 D3 D4 D5 D6 D7 D8 D9]. split.
    - split; try done.
      + intros x y [Hx Hy] [= -> ->]. lia.
      + intros x y Hc Hn. apply D9; [done|tauto].
    - intros [Hx Hy]. lia. }
  assert (in_cells cx cy) as Hxy by (split; lia). replace (cx + cy * cols_) with (cy * cols_ + cx) by lia.
  pose proof (d_cells _ _ _ _ _ H cx cy Hxy) as Hc. unfold cell_of in Hc.
  unfold map_at at 1. unfold getb. wp_steps. destruct (zlookup (qmap (back t)) _) as [q|] eqn:Em; [|done].
  eapply wp_of_option; [done|]. wp_steps.
  assert (wp (cell_at (cy * cols_ + cx)) (λ c t', t' = t ∧ c = p cx cy) t) as Hcell.
  { unfold cell_at, map_at, grid_at, queue_at, getb. wp_steps. rewrite Em. eapply wp_of_option; [done|]. destruct q as [k|]; wp_steps.
    - destruct (zlookup (queue (back t)) k) as [item|]; [|done]. eapply wp_of_option; [done|]. wp_steps. cbn in Hc. by injection Hc.
    - eapply wp_of_option; [exact Hc|done]. }
  eapply wp_mono; [exact Hcell|]. clear Hcell. intros c t' [-> ->]. apply wp_bind.
  eapply (plot_wp ex _ 0 pic t); [done|done|by apply Hcodes|]. intros m Hm. fold (inverse (p cx cy)) in Hm.
  pose (ex' x y := ex x y ∨ (x, y) = (cx, cy)).
  destruct q as [k|].
  - eapply wp_mono; [apply (commit ex ex' _ 0 pic (inverse (p cx cy)) t m cx cy H Hxy Hm)|].
    + intros x y He. by left.
    + right. by right.
    + intros [] t' [HC _]. exists (put_cell (inverse (p cx cy)) cx cy pic). split.
      * eapply drawing_weaken; [| |exact HC]; [done|]. intros x y _ E'. by right.
      * intros _. by rewrite put_cell_in, decide_True.
  - apply wp_ret. exists (put_cell (inverse (p cx cy)) cx cy pic). split.
    + assert (drawing ex' (λ x y, (x, y) = (cx, cy)) 0 pic t) as HC.
      { destruct H as [D1 D2 D3 D4 D5 D6 D7 D8 D9]. split; try done.
        - by intros x y _ [= -> ->].
        - intros x y Hc' Hn. apply D9; [done|]. intros He. apply Hn. by left. }
      apply redraw; [exact HC|left; by right|done].
    + intros _. by rewrite put_cell_in, decide_True.
Qed.

(** ** The queue *)

Lemma flush_item_wp ex dn k pic t : 0 <= k < queue_i (back t0) → drawing ex dn k pic t →
  wp (flush_item k) (λ _ t', ∃ pic', drawing ex dn (k + 1) pic' t' ∧ ∀ x y, in_cells x y → dn x y → pic' x y = pic x y) t.
Proof.
  intros Hk H. pose proof (redrawn_fields _ _ (d_same _ _ _ _ _ H)) as (Ecfg & Eq & _).
  destruct (b_entry _ _ _ Hb k Hk) as (x & y & (c & Ei & Hxy) & Em0).
  unfold flush_item, get, queue_at, map_at, getb. wp_steps. rewrite Eq, Ei. eapply wp_of_option; [done|]. wp_steps.
  cbn [q_x q_y q_c]. rewrite (d_ctx _ _ _ _ _ H), Ec.
  pose proof (d_cells _ _ _ _ _ H x y Hxy) as Hcell. unfold cell_of in Hcell. rewrite Eq in Hcell.
  destruct (zlookup (qmap (back t)) _) as [[k'|]|] eqn:Em; [| |done]; (eapply wp_of_option; [done|]); cbv beta iota.
  - destruct (d_map _ _ _ _ _ H _ _ Em) as [Em0' Hk']. rewrite Em0 in Em0'. injection Em0' as <-.
    rewrite Ei in Hcell. injection Hcell as ->. apply wp_bind.
    eapply (plot_wp ex dn k pic t); [done|done|by apply Hcodes|]. intros m Hm.
    eapply wp_mono; [apply (commit ex ex dn k pic (p x y) t m x y H Hxy Hm); [done|by left]|].
    intros [] t' [H1 Eb]. exists (put_cell (p x y) x y pic). split.
    + apply (drawing_weaken ex ex _ dn) in H1; [|done|by left]. destruct H1 as [D1 D2 D3 D4 D5 D6 D7 D8 D9]. split; try done.
      intros i k' Hi. destruct (D5 i k' Hi) as [E0 Hle]. split; [done|].
      destruct (Z.eq_dec k' k) as [->|]; [|lia]. exfalso.
      destruct (b_map _ _ _ Hb _ _ E0) as [_ (x1 & y1 & (c1 & Ei1 & Hxy1) & ->)]. rewrite Ei in Ei1. injection Ei1 as <- <- _.
      rewrite Eb in Hi. cbn [qmap set_qmap] in Hi. pose proof (cell_index_range _ _ _ _ Hxy). rewrite zlookup_insert_eq in Hi; [done|].
      rewrite (d_qmap _ _ _ _ _ H). lia.
    + intros x' y' Hc Hd. rewrite put_cell_in. destruct (decide _) as [[= -> ->]|]; [|done].
      rewrite (d_done _ _ _ _ _ H x y Hxy Hd) in Em. done.
  - apply wp_ret. exists pic. split; [|done]. destruct H as [D1 D2 D3 D4 D5 D6 D7 D8 D9]. split; try done.
    intros i k' Hi. destruct (D5 i k' Hi) as [E0 Hle]. split; [done|]. destruct (Z.eq_dec k' k) as [->|]; [|lia]. exfalso.
    destruct (b_map _ _ _ Hb _ _ E0) as [_ (x1 & y1 & (c1 & Ei1 & Hxy1) & ->)]. rewrite Ei in Ei1. injection Ei1 as <- <- _.
    rewrite Em in Hi. done.
Qed.

Lemma flush_queue_wp ex dn pic t : drawing ex dn 0 pic t →
  wp (for_range 0 (queue_i (back t0)) flush_item)
    (λ _ t', ∃ pic', drawing ex dn (queue_i (back t0)) pic' t' ∧ ∀ x y, in_cells x y → dn x y → pic' x y = pic x y) t.
Proof.
  intros H. pose proof (b_count _ _ _ Hb).
  apply (wp_for_range 0 (queue_i (back t0)) flush_item (λ k t', ∃ pic', drawing ex dn k pic' t' ∧ ∀ x y, in_cells x y → dn x y → pic' x y = pic x y));
    [done|by exists pic|]. intros k t1 Hk (pic1 & H1 & E1).
  eapply wp_mono; [by apply (flush_item_wp ex dn k pic1)|]. intros [] t2 (pic2 & H2 & E2). exists pic2. split; [done|].
  intros x y Hc Hd. by rewrite E2, E1.
Qed.

(** Nothing is queued any more: the grid is the picture. *)
Lemma drained ex dn pic t : drawing ex dn (queue_i (back t0)) pic t →
  (∀ i k, zlookup (qmap (back t)) i ≠ Some (Some k)) ∧ ∀ x y, in_cells x y → zlookup (grid (back t)) (y * cols_ + x) = Some (p x y).
Proof.
  intros [D1 D2 D3 D4 D5 D6 D7 D8 D9].
  assert (∀ i k, zlookup (qmap (back t)) i ≠ Some (Some k)) as Hn.
  { intros i k Hi. destruct (D5 i k Hi) as [E0 Hle]. destruct (b_map _ _ _ Hb _ _ E0). lia. }
  split; [done|]. intros x y Hc. specialize (D7 x y Hc). unfold cell_of in D7.
  destruct (zlookup (qmap (back t)) _) as [[k|]|] eqn:E; [by destruct (Hn _ _ E)|done|done].
Qed.

Abbreviation ox := (old_cursor_x (back t0)).
Abbreviation oy := (old_cursor_y (back t0)).
Context (Hold : 0 <= ox ∧ 0 <= oy).

Lemma flush_wp pic0 : let enabled := cursor_enabled (ctx t0) in
  displays cfg cols_ rows_ (framebuffer (back t0)) pic0 →
  (∀ x y, in_cells x y → (x, y) ≠ (ox, oy) → zlookup (grid (back t0)) (y * cols_ + x) = Some (pic0 x y)) →
  wp flanterm_fb_double_buffer_flush (λ _ t', ctx t' = ctx t0 ∧
    (∃ b1 n, redrawn (back t0) b1 ∧ back t' = set_flushes n (set_queue_i 0 (set_old_cursor_y cy (set_old_cursor_x cx b1)))) ∧
    Z.of_nat (length (grid (back t'))) = rows_ * cols_ ∧ Z.of_nat (length (qmap (back t'))) = rows_ * cols_ ∧
    (∀ i k, zlookup (qmap (back t')) i ≠ Some (Some k)) ∧
    (∀ x y, in_cells x y → zlookup (grid (back t')) (y * cols_ + x) = Some (p x y)) ∧
    displays cfg cols_ rows_ (framebuffer (back t')) (with_cursor enabled cx cy p)) t0.
Proof.
  intros enabled Hpix Hdrawn.
  assert (drawing (λ x y, (x, y) = (ox, oy)) (λ _ _, False) 0 pic0 t0) as H0.
  { split; try done.
    - apply redrawn_refl.
    - apply Hb.
    - apply Hb.
    - intros i k Hi. split; [done|]. by destruct (b_map _ _ _ Hb _ _ Hi) as [? _]; lia. }
  unfold flanterm_fb_double_buffer_flush, get. apply wp_bind, wp_gets. cbv beta. apply wp_bind. fold enabled.
  pose (ex x y := (x, y) = (ox, oy) ∨ enabled = true ∧ (x, y) = (cx, cy)).
  pose (dn x y := enabled = true ∧ (x, y) = (cx, cy)).
  eapply (wp_mono _ (λ _ t', ∃ pic', drawing ex dn 0 pic' t' ∧ (enabled = true → in_cells cx cy → pic' cx cy = inverse (p cx cy)))).
  { unfold mwhen. destruct enabled eqn:Een.
    - eapply wp_mono; [apply (draw_cursor_wp _ pic0 t0 H0)|]. intros [] t1 (pic1 & H1 & Hc1). exists pic1. split; [|done].
      eapply drawing_weaken; [| |exact H1]; [|by intros x y _ [_ ?]]. intros x y [E|E]; [by left|by right].
    - apply wp_ret. exists pic0. split; [|done]. eapply drawing_weaken; [| |exact H0]; [by left|by intros x y _ [? _]]. }
  intros [] t1 (pic1 & H1 & Hc1). unfold getb. apply wp_bind, wp_gets. cbv beta.
  destruct (redrawn_fields _ _ (d_same _ _ _ _ _ H1)) as (_ & _ & -> & _).
  apply wp_bind. eapply wp_mono; [by apply (flush_queue_wp ex dn pic1)|]. intros [] t2 (pic2 & H2 & Hc2).
  destruct (drained _ _ _ _ H2) as [Hnone Hgrid].
  pose proof (redrawn_fields _ _ (d_same _ _ _ _ _ H2)) as (_ & _ & _ & Ex & Ey & Eox & Eoy).
  wp_steps. rewrite (d_ctx _ _ _ _ _ H2), Ec, Er, Ex, Ey, Eox, Eoy.
  (* the cell the cursor has left *)
  eapply (wp_mono _ (λ _ t', ∃ m, displays cfg cols_ rows_ m (with_cursor enabled cx cy p) ∧
    t' = mk_flanterm (ctx t0) (set_framebuffer m (back t2)))).
  - pose proof (d_pix _ _ _ _ _ H2) as Hp2.
    assert (∀ x y, in_cells x y → (x, y) ≠ (ox, oy) → pic2 x y = with_cursor enabled cx cy p x y) as Heq.
    { intros x y Hc Hne. unfold with_cursor. destruct (decide (enabled = true ∧ (x, y) = (cx, cy))) as [[Een [= -> ->]]|Hn].
      - rewrite Een, !Z.eqb_refl. cbn [andb]. rewrite Hc2 by done. by apply Hc1.
      - assert (zlookup (grid (back t2)) (y * cols_ + x) = Some (pic2 x y)) as E.
        { apply (d_drawn _ _ _ _ _ H2); [done|]. unfold ex. tauto. }
        rewrite Hgrid in E by done. injection E as <-. destruct (enabled && _ && _) eqn:Eb; [|done]. boolprop. exfalso. apply Hn.
        by subst. }
    assert (∀ m q, displays cfg cols_ rows_ m q → (∀ x y, in_cells x y → q x y = with_cursor enabled cx cy p x y) →
      displays cfg cols_ rows_ m (with_cursor enabled cx cy p)) as Hext.
    { intros m q Hm Hq x y gx gy Hc Hi. rewrite <- Hq by done. by apply Hm. }
    assert (t2 = mk_flanterm (ctx t0) (set_framebuffer (framebuffer (back t2)) (back t2))) as Et2.
    { rewrite <- (d_ctx _ _ _ _ _ H2). by destruct t2 as [? []]. }
    destruct (decide (in_cells ox oy)) as [Ho|Ho].
    + unfold mwhen. destruct ((negb (ox =? cx) || negb (oy =? cy)) || negb enabled) eqn:Emv.
      * destruct Ho as [Ho1 Ho2]. rewrite (proj2 (Z.ltb_lt ox cols_)), (proj2 (Z.ltb_lt oy rows_)) by lia. cbn [andb].
        unfold grid_at, getb. wp_steps. replace (ox + oy * cols_) with (oy * cols_ + ox) by lia.
        rewrite Hgrid by (by split). eapply wp_of_option; [done|].
        eapply (plot_wp ex dn _ pic2 t2); [done|by split|by apply Hcodes; split|]. intros m Hm.
        exists m. split; [|by rewrite (d_ctx _ _ _ _ _ H2)]. eapply Hext; [exact Hm|]. intros x y Hc. rewrite put_cell_in.
        destruct (decide _) as [[= -> ->]|]; [|by apply Heq]. unfold with_cursor.
        destruct (enabled && (ox =? cx) && (oy =? cy)) eqn:Eb; [|done]. exfalso.
        apply andb_true_iff in Eb as [[Ea E1]%andb_true_iff E2]. rewrite Ea, E1, E2 in Emv. done.
      * apply wp_ret. exists (framebuffer (back t2)). split; [|done]. boolprop. eapply Hext; [exact Hp2|]. intros x y Hc.
        destruct (decide ((x, y) = (ox, oy))) as [[= -> ->]|]; [|by apply Heq].
        destruct (Z.eqb_spec ox cx) as [E1|]; [|done]. destruct (Z.eqb_spec oy cy) as [E2|]; [|done]. destruct enabled; [|done].
        unfold with_cursor. rewrite E1, E2, !Z.eqb_refl. cbn [andb]. rewrite E1, E2 in Hc. rewrite Hc2 by done. by apply Hc1.
    + assert (wp (mwhen ((ox <? cols_) && (oy <? rows_)) (g ← grid_at (ox + oy * cols_); plot_char g ox oy))
        (λ _ t', t' = t2) t2) as Hskip.
      { unfold mwhen. destruct (_ && _) eqn:E; [|by apply wp_ret]. boolprop. exfalso. apply Ho. split; lia. }
      assert (∀ x y, in_cells x y → pic2 x y = with_cursor enabled cx cy p x y) as Heq'.
      { intros x y Hc. apply Heq; [done|]. by intros [= -> ->]. }
      unfold mwhen at 1. destruct (_ || negb enabled).
      * eapply wp_mono; [exact Hskip|]. intros [] t3 ->. exists (framebuffer (back t2)). split; [by eapply Hext|done].
      * apply wp_ret. exists (framebuffer (back t2)). split; [by eapply Hext|done].
  - intros [] t3 (m & Hm & ->). unfold putb, call_flush_callback, getb, putb. wp_steps. cbn [back ctx]. destruct H2 as [D1 D2 D3 D4 D5 D6 D7 D8 D9].
    assert (redrawn (back t0) (set_framebuffer m (back t2))) as Hr.
    { eapply redrawn_trans; [exact D2|]. by destruct (back t2). }
    unfold mwhen. destruct (flush_callback _); [apply wp_modify|apply wp_ret]; cbn [back ctx];
      (split; [done|]); (split; [|split_and!; [exact D3|exact D4|exact Hnone|exact Hgrid|exact Hm]]);
      exists (set_framebuffer m (back t2)); [exists (flushes (back t2) + 1)|exists (flushes (back t2))]; (split; [exact Hr|]).
    + reflexivity.
    + by destruct (back t2).
Qed.
End flush.

(** ** A full refresh draws everything

    [full_refresh] paints the screen, plots every cell of the grid and the
    cursor: whatever the video memory held, it shows the grid afterwards. *)

Section refresh.
Context (cols_ rows_ : Z) (Hpos : 0 < cols_) (Hrows : 0 < rows_).
Abbreviation in_cells := (in_cells cols_ rows_).
Context (t0 : flanterm flanterm_fb) (Ec : cols (ctx t0) = cols_) (Er : rows (ctx t0) = rows_).
Context (Hg : geometry_ok (config (back t0)) cols_ rows_) (Hb : buffer_ok cols_ rows_ (back t0)).
Abbreviation cfg := (config (back t0)).
Context (p : picture) (Hp : cells_are cols_ rows_ (back t0) p) (Hcodes : ∀ x y, in_cells x y → 0 <= ch (p x y) < 256).
Context (Hempty : queue_i (back t0) = 0).
Abbreviation cx := (cursor_x (back t0)).
Abbreviation cy := (cursor_y (back t0)).
Context (Hcur : 0 <= cx ∧ 0 <= cy).

Lemma nothing_queued i k : zlookup (qmap (back t0)) i ≠ Some (Some k).
Proof. intros Hi. destruct (b_map _ _ _ Hb _ _ Hi). lia. Qed.

(** The grid is the picture. *)
Lemma grid_is x y : in_cells x y → zlookup (grid (back t0)) (y * cols_ + x) = Some (p x y).
Proof.
  intros Hc. specialize (Hp x y Hc). unfold cell_of in Hp. destruct (zlookup (qmap (back t0)) _) as [[k|]|] eqn:E; [|done|done].
  by destruct (nothing_queued _ _ E).
Qed.

(** Only the pixels differ. *)
Definition painted (t : flanterm flanterm_fb) : Prop :=
  ∃ m, t = mk_flanterm (ctx t0) (set_framebuffer m (back t0)).

Lemma painted_self : painted t0.
Proof. exists (framebuffer (back t0)). by destruct t0 as [? []]. Qed.

Lemma paint_wp : wp (for_range 0 (height cfg) (λ y, for_range 0 (width cfg) (λ x, refresh_pixel x y))) (λ _, painted) t0.
Proof.
  destruct Hg as [_ Hcan _ _ _ [Ho1 Ho2] [Hw Hh] _ _ _]. pose proof (glyph_positive _ _ _ Hg).
  apply (wp_for_range 0 (height cfg) _ (λ _, painted)); [nia|apply painted_self|]. intros y t1 Hy H1.
  apply (wp_for_range 0 (width cfg) _ (λ _, painted)); [nia|done|]. intros x t2 Hx (m & ->).
  unfold refresh_pixel, getb, putb. wp_steps. cbn [back config set_framebuffer]. destruct (rotated _ _ _) as [px py].
  rewrite Hcan. wp_steps. eexists. cbn [ctx back]. reflexivity.
Qed.

(** The first [i] cells are drawn. *)
Definition drawn_to (i : Z) (t : flanterm flanterm_fb) : Prop :=
  ∃ m, t = mk_flanterm (ctx t0) (set_framebuffer m (back t0)) ∧
    displays_on cfg cols_ rows_ (λ x y, y * cols_ + x < i) m p.

Lemma put_cell_same x y : ∀ x' y', put_cell (p x y) x y p x' y' = p x' y'.
Proof.
  intros x' y'. unfold put_cell. destruct (Z.eqb_spec x' x) as [->|]; [|done]. by destruct (Z.eqb_spec y' y) as [->|].
Qed.

Lemma draw_cell_wp i t : 0 <= i < rows_ * cols_ → drawn_to i t →
  wp (g ← grid_at i; plot_char g (i mod cols_) (i / cols_)) (λ _ t', drawn_to (i + 1) t') t.
Proof.
  intros Hi (m & -> & Hm). pose proof (index_cells cols_ rows_ i Hpos Hi) as Hc. destruct Hc as [Hcx Hcy].
  assert (i = i / cols_ * cols_ + i mod cols_) as Ei by (pose proof (Z.div_mod i cols_); lia).
  unfold grid_at, getb. wp_steps. cbn [back grid set_framebuffer]. rewrite Ei at 1. rewrite grid_is by (by split).
  eapply wp_of_option; [done|]. unfold plot_char, get, getb, putb. wp_steps. cbn [ctx]. rewrite Ec, Er.
  rewrite (proj2 (Z.leb_gt cols_ _)), (proj2 (Z.leb_gt rows_ _)) by lia. cbn [orb]. wp_steps. cbn [back config framebuffer set_framebuffer].
  destruct (plot_displays_on cfg cols_ rows_ Hg (λ x y, y * cols_ + x < i) (p (i mod cols_) (i / cols_)) (i mod cols_) (i / cols_) m p)
    as (m' & E & Hm'); [by split|by apply Hcodes|intros x y gx gy H1 [H2 _]; by apply Hm|].
  eapply wp_of_option; [exact E|]. wp_steps. exists m'. split; [done|]. intros x y gx gy H1 H2 H3.
  rewrite <- (put_cell_same (i mod cols_) (i / cols_) x y). apply Hm'; [done| |done].
  destruct (Z.eq_dec (y * cols_ + x) i) as [Exy|]; [|left; lia]. right. rewrite Ei in Exy.
  destruct (index_inj cols_ rows_ x y (i mod cols_) (i / cols_) H1 ltac:(by split) Exy) as [-> ->]. done.
Qed.

Lemma full_refresh_wp : let enabled := cursor_enabled (ctx t0) in
  wp flanterm_fb_full_refresh (λ _ t', ctx t' = ctx t0 ∧
    (∃ b1 n, redrawn (back t0) b1 ∧ back t' = set_flushes n b1) ∧
    Z.of_nat (length (grid (back t'))) = rows_ * cols_ ∧ Z.of_nat (length (qmap (back t'))) = rows_ * cols_ ∧
    (∀ i k, zlookup (qmap (back t')) i ≠ Some (Some k)) ∧
    (∀ x y, in_cells x y → zlookup (grid (back t')) (y * cols_ + x) = Some (p x y)) ∧
    displays cfg cols_ rows_ (framebuffer (back t')) (with_cursor enabled cx cy p)) t0.
Proof.
  intros enabled. unfold flanterm_fb_full_refresh, get_config, getb, get. do 4 apply wp_bind, wp_gets. cbv beta. rewrite Ec, Er.
  apply wp_bind. eapply wp_mono; [apply paint_wp|]. intros [] t1 (m1 & ->).
  apply wp_bind. eapply wp_mono.
  { apply (wp_for_range 0 (rows_ * cols_) _ drawn_to); [nia| |intros i t; apply draw_cell_wp].
    exists m1. split; [done|]. intros x y gx gy Hc Hlt. pose proof (cell_index_range _ _ _ _ Hc). lia. }
  intros [] t2 (m & -> & Hm). apply wp_bind, wp_gets. cbn [ctx]. fold enabled.
  assert (displays cfg cols_ rows_ m p) as Hm2.
  { intros x y gx gy Hc. apply Hm; [done|]. pose proof (cell_index_range _ _ _ _ Hc). lia. }
  assert (drawing cols_ rows_ t0 p (λ _ _, False) (λ _ _, False) 0 p (mk_flanterm (ctx t0) (set_framebuffer m (back t0)))) as H0.
  { split; cbn [ctx back grid qmap framebuffer set_framebuffer]; try done.
    - apply Hb.
    - apply Hb.
    - intros i k Hi. by destruct (nothing_queued i k).
    - intros x y Hc _. by apply grid_is. }
  apply wp_bind. eapply (wp_mono _ (λ _ t', ∃ pic ex dn, drawing cols_ rows_ t0 p ex dn 0 pic t' ∧
    ∀ x y, in_cells x y → pic x y = with_cursor enabled cx cy p x y)).
  - unfold mwhen. destruct enabled eqn:Een.
    + eapply wp_mono; [apply (draw_cursor_wp cols_ rows_ t0 Ec Er Hg p Hcodes Hcur _ p _ H0)|].
      intros [] t3 (pic & H3 & Hc3). eexists pic, _, _. split; [exact H3|]. intros x y Hc. unfold with_cursor.
      rewrite <- Hempty in H3. destruct (drained cols_ rows_ t0 Hb p _ _ _ _ H3) as [_ Hgr].
      destruct (decide ((x, y) = (cx, cy))) as [[= -> ->]|Hne]; [rewrite !Z.eqb_refl; by apply Hc3|].
      assert (zlookup (grid (back t3)) (y * cols_ + x) = Some (pic x y)) as E by (apply (d_drawn _ _ _ _ _ _ _ _ _ H3); [done|tauto]).
      rewrite Hgr in E by done. injection E as <-. destruct (_ && (x =? cx) && (y =? cy)) eqn:Eb; [|done]. boolprop. subst. done.
    + apply wp_ret. eexists p, _, _. split; [exact H0|]. intros x y _. done.
  - intros [] t3 (pic & ex & dn & H3 & Hpic). rewrite <- Hempty in H3.
    destruct (drained cols_ rows_ t0 Hb p _ _ _ _ H3) as [Hnone Hgrid].
    assert (displays cfg cols_ rows_ (framebuffer (back t3)) (with_cursor enabled cx cy p)) as Hd.
    { intros x y gx gy Hc Hi. rewrite <- Hpic by done. by apply (d_pix _ _ _ _ _ _ _ _ _ H3). }
    destruct H3 as [D1 D2 D3 D4 D5 D6 D7 D8 D9].
    unfold call_flush_callback, getb, putb. wp_steps. unfold mwhen.
    destruct (flush_callback (back t3)); [apply wp_modify|apply wp_ret];
      (split; [done|]); (split; [|split_and!; [exact D3|exact D4|exact Hnone|exact Hgrid|exact Hd]]).
    + by exists (back t3), (flushes (back t3) + 1).
    + exists (back t3), (flushes (back t3)). split; [done|]. by destruct (back t3).
Qed.
End refresh.
