(* ===== verification/TermShow.v ===== *)
(** * The frame buffer implements the screen

    [shows t s]: the frame buffer terminal [t] stands for the screen [s].  Every
    operation of the back end keeps the relation while the specification does
    its step, so the whole terminal over the frame buffer does what the terminal
    over the specification does. *)

From Stdlib Require Import ZifyBool.
From stdpp Require Import prelude gmap list numbers tactics.
From S2P Require Import Prelude Simulation Term TermSim TermFb TermScreen TermPixels TermQueue TermFlush.

Definition palette_of (cfg : fb_config) : palette :=
  mk_palette (ansi_colours cfg) (ansi_bright_colours cfg) (convert_colour cfg) (default_fg cfg) (default_fg_bright cfg) (default_bg_bright cfg).

Record shows (t : flanterm flanterm_fb) (s : flanterm screen) : Prop := {
  sh_ctx : ctx t = ctx s;
  sh_cols : 0 < cols (ctx s);
  sh_rows : 0 < rows (ctx s);
  sh_geo : geometry_ok (config (back t)) (cols (ctx s)) (rows (ctx s));
  sh_buf : buffer_ok (cols (ctx s)) (rows (ctx s)) (back t);
  sh_cells : cells_are (cols (ctx s)) (rows (ctx s)) (back t) (cells (back s));
  sh_codes : ∀ x y, in_cells (cols (ctx s)) (rows (ctx s)) x y → 0 <= ch (cells (back s) x y) < 256;
  sh_pix : displays (config (back t)) (cols (ctx s)) (rows (ctx s)) (framebuffer (back t)) (shown (back s));
  sh_drawn : ∀ x y, in_cells (cols (ctx s)) (rows (ctx s)) x y → (x, y) ≠ (old_cursor_x (back t), old_cursor_y (back t)) →
    zlookup (grid (back t)) (y * cols (ctx s) + x) = Some (shown (back s) x y);
  sh_old : 0 <= old_cursor_x (back t) ∧ 0 <= old_cursor_y (back t);
  sh_cur : cursor_x (back t) = cur_x (back s) ∧ cursor_y (back t) = cur_y (back s);
  sh_cur_range : 0 <= cur_x (back s) < 2 ^ 64 ∧ 0 <= cur_y (back s) < 2 ^ 64;
  sh_now : text_fg (back t) = now_fg (back s) ∧ text_bg (back t) = now_bg (back s);
  sh_kept : saved_state_text_fg (back t) = kept_fg (back s) ∧ saved_state_text_bg (back t) = kept_bg (back s) ∧
    saved_state_cursor_x (back t) = kept_x (back s) ∧ saved_state_cursor_y (back t) = kept_y (back s);
  sh_kept_range : 0 <= kept_x (back s) < 2 ^ 64 ∧ 0 <= kept_y (back s) < 2 ^ 64;
  sh_palette : colours (back s) = palette_of (config (back t))
}.

Section ops.
Context (t : flanterm flanterm_fb) (s : flanterm screen) (H : shows t s).

Lemma shows_holds : holds (cols (ctx s)) (rows (ctx s)) t (cells (back s)) t.
Proof. split; [done|apply requeued_refl|apply H|apply H]. Qed.

Lemma dims_range : cols (ctx s) < 2 ^ 31 ∧ rows (ctx s) < 2 ^ 31 ∧ rows (ctx s) * cols (ctx s) < 2 ^ 64.
Proof.
  pose proof (glyph_positive _ _ _ (sh_geo _ _ H)) as [Hw Hh]. destruct (sh_geo _ _ H) as [_ _ _ _ _ [Ho1 Ho2] [H1 H2] _ _ _].
  pose proof (sh_cols _ _ H). pose proof (sh_rows _ _ H).
  assert (cols (ctx s) < 2 ^ 31) by nia. assert (rows (ctx s) < 2 ^ 31) by nia.
  split; [done|]. split; [done|]. assert (rows (ctx s) * cols (ctx s) < 2 ^ 31 * 2 ^ 31) by nia. lia.
Qed.

(** New cells, the rest as before. *)
Lemma shows_cells p t' : holds (cols (ctx s)) (rows (ctx s)) t p t' →
  (∀ x y, in_cells (cols (ctx s)) (rows (ctx s)) x y → 0 <= ch (p x y) < 256) →
  shows t' (mk_flanterm (ctx s) (set_cells p (back s))).
Proof.
  intros [E1 E2 Hb Hc] Hp. destruct H as [S1 S2 S3 S4 S5 S6 S7 S8 S9 S10 S11 S12 S13 S14 S15 S16].
  assert (config (back t') = config (back t) ∧ framebuffer (back t') = framebuffer (back t) ∧ grid (back t') = grid (back t) ∧
    cursor_x (back t') = cursor_x (back t) ∧ cursor_y (back t') = cursor_y (back t) ∧
    old_cursor_x (back t') = old_cursor_x (back t) ∧ old_cursor_y (back t') = old_cursor_y (back t) ∧
    text_fg (back t') = text_fg (back t) ∧ text_bg (back t') = text_bg (back t) ∧
    saved_state_text_fg (back t') = saved_state_text_fg (back t) ∧ saved_state_text_bg (back t') = saved_state_text_bg (back t) ∧
    saved_state_cursor_x (back t') = saved_state_cursor_x (back t) ∧ saved_state_cursor_y (back t') = saved_state_cursor_y (back t))
    as (F1 & F2 & F3 & F4 & F5 & F6 & F7 & F8 & F9 & F10 & F11 & F12 & F13).
  { rewrite E2. by destruct (back t). }
  split; cbn [ctx back cells shown colours cur_x cur_y now_fg now_bg kept_fg kept_bg kept_x kept_y set_cells];
    rewrite ?F1, ?F2, ?F3, ?F4, ?F5, ?F6, ?F7, ?F8, ?F9, ?F10, ?F11, ?F12, ?F13; try done. by rewrite E1.
Qed.

(** A change of the variables that are not about cells. *)
Lemma shows_vars (f : flanterm_fb → flanterm_fb) (g : screen → screen) :
  (∀ b, config (f b) = config b ∧ grid (f b) = grid b ∧ queue (f b) = queue b ∧ queue_i (f b) = queue_i b ∧ qmap (f b) = qmap b ∧
    framebuffer (f b) = framebuffer b ∧ old_cursor_x (f b) = old_cursor_x b ∧ old_cursor_y (f b) = old_cursor_y b) →
  (∀ b, cells (g b) = cells b ∧ shown (g b) = shown b ∧ colours (g b) = colours b) →
  let b := f (back t) in let r := g (back s) in
  cursor_x b = cur_x r ∧ cursor_y b = cur_y r → 0 <= cur_x r < 2 ^ 64 ∧ 0 <= cur_y r < 2 ^ 64 →
  text_fg b = now_fg r ∧ text_bg b = now_bg r →
  saved_state_text_fg b = kept_fg r ∧ saved_state_text_bg b = kept_bg r ∧
    saved_state_cursor_x b = kept_x r ∧ saved_state_cursor_y b = kept_y r →
  0 <= kept_x r < 2 ^ 64 ∧ 0 <= kept_y r < 2 ^ 64 →
  shows (mk_flanterm (ctx t) b) (mk_flanterm (ctx s) r).
Proof.
  intros Hf Hg' b r H1 H2 H3 H4 H5. destruct (Hf (back t)) as (F1 & F2 & F3 & F4 & F5 & F6 & F7 & F8).
  destruct (Hg' (back s)) as (G1 & G2 & G3). fold b in F1, F2, F3, F4, F5, F6, F7, F8. fold r in G1, G2, G3.
  destruct H as [S1 S2 S3 S4 S5 S6 S7 S8 S9 S10 S11 S12 S13 S14 S15 S16].
  split; cbn [ctx back]; rewrite ?F1, ?F2, ?F6, ?F7, ?F8, ?G1, ?G2, ?G3; try done.
  - destruct S5 as [B1 B2 B3 B4 B5 B6]. split; rewrite ?F2, ?F3, ?F4, ?F5; try done.
    + intros k Hk. destruct (B5 k Hk) as (x & y & (c & E & Hc) & Hm). exists x, y. split; [|done]. exists c. by rewrite F3.
    + intros i k Hi. destruct (B6 i k Hi) as (Hk & x & y & (c & E & Hc) & Hm). split; [done|]. exists x, y. split; [|done]. exists c. by rewrite F3.
  - intros x y Hc. unfold cell_of. rewrite F2, F3, F5. by apply S6.
Qed.
End ops.

(** A step on the variables simulates one. *)
Lemma vars_simulate (f : flanterm_fb → flanterm_fb) (g : screen → screen) :
  (∀ t s, shows t s → shows (mk_flanterm (ctx t) (f (back t))) (mk_flanterm (ctx s) (g (back s)))) →
  simulates shows (putb f) (puts g).
Proof. intros Hs. apply simulates_modify. intros t s. apply Hs. Qed.

Lemma fg_simulates (o : fb_config → option Z) (o' : palette → option Z) : (∀ cfg, o' (palette_of cfg) = o cfg) →
  simulates shows (v ← getb (λ b, o (config b)); v ← of_option v; putb (set_text_fg v)) (v ← gets_ (λ s, o' (colours s)); s_set_fg v).
Proof.
  intros Ho. apply simulates_bind.
  - apply simulates_gets. intros t s HR. by rewrite (sh_palette _ _ HR), Ho.
  - intros v. apply simulates_bind; [apply simulates_of_option|]. intros c. apply vars_simulate. intros t s HR.
    pose proof HR as [S1 S2 S3 S4 S5 S6 S7 S8 S9 S10 S11 S12 S13 S14 S15 S16].
    apply (shows_vars t s HR (set_text_fg c) (λ s, set_now c (now_bg s) s)); try done. split; [done|apply S13].
Qed.

Lemma bg_simulates (o : fb_config → option Z) (o' : palette → option Z) : (∀ cfg, o' (palette_of cfg) = o cfg) →
  simulates shows (v ← getb (λ b, o (config b)); v ← of_option v; putb (set_text_bg v)) (v ← gets_ (λ s, o' (colours s)); s_set_bg v).
Proof.
  intros Ho. apply simulates_bind.
  - apply simulates_gets. intros t s HR. by rewrite (sh_palette _ _ HR), Ho.
  - intros v. apply simulates_bind; [apply simulates_of_option|]. intros c. apply vars_simulate. intros t s HR.
    pose proof HR as [S1 S2 S3 S4 S5 S6 S7 S8 S9 S10 S11 S12 S13 S14 S15 S16].
    apply (shows_vars t s HR (set_text_bg c) (λ s, set_now (now_fg s) c s)); try done. split; [apply S13|done].
Qed.

Lemma clamp_range v limit : 0 <= v < 2 ^ 64 → 0 < limit < 2 ^ 31 → 0 <= clamp v limit < 2 ^ 64.
Proof.
  intros Hv Hl. unfold clamp. destruct (_ <=? _); [|done]. destruct (_ <? _); [lia|]. rewrite wrap_small by lia. lia.
Qed.

(** ** The operations *)

Lemma is_size_true v : is_size v = true ↔ 0 <= v < 2 ^ 64.
Proof. unfold is_size. rewrite andb_true_iff, Z.leb_le, Z.ltb_lt. done. Qed.

(** A precondition of the specification. *)
Lemma simulates_assert {A} b (f : M (flanterm flanterm_fb) A) (g : M (flanterm screen) A) :
  (b = true → simulates shows f g) → simulates shows f (massert b;; g).
Proof. destruct b; [intros H; by apply H|]. intros _ t s Q _ []. Qed.

Lemma simulates_set_cursor_pos x y : simulates shows (flanterm_fb_set_cursor_pos x y) (s_set_cursor_pos x y).
Proof.
  apply simulates_assert. intros [Hx%is_size_true Hy%is_size_true]%andb_true_iff.
  intros t s Q HR HQ. pose proof (dims_range _ _ HR) as (D1 & D2 & _). pose proof (sh_cols _ _ HR). pose proof (sh_rows _ _ HR).
  unfold flanterm_fb_set_cursor_pos, get, putb. wp_steps. eexists. split; [exact HQ|]. rewrite (sh_ctx _ _ HR).
  pose proof HR as [S1 S2 S3 S4 S5 S6 S7 S8 S9 S10 S11 S12 S13 S14 S15 S16]. rewrite <- S1 at 1. cbn [ctx back].
  apply (shows_vars t s HR (λ b, set_cursor_y (clamp y (rows (ctx s))) (set_cursor_x (clamp x (cols (ctx s))) b))
    (set_cur (clamp x (cols (ctx s))) (clamp y (rows (ctx s))))); try done.
  split; apply clamp_range; done || lia.
Qed.

Lemma simulates_get_cursor_pos : simulates shows flanterm_fb_get_cursor_pos s_get_cursor_pos.
Proof.
  intros t s Q HR HQ. pose proof (dims_range _ _ HR) as (D1 & D2 & _). pose proof (sh_cols _ _ HR). pose proof (sh_rows _ _ HR).
  destruct (sh_cur _ _ HR) as [Ex Ey]. unfold flanterm_fb_get_cursor_pos, get, getb. wp_steps.
  exists s. split; [|done]. rewrite (sh_ctx _ _ HR), Ex, Ey, !wrap_small by lia.
  unfold wp, s_get_cursor_pos, get, gets_, bind, gets, mret in HQ.
  assert (∀ a b, (if b <=? a then b - 1 else a) = Z.min a (b - 1)) as Em by (intros; destruct (Z.leb_spec b a); lia).
  by rewrite !Em.
Qed.

Lemma simulates_move_character nx ny x y : simulates shows (flanterm_fb_move_character nx ny x y) (s_move_character nx ny x y).
Proof.
  apply simulates_assert. intros [[[Hnx%is_size_true Hny%is_size_true]%andb_true_iff Hx%is_size_true]%andb_true_iff Hy%is_size_true]%andb_true_iff.
  intros t s Q HR HQ. pose proof (sh_ctx _ _ HR) as Ect. pose proof (sh_cols _ _ HR) as Hcols.
  unfold flanterm_fb_move_character, get. wp_steps. rewrite !Ect.
  change (wp (mwhen ((x <? cols (ctx s)) && (y <? rows (ctx s)) && (nx <? cols (ctx s)) && (ny <? rows (ctx s)))
    (puts (λ s, set_cells (put_cell (cells s x y) nx ny (cells s)) s))) Q s) in HQ.
  destruct (_ || _) eqn:E.
  - apply wp_ret. exists s. split; [|done]. replace ((x <? cols (ctx s)) && _ && _ && _) with false in HQ; [done|].
    symmetry. lia.
  - replace ((x <? cols (ctx s)) && _ && _ && _) with true in HQ by (symmetry; lia). cbn [mwhen] in HQ.
    apply wp_bind. replace (x + y * cols (ctx s)) with (y * cols (ctx s) + x) by lia.
    eapply wp_mono; [apply (cell_at_holds (cols (ctx s)) (rows (ctx s)) t (cells (back s)) t x y (shows_holds _ _ HR)); split; lia|].
    intros c t' [-> ->]. eapply wp_mono; [apply (push_holds (cols (ctx s)) (rows (ctx s)) t); [by rewrite Ect|by rewrite Ect|by apply shows_holds|lia|lia]|].
    intros [] t' Ht. eexists. split; [exact HQ|]. apply (shows_cells t s HR _ t' Ht). intros x' y' Hc. rewrite put_cell_in.
    destruct (decide _); apply (sh_codes _ _ HR); [split; lia|done].
Qed.

Lemma margins_spec c : margins_ok c = true → 0 <= scroll_top_margin c ∧ 1 <= scroll_bottom_margin c <= rows c.
Proof. unfold margins_ok. lia. Qed.

Lemma scrolled_codes (P : Z → Prop) top bottom c p cols_ rows_ : P (ch c) → (∀ x y, in_cells cols_ rows_ x y → P (ch (p x y))) →
  0 <= top → bottom <= rows_ → ∀ x y, in_cells cols_ rows_ x y → P (ch (scrolled top bottom c p x y)).
Proof.
  intros Hc Hp Ht Hb x y [Hx Hy]. unfold scrolled. destruct (_ && _) eqn:E; [apply Hp; split; lia|].
  destruct (_ =? _); [done|]. by apply Hp.
Qed.

Lemma scrolled_back_codes (P : Z → Prop) top bottom c p cols_ rows_ : P (ch c) → (∀ x y, in_cells cols_ rows_ x y → P (ch (p x y))) →
  0 <= top → ∀ x y, in_cells cols_ rows_ x y → P (ch (scrolled_back top bottom c p x y)).
Proof.
  intros Hc Hp Ht x y [Hx Hy]. unfold scrolled_back. destruct (_ =? _); [done|]. destruct (_ && _) eqn:E; [apply Hp; split; lia|].
  by apply Hp.
Qed.

(** The blank cell of the two sides. *)
Lemma blank_same t s : shows t s → blank_of (back t) = blank (back s).
Proof. intros HR. unfold blank_of, blank. by destruct (sh_now _ _ HR) as [-> ->]. Qed.

Lemma simulates_scroll : simulates shows flanterm_fb_scroll s_scroll.
Proof.
  intros t s Q HR HQ. unfold s_scroll in HQ. apply wp_bind_inv in HQ. unfold get in HQ. cbv beta in HQ.
  change (wp (massert (margins_ok (ctx s) && (scroll_top_margin (ctx s) <? scroll_bottom_margin (ctx s)));;
    puts (λ r, set_cells (scrolled (scroll_top_margin (ctx s)) (scroll_bottom_margin (ctx s)) (blank r) (cells r)) r)) Q s) in HQ.
  destruct (margins_ok (ctx s)) eqn:Em; [|done]. destruct (Z.ltb_spec (scroll_top_margin (ctx s)) (scroll_bottom_margin (ctx s))); [|done].
  destruct (margins_spec _ Em) as [M1 M2]. pose proof (dims_range _ _ HR) as (D1 & D2 & D3). pose proof (sh_ctx _ _ HR) as E.
  pose proof (scroll_holds (cols (ctx s)) (rows (ctx s)) (sh_cols _ _ HR) (sh_rows _ _ HR) t) as Hs. rewrite E in Hs.
  eapply wp_mono; [apply (Hs eq_refl eq_refl _ t (shows_holds _ _ HR)); lia|].
  intros [] t' Ht. eexists. split; [exact HQ|]. rewrite (blank_same _ _ HR) in Ht. apply (shows_cells t s HR _ t' Ht).
  apply (scrolled_codes (λ v, 0 <= v < 256)); [cbn; lia|apply HR|done|lia].
Qed.

Lemma simulates_revscroll : simulates shows flanterm_fb_revscroll s_revscroll.
Proof.
  intros t s Q HR HQ. unfold s_revscroll in HQ. apply wp_bind_inv in HQ. unfold get in HQ. cbv beta in HQ.
  change (wp (massert (margins_ok (ctx s));;
    puts (λ r, set_cells (scrolled_back (scroll_top_margin (ctx s)) (scroll_bottom_margin (ctx s)) (blank r) (cells r)) r)) Q s) in HQ.
  destruct (margins_ok (ctx s)) eqn:Em; [|done].
  destruct (margins_spec _ Em) as [M1 M2]. pose proof (dims_range _ _ HR) as (D1 & D2 & D3). pose proof (sh_ctx _ _ HR) as E.
  pose proof (revscroll_holds (cols (ctx s)) (rows (ctx s)) (sh_cols _ _ HR) (sh_rows _ _ HR) t) as Hs. rewrite E in Hs.
  eapply wp_mono; [apply (Hs eq_refl eq_refl _ t (shows_holds _ _ HR)); lia|].
  intros [] t' Ht. eexists. split; [exact HQ|]. rewrite (blank_same _ _ HR) in Ht. apply (shows_cells t s HR _ t' Ht).
  apply (scrolled_back_codes (λ v, 0 <= v < 256)); [cbn; lia|apply HR|done].
Qed.

(** The cursor alone. *)
Lemma shows_cur t s x y : shows t s → 0 <= x < 2 ^ 64 → 0 <= y < 2 ^ 64 →
  shows (mk_flanterm (ctx t) (set_cursor_y y (set_cursor_x x (back t)))) (mk_flanterm (ctx s) (set_cur x y (back s))).
Proof.
  intros HR Hx Hy. pose proof HR as [S1 S2 S3 S4 S5 S6 S7 S8 S9 S10 S11 S12 S13 S14 S15 S16].
  by apply (shows_vars t s HR (λ b, set_cursor_y y (set_cursor_x x b)) (set_cur x y)).
Qed.

Lemma simulates_clear b : simulates shows (flanterm_fb_clear b) (s_clear b).
Proof.
  intros t s Q HR HQ. pose proof (sh_ctx _ _ HR) as E. unfold flanterm_fb_clear, get. apply wp_bind, wp_gets. cbv beta.
  apply wp_bind, wp_gets. cbv beta. rewrite E.
  pose proof (clear_holds (cols (ctx s)) (rows (ctx s)) (sh_cols _ _ HR) (sh_rows _ _ HR) t) as Hc. rewrite E in Hc.
  specialize (Hc eq_refl eq_refl _ t (shows_holds _ _ HR)). apply wp_bind_inv in Hc. apply wp_bind.
  eapply wp_mono; [exact Hc|]. clear Hc. intros c t1 Hc. apply wp_bind. eapply wp_mono; [exact Hc|]. intros [] t2 Ht.
  rewrite (blank_same _ _ HR) in Ht. pose proof (shows_cells t s HR _ t2 Ht ltac:(cbn; lia)) as HR2.
  unfold s_clear in HQ. destruct b; cbn [mwhen] in *.
  - unfold putb. wp_steps. eexists. split; [exact HQ|]. cbn [ctx back]. by apply (shows_cur t2 _ 0 0 HR2).
  - apply wp_ret. eexists. split; [exact HQ|done].
Qed.

Lemma simulates_swap_palette : simulates shows flanterm_fb_swap_palette (puts (λ s, set_now (now_bg s) (now_fg s) s)).
Proof.
  apply vars_simulate. intros t s HR. pose proof HR as [S1 S2 S3 S4 S5 S6 S7 S8 S9 S10 S11 S12 S13 S14 S15 S16].
  apply (shows_vars t s HR (λ b, set_text_fg (text_bg b) (set_text_bg (text_fg b) b)) (λ s, set_now (now_bg s) (now_fg s) s)); try done.
  cbn. destruct S13. done.
Qed.

Lemma simulates_save_state : simulates shows flanterm_fb_save_state (puts (λ s, set_kept (now_fg s) (now_bg s) (cur_x s) (cur_y s) s)).
Proof.
  intros t s Q HR HQ. unfold flanterm_fb_save_state, putb. wp_steps. eexists. split; [exact HQ|]. cbn [ctx back].
  pose proof HR as [S1 S2 S3 S4 S5 S6 S7 S8 S9 S10 [] S12 [] S14 S15 S16].
  by apply (shows_vars t s HR (λ b, set_saved_state_cursor_y (cursor_y b) (set_saved_state_cursor_x (cursor_x b)
    (set_saved_state_text_bg (text_bg b) (set_saved_state_text_fg (text_fg b) b))))
    (λ s, set_kept (now_fg s) (now_bg s) (cur_x s) (cur_y s) s)).
Qed.

Lemma simulates_restore_state :
  simulates shows flanterm_fb_restore_state (puts (λ s, set_cur (kept_x s) (kept_y s) (set_now (kept_fg s) (kept_bg s) s))).
Proof.
  intros t s Q HR HQ. unfold flanterm_fb_restore_state, putb. wp_steps. eexists. split; [exact HQ|]. cbn [ctx back].
  pose proof HR as [S1 S2 S3 S4 S5 S6 S7 S8 S9 S10 S11 S12 S13 (K1 & K2 & K3 & K4) S15 S16].
  by apply (shows_vars t s HR (λ b, set_cursor_y (saved_state_cursor_y b) (set_cursor_x (saved_state_cursor_x b)
    (set_text_bg (saved_state_text_bg b) (set_text_fg (saved_state_text_fg b) b))))
    (λ s, set_cur (kept_x s) (kept_y s) (set_now (kept_fg s) (kept_bg s) s))).
Qed.

(** Both sides move the cursor. *)
Lemma cur_simulates (fx fy : Z → Z) : (∀ x, 0 <= x < 2 ^ 64 → 0 <= fx x < 2 ^ 64) → (∀ y, 0 <= y < 2 ^ 64 → 0 <= fy y < 2 ^ 64) →
  simulates shows (putb (λ b, set_cursor_y (fy (cursor_y b)) (set_cursor_x (fx (cursor_x b)) b)))
    (puts (λ s, set_cur (fx (cur_x s)) (fy (cur_y s)) s)).
Proof.
  intros Hx Hy. apply vars_simulate. intros t s HR. destruct (sh_cur _ _ HR) as [-> ->]. destruct (sh_cur_range _ _ HR).
  apply shows_cur; auto.
Qed.

Lemma sim_get_b {A} (f : flanterm_context → A) : simulates shows (get f) (get f).
Proof. apply simulates_gets. intros t s HR. by rewrite (sh_ctx _ _ HR). Qed.
Lemma sim_cur_y : simulates shows (getb cursor_y) (gets_ cur_y).
Proof. apply simulates_gets. intros t s HR. apply (sh_cur _ _ HR). Qed.
Lemma sim_cur_x : simulates shows (getb cursor_x) (gets_ cur_x).
Proof. apply simulates_gets. intros t s HR. apply (sh_cur _ _ HR). Qed.
Hint Resolve sim_get_b sim_cur_x sim_cur_y simulates_scroll simulates_revscroll : simulates.

(** The row of the cursor alone. *)
Lemma row_simulates (fy : Z → Z) : (∀ y, 0 <= y < 2 ^ 64 → 0 <= fy y < 2 ^ 64) →
  simulates shows (putb (λ b, set_cursor_y (fy (cursor_y b)) b)) (puts (λ s, set_cur (cur_x s) (fy (cur_y s)) s)).
Proof.
  intros Hy t s Q HR HQ. pose proof (cur_simulates (λ x, x) fy ltac:(auto) Hy t s Q HR HQ) as Hs. revert Hs. unfold putb, modify, wp.
  cbn. by destruct (back t).
Qed.

Lemma simulates_wrap : simulates shows wrap_line s_wrap.
Proof.
  assert (∀ v, 0 <= u64 v < 2 ^ 64) as Hr by (intros; by apply wrap_range).
  assert (simulates shows
    (putb (λ b, set_cursor_y (u64 (cursor_y b + 1)) (set_cursor_x 0 b));;
     cols_ ← get cols; bottom ← get scroll_bottom_margin; y ← getb cursor_y;
     mwhen (y =? bottom) (putb (λ b, set_cursor_y (u64 (cursor_y b - 1)) b);; flanterm_fb_scroll);;
     y ← getb cursor_y; mwhen (cols_ <=? y) (putb (set_cursor_y (u64 (cols_ - 1))))) s_wrap) as Hs; [|exact Hs].
  pose proof (cur_simulates (λ _, 0) (λ y, u64 (y + 1)) ltac:(intros; lia) (λ y _, Hr (y + 1))) as H1.
  pose proof (row_simulates (λ y, u64 (y - 1)) (λ y _, Hr (y - 1))) as H2.
  pose proof (λ c, row_simulates (λ _, u64 (c - 1)) (λ _ _, Hr (c - 1))) as H3.
  unfold s_wrap. simulate; eauto.
Qed.

(** The character is queued and the cursor steps on. *)
Lemma simulates_put_here c : simulates shows
  (f ← getb text_fg; b ← getb text_bg; x ← getb cursor_x; y ← getb cursor_y;
   putb (set_cursor_x (u64 (x + 1)));; push_to_queue (mk_char (u8 c) f b) x y)
  (puts (λ s, set_cells (put_cell (mk_char (u8 c) (now_fg s) (now_bg s)) (cur_x s) (cur_y s) (cells s))
                (set_cur (u64 (cur_x s + 1)) (cur_y s) s))).
Proof.
  intros t s Q HR HQ. pose proof (sh_ctx _ _ HR) as E. destruct (sh_cur _ _ HR) as [Ex Ey]. destruct (sh_cur_range _ _ HR) as [Rx Ry].
  destruct (sh_now _ _ HR) as [Ef Eb]. unfold getb, putb. wp_steps. rewrite Ex, Ey, Ef, Eb.
  pose proof (shows_cur t s (u64 (cur_x (back s) + 1)) (cur_y (back s)) HR ltac:(by apply wrap_range) Ry) as HR1.
  assert (set_cursor_y (cur_y (back s)) (set_cursor_x (u64 (cur_x (back s) + 1)) (back t)) = set_cursor_x (u64 (cur_x (back s) + 1)) (back t)) as Eb1
    by (rewrite <- Ey; by destruct (back t)).
  rewrite Eb1 in HR1. pose proof (shows_holds _ _ HR1) as Hh. cbn [ctx back] in Hh.
  eapply wp_mono; [apply (push_holds (cols (ctx s)) (rows (ctx s)) (mk_flanterm (ctx t) (set_cursor_x (u64 (cur_x (back s) + 1)) (back t)))
    (f_equal cols E) (f_equal rows E) _ _ _ _ _ Hh); lia|].
  intros [] t' Ht. eexists. split; [exact HQ|]. apply (shows_cells _ _ HR1 _ t' Ht). intros x y Hc. rewrite put_cell_in.
  destruct (decide _); [cbn; by apply wrap_range|by apply (sh_codes _ _ HR)].
Qed.

Lemma simulates_raw_putchar c : simulates shows (flanterm_fb_raw_putchar c) (s_raw_putchar c).
Proof.
  intros t s Q HR HQ. pose proof (sh_ctx _ _ HR) as E. pose proof (dims_range _ _ HR) as (D1 & D2 & D3).
  destruct (sh_cur _ _ HR) as [Ex Ey].
  unfold flanterm_fb_raw_putchar, get. unfold getb at 1 2. do 5 apply wp_bind, wp_gets. cbv beta. rewrite E, Ex, Ey.
  unfold s_raw_putchar in HQ.
  change (wp (mwhen ((cols (ctx s) <=? cur_x (back s)) && ((cur_y (back s) <? u64 (scroll_bottom_margin (ctx s) - 1)) || scroll_enabled (ctx s))) s_wrap;;
    puts (λ s, set_cells (put_cell (mk_char (u8 c) (now_fg s) (now_bg s)) (cur_x s) (cur_y s) (cells s))
                (set_cur (u64 (cur_x s + 1)) (cur_y s) s))) Q s) in HQ.
  refine (simulates_bind shows _ _ _ _ _ (λ _, simulates_put_here c) t s Q HR HQ).
  unfold mwhen. apply simulates_if; [apply simulates_wrap|apply simulates_ret].
Qed.

Lemma simulates_flush : simulates shows flanterm_fb_double_buffer_flush s_flush.
Proof.
  intros t s Q HR HQ. pose proof HR as [S1 S2 S3 S4 S5 S6 S7 S8 S9 S10 [Ex Ey] [Rx Ry] S13 S14 S15 S16].
  pose proof (flush_wp (cols (ctx s)) (rows (ctx s)) t ltac:(by rewrite S1) ltac:(by rewrite S1) S4 S5 (cells (back s)) S6 S7
    ltac:(rewrite Ex, Ey; lia) S10 (shown (back s)) S8 S9) as Hf.
  eapply wp_mono; [exact Hf|]. clear Hf. intros [] t' (E1 & (b1 & n & Hr & Eb) & Lg & Lm & Hn & Hgr & Hd).
  change (Q tt (mk_flanterm (ctx s) (set_shown (with_cursor (cursor_enabled (ctx s)) (cur_x (back s)) (cur_y (back s)) (cells (back s))) (back s)))) in HQ.
  eexists. split; [exact HQ|]. rewrite S1, Ex, Ey in Hd.
  assert (config (back t') = config (back t) ∧ queue (back t') = queue (back t) ∧ queue_i (back t') = 0 ∧
    cursor_x (back t') = cursor_x (back t) ∧ cursor_y (back t') = cursor_y (back t) ∧
    old_cursor_x (back t') = cursor_x (back t) ∧ old_cursor_y (back t') = cursor_y (back t) ∧
    text_fg (back t') = text_fg (back t) ∧ text_bg (back t') = text_bg (back t) ∧
    saved_state_text_fg (back t') = saved_state_text_fg (back t) ∧ saved_state_text_bg (back t') = saved_state_text_bg (back t) ∧
    saved_state_cursor_x (back t') = saved_state_cursor_x (back t) ∧ saved_state_cursor_y (back t') = saved_state_cursor_y (back t))
    as (F1 & F2 & F3 & F4 & F5 & F6 & F7 & F8 & F9 & F10 & F11 & F12 & F13).
  { rewrite Eb, Hr. by destruct (back t). }
  split; cbn [ctx back cells shown colours cur_x cur_y now_fg now_bg kept_fg kept_bg kept_x kept_y set_shown];
    rewrite ?F1, ?F4, ?F5, ?F6, ?F7, ?F8, ?F9, ?F10, ?F11, ?F12, ?F13; try done.
  - by rewrite E1.
  - split; rewrite ?F2, ?F3; try done; [apply S5|intros k Hk; lia|]. intros i k Hi. by destruct (Hn i k).
  - intros x y Hc. unfold cell_of. pose proof (cell_index_range _ _ _ _ Hc).
    destruct (zlookup_Some (qmap (back t')) (y * cols (ctx s) + x)) as [q Hq]; [lia|]. rewrite Hq.
    destruct q as [k|]; [by destruct (Hn _ _ Hq)|by apply Hgr].
  - intros x y Hc Hne. rewrite Hgr by done. f_equal. unfold with_cursor. rewrite Ex, Ey in Hne.
    destruct (cursor_enabled (ctx s) && (x =? cur_x (back s)) && (y =? cur_y (back s))) eqn:Eb'; [|done].
    apply andb_true_iff in Eb' as [[_ E2%Z.eqb_eq]%andb_true_iff E3%Z.eqb_eq]. subst. done.
  - rewrite Ex, Ey. lia.
Qed.

(** The operations of the frame buffer implement those of the specification. *)
#[export] Instance fb_simulates : SimulatesBackend shows.
Proof.
  split.
  - apply sh_ctx.
  - intros f t s Hf HR. destruct (Hf (ctx s)) as [Er Ec].
    pose proof HR as [S1 S2 S3 S4 S5 S6 S7 S8 S9 S10 S11 S12 S13 S14 S15 S16].
    split; cbn [ctx back]; rewrite ?Er, ?Ec; try done. by rewrite S1.
  - apply simulates_raw_putchar.
  - apply simulates_clear.
  - apply simulates_set_cursor_pos.
  - apply simulates_get_cursor_pos.
  - intros v. exact (fg_simulates (λ cfg, zlookup (ansi_colours cfg) v) (λ p, zlookup (p_normal p) v) ltac:(done)).
  - intros v. exact (bg_simulates (λ cfg, zlookup (ansi_colours cfg) v) (λ p, zlookup (p_normal p) v) ltac:(done)).
  - intros v. exact (fg_simulates (λ cfg, zlookup (ansi_bright_colours cfg) v) (λ p, zlookup (p_bright p) v) ltac:(done)).
  - intros v. exact (bg_simulates (λ cfg, zlookup (ansi_bright_colours cfg) v) (λ p, zlookup (p_bright p) v) ltac:(done)).
  - intros v. exact (fg_simulates (λ cfg, Some (convert_colour cfg v)) (λ p, Some (p_rgb p v)) ltac:(done)).
  - intros v. exact (bg_simulates (λ cfg, Some (convert_colour cfg v)) (λ p, Some (p_rgb p v)) ltac:(done)).
  - exact (fg_simulates (λ cfg, Some (default_fg cfg)) (λ p, Some (p_fg p)) ltac:(done)).
  - exact (bg_simulates (λ cfg, Some NO_COLOUR) (λ p, Some NO_COLOUR) ltac:(done)).
  - exact (fg_simulates (λ cfg, Some (default_fg_bright cfg)) (λ p, Some (p_fg_bright p)) ltac:(done)).
  - exact (bg_simulates (λ cfg, Some (default_bg_bright cfg)) (λ p, Some (p_bg_bright p)) ltac:(done)).
  - intros a b c d. apply simulates_move_character.
  - apply simulates_scroll.
  - apply simulates_revscroll.
  - apply simulates_swap_palette.
  - apply simulates_save_state.
  - apply simulates_restore_state.
  - apply simulates_flush.
Qed.

(** ** The configuration never changes *)

Section config.
Context (cfg : fb_config).
Definition with_config (t s : flanterm flanterm_fb) : Prop := t = s ∧ config (back s) = cfg.

Lemma config_getb {A} (f : flanterm_fb → A) : simulates with_config (getb f) (getb f).
Proof. apply simulates_gets. by intros t s [-> _]. Qed.
Lemma config_get {A} (f : flanterm_context → A) : simulates with_config (get f) (get f).
Proof. apply simulates_gets. by intros t s [-> _]. Qed.
Lemma config_putb f : (∀ b, config (f b) = config b) → simulates with_config (putb f) (putb f).
Proof. intros Hf. apply simulates_modify. intros t s [-> E]. split; [done|]. cbn. by rewrite Hf. Qed.
Hint Resolve config_getb config_get : simulates.
Hint Extern 1 (simulates with_config (get_config _) _) => apply config_getb : simulates.
Hint Extern 1 (simulates with_config (putb _) _) => apply config_putb; reflexivity : simulates.

Lemma config_plot c x y : simulates with_config (plot_char c x y) (plot_char c x y).
Proof. unfold plot_char. simulate. Qed.
Lemma config_push c x y : simulates with_config (push_to_queue c x y) (push_to_queue c x y).
Proof. unfold push_to_queue, map_at, grid_at, queue_at, set_queue_at, set_map_at. simulate. Qed.
Lemma config_cell i : simulates with_config (cell_at i) (cell_at i).
Proof. unfold cell_at, map_at, grid_at, queue_at. simulate. Qed.
Lemma config_empty : simulates with_config empty empty.
Proof. unfold empty. simulate. Qed.
Hint Resolve config_plot config_push config_cell config_empty : simulates.
Hint Extern 2 (simulates with_config (for_range _ _ _) _) => apply sim_for_range; intros; simulate : simulates.

Lemma config_rows fuel i low cols_ : simulates with_config (revscroll_rows fuel i low cols_) (revscroll_rows fuel i low cols_).
Proof. revert i. induction fuel; intros i; cbn [revscroll_rows]; simulate. Qed.
Lemma config_scroll : simulates with_config flanterm_fb_scroll flanterm_fb_scroll.
Proof. unfold flanterm_fb_scroll. simulate. Qed.
Lemma config_draw_cursor : simulates with_config draw_cursor draw_cursor.
Proof. unfold draw_cursor, map_at, set_grid_at, set_map_at. simulate. Qed.
Lemma config_flush_item k : simulates with_config (flush_item k) (flush_item k).
Proof. unfold flush_item, map_at, queue_at, set_grid_at, set_map_at. simulate. Qed.
Hint Resolve config_rows config_scroll config_draw_cursor config_flush_item : simulates.

#[export] Instance config_simulates : SimulatesBackend with_config.
Proof.
  split; [by intros t s [-> _]|by intros f t s _ [-> E]|..]; intros;
    unfold raw_putchar, Term.clear, Term.set_cursor_pos, Term.get_cursor_pos, Term.set_text_fg, Term.set_text_bg, set_text_fg_bright,
    set_text_bg_bright, set_text_fg_rgb, set_text_bg_rgb, set_text_fg_default, set_text_bg_default, set_text_fg_default_bright,
    set_text_bg_default_bright, move_character, scroll, revscroll, swap_palette, b_save_state, b_restore_state, double_buffer_flush, fb_backend,
    flanterm_fb_raw_putchar, flanterm_fb_clear, flanterm_fb_set_cursor_pos, flanterm_fb_get_cursor_pos, flanterm_fb_set_text_fg,
    flanterm_fb_set_text_bg, flanterm_fb_set_text_fg_bright, flanterm_fb_set_text_bg_bright, flanterm_fb_set_text_fg_rgb,
    flanterm_fb_set_text_bg_rgb, flanterm_fb_set_text_fg_default, flanterm_fb_set_text_bg_default, flanterm_fb_set_text_fg_default_bright,
    flanterm_fb_set_text_bg_default_bright, flanterm_fb_move_character, flanterm_fb_revscroll, flanterm_fb_swap_palette,
    flanterm_fb_save_state, flanterm_fb_restore_state, flanterm_fb_double_buffer_flush, wrap_line, call_flush_callback, grid_at; simulate.
Qed.
End config.

Lemma write_config buf t t' : flanterm_write buf t = Some (tt, t') → config (back t') = config (back t).
Proof.
  intros E. pose proof (sim_write (with_config (config (back t))) buf t t (λ _ _, True) (conj eq_refl eq_refl)) as Hs.
  assert (wp (flanterm_write buf) (λ _ _, True) t) as HQ by (unfold wp; by rewrite E).
  specialize (Hs HQ). unfold wp in Hs. rewrite E in Hs. by destruct Hs as (s' & _ & -> & H).
Qed.
