(* ===== verification/TermSafe.v ===== *)
(** * No input stops the terminal

    The invariant of the terminal over the specification of its back end, and
    that every byte keeps it: no index leaves an array, every loop ends, and the
    back end is only called within its preconditions. *)

From Stdlib Require Import ZifyBool.
From stdpp Require Import prelude list numbers tactics.
From S2P Require Import Prelude TermTables Term TermFb TermScreen.

(** A current colour: one of eight, or none. *)
Definition colour_ok (v : Z) : Prop := 0 <= v < 8 ∨ v = SIZE_MAX.
Definition size_ok (v : Z) : Prop := 0 <= v < 2 ^ 64.

Section safe.
Context (cols_ rows_ : Z).

Record ctx_ok (c : flanterm_context) : Prop := {
  k_cols : cols c = cols_;
  k_rows : rows c = rows_;
  k_tab : tab_size c = 8;
  k_g_select : 0 <= g_select c <= 2;
  k_charsets : length (charsets c) = 2%nat;
  k_charset : 0 <= current_charset c <= 1;
  k_saved_charset : 0 <= saved_state_current_charset c <= 1;
  k_esc_values : length (esc_values c) = 16%nat ∧ Forall (λ v, 0 <= v < 2 ^ 32) (esc_values c);
  k_esc_values_i : 0 <= esc_values_i c <= 16 ∧ (rrr c = true → esc_values_i c < 16);
  k_colours : colour_ok (current_primary c) ∧ colour_ok (current_bg c);
  k_saved_colours : colour_ok (saved_state_current_primary c) ∧ colour_ok (saved_state_current_bg c);
  k_margins : 0 <= scroll_top_margin c < scroll_bottom_margin c ∧ scroll_bottom_margin c <= rows_;
  k_saved_cursor : size_ok (saved_cursor_x c) ∧ size_ok (saved_cursor_y c)
}.

Record screen_ok (s : screen) : Prop := {
  k_palette : length (p_normal (colours s)) = 8%nat ∧ length (p_bright (colours s)) = 8%nat;
  k_cur : size_ok (cur_x s) ∧ size_ok (cur_y s);
  k_kept : size_ok (kept_x s) ∧ size_ok (kept_y s)
}.

Record term_ok (s : flanterm screen) : Prop := { t_ctx : ctx_ok (ctx s); t_screen : screen_ok (back s) }.

Definition safe {A} (f : M (flanterm screen) A) (P : A → Prop) : Prop :=
  ∀ s, term_ok s → wp f (λ a s', term_ok s' ∧ P a) s.

Context (Hc : 0 < cols_ < 2 ^ 31) (Hr : 0 < rows_ < 2 ^ 31).

(** ** Rules *)

Lemma safe_mono {A} (f : M _ A) (P Q : A → Prop) : safe f P → (∀ a, P a → Q a) → safe f Q.
Proof. intros Hf HPQ s Hs. eapply wp_mono; [by apply Hf|]. intros a s' [H1 H2]. auto. Qed.
Lemma safe_ret {A} (a : A) (P : A → Prop) : P a → safe (mret a) P.
Proof. intros HP s Hs. by apply wp_ret. Qed.
Lemma safe_bind {A B} (f : M _ A) (k : A → M _ B) P Q : safe f P → (∀ a, P a → safe (k a) Q) → safe (bind f k) Q.
Proof. intros Hf Hk s Hs. apply wp_bind. eapply wp_mono; [by apply Hf|]. intros a s' [H1 H2]. by apply Hk. Qed.
Lemma safe_get {A} (f : flanterm_context → A) P : (∀ c, ctx_ok c → P (f c)) → safe (get f) P.
Proof. intros Hf s Hs. apply wp_gets. split; [done|]. apply Hf, Hs. Qed.
Lemma safe_get_any {A} (f : flanterm_context → A) : safe (get f) (λ _, True).
Proof. by apply safe_get. Qed.
Lemma safe_put f : (∀ c, ctx_ok c → ctx_ok (f c)) → safe (put f) (λ _, True).
Proof. intros Hf s [H1 H2]. apply wp_modify. split; [|done]. split; [by apply Hf|done]. Qed.
Lemma safe_of_option {A} (o : option A) P : (∃ a, o = Some a ∧ P a) → safe (of_option o) P.
Proof. intros (a & -> & HP). by apply safe_ret. Qed.
Lemma safe_puts f : (∀ s, screen_ok s → screen_ok (f s)) → safe (puts f) (λ _, True).
Proof. intros Hf s [H1 H2]. apply wp_modify. split; [|done]. split; [done|by apply Hf]. Qed.
Lemma safe_if {A} (b : bool) (f g : M _ A) P : (b = true → safe f P) → (b = false → safe g P) → safe (if b then f else g) P.
Proof. destruct b; auto. Qed.
Lemma safe_when b f : (b = true → safe f (λ _, True)) → safe (mwhen b f) (λ _, True).
Proof. intros Hf. apply safe_if; [done|]. intros _. by apply safe_ret. Qed.
Lemma safe_any {A} (f : M _ A) P : safe f P → safe f (λ _, True).
Proof. intros Hf. by eapply safe_mono. Qed.
Lemma safe_repeat n f : safe f (λ _, True) → safe (repeat_n n f) (λ _, True).
Proof. intros Hf. induction n; cbn [repeat_n]; [by apply safe_ret|]. by eapply safe_bind. Qed.
Lemma safe_times n f : safe f (λ _, True) → safe (times n f) (λ _, True).
Proof. apply safe_repeat. Qed.
Lemma safe_upwards n i f : (∀ j, i <= j < i + Z.of_nat n → safe (f j) (λ _, True)) → safe (upwards n i f) (λ _, True).
Proof.
  revert i. induction n as [|n IH]; intros i Hf; cbn [upwards]; [by apply safe_ret|].
  eapply safe_bind; [apply Hf; lia|]. intros _ _. apply IH. intros j Hj. apply Hf. lia.
Qed.
Lemma safe_for_range lo hi f : (∀ j, lo <= j < hi → safe (f j) (λ _, True)) → safe (for_range lo hi f) (λ _, True).
Proof. intros Hf. apply safe_upwards. intros j Hj. apply Hf. lia. Qed.
Lemma safe_down_to fuel i to f : 0 <= to <= i → i - to < Z.of_nat fuel → i < 2 ^ 64 → (∀ j, to <= j <= i → safe (f j) (λ _, True)) →
  safe (down_to fuel i to f) (λ _, True).
Proof.
  revert i. induction fuel as [|fuel IH]; intros i Hi Hn Hb Hf; [lia|]. cbn [down_to]. eapply safe_bind; [apply Hf; lia|]. intros _ _.
  destruct (Z.eqb_spec i to); [by apply safe_ret|]. rewrite wrap_small by lia. apply IH; [lia|lia|lia|]. intros j Hj. apply Hf. lia.
Qed.

(** ** The context *)

Lemma get_cols : safe (get cols) (λ v, v = cols_).
Proof. apply safe_get. intros c H. apply H. Qed.
Lemma get_rows : safe (get rows) (λ v, v = rows_).
Proof. apply safe_get. intros c H. apply H. Qed.
Lemma get_tab : safe (get tab_size) (λ v, v = 8).
Proof. apply safe_get. intros c H. apply H. Qed.
Lemma get_top : safe (get scroll_top_margin) (λ v, 0 <= v < rows_).
Proof. apply safe_get. intros c [_ _ _ _ _ _ _ _ _ _ _ [? ?] _]. lia. Qed.
Lemma get_bottom : safe (get scroll_bottom_margin) (λ v, 1 <= v <= rows_).
Proof. apply safe_get. intros c [_ _ _ _ _ _ _ _ _ _ _ [? ?] _]. lia. Qed.
Lemma get_charset : safe (get current_charset) (λ v, 0 <= v <= 1).
Proof. apply safe_get. intros c H. apply H. Qed.
Lemma get_charsets : safe (get charsets) (λ l, length l = 2%nat).
Proof. apply safe_get. intros c H. apply H. Qed.
Lemma get_values : safe (get esc_values) (λ l, length l = 16%nat ∧ Forall (λ v, 0 <= v < 2 ^ 32) l).
Proof. apply safe_get. intros c H. apply H. Qed.
Lemma get_values_i : safe (get esc_values_i) (λ v, 0 <= v <= 16).
Proof. apply safe_get. intros c H. apply H. Qed.
Lemma get_primary : safe (get current_primary) colour_ok.
Proof. apply safe_get. intros c H. apply H. Qed.
Lemma get_bg : safe (get current_bg) colour_ok.
Proof. apply safe_get. intros c H. apply H. Qed.
Lemma get_saved_x : safe (get saved_cursor_x) size_ok.
Proof. apply safe_get. intros c H. apply H. Qed.
Lemma get_saved_y : safe (get saved_cursor_y) size_ok.
Proof. apply safe_get. intros c H. apply H. Qed.

(** ** The back end *)

Lemma margins_fine c : ctx_ok c → margins_ok c = true ∧ (scroll_top_margin c <? scroll_bottom_margin c) = true.
Proof. intros [E1 E2 _ _ _ _ _ _ _ _ _ [? ?] _]. unfold margins_ok. lia. Qed.

Ltac screen_same := intros [? ?] [? ? ?]; done.

Lemma safe_scroll : safe scroll (λ _, True).
Proof.
  intros s Hs. destruct (margins_fine _ (t_ctx _ Hs)) as [H1 H2]. cbn [scroll screen_backend]. unfold s_scroll, get. wp_steps.
  rewrite H1, H2. apply wp_massert; [done|]. apply wp_modify. split; [|done]. destruct Hs as [Hk [? ? ?]]. split; [exact Hk|by split].
Qed.
Lemma safe_revscroll : safe revscroll (λ _, True).
Proof.
  intros s Hs. destruct (margins_fine _ (t_ctx _ Hs)) as [H1 H2]. cbn [revscroll screen_backend]. unfold s_revscroll, get. wp_steps.
  rewrite H1. apply wp_massert; [done|]. apply wp_modify. split; [|done]. destruct Hs as [Hk [? ? ?]]. split; [exact Hk|by split].
Qed.
Lemma clamp_ok v limit : size_ok v → 0 < limit < 2 ^ 31 → size_ok (clamp v limit).
Proof.
  unfold size_ok, clamp. intros. destruct (_ <=? _); [|done]. destruct (_ <? _); [lia|]. rewrite wrap_small; lia.
Qed.
Lemma safe_set_cursor_pos x y : size_ok x → size_ok y → safe (set_cursor_pos x y) (λ _, True).
Proof.
  intros Hx Hy s [H1 H2]. cbn [set_cursor_pos screen_backend]. unfold s_set_cursor_pos, get. apply wp_bind, wp_massert.
  { unfold is_size, size_ok in *. lia. }
  wp_steps. rewrite (k_cols _ H1), (k_rows _ H1). split; [|done]. destruct H2. split; [done|]. split; [done| |done]. cbn.
  split; by apply clamp_ok.
Qed.
Lemma safe_get_cursor_pos : safe get_cursor_pos (λ '(x, y), 0 <= x < cols_ ∧ 0 <= y < rows_).
Proof.
  intros s [H1 H2]. cbn [get_cursor_pos screen_backend]. unfold s_get_cursor_pos, get, gets_. wp_steps.
  rewrite (k_cols _ H1), (k_rows _ H1). split; [done|]. destruct (k_cur _ H2) as [[? ?] [? ?]]. lia.
Qed.
Lemma safe_move_character a b c d : size_ok a → size_ok b → size_ok c → size_ok d → safe (move_character a b c d) (λ _, True).
Proof.
  intros Ha Hb Hc' Hd s [H1 H2]. cbn [move_character screen_backend]. unfold s_move_character, get. apply wp_bind, wp_massert.
  { unfold is_size, size_ok in *. lia. }
  wp_steps. unfold mwhen. destruct (_ && _); [apply wp_modify|by apply wp_ret]. split; [|done]. destruct H2. split; [exact H1|by split].
Qed.
Lemma safe_clear b : safe (Term.clear b) (λ _, True).
Proof.
  cbn [Term.clear screen_backend]. unfold s_clear. eapply safe_bind; [apply safe_puts; intros s [? ? ?]; by split|]. intros _ _.
  apply safe_when. intros _. apply safe_puts. intros s [? ? ?]. split; [done| |done]. unfold size_ok. cbn. lia.
Qed.
Lemma safe_now f : (∀ s, colours (f s) = colours s ∧ cur_x (f s) = cur_x s ∧ cur_y (f s) = cur_y s ∧ kept_x (f s) = kept_x s ∧ kept_y (f s) = kept_y s) →
  safe (puts f) (λ _, True).
Proof. intros Hf. apply safe_puts. intros s [? ? ?]. destruct (Hf s) as (E1 & E2 & E3 & E4 & E5). split; by rewrite ?E1, ?E2, ?E3, ?E4, ?E5. Qed.

Lemma safe_gets {A} (f : screen → A) P : (∀ s, screen_ok s → P (f s)) → safe (gets_ f) P.
Proof. intros Hf s Hs. apply wp_gets. split; [done|]. apply Hf, Hs. Qed.
Lemma safe_set_fg v : is_Some v → safe (s_set_fg v) (λ _, True).
Proof. intros [x ->]. unfold s_set_fg. eapply safe_bind; [apply (safe_of_option _ (λ _, True)); by exists x|]. intros a _. by apply safe_now. Qed.
Lemma safe_set_bg v : is_Some v → safe (s_set_bg v) (λ _, True).
Proof. intros [x ->]. unfold s_set_bg. eapply safe_bind; [apply (safe_of_option _ (λ _, True)); by exists x|]. intros a _. by apply safe_now. Qed.

Lemma colour_some (l : list Z) v : length l = 8%nat → 0 <= v < 8 → is_Some (zlookup l v).
Proof. intros Hl Hv. destruct (zlookup_Some l v) as [x Hx]; [lia|]. by exists x. Qed.

Lemma safe_text_fg v : 0 <= v < 8 → safe (Term.set_text_fg v) (λ _, True).
Proof. intros Hv. eapply safe_bind; [apply (safe_gets _ is_Some); intros s H; by apply colour_some; [apply H|]|apply safe_set_fg]. Qed.
Lemma safe_text_bg v : 0 <= v < 8 → safe (Term.set_text_bg v) (λ _, True).
Proof. intros Hv. eapply safe_bind; [apply (safe_gets _ is_Some); intros s H; by apply colour_some; [apply H|]|apply safe_set_bg]. Qed.
Lemma safe_text_fg_bright v : 0 <= v < 8 → safe (set_text_fg_bright v) (λ _, True).
Proof. intros Hv. eapply safe_bind; [apply (safe_gets _ is_Some); intros s H; by apply colour_some; [apply H|]|apply safe_set_fg]. Qed.
Lemma safe_text_bg_bright v : 0 <= v < 8 → safe (set_text_bg_bright v) (λ _, True).
Proof. intros Hv. eapply safe_bind; [apply (safe_gets _ is_Some); intros s H; by apply colour_some; [apply H|]|apply safe_set_bg]. Qed.
Lemma safe_fg_some {A} (f : screen → A) (g : A → Z) : safe (v ← gets_ f; s_set_fg (Some (g v))) (λ _, True).
Proof. eapply safe_bind; [by apply (safe_gets _ (λ _, True))|]. intros v _. by apply safe_set_fg. Qed.
Lemma safe_bg_some {A} (f : screen → A) (g : A → Z) : safe (v ← gets_ f; s_set_bg (Some (g v))) (λ _, True).
Proof. eapply safe_bind; [by apply (safe_gets _ (λ _, True))|]. intros v _. by apply safe_set_bg. Qed.

Lemma safe_text_fg_rgb v : safe (set_text_fg_rgb v) (λ _, True).
Proof. apply (safe_fg_some _ (λ x, x)). Qed.
Lemma safe_text_bg_rgb v : safe (set_text_bg_rgb v) (λ _, True).
Proof. apply (safe_bg_some _ (λ x, x)). Qed.
Lemma safe_text_fg_default : safe set_text_fg_default (λ _, True).
Proof. apply (safe_fg_some _ (λ x, x)). Qed.
Lemma safe_text_bg_default : safe set_text_bg_default (λ _, True).
Proof. by apply safe_set_bg. Qed.
Lemma safe_text_fg_default_bright : safe set_text_fg_default_bright (λ _, True).
Proof. apply (safe_fg_some _ (λ x, x)). Qed.
Lemma safe_text_bg_default_bright : safe set_text_bg_default_bright (λ _, True).
Proof. apply (safe_bg_some _ (λ x, x)). Qed.
Lemma safe_swap : safe swap_palette (λ _, True).
Proof. by apply safe_now. Qed.
Lemma safe_b_save : safe b_save_state (λ _, True).
Proof. apply safe_puts. intros s [? ? ?]. by split. Qed.
Lemma safe_b_restore : safe b_restore_state (λ _, True).
Proof. apply safe_puts. intros s [? ? ?]. by split. Qed.
Lemma safe_flush : safe double_buffer_flush (λ _, True).
Proof. eapply safe_bind; [apply safe_get_any|]. intros e _. by apply safe_now. Qed.

Lemma safe_raw_putchar c : safe (raw_putchar c) (λ _, True).
Proof.
  assert (∀ v, size_ok (u64 v)) as Hu by (intros; by apply wrap_range).
  assert (∀ f g, (∀ v, size_ok v → size_ok (f v)) → (∀ v, size_ok v → size_ok (g v)) → safe (puts (λ s, set_cur (f (cur_x s)) (g (cur_y s)) s)) (λ _, True)) as Hcur.
  { intros f g Hf Hg. apply safe_puts. intros s [? [? ?] ?]. split; [done| |done]. split; [by apply Hf|by apply Hg]. }
  assert (safe s_wrap (λ _, True)) as Hw.
  { unfold s_wrap. eapply safe_bind; [apply (Hcur (λ _, 0) (λ y, u64 (y + 1))); [by intros|auto]|]. intros _ _.
    eapply safe_bind; [apply safe_get_any|]. intros cs _. eapply safe_bind; [apply safe_get_any|]. intros b _.
    eapply safe_bind; [by apply (safe_gets _ (λ _, True))|]. intros y _. eapply safe_bind.
    { apply safe_when. intros _. eapply safe_bind; [apply (Hcur (λ x, x) (λ y, u64 (y - 1))); auto|]. intros _ _. apply safe_scroll. }
    intros _ _. eapply safe_bind; [by apply (safe_gets _ (λ _, True))|]. intros y' _. apply safe_when. intros _.
    apply (Hcur (λ x, x) (λ _, u64 (cs - 1))); auto. }
  cbn [raw_putchar screen_backend]. unfold s_raw_putchar.
  eapply safe_bind; [apply safe_get_any|]. intros cx _. eapply safe_bind; [by apply (safe_gets _ (λ _, True))|]. intros x _.
  eapply safe_bind; [by apply (safe_gets _ (λ _, True))|]. intros y _. eapply safe_bind; [by apply safe_when|]. intros _ _.
  apply safe_puts. intros s [? [? ?] ?]. split; [done| |done]. split; [apply Hu|done].
Qed.

(** ** Automation *)

Ltac side :=
  solve [unfold size_ok, colour_ok in *; cbv beta in *;
    repeat match goal with |- context [if ?b then _ else _] => destruct b end;
    repeat match goal with |- context [wrap 64 ?v] =>
      pose proof (wrap_range 64 v ltac:(lia)); generalize dependent (wrap 64 v); intros end;
    intuition lia].

(** A change of the context, with the facts its new fields need. *)
Ltac safe_put_tac :=
  apply safe_put;
  let c := fresh "c" in
  intros c [? ? ? ? ? ? ? [? ?] [? ?] [? ?] [? ?] [? ?] [? ?]];
  constructor; cbn; unfold colour_ok, size_ok in *; first [done | lia | intuition (first [done | lia])].

Ltac safe_leaf :=
  lazymatch goal with
  | |- safe (get cols) _ => apply get_cols
  | |- safe (get rows) _ => apply get_rows
  | |- safe (get tab_size) _ => apply get_tab
  | |- safe (get scroll_top_margin) _ => apply get_top
  | |- safe (get scroll_bottom_margin) _ => apply get_bottom
  | |- safe (get current_charset) _ => apply get_charset
  | |- safe (get charsets) _ => apply get_charsets
  | |- safe (get esc_values) _ => apply get_values
  | |- safe (get esc_values_i) _ => apply get_values_i
  | |- safe (get current_primary) _ => apply get_primary
  | |- safe (get current_bg) _ => apply get_bg
  | |- safe (get saved_cursor_x) _ => apply get_saved_x
  | |- safe (get saved_cursor_y) _ => apply get_saved_y
  | |- safe (get _) _ => apply safe_get_any
  | |- safe (put _) _ => safe_put_tac
  | |- safe scroll _ => apply safe_scroll
  | |- safe revscroll _ => apply safe_revscroll
  | |- safe get_cursor_pos _ => apply safe_get_cursor_pos
  | |- safe (set_cursor_pos _ _) _ => apply safe_set_cursor_pos; side
  | |- safe (move_character _ _ _ _) _ => apply safe_move_character; side
  | |- safe (Term.clear _) _ => apply safe_clear
  | |- safe (raw_putchar _) _ => apply safe_raw_putchar
  | |- safe (Term.set_text_fg _) _ => apply safe_text_fg; side
  | |- safe (Term.set_text_bg _) _ => apply safe_text_bg; side
  | |- safe (set_text_fg_bright _) _ => apply safe_text_fg_bright; side
  | |- safe (set_text_bg_bright _) _ => apply safe_text_bg_bright; side
  | |- safe (set_text_fg_rgb _) _ => apply safe_text_fg_rgb
  | |- safe (set_text_bg_rgb _) _ => apply safe_text_bg_rgb
  | |- safe set_text_fg_default _ => apply safe_text_fg_default
  | |- safe set_text_bg_default _ => apply safe_text_bg_default
  | |- safe set_text_fg_default_bright _ => apply safe_text_fg_default_bright
  | |- safe set_text_bg_default_bright _ => apply safe_text_bg_default_bright
  | |- safe swap_palette _ => apply safe_swap
  | |- safe b_save_state _ => apply safe_b_save
  | |- safe b_restore_state _ => apply safe_b_restore
  | |- safe double_buffer_flush _ => apply safe_flush
  | |- safe (mret _) _ => apply safe_ret; done
  | |- safe (times _ _) _ => apply safe_times; safe_leaf
  | |- safe (blanks _) _ => apply safe_times; safe_leaf
  | |- _ => solve [eauto with nocore safe]
  end.

Ltac safe_step :=
  lazymatch goal with
  | |- safe (bind (mwhen _ _) _) _ => eapply safe_bind; [apply safe_when; intros ?; boolprop|cbv beta; intros [] _]
  | |- safe (bind (if _ then _ else _) _) _ => eapply safe_bind; [apply safe_if; intros ?; boolprop|cbv beta; intros [] _]
  | |- safe (bind (bind _ _) _) _ => eapply safe_bind; [|cbv beta; intros ? ?]
  | |- safe (bind _ _) _ => eapply safe_bind; [safe_leaf|cbv beta; intros ? ?]
  | |- safe (mwhen _ _) _ => apply safe_when; intros ?; boolprop
  | |- safe (if _ then _ else _) _ => apply safe_if; intros ?; boolprop
  | |- safe (let '(_, _) := ?p in _) _ => destruct p
  | |- safe (match ?p with pair _ _ => _ end) _ => destruct p
  | |- safe (times _ _) _ => apply safe_times
  | |- safe (blanks _) _ => apply safe_times
  | |- safe (let _ := _ in _) _ => cbv zeta
  | |- _ => safe_leaf
  end.
Ltac safety := repeat (subst; safe_step).

Lemma safe_call_back e : safe (call_back e) (λ _, True).
Proof.
  apply safe_put. intros c H. destruct (callback c); [|done]. destruct H as [? ? ? ? ? ? ? [? ?] [? ?] [? ?] [? ?] [? ?] [? ?]].
  by constructor.
Qed.
Hint Resolve safe_call_back : safe.

Lemma safe_reinit : safe flanterm_context_reinit (λ _, True).
Proof. unfold flanterm_context_reinit. safety. Qed.
Lemma safe_sgr_default : safe sgr_default (λ _, True).
Proof. unfold sgr_default. safety. Qed.
Hint Resolve safe_reinit safe_sgr_default : safe.

Lemma safe_sgr_value v : safe (sgr_value v) (λ _, True).
Proof. unfold sgr_value, sgr_intensity, sgr_reset, set_fg, set_bg. safety. Qed.
Hint Resolve safe_sgr_value : safe.

Lemma safe_sgr_256 fg col : 0 <= col → safe (sgr_256 fg col) (λ _, True).
Proof.
  intros Hcol.
  assert (16 <= col < 256 → ∃ x, zlookup col256 (col - 16) = Some x ∧ True) as Hx.
  { intros H. destruct (zlookup_Some col256 (col - 16)) as [x Hx]; [change (Z.of_nat (length col256)) with 240; lia|by exists x]. }
  unfold sgr_256. destruct fg; safety; (eapply safe_bind; [apply safe_of_option, Hx; lia|intros; safe_leaf]).
Qed.

Lemma safe_sgr_values vs : Forall (λ v, 0 <= v < 2 ^ 32) vs → safe (sgr_values vs) (λ _, True).
Proof.
  remember (length vs) as n eqn:E. revert vs E. induction n as [n IH] using lt_wf_ind; intros vs -> Hvs.
  destruct vs as [|v vs]; cbn [sgr_values]; [by apply safe_ret|]. apply Forall_cons_iff in Hvs as [Hv Hvs].
  assert (∀ l, (length l <= length vs)%nat → Forall (λ v, 0 <= v < 2 ^ 32) l → safe (sgr_values l) (λ _, True)) as Hl.
  { intros l Hl. apply (IH (length l)); [cbn; lia|done]. }
  destruct (_ || _); [|eapply safe_bind; [apply safe_sgr_value|intros _ _; by apply Hl]].
  destruct vs as [|mode vs]; [by apply safe_ret|]. apply Forall_cons_iff in Hvs as [_ Hvs]. cbn [length] in Hl.
  destruct (mode =? 2); [|destruct (mode =? 5); [|apply Hl; [lia|done]]].
  - destruct vs as [|r [|g [|b vs]]]; [by apply safe_ret..|].
    eapply safe_bind; [|intros _ _; apply Hl; [cbn; lia|]].
    + destruct (v =? 38); safe_leaf.
    + by apply Forall_cons_iff in Hvs as [_ [_ [_ Hvs]%Forall_cons_iff]%Forall_cons_iff].
  - destruct vs as [|col vs]; [by apply safe_ret|]. apply Forall_cons_iff in Hvs as [Hcol Hvs].
    eapply safe_bind; [apply safe_sgr_256; lia|]. intros _ _. apply Hl; [cbn; lia|done].
Qed.

Lemma safe_sgr : safe sgr (λ _, True).
Proof.
  unfold sgr. eapply safe_bind; [apply get_values_i|]. intros n Hn. destruct (n =? 0); [apply safe_sgr_default|].
  eapply safe_bind; [apply get_values|]. intros vs [_ Hvs]. apply safe_sgr_values. by apply Forall_take.
Qed.

Lemma safe_esc i : 0 <= i < 16 → safe (esc i) (λ v, 0 <= v < 2 ^ 32).
Proof.
  intros Hi. unfold esc. eapply safe_bind; [apply get_values|]. intros vs [Hl Hf].
  destruct (zlookup_Some vs i) as [x Hx]; [lia|]. apply safe_of_option. exists x. split; [done|].
  unfold zlookup in Hx. destruct (0 <=? i); [|done]. by apply (Forall_lookup_1 _ _ _ _ Hf Hx).
Qed.

Lemma set_esc_wp i v s : term_ok s → 0 <= i < 16 →
  wp (set_esc i v) (λ _ s', term_ok s' ∧ zlookup (esc_values (ctx s')) i = Some (u32 v)) s.
Proof.
  intros [Hk Hb] Hi. destruct (k_esc_values _ Hk) as [Hl Hf]. unfold set_esc, get, put. wp_steps.
  eapply wp_of_option; [apply zupdate_Some; lia|]. apply wp_modify. split; [|apply zlookup_insert_eq; lia]. split; [|done].
  destruct Hk as [? ? ? ? ? ? ? _ [? ?] [? ?] [? ?] [? ?] [? ?]]. constructor; try done. cbn. rewrite length_insert.
  split; [done|]. apply Forall_insert; [done|]. by apply wrap_range.
Qed.
Lemma safe_set_esc i v : 0 <= i < 16 → safe (set_esc i v) (λ _, True).
Proof. intros Hi s Hs. eapply wp_mono; [by apply set_esc_wp|]. by intros _ s' [? _]. Qed.
Lemma safe_esc_args : safe esc_args (λ _, True).
Proof. unfold esc_args. safety. Qed.
Lemma safe_count n : 0 <= n → safe (count n) (λ v, 0 <= v).
Proof.
  intros Hn. unfold count. eapply safe_bind; [by apply safe_esc|]. cbv beta. intros e He. apply safe_ret. destruct (n <? e); lia.
Qed.
Hint Resolve safe_sgr safe_esc_args : safe.
Hint Extern 1 (safe (esc _) _) => apply safe_esc; lia : safe.
Hint Extern 1 (safe (set_esc _ _) _) => apply safe_set_esc; lia : safe.
Hint Extern 1 (safe (count _) _) => apply safe_count; lia : safe.

Lemma safe_dec_private_parse c : safe (dec_private_parse c) (λ _, True).
Proof. unfold dec_private_parse. safety. destruct (set_or_clear c); safety. Qed.
Lemma safe_linux_private_parse : safe linux_private_parse (λ _, True).
Proof. unfold linux_private_parse. safety. Qed.
Lemma safe_mode_toggle c : safe (mode_toggle c) (λ _, True).
Proof. unfold mode_toggle. safety. destruct (set_or_clear c); safety. Qed.
Lemma safe_osc_parse c : safe (osc_parse c) (λ _, True).
Proof. unfold osc_parse. safety. Qed.
Hint Resolve safe_dec_private_parse safe_linux_private_parse safe_mode_toggle safe_osc_parse : safe.

Lemma safe_cursor_up x y : 0 <= x < cols_ → 0 <= y < rows_ → safe (cursor_up x y) (λ _, True).
Proof. intros Hx Hy. unfold cursor_up. safety. Qed.
Lemma safe_cursor_down x y : 0 <= x < cols_ → 0 <= y < rows_ → safe (cursor_down x y) (λ _, True).
Proof. intros Hx Hy. unfold cursor_down. safety. Qed.
Lemma safe_cursor_right x y : 0 <= x < cols_ → 0 <= y < rows_ → safe (cursor_right x y) (λ _, True).
Proof. intros Hx Hy. unfold cursor_right. safety. Qed.
Lemma safe_cursor_left x y : 0 <= x < cols_ → 0 <= y < rows_ → safe (cursor_left x y) (λ _, True).
Proof. intros Hx Hy. unfold cursor_left. safety. Qed.
Lemma safe_absolute i limit : 0 <= i < 16 → safe (absolute i limit) (λ v, 0 <= v < 2 ^ 32).
Proof. intros Hi. unfold absolute. safety. Qed.
Lemma safe_absolute_or_1 i limit : 0 <= i < 16 → safe (absolute_or_1 i limit) (λ v, 0 <= v < 2 ^ 32).
Proof. intros Hi. unfold absolute_or_1. safety. Qed.
Hint Extern 1 (safe (absolute _ _) _) => apply safe_absolute; lia : safe.
Hint Extern 1 (safe (absolute_or_1 _ _) _) => apply safe_absolute_or_1; lia : safe.
Lemma safe_cursor_position : safe cursor_position (λ _, True).
Proof. unfold cursor_position. safety. Qed.

Lemma safe_delete_lines : safe delete_lines (λ _, True).
Proof. unfold delete_lines. safety. Qed.

(** The margins are out of order while lines are inserted. *)
Lemma safe_insert_lines y : 0 <= y < rows_ → safe (insert_lines y) (λ _, True).
Proof.
  intros Hy s Hs. unfold insert_lines. unfold get at 1. apply wp_bind, wp_gets. cbv beta. unfold put at 1. apply wp_bind, wp_modify. cbv beta.
  pose (mid s' := ∃ b, screen_ok b ∧ s' = mk_flanterm (set_scroll_top_margin y (ctx s)) b).
  assert (∀ n, ∀ s', mid s' → wp (repeat_n n revscroll) (λ _, mid) s') as Hrep.
  { intros n. induction n as [|n IH]; intros s' Hm; cbn [repeat_n]; [by apply wp_ret|]. apply wp_bind.
    destruct Hm as (b & Hb & ->). cbn [revscroll screen_backend]. unfold s_revscroll, get. wp_steps.
    apply wp_massert.
    - destruct (k_margins _ (t_ctx _ Hs)). unfold margins_ok. cbn. rewrite (k_rows _ (t_ctx _ Hs)). lia.
    - apply wp_modify. apply IH. eexists. split; [|reflexivity]. destruct Hb as [? ? ?]. by split. }
  assert (term_ok s ∧ mid (mk_flanterm (set_scroll_top_margin y (ctx s)) (back s))) as [_ Hm].
  { split; [done|]. exists (back s). split; [apply Hs|done]. }
  unfold count, esc. unfold get. wp_steps. destruct Hs as [Hk Hb].
  destruct (zlookup_Some (esc_values (ctx s)) 0) as [e He]; [destruct (k_esc_values _ Hk); lia|].
  eapply wp_of_option; [exact He|]. wp_steps. unfold times. eapply wp_mono; [apply Hrep; exact Hm|].
  intros [] s' (b & Hb' & ->). apply wp_modify. split; [|done]. split; [|done].
  destruct Hk as [? ? ? ? ? ? ? [? ?] [? ?] [? ?] [? ?] [? ?] [? ?]]. by constructor.
Qed.

Lemma safe_erase_to n i x y : size_ok x → size_ok y → safe (erase_to n i cols_ x y) (λ _, True).
Proof. intros Hx Hy. revert i. induction n; intros i; cbn [erase_to]; safety; auto. Qed.

Hint Extern 1 (safe (erase_to _ _ _ _ _) _) => apply safe_erase_to; side : safe.
Lemma safe_erase_display x y : 0 <= x < cols_ → 0 <= y < rows_ → safe (erase_display x y) (λ _, True).
Proof. intros Hx Hy. unfold erase_display. safety. Qed.
Lemma safe_erase_line x y : 0 <= x < cols_ → 0 <= y < rows_ → safe (erase_line x y) (λ _, True).
Proof. intros Hx Hy. unfold erase_line. safety. Qed.

Hint Extern 1 (safe (for_range _ _ _) _) => apply safe_for_range; intros ? ?; solve [safety] : safe.

Lemma safe_insert_characters x y : 0 <= x < cols_ → 0 <= y < rows_ → safe (insert_characters x y) (λ _, True).
Proof.
  intros Hx Hy. unfold insert_characters. eapply safe_bind; [safe_leaf|]. intros ? ->. eapply safe_bind; [|intros [] _; safe_leaf].
  rewrite wrap_small by lia. apply safe_down_to; [lia|lia|lia|]. intros j Hj. safety.
Qed.
Lemma safe_erase_characters x y : 0 <= x < cols_ → 0 <= y < rows_ → safe (erase_characters x y) (λ _, True).
Proof. intros Hx Hy. unfold erase_characters. safety. Qed.
Hint Extern 1 (safe (erase_characters _ _) _) => apply safe_erase_characters; lia : safe.
Lemma safe_delete_characters x y : 0 <= x < cols_ → 0 <= y < rows_ → safe (delete_characters x y) (λ _, True).
Proof.
  intros Hx Hy. unfold delete_characters. safety.
Qed.

(** ** Margins *)

Lemma safe_put_put f g : (∀ c, ctx_ok c → ctx_ok (g (f c))) → safe (put f;; put g) (λ _, True).
Proof. intros Hfg. apply (safe_put (λ c, g (f c))). done. Qed.

Lemma wp_assoc {A B C} (a : M (flanterm screen) A) (f : A → M _ B) (g : B → M _ C) Q s :
  wp (bind (bind a f) g) Q s → wp (bind a (λ x, bind (f x) g)) Q s.
Proof. unfold wp, bind. by destruct (a s) as [[]|]. Qed.

(** A value of 0 is replaced by 1. *)
Lemma esc_at_least_1 i s : term_ok s → 0 <= i < 16 →
  wp (e ← esc i; mwhen (e =? 0) (set_esc i 1))
    (λ _ s', term_ok s' ∧ ∃ v, zlookup (esc_values (ctx s')) i = Some v ∧ 1 <= v < 2 ^ 32) s.
Proof.
  intros Hs Hi. destruct (k_esc_values _ (t_ctx _ Hs)) as [Hl Hf].
  destruct (zlookup_Some (esc_values (ctx s)) i) as [v Hv]; [lia|].
  assert (0 <= v < 2 ^ 32) as Hr1.
  { unfold zlookup in Hv. destruct (0 <=? i); [|done]. by apply (Forall_lookup_1 _ _ _ _ Hf Hv). }
  unfold esc, get. wp_steps. eapply wp_of_option; [exact Hv|]. unfold mwhen. destruct (Z.eqb_spec v 0) as [->|].
  - eapply wp_mono; [by apply set_esc_wp|]. intros _ s' [H1 H2]. split; [done|]. exists (u32 1). split; [done|]. change (u32 1) with 1. lia.
  - apply wp_ret. split; [done|]. exists v. split; [done|lia].
Qed.

Lemma safe_set_margins : safe set_margins (λ _, True).
Proof.
  intros s Hs. unfold set_margins. apply wp_assoc, wp_bind. eapply wp_mono; [by apply esc_at_least_1|]. intros [] s1 [Hs1 _].
  apply wp_assoc, wp_bind. eapply wp_mono; [by apply (esc_at_least_1 1)|]. intros [] s2 [Hs2 (e1 & He1 & Hr1)].
  unfold get at 1 2. apply wp_bind, wp_gets. cbv beta. apply wp_bind, wp_gets. cbv beta. rewrite (k_rows _ (t_ctx _ Hs2)).
  destruct (zlookup_Some (esc_values (ctx s2)) 0) as [e0 He0]; [destruct (k_esc_values _ (t_ctx _ Hs2)); lia|].
  apply wp_bind. unfold esc, get. wp_steps. eapply wp_of_option; [exact He0|].
  wp_steps. eapply wp_of_option; [exact He1|]. cbv zeta.
  set (top := if 0 <? _ then u32 (e0 - 1) else 0). set (bottom := if 1 <? _ then e1 else rows_).
  assert (0 <= top) as Ht by (subst top; destruct (0 <? _); [apply wrap_range|]; lia).
  assert (1 <= bottom < 2 ^ 32) as Hb by (subst bottom; destruct (1 <? _); lia).
  clearbody top bottom. clear He0 He1. revert s2 Hs2.
  change (safe ((if (rows_ <=? top) || (rows_ <? bottom) || (u64 (bottom - 1) <=? top)
   then put (set_scroll_top_margin 0);; put (set_scroll_bottom_margin rows_)
   else put (set_scroll_top_margin top);; put (set_scroll_bottom_margin bottom));; set_cursor_pos 0 0) (λ _, True)).
  rewrite wrap_small by lia.
  eapply safe_bind; [|intros [] _; safe_leaf]. destruct (_ || _) eqn:E; boolprop; apply safe_put_put;
    intros c [? ? ? ? ? ? ? [? ?] [? ?] [? ?] [? ?] [? ?] [? ?]]; constructor; try done; cbn; lia.
Qed.

Lemma safe_report x y : safe (cursor_report x y) (λ _, True).
Proof. unfold cursor_report. safety. Qed.
Hint Resolve safe_set_margins safe_report safe_cursor_position safe_delete_lines : safe.

Lemma safe_csi_action c x y act : 0 <= x < cols_ → 0 <= y < rows_ → csi_action c x y = Some act → safe act (λ _, True).
Proof.
  intros Hx Hy. unfold csi_action.
  repeat match goal with |- (if ?b then _ else _) = _ → _ => destruct b; [intros E; apply (inj Some) in E; subst act|] end; [..|done];
    first [by apply safe_cursor_up; lia|by apply safe_cursor_down; lia|by apply safe_cursor_right; lia|by apply safe_cursor_left; lia
      |by apply safe_insert_lines|by apply safe_erase_display|by apply safe_insert_characters|by apply safe_delete_characters
      |by apply safe_erase_characters|by apply safe_erase_line|safety].
Qed.

(** ** Control sequences *)

Lemma safe_cleanup : safe cleanup (λ _, True).
Proof. unfold cleanup. safety. Qed.
Lemma safe_fill_values c : safe (fill_values c) (λ _, True).
Proof.
  unfold fill_values. cbv zeta. set (d := if (_ : bool) then 0 else 1). assert (0 <= d < 2 ^ 32) as Hd by (subst d; destruct (_ || _); lia).
  clearbody d. eapply safe_bind; [apply get_values_i|]. cbv beta. intros n Hn. apply safe_put.
  intros t [? ? ? ? ? ? ? [Hl Hf] [? ?] [? ?] [? ?] [? ?] [? ?]]. constructor; try done. cbn. split.
  - rewrite length_app, length_take, length_replicate. lia.
  - apply Forall_app. split; [by apply Forall_take|by apply Forall_replicate].
Qed.
Hint Resolve safe_cleanup safe_fill_values : safe.

Lemma safe_csi_act c x y r : 0 <= x < cols_ → 0 <= y < rows_ → safe
  (match csi_action c x y with None => put (set_csi_unhandled true) | Some act => act;; put (set_scroll_enabled r);; cleanup end)
  (λ _ : unit, True).
Proof.
  intros Hx Hy. destruct (csi_action c x y) as [act|] eqn:E; [|safety].
  eapply safe_bind; [by eapply safe_csi_action|]. intros _ _. safety.
Qed.
Hint Extern 1 (safe (match csi_action _ _ _ with _ => _ end) _) => apply safe_csi_act; lia : safe.
Lemma safe_csi_final c : safe (csi_final c) (λ _, True).
Proof. unfold csi_final. safety. Qed.
Hint Resolve safe_csi_final : safe.

(** A digit: there is room for its value. *)
Lemma safe_digit d : safe
  (n ← get esc_values_i;
   if n =? FLANTERM_MAX_ESC_VALUES then mret tt
   else put (set_rrr true);; v ← esc n; set_esc n (u32 (v * 10));; v ← esc n; set_esc n (v + d)) (λ _ : unit, True).
Proof.
  intros s Hs. apply wp_bind, wp_get. destruct (k_esc_values_i _ (t_ctx _ Hs)) as [Hi _]. unfold FLANTERM_MAX_ESC_VALUES.
  destruct (Z.eqb_spec (esc_values_i (ctx s)) 16); [by apply wp_ret|]. apply wp_bind, wp_put.
  assert (term_ok (mk_flanterm (set_rrr true (ctx s)) (back s))) as Hs'.
  { destruct Hs as [[? ? ? ? ? ? ? [? ?] [? ?] [? ?] [? ?] [? ?] [? ?]] Hb]. split; [|exact Hb]. constructor; try done. cbn. lia. }
  revert Hs'. generalize (mk_flanterm (set_rrr true (ctx s)) (back s)). generalize dependent (esc_values_i (ctx s)). clear Hs s.
  intros n Hn Hne s. revert s. change (safe (v ← esc n; set_esc n (u32 (v * 10));; v ← esc n; set_esc n (v + d)) (λ _ : unit, True)). safety.
Qed.

(** The end of a value: the room for it was checked with its first digit. *)
Lemma value_ended s : term_ok s → rrr (ctx s) = true →
  term_ok (mk_flanterm (set_rrr false (set_esc_values_i (esc_values_i (ctx s) + 1) (ctx s))) (back s)).
Proof.
  intros [[? ? ? ? ? ? ? [? ?] [? Hi] [? ?] [? ?] [? ?] [? ?]] Hb] Hr'. specialize (Hi Hr'). split; [|exact Hb].
  constructor; try done. cbn. split; [lia|done].
Qed.

(** An empty value. *)
Lemma value_empty s : term_ok s → rrr (ctx s) = false →
  wp (n ← get esc_values_i;
      if n =? FLANTERM_MAX_ESC_VALUES then mret tt else set_esc n 0;; put (set_esc_values_i (n + 1))) (λ _ s', term_ok s' ∧ True) s.
Proof.
  intros Hs Hf. apply wp_bind, wp_get. unfold FLANTERM_MAX_ESC_VALUES.
  destruct (Z.eqb_spec (esc_values_i (ctx s)) 16); [by apply wp_ret|].
  destruct Hs as [[? ? ? ? ? ? ? [Hl Hv] [? ?] [? ?] [? ?] [? ?] [? ?]] Hb].
  unfold set_esc. apply wp_bind, wp_bind, wp_get, wp_bind. eapply wp_of_option; [apply zupdate_Some; lia|]. apply wp_put, wp_put.
  split; [|done]. split; [|exact Hb]. constructor; try done; cbn.
  - rewrite length_insert. split; [done|]. apply Forall_insert; [done|]. change (u32 0) with 0. lia.
  - split; [lia|congruence].
Qed.

Lemma safe_control_sequence_parse c : safe (control_sequence_parse c) (λ _, True).
Proof.
  unfold control_sequence_parse. eapply safe_bind; [apply safe_get_any|]. intros off _.
  do 2 (apply safe_if; intros _; [safety|]). apply safe_if; intros _; [apply safe_digit|].
  intros s Hs. apply wp_bind, wp_get. destruct (rrr (ctx s)) eqn:Er.
  - apply wp_bind, wp_get, wp_bind, wp_put, wp_bind, wp_put. destruct (c =? 59); [apply wp_ret; split; [exact (value_ended s Hs Er)|done]|].
    by apply safe_csi_final, (value_ended s Hs Er).
  - destruct (c =? 59); [by apply value_empty|by apply safe_csi_final].
Qed.
Hint Resolve safe_control_sequence_parse : safe.

(** ** Escape sequences *)

Lemma safe_restore : safe restore_state (λ _, True).
Proof. unfold restore_state. safety. Qed.
Lemma safe_save : safe save_state (λ _, True).
Proof. unfold save_state. safety. Qed.
Lemma safe_line_feed x y : 0 <= x < cols_ → 0 <= y < rows_ → safe (line_feed x y) (λ _, True).
Proof. intros Hx Hy. unfold line_feed. safety. Qed.
Hint Resolve safe_restore safe_save : safe.
Hint Extern 1 (safe (line_feed _ _) _) => apply safe_line_feed; lia : safe.
Lemma safe_escape_command c x y : 0 <= x < cols_ → 0 <= y < rows_ → safe (escape_command c x y) (λ _, True).
Proof. intros Hx Hy. unfold escape_command. safety. Qed.
Hint Extern 1 (safe (escape_command _ _ _) _) => apply safe_escape_command; lia : safe.
Lemma safe_start_csi : safe start_csi (λ _, True).
Proof.
  unfold start_csi. eapply safe_bind; [|intros [] _; safety]. apply safe_put.
  intros t [? ? ? ? ? ? ? _ [? ?] [? ?] [? ?] [? ?] [? ?]]. constructor; try done. cbn. split; [done|].
  by apply (Forall_replicate (λ v, 0 <= v < 2 ^ 32) 16 0).
Qed.
Hint Resolve safe_start_csi : safe.
Lemma safe_escape_rest c : safe (escape_rest c) (λ _, True).
Proof. unfold escape_rest. safety. Qed.
Hint Resolve safe_escape_rest : safe.
Lemma safe_escape_parse c : safe (escape_parse c) (λ _, True).
Proof. unfold escape_parse. safety. Qed.
Hint Resolve safe_escape_parse : safe.

(** ** Characters *)

Lemma safe_put_printable c : safe (put_printable c) (λ _, True).
Proof. unfold put_printable. safety. Qed.
Hint Resolve safe_put_printable : safe.
Lemma safe_dec_special_print c : safe (dec_special_print c) (λ _, True).
Proof. unfold dec_special_print. destruct (switch dec_special c); safety. Qed.
Hint Resolve safe_dec_special_print : safe.
Lemma safe_insert_gap x y : 0 <= x < cols_ → 0 <= y < rows_ → safe (insert_gap x y) (λ _, True).
Proof.
  intros Hx Hy. unfold insert_gap. eapply safe_bind; [safe_leaf|]. intros ? ->. rewrite wrap_small by lia.
  apply safe_down_to; [lia|lia|lia|]. intros j Hj. safety.
Qed.
Hint Extern 1 (safe (insert_gap _ _) _) => apply safe_insert_gap; lia : safe.
Lemma safe_put_glyph c x y : 0 <= x < cols_ → 0 <= y < rows_ → safe (put_glyph c x y) (λ _, True).
Proof.
  intros Hx Hy. unfold put_glyph. eapply safe_bind; [safe_leaf|]. intros ins _. eapply safe_bind; [safe_step; safe_leaf|]. intros [] _.
  eapply safe_bind; [apply get_charsets|]. cbv beta. intros cs Hl. eapply safe_bind; [apply get_charset|]. cbv beta. intros cur Hcur.
  eapply safe_bind; [apply (safe_of_option _ (λ _, True))|intros set _; safety].
  destruct (zlookup_Some cs cur) as [v Hv]; [lia|]. by exists v.
Qed.
Hint Extern 1 (safe (put_glyph _ _ _) _) => apply safe_put_glyph; lia : safe.

Lemma safe_control_character c x y act : 0 <= x < cols_ → 0 <= y < rows_ → control_character c x y = Some act → safe act (λ _, True).
Proof.
  intros Hx Hy. unfold control_character.
  repeat match goal with |- (if ?b then _ else _) = _ → _ => destruct b; [intros E; apply (inj Some) in E; subst act|] end; [..|done].
  all: safety.
  - apply safe_set_cursor_pos; [|side]. unfold size_ok.
    assert (0 <= x / 8 <= x) by (split; [apply Z.div_pos|apply Z.div_le_upper_bound]; lia). lia.
  - apply safe_line_feed; [|lia]. destruct (truthy _); lia.
Qed.
Lemma safe_control_act c x y : 0 <= x < cols_ → 0 <= y < rows_ →
  safe (match control_character c x y with Some act => act | None => put_glyph c x y end) (λ _, True).
Proof.
  intros Hx Hy. destruct (control_character c x y) as [act|] eqn:E; [by eapply safe_control_character|]. by apply safe_put_glyph.
Qed.
Hint Extern 1 (safe (match control_character _ _ _ with _ => _ end) _) => apply safe_control_act; lia : safe.

(** [g_select] names a charset once it has been decremented. *)
Lemma safe_select_charset c s : term_ok s → g_select (ctx s) ≠ 0 → wp (select_charset c) (λ _ s', term_ok s' ∧ True) s.
Proof.
  intros Hs Hg. unfold select_charset. apply wp_bind, wp_get, wp_bind, wp_put, wp_bind, wp_get.
  destruct Hs as [[? ? ? Hsel Hl ? ? ? ? ? ? ? ?] Hb]. cbn [ctx g_select set_g_select]. rewrite (wrap_small 8) by lia.
  apply wp_bind, wp_get. cbn [ctx charsets set_g_select]. apply wp_bind.
  pose (mid (_ : ()) s' := ∃ cs g, length cs = 2%nat ∧ s' = mk_flanterm (set_charsets cs (set_g_select g (ctx s))) (back s)).
  apply (wp_mono _ mid).
  - assert (∀ v, wp (cs' ← of_option (zupdate (charsets (ctx s)) (g_select (ctx s) - 1) v); put (set_charsets cs')) mid
      (mk_flanterm (set_g_select (g_select (ctx s) - 1) (ctx s)) (back s))) as Hv.
    { intros v. apply wp_bind. eapply wp_of_option; [apply zupdate_Some; lia|]. apply wp_put. eexists _, _.
      split; [|reflexivity]. by rewrite length_insert. }
    destruct (c =? 66); [apply Hv|]. destruct (c =? 48); [apply Hv|]. apply wp_ret. exists (charsets (ctx s)), (g_select (ctx s) - 1).
    split; [done|]. cbn. by destruct (ctx s).
  - intros [] s' (cs & g & Hcs & ->). apply wp_put. split; [|done]. split; [|exact Hb]. by constructor.
Qed.

Lemma safe_put_byte c : safe (put_byte c) (λ _, True).
Proof.
  unfold put_byte. apply safe_if; intros _; [safety|]. eapply safe_bind; [apply safe_get_any|]. intros e _.
  destruct e; [apply safe_escape_parse|]. intros s Hs. apply wp_bind, wp_get. unfold truthy.
  destruct (Z.eqb_spec (g_select (ctx s)) 0) as [E|E]; cbn [negb]; [|by apply safe_select_charset].
  revert s Hs E. cut (safe ('(x, y) ← get_cursor_pos; match control_character c x y with Some act => act | None => put_glyph c x y end) (λ _ : unit, True)).
  { intros Hf s Hs _. by apply Hf. }
  safety.
Qed.
Hint Resolve safe_put_byte : safe.

Lemma safe_put_code_point cp : safe (put_code_point cp) (λ _, True).
Proof.
  unfold put_code_point. cbv zeta. apply safe_if; intros _; [|safe_leaf].
  eapply safe_bind; [apply (safe_of_option _ (λ _, True))|intros w _; safety].
  destruct (mk_wcwidth_total (u32 cp)) as (w & Hw & _). by exists w.
Qed.
Lemma safe_discard : safe discard (λ _, True).
Proof. unfold discard. safety. Qed.
Hint Resolve safe_put_code_point safe_discard : safe.
Lemma safe_putchar c : safe (flanterm_putchar c) (λ _, True).
Proof. unfold flanterm_putchar. safety. Qed.
Lemma safe_put_all buf : safe (put_all buf) (λ _, True).
Proof. induction buf as [|c buf IH]; cbn [put_all]; [by apply safe_ret|]. eapply safe_bind; [apply safe_putchar|]. by intros _ _. Qed.
Lemma safe_write buf : safe (flanterm_write buf) (λ _, True).
Proof. unfold flanterm_write. eapply safe_bind; [apply safe_put_all|]. intros _ _. safety. Qed.
End safe.
