(* ===== verification/TermSetup.v ===== *)
(** * The kernel's terminal comes up

    [flanterm_fb_init] with the kernel's arguments: the static pool is large
    enough for every screen, the font is expanded dot by dot, and the terminal
    it returns shows a blank screen and accepts every input.  [monitor] is what
    the boot loader's description of the frame buffer and the words in it show
    to the eye: the window, its cells, and the colour of each of their dots. *)

From Stdlib Require Import ZifyBool.
From stdpp Require Import prelude gmap list numbers tactics.
From S2P Require Import Prelude Simulation Term TermTables TermSim TermFb TermScreen TermPixels TermQueue TermFlush TermShow TermSafe.

(** ** The font *)

Lemma iterate_app {A} n k i (f : Z → A → option A) a :
  iterate (n + k) i f a = match iterate n i f a with Some b => iterate k (i + Z.of_nat n) f b | None => None end.
Proof.
  revert i a. induction n as [|n IH]; intros i a; cbn [iterate Nat.add]; [by rewrite Z.add_0_r|].
  destruct (f i a) as [b|]; [|done]. rewrite IH. by replace (i + 1 + Z.of_nat n) with (i + Z.of_nat (S n)) by lia.
Qed.

Lemma font_dot_some bits h i y x : 256 * h <= Z.of_nat (length bits) → 0 <= i < 256 → 0 <= y < h → is_Some (font_dot bits h i y x).
Proof.
  intros Hl Hi Hy. unfold font_dot. destruct (zlookup_Some bits (i * h + y)) as [row ->]; [nia|]. by eexists.
Qed.

(** The place of a dot. *)
Lemma dot_index h w i y x i' y' x' : 0 <= y < h → 0 <= y' < h → 0 <= x < w → 0 <= x' < w → 
  i * h * w + y * w + x = i' * h * w + y' * w + x' → i = i' ∧ y = y' ∧ x = x'.
Proof.
  intros Hy Hy' Hx Hx' E. assert (i * h + y = i' * h + y') as E1 by nia. assert (i = i') as -> by nia. split; [done|].
  assert (y = y') as -> by lia. lia.
Qed.

(** Every dot of the expanded font is the bit of the bit map; the ninth column
    repeats the eighth for the line-drawing characters. *)
Lemma expand_font_spec bits h w : 0 < h → 8 <= w → 256 * h <= Z.of_nat (length bits) →
  ∃ m, expand_font bits h w = Some m ∧ ∀ i y x, 0 <= i < 256 → 0 <= y < h → 0 <= x < w →
    m !! (i * h * w + y * w + x) = font_dot bits h i y x.
Proof.
  intros Hh Hw Hl. unfold expand_font.
  pose (W i y x := λ (a : Z) (b : bool), a = i * h * w + y * w + x ∧ font_dot bits h i y x = Some b).
  assert (writes (iterate (Z.to_nat FLANTERM_FB_FONT_GLYPHS) 0 (λ i m,
    iterate (Z.to_nat h) 0 (λ y m,
      match iterate 8 0 (λ x m, match font_dot bits h i y x with Some b => Some (<[i * h * w + y * w + x := b]> m) | None => None end) m with
      | Some m => iterate (Z.to_nat (w - 8)) 8 (λ x m, match font_dot bits h i y x with
                                                    | Some b => Some (<[i * h * w + y * w + x := b]> m) | None => None end) m
      | None => None
      end) m))
    (λ a b, ∃ i, 0 <= i < 256 ∧ ∃ y, 0 <= y < h ∧ ∃ x, 0 <= x < w ∧ W i y x a b)) as HW.
  - eapply writes_ext; [intros m; reflexivity| |apply (writes_iterate _ _ _ (λ i a b, ∃ y, 0 <= y < h ∧ ∃ x, 0 <= x < w ∧ W i y x a b)); intros i Hi];
      [done|]. change (0 + Z.of_nat (Z.to_nat FLANTERM_FB_FONT_GLYPHS)) with 256 in Hi.
    eapply writes_ext; [intros m; reflexivity| |apply (writes_iterate _ _ _ (λ y a b, ∃ x, 0 <= x < w ∧ W i y x a b)); intros y Hy].
    { intros a b. rewrite Z2Nat.id by lia. done. }
    rewrite Z2Nat.id in Hy by lia.
    eapply (writes_ext (iterate (8 + Z.to_nat (w - 8)) 0 _)); [intros m; apply iterate_app| |apply (writes_iterate _ _ _ (W i y)); intros x Hx].
    { intros a b. rewrite Nat2Z.inj_add, Z2Nat.id by lia. change (Z.of_nat 8) with 8. by replace (0 + (8 + (w - 8))) with w by lia. }
    destruct (font_dot_some bits h i y x Hl ltac:(lia) ltac:(lia)) as [v Hv]. unfold W. rewrite Hv.
    eapply writes_ext; [intros m; reflexivity| |by apply writes_one]. naive_solver.
  - destruct (HW ∅) as (m & E & Hm). exists m. split; [exact E|]. intros i y x Hi Hy Hx.
    destruct (Hm (i * h * w + y * w + x)) as [(b & (i' & Hi' & y' & Hy' & x' & Hx' & Ea & Hd) & Hb)|[Hn _]].
    + destruct (dot_index h w i y x i' y' x' Hy Hy' Hx Hx' Ea) as (-> & -> & ->). by rewrite Hd.
    + destruct (font_dot_some bits h i y x Hl Hi Hy) as [v Hv]. destruct (Hn v).
      by exists i; split; [|exists y; split; [|exists x]].
Qed.

(** ** The static pool *)

Section pool.
Context {E : Type} (pool : Z).
Implicit Types st : alloc_state E.

(** The structures lie one behind the other below [top]. *)
Fixpoint stacked (top : Z) (held : allocations) : Prop :=
  match held with
  | [] => pool <= top
  | (p, n) :: held => 0 <= n ∧ p + n <= top ∧ stacked p held
  end.

Lemma stacked_mono top top' held : top <= top' → stacked top held → stacked top' held.
Proof. destruct held as [|[p n] held]; cbn; intros; intuition lia. Qed.

(** The pool's first byte may have to be skipped to align it. *)
Definition skipped st : Z := if base_offset_added st then 0 else 16.

(** After [n] bytes were taken for the structures [held]. *)
Record taken st (n : Z) (held : allocations) : Prop := {
  tk_ptr : 0 <= bump_alloc_ptr st ∧ bump_alloc_ptr st + skipped st <= n;
  tk_fresh : bump_allocated_instance st = false;
  tk_held : stacked (pool + bump_alloc_ptr st) held
}.

Lemma bump_alloc_wp st n held size : taken st n held → 0 <= size < 2 ^ 32 → n + size + 16 <= FLANTERM_FB_BUMP_ALLOC_POOL_SIZE →
  wp (bump_alloc pool size) (λ r st', ∃ p, r = Some p ∧ taken st' (n + size + 16) ((p, size) :: held)) st.
Proof.
  intros [[H1 H2] Hf Hh] Hs Hn. unfold bump_alloc. apply wp_bind.
  apply (wp_mono _ (λ _ st', base_offset_added st' = true ∧ taken st' n held)).
  - unfold align_pool. wp_steps. destruct (base_offset_added st) eqn:Ea; cbn [negb mwhen].
    + apply wp_ret. split; [done|]. by split.
    + unfold skipped in H2. rewrite Ea in H2. unfold set_ptr. apply wp_bind.
      apply (wp_mono _ (λ _ st', bump_alloc_ptr st <= bump_alloc_ptr st' <= bump_alloc_ptr st + 16 ∧ bump_allocated_instance st' = false)).
      * cbv zeta. unfold mwhen. destruct (truthy _); wp_steps; cbn [bump_alloc_ptr bump_allocated_instance]; [|split; [lia|done]].
        pose proof (land_low pool 4 0xf ltac:(lia) eq_refl) as ->. pose proof (Z.mod_pos_bound pool (2 ^ 4) ltac:(lia)). split; [lia|done].
      * intros [] st' [Hp Hi]. wp_steps. cbn. split; [done|]. split; cbn; [unfold skipped; cbn; lia|done|].
        apply (stacked_mono (pool + bump_alloc_ptr st)); [lia|done].
  - intros [] st' [Ha [[K1 K2] Kf Kh]]. unfold skipped in K2. rewrite Ha in K2. cbv zeta.
    set (s := if truthy _ then _ else size). assert (size <= s <= size + 16) as Hsz.
    { subst s. destruct (truthy _); [|lia]. rewrite (wrap_small 64) by lia. change 0xf with (2 ^ 4 - 1).
      rewrite land_align_down by lia. pose proof (Z.mod_pos_bound (size + 0x10) (2 ^ 4) ltac:(lia)). lia. }
    clearbody s. wp_steps. unfold FLANTERM_FB_BUMP_ALLOC_POOL_SIZE in *. rewrite (wrap_small 64) by lia.
    destruct (Z.ltb_spec 873000 (bump_alloc_ptr st' + s)); [lia|]. unfold set_ptr. wp_steps. eexists. split; [done|].
    split; cbn [bump_alloc_ptr bump_allocated_instance stacked skipped base_offset_added]; [unfold skipped; cbn; rewrite Ha; lia|done|].
    split; [lia|]. split; [lia|done].
Qed.

Lemma malloc_wp (a : fb_args E) st n held size k Q : a_malloc a = None → taken st n held → 0 <= size < 2 ^ 32 →
  n + size + 16 <= FLANTERM_FB_BUMP_ALLOC_POOL_SIZE →
  (∀ p st', taken st' (n + size + 16) ((p, size) :: held) → wp (k ((p, size) :: held)) Q st') →
  wp (malloc_or_fail pool a size held k) Q st.
Proof.
  intros Ea Ht Hs Hn Hk. unfold malloc_or_fail. rewrite Ea. apply wp_bind. eapply wp_mono; [by eapply bump_alloc_wp|].
  intros r st' (p & -> & Ht'). by apply Hk.
Qed.
End pool.

(** ** The first picture *)

(** A blank screen with the cursor in its corner. *)
Definition start_screen (cfg : fb_config) : screen :=
  let blank := λ _ _, mk_char 32 (default_fg cfg) NO_COLOUR in
  mk_screen (palette_of cfg) blank (with_cursor true 0 0 blank) 0 0 (default_fg cfg) NO_COLOUR 0 0 0 0.

(** The context a new terminal has. *)
Definition start_context (rows cols : Z) : flanterm_context :=
  mk_flanterm_context 8 true true true false false false false false false false false false false false false
    0 0 0 [CHARSET_DEFAULT; CHARSET_DEC_SPECIAL] 0 0 0 0 0 SIZE_MAX SIZE_MAX 0 rows (replicate 16 0)
    FLANTERM_OOB_OUTPUT_ONLCR false false false 0 0 0 rows cols false [].

Section start.
Context (cfg : fb_config) (cols_ rows_ : Z) (Hc : 0 < cols_) (Hr : 0 < rows_) (Hg : geometry_ok cfg cols_ rows_) (video : pixels).
Abbreviation fresh := (mk_flanterm (start_context rows_ cols_) (back (make_context cfg rows_ cols_ video))).

Lemma cells_count : 0 < rows_ * cols_ < 2 ^ 62.
Proof.
  pose proof (glyph_positive _ _ _ Hg) as [Hw Hh]. destruct Hg as [_ _ _ _ _ [Ho1 Ho2] [H1 H2] _ _ _].
  assert (cols_ < 2 ^ 31) by nia. assert (rows_ < 2 ^ 31) by nia.
  assert (rows_ * cols_ < 2 ^ 31 * 2 ^ 31) by nia. nia.
Qed.

Lemma fresh_buffer : buffer_ok cols_ rows_ (back fresh).
Proof.
  pose proof cells_count. unfold make_context. rewrite (wrap_small 64) by lia.
  split; cbn [back grid queue queue_i qmap]; rewrite ?length_replicate, ?Z2Nat.id by lia; try done.
  - intros k Hk. lia.
  - intros i k Hi%zlookup_replicate. done.
Qed.

Lemma fresh_cells : cells_are cols_ rows_ (back fresh) (cells (start_screen cfg)).
Proof.
  pose proof cells_count. intros x y Hxy. pose proof (cell_index_range _ _ _ _ Hxy). unfold make_context. rewrite (wrap_small 64) by lia.
  unfold cell_of. cbn [back grid queue queue_i qmap]. rewrite !zlookup_replicate_lt by lia. done.
Qed.

Lemma start_shows : ∃ t, (flanterm_context_reinit;; flanterm_fb_full_refresh) (make_context cfg rows_ cols_ video) = Some (tt, t) ∧
  ctx t = start_context rows_ cols_ ∧ config (back t) = cfg ∧
  shows t (mk_flanterm (start_context rows_ cols_) (start_screen cfg)).
Proof.
  pose proof (full_refresh_wp cols_ rows_ Hc Hr fresh eq_refl eq_refl Hg fresh_buffer (cells (start_screen cfg)) fresh_cells
    ltac:(cbn; lia) eq_refl ltac:(cbn; lia)) as Hf.
  apply wp_run in Hf as ([] & t & E & Hctx & (b1 & n & Hr1 & Eb) & Lg & Lm & Hn & Hgr & Hd).
  exists t. split; [|split; [exact Hctx|]].
  { unfold flanterm_context_reinit, put, modify, bind. exact E. }
  assert (config (back t) = cfg ∧ queue (back t) = queue (back fresh) ∧ queue_i (back t) = 0 ∧ cursor_x (back t) = 0 ∧ cursor_y (back t) = 0 ∧
    old_cursor_x (back t) = 0 ∧ old_cursor_y (back t) = 0 ∧ text_fg (back t) = default_fg cfg ∧ text_bg (back t) = NO_COLOUR ∧
    saved_state_text_fg (back t) = 0 ∧ saved_state_text_bg (back t) = 0 ∧ saved_state_cursor_x (back t) = 0 ∧ saved_state_cursor_y (back t) = 0)
    as (F1 & F2 & F3 & F4 & F5 & F6 & F7 & F8 & F9 & F10 & F11 & F12 & F13).
  { rewrite Eb, Hr1. done. }
  split; [exact F1|].
  split; cbn [ctx back cells shown colours cur_x cur_y now_fg now_bg kept_fg kept_bg kept_x kept_y start_screen];
    change (cols (start_context rows_ cols_)) with cols_; change (rows (start_context rows_ cols_)) with rows_;
    rewrite ?F1, ?F3, ?F4, ?F5, ?F6, ?F7, ?F8, ?F9, ?F10, ?F11, ?F12, ?F13; try done.
  - split; rewrite ?F2, ?F3; try done; [apply fresh_buffer|intros k Hk; lia|]. intros i k Hi. by destruct (Hn i k).
  - intros x y Hxy. unfold cell_of. pose proof (cell_index_range _ _ _ _ Hxy).
    destruct (zlookup_Some (qmap (back t)) (y * cols_ + x)) as [q Hq]; [lia|]. rewrite Hq.
    destruct q as [k|]; [by destruct (Hn _ _ Hq)|by apply Hgr].
  - intros x y Hxy Hne. rewrite Hgr by done. f_equal. unfold with_cursor.
    destruct (Z.eqb_spec x 0) as [->|]; [|done]. by destruct (Z.eqb_spec y 0) as [->|].
Qed.

Lemma start_term_ok : length (ansi_colours cfg) = 8%nat → length (ansi_bright_colours cfg) = 8%nat →
  term_ok cols_ rows_ (mk_flanterm (start_context rows_ cols_) (start_screen cfg)).
Proof.
  intros H1 H2. split; split; cbn; unfold colour_ok, size_ok; try done; try lia.
  split; [done|]. by repeat constructor.
Qed.
End start.

(** ** The kernel's call *)

(** What the boot loader must report: a screen of at least one character,
    whose lines hold it, in a format of eight bits or more. *)
Definition video_mode_ok (width height pitch red green blue : Z) : Prop :=
  9 <= width <= pitch / 4 ∧ pitch / 4 < 2 ^ 31 ∧ 16 <= height ∧ 8 <= red ∧ green = red ∧ blue = red.

(** How the text lies on the monitor: dots of [scale] by [scale] pixels, glyphs
    of 9 by 16 dots, in a window of at most 1920 by 1200 pixels in the middle. *)
Section monitor.
Context (address width height pitch red red_shift green green_shift blue blue_shift : Z).

Definition scale : Z :=
  if (5120 <=? width) && (2880 <=? height) then 4 else if (2560 <=? width) && (1440 <=? height) then 2 else 1.
Definition window_width : Z := Z.min width 1920.
Definition window_height : Z := Z.min height 1200.
Definition text_columns : Z := window_width / (9 * scale).
Definition text_rows : Z := window_height / (16 * scale).
Definition text_left : Z := width / 2 - window_width / 2 + window_width mod (9 * scale) / 2.
Definition text_top : Z := height / 2 - window_height / 2 + window_height mod (16 * scale) / 2.

(** The address of the pixel [gx] to the right and [gy] down in the cell of
    column [x] and row [y]. *)
Definition monitor_pixel (x y gx gy : Z) : Z :=
  address + (text_top + y * (16 * scale) + gy) * pitch + (text_left + x * (9 * scale) + gx) * 4.
(** Its value: the dot of the font is set or not; [NO_COLOUR] is black. *)
Definition visible (colour : Z) : Z := if colour =? NO_COLOUR then 0 else colour.
Definition monitor_dot (c : flanterm_fb_char) (gx gy : Z) : option Z :=
  (λ set : bool, if set then visible (fg c) else visible (bg c)) <$> font_dot builtin_font 16 (ch c) (gy / scale) (gx / scale).
Definition monitor_shows (m : pixels) (p : picture) : Prop :=
  ∀ x y gx gy, 0 <= x < text_columns → 0 <= y < text_rows → 0 <= gx < 9 * scale → 0 <= gy < 16 * scale →
    ∃ v, monitor_dot (p x y) gx gy = Some v ∧ m !! monitor_pixel x y gx gy = Some v.

(** A colour in the format of the monitor: the upper eight bits of each field. *)
Definition monitor_colour (rgb : Z) : Z :=
  Z.lor (Z.lor (u32 (Z.shiftl (Z.land (Z.shiftr rgb 16) 0xff) (u8 (red_shift + (red - 8)))))
               (u32 (Z.shiftl (Z.land (Z.shiftr rgb 8) 0xff) (u8 (green_shift + (green - 8))))))
        (u32 (Z.shiftl (Z.land rgb 0xff) (u8 (blue_shift + (blue - 8))))).

(** Blank, light grey on nothing, with the cursor in the corner. *)
Definition monitor_screen : screen :=
  let grey := monitor_colour 0xaaaaaa in
  let blank := λ _ _, mk_char 32 grey NO_COLOUR in
  mk_screen (mk_palette (map monitor_colour default_colours) (map monitor_colour default_bright_colours) monitor_colour
      grey (monitor_colour 0xffffff) (monitor_colour 0x555555))
    blank (with_cursor true 0 0 blank) 0 0 grey NO_COLOUR 0 0 0 0.
End monitor.

Lemma scale_cases w h : scale w h = 1 ∨ (scale w h = 2 ∨ scale w h = 4) ∧ 2560 <= w ∧ 1440 <= h.
Proof.
  unfold scale. destruct ((5120 <=? w) && (2880 <=? h)) eqn:E1; [right; split; [by right|lia]|].
  destruct ((2560 <=? w) && (1440 <=? h)) eqn:E2; [right; split; [by left|lia]|by left].
Qed.

Lemma choose_scale_kernel w h : choose_scale w h 0 0 = (scale w h, scale w h).
Proof.
  unfold choose_scale, scale. cbn [Z.eqb orb]. change (1920 + 1920 / 3) with 2560. change (1080 + 1080 / 3) with 1440.
  change (3840 + 3840 / 3) with 5120. change (2160 + 2160 / 3) with 2880.
  destruct ((2560 <=? w) && (1440 <=? h)), ((5120 <=? w) && (2880 <=? h)); reflexivity.
Qed.

(** Where the window begins. *)
Definition window_address (address width height pitch : Z) : Z :=
  address + ((height / 2 - window_height height / 2) * pitch + (width / 2 - window_width width / 2) * 4).

Lemma limit_size_kernel fb w h pitch : limit_size fb w h pitch = (window_address fb w h pitch, window_width w, window_height h).
Proof.
  unfold limit_size, window_address, window_width, window_height, FLANTERM_FB_WIDTH_LIMIT, FLANTERM_FB_HEIGHT_LIMIT.
  destruct (Z.ltb_spec 1920 w), (Z.ltb_spec 1200 h); cbn [orb]; cbv zeta iota;
    rewrite ?(Z.min_l w), ?(Z.min_r w), ?(Z.min_l h), ?(Z.min_r h) by lia; rewrite ?Z.sub_diag; try done.
  by rewrite !Z.mul_0_l, Z.add_0_r.
Qed.

Lemma font_long : Z.of_nat (length builtin_font) = 4096.
Proof. vm_compute. reflexivity. Qed.

(** Part of [n] that whole glyphs of [g] fill, centred. *)
Lemma centred n g : 0 < g <= n → 0 < n / g ∧ 0 <= n mod g / 2 ∧ n mod g / 2 + n / g * g <= n.
Proof.
  intros Hg. pose proof (Z.div_mod n g ltac:(lia)) as E. pose proof (Z.mod_pos_bound n g ltac:(lia)).
  assert (0 < n / g) by (apply Z.div_str_pos; lia). assert (0 <= n mod g / 2 <= n mod g) by (split; [apply Z.div_pos|apply Z.div_le_upper_bound]; lia).
  lia.
Qed.

Section kernel.
Context (address width height pitch red red_shift green green_shift blue blue_shift : Z).
Context (Hmode : video_mode_ok width height pitch red green blue).
Abbreviation args := (kernel_terminal address width height pitch red red_shift green green_shift blue blue_shift).

Context (fb : Z) (dots : gmap Z bool).
Abbreviation k := (scale width height).
Abbreviation w := (window_width width).
Abbreviation h := (window_height height).
Abbreviation columns := (text_columns width height).
Abbreviation lines := (text_rows width height).
Definition kernel_config : fb_config :=
  make_config args fb w h k k 9 16 builtin_font dots default_colours default_bright_colours None.
Context (Hdots : ∀ i y x, 0 <= i < 256 → 0 <= y < 16 → 0 <= x < 9 → dots !! (i * 16 * 9 + y * 9 + x) = font_dot builtin_font 16 i y x).

Lemma kernel_dimensions : 0 < columns <= 213 ∧ 0 < lines <= 75.
Proof.
  destruct Hmode as (H1 & H2 & H3 & _). pose proof (scale_cases width height) as Hk. unfold text_columns, text_rows, window_width, window_height.
  set (w' := Z.min width 1920). set (h' := Z.min height 1200).
  assert (w' / (9 * k) <= w' / 9 <= 1920 / 9) by (split; [apply Z.div_le_compat_l|apply Z.div_le_mono]; lia).
  assert (h' / (16 * k) <= h' / 16 <= 1200 / 16) by (split; [apply Z.div_le_compat_l|apply Z.div_le_mono]; lia).
  pose proof (centred w' (9 * k) ltac:(lia)) as [? _]. pose proof (centred h' (16 * k) ltac:(lia)) as [? _].
  change (1920 / 9) with 213 in *. change (1200 / 16) with 75 in *. lia.
Qed.

Lemma kernel_usable n : 0 <= n < 2 ^ 63 → usable args n = n.
Proof. intros Hn. unfold usable. cbn [a_margin kernel_terminal]. change (u64 (0 * 2)) with 0. rewrite Z.sub_0_r. apply wrap_small. lia. Qed.

Lemma kernel_geometry : geometry_ok kernel_config columns lines.
Proof.
  destruct Hmode as (H1 & H2 & H3 & H4 & H5 & H6). pose proof (scale_cases width height) as Hk.
  assert (9 * k <= w <= 1920 ∧ w <= width) by (unfold window_width; lia). assert (16 * k <= h <= 1200 ∧ h <= height) by (unfold window_height; lia).
  pose proof (centred w (9 * k) ltac:(lia)) as (Cw1 & Cw2 & Cw3). pose proof (centred h (16 * k) ltac:(lia)) as (Ch1 & Ch2 & Ch3).
  unfold kernel_config, make_config. destruct (shifts args) as [[sr sg] sb]. rewrite !kernel_usable by lia. unfold text_columns, text_rows.
  split; unfold stride; cbn [plot_char_fn canvas font_width font_height font_scale_x font_scale_y glyph_width glyph_height offset_x offset_y
    TermFb.width TermFb.height TermFb.pitch rotation font_bool a_margin a_pitch a_rotation kernel_terminal option_map].
  all: try done; try lia.
  - unfold choose_plot. destruct ((k =? 1) && (k =? 1)) eqn:E; [right|by left]. split; [done|]. lia.
  - intros c y x Hc Hy Hx. replace (c * 16 * 9 + (y * 9 + x)) with (c * 16 * 9 + y * 9 + x) by lia. rewrite Hdots by lia.
    apply font_dot_some; [rewrite font_long|..]; lia.
Qed.

(** The colours are those of the monitor. *)
Lemma kernel_screen_spec :
  start_screen kernel_config = monitor_screen red red_shift green green_shift blue blue_shift.
Proof. reflexivity. Qed.

(** What the configuration displays is on the monitor. *)
Lemma kernel_displays m p : pitch mod 4 = 0 → fb = window_address address width height pitch →
  (∀ x y, in_cells columns lines x y → 0 <= ch (p x y) < 256) → displays kernel_config columns lines m p →
  monitor_shows address width height pitch m p.
Proof.
  intros Hp Hfb Hch Hd x y gx gy Hx Hy Hgx Hgy. pose proof (scale_cases width height) as Hk.
  assert (in_glyph kernel_config gx gy) as Hi by (by split).
  destruct (Hd x y gx gy (conj Hx Hy) Hi) as (v & Hv & Hm). exists v. specialize (Hch x y (conj Hx Hy)). split.
  - change (dot kernel_config (p x y) gx gy) with ((λ set : bool, if set then visible (fg (p x y)) else visible (bg (p x y))) <$>
      dots !! (ch (p x y) * 16 * 9 + (gy / k * 9 + gx / k))) in Hv.
    rewrite Z.add_assoc, Hdots in Hv; [exact Hv|exact Hch|split; [by apply Z.div_pos; lia|apply Z.div_lt_upper_bound; lia]..].
  - rewrite <- Hm. f_equal. unfold monitor_pixel, cell_pixel, pixel, point. rewrite rotated_plain by done.
    change (fb_address kernel_config) with fb. change (stride kernel_config) with (pitch / 4).
    change (left kernel_config x) with (0 + usable args w mod (9 * k) / 2 + x * (9 * k)).
    change (top kernel_config y) with (0 + usable args h mod (16 * k) / 2 + y * (16 * k)).
    destruct Hmode as (H1 & H2 & H3 & _). rewrite !kernel_usable by (unfold window_width, window_height; lia).
    rewrite Hfb. unfold window_address, text_left, text_top.
    assert (pitch = 4 * (pitch / 4)) as E by (pose proof (Z.div_mod pitch 4 ltac:(lia)); lia). rewrite E at 1 2. ring.
Qed.
End kernel.

(** What the kernel's call returns: the terminal of the monitor's dimensions and
    colours, over a configuration that draws on the monitor. *)
Section started.
Context (address width height pitch red red_shift green green_shift blue blue_shift : Z).
Abbreviation columns := (text_columns width height).
Abbreviation lines := (text_rows width height).
Abbreviation first := (monitor_screen red red_shift green green_shift blue blue_shift).

Definition draws_on_monitor (cfg : fb_config) : Prop :=
  ∀ m p, (∀ x y, in_cells columns lines x y → 0 <= ch (p x y) < 256) → displays cfg columns lines m p →
    monitor_shows address width height pitch m p.

Definition kernel_started (pool : Z) (r : @result) (st : alloc_state ()) : Prop :=
  ∃ held t, r = Some (held, t) ∧ bump_allocated_instance st = true ∧
    bump_alloc_ptr st <= FLANTERM_FB_BUMP_ALLOC_POOL_SIZE ∧ stacked pool (pool + bump_alloc_ptr st) held ∧
    ctx t = start_context lines columns ∧ shows t (mk_flanterm (ctx t) first) ∧
    term_ok columns lines (mk_flanterm (ctx t) first) ∧ (pitch mod 4 = 0 → draws_on_monitor (config (back t))).
End started.

Lemma elements_all {X E} n (l : list X) Q (st : alloc_state E) : n = Z.of_nat (length l) → Q l st → wp (elements n l) Q st.
Proof.
  intros -> HQ. unfold elements. rewrite Z.leb_refl. apply wp_ret. rewrite Nat2Z.id, firstn_all. exact HQ.
Qed.

Lemma kernel_terminal_spec pool address width height pitch red red_shift green green_shift blue blue_shift video :
  video_mode_ok width height pitch red green blue →
  wp (flanterm_fb_init pool (kernel_terminal address width height pitch red red_shift green green_shift blue blue_shift) video)
    (kernel_started address width height pitch red red_shift green green_shift blue blue_shift pool) (mk_alloc 0 false false ()).
Proof.
  intros Hm. pose proof Hm as (H1 & H2 & H3 & H4 & -> & ->). unfold flanterm_fb_init.
  set (args := kernel_terminal _ _ _ _ _ _ _ _ _ _).
  change (turn args) with (width, height). cbv beta iota. change (a_font_scale_x args) with 0. change (a_font_scale_y args) with 0.
  rewrite choose_scale_kernel. apply wp_bind, wp_gets. cbn [bump_allocated_instance].
  change (a_red_mask_size args) with red. change (a_green_mask_size args) with red. change (a_blue_mask_size args) with red.
  rewrite (proj2 (Z.ltb_ge red 8)), Z.eqb_refl by lia. cbn [negb orb].
  change (a_malloc args) with (@None (Z → M (alloc_state ()) (option Z))). cbv zeta iota. cbn [andb].
  change (a_framebuffer args) with address. change (a_pitch args) with pitch.
  rewrite limit_size_kernel. cbv iota.
  pose proof (kernel_dimensions _ _ _ _ _ _ Hm) as [Hcols Hrows].
  eapply (malloc_wp pool args _ 16 []); [done|by split; cbn; lia|done|done|]. intros p1 st1 T1. cbv beta.
  change (a_ansi_colours args) with (@None (list Z)). change (a_ansi_bright_colours args) with (@None (list Z)). cbn [default].
  apply wp_bind, elements_all; [done|]. apply wp_bind, elements_all; [done|].
  change (choose_font args) with (builtin_font, 8, 16, 1). cbv iota.
  eapply (malloc_wp pool args _ _ _ _ _ _ eq_refl T1); [done|done|]. intros p2 st2 T2. cbv beta.
  apply wp_bind, elements_all; [by rewrite font_long|].
  eapply (malloc_wp pool args _ _ _ _ _ _ eq_refl T2); [done|done|]. intros p3 st3 T3. cbv beta.
  change (8 + 1) with 9.
  destruct (expand_font_spec builtin_font 16 9 ltac:(lia) ltac:(lia) ltac:(by rewrite font_long)) as (dots & -> & Hdots).
  change (taken pool st3 41840 [(p3, 36864); (p2, 4096); (p1, 816)]) in T3.
  apply wp_bind. eapply wp_of_option; [done|]. apply wp_bind, wp_massert.
  { pose proof (scale_cases width height). destruct (Z.eqb_spec (9 * scale width height) 0), (Z.eqb_spec (16 * scale width height) 0); lia. }
  set (fb := window_address address width height pitch).
  pose proof (kernel_geometry address width height pitch red red_shift red green_shift red blue_shift Hm fb dots Hdots) as Hgeo.
  assert (∀ n, 0 <= n < 2 ^ 63 → usable args n = n) as Hu by (apply kernel_usable).
  rewrite !Hu by (unfold window_width, window_height; lia).
  change (window_width width / (9 * scale width height)) with (text_columns width height).
  change (window_height height / (16 * scale width height)) with (text_rows width height).
  set (cols_ := text_columns width height) in *. set (rows_ := text_rows width height) in *.
  assert (rows_ * cols_ <= 15975) by nia. assert (0 < rows_ * cols_) by nia. rewrite !(wrap_small 64 (rows_ * cols_)) by lia.
  unfold sizeof_char, sizeof_queue_item. rewrite !wrap_small by lia.
  eapply (malloc_wp pool args _ _ _ _ _ _ eq_refl T3); [lia|unfold FLANTERM_FB_BUMP_ALLOC_POOL_SIZE; lia|]. intros p4 st4 T4. cbv beta.
  eapply (malloc_wp pool args _ _ _ _ _ _ eq_refl T4); [lia|unfold FLANTERM_FB_BUMP_ALLOC_POOL_SIZE; lia|]. intros p5 st5 T5. cbv beta.
  eapply (malloc_wp pool args _ _ _ _ _ _ eq_refl T5); [lia|unfold FLANTERM_FB_BUMP_ALLOC_POOL_SIZE; lia|]. intros p6 st6 T6. cbv beta iota zeta.
  change (make_config args fb _ _ _ _ 9 16 builtin_font dots default_colours default_bright_colours None) with
    (kernel_config address width height pitch red red_shift red green_shift red blue_shift fb dots).
  set (cfg := kernel_config _ _ _ _ _ _ _ _ _ _ _ _) in *.
  destruct (start_shows cfg cols_ rows_ ltac:(lia) ltac:(lia) Hgeo video) as (t & -> & Hctx & Hcfg & Hshow).
  apply wp_bind. eapply wp_of_option; [done|]. cbv iota beta. unfold set_instance. wp_steps.
  destruct T6 as [[K1 K2] Kf Kh]. unfold skipped in K2. eexists _, t. rewrite <- (kernel_screen_spec address width height pitch _ _ _ _ _ _ fb dots).
  fold cfg. split_and!; [done|done| |exact Kh|done|by rewrite Hctx|rewrite Hctx; by apply start_term_ok; try lia|].
  - cbn. unfold FLANTERM_FB_BUMP_ALLOC_POOL_SIZE. destruct (base_offset_added st6); lia.
  - intros Hp m p Hch Hd. rewrite Hcfg in Hd. by eapply kernel_displays.
Qed.
