(* ===== verification/TermText.v ===== *)
(** * Characters, text and cursor positioning

    The bytes of a character, as the Unicode standard encodes it, are decoded to
    that character in every state of the terminal that is between characters;
    what plain text and the most common control sequence do to the screen. *)

From Stdlib Require Import ZifyBool.
From stdpp Require Import prelude list numbers tactics.
From S2P Require Import Prelude TermTables Term TermFb TermScreen.

(** The encoding of [cp], in one to four bytes. *)
Definition continuation (cp n : Z) : Z := 0x80 + cp / 2 ^ (6 * n) mod 64.
Definition utf8 (cp : Z) : list Z :=
  if cp <? 0x80 then [cp]
  else if cp <? 0x800 then [0xc0 + cp / 2 ^ 6; continuation cp 0]
  else if cp <? 0x10000 then [0xe0 + cp / 2 ^ 12; continuation cp 1; continuation cp 0]
  else [0xf0 + cp / 2 ^ 18; continuation cp 2; continuation cp 1; continuation cp 0].

Section utf8.
Context {B : Type} `{Backend B}.
Implicit Types s : flanterm B.

(** [cp] was decoded so far, [rem] bytes are to come. *)
Definition decoding (cp rem : Z) (s : flanterm B) : flanterm B :=
  mk_flanterm (set_code_point cp (set_unicode_remaining rem (ctx s))) (back s).

Lemma lead_byte c s : 0xc0 <= c <= 0xf7 → discard_next (ctx s) = false → unicode_remaining (ctx s) = 0 →
  flanterm_putchar c s = Some (tt,
    if c <? 0xe0 then decoding (c mod 2 ^ 5 * 2 ^ 6) 1 s
    else if c <? 0xf0 then decoding (c mod 2 ^ 4 * 2 ^ 12) 2 s
    else decoding (c mod 2 ^ 3 * 2 ^ 18) 3 s).
Proof.
  intros Hc Hd Hr. unfold flanterm_putchar, get, bind, gets. cbv beta iota. rewrite Hd.
  rewrite (proj2 (Z.eqb_neq c 0x18)), (proj2 (Z.eqb_neq c 0x1a)) by lia. cbn [orb]. cbv beta iota. rewrite Hr.
  cbn [negb Z.eqb]. unfold put_byte.
  rewrite (proj2 (Z.leb_le 0xc0 c)), (proj2 (Z.leb_le c 0xf7)) by lia. cbn [andb].
  rewrite (land_low c 5), (land_low c 4), (land_low c 3) by (done || lia).
  rewrite !Z.shiftl_mul_pow2 by lia.
  destruct (Z.ltb_spec c 0xe0).
  { by rewrite (proj2 (Z.leb_le c 0xdf)) by lia. }
  rewrite (proj2 (Z.leb_gt c 0xdf)), (proj2 (Z.leb_le 0xe0 c)) by lia.
  destruct (Z.ltb_spec c 0xf0).
  { by rewrite (proj2 (Z.leb_le c 0xef)) by lia. }
  by rewrite (proj2 (Z.leb_gt c 0xef)), (proj2 (Z.leb_le 0xf0 c)) by lia.
Qed.

Lemma continuation_mark r : 0 <= r < 64 → Z.land (0x80 + r) 0xc0 = 0x80.
Proof.
  intros Hr. assert (forallb (λ r, Z.land (0x80 + r) 0xc0 =? 0x80) (seqZ 0 64) = true) as Hall by (by vm_compute).
  rewrite forallb_forall in Hall. apply Z.eqb_eq, Hall, list_elem_of_In, elem_of_seqZ. lia.
Qed.

(** All but the last [rem] groups of six bits are known. *)
Definition partial (cp rem : Z) (s : flanterm B) : flanterm B := decoding (cp / 2 ^ (6 * rem) * 2 ^ (6 * rem)) rem s.

(** The next group. *)
Lemma next_group cp n : 0 <= n → cp / 2 ^ (6 * n) = cp / 2 ^ (6 * (n + 1)) * 64 + cp / 2 ^ (6 * n) mod 64.
Proof.
  intros Hn. replace (6 * (n + 1)) with (6 * n + 6) by lia. rewrite Z.pow_add_r, <- Z.div_div by lia. change (2 ^ 6) with 64.
  pose proof (Z.div_mod (cp / 2 ^ (6 * n)) 64). lia.
Qed.

Lemma next_byte cp rem s : discard_next (ctx s) = false → 1 <= rem <= 3 → 0 <= cp →
  flanterm_putchar (continuation cp (rem - 1)) (partial cp rem s) =
    if rem =? 1 then put_code_point cp (decoding cp 0 s) else Some (tt, partial cp (rem - 1) s).
Proof.
  intros Hd Hrem Hcp. pose proof (Z.mod_pos_bound (cp / 2 ^ (6 * (rem - 1))) 64 ltac:(lia)) as Hb.
  pose proof (next_group cp (rem - 1) ltac:(lia)) as Hg. replace (rem - 1 + 1) with rem in Hg by lia.
  unfold flanterm_putchar, continuation, partial. set (r := cp / 2 ^ (6 * (rem - 1)) mod 64) in *. set (acc := cp / 2 ^ (6 * rem)) in *.
  assert (0 <= acc) by (apply Z.div_pos; lia).
  unfold get, put, bind, gets, modify. cbn [ctx back discard_next unicode_remaining decoding set_code_point set_unicode_remaining].
  cbv beta iota. rewrite Hd.
  rewrite (proj2 (Z.eqb_neq _ 0x18)), (proj2 (Z.eqb_neq _ 0x1a)) by lia. cbn [orb]. cbv beta iota.
  cbn [ctx unicode_remaining decoding set_code_point set_unicode_remaining]. rewrite (proj2 (Z.eqb_neq rem 0)) by lia. cbn [negb].
  rewrite continuation_mark by done. cbn [Z.eqb Pos.eqb negb]. cbv beta iota.
  assert (Z.lor (acc * 2 ^ (6 * rem)) (Z.shiftl (Z.land (128 + r) 0x3f) (6 * (rem - 1))) = cp / 2 ^ (6 * (rem - 1)) * 2 ^ (6 * (rem - 1))) as El.
  { rewrite (land_low _ 6), Z.shiftl_mul_pow2 by (done || lia). replace (128 + r) with (r + 2 * 2 ^ 6) by lia.
    rewrite Z_mod_plus_full, Z.mod_small by lia. rewrite Z.lor_comm, lor_add; [|lia|].
    - rewrite Hg. replace (2 ^ (6 * rem)) with (2 ^ 6 * 2 ^ (6 * (rem - 1))) by (rewrite <- Z.pow_add_r by lia; f_equal; lia). nia.
    - replace (2 ^ (6 * rem)) with (2 ^ 6 * 2 ^ (6 * (rem - 1))) by (rewrite <- Z.pow_add_r by lia; f_equal; lia). nia. }
  change (code_point (set_unicode_remaining (rem - 1) (ctx (decoding (acc * 2 ^ (6 * rem)) rem s)))) with (acc * 2 ^ (6 * rem)). rewrite El.
  destruct (Z.eqb_spec rem 1) as [->|]; [|rewrite (proj2 (Z.eqb_neq (rem - 1) 0)) by lia; reflexivity].
  change (6 * (1 - 1)) with 0. rewrite Z.pow_0_r, Z.div_1_r, Z.mul_1_r. reflexivity.
Qed.

Lemma utf8_spec cp s : 0x80 <= cp < 0x200000 → discard_next (ctx s) = false → unicode_remaining (ctx s) = 0 →
  put_all (utf8 cp) s = put_code_point cp (decoding cp 0 s).
Proof.
  intros Hcp Hd Hr. unfold utf8. rewrite (proj2 (Z.ltb_ge cp 0x80)) by lia.
  assert (∀ t, bind (flanterm_putchar (continuation cp 0)) (λ _, mret tt) t = flanterm_putchar (continuation cp 0) t) as Hret.
  { intros t. unfold bind, mret. by destruct (flanterm_putchar _ t) as [[[]]|]. }
  pose proof (next_byte cp 1 s Hd ltac:(lia) ltac:(lia)) as B1. pose proof (next_byte cp 2 s Hd ltac:(lia) ltac:(lia)) as B2.
  pose proof (next_byte cp 3 s Hd ltac:(lia) ltac:(lia)) as B3. cbn [Z.eqb Pos.eqb] in B1, B2, B3.
  assert (∀ k n, 0 <= n → 0 <= cp < 2 ^ k * 2 ^ n → 0 <= cp / 2 ^ n < 2 ^ k) as Hq.
  { intros k n Hn Hlt. pose proof (Z.pow_pos_nonneg 2 n ltac:(lia) Hn). split; [apply Z.div_pos|apply Z.div_lt_upper_bound]; lia. }
  destruct (Z.ltb_spec cp 0x800); [|destruct (Z.ltb_spec cp 0x10000)]; cbn [put_all]; unfold bind at 1.
  - pose proof (Hq 5 6 ltac:(lia) ltac:(lia)). rewrite lead_byte by (done || lia). rewrite (proj2 (Z.ltb_lt _ 0xe0)) by lia.
    replace ((0xc0 + cp / 2 ^ 6) mod 2 ^ 5) with (cp / 2 ^ 6) by (apply (Z.mod_unique_pos _ _ 6); lia).
    rewrite Hret. exact B1.
  - pose proof (Hq 4 12 ltac:(lia) ltac:(lia)). rewrite lead_byte by (done || lia).
    rewrite (proj2 (Z.ltb_ge _ 0xe0)), (proj2 (Z.ltb_lt _ 0xf0)) by lia.
    replace ((0xe0 + cp / 2 ^ 12) mod 2 ^ 4) with (cp / 2 ^ 12) by (apply (Z.mod_unique_pos _ _ 14); lia).
    change (decoding (cp / 2 ^ 12 * 2 ^ 12) 2 s) with (partial cp 2 s). unfold bind at 1.
    change (continuation cp 1) with (continuation cp (2 - 1)). rewrite B2, Hret. exact B1.
  - pose proof (Hq 3 18 ltac:(lia) ltac:(lia)). rewrite lead_byte by (done || lia).
    rewrite (proj2 (Z.ltb_ge _ 0xe0)), (proj2 (Z.ltb_ge _ 0xf0)) by lia.
    replace ((0xf0 + cp / 2 ^ 18) mod 2 ^ 3) with (cp / 2 ^ 18) by (apply (Z.mod_unique_pos _ _ 30); lia).
    change (decoding (cp / 2 ^ 18 * 2 ^ 18) 3 s) with (partial cp 3 s). unfold bind at 1.
    change (continuation cp 2) with (continuation cp (3 - 1)). rewrite B3. unfold bind at 1.
    change (continuation cp 1) with (continuation cp (2 - 1)). change (3 - 1) with 2. rewrite B2, Hret. exact B1.
Qed.
End utf8.

(** ** Text and cursor positioning on the screen

    What the terminal does with plain text and with the most common control
    sequence, over the specification of its back end. *)

(** The terminal takes the next byte for a character: no sequence was begun, and
    neither a graphic charset nor the insert mode is on. *)
Record ground (c : flanterm_context) : Prop := {
  gr_discard : discard_next c = false;
  gr_unicode : unicode_remaining c = 0;
  gr_escape : escape c = false;
  gr_select : g_select c = 0;
  gr_insert : insert_mode c = false;
  gr_charset : zlookup (charsets c) (current_charset c) = Some CHARSET_DEFAULT
}.

(** ** Plain text *)

Definition printable (c : Z) : Prop := 0x20 <= c <= 0x7e.

(** [text] in the cells from [(x, y)] on. *)
Definition put_text (text : list Z) (f b x y : Z) (p : picture) : picture :=
  λ x' y', match zlookup text (x' - x) with
           | Some c => if y' =? y then mk_char c f b else p x' y'
           | None => p x' y'
           end.

(** Comparisons of a byte with another one. *)
Ltac neqs := repeat match goal with |- context [?a =? ?k] => rewrite (proj2 (Z.eqb_neq a k)) by lia end.

Lemma control_printable c x y : printable c → control_character (B := screen) c x y = None.
Proof. intros [H1 H2]. unfold control_character. by neqs. Qed.

(** Between characters a byte that is not a lead byte goes to the escape parser
    or is put on the screen. *)
Lemma putchar_byte {B} `{Backend B} c (s : flanterm B) Q : discard_next (ctx s) = false → unicode_remaining (ctx s) = 0 →
  0 <= c < 0x80 → c ≠ 0x18 → c ≠ 0x1a →
  wp (e ← get escape; if e : bool then escape_parse c
      else g ← get g_select;
           if truthy g then select_charset c
           else '(x, y) ← get_cursor_pos;
                match control_character c x y with Some act => act | None => put_glyph c x y end) Q s →
  wp (flanterm_putchar c) Q s.
Proof.
  intros Hd Hr Hc H1 H2 HQ. unfold flanterm_putchar. apply wp_get_bind. rewrite Hd. neqs. cbn [orb]. apply wp_get_bind. rewrite Hr.
  cbn [Z.eqb negb]. unfold put_byte. rewrite (proj2 (Z.leb_gt 0xc0 c)) by lia. exact HQ.
Qed.

(** A character in a line with room for it. *)
Lemma putchar_printable c s Q : ground (ctx s) → printable c → cur_x (back s) < cols (ctx s) →
  Q tt (mk_flanterm (ctx s)
    (set_cells (put_cell (mk_char c (now_fg (back s)) (now_bg (back s))) (cur_x (back s)) (cur_y (back s)) (cells (back s)))
       (set_cur (u64 (cur_x (back s) + 1)) (cur_y (back s)) (back s)))) →
  wp (flanterm_putchar c) Q s.
Proof.
  intros [G1 G2 G3 G4 G5 G6] Hc Hx HQ. pose proof Hc as [H1 H2]. apply putchar_byte; [done|done|lia|lia|lia|].
  apply wp_get_bind. rewrite G3. apply wp_get_bind. rewrite G4. cbn [truthy Z.eqb negb]. change (truthy 0) with false. cbv iota.
  cbn [get_cursor_pos screen_backend]. unfold s_get_cursor_pos, gets_. apply wp_bind, wp_get_bind. wp_steps.
  rewrite control_printable by done. unfold put_glyph. apply wp_get_bind. rewrite G5. unfold mwhen, get. wp_steps. eapply wp_of_option; [exact G6|]. change (CHARSET_DEFAULT =? CHARSET_DEC_SPECIAL) with false.
  cbv iota. unfold put_printable. rewrite (proj2 (Z.leb_le 0x20 c)), (proj2 (Z.leb_le c 0x7e)) by lia. cbn [andb].
  cbn [raw_putchar screen_backend]. unfold s_raw_putchar, gets_, puts. apply wp_get_bind. wp_steps.
  rewrite (proj2 (Z.leb_gt (cols (ctx s)) (cur_x (back s)))) by lia. cbn [andb mwhen]. wp_steps. rewrite (wrap_small 8) by lia. exact HQ.
Qed.

Lemma printable_text_spec text s Q : ground (ctx s) → Forall printable text → 0 <= cur_x (back s) →
  cur_x (back s) + Z.of_nat (length text) <= cols (ctx s) < 2 ^ 31 →
  (∀ b, (∀ x y, cells b x y = put_text text (now_fg (back s)) (now_bg (back s)) (cur_x (back s)) (cur_y (back s)) (cells (back s)) x y) →
    b = set_cells (cells b) (set_cur (cur_x (back s) + Z.of_nat (length text)) (cur_y (back s)) (back s)) →
    Q tt (mk_flanterm (ctx s) b)) →
  wp (put_all text) Q s.
Proof.
  revert s. induction text as [|c text IH]; intros s Hg Ht Hx Hl HQ; cbn [put_all].
  - apply wp_ret. destruct s as [c b]. apply HQ.
    + intros x y. unfold put_text, zlookup. destruct (_ <=? _); [|done]. by rewrite lookup_nil.
    + cbn. rewrite Z.add_0_r. by destruct b.
  - apply Forall_cons_iff in Ht as [Hc Ht]. cbn [length] in *. apply wp_bind, putchar_printable; [done|done|lia|].
    apply IH; cbn [ctx back cur_x cur_y cells now_fg now_bg set_cells set_cur]; [done|done|rewrite wrap_small; lia|rewrite wrap_small; lia|].
    rewrite wrap_small by lia. intros b Hcells Hb. apply HQ.
    + intros x y. rewrite Hcells. unfold put_text, put_cell.
      destruct (Z.eqb_spec x (cur_x (back s))) as [->|Hne].
      * rewrite Z.sub_diag. cbn [zlookup]. unfold zlookup at 2. cbn. unfold zlookup. rewrite (proj2 (Z.leb_gt 0 _)) by lia. cbn [andb]. done.
      * cbn [andb]. replace (zlookup (c :: text) (x - cur_x (back s))) with (zlookup text (x - (cur_x (back s) + 1))); [done|].
        unfold zlookup. destruct (Z.leb_spec 0 (x - (cur_x (back s) + 1))).
        -- rewrite (proj2 (Z.leb_le 0 _)) by lia. replace (x - cur_x (back s)) with (Z.succ (x - (cur_x (back s) + 1))) by lia.
           by rewrite Z2Nat.inj_succ by lia.
        -- rewrite (proj2 (Z.leb_gt 0 _)) by lia. done.
    + rewrite Hb at 1. cbn. replace (cur_x (back s) + Z.of_nat (S (length text))) with (cur_x (back s) + 1 + Z.of_nat (length text)) by lia. done.
Qed.

(** ** A control sequence: the cursor to a row and a column *)

Definition digit (c : Z) : Prop := 48 <= c <= 57.
(** The number a string of digits stands for. *)
Definition number_from (v : Z) (ds : list Z) : Z := fold_left (λ v d, v * 10 + (d - 48)) ds v.
Definition number (ds : list Z) : Z := number_from 0 ds.

Lemma number_from_grows ds v : Forall digit ds → 0 <= v → v <= number_from v ds.
Proof.
  revert v. induction ds as [|d ds IH]; intros v Hd Hv; cbn; [lia|]. apply Forall_cons_iff in Hd as [H Hd]. unfold digit in H.
  specialize (IH (v * 10 + (d - 48)) Hd ltac:(lia)). unfold number_from in *. lia.
Qed.

(** The context in the middle of a control sequence that was begun in [c]: [off]
    bytes of it are read, [i] values of [vs] are complete. *)
Definition in_csi (off : Z) (vs : list Z) (i : Z) (more : bool) (c : flanterm_context) : flanterm_context :=
  set_control_sequence true (set_escape true (set_escape_offset off (set_esc_values vs (set_esc_values_i i
    (set_rrr more (set_csi_unhandled false c)))))).

(** No sequence was left unfinished. *)
Record no_sequence (c : flanterm_context) : Prop := {
  ns_osc : osc c = false;
  ns_control : control_sequence c = false;
  ns_private : dec_private c = false
}.

Lemma csi_start s Q : ground (ctx s) → no_sequence (ctx s) →
  Q tt (mk_flanterm (in_csi 1 (replicate 16 0) 0 false (ctx s)) (back s)) → wp (flanterm_putchar 0x1b;; flanterm_putchar 0x5b) Q s.
Proof.
  intros [G1 G2 G3 G4 G5 G6] [N1 N2 N3] HQ. apply wp_bind, putchar_byte; [done..|]. apply wp_get_bind. rewrite G3.
  apply wp_get_bind. rewrite G4. change (truthy 0) with false. cbv iota.
  cbn [get_cursor_pos screen_backend]. unfold s_get_cursor_pos, gets_. apply wp_bind, wp_get_bind. wp_steps.
  unfold put. wp_steps. apply putchar_byte; [done..|]. apply wp_get_bind. cbn [ctx escape set_escape]. cbv iota.
  unfold escape_parse, escape_rest. apply wp_bind, wp_put, wp_get_bind. change (osc (ctx _)) with (osc (ctx s)). rewrite N1.
  apply wp_get_bind. change (control_sequence (ctx _)) with (control_sequence (ctx s)). rewrite N2.
  cbn [get_cursor_pos screen_backend]. unfold s_get_cursor_pos, gets_. apply wp_bind, wp_get_bind. wp_steps.
  cbn [Z.eqb Pos.eqb]. unfold start_csi, put. wp_steps. exact HQ.
Qed.

(** A further byte of the sequence reaches its parser. *)
Lemma csi_byte {B} `{Backend B} c off vs i more c0 (b : B) Q : ground c0 → no_sequence c0 → 0 <= c < 0x80 → c ≠ 0x18 → c ≠ 0x1a →
  wp (control_sequence_parse c) Q (mk_flanterm (in_csi (off + 1) vs i more c0) b) →
  wp (flanterm_putchar c) Q (mk_flanterm (in_csi off vs i more c0) b).
Proof.
  intros [G1 G2 G3 G4 G5 G6] [N1 N2 N3] Hc H1 H2 HQ. apply putchar_byte; [done|done|done|done|done|].
  apply wp_get_bind. change (escape (ctx (mk_flanterm (in_csi off vs i more c0) b))) with true. cbv iota.
  unfold escape_parse, escape_rest. apply wp_bind, wp_put, wp_get_bind. cbn [ctx back].
  change (osc (set_escape_offset _ _)) with (osc c0). rewrite N1. apply wp_get_bind. exact HQ.
Qed.

Lemma csi_digit {B} `{Backend B} d off vs i v more c0 (b : B) Q : ground c0 → no_sequence c0 → digit d → i ≠ 16 → zlookup vs i = Some v →
  0 <= v → v * 10 + (d - 48) < 2 ^ 32 →
  Q tt (mk_flanterm (in_csi (off + 1) (<[Z.to_nat i := v * 10 + (d - 48)]> vs) i true c0) b) →
  wp (flanterm_putchar d) Q (mk_flanterm (in_csi off vs i more c0) b).
Proof.
  intros Hg Hn [Hd1 Hd2] Hi Hv H0 Hb HQ. pose proof (zlookup_range _ _ _ Hv) as Hr. apply csi_byte; [done|done|lia|lia|lia|].
  unfold control_sequence_parse. apply wp_get_bind. rewrite (proj2 (Z.eqb_neq d 91)), (proj2 (Z.eqb_neq d 63)), !andb_false_r by lia.
  rewrite (proj2 (Z.leb_le 48 d)), (proj2 (Z.leb_le d 57)) by lia. cbn [andb]. apply wp_get_bind.
  change (esc_values_i (ctx _)) with i. rewrite (proj2 (Z.eqb_neq i FLANTERM_MAX_ESC_VALUES)) by done.
  apply wp_bind, wp_put. unfold esc, set_esc. apply wp_bind, wp_get_bind. eapply wp_of_option; [exact Hv|].
  apply wp_bind, wp_get_bind, wp_bind. change (esc_values (ctx _)) with vs. eapply wp_of_option; [apply zupdate_Some; lia|]. apply wp_put.
  apply wp_bind, wp_get_bind. change (esc_values (ctx _)) with (<[Z.to_nat i := u32 (u32 (v * 10))]> vs).
  rewrite !(wrap_small 32 (v * 10)) by lia. eapply wp_of_option; [apply zlookup_insert_eq; lia|].
  apply wp_get_bind, wp_bind. change (esc_values (ctx _)) with (<[Z.to_nat i := v * 10]> vs) at 1.
  eapply wp_of_option; [apply zupdate_Some; rewrite length_insert; lia|]. apply wp_put.
  rewrite list_insert_insert, decide_True, (wrap_small 32) by (done || lia). exact HQ.
Qed.

(** A number: its digits fill value [i]. *)
Lemma csi_digits {B} `{Backend B} ds off vs i v more c0 (b : B) Q : ground c0 → no_sequence c0 → Forall digit ds → i ≠ 16 → zlookup vs i = Some v →
  0 <= v → number_from v ds < 2 ^ 32 →
  Q tt (mk_flanterm (in_csi (off + Z.of_nat (length ds)) (<[Z.to_nat i := number_from v ds]> vs) i (match ds with [] => more | _ => true end) c0) b) →
  wp (put_all ds) Q (mk_flanterm (in_csi off vs i more c0) b).
Proof.
  intros Hg Hn. revert off vs v more. induction ds as [|d ds IH]; intros off vs v more Hd Hi Hv H0 Hb HQ; cbn [put_all].
  - apply wp_ret. cbn [length] in HQ. rewrite Z.add_0_r in HQ. change (number_from v []) with v in HQ.
    pose proof (zlookup_range _ _ _ Hv). unfold zlookup in Hv. rewrite (proj2 (Z.leb_le 0 i)) in Hv by lia.
    by rewrite list_insert_id in HQ by done.
  - apply Forall_cons_iff in Hd as [Hd Hds]. pose proof Hd as [Hd1 Hd2].
    change (number_from v (d :: ds)) with (number_from (v * 10 + (d - 48)) ds) in *.
    pose proof (number_from_grows ds (v * 10 + (d - 48)) Hds ltac:(lia)). pose proof (zlookup_range _ _ _ Hv) as Hr.
    apply wp_bind, (csi_digit d off vs i v); [done..|lia|].
    apply (IH (off + 1) _ (v * 10 + (d - 48))); [done|done|by apply zlookup_insert_eq|lia|lia|].
    rewrite list_insert_insert, decide_True by done. cbn [length] in HQ.
    replace (off + 1 + Z.of_nat (length ds)) with (off + Z.of_nat (S (length ds))) by lia.
    destruct ds; exact HQ.
Qed.

(** The semicolon ends a value. *)
Lemma csi_separator {B} `{Backend B} off vs i c0 (b : B) Q : ground c0 → no_sequence c0 →
  Q tt (mk_flanterm (in_csi (off + 1) vs (i + 1) false c0) b) → wp (flanterm_putchar 59) Q (mk_flanterm (in_csi off vs i true c0) b).
Proof.
  intros Hg Hn HQ. apply csi_byte; [done|done|done|done|done|]. unfold control_sequence_parse. apply wp_get_bind.
  cbn [Z.eqb Pos.eqb]. rewrite !andb_false_r. cbn [Z.leb Z.compare Pos.compare Pos.compare_cont andb]. apply wp_get_bind.
  change (rrr (ctx _)) with true. cbv iota. apply wp_get_bind. change (esc_values_i (ctx _)) with i.
  apply wp_bind, wp_put, wp_bind, wp_put, wp_ret. exact HQ.
Qed.

(** The fields a control sequence leaves changed. *)
Definition after_csi (off : Z) (vs : list Z) (i : Z) (c : flanterm_context) : flanterm_context :=
  set_escape_offset off (set_esc_values vs (set_esc_values_i i (set_rrr false (set_csi_unhandled false c)))).

(** One coordinate of the sequence. *)
Lemma coordinate_wp i limit v c (b : screen) Q : zlookup (esc_values c) i = Some v → 1 <= v <= limit → limit < 2 ^ 31 →
  Q (v - 1) (mk_flanterm (set_esc_values (<[Z.to_nat i := v - 1]> (esc_values c)) c) b) →
  wp (absolute_or_1 i limit) Q (mk_flanterm c b).
Proof.
  intros Hv Hl Hlim HQ. pose proof (zlookup_range _ _ _ Hv). unfold absolute_or_1, esc, set_esc.
  apply wp_bind, wp_get_bind. eapply wp_of_option; [exact Hv|]. rewrite (proj2 (Z.eqb_neq v 0)) by lia. cbn [negb mwhen].
  apply wp_bind, wp_get_bind, wp_bind. cbn [ctx]. eapply wp_of_option; [apply zupdate_Some; lia|]. rewrite (wrap_small 32) by lia. apply wp_put.
  apply wp_bind, wp_get_bind. eapply wp_of_option; [cbn [ctx esc_values set_esc_values]; apply zlookup_insert_eq; lia|].
  rewrite (proj2 (Z.leb_gt limit (v - 1))) by lia. cbn [mwhen]. apply wp_bind, wp_ret, wp_get_bind.
  eapply wp_of_option; [cbn [ctx esc_values set_esc_values]; apply zlookup_insert_eq; lia|]. exact HQ.
Qed.

Lemma cursor_position_wp v1 v2 c (b : screen) Q : zlookup (esc_values c) 0 = Some v1 → zlookup (esc_values c) 1 = Some v2 →
  1 <= v1 <= rows c → 1 <= v2 <= cols c → rows c < 2 ^ 31 → cols c < 2 ^ 31 →
  (∀ vs, Q tt (mk_flanterm (set_esc_values vs c) (set_cur (v2 - 1) (v1 - 1) b))) →
  wp cursor_position Q (mk_flanterm c b).
Proof.
  intros H1 H2 Hv1 Hv2 Hr Hc HQ. pose proof (zlookup_range _ _ _ H1). pose proof (zlookup_range _ _ _ H2).
  unfold cursor_position. apply wp_get_bind, wp_get_bind, wp_bind.
  apply (coordinate_wp 1 _ v2); [done|done|done|]. apply wp_bind. apply (coordinate_wp 0 _ v1); [|done|done|].
  - cbn [esc_values set_esc_values]. rewrite zlookup_insert_ne by lia. done.
  - cbn [set_cursor_pos screen_backend]. unfold s_set_cursor_pos, puts. apply wp_bind, wp_massert; [unfold is_size; cbn [ctx]; lia|].
    apply wp_get_bind, wp_modify. cbn [ctx back cols rows set_esc_values]. unfold clamp. rewrite !(proj2 (Z.leb_gt _ _)) by lia.
    match goal with |- Q _ (mk_flanterm ?t _) => change t with (set_esc_values (esc_values t) c) end. apply HQ.
Qed.

Definition CUP (row column : list Z) : list Z := [0x1b; 0x5b] ++ row ++ [59] ++ column ++ [72].

Lemma put_all_app {B} `{Backend B} l k Q (s : flanterm B) : wp (put_all l) (λ _ s', wp (put_all k) Q s') s → wp (put_all (l ++ k)) Q s.
Proof.
  revert s. induction l as [|c l IH]; intros s; cbn [put_all app]; [done|]. intros Hw. apply wp_bind_inv in Hw. apply wp_bind.
  eapply wp_mono; [exact Hw|]. intros [] s' H'. by apply IH.
Qed.

(** The final byte, with two values. *)
Lemma csi_cup off v1 v2 c0 (b : screen) Q : ground c0 → no_sequence c0 → 1 <= v1 <= rows c0 → 1 <= v2 <= cols c0 →
  rows c0 < 2 ^ 31 → cols c0 < 2 ^ 31 →
  (∀ off vs, Q tt (mk_flanterm (after_csi off vs 2 c0) (set_cur (v2 - 1) (v1 - 1) b))) →
  wp (flanterm_putchar 72) Q (mk_flanterm (in_csi off (<[1%nat := v2]> (<[0%nat := v1]> (replicate 16 0))) 1 true c0) b).
Proof.
  intros Hg Hn Hv1 Hv2 Hr Hc HQ. apply csi_byte; [done|done|done|done|done|]. unfold control_sequence_parse. apply wp_get_bind.
  cbn [Z.eqb Pos.eqb]. rewrite !andb_false_r. cbn [Z.leb Z.compare Pos.compare Pos.compare_cont andb]. apply wp_get_bind.
  change (rrr (ctx _)) with true. cbv iota. apply wp_get_bind. change (esc_values_i (ctx _)) with 1.
  apply wp_bind, wp_put, wp_bind, wp_put. unfold csi_final, fill_values. cbv zeta. apply wp_bind, wp_get_bind, wp_put, wp_get_bind.
  change (dec_private (ctx _)) with (dec_private c0). rewrite (ns_private _ Hn). cbv iota. apply wp_get_bind, wp_bind, wp_put.
  cbn [get_cursor_pos screen_backend]. unfold s_get_cursor_pos, gets_. apply wp_bind, wp_get_bind. wp_steps. apply wp_get.
  change (csi_unhandled (ctx _)) with false. cbv iota. cbn [Z.eqb Pos.eqb].
  change (csi_action 72 _ _) with (Some (cursor_position (B := screen))). cbv iota. apply wp_bind.
  apply (cursor_position_wp v1 v2); [done..|]. intros vs. cbn [back].
  unfold cleanup. apply wp_bind, wp_put, wp_bind, wp_put, wp_put. cbn [ctx back].
  match goal with |- Q _ (mk_flanterm ?t _) => replace t with (after_csi (escape_offset t) vs 2 c0); [apply HQ|] end.
  destruct Hg as [_ _ G3 _ _ _], Hn as [_ N2 _]. destruct c0; cbn in G3, N2; subst. vm_compute. reflexivity.
Qed.

Lemma cursor_position_spec row column s Q : ground (ctx s) → no_sequence (ctx s) → Forall digit row → Forall digit column → row ≠ [] → column ≠ [] →
  1 <= number row <= rows (ctx s) → 1 <= number column <= cols (ctx s) → rows (ctx s) < 2 ^ 31 → cols (ctx s) < 2 ^ 31 →
  (∀ off vs, Q tt (mk_flanterm (after_csi off vs 2 (ctx s)) (set_cur (number column - 1) (number row - 1) (back s)))) →
  wp (put_all (CUP row column)) Q s.
Proof.
  intros Hg Hn Hdr Hdc Hr Hc Hrow Hcol Hrs Hcs HQ. unfold CUP. apply put_all_app. cbn [put_all].
  assert (∀ (f g : M (flanterm screen) ()) Q' t, wp (f;; g) Q' t → wp (f;; g;; mret tt) Q' t) as Hret.
  { intros f g Q' t Hw. apply wp_bind_inv in Hw. apply wp_bind. eapply wp_mono; [exact Hw|]. intros [] t' Hw'. apply wp_bind.
    eapply wp_mono; [exact Hw'|]. by intros [] t'' ?. }
  apply Hret, csi_start; [done|done|]. apply put_all_app.
  apply (csi_digits row 1 _ 0 0); [done|done|done|done|done|done|fold (number row); lia|]. fold (number row).
  destruct row as [|d row]; [done|]. apply put_all_app. cbn [put_all]. apply wp_bind, csi_separator; [done|done|]. apply wp_ret. apply put_all_app.
  apply (csi_digits column _ _ (0 + 1) 0); [done|done|done|done|done|done|fold (number column); lia|]. fold (number column).
  destruct column as [|d' column]; [done|]. cbn [put_all]. apply wp_bind.
  apply csi_cup; [done..|]. intros off vs. apply wp_ret, HQ.
Qed.
