(* ===== verification/TermProps.v ===== *)
(** * What the terminal promises

    The properties of the terminal emulator, from the kernel's call of
    [flanterm_fb_init] to the dots on the screen. *)

From Stdlib Require Import ZifyBool.
From stdpp Require Import prelude gmap list numbers tactics.
From S2P Require Import Prelude Simulation TermTables Term TermSim TermFb TermScreen TermPixels TermShow TermSafe TermSetup TermText.

(** ** Output reaches the screen *)

(** The picture after a flush. *)
Definition flushed (s : flanterm screen) : picture :=
  with_cursor (cursor_enabled (ctx s)) (cur_x (back s)) (cur_y (back s)) (cells (back s)).

Lemma shows_dimensions t s : shows t s → 0 < cols (ctx s) < 2 ^ 31 ∧ 0 < rows (ctx s) < 2 ^ 31.
Proof. intros H. destruct (dims_range _ _ H) as (? & ? & _). by split; split; try done; apply H. Qed.

Lemma screen_write_flushes buf (s s' : flanterm screen) : flanterm_write buf s = Some (tt, s') → autoflush (ctx s') = true →
  shown (back s') = flushed s'.
Proof.
  unfold flanterm_write, bind. destruct (put_all buf s) as [[[] s1]|]; [|done]. unfold get, gets. cbv beta iota.
  destruct (autoflush (ctx s1)) eqn:E; cbn [mwhen]; [|intros [= <-]; congruence]. intros [= <-] _. done.
Qed.

Lemma terminal_output_spec buf t s cols_ rows_ : shows t s → term_ok cols_ rows_ s →
  ∃ t' s', flanterm_write buf t = Some (tt, t') ∧ flanterm_write buf s = Some (tt, s') ∧ shows t' s' ∧ term_ok cols_ rows_ s' ∧
    (autoflush (ctx s') = true → displays (config (back t')) cols_ rows_ (framebuffer (back t')) (flushed s')).
Proof.
  intros Hs Ht. destruct (shows_dimensions _ _ Hs) as [Hc Hr]. destruct (t_ctx _ _ _ Ht) as [Ec Er _ _ _ _ _ _ _ _ _ _ _].
  rewrite Ec in Hc. rewrite Er in Hr. pose proof (safe_write cols_ rows_ Hc Hr buf s Ht) as Hw.
  apply wp_run in Hw as ([] & s' & E & Ht' & _).
  pose proof (sim_write shows buf t s (λ _ s1, s1 = s') Hs) as Hsim.
  assert (wp (flanterm_write buf) (λ _ s1, s1 = s') s) as HQ by (unfold wp; by rewrite E).
  specialize (Hsim HQ). apply wp_run in Hsim as ([] & t' & Et & s1 & -> & Hs'). exists t', s'. split_and!; try done.
  intros Ha. rewrite <- (screen_write_flushes _ _ _ E Ha). pose proof (sh_pix _ _ Hs') as Hp.
  destruct (t_ctx _ _ _ Ht') as [Ec' Er' _ _ _ _ _ _ _ _ _ _ _]. by rewrite Ec', Er' in Hp.
Qed.

(** C13: whatever bytes are written, the terminal over the frame buffer neither
    stops nor leaves an array: it does what the terminal over the specified
    screen does, and with automatic flushing every dot on the screen is
    afterwards that of the specified picture, with the cursor inverted. *)
Theorem terminal_output_shown buf t s cols_ rows_ : shows t s → term_ok cols_ rows_ s →
  ∃ t' s', flanterm_write buf t = Some (tt, t') ∧ flanterm_write buf s = Some (tt, s') ∧ shows t' s' ∧ term_ok cols_ rows_ s' ∧
    (autoflush (ctx s') = true → displays (config (back t')) cols_ rows_ (framebuffer (back t')) (flushed s')).
Proof. apply terminal_output_spec. Qed.

Lemma terminal_output_shown_witness : ∃ t s cols_ rows_, (shows t s ∧ term_ok cols_ rows_ s) ∧
  ∃ t' s', flanterm_write [72; 105; 10] t = Some (tt, t') ∧ flanterm_write [72; 105; 10] s = Some (tt, s') ∧ shows t' s' ∧ term_ok cols_ rows_ s' ∧
    (autoflush (ctx s') = true → displays (config (back t')) cols_ rows_ (framebuffer (back t')) (flushed s')).
Proof.
  assert (video_mode_ok 1024 768 4096 8 8 8) as Hm by (unfold video_mode_ok; change (4096 / 4) with 1024; lia).
  destruct (proj1 (wp_run _ _ _) (kernel_terminal_spec 0x1000 0xfd000000 1024 768 4096 8 16 8 8 8 0 ∅ Hm))
    as (r & st & _ & held & t & _ & _ & _ & _ & _ & Hs & Ht & _).
  eexists t, _, _, _. split; [split; [exact Hs|exact Ht]|].
  apply (terminal_output_shown [72; 105; 10] _ _ _ _ Hs Ht).
Defined.

(** ** The kernel's terminal *)

(** The kernel's output: one buffer after the other. *)
Fixpoint write_all {B} `{Backend B} (bufs : list (list Z)) : M (flanterm B) unit :=
  match bufs with [] => mret tt | buf :: bufs => flanterm_write buf;; write_all bufs end.

Lemma write_all_spec bufs t s cols_ rows_ : shows t s → term_ok cols_ rows_ s → (autoflush (ctx s) = true → shown (back s) = flushed s) →
  ∃ t' s', write_all bufs t = Some (tt, t') ∧ write_all bufs s = Some (tt, s') ∧ shows t' s' ∧ config (back t') = config (back t) ∧
    ctx_ok cols_ rows_ (ctx s') ∧ (autoflush (ctx s') = true → displays (config (back t')) cols_ rows_ (framebuffer (back t')) (flushed s')).
Proof.
  revert t s. induction bufs as [|buf bufs IH]; intros t s Hs Ht Hf; cbn [write_all].
  - exists t, s. split_and!; try done; [apply Ht|]. intros Ha. rewrite <- (Hf Ha). destruct (t_ctx _ _ _ Ht) as [<- <- _ _ _ _ _ _ _ _ _ _ _].
    apply (sh_pix _ _ Hs).
  - destruct (terminal_output_spec buf t s cols_ rows_ Hs Ht) as (t1 & s1 & E1 & E2 & Hs1 & Ht1 & _).
    unfold bind. rewrite E1, E2, <- (write_config _ _ _ E1). apply IH; [done|done|]. by apply (screen_write_flushes _ _ _ E2).
Qed.

Lemma flushed_codes s x y : 0 <= ch (cells (back s) x y) < 256 → 0 <= ch (flushed s x y) < 256.
Proof. unfold flushed, with_cursor. by destruct (_ && _). Qed.

(** C14: [flanterm_fb_init], called the way the kernel calls it, succeeds on
    every screen of at least 9 by 16 pixels whose pixels are words, whose lines
    lie a multiple of four bytes apart and hold their pixels, and whose three
    colour fields have one size of eight bits or more: the static pool holds all
    of its structures, one behind the other, and whatever the kernel prints from
    then on, buffer after buffer, the pixels from [address] on show what the
    specified terminal shows, with the glyphs of the built-in font, scaled for
    large screens, in a window of at most 1920 by 1200 pixels in the middle of
    the screen, and in the colours at the places the boot loader reports. *)
Theorem kernel_terminal_works pool address width height pitch red red_shift green green_shift blue blue_shift video :
  video_mode_ok width height pitch red green blue → pitch mod 4 = 0 →
  wp (flanterm_fb_init pool (kernel_terminal address width height pitch red red_shift green green_shift blue blue_shift) video)
    (λ r st, ∃ held t, r = Some (held, t) ∧
       stacked pool (pool + bump_alloc_ptr st) held ∧ bump_alloc_ptr st <= FLANTERM_FB_BUMP_ALLOC_POOL_SIZE ∧
       ∀ bufs, ∃ t' s', write_all bufs t = Some (tt, t') ∧
         write_all bufs (mk_flanterm (start_context (text_rows width height) (text_columns width height))
           (monitor_screen red red_shift green green_shift blue blue_shift)) = Some (tt, s') ∧ shows t' s' ∧
         (autoflush (ctx s') = true → monitor_shows address width height pitch (framebuffer (back t')) (flushed s')))
    (mk_alloc 0 false false ()).
Proof.
  intros Hm H4. eapply wp_mono; [by apply kernel_terminal_spec|].
  intros r st (held & t & -> & _ & Hp & Hst & Hc & Hs & Ht & Hd). specialize (Hd H4).
  exists held, t. split; [done|]. split; [done|]. split; [done|]. intros bufs. rewrite Hc in Hs, Ht.
  destruct (write_all_spec bufs _ _ _ _ Hs Ht) as (t' & s' & E1 & E2 & Hs' & Ecfg & Hok & Hd'); [done|].
  exists t', s'. split_and!; [done..|]. intros Ha. specialize (Hd' Ha). rewrite Ecfg in Hd'. apply (Hd _ _); [|exact Hd'].
  intros x y Hxy. apply flushed_codes, (sh_codes _ _ Hs'). destruct Hok as [-> -> _ _ _ _ _ _ _ _ _ _ _]. exact Hxy.
Qed.

Lemma kernel_terminal_works_witness : (video_mode_ok 1024 768 4096 8 8 8 ∧ 4096 mod 4 = 0) ∧
  wp (flanterm_fb_init 0x1000 (kernel_terminal 0xfd000000 1024 768 4096 8 16 8 8 8 0) ∅)
    (λ r st, ∃ held t, r = Some (held, t) ∧
       stacked 0x1000 (0x1000 + bump_alloc_ptr st) held ∧ bump_alloc_ptr st <= FLANTERM_FB_BUMP_ALLOC_POOL_SIZE ∧
       ∀ bufs, ∃ t' s', write_all bufs t = Some (tt, t') ∧
         write_all bufs (mk_flanterm (start_context 48 113) (monitor_screen 8 16 8 8 8 0)) = Some (tt, s') ∧ shows t' s' ∧
         (autoflush (ctx s') = true → monitor_shows 0xfd000000 1024 768 4096 (framebuffer (back t')) (flushed s')))
    (mk_alloc 0 false false ()).
Proof.
  assert (video_mode_ok 1024 768 4096 8 8 8) as Hm by (unfold video_mode_ok; change (4096 / 4) with 1024; lia).
  split; [split; [exact Hm|reflexivity]|].
  apply (kernel_terminal_works 0x1000 0xfd000000 1024 768 4096 8 16 8 8 8 0 ∅ Hm eq_refl).
Defined.

(** ** Text *)

(** A small screen, for the witnesses. *)
Definition demo : flanterm screen :=
  mk_flanterm (start_context 25 80)
    (mk_screen (mk_palette default_colours default_bright_colours (λ c, c) 0xaaaaaa 0xffffff 0x555555)
       (λ _ _, mk_char 32 0xaaaaaa NO_COLOUR) (λ _ _, mk_char 32 0xaaaaaa NO_COLOUR) 0 0 0xaaaaaa NO_COLOUR 0 0 0 0).

Lemma demo_ground : ground (ctx demo).
Proof. by split. Qed.
Lemma demo_no_sequence : no_sequence (ctx demo).
Proof. by split. Qed.

(** C23: the bytes UTF-8 encodes a character in are decoded to that character,
    over every back end and in every state between characters; nothing else is
    done. *)
Theorem utf8_decoded {B} `{Backend B} cp (s : flanterm B) : 0x80 <= cp < 0x200000 → discard_next (ctx s) = false → unicode_remaining (ctx s) = 0 →
  put_all (utf8 cp) s = put_code_point cp (decoding cp 0 s).
Proof. apply utf8_spec. Qed.

Lemma utf8_decoded_witness : (0x80 <= 0x2592 < 0x200000 ∧ utf8 0x2592 = [0xe2; 0x96; 0x92]) ∧
  put_all (utf8 0x2592) demo = put_code_point 0x2592 (decoding 0x2592 0 demo).
Proof. split; [split; [lia|reflexivity]|apply (utf8_decoded 0x2592 demo); [lia|reflexivity|reflexivity]]. Defined.

(** C25: printable characters that fit in their line take its cells from the
    cursor on, in the current colours; every other cell keeps its contents, and
    the cursor is behind them. *)
Theorem text_written text s : ground (ctx s) → Forall printable text → 0 <= cur_x (back s) →
  cur_x (back s) + Z.of_nat (length text) <= cols (ctx s) < 2 ^ 31 →
  wp (put_all text) (λ _ s', ctx s' = ctx s ∧
    cur_x (back s') = cur_x (back s) + Z.of_nat (length text) ∧ cur_y (back s') = cur_y (back s) ∧
    ∀ x y, cells (back s') x y =
      match zlookup text (x - cur_x (back s)) with
      | Some c => if y =? cur_y (back s) then mk_char c (now_fg (back s)) (now_bg (back s)) else cells (back s) x y
      | None => cells (back s) x y
      end) s.
Proof.
  intros Hg Ht Hx Hl. apply printable_text_spec; [done..|]. intros b Hc Hb. split; [done|].
  cbn [back]. rewrite Hb at 1 2. cbn. split; [done|]. split; [done|]. exact Hc.
Qed.

Lemma text_written_witness : Forall printable [72; 105] ∧
  wp (put_all [72; 105]) (λ _ s', ctx s' = ctx demo ∧
    cur_x (back s') = cur_x (back demo) + Z.of_nat (length [72; 105]) ∧ cur_y (back s') = cur_y (back demo) ∧
    ∀ x y, cells (back s') x y =
      match zlookup [72; 105] (x - cur_x (back demo)) with
      | Some c => if y =? cur_y (back demo) then mk_char c (now_fg (back demo)) (now_bg (back demo)) else cells (back demo) x y
      | None => cells (back demo) x y
      end) demo.
Proof.
  assert (Forall printable [72; 105]) as Ht by (repeat constructor; done). split; [exact Ht|].
  apply (text_written [72; 105] demo demo_ground Ht); cbn; lia.
Defined.

(** C24: the sequence ESC, left bracket, row, semicolon, column, [H], with any
    decimal numerals for a place on the screen, moves the cursor there; picture
    and colours stay, and the terminal is between characters again. *)
Theorem cursor_positioned row column s : ground (ctx s) → no_sequence (ctx s) → Forall digit row → Forall digit column → row ≠ [] → column ≠ [] →
  1 <= number row <= rows (ctx s) → 1 <= number column <= cols (ctx s) → rows (ctx s) < 2 ^ 31 → cols (ctx s) < 2 ^ 31 →
  wp (put_all (CUP row column)) (λ _ s', ground (ctx s') ∧ no_sequence (ctx s') ∧
    back s' = set_cur (number column - 1) (number row - 1) (back s)) s.
Proof.
  intros Hg Hn H1 H2 H3 H4 H5 H6 H7 H8. apply cursor_position_spec; [done..|]. intros off vs.
  destruct Hg as [? ? ? ? ? ?], Hn as [? ? ?]. split_and!; [by split|by split|done].
Qed.

Lemma cursor_positioned_witness : (CUP [49; 50] [55] = [0x1b; 0x5b; 49; 50; 59; 55; 72] ∧ number [49; 50] = 12) ∧
  wp (put_all (CUP [49; 50] [55])) (λ _ s', ground (ctx s') ∧ no_sequence (ctx s') ∧
    back s' = set_cur (number [55] - 1) (number [49; 50] - 1) (back demo)) demo.
Proof.
  split; [split; reflexivity|]. apply (cursor_positioned [49; 50] [55] demo demo_ground demo_no_sequence).
  - repeat constructor; done.
  - repeat constructor; done.
  - discriminate.
  - discriminate.
  - cbn; lia.
  - cbn; lia.
  - cbn; lia.
  - cbn; lia.
Defined.

(** ** What the source does and does not mean to *)

(** After an unsupported sequence ([x] ends it) the bytes up to the next letter
    are lost, and the screen does not scroll any more. *)
Example unsupported_sequence :
  option_map (λ '(_, s), (scroll_enabled (ctx s), cur_x (back s), ch (cells (back s) 0 0))) (put_all [0x1b; 0x5b; 120; 97; 98] demo) =
  Some (false, 1, 98).
Proof. vm_compute. reflexivity. Qed.

(** A private sequence that was cancelled makes the next sequence private: the
    screen is not cleared. *)
Example cancelled_private_sequence :
  option_map (λ '(_, s), ch (cells (back s) 0 0)) (put_all [97; 0x1b; 0x5b; 0x3f; 0x18; 0x1b; 0x5b; 50; 74] demo) = Some 97 ∧
  option_map (λ '(_, s), ch (cells (back s) 0 0)) (put_all [97; 0x1b; 0x5b; 50; 74] demo) = Some 32.
Proof. split; vm_compute; reflexivity. Qed.

(** Erasing to the cursor leaves the cell of the cursor in its line. *)
Example erase_line_to_cursor :
  option_map (λ '(_, s), (ch (cells (back s) 0 0), ch (cells (back s) 1 0)))
    (put_all [97; 98; 8; 0x1b; 0x5b; 49; 75] demo) = Some (32, 98).
Proof. vm_compute. reflexivity. Qed.

(** Deleting a line deletes the first one, not that of the cursor. *)
Example delete_line_of_cursor :
  option_map (λ '(_, s), (ch (cells (back s) 0 0), ch (cells (back s) 0 1)))
    (put_all [97; 10; 98; 0x1b; 0x5b; 77] demo) = Some (98, 32).
Proof. vm_compute. reflexivity. Qed.
